(* ===== verification/_CoqProject ===== *)
-Q . S2P
Prelude.v
GoStrings.v
Sha256.v
GoTime.v
GoJson.v
RunTypes.v
RunStates.v
RunOutbox.v
RunKernel.v
RunSweeps.v
RunInvariant.v
RunOps.v
RunAdvance.v
RunMaint.v
RunEffect.v
RunCalls.v
RunStable.v
RunTrace.v
RunTamper.v
RunExamples.v
RunTheorems.v
RunCallTheorems.v
RunSweepTheorems.v
EvTypes.v
EvEvents.v
EvKernel.v
EvRetain.v
EvGraph.v
EvReports.v
EvFrame.v
EvChain.v
EvIngest.v
EvRebuild.v
EvSweep.v
EvDerived.v
EvTrace.v
EvClosure.v
EvExamples.v
EvIngestTheorems.v
EvTheorems.v
EvGraphTheorems.v
EvLedger.v
DecTypes.v
DecJson.v
DecPolicy.v
DecContracts.v
DecKernel.v
DecRuntime.v
DecAdmission.v
DecPending.v
DecApproval.v
DecFrame.v
DecInvariant.v
DecTrace.v
DecEval.v
DecExamples.v
DecTheorems.v
DecGateTheorems.v
DecEvalTheorems.v
DecApprovalTheorems.v
DecPolicyTheorems.v
DecSteady.v
CtlTypes.v
CtlContracts.v
CtlFeatures.v
CtlHealth.v
CtlInvariant.v
CtlStore.v
CtlExamples.v
CtlContractTheorems.v
CtlUseTheorems.v
CtlRegistryTheorems.v
CtlGraphTheorems.v
CtlMatrixTheorems.v
CtlWatch.v
ApiSync.v
ApiHandlers.v
ApiTheorems.v
ApiSystem.v
ApiExamples.v
