(* ===== verification/Prelude.v ===== *)
(** * Agent Infra System: verification development (root file)

    The program is a Go service that governs agent runs.  Its core is made of
    three kernels, each a mutex around maps: the Run kernel
    ([src/internal/run]) drives the state machine of runs, the Evidence kernel
    ([src/internal/evidence]) ingests and keeps evidence events, the Decision
    service ([src/internal/decision]) evaluates and confirms decisions.  The
    HTTP layer ([src/internal/httpapi]) exposes them and copies their outboxes
    to the Evidence kernel; the Run kernel asks the Decision service through an
    interface.

    ** How the model reads

    One exported method is one function from the state to the state and the
    result; the mutex is the atomicity of a call, and a history is a sequence
    of calls ([RunTrace.exec], [EvTrace.exec]).  The clock is an argument of
    each call ([now]; [now2] where the code reads it twice).  A Go map is a
    [gmap]; a loop over a map visits it in the order of the class
    [Prelude.MapRange], any permutation of its entries, so what is proved holds
    for every iteration order.  An [error] is [Prelude.result].  [int] and
    [int64] are integers with [wrap_int64] where the code computes on them,
    durations saturate as [time.Sub] does, [float64] is the specification of
    binary64.  The kernels see each other through ports (records and functions
    that the proofs about one kernel quantify over, and that [ApiSync]
    instantiates).  What is not in the repository is a parameter: the decoders
    of request bodies, the external attestor (a function
    in the configuration), [json.Marshaler] values and [url.Parse] (classes).

    ** The files

    - [Prelude]: results, machine integers, map visits, lists, tactics and the
      hint databases.  [GoStrings], [GoTime], [GoJson], [Sha256]: the parts of
      Go's [strings], [time], [encoding/json] and [crypto/sha256] the code
      calls, executable and checked on known values.
    - Run kernel, data and operations: [RunTypes] (types.go), [RunStates] (the
      transition table and the abstract machine), [RunOutbox] (emit, trim,
      enforcement of decision obligations), [RunKernel] (create, advance, park,
      resume, abort, lookups), [RunSweeps] (TTL and zombie sweeps,
      maintenance), all of kernel.go.
    - Run kernel, proofs: [RunInvariant], [RunOps], [RunAdvance], [RunMaint],
      [RunEffect], [RunStable] (the invariant and the effect of each
      operation), [RunTrace] (histories, the outbox as a queue), [RunCalls],
      [RunTamper] (the lemmas behind the theorems), [RunExamples] (a concrete
      history), [RunTheorems], [RunCallTheorems], [RunSweepTheorems] (the
      theorems and their witnesses).
    - Evidence kernel, data and operations: [EvTypes] (types.go), [EvEvents]
      (normalisation, canonical events, hashes), [EvKernel] (construction,
      registration, backpressure, chains, logs, graph, ledger, ingestion),
      [EvRetain] (reindexing, deletion by data subject, archives, retention),
      [EvGraph] (completeness, critical path, root-cause packs), [EvReports]
      (verification, anchors, exports, replay packs, aggregation, metrics):
      all of kernel.go.
    - Evidence kernel, proofs: [EvFrame] (what each primitive leaves alone),
      [EvChain] (event order, hash chains, the invariant of the stored
      events), [EvIngest], [EvRebuild], [EvSweep] (what ingestion, reindexing,
      deletion and retention compute, and that they keep the invariant),
      [EvDerived] (graph, logs and ledger as folds of the events), [EvTrace]
      (histories and the whole invariant), [EvClosure] (the graph searches and
      the recorded graph), [EvExamples] (a concrete history),
      [EvIngestTheorems], [EvTheorems], [EvGraphTheorems], [EvLedger] (the
      theorems and their witnesses).
    - Decision service, data and operations: [DecTypes] (types.go), [DecJson]
      (the hashed encodings), [DecPolicy] (the rules that read no state: validation, policies,
      obligations, quotas), [DecContracts] (the lookup of the feature contract, its
      candidates, the store and the decoding of its document), [DecKernel]
      (events, records, pending decisions), [DecRuntime] (the runtime
      evaluation, its gates and its finalisation), [DecAdmission] (schedule admission, dispatch
      tickets, execution receipts, release), [DecPending] (confirmation, gates,
      repair, cleanup), [DecApproval] (approval cases): service.go,
      contract_store.go and the parts of contract_runtime.go they call.
    - Decision service, proofs: [DecFrame] (what each operation leaves alone),
      [DecInvariant] (the invariant, the machine of one pending decision),
      [DecTrace] (histories), [DecEval] (what an evaluation answers),
      [DecSteady] (the calls that leave the contracts alone),
      [DecExamples] (a concrete history), [DecTheorems], [DecGateTheorems],
      [DecEvalTheorems], [DecApprovalTheorems], [DecPolicyTheorems].
    - Control plane, data and operations: [CtlTypes], [CtlContracts] (publish,
      roll back, activation, persistence, the activation scheduler),
      [CtlFeatures] (the feature registry, snapshots, the dependency graph),
      [CtlHealth] (health of the approval organisation, remediation, the
      enforcement matrix): control_plane.go.
    - Control plane, proofs: [CtlInvariant] (the contracts of one service, the
      registries), [CtlStore] (the interface [StoreLaws] of a contract store,
      its in-memory instance, several services over one store),
      [CtlExamples] (concrete histories, some of which show where the code
      and its intent part), [CtlContractTheorems], [CtlUseTheorems],
      [CtlRegistryTheorems], [CtlGraphTheorems], [CtlMatrixTheorems] (the
      theorems and their witnesses).
    - Watched store and workers: [CtlWatch], contract_store.go with its
      channels and contract_runtime.go with its goroutines, the services over
      one watched store, and why their caches converge.
    - HTTP API and command: [ApiSync] (the ports between the kernels, the
      router's state, the copy of the outboxes to the Evidence kernel), [ApiHandlers]
      (requests, answers, the multiplexer, every handler): router.go; main.go.
      [ApiTheorems] (the copy), [ApiSystem] (what the ports promise across the
      kernels, the type of answers, the invariant and the refinement of the
      whole server along any requests), [ApiExamples] (a server from its first
      request to a resumed approval, and the witnesses).

    ** What the theorems show

    Run kernel: every reachable state satisfies the invariant and refines the
    abstract state machine; an advance is accepted exactly under its
    conditions, with its exact effect, and a failed one commits nothing;
    quarantine and terminal states are permanent; the step chain is tamper
    evident; retries, creation and tokens are idempotent or single-use; what
    sweeps and maintenance keep; the outbox is a queue.

    Evidence kernel: every reachable state satisfies the invariant, whatever
    the map orders; the ingestion table, its idempotence, its refusals and
    what it never drops; the chain is tamper evident, and verification
    succeeds exactly on runs stored in sorted order, hence always after a
    retention sweep; the decision logs are a fold of the stored events; what
    deletion and retention keep, move and report, event by event; deletion
    leaves no payload in its scope (a tenant's, of one run or payload prefix
    if given) in the hot store or in replay packs; the completeness verdict
    equals its meaning; the ancestor search terminates; bounds of the
    critical path, versions of decision logs, and the ledger report.

    Decision service: every reachable state satisfies the invariant and each
    pending decision evolves along the abstract machine; what a confirmation
    requires and does, and that a receipt is accepted for exactly the
    decision it was issued for; the verdict of an evaluation, stage by stage;
    a degradation plan never relaxes an obligation; policy obligations are at
    least as strong as each matching rule; retries end; the lookup returns the
    most specific contract; an approval ticket is resolved once.

    Control plane: whatever the history of services over one store, every
    lineage has at most one active version, its versions are distinct and
    numbered, and evaluations use what was published last; the effect of a
    publication and of a rollback, on the store and on the service, failures
    included; which contracts the scheduler activates; the feature registry
    is consistent along any history of calls; the dependency graph is
    complete; when a snapshot is fresh; when the enforcement matrix escalates,
    and what remediation changes.

    Watched store: the store with its channels satisfies the interface the
    services rely on, whatever races with a put; a watched service never runs
    ahead of the store and, once its watcher has caught up, has exactly its
    contracts; a worker whose starts wait for the last exit is single and can
    be stopped.

    HTTP API and the kernels together: after any requests to a new server
    every kernel satisfies its invariant, and the requests only make runs and
    decisions follow their machines; an advance the server accepts is backed
    by a confirmed decision and a live ticket; an approval resumes its run and
    confirms its decision, or does neither; the copy of the outboxes loses
    none of their events, and offers each once while the window holds what it
    still needs; reads do not write, refused requests
    change nothing, and each endpoint answers its own type.

    ** Bounds and fuel

    The run identifier counter wraps at 2^64: the Run theorems are about
    histories of fewer calls, those about the server of fewer than [max_int64]
    requests, those about the watched store of fewer than 2^64 revisions.
    Tamper evidence is about what the hashes cover, up to an explicit SHA-256
    collision: for ASCII strings in the Run kernel, and up to the joined text in
    the Evidence kernel (up to its fields when they hold no separator).  The
    ancestor search takes one unit of fuel per edge and one for the start
    ([EvGraphTheorems.closure_terminates] shows more changes nothing); the
    critical path has the source's own bound of 32 nodes; the retry loop of
    the scheduler and of the evaluation have the source's bounds; parsers and
    printers recurse on their input.

    ** Not modelled

    Of the HTTP API: the text of requests and answers ([encoding/json]:
    decoding is the class [Decoders] of [ApiHandlers], an answer is the value
    that is encoded), percent escapes in paths, nil kernels, what [net/http]
    adds; one request is one step.  Of the store: a cancelled context given to
    a read or a write.  Of the control plane: calls that interleave inside one
    publication (it holds the mutex except around the store's write).
    Within the modelled kernels: locks, [Clock]
    fields (the clock is an argument), the copies made by clone functions
    (values are immutable here) and the sharing of a returned ticket with the
    table, the text of [Error()], the order of equal elements in unstable
    sorts (identifiers are distinct where it could matter; [sort.Slice] is an
    insertion sort up to twelve elements), case mapping outside ASCII,
    conversions of NaN to integers, and the order in which [json] omits a
    negative zero. *)

From stdpp Require Export base tactics list gmap strings sorting pretty.
From Stdlib Require Export ZArith Lia.

#[global] Open Scope Z_scope.

(** ** Results: the Go pair [(T, error)] *)

Declare Scope go_scope.
Delimit Scope go_scope with go.
#[global] Open Scope go_scope.

Inductive result (E A : Type) : Type :=
| Ok (a : A)
| Err (e : E).
Arguments Ok {E A} a.
Arguments Err {E A} e.

Definition isOk {E A} (r : result E A) : bool :=
  match r with Ok _ => true | Err _ => false end.

(** ** Machine integers *)

(** Go's [int]/[int64] and [uint64] arithmetic wraps around. *)
Definition max_int64 : Z := 2 ^ 63 - 1.
Definition min_int64 : Z := - 2 ^ 63.
Definition wrap_int64 (z : Z) : Z := (z + 2 ^ 63) mod 2 ^ 64 - 2 ^ 63.
Definition wrap_uint64 (z : Z) : Z := z mod 2 ^ 64.
Definition in_int64 (z : Z) : Prop := min_int64 <= z <= max_int64.

Lemma wrap_int64_range z : in_int64 (wrap_int64 z).
Proof.
  unfold in_int64, wrap_int64, min_int64, max_int64.
  pose proof (Z.mod_pos_bound (z + 2 ^ 63) (2 ^ 64) ltac:(lia)). lia.
Qed.

Lemma wrap_int64_id z : in_int64 z -> wrap_int64 z = z.
Proof.
  unfold in_int64, wrap_int64, min_int64, max_int64; intros H.
  rewrite Z.mod_small; lia.
Qed.

Lemma wrap_int64_succ z : min_int64 <= z < max_int64 -> wrap_int64 (z + 1) = z + 1.
Proof. intros H. apply wrap_int64_id. unfold in_int64, min_int64, max_int64 in *. lia. Qed.

Lemma wrap_int64_max : wrap_int64 (max_int64 + 1) = min_int64.
Proof. reflexivity. Qed.

Lemma wrap_uint64_id z : 0 <= z < 2 ^ 64 -> wrap_uint64 z = z.
Proof. apply Z.mod_small. Qed.

Lemma wrap_uint64_range z : 0 <= wrap_uint64 z < 2 ^ 64.
Proof. apply Z.mod_pos_bound. lia. Qed.

Lemma wrap_uint64_le z : 0 <= z -> wrap_uint64 z <= z.
Proof. intros. by apply Z.mod_le. Qed.

Lemma wrap_uint64_idem z : wrap_uint64 (wrap_uint64 z) = wrap_uint64 z.
Proof. apply Zmod_mod. Qed.

Lemma wrap_uint64_add a b : wrap_uint64 (wrap_uint64 a + b) = wrap_uint64 (a + b).
Proof. apply Zplus_mod_idemp_l. Qed.

Lemma wrap_int64_add a b : wrap_int64 (wrap_int64 a + b) = wrap_int64 (a + b).
Proof.
  unfold wrap_int64. f_equal.
  replace ((a + 2 ^ 63) mod 2 ^ 64 - 2 ^ 63 + b + 2 ^ 63) with ((a + 2 ^ 63) mod 2 ^ 64 + b) by lia.
  rewrite Zplus_mod_idemp_l. f_equal. lia.
Qed.

#[global] Opaque wrap_int64 wrap_uint64.

(** ** Tactics of the development *)

(** [invc H] inverts an equation or a predicate and substitutes. *)
Ltac invc H := inversion H; subst; clear H.

(** [pair_inv E] reads an equation between tuples without reducing the
    components (as [injection] would), and substitutes the variables. *)
Lemma pair_inv_eq {A B} (a c : A) (b d : B) : (a, b) = (c, d) -> a = c /\ b = d.
Proof. by intros [= -> ->]. Qed.
Ltac pair_inv E :=
  let E2 := fresh E in
  apply pair_inv_eq in E as [E E2];
  first [subst_var E2 | idtac]; first [pair_inv E | subst_var E | idtac]
with subst_var E :=
  match type of E with
  | _ = ?y => is_var y; subst y
  | ?x = _ => is_var x; subst x
  end.

(** Split the conditionals and matches of the goal (or of a hypothesis), one
    at a time, keeping the tested equation and closing the absurd branches. *)
Ltac split_match :=
  match goal with
  | |- context [match ?x with _ => _ end] =>
      lazymatch x with
      | context [match _ with _ => _ end] => fail
      | _ => destruct x eqn:?
      end
  end; simplify_eq.
Ltac split_match_in H :=
  match type of H with
  | context [match ?x with _ => _ end] =>
      lazymatch x with
      | context [match _ with _ => _ end] => fail
      | _ => destruct x eqn:?
      end
  end; simplify_eq.
Ltac split_all := repeat (split_match; simpl in *).
Ltac split_all_in H := repeat (split_match_in H; simpl in *).

(** Boolean tests of the source turned into propositions. *)
Ltac bool_hyps :=
  repeat match goal with
  | H : andb _ _ = true |- _ => apply andb_true_iff in H; destruct H
  | H : orb _ _ = false |- _ => apply orb_false_iff in H; destruct H
  | H : negb _ = true |- _ => apply negb_true_iff in H
  | H : negb _ = false |- _ => apply negb_false_iff in H
  | H : (_ =? _)%string = true |- _ => apply String.eqb_eq in H
  | H : (_ =? _)%string = false |- _ => apply String.eqb_neq in H
  | H : (_ =? _) = true |- _ => apply Z.eqb_eq in H
  | H : (_ =? _) = false |- _ => apply Z.eqb_neq in H
  | H : (_ <=? _) = true |- _ => apply Z.leb_le in H
  | H : (_ <=? _) = false |- _ => apply Z.leb_gt in H
  | H : (_ <? _) = true |- _ => apply Z.ltb_lt in H
  | H : (_ <? _) = false |- _ => apply Z.ltb_ge in H
  end.

Create HintDb go.
Create Rewrite HintDb go_simpl.
Create Rewrite HintDb go_frame.
Create Rewrite HintDb ev_frame.
Create HintDb dec.

(** ** Ranging over a Go map

    [for k, v := range m] visits the entries in an unspecified order.  The
    class gives one enumeration per map and the only thing the language
    promises of it: it lists exactly the entries of the map.  Everything is
    proved for an arbitrary instance. *)

Class MapRange := {
  range_map : forall {V : Type}, gmap string V -> list (string * V);
  range_map_perm : forall {V : Type} (m : gmap string V), range_map m ≡ₚ map_to_list m
}.

#[export] Instance canonical_range : MapRange :=
  {| range_map := fun V m => map_to_list m; range_map_perm := fun V m => reflexivity _ |}.

Section Range.
Context `{MapRange} {V : Type}.
Implicit Types (m : gmap string V) (f : string -> V -> option V).

Lemma range_map_elem m k v : (k, v) ∈ range_map m <-> m !! k = Some v.
Proof. rewrite range_map_perm. apply elem_of_map_to_list. Qed.

Lemma range_map_nodup m : NoDup (range_map m).*1.
Proof. rewrite range_map_perm. apply NoDup_fst_map_to_list. Qed.

Lemma range_map_length m : length (range_map m) = size m.
Proof. rewrite range_map_perm. apply length_map_to_list. Qed.

(** The loop: the body sees the accumulated state, the key and the value. *)
Definition go_range {S : Type} (body : S -> string -> V -> S) (s : S) m : S :=
  foldl (fun s kv => body s kv.1 kv.2) s (range_map m).

(** Loops that only rewrite or delete the entry they visit. *)
Definition upd_entry f (acc : gmap string V) (k : string) (v : V) : gmap string V :=
  match f k v with Some v' => <[k := v']> acc | None => delete k acc end.

Lemma lookup_upd_entry f acc k v i :
  upd_entry f acc k v !! i = if decide (i = k) then f k v else acc !! i.
Proof.
  unfold upd_entry. destruct (decide (i = k)) as [->|Hne]; destruct (f k v);
    by simplify_map_eq.
Qed.

Lemma foldl_upd_entry f (l : list (string * V)) acc i :
  NoDup l.*1 ->
  foldl (fun s kv => upd_entry f s kv.1 kv.2) acc l !! i =
  match list_to_map (M := gmap string V) l !! i with
  | Some v => f i v
  | None => acc !! i
  end.
Proof.
  revert acc. induction l as [|[k v] l IH]; intros acc Hnd; [done|].
  simpl in Hnd. apply NoDup_cons in Hnd as [Hk Hnd].
  simpl. rewrite IH by done. rewrite lookup_upd_entry, lookup_insert.
  destruct (decide (k = i)) as [->|Hne].
  - apply not_elem_of_list_to_map_1 in Hk. rewrite Hk. by rewrite decide_True.
  - by rewrite decide_False by congruence.
Qed.

Lemma list_to_map_range m : list_to_map (range_map m) = m.
Proof.
  rewrite (list_to_map_proper _ _ (range_map_nodup m) (range_map_perm m)).
  apply list_to_map_to_list.
Qed.

(** Such a loop computes the pointwise update, whatever the order. *)
Lemma lookup_range_update f m i :
  go_range (upd_entry f) m m !! i = m !! i ≫= f i.
Proof.
  unfold go_range. rewrite foldl_upd_entry by apply range_map_nodup.
  rewrite list_to_map_range. by destruct (m !! i).
Qed.
End Range.

(** A loop with two independent accumulators is the two loops. *)
Lemma foldl_pair {S1 S2 A} (f : S1 -> A -> S1) (g : S2 -> A -> S2) l a b :
  foldl (fun '(s1, s2) x => (f s1 x, g s2 x)) (a, b) l = (foldl f a l, foldl g b l).
Proof. revert a b. induction l; simpl; auto. Qed.

(** ** Lists *)

(** [xs[len(xs)-n:]] of a slice with at least [n] elements. *)
Definition lastn {A} (n : nat) (l : list A) : list A := drop (length l - n) l.

Lemma lastn_length {A} n (l : list A) : length (lastn n l) = Nat.min n (length l).
Proof. unfold lastn. rewrite length_drop. lia. Qed.

Lemma lastn_suffix {A} n (l : list A) : exists p, l = p ++ lastn n l.
Proof. exists (take (length l - n) l). unfold lastn. by rewrite take_drop. Qed.

(** The leading elements satisfying a test, as an index loop computes them. *)
Fixpoint prefix_len {A} (p : A -> bool) (l : list A) : nat :=
  match l with
  | [] => 0
  | x :: l => if p x then S (prefix_len p l) else 0
  end%nat.

Lemma prefix_len_le {A} (p : A -> bool) l : (prefix_len p l <= length l)%nat.
Proof. induction l; simpl; [lia|]. destruct (p a); lia. Qed.

Lemma drop_prefix_len {A} (p : A -> bool) l x l' :
  drop (prefix_len p l) l = x :: l' -> p x = false.
Proof.
  induction l as [|y l IH]; simpl; [discriminate|].
  destruct (p y) eqn:E; simpl; [exact IH|]. by intros [= -> ->].
Qed.

(** Successive updates of a record, in the order of the source. *)
Notation "x |> f" := (f x) (at level 61, left associativity, only parsing) : go_scope.

(** Loops that delete or rewrite the visited entry and count deletions. *)
Section RangeCleanup.
Context `{MapRange} {V : Type}.
Implicit Types (m : gmap string V) (f : string -> V -> option V).

Definition cleanup_body f (s : gmap string V * Z) (k : string) (v : V) : gmap string V * Z :=
  (upd_entry f (fst s) k v, match f k v with None => snd s + 1 | Some _ => snd s end).

Definition range_cleanup f m : gmap string V * Z := go_range (cleanup_body f) (m, 0) m.

Lemma range_cleanup_fst f m : fst (range_cleanup f m) = go_range (upd_entry f) m m.
Proof.
  unfold range_cleanup, go_range. generalize m at 1 3, 0. intros acc n. revert acc n.
  induction (range_map m) as [|[k v] l IH]; intros acc n; simpl; [done|]. apply IH.
Qed.

Lemma lookup_range_cleanup f m i : fst (range_cleanup f m) !! i = m !! i ≫= f i.
Proof. rewrite range_cleanup_fst. apply lookup_range_update. Qed.

(** The loop computes the map that an enumeration-free description gives. *)
Lemma range_cleanup_imap f m : fst (range_cleanup f m) = map_imap f m.
Proof. apply map_eq. intros i. by rewrite lookup_range_cleanup, map_lookup_imap. Qed.

Lemma foldl_cleanup_snd f (l : list (string * V)) s :
  NoDup l.*1 ->
  snd (foldl (fun s kv => cleanup_body f s kv.1 kv.2) s l)
  = snd s + Z.of_nat (length l)
    - Z.of_nat (size (map_imap f (list_to_map (M := gmap string V) l))).
Proof.
  revert s. induction l as [|[k v] l IH]; intros s Hnd.
  { simpl. rewrite map_imap_empty, map_size_empty. lia. }
  simpl in Hnd. apply NoDup_cons in Hnd as [Hk Hnd]. simpl. rewrite IH by done.
  apply not_elem_of_list_to_map_1 in Hk.
  assert (map_imap f (list_to_map (M := gmap string V) l) !! k = None) as Hk'.
  { by rewrite map_lookup_imap, Hk. }
  unfold cleanup_body; simpl. destruct (f k v) as [v'|] eqn:E.
  - rewrite (map_imap_insert_Some f k v) with (y := v') by done.
    rewrite map_size_insert_None by done. lia.
  - rewrite (map_imap_insert_None f k v) by done. rewrite delete_id by done. lia.
Qed.

Lemma range_cleanup_snd f m :
  snd (range_cleanup f m) = Z.of_nat (size m) - Z.of_nat (size (map_imap f m)).
Proof.
  unfold range_cleanup, go_range. rewrite foldl_cleanup_snd by apply range_map_nodup.
  rewrite list_to_map_range, range_map_length. simpl. lia.
Qed.
End RangeCleanup.
