(* ===== verification/GoStrings.v ===== *)
(** * The parts of Go's [strings], [strconv] and [fmt] the kernels use

    A Go string is a sequence of bytes: [string], read as [list ascii] by
    [bytes].  [TrimSpace] is exact: it strips every encoding of a Unicode
    white-space rune.  [ToLower]/[ToUpper]/[EqualFold] map the ASCII letters
    and the non-ASCII runes whose image is an ASCII letter (U+0130 and U+212A
    for lower case, U+0131 and U+017F for upper case), so every comparison with
    an ASCII constant, which is what the kernels do with the result, is exact;
    the case of the other runes is left alone. *)

From S2P Require Import Prelude.
From Stdlib Require Import Ascii String HexadecimalN HexadecimalString.

#[local] Open Scope string_scope.
#[local] Abbreviation length := List.length.

Abbreviation bytes := String.list_ascii_of_string.
Abbreviation str := String.string_of_list_ascii.

Definition code (c : ascii) : N := Ascii.N_of_ascii c.
Definition chr (n : N) : ascii := Ascii.ascii_of_N n.

Lemma code_inj c d : code c = code d -> c = d.
Proof.
  unfold code. intros E. rewrite <- (Ascii.ascii_N_embedding c), E.
  apply Ascii.ascii_N_embedding.
Qed.

Lemma bytes_str l : bytes (str l) = l.
Proof. apply String.list_ascii_of_string_of_list_ascii. Qed.

Lemma str_bytes s : str (bytes s) = s.
Proof. apply String.string_of_list_ascii_of_string. Qed.

Lemma bytes_inj s t : bytes s = bytes t -> s = t.
Proof. intros E. by rewrite <- (str_bytes s), E, str_bytes. Qed.

Lemma bytes_app s t : bytes (s ++ t) = (bytes s ++ bytes t)%list.
Proof.
  induction s as [|a s IH]; [done|].
  change (a :: bytes (s ++ t) = a :: (bytes s ++ bytes t)%list). by rewrite IH.
Qed.

Lemma bytes_length s : length (bytes s) = String.length s.
Proof. induction s; cbn; congruence. Qed.

Lemma bytes_nil s : bytes s = [] -> s = "".
Proof. by destruct s. Qed.

(** [len(s)]. *)
Definition len (s : string) : Z := Z.of_nat (String.length s).

(** ** [strings.TrimSpace] *)

Definition is_ascii_space (n : N) : bool :=
  ((n =? 9) || (n =? 10) || (n =? 11) || (n =? 12) || (n =? 13) || (n =? 32))%N.

(** The two- and three-byte encodings of the other white-space runes: U+0085,
    U+00A0, U+1680, U+2000-U+200A, U+2028, U+2029, U+202F, U+205F, U+3000. *)
Definition is_space2 (a b : N) : bool := ((a =? 194) && ((b =? 133) || (b =? 160)))%N.
Definition is_space3 (a b c : N) : bool :=
  ((a =? 225) && (b =? 154) && (c =? 128)
   || (a =? 226) && (b =? 128) && ((128 <=? c) && (c <=? 138) || (c =? 168) || (c =? 169) || (c =? 175))
   || (a =? 226) && (b =? 129) && (c =? 159)
   || (a =? 227) && (b =? 128) && (c =? 128))%N.

(** Remove one white-space rune at the front, if there is one; at the back, on
    the reversed string, the bytes of a rune come in reverse. *)
Definition strip_gen (t2 : N -> N -> bool) (t3 : N -> N -> N -> bool) (l : list ascii)
  : option (list ascii) :=
  match l with
  | [] => None
  | a :: l1 =>
    if is_ascii_space (code a) then Some l1 else
    match l1 with
    | [] => None
    | b :: l2 =>
      if t2 (code a) (code b) then Some l2 else
      match l2 with
      | [] => None
      | c :: l3 => if t3 (code a) (code b) (code c) then Some l3 else None
      end
    end
  end.

Definition strip_space := strip_gen is_space2 is_space3.
Definition strip_space_rev :=
  strip_gen (fun a b => is_space2 b a) (fun a b c => is_space3 c b a).

Fixpoint strip_all (strip : list ascii -> option (list ascii)) (fuel : nat) (l : list ascii) : list ascii :=
  match fuel with
  | O => l
  | S fuel => match strip l with Some l' => strip_all strip fuel l' | None => l end
  end.

Definition trim_front (l : list ascii) : list ascii := strip_all strip_space (length l) l.
Definition trim_back (l : list ascii) : list ascii :=
  rev (strip_all strip_space_rev (length l) (rev l)).

Definition TrimSpace (s : string) : string := str (trim_back (trim_front (bytes s))).

(** ** Case mapping *)

Definition lower_byte (c : ascii) : ascii :=
  let n := code c in if ((65 <=? n) && (n <=? 90))%N then chr (n + 32) else c.
Definition upper_byte (c : ascii) : ascii :=
  let n := code c in if ((97 <=? n) && (n <=? 122))%N then chr (n - 32) else c.

Fixpoint to_upper (l : list ascii) : list ascii :=
  match l with
  | a :: ((b :: l2) as l1) =>
    if ((code a =? 196) && (code b =? 177))%N then "I"%char :: to_upper l2
    else if ((code a =? 197) && (code b =? 191))%N then "S"%char :: to_upper l2
    else upper_byte a :: to_upper l1
  | [a] => [upper_byte a]
  | [] => []
  end.

Fixpoint to_lower (l : list ascii) : list ascii :=
  match l with
  | a :: ((b :: l2) as l1) =>
    if ((code a =? 196) && (code b =? 176))%N then "i"%char :: to_lower l2
    else match l2 with
         | c :: l3 =>
           if ((code a =? 226) && (code b =? 132) && (code c =? 170))%N
           then "k"%char :: to_lower l3
           else lower_byte a :: to_lower l1
         | [] => lower_byte a :: to_lower l1
         end
  | [a] => [lower_byte a]
  | [] => []
  end.

(** Simple folding: U+212A folds with k, U+017F with s. *)
Fixpoint fold_case (l : list ascii) : list ascii :=
  match l with
  | a :: ((b :: l2) as l1) =>
    if ((code a =? 197) && (code b =? 191))%N then "s"%char :: fold_case l2
    else match l2 with
         | c :: l3 =>
           if ((code a =? 226) && (code b =? 132) && (code c =? 170))%N
           then "k"%char :: fold_case l3
           else lower_byte a :: fold_case l1
         | [] => lower_byte a :: fold_case l1
         end
  | [a] => [lower_byte a]
  | [] => []
  end.

Definition ToUpper (s : string) : string := str (to_upper (bytes s)).
Definition ToLower (s : string) : string := str (to_lower (bytes s)).
Definition EqualFold (s t : string) : bool :=
  (str (fold_case (bytes s)) =? str (fold_case (bytes t)))%string.

(** ** Searching and splitting *)

Definition HasPrefix (s p : string) : bool := String.prefix p s.

(** [strings.Contains]: the needle is a prefix of some suffix. *)
Fixpoint Contains (s sub : string) : bool :=
  String.prefix sub s || match s with String _ s' => Contains s' sub | EmptyString => false end.

(** [strings.Split] on a one-byte separator: never empty. *)
Fixpoint split_byte (sep : ascii) (cur : list ascii) (l : list ascii) : list string :=
  match l with
  | [] => [str (rev cur)]
  | c :: l => if Ascii.eqb c sep then str (rev cur) :: split_byte sep [] l
              else split_byte sep (c :: cur) l
  end.
Definition Split (s : string) (sep : ascii) : list string := split_byte sep [] (bytes s).

(** [strings.Trim(s, "/")] with a one-byte cutset. *)
Fixpoint drop_byte (c : ascii) (l : list ascii) : list ascii :=
  match l with
  | x :: l' => if Ascii.eqb x c then drop_byte c l' else l
  | [] => []
  end.
Definition Trim (s : string) (c : ascii) : string :=
  str (rev (drop_byte c (rev (drop_byte c (bytes s))))).

(** [strings.Join]. *)
Fixpoint Join (l : list string) (sep : string) : string :=
  match l with
  | [] => ""
  | [s] => s
  | s :: l => s ++ sep ++ Join l sep
  end.

(** [sort.Strings] sorts in the byte-wise order, which is total: the sorted
    permutation is unique. *)
Definition sort_Strings (l : list string) : list string := merge_sort String.le l.

(** A [switch] over string constants. *)
Definition one_of (s : string) (l : list string) : bool := existsb (String.eqb s) l.

Lemma one_of_In s l : one_of s l = true <-> In s l.
Proof.
  unfold one_of. rewrite existsb_exists. split.
  - intros (x & Hx & E). apply String.eqb_eq in E. by subst.
  - intros H. exists s. by rewrite String.eqb_refl.
Qed.

(** [strings.TrimSpace(s) == ""]. *)
Definition blank (s : string) : bool := (TrimSpace s =? "")%string.

(** ** Numbers *)

(** [%d]. *)
Definition fmt_d (z : Z) : string := pretty z.

(** [%08x] of an unsigned value. *)
Fixpoint pad_hex (n : nat) (u : Hexadecimal.uint) : Hexadecimal.uint :=
  match n with O => u | S n => Hexadecimal.D0 (pad_hex n u) end.
Definition fmt_08x (z : Z) : string :=
  let u := N.to_hex_uint (Z.to_N z) in
  NilEmpty.string_of_uint (pad_hex (8 - Hexadecimal.nb_digits u) u).

(** [strconv.Atoi]: an optional sign and decimal digits, an error when there is
    no digit, another byte, or the value does not fit 64 bits. *)
Fixpoint parse_digits (acc : Z) (l : list ascii) : option Z :=
  match l with
  | [] => Some acc
  | c :: l => let n := code c in
    if ((48 <=? n) && (n <=? 57))%N then parse_digits (acc * 10 + Z.of_N (n - 48)) l else None
  end.
Definition Atoi (s : string) : option Z :=
  let parse neg l :=
    match l with
    | [] => None
    | _ => match parse_digits 0 l with
           | Some z => let v := if (neg : bool) then - z else z in
                       if ((min_int64 <=? v) && (v <=? max_int64))%Z then Some v else None
           | None => None
           end
    end in
  match bytes s with
  | c :: l => if (code c =? 45)%N then parse true l
              else if (code c =? 43)%N then parse false l
              else parse false (c :: l)
  | [] => None
  end.

(** ** Facts about trimming *)

Lemma strip_gen_shorter t2 t3 l l' : strip_gen t2 t3 l = Some l' -> (length l' < length l)%nat.
Proof.
  destruct l as [|a [|b [|c l]]]; simpl; intros; simplify_eq; repeat split_match_in H; simpl; lia.
Qed.

Lemma strip_all_none (strip : list ascii -> option (list ascii)) fuel l :
  (forall l l', strip l = Some l' -> (length l' < length l)%nat) ->
  strip [] = None -> (length l <= fuel)%nat -> strip (strip_all strip fuel l) = None.
Proof.
  intros Hdec Hnil. revert l. induction fuel as [|fuel IH]; intros l Hl; simpl.
  - destruct l; [done|simpl in Hl; lia].
  - destruct (strip l) as [l'|] eqn:E; [|done]. apply IH. apply Hdec in E. lia.
Qed.

Lemma strip_all_id (strip : list ascii -> option (list ascii)) fuel l :
  strip l = None -> strip_all strip fuel l = l.
Proof. destruct fuel; simpl; [done|]. by intros ->. Qed.

(** A string neither end of which is white space. *)
Definition trimmed (s : string) : Prop :=
  strip_space (bytes s) = None /\ strip_space_rev (rev (bytes s)) = None.

Lemma TrimSpace_id s : trimmed s -> TrimSpace s = s.
Proof.
  intros [H1 H2]. unfold TrimSpace, trim_back, trim_front.
  rewrite (strip_all_id _ _ _ H1), (strip_all_id _ _ _ H2), rev_involutive.
  apply str_bytes.
Qed.

(** White space at the front is decided by a prefix, so it survives growth. *)
Lemma strip_space_app p q l : strip_space p = Some l -> is_Some (strip_space (p ++ q)%list).
Proof.
  unfold strip_space.
  destruct p as [|a [|b [|c p]]]; simpl; intros H; try done;
    repeat (split_match_in H; simpl in *); try done; repeat split_match; eauto.
Qed.

Lemma strip_all_suffix fuel l : exists p, l = (p ++ strip_all strip_space_rev fuel l)%list.
Proof.
  revert l. induction fuel as [|fuel IH]; intros l; simpl; [by exists []|].
  destruct (strip_space_rev l) as [l'|] eqn:E; [|by exists []].
  destruct (IH l') as [p Hp].
  assert (exists q, l = (q ++ l')%list) as [q ->].
  { destruct l as [|a [|b [|c l]]]; unfold strip_space_rev, strip_gen in E; simplify_eq; repeat split_match_in E;
      eexists; (by instantiate (1 := [_])) || (by instantiate (1 := [_; _]))
               || (by instantiate (1 := [_; _; _])). }
  exists (q ++ p)%list. rewrite <- app_assoc. by f_equal.
Qed.

Lemma TrimSpace_trimmed s : trimmed (TrimSpace s).
Proof.
  unfold trimmed, TrimSpace. rewrite bytes_str. unfold trim_back.
  set (l := trim_front (bytes s)).
  assert (strip_space l = None) as Hl.
  { apply strip_all_none; [intros ??; apply strip_gen_shorter|done|lia]. }
  split.
  - destruct (strip_all_suffix (length l) (rev l)) as [p Hp].
    set (t := strip_all _ _ _) in *.
    apply (f_equal (@rev ascii)) in Hp. rewrite rev_involutive, rev_app_distr in Hp.
    destruct (strip_space (rev t)) as [x|] eqn:E; [|done].
    destruct (strip_space_app _ (rev p) _ E) as [y Hy]. congruence.
  - rewrite rev_involutive. apply strip_all_none; [intros ??; apply strip_gen_shorter|done|].
    rewrite length_rev. lia.
Qed.

Lemma TrimSpace_idem s : TrimSpace (TrimSpace s) = TrimSpace s.
Proof. apply TrimSpace_id, TrimSpace_trimmed. Qed.

(** ** Facts about case mapping *)

Definition is_letter (c : ascii) : bool :=
  ((65 <=? code c) && (code c <=? 90) || (97 <=? code c) && (code c <=? 122))%N.

(** [recase l l']: [l'] is [l] with some chunks replaced by ASCII letters. *)
Inductive recase : list ascii -> list ascii -> Prop :=
| recase_nil : recase [] []
| recase_keep c l l' : recase l l' -> recase (c :: l) (c :: l')
| recase_chunk p c l l' : p <> [] -> is_letter c = true -> recase l l' -> recase (p ++ l) (c :: l').

Lemma recase_app l1 l1' l2 l2' :
  recase l1 l1' -> recase l2 l2' -> recase (l1 ++ l2) (l1' ++ l2').
Proof.
  induction 1; simpl; intros; [done|by constructor; auto|].
  rewrite <- app_assoc. by constructor; auto.
Qed.

Lemma recase_rev l l' : recase l l' -> recase (rev l) (rev l').
Proof.
  induction 1 as [|c l l' _ IH|p c l l' Hp Hc _ IH]; simpl; [constructor| |].
  - apply recase_app; [done|]. repeat constructor.
  - rewrite rev_app_distr. apply recase_app; [done|].
    rewrite <- (app_nil_r (rev p)). constructor; [|done|constructor].
    intros E. apply Hp. apply (f_equal (@rev ascii)) in E. by rewrite rev_involutive in E.
Qed.

Lemma recase_inv l c l' :
  recase l (c :: l') -> is_letter c = false -> exists l1, l = c :: l1 /\ recase l1 l'.
Proof. intros H Hc. inversion H; subst; [eauto|congruence]. Qed.

Lemma space_not_letter a : is_ascii_space (code a) = true -> is_letter a = false.
Proof.
  unfold is_ascii_space, is_letter. intros H.
  destruct (_ || _ && _)%N eqn:E; [|done].
  rewrite !orb_true_iff, !N.eqb_eq in H. rewrite orb_true_iff, !andb_true_iff, !N.leb_le in E. lia.
Qed.

Lemma space2_not_letter a b :
  is_space2 (code a) (code b) = true -> is_letter a = false /\ is_letter b = false.
Proof.
  unfold is_space2, is_letter. intros H.
  rewrite andb_true_iff, orb_true_iff, !N.eqb_eq in H.
  split; apply not_true_is_false; intros E;
    rewrite orb_true_iff, !andb_true_iff, !N.leb_le in E; lia.
Qed.

Lemma space3_not_letter a b c :
  is_space3 (code a) (code b) (code c) = true ->
  is_letter a = false /\ is_letter b = false /\ is_letter c = false.
Proof.
  unfold is_space3, is_letter. intros H.
  rewrite !orb_true_iff, !andb_true_iff, !orb_true_iff, !andb_true_iff, !N.eqb_eq, !N.leb_le in H.
  repeat split; apply not_true_is_false; intros E;
    rewrite orb_true_iff, !andb_true_iff, !N.leb_le in E; lia.
Qed.

Section RecaseStrip.
Context (t2 : N -> N -> bool) (t3 : N -> N -> N -> bool).
Hypothesis t2_letter : forall a b,
  t2 (code a) (code b) = true -> is_letter a = false /\ is_letter b = false.
Hypothesis t3_letter : forall a b c, t3 (code a) (code b) (code c) = true ->
  is_letter a = false /\ is_letter b = false /\ is_letter c = false.

Lemma recase_strip l l' :
  recase l l' -> strip_gen t2 t3 l = None -> strip_gen t2 t3 l' = None.
Proof.
  intros Hr H. destruct (strip_gen t2 t3 l') as [x|] eqn:E; [|done].
  destruct l' as [|a l']; [done|]. simpl in E.
  destruct (is_ascii_space (code a)) eqn:Ea.
  { apply recase_inv in Hr as (l1 & -> & _); [|by apply space_not_letter].
    simpl in H. by rewrite Ea in H. }
  destruct l' as [|b l']; [done|].
  destruct (t2 (code a) (code b)) eqn:Eb.
  { destruct (t2_letter _ _ Eb) as [Ha Hb].
    apply recase_inv in Hr as (l1 & -> & Hr); [|done].
    apply recase_inv in Hr as (l2 & -> & _); [|done].
    simpl in H. by rewrite Ea, Eb in H. }
  destruct l' as [|c l']; [done|].
  destruct (t3 (code a) (code b) (code c)) eqn:Ec; [|done].
  destruct (t3_letter _ _ _ Ec) as (Ha & Hb & Hc).
  apply recase_inv in Hr as (l1 & -> & Hr); [|done].
  apply recase_inv in Hr as (l2 & -> & Hr); [|done].
  apply recase_inv in Hr as (l3 & -> & _); [|done].
  simpl in H. by rewrite Ea, Eb, Ec in H.
Qed.
End RecaseStrip.

Lemma recase_trimmed s t : recase (bytes s) (bytes t) -> trimmed s -> trimmed t.
Proof.
  intros Hr [H1 H2]. split.
  - eapply recase_strip; [apply space2_not_letter|apply space3_not_letter|exact Hr|exact H1].
  - eapply recase_strip; [..|apply recase_rev, Hr|exact H2].
    + intros a b E%space2_not_letter. tauto.
    + intros a b c E%space3_not_letter. tauto.
Qed.

Lemma code_chr n : (n < 256)%N -> code (chr n) = n.
Proof. apply Ascii.N_ascii_embedding. Qed.

Lemma byte_letter_recase (f : ascii -> ascii) c l l' :
  (f c = c \/ is_letter (f c) = true) -> recase l l' -> recase (c :: l) (f c :: l').
Proof.
  intros [E|E] Hr; [rewrite E; by constructor|].
  apply (recase_chunk [c]); done.
Qed.

Lemma upper_byte_letter c : upper_byte c = c \/ is_letter (upper_byte c) = true.
Proof.
  unfold upper_byte. destruct (_ && _)%N eqn:E; [right|by left].
  apply andb_true_iff in E as [E1%N.leb_le E2%N.leb_le].
  unfold is_letter. rewrite code_chr by lia.
  apply orb_true_iff; left. apply andb_true_iff; rewrite !N.leb_le; lia.
Qed.

Lemma lower_byte_letter c : lower_byte c = c \/ is_letter (lower_byte c) = true.
Proof.
  unfold lower_byte. destruct (_ && _)%N eqn:E; [right|by left].
  apply andb_true_iff in E as [E1%N.leb_le E2%N.leb_le].
  unfold is_letter. rewrite code_chr by lia.
  apply orb_true_iff; right. apply andb_true_iff; rewrite !N.leb_le; lia.
Qed.

Lemma to_upper_cons2 a b l : to_upper (a :: b :: l) =
  if ((code a =? 196) && (code b =? 177))%N then "I"%char :: to_upper l
  else if ((code a =? 197) && (code b =? 191))%N then "S"%char :: to_upper l
  else upper_byte a :: to_upper (b :: l).
Proof. reflexivity. Qed.

Lemma to_lower_cons3 a b c l : to_lower (a :: b :: c :: l) =
  if ((code a =? 196) && (code b =? 176))%N then "i"%char :: to_lower (c :: l)
  else if ((code a =? 226) && (code b =? 132) && (code c =? 170))%N then "k"%char :: to_lower l
  else lower_byte a :: to_lower (b :: c :: l).
Proof. reflexivity. Qed.

Lemma to_lower_two a b : to_lower [a; b] =
  if ((code a =? 196) && (code b =? 176))%N then ["i"%char] else [lower_byte a; lower_byte b].
Proof. reflexivity. Qed.

Ltac list_wf_induction l IH :=
  induction (well_founded_ltof _ (@List.length ascii) l) as [l _ IH]; unfold ltof in IH.

Lemma to_upper_recase l : recase l (to_upper l).
Proof.
  list_wf_induction l IH.
  destruct l as [|a [|b l]]; [constructor| |].
  - apply byte_letter_recase; [apply upper_byte_letter|constructor].
  - rewrite to_upper_cons2. case_match; [|case_match].
    + apply (recase_chunk [a; b]); [done|done|]. apply IH; simpl; lia.
    + apply (recase_chunk [a; b]); [done|done|]. apply IH; simpl; lia.
    + apply byte_letter_recase; [apply upper_byte_letter|]. apply IH; simpl; lia.
Qed.

Lemma to_lower_recase l : recase l (to_lower l).
Proof.
  list_wf_induction l IH.
  destruct l as [|a [|b [|c l]]]; [constructor| | |].
  - apply byte_letter_recase; [apply lower_byte_letter|constructor].
  - rewrite to_lower_two. case_match.
    + apply (recase_chunk [a; b]); [done|done|constructor].
    + repeat (apply byte_letter_recase; [apply lower_byte_letter|]). constructor.
  - rewrite to_lower_cons3. case_match; [|case_match].
    + apply (recase_chunk [a; b]); [done|done|]. apply IH; simpl; lia.
    + apply (recase_chunk [a; b; c]); [done|done|]. apply IH; simpl; lia.
    + apply byte_letter_recase; [apply lower_byte_letter|]. apply IH; simpl; lia.
Qed.

Lemma ToUpper_trimmed s : trimmed s -> trimmed (ToUpper s).
Proof. apply recase_trimmed. unfold ToUpper. rewrite bytes_str. apply to_upper_recase. Qed.

Lemma ToLower_trimmed s : trimmed s -> trimmed (ToLower s).
Proof. apply recase_trimmed. unfold ToLower. rewrite bytes_str. apply to_lower_recase. Qed.

(** A non-ASCII byte of the result comes from the same byte of the input. *)
Lemma upper_byte_high a : (128 <= code (upper_byte a))%N -> upper_byte a = a.
Proof.
  unfold upper_byte. destruct (_ && _)%N eqn:E; [|done].
  apply andb_true_iff in E as [E1%N.leb_le E2%N.leb_le]. rewrite code_chr; lia.
Qed.

Lemma lower_byte_high a : (128 <= code (lower_byte a))%N -> lower_byte a = a.
Proof.
  unfold lower_byte. destruct (_ && _)%N eqn:E; [|done].
  apply andb_true_iff in E as [E1%N.leb_le E2%N.leb_le]. rewrite code_chr; lia.
Qed.

Lemma to_upper_high l x r :
  to_upper l = x :: r -> (128 <= code x)%N -> exists l1, l = x :: l1 /\ r = to_upper l1.
Proof.
  destruct l as [|a [|b l]]; [done| |rewrite to_upper_cons2].
  - intros [= <- <-] Hx. exists []. by rewrite upper_byte_high.
  - repeat case_match; intros [= <- <-] Hx; [by vm_compute in Hx..|].
    exists (b :: l). by rewrite upper_byte_high.
Qed.

Lemma to_lower_high l x r :
  to_lower l = x :: r -> (128 <= code x)%N -> exists l1, l = x :: l1 /\ r = to_lower l1.
Proof.
  destruct l as [|a [|b [|c l]]]; [done| |rewrite to_lower_two|rewrite to_lower_cons3].
  - intros [= <- <-] Hx. exists []. by rewrite lower_byte_high.
  - case_match; intros [= <- <-] Hx; [by vm_compute in Hx|].
    exists [b]. by rewrite lower_byte_high.
  - case_match; [|case_match]; intros [= <- <-] Hx; [by vm_compute in Hx..|].
    exists (b :: c :: l). by rewrite lower_byte_high.
Qed.

Lemma upper_byte_idem a : upper_byte (upper_byte a) = upper_byte a.
Proof. destruct a as [[] [] [] [] [] [] [] []]; reflexivity. Qed.

Lemma lower_byte_idem a : lower_byte (lower_byte a) = lower_byte a.
Proof. destruct a as [[] [] [] [] [] [] [] []]; reflexivity. Qed.

Lemma to_upper_low_cons x t : (code x < 128)%N -> to_upper (x :: t) = upper_byte x :: to_upper t.
Proof.
  intros Hx. destruct t as [|b t]; [done|]. rewrite to_upper_cons2.
  by repeat (rewrite (proj2 (N.eqb_neq (code x) _)) by lia; simpl).
Qed.

Lemma to_lower_low_cons x t : (code x < 128)%N -> to_lower (x :: t) = lower_byte x :: to_lower t.
Proof.
  intros Hx. destruct t as [|b [|c t]]; [done| |].
  - rewrite to_lower_two. by rewrite (proj2 (N.eqb_neq (code x) _)) by lia.
  - rewrite to_lower_cons3. by repeat (rewrite (proj2 (N.eqb_neq (code x) _)) by lia; simpl).
Qed.

Lemma to_upper_idem l : to_upper (to_upper l) = to_upper l.
Proof.
  list_wf_induction l IH.
  destruct l as [|a [|b l]]; [done|by simpl; rewrite upper_byte_idem|].
  assert (to_upper (to_upper (b :: l)) = to_upper (b :: l)) as IHb by (apply IH; simpl; lia).
  assert (to_upper (to_upper l) = to_upper l) as IHl by (apply IH; simpl; lia).
  rewrite to_upper_cons2. case_match eqn:E1; [|case_match eqn:E2];
    [by rewrite to_upper_low_cons, IHl by done..|].
  destruct (to_upper (b :: l)) as [|h t] eqn:Et; [by simpl; rewrite upper_byte_idem|].
  assert (Hh : forall n, (128 <= code h)%N -> (128 <= code (upper_byte a))%N ->
    code h = n -> code b = n /\ upper_byte a = a).
  { intros n Hh Ha <-. apply to_upper_high in Et as (l1 & [= -> ->] & _); [|done].
    split; [done|by apply upper_byte_high]. }
  rewrite to_upper_cons2, upper_byte_idem, IHb.
  case_match eqn:E3; [|case_match eqn:E4; [|done]]; exfalso.
  - apply andb_true_iff in E3 as [A%N.eqb_eq B%N.eqb_eq].
    destruct (Hh 177%N) as [Hb Ha]; [lia..|]. rewrite Ha in A. by rewrite A, Hb in E1.
  - apply andb_true_iff in E4 as [A%N.eqb_eq B%N.eqb_eq].
    destruct (Hh 191%N) as [Hb Ha]; [lia..|]. rewrite Ha in A. by rewrite A, Hb in E2.
Qed.

Definition lower_merge (l : list ascii) : option (ascii * list ascii) :=
  match l with
  | a :: b :: l1 =>
    if ((code a =? 196) && (code b =? 176))%N then Some ("i"%char, l1)
    else match l1 with
         | c :: l2 => if ((code a =? 226) && (code b =? 132) && (code c =? 170))%N
                      then Some ("k"%char, l2) else None
         | [] => None
         end
  | _ => None
  end.

Lemma to_lower_unfold a r : to_lower (a :: r) =
  match lower_merge (a :: r) with
  | Some (x, l) => x :: to_lower l
  | None => lower_byte a :: to_lower r
  end.
Proof.
  destruct r as [|b [|c r]]; [done| |].
  - rewrite to_lower_two. simpl. by case_match.
  - rewrite to_lower_cons3. unfold lower_merge. by repeat case_match.
Qed.

Lemma lower_merge_some l x l' :
  lower_merge l = Some (x, l') -> (code x < 128)%N /\ lower_byte x = x /\ (length l' < length l)%nat.
Proof.
  unfold lower_merge. intros H. repeat case_match; simplify_eq; simpl; repeat split; lia.
Qed.

Lemma lower_merge_output a r :
  lower_merge (a :: r) = None -> lower_merge (lower_byte a :: to_lower r) = None.
Proof.
  intros H. destruct (lower_merge (lower_byte a :: to_lower r)) as [[x l]|] eqn:E; [exfalso|done].
  destruct (to_lower r) as [|b t] eqn:Er; [done|]. unfold lower_merge in E.
  case_match eqn:E1.
  - apply andb_true_iff in E1 as [A%N.eqb_eq B%N.eqb_eq].
    apply to_lower_high in Er as (r1 & -> & _); [|lia].
    rewrite lower_byte_high in A by lia. simpl in H. by rewrite A, B in H.
  - destruct t as [|c t]; [done|]. case_match eqn:E2; [|done].
    apply andb_true_iff in E2 as [[A%N.eqb_eq B%N.eqb_eq]%andb_true_iff C%N.eqb_eq].
    apply to_lower_high in Er as (r1 & -> & Er); [|lia].
    symmetry in Er. apply to_lower_high in Er as (r2 & -> & _); [|lia].
    rewrite lower_byte_high in A by lia. simpl in H. rewrite A, B, C in H. by destruct (_ && _)%bool.
Qed.

Lemma to_lower_idem l : to_lower (to_lower l) = to_lower l.
Proof.
  list_wf_induction l IH. destruct l as [|a r]; [done|].
  rewrite (to_lower_unfold a r). destruct (lower_merge (a :: r)) as [[x l]|] eqn:E.
  - apply lower_merge_some in E as (Hx & Hb & Hl).
    by rewrite to_lower_low_cons, Hb, IH by done.
  - rewrite to_lower_unfold, lower_merge_output, lower_byte_idem, IH by (simpl; lia || done). done.
Qed.

Lemma ToUpper_idem s : ToUpper (ToUpper s) = ToUpper s.
Proof. unfold ToUpper. by rewrite bytes_str, to_upper_idem. Qed.

Lemma ToLower_idem s : ToLower (ToLower s) = ToLower s.
Proof. unfold ToLower. by rewrite bytes_str, to_lower_idem. Qed.

(** [ToLower(TrimSpace(s))] and [ToUpper(TrimSpace(s))] are normal forms. *)
Lemma lower_trim_idem s : ToLower (TrimSpace (ToLower (TrimSpace s))) = ToLower (TrimSpace s).
Proof.
  rewrite (TrimSpace_id (ToLower _)) by apply ToLower_trimmed, TrimSpace_trimmed.
  apply ToLower_idem.
Qed.

Lemma upper_trim_idem s : ToUpper (TrimSpace (ToUpper (TrimSpace s))) = ToUpper (TrimSpace s).
Proof.
  rewrite (TrimSpace_id (ToUpper _)) by apply ToUpper_trimmed, TrimSpace_trimmed.
  apply ToUpper_idem.
Qed.

#[export] Hint Rewrite TrimSpace_idem lower_trim_idem upper_trim_idem : go_simpl.

(** Printable ASCII without the space: hashes, identifiers built from them. *)
Definition graphic (c : ascii) : bool := ((33 <=? code c) && (code c <=? 126))%N.
Definition graphic_string (s : string) : bool := forallb graphic (bytes s).

Lemma graphic_strip t2 t3 l :
  (forall a b, t2 (code a) (code b) = true -> graphic a = false) ->
  (forall a b c, t3 (code a) (code b) (code c) = true -> graphic a = false) ->
  forallb graphic l = true -> strip_gen t2 t3 l = None.
Proof.
  intros H2 H3 Hl. destruct l as [|a l]; [done|]. simpl in Hl.
  apply andb_true_iff in Hl as [Ha _]. simpl.
  destruct (is_ascii_space (code a)) eqn:E.
  { exfalso. unfold is_ascii_space in E. unfold graphic in Ha.
    rewrite !orb_true_iff, !N.eqb_eq in E. apply andb_true_iff in Ha as [A%N.leb_le B%N.leb_le]. lia. }
  destruct l as [|b l]; [done|]. destruct (t2 _ _) eqn:E2; [apply H2 in E2; congruence|].
  destruct l as [|c l]; [done|]. destruct (t3 _ _ _) eqn:E3; [apply H3 in E3; congruence|done].
Qed.

Lemma high_not_graphic a : (127 <= code a)%N -> graphic a = false.
Proof. unfold graphic. intros H. apply andb_false_iff. right. apply N.leb_gt. lia. Qed.

Lemma graphic_trimmed s : graphic_string s = true -> trimmed s.
Proof.
  unfold graphic_string. intros H. split; apply graphic_strip; auto.
  - intros a b. unfold is_space2. rewrite andb_true_iff, N.eqb_eq. intros [E _].
    apply high_not_graphic. lia.
  - intros a b c. unfold is_space3. rewrite !orb_true_iff, !andb_true_iff, !N.eqb_eq. intros E.
    apply high_not_graphic. lia.
  - intros a b. unfold is_space2. rewrite andb_true_iff, orb_true_iff, !N.eqb_eq. intros [_ E].
    apply high_not_graphic. lia.
  - intros a b c. unfold is_space3.
    rewrite !orb_true_iff, !andb_true_iff, !orb_true_iff, !andb_true_iff, !N.eqb_eq, !N.leb_le.
    intros E. apply high_not_graphic. lia.
  - apply forallb_forall. intros x Hx. apply in_rev in Hx.
    by apply (proj1 (forallb_forall _ _) H).
Qed.

Lemma TrimSpace_graphic s : graphic_string s = true -> TrimSpace s = s.
Proof. intros H. by apply TrimSpace_id, graphic_trimmed. Qed.

(** A string that starts with a printable character is not blank. *)
Lemma graphic_range c : graphic c = true -> (33 <= code c <= 126)%N.
Proof. unfold graphic. by intros [?%N.leb_le ?%N.leb_le]%andb_true_iff. Qed.

Ltac no_space Hc := apply graphic_range in Hc; exfalso;
  unfold is_ascii_space, is_space2, is_space3 in *;
  rewrite ?orb_true_iff, ?andb_true_iff, ?orb_true_iff, ?andb_true_iff, ?N.eqb_eq, ?N.leb_le in *; lia.

Lemma strip_graphic_head c l : graphic c = true -> strip_space (c :: l) = None.
Proof.
  intros Hc. unfold strip_space, strip_gen. destruct (is_ascii_space (code c)) eqn:E1; [no_space Hc|].
  destruct l as [|b l]; [done|]. destruct (is_space2 _ _) eqn:E2; [no_space Hc|].
  destruct l as [|d l]; [done|]. destruct (is_space3 _ _ _) eqn:E3; [no_space Hc|done].
Qed.

Lemma strip_graphic_last c l l' : graphic c = true ->
  strip_space_rev (l ++ [c])%list = Some l' -> exists l0, l' = (l0 ++ [c])%list.
Proof.
  intros Hc. unfold strip_space_rev, strip_gen.
  destruct l as [|a l]; cbn [app].
  { destruct (is_ascii_space _) eqn:E; [no_space Hc|done]. }
  destruct (is_ascii_space (code a)); [intros [= <-]; by exists l|].
  destruct l as [|b l]; cbn [app].
  { destruct (is_space2 _ _) eqn:E; [no_space Hc|done]. }
  destruct (is_space2 _ _); [intros [= <-]; by exists l|].
  destruct l as [|d l]; cbn [app].
  { destruct (is_space3 _ _ _) eqn:E; [no_space Hc|done]. }
  destruct (is_space3 _ _ _); [intros [= <-]; by exists l|done].
Qed.

Lemma strip_all_graphic_last fuel c l : graphic c = true ->
  exists l0, strip_all strip_space_rev fuel (l ++ [c])%list = (l0 ++ [c])%list.
Proof.
  intros Hc. revert l. induction fuel as [|fuel IH]; intros l; cbn [strip_all]; [by exists l|].
  destruct (strip_space_rev _) as [l'|] eqn:E; [|by exists l].
  apply strip_graphic_last in E as [l0 ->]; [apply IH|done].
Qed.

Lemma TrimSpace_graphic_head c s : graphic c = true -> TrimSpace (String c s) <> "".
Proof.
  intros Hc. unfold TrimSpace, trim_front.
  change (bytes (String c s)) with (c :: bytes s).
  rewrite (strip_all_id _ _ _ (strip_graphic_head c (bytes s) Hc)). unfold trim_back. cbn [rev].
  destruct (strip_all_graphic_last (length (c :: bytes s)) c (rev (bytes s)) Hc) as [l0 ->].
  rewrite rev_app_distr. cbn. discriminate.
Qed.

(** ** Facts about numbers *)

Lemma fmt_d_inj a b : fmt_d a = fmt_d b -> a = b.
Proof. unfold fmt_d. apply (inj pretty). Qed.

Lemma pad_hex_value n u : N.of_hex_uint (pad_hex n u) = N.of_hex_uint u.
Proof. induction n; simpl; [done|]. exact IHn. Qed.

Lemma fmt_08x_inj a b : 0 <= a -> 0 <= b -> fmt_08x a = fmt_08x b -> a = b.
Proof.
  unfold fmt_08x. intros Ha Hb E.
  apply (f_equal NilEmpty.uint_of_string) in E. rewrite !NilEmpty.usu in E.
  injection E as E. apply (f_equal N.of_hex_uint) in E.
  rewrite !pad_hex_value, !HexadecimalN.Unsigned.of_to in E. lia.
Qed.

Lemma parse_digits_nonneg acc l z : 0 <= acc -> parse_digits acc l = Some z -> 0 <= z.
Proof.
  revert acc. induction l as [|c l IH]; simpl; intros acc Ha H; [congruence|].
  case_match; [|done]. eapply IH; [|exact H]. lia.
Qed.

Lemma Atoi_range s z : Atoi s = Some z -> in_int64 z.
Proof.
  unfold Atoi, in_int64. intros H. repeat (case_match; simplify_eq); bool_hyps; lia.
Qed.

(** Equal [Join]s of a first field and a rest, when the first fields have the
    same length. *)
Lemma append_inj_length a b s t :
  String.length a = String.length b -> (a ++ s = b ++ t)%string -> a = b /\ s = t.
Proof.
  revert b. induction a as [|x a IH]; intros [|y b] Hl E; simpl in Hl; try lia; [done|].
  injection E as -> E. destruct (IH b) as [-> ->]; [lia|exact E|done].
Qed.

Lemma HasPrefix_spec s p : HasPrefix s p = true <-> exists t, s = (p ++ t)%string.
Proof.
  unfold HasPrefix. revert s. induction p as [|c p IH]; intros s.
  - split; [by exists s|]. by destruct s.
  - destruct s as [|d s]; [split; [done|by intros [t [=]]]|].
    change (String.prefix (String c p) (String d s))
      with (if ascii_dec c d then String.prefix p s else false).
    destruct (ascii_dec c d) as [->|Hne].
    + rewrite IH. split; intros [t Ht]; exists t; [by rewrite Ht|].
      by injection Ht.
    + split; [done|]. intros [t Ht]. injection Ht as E _. congruence.
Qed.
