(* ===== verification/Sha256.v ===== *)
(** * SHA-256 and its hexadecimal rendering

    [sha256.Sum256] followed by [hex.EncodeToString], as the kernels use them
    for step hashes, tokens and the evidence chains: the FIPS 180-4 function on
    bytes, with 32-bit words as [Z].  [sum] is the digest, [sha256_hex] its
    64-character rendering. *)

From S2P Require Import Prelude GoStrings.

Module Sha256.

Definition mask32 : Z := 0xffffffff.
Definition add32 (x y : Z) : Z := Z.land (x + y) mask32.
Definition rotr (n x : Z) : Z :=
  Z.lor (Z.shiftr x n) (Z.land (Z.shiftl x (32 - n)) mask32).

(** The round constants and the initial state are the first 32 bits of the
    fractional parts of the cube and square roots of the first primes (FIPS
    180-4, section 4.2.2 and 5.3.3); they are computed here, one bit at a time. *)
Definition primes : list Z :=
  filter (fun n => forallb (fun d => negb (n mod d =? 0)) (map Z.of_nat (seq 2 (Z.to_nat n - 2))))
         (map Z.of_nat (seq 2 310)).

(** The largest [r] below [2 ^ bits] with [r ^ e <= n]. *)
Fixpoint int_root (e n : Z) (bits : nat) (r : Z) : Z :=
  match bits with
  | O => r
  | S bits =>
    let r' := r + 2 ^ Z.of_nat bits in
    int_root e n bits (if r' ^ e <=? n then r' else r)
  end.

Definition root_fraction (e p : Z) : Z := int_root e (p * 2 ^ (32 * e)) 40 0 mod 2 ^ 32.

Definition K : list Z := Eval vm_compute in map (root_fraction 3) primes.

Record state := mk_state { h0 : Z; h1 : Z; h2 : Z; h3 : Z; h4 : Z; h5 : Z; h6 : Z; h7 : Z }.

Definition init : state := Eval vm_compute in
  match map (root_fraction 2) (take 8 primes) with
  | [a; b; c; d; e; f; g; h] => mk_state a b c d e f g h
  | _ => mk_state 0 0 0 0 0 0 0 0
  end.

Definition ch x y z := Z.lxor (Z.land x y) (Z.land (Z.lxor x mask32) z).
Definition maj x y z := Z.lxor (Z.lxor (Z.land x y) (Z.land x z)) (Z.land y z).
Definition big_sigma0 x := Z.lxor (Z.lxor (rotr 2 x) (rotr 13 x)) (rotr 22 x).
Definition big_sigma1 x := Z.lxor (Z.lxor (rotr 6 x) (rotr 11 x)) (rotr 25 x).
Definition small_sigma0 x := Z.lxor (Z.lxor (rotr 7 x) (rotr 18 x)) (Z.shiftr x 3).
Definition small_sigma1 x := Z.lxor (Z.lxor (rotr 17 x) (rotr 19 x)) (Z.shiftr x 10).

(** The message schedule, most recent word first. *)
Fixpoint extend (n : nat) (w : list Z) : list Z :=
  match n with
  | O => w
  | S n =>
    let nth i := List.nth i w 0 in
    extend n (add32 (add32 (small_sigma1 (nth 1%nat)) (nth 6%nat))
                    (add32 (small_sigma0 (nth 14%nat)) (nth 15%nat)) :: w)
  end.

Definition round (s : state) (kw : Z * Z) : state :=
  let '(mk_state a b c d e f g h) := s in
  let t1 := add32 (add32 (add32 h (big_sigma1 e)) (add32 (ch e f g) (fst kw))) (snd kw) in
  let t2 := add32 (big_sigma0 a) (maj a b c) in
  mk_state (add32 t1 t2) a b c (add32 d t1) e f g.

Definition compress (s : state) (block : list Z) : state :=
  let w := rev (extend 48 (rev block)) in
  let s' := fold_left round (combine K w) s in
  mk_state (add32 (h0 s) (h0 s')) (add32 (h1 s) (h1 s')) (add32 (h2 s) (h2 s'))
           (add32 (h3 s) (h3 s')) (add32 (h4 s) (h4 s')) (add32 (h5 s) (h5 s'))
           (add32 (h6 s) (h6 s')) (add32 (h7 s) (h7 s')).

(** Padding: 0x80, zeros to 56 modulo 64, the bit length on 8 bytes. *)
Definition be_bytes (n : nat) (z : Z) : list Z :=
  map (fun i => Z.land (Z.shiftr z (8 * Z.of_nat i)) 255) (rev (seq 0 n)).
Definition pad (m : list Z) : list Z :=
  let l := Z.of_nat (length m) in
  m ++ [0x80] ++ repeat 0 (Z.to_nat ((55 - l) mod 64)) ++ be_bytes 8 (8 * l).

Fixpoint words (l : list Z) : list Z :=
  match l with
  | a :: b :: c :: d :: l =>
    Z.lor (Z.lor (Z.shiftl a 24) (Z.shiftl b 16)) (Z.lor (Z.shiftl c 8) d) :: words l
  | _ => []
  end.

Fixpoint blocks (n : nat) (s : state) (ws : list Z) : state :=
  match n with
  | O => s
  | S n => blocks n (compress s (take 16 ws)) (drop 16 ws)
  end.

(** [sha256.Sum256([]byte(s))]. *)
Definition sum (s : string) : state :=
  let ws := words (pad (map (fun c => Z.of_N (code c)) (bytes s))) in
  blocks (length ws / 16) init ws.

(** [hex.EncodeToString(sum[:])]. *)
Definition hex_digit (z : Z) : Ascii.ascii :=
  let d := Z.to_N (Z.land z 15) in chr (if (d <? 10)%N then 48 + d else 87 + d).
Definition hex_word (w : Z) : list Ascii.ascii :=
  map (fun i => hex_digit (Z.shiftr w (4 * i))) [7; 6; 5; 4; 3; 2; 1; 0].
Definition hex_bytes (d : state) : list Ascii.ascii :=
  hex_word (h0 d) ++ hex_word (h1 d) ++ hex_word (h2 d) ++ hex_word (h3 d)
  ++ hex_word (h4 d) ++ hex_word (h5 d) ++ hex_word (h6 d) ++ hex_word (h7 d).

End Sha256.

Definition sha256_hex (s : string) : string := str (Sha256.hex_bytes (Sha256.sum s)).

(** [hex.EncodeToString(sum[:n])] and [int(sum[0])]. *)
Definition sha256_hex_prefix (n : nat) (s : string) : string :=
  str (take (2 * n) (Sha256.hex_bytes (Sha256.sum s))).
Definition sha256_byte0 (s : string) : Z := Z.shiftr (Sha256.h0 (Sha256.sum s)) 24.

(** The FIPS 180-4 test vectors. *)
Example sha256_abc :
  sha256_hex "abc" = "ba7816bf8f01cfea414140de5dae2223b00361a396177a9cb410ff61f20015ad".
Proof. vm_compute. reflexivity. Qed.

Example sha256_two_blocks :
  sha256_hex "abcdbcdecdefdefgefghfghighijhijkijkljklmklmnlmnomnopnopq"
  = "248d6a61d20638b8e5c026930c3e6039a33ce45964ff2167f6ecedd419db06c1".
Proof. vm_compute. reflexivity. Qed.

Example sha256_empty :
  sha256_hex "" = "e3b0c44298fc1c149afbf4c8996fb92427ae41e4649b934ca495991b7852b855".
Proof. vm_compute. reflexivity. Qed.

(** ** Shape of a digest: 64 lower-case hexadecimal digits *)

Definition hex_char (c : Ascii.ascii) : bool :=
  ((48 <=? code c) && (code c <=? 57) || (97 <=? code c) && (code c <=? 102))%N.

Lemma hex_digit_char z : hex_char (Sha256.hex_digit z) = true.
Proof.
  unfold Sha256.hex_digit, hex_char.
  assert (Z.to_N (Z.land z 15) < 16)%N as Hd.
  { change 15 with (Z.ones 4). rewrite Z.land_ones by lia.
    pose proof (Z.mod_pos_bound z (2 ^ 4) ltac:(lia)). lia. }
  set (d := Z.to_N _) in *.
  destruct (d <? 10)%N eqn:E; [apply N.ltb_lt in E|apply N.ltb_ge in E];
    rewrite code_chr by lia; apply orb_true_iff; [left|right];
    apply andb_true_iff; rewrite !N.leb_le; lia.
Qed.

Lemma hex_bytes_chars d : forallb hex_char (Sha256.hex_bytes d) = true.
Proof.
  assert (Hw : forall w, forallb hex_char (Sha256.hex_word w) = true).
  { intros w. apply forallb_forall. unfold Sha256.hex_word.
    intros c (i & <- & _)%in_map_iff. apply hex_digit_char. }
  unfold Sha256.hex_bytes. by rewrite !forallb_app, !Hw.
Qed.

Lemma hex_bytes_length d : length (Sha256.hex_bytes d) = 64%nat.
Proof. unfold Sha256.hex_bytes, Sha256.hex_word. by rewrite !length_app, !length_map. Qed.

Lemma sha256_hex_length s : String.length (sha256_hex s) = 64%nat.
Proof. unfold sha256_hex. by rewrite <- bytes_length, bytes_str, hex_bytes_length. Qed.

Lemma hex_char_graphic c : hex_char c = true -> graphic c = true.
Proof.
  unfold hex_char, graphic. rewrite orb_true_iff, !andb_true_iff, !N.leb_le. lia.
Qed.

Lemma sha256_hex_graphic s : graphic_string (sha256_hex s) = true.
Proof.
  unfold graphic_string, sha256_hex. rewrite bytes_str.
  apply forallb_forall. intros c Hc. apply hex_char_graphic.
  by apply (proj1 (forallb_forall _ _) (hex_bytes_chars (Sha256.sum s))).
Qed.

Lemma sha256_hex_chars s : forallb hex_char (bytes (sha256_hex s)) = true.
Proof. unfold sha256_hex. rewrite bytes_str. apply hex_bytes_chars. Qed.

Lemma sha256_hex_trim s : TrimSpace (sha256_hex s) = sha256_hex s.
Proof. apply TrimSpace_graphic, sha256_hex_graphic. Qed.

Lemma sha256_hex_head s : exists c t, sha256_hex s = String c t /\ hex_char c = true.
Proof.
  pose proof (hex_bytes_chars (Sha256.sum s)) as Hc.
  pose proof (hex_bytes_length (Sha256.sum s)) as Hl. unfold sha256_hex.
  destruct (Sha256.hex_bytes (Sha256.sum s)) as [|c t]; [done|].
  exists c, (str t). split; [done|]. simpl in Hc. by apply andb_true_iff in Hc as [? _].
Qed.

Lemma sha256_hex_nonempty s : sha256_hex s <> "".
Proof. destruct (sha256_hex_head s) as (c & t & -> & _). done. Qed.

#[export] Hint Rewrite sha256_hex_trim sha256_hex_length : go_simpl.
#[export] Hint Resolve sha256_hex_nonempty sha256_hex_graphic : go.

(** Two different inputs with one digest. *)
Definition sha256_collision : Prop := exists x y, x <> y /\ sha256_hex x = sha256_hex y.

#[global] Opaque sha256_hex sha256_hex_prefix sha256_byte0.
