(* ===== verification/GoTime.v ===== *)
(** * Go's [time.Time] and [time.Duration]

    An instant is the number of nanoseconds since Go's zero time (1 January of
    year 1, UTC); a duration is a 64-bit number of nanoseconds.  The location
    and the monotonic reading of a [Time] are not modelled. *)

From S2P Require Import Prelude GoStrings.
From Stdlib Require Import Ascii.

Definition time := Z.
Definition duration := Z.

Definition Nanosecond : duration := 1.
Definition Second : duration := 1000000000.
Definition Minute : duration := 60 * Second.
Definition Hour : duration := 60 * Minute.

Definition IsZero (t : time) : bool := t =? 0.
Definition After (t u : time) : bool := u <? t.
Definition Before (t u : time) : bool := t <? u.
Definition Equal (t u : time) : bool := t =? u.
Definition Add (t : time) (d : duration) : time := t + d.

(** [t.Sub(u)] saturates at the ends of the duration range. *)
Definition Sub (t u : time) : duration := Z.max min_int64 (Z.min max_int64 (t - u)).

(** [t.UnixNano()]: 64-bit, relative to 1970. *)
Definition unix_epoch : time := 62135596800 * Second.
Definition UnixNano (t : time) : Z := wrap_int64 (t - unix_epoch).

Lemma Sub_le t u d : d < max_int64 -> min_int64 <= d -> (Sub t u <=? d) = (t - u <=? d).
Proof. unfold Sub. intros. destruct (Z.leb_spec (t - u) d), (Z.leb_spec
  (Z.max min_int64 (Z.min max_int64 (t - u))) d); lia. Qed.

Lemma After_spec t u : After t u = true <-> u < t.
Proof. apply Z.ltb_lt. Qed.
Lemma Before_spec t u : Before t u = true <-> t < u.
Proof. apply Z.ltb_lt. Qed.

(** ** [Format(time.RFC3339Nano)] in UTC *)

Record civil := mk_civil { c_year : Z; c_month : Z; c_day : Z }.

(** The proleptic Gregorian date of a day number (day 0 is 1 January of
    year 1), computed on 400-year eras that start in March. *)
Definition civil_of_days (days : Z) : civil :=
  let z := days + 306 in
  let era := z / 146097 in
  let doe := z mod 146097 in
  let yoe := (doe - doe / 1460 + doe / 36524 - doe / 146096) / 365 in
  let doy := doe - (365 * yoe + yoe / 4 - yoe / 100) in
  let mp := (5 * doy + 2) / 153 in
  let m := if mp <? 10 then mp + 3 else mp - 9 in
  mk_civil (yoe + era * 400 + (if m <=? 2 then 1 else 0)) m (doy - (153 * mp + 2) / 5 + 1).

(** A number on at least [n] digits. *)
Definition pad_d (n : nat) (z : Z) : string :=
  let s := fmt_d z in String.append (str (repeat "0"%char (n - String.length s))) s.

(** The fraction of a second, trailing zeros dropped with the point. *)
Definition frac_str (ns : Z) : string :=
  if ns =? 0 then ""
  else String.append "." (str (rev (drop_byte "0" (rev (bytes (pad_d 9 ns)))))).

Definition year_of (t : time) : Z := c_year (civil_of_days (t / (24 * Hour))).

Definition date_str (t : time) : string :=
  let c := civil_of_days (t / (24 * Hour)) in
  Join [pad_d 4 (c_year c); pad_d 2 (c_month c); pad_d 2 (c_day c)] "-".
Definition clock_str (t : time) : string :=
  let sod := (t / Second) mod 86400 in
  String.append (Join [pad_d 2 (sod / 3600); pad_d 2 (sod / 60 mod 60); pad_d 2 (sod mod 60)] ":")
                (frac_str (t mod Second)).

Definition FormatRFC3339Nano (t : time) : string :=
  Join [date_str t; "T"; clock_str t; "Z"] "".

Example format_epoch : FormatRFC3339Nano unix_epoch = "1970-01-01T00:00:00Z".
Proof. vm_compute. reflexivity. Qed.
Example format_leap :
  FormatRFC3339Nano (unix_epoch + 1709210096 * Second + 120000000) = "2024-02-29T12:34:56.12Z".
Proof. vm_compute. reflexivity. Qed.
Example format_zero : FormatRFC3339Nano 0 = "0001-01-01T00:00:00Z".
Proof. vm_compute. reflexivity. Qed.
