(* ===== verification/GoJson.v ===== *)
(** * Go values held in an [interface{}] and their JSON encoding

    [gval] is the dynamic type and value of the interfaces the kernels build,
    hash and inspect (event payloads, the structs given to [json.Marshal]).
    [json_Marshal] is the encoder: struct fields in order, map keys sorted,
    HTML-safe string escapes, invalid UTF-8 replaced, shortest float digits,
    RFC 3339 times, and its errors (NaN, infinities, years past 9999).
    [fmt_v] is [fmt.Sprintf] with the [v] verb. *)

From S2P Require Import Prelude GoStrings GoTime.
From Stdlib Require Import Ascii.
From Stdlib Require Export Floats.SpecFloat.

(** ** [float64] *)

Definition float64 := spec_float.
Definition fadd (x y : float64) : float64 := SFadd 53 1024 x y.
Definition fmul (x y : float64) : float64 := SFmul 53 1024 x y.
Definition fdiv (x y : float64) : float64 := SFdiv 53 1024 x y.
Definition fltb (x y : float64) : bool := SFltb x y.
Definition fleb (x y : float64) : bool := SFleb x y.
(** Conversion of an integer constant, and of a decimal constant [n/d]. *)
Definition float_of_Z (z : Z) : float64 := binary_normalize 53 1024 z 0 false.
Definition float_of_ratio (n d : Z) : float64 := fdiv (float_of_Z n) (float_of_Z d).
Definition fzero : float64 := S754_zero false.

(** Shortest decimal digits that read back as the same float: the digits as an
    integer and the exponent of the first one.  [v = num / den]. *)
Definition pow10_ratio (e : Z) : Z * Z := if 0 <=? e then (10 ^ e, 1) else (1, 10 ^ (- e)).

(** The exponent [E] with [10^E <= num/den < 10^(E+1)]. *)
Fixpoint dec_exponent (fuel : nat) (num den e : Z) : Z :=
  match fuel with
  | O => e
  | S fuel =>
    let '(pn, pd) := pow10_ratio e in
    let '(qn, qd) := pow10_ratio (e + 1) in
    if num * pd <? pn * den then dec_exponent fuel num den (e - 1)
    else if qn * den <=? num * qd then dec_exponent fuel num den (e + 1)
    else e
  end.

(** An [n]-digit candidate [d * 10^x] lies in the rounding interval of [m * 2^e]:
    distances are compared after scaling by [4]. *)
Definition in_interval (m e : Z) (num den : Z) (d x : Z) : bool :=
  let '(pn, pd) := pow10_ratio x in
  let diff := d * pn * den - num * pd in
  let scale := den * pd in
  let '(un, ud) := if 0 <=? e then (2 ^ e, 1) else (1, 2 ^ (- e)) in
  let lower := if (m =? 2 ^ 52) && negb (e =? -1074) then 1 else 2 in
  let bound := if diff <? 0 then lower else 2 in
  let l := 4 * Z.abs diff * ud in
  let r := bound * un * scale in
  if Z.even m then l <=? r else l <? r.

Fixpoint shortest_from (fuel : nat) (n : Z) (m e num den E : Z) : Z * Z :=
  let x := E - n + 1 in
  let '(pn, pd) := pow10_ratio x in
  let lo := (num * pd) / (den * pn) in
  let hi := lo + 1 in
  let near := if 2 * ((num * pd) mod (den * pn)) <=? den * pn then [lo; hi] else [hi; lo] in
  match List.filter (fun d => in_interval m e num den d x) near with
  | d :: _ => (d, x)
  | [] => match fuel with O => (lo, x) | S fuel => shortest_from fuel (n + 1) m e num den E end
  end.

(** Digit string and exponent of the leading digit. *)
Definition shortest (m : positive) (e : Z) : string * Z :=
  let '(num, den) := if 0 <=? e then (Z.pos m * 2 ^ e, 1) else (Z.pos m, 2 ^ (- e)) in
  let E0 := (Z.log2 num - Z.log2 den) * 30103 / 100000 in
  let E := dec_exponent 4 num den E0 in
  let '(d, x) := shortest_from 17 1 (Z.pos m) e num den E in
  let s := fmt_d d in
  (str (rev (match drop_byte "0" (rev (bytes s)) with [] => ["0"%char] | l => l end)),
   x + len s - 1).

Definition exp_str (two_digits : bool) (E : Z) : string :=
  String.append (if E <? 0 then "-" else "+")
    (if two_digits then pad_d 2 (Z.abs E) else fmt_d (Z.abs E)).

Definition float_e (two : bool) (ds : string) (E : Z) : string :=
  match ds with
  | String d EmptyString => Join [String d ""; "e"; exp_str two E] ""
  | String d rest => Join [String d ""; "."; rest; "e"; exp_str two E] ""
  | EmptyString => ""
  end.
Definition zeros (n : Z) : string := str (repeat "0"%char (Z.to_nat n)).
Definition float_f (ds : string) (E : Z) : string :=
  if E <? 0 then Join ["0."; zeros (- E - 1); ds] ""
  else if len ds <=? E + 1 then String.append ds (zeros (E + 1 - len ds))
  else Join [str (take (Z.to_nat (E + 1)) (bytes ds)); "."; str (drop (Z.to_nat (E + 1)) (bytes ds))] "".

(** [strconv.FormatFloat] as JSON ([json = true]) or the [v] verb uses it. *)
Definition format_float (json : bool) (f : float64) : result string string :=
  match f with
  | S754_zero s => Ok (if s then "-0" else "0")
  | S754_infinity s => if json then Err "json: unsupported value: Inf"
                       else Ok (if s then "-Inf" else "+Inf")
  | S754_nan => if json then Err "json: unsupported value: NaN" else Ok "NaN"
  | S754_finite s m e =>
    let '(ds, E) := shortest m e in
    let '(lo, hi) := if json then (-6, 21) else (-4, 6) in
    let body := if (E <? lo) || (hi <=? E) then float_e (negb json) ds E
                else float_f ds E in
    Ok (if s then String "-" body else body)
  end.

Example float_tenth : format_float true (float_of_ratio 1 10) = Ok "0.1".
Proof. vm_compute. reflexivity. Qed.
Example float_third : format_float true (float_of_ratio 1 3) = Ok "0.3333333333333333".
Proof. vm_compute. reflexivity. Qed.
Example float_big : format_float false (float_of_Z (10 ^ 21)) = Ok "1e+21".
Proof. vm_compute. reflexivity. Qed.
Example float_small : format_float true (float_of_ratio 1 (10 ^ 7)) = Ok "1e-7".
Proof. vm_compute. reflexivity. Qed.
Example float_million : format_float false (float_of_Z (10 ^ 6)) = Ok "1e+06".
Proof. vm_compute. reflexivity. Qed.
Example float_digits : format_float false (float_of_Z 123456) = Ok "123456".
Proof. vm_compute. reflexivity. Qed.
Example float_int : format_float true (float_of_Z 1500) = Ok "1500".
Proof. vm_compute. reflexivity. Qed.

(** ** Values *)

(** [GStruct] carries the type's name as the [T] verb prints it; [GNum] is the
    [json.Number] of a decoder, whose text is a number literal. *)
#[warnings="-register-all"]
Inductive gval : Type :=
| GNil
| GBool (b : bool)
| GInt (z : Z)
| GFloat (f : float64)
| GNum (text : string)
| GStr (s : string)
| GTime (t : time)
| GStrs (l : list string)
| GArr (l : list gval)
| GMap (kvs : list (string * gval))
| GStruct (tname : string) (fields : list (string * gval)).

(** A [map[string]interface{}] payload: [None] is the nil map; keys are unique
    and their order is irrelevant. *)
Definition payload := option (list (string * gval)).
Definition gval_of_payload (p : payload) : gval :=
  match p with None => GNil | Some kvs => GMap kvs end.
Fixpoint assoc (kvs : list (string * gval)) (k : string) : option gval :=
  match kvs with
  | [] => None
  | (k', v) :: kvs => if (k =? k')%string then Some v else assoc kvs k
  end.

(** [%T] of an anonymous struct: field name, type and json tag of each field. *)
Definition dquote : string := String (chr 34) "".
Definition struct_tname (fields : list (string * string * string)) : string :=
  let field f := let '(n, t, j) := f in
    Join [n; " "; t; " "; dquote; "json:\"; dquote; j; "\"; dquote; dquote] "" in
  Join ["struct { "; Join (map field fields) "; "; " }"] "".

(** ** [json.Marshal] *)

(** Length of the valid multi-byte UTF-8 sequence at the head, if any. *)
Definition utf8_len (l : list ascii) : option nat :=
  let btw lo hi (c : ascii) := ((lo <=? code c) && (code c <=? hi))%N in
  let cont := btw 128%N 191%N in
  match l with
  | a :: b :: r =>
    if btw 194%N 223%N a then if cont b then Some 2%nat else None
    else if btw 224%N 239%N a then
      match r with
      | c :: _ =>
        let ok := if (code a =? 224)%N then btw 160%N 191%N b
                  else if (code a =? 237)%N then btw 128%N 159%N b else cont b in
        if ok && cont c then Some 3%nat else None
      | [] => None
      end
    else if btw 240%N 244%N a then
      match r with
      | c :: d :: _ =>
        let ok := if (code a =? 240)%N then btw 144%N 191%N b
                  else if (code a =? 244)%N then btw 128%N 143%N b else cont b in
        if ok && cont c && cont d then Some 4%nat else None
      | _ => None
      end
    else None
  | _ => None
  end.

Definition hex_u (n : N) : list ascii :=
  let d (k : N) := chr (if (k <? 10)%N then 48 + k else 87 + k)%N in
  ["\"%char; "u"%char; "0"%char; "0"%char; d (n / 16)%N; d (n mod 16)%N].

Definition escape_ascii (c : ascii) : list ascii :=
  let n := code c in
  if ((n =? 34) || (n =? 92))%N then ["\"%char; c]
  else if (n =? 8)%N then ["\"%char; "b"%char]
  else if (n =? 12)%N then ["\"%char; "f"%char]
  else if (n =? 10)%N then ["\"%char; "n"%char]
  else if (n =? 13)%N then ["\"%char; "r"%char]
  else if (n =? 9)%N then ["\"%char; "t"%char]
  else if ((n <? 32) || (n =? 60) || (n =? 62) || (n =? 38))%N then hex_u n
  else [c].

Fixpoint escape (fuel : nat) (l : list ascii) : list ascii :=
  match fuel, l with
  | S fuel, a :: r =>
    if (code a <? 128)%N then escape_ascii a ++ escape fuel r
    else match utf8_len l with
         | Some n =>
           match l with
           | x :: y :: z :: _ =>
             if ((code x =? 226) && (code y =? 128) && ((code z =? 168) || (code z =? 169)))%N
             then bytes "\u202" ++ [if (code z =? 168)%N then "8"%char else "9"%char]
             else take n l
           | _ => take n l
           end ++ escape fuel (drop n l)
         | None => bytes "\ufffd" ++ escape fuel r
         end
  | _, _ => []
  end.
Definition json_string (s : string) : string :=
  let l := bytes s in Join [dquote; str (escape (length l) l); dquote] "".

Definition key_le (a b : string * string) : Prop := String.le a.1 b.1.
#[global] Instance key_le_dec : RelDecision key_le.
Proof. intros a b. unfold key_le. apply _. Defined.

Fixpoint sequence {E A} (l : list (result E A)) : result E (list A) :=
  match l with
  | [] => Ok []
  | Ok a :: l => match sequence l with Ok r => Ok (a :: r) | Err e => Err e end
  | Err e :: _ => Err e
  end.

Definition member (kv : string * string) : string := Join [json_string kv.1; ":"; kv.2] "".
Definition key_result (k : string) (r : result string string) : result string (string * string) :=
  match r with Ok s => Ok (k, s) | Err e => Err e end.

Fixpoint json_Marshal (v : gval) : result string string :=
  match v with
  | GNil => Ok "null"
  | GBool b => Ok (if b then "true" else "false")
  | GInt z => Ok (fmt_d z)
  | GFloat f => format_float true f
  | GNum s => Ok (if (s =? "")%string then "0" else s)
  | GStr s => Ok (json_string s)
  | GTime t =>
    let y := year_of t in
    if (y <? 0) || (9999 <? y) then Err "Time.MarshalJSON: year outside of range [0,9999]"
    else Ok (Join [dquote; FormatRFC3339Nano t; dquote] "")
  | GStrs l => Ok (Join ["["; Join (map json_string l) ","; "]"] "")
  | GArr l =>
    match sequence (map json_Marshal l) with
    | Ok r => Ok (Join ["["; Join r ","; "]"] "")
    | Err e => Err e
    end
  | GMap kvs =>
    match sequence (map (fun kv => key_result kv.1 (json_Marshal kv.2)) kvs) with
    | Ok r => Ok (Join ["{"; Join (map member (merge_sort key_le r)) ","; "}"] "")
    | Err e => Err e
    end
  | GStruct _ kvs =>
    match sequence (map (fun kv => key_result kv.1 (json_Marshal kv.2)) kvs) with
    | Ok r => Ok (Join ["{"; Join (map member r) ","; "}"] "")
    | Err e => Err e
    end
  end.

(** ** [fmt.Sprintf] with the [v] verb *)

Fixpoint fmt_v (v : gval) : string :=
  match v with
  | GNil => "<nil>"
  | GBool b => if b then "true" else "false"
  | GInt z => fmt_d z
  | GFloat f => match format_float false f with Ok s => s | Err e => e end
  | GNum s => s
  | GStr s => s
  | GTime t => Join [date_str t; " "; clock_str t; " +0000 UTC"] ""
  | GStrs l => Join ["["; Join l " "; "]"] ""
  | GArr l => Join ["["; Join (map fmt_v l) " "; "]"] ""
  | GMap kvs =>
    Join ["map["; Join (map (fun kv => Join [kv.1; ":"; kv.2] "")
                            (merge_sort key_le (map (fun kv => (kv.1, fmt_v kv.2)) kvs))) " "; "]"] ""
  | GStruct _ kvs => Join ["{"; Join (map (fun kv => fmt_v kv.2) kvs) " "; "}"] ""
  end.

Example marshal_map :
  json_Marshal (GMap [("b", GInt 2); ("a", GArr [GStr "x<y"; GNil; GBool true])])
  = Ok (Join ["{"; dquote; "a"; dquote; ":["; dquote; "x\u003cy"; dquote; ",null,true],";
              dquote; "b"; dquote; ":2}"] "").
Proof. vm_compute. reflexivity. Qed.

Example marshal_nan : json_Marshal (GFloat S754_nan) = Err "json: unsupported value: NaN".
Proof. reflexivity. Qed.
