(* ===== verification/RunTypes.v ===== *)
(** * The data of the Run kernel ([internal/run/types.go] and the structs of
    [internal/run/kernel.go])

    Structs are records with the source's field names behind a prefix, with one
    setter per field the kernel assigns.  The enumerations of the source are
    string constants there and here.  A nil map and an empty map of attached
    tags are read alike by all of the code, so both are the empty map. *)

From S2P Require Import Prelude GoStrings GoTime GoJson.

(** ** Constants *)

Definition StateRunning : string := "RUNNING".
Definition StateParked : string := "PARKED".
Definition StateAwaitingApproval : string := "AWAITING_APPROVAL".
Definition StateReconciling : string := "RECONCILING".
Definition StateCompleted : string := "COMPLETED".
Definition StateFailed : string := "FAILED".
Definition StateSafeguardHold : string := "SAFEGUARD_HOLD".
Definition StateForceReviewRequired : string := "FORCE_REVIEW_REQUIRED".
Definition StateForceAbort : string := "FORCE_ABORT".
Definition StateAborted : string := "ABORTED".

Definition TokenTypePark : string := "park".
Definition TokenTypeApproval : string := "approval".
Definition TokenTypeCallback : string := "callback".

Definition RootTypeCompleted : string := "completed_root".
Definition RootTypePartial : string := "partial_root".
Definition RootTypeReconciled : string := "reconciled_root".
Definition RootTypeReviewHold : string := "review_hold_root".
Definition RootTypeAborted : string := "aborted_root".

Definition StepTypeNormal : string := "normal".
Definition StepTypeSynthetic : string := "synthetic".

Definition RiskLow : string := "low".
Definition RiskMedium : string := "medium".
Definition RiskHigh : string := "high".
Definition RiskCritical : string := "critical".

(** The ten state constants. *)
Definition run_states : list string :=
  [StateRunning; StateParked; StateAwaitingApproval; StateReconciling; StateCompleted; StateFailed;
   StateSafeguardHold; StateForceReviewRequired; StateForceAbort; StateAborted].

(** ** Requests and responses *)

Record KernelError := mk_KernelError {
  ke_StatusCode : Z;
  ke_Code : string;
  ke_Message : string;
  ke_ReasonCodes : list string
}.

Record SnapshotInput := mk_SnapshotInput {
  si_PolicyBundleID : string;
  si_ModelProfileID : string;
  si_DependencyBundleID : string;
  si_SkillBundleSetHash : string;
  si_ContextPolicySpaceHash : string
}.

Record CreateRunRequest := mk_CreateRunRequest {
  cr_RequestID : string;
  cr_TenantID : string;
  cr_WorkflowID : string;
  cr_WorkflowVersion : string;
  cr_RiskTier : string;
  cr_InputPayloadRef : string;
  cr_Snapshot : SnapshotInput
}.

Record CreateRunResponse := mk_CreateRunResponse {
  crr_RunID : string;
  crr_SnapshotHash : string;
  crr_ContextPolicySpaceHash : string;
  crr_InitialState : string;
  crr_CreatedAt : time
}.

Record DecisionRef := mk_DecisionRef {
  df_DecisionID : string;
  df_DecisionHash : string;
  df_DecisionHashKind : string
}.

Record DecisionObligation := mk_DecisionObligation {
  ob_Type : string;
  ob_Target : string;
  ob_Value : string;
  ob_Phase : string;
  ob_Strictness : Z
}.

Record DecisionReference := mk_DecisionReference {
  dr_DecisionID : string;
  dr_RunID : string;
  dr_StepID : string;
  dr_AttemptIndex : Z;
  dr_Phase : string;
  dr_Decision : string;
  dr_Obligations : list DecisionObligation;
  dr_DecisionHash : string;
  dr_HashValid : bool;
  dr_HashKind : string
}.

(** The used resources of a receipt: [None] is the nil map. *)
Definition resources := option (list (string * float64)).

Record AdvanceRunRequest := mk_AdvanceRunRequest {
  ar_ExpectedStateVersion : Z;
  ar_StepID : string;
  ar_StepVersion : string;
  ar_IdempotencyKey : string;
  ar_DecisionRef : DecisionRef;
  ar_ExecutionReceiptRef : string;
  ar_ExecutionUsedResources : resources;
  ar_ExecutionReceiptAt : time;
  ar_IncomingStepSeqID : Z;
  ar_InputHash : string;
  ar_OutputHash : string;
  ar_NextState : string
}.

Record AdvanceRunResponse := mk_AdvanceRunResponse {
  arr_NewState : string;
  arr_NextAction : string;
  arr_StateVersion : Z;
  arr_StepHash : string;
  arr_RunIntegrityRoot : string;
  arr_RunIntegrityRootVersion : Z;
  arr_IntegrityRootType : string;
  arr_CurrentStepSeqID : Z
}.

Record ParkRunRequest := mk_ParkRunRequest {
  pr_ExpectedStateVersion : Z;
  pr_StepID : string;
  pr_IncomingStepSeqID : Z;
  pr_TokenType : string;
  pr_ParkReason : string;
  pr_TTLSeconds : Z
}.

Record ParkRunResponse := mk_ParkRunResponse {
  prr_RunID : string;
  prr_NewState : string;
  prr_StateVersion : Z;
  prr_ContinuationToken : string;
  prr_ContinuationType : string;
  prr_ExpiresAt : time;
  prr_PartialIntegrityRoot : string
}.

Record ResumeRunRequest := mk_ResumeRunRequest {
  rr_ContinuationToken : string;
  rr_ResumeReason : string;
  rr_ReceiptRef : string;
  rr_IncomingStepSeqID : Z;
  rr_ExpectedSnapshotHash : string
}.

Record ResumeRunResponse := mk_ResumeRunResponse {
  rrr_ResumeStatus : string;
  rrr_NewState : string;
  rrr_StateVersion : Z
}.

Record AbortRunRequest := mk_AbortRunRequest {
  abr_Reason : string
}.

(** ** The run and what is stored about it *)

Record RunSnapshot := mk_RunSnapshot {
  rs_PolicyBundleID : string;
  rs_ModelProfileID : string;
  rs_DependencyBundleID : string;
  rs_SkillBundleSetHash : string;
  rs_ContextPolicySpaceHash : string;
  rs_SnapshotHash : string;
  rs_CreatedAt : time
}.

Definition rs_set_SnapshotHash (x : string) (r : RunSnapshot) : RunSnapshot :=
  mk_RunSnapshot (rs_PolicyBundleID r) (rs_ModelProfileID r) (rs_DependencyBundleID r)
    (rs_SkillBundleSetHash r) (rs_ContextPolicySpaceHash r) x (rs_CreatedAt r).

Record RootAnchors := mk_RootAnchors {
  ra_CompletedRoot : string;
  ra_PartialRoot : string;
  ra_ReconciledRoot : string;
  ra_ReviewHoldRoot : string;
  ra_AbortedRoot : string
}.

Definition ra_set_CompletedRoot (x : string) (r : RootAnchors) : RootAnchors :=
  mk_RootAnchors x (ra_PartialRoot r) (ra_ReconciledRoot r) (ra_ReviewHoldRoot r) (ra_AbortedRoot r).
Definition ra_set_PartialRoot (x : string) (r : RootAnchors) : RootAnchors :=
  mk_RootAnchors (ra_CompletedRoot r) x (ra_ReconciledRoot r) (ra_ReviewHoldRoot r)
    (ra_AbortedRoot r).
Definition ra_set_ReconciledRoot (x : string) (r : RootAnchors) : RootAnchors :=
  mk_RootAnchors (ra_CompletedRoot r) (ra_PartialRoot r) x (ra_ReviewHoldRoot r) (ra_AbortedRoot r).
Definition ra_set_ReviewHoldRoot (x : string) (r : RootAnchors) : RootAnchors :=
  mk_RootAnchors (ra_CompletedRoot r) (ra_PartialRoot r) (ra_ReconciledRoot r) x (ra_AbortedRoot r).
Definition ra_set_AbortedRoot (x : string) (r : RootAnchors) : RootAnchors :=
  mk_RootAnchors (ra_CompletedRoot r) (ra_PartialRoot r) (ra_ReconciledRoot r) (ra_ReviewHoldRoot r)
    x.

Record RunView := mk_RunView {
  rv_RunID : string;
  rv_TenantID : string;
  rv_WorkflowID : string;
  rv_WorkflowVersion : string;
  rv_State : string;
  rv_ActiveStepID : string;
  rv_StateVersion : Z;
  rv_RiskTier : string;
  rv_IntegrityChainVersion : string;
  rv_LastStepHash : string;
  rv_RunIntegrityRoot : string;
  rv_RunIntegrityRootVersion : Z;
  rv_IntegrityRootType : string;
  rv_TerminalReason : string;
  rv_TerminalSource : string;
  rv_AttachedTags : gmap string string;
  rv_CurrentStepSeqID : Z;
  rv_CreatedAt : time;
  rv_UpdatedAt : time;
  rv_LastProgressAt : time;
  rv_Snapshot : RunSnapshot;
  rv_RootAnchors : RootAnchors
}.

Definition rv_set_State (x : string) (r : RunView) : RunView :=
  mk_RunView (rv_RunID r) (rv_TenantID r) (rv_WorkflowID r) (rv_WorkflowVersion r) x
    (rv_ActiveStepID r) (rv_StateVersion r) (rv_RiskTier r) (rv_IntegrityChainVersion r)
    (rv_LastStepHash r) (rv_RunIntegrityRoot r) (rv_RunIntegrityRootVersion r)
    (rv_IntegrityRootType r) (rv_TerminalReason r) (rv_TerminalSource r) (rv_AttachedTags r)
    (rv_CurrentStepSeqID r) (rv_CreatedAt r) (rv_UpdatedAt r) (rv_LastProgressAt r) (rv_Snapshot r)
    (rv_RootAnchors r).
Definition rv_set_ActiveStepID (x : string) (r : RunView) : RunView :=
  mk_RunView (rv_RunID r) (rv_TenantID r) (rv_WorkflowID r) (rv_WorkflowVersion r) (rv_State r) x
    (rv_StateVersion r) (rv_RiskTier r) (rv_IntegrityChainVersion r) (rv_LastStepHash r)
    (rv_RunIntegrityRoot r) (rv_RunIntegrityRootVersion r) (rv_IntegrityRootType r)
    (rv_TerminalReason r) (rv_TerminalSource r) (rv_AttachedTags r) (rv_CurrentStepSeqID r)
    (rv_CreatedAt r) (rv_UpdatedAt r) (rv_LastProgressAt r) (rv_Snapshot r) (rv_RootAnchors r).
Definition rv_set_StateVersion (x : Z) (r : RunView) : RunView :=
  mk_RunView (rv_RunID r) (rv_TenantID r) (rv_WorkflowID r) (rv_WorkflowVersion r) (rv_State r)
    (rv_ActiveStepID r) x (rv_RiskTier r) (rv_IntegrityChainVersion r) (rv_LastStepHash r)
    (rv_RunIntegrityRoot r) (rv_RunIntegrityRootVersion r) (rv_IntegrityRootType r)
    (rv_TerminalReason r) (rv_TerminalSource r) (rv_AttachedTags r) (rv_CurrentStepSeqID r)
    (rv_CreatedAt r) (rv_UpdatedAt r) (rv_LastProgressAt r) (rv_Snapshot r) (rv_RootAnchors r).
Definition rv_set_LastStepHash (x : string) (r : RunView) : RunView :=
  mk_RunView (rv_RunID r) (rv_TenantID r) (rv_WorkflowID r) (rv_WorkflowVersion r) (rv_State r)
    (rv_ActiveStepID r) (rv_StateVersion r) (rv_RiskTier r) (rv_IntegrityChainVersion r) x
    (rv_RunIntegrityRoot r) (rv_RunIntegrityRootVersion r) (rv_IntegrityRootType r)
    (rv_TerminalReason r) (rv_TerminalSource r) (rv_AttachedTags r) (rv_CurrentStepSeqID r)
    (rv_CreatedAt r) (rv_UpdatedAt r) (rv_LastProgressAt r) (rv_Snapshot r) (rv_RootAnchors r).
Definition rv_set_RunIntegrityRoot (x : string) (r : RunView) : RunView :=
  mk_RunView (rv_RunID r) (rv_TenantID r) (rv_WorkflowID r) (rv_WorkflowVersion r) (rv_State r)
    (rv_ActiveStepID r) (rv_StateVersion r) (rv_RiskTier r) (rv_IntegrityChainVersion r)
    (rv_LastStepHash r) x (rv_RunIntegrityRootVersion r) (rv_IntegrityRootType r)
    (rv_TerminalReason r) (rv_TerminalSource r) (rv_AttachedTags r) (rv_CurrentStepSeqID r)
    (rv_CreatedAt r) (rv_UpdatedAt r) (rv_LastProgressAt r) (rv_Snapshot r) (rv_RootAnchors r).
Definition rv_set_RunIntegrityRootVersion (x : Z) (r : RunView) : RunView :=
  mk_RunView (rv_RunID r) (rv_TenantID r) (rv_WorkflowID r) (rv_WorkflowVersion r) (rv_State r)
    (rv_ActiveStepID r) (rv_StateVersion r) (rv_RiskTier r) (rv_IntegrityChainVersion r)
    (rv_LastStepHash r) (rv_RunIntegrityRoot r) x (rv_IntegrityRootType r) (rv_TerminalReason r)
    (rv_TerminalSource r) (rv_AttachedTags r) (rv_CurrentStepSeqID r) (rv_CreatedAt r)
    (rv_UpdatedAt r) (rv_LastProgressAt r) (rv_Snapshot r) (rv_RootAnchors r).
Definition rv_set_IntegrityRootType (x : string) (r : RunView) : RunView :=
  mk_RunView (rv_RunID r) (rv_TenantID r) (rv_WorkflowID r) (rv_WorkflowVersion r) (rv_State r)
    (rv_ActiveStepID r) (rv_StateVersion r) (rv_RiskTier r) (rv_IntegrityChainVersion r)
    (rv_LastStepHash r) (rv_RunIntegrityRoot r) (rv_RunIntegrityRootVersion r) x
    (rv_TerminalReason r) (rv_TerminalSource r) (rv_AttachedTags r) (rv_CurrentStepSeqID r)
    (rv_CreatedAt r) (rv_UpdatedAt r) (rv_LastProgressAt r) (rv_Snapshot r) (rv_RootAnchors r).
Definition rv_set_TerminalReason (x : string) (r : RunView) : RunView :=
  mk_RunView (rv_RunID r) (rv_TenantID r) (rv_WorkflowID r) (rv_WorkflowVersion r) (rv_State r)
    (rv_ActiveStepID r) (rv_StateVersion r) (rv_RiskTier r) (rv_IntegrityChainVersion r)
    (rv_LastStepHash r) (rv_RunIntegrityRoot r) (rv_RunIntegrityRootVersion r)
    (rv_IntegrityRootType r) x (rv_TerminalSource r) (rv_AttachedTags r) (rv_CurrentStepSeqID r)
    (rv_CreatedAt r) (rv_UpdatedAt r) (rv_LastProgressAt r) (rv_Snapshot r) (rv_RootAnchors r).
Definition rv_set_TerminalSource (x : string) (r : RunView) : RunView :=
  mk_RunView (rv_RunID r) (rv_TenantID r) (rv_WorkflowID r) (rv_WorkflowVersion r) (rv_State r)
    (rv_ActiveStepID r) (rv_StateVersion r) (rv_RiskTier r) (rv_IntegrityChainVersion r)
    (rv_LastStepHash r) (rv_RunIntegrityRoot r) (rv_RunIntegrityRootVersion r)
    (rv_IntegrityRootType r) (rv_TerminalReason r) x (rv_AttachedTags r) (rv_CurrentStepSeqID r)
    (rv_CreatedAt r) (rv_UpdatedAt r) (rv_LastProgressAt r) (rv_Snapshot r) (rv_RootAnchors r).
Definition rv_set_AttachedTags (x : gmap string string) (r : RunView) : RunView :=
  mk_RunView (rv_RunID r) (rv_TenantID r) (rv_WorkflowID r) (rv_WorkflowVersion r) (rv_State r)
    (rv_ActiveStepID r) (rv_StateVersion r) (rv_RiskTier r) (rv_IntegrityChainVersion r)
    (rv_LastStepHash r) (rv_RunIntegrityRoot r) (rv_RunIntegrityRootVersion r)
    (rv_IntegrityRootType r) (rv_TerminalReason r) (rv_TerminalSource r) x (rv_CurrentStepSeqID r)
    (rv_CreatedAt r) (rv_UpdatedAt r) (rv_LastProgressAt r) (rv_Snapshot r) (rv_RootAnchors r).
Definition rv_set_CurrentStepSeqID (x : Z) (r : RunView) : RunView :=
  mk_RunView (rv_RunID r) (rv_TenantID r) (rv_WorkflowID r) (rv_WorkflowVersion r) (rv_State r)
    (rv_ActiveStepID r) (rv_StateVersion r) (rv_RiskTier r) (rv_IntegrityChainVersion r)
    (rv_LastStepHash r) (rv_RunIntegrityRoot r) (rv_RunIntegrityRootVersion r)
    (rv_IntegrityRootType r) (rv_TerminalReason r) (rv_TerminalSource r) (rv_AttachedTags r) x
    (rv_CreatedAt r) (rv_UpdatedAt r) (rv_LastProgressAt r) (rv_Snapshot r) (rv_RootAnchors r).
Definition rv_set_UpdatedAt (x : time) (r : RunView) : RunView :=
  mk_RunView (rv_RunID r) (rv_TenantID r) (rv_WorkflowID r) (rv_WorkflowVersion r) (rv_State r)
    (rv_ActiveStepID r) (rv_StateVersion r) (rv_RiskTier r) (rv_IntegrityChainVersion r)
    (rv_LastStepHash r) (rv_RunIntegrityRoot r) (rv_RunIntegrityRootVersion r)
    (rv_IntegrityRootType r) (rv_TerminalReason r) (rv_TerminalSource r) (rv_AttachedTags r)
    (rv_CurrentStepSeqID r) (rv_CreatedAt r) x (rv_LastProgressAt r) (rv_Snapshot r)
    (rv_RootAnchors r).
Definition rv_set_LastProgressAt (x : time) (r : RunView) : RunView :=
  mk_RunView (rv_RunID r) (rv_TenantID r) (rv_WorkflowID r) (rv_WorkflowVersion r) (rv_State r)
    (rv_ActiveStepID r) (rv_StateVersion r) (rv_RiskTier r) (rv_IntegrityChainVersion r)
    (rv_LastStepHash r) (rv_RunIntegrityRoot r) (rv_RunIntegrityRootVersion r)
    (rv_IntegrityRootType r) (rv_TerminalReason r) (rv_TerminalSource r) (rv_AttachedTags r)
    (rv_CurrentStepSeqID r) (rv_CreatedAt r) (rv_UpdatedAt r) x (rv_Snapshot r) (rv_RootAnchors r).
Definition rv_set_RootAnchors (x : RootAnchors) (r : RunView) : RunView :=
  mk_RunView (rv_RunID r) (rv_TenantID r) (rv_WorkflowID r) (rv_WorkflowVersion r) (rv_State r)
    (rv_ActiveStepID r) (rv_StateVersion r) (rv_RiskTier r) (rv_IntegrityChainVersion r)
    (rv_LastStepHash r) (rv_RunIntegrityRoot r) (rv_RunIntegrityRootVersion r)
    (rv_IntegrityRootType r) (rv_TerminalReason r) (rv_TerminalSource r) (rv_AttachedTags r)
    (rv_CurrentStepSeqID r) (rv_CreatedAt r) (rv_UpdatedAt r) (rv_LastProgressAt r) (rv_Snapshot r)
    x.

Record StepIntegrity := mk_StepIntegrity {
  sg_RunID : string;
  sg_StepID : string;
  sg_StepSeqID : Z;
  sg_StepType : string;
  sg_SyntheticType : string;
  sg_IntegrityChainVersion : string;
  sg_PreviousStepHash : string;
  sg_DecisionHash : string;
  sg_InputHash : string;
  sg_OutputHash : string;
  sg_StepHash : string;
  sg_CreatedAt : time
}.

Record Continuation := mk_Continuation {
  ct_ContinuationID : string;
  ct_RunID : string;
  ct_StepID : string;
  ct_StepSeqID : Z;
  ct_TokenType : string;
  ct_TokenHash : string;
  ct_ExpiresAt : time;
  ct_Status : string;
  ct_CreatedAt : time;
  ct_ConsumedAt : option time
}.

Definition ct_set_Status (x : string) (r : Continuation) : Continuation :=
  mk_Continuation (ct_ContinuationID r) (ct_RunID r) (ct_StepID r) (ct_StepSeqID r) (ct_TokenType r)
    (ct_TokenHash r) (ct_ExpiresAt r) x (ct_CreatedAt r) (ct_ConsumedAt r).
Definition ct_set_ConsumedAt (x : option time) (r : Continuation) : Continuation :=
  mk_Continuation (ct_ContinuationID r) (ct_RunID r) (ct_StepID r) (ct_StepSeqID r) (ct_TokenType r)
    (ct_TokenHash r) (ct_ExpiresAt r) (ct_Status r) (ct_CreatedAt r) x.

Record KernelEvent := mk_KernelEvent {
  ev_EventID : string;
  ev_EventType : string;
  ev_SchemaVersion : Z;
  ev_SourceComponent : string;
  ev_EvidenceGrade : string;
  ev_PayloadIntegrityRequired : bool;
  ev_RunID : string;
  ev_StepID : string;
  ev_EventTS : time;
  ev_PayloadRef : string;
  ev_PayloadHash : string;
  ev_PayloadHashValid : bool;
  ev_Payload : gval
}.

Record SweepResult := mk_SweepResult {
  sw_Scanned : Z;
  sw_ForceAbortCount : Z;
  sw_ForceReviewRequiredCount : Z;
  sw_ZombieTerminatedCount : Z;
  sw_SkippedIntegrityErrors : Z;
  sw_DeletedContinuations : Z;
  sw_DeletedIdempotency : Z;
  sw_DeletedRuns : Z;
  sw_DeletedCreateRequests : Z;
  sw_OutboxTrimmed : Z
}.

Definition sw_set_Scanned (x : Z) (r : SweepResult) : SweepResult :=
  mk_SweepResult x (sw_ForceAbortCount r) (sw_ForceReviewRequiredCount r)
    (sw_ZombieTerminatedCount r) (sw_SkippedIntegrityErrors r) (sw_DeletedContinuations r)
    (sw_DeletedIdempotency r) (sw_DeletedRuns r) (sw_DeletedCreateRequests r) (sw_OutboxTrimmed r).
Definition sw_set_ForceAbortCount (x : Z) (r : SweepResult) : SweepResult :=
  mk_SweepResult (sw_Scanned r) x (sw_ForceReviewRequiredCount r) (sw_ZombieTerminatedCount r)
    (sw_SkippedIntegrityErrors r) (sw_DeletedContinuations r) (sw_DeletedIdempotency r)
    (sw_DeletedRuns r) (sw_DeletedCreateRequests r) (sw_OutboxTrimmed r).
Definition sw_set_ForceReviewRequiredCount (x : Z) (r : SweepResult) : SweepResult :=
  mk_SweepResult (sw_Scanned r) (sw_ForceAbortCount r) x (sw_ZombieTerminatedCount r)
    (sw_SkippedIntegrityErrors r) (sw_DeletedContinuations r) (sw_DeletedIdempotency r)
    (sw_DeletedRuns r) (sw_DeletedCreateRequests r) (sw_OutboxTrimmed r).
Definition sw_set_ZombieTerminatedCount (x : Z) (r : SweepResult) : SweepResult :=
  mk_SweepResult (sw_Scanned r) (sw_ForceAbortCount r) (sw_ForceReviewRequiredCount r) x
    (sw_SkippedIntegrityErrors r) (sw_DeletedContinuations r) (sw_DeletedIdempotency r)
    (sw_DeletedRuns r) (sw_DeletedCreateRequests r) (sw_OutboxTrimmed r).
Definition sw_set_SkippedIntegrityErrors (x : Z) (r : SweepResult) : SweepResult :=
  mk_SweepResult (sw_Scanned r) (sw_ForceAbortCount r) (sw_ForceReviewRequiredCount r)
    (sw_ZombieTerminatedCount r) x (sw_DeletedContinuations r) (sw_DeletedIdempotency r)
    (sw_DeletedRuns r) (sw_DeletedCreateRequests r) (sw_OutboxTrimmed r).
Definition sw_set_DeletedContinuations (x : Z) (r : SweepResult) : SweepResult :=
  mk_SweepResult (sw_Scanned r) (sw_ForceAbortCount r) (sw_ForceReviewRequiredCount r)
    (sw_ZombieTerminatedCount r) (sw_SkippedIntegrityErrors r) x (sw_DeletedIdempotency r)
    (sw_DeletedRuns r) (sw_DeletedCreateRequests r) (sw_OutboxTrimmed r).
Definition sw_set_DeletedIdempotency (x : Z) (r : SweepResult) : SweepResult :=
  mk_SweepResult (sw_Scanned r) (sw_ForceAbortCount r) (sw_ForceReviewRequiredCount r)
    (sw_ZombieTerminatedCount r) (sw_SkippedIntegrityErrors r) (sw_DeletedContinuations r) x
    (sw_DeletedRuns r) (sw_DeletedCreateRequests r) (sw_OutboxTrimmed r).
Definition sw_set_DeletedRuns (x : Z) (r : SweepResult) : SweepResult :=
  mk_SweepResult (sw_Scanned r) (sw_ForceAbortCount r) (sw_ForceReviewRequiredCount r)
    (sw_ZombieTerminatedCount r) (sw_SkippedIntegrityErrors r) (sw_DeletedContinuations r)
    (sw_DeletedIdempotency r) x (sw_DeletedCreateRequests r) (sw_OutboxTrimmed r).
Definition sw_set_DeletedCreateRequests (x : Z) (r : SweepResult) : SweepResult :=
  mk_SweepResult (sw_Scanned r) (sw_ForceAbortCount r) (sw_ForceReviewRequiredCount r)
    (sw_ZombieTerminatedCount r) (sw_SkippedIntegrityErrors r) (sw_DeletedContinuations r)
    (sw_DeletedIdempotency r) (sw_DeletedRuns r) x (sw_OutboxTrimmed r).
Definition sw_set_OutboxTrimmed (x : Z) (r : SweepResult) : SweepResult :=
  mk_SweepResult (sw_Scanned r) (sw_ForceAbortCount r) (sw_ForceReviewRequiredCount r)
    (sw_ZombieTerminatedCount r) (sw_SkippedIntegrityErrors r) (sw_DeletedContinuations r)
    (sw_DeletedIdempotency r) (sw_DeletedRuns r) (sw_DeletedCreateRequests r) x.

Definition empty_SweepResult : SweepResult := mk_SweepResult 0 0 0 0 0 0 0 0 0 0.

(** ** Configuration and kernel state *)

Record Config := mk_Config {
  cfg_ContinuationTTL : duration;
  cfg_ContinuationRetention : duration;
  cfg_IdempotencyTTL : duration;
  cfg_RunRetention : duration;
  cfg_CreateRequestRetention : duration;
  cfg_OutboxMaxEvents : Z;
  cfg_OutboxRetention : duration;
  cfg_RunMaxLifetime : gmap string duration;
  cfg_ZombieNoProgressWindow : duration;
  cfg_SweepBatchLimit : Z
}.

Record runInstance := mk_runInstance {
  ri_view : RunView;
  ri_maxLifetime : duration;
  ri_securityRisk : bool;
  ri_resourceRisk : bool;
  ri_noProgressScans : Z
}.

Definition ri_set_view (x : RunView) (r : runInstance) : runInstance :=
  mk_runInstance x (ri_maxLifetime r) (ri_securityRisk r) (ri_resourceRisk r) (ri_noProgressScans r).
Definition ri_set_securityRisk (x : bool) (r : runInstance) : runInstance :=
  mk_runInstance (ri_view r) (ri_maxLifetime r) x (ri_resourceRisk r) (ri_noProgressScans r).
Definition ri_set_resourceRisk (x : bool) (r : runInstance) : runInstance :=
  mk_runInstance (ri_view r) (ri_maxLifetime r) (ri_securityRisk r) x (ri_noProgressScans r).
Definition ri_set_noProgressScans (x : Z) (r : runInstance) : runInstance :=
  mk_runInstance (ri_view r) (ri_maxLifetime r) (ri_securityRisk r) (ri_resourceRisk r) x.

Record idempotencyEntry := mk_idempotencyEntry {
  ie_RunID : string;
  ie_Response : AdvanceRunResponse;
  ie_CreatedAt : time;
  ie_LastAccessAt : time
}.

Definition ie_set_LastAccessAt (x : time) (r : idempotencyEntry) : idempotencyEntry :=
  mk_idempotencyEntry (ie_RunID r) (ie_Response r) (ie_CreatedAt r) x.

Record createRunEntry := mk_createRunEntry {
  ce_RunID : string;
  ce_RequestHash : string;
  ce_Response : CreateRunResponse;
  ce_CreatedAt : time;
  ce_LastAccessAt : time
}.

Definition ce_set_LastAccessAt (x : time) (r : createRunEntry) : createRunEntry :=
  mk_createRunEntry (ce_RunID r) (ce_RequestHash r) (ce_Response r) (ce_CreatedAt r) x.

(** The kernel without its mutex: every operation holds [mu] throughout, so an
    operation is one step on this state. *)
Record Kernel := mk_Kernel {
  k_cfg : Config;
  k_runs : gmap string runInstance;
  k_continuations : gmap string Continuation;
  k_idempotency : gmap string idempotencyEntry;
  k_createRuns : gmap string createRunEntry;
  k_stepIntegrity : gmap string (list StepIntegrity);
  k_outbox : list KernelEvent;
  k_eventSeq : Z;
  k_runSeq : Z;
  k_outboxTrimmed : Z;
  k_createRunConflictTotal : Z;
  k_createRunReuseTotal : Z
}.

Definition k_set_runs (x : gmap string runInstance) (r : Kernel) : Kernel :=
  mk_Kernel (k_cfg r) x (k_continuations r) (k_idempotency r) (k_createRuns r) (k_stepIntegrity r)
    (k_outbox r) (k_eventSeq r) (k_runSeq r) (k_outboxTrimmed r) (k_createRunConflictTotal r)
    (k_createRunReuseTotal r).
Definition k_set_continuations (x : gmap string Continuation) (r : Kernel) : Kernel :=
  mk_Kernel (k_cfg r) (k_runs r) x (k_idempotency r) (k_createRuns r) (k_stepIntegrity r)
    (k_outbox r) (k_eventSeq r) (k_runSeq r) (k_outboxTrimmed r) (k_createRunConflictTotal r)
    (k_createRunReuseTotal r).
Definition k_set_idempotency (x : gmap string idempotencyEntry) (r : Kernel) : Kernel :=
  mk_Kernel (k_cfg r) (k_runs r) (k_continuations r) x (k_createRuns r) (k_stepIntegrity r)
    (k_outbox r) (k_eventSeq r) (k_runSeq r) (k_outboxTrimmed r) (k_createRunConflictTotal r)
    (k_createRunReuseTotal r).
Definition k_set_createRuns (x : gmap string createRunEntry) (r : Kernel) : Kernel :=
  mk_Kernel (k_cfg r) (k_runs r) (k_continuations r) (k_idempotency r) x (k_stepIntegrity r)
    (k_outbox r) (k_eventSeq r) (k_runSeq r) (k_outboxTrimmed r) (k_createRunConflictTotal r)
    (k_createRunReuseTotal r).
Definition k_set_stepIntegrity (x : gmap string (list StepIntegrity)) (r : Kernel) : Kernel :=
  mk_Kernel (k_cfg r) (k_runs r) (k_continuations r) (k_idempotency r) (k_createRuns r) x
    (k_outbox r) (k_eventSeq r) (k_runSeq r) (k_outboxTrimmed r) (k_createRunConflictTotal r)
    (k_createRunReuseTotal r).
Definition k_set_outbox (x : list KernelEvent) (r : Kernel) : Kernel :=
  mk_Kernel (k_cfg r) (k_runs r) (k_continuations r) (k_idempotency r) (k_createRuns r)
    (k_stepIntegrity r) x (k_eventSeq r) (k_runSeq r) (k_outboxTrimmed r)
    (k_createRunConflictTotal r) (k_createRunReuseTotal r).
Definition k_set_eventSeq (x : Z) (r : Kernel) : Kernel :=
  mk_Kernel (k_cfg r) (k_runs r) (k_continuations r) (k_idempotency r) (k_createRuns r)
    (k_stepIntegrity r) (k_outbox r) x (k_runSeq r) (k_outboxTrimmed r) (k_createRunConflictTotal r)
    (k_createRunReuseTotal r).
Definition k_set_runSeq (x : Z) (r : Kernel) : Kernel :=
  mk_Kernel (k_cfg r) (k_runs r) (k_continuations r) (k_idempotency r) (k_createRuns r)
    (k_stepIntegrity r) (k_outbox r) (k_eventSeq r) x (k_outboxTrimmed r)
    (k_createRunConflictTotal r) (k_createRunReuseTotal r).
Definition k_set_outboxTrimmed (x : Z) (r : Kernel) : Kernel :=
  mk_Kernel (k_cfg r) (k_runs r) (k_continuations r) (k_idempotency r) (k_createRuns r)
    (k_stepIntegrity r) (k_outbox r) (k_eventSeq r) (k_runSeq r) x (k_createRunConflictTotal r)
    (k_createRunReuseTotal r).
Definition k_set_createRunConflictTotal (x : Z) (r : Kernel) : Kernel :=
  mk_Kernel (k_cfg r) (k_runs r) (k_continuations r) (k_idempotency r) (k_createRuns r)
    (k_stepIntegrity r) (k_outbox r) (k_eventSeq r) (k_runSeq r) (k_outboxTrimmed r) x
    (k_createRunReuseTotal r).
Definition k_set_createRunReuseTotal (x : Z) (r : Kernel) : Kernel :=
  mk_Kernel (k_cfg r) (k_runs r) (k_continuations r) (k_idempotency r) (k_createRuns r)
    (k_stepIntegrity r) (k_outbox r) (k_eventSeq r) (k_runSeq r) (k_outboxTrimmed r)
    (k_createRunConflictTotal r) x.

(** What a run kernel needs from the decision side during one call. *)
Record DecisionPort := mk_DecisionPort {
  IsDecisionConfirmed : string -> string -> string -> bool;
  IsDecisionConfirmedWithOwner : string -> string -> string -> Z -> string -> bool;
  GetDecisionReference : string -> option DecisionReference;
  ValidateExecutionReceiptForRun :
    string -> string -> string -> string -> resources -> time -> bool * list string
}.
