(* ===== verification/RunStates.v ===== *)
(** * The run state machine and the other enumerations of the Run kernel
    ([internal/run/kernel.go], lines 1368-1502)

    The tests of the source on state, risk, token, phase and decision strings,
    the abstract state machine they implement, and the correspondence between
    the two. *)

From S2P Require Import Prelude GoStrings GoTime GoJson RunTypes.

Definition isExecutableDecision (decision : string) : bool :=
  let d := ToLower (TrimSpace decision) in
  if (d =? "")%string then true else one_of d ["allow"; "require_approval"].

Definition isObligationPhaseAllowed (runPhase obligationPhase : string) : bool :=
  let rp := ToUpper (TrimSpace runPhase) in
  let op := ToUpper (TrimSpace obligationPhase) in
  if (rp =? "PRE_CONTEXT")%string then (op =? "PRE_CONTEXT")%string
  else if (rp =? "PRE_TOOL")%string then (op =? "PRE_CONTEXT")%string || (op =? "PRE_TOOL")%string
  else false.

Definition normalizeRisk (risk : string) : string := ToLower (TrimSpace risk).

Definition normalizeState (state : string) : string :=
  let s := ToUpper (TrimSpace state) in if (s =? "")%string then "" else s.

Definition isValidRisk (risk : string) : bool :=
  one_of (normalizeRisk risk) [RiskLow; RiskMedium; RiskHigh; RiskCritical].

Definition isValidTokenType (tokenType : string) : bool :=
  one_of (ToLower (TrimSpace tokenType)) [TokenTypePark; TokenTypeApproval; TokenTypeCallback].

Definition tokenTypeMatchesRunState (tokenType runState : string) : bool :=
  let t := ToLower (TrimSpace tokenType) in
  let s := normalizeState runState in
  if (t =? TokenTypeApproval)%string then (s =? StateAwaitingApproval)%string
  else if one_of t [TokenTypePark; TokenTypeCallback] then (s =? StateParked)%string
  else false.

Definition isValidState (state : string) : bool := one_of (normalizeState state) run_states.

Definition isTerminalState (state : string) : bool :=
  one_of (normalizeState state) [StateCompleted; StateFailed; StateForceAbort; StateAborted].

Definition isAllowedTransition (from to : string) : bool :=
  let f := normalizeState from in
  let t := normalizeState to in
  if (f =? t)%string then true
  else if (f =? StateRunning)%string then
    one_of t [StateRunning; StateParked; StateAwaitingApproval; StateReconciling; StateCompleted;
              StateFailed; StateSafeguardHold; StateForceReviewRequired; StateForceAbort; StateAborted]
  else if (f =? StateReconciling)%string then
    one_of t [StateRunning; StateCompleted; StateFailed; StateForceReviewRequired; StateForceAbort]
  else if (f =? StateParked)%string then
    (t =? StateRunning)%string || (t =? StateForceReviewRequired)%string || (t =? StateForceAbort)%string
  else if (f =? StateAwaitingApproval)%string then
    (t =? StateRunning)%string || (t =? StateForceReviewRequired)%string || (t =? StateForceAbort)%string
  else if (f =? StateSafeguardHold)%string then
    (t =? StateForceReviewRequired)%string || (t =? StateForceAbort)%string || (t =? StateAborted)%string
  else false.

Definition nextActionByState (state : string) : string :=
  let s := normalizeState state in
  if (s =? StateRunning)%string then "continue"
  else if (s =? StateParked)%string then "wait_resume"
  else if (s =? StateAwaitingApproval)%string then "wait_approval"
  else if (s =? StateReconciling)%string then "reconcile"
  else if (s =? StateCompleted)%string then "done"
  else if (s =? StateForceReviewRequired)%string then "manual_review"
  else if one_of s [StateForceAbort; StateAborted] then "stop"
  else "halt".

(** ** The abstract state machine *)

Inductive run_state : Type :=
| Running | Parked | AwaitingApproval | Reconciling | Completed | Failed
| SafeguardHold | ForceReviewRequired | ForceAbort | Aborted.

#[export] Instance run_state_eq_dec : EqDecision run_state.
Proof. solve_decision. Defined.

Definition state_name (s : run_state) : string :=
  match s with
  | Running => StateRunning | Parked => StateParked | AwaitingApproval => StateAwaitingApproval
  | Reconciling => StateReconciling | Completed => StateCompleted | Failed => StateFailed
  | SafeguardHold => StateSafeguardHold | ForceReviewRequired => StateForceReviewRequired
  | ForceAbort => StateForceAbort | Aborted => StateAborted
  end.

(** The edges between distinct states. *)
Inductive edge : run_state -> run_state -> Prop :=
| edge_running s : s <> Running -> edge Running s
| edge_reconciling s :
    s ∈ [Running; Completed; Failed; ForceReviewRequired; ForceAbort] -> edge Reconciling s
| edge_waiting w s :
    w ∈ [Parked; AwaitingApproval] -> s ∈ [Running; ForceReviewRequired; ForceAbort] -> edge w s
| edge_hold s : s ∈ [ForceReviewRequired; ForceAbort; Aborted] -> edge SafeguardHold s.

Definition terminal (s : run_state) : Prop := s ∈ [Completed; Failed; ForceAbort; Aborted].
Definition waiting (s : run_state) : Prop := s ∈ [Parked; AwaitingApproval].

(** States from which a run never executes again. *)
Definition quarantined (s : run_state) : Prop :=
  s ∈ [SafeguardHold; ForceReviewRequired; ForceAbort; Aborted].

#[export] Instance terminal_dec s : Decision (terminal s).
Proof. unfold terminal. apply _. Defined.
#[export] Instance waiting_dec s : Decision (waiting s).
Proof. unfold waiting. apply _. Defined.
#[export] Instance quarantined_dec s : Decision (quarantined s).
Proof. unfold quarantined. apply _. Defined.

(** Decides a closed membership or inequality of states. *)
Ltac decide_state := apply (bool_decide_unpack _); vm_compute; exact I.

Lemma running_live : ~ terminal Running.
Proof. decide_state. Qed.
Lemma hold_live : ~ terminal SafeguardHold.
Proof. decide_state. Qed.
Lemma force_abort_terminal : terminal ForceAbort.
Proof. decide_state. Qed.
Lemma review_live : ~ terminal ForceReviewRequired.
Proof. decide_state. Qed.

(** ** Correspondence *)

Lemma normalizeState_upper s : normalizeState s = ToUpper (TrimSpace s).
Proof.
  unfold normalizeState. destruct (ToUpper (TrimSpace s) =? "")%string eqn:E; [|done].
  apply String.eqb_eq in E. by rewrite E.
Qed.

Lemma normalizeState_idem s : normalizeState (normalizeState s) = normalizeState s.
Proof. rewrite !normalizeState_upper. apply upper_trim_idem. Qed.

Lemma normalizeState_name s : normalizeState (state_name s) = state_name s.
Proof. destruct s; vm_compute; reflexivity. Qed.

Lemma normalizeRisk_idem s : normalizeRisk (normalizeRisk s) = normalizeRisk s.
Proof. apply lower_trim_idem. Qed.

#[export] Hint Rewrite normalizeState_idem normalizeState_name normalizeRisk_idem : go_simpl.

Lemma run_states_names s : In s run_states <-> exists q, s = state_name q.
Proof.
  split.
  - intros H. repeat (destruct H as [<-|H]); [..|done];
      (by exists Running) || (by exists Parked) || (by exists AwaitingApproval)
      || (by exists Reconciling) || (by exists Completed) || (by exists Failed)
      || (by exists SafeguardHold) || (by exists ForceReviewRequired)
      || (by exists ForceAbort) || (by exists Aborted).
  - intros [q ->]. destruct q; simpl; tauto.
Qed.

#[export] Instance state_name_inj : Inj (=) (=) state_name.
Proof. intros s t. destruct s, t; vm_compute; congruence. Qed.

(** A normalized valid state is one of the ten constants. *)
Lemma isValidState_normalized s :
  isValidState (normalizeState s) = true -> exists q, normalizeState s = state_name q.
Proof.
  unfold isValidState. rewrite normalizeState_idem, one_of_In. apply run_states_names.
Qed.

Lemma isTerminalState_name s : isTerminalState (state_name s) = bool_decide (terminal s).
Proof. destruct s; vm_compute; reflexivity. Qed.

Lemma isAllowedTransition_name s t :
  isAllowedTransition (state_name s) (state_name t) = true <-> s = t \/ edge s t.
Proof.
  destruct (decide (s = t)) as [->|Hne].
  { split; [by left|]. intros _. unfold isAllowedTransition. by rewrite String.eqb_refl. }
  split; [|intros [?|He]; [done|]].
  - intros Ht. right. destruct s; [by apply edge_running; congruence|..];
      destruct t; try (vm_compute in Ht; discriminate Ht); try (by destruct Hne);
      (apply edge_reconciling || apply edge_hold || apply edge_waiting);
      apply (bool_decide_unpack _); vm_compute; exact I.
  - destruct He as [s Hs|s Hs|w s Hw Hs|s Hs]; [by destruct s|..];
      repeat (apply elem_of_cons in Hs as [->|Hs]); try (by apply not_elem_of_nil in Hs);
      try reflexivity;
      repeat (apply elem_of_cons in Hw as [->|Hw]); try (by apply not_elem_of_nil in Hw);
      reflexivity.
Qed.
