(* ===== verification/RunOutbox.v ===== *)
(** * Hashing and the outbox of the Run kernel

    [hashJSONWithStatus], [isErrorHash], [kernelErr], event emission, trimming
    and draining ([internal/run/kernel.go], lines 795-819, 1079-1147, 1517-1538,
    1661-1684).

    [marshalJSON] is a package variable of the source ([var marshalJSON =
    json.Marshal], which its tests replace): it is a class here, with the real
    encoder as its instance, and every theorem holds for any encoder.

    Then the enforcement of decision obligations. *)

From Stdlib Require Import Ascii.
From S2P Require Import Prelude GoStrings Sha256 GoTime GoJson RunTypes RunStates.

Class JsonMarshaler := marshalJSON : gval -> result string string.

#[export] Instance json_marshaler : JsonMarshaler := json_Marshal.

Definition kernelErr (status : Z) (code msg : string) (reasons : list string) : KernelError :=
  mk_KernelError status code msg reasons.

(** ** Hashes *)

Definition isErrorHash (v : string) : bool := HasPrefix (TrimSpace v) "err_".

(** The [T] verb on the values the kernel hashes. *)
Definition type_name (v : gval) : string :=
  match v with
  | GStr _ => "string"
  | GMap _ => "map[string]interface {}"
  | GStruct t _ => t
  | _ => "<nil>"
  end.

Section Hash.
Context `{JsonMarshaler}.

Definition hashJSONWithStatus (v : gval) : string * bool :=
  match marshalJSON v with
  | Err err =>
    let marker := Join ["json_marshal_error:"; type_name v; ":"; err] "" in
    (String.append "err_" (sha256_hex marker), false)
  | Ok raw => (sha256_hex raw, true)
  end.

Definition hashJSON (v : gval) : string :=
  let '(hash, ok) := hashJSONWithStatus v in
  if negb ok || isErrorHash hash then "" else hash.

(** The test after every call: [!ok || isErrorHash(hash)]. *)
Definition hash_checked (v : gval) : option string :=
  let '(hash, ok) := hashJSONWithStatus v in
  if negb ok || isErrorHash hash then None else Some hash.
End Hash.

(** ** Emission *)

Definition runEventEvidencePolicy (eventType : string) : string * bool :=
  if one_of (TrimSpace eventType)
       ["irreversible_progress_violation_event";
        "run_decision_hash_invalid";
        "run_decision_binding_mismatch";
        "run_decision_hash_kind_mismatch";
        "run_decision_hash_mismatch";
        "run_decision_not_executable";
        "run_execution_receipt_rejected";
        "run_hash_generation_failed";
        "run_obligation_limit_violation";
        "run_obligation_template_missing";
        "run_obligation_unsupported";
        "run_obligation_phase_mismatch";
        "run_obligation_deny_execution";
        "run_obligation_audit_event"]
  then ("audit", true) else ("operational", false).

(** The index loop over the outbox stops at the first event young enough. *)
Definition outbox_expired (cfg : Config) (now : time) (e : KernelEvent) : bool :=
  negb (Sub now (ev_EventTS e) <=? cfg_OutboxRetention cfg).

Definition cleanupOutboxLocked (k : Kernel) (now : time) : Kernel * Z :=
  let cut := if 0 <? cfg_OutboxRetention (k_cfg k)
             then prefix_len (outbox_expired (k_cfg k) now) (k_outbox k) else 0%nat in
  let outbox := drop cut (k_outbox k) in
  let overflow := Z.of_nat (length outbox) - cfg_OutboxMaxEvents (k_cfg k) in
  let cut2 := if 0 <? overflow then Z.to_nat overflow else 0%nat in
  let trimmed := Z.of_nat cut + Z.of_nat cut2 in
  let k := k_set_outbox (drop cut2 outbox) k in
  (if 0 <? trimmed then k_set_outboxTrimmed (wrap_uint64 (k_outboxTrimmed k + trimmed)) k else k,
   trimmed).

Section Emit.
Context `{JsonMarshaler}.

Definition emit (eventType runID stepID : string) (kvs : list (string * gval)) (now : time)
    (k : Kernel) : Kernel :=
  let seq := wrap_uint64 (k_eventSeq k + 1) in
  let payload := GMap kvs in
  let '(payloadHash, payloadHashValid) :=
    match hash_checked payload with Some h => (h, true) | None => ("", false) end in
  let '(evidenceGrade, payloadIntegrityRequired) := runEventEvidencePolicy eventType in
  let e := {|
    ev_EventID := String.append "evt_run_seq_" (fmt_d seq);
    ev_EventType := eventType;
    ev_SchemaVersion := 1;
    ev_SourceComponent := "run_kernel";
    ev_EvidenceGrade := evidenceGrade;
    ev_PayloadIntegrityRequired := payloadIntegrityRequired;
    ev_RunID := runID;
    ev_StepID := stepID;
    ev_EventTS := now;
    ev_PayloadRef := String.append "inline://run_outbox/" (fmt_d seq);
    ev_PayloadHash := payloadHash;
    ev_PayloadHashValid := payloadHashValid;
    ev_Payload := payload |} in
  let k := k |> k_set_eventSeq seq |> k_set_outbox (k_outbox k ++ [e]) in
  fst (cleanupOutboxLocked k now).

Definition emitProgressMonotonicityViolation (runID stepID : string) (incoming current : Z)
    (now : time) (k : Kernel) : Kernel :=
  let payload := [("incoming_step_seq_id", GInt incoming);
                  ("current_step_seq_id", GInt current);
                  ("severity", GStr "P1")] in
  k |> emit "progress_monotonicity_violation" runID stepID payload now
    |> emit "irreversible_progress_violation_event" runID stepID payload now.
End Emit.

(** ** Reading and draining *)

Definition Outbox (k : Kernel) : list KernelEvent := k_outbox k.

Definition DrainOutbox (k : Kernel) (limit : Z) : Kernel * list KernelEvent :=
  let n := Z.of_nat (length (k_outbox k)) in
  if (limit <=? 0) || (n =? 0) then (k, [])
  else
    let limit := Z.to_nat (if n <? limit then n else limit) in
    (k_set_outbox (drop limit (k_outbox k)) k, take limit (k_outbox k)).

(** * Decision obligations enforced by [AdvanceRun]
    ([internal/run/kernel.go], lines 1149-1366)

    [enforceDecisionObligationsLocked] and what it calls: limit parameters,
    template evidence in the receipt reference, tags, audit events.  The URL
    parser of the standard library is a class parameter ([UrlParser]): the
    kernel reads the scheme, host, path and query values of what it returns. *)

Record ParsedURL := mk_ParsedURL {
  url_Scheme : string;
  url_Host : string;
  url_Path : string;
  url_Query : string -> list string
}.

(** [url.Parse]; [None] is its error. *)
Class UrlParser := url_Parse : string -> option ParsedURL.

Definition last_part (parts : list string) : string := default "" (last parts).

(** ** limit_param *)

Definition parseLimitValue (v : string) : option Z :=
  let v := TrimSpace v in
  if (v =? "")%string then None
  else
    let v := if Contains v ":" then TrimSpace (last_part (Split v ":"%char)) else v in
    match Atoi v with
    | Some n => if n <? 0 then None else Some n
    | None => None
    end.

(** [None] is a nil error, [Some] its text. *)
Definition enforceLimitParamObligation (req : AdvanceRunRequest) (ob : DecisionObligation)
  : option string :=
  let target := ToLower (TrimSpace (ob_Target ob)) in
  let value := TrimSpace (ob_Value ob) in
  match parseLimitValue value with
  | None => Some "invalid limit value"
  | Some n =>
    if (target =? "max_input_hash_len")%string then
      if n <? len (ar_InputHash req) then Some "input_hash exceeds limit" else None
    else if (target =? "max_output_hash_len")%string then
      if n <? len (ar_OutputHash req) then Some "output_hash exceeds limit" else None
    else if (target =? "max_step_seq_id")%string then
      if n <? ar_IncomingStepSeqID req then Some "step_seq_id exceeds limit" else None
    else Some "unsupported limit target"
  end.

(** ** require_template *)

Definition addTemplateEvidenceCandidate (out : gset string) (v : string) : gset string :=
  let candidate := TrimSpace (Trim v "/"%char) in
  if (candidate =? "")%string then out
  else
    let candidate := if Contains candidate "/"
                     then TrimSpace (last_part (Split candidate "/"%char)) else candidate in
    if (candidate =? "")%string then out else {[candidate]} ∪ out.

Fixpoint template_segments (out : gset string) (segs : list string) : gset string :=
  match segs with
  | seg :: ((next :: _) as rest) =>
    let seg := ToLower (TrimSpace seg) in
    template_segments
      (if (seg =? "template")%string || (seg =? "templates")%string
       then addTemplateEvidenceCandidate out next else out) rest
  | _ => out
  end.

Definition addTemplateEvidenceFromPath (out : gset string) (path : string) : gset string :=
  template_segments out (Split (Trim path "/"%char) "/"%char).

Section Templates.
Context `{UrlParser}.

Definition extractTemplateEvidenceIDs (receiptRef : string) : gset string :=
  let ref := TrimSpace receiptRef in
  if (ref =? "")%string then ∅
  else match url_Parse ref with
       | None => ∅
       | Some parsed =>
         let out : gset string :=
           if EqualFold (TrimSpace (url_Scheme parsed)) "template"
           then addTemplateEvidenceCandidate
                  (addTemplateEvidenceCandidate ∅ (url_Host parsed)) (url_Path parsed)
           else ∅ in
         let out := addTemplateEvidenceFromPath out (url_Path parsed) in
         foldl (fun out key => foldl addTemplateEvidenceCandidate out (url_Query parsed key))
               out ["template"; "template_id"; "templateId"]
       end.

Definition receiptRefHasTemplateEvidence (receiptRef templateID : string) : bool :=
  let templateID := TrimSpace templateID in
  if (templateID =? "")%string then true
  else bool_decide (templateID ∈ extractTemplateEvidenceIDs receiptRef).

(** Sorted, so independent of the order in which the set is listed; [None]
    is the nil slice. *)
Definition sortedTemplateEvidenceIDs (receiptRef : string) : option (list string) :=
  match sort_Strings (elements (extractTemplateEvidenceIDs receiptRef)) with
  | [] => None
  | l => Some l
  end.
End Templates.

Definition gval_of_strings (l : option (list string)) : gval :=
  match l with Some l => GStrs l | None => GNil end.

(** ** The loop over the obligations *)

Section Enforce.
Context `{JsonMarshaler} `{UrlParser}.

(** One obligation, [phase] being the normalized phase of the decision. *)
Definition enforceObligation (r : runInstance) (req : AdvanceRunRequest)
    (ref : DecisionReference) (phase : string) (idx : Z) (ob : DecisionObligation) (now : time)
    (k : Kernel) : Kernel * runInstance * option KernelError :=
  let obType := ToLower (TrimSpace (ob_Type ob)) in
  if (obType =? "")%string then (k, r, None)
  else
  let obPhase := ToUpper (TrimSpace (ob_Phase ob)) in
  let obPhase := if (obPhase =? "")%string then phase else obPhase in
  let emit_run ev kvs := emit ev (rv_RunID (ri_view r)) (ar_StepID req) kvs now k in
  let details := [("decision_id", GStr (dr_DecisionID ref));
                  ("obligation_type", GStr obType);
                  ("obligation_target", GStr (ob_Target ob));
                  ("obligation_value", GStr (ob_Value ob));
                  ("index", GInt idx)] in
  if negb (isObligationPhaseAllowed phase obPhase) then
    (emit_run "run_obligation_phase_mismatch"
       [("decision_id", GStr (dr_DecisionID ref)); ("obligation_type", GStr obType);
        ("obligation_phase", GStr obPhase); ("run_phase", GStr phase); ("index", GInt idx)],
     r, Some (kernelErr 409 "RUN_OBLIGATION_PHASE_MISMATCH"
                "obligation phase not allowed for advance" ["obligation_phase_mismatch"]))
  else if (obType =? "deny_execution")%string then
    (emit_run "run_obligation_deny_execution" details,
     r, Some (kernelErr 409 "RUN_OBLIGATION_DENY_EXECUTION"
                "deny_execution obligation blocks run advance" ["obligation_deny_execution"]))
  else if (obType =? "limit_param")%string then
    match enforceLimitParamObligation req ob with
    | Some err =>
      (emit_run "run_obligation_limit_violation" (details ++ [("error", GStr err)]),
       r, Some (kernelErr 409 "RUN_OBLIGATION_LIMIT_PARAM_VIOLATION"
                  "limit_param obligation violated" ["obligation_limit_param_violation"]))
    | None => (k, r, None)
    end
  else if (obType =? "attach_tag")%string then
    let key := TrimSpace (ob_Target ob) in
    let key := if (key =? "")%string then String.append "obligation_tag_" (fmt_d idx) else key in
    let v := ri_view r in
    (emit_run "run_obligation_tag_attached"
       [("decision_id", GStr (dr_DecisionID ref)); ("tag", GStr key);
        ("value", GStr (ob_Value ob)); ("index", GInt idx)],
     ri_set_view (rv_set_AttachedTags (<[key := TrimSpace (ob_Value ob)]> (rv_AttachedTags v)) v) r,
     None)
  else if (obType =? "require_template")%string then
    let templateID := TrimSpace (ob_Value ob) in
    let templateID := if (templateID =? "")%string then TrimSpace (ob_Target ob) else templateID in
    if negb (templateID =? "")%string
       && negb (receiptRefHasTemplateEvidence (ar_ExecutionReceiptRef req) templateID) then
      (emit_run "run_obligation_template_missing"
         [("decision_id", GStr (dr_DecisionID ref)); ("template_id", GStr templateID);
          ("receipt_ref", GStr (ar_ExecutionReceiptRef req));
          ("resolved_templates",
           gval_of_strings (sortedTemplateEvidenceIDs (ar_ExecutionReceiptRef req)));
          ("proof_match_required", GBool true); ("index", GInt idx)],
       r, Some (kernelErr 409 "RUN_OBLIGATION_TEMPLATE_REQUIRED"
                  "required template evidence missing in execution_receipt_ref"
                  ["obligation_template_required"]))
    else (k, r, None)
  else if (obType =? "emit_audit")%string then
    (emit_run "run_obligation_audit_event" details, r, None)
  else
    (emit_run "run_obligation_unsupported"
       [("decision_id", GStr (dr_DecisionID ref)); ("obligation_type", GStr obType);
        ("index", GInt idx)],
     r, Some (kernelErr 409 "RUN_OBLIGATION_UNSUPPORTED_TYPE" "unsupported obligation type"
                ["obligation_unsupported"])).

Fixpoint enforce_loop (r : runInstance) (req : AdvanceRunRequest) (ref : DecisionReference)
    (phase : string) (idx : Z) (obs : list DecisionObligation) (now : time) (k : Kernel)
  : Kernel * runInstance * option KernelError :=
  match obs with
  | [] => (k, r, None)
  | ob :: obs =>
    match enforceObligation r req ref phase idx ob now k with
    | (k, r, Some err) => (k, r, Some err)
    | (k, r, None) => enforce_loop r req ref phase (idx + 1) obs now k
    end
  end.

Definition decision_phase (ref : DecisionReference) : string :=
  let phase := ToUpper (TrimSpace (dr_Phase ref)) in
  if (phase =? "")%string then "PRE_TOOL" else phase.

Definition enforceDecisionObligationsLocked (r : runInstance) (req : AdvanceRunRequest)
    (ref : DecisionReference) (now : time) (k : Kernel)
  : Kernel * runInstance * option KernelError :=
  match dr_Obligations ref with
  | [] => (k, r, None)
  | obs => enforce_loop r req ref (decision_phase ref) 0 obs now k
  end.
End Enforce.
