(* ===== verification/RunKernel.v ===== *)
(** * The Run kernel's operations ([internal/run/kernel.go], lines 62-840 and
    978-1077, 1540-1552)

    One definition per operation, in state-passing style: the kernel goes in,
    the kernel and the Go result come out.  [now] is the reading of
    [k.cfg.Clock()] in that call; [port] is what the decision side answers
    during that call ([None] for a nil [DecisionPort]).  A [*runInstance] held
    by an operation is passed as [r] next to the kernel and stored back at the
    end: between the two, nothing reads it through [k.runs]. *)

From S2P Require Import Prelude GoStrings Sha256 GoTime GoJson RunTypes RunStates RunOutbox.

(** ** Construction *)

Definition default_if (nonpos : bool) (d x : Z) : Z := if nonpos then d else x.

Definition NewKernel (cfg : Config) : Kernel :=
  let pos d x := default_if (x <=? 0) d x in
  let runRetention := pos (72 * Hour) (cfg_RunRetention cfg) in
  let cfg := {|
    cfg_ContinuationTTL := pos (30 * Minute) (cfg_ContinuationTTL cfg);
    cfg_ContinuationRetention := pos (24 * Hour) (cfg_ContinuationRetention cfg);
    cfg_IdempotencyTTL := pos (24 * Hour) (cfg_IdempotencyTTL cfg);
    cfg_RunRetention := runRetention;
    cfg_CreateRequestRetention := pos runRetention (cfg_CreateRequestRetention cfg);
    cfg_OutboxMaxEvents := pos 10000 (cfg_OutboxMaxEvents cfg);
    cfg_OutboxRetention := pos (24 * Hour) (cfg_OutboxRetention cfg);
    cfg_RunMaxLifetime :=
      if decide (cfg_RunMaxLifetime cfg = ∅)
      then {[RiskLow := 1 * Hour; RiskMedium := 6 * Hour; RiskHigh := 24 * Hour;
             RiskCritical := 24 * Hour]}
      else cfg_RunMaxLifetime cfg;
    cfg_ZombieNoProgressWindow := pos (10 * Minute) (cfg_ZombieNoProgressWindow cfg);
    cfg_SweepBatchLimit := pos 2000 (cfg_SweepBatchLimit cfg) |} in
  {| k_cfg := cfg; k_runs := ∅; k_continuations := ∅; k_idempotency := ∅; k_createRuns := ∅;
     k_stepIntegrity := ∅; k_outbox := []; k_eventSeq := 0; k_runSeq := 0; k_outboxTrimmed := 0;
     k_createRunConflictTotal := 0; k_createRunReuseTotal := 0 |}.

Definition maxLifetimeForRisk (k : Kernel) (risk : string) : duration :=
  match cfg_RunMaxLifetime (k_cfg k) !! normalizeRisk risk with
  | Some v => v
  | None => default 0 (cfg_RunMaxLifetime (k_cfg k) !! RiskMedium)
  end.

Definition getRunLocked (k : Kernel) (runID : string) : result KernelError runInstance :=
  match k_runs k !! runID with
  | Some r => Ok r
  | None => Err (kernelErr 404 "RUN_NOT_FOUND" "run not found" ["run_not_found"])
  end.

(** Write a run back through its pointer. *)
Definition store_run (runID : string) (r : runInstance) (k : Kernel) : Kernel :=
  k_set_runs (<[runID := r]> (k_runs k)) k.

(** Update the view of a run. *)
Definition on_view (f : RunView -> RunView) (r : runInstance) : runInstance :=
  ri_set_view (f (ri_view r)) r.

(** ** Integrity roots *)

Definition set_anchor (rootType root : string) (a : RootAnchors) : RootAnchors :=
  if (rootType =? RootTypeCompleted)%string then ra_set_CompletedRoot root a
  else if (rootType =? RootTypePartial)%string then ra_set_PartialRoot root a
  else if (rootType =? RootTypeReconciled)%string then ra_set_ReconciledRoot root a
  else if (rootType =? RootTypeReviewHold)%string then ra_set_ReviewHoldRoot root a
  else if (rootType =? RootTypeAborted)%string then ra_set_AbortedRoot root a
  else a.

Definition anchorRootLocked (rootType root : string) (v : RunView) : RunView :=
  let root := TrimSpace root in
  if (root =? "")%string then v
  else
    let v := if (root =? rv_RunIntegrityRoot v)%string then v
             else v |> rv_set_RunIntegrityRoot root
                    |> rv_set_RunIntegrityRootVersion
                         (wrap_int64 (rv_RunIntegrityRootVersion v + 1)) in
    v |> rv_set_IntegrityRootType rootType
      |> rv_set_RootAnchors (set_anchor rootType root (rv_RootAnchors v)).

Definition anchorByStateLocked (state stepHash : string) (v : RunView) : RunView :=
  if (state =? StateRunning)%string then anchorRootLocked RootTypePartial stepHash v
  else if (state =? StateCompleted)%string then anchorRootLocked RootTypeCompleted stepHash v
  else if one_of state [StateParked; StateAwaitingApproval] then
    anchorRootLocked RootTypePartial stepHash v
  else if (state =? StateReconciling)%string then anchorRootLocked RootTypeReconciled stepHash v
  else if (state =? StateForceReviewRequired)%string then
    anchorRootLocked RootTypeReviewHold stepHash v
  else if one_of state [StateForceAbort; StateAborted] then
    anchorRootLocked RootTypeAborted stepHash v
  else v.

Section Ops.
Context `{JsonMarshaler} `{UrlParser} `{MapRange}.

(** ** Caches scoped to a run *)

Definition cleanupCreateRunsForRunIDLocked (runID : string) (k : Kernel) : Kernel * Z :=
  let '(m, deleted) :=
    range_cleanup (fun _ entry => if (ce_RunID entry =? runID)%string then None else Some entry)
      (k_createRuns k) in
  (k_set_createRuns m k, deleted).

Definition cleanupRunScopedCachesLocked (runID : string) (k : Kernel) : Kernel :=
  let idem := go_range (upd_entry (fun _ entry =>
                if (ie_RunID entry =? runID)%string then None else Some entry))
                (k_idempotency k) (k_idempotency k) in
  let conts := go_range (upd_entry (fun _ c =>
                 if (ct_RunID c =? runID)%string then None else Some c))
                 (k_continuations k) (k_continuations k) in
  k |> k_set_idempotency idem |> k_set_continuations conts
    |> cleanupCreateRunsForRunIDLocked runID |> fst.

(** ** Step integrity *)

Definition append_integrity (runID : string) (s : StepIntegrity) (k : Kernel) : Kernel :=
  k_set_stepIntegrity
    (<[runID := default [] (k_stepIntegrity k !! runID) ++ [s]]> (k_stepIntegrity k)) k.

Definition synthetic_hash_input (prev syntheticType inputHash outputHash : string) : gval :=
  GStruct (struct_tname [("PreviousStepHash", "string", "previous_step_hash");
                         ("SyntheticType", "string", "synthetic_type");
                         ("InputHash", "string", "input_hash");
                         ("OutputHash", "string", "output_hash")])
    [("previous_step_hash", GStr prev); ("synthetic_type", GStr syntheticType);
     ("input_hash", GStr inputHash); ("output_hash", GStr outputHash)].

Definition appendSyntheticStepLocked (r : runInstance) (stepID : string) (seq : Z)
    (syntheticType inputHash outputHash : string) (now : time) (k : Kernel)
  : Kernel * result KernelError string :=
  let v := ri_view r in
  let prev := rv_LastStepHash v in
  match hash_checked (synthetic_hash_input prev syntheticType inputHash outputHash) with
  | None =>
    (emit "run_hash_generation_failed" (rv_RunID v) stepID
       [("target", GStr "synthetic_step_hash")] now k,
     Err (kernelErr 500 "RUN_HASH_GENERATION_FAILED" "failed to hash synthetic step"
            ["hash_generation_failed"]))
  | Some stepHash =>
    let s := {|
      sg_RunID := rv_RunID v; sg_StepID := stepID; sg_StepSeqID := seq;
      sg_StepType := StepTypeSynthetic;
      sg_SyntheticType := ToLower (TrimSpace syntheticType);
      sg_IntegrityChainVersion := rv_IntegrityChainVersion v;
      sg_PreviousStepHash := prev; sg_DecisionHash := ""; sg_InputHash := inputHash;
      sg_OutputHash := outputHash; sg_StepHash := stepHash; sg_CreatedAt := now |} in
    (append_integrity (rv_RunID v) s k, Ok stepHash)
  end.

(** ** CreateRun *)

Definition snapshot_input_gval (s : SnapshotInput) : gval :=
  GStruct "run.SnapshotInput"
    [("policy_bundle_id", GStr (si_PolicyBundleID s));
     ("model_profile_id", GStr (si_ModelProfileID s));
     ("dependency_bundle_id", GStr (si_DependencyBundleID s));
     ("skill_bundle_set_hash", GStr (si_SkillBundleSetHash s));
     ("context_policy_space_hash", GStr (si_ContextPolicySpaceHash s))].

Definition create_fingerprint_input (req : CreateRunRequest) : gval :=
  GStruct (struct_tname [("RequestID", "string", "request_id"); ("TenantID", "string", "tenant_id");
                         ("Workflow", "string", "workflow"); ("Version", "string", "version");
                         ("Risk", "string", "risk"); ("InputRef", "string", "input_ref");
                         ("Snapshot", "run.SnapshotInput", "snapshot")])
    [("request_id", GStr (cr_RequestID req)); ("tenant_id", GStr (cr_TenantID req));
     ("workflow", GStr (cr_WorkflowID req)); ("version", GStr (cr_WorkflowVersion req));
     ("risk", GStr (normalizeRisk (cr_RiskTier req)));
     ("input_ref", GStr (cr_InputPayloadRef req));
     ("snapshot", snapshot_input_gval (cr_Snapshot req))].

Definition snapshot_gval (s : RunSnapshot) : gval :=
  GStruct "run.RunSnapshot"
    [("policy_bundle_id", GStr (rs_PolicyBundleID s));
     ("model_profile_id", GStr (rs_ModelProfileID s));
     ("dependency_bundle_id", GStr (rs_DependencyBundleID s));
     ("skill_bundle_set_hash", GStr (rs_SkillBundleSetHash s));
     ("context_policy_space_hash", GStr (rs_ContextPolicySpaceHash s));
     ("snapshot_hash", GStr (rs_SnapshotHash s)); ("created_at", GTime (rs_CreatedAt s))].

(** [s[:n]] of a string of at least [n] bytes. *)
Definition slice_to (n : nat) (s : string) : string := String.substring 0 n s.

Definition run_id (fingerprint : string) (seq : Z) : string :=
  Join ["run_"; slice_to 8 fingerprint; "_"; fmt_08x seq] "".

Definition create_key (req : CreateRunRequest) : string :=
  Join [cr_TenantID req; "|"; cr_RequestID req] "".

(** Lines 176-241: a new run for a request with no live cache entry. *)
Definition create_new_run (req : CreateRunRequest) (fingerprint : string) (now : time)
    (k : Kernel) : Kernel * result KernelError CreateRunResponse :=
  let risk := normalizeRisk (cr_RiskTier req) in
  let seq := wrap_uint64 (k_runSeq k + 1) in
  let k := k_set_runSeq seq k in
  let runID := run_id fingerprint seq in
  let snap := cr_Snapshot req in
  let snapshot := {|
    rs_PolicyBundleID := si_PolicyBundleID snap;
    rs_ModelProfileID := si_ModelProfileID snap;
    rs_DependencyBundleID := si_DependencyBundleID snap;
    rs_SkillBundleSetHash := si_SkillBundleSetHash snap;
    rs_ContextPolicySpaceHash := si_ContextPolicySpaceHash snap;
    rs_SnapshotHash := ""; rs_CreatedAt := now |} in
  match hash_checked (snapshot_gval snapshot) with
  | None => (k, Err (kernelErr 500 "RUN_HASH_GENERATION_FAILED" "failed to hash run snapshot"
                       ["hash_generation_failed"]))
  | Some snapshotHash =>
    let view := {|
      rv_RunID := runID; rv_TenantID := cr_TenantID req; rv_WorkflowID := cr_WorkflowID req;
      rv_WorkflowVersion := cr_WorkflowVersion req; rv_State := StateRunning;
      rv_ActiveStepID := ""; rv_StateVersion := 1; rv_RiskTier := risk;
      rv_IntegrityChainVersion := "v1"; rv_LastStepHash := ""; rv_RunIntegrityRoot := "";
      rv_RunIntegrityRootVersion := 0; rv_IntegrityRootType := ""; rv_TerminalReason := "";
      rv_TerminalSource := ""; rv_AttachedTags := ∅; rv_CurrentStepSeqID := 0;
      rv_CreatedAt := now; rv_UpdatedAt := now; rv_LastProgressAt := now;
      rv_Snapshot := rs_set_SnapshotHash snapshotHash snapshot;
      rv_RootAnchors := mk_RootAnchors "" "" "" "" "" |} in
    let instance := mk_runInstance view (maxLifetimeForRisk k risk) false false 0 in
    let k := k |> store_run runID instance
               |> emit "run.created" runID ""
                    [("snapshot_hash", GStr snapshotHash); ("risk_tier", GStr risk)] now in
    let resp := mk_CreateRunResponse runID snapshotHash (si_ContextPolicySpaceHash snap)
                  StateRunning now in
    (k_set_createRuns
       (<[create_key req := mk_createRunEntry runID fingerprint resp now now]> (k_createRuns k)) k,
     Ok resp)
  end.

Definition CreateRun (req : CreateRunRequest) (now : time) (k : Kernel)
  : Kernel * result KernelError CreateRunResponse :=
  if blank (cr_RequestID req) || blank (cr_TenantID req) || blank (cr_WorkflowID req)
     || blank (cr_WorkflowVersion req) then
    (k, Err (kernelErr 422 "RUN_INPUT_INVALID" "request_id/tenant/workflow/version required"
               ["input_invalid"]))
  else if negb (isValidRisk (normalizeRisk (cr_RiskTier req))) then
    (k, Err (kernelErr 422 "RUN_INPUT_INVALID" "invalid risk_tier" ["input_invalid_risk"]))
  else if blank (si_ContextPolicySpaceHash (cr_Snapshot req)) then
    (k, Err (kernelErr 409 "RUN_SNAPSHOT_FREEZE_FAILED" "context policy space hash required"
               ["snapshot_freeze_failed"]))
  else
  match hash_checked (create_fingerprint_input req) with
  | None => (k, Err (kernelErr 500 "RUN_HASH_GENERATION_FAILED" "failed to hash create request"
                       ["hash_generation_failed"]))
  | Some fingerprint =>
    let createKey := create_key req in
    let ids := [("tenant_id", GStr (cr_TenantID req)); ("request_id", GStr (cr_RequestID req));
                ("create_key", GStr createKey)] in
    match k_createRuns k !! createKey with
    | Some existing =>
      if negb (ce_RequestHash existing =? fingerprint)%string then
        (k |> k_set_createRunConflictTotal (wrap_uint64 (k_createRunConflictTotal k + 1))
           |> emit "run_create_request_conflict" (ce_RunID existing) ""
                (ids ++ [("conflict", GBool true)]) now,
         Err (kernelErr 409 "RUN_CREATE_REQUEST_CONFLICT"
                "request_id reused with different payload" ["create_request_conflict"]))
      else
      match k_runs k !! ce_RunID existing with
      | Some _ =>
        (k |> k_set_createRuns
                (<[createKey := ce_set_LastAccessAt now existing]> (k_createRuns k))
           |> k_set_createRunReuseTotal (wrap_uint64 (k_createRunReuseTotal k + 1))
           |> emit "run_create_reused" (ce_RunID existing) "" ids now,
         Ok (ce_Response existing))
      | None =>
        create_new_run req fingerprint now (k_set_createRuns (delete createKey (k_createRuns k)) k)
      end
    | None => create_new_run req fingerprint now k
    end
  end.

(** ** AdvanceRun *)

(** What every rejected gate does to the run (lines 275-277 and their
    repetitions): hold it and anchor a partial root. *)
Definition safeguard_hold (now : time) (r : runInstance) : runInstance :=
  on_view (fun v => v |> rv_set_State StateSafeguardHold |> rv_set_UpdatedAt now
                      |> anchorRootLocked RootTypePartial (rv_LastStepHash v)) r.

(** A rejected gate: the event emitted after the hold, and the error. *)
Record gate_reject := mk_gate_reject {
  gr_event : string;
  gr_payload : list (string * gval);
  gr_error : KernelError
}.

Definition pending_mismatch (req : AdvanceRunRequest) (extra : list (string * gval)) (msg : string)
  : gate_reject :=
  mk_gate_reject "run_pending_decision_mismatch"
    (("decision_id", GStr (df_DecisionID (ar_DecisionRef req))) :: extra)
    (kernelErr 409 "RUN_PENDING_DECISION_MISMATCH" msg ["pending_decision_mismatch"]).

Definition binding_mismatch (req : AdvanceRunRequest) (runID : string) (ref : DecisionReference)
  : gate_reject :=
  mk_gate_reject "run_decision_binding_mismatch"
    [("decision_id", GStr (df_DecisionID (ar_DecisionRef req)));
     ("decision_run_id", GStr (dr_RunID ref)); ("incoming_run_id", GStr runID);
     ("decision_step_id", GStr (dr_StepID ref)); ("incoming_step_id", GStr (ar_StepID req))]
    (kernelErr 409 "RUN_DECISION_BINDING_MISMATCH" "decision binding mismatch"
       ["decision_binding_mismatch"]).

Definition norm_kind (s : string) : string := ToLower (TrimSpace s).

(** Lines 285-381: the decision must be known, confirmed for this run, step
    and owner, stable, bound to this run and step, of the announced kind and
    hash, and executable. *)
Definition decision_gate (port : option DecisionPort) (runID : string) (req : AdvanceRunRequest)
  : result gate_reject (DecisionPort * DecisionReference) :=
  let want := ar_DecisionRef req in
  let id := df_DecisionID want in
  match port with
  | None => Err (pending_mismatch req [] "decision reference missing")
  | Some p =>
  match GetDecisionReference p id with
  | None => Err (pending_mismatch req [] "decision reference missing")
  | Some ref =>
    if negb (IsDecisionConfirmedWithOwner p id runID (ar_StepID req) (dr_AttemptIndex ref)
               (dr_Phase ref)) then
      Err (pending_mismatch req
             [("attempt_index", GInt (dr_AttemptIndex ref)); ("phase", GStr (dr_Phase ref))]
             "decision is not confirmed for run/step")
    else if negb (dr_HashValid ref) || negb (norm_kind (dr_HashKind ref) =? "stable")%string then
      Err (mk_gate_reject "run_decision_hash_invalid"
             [("decision_id", GStr id); ("hash_kind", GStr (dr_HashKind ref));
              ("hash_valid", GBool (dr_HashValid ref))]
             (kernelErr 409 "RUN_DECISION_HASH_INVALID" "decision hash is not stable/valid"
                ["decision_hash_invalid"]))
    else if negb (blank (dr_RunID ref)) && negb (dr_RunID ref =? runID)%string then
      Err (binding_mismatch req runID ref)
    else if negb (blank (dr_StepID ref)) && negb (dr_StepID ref =? ar_StepID req)%string then
      Err (binding_mismatch req runID ref)
    else if negb (df_DecisionHashKind want =? "")%string
            && negb (norm_kind (df_DecisionHashKind want) =? norm_kind (dr_HashKind ref))%string then
      Err (mk_gate_reject "run_decision_hash_kind_mismatch"
             [("decision_id", GStr id); ("expected_kind", GStr (df_DecisionHashKind want));
              ("actual_kind", GStr (dr_HashKind ref))]
             (kernelErr 409 "RUN_DECISION_HASH_KIND_MISMATCH" "decision hash kind mismatch"
                ["decision_hash_kind_mismatch"]))
    else if negb (dr_DecisionHash ref =? df_DecisionHash want)%string then
      Err (mk_gate_reject "run_decision_hash_mismatch" [("decision_id", GStr id)]
             (kernelErr 409 "RUN_DECISION_HASH_MISMATCH" "decision hash mismatch"
                ["decision_hash_mismatch"]))
    else if negb (isExecutableDecision (dr_Decision ref)) then
      Err (mk_gate_reject "run_decision_not_executable"
             [("decision_id", GStr id); ("decision_value", GStr (dr_Decision ref))]
             (kernelErr 409 "RUN_DECISION_NOT_EXECUTABLE"
                "decision is not executable for run advance" ["decision_not_executable"]))
    else Ok (p, ref)
  end
  end.

Definition resources_gval (u : resources) : gval :=
  match u with Some kvs => GMap (map (fun kv => (kv.1, GFloat kv.2)) kvs) | None => GNil end.

(** Lines 382-404: the execution receipt against its ticket. *)
Definition receipt_gate (p : DecisionPort) (runID tenantID : string) (req : AdvanceRunRequest)
  : option gate_reject :=
  let '(ok, reasons) :=
    ValidateExecutionReceiptForRun p runID (ar_StepID req) tenantID (ar_ExecutionReceiptRef req)
      (ar_ExecutionUsedResources req) (ar_ExecutionReceiptAt req) in
  if ok then None
  else Some (mk_gate_reject "run_execution_receipt_rejected"
               [("decision_id", GStr (df_DecisionID (ar_DecisionRef req)));
                ("execution_receipt_ref", GStr (ar_ExecutionReceiptRef req));
                ("execution_used_resources", resources_gval (ar_ExecutionUsedResources req));
                ("ticket_validation_pass", GBool false);
                ("reason_codes", match reasons with [] => GNil | _ => GStrs reasons end)]
               (kernelErr 409 "RUN_EXECUTION_RECEIPT_REJECTED"
                  "execution receipt/ticket validation failed"
                  (match reasons with [] => ["execution_receipt_ticket_invalid"] | _ => reasons end))).

Definition step_hash_input (prev decisionHash inputHash outputHash : string) : gval :=
  GStruct (struct_tname [("PreviousStepHash", "string", "previous_step_hash");
                         ("DecisionHash", "string", "decision_hash");
                         ("InputHash", "string", "input_hash");
                         ("OutputHash", "string", "output_hash")])
    [("previous_step_hash", GStr prev); ("decision_hash", GStr decisionHash);
     ("input_hash", GStr inputHash); ("output_hash", GStr outputHash)].

Definition idem_key (runID : string) (req : AdvanceRunRequest) : string :=
  Join [runID; ar_StepID req; ar_StepVersion req; ar_IdempotencyKey req] "|".

Definition next_state (req : AdvanceRunRequest) : string :=
  let nextState := normalizeState (ar_NextState req) in
  if (nextState =? "")%string then StateRunning else nextState.

(** The view after a committed advance (lines 466-481). *)
Definition advanced_view (req : AdvanceRunRequest) (stepHash : string) (now : time) (v : RunView)
  : RunView :=
  let nextState := next_state req in
  let v := v |> rv_set_State nextState
             |> rv_set_ActiveStepID (ar_StepID req)
             |> rv_set_StateVersion (wrap_int64 (rv_StateVersion v + 1))
             |> rv_set_CurrentStepSeqID (ar_IncomingStepSeqID req)
             |> rv_set_LastStepHash stepHash
             |> rv_set_UpdatedAt now
             |> rv_set_LastProgressAt now
             |> rv_set_TerminalReason ""
             |> rv_set_TerminalSource ""
             |> anchorByStateLocked nextState stepHash in
  if isTerminalState nextState
  then v |> rv_set_TerminalReason "advance_terminal_state" |> rv_set_TerminalSource "advance"
  else v.

(** The record appended to the chain (lines 450-463) and the response
    (lines 492-501). *)
Definition normal_step (runID : string) (req : AdvanceRunRequest) (stepHash : string) (now : time)
    (v : RunView) : StepIntegrity := {|
  sg_RunID := runID; sg_StepID := ar_StepID req; sg_StepSeqID := ar_IncomingStepSeqID req;
  sg_StepType := StepTypeNormal; sg_SyntheticType := "";
  sg_IntegrityChainVersion := rv_IntegrityChainVersion v;
  sg_PreviousStepHash := rv_LastStepHash v;
  sg_DecisionHash := df_DecisionHash (ar_DecisionRef req); sg_InputHash := ar_InputHash req;
  sg_OutputHash := ar_OutputHash req; sg_StepHash := stepHash; sg_CreatedAt := now |}.

Definition advance_response (req : AdvanceRunRequest) (stepHash : string) (v' : RunView)
  : AdvanceRunResponse := {|
  arr_NewState := next_state req; arr_NextAction := nextActionByState (next_state req);
  arr_StateVersion := rv_StateVersion v'; arr_StepHash := stepHash;
  arr_RunIntegrityRoot := rv_RunIntegrityRoot v';
  arr_RunIntegrityRootVersion := rv_RunIntegrityRootVersion v';
  arr_IntegrityRootType := rv_IntegrityRootType v';
  arr_CurrentStepSeqID := rv_CurrentStepSeqID v' |}.

Definition advanced_payload (req : AdvanceRunRequest) (ref : DecisionReference) (stepHash : string)
    (v' : RunView) : list (string * gval) :=
  [("new_state", GStr (next_state req)); ("state_version", GInt (rv_StateVersion v'));
   ("step_seq_id", GInt (ar_IncomingStepSeqID req)); ("step_hash", GStr stepHash);
   ("decision_id", GStr (df_DecisionID (ar_DecisionRef req)));
   ("decision_hash", GStr (df_DecisionHash (ar_DecisionRef req)));
   ("decision_hash_kind", GStr (dr_HashKind ref))].

(** Lines 450-511: the effects of an accepted advance. *)
Definition advance_apply (runID : string) (req : AdvanceRunRequest) (ref : DecisionReference)
    (r : runInstance) (stepHash : string) (now : time) (k : Kernel)
  : Kernel * runInstance * AdvanceRunResponse :=
  let v' := advanced_view req stepHash now (ri_view r) in
  let resp := advance_response req stepHash v' in
  let k := k |> append_integrity runID (normal_step runID req stepHash now (ri_view r))
             |> emit "run.advanced" runID (ar_StepID req) (advanced_payload req ref stepHash v') now in
  let k := k_set_idempotency
             (<[idem_key runID req := mk_idempotencyEntry runID resp now now]> (k_idempotency k)) k in
  let k := if isTerminalState (next_state req) then cleanupRunScopedCachesLocked runID k else k in
  (k, r |> ri_set_view v' |> ri_set_noProgressScans 0, resp).

(** Lines 413-511: transition check, step hash, effects. *)
Definition advance_commit (runID : string) (req : AdvanceRunRequest) (ref : DecisionReference)
    (r : runInstance) (now : time) (k : Kernel)
  : Kernel * runInstance * result KernelError AdvanceRunResponse :=
  let v := ri_view r in
  if negb (isValidState (next_state req)) then
    (k, r, Err (kernelErr 422 "RUN_INPUT_INVALID" "invalid next_state" ["invalid_next_state"]))
  else if negb (isAllowedTransition (rv_State v) (next_state req)) then
    (k, r, Err (kernelErr 409 "RUN_STATE_TRANSITION_FORBIDDEN" "transition not allowed"
                  ["state_transition_forbidden"]))
  else if blank (ar_InputHash req) || blank (ar_OutputHash req) then
    (k, r, Err (kernelErr 422 "RUN_INPUT_INVALID" "input_hash/output_hash required"
                  ["hash_input_missing"]))
  else
  match hash_checked (step_hash_input (rv_LastStepHash v) (df_DecisionHash (ar_DecisionRef req))
                        (ar_InputHash req) (ar_OutputHash req)) with
  | None =>
    (emit "run_hash_generation_failed" runID (ar_StepID req) [("target", GStr "step_hash")] now k,
     safeguard_hold now r,
     Err (kernelErr 500 "RUN_HASH_GENERATION_FAILED" "failed to hash step integrity"
            ["hash_generation_failed"]))
  | Some stepHash =>
    let '(k, r, resp) := advance_apply runID req ref r stepHash now k in (k, r, Ok resp)
  end.

Definition reject_gate (runID : string) (req : AdvanceRunRequest) (g : gate_reject)
    (r : runInstance) (now : time) (k : Kernel)
  : Kernel * runInstance * result KernelError AdvanceRunResponse :=
  (emit (gr_event g) runID (ar_StepID req) (gr_payload g) now k,
   safeguard_hold now r, Err (gr_error g)).

(** Lines 270-511, on a fresh idempotency key. *)
Definition advance_fresh (port : option DecisionPort) (runID : string) (req : AdvanceRunRequest)
    (r : runInstance) (now : time) (k : Kernel)
  : Kernel * runInstance * result KernelError AdvanceRunResponse :=
  let v := ri_view r in
  if negb (ar_ExpectedStateVersion req =? rv_StateVersion v) then
    (k, r, Err (kernelErr 409 "RUN_STATE_VERSION_CONFLICT" "expected_state_version mismatch"
                  ["state_version_conflict"]))
  else if ar_IncomingStepSeqID req <=? rv_CurrentStepSeqID v then
    (emitProgressMonotonicityViolation runID (ar_StepID req) (ar_IncomingStepSeqID req)
       (rv_CurrentStepSeqID v) now k,
     safeguard_hold now r,
     Err (kernelErr 409 "RUN_PROGRESS_MONOTONICITY_VIOLATION"
            "incoming_step_seq_id must be strictly increasing" ["progress_monotonicity_violation"]))
  else if blank (df_DecisionID (ar_DecisionRef req)) || blank (df_DecisionHash (ar_DecisionRef req)) then
    (k, r, Err (kernelErr 422 "RUN_INPUT_INVALID" "decision_ref required" ["decision_ref_missing"]))
  else
  match decision_gate port runID req with
  | Err g => reject_gate runID req g r now k
  | Ok (p, ref) =>
    match receipt_gate p runID (rv_TenantID v) req with
    | Some g => reject_gate runID req g r now k
    | None =>
      match enforceDecisionObligationsLocked r req ref now k with
      | (k, r, Some err) => (k, safeguard_hold now r, Err err)
      | (k, r, None) => advance_commit runID req ref r now k
      end
    end
  end.

Definition AdvanceRun (port : option DecisionPort) (runID : string) (req : AdvanceRunRequest)
    (now : time) (k : Kernel) : Kernel * result KernelError AdvanceRunResponse :=
  match getRunLocked k runID with
  | Err e => (k, Err e)
  | Ok r =>
    let state := rv_State (ri_view r) in
    if isTerminalState state then
      (k, Err (kernelErr 409 "RUN_TERMINAL_STATE" "run is terminal" ["terminal_state"]))
    else if EqualFold state StateParked || EqualFold state StateAwaitingApproval then
      (k, Err (kernelErr 409 "RUN_STATE_CONFLICT" "run must resume before advance"
                 ["state_conflict"]))
    else if blank (ar_StepID req) || blank (ar_StepVersion req) || blank (ar_IdempotencyKey req) then
      (k, Err (kernelErr 422 "RUN_INPUT_INVALID" "step_id/step_version/idempotency_key required"
                 ["input_invalid"]))
    else
    match k_idempotency k !! idem_key runID req with
    | Some cached =>
      (k_set_idempotency
         (<[idem_key runID req := ie_set_LastAccessAt now cached]> (k_idempotency k)) k,
       Ok (ie_Response cached))
    | None =>
      let '(k, r, res) := advance_fresh port runID req r now k in
      (store_run runID r k, res)
    end
  end.

(** ** ParkRun *)

Definition token_hash_input (runID stepID : string) (seq : Z) (tokenType : string) (ts : Z) : gval :=
  GStruct (struct_tname [("RunID", "string", "run_id"); ("StepID", "string", "step_id");
                         ("StepSeqID", "int64", "step_seq_id");
                         ("TokenType", "string", "token_type"); ("RequestTS", "int64", "request_ts")])
    [("run_id", GStr runID); ("step_id", GStr stepID); ("step_seq_id", GInt seq);
     ("token_type", GStr tokenType); ("request_ts", GInt ts)].

Definition park_token_type (req : ParkRunRequest) : string :=
  let tokenType := ToLower (TrimSpace (pr_TokenType req)) in
  if (tokenType =? "")%string then TokenTypePark else tokenType.

(** [time.Duration(req.TTLSeconds) * time.Second] is a 64-bit product. *)
Definition park_ttl (cfg : Config) (req : ParkRunRequest) : duration :=
  if 0 <? pr_TTLSeconds req then wrap_int64 (pr_TTLSeconds req * Second)
  else cfg_ContinuationTTL cfg.

Definition parked_view (req : ParkRunRequest) (newState stepHash : string) (now : time) (v : RunView)
  : RunView :=
  v |> rv_set_State newState
    |> rv_set_ActiveStepID (pr_StepID req)
    |> rv_set_StateVersion (wrap_int64 (rv_StateVersion v + 1))
    |> rv_set_CurrentStepSeqID (pr_IncomingStepSeqID req)
    |> rv_set_LastStepHash stepHash
    |> rv_set_UpdatedAt now
    |> rv_set_LastProgressAt now
    |> rv_set_TerminalReason ""
    |> rv_set_TerminalSource ""
    |> anchorRootLocked RootTypePartial stepHash.

Definition hash_failed (msg : string) : KernelError :=
  kernelErr 500 "RUN_HASH_GENERATION_FAILED" msg ["hash_generation_failed"].

(** Lines 553-625, once the request is accepted. *)
Definition park_commit (runID : string) (req : ParkRunRequest) (newState : string)
    (r : runInstance) (now : time) (k : Kernel)
  : Kernel * runInstance * result KernelError ParkRunResponse :=
  let tokenType := park_token_type req in
  let seq := pr_IncomingStepSeqID req in
  let expiresAt := Add now (park_ttl (k_cfg k) req) in
  match hash_checked (token_hash_input runID (pr_StepID req) seq tokenType (UnixNano now)) with
  | None => (k, r, Err (hash_failed "failed to hash continuation token"))
  | Some tokenHashInput =>
  let token := String.append "ct_" (slice_to 20 tokenHashInput) in
  match hash_checked (GStr token) with
  | None => (k, r, Err (hash_failed "failed to hash continuation token ref"))
  | Some tokenHash =>
  let continuation := {|
    ct_ContinuationID := token; ct_RunID := runID; ct_StepID := pr_StepID req;
    ct_StepSeqID := seq; ct_TokenType := tokenType; ct_TokenHash := tokenHash;
    ct_ExpiresAt := expiresAt; ct_Status := "active"; ct_CreatedAt := now;
    ct_ConsumedAt := None |} in
  match appendSyntheticStepLocked r (pr_StepID req) seq "park" (pr_ParkReason req)
          (String.append "parked:" tokenType) now k with
  | (k, Err err) => (k, r, Err err)
  | (k, Ok stepHash) =>
    let v' := parked_view req newState stepHash now (ri_view r) in
    let parkEventType := if (newState =? StateAwaitingApproval)%string
                         then "run.awaiting_approval" else "run.parked" in
    (k |> k_set_continuations (<[token := continuation]> (k_continuations k))
       |> emit parkEventType runID (pr_StepID req)
            [("continuation_id", GStr token); ("token_type", GStr tokenType);
             ("expires_at", GTime expiresAt); ("step_seq_id", GInt seq);
             ("new_state", GStr newState)] now,
     r |> ri_set_view v' |> ri_set_noProgressScans 0,
     Ok {| prr_RunID := runID; prr_NewState := newState; prr_StateVersion := rv_StateVersion v';
           prr_ContinuationToken := token; prr_ContinuationType := tokenType;
           prr_ExpiresAt := expiresAt;
           prr_PartialIntegrityRoot := ra_PartialRoot (rv_RootAnchors v') |})
  end end end.

Definition ParkRun (runID : string) (req : ParkRunRequest) (now : time) (k : Kernel)
  : Kernel * result KernelError ParkRunResponse :=
  match getRunLocked k runID with
  | Err e => (k, Err e)
  | Ok r =>
    let v := ri_view r in
    if isTerminalState (rv_State v) then
      (k, Err (kernelErr 409 "RUN_TERMINAL_STATE" "run is terminal" ["terminal_state"]))
    else if negb (pr_ExpectedStateVersion req =? rv_StateVersion v) then
      (k, Err (kernelErr 409 "RUN_STATE_VERSION_CONFLICT" "expected_state_version mismatch"
                 ["state_version_conflict"]))
    else if pr_IncomingStepSeqID req <=? rv_CurrentStepSeqID v then
      (emitProgressMonotonicityViolation runID (pr_StepID req) (pr_IncomingStepSeqID req)
         (rv_CurrentStepSeqID v) now k,
       Err (kernelErr 409 "RUN_PROGRESS_MONOTONICITY_VIOLATION"
              "incoming_step_seq_id must be strictly increasing" ["progress_monotonicity_violation"]))
    else
    let tokenType := park_token_type req in
    if negb (isValidTokenType tokenType) then
      (k, Err (kernelErr 422 "RUN_INPUT_INVALID" "invalid token_type" ["invalid_token_type"]))
    else if blank (pr_StepID req) then
      (k, Err (kernelErr 422 "RUN_INPUT_INVALID" "step_id required" ["step_id_missing"]))
    else
    let newState := if (tokenType =? TokenTypeApproval)%string then StateAwaitingApproval
                    else StateParked in
    if negb (isAllowedTransition (rv_State v) newState) then
      (k, Err (kernelErr 409 "RUN_STATE_TRANSITION_FORBIDDEN" "transition not allowed"
                 ["state_transition_forbidden"]))
    else
      let '(k, r, res) := park_commit runID req newState r now k in
      (store_run runID r k, res)
  end.

(** ** ResumeRun *)

Definition resumed_view (req : ResumeRunRequest) (c : Continuation) (stepHash : string) (now : time)
    (v : RunView) : RunView :=
  v |> rv_set_State StateRunning
    |> rv_set_ActiveStepID (ct_StepID c)
    |> rv_set_StateVersion (wrap_int64 (rv_StateVersion v + 1))
    |> rv_set_CurrentStepSeqID (rr_IncomingStepSeqID req)
    |> rv_set_UpdatedAt now
    |> rv_set_LastProgressAt now
    |> rv_set_LastStepHash stepHash
    |> rv_set_TerminalReason ""
    |> rv_set_TerminalSource ""
    |> anchorRootLocked RootTypePartial stepHash.

(** Write a continuation back through its pointer. *)
Definition store_continuation (token : string) (c : Continuation) (k : Kernel) : Kernel :=
  k_set_continuations (<[token := c]> (k_continuations k)) k.

Definition resume_commit (runID : string) (req : ResumeRunRequest) (c : Continuation)
    (r : runInstance) (now : time) (k : Kernel)
  : Kernel * result KernelError ResumeRunResponse :=
  match appendSyntheticStepLocked r (ct_StepID c) (rr_IncomingStepSeqID req) "resume"
          (rr_ResumeReason req) (rr_ReceiptRef req) now k with
  | (k, Err err) => (k, Err err)
  | (k, Ok stepHash) =>
    let v' := resumed_view req c stepHash now (ri_view r) in
    (k |> store_run runID (r |> ri_set_view v' |> ri_set_noProgressScans 0)
       |> store_continuation (rr_ContinuationToken req)
            (c |> ct_set_Status "consumed" |> ct_set_ConsumedAt (Some now))
       |> emit "run.resumed" runID (ct_StepID c)
            [("continuation_id", GStr (ct_ContinuationID c));
             ("resume_reason", GStr (rr_ResumeReason req));
             ("step_seq_id", GInt (rr_IncomingStepSeqID req))] now,
     Ok {| rrr_ResumeStatus := "resumed"; rrr_NewState := rv_State v';
           rrr_StateVersion := rv_StateVersion v' |})
  end.

Definition ResumeRun (runID : string) (req : ResumeRunRequest) (now : time) (k : Kernel)
  : Kernel * result KernelError ResumeRunResponse :=
  match getRunLocked k runID with
  | Err e => (k, Err e)
  | Ok r =>
    let v := ri_view r in
    let token := rr_ContinuationToken req in
    if blank token then
      (k, Err (kernelErr 422 "RUN_INPUT_INVALID" "continuation_token required"
                 ["continuation_token_missing"]))
    else match k_continuations k !! token with
    | None => (k, Err (kernelErr 410 "RUN_CONTINUATION_EXPIRED_OR_MISSING"
                         "continuation not found" ["continuation_missing"]))
    | Some c =>
      if negb (ct_RunID c =? runID)%string then
        (k, Err (kernelErr 409 "RUN_CONTINUATION_RUN_MISMATCH" "continuation run mismatch"
                   ["continuation_run_mismatch"]))
      else if (ct_Status c =? "consumed")%string then
        (k, Err (kernelErr 409 "RUN_CONTINUATION_CONSUMED" "continuation already consumed"
                   ["continuation_consumed"]))
      else if After now (ct_ExpiresAt c) then
        (store_continuation token (ct_set_Status "expired" c) k,
         Err (kernelErr 410 "RUN_CONTINUATION_EXPIRED" "continuation expired"
                ["continuation_expired"]))
      else if negb (blank (rr_ExpectedSnapshotHash req))
              && negb (rr_ExpectedSnapshotHash req =? rs_SnapshotHash (rv_Snapshot v))%string then
        (k, Err (kernelErr 412 "RUN_SNAPSHOT_MISMATCH" "snapshot mismatch on resume"
                   ["snapshot_mismatch"]))
      else if rr_IncomingStepSeqID req <=? rv_CurrentStepSeqID v then
        (emitProgressMonotonicityViolation runID (ct_StepID c) (rr_IncomingStepSeqID req)
           (rv_CurrentStepSeqID v) now k,
         Err (kernelErr 409 "RUN_PROGRESS_MONOTONICITY_VIOLATION"
                "incoming_step_seq_id must be strictly increasing"
                ["progress_monotonicity_violation"]))
      else if negb (ct_StepSeqID c =? rv_CurrentStepSeqID v) then
        (k, Err (kernelErr 409 "RUN_CONTINUATION_SEQ_MISMATCH" "continuation step_seq mismatch"
                   ["continuation_seq_mismatch"]))
      else if negb (rv_State v =? StateParked)%string
              && negb (rv_State v =? StateAwaitingApproval)%string then
        (k, Err (kernelErr 409 "RUN_STATE_CONFLICT" "run is not resumable state" ["state_conflict"]))
      else if negb (tokenTypeMatchesRunState (ct_TokenType c) (rv_State v)) then
        (k, Err (kernelErr 409 "RUN_CONTINUATION_TYPE_STATE_MISMATCH"
                   "continuation token type does not match run state"
                   ["continuation_type_state_mismatch"]))
      else resume_commit runID req c r now k
    end
  end.

(** ** AbortRun, reads, risk flags *)

Definition aborted_view (req : AbortRunRequest) (nextSeq : Z) (stepHash : string) (now : time)
    (v : RunView) : RunView :=
  let reason := TrimSpace (abr_Reason req) in
  v |> rv_set_State StateAborted
    |> rv_set_StateVersion (wrap_int64 (rv_StateVersion v + 1))
    |> rv_set_CurrentStepSeqID nextSeq
    |> rv_set_LastStepHash stepHash
    |> rv_set_UpdatedAt now
    |> rv_set_LastProgressAt now
    |> rv_set_TerminalReason (if (reason =? "")%string then "manual_abort" else reason)
    |> rv_set_TerminalSource "abort_api"
    |> anchorRootLocked RootTypeAborted stepHash.

Definition AbortRun (runID : string) (req : AbortRunRequest) (now : time) (k : Kernel)
  : Kernel * result KernelError RunView :=
  match getRunLocked k runID with
  | Err e => (k, Err e)
  | Ok r =>
    let v := ri_view r in
    if isTerminalState (rv_State v) then (k, Ok v)
    else
    let nextSeq := wrap_int64 (rv_CurrentStepSeqID v + 1) in
    match appendSyntheticStepLocked r (rv_ActiveStepID v) nextSeq "abort" (abr_Reason req) "aborted"
            now k with
    | (k, Err err) => (k, Err err)
    | (k, Ok stepHash) =>
      let v' := aborted_view req nextSeq stepHash now v in
      (k |> store_run runID (ri_set_view v' r)
         |> cleanupRunScopedCachesLocked runID
         |> emit "run.aborted" runID (rv_ActiveStepID v') [("reason", GStr (abr_Reason req))] now,
       Ok v')
    end
  end.

Definition GetRun (k : Kernel) (runID : string) : result KernelError RunView :=
  match getRunLocked k runID with Err e => Err e | Ok r => Ok (ri_view r) end.

Definition StepIntegrities (k : Kernel) (runID : string) : list StepIntegrity :=
  default [] (k_stepIntegrity k !! runID).

Definition FlagRunRisk (runID : string) (securityRisk resourceRisk : bool) (k : Kernel)
  : Kernel * option KernelError :=
  match getRunLocked k runID with
  | Err e => (k, Some e)
  | Ok r =>
    (store_run runID (r |> ri_set_securityRisk securityRisk |> ri_set_resourceRisk resourceRisk) k,
     None)
  end.

(** The continuation the loop of [FindActiveContinuation] keeps. *)
Definition active_for (runID stepID tokenType : string) (now : time) (c : Continuation) : bool :=
  (ct_RunID c =? runID)%string
  && ((stepID =? "")%string || (ct_StepID c =? stepID)%string)
  && ((tokenType =? "")%string || (ct_TokenType c =? tokenType)%string)
  && (ct_Status c =? "active")%string
  && negb (After now (ct_ExpiresAt c)).

Definition better (c chosen : Continuation) : bool :=
  (ct_StepSeqID chosen <? ct_StepSeqID c)
  || ((ct_StepSeqID c =? ct_StepSeqID chosen) && After (ct_CreatedAt c) (ct_CreatedAt chosen)).

Definition choose_continuation (ok : Continuation -> bool) (chosen : option Continuation)
    (_ : string) (c : Continuation) : option Continuation :=
  if negb (ok c) then chosen
  else match chosen with
       | None => Some c
       | Some ch => if better c ch then Some c else chosen
       end.

Definition FindActiveContinuation (k : Kernel) (runID stepID tokenType : string) (now : time)
  : option Continuation :=
  let runID := TrimSpace runID in
  let stepID := TrimSpace stepID in
  let tokenType := ToLower (TrimSpace tokenType) in
  if (runID =? "")%string then None
  else go_range (choose_continuation (active_for runID stepID tokenType now)) None
         (k_continuations k).
End Ops.
