(* ===== verification/RunSweeps.v ===== *)
(** * Sweeps and maintenance of the Run kernel
    ([internal/run/kernel.go], lines 842-976, 1504-1515, 1554-1659)

    The two sweepers visit the runs in key order, up to the batch limit, then
    run the maintenance pass; the maintenance loops range over maps in an
    unspecified order. *)

From S2P Require Import Prelude GoStrings GoTime GoJson RunTypes RunStates RunOutbox RunKernel.

Definition run_key_le (a b : string * runInstance) : Prop := String.le a.1 b.1.
#[global] Instance run_key_le_dec : RelDecision run_key_le.
Proof. intros a b. unfold run_key_le. apply _. Defined.

(** The keys sorted, each with its run: keys are unique, so the order in which
    the map was listed does not matter. *)
Definition sortedRuns (m : gmap string runInstance) : list (string * runInstance) :=
  merge_sort run_key_le (map_to_list m).

Section Sweeps.
Context `{JsonMarshaler} `{MapRange}.

(** ** Maintenance *)

(** What the loop leaves of a continuation: [None] deletes the entry. *)
Definition continuation_after (cfg : Config) (now : time) (c : Continuation) : option Continuation :=
  let c := if (ct_Status c =? "active")%string && After now (ct_ExpiresAt c)
           then ct_set_Status "expired" c else c in
  let retention := cfg_ContinuationRetention cfg in
  if (ct_Status c =? "consumed")%string then
    match ct_ConsumedAt c with
    | Some t => if After now (Add t retention) then None else Some c
    | None => Some c
    end
  else if (ct_Status c =? "expired")%string then
    if After now (Add (ct_ExpiresAt c) retention) then None else Some c
  else if (ct_Status c =? "active")%string then
    if After now (Add (ct_ExpiresAt c) retention) then None else Some c
  else Some c.

Definition cleanupContinuationsLocked (now : time) (k : Kernel) : Kernel * Z :=
  let '(m, deleted) :=
    range_cleanup (fun _ c => continuation_after (k_cfg k) now c) (k_continuations k) in
  (k_set_continuations m k, deleted).

(** [LastAccessAt], or [CreatedAt] when it is zero, plus the retention. *)
Definition entry_stale (now lastAccess created : time) (ttl : duration) : bool :=
  let anchor := if IsZero lastAccess then created else lastAccess in
  (0 <? ttl) && After now (Add anchor ttl).

Definition cleanupIdempotencyLocked (now : time) (k : Kernel) : Kernel * Z :=
  let '(m, deleted) :=
    range_cleanup (fun _ e =>
      if entry_stale now (ie_LastAccessAt e) (ie_CreatedAt e) (cfg_IdempotencyTTL (k_cfg k))
      then None else Some e) (k_idempotency k) in
  (k_set_idempotency m k, deleted).

Definition cleanupCreateRunsLocked (now : time) (k : Kernel) : Kernel * Z :=
  let '(m, deleted) :=
    range_cleanup (fun _ e =>
      if entry_stale now (ce_LastAccessAt e) (ce_CreatedAt e)
           (cfg_CreateRequestRetention (k_cfg k))
      then None else Some e) (k_createRuns k) in
  (k_set_createRuns m k, deleted).

(** The condition under which a run is dropped. *)
Definition run_expired (cfg : Config) (now : time) (r : runInstance) : bool :=
  isTerminalState (rv_State (ri_view r))
  && After now (Add (rv_UpdatedAt (ri_view r)) (cfg_RunRetention cfg)).

Definition delete_run (runID : string) (k : Kernel) : Kernel :=
  k |> k_set_runs (delete runID (k_runs k))
    |> k_set_stepIntegrity (delete runID (k_stepIntegrity k))
    |> cleanupRunScopedCachesLocked runID.

Definition terminal_run_body (now : time) (s : Kernel * Z) (runID : string) (r : runInstance)
  : Kernel * Z :=
  if run_expired (k_cfg (fst s)) now r then (delete_run runID (fst s), snd s + 1) else s.

Definition cleanupTerminalRunsLocked (now : time) (k : Kernel) : Kernel * Z :=
  if cfg_RunRetention (k_cfg k) <=? 0 then (k, 0)
  else go_range (terminal_run_body now) (k, 0) (k_runs k).

Definition applyMaintenanceLocked (now : time) (k : Kernel) (res : SweepResult)
  : Kernel * SweepResult :=
  let '(k, deletedCont) := cleanupContinuationsLocked now k in
  let '(k, deletedIdem) := cleanupIdempotencyLocked now k in
  let '(k, deletedRuns) := cleanupTerminalRunsLocked now k in
  let '(k, deletedCreate) := cleanupCreateRunsLocked now k in
  let '(k, trimmedOutbox) := cleanupOutboxLocked k now in
  (k, res |> sw_set_DeletedContinuations (sw_DeletedContinuations res + deletedCont)
          |> sw_set_DeletedIdempotency (sw_DeletedIdempotency res + deletedIdem)
          |> sw_set_DeletedRuns (sw_DeletedRuns res + deletedRuns)
          |> sw_set_DeletedCreateRequests (sw_DeletedCreateRequests res + deletedCreate)
          |> sw_set_OutboxTrimmed (sw_OutboxTrimmed res + trimmedOutbox)).

Definition MaintenanceSweep (now : time) (k : Kernel) : Kernel * SweepResult :=
  applyMaintenanceLocked now k empty_SweepResult.

(** ** Forced transitions *)

(** The view after a sweeper's synthetic step (lines 872-879, 893-900, 950-957). *)
Definition forced_view (state rootType reason source : string) (nextSeq : Z) (stepHash : string)
    (now : time) (v : RunView) : RunView :=
  v |> rv_set_State state
    |> rv_set_StateVersion (wrap_int64 (rv_StateVersion v + 1))
    |> rv_set_CurrentStepSeqID nextSeq
    |> rv_set_LastStepHash stepHash
    |> rv_set_UpdatedAt now
    |> rv_set_TerminalReason reason
    |> rv_set_TerminalSource source
    |> anchorRootLocked rootType stepHash.

Definition at_risk (r : runInstance) : bool := ri_securityRisk r || ri_resourceRisk r.

Definition incr (set : Z -> SweepResult -> SweepResult) (get : SweepResult -> Z) (s : SweepResult)
  : SweepResult := set (get s + 1) s.

(** ** SweepTTL *)

(** The body of the loop after the scan counter (lines 852-904). *)
Definition ttl_visit (now : time) (id : string) (r : runInstance) (k : Kernel) (res : SweepResult)
  : Kernel * SweepResult :=
  let v := ri_view r in
  if isTerminalState (rv_State v) then (k, res)
  else if ri_maxLifetime r <=? 0 then (k, res)
  else if Sub now (rv_CreatedAt v) <=? ri_maxLifetime r then (k, res)
  else if (Sub now (rv_LastProgressAt v) <=? cfg_ZombieNoProgressWindow (k_cfg k))
          && negb (ri_securityRisk r) && negb (ri_resourceRisk r) then (k, res)
  else
  let nextSeq := wrap_int64 (rv_CurrentStepSeqID v + 1) in
  if at_risk r then
    match appendSyntheticStepLocked r (rv_ActiveStepID v) nextSeq "ttl_force_abort"
            "ttl_breach_risk" "" now k with
    | (k, Err _) => (k, incr sw_set_SkippedIntegrityErrors sw_SkippedIntegrityErrors res)
    | (k, Ok stepHash) =>
      let v' := forced_view StateForceAbort RootTypeAborted "ttl_breach_risk" "ttl_sweeper"
                  nextSeq stepHash now v in
      (k |> store_run id (ri_set_view v' r)
         |> cleanupRunScopedCachesLocked (rv_RunID v')
         |> emit "run_ttl_force_abort" (rv_RunID v') (rv_ActiveStepID v')
              [("risk_tier", GStr (rv_RiskTier v'))] now,
       incr sw_set_ForceAbortCount sw_ForceAbortCount res)
    end
  else
    match appendSyntheticStepLocked r (rv_ActiveStepID v) nextSeq "ttl_force_review"
            "ttl_breach" "" now k with
    | (k, Err _) => (k, incr sw_set_SkippedIntegrityErrors sw_SkippedIntegrityErrors res)
    | (k, Ok stepHash) =>
      let v' := forced_view StateForceReviewRequired RootTypeReviewHold "ttl_breach" "ttl_sweeper"
                  nextSeq stepHash now v in
      (k |> store_run id (ri_set_view v' r)
         |> emit "run_ttl_force_review_required" (rv_RunID v') (rv_ActiveStepID v')
              [("risk_tier", GStr (rv_RiskTier v'))] now,
       incr sw_set_ForceReviewRequiredCount sw_ForceReviewRequiredCount res)
    end.

(** The loop: stop at the batch limit, count the scan, visit. *)
Fixpoint sweep_loop
    (visit : string -> runInstance -> Kernel -> SweepResult -> Kernel * SweepResult)
    (l : list (string * runInstance)) (k : Kernel) (res : SweepResult) : Kernel * SweepResult :=
  match l with
  | [] => (k, res)
  | (id, r) :: l =>
    if cfg_SweepBatchLimit (k_cfg k) <=? sw_Scanned res then (k, res)
    else
      let '(k, res) := visit id r k (incr sw_set_Scanned sw_Scanned res) in
      sweep_loop visit l k res
  end.

Definition SweepTTL (now : time) (k : Kernel) : Kernel * SweepResult :=
  let '(k, res) := sweep_loop (ttl_visit now) (sortedRuns (k_runs k)) k empty_SweepResult in
  applyMaintenanceLocked now k res.

(** ** SweepZombie *)

Definition zombie_visit (now : time) (id : string) (r : runInstance) (k : Kernel)
    (res : SweepResult) : Kernel * SweepResult :=
  let v := ri_view r in
  if isTerminalState (rv_State v) then (k, res)
  else if Sub now (rv_LastProgressAt v) <=? cfg_ZombieNoProgressWindow (k_cfg k) then
    (store_run id (ri_set_noProgressScans 0 r) k, res)
  else
  let r := ri_set_noProgressScans (wrap_int64 (ri_noProgressScans r + 1)) r in
  if ri_noProgressScans r <? 2 then (store_run id r k, res)
  else
  let nextSeq := wrap_int64 (rv_CurrentStepSeqID v + 1) in
  let '(nextState, rootType, res) :=
    if at_risk r
    then (StateForceAbort, RootTypeAborted, incr sw_set_ForceAbortCount sw_ForceAbortCount res)
    else (StateForceReviewRequired, RootTypeReviewHold,
          incr sw_set_ForceReviewRequiredCount sw_ForceReviewRequiredCount res) in
  match appendSyntheticStepLocked r (rv_ActiveStepID v) nextSeq "zombie_sweep" "no_progress" ""
          now k with
  | (k, Err _) =>
    (store_run id r k, incr sw_set_SkippedIntegrityErrors sw_SkippedIntegrityErrors res)
  | (k, Ok stepHash) =>
    let v' := forced_view nextState rootType "no_progress" "zombie_sweeper" nextSeq stepHash now v in
    let k := store_run id (ri_set_view v' r) k in
    let k := if (nextState =? StateForceAbort)%string
             then cleanupRunScopedCachesLocked (rv_RunID v') k else k in
    (emit "run_zombie_terminated" (rv_RunID v') (rv_ActiveStepID v')
       [("new_state", GStr nextState)] now k,
     incr sw_set_ZombieTerminatedCount sw_ZombieTerminatedCount res)
  end.

Definition SweepZombie (now : time) (k : Kernel) : Kernel * SweepResult :=
  let '(k, res) := sweep_loop (zombie_visit now) (sortedRuns (k_runs k)) k empty_SweepResult in
  applyMaintenanceLocked now k res.
End Sweeps.
