(* ===== verification/RunInvariant.v ===== *)
(** * What each primitive of the Run kernel leaves alone

    Emitting events changes the outbox and its counters only; cleaning the
    caches of a run filters three maps.  [core] is the part of the state the
    run invariants speak about, and [same_core] the equivalence they respect.

    Then the invariant of the kernel and that each primitive preserves it. *)

From S2P Require Import Prelude GoStrings Sha256 GoTime GoJson RunTypes RunStates RunOutbox.
From S2P Require Import RunKernel RunSweeps.

(** ** Hashes *)

Section HashFacts.
Context `{JsonMarshaler}.

(** A successful hash is the SHA-256 of the encoding. *)
Lemma hash_checked_Some v h :
  hash_checked v = Some h <-> exists raw, marshalJSON v = Ok raw /\ h = sha256_hex raw.
Proof.
  unfold hash_checked, hashJSONWithStatus. destruct (marshalJSON v) as [raw|err]; simpl.
  - assert (isErrorHash (sha256_hex raw) = false) as ->.
    { unfold isErrorHash, HasPrefix. rewrite sha256_hex_trim.
        destruct (String.prefix "err_" (sha256_hex raw)) eqn:E; [exfalso|done].
      apply HasPrefix_spec in E as [t Ht].
      pose proof (sha256_hex_chars raw) as Hh. rewrite Ht, bytes_app, forallb_app in Hh.
      by vm_compute in Hh. }
    simpl. split; [intros [= <-]; eauto|intros (raw' & [= <-] & ->); done].
  - split; [done|intros (? & ? & _); done].
Qed.

Lemma hash_checked_hex v h : hash_checked v = Some h ->
  String.length h = 64%nat /\ TrimSpace h = h /\ h <> "".
Proof.
  intros (raw & _ & ->)%hash_checked_Some. split_and!.
  - apply sha256_hex_length.
  - apply sha256_hex_trim.
  - apply sha256_hex_nonempty.
Qed.
End HashFacts.

(** Strings always marshal, so hashing a synthetic step or a normal step cannot
    fail with Go's marshaler. *)
Lemma synthetic_hash_total p ty i o : is_Some (hash_checked (synthetic_hash_input p ty i o)).
Proof. eexists. apply hash_checked_Some. eexists. split; reflexivity. Qed.

Lemma step_hash_total p d i o : is_Some (hash_checked (step_hash_input p d i o)).
Proof. eexists. apply hash_checked_Some. eexists. split; reflexivity. Qed.

(** ** The core of the state *)

Definition core (k : Kernel) :=
  (k_cfg k, k_runs k, k_continuations k, k_idempotency k, k_createRuns k, k_stepIntegrity k,
   k_runSeq k).

Record same_core (k k' : Kernel) : Prop := SameCore { same_core_eq : core k = core k' }.

#[export] Instance same_core_equiv : Equivalence same_core.
Proof.
  split; [by constructor|by intros k k' [E]; constructor|].
  intros k1 k2 k3 [E1] [E2]. constructor. congruence.
Qed.

#[export] Hint Extern 0 (same_core ?k ?k) => reflexivity : core.

Lemma same_core_fields k k' : same_core k k' ->
  k_cfg k = k_cfg k' /\ k_runs k = k_runs k' /\ k_continuations k = k_continuations k' /\
  k_idempotency k = k_idempotency k' /\ k_createRuns k = k_createRuns k' /\
  k_stepIntegrity k = k_stepIntegrity k' /\ k_runSeq k = k_runSeq k'.
Proof. intros [E]. unfold core in E. by simplify_eq. Qed.

Section Frame.
Context `{JsonMarshaler} `{UrlParser} `{MapRange}.

Lemma cleanupOutbox_core k now : same_core (fst (cleanupOutboxLocked k now)) k.
Proof. constructor. unfold cleanupOutboxLocked. simpl. by case_match. Qed.

Lemma emit_core ev id step kvs now k : same_core (emit ev id step kvs now k) k.
Proof. unfold emit. repeat case_match; rewrite cleanupOutbox_core; by constructor. Qed.

Lemma emit_cfg ev id step kvs now k : k_cfg (emit ev id step kvs now k) = k_cfg k.
Proof. apply (same_core_fields _ _ (emit_core ev id step kvs now k)). Qed.

Lemma emit_runs ev id step kvs now k : k_runs (emit ev id step kvs now k) = k_runs k.
Proof. apply (same_core_fields _ _ (emit_core ev id step kvs now k)). Qed.

Lemma emit_steps ev id step kvs now k x :
  StepIntegrities (emit ev id step kvs now k) x = StepIntegrities k x.
Proof.
  unfold StepIntegrities.
  by destruct (same_core_fields _ _ (emit_core ev id step kvs now k)) as (_ & _ & _ & _ & _ & -> & _).
Qed.

Lemma emitProgress_core id step i c now k :
  same_core (emitProgressMonotonicityViolation id step i c now k) k.
Proof. unfold emitProgressMonotonicityViolation. by rewrite !emit_core. Qed.

#[export] Instance store_run_proper id r : Proper (same_core ==> same_core) (store_run id r).
Proof.
  intros k k' E%same_core_fields. destruct_and! E. constructor. unfold core; simpl. congruence.
Qed.

#[export] Instance append_integrity_proper id s :
  Proper (same_core ==> same_core) (append_integrity id s).
Proof.
  intros k k' E%same_core_fields. destruct_and! E. constructor. unfold core; simpl. congruence.
Qed.

#[export] Instance cleanup_caches_proper id :
  Proper (same_core ==> same_core) (cleanupRunScopedCachesLocked id).
Proof.
  intros k k' E%same_core_fields. destruct_and! E.
  constructor. unfold core, cleanupRunScopedCachesLocked, cleanupCreateRunsForRunIDLocked; simpl.
  by repeat case_match; simplify_eq/=; congruence.
Qed.

(** Lookups after the cleanup of the caches of [id]. *)
Definition keep_unless {V} (run_of : V -> string) (id : string) (v : V) : option V :=
  if (run_of v =? id)%string then None else Some v.

Lemma cleanup_caches_spec id k :
  let k' := cleanupRunScopedCachesLocked id k in
  k_cfg k' = k_cfg k /\ k_runs k' = k_runs k /\ k_stepIntegrity k' = k_stepIntegrity k /\
  k_runSeq k' = k_runSeq k /\ k_outbox k' = k_outbox k /\
  (forall t, k_continuations k' !! t = k_continuations k !! t ≫= keep_unless ct_RunID id) /\
  (forall t, k_idempotency k' !! t = k_idempotency k !! t ≫= keep_unless ie_RunID id) /\
  (forall t, k_createRuns k' !! t = k_createRuns k !! t ≫= keep_unless ce_RunID id).
Proof.
  unfold cleanupRunScopedCachesLocked, cleanupCreateRunsForRunIDLocked; simpl.
  destruct (range_cleanup _ _) as [m n] eqn:E; simpl.
  apply (f_equal fst) in E; simpl in E. subst m.
  split_and!; try done; intros t.
  - by rewrite lookup_range_update.
  - by rewrite lookup_range_update.
  - by rewrite lookup_range_cleanup.
Qed.

(** Appending a synthetic step: what the two outcomes are. *)
Lemma appendSynthetic_spec r stepID seq ty inp out now k k' res :
  appendSyntheticStepLocked r stepID seq ty inp out now k = (k', res) ->
  match res with
  | Err e => same_core k' k /\ ke_Code e = "RUN_HASH_GENERATION_FAILED" /\
             hash_checked (synthetic_hash_input (rv_LastStepHash (ri_view r)) ty inp out) = None
  | Ok h =>
    hash_checked (synthetic_hash_input (rv_LastStepHash (ri_view r)) ty inp out) = Some h /\
    k' = append_integrity (rv_RunID (ri_view r))
           {| sg_RunID := rv_RunID (ri_view r); sg_StepID := stepID; sg_StepSeqID := seq;
              sg_StepType := StepTypeSynthetic; sg_SyntheticType := ToLower (TrimSpace ty);
              sg_IntegrityChainVersion := rv_IntegrityChainVersion (ri_view r);
              sg_PreviousStepHash := rv_LastStepHash (ri_view r); sg_DecisionHash := "";
              sg_InputHash := inp; sg_OutputHash := out; sg_StepHash := h;
              sg_CreatedAt := now |} k
  end.
Proof.
  unfold appendSyntheticStepLocked. case_match eqn:E; intros [= <- <-]; [done|].
  split_and!; [apply emit_core|done..].
Qed.
End Frame.

#[global] Arguments emit : simpl never.
#[global] Arguments emitProgressMonotonicityViolation : simpl never.
#[global] Arguments cleanupOutboxLocked : simpl never.
#[global] Arguments cleanupRunScopedCachesLocked : simpl never.

(** * The invariant of the Run kernel

    [Inv] holds of the empty kernel and is preserved by every operation
    (last part of this file).  It says, for every stored run: the state is one of the
    ten constants; the step records form a hash chain from the empty hash to
    [LastStepHash], each record recomputable from its fields; the snapshot hash
    is the hash of the snapshot; the root fields agree; the identifier was
    issued by this kernel.  And for the caches: every continuation,
    idempotency entry and create-request entry refers to a stored run that is
    not terminal. *)

Section Invariant.
Context `{JsonMarshaler}.

(** ** The step chain *)

(** A step record can be recomputed from its own fields. *)
Definition step_ok (s : StepIntegrity) : Prop :=
  sg_StepType s = StepTypeNormal /\
    hash_checked (step_hash_input (sg_PreviousStepHash s) (sg_DecisionHash s) (sg_InputHash s)
                    (sg_OutputHash s)) = Some (sg_StepHash s)
  \/ sg_StepType s = StepTypeSynthetic /\
    hash_checked (synthetic_hash_input (sg_PreviousStepHash s) (sg_SyntheticType s)
                    (sg_InputHash s) (sg_OutputHash s)) = Some (sg_StepHash s).

Fixpoint chain (prev : string) (l : list StepIntegrity) (last : string) : Prop :=
  match l with
  | [] => prev = last
  | s :: l => sg_PreviousStepHash s = prev /\ step_ok s /\ chain (sg_StepHash s) l last
  end.

Lemma chain_snoc p l q s :
  chain p l q -> sg_PreviousStepHash s = q -> step_ok s -> chain p (l ++ [s]) (sg_StepHash s).
Proof.
  revert p. induction l as [|s' l IH]; intros p; simpl.
  - intros -> Hq Hs. done.
  - intros (Hp & Hs' & Hc) Hq Hs. split_and!; auto.
Qed.

Lemma chain_end_unique p l q q' : chain p l q -> chain p l q' -> q = q'.
Proof.
  revert p. induction l as [|s l IH]; intros p; simpl; [congruence|].
  intros (_ & _ & H1) (_ & _ & H2). eauto.
Qed.

(** ** The root fields *)

Definition anchor_of (rootType : string) (a : RootAnchors) : option string :=
  if (rootType =? RootTypeCompleted)%string then Some (ra_CompletedRoot a)
  else if (rootType =? RootTypePartial)%string then Some (ra_PartialRoot a)
  else if (rootType =? RootTypeReconciled)%string then Some (ra_ReconciledRoot a)
  else if (rootType =? RootTypeReviewHold)%string then Some (ra_ReviewHoldRoot a)
  else if (rootType =? RootTypeAborted)%string then Some (ra_AbortedRoot a)
  else None.

(** Either no root was anchored yet, or the anchor of the current root type
    holds the current root. *)
Definition roots_ok (v : RunView) : Prop :=
  (rv_RunIntegrityRoot v = "" /\ rv_IntegrityRootType v = "" /\ rv_RunIntegrityRootVersion v = 0)
  \/ (rv_RunIntegrityRoot v <> "" /\
      anchor_of (rv_IntegrityRootType v) (rv_RootAnchors v) = Some (rv_RunIntegrityRoot v)).

Definition root_types : list string :=
  [RootTypeCompleted; RootTypePartial; RootTypeReconciled; RootTypeReviewHold; RootTypeAborted].

Lemma anchor_of_set ty root a :
  In ty root_types -> anchor_of ty (set_anchor ty root a) = Some root.
Proof. intros Ht. repeat (destruct Ht as [<-|Ht]; [reflexivity|]). done. Qed.

(** ** One run *)

Definition snapshot_ok (s : RunSnapshot) : Prop :=
  hash_checked (snapshot_gval (rs_set_SnapshotHash "" s)) = Some (rs_SnapshotHash s).

(** Identifiers issued up to the sequence number [n]. *)
Definition issued (n : Z) (id : string) : Prop :=
  exists fp i, id = run_id fp i /\ (8 <= String.length fp)%nat /\ 1 <= i <= n.

Record run_ok (steps : list StepIntegrity) (seq : Z) (id : string) (v : RunView) : Prop := {
  ro_id : rv_RunID v = id;
  ro_state : exists q, rv_State v = state_name q;
  ro_chain : chain "" steps (rv_LastStepHash v);
  ro_steps : Forall (fun s => sg_RunID s = id) steps;
  ro_snapshot : snapshot_ok (rv_Snapshot v);
  ro_roots : roots_ok v;
  ro_issued : issued seq id;
  ro_risk : isValidRisk (rv_RiskTier v) = true
}.

(** ** The caches *)

Definition live (k : Kernel) (id : string) : Prop :=
  exists r, k_runs k !! id = Some r /\ isTerminalState (rv_State (ri_view r)) = false.

(** Every cache entry refers to a run satisfying [P]; continuations are
    stored under their own identifier. *)
Record refs_ok (P : string -> Prop) (k : Kernel) : Prop := {
  rf_conts : forall t c, k_continuations k !! t = Some c ->
    ct_ContinuationID c = t /\ P (ct_RunID c);
  rf_idem : forall t e, k_idempotency k !! t = Some e -> P (ie_RunID e);
  rf_create : forall t e, k_createRuns k !! t = Some e ->
    P (ce_RunID e) /\ crr_RunID (ce_Response e) = ce_RunID e
}.

Lemma refs_ok_mono (P Q : string -> Prop) k :
  (forall id, P id -> Q id) -> refs_ok P k -> refs_ok Q k.
Proof.
  intros HPQ [H1 H2 H3]. split.
  - intros t c Hc. destruct (H1 _ _ Hc). auto.
  - intros t e He. eauto.
  - intros t e He. destruct (H3 _ _ He). auto.
Qed.

(** ** The kernel *)

Record runs_ok (k : Kernel) : Prop := {
  rk_run : forall id r, k_runs k !! id = Some r ->
    run_ok (StepIntegrities k id) (k_runSeq k) id (ri_view r);
  rk_steps : forall id l, k_stepIntegrity k !! id = Some l -> is_Some (k_runs k !! id);
  rk_seq : 0 <= k_runSeq k < 2 ^ 64
}.

Record Inv (k : Kernel) : Prop := {
  inv_runs : runs_ok k;
  inv_refs : refs_ok (live k) k
}.

#[export] Instance live_proper : Proper (same_core ==> (=) ==> iff) live.
Proof.
  intros k k' E%same_core_fields id ? <-. destruct_and! E. unfold live.
  split; intros (r & ? & ?); exists r; split; congruence.
Qed.

#[export] Instance refs_ok_proper P : Proper (same_core ==> iff) (refs_ok P).
Proof.
  intros k k' (_ & _ & E1 & E2 & E3 & _)%same_core_fields.
  split; intros [A B C]; split; rewrite ?E1, ?E2, ?E3 in *; done.
Qed.

#[export] Instance runs_ok_proper : Proper (same_core ==> iff) runs_ok.
Proof.
  intros k k' (_ & E1 & _ & _ & _ & E2 & E3)%same_core_fields.
  split; intros [A B C]; split; unfold StepIntegrities in *;
    rewrite ?E1, ?E2, ?E3 in *; done.
Qed.

#[export] Instance Inv_proper : Proper (same_core ==> iff) Inv.
Proof.
  assert (Hdir : forall k k', same_core k k' -> Inv k -> Inv k').
  { intros k k' E [A B]. split.
    - by apply (runs_ok_proper _ _ E).
    - apply (refs_ok_mono (live k)); [intros id; by rewrite E|].
      by apply (refs_ok_proper _ _ _ E). }
  intros k k' E. split; apply Hdir; [done|by symmetry].
Qed.
End Invariant.

(** * Preservation lemmas for the primitives of the Run kernel

    Anchoring a root changes the root fields only and keeps them consistent;
    storing an updated run, committing a step, filtering or filling a cache
    preserve the parts of the invariant the operations need. *)

(** ** Anchoring *)

(** The fields a view keeps when a root is anchored. *)
Definition view_fields (v : RunView) :=
  (rv_RunID v, rv_TenantID v, rv_WorkflowID v, rv_WorkflowVersion v,
   rv_State v, rv_ActiveStepID v, rv_StateVersion v, rv_RiskTier v,
   rv_IntegrityChainVersion v, rv_LastStepHash v, rv_TerminalReason v, rv_TerminalSource v,
   rv_AttachedTags v, rv_CurrentStepSeqID v, rv_CreatedAt v, rv_UpdatedAt v,
   rv_LastProgressAt v, rv_Snapshot v).

Lemma anchorRoot_fields ty root v : view_fields (anchorRootLocked ty root v) = view_fields v.
Proof. unfold anchorRootLocked. by repeat case_match. Qed.

Lemma anchorByState_fields st root v : view_fields (anchorByStateLocked st root v) = view_fields v.
Proof. unfold anchorByStateLocked. repeat case_match; auto using anchorRoot_fields. Qed.

#[global] Arguments anchorRootLocked : simpl never.
#[global] Arguments anchorByStateLocked : simpl never.

Lemma anchorRoot_RunID ty root v : rv_RunID (anchorRootLocked ty root v) = rv_RunID v.
Proof. pose proof (anchorRoot_fields ty root v) as E. unfold view_fields in E. congruence. Qed.
Lemma anchorRoot_TenantID ty root v : rv_TenantID (anchorRootLocked ty root v) = rv_TenantID v.
Proof. pose proof (anchorRoot_fields ty root v) as E. unfold view_fields in E. congruence. Qed.
Lemma anchorRoot_WorkflowID ty root v : rv_WorkflowID (anchorRootLocked ty root v) = rv_WorkflowID v.
Proof. pose proof (anchorRoot_fields ty root v) as E. unfold view_fields in E. congruence. Qed.
Lemma anchorRoot_WorkflowVersion ty root v : rv_WorkflowVersion (anchorRootLocked ty root v) = rv_WorkflowVersion v.
Proof. pose proof (anchorRoot_fields ty root v) as E. unfold view_fields in E. congruence. Qed.
Lemma anchorRoot_State ty root v : rv_State (anchorRootLocked ty root v) = rv_State v.
Proof. pose proof (anchorRoot_fields ty root v) as E. unfold view_fields in E. congruence. Qed.
Lemma anchorRoot_ActiveStepID ty root v : rv_ActiveStepID (anchorRootLocked ty root v) = rv_ActiveStepID v.
Proof. pose proof (anchorRoot_fields ty root v) as E. unfold view_fields in E. congruence. Qed.
Lemma anchorRoot_StateVersion ty root v : rv_StateVersion (anchorRootLocked ty root v) = rv_StateVersion v.
Proof. pose proof (anchorRoot_fields ty root v) as E. unfold view_fields in E. congruence. Qed.
Lemma anchorRoot_RiskTier ty root v : rv_RiskTier (anchorRootLocked ty root v) = rv_RiskTier v.
Proof. pose proof (anchorRoot_fields ty root v) as E. unfold view_fields in E. congruence. Qed.
Lemma anchorRoot_IntegrityChainVersion ty root v : rv_IntegrityChainVersion (anchorRootLocked ty root v) = rv_IntegrityChainVersion v.
Proof. pose proof (anchorRoot_fields ty root v) as E. unfold view_fields in E. congruence. Qed.
Lemma anchorRoot_LastStepHash ty root v : rv_LastStepHash (anchorRootLocked ty root v) = rv_LastStepHash v.
Proof. pose proof (anchorRoot_fields ty root v) as E. unfold view_fields in E. congruence. Qed.
Lemma anchorRoot_TerminalReason ty root v : rv_TerminalReason (anchorRootLocked ty root v) = rv_TerminalReason v.
Proof. pose proof (anchorRoot_fields ty root v) as E. unfold view_fields in E. congruence. Qed.
Lemma anchorRoot_TerminalSource ty root v : rv_TerminalSource (anchorRootLocked ty root v) = rv_TerminalSource v.
Proof. pose proof (anchorRoot_fields ty root v) as E. unfold view_fields in E. congruence. Qed.
Lemma anchorRoot_AttachedTags ty root v : rv_AttachedTags (anchorRootLocked ty root v) = rv_AttachedTags v.
Proof. pose proof (anchorRoot_fields ty root v) as E. unfold view_fields in E. congruence. Qed.
Lemma anchorRoot_CurrentStepSeqID ty root v : rv_CurrentStepSeqID (anchorRootLocked ty root v) = rv_CurrentStepSeqID v.
Proof. pose proof (anchorRoot_fields ty root v) as E. unfold view_fields in E. congruence. Qed.
Lemma anchorRoot_CreatedAt ty root v : rv_CreatedAt (anchorRootLocked ty root v) = rv_CreatedAt v.
Proof. pose proof (anchorRoot_fields ty root v) as E. unfold view_fields in E. congruence. Qed.
Lemma anchorRoot_UpdatedAt ty root v : rv_UpdatedAt (anchorRootLocked ty root v) = rv_UpdatedAt v.
Proof. pose proof (anchorRoot_fields ty root v) as E. unfold view_fields in E. congruence. Qed.
Lemma anchorRoot_LastProgressAt ty root v : rv_LastProgressAt (anchorRootLocked ty root v) = rv_LastProgressAt v.
Proof. pose proof (anchorRoot_fields ty root v) as E. unfold view_fields in E. congruence. Qed.
Lemma anchorRoot_Snapshot ty root v : rv_Snapshot (anchorRootLocked ty root v) = rv_Snapshot v.
Proof. pose proof (anchorRoot_fields ty root v) as E. unfold view_fields in E. congruence. Qed.
Lemma anchorByState_RunID st root v : rv_RunID (anchorByStateLocked st root v) = rv_RunID v.
Proof. pose proof (anchorByState_fields st root v) as E. unfold view_fields in E. congruence. Qed.
Lemma anchorByState_TenantID st root v : rv_TenantID (anchorByStateLocked st root v) = rv_TenantID v.
Proof. pose proof (anchorByState_fields st root v) as E. unfold view_fields in E. congruence. Qed.
Lemma anchorByState_WorkflowID st root v : rv_WorkflowID (anchorByStateLocked st root v) = rv_WorkflowID v.
Proof. pose proof (anchorByState_fields st root v) as E. unfold view_fields in E. congruence. Qed.
Lemma anchorByState_WorkflowVersion st root v : rv_WorkflowVersion (anchorByStateLocked st root v) = rv_WorkflowVersion v.
Proof. pose proof (anchorByState_fields st root v) as E. unfold view_fields in E. congruence. Qed.
Lemma anchorByState_State st root v : rv_State (anchorByStateLocked st root v) = rv_State v.
Proof. pose proof (anchorByState_fields st root v) as E. unfold view_fields in E. congruence. Qed.
Lemma anchorByState_ActiveStepID st root v : rv_ActiveStepID (anchorByStateLocked st root v) = rv_ActiveStepID v.
Proof. pose proof (anchorByState_fields st root v) as E. unfold view_fields in E. congruence. Qed.
Lemma anchorByState_StateVersion st root v : rv_StateVersion (anchorByStateLocked st root v) = rv_StateVersion v.
Proof. pose proof (anchorByState_fields st root v) as E. unfold view_fields in E. congruence. Qed.
Lemma anchorByState_RiskTier st root v : rv_RiskTier (anchorByStateLocked st root v) = rv_RiskTier v.
Proof. pose proof (anchorByState_fields st root v) as E. unfold view_fields in E. congruence. Qed.
Lemma anchorByState_IntegrityChainVersion st root v : rv_IntegrityChainVersion (anchorByStateLocked st root v) = rv_IntegrityChainVersion v.
Proof. pose proof (anchorByState_fields st root v) as E. unfold view_fields in E. congruence. Qed.
Lemma anchorByState_LastStepHash st root v : rv_LastStepHash (anchorByStateLocked st root v) = rv_LastStepHash v.
Proof. pose proof (anchorByState_fields st root v) as E. unfold view_fields in E. congruence. Qed.
Lemma anchorByState_TerminalReason st root v : rv_TerminalReason (anchorByStateLocked st root v) = rv_TerminalReason v.
Proof. pose proof (anchorByState_fields st root v) as E. unfold view_fields in E. congruence. Qed.
Lemma anchorByState_TerminalSource st root v : rv_TerminalSource (anchorByStateLocked st root v) = rv_TerminalSource v.
Proof. pose proof (anchorByState_fields st root v) as E. unfold view_fields in E. congruence. Qed.
Lemma anchorByState_AttachedTags st root v : rv_AttachedTags (anchorByStateLocked st root v) = rv_AttachedTags v.
Proof. pose proof (anchorByState_fields st root v) as E. unfold view_fields in E. congruence. Qed.
Lemma anchorByState_CurrentStepSeqID st root v : rv_CurrentStepSeqID (anchorByStateLocked st root v) = rv_CurrentStepSeqID v.
Proof. pose proof (anchorByState_fields st root v) as E. unfold view_fields in E. congruence. Qed.
Lemma anchorByState_CreatedAt st root v : rv_CreatedAt (anchorByStateLocked st root v) = rv_CreatedAt v.
Proof. pose proof (anchorByState_fields st root v) as E. unfold view_fields in E. congruence. Qed.
Lemma anchorByState_UpdatedAt st root v : rv_UpdatedAt (anchorByStateLocked st root v) = rv_UpdatedAt v.
Proof. pose proof (anchorByState_fields st root v) as E. unfold view_fields in E. congruence. Qed.
Lemma anchorByState_LastProgressAt st root v : rv_LastProgressAt (anchorByStateLocked st root v) = rv_LastProgressAt v.
Proof. pose proof (anchorByState_fields st root v) as E. unfold view_fields in E. congruence. Qed.
Lemma anchorByState_Snapshot st root v : rv_Snapshot (anchorByStateLocked st root v) = rv_Snapshot v.
Proof. pose proof (anchorByState_fields st root v) as E. unfold view_fields in E. congruence. Qed.

#[export] Hint Rewrite
  anchorRoot_RunID anchorRoot_TenantID anchorRoot_WorkflowID anchorRoot_WorkflowVersion
  anchorRoot_State anchorRoot_ActiveStepID anchorRoot_StateVersion anchorRoot_RiskTier
  anchorRoot_IntegrityChainVersion anchorRoot_LastStepHash anchorRoot_TerminalReason anchorRoot_TerminalSource
  anchorRoot_AttachedTags anchorRoot_CurrentStepSeqID anchorRoot_CreatedAt anchorRoot_UpdatedAt
  anchorRoot_LastProgressAt anchorRoot_Snapshot anchorByState_RunID anchorByState_TenantID
  anchorByState_WorkflowID anchorByState_WorkflowVersion anchorByState_State anchorByState_ActiveStepID
  anchorByState_StateVersion anchorByState_RiskTier anchorByState_IntegrityChainVersion anchorByState_LastStepHash
  anchorByState_TerminalReason anchorByState_TerminalSource anchorByState_AttachedTags anchorByState_CurrentStepSeqID
  anchorByState_CreatedAt anchorByState_UpdatedAt anchorByState_LastProgressAt anchorByState_Snapshot : go_frame.

Ltac view_simpl := repeat (progress (simpl in *; autorewrite with go_frame in *)).

Lemma anchorRoot_roots ty root v :
  In ty root_types -> TrimSpace root = root -> root <> "" -> roots_ok v ->
  roots_ok (anchorRootLocked ty root v) /\
  rv_RunIntegrityRoot (anchorRootLocked ty root v) = root /\
  rv_IntegrityRootType (anchorRootLocked ty root v) = ty.
Proof.
  intros Ht Htrim Hne Hv. unfold anchorRootLocked. rewrite Htrim.
  rewrite (proj2 (String.eqb_neq root "")) by done.
  destruct (root =? rv_RunIntegrityRoot v)%string eqn:E; bool_hyps; simpl;
    (split_and!; [right; simpl; split; [congruence|]|congruence|done]);
    rewrite anchor_of_set; congruence.
Qed.

(** Anchoring whatever the root is, possibly blank. *)
Lemma anchorRoot_roots_any ty root v :
  In ty root_types -> roots_ok v -> roots_ok (anchorRootLocked ty root v).
Proof.
  intros Ht Hv. destruct (decide (TrimSpace root = "")) as [E|E].
  - unfold anchorRootLocked. by rewrite E.
  - assert (anchorRootLocked ty root v = anchorRootLocked ty (TrimSpace root) v) as ->.
    { unfold anchorRootLocked. by rewrite TrimSpace_idem. }
    apply anchorRoot_roots; [done|apply TrimSpace_idem|done|done].
Qed.

Lemma anchorByState_roots st root v : roots_ok v -> roots_ok (anchorByStateLocked st root v).
Proof.
  intros Hv. unfold anchorByStateLocked.
  repeat case_match; try apply anchorRoot_roots_any; simpl; tauto.
Qed.

(** The version of the root moves exactly when its value does. *)
Lemma anchorRoot_version ty root v :
  rv_RunIntegrityRootVersion (anchorRootLocked ty root v) =
  (if decide (rv_RunIntegrityRoot (anchorRootLocked ty root v) = rv_RunIntegrityRoot v)
   then rv_RunIntegrityRootVersion v else wrap_int64 (rv_RunIntegrityRootVersion v + 1)).
Proof.
  unfold anchorRootLocked.
  destruct (TrimSpace root =? "")%string; [by rewrite decide_True|].
  destruct (TrimSpace root =? rv_RunIntegrityRoot v)%string eqn:E; bool_hyps; simpl;
    [by rewrite decide_True|by rewrite decide_False].
Qed.

Lemma roots_ok_ext v v' :
  rv_RunIntegrityRoot v' = rv_RunIntegrityRoot v ->
  rv_IntegrityRootType v' = rv_IntegrityRootType v ->
  rv_RunIntegrityRootVersion v' = rv_RunIntegrityRootVersion v ->
  rv_RootAnchors v' = rv_RootAnchors v -> roots_ok v -> roots_ok v'.
Proof. unfold roots_ok. intros -> -> -> ->. done. Qed.

#[export] Hint Resolve anchorRoot_roots_any anchorByState_roots : go.

(** ** Runs and caches *)

Section Preserve.
Context `{JsonMarshaler} `{UrlParser} `{MapRange}.

Lemma runs_ok_ext k k' :
  k_runs k' = k_runs k -> k_stepIntegrity k' = k_stepIntegrity k -> k_runSeq k' = k_runSeq k ->
  runs_ok k -> runs_ok k'.
Proof.
  intros E1 E2 E3 [A B C]. split; unfold StepIntegrities in *; rewrite ?E1, ?E2, ?E3; done.
Qed.

Lemma refs_ok_ext P k k' :
  k_continuations k' = k_continuations k -> k_idempotency k' = k_idempotency k ->
  k_createRuns k' = k_createRuns k -> refs_ok P k -> refs_ok P k'.
Proof. intros E1 E2 E3 [A B C]. split; rewrite ?E1, ?E2, ?E3; done. Qed.

Lemma keep_unless_Some {V} (f : V -> string) id v w :
  keep_unless f id v = Some w <-> v = w /\ f v <> id.
Proof.
  unfold keep_unless. destruct (f v =? id)%string eqn:E; bool_hyps; naive_solver.
Qed.

(** After the cleanup nothing refers to the run any more. *)
Lemma cleanup_refs P id k :
  refs_ok P k -> refs_ok (fun x => P x /\ x <> id) (cleanupRunScopedCachesLocked id k).
Proof.
  destruct (cleanup_caches_spec id k) as (_ & _ & _ & _ & _ & E1 & E2 & E3).
  intros [A B C]. split; intros t c Hc; rewrite ?E1, ?E2, ?E3 in Hc;
    apply bind_Some in Hc as (c' & Hc' & Hk); apply keep_unless_Some in Hk as [<- Hne];
    firstorder.
Qed.

Lemma cleanup_runs id k : runs_ok k -> runs_ok (cleanupRunScopedCachesLocked id k).
Proof.
  destruct (cleanup_caches_spec id k) as (_ & E1 & E2 & E3 & _). by apply runs_ok_ext.
Qed.

Lemma refs_insert_idem P t e k :
  P (ie_RunID e) -> refs_ok P k -> refs_ok P (k_set_idempotency (<[t := e]> (k_idempotency k)) k).
Proof.
  intros He [A B C]. split; simpl; try done. intros t' e'.
  rewrite lookup_insert_Some. intros [[_ <-]|[_ ?]]; eauto.
Qed.

Lemma refs_insert_create P t e k :
  P (ce_RunID e) -> crr_RunID (ce_Response e) = ce_RunID e ->
  refs_ok P k -> refs_ok P (k_set_createRuns (<[t := e]> (k_createRuns k)) k).
Proof.
  intros He Hr [A B C]. split; simpl; try done. intros t' e'.
  rewrite lookup_insert_Some. intros [[_ <-]|[_ ?]]; eauto.
Qed.

Lemma refs_insert_cont P t c k :
  P (ct_RunID c) -> ct_ContinuationID c = t ->
  refs_ok P k -> refs_ok P (k_set_continuations (<[t := c]> (k_continuations k)) k).
Proof.
  intros Hc Ht [A B C]. split; simpl; try done. intros t' c'.
  rewrite lookup_insert_Some. intros [[<- <-]|[_ ?]]; eauto.
Qed.

(** Filtering or rewriting entries without touching what they refer to. *)
Lemma refs_filter_cont P f k :
  (forall t c c', f t c = Some c' ->
     ct_RunID c' = ct_RunID c /\ ct_ContinuationID c' = ct_ContinuationID c) ->
  refs_ok P k -> refs_ok P (k_set_continuations (fst (range_cleanup f (k_continuations k))) k).
Proof.
  intros Hf [A B C]. split; simpl; try done. intros t c.
  rewrite lookup_range_cleanup, bind_Some. intros (c0 & Hc0 & E).
  destruct (Hf _ _ _ E) as [-> ->]. eauto.
Qed.

Lemma refs_filter_idem P f k :
  (forall t e e', f t e = Some e' -> ie_RunID e' = ie_RunID e) ->
  refs_ok P k -> refs_ok P (k_set_idempotency (fst (range_cleanup f (k_idempotency k))) k).
Proof.
  intros Hf [A B C]. split; simpl; try done. intros t c.
  rewrite lookup_range_cleanup, bind_Some. intros (c0 & Hc0 & E).
  rewrite (Hf _ _ _ E). eauto.
Qed.

Lemma refs_filter_create P f k :
  (forall t e e', f t e = Some e' -> e' = e) ->
  refs_ok P k -> refs_ok P (k_set_createRuns (fst (range_cleanup f (k_createRuns k))) k).
Proof.
  intros Hf [A B C]. split; simpl; try done. intros t c.
  rewrite lookup_range_cleanup, bind_Some. intros (c0 & Hc0 & E).
  rewrite (Hf _ _ _ E). eauto.
Qed.

(** *** Storing an updated run *)

Lemma live_store id r k x :
  live (store_run id r k) x <->
  (x = id /\ isTerminalState (rv_State (ri_view r)) = false) \/ (x <> id /\ live k x).
Proof.
  unfold live, store_run; simpl. destruct (decide (x = id)) as [->|Hne].
  - rewrite lookup_insert_eq. naive_solver.
  - rewrite lookup_insert_ne by done. naive_solver.
Qed.

Lemma runs_ok_store id r k :
  runs_ok k -> run_ok (StepIntegrities k id) (k_runSeq k) id (ri_view r) ->
  runs_ok (store_run id r k).
Proof.
  intros [A B C] Hr. split; simpl; [| |done].
  - intros id' r'. rewrite lookup_insert_Some. intros [[<- <-]|[Hne Hr']]; [done|].
    by apply A.
  - intros id' l Hl. rewrite lookup_insert_is_Some. destruct (decide (id = id')); [by left|].
    right. eauto.
Qed.

(** A stored run changes its view but not its chain. *)
Lemma run_ok_update steps n id v v' :
  run_ok steps n id v ->
  rv_RunID v' = rv_RunID v -> rv_LastStepHash v' = rv_LastStepHash v ->
  rv_Snapshot v' = rv_Snapshot v -> rv_RiskTier v' = rv_RiskTier v ->
  (exists q, rv_State v' = state_name q) -> roots_ok v' ->
  run_ok steps n id v'.
Proof.
  intros [] E1 E2 E3 E4 Hq Hroots. split; rewrite ?E1, ?E2, ?E3, ?E4; done.
Qed.

(** A committed step extends the chain. *)
Lemma run_ok_commit steps n id v v' s :
  run_ok steps n id v -> sg_RunID s = id -> sg_PreviousStepHash s = rv_LastStepHash v ->
  step_ok s -> rv_RunID v' = rv_RunID v -> rv_LastStepHash v' = sg_StepHash s ->
  rv_Snapshot v' = rv_Snapshot v -> rv_RiskTier v' = rv_RiskTier v ->
  (exists q, rv_State v' = state_name q) -> roots_ok v' ->
  run_ok (steps ++ [s]) n id v'.
Proof.
  intros [] Hid Hprev Hs E1 E2 E3 E4 Hq Hroots.
  split; rewrite ?E1, ?E2, ?E3, ?E4; try done.
  - eapply chain_snoc; eauto.
  - apply Forall_app; split; [done|]. by constructor.
Qed.

Lemma StepIntegrities_append id s k :
  StepIntegrities (append_integrity id s k) id = StepIntegrities k id ++ [s].
Proof. unfold StepIntegrities, append_integrity; simpl. by rewrite lookup_insert_eq. Qed.

Lemma runs_ok_commit id s r r0 k :
  runs_ok k -> k_runs k !! id = Some r0 ->
  run_ok (StepIntegrities k id ++ [s]) (k_runSeq k) id (ri_view r) ->
  runs_ok (store_run id r (append_integrity id s k)).
Proof.
  intros [A B C] Hr0 Hr. split; simpl; [| |done].
  - intros id' r'. rewrite lookup_insert_Some. intros [[<- <-]|[Hne Hr']].
    + pose proof (StepIntegrities_append id s k) as E.
      unfold StepIntegrities in *; simpl in *. by rewrite E.
    + unfold StepIntegrities; simpl. rewrite lookup_insert_ne by done. by apply A.
  - intros id' l Hl. rewrite lookup_insert_is_Some. destruct (decide (id = id')); [by left|].
    right. split; [done|]. rewrite lookup_insert_ne in Hl by done. eauto.
Qed.
End Preserve.
