(* ===== verification/RunOps.v ===== *)
(** * Every operation of the Run kernel preserves the invariant

    One lemma per operation; [RunTrace] assembles them over sequences of
    operations.  [CreateRun] needs room in the 64-bit run counter. *)

From S2P Require Import Prelude GoStrings Sha256 GoTime GoJson RunTypes RunStates RunOutbox RunKernel RunSweeps RunInvariant.

Lemma terminal_of_name q : isTerminalState (state_name q) = false <-> ~ terminal q.
Proof. rewrite isTerminalState_name. apply bool_decide_eq_false. Qed.

Lemma next_state_normal req : normalizeState (next_state req) = next_state req.
Proof.
  unfold next_state. destruct (normalizeState (ar_NextState req) =? "")%string.
  - reflexivity.
  - apply normalizeState_idem.
Qed.

(** The state an accepted advance moves to is one of the constants. *)
Lemma next_state_valid req : isValidState (next_state req) = true ->
  exists q, next_state req = state_name q.
Proof.
  intros Hv. rewrite <- next_state_normal in *. by apply isValidState_normalized.
Qed.

Section Ops.
Context `{JsonMarshaler} `{UrlParser} `{MapRange}.

(** ** Obligations only touch the tags *)

Definition tags_only (r r' : runInstance) : Prop :=
  exists tags, r' = on_view (rv_set_AttachedTags tags) r.

Lemma tags_only_refl r : tags_only r r.
Proof. exists (rv_AttachedTags (ri_view r)). by destruct r as [[] ? ? ? ?]. Qed.

Lemma tags_only_trans r1 r2 r3 : tags_only r1 r2 -> tags_only r2 r3 -> tags_only r1 r3.
Proof. intros [t1 ->] [t2 ->]. by exists t2. Qed.

Lemma enforceObligation_frame r req ref phase idx ob now k k' r' e :
  enforceObligation r req ref phase idx ob now k = (k', r', e) ->
  same_core k' k /\ tags_only r r'.
Proof.
  unfold enforceObligation. intros E. repeat (case_match; simplify_eq);
    (split; [by rewrite ?emit_core|]);
    solve [apply tags_only_refl | by eexists].
Qed.

Lemma enforce_loop_frame r req ref phase idx obs now k k' r' e :
  enforce_loop r req ref phase idx obs now k = (k', r', e) ->
  same_core k' k /\ tags_only r r'.
Proof.
  revert r idx k. induction obs as [|ob obs IH]; intros r idx k; simpl.
  - intros [= <- <- <-]. split; [done|apply tags_only_refl].
  - destruct (enforceObligation _ _ _ _ _ _ _ _) as [[k1 r1] [e1|]] eqn:E1;
      apply enforceObligation_frame in E1 as [Hk1 Hr1].
    + by intros [= <- <- <-].
    + intros [Hk2 Hr2]%IH. split; [by rewrite Hk2|]. eauto using tags_only_trans.
Qed.

Lemma enforce_frame r req ref now k k' r' e :
  enforceDecisionObligationsLocked r req ref now k = (k', r', e) ->
  same_core k' k /\ tags_only r r'.
Proof.
  unfold enforceDecisionObligationsLocked. case_match; [|apply enforce_loop_frame].
  intros [= <- <- <-]. split; [done|apply tags_only_refl].
Qed.

(** ** Storing a run whose chain did not move *)

Lemma Inv_run k id r : Inv k -> k_runs k !! id = Some r ->
  run_ok (StepIntegrities k id) (k_runSeq k) id (ri_view r).
Proof. intros [[A _ _] _]. apply A. Qed.

Definition soft_view (v v' : RunView) : Prop :=
  rv_RunID v' = rv_RunID v /\ rv_LastStepHash v' = rv_LastStepHash v /\
  rv_Snapshot v' = rv_Snapshot v /\ rv_RiskTier v' = rv_RiskTier v /\
  (rv_State v' = rv_State v \/ rv_State v' = StateSafeguardHold) /\ (roots_ok v -> roots_ok v').

Lemma Inv_store_soft k k1 id r r1 :
  Inv k -> k_runs k !! id = Some r -> same_core k1 k -> soft_view (ri_view r) (ri_view r1) ->
  (isTerminalState (rv_State (ri_view r)) = true -> rv_State (ri_view r1) = rv_State (ri_view r)) ->
  Inv (store_run id r1 k1).
Proof.
  intros HI Hr -> (E1 & E2 & E3 & E4 & Hst & Hroots) Hterm.
  pose proof (Inv_run _ _ _ HI Hr) as Hok. destruct HI as [HR HC]. split.
  - apply runs_ok_store; [done|]. eapply run_ok_update; eauto using ro_roots.
    destruct Hst as [->| ->]; [apply Hok|by exists SafeguardHold].
  - apply (refs_ok_ext _ k); [done..|]. eapply refs_ok_mono; [|exact HC].
    intros x Hx. apply live_store. destruct (decide (x = id)) as [->|]; [left|by right].
    split; [done|]. destruct Hx as (r' & Hr' & Hnt). simplify_eq.
    destruct Hst as [->| ->]; [done|reflexivity].
Qed.

Lemma safeguard_hold_soft now r : soft_view (ri_view r) (ri_view (safeguard_hold now r)).
Proof.
  unfold soft_view, safeguard_hold, on_view; view_simpl. split_and!; try done; [by right|].
  intros Hv. apply anchorRoot_roots_any; [simpl; tauto|].
  by eapply roots_ok_ext; [..|exact Hv].
Qed.

Lemma soft_view_trans v1 v2 v3 : soft_view v1 v2 -> soft_view v2 v3 -> soft_view v1 v3.
Proof.
  unfold soft_view. intros (?&?&?&?&Ha&?) (?&?&?&?&Hb&?). split_and!; try congruence; [|tauto].
  destruct Hb as [->| ->]; tauto.
Qed.

Lemma tags_only_soft r r' : tags_only r r' ->
  soft_view (ri_view r) (ri_view r') /\ rv_State (ri_view r') = rv_State (ri_view r).
Proof.
  intros [t ->]. unfold soft_view; simpl. split; [|done]. split_and!; try done; [by left|..].
  all: intros Hv; by eapply roots_ok_ext; [..|exact Hv].
Qed.

(** ** Committing a step *)

(** Committing to a state that is not terminal keeps every cache entry valid;
    [extra] stands for entries added for this run. *)
Lemma Inv_commit k id r s r' k' :
  Inv k -> k_runs k !! id = Some r -> sg_RunID s = id ->
  sg_PreviousStepHash s = rv_LastStepHash (ri_view r) -> step_ok s ->
  rv_RunID (ri_view r') = rv_RunID (ri_view r) -> rv_LastStepHash (ri_view r') = sg_StepHash s ->
  rv_Snapshot (ri_view r') = rv_Snapshot (ri_view r) ->
  rv_RiskTier (ri_view r') = rv_RiskTier (ri_view r) ->
  (exists q, rv_State (ri_view r') = state_name q) -> roots_ok (ri_view r') ->
  k_runs k' = <[id := r']> (k_runs k) ->
  k_stepIntegrity k' = k_stepIntegrity (append_integrity id s k) ->
  k_runSeq k' = k_runSeq k ->
  (isTerminalState (rv_State (ri_view r')) = false -> refs_ok (fun x => x = id \/ live k x) k') ->
  (isTerminalState (rv_State (ri_view r')) = true -> refs_ok (fun x => live k x /\ x <> id) k') ->
  Inv k'.
Proof.
  intros HI Hr Hs1 Hs2 Hs3 E1 E2 E3 E4 Hq Hroots K1 K2 K3 Hlive Hdead.
  assert (Hok : run_ok (StepIntegrities k id ++ [s]) (k_runSeq k) id (ri_view r')).
  { eapply run_ok_commit; eauto using Inv_run. }
  destruct HI as [HR HC]. split.
  - apply (runs_ok_ext (store_run id r' (append_integrity id s k))); [done..|].
    by eapply runs_ok_commit.
  - assert (forall x, live k' x <-> live (store_run id r' k) x) as Hl.
    { intros x. unfold live. by rewrite K1. }
    destruct (isTerminalState (rv_State (ri_view r'))) eqn:Et.
    + eapply refs_ok_mono; [|by apply Hdead]. intros x [Hx Hne].
      apply Hl, live_store. by right.
    + eapply refs_ok_mono; [|by apply Hlive]. intros x Hx. apply Hl, live_store.
      destruct (decide (x = id)); [by left|right]. split; [done|]. by destruct Hx.
Qed.
End Ops.

(** ** AdvanceRun *)

Section Advance.
Context `{JsonMarshaler} `{UrlParser} `{MapRange}.

Lemma advanced_view_fields req h now v :
  let v' := advanced_view req h now v in
  rv_RunID v' = rv_RunID v /\ rv_LastStepHash v' = h /\ rv_Snapshot v' = rv_Snapshot v /\
  rv_RiskTier v' = rv_RiskTier v /\ rv_State v' = next_state req /\
  rv_StateVersion v' = wrap_int64 (rv_StateVersion v + 1) /\
  rv_CurrentStepSeqID v' = ar_IncomingStepSeqID req /\ rv_ActiveStepID v' = ar_StepID req /\
  rv_TenantID v' = rv_TenantID v /\ rv_LastProgressAt v' = now /\ rv_UpdatedAt v' = now /\
  rv_CreatedAt v' = rv_CreatedAt v.
Proof. unfold advanced_view. case_match; view_simpl; split_and!; done. Qed.

Lemma advanced_view_roots req h now v : roots_ok v -> roots_ok (advanced_view req h now v).
Proof.
  intros Hv. unfold advanced_view.
  assert (roots_ok (anchorByStateLocked (next_state req) h
    (v |> rv_set_State (next_state req) |> rv_set_ActiveStepID (ar_StepID req)
       |> rv_set_StateVersion (wrap_int64 (rv_StateVersion v + 1))
       |> rv_set_CurrentStepSeqID (ar_IncomingStepSeqID req) |> rv_set_LastStepHash h
       |> rv_set_UpdatedAt now |> rv_set_LastProgressAt now |> rv_set_TerminalReason ""
       |> rv_set_TerminalSource ""))) as Hr.
  { apply anchorByState_roots. by eapply roots_ok_ext; [..|exact Hv]. }
  case_match; [|done]. by eapply roots_ok_ext; [..|exact Hr].
Qed.

Lemma advance_apply_inv id req ref r0 r h now k0 k k' r' resp :
  Inv k0 -> k_runs k0 !! id = Some r0 -> isTerminalState (rv_State (ri_view r0)) = false ->
  same_core k k0 -> tags_only r0 r -> isValidState (next_state req) = true ->
  hash_checked (step_hash_input (rv_LastStepHash (ri_view r))
                  (df_DecisionHash (ar_DecisionRef req)) (ar_InputHash req) (ar_OutputHash req))
    = Some h ->
  advance_apply id req ref r h now k = (k', r', resp) -> Inv (store_run id r' k').
Proof.
  intros HI Hr0 Hnt Hk Ht Hv Hh E. unfold advance_apply in E.
  destruct (tags_only_soft _ _ Ht) as [(S1 & S2 & S3 & S4 & _ & S6) _].
  destruct (advanced_view_fields req h now (ri_view r)) as (F1 & F2 & F3 & F4 & F5 & _).
  set (v' := advanced_view _ _ _ _) in *. set (s := normal_step _ _ _ _ _) in *.
  set (k1 := emit _ _ _ _ _ _) in *.
  assert (same_core k1 (append_integrity id s k0)) as Hk1.
  { unfold k1. by rewrite emit_core, Hk. }
  apply same_core_fields in Hk1 as (_ & C2 & C3 & C4 & C5 & C6 & C7).
  set (k2 := k_set_idempotency _ k1) in *.
  assert (Hrefs : refs_ok (live k0) k2).
  { apply refs_insert_idem; [by exists r0|]. apply (refs_ok_ext _ k0); [done..|apply HI]. }
  destruct (cleanup_caches_spec id k2) as (_ & D1 & D2 & D3 & _).
  pair_inv E.
  apply (Inv_commit k0 id r0 s (r |> ri_set_view v' |> ri_set_noProgressScans 0));
    try done; cbn [store_run k_set_runs k_runs k_stepIntegrity k_runSeq ri_view ri_set_view
      ri_set_noProgressScans]; rewrite ?F1, ?F2, ?F3, ?F4, ?F5; try done.
  - left. split; [done|exact Hh].
  - by apply next_state_valid.
  - apply advanced_view_roots, S6, (Inv_run _ _ _ HI Hr0).
  - case_match; rewrite ?D1; simpl; by rewrite C2.
  - case_match; rewrite ?D2; simpl; by rewrite C6.
  - case_match; rewrite ?D3; simpl; by rewrite C7.
  - intros ->. apply (refs_ok_ext _ k2); [reflexivity..|].
    eapply refs_ok_mono; [|exact Hrefs]. simpl. tauto.
  - intros ->. apply (refs_ok_ext _ (cleanupRunScopedCachesLocked id k2)); [reflexivity..|].
    apply cleanup_refs, Hrefs.
Qed.

Lemma advance_commit_inv id req ref r0 r now k0 k k' r' res :
  Inv k0 -> k_runs k0 !! id = Some r0 -> isTerminalState (rv_State (ri_view r0)) = false ->
  same_core k k0 -> tags_only r0 r -> advance_commit id req ref r now k = (k', r', res) ->
  Inv (store_run id r' k').
Proof.
  intros HI Hr0 Hnt Hk Ht E. destruct (tags_only_soft _ _ Ht) as [Hs HsS].
  assert (Hsame : forall k1, same_core k1 k0 -> Inv (store_run id r k1)).
  { intros k1 Hk1. eapply Inv_store_soft; eauto. }
  unfold advance_commit in E.
  destruct (negb (isValidState _)) eqn:Ev; [pair_inv E; auto|].
  destruct (negb (isAllowedTransition _ _)); [pair_inv E; auto|].
  destruct (blank _ || _); [pair_inv E; auto|].
  destruct (hash_checked _) as [h|] eqn:Eh.
  - destruct (advance_apply _ _ _ _ _ _ _) as [[k1 r1] resp] eqn:Ea. pair_inv E.
    apply negb_false_iff in Ev. eapply advance_apply_inv; eauto.
  - pair_inv E.
    eapply Inv_store_soft; [done|done|by rewrite emit_core| |congruence].
    eapply soft_view_trans; [exact Hs|apply safeguard_hold_soft].
Qed.
End Advance.

Section AdvanceRun.
Context `{JsonMarshaler} `{UrlParser} `{MapRange}.

Lemma advance_fresh_inv port id req r now k k' r' res :
  Inv k -> k_runs k !! id = Some r -> isTerminalState (rv_State (ri_view r)) = false ->
  advance_fresh port id req r now k = (k', r', res) -> Inv (store_run id r' k').
Proof.
  intros HI Hr Hnt E.
  assert (Hsame : forall r1 k1, same_core k1 k -> tags_only r r1 -> Inv (store_run id r1 k1)).
  { intros r1 k1 Hk1 Ht. destruct (tags_only_soft _ _ Ht). eapply Inv_store_soft; eauto. }
  assert (Hhold : forall r1 k1, same_core k1 k -> tags_only r r1 ->
            Inv (store_run id (safeguard_hold now r1) k1)).
  { intros r1 k1 Hk1 Ht. destruct (tags_only_soft _ _ Ht) as [Hs _].
    eapply Inv_store_soft; [done..| |congruence].
    eapply soft_view_trans; [exact Hs|apply safeguard_hold_soft]. }
  unfold advance_fresh, reject_gate in E. cbv zeta in E.
  destruct (negb (ar_ExpectedStateVersion _ =? _)); [pair_inv E; auto using tags_only_refl|].
  destruct (ar_IncomingStepSeqID req <=? _);
    [pair_inv E; apply Hhold; [apply emitProgress_core|apply tags_only_refl]|].
  destruct (blank _ || _); [pair_inv E; auto using tags_only_refl|].
  destruct (decision_gate _ _ _) as [[p ref]|g];
    [|pair_inv E; apply Hhold; [apply emit_core|apply tags_only_refl]].
  destruct (receipt_gate _ _ _ _); [pair_inv E; apply Hhold; [apply emit_core|apply tags_only_refl]|].
  destruct (enforceDecisionObligationsLocked _ _ _ _ _) as [[k1 r1] [err|]] eqn:Ee;
    apply enforce_frame in Ee as [Hk1 Hr1].
  - pair_inv E. auto.
  - eapply advance_commit_inv; eauto.
Qed.

Lemma Inv_refs_only k k' :
  Inv k -> k_runs k' = k_runs k -> k_stepIntegrity k' = k_stepIntegrity k ->
  k_runSeq k' = k_runSeq k -> refs_ok (live k) k' -> Inv k'.
Proof.
  intros [HR HC] E1 E2 E3 Hrefs. split; [by eapply runs_ok_ext|].
  eapply refs_ok_mono; [|exact Hrefs]. intros id. unfold live. by rewrite E1.
Qed.

Lemma getRun_Ok k id r : getRunLocked k id = Ok r <-> k_runs k !! id = Some r.
Proof. unfold getRunLocked. destruct (k_runs k !! id); naive_solver. Qed.

Lemma AdvanceRun_inv port id req now k :
  Inv k -> Inv (fst (AdvanceRun port id req now k)).
Proof.
  intros HI. unfold AdvanceRun.
  destruct (getRunLocked k id) as [r|e] eqn:Hr; [apply getRun_Ok in Hr|done].
  destruct (isTerminalState _) eqn:Hnt; [done|]. destruct (_ || _); [done|].
  destruct (_ || _); [done|].
  destruct (k_idempotency k !! _) as [c|] eqn:Hc.
  - apply Inv_refs_only with k; try done. apply refs_insert_idem; [|apply HI].
    destruct HI as [_ HC]. apply (rf_idem _ _ HC _ _ Hc).
  - destruct (advance_fresh _ _ _ _ _ _) as [[k1 r1] res] eqn:Ef.
    by eapply advance_fresh_inv.
Qed.
End AdvanceRun.

(** ** The operations that append a synthetic step *)

Section Synthetic.
Context `{JsonMarshaler} `{UrlParser} `{MapRange}.

(** What every committed synthetic step does to the view; [q] is the state
    it moves to. *)
Record step_view (q : run_state) (seq : Z) (h : string) (v v' : RunView) : Prop := {
  sv_id : rv_RunID v' = rv_RunID v;
  sv_state : rv_State v' = state_name q;
  sv_version : rv_StateVersion v' = wrap_int64 (rv_StateVersion v + 1);
  sv_seq : rv_CurrentStepSeqID v' = seq;
  sv_last : rv_LastStepHash v' = h;
  sv_snapshot : rv_Snapshot v' = rv_Snapshot v;
  sv_risk : rv_RiskTier v' = rv_RiskTier v;
  sv_created : rv_CreatedAt v' = rv_CreatedAt v;
  sv_tags : rv_AttachedTags v' = rv_AttachedTags v;
  sv_root : TrimSpace h = h -> h <> "" -> rv_RunIntegrityRoot v' = h;
  sv_roots : roots_ok v -> roots_ok v'
}.

Lemma anchor_step_root ty h v : TrimSpace h = h -> h <> "" ->
  rv_RunIntegrityRoot (anchorRootLocked ty h v) = h.
Proof.
  intros E Hne. unfold anchorRootLocked. rewrite E, (proj2 (String.eqb_neq h "")) by done.
  destruct (h =? rv_RunIntegrityRoot v)%string eqn:Eh; bool_hyps; simpl; congruence.
Qed.

Ltac step_view_tac :=
  split; intros; view_simpl; try done; try (by apply anchor_step_root);
  apply anchorRoot_roots_any; [simpl; tauto|]; eapply roots_ok_ext; [..|eassumption]; done.

Lemma parked_step req q h now v :
  step_view q (pr_IncomingStepSeqID req) h v (parked_view req (state_name q) h now v).
Proof. unfold parked_view. step_view_tac. Qed.

Lemma resumed_step req c h now v :
  step_view Running (rr_IncomingStepSeqID req) h v (resumed_view req c h now v).
Proof. unfold resumed_view. step_view_tac. Qed.

Lemma aborted_step req seq h now v :
  step_view Aborted seq h v (aborted_view req seq h now v).
Proof. unfold aborted_view. step_view_tac. Qed.

Lemma forced_step q ty reason src seq h now v : In ty root_types ->
  step_view q seq h v (forced_view (state_name q) ty reason src seq h now v).
Proof. intros Hty. unfold forced_view. step_view_tac. Qed.

Lemma Inv_synthetic q k id r stepID seq seq' ty inp out now k1 h r' k' :
  Inv k -> k_runs k !! id = Some r -> ToLower (TrimSpace ty) = ty ->
  appendSyntheticStepLocked r stepID seq ty inp out now k = (k1, Ok h) ->
  step_view q seq' h (ri_view r) (ri_view r') ->
  k_runs k' = <[id := r']> (k_runs k1) -> k_stepIntegrity k' = k_stepIntegrity k1 ->
  k_runSeq k' = k_runSeq k1 ->
  (~ terminal q -> refs_ok (live k) k1 -> refs_ok (fun x => x = id \/ live k x) k') ->
  (terminal q -> refs_ok (live k) k1 -> refs_ok (fun x => live k x /\ x <> id) k') ->
  Inv k'.
Proof.
  intros HI Hr Hty Ha [] E1 E2 E3 Hlive Hdead.
  apply appendSynthetic_spec in Ha as [Hh Hk1].
  pose proof (Inv_run _ _ _ HI Hr) as Hok. pose proof (ro_id _ _ _ _ Hok) as Hid.
  set (s := mk_StepIntegrity _ _ _ _ _ _ _ _ _ _ _ _) in Hk1.
  assert (refs_ok (live k) k1) as Hrefs.
  { rewrite Hk1. apply (refs_ok_ext _ k); [done..|apply HI]. }
  apply (Inv_commit k id r s r'); rewrite ?E2, ?E3; try done; try congruence.
  - right. split; [done|]. simpl. by rewrite Hty.
  - by exists q.
  - apply sv_roots0, Hok.
  - by rewrite E1, Hk1.
  - by rewrite Hk1, Hid.
  - rewrite sv_state0. intros Hq%terminal_of_name. auto.
  - rewrite sv_state0, isTerminalState_name. intros Hq%bool_decide_eq_true. auto.
Qed.

(** Ending a run and cleaning its caches. *)
Lemma Inv_terminate q k id r stepID seq seq' ty inp out now k1 h r' :
  Inv k -> k_runs k !! id = Some r -> ToLower (TrimSpace ty) = ty ->
  appendSyntheticStepLocked r stepID seq ty inp out now k = (k1, Ok h) ->
  step_view q seq' h (ri_view r) (ri_view r') -> terminal q ->
  Inv (cleanupRunScopedCachesLocked id (store_run id r' k1)).
Proof.
  intros HI Hr Hty Ha Hv Hq.
  destruct (cleanup_caches_spec id (store_run id r' k1)) as (_ & E1 & E2 & E3 & _).
  eapply Inv_synthetic; eauto; [done|].
  intros _ Hrefs. by apply cleanup_refs, (refs_ok_ext _ k1).
Qed.
End Synthetic.

Section ParkResumeAbort.
Context `{JsonMarshaler} `{UrlParser} `{MapRange}.

Lemma soft_view_refl v : soft_view v v.
Proof. unfold soft_view. tauto. Qed.

Lemma Inv_store_same k k1 id r :
  Inv k -> k_runs k !! id = Some r -> same_core k1 k -> Inv (store_run id r k1).
Proof. intros HI Hr Hk. eapply Inv_store_soft; eauto using soft_view_refl. Qed.

(** The state a park moves to. *)
Definition park_state (req : ParkRunRequest) : run_state :=
  if (park_token_type req =? TokenTypeApproval)%string then AwaitingApproval else Parked.

Lemma park_state_name req :
  (if (park_token_type req =? TokenTypeApproval)%string then StateAwaitingApproval else StateParked)
  = state_name (park_state req).
Proof. unfold park_state. by case_match. Qed.

Lemma park_state_live req : ~ terminal (park_state req).
Proof. unfold park_state. case_match; decide_state. Qed.

Lemma park_commit_inv id req r now k k' r' res :
  Inv k -> k_runs k !! id = Some r -> isTerminalState (rv_State (ri_view r)) = false ->
  park_commit id req (state_name (park_state req)) r now k = (k', r', res) ->
  Inv (store_run id r' k').
Proof.
  intros HI Hr Hnt E. unfold park_commit in E. cbv zeta in E.
  destruct (hash_checked (token_hash_input _ _ _ _ _)) as [th|];
    [|pair_inv E; by eapply Inv_store_same].
  destruct (hash_checked (GStr _)) as [tref|]; [|pair_inv E; by eapply Inv_store_same].
  destruct (appendSyntheticStepLocked _ _ _ _ _ _ _ _) as [k1 [h|err]] eqn:Ea.
  2:{ apply appendSynthetic_spec in Ea as (Hk1 & _). pair_inv E. by eapply Inv_store_same. }
  set (c := mk_Continuation _ _ _ _ _ _ _ _ _ _) in *. set (v' := parked_view _ _ _ _ _) in *.
  pair_inv E. rewrite emit_core.
  eapply Inv_synthetic with (q := park_state req)
    (r' := r |> ri_set_view v' |> ri_set_noProgressScans 0);
    [done|done| |exact Ea|apply parked_step|..]; try done.
  - intros _ Hrefs.
    apply (refs_ok_ext _ (k_set_continuations (<[ct_ContinuationID c := c]> (k_continuations k1)) k1));
      [done..|].
    apply (refs_insert_cont _ _ c); [by left|done|].
    eapply refs_ok_mono; [|exact Hrefs]. tauto.
  - intros Ht. by apply park_state_live in Ht.
Qed.

Lemma ParkRun_inv id req now k : Inv k -> Inv (fst (ParkRun id req now k)).
Proof.
  intros HI. unfold ParkRun. cbv zeta.
  destruct (getRunLocked k id) as [r|e] eqn:Hr; [apply getRun_Ok in Hr|done].
  destruct (isTerminalState _) eqn:Hnt; [done|].
  destruct (negb (_ =? rv_StateVersion _)); [done|].
  destruct (pr_IncomingStepSeqID req <=? _); [simpl; by rewrite emitProgress_core|].
  destruct (negb (isValidTokenType _)); [done|]. destruct (blank _); [done|].
  rewrite park_state_name. destruct (negb _); [done|].
  destruct (park_commit _ _ _ _ _ _) as [[k1 r1] res] eqn:Ep. by eapply park_commit_inv.
Qed.

Lemma resume_commit_inv id req c r now k :
  Inv k -> k_runs k !! id = Some r -> k_continuations k !! rr_ContinuationToken req = Some c ->
  ct_RunID c = id ->
  Inv (fst (resume_commit id req c r now k)).
Proof.
  intros HI Hr Hc Hid. unfold resume_commit.
  destruct (appendSyntheticStepLocked _ _ _ _ _ _ _ _) as [k1 [h|err]] eqn:Ea; simpl fst.
  2:{ apply appendSynthetic_spec in Ea as (Hk1 & _). by rewrite Hk1. }
  rewrite emit_core.
  destruct (rf_conts _ _ (inv_refs _ HI) _ _ Hc) as [Htok _].
  set (v' := resumed_view _ _ _ _ _).
  eapply Inv_synthetic with (q := Running)
    (r' := r |> ri_set_view v' |> ri_set_noProgressScans 0);
    [done|done| |exact Ea|apply resumed_step|..]; try done;
    [|intros Ht; by apply running_live in Ht].
  intros _ Hrefs. apply refs_insert_cont; [by left|done|].
  apply (refs_ok_ext _ k1); [done..|]. eapply refs_ok_mono; [|exact Hrefs]. tauto.
Qed.

Lemma ResumeRun_inv id req now k : Inv k -> Inv (fst (ResumeRun id req now k)).
Proof.
  intros HI. unfold ResumeRun. cbv zeta.
  destruct (getRunLocked k id) as [r|e] eqn:Hr; [apply getRun_Ok in Hr|done].
  destruct (blank _); [done|].
  destruct (k_continuations k !! _) as [c|] eqn:Hc; [|done].
  destruct (negb (ct_RunID c =? id)%string) eqn:Hid; [done|]. bool_hyps.
  destruct (ct_Status c =? "consumed")%string; [done|].
  destruct (After _ _).
  { destruct (rf_conts _ _ (inv_refs _ HI) _ _ Hc) as [Htok Hlive].
    eapply Inv_refs_only; [done..|]. by apply refs_insert_cont; [..|apply HI]. }
  destruct (negb (blank _) && _); [done|].
  destruct (rr_IncomingStepSeqID req <=? _); [simpl; by rewrite emitProgress_core|].
  destruct (negb (_ =? _)); [done|]. destruct (negb _ && negb _); [done|].
  destruct (negb (tokenTypeMatchesRunState _ _)); [done|]. by apply resume_commit_inv.
Qed.

Lemma AbortRun_inv id req now k : Inv k -> Inv (fst (AbortRun id req now k)).
Proof.
  intros HI. unfold AbortRun. cbv zeta.
  destruct (getRunLocked k id) as [r|e] eqn:Hr; [apply getRun_Ok in Hr|done].
  destruct (isTerminalState _); [done|].
  destruct (appendSyntheticStepLocked _ _ _ _ _ _ _ _) as [k1 [h|err]] eqn:Ea; simpl fst.
  2:{ apply appendSynthetic_spec in Ea as (Hk1 & _). by rewrite Hk1. }
  rewrite emit_core. eapply Inv_terminate; [done|done| |exact Ea|apply aborted_step|]; [done|decide_state].
Qed.

Lemma FlagRunRisk_inv id s1 s2 k : Inv k -> Inv (fst (FlagRunRisk id s1 s2 k)).
Proof.
  intros HI. unfold FlagRunRisk.
  destruct (getRunLocked k id) as [r|e] eqn:Hr; [apply getRun_Ok in Hr|done].
  simpl. eapply Inv_store_soft; [done|done|done|apply soft_view_refl|done].
Qed.
End ParkResumeAbort.
