(* ===== verification/RunAdvance.v ===== *)
(** * When an advance is accepted

    The declarative conditions [AdvanceRun] imposes: the decision and its
    receipt, the obligations, the transition; and their equivalence with the
    gates of the code, in order.

    Then which call created which run. *)

From S2P Require Import Prelude GoStrings Sha256 GoTime GoJson RunTypes RunStates RunOutbox.
From S2P Require Import RunKernel RunSweeps RunInvariant RunOps.

(** ** The decision *)

(** What makes a decision reference usable by this run and step. *)
Record decision_ok (p : DecisionPort) (runID : string) (req : AdvanceRunRequest)
    (ref : DecisionReference) : Prop := {
  do_known : GetDecisionReference p (df_DecisionID (ar_DecisionRef req)) = Some ref;
  do_confirmed : IsDecisionConfirmedWithOwner p (df_DecisionID (ar_DecisionRef req)) runID
                   (ar_StepID req) (dr_AttemptIndex ref) (dr_Phase ref) = true;
  do_valid : dr_HashValid ref = true;
  do_stable : norm_kind (dr_HashKind ref) = "stable";
  do_run : blank (dr_RunID ref) = true \/ dr_RunID ref = runID;
  do_step : blank (dr_StepID ref) = true \/ dr_StepID ref = ar_StepID req;
  do_kind : df_DecisionHashKind (ar_DecisionRef req) = "" \/
            norm_kind (df_DecisionHashKind (ar_DecisionRef req)) = "stable";
  do_hash : dr_DecisionHash ref = df_DecisionHash (ar_DecisionRef req);
  do_exec : ToLower (TrimSpace (dr_Decision ref)) ∈ [""; "allow"; "require_approval"]
}.

Lemma isExecutable_iff d : isExecutableDecision d = true <->
  ToLower (TrimSpace d) ∈ [""; "allow"; "require_approval"].
Proof.
  unfold isExecutableDecision. rewrite list_elem_of_In.
  destruct (ToLower (TrimSpace d) =? "")%string eqn:E; bool_hyps.
  - rewrite E. simpl. tauto.
  - rewrite one_of_In. simpl. split; [tauto|]. intros [?|?]; [congruence|done].
Qed.

Lemma guard_false b1 b2 : negb b1 && negb b2 = false <-> b1 = true \/ b2 = true.
Proof. destruct b1, b2; simpl; intuition congruence. Qed.

(** The gates accept exactly such decisions. *)
Lemma decision_gate_iff port runID req p ref :
  decision_gate port runID req = Ok (p, ref) <-> port = Some p /\ decision_ok p runID req ref.
Proof.
  unfold decision_gate. cbv zeta. split.
  - destruct port as [p0|]; [|done]. destruct (GetDecisionReference p0 _) as [ref0|] eqn:Eref; [|done].
    destruct (negb (IsDecisionConfirmedWithOwner _ _ _ _ _ _)) eqn:E1; [done|].
    destruct (negb _ || negb _) eqn:E2; [done|].
    destruct (negb (blank (dr_RunID _)) && _) eqn:E3; [done|].
    destruct (negb (blank (dr_StepID _)) && _) eqn:E4; [done|].
    destruct (negb (_ =? "")%string && _) eqn:E5; [done|].
    destruct (negb (dr_DecisionHash _ =? _)%string) eqn:E6; [done|].
    destruct (negb (isExecutableDecision _)) eqn:E7; [done|]. intros E; simplify_eq E; intros; subst.
    apply guard_false in E3, E4, E5. bool_hyps.
    rewrite !String.eqb_eq in *. split; [done|].
    split; try done; [by destruct E5 as [|E5]; [left|right; rewrite E5]|by apply isExecutable_iff].
  - intros [-> [H1 H2 H3 H4 H5 H6 H7 H8 H9%isExecutable_iff]].
    rewrite H1, H2, H3, H4, H8, H9, !String.eqb_refl. simpl.
    rewrite (proj2 (guard_false (blank (dr_RunID ref)) _)) by (rewrite String.eqb_eq; done).
    rewrite (proj2 (guard_false (blank (dr_StepID ref)) _)) by (rewrite String.eqb_eq; done).
    rewrite (proj2 (guard_false (_ =? "")%string _)) by (rewrite !String.eqb_eq; done). done.
Qed.

Definition receipt_ok (p : DecisionPort) (runID tenantID : string) (req : AdvanceRunRequest) : Prop :=
  fst (ValidateExecutionReceiptForRun p runID (ar_StepID req) tenantID (ar_ExecutionReceiptRef req)
         (ar_ExecutionUsedResources req) (ar_ExecutionReceiptAt req)) = true.

Lemma receipt_gate_iff p runID tenantID req :
  receipt_gate p runID tenantID req = None <-> receipt_ok p runID tenantID req.
Proof.
  unfold receipt_gate, receipt_ok. destruct (ValidateExecutionReceiptForRun _ _ _ _ _ _ _) as [[] l];
    simpl; split; done.
Qed.

(** ** The obligations *)

Definition obligation_type (ob : DecisionObligation) : string := ToLower (TrimSpace (ob_Type ob)).

(** The phase of an obligation, the decision's by default. *)
Definition obligation_phase (phase : string) (ob : DecisionObligation) : string :=
  let obPhase := ToUpper (TrimSpace (ob_Phase ob)) in
  if (obPhase =? "")%string then phase else obPhase.

(** The limited quantity of a [limit_param] obligation. *)
Definition limited (req : AdvanceRunRequest) (target : string) : option Z :=
  if (target =? "max_input_hash_len")%string then Some (len (ar_InputHash req))
  else if (target =? "max_output_hash_len")%string then Some (len (ar_OutputHash req))
  else if (target =? "max_step_seq_id")%string then Some (ar_IncomingStepSeqID req)
  else None.

Definition limit_ok (req : AdvanceRunRequest) (ob : DecisionObligation) : Prop :=
  exists n x, parseLimitValue (TrimSpace (ob_Value ob)) = Some n /\
    limited req (ToLower (TrimSpace (ob_Target ob))) = Some x /\ x <= n.

Section Obligations.
Context `{JsonMarshaler} `{UrlParser}.

Definition template_ok (req : AdvanceRunRequest) (ob : DecisionObligation) : Prop :=
  let id := TrimSpace (ob_Value ob) in
  let id := if (id =? "")%string then TrimSpace (ob_Target ob) else id in
  id = "" \/ receiptRefHasTemplateEvidence (ar_ExecutionReceiptRef req) id = true.

(** The obligation does not block the advance. *)
Definition obligation_ok (req : AdvanceRunRequest) (phase : string) (ob : DecisionObligation)
  : Prop :=
  obligation_type ob = "" \/
  isObligationPhaseAllowed phase (obligation_phase phase ob) = true /\
  (obligation_type ob = "limit_param" /\ limit_ok req ob \/
   obligation_type ob = "attach_tag" \/
   obligation_type ob = "require_template" /\ template_ok req ob \/
   obligation_type ob = "emit_audit").

Lemma enforceLimit_iff req ob : enforceLimitParamObligation req ob = None <-> limit_ok req ob.
Proof.
  unfold enforceLimitParamObligation, limit_ok, limited. cbv zeta.
  destruct (parseLimitValue _) as [n|]; [|split; [done|by intros (? & ? & ? & _)]].
  repeat case_match; bool_hyps; (split; [intros|intros (n' & x & ? & ? & ?)]; simplify_eq/=);
    try done; try lia; by eexists _, _.
Qed.

Lemma enforceObligation_iff r req ref phase idx ob now k :
  snd (enforceObligation r req ref phase idx ob now k) = None <-> obligation_ok req phase ob.
Proof.
  unfold enforceObligation, obligation_ok, template_ok. cbv zeta.
  fold (obligation_type ob) (obligation_phase phase ob).
  destruct (obligation_type ob =? "")%string eqn:E0; bool_hyps; [simpl; tauto|].
  destruct (isObligationPhaseAllowed _ _); cbn [negb]; [|simpl; intuition congruence].
  destruct (_ =? "deny_execution")%string eqn:E1; bool_hyps; [rewrite E1; simpl; intuition congruence|].
  destruct (_ =? "limit_param")%string eqn:E2; bool_hyps.
  { rewrite E2, <- enforceLimit_iff. destruct (enforceLimitParamObligation req ob); simpl;
      intuition congruence. }
  destruct (_ =? "attach_tag")%string eqn:E3; bool_hyps; [rewrite E3; simpl; intuition congruence|].
  destruct (_ =? "require_template")%string eqn:E4; bool_hyps.
  { rewrite E4. set (id := if (TrimSpace (ob_Value ob) =? "")%string then _ else _).
    destruct (id =? "")%string eqn:Eid; bool_hyps; simpl; [tauto|].
    destruct (receiptRefHasTemplateEvidence _ id) eqn:Er; simpl; intuition congruence. }
  destruct (_ =? "emit_audit")%string eqn:E5; bool_hyps; [rewrite E5; simpl; tauto|].
  simpl. intuition congruence.
Qed.

Lemma enforce_iff r req ref now k :
  snd (enforceDecisionObligationsLocked r req ref now k) = None <->
  Forall (obligation_ok req (decision_phase ref)) (dr_Obligations ref).
Proof.
  unfold enforceDecisionObligationsLocked.
  assert (forall obs r idx k, snd (enforce_loop r req ref (decision_phase ref) idx obs now k) = None <->
    Forall (obligation_ok req (decision_phase ref)) obs) as Hl.
  { induction obs as [|ob obs IH]; intros r0 idx k0; simpl; [split; [by constructor|done]|].
    rewrite Forall_cons, <- (enforceObligation_iff r0 req ref _ idx ob now k0).
    destruct (enforceObligation _ _ _ _ _ _ _ _) as [[k1 r1] [err|]]; simpl; [intuition congruence|].
    rewrite IH. tauto. }
  case_match; [split; [by constructor|done]|apply Hl].
Qed.

(** The tags the obligations attach, in order. *)
Definition attach (idx : Z) (ob : DecisionObligation) (tags : gmap string string) : gmap string string :=
  if (obligation_type ob =? "attach_tag")%string then
    let key := TrimSpace (ob_Target ob) in
    let key := if (key =? "")%string then String.append "obligation_tag_" (fmt_d idx) else key in
    <[key := TrimSpace (ob_Value ob)]> tags
  else tags.

Fixpoint attach_all (idx : Z) (obs : list DecisionObligation) (tags : gmap string string)
  : gmap string string :=
  match obs with
  | [] => tags
  | ob :: obs => attach_all (idx + 1) obs (attach idx ob tags)
  end.

Lemma set_own_tags r : r = on_view (rv_set_AttachedTags (rv_AttachedTags (ri_view r))) r.
Proof. by destruct r as [[] ? ? ? ?]. Qed.

Lemma enforceObligation_tags r req ref phase idx ob now k k' r' :
  enforceObligation r req ref phase idx ob now k = (k', r', None) ->
  r' = on_view (rv_set_AttachedTags (attach idx ob (rv_AttachedTags (ri_view r)))) r.
Proof.
  pose proof (set_own_tags r) as Hr.
  unfold enforceObligation, attach. cbv zeta. fold (obligation_type ob). intros E.
  destruct (obligation_type ob =? "")%string eqn:E0; bool_hyps.
  { pair_inv E. by rewrite E0. }
  destruct (negb _); [by pair_inv E|].
  destruct (_ =? "deny_execution")%string eqn:E1; [by pair_inv E|].
  destruct (_ =? "limit_param")%string eqn:E2; bool_hyps.
  { rewrite E2. simpl. case_match; [by pair_inv E|]. by pair_inv E. }
  destruct (_ =? "attach_tag")%string eqn:E3; [by pair_inv E|].
  destruct (_ =? "require_template")%string eqn:E4; [case_match; by pair_inv E|].
  destruct (_ =? "emit_audit")%string eqn:E5; by pair_inv E.
Qed.

Lemma enforce_tags r req ref now k k' r' :
  enforceDecisionObligationsLocked r req ref now k = (k', r', None) ->
  r' = on_view (rv_set_AttachedTags (attach_all 0 (dr_Obligations ref) (rv_AttachedTags (ri_view r)))) r.
Proof.
  unfold enforceDecisionObligationsLocked.
  assert (forall obs r idx k, enforce_loop r req ref (decision_phase ref) idx obs now k = (k', r', None) ->
    r' = on_view (rv_set_AttachedTags (attach_all idx obs (rv_AttachedTags (ri_view r)))) r) as Hl.
  { induction obs as [|ob obs IH]; intros r0 idx k0; simpl.
    - intros E. pair_inv E. apply set_own_tags.
    - destruct (enforceObligation _ _ _ _ _ _ _ _) as [[k1 r1] [err|]] eqn:Eo; [by intros E; pair_inv E|].
      apply enforceObligation_tags in Eo as ->. intros E%IH. by rewrite E. }
  destruct (dr_Obligations ref) eqn:Eo; [intros E; pair_inv E; apply set_own_tags|apply Hl].
Qed.
End Obligations.

(** ** The whole request *)

Section Accept.
Context `{JsonMarshaler} `{UrlParser} `{MapRange}.

(** The fields every request must fill. *)
Definition request_ok (req : AdvanceRunRequest) : Prop :=
  blank (ar_StepID req) = false /\ blank (ar_StepVersion req) = false /\
  blank (ar_IdempotencyKey req) = false /\ blank (df_DecisionID (ar_DecisionRef req)) = false /\
  blank (df_DecisionHash (ar_DecisionRef req)) = false /\
  blank (ar_InputHash req) = false /\ blank (ar_OutputHash req) = false.

(** What an accepted advance satisfies: [q] is the state of the run, [q'] the
    next one, [ref] the decision, [h] the new step hash. *)
Record advance_ok (port : option DecisionPort) (runID : string) (req : AdvanceRunRequest)
    (v : RunView) (q q' : run_state) (ref : DecisionReference) (h : string) : Prop := {
  av_active : ~ terminal q /\ ~ waiting q;
  av_request : request_ok req;
  av_version : ar_ExpectedStateVersion req = rv_StateVersion v;
  av_seq : rv_CurrentStepSeqID v < ar_IncomingStepSeqID req;
  av_decision : exists p, port = Some p /\ decision_ok p runID req ref /\
                  receipt_ok p runID (rv_TenantID v) req;
  av_obligations : Forall (obligation_ok req (decision_phase ref)) (dr_Obligations ref);
  av_next : next_state req = state_name q' /\ (q = q' \/ edge q q');
  av_hash : hash_checked (step_hash_input (rv_LastStepHash v)
              (df_DecisionHash (ar_DecisionRef req)) (ar_InputHash req) (ar_OutputHash req)) = Some h
}.

Lemma waiting_fold q :
  EqualFold (state_name q) StateParked || EqualFold (state_name q) StateAwaitingApproval
  = bool_decide (waiting q).
Proof. destruct q; vm_compute; reflexivity. Qed.

Lemma next_state_valid_iff req q' : next_state req = state_name q' -> isValidState (next_state req) = true.
Proof.
  intros ->. unfold isValidState. rewrite normalizeState_name, one_of_In. apply run_states_names. eauto.
Qed.

(** The kernel and run after the obligations of an accepted advance. *)
Definition with_tags (ref : DecisionReference) (r : runInstance) : runInstance :=
  on_view (rv_set_AttachedTags
    (attach_all 0 (dr_Obligations ref) (rv_AttachedTags (ri_view r)))) r.

Lemma blank_or a b : blank a || blank b = false <-> blank a = false /\ blank b = false.
Proof. apply orb_false_iff. Qed.

(** An advance that succeeds went through every gate. *)
Lemma AdvanceRun_Ok port id req now k k' resp r q :
  k_runs k !! id = Some r -> rv_State (ri_view r) = state_name q ->
  k_idempotency k !! idem_key id req = None ->
  AdvanceRun port id req now k = (k', Ok resp) ->
  exists ref q' h k1, advance_ok port id req (ri_view r) q q' ref h /\ same_core k1 k /\
    let '(k2, r2, resp2) := advance_apply id req ref (with_tags ref r) h now k1 in
    k' = store_run id r2 k2 /\ resp = resp2.
Proof.
  intros Hr Hq Hidem. unfold AdvanceRun, getRunLocked. rewrite Hr, Hq, Hidem. cbv zeta.
  rewrite isTerminalState_name, waiting_fold.
  case_bool_decide as Ht; [done|]. case_bool_decide as Hw; [done|].
  destruct (blank _ || blank _ || blank _) eqn:Eb; [done|].
  destruct (advance_fresh _ _ _ _ _ _) as [[k2 r2] res] eqn:E. intros [<- ->]%pair_inv_eq.
  unfold advance_fresh, reject_gate in E. cbv zeta in E.
  destruct (negb (ar_ExpectedStateVersion _ =? _)) eqn:E1; [by pair_inv E|].
  destruct (ar_IncomingStepSeqID req <=? _) eqn:E2; [by pair_inv E|].
  destruct (blank (df_DecisionID _) || _) eqn:E3; [by pair_inv E|].
  destruct (decision_gate _ _ _) as [[p ref]|g] eqn:E4; [|by pair_inv E].
  destruct (receipt_gate _ _ _ _) eqn:E5; [by pair_inv E|].
  destruct (enforceDecisionObligationsLocked _ _ _ _ _) as [[k3 r3] [err|]] eqn:E6; [by pair_inv E|].
  pose proof (enforce_frame _ _ _ _ _ _ _ _ E6) as [Hk3 _].
  pose proof (enforce_tags _ _ _ _ _ _ _ E6) as ->. fold (with_tags ref r) in E.
  assert (Forall (obligation_ok req (decision_phase ref)) (dr_Obligations ref)) as Hob
    by (apply (enforce_iff r req ref now k); by rewrite E6).
  unfold advance_commit in E. cbv zeta in E.
  destruct (negb (isValidState _)) eqn:E7; [by pair_inv E|].
  destruct (negb (isAllowedTransition _ _)) eqn:E8; [by pair_inv E|].
  destruct (blank (ar_InputHash _) || _) eqn:E9; [by pair_inv E|].
  destruct (hash_checked _) as [h|] eqn:E10; [|by pair_inv E].
  destruct (advance_apply id req ref (with_tags ref r) h now k3) as [[k4 r4] resp4] eqn:E11.
  pair_inv E. bool_hyps. apply decision_gate_iff in E4 as [-> Hd]. apply receipt_gate_iff in E5.
  apply next_state_valid in E7 as [q' Hq'].
  exists ref, q', h, k3. rewrite E11. split_and!; [|done|done|congruence].
  split; [done|by unfold request_ok|done|done|by exists p|done| |exact E10].
  split; [done|]. apply isAllowedTransition_name. by rewrite <- Hq', <- Hq.
Qed.

(** Conversely, nothing else is required. *)
Lemma AdvanceRun_accepts port id req now k r q q' ref h :
  k_runs k !! id = Some r -> rv_State (ri_view r) = state_name q ->
  k_idempotency k !! idem_key id req = None -> advance_ok port id req (ri_view r) q q' ref h ->
  exists resp, snd (AdvanceRun port id req now k) = Ok resp.
Proof.
  intros Hr Hq Hidem [[Ht Hw] (B1 & B2 & B3 & B4 & B5 & B6 & B7) Hv Hs (p & -> & Hd & Hrec) Hob [Hn He] Hh].
  unfold AdvanceRun, getRunLocked. rewrite Hr, Hq, Hidem. cbv zeta.
  rewrite isTerminalState_name, waiting_fold, !bool_decide_eq_false_2 by done.
  rewrite B1, B2, B3. cbn [orb].
  unfold advance_fresh. cbv zeta.
  rewrite (proj2 (Z.eqb_eq _ _) Hv), (proj2 (Z.leb_gt _ _) Hs), B4, B5. cbn [negb orb].
  rewrite (proj2 (decision_gate_iff _ _ _ _ _) (conj eq_refl Hd)).
  rewrite (proj2 (receipt_gate_iff _ _ _ _) Hrec).
  apply (enforce_iff r req ref now k) in Hob.
  destruct (enforceDecisionObligationsLocked _ _ _ _ _) as [[k3 r3] e] eqn:E6. simpl in Hob. subst e.
  pose proof (enforce_tags _ _ _ _ _ _ _ E6) as ->. fold (with_tags ref r).
  unfold advance_commit. cbv zeta. rewrite (next_state_valid_iff _ _ Hn). cbn [negb].
  change (rv_State (ri_view (with_tags ref r))) with (rv_State (ri_view r)).
  rewrite Hq, Hn, (proj2 (isAllowedTransition_name _ _) He), B6, B7. cbn [negb orb].
  change (rv_LastStepHash (ri_view (with_tags ref r))) with (rv_LastStepHash (ri_view r)).
  rewrite Hh. destruct (advance_apply _ _ _ _ _ _ _) as [[k4 r4] resp4]. by exists resp4.
Qed.

(** The state after an accepted advance. *)
Lemma advance_apply_state id req ref r h now k k' r' resp :
  advance_apply id req ref r h now k = (k', r', resp) ->
  let v' := advanced_view req h now (ri_view r) in
  resp = advance_response req h v' /\ r' = ri_set_noProgressScans 0 (ri_set_view v' r) /\
  k_runs k' = k_runs k /\
  StepIntegrities k' id = StepIntegrities k id ++ [normal_step id req h now (ri_view r)] /\
  (isTerminalState (next_state req) = false ->
    k_idempotency k' = <[idem_key id req := mk_idempotencyEntry id resp now now]> (k_idempotency k)).
Proof.
  unfold advance_apply. set (v' := advanced_view _ _ _ _). cbv zeta.
  set (s := normal_step _ _ _ _ _). set (k1 := emit _ _ _ _ _ _).
  destruct (same_core_fields k1 (append_integrity id s k)) as (_ & C2 & _ & C4 & _ & C6 & _);
    [apply emit_core|].
  set (k2 := k_set_idempotency _ k1).
  destruct (cleanup_caches_spec id k2) as (_ & D1 & D2 & _).
  intros E. pair_inv E. split_and!; [done|done| | |].
  - case_match; [rewrite D1|]; done.
  - rewrite <- (StepIntegrities_append id s k). unfold StepIntegrities.
    case_match; [rewrite D2|]; simpl; by rewrite C6.
  - intros ->. simpl. by rewrite C4.
Qed.
End Accept.

(** * Creating runs: freshness of the identifier, the invariant of a new run

    [CreateRun] issues [run_<8 hex digits>_<sequence number>]; the sequence
    number keeps the identifiers apart as long as the 64-bit counter does not
    wrap around. *)

Lemma slice_to_length n s : (n <= String.length s)%nat -> String.length (slice_to n s) = n.
Proof.
  unfold slice_to. revert s. induction n as [|n IH]; intros [|c s]; simpl; try lia.
  intros Hs. rewrite IH; lia.
Qed.

Lemma run_id_app fp i :
  run_id fp i = String.append "run_" (String.append (slice_to 8 fp) (String.append "_" (fmt_08x i))).
Proof. reflexivity. Qed.

(** The sequence number can be read back from the identifier. *)
Lemma run_id_inj fp fp' i i' :
  (8 <= String.length fp)%nat -> (8 <= String.length fp')%nat -> 0 <= i -> 0 <= i' ->
  run_id fp i = run_id fp' i' -> i = i'.
Proof.
  intros Hf Hf' Hi Hi'. rewrite !run_id_app. intros E.
  apply append_inj_length in E as [_ E]; [|done].
  apply append_inj_length in E as [_ E]; [|by rewrite !slice_to_length].
  apply append_inj_length in E as [_ E]; [|done].
  by apply fmt_08x_inj in E.
Qed.

Section Create.
Context `{JsonMarshaler} `{UrlParser} `{MapRange}.

Lemma run_id_unissued k fp : 0 <= k_runSeq k -> (8 <= String.length fp)%nat ->
  k_runSeq k + 1 < 2 ^ 64 -> ~ issued (k_runSeq k) (run_id fp (wrap_uint64 (k_runSeq k + 1))).
Proof.
  intros Hpos Hfp Hseq. rewrite wrap_uint64_id by lia. intros (fp' & i & E & Hfp' & Hi).
  apply run_id_inj in E; lia.
Qed.

Lemma run_id_fresh k fp : runs_ok k -> (8 <= String.length fp)%nat -> k_runSeq k + 1 < 2 ^ 64 ->
  k_runs k !! run_id fp (wrap_uint64 (k_runSeq k + 1)) = None.
Proof.
  intros [A _ C] Hfp Hseq.
  destruct (k_runs k !! _) as [r|] eqn:Hr; [exfalso|done].
  apply (run_id_unissued k fp); [lia|exact Hfp|exact Hseq|exact (ro_issued _ _ _ _ (A _ _ Hr))].
Qed.

(** The state a successful creation leaves, up to the outbox. *)
Lemma create_new_run_inv req fp now k :
  Inv k -> k_runSeq k + 1 < 2 ^ 64 -> (8 <= String.length fp)%nat ->
  isValidRisk (normalizeRisk (cr_RiskTier req)) = true ->
  Inv (fst (create_new_run req fp now k)).
Proof.
  intros HI Hseq Hfp Hrisk. pose proof (run_id_fresh k fp (inv_runs _ HI) Hfp Hseq) as Hfresh.
  unfold create_new_run. cbv zeta. rewrite wrap_uint64_id in * by (destruct HI as [[]]; lia).
  set (runID := run_id _ _) in *.
  assert (Hgrow : forall k1, k_runSeq k1 = k_runSeq k + 1 -> k_runs k1 = k_runs k ->
            k_stepIntegrity k1 = k_stepIntegrity k -> runs_ok k1).
  { intros k1 E1 E2 E3. destruct HI as [[A B C] _].
    split; unfold StepIntegrities; rewrite ?E1, ?E2, ?E3; [|done|lia].
    intros id r Hr. destruct (A _ _ Hr) as [? ? ? ? ? ? (fp0 & i & ? & ? & ?) ?].
    split; try done. exists fp0, i. split_and!; [done|done|lia|lia]. }
  destruct (hash_checked _) as [sh|] eqn:Hsh; simpl fst.
  2:{ split; [by apply Hgrow|]. eapply refs_ok_mono; [|by apply (refs_ok_ext _ k), HI].
      done. }
  set (r := mk_runInstance _ _ _ _ _).
  set (k1 := k_set_runSeq (k_runSeq k + 1) k) in *.
  set (k2 := emit _ _ _ _ _ _).
  assert (same_core k2 (store_run runID r k1)) as Hk2 by apply emit_core.
  apply same_core_fields in Hk2 as (_ & C2 & C3 & C4 & C5 & C6 & C7).
  assert (Hsteps : StepIntegrities k1 runID = []).
  { unfold StepIntegrities. destruct (k_stepIntegrity k1 !! runID) as [l|] eqn:El; [|done].
    apply (rk_steps _ (inv_runs _ HI)) in El as [r0 Hr0]. by rewrite Hfresh in Hr0. }
  assert (Hstored : runs_ok (store_run runID r k1)).
  { apply runs_ok_store; [by apply Hgrow|]. rewrite Hsteps. split; simpl; try done.
    - by exists Running.
    - by left.
    - exists fp, (k_runSeq k + 1). split_and!; [done|done| |lia].
      pose proof (rk_seq _ (inv_runs _ HI)). lia. }
  assert (Hlive : forall x, live k x -> live (store_run runID r k1) x).
  { intros x Hx. apply live_store. right. split; [|done]. intros ->.
    destruct Hx as (? & ? & _). congruence. }
  split; [by eapply runs_ok_ext; [..|exact Hstored]|].
  match goal with |- refs_ok ?P _ => eapply (refs_ok_mono (live (store_run runID r k1))) end.
  { intros x. unfold live; simpl. by rewrite C2. }
  apply refs_insert_create; [apply live_store; by left|done|].
  apply (refs_ok_ext _ k); [done..|]. eapply refs_ok_mono; [exact Hlive|apply HI].
Qed.

Lemma hash_checked_8 v h : hash_checked v = Some h -> (8 <= String.length h)%nat.
Proof. intros (E & _)%hash_checked_hex. rewrite E. lia. Qed.

(** An entry of the request cache leads to a stored run. *)
Lemma create_entry_run k key e : Inv k -> k_createRuns k !! key = Some e ->
  is_Some (k_runs k !! ce_RunID e).
Proof. intros [_ HC] He. destruct (rf_create _ _ HC _ _ He) as [(r & Hr & _) _]. eauto. Qed.

Lemma CreateRun_inv req now k :
  Inv k -> k_runSeq k + 1 < 2 ^ 64 -> Inv (fst (CreateRun req now k)).
Proof.
  intros HI Hseq. unfold CreateRun. cbv zeta.
  destruct (_ || _); [done|]. destruct (negb _) eqn:Hrisk; [done|]. bool_hyps.
  destruct (blank _); [done|].
  destruct (hash_checked _) as [fp|] eqn:Hfp; [|done]. apply hash_checked_8 in Hfp.
  destruct (k_createRuns k !! _) as [e|] eqn:He; [|by apply create_new_run_inv].
  destruct (create_entry_run _ _ _ HI He) as [r Hr].
  destruct (negb _); simpl fst.
  { rewrite emit_core. eapply Inv_refs_only; [done..|]. apply (refs_ok_ext _ k); [done..|apply HI]. }
  rewrite Hr. simpl fst. rewrite emit_core.
  apply (Inv_refs_only k); [done..|].
  destruct (rf_create _ _ (inv_refs _ HI) _ _ He) as [Hl Hresp].
  eapply refs_ok_ext; [..|apply refs_insert_create; [| |apply HI]]; try done; done.
Qed.

Lemma NewKernel_inv cfg : Inv (NewKernel cfg).
Proof.
  split; split; simpl; try done; try lia; intros ? ?; rewrite lookup_empty; discriminate.
Qed.
End Create.
