(* ===== verification/RunMaint.v ===== *)
(** * Maintenance and sweeps: invariant and per-run effect

    The maintenance loops only filter maps.  A sweep loop applies one function
    of the run ([ttl_run], [zombie_run]) to the first runs in key order, up to
    the batch limit, and leaves the others alone.

    Then which runs and cache entries outlive a sweep. *)

From S2P Require Import Prelude GoStrings Sha256 GoTime GoJson RunTypes RunStates RunOutbox.
From S2P Require Import RunKernel RunSweeps RunInvariant RunOps.

Section Maintenance.
Context `{JsonMarshaler} `{UrlParser} `{MapRange}.

Lemma continuation_after_ids cfg now c c' : continuation_after cfg now c = Some c' ->
  ct_RunID c' = ct_RunID c /\ ct_ContinuationID c' = ct_ContinuationID c.
Proof. unfold continuation_after. intros E. repeat case_match; simplify_eq; done. Qed.

Lemma cleanupContinuations_eq now k : fst (cleanupContinuationsLocked now k) =
  k_set_continuations (fst (range_cleanup (fun _ c => continuation_after (k_cfg k) now c)
    (k_continuations k))) k.
Proof. unfold cleanupContinuationsLocked. by destruct (range_cleanup _ _). Qed.

Definition keep_fresh {V} (last created : V -> time) (now : time) (ttl : duration) (e : V)
  : option V := if entry_stale now (last e) (created e) ttl then None else Some e.

Lemma cleanupIdempotency_eq now k : fst (cleanupIdempotencyLocked now k) =
  k_set_idempotency (fst (range_cleanup (fun _ => keep_fresh ie_LastAccessAt ie_CreatedAt now
    (cfg_IdempotencyTTL (k_cfg k))) (k_idempotency k))) k.
Proof. unfold cleanupIdempotencyLocked, keep_fresh. by destruct (range_cleanup _ _). Qed.

Lemma cleanupCreateRuns_eq now k : fst (cleanupCreateRunsLocked now k) =
  k_set_createRuns (fst (range_cleanup (fun _ => keep_fresh ce_LastAccessAt ce_CreatedAt now
    (cfg_CreateRequestRetention (k_cfg k))) (k_createRuns k))) k.
Proof. unfold cleanupCreateRunsLocked, keep_fresh. by destruct (range_cleanup _ _). Qed.

Lemma cleanupContinuations_inv now k : Inv k -> Inv (fst (cleanupContinuationsLocked now k)).
Proof.
  intros HI. rewrite cleanupContinuations_eq. apply (Inv_refs_only k); [done..|].
  apply refs_filter_cont; [|apply HI]. intros _ c c'. apply continuation_after_ids.
Qed.

Lemma cleanupIdempotency_inv now k : Inv k -> Inv (fst (cleanupIdempotencyLocked now k)).
Proof.
  intros HI. rewrite cleanupIdempotency_eq. apply (Inv_refs_only k); [done..|].
  apply refs_filter_idem; [|apply HI]. unfold keep_fresh. intros _ c c' E. by case_match; simplify_eq.
Qed.

Lemma cleanupCreateRuns_inv now k : Inv k -> Inv (fst (cleanupCreateRunsLocked now k)).
Proof.
  intros HI. rewrite cleanupCreateRuns_eq. apply (Inv_refs_only k); [done..|].
  apply refs_filter_create; [|apply HI]. unfold keep_fresh. intros _ c c' E. by case_match; simplify_eq.
Qed.

(** Dropping a run with its chain and caches, whatever the run. *)
Lemma delete_run_spec id k :
  let k' := delete_run id k in
  k_cfg k' = k_cfg k /\ k_runSeq k' = k_runSeq k /\ k_outbox k' = k_outbox k /\
  k_runs k' = delete id (k_runs k) /\ k_stepIntegrity k' = delete id (k_stepIntegrity k) /\
  (forall t, k_continuations k' !! t = k_continuations k !! t ≫= keep_unless ct_RunID id) /\
  (forall t, k_idempotency k' !! t = k_idempotency k !! t ≫= keep_unless ie_RunID id) /\
  (forall t, k_createRuns k' !! t = k_createRuns k !! t ≫= keep_unless ce_RunID id).
Proof.
  unfold delete_run; cbv zeta.
  match goal with |- context [cleanupRunScopedCachesLocked id ?k0] =>
    destruct (cleanup_caches_spec id k0) as (E1 & E2 & E3 & E4 & E5 & E6 & E7 & E8) end.
  split_and!; done.
Qed.

Lemma delete_run_inv id k : Inv k -> Inv (delete_run id k).
Proof.
  intros [[A B C] HC].
  destruct (delete_run_spec id k) as (_ & E1 & _ & E2 & E3 & _).
  split; [split|].
  - intros x r. rewrite E2, E1, lookup_delete_Some. intros [Hne Hr].
    unfold StepIntegrities. rewrite E3, lookup_delete_ne by done. by apply A.
  - intros x l. rewrite E2, E3, lookup_delete_Some. intros [Hne Hl].
    rewrite lookup_delete_ne by done. eauto.
  - by rewrite E1.
  - apply (refs_ok_mono (fun x => live k x /\ x <> id)).
    + intros x [(r & Hr & Ht) Hne]. exists r. by rewrite E2, lookup_delete_ne.
    + unfold delete_run. apply cleanup_refs. by apply (refs_ok_ext _ k).
Qed.

(** Reasoning about a loop over a map by an invariant of its state. *)
Lemma go_range_ind {V S} (P : S -> Prop) (body : S -> string -> V -> S) s (m : gmap string V) :
  P s -> (forall s i v, m !! i = Some v -> P s -> P (body s i v)) -> P (go_range body s m).
Proof.
  intros Hs Hbody. unfold go_range.
  assert (forall i v, (i, v) ∈ range_map m -> m !! i = Some v) as Hin by (intros; by apply range_map_elem).
  revert s Hs Hin. induction (range_map m) as [|[i v] l IH]; intros s Hs Hin; simpl; [done|].
  apply IH; [apply Hbody; [apply Hin; by left|done]|]. intros ???. apply Hin. by right.
Qed.

Lemma cleanupTerminalRuns_inv now k : Inv k -> Inv (fst (cleanupTerminalRunsLocked now k)).
Proof.
  intros HI. unfold cleanupTerminalRunsLocked. case_match; [done|].
  apply (go_range_ind (fun s => Inv (fst s))); [done|].
  intros s i r _ Hs. unfold terminal_run_body. case_match; [by apply delete_run_inv|done].
Qed.

Lemma applyMaintenance_eq now k res :
  fst (applyMaintenanceLocked now k res) =
    (let k := fst (cleanupContinuationsLocked now k) in
     let k := fst (cleanupIdempotencyLocked now k) in
     let k := fst (cleanupTerminalRunsLocked now k) in
     let k := fst (cleanupCreateRunsLocked now k) in
     fst (cleanupOutboxLocked k now)).
Proof. unfold applyMaintenanceLocked. by repeat (case_match; simpl). Qed.

Lemma applyMaintenance_inv now k res : Inv k -> Inv (fst (applyMaintenanceLocked now k res)).
Proof.
  intros HI. rewrite applyMaintenance_eq. cbv zeta. rewrite cleanupOutbox_core.
  by apply cleanupCreateRuns_inv, cleanupTerminalRuns_inv, cleanupIdempotency_inv,
    cleanupContinuations_inv.
Qed.
End Maintenance.

(** ** Step records only accumulate *)

Section Steps.
Context `{JsonMarshaler} `{UrlParser} `{MapRange}.

Lemma steps_core k k1 x : same_core k1 k -> StepIntegrities k x `prefix_of` StepIntegrities k1 x.
Proof.
  intros (_ & _ & _ & _ & _ & E & _)%same_core_fields. unfold StepIntegrities. by rewrite E.
Qed.

Lemma steps_append k id s x :
  StepIntegrities k x `prefix_of` StepIntegrities (append_integrity id s k) x.
Proof.
  destruct (decide (x = id)) as [->|Hne].
  - rewrite StepIntegrities_append. by apply prefix_app_r.
  - unfold StepIntegrities, append_integrity; simpl. by rewrite lookup_insert_ne.
Qed.

Lemma steps_synthetic r stepID seq ty inp out now k k1 res x :
  appendSyntheticStepLocked r stepID seq ty inp out now k = (k1, res) ->
  StepIntegrities k x `prefix_of` StepIntegrities k1 x /\ k_runs k1 = k_runs k /\
  k_cfg k1 = k_cfg k.
Proof.
  intros E%appendSynthetic_spec. destruct res as [h|err].
  - destruct E as [_ ->]. split; [apply steps_append|done].
  - destruct E as [Hk _]. split; [by apply steps_core|].
    apply same_core_fields in Hk. intuition.
Qed.
End Steps.

(** ** Sweeps *)

Section Sweep.
Context `{JsonMarshaler} `{UrlParser} `{MapRange}.

(** The forced step of a sweeper on a run: nothing when the hash fails. *)
Definition force (ty inp reason source rootType : string) (q : run_state) (now : time)
    (r : runInstance) : runInstance :=
  let v := ri_view r in
  match hash_checked (synthetic_hash_input (rv_LastStepHash v) ty inp "") with
  | None => r
  | Some h =>
    ri_set_view (forced_view (state_name q) rootType reason source
                   (wrap_int64 (rv_CurrentStepSeqID v + 1)) h now v) r
  end.

(** The run is past its lifetime, and stuck or flagged. *)
Definition ttl_breached (cfg : Config) (now : time) (r : runInstance) : bool :=
  let v := ri_view r in
  negb (isTerminalState (rv_State v)) && (0 <? ri_maxLifetime r)
  && (ri_maxLifetime r <? Sub now (rv_CreatedAt v))
  && ((cfg_ZombieNoProgressWindow cfg <? Sub now (rv_LastProgressAt v)) || at_risk r).

Definition ttl_run (cfg : Config) (now : time) (r : runInstance) : runInstance :=
  if negb (ttl_breached cfg now r) then r
  else if at_risk r then
    force "ttl_force_abort" "ttl_breach_risk" "ttl_breach_risk" "ttl_sweeper" RootTypeAborted
      ForceAbort now r
  else
    force "ttl_force_review" "ttl_breach" "ttl_breach" "ttl_sweeper" RootTypeReviewHold
      ForceReviewRequired now r.

Definition zombie_run (cfg : Config) (now : time) (r : runInstance) : runInstance :=
  let v := ri_view r in
  if isTerminalState (rv_State v) then r
  else if Sub now (rv_LastProgressAt v) <=? cfg_ZombieNoProgressWindow cfg
  then ri_set_noProgressScans 0 r
  else
  let r := ri_set_noProgressScans (wrap_int64 (ri_noProgressScans r + 1)) r in
  if ri_noProgressScans r <? 2 then r
  else if at_risk r then
    force "zombie_sweep" "no_progress" "no_progress" "zombie_sweeper" RootTypeAborted ForceAbort now r
  else
    force "zombie_sweep" "no_progress" "no_progress" "zombie_sweeper" RootTypeReviewHold
      ForceReviewRequired now r.

(** What a visit promises: the invariant, and a run map where only the
    visited run changed, as [f] says. *)
Definition visit_ok (f : Config -> runInstance -> runInstance)
    (visit : string -> runInstance -> Kernel -> SweepResult -> Kernel * SweepResult) : Prop :=
  forall id r k res, Inv k -> k_runs k !! id = Some r ->
    let '(k', res') := visit id r k res in
    Inv k' /\ k_cfg k' = k_cfg k /\ k_runs k' = <[id := f (k_cfg k) r]> (k_runs k) /\
    (forall x, StepIntegrities k x `prefix_of` StepIntegrities k' x) /\
    sw_Scanned res' = sw_Scanned res.

(** Storing the forced run, with or without the cache cleanup. *)
Lemma forced_store q ty inp reason src rootType id r now k k1 h :
  Inv k -> k_runs k !! id = Some r -> ToLower (TrimSpace ty) = ty -> In rootType root_types ->
  appendSyntheticStepLocked r (rv_ActiveStepID (ri_view r))
    (wrap_int64 (rv_CurrentStepSeqID (ri_view r) + 1)) ty inp "" now k = (k1, Ok h) ->
  force ty inp reason src rootType q now r =
    ri_set_view (forced_view (state_name q) rootType reason src
      (wrap_int64 (rv_CurrentStepSeqID (ri_view r) + 1)) h now (ri_view r)) r /\
  k_cfg k1 = k_cfg k /\ k_runs k1 = k_runs k /\
  rv_RunID (ri_view (force ty inp reason src rootType q now r)) = id /\
  (terminal q ->
    Inv (cleanupRunScopedCachesLocked id (store_run id (force ty inp reason src rootType q now r) k1))) /\
  (~ terminal q -> Inv (store_run id (force ty inp reason src rootType q now r) k1)).
Proof.
  intros HI Hr Hty Hroot Ha. pose proof Ha as Ha'. apply appendSynthetic_spec in Ha' as [Hh Hk1].
  assert (force ty inp reason src rootType q now r = ri_set_view (forced_view (state_name q)
    rootType reason src (wrap_int64 (rv_CurrentStepSeqID (ri_view r) + 1)) h now (ri_view r)) r) as Hf.
  { unfold force. by rewrite Hh. }
  pose proof (forced_step q rootType reason src (wrap_int64 (rv_CurrentStepSeqID (ri_view r) + 1))
    h now (ri_view r) Hroot) as Hv.
  rewrite Hf. split_and!; try done; try (by rewrite Hk1).
  - simpl. rewrite (sv_id _ _ _ _ _ Hv). apply (Inv_run _ _ _ HI Hr).
  - intros Hq. set (v' := forced_view _ _ _ _ _ _ _ _) in *.
    by eapply Inv_terminate with (q := q) (r' := ri_set_view v' r); [..|exact Ha|exact Hv|].
  - intros Hq. set (v' := forced_view _ _ _ _ _ _ _ _) in *.
    eapply Inv_synthetic with (q := q) (r' := ri_set_view v' r);
      [done|done|exact Hty|exact Ha|exact Hv|done|done|done| |done].
    intros _ Hrefs. apply (refs_ok_ext _ k1); [done..|]. eapply refs_ok_mono; [|exact Hrefs]. tauto.
Qed.
End Sweep.

Section Visits.
Context `{JsonMarshaler} `{UrlParser} `{MapRange}.

Lemma insert_same_run k id r : k_runs k !! id = Some r -> <[id := r]> (k_runs k) = k_runs k.
Proof. apply insert_id. Qed.

(** The three ends of a forced step. *)
Section Forced.
Context (q : run_state) (ty inp reason src rootType : string) (now : time).
Context (Hty : ToLower (TrimSpace ty) = ty) (Hroot : In rootType root_types).
Context (k : Kernel) (id : string) (r : runInstance).
Context (HI : Inv k) (Hr : k_runs k !! id = Some r).

Let r' := force ty inp reason src rootType q now r.
Let seq := wrap_int64 (rv_CurrentStepSeqID (ri_view r) + 1).
Let append := appendSyntheticStepLocked r (rv_ActiveStepID (ri_view r)) seq ty inp "" now k.
Let forced h := ri_set_view
  (forced_view (state_name q) rootType reason src seq h now (ri_view r)) r.

Lemma forced_visit_terminal k1 h ev sid kvs : append = (k1, Ok h) -> terminal q ->
  let k2 := emit ev (rv_RunID (ri_view (forced h))) sid kvs now
    (cleanupRunScopedCachesLocked (rv_RunID (ri_view (forced h))) (store_run id (forced h) k1)) in
  Inv k2 /\ k_cfg k2 = k_cfg k /\ k_runs k2 = <[id := r']> (k_runs k) /\
  (forall x, StepIntegrities k x `prefix_of` StepIntegrities k2 x).
Proof.
  intros Ha Hq. destruct (forced_store q ty inp reason src rootType id r now k k1 h)
    as (Hf & F1 & F2 & F3 & F4 & _); [done..|].
  unfold r', forced, seq in *. rewrite <- Hf in *. cbv zeta. rewrite F3.
  destruct (cleanup_caches_spec id (store_run id (force ty inp reason src rootType q now r) k1))
    as (D0 & D1 & D2 & _).
  pose proof (fun x => steps_synthetic _ _ _ _ _ _ _ _ _ _ x Ha) as Hs.
  rewrite emit_cfg, emit_runs, emit_core, D0, D1. simpl.
  split_and!; [auto|done|by rewrite F2|]. intros x. rewrite emit_steps.
  unfold StepIntegrities at 2. rewrite D2. apply Hs.
Qed.

Lemma forced_visit_live k1 h ev id' sid kvs : append = (k1, Ok h) -> ~ terminal q ->
  let k2 := emit ev id' sid kvs now (store_run id (forced h) k1) in
  Inv k2 /\ k_cfg k2 = k_cfg k /\ k_runs k2 = <[id := r']> (k_runs k) /\
  (forall x, StepIntegrities k x `prefix_of` StepIntegrities k2 x).
Proof.
  intros Ha Hq. destruct (forced_store q ty inp reason src rootType id r now k k1 h)
    as (Hf & F1 & F2 & F3 & _ & F4); [done..|].
  unfold r', forced, seq in *. rewrite <- Hf in *. cbv zeta.
  pose proof (fun x => steps_synthetic _ _ _ _ _ _ _ _ _ _ x Ha) as Hs.
  rewrite emit_cfg, emit_runs, emit_core. simpl.
  split_and!; [auto|done|by rewrite F2|]. intros x. rewrite emit_steps. apply Hs.
Qed.

Lemma forced_visit_failed k1 err : append = (k1, Err err) ->
  Inv k1 /\ k_cfg k1 = k_cfg k /\ k_runs k1 = <[id := r']> (k_runs k) /\
  (forall x, StepIntegrities k x `prefix_of` StepIntegrities k1 x).
Proof.
  intros (Hk1 & _ & Hn)%appendSynthetic_spec.
  assert (r' = r) as -> by (unfold r', force; by rewrite Hn).
  apply same_core_fields in Hk1 as Hf. destruct Hf as (-> & -> & _).
  rewrite Hk1 at 1. rewrite insert_same_run by done. split_and!; auto using steps_core.
Qed.
End Forced.

(** The guards of the TTL sweep, gathered. *)
Lemma ttl_guards now k r :
  isTerminalState (rv_State (ri_view r)) = false -> (ri_maxLifetime r <=? 0) = false ->
  (Sub now (rv_CreatedAt (ri_view r)) <=? ri_maxLifetime r) = false ->
  ttl_breached (k_cfg k) now r =
    negb ((Sub now (rv_LastProgressAt (ri_view r)) <=? cfg_ZombieNoProgressWindow (k_cfg k))
          && negb (ri_securityRisk r) && negb (ri_resourceRisk r)).
Proof.
  intros E1 E2 E3. unfold ttl_breached. rewrite E1, !Z.ltb_antisym, E2, E3. simpl.
  unfold at_risk. by destruct (_ <=? cfg_ZombieNoProgressWindow _), (ri_securityRisk r), (ri_resourceRisk r).
Qed.

Lemma ttl_visit_ok now : visit_ok (fun cfg r => ttl_run cfg now r) (ttl_visit now).
Proof.
  intros id r k res HI Hr. pose proof (insert_same_run _ _ _ Hr) as Hsame.
  unfold ttl_visit, ttl_run. cbv zeta.
  destruct (isTerminalState _) eqn:E1;
    [unfold ttl_breached; rewrite E1; simpl; by rewrite Hsame|].
  destruct (ri_maxLifetime r <=? 0) eqn:E2.
  { unfold ttl_breached. rewrite E1, Z.ltb_antisym, E2; simpl. by rewrite Hsame. }
  destruct (Sub _ (rv_CreatedAt _) <=? _) eqn:E3.
  { unfold ttl_breached. rewrite E1, (Z.ltb_antisym (Sub _ _) (ri_maxLifetime r)), E3.
    rewrite andb_false_r; simpl. by rewrite Hsame. }
  rewrite (ttl_guards now k r E1 E2 E3), negb_involutive.
  destruct (_ && negb (ri_resourceRisk r)) eqn:E4; [by rewrite Hsame|].
  destruct (at_risk r);
    destruct (appendSyntheticStepLocked _ _ _ _ _ _ _ _) as [k1 [h|err]] eqn:Ea.
  - edestruct (forced_visit_terminal ForceAbort "ttl_force_abort" "ttl_breach_risk"
      "ttl_breach_risk" "ttl_sweeper" RootTypeAborted now) as (F1 & F2 & F3 & F4);
      [done|simpl; tauto|exact HI|exact Hr|exact Ea|exact force_abort_terminal|].
    split_and!; [exact F1|exact F2|exact F3|exact F4|done].
  - edestruct (forced_visit_failed ForceAbort "ttl_force_abort" "ttl_breach_risk"
      "ttl_breach_risk" "ttl_sweeper" RootTypeAborted now) as (F1 & F2 & F3 & F4);
      [exact HI|exact Hr|exact Ea|]. done.
  - edestruct (forced_visit_live ForceReviewRequired "ttl_force_review" "ttl_breach"
      "ttl_breach" "ttl_sweeper" RootTypeReviewHold now) as (F1 & F2 & F3 & F4);
      [done|simpl; tauto|exact HI|exact Hr|exact Ea|exact review_live|].
    split_and!; [exact F1|exact F2|exact F3|exact F4|done].
  - edestruct (forced_visit_failed ForceReviewRequired "ttl_force_review" "ttl_breach"
      "ttl_breach" "ttl_sweeper" RootTypeReviewHold now) as (F1 & F2 & F3 & F4);
      [exact HI|exact Hr|exact Ea|]. done.
Qed.

Lemma append_store r r' id stepID seq ty inp out now k k1 h :
  appendSyntheticStepLocked r stepID seq ty inp out now k = (k1, Ok h) ->
  appendSyntheticStepLocked r stepID seq ty inp out now (store_run id r' k) =
    (store_run id r' k1, Ok h).
Proof.
  unfold appendSyntheticStepLocked. cbv zeta. destruct (hash_checked _); [|done].
  intros [<- E]%pair_inv_eq. by injection E as <-.
Qed.

Lemma store_store id r r' k : store_run id r (store_run id r' k) = store_run id r k.
Proof. unfold store_run; simpl. by rewrite insert_insert_eq. Qed.

Lemma store_flags_inv k k1 id r n : Inv k -> k_runs k !! id = Some r -> same_core k1 k ->
  Inv (store_run id (ri_set_noProgressScans n r) k1).
Proof. intros HI Hr Hk. eapply Inv_store_soft; [exact HI|exact Hr|exact Hk|apply soft_view_refl|done]. Qed.

Lemma zombie_visit_ok now : visit_ok (fun cfg r => zombie_run cfg now r) (zombie_visit now).
Proof.
  intros id r k res HI Hr. pose proof (insert_same_run _ _ _ Hr) as Hsame.
  unfold zombie_visit, zombie_run. cbv zeta.
  destruct (isTerminalState _) eqn:E1; [by rewrite Hsame|].
  destruct (_ <=? cfg_ZombieNoProgressWindow _); [split_and!; [by eapply store_flags_inv|done..]|].
  set (r2 := ri_set_noProgressScans _ r).
  destruct (ri_noProgressScans r2 <? 2); [split_and!; [by eapply store_flags_inv|done..]|].
  assert (Inv (store_run id r2 k)) as HI2 by by eapply store_flags_inv.
  assert (Hr2 : k_runs (store_run id r2 k) !! id = Some r2) by apply lookup_insert_eq.
  destruct (at_risk r2); cbn [fst snd];
    destruct (appendSyntheticStepLocked _ _ _ _ _ _ _ _) as [k1 [h|err]] eqn:Ea.
  - apply (append_store _ r2 id) in Ea.
    edestruct (forced_visit_terminal ForceAbort "zombie_sweep" "no_progress"
      "no_progress" "zombie_sweeper" RootTypeAborted now) as (F1 & F2 & F3 & F4);
      [done|simpl; tauto|exact HI2|exact Hr2|exact Ea|exact force_abort_terminal|].
    rewrite store_store in F1, F2, F3, F4. simpl in F3. rewrite insert_insert_eq in F3.
    split_and!; [exact F1|exact F2|exact F3|exact F4|done].
  - apply appendSynthetic_spec in Ea as (Hk1 & _ & Hn).
    unfold force. rewrite Hn. split_and!; [exact (store_flags_inv k k1 id r _ HI Hr Hk1)|..]; try done;
      first [apply same_core_fields in Hk1 as (? & ? & _); simpl; congruence
            |intros x; exact (steps_core k k1 x Hk1)].
  - apply (append_store _ r2 id) in Ea.
    edestruct (forced_visit_live ForceReviewRequired "zombie_sweep" "no_progress"
      "no_progress" "zombie_sweeper" RootTypeReviewHold now) as (F1 & F2 & F3 & F4);
      [done|simpl; tauto|exact HI2|exact Hr2|exact Ea|exact review_live|].
    rewrite store_store in F1, F2, F3, F4. simpl in F3. rewrite insert_insert_eq in F3.
    split_and!; [exact F1|exact F2|exact F3|exact F4|done].
  - apply appendSynthetic_spec in Ea as (Hk1 & _ & Hn).
    unfold force. rewrite Hn. split_and!; [exact (store_flags_inv k k1 id r _ HI Hr Hk1)|..]; try done;
      first [apply same_core_fields in Hk1 as (? & ? & _); simpl; congruence
            |intros x; exact (steps_core k k1 x Hk1)].
Qed.
End Visits.

(** ** The loop *)

Section Loop.
Context `{JsonMarshaler} `{UrlParser} `{MapRange}.
Context (f : Config -> runInstance -> runInstance)
        (visit : string -> runInstance -> Kernel -> SweepResult -> Kernel * SweepResult)
        (Hvisit : visit_ok f visit).

(** The effect on the run map: [f] applied to the listed runs. *)
Definition apply_to (cfg : Config) (l : list (string * runInstance))
    (m : gmap string runInstance) : gmap string runInstance :=
  foldl (fun m kv => <[kv.1 := f cfg kv.2]> m) m l.

Lemma lookup_apply_to cfg l m i : NoDup l.*1 ->
  apply_to cfg l m !! i =
    match list_to_map (M := gmap string runInstance) l !! i with
    | Some r => Some (f cfg r)
    | None => m !! i
    end.
Proof.
  intros Hnd. unfold apply_to.
  etransitivity; [|exact (foldl_upd_entry (fun _ r => Some (f cfg r)) l m i Hnd)]. done.
Qed.

Lemma sweep_loop_spec l k res :
  Inv k -> NoDup l.*1 -> (forall id r, (id, r) ∈ l -> k_runs k !! id = Some r) ->
  let n := Z.to_nat (cfg_SweepBatchLimit (k_cfg k) - sw_Scanned res) in
  let '(k', res') := sweep_loop visit l k res in
  Inv k' /\ k_cfg k' = k_cfg k /\
  k_runs k' = apply_to (k_cfg k) (take n l) (k_runs k) /\
  (forall x, StepIntegrities k x `prefix_of` StepIntegrities k' x) /\
  sw_Scanned res' = sw_Scanned res + Z.of_nat (Nat.min n (length l)).
Proof.
  revert k res. induction l as [|[id r] l IH]; intros k res HI Hnd Hl; cbn [sweep_loop]; cbv zeta.
  { rewrite take_nil, Nat.min_0_r. split_and!; [done|done|done|done|simpl; lia]. }
  destruct (_ <=? _) eqn:Elim; bool_hyps.
  { replace (Z.to_nat _) with 0%nat by lia. split_and!; [done|done|done|done|simpl; lia]. }
  simpl in Hnd. apply NoDup_cons in Hnd as [Hid Hnd].
  pose proof (Hvisit id r k (incr sw_set_Scanned sw_Scanned res) HI (Hl id r ltac:(by left))) as Hv.
  destruct (visit id r k _) as [k1 res1]. destruct Hv as (HI1 & Hc1 & Hr1 & Hp1 & Hs1).
  specialize (IH k1 res1 HI1 Hnd). cbv zeta in IH.
  destruct (sweep_loop visit l k1 res1) as [k2 res2].
  destruct IH as (HI2 & Hc2 & Hr2 & Hp2 & Hs2).
  { intros id' r' Hin. rewrite Hr1, lookup_insert_ne; [apply Hl; by right|].
    intros ->. apply Hid. apply list_elem_of_fmap. by exists (id', r'). }
  rewrite Hc1, Hs1 in *. change (sw_Scanned (incr _ _ _)) with (sw_Scanned res + 1) in *.
  replace (Z.to_nat (cfg_SweepBatchLimit (k_cfg k) - sw_Scanned res))
    with (S (Z.to_nat (cfg_SweepBatchLimit (k_cfg k) - (sw_Scanned res + 1)))) by lia.
  split_and!; [done|done|by rewrite Hr2, Hr1| |simpl length; lia].
  intros x. etransitivity; [apply Hp1|apply Hp2].
Qed.

Lemma sortedRuns_perm m : sortedRuns m ≡ₚ map_to_list m.
Proof. apply merge_sort_Permutation. Qed.

Lemma sortedRuns_elem m id r : (id, r) ∈ sortedRuns m <-> m !! id = Some r.
Proof. rewrite sortedRuns_perm. apply elem_of_map_to_list. Qed.

Lemma sortedRuns_nodup m : NoDup (sortedRuns m).*1.
Proof. rewrite sortedRuns_perm. apply NoDup_fst_map_to_list. Qed.

(** From the beginning: the first [SweepBatchLimit] runs. *)
Lemma sweep_spec k :
  Inv k ->
  let n := Z.to_nat (cfg_SweepBatchLimit (k_cfg k)) in
  let '(k', res) := sweep_loop visit (sortedRuns (k_runs k)) k empty_SweepResult in
  Inv k' /\ k_cfg k' = k_cfg k /\
  k_runs k' = apply_to (k_cfg k) (take n (sortedRuns (k_runs k))) (k_runs k) /\
  (forall x, StepIntegrities k x `prefix_of` StepIntegrities k' x) /\
  sw_Scanned res = Z.of_nat (Nat.min n (size (k_runs k))).
Proof.
  intros HI. pose proof (sweep_loop_spec (sortedRuns (k_runs k)) k empty_SweepResult HI
    (sortedRuns_nodup _) (fun id r => proj1 (sortedRuns_elem _ id r))) as Hs.
  cbv zeta in *. destruct (sweep_loop _ _ _ _) as [k' res].
  change (sw_Scanned empty_SweepResult) with 0 in Hs. rewrite Z.sub_0_r in Hs.
  destruct Hs as (? & ? & ? & ? & ->). split_and!; [done..|].
  by rewrite (Permutation_length (sortedRuns_perm _)), length_map_to_list.
Qed.
End Loop.

(** * What maintenance deletes

    The loop over the run map drops exactly the terminal runs past their
    retention, with their chains and every cache entry that refers to them,
    whatever order the map is visited in. *)

Section Retention.
Context `{JsonMarshaler} `{UrlParser} `{MapRange}.

Definition dead_in (cfg : Config) (now : time) (m : gmap string runInstance) (id : string) : bool :=
  match m !! id with Some r => run_expired cfg now r | None => false end.

(** Keep the entries whose run is not dropped. *)
Definition keep_alive {V} (dead : string -> bool) (run_of : V -> string) (v : V) : option V :=
  if dead (run_of v) then None else Some v.

(** The state after dropping the runs marked [dead]. *)
Record dropped (dead : string -> bool) (k k' : Kernel) : Prop := {
  dp_core : k_cfg k' = k_cfg k /\ k_runSeq k' = k_runSeq k /\ k_outbox k' = k_outbox k;
  dp_runs : forall i, k_runs k' !! i = if dead i then None else k_runs k !! i;
  dp_steps : forall i, k_stepIntegrity k' !! i = if dead i then None else k_stepIntegrity k !! i;
  dp_conts : forall t, k_continuations k' !! t = k_continuations k !! t ≫= keep_alive dead ct_RunID;
  dp_idem : forall t, k_idempotency k' !! t = k_idempotency k !! t ≫= keep_alive dead ie_RunID;
  dp_create : forall t, k_createRuns k' !! t = k_createRuns k !! t ≫= keep_alive dead ce_RunID
}.

Lemma dropped_none k : dropped (fun _ => false) k k.
Proof. split; try done; intros t; by destruct (_ !! t). Qed.

Lemma keep_alive_one {V} (run_of : V -> string) id (o : option V) :
  o ≫= keep_unless run_of id = o ≫= keep_alive (fun x => (x =? id)%string) run_of.
Proof. by destruct o. Qed.

Lemma keep_alive_or {V} (run_of : V -> string) d d' (o : option V) :
  (o ≫= keep_alive d run_of) ≫= keep_alive d' run_of =
  o ≫= keep_alive (fun x => d x || d' x) run_of.
Proof. destruct o as [v|]; [|done]. unfold keep_alive; simpl. by destruct (d _). Qed.

Lemma dropped_trans d d' k1 k2 k3 :
  dropped d k1 k2 -> dropped d' k2 k3 -> dropped (fun x => d x || d' x) k1 k3.
Proof.
  intros [(A1 & A2 & A3) A4 A5 A6 A7 A8] [(B1 & B2 & B3) B4 B5 B6 B7 B8].
  split; [split_and!; congruence|..]; intros i;
    rewrite ?B4, ?B5, ?B6, ?B7, ?B8, ?A4, ?A5, ?A6, ?A7, ?A8, ?keep_alive_or; try done;
    by destruct (d i), (d' i).
Qed.

Lemma dropped_ext d d' k k' : (forall x, d x = d' x) -> dropped d k k' -> dropped d' k k'.
Proof.
  intros E [A B C D F G].
  assert (forall V (f : V -> string) v, keep_alive d f v = keep_alive d' f v) as Ek
    by (intros; unfold keep_alive; by rewrite E).
  split; [done|..]; intros i; rewrite ?B, ?C, ?D, ?F, ?G, ?E; try done;
    destruct (_ !! i); simpl; auto.
Qed.

Lemma delete_run_dropped id k : dropped (fun x => (x =? id)%string) k (delete_run id k).
Proof.
  destruct (delete_run_spec id k) as (E1 & E2 & E3 & E4 & E5 & E6 & E7 & E8).
  split; [done|..]; intros t; rewrite ?E4, ?E5, ?E6, ?E7, ?E8, ?keep_alive_one; try done;
    rewrite lookup_delete; destruct (t =? id)%string eqn:E; bool_hyps;
    (by rewrite decide_True by congruence) || (by rewrite decide_False by congruence).
Qed.

Lemma terminal_fold cfg now (l : list (string * runInstance)) s :
  NoDup l.*1 -> k_cfg (fst s) = cfg ->
  dropped (dead_in cfg now (list_to_map l)) (fst s)
    (fst (foldl (fun s kv => terminal_run_body now s kv.1 kv.2) s l)).
Proof.
  revert s. induction l as [|[id r] l IH]; intros s Hnd Hcfg; cbn [foldl fst snd].
  { eapply dropped_ext; [|apply dropped_none]. done. }
  simpl in Hnd. apply NoDup_cons in Hnd as [Hid Hnd].
  apply not_elem_of_list_to_map_1 in Hid.
  assert (forall x, dead_in cfg now (list_to_map ((id, r) :: l)) x =
    ((x =? id)%string && run_expired cfg now r) || dead_in cfg now (list_to_map l) x) as Hdead.
  { intros x. unfold dead_in; simpl. rewrite lookup_insert.
    destruct (x =? id)%string eqn:E; bool_hyps.
    - subst. rewrite decide_True, Hid by done. by destruct (run_expired _ _ _).
    - by rewrite decide_False by congruence. }
  eapply dropped_ext; [intros x; symmetry; apply Hdead|].
  unfold terminal_run_body at 2. rewrite Hcfg. destruct (run_expired cfg now r) eqn:Er.
  - eapply dropped_trans; [|apply IH; [done|]].
    + eapply dropped_ext; [|apply delete_run_dropped]. intros x. by rewrite andb_true_r.
    + rewrite <- Hcfg. apply (delete_run_spec id (fst s)).
  - eapply dropped_ext; [|by apply IH]. intros x. by rewrite andb_false_r.
Qed.

(** Which runs a pass drops. *)
Definition retired (now : time) (k : Kernel) (id : string) : bool :=
  (0 <? cfg_RunRetention (k_cfg k)) && dead_in (k_cfg k) now (k_runs k) id.

Lemma cleanupTerminalRuns_spec now k :
  dropped (retired now k) k (fst (cleanupTerminalRunsLocked now k)).
Proof.
  unfold cleanupTerminalRunsLocked, retired.
  rewrite Z.ltb_antisym. destruct (_ <=? 0).
  { apply dropped_none. }
  unfold go_range. eapply dropped_ext;
    [|apply (terminal_fold (k_cfg k) now _ (k, 0)); [apply range_map_nodup|done]].
  intros x. by rewrite list_to_map_range.
Qed.

(** The whole pass, on the runs. *)
Lemma applyMaintenance_runs now k res :
  let k' := fst (applyMaintenanceLocked now k res) in
  (forall i, k_runs k' !! i = if retired now k i then None else k_runs k !! i) /\
  (forall i, k_stepIntegrity k' !! i = if retired now k i then None else k_stepIntegrity k !! i).
Proof.
  cbv zeta. rewrite applyMaintenance_eq. cbv zeta.
  set (k2 := fst (cleanupIdempotencyLocked _ _)).
  destruct (same_core_fields _ _ (cleanupOutbox_core (fst (cleanupCreateRunsLocked now
    (fst (cleanupTerminalRunsLocked now k2)))) now)) as (_ & -> & _ & _ & _ & -> & _).
  rewrite cleanupCreateRuns_eq; simpl.
  assert (k_runs k2 = k_runs k /\ k_stepIntegrity k2 = k_stepIntegrity k /\ k_cfg k2 = k_cfg k)
    as (E1 & E2 & E3).
  { unfold k2. rewrite cleanupIdempotency_eq, cleanupContinuations_eq. done. }
  destruct (cleanupTerminalRuns_spec now k2) as [_ D1 D2 _ _ _].
  unfold retired in *. rewrite E1, E2, E3 in *. by split.
Qed.
End Retention.
