(* ===== verification/RunEffect.v ===== *)
(** * What one operation does to the runs

    [abs_step] is the abstract state machine of a run: the transition table,
    plus the moves the kernel makes outside it (a rejected advance holds the
    run; a sweep or an abort forces it).  [evolve] relates a run's view before
    and after an operation, and [frame] two kernels: every run evolves or, once
    terminal, is dropped; step chains only grow; new runs start fresh. *)

From S2P Require Import Prelude GoStrings Sha256 GoTime GoJson RunTypes RunStates RunOutbox RunKernel RunSweeps RunInvariant RunOps RunAdvance RunMaint.

(** ** The abstract machine *)

Inductive abs_step : run_state -> run_state -> Prop :=
| as_stay q : abs_step q q
| as_edge q q' : edge q q' -> abs_step q q'
| as_hold q : ~ terminal q -> ~ waiting q -> abs_step q SafeguardHold
| as_force q q' : ~ terminal q -> q' ∈ [ForceAbort; ForceReviewRequired; Aborted] -> abs_step q q'.

Lemma edge_live q q' : edge q q' -> ~ terminal q.
Proof.
  intros [s ?|s ?|w s Hw ?|s ?]; try decide_state.
  repeat (apply elem_of_cons in Hw as [->|Hw]); try (by apply not_elem_of_nil in Hw); decide_state.
Qed.

Lemma abs_step_terminal q q' : terminal q -> abs_step q q' -> q' = q.
Proof.
  intros Ht Hs. destruct Hs as [|q q' He%edge_live|q Hl Hw|q q' Hl Hin]; [done|by destruct He|by destruct Hl|by destruct Hl].
Qed.

Lemma edge_quarantined q q' : quarantined q -> edge q q' -> quarantined q'.
Proof.
  intros Hq He. assert (isAllowedTransition (state_name q) (state_name q') = true) as Ha.
  { apply isAllowedTransition_name. by right. }
  clear He. destruct q; try (exfalso; revert Hq; decide_state);
    destruct q'; try decide_state; by vm_compute in Ha.
Qed.

Lemma forced_quarantined q : q ∈ [ForceAbort; ForceReviewRequired; Aborted] -> quarantined q.
Proof. destruct q; intros Hq; try decide_state; exfalso; revert Hq; decide_state. Qed.

Lemma abs_step_quarantined q q' : quarantined q -> abs_step q q' -> quarantined q'.
Proof.
  intros Hq Hs. destruct Hs as [|q q' He|q Hl Hw|q q' Hl Hin]; [done|..|decide_state|].
  - by eapply edge_quarantined.
  - by apply forced_quarantined.
Qed.

(** ** One run *)

(** The fields fixed when the run is created. *)
Definition identity_of (v : RunView) :=
  (rv_RunID v, rv_TenantID v, rv_WorkflowID v, rv_WorkflowVersion v, rv_RiskTier v,
   rv_IntegrityChainVersion v, rv_CreatedAt v, rv_Snapshot v).

Definition state_step (s s' : string) : Prop :=
  exists q q', s = state_name q /\ s' = state_name q' /\ abs_step q q'.

(** No committed step: chain head, sequence number and version stay. *)
Definition idle (v v' : RunView) : Prop :=
  rv_LastStepHash v' = rv_LastStepHash v /\ rv_CurrentStepSeqID v' = rv_CurrentStepSeqID v /\
  rv_StateVersion v' = rv_StateVersion v.

(** One committed step. *)
Definition commit (v v' : RunView) : Prop :=
  isTerminalState (rv_State v) = false /\
  rv_StateVersion v' = wrap_int64 (rv_StateVersion v + 1) /\
  (rv_CurrentStepSeqID v < rv_CurrentStepSeqID v' \/
   rv_CurrentStepSeqID v' = wrap_int64 (rv_CurrentStepSeqID v + 1)).

Record evolve (v v' : RunView) : Prop := {
  el_identity : identity_of v' = identity_of v;
  el_state : state_step (rv_State v) (rv_State v');
  el_progress : idle v v' \/ commit v v';
  el_terminal : isTerminalState (rv_State v) = true -> v' = v
}.

Lemma evolve_refl v : (exists q, rv_State v = state_name q) -> evolve v v.
Proof.
  intros [q Hq]. split; [done|exists q, q; split_and!; try done; by constructor|by left|done].
Qed.

(** ** The kernel *)

Definition fresh_view (v : RunView) : Prop :=
  rv_State v = StateRunning /\ rv_StateVersion v = 1 /\ rv_CurrentStepSeqID v = 0 /\
  rv_LastStepHash v = "".

Record frame (k k' : Kernel) : Prop := {
  fr_old : forall id r, k_runs k !! id = Some r ->
    exists r', evolve (ri_view r) (ri_view r') /\
      (k_runs k' !! id = Some r' /\ StepIntegrities k id `prefix_of` StepIntegrities k' id
       \/ k_runs k' !! id = None /\ isTerminalState (rv_State (ri_view r')) = true);
  fr_new : forall id r', k_runs k' !! id = Some r' -> k_runs k !! id = None ->
    fresh_view (ri_view r') /\ ~ issued (k_runSeq k) id
}.

Section Frames.
Context `{JsonMarshaler} `{UrlParser} `{MapRange}.

Lemma run_state_named k id r : Inv k -> k_runs k !! id = Some r ->
  exists q, rv_State (ri_view r) = state_name q.
Proof. intros HI Hr. apply (Inv_run _ _ _ HI Hr). Qed.

Lemma frame_ext k k' : Inv k -> k_runs k' = k_runs k -> k_stepIntegrity k' = k_stepIntegrity k ->
  frame k k'.
Proof.
  intros HI E1 E2. split; rewrite E1.
  - intros id r Hr. exists r. split; [by eapply evolve_refl, run_state_named|left].
    unfold StepIntegrities. by rewrite E2.
  - intros id r' Hr'. congruence.
Qed.

Lemma frame_core k k' : Inv k -> same_core k' k -> frame k k'.
Proof. intros HI Hk. apply same_core_fields in Hk. apply frame_ext; intuition. Qed.

Lemma frame_core_r k k1 k2 : frame k k1 -> same_core k2 k1 -> frame k k2.
Proof.
  intros [A B] (_ & E1 & _ & _ & _ & E2 & _)%same_core_fields.
  split; unfold StepIntegrities in *; rewrite ?E1, ?E2; done.
Qed.

(** Storing an evolved run. *)
Lemma frame_store k k1 id r r' :
  Inv k -> k_runs k !! id = Some r -> evolve (ri_view r) (ri_view r') -> k_runs k1 = k_runs k ->
  (forall x, StepIntegrities k x `prefix_of` StepIntegrities k1 x) -> frame k (store_run id r' k1).
Proof.
  intros HI Hr He E1 Hp. split; simpl; rewrite E1.
  - intros x rx Hx. destruct (decide (x = id)) as [->|Hne].
    + simplify_eq. exists r'. split; [done|left]. rewrite lookup_insert_eq. split; [done|apply Hp].
    + exists rx. split; [by eapply evolve_refl, run_state_named|left].
      rewrite lookup_insert_ne by done. split; [done|apply Hp].
  - intros x rx. destruct (decide (x = id)) as [->|Hne]; [congruence|].
    rewrite lookup_insert_ne by done. congruence.
Qed.

(** ** Views *)

Lemma hold_evolve r r1 now : tags_only r r1 -> (exists q, rv_State (ri_view r) = state_name q) ->
  isTerminalState (rv_State (ri_view r)) = false ->
  EqualFold (rv_State (ri_view r)) StateParked || EqualFold (rv_State (ri_view r)) StateAwaitingApproval = false ->
  evolve (ri_view r) (ri_view (safeguard_hold now r1)).
Proof.
  intros [t ->] [q Hq] Ht Hw. split.
  - unfold safeguard_hold, on_view, identity_of. view_simpl. done.
  - exists q, SafeguardHold. split_and!; [done|unfold safeguard_hold, on_view; by view_simpl|].
    apply as_hold; rewrite Hq in *; [by apply terminal_of_name|].
    clear -Hw. destruct q; try decide_state; by vm_compute in Hw.
  - left. unfold idle, safeguard_hold, on_view. by view_simpl.
  - congruence.
Qed.

Lemma tags_evolve r r1 : tags_only r r1 -> (exists q, rv_State (ri_view r) = state_name q) ->
  isTerminalState (rv_State (ri_view r)) = false -> evolve (ri_view r) (ri_view r1).
Proof.
  intros [t ->] [q Hq] Hnt. split; [done| |by left|congruence].
  exists q, q. split_and!; [done|done|constructor].
Qed.
End Frames.

(** ** AdvanceRun *)

Section AdvanceFrame.
Context `{JsonMarshaler} `{UrlParser} `{MapRange}.

Lemma identity_of_fields v' v :
  rv_RunID v' = rv_RunID v -> rv_TenantID v' = rv_TenantID v ->
  rv_WorkflowID v' = rv_WorkflowID v -> rv_WorkflowVersion v' = rv_WorkflowVersion v ->
  rv_RiskTier v' = rv_RiskTier v -> rv_IntegrityChainVersion v' = rv_IntegrityChainVersion v ->
  rv_CreatedAt v' = rv_CreatedAt v -> rv_Snapshot v' = rv_Snapshot v -> identity_of v' = identity_of v.
Proof. unfold identity_of. congruence. Qed.

Lemma advanced_identity req h now v : identity_of (advanced_view req h now v) = identity_of v.
Proof. apply identity_of_fields; unfold advanced_view; case_match; by view_simpl. Qed.

Lemma tags_only_fields r r1 : tags_only r r1 ->
  identity_of (ri_view r1) = identity_of (ri_view r) /\
  rv_State (ri_view r1) = rv_State (ri_view r) /\
  rv_LastStepHash (ri_view r1) = rv_LastStepHash (ri_view r) /\
  rv_CurrentStepSeqID (ri_view r1) = rv_CurrentStepSeqID (ri_view r) /\
  rv_StateVersion (ri_view r1) = rv_StateVersion (ri_view r).
Proof. by intros [t ->]. Qed.

Lemma advance_apply_evolve id req ref r0 r h now k k' r' resp q :
  tags_only r0 r -> rv_State (ri_view r0) = state_name q -> ~ terminal q ->
  rv_CurrentStepSeqID (ri_view r0) < ar_IncomingStepSeqID req ->
  isValidState (next_state req) = true ->
  isAllowedTransition (rv_State (ri_view r)) (next_state req) = true ->
  advance_apply id req ref r h now k = (k', r', resp) ->
  evolve (ri_view r0) (ri_view r') /\ k_runs k' = k_runs k /\
  (forall x, StepIntegrities k x `prefix_of` StepIntegrities k' x).
Proof.
  intros Ht Hq Hlive Hseq Hv Ha E.
  destruct (tags_only_fields _ _ Ht) as (T1 & T2 & T3 & T4 & T5).
  destruct (advanced_view_fields req h now (ri_view r)) as (_ & _ & _ & _ & F5 & F6 & F7 & _).
  pose proof (advanced_identity req h now (ri_view r)) as Hid.
  apply next_state_valid in Hv as [q' Hq'].
  unfold advance_apply in E. set (v' := advanced_view _ _ _ _) in *.
  set (k1 := emit _ _ _ _ _ _) in *. set (s := normal_step _ _ _ _ _) in *.
  assert (same_core k1 (append_integrity id s k)) as Hk1 by apply emit_core.
  apply same_core_fields in Hk1 as (_ & C2 & _ & _ & _ & C6 & _).
  set (k2 := k_set_idempotency _ k1) in *.
  destruct (cleanup_caches_spec id k2) as (_ & D1 & D2 & _).
  pair_inv E. split_and!.
  - split; [by rewrite <- T1|..].
    + exists q, q'. split_and!; [done|by rewrite <- Hq'|].
      rewrite T2, Hq, Hq' in Ha. apply isAllowedTransition_name in Ha as [->|Ha]; by constructor.
    + right. unfold commit. rewrite Hq. split_and!; [by apply terminal_of_name|..];
        cbn [ri_view ri_set_view ri_set_noProgressScans]; [by rewrite F6, T5|].
      left. by rewrite F7.
    + rewrite Hq, (proj2 (terminal_of_name q)) by done. done.
  - by case_match; [rewrite D1|].
  - intros x. assert (k_stepIntegrity (if isTerminalState (next_state req)
      then cleanupRunScopedCachesLocked id k2 else k2) = k_stepIntegrity (append_integrity id s k))
      as Es by (case_match; [rewrite D2|]; done).
    unfold StepIntegrities at 2. rewrite Es. apply steps_append.
Qed.

Lemma advance_fresh_frame port id req r now k k' r' res :
  Inv k -> k_runs k !! id = Some r -> isTerminalState (rv_State (ri_view r)) = false ->
  EqualFold (rv_State (ri_view r)) StateParked || EqualFold (rv_State (ri_view r)) StateAwaitingApproval = false ->
  advance_fresh port id req r now k = (k', r', res) -> frame k (store_run id r' k').
Proof.
  intros HI Hr Hnt Hw E. pose proof (run_state_named _ _ _ HI Hr) as Hq.
  assert (Htags : forall r1 k1, same_core k1 k -> tags_only r r1 -> frame k (store_run id r1 k1)).
  { intros r1 k1 Hk1 Ht. eapply frame_store; eauto using tags_evolve, steps_core.
    by apply same_core_fields in Hk1 as (_ & -> & _). }
  assert (Hhold : forall r1 k1, same_core k1 k -> tags_only r r1 ->
            frame k (store_run id (safeguard_hold now r1) k1)).
  { intros r1 k1 Hk1 Ht. eapply frame_store; eauto using hold_evolve, steps_core.
    by apply same_core_fields in Hk1 as (_ & -> & _). }
  unfold advance_fresh, reject_gate in E. cbv zeta in E.
  destruct (negb (ar_ExpectedStateVersion _ =? _)); [pair_inv E; auto using tags_only_refl|].
  destruct (ar_IncomingStepSeqID req <=? _) eqn:Eseq;
    [pair_inv E; apply Hhold; [apply emitProgress_core|apply tags_only_refl]|]. bool_hyps.
  destruct (blank _ || _); [pair_inv E; auto using tags_only_refl|].
  destruct (decision_gate _ _ _) as [[p ref]|g];
    [|pair_inv E; apply Hhold; [apply emit_core|apply tags_only_refl]].
  destruct (receipt_gate _ _ _ _); [pair_inv E; apply Hhold; [apply emit_core|apply tags_only_refl]|].
  destruct (enforceDecisionObligationsLocked _ _ _ _ _) as [[k1 r1] [err|]] eqn:Ee;
    apply enforce_frame in Ee as [Hk1 Hr1]; [pair_inv E; auto|].
  unfold advance_commit in E. cbv zeta in E.
  destruct (negb (isValidState _)) eqn:Ev; [pair_inv E; auto|].
  destruct (negb (isAllowedTransition _ _)) eqn:Et; [pair_inv E; auto|].
  destruct (blank _ || _); [pair_inv E; auto|]. bool_hyps.
  destruct (hash_checked _) as [h|] eqn:Eh; [|pair_inv E; apply Hhold; [by rewrite emit_core|done]].
  destruct (advance_apply _ _ _ _ _ _ _) as [[k2 r2] resp] eqn:Ea. pair_inv E.
  destruct Hq as [q Hq]. eapply advance_apply_evolve in Ea as (A1 & A2 & A3); eauto.
  - apply same_core_fields in Hk1 as Hf. destruct Hf as (_ & E2 & _).
    eapply frame_store; eauto; [by rewrite A2|]. intros x.
    etransitivity; [by apply steps_core|apply A3].
  - rewrite Hq in Hnt. by apply terminal_of_name.
Qed.

Lemma AdvanceRun_frame port id req now k : Inv k -> frame k (fst (AdvanceRun port id req now k)).
Proof.
  intros HI. unfold AdvanceRun. cbv zeta.
  destruct (getRunLocked k id) as [r|e] eqn:Hr; [apply getRun_Ok in Hr|by apply frame_ext].
  destruct (isTerminalState _) eqn:Hnt; [by apply frame_ext|].
  destruct (EqualFold _ _ || _) eqn:Hw; [by apply frame_ext|].
  destruct (_ || blank _); [by apply frame_ext|].
  destruct (k_idempotency k !! _) as [c|] eqn:Hc; [by apply frame_ext|].
  destruct (advance_fresh _ _ _ _ _ _) as [[k1 r1] res] eqn:Ef.
  by eapply advance_fresh_frame.
Qed.
End AdvanceFrame.

(** ** Synthetic steps *)

Section SyntheticFrame.
Context `{JsonMarshaler} `{UrlParser} `{MapRange}.

Lemma step_evolve q q' seq h v v' :
  step_view q' seq h v v' -> identity_of v' = identity_of v -> rv_State v = state_name q ->
  ~ terminal q -> abs_step q q' ->
  (rv_CurrentStepSeqID v < seq \/ seq = wrap_int64 (rv_CurrentStepSeqID v + 1)) -> evolve v v'.
Proof.
  intros Hv Hid Hq Hlive Ha Hseq. pose proof (sv_state _ _ _ _ _ Hv).
  assert (isTerminalState (state_name q) = false) as Hnt by by apply terminal_of_name.
  split; [done|by exists q, q'|right|congruence].
  unfold commit. rewrite Hq, (sv_seq _ _ _ _ _ Hv), (sv_version _ _ _ _ _ Hv).
  split_and!; [by apply terminal_of_name|done|done].
Qed.

Ltac identity_tac := apply identity_of_fields; by view_simpl.

Lemma parked_identity req s h now v : identity_of (parked_view req s h now v) = identity_of v.
Proof. unfold parked_view. identity_tac. Qed.
Lemma resumed_identity req c h now v : identity_of (resumed_view req c h now v) = identity_of v.
Proof. unfold resumed_view. identity_tac. Qed.
Lemma aborted_identity req n h now v : identity_of (aborted_view req n h now v) = identity_of v.
Proof. unfold aborted_view. identity_tac. Qed.
Lemma forced_identity s ty a b n h now v : identity_of (forced_view s ty a b n h now v) = identity_of v.
Proof. unfold forced_view. identity_tac. Qed.

Lemma named_live k id r : Inv k -> k_runs k !! id = Some r ->
  isTerminalState (rv_State (ri_view r)) = false ->
  exists q, rv_State (ri_view r) = state_name q /\ ~ terminal q.
Proof.
  intros HI Hr Hnt. destruct (run_state_named _ _ _ HI Hr) as [q Hq]. exists q. split; [done|].
  rewrite Hq in Hnt. by apply terminal_of_name.
Qed.

Lemma frame_store_same k k1 id r : Inv k -> k_runs k !! id = Some r -> same_core k1 k ->
  frame k (store_run id r k1).
Proof.
  intros HI Hr Hk. eapply frame_store; eauto using steps_core.
  - by eapply evolve_refl, run_state_named.
  - by apply same_core_fields in Hk as (_ & -> & _).
Qed.

Lemma park_commit_frame id req r now k k' r' res :
  Inv k -> k_runs k !! id = Some r -> isTerminalState (rv_State (ri_view r)) = false ->
  rv_CurrentStepSeqID (ri_view r) < pr_IncomingStepSeqID req ->
  isAllowedTransition (rv_State (ri_view r)) (state_name (park_state req)) = true ->
  park_commit id req (state_name (park_state req)) r now k = (k', r', res) ->
  frame k (store_run id r' k').
Proof.
  intros HI Hr Hnt Hseq Ha E. destruct (named_live _ _ _ HI Hr Hnt) as (q & Hq & Hlive).
  unfold park_commit in E. cbv zeta in E.
  destruct (hash_checked (token_hash_input _ _ _ _ _)) as [th|];
    [|pair_inv E; by apply frame_store_same].
  destruct (hash_checked (GStr _)) as [tref|]; [|pair_inv E; by apply frame_store_same].
  destruct (appendSyntheticStepLocked _ _ _ _ _ _ _ _) as [k1 [h|err]] eqn:Ea.
  2:{ apply appendSynthetic_spec in Ea as (Hk1 & _). pair_inv E. by apply frame_store_same. }
  assert (forall x, StepIntegrities k x `prefix_of` StepIntegrities k1 x /\ k_runs k1 = k_runs k /\
            k_cfg k1 = k_cfg k) as Hk1 by (intros x; by eapply steps_synthetic).
  set (v' := parked_view _ _ _ _ _) in *. pair_inv E.
  match goal with |- frame _ (store_run _ _ (emit ?a ?b ?c ?d ?e ?k0)) =>
    eapply frame_core_r; [|by rewrite (emit_core a b c d e k0)] end.
  eapply frame_store; [done|done| |apply (Hk1 id)|apply Hk1].
  eapply step_evolve; [apply parked_step|apply parked_identity|done|done| |by left].
  rewrite Hq in Ha. apply isAllowedTransition_name in Ha as [->|Ha]; by constructor.
Qed.

Lemma ParkRun_frame id req now k : Inv k -> frame k (fst (ParkRun id req now k)).
Proof.
  intros HI. unfold ParkRun. cbv zeta.
  destruct (getRunLocked k id) as [r|e] eqn:Hr; [apply getRun_Ok in Hr|by apply frame_ext].
  destruct (isTerminalState _) eqn:Hnt; [by apply frame_ext|].
  destruct (negb (_ =? rv_StateVersion _)); [by apply frame_ext|].
  destruct (pr_IncomingStepSeqID req <=? _) eqn:Hseq;
    [apply frame_core; [done|apply emitProgress_core]|]. bool_hyps.
  destruct (negb (isValidTokenType _)); [by apply frame_ext|].
  destruct (blank _); [by apply frame_ext|].
  rewrite park_state_name. destruct (negb _) eqn:Ha; [by apply frame_ext|]. bool_hyps.
  destruct (park_commit _ _ _ _ _ _) as [[k1 r1] res] eqn:Ep. by eapply park_commit_frame.
Qed.

Lemma resume_commit_frame id req c r now k :
  Inv k -> k_runs k !! id = Some r ->
  rv_CurrentStepSeqID (ri_view r) < rr_IncomingStepSeqID req ->
  (exists q, rv_State (ri_view r) = state_name q /\ waiting q) ->
  frame k (fst (resume_commit id req c r now k)).
Proof.
  intros HI Hr Hseq (q & Hq & Hw). unfold resume_commit.
  destruct (appendSyntheticStepLocked _ _ _ _ _ _ _ _) as [k1 [h|err]] eqn:Ea; simpl fst.
  2:{ apply appendSynthetic_spec in Ea as (Hk1 & _). by apply frame_core. }
  eapply frame_core_r; [|apply emit_core].
  assert (forall x, StepIntegrities k x `prefix_of` StepIntegrities k1 x /\ k_runs k1 = k_runs k /\
            k_cfg k1 = k_cfg k) as Hk1 by (intros x; by eapply steps_synthetic).
  set (v' := resumed_view _ _ _ _ _).
  assert (frame k (store_run id (r |> ri_set_view v' |> ri_set_noProgressScans 0) k1)) as Hf.
  { eapply frame_store; [done|done| |apply (Hk1 id)|apply Hk1].
    assert (edge q Running) as He by (apply edge_waiting; [done|decide_state]).
    eapply step_evolve; [apply resumed_step|apply resumed_identity|done| | |by left].
    - by eapply edge_live.
    - by constructor. }
  destruct Hf as [A B]. by split.
Qed.

Lemma ResumeRun_frame id req now k : Inv k -> frame k (fst (ResumeRun id req now k)).
Proof.
  intros HI. unfold ResumeRun. cbv zeta.
  destruct (getRunLocked k id) as [r|e] eqn:Hr; [apply getRun_Ok in Hr|by apply frame_ext].
  destruct (blank _); [by apply frame_ext|].
  destruct (k_continuations k !! _) as [c|] eqn:Hc; [|by apply frame_ext].
  destruct (negb (ct_RunID c =? id)%string) eqn:Hid; [by apply frame_ext|].
  destruct (ct_Status c =? "consumed")%string; [by apply frame_ext|].
  destruct (After _ _); [by apply frame_ext|].
  destruct (negb (blank _) && _); [by apply frame_ext|].
  destruct (rr_IncomingStepSeqID req <=? _) eqn:Hseq;
    [apply frame_core; [done|apply emitProgress_core]|].
  destruct (negb (_ =? _)); [by apply frame_ext|].
  destruct (negb _ && negb _) eqn:Hw; [by apply frame_ext|].
  destruct (negb (tokenTypeMatchesRunState _ _)); [by apply frame_ext|].
  apply Z.leb_gt in Hseq. apply resume_commit_frame; try done.
  apply andb_false_iff in Hw as [Hw|Hw]; bool_hyps;
    [exists Parked|exists AwaitingApproval]; (split; [done|decide_state]).
Qed.

Lemma AbortRun_frame id req now k : Inv k -> frame k (fst (AbortRun id req now k)).
Proof.
  intros HI. unfold AbortRun. cbv zeta.
  destruct (getRunLocked k id) as [r|e] eqn:Hr; [apply getRun_Ok in Hr|by apply frame_ext].
  destruct (isTerminalState _) eqn:Hnt; [by apply frame_ext|].
  destruct (named_live _ _ _ HI Hr Hnt) as (q & Hq & Hlive).
  destruct (appendSyntheticStepLocked _ _ _ _ _ _ _ _) as [k1 [h|err]] eqn:Ea; simpl fst.
  2:{ apply appendSynthetic_spec in Ea as (Hk1 & _). by apply frame_core. }
  eapply frame_core_r; [|apply emit_core].
  assert (forall x, StepIntegrities k x `prefix_of` StepIntegrities k1 x /\ k_runs k1 = k_runs k /\
            k_cfg k1 = k_cfg k) as Hk1 by (intros x; by eapply steps_synthetic).
  set (v' := aborted_view _ _ _ _ _).
  assert (frame k (store_run id (ri_set_view v' r) k1)) as Hf.
  { eapply frame_store; [done|done| |apply (Hk1 id)|apply Hk1].
    eapply step_evolve; [apply aborted_step|apply aborted_identity|done|done| |by right].
    apply as_force; [done|decide_state]. }
  destruct (cleanup_caches_spec id (store_run id (ri_set_view v' r) k1)) as (_ & E1 & E2 & _).
  destruct Hf as [A B]. split; unfold StepIntegrities in *; by rewrite ?E1, ?E2.
Qed.

Lemma FlagRunRisk_frame id s1 s2 k : Inv k -> frame k (fst (FlagRunRisk id s1 s2 k)).
Proof.
  intros HI. unfold FlagRunRisk.
  destruct (getRunLocked k id) as [r|e] eqn:Hr; [apply getRun_Ok in Hr|by apply frame_ext].
  simpl. eapply frame_store; [exact HI|exact Hr| |done|done].
  exact (evolve_refl _ (run_state_named _ _ _ HI Hr)).
Qed.
End SyntheticFrame.

(** ** Creation, maintenance, sweeps *)

Section OtherFrames.
Context `{JsonMarshaler} `{UrlParser} `{MapRange}.

(** Adding a run under a new identifier. *)
Lemma frame_insert k k' id r : Inv k -> k_runs k !! id = None -> fresh_view (ri_view r) ->
  ~ issued (k_runSeq k) id ->
  k_runs k' = <[id := r]> (k_runs k) -> k_stepIntegrity k' = k_stepIntegrity k -> frame k k'.
Proof.
  intros HI Hnone Hf Hiss E1 E2. split; rewrite E1.
  - intros x rx Hx. exists rx. split; [exact (evolve_refl _ (run_state_named _ _ _ HI Hx))|left].
    rewrite lookup_insert_ne by congruence. unfold StepIntegrities. by rewrite E2.
  - intros x rx. rewrite lookup_insert_Some. intros [[<- <-]|[_ Hx]]; [done|congruence].
Qed.

Lemma create_new_run_frame req fp now k :
  Inv k -> k_runSeq k + 1 < 2 ^ 64 -> (8 <= String.length fp)%nat ->
  frame k (fst (create_new_run req fp now k)).
Proof.
  intros HI Hseq Hfp. pose proof (run_id_fresh k fp (inv_runs _ HI) Hfp Hseq) as Hfresh.
  unfold create_new_run. cbv zeta. destruct (hash_checked _) as [sh|]; [|by apply frame_ext].
  simpl fst. set (k1 := k_set_runSeq _ k). set (runID := run_id _ _) in *.
  set (r := mk_runInstance _ _ _ _ _). set (k2 := emit _ _ _ _ _ _).
  destruct (same_core_fields k2 (store_run runID r k1)) as (_ & E1 & _ & _ & _ & E2 & _);
    [apply emit_core|].
  apply (frame_insert _ _ runID r); try done. apply run_id_unissued; try done. apply (rk_seq _ (inv_runs _ HI)).
Qed.

Lemma CreateRun_frame req now k :
  Inv k -> k_runSeq k + 1 < 2 ^ 64 -> frame k (fst (CreateRun req now k)).
Proof.
  intros HI Hseq. unfold CreateRun. cbv zeta.
  destruct (_ || _); [by apply frame_ext|]. destruct (negb _); [by apply frame_ext|].
  destruct (blank _); [by apply frame_ext|].
  destruct (hash_checked _) as [fp|] eqn:Hfp; [|by apply frame_ext]. apply hash_checked_8 in Hfp.
  destruct (k_createRuns k !! _) as [e|] eqn:He; [|by apply create_new_run_frame].
  destruct (create_entry_run _ _ _ HI He) as [r Hr].
  destruct (negb _); simpl fst.
  { eapply frame_core_r; [|apply emit_core]. by apply frame_ext. }
  rewrite Hr. simpl fst. by eapply frame_core_r; [apply (frame_ext k)|by rewrite emit_core].
Qed.

Lemma retired_expired now k id r : k_runs k !! id = Some r -> retired now k id = true ->
  isTerminalState (rv_State (ri_view r)) = true.
Proof.
  unfold retired, dead_in, run_expired. intros -> Hd. by bool_hyps.
Qed.

(** Maintenance after any framed change. *)
Lemma frame_maintenance k k1 now res :
  frame k k1 -> frame k (fst (applyMaintenanceLocked now k1 res)).
Proof.
  intros [A B]. destruct (applyMaintenance_runs now k1 res) as [E1 E2]. split.
  - intros id r Hr. destruct (A id r Hr) as (r' & He & [[Hr' Hp]|[Hn Ht]]); exists r'.
    + split; [done|]. rewrite E1. unfold StepIntegrities in *. rewrite E2.
      destruct (retired now k1 id) eqn:Ed; [right|by left].
      split; [done|by eapply retired_expired].
    + split; [done|right]. rewrite E1, Hn. by case_match.
  - intros id r'. rewrite E1. case_match; [done|]. apply B.
Qed.

Lemma force_evolve ty inp reason src rootType q now r :
  In rootType root_types -> (exists p, rv_State (ri_view r) = state_name p /\ ~ terminal p) ->
  q ∈ [ForceAbort; ForceReviewRequired; Aborted] ->
  evolve (ri_view r) (ri_view (force ty inp reason src rootType q now r)).
Proof.
  intros Hroot (p & Hp & Hlive) Hq. unfold force. cbv zeta.
  destruct (hash_checked _) as [h|]; [|apply evolve_refl; by exists p].
  eapply step_evolve; [by apply forced_step|apply forced_identity|done|done| |by right].
  by apply as_force.
Qed.

Lemma ttl_run_evolve cfg now k id r : Inv k -> k_runs k !! id = Some r ->
  evolve (ri_view r) (ri_view (ttl_run cfg now r)).
Proof.
  intros HI Hr. pose proof (evolve_refl _ (run_state_named _ _ _ HI Hr)) as Hrefl.
  unfold ttl_run. destruct (ttl_breached cfg now r) eqn:Eb; simpl; [|done].
  unfold ttl_breached in Eb. bool_hyps. pose proof (named_live k id r HI Hr) as Hl.
  case_match; (apply force_evolve; [simpl; tauto|auto|decide_state]).
Qed.

Lemma zombie_run_evolve cfg now k id r : Inv k -> k_runs k !! id = Some r ->
  evolve (ri_view r) (ri_view (zombie_run cfg now r)).
Proof.
  intros HI Hr. pose proof (evolve_refl _ (run_state_named _ _ _ HI Hr)) as Hrefl.
  unfold zombie_run. cbv zeta. destruct (isTerminalState _) eqn:Et; [done|].
  destruct (_ <=? _); [done|]. destruct (_ <? 2); [done|].
  pose proof (named_live k id r HI Hr Et) as Hl.
  set (r2 := ri_set_noProgressScans _ r). change (ri_view r) with (ri_view r2).
  case_match; (apply force_evolve; [simpl; tauto|done|decide_state]).
Qed.

Lemma sweep_frame f visit k :
  visit_ok f visit -> Inv k ->
  (forall id r, k_runs k !! id = Some r -> evolve (ri_view r) (ri_view (f (k_cfg k) r))) ->
  frame k (fst (sweep_loop visit (sortedRuns (k_runs k)) k empty_SweepResult)).
Proof.
  intros Hv HI Hf. pose proof (sweep_spec f visit Hv k HI) as Hs. cbv zeta in Hs.
  destruct (sweep_loop _ _ _ _) as [k' res]. destruct Hs as (_ & _ & Hr & Hp & _). simpl.
  set (n := Z.to_nat _) in *.
  assert (Hnd : NoDup (take n (sortedRuns (k_runs k))).*1).
  { eapply sublist_NoDup; [apply sortedRuns_nodup|]. rewrite fmap_take. apply sublist_take. }
  assert (Hin : forall id r, list_to_map (M := gmap string runInstance)
            (take n (sortedRuns (k_runs k))) !! id = Some r -> k_runs k !! id = Some r).
  { intros id r Hl. apply elem_of_list_to_map_2 in Hl. apply sortedRuns_elem.
    apply elem_of_take in Hl as (i & Hi & _). by eapply list_elem_of_lookup_2. }
  split.
  - intros id r Hid. rewrite Hr, lookup_apply_to by done.
    destruct (list_to_map _ !! id) as [r0|] eqn:El.
    + apply Hin in El as El'. simplify_eq. exists (f (k_cfg k) r). split; [by eapply Hf|left]. by split.
    + exists r. split; [exact (evolve_refl _ (run_state_named _ _ _ HI Hid))|left]. by split.
  - intros id r' Hid Hn. rewrite Hr, lookup_apply_to in Hid by done.
    destruct (list_to_map _ !! id) as [r0|] eqn:El; [|congruence].
    apply Hin in El. congruence.
Qed.

Lemma SweepTTL_frame now k : Inv k -> frame k (fst (SweepTTL now k)).
Proof.
  intros HI. unfold SweepTTL.
  pose proof (sweep_frame _ _ k (ttl_visit_ok now) HI (fun id r => ttl_run_evolve (k_cfg k) now k id r HI)) as Hf.
  destruct (sweep_loop _ _ _ _). by apply frame_maintenance.
Qed.

Lemma SweepZombie_frame now k : Inv k -> frame k (fst (SweepZombie now k)).
Proof.
  intros HI. unfold SweepZombie.
  pose proof (sweep_frame _ _ k (zombie_visit_ok now) HI (fun id r => zombie_run_evolve (k_cfg k) now k id r HI)) as Hf.
  destruct (sweep_loop _ _ _ _). by apply frame_maintenance.
Qed.

Lemma MaintenanceSweep_frame now k : Inv k -> frame k (fst (MaintenanceSweep now k)).
Proof. intros HI. by apply frame_maintenance, frame_ext. Qed.
End OtherFrames.
