(* ===== verification/RunCalls.v ===== *)
(** * Outcomes of the other calls

    [AdvanceRun] when it fails, [ResumeRun], [CreateRun] and
    [FindActiveContinuation], as equivalences with declarative conditions. *)

From S2P Require Import Prelude GoStrings Sha256 GoTime GoJson RunTypes RunStates RunOutbox RunKernel RunSweeps RunInvariant RunOps RunAdvance RunMaint RunEffect.

(** ** A failed advance *)

Section Failure.
Context `{JsonMarshaler} `{UrlParser} `{MapRange}.

(** What a failed advance leaves of the run: maybe tags, maybe a hold. *)
Definition held (now : time) (r r' : runInstance) : Prop :=
  exists r1, tags_only r r1 /\ (r' = r1 \/ r' = safeguard_hold now r1).

Lemma held_refl now r : held now r r.
Proof. exists r. split; [apply tags_only_refl|by left]. Qed.

Lemma held_view now r r' : held now r r' ->
  idle (ri_view r) (ri_view r') /\ identity_of (ri_view r') = identity_of (ri_view r) /\
  (rv_State (ri_view r') = rv_State (ri_view r) \/ rv_State (ri_view r') = StateSafeguardHold).
Proof.
  intros (r1 & [t ->] & [-> | ->]); [by split_and!; [..|left]|].
  unfold safeguard_hold, on_view, idle. split_and!; view_simpl; try done; [|by right].
  apply identity_of_fields; by view_simpl.
Qed.

Lemma advance_fresh_Err port id req r now k k' r' e :
  advance_fresh port id req r now k = (k', r', Err e) -> same_core k' k /\ held now r r'.
Proof.
  assert (Hhold : forall r1, tags_only r r1 -> held now r (safeguard_hold now r1))
    by (intros r1 Hr1; exists r1; auto).
  assert (Hkeep : forall r1, tags_only r r1 -> held now r r1) by (intros r1 Hr1; exists r1; auto).
  pose proof (tags_only_refl r) as Hrefl. intros E.
  unfold advance_fresh, reject_gate in E. cbv zeta in E.
  destruct (negb (ar_ExpectedStateVersion _ =? _)); [pair_inv E; auto|].
  destruct (ar_IncomingStepSeqID req <=? _); [pair_inv E; auto using emitProgress_core|].
  destruct (blank _ || _); [pair_inv E; auto|].
  destruct (decision_gate _ _ _) as [[p ref]|g]; [|pair_inv E; auto using emit_core].
  destruct (receipt_gate _ _ _ _); [pair_inv E; auto using emit_core|].
  destruct (enforceDecisionObligationsLocked _ _ _ _ _) as [[k1 r1] [err|]] eqn:Ee;
    apply enforce_frame in Ee as [Hk1 Hr1]; [pair_inv E; auto|].
  unfold advance_commit in E. cbv zeta in E.
  destruct (negb (isValidState _)); [pair_inv E; auto|].
  destruct (negb (isAllowedTransition _ _)); [pair_inv E; auto|].
  destruct (blank _ || _); [pair_inv E; auto|].
  destruct (hash_checked _); [|pair_inv E; rewrite emit_core; auto].
  destruct (advance_apply _ _ _ _ _ _ _) as [[k2 r2] resp]. by pair_inv E.
Qed.

Lemma AdvanceRun_Err port id req now k k' r e :
  k_runs k !! id = Some r -> AdvanceRun port id req now k = (k', Err e) ->
  exists r', held now r r' /\ k_runs k' = <[id := r']> (k_runs k) /\
    k_stepIntegrity k' = k_stepIntegrity k /\ k_continuations k' = k_continuations k /\
    k_idempotency k' = k_idempotency k /\ k_createRuns k' = k_createRuns k.
Proof.
  intros Hr. unfold AdvanceRun, getRunLocked. rewrite Hr. cbv zeta.
  assert (Hsame : forall e' k1, (k, Err e') = (k1, Err e : result KernelError AdvanceRunResponse) ->
    exists r', held now r r' /\ k_runs k1 = <[id := r']> (k_runs k) /\
    k_stepIntegrity k1 = k_stepIntegrity k /\ k_continuations k1 = k_continuations k /\
    k_idempotency k1 = k_idempotency k /\ k_createRuns k1 = k_createRuns k).
  { intros e' k1 [<- _]%pair_inv_eq. exists r. split_and!; try done; [apply held_refl|].
    by rewrite insert_id. }
  destruct (isTerminalState _); [apply Hsame|].
  destruct (EqualFold _ _ || _); [apply Hsame|].
  destruct (_ || blank _); [apply Hsame|].
  destruct (k_idempotency k !! _); [done|].
  destruct (advance_fresh _ _ _ _ _ _) as [[k1 r1] res] eqn:E. intros [<- ->]%pair_inv_eq.
  apply advance_fresh_Err in E as [Hk Hh]. apply same_core_fields in Hk as (_ & E1 & E2 & E3 & E4 & E5 & _).
  exists r1. simpl. rewrite E1. split_and!; done.
Qed.
End Failure.

(** ** Resuming *)

Section Resume.
Context `{JsonMarshaler} `{UrlParser} `{MapRange}.

(** The token can resume the run now. *)
Record resume_ok (id : string) (req : ResumeRunRequest) (now : time) (k : Kernel) (v : RunView)
    (c : Continuation) : Prop := {
  rs_token : blank (rr_ContinuationToken req) = false;
  rs_known : k_continuations k !! rr_ContinuationToken req = Some c;
  rs_run : ct_RunID c = id;
  rs_fresh : ct_Status c <> "consumed";
  rs_unexpired : now <= ct_ExpiresAt c;
  rs_snapshot : blank (rr_ExpectedSnapshotHash req) = true \/
                rr_ExpectedSnapshotHash req = rs_SnapshotHash (rv_Snapshot v);
  rs_seq : rv_CurrentStepSeqID v < rr_IncomingStepSeqID req;
  rs_same_step : ct_StepSeqID c = rv_CurrentStepSeqID v;
  rs_type : rv_State v = StateParked /\
              ToLower (TrimSpace (ct_TokenType c)) ∈ [TokenTypePark; TokenTypeCallback] \/
            rv_State v = StateAwaitingApproval /\
              ToLower (TrimSpace (ct_TokenType c)) = TokenTypeApproval
}.

Lemma token_state_iff c s :
  negb (s =? StateParked)%string && negb (s =? StateAwaitingApproval)%string = false ->
  tokenTypeMatchesRunState (ct_TokenType c) s = true <->
  s = StateParked /\ ToLower (TrimSpace (ct_TokenType c)) ∈ [TokenTypePark; TokenTypeCallback] \/
  s = StateAwaitingApproval /\ ToLower (TrimSpace (ct_TokenType c)) = TokenTypeApproval.
Proof.
  rewrite guard_false, !String.eqb_eq, list_elem_of_In. unfold tokenTypeMatchesRunState.
  set (t := ToLower _). intros [-> | ->]; cbv zeta.
  - assert (normalizeState StateParked = StateParked) as -> by apply (normalizeState_name Parked).
    destruct (t =? TokenTypeApproval)%string eqn:E; bool_hyps.
    + rewrite E. split; [done|]. intros [[_ [?|[?|[]]]]|[? _]]; done.
    + destruct (one_of t _) eqn:E1; [apply one_of_In in E1|]; [split; [by left|done]|].
      split; [done|]. intros [[_ Ht]|[? _]]; [|done]. apply one_of_In in Ht. congruence.
  - assert (normalizeState StateAwaitingApproval = StateAwaitingApproval) as ->
      by apply (normalizeState_name AwaitingApproval).
    destruct (t =? TokenTypeApproval)%string eqn:E; bool_hyps; [split; [by right|done]|].
    destruct (one_of t _); (split; [done|]); intros [[? _]|[_ ?]]; done.
Qed.

(** What the checks of [ResumeRun] amount to. *)
Lemma ResumeRun_accepts id req now k r c :
  k_runs k !! id = Some r -> resume_ok id req now k (ri_view r) c ->
  ResumeRun id req now k = resume_commit id req c r now k.
Proof.
  intros Hr [A1 A2 A3 A4 A5 A6 A7 A8 A9].
  unfold ResumeRun, getRunLocked. rewrite Hr. cbv zeta. rewrite A1, A2.
  rewrite (proj2 (String.eqb_eq _ _) A3), (proj2 (String.eqb_neq _ _) A4). cbn [negb].
  assert (After now (ct_ExpiresAt c) = false) as -> by (unfold After; lia).
  assert (negb (blank (rr_ExpectedSnapshotHash req)) && negb (rr_ExpectedSnapshotHash req =?
    rs_SnapshotHash (rv_Snapshot (ri_view r)))%string = false) as ->
    by (apply guard_false; by rewrite String.eqb_eq).
  rewrite (proj2 (Z.leb_gt _ _) A7), (proj2 (Z.eqb_eq _ _) A8). cbn [negb].
  assert (negb (rv_State (ri_view r) =? StateParked)%string
    && negb (rv_State (ri_view r) =? StateAwaitingApproval)%string = false) as Hs
    by (apply guard_false; rewrite !String.eqb_eq; tauto).
  rewrite Hs, (proj2 (token_state_iff c _ Hs) A9). done.
Qed.

Lemma ResumeRun_Ok id req now k k' resp r :
  k_runs k !! id = Some r -> ResumeRun id req now k = (k', Ok resp) ->
  exists c, resume_ok id req now k (ri_view r) c /\ resume_commit id req c r now k = (k', Ok resp).
Proof.
  intros Hr. unfold ResumeRun, getRunLocked. rewrite Hr. cbv zeta.
  destruct (blank (rr_ContinuationToken req)) eqn:E1; [done|].
  destruct (k_continuations k !! _) as [c|] eqn:E2; [|done].
  destruct (negb (ct_RunID c =? id)%string) eqn:E3; [done|].
  destruct (ct_Status c =? "consumed")%string eqn:E4; [done|].
  destruct (After _ _) eqn:E5; [done|].
  destruct (negb (blank (rr_ExpectedSnapshotHash _)) && _) eqn:E6; [done|].
  destruct (rr_IncomingStepSeqID req <=? _) eqn:E7; [done|].
  destruct (negb (ct_StepSeqID c =? _)) eqn:E8; [done|].
  destruct (negb (_ =? StateParked)%string && _) eqn:E9; [done|].
  destruct (negb (tokenTypeMatchesRunState _ _)) eqn:E10; [done|].
  intros E. exists c. split; [|done]. apply guard_false in E6. bool_hyps.
  apply (token_state_iff c _ E9) in E10. unfold After in E5. apply Z.ltb_ge in E5.
  rewrite String.eqb_eq in E6. by split.
Qed.

Lemma resume_commit_result id req c r now k :
  (exists resp, snd (resume_commit id req c r now k) = Ok resp) <->
  is_Some (hash_checked (synthetic_hash_input (rv_LastStepHash (ri_view r)) "resume"
             (rr_ResumeReason req) (rr_ReceiptRef req))).
Proof.
  unfold resume_commit, appendSyntheticStepLocked. cbv zeta.
  destruct (hash_checked _) as [h|]; simpl; split; try (by intros [? ?]); by eexists.
Qed.
End Resume.

(** ** Creating *)

Section CreateCalls.
Context `{JsonMarshaler} `{UrlParser} `{MapRange}.

(** A request accepted for a new run. *)
Record created (req : CreateRunRequest) (fp : string) (now : time) (k k' : Kernel)
    (resp : CreateRunResponse) (r : runInstance) : Prop := {
  cd_fresh : k_runs k !! crr_RunID resp = None;
  cd_runs : k_runs k' = <[crr_RunID resp := r]> (k_runs k);
  cd_steps : k_stepIntegrity k' = k_stepIntegrity k;
  cd_view : fresh_view (ri_view r) /\ rv_TenantID (ri_view r) = cr_TenantID req /\
    rv_WorkflowID (ri_view r) = cr_WorkflowID req /\
    rv_WorkflowVersion (ri_view r) = cr_WorkflowVersion req /\
    rv_RiskTier (ri_view r) = normalizeRisk (cr_RiskTier req) /\ rv_CreatedAt (ri_view r) = now /\
    rs_SnapshotHash (rv_Snapshot (ri_view r)) = crr_SnapshotHash resp;
  cd_lifetime : ri_maxLifetime r = maxLifetimeForRisk k (normalizeRisk (cr_RiskTier req));
  cd_entry : k_createRuns k' !! create_key req =
    Some (mk_createRunEntry (crr_RunID resp) fp resp now now)
}.

Lemma create_new_run_Ok req fp now k k' resp :
  Inv k -> k_runSeq k + 1 < 2 ^ 64 -> (8 <= String.length fp)%nat ->
  create_new_run req fp now k = (k', Ok resp) -> exists r, created req fp now k k' resp r.
Proof.
  intros HI Hseq Hfp. pose proof (run_id_fresh k fp (inv_runs _ HI) Hfp Hseq) as Hfresh.
  unfold create_new_run. cbv zeta. destruct (hash_checked _) as [sh|]; [|done].
  set (runID := run_id _ _) in *. set (r := mk_runInstance _ _ _ _ _).
  set (k1 := k_set_runSeq _ k). set (k2 := emit _ _ _ _ _ _).
  destruct (same_core_fields k2 (store_run runID r k1)) as (_ & E1 & _ & _ & E2 & E3 & _);
    [apply emit_core|].
  intros [<- [= <-]]%pair_inv_eq. exists r. split; try done. apply lookup_insert_eq.
Qed.

Lemma CreateRun_Ok req now k k' resp :
  Inv k -> k_runSeq k + 1 < 2 ^ 64 -> CreateRun req now k = (k', Ok resp) ->
  exists fp, hash_checked (create_fingerprint_input req) = Some fp /\
    match k_createRuns k !! create_key req with
    | Some e => ce_RequestHash e = fp /\ resp = ce_Response e /\ k_runs k' = k_runs k /\
                k_createRuns k' = <[create_key req := ce_set_LastAccessAt now e]> (k_createRuns k)
    | None => exists r, created req fp now k k' resp r
    end.
Proof.
  intros HI Hseq. unfold CreateRun. cbv zeta.
  destruct (_ || _); [done|]. destruct (negb _); [done|]. destruct (blank _); [done|].
  destruct (hash_checked _) as [fp|] eqn:Hfp; [|done]. intros E. exists fp. split; [done|].
  apply hash_checked_8 in Hfp.
  destruct (k_createRuns k !! create_key req) as [e|] eqn:He; [|by apply create_new_run_Ok].
  destruct (create_entry_run _ _ _ HI He) as [r Hr].
  destruct (negb _) eqn:Ef; [done|]. bool_hyps. rewrite Hr in E.
  set (k1 := emit _ _ _ _ _ _) in E. injection E as <- <-.
  destruct (same_core_fields k1 (k_set_createRuns (<[create_key req := ce_set_LastAccessAt now e]>
    (k_createRuns k)) k)) as (_ & E1 & _ & _ & E2 & _); [unfold k1; by rewrite emit_core|].
  by rewrite E1, E2.
Qed.
End CreateCalls.

(** ** Finding a continuation *)

Section Find.
Context `{MapRange}.

Lemma better_trans c ch c' : better c ch = true -> better c' ch = false -> better c' c = false.
Proof. unfold better, After. lia. Qed.

Lemma better_irrefl c : better c c = false.
Proof. unfold better, After. lia. Qed.

(** The loop keeps a best active continuation of those visited. *)
Definition best (ok : Continuation -> bool) (l : list Continuation) (o : option Continuation) : Prop :=
  match o with
  | Some c => c ∈ l /\ ok c = true /\ forall c', c' ∈ l -> ok c' = true -> better c' c = false
  | None => forall c', c' ∈ l -> ok c' = false
  end.

Lemma choose_best ok l c o t : best ok l o -> best ok (l ++ [c]) (choose_continuation ok o t c).
Proof.
  unfold choose_continuation, best. intros Ho. destruct (ok c) eqn:Ec; cbn [negb].
  - destruct o as [ch|].
    + destruct Ho as (Hin & Hok & Hb). destruct (better c ch) eqn:Eb.
      * split_and!; [set_solver|done|]. intros c' Hc' Hk.
        apply elem_of_app in Hc' as [Hc'|Hc'%list_elem_of_singleton]; [by eapply better_trans; eauto|].
        subst. apply better_irrefl.
      * split_and!; [set_solver|done|]. intros c' Hc' Hk.
        apply elem_of_app in Hc' as [Hc'|Hc'%list_elem_of_singleton]; [auto|by subst].
    + split_and!; [set_solver|done|]. intros c' Hc' Hk.
      apply elem_of_app in Hc' as [Hc'|Hc'%list_elem_of_singleton]; [|subst; apply better_irrefl].
      rewrite Ho in Hk by done. done.
  - destruct o as [ch|].
    + destruct Ho as (Hin & Hok & Hb). split_and!; [set_solver|done|]. intros c' Hc' Hk.
      apply elem_of_app in Hc' as [Hc'|Hc'%list_elem_of_singleton]; [auto|congruence].
    + intros c' Hc'. apply elem_of_app in Hc' as [Hc'|Hc'%list_elem_of_singleton]; [auto|by subst].
Qed.

Lemma range_best ok (m : gmap string Continuation) :
  best ok (range_map m).*2 (go_range (choose_continuation ok) None m).
Proof.
  unfold go_range. assert (forall l o p, best ok p o ->
    best ok (p ++ l.*2) (foldl (fun s (kv : string * Continuation) => choose_continuation ok s kv.1 kv.2) o l)) as Hl.
  { induction l as [|[t c] l IH]; intros o p Ho; simpl; [by rewrite app_nil_r|].
    rewrite cons_middle, app_assoc. by apply IH, choose_best. }
  apply (Hl _ None []). intros c' Hc'. by apply not_elem_of_nil in Hc'.
Qed.

Lemma range_values (m : gmap string Continuation) c : c ∈ (range_map m).*2 <-> exists t, m !! t = Some c.
Proof.
  rewrite list_elem_of_fmap. split.
  - intros ([t c'] & -> & Hin). exists t. by apply range_map_elem.
  - intros [t Ht]. exists (t, c). split; [done|]. by apply range_map_elem.
Qed.
End Find.

(** ** Parking *)

Section ParkCalls.
Context `{JsonMarshaler} `{UrlParser} `{MapRange}.

Lemma bytes_slice n s : bytes (slice_to n s) = take n (bytes s).
Proof.
  unfold slice_to. revert s. induction n as [|n IH]; intros [|c s]; simpl; try done.
  change (bytes (String c (String.substring 0 n s))) with (c :: bytes (String.substring 0 n s)).
  by rewrite IH.
Qed.

Lemma token_nonblank h : graphic_string h = true -> blank (String.append "ct_" (slice_to 20 h)) = false.
Proof.
  intros Hh. unfold blank. rewrite TrimSpace_graphic; [done|].
  unfold graphic_string in *. rewrite bytes_app, bytes_slice, forallb_app. apply andb_true_iff.
  split; [done|]. apply forallb_forall. intros c Hc. apply (proj1 (forallb_forall _ _) Hh).
  rewrite <- (take_drop 20 (bytes h)). apply in_or_app. by left.
Qed.

Lemma park_token_type_norm req : ToLower (TrimSpace (park_token_type req)) = park_token_type req.
Proof.
  unfold park_token_type. cbv zeta.
  destruct (ToLower (TrimSpace (pr_TokenType req)) =? "")%string; [reflexivity|apply lower_trim_idem].
Qed.

(** The stored run and continuation after a successful park. *)
Lemma ParkRun_Ok id req now k k' resp r :
  k_runs k !! id = Some r -> ParkRun id req now k = (k', Ok resp) ->
  isValidTokenType (park_token_type req) = true /\
  blank (prr_ContinuationToken resp) = false /\
  exists h c,
    k_runs k' !! id = Some (ri_set_noProgressScans 0
      (ri_set_view (parked_view req (state_name (park_state req)) h now (ri_view r)) r)) /\
    k_continuations k' !! prr_ContinuationToken resp = Some c /\
    ct_RunID c = id /\ ct_Status c = "active" /\ ct_ExpiresAt c = prr_ExpiresAt resp /\
    ct_StepSeqID c = pr_IncomingStepSeqID req /\ ct_TokenType c = park_token_type req.
Proof.
  intros Hr. unfold ParkRun, getRunLocked. rewrite Hr. cbv zeta.
  destruct (isTerminalState _); [done|]. destruct (negb (_ =? rv_StateVersion _)); [done|].
  destruct (pr_IncomingStepSeqID req <=? _); [done|].
  destruct (negb (isValidTokenType _)) eqn:Et; [done|]. bool_hyps. destruct (blank _); [done|].
  rewrite park_state_name. destruct (negb _); [done|].
  destruct (park_commit _ _ _ _ _ _) as [[k1 r1] res] eqn:E. intros [<- ->]%pair_inv_eq.
  unfold park_commit in E. cbv zeta in E.
  destruct (hash_checked (token_hash_input _ _ _ _ _)) as [th|] eqn:Eth; [|by pair_inv E].
  destruct (hash_checked (GStr _)) as [tref|]; [|by pair_inv E].
  destruct (appendSyntheticStepLocked _ _ _ _ _ _ _ _) as [k2 [h|err]]; [|by pair_inv E].
  set (c := mk_Continuation _ _ _ _ _ _ _ _ _ _) in E. set (v' := parked_view _ _ _ _ _) in E.
  apply pair_inv_eq in E as [[<- <-]%pair_inv_eq [= <-]].
  split_and!; [done| |].
  { simpl. apply hash_checked_Some in Eth as (raw & _ & ->). apply token_nonblank, sha256_hex_graphic. }
  exists h, c. set (k3 := emit _ _ _ _ _ _).
  destruct (same_core_fields k3 (k_set_continuations (<[ct_ContinuationID c := c]> (k_continuations k2)) k2))
    as (_ & _ & E2 & _); [apply emit_core|].
  split_and!; try done; simpl; [by rewrite lookup_insert_eq|].
  rewrite E2. simpl. by rewrite lookup_insert_eq.
Qed.

Lemma parked_fields req s h now v :
  let v' := parked_view req s h now v in
  rv_State v' = s /\ rv_CurrentStepSeqID v' = pr_IncomingStepSeqID req /\ rv_Snapshot v' = rv_Snapshot v /\
  rv_LastStepHash v' = h.
Proof. unfold parked_view. view_simpl. done. Qed.
End ParkCalls.
