(* ===== verification/RunStable.v ===== *)
(** * Relations kept by every operation of the Run kernel

    A preorder on kernels closed under the primitive updates (an emitted event,
    a trimmed outbox, an assignment to one of the maps or counters) relates the
    kernel before and after each operation.  Instantiated with the properties
    of the outbox and of the run counter. *)

From S2P Require Import Prelude GoStrings Sha256 GoTime GoJson RunTypes RunStates RunOutbox RunKernel RunSweeps.

Create HintDb stable.
#[export] Hint Constants Opaque : stable.

Section Stable.
Context `{JsonMarshaler} `{UrlParser} `{MapRange}.
Context (R : Kernel -> Kernel -> Prop) `{!PreOrder R}.
Context (R_emit : forall k0 k ev id st kvs now, R k0 k -> R k0 (emit ev id st kvs now k)).
Context (R_trim : forall k0 k now, R k0 k -> R k0 (fst (cleanupOutboxLocked k now))).
Context (R_runs : forall k0 k m, R k0 k -> R k0 (k_set_runs m k)).
Context (R_conts : forall k0 k m, R k0 k -> R k0 (k_set_continuations m k)).
Context (R_idem : forall k0 k m, R k0 k -> R k0 (k_set_idempotency m k)).
Context (R_create : forall k0 k m, R k0 k -> R k0 (k_set_createRuns m k)).
Context (R_steps : forall k0 k m, R k0 k -> R k0 (k_set_stepIntegrity m k)).

#[local] Hint Resolve R_emit R_runs R_conts R_idem R_create R_steps : stable.
#[local] Hint Extern 0 (R ?k ?k) => reflexivity : stable.

Lemma R_store k0 k id r : R k0 k -> R k0 (store_run id r k).
Proof. unfold store_run. auto with stable. Qed.

Lemma R_progress k0 k id st i c now : R k0 k ->
  R k0 (emitProgressMonotonicityViolation id st i c now k).
Proof. unfold emitProgressMonotonicityViolation. auto with stable. Qed.

Lemma R_caches k0 k id : R k0 k -> R k0 (cleanupRunScopedCachesLocked id k).
Proof.
  intros Hk. unfold cleanupRunScopedCachesLocked, cleanupCreateRunsForRunIDLocked.
  destruct (range_cleanup _ _). simpl. auto with stable.
Qed.

Lemma R_append k0 k id s : R k0 k -> R k0 (append_integrity id s k).
Proof. unfold append_integrity. auto with stable. Qed.

#[local] Hint Resolve R_store R_progress R_caches R_append : stable.

Lemma R_synthetic r st seq ty i o now k0 k k' res : R k0 k ->
  appendSyntheticStepLocked r st seq ty i o now k = (k', res) -> R k0 k'.
Proof.
  intros Hk. unfold appendSyntheticStepLocked. cbv zeta.
  destruct (hash_checked _); intros [<- _]%pair_inv_eq; auto with stable.
Qed.

Lemma R_obligation r req ref phase idx ob now k k' r' e :
  enforceObligation r req ref phase idx ob now k = (k', r', e) -> R k k'.
Proof.
  unfold enforceObligation. cbv zeta. intros E.
  repeat case_match; apply pair_inv_eq in E as [[<- _]%pair_inv_eq _]; auto with stable.
Qed.

Lemma R_obligations r req ref now k k' r' e :
  enforceDecisionObligationsLocked r req ref now k = (k', r', e) -> R k k'.
Proof.
  unfold enforceDecisionObligationsLocked. set (ph := decision_phase ref).
  assert (forall obs r idx k, enforce_loop r req ref ph idx obs now k = (k', r', e) -> R k k') as Hl.
  { clear k r. induction obs as [|ob obs IH]; intros r idx k; simpl.
    - intros [[<- _]%pair_inv_eq _]%pair_inv_eq. reflexivity.
    - destruct (enforceObligation _ _ _ _ _ _ _ _) as [[k1 r1] [err|]] eqn:Eo;
        apply R_obligation in Eo.
      + by intros [[<- _]%pair_inv_eq _]%pair_inv_eq.
      + intros E%IH. by transitivity k1. }
  case_match; [intros [[<- _]%pair_inv_eq _]%pair_inv_eq; reflexivity|apply Hl].
Qed.

Lemma R_AdvanceRun port id req now k : R k (fst (AdvanceRun port id req now k)).
Proof.
  unfold AdvanceRun. cbv zeta. destruct (getRunLocked k id) as [r|e]; [|reflexivity].
  destruct (isTerminalState _); [reflexivity|]. destruct (EqualFold _ _ || _); [reflexivity|].
  destruct (_ || blank _); [reflexivity|].
  destruct (k_idempotency k !! _); [simpl; auto with stable|].
  destruct (advance_fresh _ _ _ _ _ _) as [[k1 r1] res] eqn:E. simpl. apply R_store.
  unfold advance_fresh, reject_gate in E. cbv zeta in E.
  destruct (negb _); [pair_inv E; auto with stable|].
  destruct (_ <=? rv_CurrentStepSeqID _); [pair_inv E; auto with stable|].
  destruct (blank _ || _); [pair_inv E; auto with stable|].
  destruct (decision_gate _ _ _) as [[p ref]|g]; [|pair_inv E; auto with stable].
  destruct (receipt_gate _ _ _ _); [pair_inv E; auto with stable|].
  destruct (enforceDecisionObligationsLocked _ _ _ _ _) as [[k2 r2] [err|]] eqn:Ee;
    apply R_obligations in Ee; [pair_inv E; auto with stable|].
  unfold advance_commit, advance_apply in E. cbv zeta in E.
  destruct (negb _); [pair_inv E; auto with stable|].
  destruct (negb _); [pair_inv E; auto with stable|].
  destruct (blank _ || _); [pair_inv E; auto with stable|].
  destruct (hash_checked _); pair_inv E; [|auto with stable].
  destruct (isTerminalState _); auto 6 with stable.
Qed.

Lemma R_ParkRun id req now k : R k (fst (ParkRun id req now k)).
Proof.
  unfold ParkRun. cbv zeta. destruct (getRunLocked k id) as [r|e]; [|reflexivity].
  destruct (isTerminalState _); [reflexivity|]. destruct (negb (_ =? rv_StateVersion _)); [reflexivity|].
  destruct (pr_IncomingStepSeqID req <=? _); [simpl; auto with stable|].
  destruct (negb (isValidTokenType _)); [reflexivity|]. destruct (blank _); [reflexivity|].
  destruct (negb (isAllowedTransition _ _)); [reflexivity|].
  destruct (park_commit _ _ _ _ _ _) as [[k1 r1] res] eqn:E. simpl. apply R_store.
  unfold park_commit in E. cbv zeta in E.
  destruct (hash_checked _); [|pair_inv E; auto with stable].
  destruct (hash_checked _); [|pair_inv E; auto with stable].
  destruct (appendSyntheticStepLocked _ _ _ _ _ _ _ _) as [k2 [h|err]] eqn:Ea;
    apply (R_synthetic _ _ _ _ _ _ _ k) in Ea; try reflexivity; pair_inv E; auto with stable.
Qed.

Lemma R_ResumeRun id req now k : R k (fst (ResumeRun id req now k)).
Proof.
  unfold ResumeRun, resume_commit, store_continuation. cbv zeta.
  repeat (case_match; simpl; auto with stable; try reflexivity);
    match goal with Ea : appendSyntheticStepLocked _ _ _ _ _ _ _ _ = _ |- _ =>
      apply (R_synthetic _ _ _ _ _ _ _ k) in Ea; [|reflexivity] end; auto with stable.
Qed.

Lemma R_AbortRun id req now k : R k (fst (AbortRun id req now k)).
Proof.
  unfold AbortRun. cbv zeta. destruct (getRunLocked k id) as [r|e]; [|reflexivity].
  destruct (isTerminalState _); [reflexivity|].
  destruct (appendSyntheticStepLocked _ _ _ _ _ _ _ _) as [k2 [h|err]] eqn:Ea;
    apply (R_synthetic _ _ _ _ _ _ _ k) in Ea; try reflexivity; simpl; auto with stable.
Qed.

Lemma R_FlagRunRisk id s1 s2 k : R k (fst (FlagRunRisk id s1 s2 k)).
Proof. unfold FlagRunRisk. case_match; simpl; auto with stable. Qed.

Lemma R_maintenance now k0 k res : R k0 k -> R k0 (fst (applyMaintenanceLocked now k res)).
Proof.
  intros Hk. unfold applyMaintenanceLocked.
  destruct (cleanupContinuationsLocked now k) as [k1 n1] eqn:E1.
  destruct (cleanupIdempotencyLocked now k1) as [k2 n2] eqn:E2.
  destruct (cleanupTerminalRunsLocked now k2) as [k3 n3] eqn:E3.
  destruct (cleanupCreateRunsLocked now k3) as [k4 n4] eqn:E4.
  assert (R k0 k1) as H1' by (unfold cleanupContinuationsLocked in E1;
    destruct (range_cleanup _ _); pair_inv E1; auto with stable).
  assert (R k0 k2) as H2' by (unfold cleanupIdempotencyLocked in E2;
    destruct (range_cleanup _ _); pair_inv E2; auto with stable).
  assert (R k0 k3) as H3'.
  { unfold cleanupTerminalRunsLocked in E3. case_match; [pair_inv E3; done|].
    apply (f_equal fst) in E3. simpl in E3. subst k3. unfold go_range.
    assert (R k0 (fst (k2, 0))) as Hs by done. revert Hs. generalize (k2, 0).
    induction (range_map (k_runs k2)) as [|[i r] l IH]; intros s Hs; simpl; [done|].
    apply IH. unfold terminal_run_body. case_match; simpl; [|done].
    unfold delete_run. auto with stable. }
  assert (R k0 k4) as H4' by (unfold cleanupCreateRunsLocked in E4;
    destruct (range_cleanup _ _); pair_inv E4; auto with stable).
  pose proof (R_trim k0 k4 now H4') as H5'. by destruct (cleanupOutboxLocked k4 now).
Qed.

Lemma R_loop visit l k res :
  (forall id r k res, R k (fst (visit id r k res))) -> R k (fst (sweep_loop visit l k res)).
Proof.
  intros Hv. revert k res. induction l as [|[id r] l IH]; intros k res; simpl; [reflexivity|].
  case_match; [reflexivity|]. specialize (Hv id r k (incr sw_set_Scanned sw_Scanned res)).
  destruct (visit _ _ _ _). by etransitivity; [|apply IH].
Qed.

Lemma R_ttl_visit now id r k res : R k (fst (ttl_visit now id r k res)).
Proof.
  unfold ttl_visit. cbv zeta.
  repeat (case_match; simpl; auto with stable; try reflexivity);
    match goal with Ea : appendSyntheticStepLocked _ _ _ _ _ _ _ _ = _ |- _ =>
      apply (R_synthetic _ _ _ _ _ _ _ k) in Ea; [|reflexivity] end; auto with stable.
Qed.

Lemma R_zombie_visit now id r k res : R k (fst (zombie_visit now id r k res)).
Proof.
  unfold zombie_visit. cbv zeta.
  repeat (case_match; simpl; auto with stable; try reflexivity);
    match goal with Ea : appendSyntheticStepLocked _ _ _ _ _ _ _ _ = _ |- _ =>
      apply (R_synthetic _ _ _ _ _ _ _ k) in Ea; [|reflexivity] end; auto with stable.
Qed.

Lemma R_SweepTTL now k : R k (fst (SweepTTL now k)).
Proof.
  unfold SweepTTL. pose proof (R_loop (ttl_visit now) (sortedRuns (k_runs k)) k empty_SweepResult
    (R_ttl_visit now)). destruct (sweep_loop _ _ _ _). by apply R_maintenance.
Qed.

Lemma R_SweepZombie now k : R k (fst (SweepZombie now k)).
Proof.
  unfold SweepZombie. pose proof (R_loop (zombie_visit now) (sortedRuns (k_runs k)) k
    empty_SweepResult (R_zombie_visit now)). destruct (sweep_loop _ _ _ _).
  by apply R_maintenance.
Qed.

Section Create.
Context (R_seq : forall k0 k n, R k0 k -> R k0 (k_set_runSeq n k)).
Context (R_conflict : forall k0 k n, R k0 k -> R k0 (k_set_createRunConflictTotal n k)).
Context (R_reuse : forall k0 k n, R k0 k -> R k0 (k_set_createRunReuseTotal n k)).
#[local] Hint Resolve R_seq R_conflict R_reuse : stable.

Lemma R_CreateRun req now k : R k (fst (CreateRun req now k)).
Proof.
  assert (forall fp k0, R k k0 -> R k (fst (create_new_run req fp now k0))) as Hnew.
  { intros fp k0 Hk0. unfold create_new_run. cbv zeta.
    destruct (hash_checked _); cbn [fst]; auto 10 with stable. }
  unfold CreateRun. cbv zeta.
  destruct (_ || _); [reflexivity|]. destruct (negb _); [reflexivity|].
  destruct (blank _); [reflexivity|]. destruct (hash_checked _); [|reflexivity].
  destruct (k_createRuns k !! _) as [e|]; [|apply Hnew; reflexivity].
  destruct (negb _); cbn [fst]; [auto 10 with stable|].
  destruct (k_runs k !! _); cbn [fst]; auto 10 with stable.
Qed.
End Create.
End Stable.
