(* ===== verification/RunTrace.v ===== *)
(** * Histories of the Run kernel

    An [op] is one call under the kernel's mutex; [exec] is what it does to
    the state, and [reach n k] says that [k] results from [n] calls on a new
    kernel.  Each call may visit the maps in its own order.

    Then the outbox as a queue of numbered events. *)

From S2P Require Import Prelude GoStrings Sha256 GoTime GoJson RunTypes RunStates RunOutbox.
From S2P Require Import RunKernel RunSweeps RunInvariant RunOps RunAdvance RunMaint RunEffect.
From S2P Require Import RunStable.

Inductive op : Type :=
| OpCreate (req : CreateRunRequest) (now : time)
| OpAdvance (port : option DecisionPort) (runID : string) (req : AdvanceRunRequest) (now : time)
| OpPark (runID : string) (req : ParkRunRequest) (now : time)
| OpResume (runID : string) (req : ResumeRunRequest) (now : time)
| OpAbort (runID : string) (req : AbortRunRequest) (now : time)
| OpFlag (runID : string) (securityRisk resourceRisk : bool)
| OpDrain (limit : Z)
| OpSweepTTL (now : time)
| OpSweepZombie (now : time)
| OpMaintenance (now : time).

Section Trace.
Context {JM : JsonMarshaler} {UP : UrlParser}.

Definition exec {MR : MapRange} (o : op) (k : Kernel) : Kernel :=
  match o with
  | OpCreate req now => fst (CreateRun req now k)
  | OpAdvance port id req now => fst (AdvanceRun port id req now k)
  | OpPark id req now => fst (ParkRun id req now k)
  | OpResume id req now => fst (ResumeRun id req now k)
  | OpAbort id req now => fst (AbortRun id req now k)
  | OpFlag id s1 s2 => fst (FlagRunRisk id s1 s2 k)
  | OpDrain limit => fst (DrainOutbox k limit)
  | OpSweepTTL now => fst (SweepTTL now k)
  | OpSweepZombie now => fst (SweepZombie now k)
  | OpMaintenance now => fst (MaintenanceSweep now k)
  end.

(** One call, the maps visited in some order. *)
Inductive step : Kernel -> Kernel -> Prop :=
| step_op MR o k : step k (exec (MR := MR) o k).

(** [n] calls from one kernel to another. *)
Inductive steps : nat -> Kernel -> Kernel -> Prop :=
| steps_0 k : steps 0 k k
| steps_S n k1 k2 k3 : steps n k1 k2 -> step k2 k3 -> steps (S n) k1 k3.

Definition reach (cfg : Config) (n : nat) (k : Kernel) : Prop := steps n (NewKernel cfg) k.

(** ** The invariant *)

Lemma DrainOutbox_core k limit : same_core (fst (DrainOutbox k limit)) k.
Proof. unfold DrainOutbox. case_match; by constructor. Qed.

Lemma SweepTTL_inv {MR : MapRange} now k : Inv k -> Inv (fst (SweepTTL now k)).
Proof.
  intros HI. unfold SweepTTL. pose proof (sweep_spec _ _ (ttl_visit_ok now) k HI) as Hs.
  cbv zeta in Hs. destruct (sweep_loop _ _ _ _). apply applyMaintenance_inv, Hs.
Qed.

Lemma SweepZombie_inv {MR : MapRange} now k : Inv k -> Inv (fst (SweepZombie now k)).
Proof.
  intros HI. unfold SweepZombie. pose proof (sweep_spec _ _ (zombie_visit_ok now) k HI) as Hs.
  cbv zeta in Hs. destruct (sweep_loop _ _ _ _). apply applyMaintenance_inv, Hs.
Qed.

Lemma exec_inv {MR : MapRange} o k : Inv k -> k_runSeq k + 1 < 2 ^ 64 -> Inv (exec o k).
Proof.
  intros HI Hseq. destruct o; simpl exec.
  - by apply CreateRun_inv.
  - by apply AdvanceRun_inv.
  - by apply ParkRun_inv.
  - by apply ResumeRun_inv.
  - by apply AbortRun_inv.
  - by apply FlagRunRisk_inv.
  - by rewrite DrainOutbox_core.
  - by apply SweepTTL_inv.
  - by apply SweepZombie_inv.
  - by apply applyMaintenance_inv.
Qed.

Lemma exec_frame {MR : MapRange} o k : Inv k -> k_runSeq k + 1 < 2 ^ 64 -> frame k (exec o k).
Proof.
  intros HI Hseq. destruct o; simpl exec.
  - by apply CreateRun_frame.
  - by apply AdvanceRun_frame.
  - by apply ParkRun_frame.
  - by apply ResumeRun_frame.
  - by apply AbortRun_frame.
  - by apply FlagRunRisk_frame.
  - apply frame_core; [done|apply DrainOutbox_core].
  - by apply SweepTTL_frame.
  - by apply SweepZombie_frame.
  - by apply MaintenanceSweep_frame.
Qed.

(** ** The run counter grows by at most one per call *)

Lemma CreateRun_seq {MR : MapRange} req now k : 0 <= k_runSeq k -> k_runSeq k + 1 < 2 ^ 64 ->
  k_runSeq k <= k_runSeq (fst (CreateRun req now k)) <= k_runSeq k + 1.
Proof.
  intros Hk Hb. pose proof (wrap_uint64_id (k_runSeq k + 1) ltac:(lia)) as Hr.
  assert (Hemit : forall ev id st kvs k0, k_runSeq (emit ev id st kvs now k0) = k_runSeq k0)
    by (intros; by destruct (same_core_fields _ _ (emit_core ev id st kvs now k0))
          as (_ & _ & _ & _ & _ & _ & ->)).
  assert (Hnew : forall fp k0, k_runSeq k0 = k_runSeq k ->
            k_runSeq k <= k_runSeq (fst (create_new_run req fp now k0)) <= k_runSeq k + 1).
  { intros fp k0 E. unfold create_new_run. cbv zeta. rewrite E.
    destruct (hash_checked _); cbn [fst k_set_createRuns k_runSeq]; [rewrite Hemit|]; simpl; lia. }
  unfold CreateRun. cbv zeta.
  destruct (_ || _); [simpl; lia|]. destruct (negb _); [simpl; lia|].
  destruct (blank _); [simpl; lia|]. destruct (hash_checked _); [|simpl; lia].
  destruct (k_createRuns k !! _) as [e|]; [|by apply Hnew].
  destruct (negb _); cbn [fst]; [rewrite Hemit; simpl; lia|].
  destruct (k_runs k !! _); cbn [fst]; [rewrite Hemit; simpl; lia|by apply Hnew].
Qed.

Definition same_seq (k k' : Kernel) : Prop := k_runSeq k' = k_runSeq k.

#[local] Instance same_seq_pre : PreOrder same_seq.
Proof. unfold same_seq. split; [done|]. intros ???. congruence. Qed.

Lemma same_seq_emit k0 k ev id st kvs now : same_seq k0 k -> same_seq k0 (emit ev id st kvs now k).
Proof.
  unfold same_seq. intros <-. by destruct (same_core_fields _ _ (emit_core ev id st kvs now k))
    as (_ & _ & _ & _ & _ & _ & ->).
Qed.

Lemma same_seq_trim k0 k now : same_seq k0 k -> same_seq k0 (fst (cleanupOutboxLocked k now)).
Proof.
  unfold same_seq. intros <-. by destruct (same_core_fields _ _ (cleanupOutbox_core k now))
    as (_ & _ & _ & _ & _ & _ & ->).
Qed.

Ltac seq_side := first [apply same_seq_pre|apply same_seq_emit|apply same_seq_trim|done].

Lemma same_seq_bound k k' : same_seq k k' -> k_runSeq k <= k_runSeq k' <= k_runSeq k + 1.
Proof. unfold same_seq. intros ->. lia. Qed.

Lemma exec_seq {MR : MapRange} o k : 0 <= k_runSeq k -> k_runSeq k + 1 < 2 ^ 64 ->
  k_runSeq k <= k_runSeq (exec o k) <= k_runSeq k + 1.
Proof.
  intros Hk Hb. destruct o; [by apply CreateRun_seq|..]; simpl exec;
    apply same_seq_bound; try done.
  - apply (R_AdvanceRun same_seq); seq_side.
  - apply (R_ParkRun same_seq); seq_side.
  - apply (R_ResumeRun same_seq); seq_side.
  - apply (R_AbortRun same_seq); seq_side.
  - apply (R_FlagRunRisk same_seq); seq_side.
  - unfold DrainOutbox. by case_match.
  - apply (R_SweepTTL same_seq); seq_side.
  - apply (R_SweepZombie same_seq); seq_side.
  - apply (R_maintenance same_seq); first [reflexivity|seq_side].
Qed.

(** ** Histories *)

Lemma steps_inv n k k' : steps n k k' -> Inv k -> k_runSeq k + Z.of_nat n < 2 ^ 64 ->
  Inv k' /\ k_runSeq k <= k_runSeq k' <= k_runSeq k + Z.of_nat n.
Proof.
  induction 1 as [k|n k1 k2 k3 _ IH Hs]; intros HI Hb; [split; [done|lia]|].
  destruct IH as [HI2 Hseq]; [done|lia|]. destruct Hs as [MR o k2].
  pose proof (rk_seq _ (inv_runs _ HI)) as Hpos.
  destruct (exec_seq o k2); [lia|lia|]. split; [apply exec_inv; [done|lia]|lia].
Qed.

(** Kernels that a service can reach: fewer than [2^64 - 1] calls so far. *)
Definition reachable (k : Kernel) : Prop :=
  exists cfg n, reach cfg n k /\ Z.of_nat n + 1 < 2 ^ 64.

Lemma reachable_inv k : reachable k -> Inv k /\ k_runSeq k + 1 < 2 ^ 64.
Proof.
  intros (cfg & n & Hr & Hn). apply steps_inv in Hr as [HI Hseq].
  - split; [done|simpl in Hseq; lia].
  - apply NewKernel_inv.
  - simpl. lia.
Qed.

Lemma steps_trans n m k1 k2 k3 : steps n k1 k2 -> steps m k2 k3 -> steps (m + n) k1 k3.
Proof. induction 2 as [|m k2 k3 k4 _ IH Hs]; simpl; [done|]. econstructor; eauto. Qed.

(** The fate of a run over a history. *)
Record fate (k k' : Kernel) (id : string) (v v' : RunView) : Prop := {
  ft_identity : identity_of v' = identity_of v;
  ft_state : forall q, rv_State v = state_name q ->
    exists q', rv_State v' = state_name q' /\ rtc abs_step q q';
  ft_steps : StepIntegrities k id `prefix_of` StepIntegrities k' id;
  ft_terminal : isTerminalState (rv_State v) = true -> v' = v
}.

Lemma issued_mono n m id : n <= m -> issued n id -> issued m id.
Proof. intros Hle (fp & i & ? & ? & ?). exists fp, i. split_and!; [done|done|lia|lia]. Qed.

(** A run is never replaced: its identifier is not issued again. *)
Lemma steps_fate n k k' id r : steps n k k' -> Inv k -> k_runSeq k + Z.of_nat n < 2 ^ 64 ->
  k_runs k !! id = Some r ->
  k_runs k' !! id = None \/
  exists r', k_runs k' !! id = Some r' /\ fate k k' id (ri_view r) (ri_view r').
Proof.
  intros Hsteps HI Hb Hr. induction Hsteps as [k|n k1 k2 k3 Hs12 IH Hs].
  { right. exists r. split; [done|]. split; [done| |done|done]. intros q Hq. by exists q. }
  destruct (steps_inv _ _ _ Hs12 HI) as [HI2 Hseq2]; [lia|].
  pose proof (rk_seq _ (inv_runs _ HI)) as Hpos.
  destruct Hs as [MR o k2]. pose proof (exec_frame o k2 HI2 ltac:(lia)) as [Hold Hnew].
  destruct IH as [Hn|(r2 & Hr2 & [F1 F2 F3 F4])]; [done|lia|done|..].
  - left. destruct (k_runs (exec o k2) !! id) as [r3|] eqn:E; [exfalso|done].
    destruct (Hnew _ _ E Hn) as [_ Hni]. apply Hni.
    eapply issued_mono; [apply Hseq2|]. apply (Inv_run _ _ _ HI Hr).
  - destruct (Hold _ _ Hr2) as (r3 & [E1 (p & q & Ep & Eq & Hpq) _ E4] & [[Hr3 Hp]|[Hn _]]);
      [right|by left]. exists r3. split; [done|]. split.
    + congruence.
    + intros q0 Hq0. destruct (F2 _ Hq0) as (q1 & Hq1 & Hrtc). exists q. split; [done|].
      assert (q1 = p) as -> by (apply (inj state_name); congruence). by eapply rtc_r.
    + by etransitivity.
    + intros Ht. rewrite <- (F4 Ht) in Ht |- *. auto.
Qed.
End Trace.

(** * The outbox over a history of calls

    Events enter at the end of the outbox with consecutive identifiers and
    leave from the front, by trimming or by draining: what is in the outbox is
    a suffix of everything emitted. *)

Definition event_id (n : Z) : string := String.append "evt_run_seq_" (fmt_d (wrap_uint64 n)).

(** The identifiers of [n] events emitted after the counter stood at [s]. *)
Definition event_ids (s : Z) (n : nat) : list string :=
  map (fun i => event_id (s + 1 + Z.of_nat i)) (seq 0 n).

Lemma event_ids_app s n m : event_ids s (n + m) = event_ids s n ++ event_ids (s + Z.of_nat n) m.
Proof.
  unfold event_ids. rewrite seq_app, map_app. f_equal. simpl.
  replace (seq n m) with (map (fun i => n + i)%nat (seq 0 m)).
  - rewrite map_map. apply map_ext. intros i. f_equal. lia.
  - clear. revert n. induction m as [|m IH]; intros n; [done|]. simpl. f_equal; [lia|].
    rewrite <- (IH (S n)), <- seq_shift, map_map. apply map_ext. intros i. lia.
Qed.

Lemma event_id_wrap n : event_id (wrap_uint64 n) = event_id n.
Proof. unfold event_id. by rewrite wrap_uint64_idem. Qed.

Lemma event_ids_wrap s s' n : wrap_uint64 s = wrap_uint64 s' -> event_ids s n = event_ids s' n.
Proof.
  intros E. unfold event_ids. apply map_ext. intros i.
  rewrite <- (event_id_wrap (s + 1 + _)), <- (event_id_wrap (s' + 1 + _)).
  rewrite <- !Z.add_assoc, <- (wrap_uint64_add s), <- (wrap_uint64_add s'). by rewrite E.
Qed.

Section Feed.
Context {JM : JsonMarshaler} {UP : UrlParser}.

(** [es] were emitted between the two states, [gone] left the outbox. *)
Record feed (k k' : Kernel) : Prop := {
  fd_cfg : k_cfg k' = k_cfg k;
  fd_flow : exists es gone, k_outbox k ++ es = gone ++ k_outbox k' /\
    map ev_EventID es = event_ids (k_eventSeq k) (length es) /\
    wrap_uint64 (k_eventSeq k') = wrap_uint64 (k_eventSeq k + Z.of_nat (length es));
  fd_bound : 0 < cfg_OutboxMaxEvents (k_cfg k) ->
    Z.of_nat (length (k_outbox k)) <= cfg_OutboxMaxEvents (k_cfg k) ->
    Z.of_nat (length (k_outbox k')) <= cfg_OutboxMaxEvents (k_cfg k)
}.

Lemma feed_same k k' : k_cfg k' = k_cfg k -> k_outbox k' = k_outbox k ->
  k_eventSeq k' = k_eventSeq k -> feed k k'.
Proof.
  intros E1 E2 E3. split; [done| |by rewrite E2].
  exists [], []. rewrite E2, E3, Z.add_0_r, app_nil_r. done.
Qed.

#[export] Instance feed_preorder : PreOrder feed.
Proof.
  split; [intros k; by apply feed_same|].
  intros k1 k2 k3 [A1 (e1 & g1 & A2 & A3 & A4) A5] [B1 (e2 & g2 & B2 & B3 & B4) B5].
  split; [congruence| |rewrite A1 in *; auto].
  exists (e1 ++ e2), (g1 ++ g2). rewrite app_assoc, A2, <- !app_assoc, <- B2, map_app, length_app.
  split_and!; [done| |].
  - rewrite event_ids_app, A3, B3. f_equal. by apply event_ids_wrap.
  - rewrite B4, <- wrap_uint64_add, A4, wrap_uint64_add. f_equal. lia.
Qed.

Lemma cleanupOutbox_spec k now :
  let k' := fst (cleanupOutboxLocked k now) in
  k_cfg k' = k_cfg k /\ k_eventSeq k' = k_eventSeq k /\
  (exists gone, k_outbox k = gone ++ k_outbox k') /\
  (0 < cfg_OutboxMaxEvents (k_cfg k) ->
   Z.of_nat (length (k_outbox k')) <= cfg_OutboxMaxEvents (k_cfg k)).
Proof.
  unfold cleanupOutboxLocked. cbv zeta.
  set (cut := if 0 <? cfg_OutboxRetention _ then _ else _).
  set (cut2 := if 0 <? _ then Z.to_nat _ else _). rewrite drop_drop.
  assert (k_outbox k = take (cut + cut2) (k_outbox k) ++ drop (cut + cut2) (k_outbox k)) as Hsplit
    by by rewrite take_drop.
  assert (0 < cfg_OutboxMaxEvents (k_cfg k) ->
    Z.of_nat (length (drop (cut + cut2) (k_outbox k))) <= cfg_OutboxMaxEvents (k_cfg k)) as Hlen.
  { intros Hmax. rewrite <- drop_drop, length_drop. unfold cut2.
    clearbody cut. destruct (0 <? _ - _) eqn:E; bool_hyps; lia. }
  destruct (0 <? Z.of_nat cut + _); simpl; eauto 6.
Qed.

Lemma feed_trim k0 k now : feed k0 k -> feed k0 (fst (cleanupOutboxLocked k now)).
Proof.
  intros Hk. etransitivity; [exact Hk|].
  destruct (cleanupOutbox_spec k now) as (E1 & E2 & (gone & E3) & E4).
  split; [done| |auto]. exists [], gone. by rewrite app_nil_r, E2, Z.add_0_r.
Qed.

Lemma feed_emit k0 k ev id st kvs now : feed k0 k -> feed k0 (emit ev id st kvs now k).
Proof.
  intros Hk. etransitivity; [exact Hk|]. unfold emit. cbv zeta.
  destruct (match hash_checked _ with Some _ => _ | None => _ end) as [ph pv].
  destruct (runEventEvidencePolicy ev) as [g i].
  set (e := mk_KernelEvent _ _ _ _ _ _ _ _ _ _ _ _ _). set (k1 := _ |> k_set_outbox _).
  destruct (cleanupOutbox_spec k1 now) as (E1 & E2 & (gone & E3) & E4).
  split; [by rewrite E1| |intros; by apply E4].
  exists [e], gone. split_and!; [exact E3| |].
  - simpl. unfold event_ids, event_id; simpl. by rewrite Z.add_0_r.
  - rewrite E2. simpl. by rewrite wrap_uint64_idem.
Qed.

Lemma DrainOutbox_spec k limit :
  let '(k', out) := DrainOutbox k limit in
  k_outbox k = out ++ k_outbox k' /\ same_core k' k /\ k_eventSeq k' = k_eventSeq k /\
  Z.of_nat (length out) = Z.max 0 (Z.min limit (Z.of_nat (length (k_outbox k)))).
Proof.
  unfold DrainOutbox. cbv zeta. destruct (_ || _) eqn:E.
  - split_and!; try done. simpl. apply orb_true_iff in E as [E|E];
      [apply Z.leb_le in E|apply Z.eqb_eq in E]; lia.
  - bool_hyps. simpl. rewrite take_drop, length_take. split_and!; try done.
    destruct (_ <? limit) eqn:El; bool_hyps; lia.
Qed.

Ltac feed_side := first [apply feed_preorder|apply feed_emit|apply feed_trim
  |intros; etransitivity; [eassumption|by apply feed_same]].

Lemma exec_feed {MR : MapRange} o k : feed k (exec o k).
Proof.
  destruct o; simpl exec.
  - apply (R_CreateRun feed); feed_side.
  - apply (R_AdvanceRun feed); feed_side.
  - apply (R_ParkRun feed); feed_side.
  - apply (R_ResumeRun feed); feed_side.
  - apply (R_AbortRun feed); feed_side.
  - apply (R_FlagRunRisk feed); feed_side.
  - pose proof (DrainOutbox_spec k limit) as Hd. destruct (DrainOutbox k limit) as [k' out].
    destruct Hd as (E1 & E2 & E3 & _). apply same_core_fields in E2 as (E2 & _).
    split; [done| |]; simpl.
    + exists [], out. by rewrite app_nil_r, E3, Z.add_0_r.
    + intros _. rewrite E1, length_app. lia.
  - apply (R_SweepTTL feed); feed_side.
  - apply (R_SweepZombie feed); feed_side.
  - apply (R_maintenance feed); first [reflexivity|feed_side].
Qed.

Lemma steps_feed n k k' : steps n k k' -> feed k k'.
Proof.
  induction 1 as [|n k1 k2 k3 _ IH Hs]; [done|]. destruct Hs. etransitivity; [exact IH|apply exec_feed].
Qed.
End Feed.
