(* ===== verification/RunTamper.v ===== *)
(** * The step chain pins down the steps

    JSON encodes ASCII strings injectively, so the input of a step hash can be
    read back from its encoding: two chains that end in the same hash hold the
    same links, or exhibit a SHA-256 collision. *)

From S2P Require Import Prelude GoStrings Sha256 GoTime GoJson RunTypes RunStates RunOutbox RunKernel RunSweeps RunInvariant.
From Stdlib Require Import Ascii.

(** ** Encoded strings can be read back *)

Definition ascii_char (c : ascii) : bool := (code c <? 128)%N.
Definition ascii_string (s : string) : bool := forallb ascii_char (bytes s).

Definition unhex (c : ascii) : N := (if code c <? 58 then code c - 48 else code c - 87)%N.

(** One character of an encoded string; [None] at the closing quote. *)
Definition unescape1 (l : list ascii) : option (ascii * list ascii) :=
  match l with
  | a :: t =>
    if (code a =? 34)%N then None
    else if (code a =? 92)%N then
      match t with
      | b :: t =>
        if (b =? "u")%char then
          match t with
          | _ :: _ :: x :: y :: t => Some (chr (16 * unhex x + unhex y)%N, t)
          | _ => None
          end
        else if (b =? "b")%char then Some (chr 8, t)
        else if (b =? "f")%char then Some (chr 12, t)
        else if (b =? "n")%char then Some (chr 10, t)
        else if (b =? "r")%char then Some (chr 13, t)
        else if (b =? "t")%char then Some (chr 9, t)
        else Some (b, t)
      | [] => None
      end
    else Some (a, t)
  | [] => None
  end.

Lemma unescape1_escape c t : ascii_char c = true -> unescape1 (escape_ascii c ++ t) = Some (c, t).
Proof. destruct c as [[] [] [] [] [] [] [] []]; intros Hc; solve [reflexivity | discriminate Hc]. Qed.

Definition escaped (l : list ascii) : list ascii := concat (map escape_ascii l).

Lemma escape_ascii_only fuel l : (length l <= fuel)%nat -> forallb ascii_char l = true ->
  escape fuel l = escaped l.
Proof.
  revert l. induction fuel as [|fuel IH]; intros [|a l] Hl Ha; simpl in *; try lia; try done.
  apply andb_true_iff in Ha as [Ha1 Ha]. unfold ascii_char in Ha1. rewrite Ha1.
  unfold escaped; simpl. f_equal. apply IH; [lia|done].
Qed.

Lemma escaped_inj l l' t t' :
  forallb ascii_char l = true -> forallb ascii_char l' = true ->
  escaped l ++ chr 34 :: t = escaped l' ++ chr 34 :: t' -> l = l' /\ t = t'.
Proof.
  unfold escaped. revert l'. induction l as [|a l IH]; intros [|a' l'] Hl Hl' E; simpl in *.
  - by injection E.
  - exfalso. apply andb_true_iff in Hl' as [Ha' _]. rewrite <- app_assoc in E.
    apply (f_equal unescape1) in E. rewrite unescape1_escape in E by done. done.
  - exfalso. apply andb_true_iff in Hl as [Ha _]. rewrite <- app_assoc in E.
    apply (f_equal unescape1) in E. rewrite unescape1_escape in E by done. done.
  - apply andb_true_iff in Hl as [Ha Hl], Hl' as [Ha' Hl'].
    rewrite <- !app_assoc in E. apply (f_equal unescape1) in E.
    rewrite !unescape1_escape in E by done. injection E as -> E.
    by destruct (IH _ Hl Hl' E) as [-> ->].
Qed.

Lemma json_string_bytes s : ascii_string s = true ->
  bytes (json_string s) = chr 34 :: escaped (bytes s) ++ [chr 34].
Proof.
  intros Hs. unfold json_string. simpl Join. rewrite !bytes_app.
  rewrite bytes_str, escape_ascii_only by done. done.
Qed.

(** A string field of an encoding can be read off. *)
Lemma json_string_inj s s' (t t' : list ascii) : ascii_string s = true -> ascii_string s' = true ->
  bytes (json_string s) ++ t = bytes (json_string s') ++ t' -> s = s' /\ t = t'.
Proof.
  intros Hs Hs'. rewrite !json_string_bytes by done. simpl. intros [= E].
  rewrite <- !app_assoc in E. apply escaped_inj in E as [E1 E2]; [|done|done].
  split; [by apply bytes_inj|done].
Qed.

Lemma hex_ascii raw : ascii_string (sha256_hex raw) = true.
Proof.
  unfold ascii_string. apply forallb_forall. intros c Hc.
  pose proof (proj1 (forallb_forall _ _) (sha256_hex_chars raw) c Hc) as H.
  revert H. clear. unfold hex_char, ascii_char.
  destruct c as [[] [] [] [] [] [] [] []]; intros H; solve [reflexivity | discriminate H].
Qed.

(** ** The two hash inputs *)

Definition key (k : string) : list ascii := bytes (json_string k) ++ [":"%char].

(** A struct of four string fields, encoded. *)
Definition encoded4 (k1 k2 k3 k4 a b c d : string) : list ascii :=
  "{"%char :: key k1 ++ bytes (json_string a) ++ ","%char :: key k2 ++ bytes (json_string b) ++
  ","%char :: key k3 ++ bytes (json_string c) ++ ","%char :: key k4 ++ bytes (json_string d) ++
  ["}"%char].

Lemma marshal4 tn k1 k2 k3 k4 a b c d raw :
  json_Marshal (GStruct tn [(k1, GStr a); (k2, GStr b); (k3, GStr c); (k4, GStr d)]) = Ok raw ->
  bytes raw = encoded4 k1 k2 k3 k4 a b c d.
Proof.
  cbn [json_Marshal map sequence key_result fst snd]. intros [= <-].
  unfold member, encoded4, key. cbn [Join fst snd]. rewrite !bytes_app.
  cbn -[json_string]. by repeat (progress (rewrite <- ?app_assoc; cbn [app])).
Qed.

Lemma normal_raw p d i o raw : json_Marshal (step_hash_input p d i o) = Ok raw ->
  bytes raw = encoded4 "previous_step_hash" "decision_hash" "input_hash" "output_hash" p d i o.
Proof. apply marshal4. Qed.

Lemma synthetic_raw p ty i o raw : json_Marshal (synthetic_hash_input p ty i o) = Ok raw ->
  bytes raw = encoded4 "previous_step_hash" "synthetic_type" "input_hash" "output_hash" p ty i o.
Proof. apply marshal4. Qed.

Lemma tail_eq {A} (x y : A) l l' : x :: l = y :: l' -> l = l'.
Proof. congruence. Qed.

Lemma encoded4_inj k1 k2 k2' k3 k4 a b c d a' b' c' d' :
  forallb ascii_string [a; b; c; d] = true -> forallb ascii_string [a'; b'; c'; d'] = true ->
  ascii_string k2 = true -> ascii_string k2' = true ->
  encoded4 k1 k2 k3 k4 a b c d = encoded4 k1 k2' k3 k4 a' b' c' d' ->
  k2 = k2' /\ a = a' /\ b = b' /\ c = c' /\ d = d'.
Proof.
  unfold encoded4, key. cbn [forallb]. intros Ha Ha' Hk Hk' E. bool_hyps.
  apply tail_eq in E. rewrite <- !app_assoc in E. cbn [app] in E. apply app_inv_head, tail_eq in E.
  apply json_string_inj in E as [-> E]; [|done..]. apply tail_eq in E.
  apply json_string_inj in E as [-> E]; [|done..]. apply tail_eq in E.
  apply json_string_inj in E as [-> E]; [|done..]. apply tail_eq, app_inv_head, tail_eq in E.
  apply json_string_inj in E as [-> E]; [|done..]. apply tail_eq, app_inv_head, tail_eq in E.
  apply json_string_inj in E as [-> E]; done.
Qed.

(** ** Links *)

(** The hashed content of a step record. *)
Definition link (s : StepIntegrity) : string * string * string * string * string :=
  (sg_StepType s, sg_PreviousStepHash s,
   if (sg_StepType s =? StepTypeNormal)%string then sg_DecisionHash s else sg_SyntheticType s,
   sg_InputHash s, sg_OutputHash s).

(** Every field of the record is ASCII, as hashes and type tags are. *)
Definition step_ascii (s : StepIntegrity) : bool :=
  forallb ascii_string [sg_DecisionHash s; sg_SyntheticType s; sg_InputHash s; sg_OutputHash s].

Lemma ascii4 a b c d : ascii_string a = true -> ascii_string b = true -> ascii_string c = true ->
  ascii_string d = true -> forallb ascii_string [a; b; c; d] = true.
Proof. simpl. by intros -> -> -> ->. Qed.

Lemma link_inj s s' :
  step_ok s -> step_ok s' -> step_ascii s = true -> step_ascii s' = true ->
  ascii_string (sg_PreviousStepHash s) = true -> ascii_string (sg_PreviousStepHash s') = true ->
  sg_StepHash s = sg_StepHash s' -> link s = link s' \/ sha256_collision.
Proof.
  unfold step_ascii. intros Hs Hs' Ha Ha' Hp Hp' E. cbn [forallb] in Ha, Ha'. bool_hyps.
  assert (forall r r', sg_StepHash s = sha256_hex r -> sg_StepHash s' = sha256_hex r' ->
    r = r' \/ sha256_collision) as Hraw.
  { intros r r' Er Er'. destruct (decide (r = r')); [by left|right]. exists r, r'. split; congruence. }
  unfold link.
  destruct Hs as [[Ht (r & R & Hr)%hash_checked_Some]|[Ht (r & R & Hr)%hash_checked_Some]],
    Hs' as [[Ht' (r' & R' & Hr')%hash_checked_Some]|[Ht' (r' & R' & Hr')%hash_checked_Some]];
    destruct (Hraw r r' Hr Hr') as [<-|?]; try (by right); left; clear Hraw Hr Hr' E;
    rewrite Ht, Ht'.
  - apply normal_raw in R, R'. rewrite R in R'. clear R.
    apply encoded4_inj in R' as (_ & -> & -> & -> & ->); [done|apply ascii4; done..|done|done].
  - apply normal_raw in R. apply synthetic_raw in R'. rewrite R in R'. clear R.
    apply encoded4_inj in R' as (Ek & _); [discriminate Ek|apply ascii4; done..|done|done].
  - apply synthetic_raw in R. apply normal_raw in R'. rewrite R in R'. clear R.
    apply encoded4_inj in R' as (Ek & _); [discriminate Ek|apply ascii4; done..|done|done].
  - apply synthetic_raw in R, R'. rewrite R in R'. clear R.
    apply encoded4_inj in R' as (_ & -> & -> & -> & ->); [done|apply ascii4; done..|done|done].
Qed.

(** ** Chains *)

Lemma chain_snoc_inv p l s h : chain p (l ++ [s]) h ->
  chain p l (sg_PreviousStepHash s) /\ step_ok s /\ h = sg_StepHash s.
Proof.
  revert p. induction l as [|s0 l IH]; intros p; simpl.
  - intros (-> & Hs & ->). done.
  - intros (-> & Hs0 & (Hc & Hs & ->)%IH). done.
Qed.

Lemma step_hash_hex s : step_ok s -> exists raw, sg_StepHash s = sha256_hex raw.
Proof. intros [[_ (r & _ & ->)%hash_checked_Some]|[_ (r & _ & ->)%hash_checked_Some]]; eauto. Qed.

Lemma chain_end l h : chain "" l h -> (l = [] /\ h = "") \/ exists raw, h = sha256_hex raw.
Proof.
  destruct l as [|s l _] using rev_ind; [simpl; by left|].
  intros (_ & Hs & ->)%chain_snoc_inv. right. by apply step_hash_hex.
Qed.

Lemma chain_ascii l h : chain "" l h -> ascii_string h = true.
Proof. intros [[_ ->]|[raw ->]]%chain_end; [done|apply hex_ascii]. Qed.

Lemma chain_links l l' h : chain "" l h -> chain "" l' h ->
  forallb step_ascii l = true -> forallb step_ascii l' = true ->
  map link l = map link l' \/ sha256_collision.
Proof.
  revert l' h. induction l as [|s l IH] using rev_ind; intros l' h Hl Hl' Ha Ha'.
  - simpl in Hl. subst h. apply chain_end in Hl' as [[-> _]|[raw Hraw]]; [by left|].
    symmetry in Hraw. by apply sha256_hex_nonempty in Hraw.
  - apply chain_snoc_inv in Hl as (Hl & Hs & ->).
    destruct l' as [|s' l' _] using rev_ind.
    { simpl in Hl'. destruct (step_hash_hex s Hs) as [raw Hr]. rewrite Hr in Hl'.
      symmetry in Hl'. by apply sha256_hex_nonempty in Hl'. }
    apply chain_snoc_inv in Hl' as (Hl' & Hs' & E).
    rewrite !forallb_app in Ha, Ha'. simpl in Ha, Ha'. bool_hyps.
    destruct (link_inj s s') as [El|?]; eauto using chain_ascii.
    assert (sg_PreviousStepHash s' = sg_PreviousStepHash s) as Ep by (unfold link in El; congruence).
    rewrite Ep in Hl'. destruct (IH l' _ Hl Hl') as [Em|?]; [done|done| |by right].
    left. rewrite !map_app, Em. simpl. by rewrite El.
Qed.
