(* ===== verification/RunExamples.v ===== *)
(** * A concrete history, the input of the witnesses

    One low-risk run: created, advanced with an allowed decision, parked,
    resumed.  Every step is evaluated. *)

From S2P Require Import Prelude GoStrings Sha256 GoTime GoJson RunTypes RunStates RunOutbox RunKernel RunSweeps RunInvariant RunOps RunAdvance RunMaint RunTrace.

#[export] Instance no_urls : UrlParser := fun _ => None.

Definition demo_cfg : Config := {|
  cfg_ContinuationTTL := 0; cfg_ContinuationRetention := 0; cfg_IdempotencyTTL := 0;
  cfg_RunRetention := 0; cfg_CreateRequestRetention := 0; cfg_OutboxMaxEvents := 0;
  cfg_OutboxRetention := 0; cfg_RunMaxLifetime := ∅; cfg_ZombieNoProgressWindow := 0;
  cfg_SweepBatchLimit := 0 |}.

Definition t0 : time := unix_epoch + 1700000000 * Second.
Definition at_minute (n : Z) : time := t0 + n * Minute.

Definition demo_snapshot : SnapshotInput := mk_SnapshotInput "policy" "model" "deps" "skills" "ctx".
Definition demo_create : CreateRunRequest :=
  mk_CreateRunRequest "req-1" "tenant-1" "workflow-1" "v1" " LOW " "input" demo_snapshot.

Definition demo_reference : DecisionReference := {|
  dr_DecisionID := "dec-1"; dr_RunID := ""; dr_StepID := ""; dr_AttemptIndex := 1;
  dr_Phase := "pre_tool"; dr_Decision := "ALLOW";
  dr_Obligations := [mk_DecisionObligation "attach_tag" "team" "blue" "" 0;
                     mk_DecisionObligation "limit_param" "max_step_seq_id" "100" "PRE_CONTEXT" 0];
  dr_DecisionHash := "decision-hash"; dr_HashValid := true; dr_HashKind := "stable" |}.

(** A decision side that knows one decision and accepts every receipt. *)
Definition demo_port : DecisionPort := {|
  IsDecisionConfirmed := fun id _ _ => (id =? "dec-1")%string;
  GetDecisionReference := fun id => if (id =? "dec-1")%string then Some demo_reference else None;
  IsDecisionConfirmedWithOwner := fun id _ _ _ _ => (id =? "dec-1")%string;
  ValidateExecutionReceiptForRun := fun _ _ _ _ _ _ => (true, []) |}.

Definition demo_advance (version seq : Z) (next : string) : AdvanceRunRequest := {|
  ar_ExpectedStateVersion := version; ar_StepID := "step-1"; ar_StepVersion := "1";
  ar_IdempotencyKey := fmt_d seq;
  ar_DecisionRef := mk_DecisionRef "dec-1" "decision-hash" "stable";
  ar_ExecutionReceiptRef := "receipt-1"; ar_ExecutionUsedResources := None;
  ar_ExecutionReceiptAt := t0; ar_IncomingStepSeqID := seq; ar_InputHash := "in";
  ar_OutputHash := "out"; ar_NextState := next |}.

Definition demo_park : ParkRunRequest := mk_ParkRunRequest 2 "step-2" 2 "" "waiting" 0.

Definition k0 : Kernel := NewKernel demo_cfg.
Definition k1 : Kernel := Eval vm_compute in fst (CreateRun demo_create t0 k0).
Definition demo_id : string := Eval vm_compute in
  match snd (CreateRun demo_create t0 k0) with Ok r => crr_RunID r | Err _ => "" end.
Definition k2 : Kernel := Eval vm_compute in
  fst (AdvanceRun (Some demo_port) demo_id (demo_advance 1 1 "") (at_minute 1) k1).
Definition k3 : Kernel := Eval vm_compute in fst (ParkRun demo_id demo_park (at_minute 2) k2).
Definition demo_token : string := Eval vm_compute in
  match snd (ParkRun demo_id demo_park (at_minute 2) k2) with
  | Ok r => prr_ContinuationToken r | Err _ => "" end.
Definition demo_resume : ResumeRunRequest := mk_ResumeRunRequest demo_token "go" "receipt-2" 3 "".
Definition k4 : Kernel := Eval vm_compute in
  fst (ResumeRun demo_id demo_resume (at_minute 3) k3).

(** Aborted after the advance, then asked to park. *)
Definition demo_abort : AbortRunRequest := mk_AbortRunRequest "stop".
Definition k5 : Kernel := Eval vm_compute in fst (AbortRun demo_id demo_abort (at_minute 3) k2).
Definition k6 : Kernel := Eval vm_compute in fst (ParkRun demo_id demo_park (at_minute 4) k5).

Definition no_run : runInstance :=
  mk_runInstance
    (mk_RunView "" "" "" "" "" "" 0 "" "" "" "" 0 "" "" "" ∅ 0 0 0 0
       (mk_RunSnapshot "" "" "" "" "" "" 0) (mk_RootAnchors "" "" "" "" "")) 0 false false 0.
Definition run_in (k : Kernel) (id : string) : runInstance := default no_run (k_runs k !! id).
Definition r1 : runInstance := Eval vm_compute in run_in k1 demo_id.
Definition r2 : runInstance := Eval vm_compute in run_in k2 demo_id.
Definition r3 : runInstance := Eval vm_compute in run_in k3 demo_id.
Definition r4 : runInstance := Eval vm_compute in run_in k4 demo_id.
Definition r5 : runInstance := Eval vm_compute in run_in k5 demo_id.
Definition r6 : runInstance := Eval vm_compute in run_in k6 demo_id.

Lemma step_exec (o : op) k k' : exec (MR := canonical_range) o k = k' -> step k k'.
Proof. intros <-. apply (step_op canonical_range). Qed.

Lemma k1_reach : reach demo_cfg 1 k1.
Proof.
  apply (steps_S _ _ k0); [constructor|].
  apply (step_exec (OpCreate demo_create t0)). vm_compute. reflexivity.
Qed.

Lemma k2_reach : reach demo_cfg 2 k2.
Proof.
  apply (steps_S _ _ k1); [exact k1_reach|].
  apply (step_exec (OpAdvance (Some demo_port) demo_id (demo_advance 1 1 "") (at_minute 1))).
  vm_compute. reflexivity.
Qed.

Lemma k3_reach : reach demo_cfg 3 k3.
Proof.
  apply (steps_S _ _ k2); [exact k2_reach|].
  apply (step_exec (OpPark demo_id demo_park (at_minute 2))). vm_compute. reflexivity.
Qed.

Lemma k4_reach : reach demo_cfg 4 k4.
Proof.
  apply (steps_S _ _ k3); [exact k3_reach|].
  apply (step_exec (OpResume demo_id demo_resume (at_minute 3))). vm_compute. reflexivity.
Qed.

Lemma k5_reach : reach demo_cfg 3 k5.
Proof.
  apply (steps_S _ _ k2); [exact k2_reach|].
  apply (step_exec (OpAbort demo_id demo_abort (at_minute 3))). vm_compute. reflexivity.
Qed.

Lemma k5_step : steps 1 k5 k6.
Proof.
  apply (steps_S _ _ k5); [constructor|].
  apply (step_exec (OpPark demo_id demo_park (at_minute 4))). vm_compute. reflexivity.
Qed.

Lemma k3_step : steps 1 k3 k4.
Proof.
  apply (steps_S _ _ k3); [constructor|].
  apply (step_exec (OpResume demo_id demo_resume (at_minute 3))). vm_compute. reflexivity.
Qed.

Lemma reach_reachable n k : reach demo_cfg n k -> Z.of_nat n + 1 < 2 ^ 64 -> reachable k.
Proof. intros Hr Hn. by exists demo_cfg, n. Qed.
