(* ===== verification/RunTheorems.v ===== *)
(** * The properties of the Run kernel

    Safety over every history of calls, the exact conditions and effects of
    each call, and the bounds.  Each property with hypotheses has a witness:
    the property applied to the history of [RunExamples]. *)

From S2P Require Import Prelude GoStrings Sha256 GoTime GoJson RunTypes RunStates RunOutbox RunKernel RunSweeps RunInvariant RunOps RunAdvance RunMaint RunEffect RunCalls RunTrace RunTamper RunExamples.

(** ** Every history *)

Section Histories.
Context {JM : JsonMarshaler} {UP : UrlParser}.

(** C4: every kernel a service can reach satisfies the invariant: each run's
    state is a known constant, its step records form a hash chain from the
    empty hash to [LastStepHash] and each record's hash is the hash of its
    fields, its snapshot hash is that of its snapshot, its root fields agree,
    and every cache entry refers to a live run. *)
Theorem reachable_kernel_invariant k : reachable k -> Inv k.
Proof. intros Hk. by apply reachable_inv. Qed.

(** C9: quarantine is permanent.  A run in SAFEGUARD_HOLD,
    FORCE_REVIEW_REQUIRED, FORCE_ABORT or ABORTED is in one of these states
    after any further calls, as long as it is stored: it never runs,
    completes or resumes again. *)
Theorem quarantine_permanent n k k' id r r' q :
  reachable k -> steps n k k' -> k_runSeq k + Z.of_nat n < 2 ^ 64 ->
  k_runs k !! id = Some r -> rv_State (ri_view r) = state_name q -> quarantined q ->
  k_runs k' !! id = Some r' ->
  exists q', rv_State (ri_view r') = state_name q' /\ quarantined q'.
Proof.
  intros [HI _]%reachable_inv Hs Hb Hr Hq Hqq Hr'.
  destruct (steps_fate _ _ _ _ _ Hs HI Hb Hr) as [?|(r2 & Hr2 & [_ Hst _ _])]; [congruence|].
  simplify_eq. destruct (Hst _ Hq) as (q' & Hq' & Hrtc). exists q'. split; [done|].
  clear -Hqq Hrtc. induction Hrtc; eauto using abs_step_quarantined.
Qed.

(** A terminal run is final.  Once COMPLETED, FAILED, FORCE_ABORT or
    ABORTED, the view of a run never changes again: after any further calls
    the run is either gone or exactly as it was. *)
Theorem terminal_final n k k' id r r' :
  reachable k -> steps n k k' -> k_runSeq k + Z.of_nat n < 2 ^ 64 ->
  k_runs k !! id = Some r -> isTerminalState (rv_State (ri_view r)) = true ->
  k_runs k' !! id = Some r' -> ri_view r' = ri_view r.
Proof.
  intros [HI _]%reachable_inv Hs Hb Hr Ht Hr'.
  destruct (steps_fate _ _ _ _ _ Hs HI Hb Hr) as [?|(r2 & Hr2 & [_ _ _ Hf])]; [congruence|].
  simplify_eq. auto.
Qed.

(** C15: the kernel refines the abstract state machine.  Over any history, the
    state of a run follows edges of [abs_step], its identity fields never
    change, and its recorded steps are only extended; the run's identifier is
    never issued again. *)
Theorem kernel_refines_machine n k k' id r :
  reachable k -> steps n k k' -> k_runSeq k + Z.of_nat n < 2 ^ 64 -> k_runs k !! id = Some r ->
  match k_runs k' !! id with
  | None => True
  | Some r' =>
    identity_of (ri_view r') = identity_of (ri_view r) /\
    StepIntegrities k id `prefix_of` StepIntegrities k' id /\
    exists q q', rv_State (ri_view r) = state_name q /\ rv_State (ri_view r') = state_name q' /\
      rtc abs_step q q'
  end.
Proof.
  intros [HI _]%reachable_inv Hs Hb Hr.
  destruct (run_state_named _ _ _ HI Hr) as [q Hq].
  destruct (steps_fate _ _ _ _ _ Hs HI Hb Hr) as [->|(r2 & -> & [H1 H2 H3 _])]; [done|].
  split_and!; [done|done|]. destruct (H2 q Hq) as (q' & ? & ?). by exists q, q'.
Qed.

(** Progress of one call.  A call either leaves a run's chain head,
    sequence number and version alone, or commits one step: the run was not
    terminal, its version grows by exactly one and its sequence number
    strictly increases (while below the 64-bit maximum). *)
Theorem step_progress k k' id r r' :
  reachable k -> step k k' -> k_runs k !! id = Some r -> k_runs k' !! id = Some r' ->
  0 <= rv_CurrentStepSeqID (ri_view r) < max_int64 ->
  0 <= rv_StateVersion (ri_view r) < max_int64 ->
  idle (ri_view r) (ri_view r') \/
  isTerminalState (rv_State (ri_view r)) = false /\
  rv_StateVersion (ri_view r') = rv_StateVersion (ri_view r) + 1 /\
  rv_CurrentStepSeqID (ri_view r) < rv_CurrentStepSeqID (ri_view r').
Proof.
  intros [HI Hb]%reachable_inv Hs Hr Hr' Hseq Hver. destruct Hs as [MR o k].
  destruct (fr_old _ _ (exec_frame o k HI Hb) _ _ Hr) as (r2 & [_ _ Hp _] & [[Hr2 _]|[? _]]);
    [|congruence]. simplify_eq.
  assert (min_int64 <= 0) by done.
  destruct Hp as [?|(Ht & Hv & Hs)]; [by left|right]. rewrite wrap_int64_succ in Hv by lia.
  split_and!; [done|done|]. rewrite wrap_int64_succ in Hs by lia. lia.
Qed.

(** The outbox is a queue.  After any history the outbox is the tail of
    the sequence of all events emitted so far, these carry consecutive
    identifiers, and at most [OutboxMaxEvents] of them are held. *)
Theorem outbox_history cfg n k :
  reach cfg n k ->
  exists emitted gone, emitted = gone ++ k_outbox k /\
    map ev_EventID emitted = event_ids 0 (length emitted) /\
    Z.of_nat (length (k_outbox k)) <= cfg_OutboxMaxEvents (k_cfg k).
Proof.
  intros Hr. destruct (steps_feed _ _ _ Hr) as [Hc (es & gone & Hf & Hi & _) Hb].
  exists es, gone. split_and!; [exact Hf|exact Hi|]. rewrite Hc. apply Hb; [|simpl].
  all: simpl; unfold default_if; case_match; bool_hyps; lia.
Qed.
End Histories.

(** ** Witnesses of the histories *)

Lemma reachable_kernel_invariant_witness : Inv k4.
Proof. apply reachable_kernel_invariant, (reach_reachable 4); [exact k4_reach|reflexivity]. Defined.

Lemma quarantine_permanent_witness : exists q, rv_State (ri_view r6) = state_name q /\ quarantined q.
Proof.
  apply (quarantine_permanent 1 k5 k6 demo_id r5 r6 Aborted).
  - apply (reach_reachable 3); [exact k5_reach|reflexivity].
  - exact k5_step.
  - reflexivity.
  - vm_compute. reflexivity.
  - reflexivity.
  - decide_state.
  - vm_compute. reflexivity.
Defined.

Lemma terminal_final_witness : ri_view r6 = ri_view r5.
Proof.
  apply (terminal_final 1 k5 k6 demo_id r5 r6).
  - apply (reach_reachable 3); [exact k5_reach|reflexivity].
  - exact k5_step.
  - reflexivity.
  - vm_compute. reflexivity.
  - vm_compute. reflexivity.
  - vm_compute. reflexivity.
Defined.

Lemma kernel_refines_machine_witness : StepIntegrities k3 demo_id `prefix_of` StepIntegrities k4 demo_id.
Proof.
  assert (k_runs k4 !! demo_id = Some r4) as Hr4 by (vm_compute; reflexivity).
  pose proof (kernel_refines_machine 1 k3 k4 demo_id r3) as Hw. rewrite Hr4 in Hw. apply Hw.
  - apply (reach_reachable 3); [exact k3_reach|reflexivity].
  - exact k3_step.
  - reflexivity.
  - vm_compute. reflexivity.
Defined.

Lemma step_progress_witness :
  idle (ri_view r3) (ri_view r4) \/
  isTerminalState (rv_State (ri_view r3)) = false /\
  rv_StateVersion (ri_view r4) = rv_StateVersion (ri_view r3) + 1 /\
  rv_CurrentStepSeqID (ri_view r3) < rv_CurrentStepSeqID (ri_view r4).
Proof.
  apply (step_progress k3 k4 demo_id r3 r4).
  - apply (reach_reachable 3); [exact k3_reach|reflexivity].
  - apply (step_exec (OpResume demo_id demo_resume (at_minute 3))). vm_compute. reflexivity.
  - vm_compute. reflexivity.
  - vm_compute. reflexivity.
  - vm_compute. split; congruence.
  - vm_compute. split; congruence.
Defined.

Lemma outbox_history_witness : exists emitted gone, emitted = gone ++ k_outbox k4 /\
  map ev_EventID emitted = event_ids 0 (length emitted) /\
  Z.of_nat (length (k_outbox k4)) <= cfg_OutboxMaxEvents (k_cfg k4).
Proof. apply (outbox_history demo_cfg 4). exact k4_reach. Defined.
