(* ===== verification/RunCallTheorems.v ===== *)
(** * The properties of the single calls of the Run kernel

    For each call, when it succeeds and what it then does. *)

From S2P Require Import Prelude GoStrings Sha256 GoTime GoJson RunTypes RunStates RunOutbox RunKernel RunSweeps RunInvariant RunOps RunAdvance RunMaint RunEffect RunCalls RunTrace RunExamples.

Section Calls.
Context {JM : JsonMarshaler} {UP : UrlParser} {MR : MapRange}.

(** C1: an advance is accepted exactly when it should be.  On a fresh
    idempotency key, [AdvanceRun] succeeds if and only if the run is active,
    the request is complete, the expected version matches, the sequence
    number increases, the decision is known, confirmed, stable, bound to this
    run and step, of the announced kind and hash and executable, its receipt
    is valid, all its obligations are met and the transition is an edge of
    the state machine. *)
Theorem advance_accepted_iff port id req now k r q :
  k_runs k !! id = Some r -> rv_State (ri_view r) = state_name q ->
  k_idempotency k !! idem_key id req = None ->
  (exists resp, snd (AdvanceRun port id req now k) = Ok resp) <->
  (exists q' ref h, advance_ok port id req (ri_view r) q q' ref h).
Proof.
  intros Hr Hq Hfresh. split.
  - intros [resp E]. destruct (AdvanceRun port id req now k) as [k' res] eqn:Ea. simpl in E. subst res.
    destruct (AdvanceRun_Ok _ _ _ _ _ _ _ _ _ Hr Hq Hfresh Ea) as (ref & q' & h & _ & Hok & _).
    by exists q', ref, h.
  - intros (q' & ref & h & Hok). by eapply AdvanceRun_accepts.
Qed.

(** C33: what an accepted advance does.  The run moves to the requested state
    with its version bumped and the given sequence number, the hash of the new
    step becomes the chain head, exactly one record is appended to the run's
    chain, tags are those the obligations attach, the response reports the
    stored state, and every other run is untouched. *)
Theorem advance_effect port id req now k k' resp r q :
  k_runs k !! id = Some r -> rv_State (ri_view r) = state_name q ->
  k_idempotency k !! idem_key id req = None -> AdvanceRun port id req now k = (k', Ok resp) ->
  exists q' ref h, advance_ok port id req (ri_view r) q q' ref h /\
    let v := ri_view (with_tags ref r) in
    let v' := advanced_view req h now v in
    k_runs k' = <[id := ri_set_noProgressScans 0 (ri_set_view v' (with_tags ref r))]> (k_runs k) /\
    rv_State v' = state_name q' /\ rv_StateVersion v' = wrap_int64 (rv_StateVersion (ri_view r) + 1) /\
    rv_CurrentStepSeqID v' = ar_IncomingStepSeqID req /\ rv_LastStepHash v' = h /\
    StepIntegrities k' id = StepIntegrities k id ++ [normal_step id req h now (ri_view r)] /\
    resp = advance_response req h v'.
Proof.
  intros Hr Hq Hfresh Ea.
  destruct (AdvanceRun_Ok _ _ _ _ _ _ _ _ _ Hr Hq Hfresh Ea) as (ref & q' & h & k1 & Hok & Hk1 & Happ).
  exists q', ref, h. split; [done|]. cbv zeta.
  destruct (advance_apply id req ref (with_tags ref r) h now k1) as [[k2 r2] resp2] eqn:E2.
  destruct Happ as [-> ->].
  destruct (advance_apply_state _ _ _ _ _ _ _ _ _ _ E2) as (A1 & A2 & A3 & A4 & _).
  destruct (advanced_view_fields req h now (ri_view (with_tags ref r)))
    as (_ & F2 & _ & _ & F5 & F6 & F7 & _).
  destruct (same_core_fields _ _ Hk1) as (_ & C2 & _ & _ & _ & C6 & _).
  split_and!; try done.
  - simpl. by rewrite A3, C2, A2.
  - rewrite F5. apply Hok.
  - change (StepIntegrities (store_run id r2 k2) id) with (StepIntegrities k2 id). rewrite A4.
    unfold StepIntegrities. by rewrite C6.
Qed.

(** C34: a failed advance commits nothing.  The chain head, sequence number and
    version of the run stay, its state stays or becomes SAFEGUARD_HOLD, no
    step is recorded, no response is cached, and no other run changes. *)
Theorem advance_failure_holds port id req now k k' r e :
  k_runs k !! id = Some r -> AdvanceRun port id req now k = (k', Err e) ->
  k_stepIntegrity k' = k_stepIntegrity k /\ k_idempotency k' = k_idempotency k /\
  k_continuations k' = k_continuations k /\ k_createRuns k' = k_createRuns k /\
  exists r', k_runs k' = <[id := r']> (k_runs k) /\ idle (ri_view r) (ri_view r') /\
    identity_of (ri_view r') = identity_of (ri_view r) /\
    (rv_State (ri_view r') = rv_State (ri_view r) \/ rv_State (ri_view r') = StateSafeguardHold).
Proof.
  intros Hr Ea. destruct (AdvanceRun_Err _ _ _ _ _ _ _ _ Hr Ea) as (r' & Hh & E1 & E2 & E3 & E4 & E5).
  split_and!; try done. exists r'. split; [done|]. by eapply held_view.
Qed.

(** Retries of an advance are idempotent.  While the run is active,
    repeating an accepted call gives the same response and commits nothing:
    only the access time of the cache entry moves. *)
Theorem advance_idempotent port port' id req now now' k k' resp r q q' :
  k_runs k !! id = Some r -> rv_State (ri_view r) = state_name q ->
  k_idempotency k !! idem_key id req = None -> AdvanceRun port id req now k = (k', Ok resp) ->
  next_state req = state_name q' -> ~ terminal q' -> ~ waiting q' ->
  exists e, k_idempotency k' !! idem_key id req = Some e /\
    AdvanceRun port' id req now' k' =
      (k_set_idempotency (<[idem_key id req := ie_set_LastAccessAt now' e]> (k_idempotency k')) k',
       Ok resp).
Proof.
  intros Hr Hq Hfresh Ea Hq' Ht Hw.
  destruct (AdvanceRun_Ok _ _ _ _ _ _ _ _ _ Hr Hq Hfresh Ea) as (ref & q2 & h & k1 & Hok & Hk1 & Happ).
  destruct (advance_apply id req ref (with_tags ref r) h now k1) as [[k2 r2] resp2] eqn:E2.
  destruct Happ as [-> ->].
  destruct (advance_apply_state _ _ _ _ _ _ _ _ _ _ E2) as (A1 & A2 & A3 & _ & A5).
  destruct (advanced_view_fields req h now (ri_view (with_tags ref r))) as (_ & _ & _ & _ & F5 & _).
  exists (mk_idempotencyEntry id resp2 now now).
  assert (k_idempotency (store_run id r2 k2) !! idem_key id req =
    Some (mk_idempotencyEntry id resp2 now now)) as Hc.
  { simpl. rewrite A5, lookup_insert_eq; [done|]. rewrite Hq'. by apply terminal_of_name. }
  split; [done|]. unfold AdvanceRun, getRunLocked. rewrite Hc. simpl k_runs. rewrite lookup_insert_eq.
  cbv zeta. rewrite A2. cbn [ri_view ri_set_view ri_set_noProgressScans]. rewrite F5, Hq'.
  rewrite isTerminalState_name, waiting_fold, !bool_decide_eq_false_2 by done.
  destruct Hok as [_ (-> & -> & -> & _) _ _ _ _ _ _]. done.
Qed.

Lemma resume_commit_consumes id req c r now k k' resp :
  resume_commit id req c r now k = (k', Ok resp) ->
  k_continuations k' !! rr_ContinuationToken req =
    Some (c |> ct_set_Status "consumed" |> ct_set_ConsumedAt (Some now)) /\
  is_Some (k_runs k' !! id).
Proof.
  unfold resume_commit. destruct (appendSyntheticStepLocked _ _ _ _ _ _ _ _) as [k1 [h|err]]; [|done].
  set (v' := resumed_view _ _ _ _ _). set (c' := c |> ct_set_Status "consumed" |> _).
  set (k2 := emit _ _ _ _ _ _). intros [<- _]%pair_inv_eq.
  destruct (same_core_fields k2 (store_continuation (rr_ContinuationToken req) c'
    (store_run id (r |> ri_set_view v' |> ri_set_noProgressScans 0) k1))) as (_ & -> & -> & _);
    [apply emit_core|]. simpl. rewrite !lookup_insert_eq. by split.
Qed.

(** A continuation token resumes at most once.  After a successful resume,
    presenting the same token again, for this run or another, at any time,
    fails and changes nothing; for this run the error says it was consumed. *)
Theorem resume_single_use id req now k k' resp r id' req' now' :
  k_runs k !! id = Some r -> ResumeRun id req now k = (k', Ok resp) ->
  rr_ContinuationToken req' = rr_ContinuationToken req ->
  fst (ResumeRun id' req' now' k') = k' /\
  exists e, snd (ResumeRun id' req' now' k') = Err e /\
    (id' = id -> ke_Code e = "RUN_CONTINUATION_CONSUMED").
Proof.
  intros Hr Ea Htok. destruct (ResumeRun_Ok _ _ _ _ _ _ _ Hr Ea) as (c & Hok & Hc).
  apply resume_commit_consumes in Hc as [Hc [r' Hr']].
  unfold ResumeRun, getRunLocked. rewrite Htok, Hc. cbv zeta.
  destruct (k_runs k' !! id') as [r2|] eqn:E2; [|split; [done|eexists; split; [done|congruence]]].
  rewrite (rs_token _ _ _ _ _ _ Hok). simpl ct_RunID. rewrite (rs_run _ _ _ _ _ _ Hok).
  destruct (negb (id =? id')%string) eqn:Eid; simpl; (split; [done|]); eexists; (split; [done|]); [|done].
  bool_hyps. congruence.
Qed.

(** What [CreateRun] returns.  A repeated request with a cached entry gets
    the stored response and creates nothing; otherwise a run with an unused
    identifier is added, RUNNING at version 1 and sequence 0, with the
    request's fields and a lifetime set by its risk, and no stored run
    changes. *)
Theorem create_run_outcome req now k k' resp :
  reachable k -> CreateRun req now k = (k', Ok resp) ->
  match k_createRuns k !! create_key req with
  | Some e => resp = ce_Response e /\ k_runs k' = k_runs k /\
              hash_checked (create_fingerprint_input req) = Some (ce_RequestHash e)
  | None => exists fp r, created req fp now k k' resp r
  end.
Proof.
  intros [HI Hb]%reachable_inv E. destruct (CreateRun_Ok _ _ _ _ _ HI Hb E) as (fp & Hfp & Hm).
  destruct (k_createRuns k !! create_key req) as [e|].
  - destruct Hm as (<- & ? & ? & _). done.
  - by exists fp.
Qed.

(** Creation is idempotent and detects conflicts.  Right after a
    successful [CreateRun], the same request returns the same response and
    adds no run; a different payload under the same tenant and request id is
    rejected with a conflict and adds no run either. *)
Theorem create_run_idempotent req now k k' resp req' now' fp fp' :
  reachable k -> CreateRun req now k = (k', Ok resp) ->
  hash_checked (create_fingerprint_input req) = Some fp ->
  create_key req' = create_key req -> hash_checked (create_fingerprint_input req') = Some fp' ->
  (req' = req -> snd (CreateRun req' now' k') = Ok resp) /\
  (fp' <> fp -> forall resp', snd (CreateRun req' now' k') <> Ok resp') /\
  k_runs (fst (CreateRun req' now' k')) = k_runs k'.
Proof.
  intros [HI Hb]%reachable_inv E Hfp Hkey Hfp'.
  destruct (CreateRun_Ok _ _ _ _ _ HI Hb E) as (fp0 & Hfp0 & Hm). simplify_eq.
  assert (exists e, k_createRuns k' !! create_key req = Some e /\ ce_RequestHash e = fp /\
    ce_Response e = resp /\ is_Some (k_runs k' !! ce_RunID e)) as (e & He & Hh & Hresp & [r Hr]).
  { destruct (k_createRuns k !! create_key req) as [e|] eqn:He.
    - destruct Hm as (<- & -> & E1 & E2). exists (ce_set_LastAccessAt now e).
      rewrite E2, lookup_insert_eq, E1. split_and!; try done. exact (create_entry_run k _ e HI He).
    - destruct Hm as (r & [D1 D2 _ _ _ D5]). rewrite D5. eexists. split_and!; try done.
      rewrite D2. simpl. rewrite lookup_insert_eq. done. }
  clear Hm. unfold CreateRun in *. cbv zeta in *. rewrite Hkey, He, Hfp', Hr. split_and!.
  - intros ->. simplify_eq. destruct (_ || blank _); [done|]. destruct (negb (isValidRisk _)); [done|].
    destruct (blank _); [done|]. by rewrite String.eqb_refl.
  - clear E. intros Hfpne resp'. destruct (_ || blank _); [done|]. destruct (negb (isValidRisk _)); [done|].
    destruct (blank _); [done|]. rewrite Hh, (proj2 (String.eqb_neq _ _)) by congruence. done.
  - clear E. destruct (_ || blank _); [done|]. destruct (negb (isValidRisk _)); [done|].
    destruct (blank _); [done|]. destruct (negb (_ =? fp')%string); cbn [fst]; by rewrite emit_runs.
Qed.

(** The continuation found is the best active one.  Whatever the order of
    the map, [FindActiveContinuation] returns an active continuation matching
    the filters that no other matching one beats (by sequence number, then
    creation time), and returns none only when there is none. *)
Theorem find_active_best k runID stepID tokenType now :
  TrimSpace runID <> "" ->
  let ok := active_for (TrimSpace runID) (TrimSpace stepID) (ToLower (TrimSpace tokenType)) now in
  match FindActiveContinuation k runID stepID tokenType now with
  | Some c => (exists t, k_continuations k !! t = Some c) /\ ok c = true /\
              forall t c', k_continuations k !! t = Some c' -> ok c' = true -> better c' c = false
  | None => forall t c', k_continuations k !! t = Some c' -> ok c' = false
  end.
Proof.
  intros Hne. cbv zeta. unfold FindActiveContinuation. cbv zeta.
  rewrite (proj2 (String.eqb_neq _ _)) by done.
  pose proof (range_best (active_for (TrimSpace runID) (TrimSpace stepID)
    (ToLower (TrimSpace tokenType)) now) (k_continuations k)) as Hb.
  destruct (go_range _ _ _) as [c|].
  - destruct Hb as (Hin & Hok & Hb). split_and!; [by apply range_values|done|].
    intros t c' Ht. apply Hb, range_values. by exists t.
  - intros t c' Ht. apply Hb, range_values. by exists t.
Qed.
End Calls.

Section Resuming.
Context {UP : UrlParser} {MR : MapRange}.

(** C37: when a run resumes.  [ResumeRun] succeeds if and only if the token
    names an unconsumed, unexpired continuation of this run for its current
    step, of the type the waiting state asks for, the snapshot matches when
    given, and the sequence number increases. *)
Theorem resume_accepted_iff id req now k r :
  k_runs k !! id = Some r ->
  (exists resp, snd (ResumeRun id req now k) = Ok resp) <->
  (exists c, resume_ok id req now k (ri_view r) c).
Proof.
  intros Hr. split.
  - intros [resp E]. destruct (ResumeRun id req now k) as [k' res] eqn:Ea. simpl in E. subst res.
    destruct (ResumeRun_Ok _ _ _ _ _ _ _ Hr Ea) as (c & Hc & _). by exists c.
  - intros [c Hc]. rewrite (ResumeRun_accepts _ _ _ _ _ _ Hr Hc).
    apply resume_commit_result, synthetic_hash_total.
Qed.
End Resuming.

(** ** Witnesses *)

Lemma advance_accepted_iff_witness :
  exists q' ref h, advance_ok (Some demo_port) demo_id (demo_advance 1 1 "") (ri_view r1) Running q' ref h.
Proof.
  apply (advance_accepted_iff (Some demo_port) demo_id (demo_advance 1 1 "") (at_minute 1) k1 r1 Running).
  - vm_compute. reflexivity.
  - reflexivity.
  - vm_compute. reflexivity.
  - eexists. vm_compute. reflexivity.
Defined.

(** The response of the accepted advance of the history. *)
Definition demo_advanced : AdvanceRunResponse := Eval vm_compute in
  match snd (AdvanceRun (Some demo_port) demo_id (demo_advance 1 1 "") (at_minute 1) k1) with
  | Ok r => r | Err _ => mk_AdvanceRunResponse "" "" 0 "" "" 0 "" 0 end.

Lemma demo_advanced_eq :
  AdvanceRun (Some demo_port) demo_id (demo_advance 1 1 "") (at_minute 1) k1 = (k2, Ok demo_advanced).
Proof. vm_compute. reflexivity. Qed.

Lemma advance_effect_witness :
  exists q' ref h, advance_ok (Some demo_port) demo_id (demo_advance 1 1 "") (ri_view r1) Running q' ref h.
Proof.
  destruct (advance_effect (Some demo_port) demo_id (demo_advance 1 1 "") (at_minute 1) k1 k2
    demo_advanced r1 Running) as (q' & ref & h & Hok & _).
  - vm_compute. reflexivity.
  - reflexivity.
  - vm_compute. reflexivity.
  - exact demo_advanced_eq.
  - exists q', ref, h. exact Hok.
Defined.

(** An advance without a decision side is held. *)
Definition demo_rejected : Kernel * result KernelError AdvanceRunResponse := Eval vm_compute in
  AdvanceRun None demo_id (demo_advance 1 1 "") (at_minute 1) k1.
Definition demo_error : KernelError := Eval vm_compute in
  match snd demo_rejected with Err e => e | Ok _ => mk_KernelError 0 "" "" [] end.

Lemma advance_failure_holds_witness :
  exists r', k_runs (fst demo_rejected) = <[demo_id := r']> (k_runs k1) /\
    idle (ri_view r1) (ri_view r') /\ identity_of (ri_view r') = identity_of (ri_view r1) /\
    (rv_State (ri_view r') = rv_State (ri_view r1) \/ rv_State (ri_view r') = StateSafeguardHold).
Proof.
  apply (advance_failure_holds None demo_id (demo_advance 1 1 "") (at_minute 1) k1 (fst demo_rejected)
    r1 demo_error).
  - vm_compute. reflexivity.
  - vm_compute. reflexivity.
Defined.

Lemma advance_idempotent_witness :
  exists e, k_idempotency k2 !! idem_key demo_id (demo_advance 1 1 "") = Some e /\
    AdvanceRun None demo_id (demo_advance 1 1 "") (at_minute 9) k2 =
      (k_set_idempotency (<[idem_key demo_id (demo_advance 1 1 "") :=
         ie_set_LastAccessAt (at_minute 9) e]> (k_idempotency k2)) k2, Ok demo_advanced).
Proof.
  apply (advance_idempotent (Some demo_port) None demo_id (demo_advance 1 1 "") (at_minute 1)
    (at_minute 9) k1 k2 demo_advanced r1 Running Running).
  - vm_compute. reflexivity.
  - reflexivity.
  - vm_compute. reflexivity.
  - exact demo_advanced_eq.
  - reflexivity.
  - decide_state.
  - decide_state.
Defined.

Lemma resume_accepted_iff_witness : exists c, resume_ok demo_id demo_resume (at_minute 3) k3 (ri_view r3) c.
Proof.
  apply (resume_accepted_iff demo_id demo_resume (at_minute 3) k3 r3).
  - vm_compute. reflexivity.
  - eexists. vm_compute. reflexivity.
Defined.

Definition demo_resumed : ResumeRunResponse := mk_ResumeRunResponse "resumed" StateRunning 4.

Lemma demo_resumed_eq : ResumeRun demo_id demo_resume (at_minute 3) k3 = (k4, Ok demo_resumed).
Proof. vm_compute. reflexivity. Qed.

Lemma resume_single_use_witness :
  exists e, snd (ResumeRun demo_id demo_resume (at_minute 5) k4) = Err e /\
    (demo_id = demo_id -> ke_Code e = "RUN_CONTINUATION_CONSUMED").
Proof.
  apply (resume_single_use demo_id demo_resume (at_minute 3) k3 k4 demo_resumed r3 demo_id demo_resume
    (at_minute 5)).
  - vm_compute. reflexivity.
  - exact demo_resumed_eq.
  - reflexivity.
Defined.

Definition demo_created : CreateRunResponse := Eval vm_compute in
  match snd (CreateRun demo_create t0 k0) with Ok r => r | Err _ => mk_CreateRunResponse "" "" "" "" 0 end.

Lemma demo_created_eq : CreateRun demo_create t0 k0 = (k1, Ok demo_created).
Proof. vm_compute. reflexivity. Qed.

Lemma k0_reachable : reachable k0.
Proof. exists demo_cfg, 0%nat. split; [constructor|reflexivity]. Qed.

Lemma create_run_outcome_witness : exists fp r, created demo_create fp t0 k0 k1 demo_created r.
Proof. exact (create_run_outcome demo_create t0 k0 k1 demo_created k0_reachable demo_created_eq). Defined.

(** The same request id with another input. *)
Definition demo_conflict : CreateRunRequest :=
  mk_CreateRunRequest "req-1" "tenant-1" "workflow-1" "v1" "low" "other input" demo_snapshot.
Definition fp_of (req : CreateRunRequest) : string :=
  default "" (hash_checked (create_fingerprint_input req)).

Lemma create_run_idempotent_witness :
  (forall resp, snd (CreateRun demo_conflict (at_minute 1) k1) <> Ok resp) /\
  k_runs (fst (CreateRun demo_conflict (at_minute 1) k1)) = k_runs k1.
Proof.
  destruct (create_run_idempotent demo_create t0 k0 k1 demo_created demo_conflict (at_minute 1)
    (fp_of demo_create) (fp_of demo_conflict)) as (_ & Hc & Hr).
  - exact k0_reachable.
  - exact demo_created_eq.
  - vm_compute. reflexivity.
  - reflexivity.
  - vm_compute. reflexivity.
  - split; [|exact Hr]. apply Hc. vm_compute. congruence.
Defined.

Lemma find_active_best_witness :
  match FindActiveContinuation k3 demo_id "" "" (at_minute 3) with
  | Some c => exists t, k_continuations k3 !! t = Some c
  | None => forall t c', k_continuations k3 !! t = Some c' ->
      active_for (TrimSpace demo_id) (TrimSpace "") (ToLower (TrimSpace "")) (at_minute 3) c' = false
  end.
Proof.
  assert (TrimSpace demo_id <> "") as Hne by (vm_compute; congruence).
  pose proof (find_active_best k3 demo_id "" "" (at_minute 3) Hne) as Hf. cbv zeta in Hf. revert Hf.
  destruct (FindActiveContinuation k3 demo_id "" "" (at_minute 3)) as [c|].
  - intros [Ht _]. exact Ht.
  - intros Hf. exact Hf.
Defined.
