(* ===== verification/RunSweepTheorems.v ===== *)
(** * Sweeps, maintenance, the state machine, tampering and bounds

    The remaining properties of the Run kernel, with their witnesses. *)

From S2P Require Import Prelude GoStrings Sha256 GoTime GoJson RunTypes RunStates RunOutbox RunKernel RunSweeps RunInvariant RunOps RunAdvance RunMaint RunEffect RunCalls RunTrace RunTamper RunExamples.

Section Sweeps.
Context {JM : JsonMarshaler} {UP : UrlParser} {MR : MapRange}.

(** The run map after [f] visited the runs in key order up to the batch limit. *)
Definition swept (f : Config -> runInstance -> runInstance) (k : Kernel) : gmap string runInstance :=
  apply_to f (k_cfg k) (take (Z.to_nat (cfg_SweepBatchLimit (k_cfg k))) (sortedRuns (k_runs k)))
    (k_runs k).

(** The runs the maintenance pass keeps of [m]. *)
Definition retained (cfg : Config) (now : time) (m : gmap string runInstance) (id : string)
  : option runInstance :=
  if (0 <? cfg_RunRetention cfg) && dead_in cfg now m id then None else m !! id.

Lemma sweep_effect f visit now k : visit_ok f visit -> Inv k -> forall id,
  let '(k', res) := sweep_loop visit (sortedRuns (k_runs k)) k empty_SweepResult in
  k_runs (fst (applyMaintenanceLocked now k' res)) !! id = retained (k_cfg k) now (swept f k) id.
Proof.
  intros Hv HI id. pose proof (sweep_spec f visit Hv k HI) as Hs. cbv zeta in Hs.
  destruct (sweep_loop _ _ _ _) as [k' res]. destruct Hs as (_ & Hc & Hr & _).
  destruct (applyMaintenance_runs now k' res) as [E _]. rewrite E.
  unfold retained, retired, swept. by rewrite Hc, Hr.
Qed.

(** What a TTL sweep does.  Every run among the first [SweepBatchLimit]
    in key order is replaced by [ttl_run] of it: forced to abort when past its
    lifetime and flagged, to review when past its lifetime and stuck, and
    otherwise unchanged; the other runs stay; then exactly the terminal runs
    past their retention are dropped. *)
Theorem sweep_ttl_effect now k id : reachable k ->
  k_runs (fst (SweepTTL now k)) !! id =
    retained (k_cfg k) now (swept (fun cfg r => ttl_run cfg now r) k) id.
Proof.
  intros [HI _]%reachable_inv. unfold SweepTTL.
  pose proof (sweep_effect _ _ now k (ttl_visit_ok now) HI id) as Hs.
  by destruct (sweep_loop _ _ _ _).
Qed.

(** What a zombie sweep does, in the same way with [zombie_run]: the
    no-progress counter restarts on progress, and the second idle scan in a
    row forces the run to abort or to review. *)
Theorem sweep_zombie_effect now k id : reachable k ->
  k_runs (fst (SweepZombie now k)) !! id =
    retained (k_cfg k) now (swept (fun cfg r => zombie_run cfg now r) k) id.
Proof.
  intros [HI _]%reachable_inv. unfold SweepZombie.
  pose proof (sweep_effect _ _ now k (zombie_visit_ok now) HI id) as Hs.
  by destruct (sweep_loop _ _ _ _).
Qed.

(** What maintenance keeps.  Whatever the orders of the maps, a run and
    its chain are dropped exactly when the run is terminal and past its
    retention; a cache entry is dropped exactly when it is stale by its own
    retention or its run is dropped, and continuations past their expiry are
    marked expired. *)
Theorem maintenance_effect now k :
  let k' := fst (MaintenanceSweep now k) in
  let cfg := k_cfg k in
  let dead := retired now k in
  (forall id, k_runs k' !! id = if dead id then None else k_runs k !! id) /\
  (forall id, k_stepIntegrity k' !! id = if dead id then None else k_stepIntegrity k !! id) /\
  (forall t, k_continuations k' !! t =
    (k_continuations k !! t ≫= continuation_after cfg now) ≫= keep_alive dead ct_RunID) /\
  (forall t, k_idempotency k' !! t = (k_idempotency k !! t ≫=
    keep_fresh ie_LastAccessAt ie_CreatedAt now (cfg_IdempotencyTTL cfg)) ≫= keep_alive dead ie_RunID) /\
  (forall t, k_createRuns k' !! t = (k_createRuns k !! t ≫= keep_alive dead ce_RunID) ≫=
    keep_fresh ce_LastAccessAt ce_CreatedAt now (cfg_CreateRequestRetention cfg)).
Proof.
  cbv zeta. unfold MaintenanceSweep.
  destruct (applyMaintenance_runs now k empty_SweepResult) as [E1 E2].
  split; [exact E1|split; [exact E2|]]. rewrite applyMaintenance_eq. cbv zeta.
  set (k1 := fst (cleanupContinuationsLocked now k)). set (k2 := fst (cleanupIdempotencyLocked now k1)).
  set (k3 := fst (cleanupTerminalRunsLocked now k2)).
  destruct (same_core_fields _ _ (cleanupOutbox_core (fst (cleanupCreateRunsLocked now k3)) now))
    as (_ & _ & -> & -> & -> & _ & _).
  rewrite cleanupCreateRuns_eq. cbn [k_set_createRuns k_continuations k_idempotency k_createRuns].
  destruct (cleanupTerminalRuns_spec now k2) as [(D0 & _) _ _ D1 D2 D3]. fold k3 in D0, D1, D2, D3.
  assert (k_runs k2 = k_runs k /\ k_cfg k2 = k_cfg k /\ k_createRuns k2 = k_createRuns k /\
    k_continuations k2 = k_continuations k1 /\
    k_idempotency k2 = fst (range_cleanup (fun _ => keep_fresh ie_LastAccessAt ie_CreatedAt now
      (cfg_IdempotencyTTL (k_cfg k))) (k_idempotency k))) as (F1 & F2 & F3 & F4 & F5).
  { unfold k2. rewrite cleanupIdempotency_eq. unfold k1. rewrite cleanupContinuations_eq. done. }
  assert (forall x, retired now k2 x = retired now k x) as Hret by (intros; unfold retired; by rewrite F1, F2).
  assert (forall V (f : V -> string) (o : option V), o ≫= keep_alive (retired now k2) f =
    o ≫= keep_alive (retired now k) f) as Hk.
  { intros V f [v|]; [|done]. unfold keep_alive; simpl. by rewrite Hret. }
  split_and!; intros t.
  - rewrite D1, Hk, F4. unfold k1. rewrite cleanupContinuations_eq. simpl. by rewrite lookup_range_cleanup.
  - by rewrite D2, Hk, F5, lookup_range_cleanup.
  - by rewrite lookup_range_cleanup, D3, Hk, D0, F2, F3.
Qed.
End Sweeps.

(** The transition table.  [isAllowedTransition], on any two strings, allows
    exactly staying in the same (normalized) state and the edges of the state
    machine. *)
Theorem transition_table s t :
  isAllowedTransition s t = true <->
  normalizeState s = normalizeState t \/
  exists p q, normalizeState s = state_name p /\ normalizeState t = state_name q /\ edge p q.
Proof.
  assert (forall p q, isAllowedTransition s t = isAllowedTransition (state_name p) (state_name q) \/
    normalizeState s <> state_name p \/ normalizeState t <> state_name q) as Hname.
  { intros p q. destruct (decide (normalizeState s = state_name p)) as [Es|]; [|by right; left].
    destruct (decide (normalizeState t = state_name q)) as [Et|]; [|by right; right].
    left. unfold isAllowedTransition. by rewrite Es, Et, !normalizeState_name. }
  split.
  - intros Ha. destruct (decide (normalizeState s = normalizeState t)) as [|Hne]; [by left|right].
    assert (forall x l, one_of x l = true -> (forall y, In y l -> exists q, y = state_name q) ->
      exists q, x = state_name q) as Hin by (intros x l Hx%one_of_In Hl; auto).
    assert (exists p, normalizeState s = state_name p) as [p Hp].
    { revert Ha. unfold isAllowedTransition. rewrite (proj2 (String.eqb_neq _ _) Hne).
      repeat (case_match; bool_hyps; [intros _; (by exists Running) || (by exists Reconciling)
        || (by exists Parked) || (by exists AwaitingApproval) || (by exists SafeguardHold)|]). done. }
    assert (exists q, normalizeState t = state_name q) as [q Hq].
    { apply run_states_names. revert Ha. unfold isAllowedTransition.
      rewrite (proj2 (String.eqb_neq _ _) Hne).
      assert (forall l, one_of (normalizeState t) l = true -> (forall x, In x l -> In x run_states) ->
        In (normalizeState t) run_states) as Hl by (intros l Hx%one_of_In Hl; auto).
      assert (forall a, (normalizeState t =? a)%string = true -> In a run_states ->
        In (normalizeState t) run_states) as He by (intros a ->%String.eqb_eq; done).
      repeat (case_match; [intros Ho; first [apply (Hl _ Ho); simpl; tauto
        |repeat (apply orb_true_iff in Ho as [Ho|Ho]); apply (He _ Ho); simpl; tauto]|]). done. }
    destruct (Hname p q) as [E|[?|?]]; [|done|done]. rewrite E in Ha.
    apply isAllowedTransition_name in Ha as [->|Ha]; [congruence|]. by exists p, q.
  - intros [E|(p & q & Hp & Hq & He)].
    + unfold isAllowedTransition. by rewrite E, String.eqb_refl.
    + destruct (Hname p q) as [->|[?|?]]; [|done|done]. apply isAllowedTransition_name. by right.
Qed.

Section Chains.
Context {UP UP' : UrlParser}.

(** C17: the chain is tamper evident.  Two runs, in any two reachable kernels,
    whose chains end in the same hash are equal in all that the chain covers of
    their steps (type, previous hash, decision hash or, of a synthetic step, its
    synthetic type, input and output hash, in order; the other fields of a step
    enter no hash), or a SHA-256 collision is exhibited.  The recorded strings are assumed ASCII: JSON does not
    distinguish invalid UTF-8. *)
Theorem chain_tamper_evident k k' id id' r r' :
  reachable (UP := UP) k -> reachable (UP := UP') k' ->
  k_runs k !! id = Some r -> k_runs k' !! id' = Some r' ->
  rv_LastStepHash (ri_view r) = rv_LastStepHash (ri_view r') ->
  forallb step_ascii (StepIntegrities k id) = true ->
  forallb step_ascii (StepIntegrities k' id') = true ->
  map link (StepIntegrities k id) = map link (StepIntegrities k' id') \/ sha256_collision.
Proof.
  intros [HI _]%reachable_inv [HI' _]%reachable_inv Hr Hr' Heq Ha Ha'.
  apply (chain_links _ _ (rv_LastStepHash (ri_view r))); try done.
  - apply (Inv_run _ _ _ HI Hr).
  - rewrite Heq. apply (Inv_run _ _ _ HI' Hr').
Qed.
End Chains.

Section Bounds.
Context {JM : JsonMarshaler} {UP : UrlParser} {MR : MapRange}.

(** The sequence number overflows.  Sequence numbers come from callers and
    are only required to increase; aborting a run that stands at the 64-bit
    maximum wraps its sequence number to the minimum. *)
Theorem abort_seq_overflow id req now k r v' :
  k_runs k !! id = Some r -> isTerminalState (rv_State (ri_view r)) = false ->
  rv_CurrentStepSeqID (ri_view r) = max_int64 -> snd (AbortRun id req now k) = Ok v' ->
  rv_CurrentStepSeqID v' = min_int64 /\ rv_State v' = StateAborted.
Proof.
  intros Hr Hnt Hmax. unfold AbortRun, getRunLocked. rewrite Hr, Hnt, Hmax. cbv zeta.
  destruct (appendSyntheticStepLocked _ _ _ _ _ _ _ _) as [k1 [h|err]]; [|done].
  cbn [snd]. intros [= <-]. rewrite wrap_int64_max. unfold aborted_view. by view_simpl.
Qed.
End Bounds.

Section RoundTrip.
Context {UP : UrlParser} {MR : MapRange}.

(** Parking and resuming round-trips.  After a successful park, the token
    it returned resumes the run: with a larger sequence number, before the
    expiry and with a matching (or no) snapshot hash, [ResumeRun] brings the
    run back to RUNNING. *)
Theorem park_resume_roundtrip id req now k k' resp r req' now' :
  k_runs k !! id = Some r -> ParkRun id req now k = (k', Ok resp) ->
  rr_ContinuationToken req' = prr_ContinuationToken resp -> now' <= prr_ExpiresAt resp ->
  pr_IncomingStepSeqID req < rr_IncomingStepSeqID req' ->
  (blank (rr_ExpectedSnapshotHash req') = true \/
   rr_ExpectedSnapshotHash req' = rs_SnapshotHash (rv_Snapshot (ri_view r))) ->
  exists resp', snd (ResumeRun id req' now' k') = Ok resp' /\ rrr_NewState resp' = StateRunning.
Proof.
  intros Hr Hp Htok Hexp Hseq Hsnap.
  destruct (ParkRun_Ok _ _ _ _ _ _ _ Hr Hp) as (Hty & Hnb & h & c & Hr' & Hc & C1 & C2 & C3 & C4 & C5).
  set (r' := ri_set_noProgressScans 0 _) in Hr'.
  destruct (parked_fields req (state_name (park_state req)) h now (ri_view r)) as (P1 & P2 & P3 & _).
  change (parked_view req (state_name (park_state req)) h now (ri_view r)) with (ri_view r') in P1, P2, P3.
  assert (resume_ok id req' now' k' (ri_view r') c) as Hok.
  { split; rewrite ?Htok, ?P2, ?P3; try done; try congruence.
    rewrite P1, C5, park_token_type_norm. unfold park_state.
    destruct (park_token_type req =? TokenTypeApproval)%string eqn:E; bool_hyps; [by right|left].
    split; [done|]. unfold isValidTokenType in Hty. rewrite park_token_type_norm in Hty.
    apply one_of_In in Hty. apply list_elem_of_In. simpl in *. naive_solver. }
  rewrite (ResumeRun_accepts _ _ _ _ _ _ Hr' Hok). unfold resume_commit, appendSyntheticStepLocked.
  cbv zeta. destruct (synthetic_hash_total (rv_LastStepHash (ri_view r')) "resume"
    (rr_ResumeReason req') (rr_ReceiptRef req')) as [hr ->]. cbn [snd]. eexists. split; [done|].
  simpl. unfold resumed_view. by view_simpl.
Qed.
End RoundTrip.

(** ** Witnesses *)

Lemma k4_reachable : reachable k4.
Proof. apply (reach_reachable 4); [exact k4_reach|reflexivity]. Qed.

Lemma sweep_ttl_effect_witness :
  k_runs (fst (SweepTTL (at_minute 600) k4)) !! demo_id =
    retained (k_cfg k4) (at_minute 600) (swept (fun cfg r => ttl_run cfg (at_minute 600) r) k4) demo_id.
Proof. apply (sweep_ttl_effect (at_minute 600) k4 demo_id). exact k4_reachable. Defined.

Lemma sweep_zombie_effect_witness :
  k_runs (fst (SweepZombie (at_minute 600) k4)) !! demo_id =
    retained (k_cfg k4) (at_minute 600) (swept (fun cfg r => zombie_run cfg (at_minute 600) r) k4) demo_id.
Proof. apply (sweep_zombie_effect (at_minute 600) k4 demo_id). exact k4_reachable. Defined.

(** The sweep has something to do there: the run is past its lifetime. *)
Example sweep_forces_review :
  option_map (fun r => rv_State (ri_view r)) (k_runs (fst (SweepTTL (at_minute 600) k4)) !! demo_id)
  = Some StateForceReviewRequired.
Proof. vm_compute. reflexivity. Qed.

Lemma chain_tamper_evident_witness :
  map link (StepIntegrities k4 demo_id) = map link (StepIntegrities k4 demo_id) \/ sha256_collision.
Proof.
  apply (chain_tamper_evident k4 k4 demo_id demo_id r4 r4).
  - exact k4_reachable.
  - exact k4_reachable.
  - vm_compute. reflexivity.
  - vm_compute. reflexivity.
  - reflexivity.
  - vm_compute. reflexivity.
  - vm_compute. reflexivity.
Defined.

(** A run parked at the largest sequence number. *)
Definition demo_park_max : ParkRunRequest := mk_ParkRunRequest 2 "step-2" max_int64 "" "waiting" 0.
Definition k_max : Kernel := Eval vm_compute in fst (ParkRun demo_id demo_park_max (at_minute 2) k2).
Definition r_max : runInstance := Eval vm_compute in run_in k_max demo_id.
Definition v_max : RunView := Eval vm_compute in
  match snd (AbortRun demo_id demo_abort (at_minute 3) k_max) with Ok v => v | Err _ => ri_view r_max end.

Lemma abort_seq_overflow_witness : rv_CurrentStepSeqID v_max = min_int64 /\ rv_State v_max = StateAborted.
Proof.
  apply (abort_seq_overflow demo_id demo_abort (at_minute 3) k_max r_max v_max).
  - vm_compute. reflexivity.
  - vm_compute. reflexivity.
  - vm_compute. reflexivity.
  - vm_compute. reflexivity.
Defined.

Definition demo_parked : ParkRunResponse := Eval vm_compute in
  match snd (ParkRun demo_id demo_park (at_minute 2) k2) with
  | Ok r => r | Err _ => mk_ParkRunResponse "" "" 0 "" "" 0 "" end.

Lemma park_resume_roundtrip_witness :
  exists resp, snd (ResumeRun demo_id demo_resume (at_minute 3) k3) = Ok resp /\
    rrr_NewState resp = StateRunning.
Proof.
  apply (park_resume_roundtrip demo_id demo_park (at_minute 2) k2 k3 demo_parked r2 demo_resume
    (at_minute 3)).
  - vm_compute. reflexivity.
  - vm_compute. reflexivity.
  - vm_compute. reflexivity.
  - vm_compute. congruence.
  - vm_compute. reflexivity.
  - left. vm_compute. reflexivity.
Defined.

(** ** Observations *)

(** Idempotency keys are joined with a separator the parts may contain: two
    different steps can share a key, and the second gets the first's response. *)
Definition demo_key_request (step version : string) : AdvanceRunRequest := {|
  ar_ExpectedStateVersion := 1; ar_StepID := step; ar_StepVersion := version;
  ar_IdempotencyKey := "k"; ar_DecisionRef := mk_DecisionRef "dec-1" "decision-hash" "stable";
  ar_ExecutionReceiptRef := "receipt-1"; ar_ExecutionUsedResources := None;
  ar_ExecutionReceiptAt := t0; ar_IncomingStepSeqID := 1; ar_InputHash := "in";
  ar_OutputHash := "out"; ar_NextState := "" |}.

Lemma idem_key_ambiguous :
  let req := demo_key_request "a|b" "c" in
  let req' := demo_key_request "a" "b|c" in
  ar_StepID req <> ar_StepID req' /\ idem_key demo_id req = idem_key demo_id req' /\
  exists resp, snd (AdvanceRun (Some demo_port) demo_id req (at_minute 1) k1) = Ok resp /\
    snd (AdvanceRun None demo_id req' (at_minute 2)
           (fst (AdvanceRun (Some demo_port) demo_id req (at_minute 1) k1))) = Ok resp.
Proof. split; [done|split; [reflexivity|]]. eexists. split; vm_compute; reflexivity. Qed.

(** A failed advance moves a run under review to SAFEGUARD_HOLD, a transition
    the table forbids. *)
Lemma hold_outside_the_table :
  isAllowedTransition StateForceReviewRequired StateSafeguardHold = false /\
  let k := fst (SweepTTL (at_minute 600) k4) in
  option_map (fun r => rv_State (ri_view r)) (k_runs k !! demo_id) = Some StateForceReviewRequired /\
  option_map (fun r => rv_State (ri_view r))
    (k_runs (fst (AdvanceRun None demo_id (demo_advance 5 5 "") (at_minute 601) k)) !! demo_id)
  = Some StateSafeguardHold.
Proof. split; [reflexivity|]. cbv zeta. split; vm_compute; reflexivity. Qed.

(** Advancing to FAILED leaves the integrity root at the previous step. *)
Lemma failed_root_lags :
  let k := fst (AdvanceRun (Some demo_port) demo_id (demo_advance 4 4 "FAILED") (at_minute 4) k4) in
  option_map (fun r => rv_State (ri_view r)) (k_runs k !! demo_id) = Some StateFailed /\
  option_map (fun r => (rv_RunIntegrityRoot (ri_view r) =? rv_LastStepHash (ri_view r))%string)
    (k_runs k !! demo_id) = Some false.
Proof. cbv zeta. split; vm_compute; reflexivity. Qed.

(** A continuation's lifetime in seconds is multiplied out in 64 bits. *)
Lemma park_ttl_overflow : exists n, 0 < n <= max_int64 /\
  park_ttl demo_cfg (mk_ParkRunRequest 0 "" 0 "" "" n) < 0.
Proof. exists 10000000000. vm_compute. split; [split; congruence|reflexivity]. Qed.
