(* ===== verification/EvTypes.v ===== *)
(** * The data of the Evidence kernel ([internal/evidence/types.go] and the
    structs of [internal/evidence/kernel.go])

    Structs are records with the source's field names behind a prefix, with one
    setter per field the kernel assigns; enumerations are string constants.
    [float64] is IEEE binary64 ([GoJson]); a [map[string]interface{}] payload
    is [GoJson.payload], where [None] is the nil map. *)

From S2P Require Import Prelude GoStrings GoTime GoJson.

(** ** Constants *)

Definition RiskLow : string := "low".
Definition RiskMedium : string := "medium".
Definition RiskHigh : string := "high".
Definition RiskCritical : string := "critical".

Definition Tier0 : string := "tier0".
Definition Tier1 : string := "tier1".
Definition Tier2 : string := "tier2".
Definition Tier3 : string := "tier3".

Definition GradeAudit : string := "audit".
Definition GradeOperational : string := "operational".

Definition BackpressureLevel0 : Z := 0.
Definition BackpressureLevel1 : Z := 1.
Definition BackpressureLevel2 : Z := 2.
Definition BackpressureLevel3 : Z := 3.

(** ** Requests, events and responses *)

Record KernelError := mk_KernelError {
  ee_StatusCode : Z;
  ee_Code : string;
  ee_Message : string;
  ee_ReasonCodes : list string
}.

Record SourceRegistration := mk_SourceRegistration {
  sr_SourceComponent : string;
  sr_MinSchema : Z;
  sr_DefaultTier : string
}.

Record UsageInput := mk_UsageInput {
  us_ResourceType : string;
  us_UsageAmount : float64;
  us_Unit : string;
  us_CostAmount : float64
}.

Record IngestEventRequest := mk_IngestEventRequest {
  rq_EventID : string;
  rq_EventType : string;
  rq_SchemaVersion : Z;
  rq_SourceComponent : string;
  rq_RunID : string;
  rq_StepID : string;
  rq_DecisionID : string;
  rq_TenantID : string;
  rq_ProjectID : string;
  rq_WorkflowID : string;
  rq_RiskTier : string;
  rq_EvidenceTier : string;
  rq_EvidenceGrade : string;
  rq_PayloadIntegrityRequired : bool;
  rq_EventTS : time;
  rq_PayloadRef : string;
  rq_PayloadHash : string;
  rq_PayloadHashValid : bool;
  rq_Payload : payload;
  rq_SystemLoad : float64;
  rq_Usage : option UsageInput
}.

Record CanonicalEvent := mk_CanonicalEvent {
  cv_EventID : string;
  cv_EventType : string;
  cv_SchemaVersion : Z;
  cv_SourceComponent : string;
  cv_RunID : string;
  cv_StepID : string;
  cv_DecisionID : string;
  cv_TenantID : string;
  cv_ProjectID : string;
  cv_WorkflowID : string;
  cv_RiskTier : string;
  cv_EvidenceTier : string;
  cv_EvidenceGrade : string;
  cv_PayloadIntegrityRequired : bool;
  cv_EventTS : time;
  cv_PayloadRef : string;
  cv_PayloadHash : string;
  cv_PayloadHashValid : bool;
  cv_PayloadTombstoned : bool;
  cv_RedactionReason : string;
  cv_Payload : payload;
  cv_Usage : option UsageInput;
  cv_IntegritySeq : Z;
  cv_IntegrityPrevHash : string;
  cv_IntegrityHash : string;
  cv_CanonicalHash : string;
  cv_EstimatedBytes : Z;
  cv_Degraded : bool;
  cv_Dropped : bool;
  cv_DropReason : string
}.

Definition cv_set_PayloadHash (x : string) (r : CanonicalEvent) : CanonicalEvent :=
  mk_CanonicalEvent (cv_EventID r) (cv_EventType r) (cv_SchemaVersion r) (cv_SourceComponent r)
    (cv_RunID r) (cv_StepID r) (cv_DecisionID r) (cv_TenantID r) (cv_ProjectID r) (cv_WorkflowID r)
    (cv_RiskTier r) (cv_EvidenceTier r) (cv_EvidenceGrade r) (cv_PayloadIntegrityRequired r)
    (cv_EventTS r) (cv_PayloadRef r) x (cv_PayloadHashValid r) (cv_PayloadTombstoned r)
    (cv_RedactionReason r) (cv_Payload r) (cv_Usage r) (cv_IntegritySeq r) (cv_IntegrityPrevHash r)
    (cv_IntegrityHash r) (cv_CanonicalHash r) (cv_EstimatedBytes r) (cv_Degraded r) (cv_Dropped r)
    (cv_DropReason r).
Definition cv_set_PayloadHashValid (x : bool) (r : CanonicalEvent) : CanonicalEvent :=
  mk_CanonicalEvent (cv_EventID r) (cv_EventType r) (cv_SchemaVersion r) (cv_SourceComponent r)
    (cv_RunID r) (cv_StepID r) (cv_DecisionID r) (cv_TenantID r) (cv_ProjectID r) (cv_WorkflowID r)
    (cv_RiskTier r) (cv_EvidenceTier r) (cv_EvidenceGrade r) (cv_PayloadIntegrityRequired r)
    (cv_EventTS r) (cv_PayloadRef r) (cv_PayloadHash r) x (cv_PayloadTombstoned r)
    (cv_RedactionReason r) (cv_Payload r) (cv_Usage r) (cv_IntegritySeq r) (cv_IntegrityPrevHash r)
    (cv_IntegrityHash r) (cv_CanonicalHash r) (cv_EstimatedBytes r) (cv_Degraded r) (cv_Dropped r)
    (cv_DropReason r).
Definition cv_set_PayloadTombstoned (x : bool) (r : CanonicalEvent) : CanonicalEvent :=
  mk_CanonicalEvent (cv_EventID r) (cv_EventType r) (cv_SchemaVersion r) (cv_SourceComponent r)
    (cv_RunID r) (cv_StepID r) (cv_DecisionID r) (cv_TenantID r) (cv_ProjectID r) (cv_WorkflowID r)
    (cv_RiskTier r) (cv_EvidenceTier r) (cv_EvidenceGrade r) (cv_PayloadIntegrityRequired r)
    (cv_EventTS r) (cv_PayloadRef r) (cv_PayloadHash r) (cv_PayloadHashValid r) x
    (cv_RedactionReason r) (cv_Payload r) (cv_Usage r) (cv_IntegritySeq r) (cv_IntegrityPrevHash r)
    (cv_IntegrityHash r) (cv_CanonicalHash r) (cv_EstimatedBytes r) (cv_Degraded r) (cv_Dropped r)
    (cv_DropReason r).
Definition cv_set_RedactionReason (x : string) (r : CanonicalEvent) : CanonicalEvent :=
  mk_CanonicalEvent (cv_EventID r) (cv_EventType r) (cv_SchemaVersion r) (cv_SourceComponent r)
    (cv_RunID r) (cv_StepID r) (cv_DecisionID r) (cv_TenantID r) (cv_ProjectID r) (cv_WorkflowID r)
    (cv_RiskTier r) (cv_EvidenceTier r) (cv_EvidenceGrade r) (cv_PayloadIntegrityRequired r)
    (cv_EventTS r) (cv_PayloadRef r) (cv_PayloadHash r) (cv_PayloadHashValid r)
    (cv_PayloadTombstoned r) x (cv_Payload r) (cv_Usage r) (cv_IntegritySeq r)
    (cv_IntegrityPrevHash r) (cv_IntegrityHash r) (cv_CanonicalHash r) (cv_EstimatedBytes r)
    (cv_Degraded r) (cv_Dropped r) (cv_DropReason r).
Definition cv_set_Payload (x : payload) (r : CanonicalEvent) : CanonicalEvent :=
  mk_CanonicalEvent (cv_EventID r) (cv_EventType r) (cv_SchemaVersion r) (cv_SourceComponent r)
    (cv_RunID r) (cv_StepID r) (cv_DecisionID r) (cv_TenantID r) (cv_ProjectID r) (cv_WorkflowID r)
    (cv_RiskTier r) (cv_EvidenceTier r) (cv_EvidenceGrade r) (cv_PayloadIntegrityRequired r)
    (cv_EventTS r) (cv_PayloadRef r) (cv_PayloadHash r) (cv_PayloadHashValid r)
    (cv_PayloadTombstoned r) (cv_RedactionReason r) x (cv_Usage r) (cv_IntegritySeq r)
    (cv_IntegrityPrevHash r) (cv_IntegrityHash r) (cv_CanonicalHash r) (cv_EstimatedBytes r)
    (cv_Degraded r) (cv_Dropped r) (cv_DropReason r).
Definition cv_set_IntegritySeq (x : Z) (r : CanonicalEvent) : CanonicalEvent :=
  mk_CanonicalEvent (cv_EventID r) (cv_EventType r) (cv_SchemaVersion r) (cv_SourceComponent r)
    (cv_RunID r) (cv_StepID r) (cv_DecisionID r) (cv_TenantID r) (cv_ProjectID r) (cv_WorkflowID r)
    (cv_RiskTier r) (cv_EvidenceTier r) (cv_EvidenceGrade r) (cv_PayloadIntegrityRequired r)
    (cv_EventTS r) (cv_PayloadRef r) (cv_PayloadHash r) (cv_PayloadHashValid r)
    (cv_PayloadTombstoned r) (cv_RedactionReason r) (cv_Payload r) (cv_Usage r) x
    (cv_IntegrityPrevHash r) (cv_IntegrityHash r) (cv_CanonicalHash r) (cv_EstimatedBytes r)
    (cv_Degraded r) (cv_Dropped r) (cv_DropReason r).
Definition cv_set_IntegrityPrevHash (x : string) (r : CanonicalEvent) : CanonicalEvent :=
  mk_CanonicalEvent (cv_EventID r) (cv_EventType r) (cv_SchemaVersion r) (cv_SourceComponent r)
    (cv_RunID r) (cv_StepID r) (cv_DecisionID r) (cv_TenantID r) (cv_ProjectID r) (cv_WorkflowID r)
    (cv_RiskTier r) (cv_EvidenceTier r) (cv_EvidenceGrade r) (cv_PayloadIntegrityRequired r)
    (cv_EventTS r) (cv_PayloadRef r) (cv_PayloadHash r) (cv_PayloadHashValid r)
    (cv_PayloadTombstoned r) (cv_RedactionReason r) (cv_Payload r) (cv_Usage r) (cv_IntegritySeq r)
    x (cv_IntegrityHash r) (cv_CanonicalHash r) (cv_EstimatedBytes r) (cv_Degraded r) (cv_Dropped r)
    (cv_DropReason r).
Definition cv_set_IntegrityHash (x : string) (r : CanonicalEvent) : CanonicalEvent :=
  mk_CanonicalEvent (cv_EventID r) (cv_EventType r) (cv_SchemaVersion r) (cv_SourceComponent r)
    (cv_RunID r) (cv_StepID r) (cv_DecisionID r) (cv_TenantID r) (cv_ProjectID r) (cv_WorkflowID r)
    (cv_RiskTier r) (cv_EvidenceTier r) (cv_EvidenceGrade r) (cv_PayloadIntegrityRequired r)
    (cv_EventTS r) (cv_PayloadRef r) (cv_PayloadHash r) (cv_PayloadHashValid r)
    (cv_PayloadTombstoned r) (cv_RedactionReason r) (cv_Payload r) (cv_Usage r) (cv_IntegritySeq r)
    (cv_IntegrityPrevHash r) x (cv_CanonicalHash r) (cv_EstimatedBytes r) (cv_Degraded r)
    (cv_Dropped r) (cv_DropReason r).
Definition cv_set_CanonicalHash (x : string) (r : CanonicalEvent) : CanonicalEvent :=
  mk_CanonicalEvent (cv_EventID r) (cv_EventType r) (cv_SchemaVersion r) (cv_SourceComponent r)
    (cv_RunID r) (cv_StepID r) (cv_DecisionID r) (cv_TenantID r) (cv_ProjectID r) (cv_WorkflowID r)
    (cv_RiskTier r) (cv_EvidenceTier r) (cv_EvidenceGrade r) (cv_PayloadIntegrityRequired r)
    (cv_EventTS r) (cv_PayloadRef r) (cv_PayloadHash r) (cv_PayloadHashValid r)
    (cv_PayloadTombstoned r) (cv_RedactionReason r) (cv_Payload r) (cv_Usage r) (cv_IntegritySeq r)
    (cv_IntegrityPrevHash r) (cv_IntegrityHash r) x (cv_EstimatedBytes r) (cv_Degraded r)
    (cv_Dropped r) (cv_DropReason r).
Definition cv_set_EstimatedBytes (x : Z) (r : CanonicalEvent) : CanonicalEvent :=
  mk_CanonicalEvent (cv_EventID r) (cv_EventType r) (cv_SchemaVersion r) (cv_SourceComponent r)
    (cv_RunID r) (cv_StepID r) (cv_DecisionID r) (cv_TenantID r) (cv_ProjectID r) (cv_WorkflowID r)
    (cv_RiskTier r) (cv_EvidenceTier r) (cv_EvidenceGrade r) (cv_PayloadIntegrityRequired r)
    (cv_EventTS r) (cv_PayloadRef r) (cv_PayloadHash r) (cv_PayloadHashValid r)
    (cv_PayloadTombstoned r) (cv_RedactionReason r) (cv_Payload r) (cv_Usage r) (cv_IntegritySeq r)
    (cv_IntegrityPrevHash r) (cv_IntegrityHash r) (cv_CanonicalHash r) x (cv_Degraded r)
    (cv_Dropped r) (cv_DropReason r).
Definition cv_set_Degraded (x : bool) (r : CanonicalEvent) : CanonicalEvent :=
  mk_CanonicalEvent (cv_EventID r) (cv_EventType r) (cv_SchemaVersion r) (cv_SourceComponent r)
    (cv_RunID r) (cv_StepID r) (cv_DecisionID r) (cv_TenantID r) (cv_ProjectID r) (cv_WorkflowID r)
    (cv_RiskTier r) (cv_EvidenceTier r) (cv_EvidenceGrade r) (cv_PayloadIntegrityRequired r)
    (cv_EventTS r) (cv_PayloadRef r) (cv_PayloadHash r) (cv_PayloadHashValid r)
    (cv_PayloadTombstoned r) (cv_RedactionReason r) (cv_Payload r) (cv_Usage r) (cv_IntegritySeq r)
    (cv_IntegrityPrevHash r) (cv_IntegrityHash r) (cv_CanonicalHash r) (cv_EstimatedBytes r) x
    (cv_Dropped r) (cv_DropReason r).

Record IngestEventResponse := mk_IngestEventResponse {
  rs_Accepted : bool;
  rs_Deduped : bool;
  rs_Dropped : bool;
  rs_Degraded : bool;
  rs_EventID : string;
  rs_RunID : string;
  rs_ReasonCodes : list string;
  rs_IngestedAt : time
}.

(** ** Derived data: decision logs, graph, ledger, summaries *)

Record DecisionLog := mk_DecisionLog {
  dl_DecisionID : string;
  dl_Version : Z;
  dl_SourceEventID : string;
  dl_SourceSchemaVersion : Z;
  dl_SourceComponent : string;
  dl_SourceEventTS : time;
  dl_DerivedFromEventID : string;
  dl_SupersededByVersion : Z;
  dl_RunID : string;
  dl_DecisionType : string;
  dl_DecisionValue : string;
  dl_DecisionConfidence : float64;
  dl_PayloadIntegrityScore : float64;
  dl_EvidenceCompletenessScore : float64;
  dl_RationaleRef : string;
  dl_CreatedAt : time
}.

Definition dl_set_SupersededByVersion (x : Z) (r : DecisionLog) : DecisionLog :=
  mk_DecisionLog (dl_DecisionID r) (dl_Version r) (dl_SourceEventID r) (dl_SourceSchemaVersion r)
    (dl_SourceComponent r) (dl_SourceEventTS r) (dl_DerivedFromEventID r) x (dl_RunID r)
    (dl_DecisionType r) (dl_DecisionValue r) (dl_DecisionConfidence r) (dl_PayloadIntegrityScore r)
    (dl_EvidenceCompletenessScore r) (dl_RationaleRef r) (dl_CreatedAt r).

Record DecisionGraphNode := mk_DecisionGraphNode {
  gn_NodeID : string;
  gn_RunID : string;
  gn_NodeType : string;
  gn_NodeRef : string;
  gn_CreatedAt : time
}.

Definition gn_set_NodeRef (x : string) (r : DecisionGraphNode) : DecisionGraphNode :=
  mk_DecisionGraphNode (gn_NodeID r) (gn_RunID r) (gn_NodeType r) x (gn_CreatedAt r).

Record DecisionGraphEdge := mk_DecisionGraphEdge {
  ge_EdgeID : string;
  ge_RunID : string;
  ge_FromNodeID : string;
  ge_ToNodeID : string;
  ge_EdgeType : string;
  ge_CreatedAt : time
}.

Record DecisionGraph := mk_DecisionGraph {
  dg_RunID : string;
  dg_Nodes : list DecisionGraphNode;
  dg_Edges : list DecisionGraphEdge
}.

Record LedgerEntry := mk_LedgerEntry {
  le_LedgerID : string;
  le_RunID : string;
  le_StepID : string;
  le_TenantID : string;
  le_ProjectID : string;
  le_WorkflowID : string;
  le_ResourceType : string;
  le_UsageAmount : float64;
  le_Unit : string;
  le_CostAmount : float64;
  le_CreatedAt : time
}.

Record RunEvidenceSummary := mk_RunEvidenceSummary {
  su_RunID : string;
  su_TotalEvents : Z;
  su_TotalBytes : Z;
  su_BySource : gmap string Z;
  su_ByTier : gmap string Z;
  su_ByGrade : gmap string Z;
  su_LastEventTS : time;
  su_HighRiskGraphComplete : bool
}.

(** ** Packs, archives, anchors *)

Definition RootCausePackModeMinimal : string := "minimal".
Definition RootCausePackModeFull : string := "full".
Definition ReplayPackModeMinimal : string := "minimal".
Definition ReplayPackModeFull : string := "full".

Record TimelineItem := mk_TimelineItem {
  tl_EventID : string;
  tl_EventType : string;
  tl_EventTS : time
}.

Record KeyEvidence := mk_KeyEvidence {
  ky_EventID : string;
  ky_EventType : string;
  ky_PayloadRef : string
}.

Record RootCausePack := mk_RootCausePack {
  rc_RunID : string;
  rc_Mode : string;
  rc_FirstBadNode : string;
  rc_CriticalPath : list string;
  rc_KeyEvidences : list KeyEvidence;
  rc_Timeline : list TimelineItem;
  rc_DecisionGraph : option DecisionGraph;
  rc_Ledger : list LedgerEntry;
  rc_GeneratedAt : time
}.

Record ReplayEvent := mk_ReplayEvent {
  re_EventID : string;
  re_EventType : string;
  re_SchemaVersion : Z;
  re_SourceComponent : string;
  re_EventTS : time;
  re_RunID : string;
  re_StepID : string;
  re_DecisionID : string;
  re_PayloadRef : string;
  re_PayloadHash : string;
  re_PayloadHashValid : bool;
  re_PayloadTombstoned : bool;
  re_Payload : payload;
  re_Redacted : bool;
  re_RedactionReason : string
}.

Definition re_set_Payload (x : payload) (r : ReplayEvent) : ReplayEvent :=
  mk_ReplayEvent (re_EventID r) (re_EventType r) (re_SchemaVersion r) (re_SourceComponent r)
    (re_EventTS r) (re_RunID r) (re_StepID r) (re_DecisionID r) (re_PayloadRef r) (re_PayloadHash r)
    (re_PayloadHashValid r) (re_PayloadTombstoned r) x (re_Redacted r) (re_RedactionReason r).
Definition re_set_Redacted (x : bool) (r : ReplayEvent) : ReplayEvent :=
  mk_ReplayEvent (re_EventID r) (re_EventType r) (re_SchemaVersion r) (re_SourceComponent r)
    (re_EventTS r) (re_RunID r) (re_StepID r) (re_DecisionID r) (re_PayloadRef r) (re_PayloadHash r)
    (re_PayloadHashValid r) (re_PayloadTombstoned r) (re_Payload r) x (re_RedactionReason r).
Definition re_set_RedactionReason (x : string) (r : ReplayEvent) : ReplayEvent :=
  mk_ReplayEvent (re_EventID r) (re_EventType r) (re_SchemaVersion r) (re_SourceComponent r)
    (re_EventTS r) (re_RunID r) (re_StepID r) (re_DecisionID r) (re_PayloadRef r) (re_PayloadHash r)
    (re_PayloadHashValid r) (re_PayloadTombstoned r) (re_Payload r) (re_Redacted r) x.

Record ReplayPack := mk_ReplayPack {
  rp_RunID : string;
  rp_Mode : string;
  rp_ManifestVersion : Z;
  rp_EventCount : Z;
  rp_Events : list ReplayEvent;
  rp_SnapshotRefs : list string;
  rp_PolicyBundleRefs : list string;
  rp_FeatureSnapshotRefs : list string;
  rp_AdapterReceiptRefs : list string;
  rp_DecisionRefs : list string;
  rp_DecisionGraph : option DecisionGraph;
  rp_Ledger : list LedgerEntry;
  rp_IntegrityRootHash : string;
  rp_GlobalIntegrityRootHash : string;
  rp_GeneratedAt : time;
  rp_ReasonCodes : list string
}.

Record ArchiveSummary := mk_ArchiveSummary {
  as_RunID : string;
  as_HotEventCount : Z;
  as_WarmEventCount : Z;
  as_ColdEventCount : Z
}.

Record ExportContract := mk_ExportContract {
  xc_IntegrityKind : string;
  xc_ContainsTombstoned : bool;
  xc_ContainsRedacted : bool;
  xc_ReplayEligible : bool;
  xc_AuditArtifactEligible : bool;
  xc_ExternalAnchorRequired : bool;
  xc_ExternalAnchorSatisfied : bool;
  xc_ExternalAnchorID : string;
  xc_ExternalAnchorKind : string;
  xc_ContractVersion : Z
}.

Record ArchiveExport := mk_ArchiveExport {
  ax_RunID : string;
  ax_Tier : string;
  ax_EventCount : Z;
  ax_Events : list CanonicalEvent;
  ax_GeneratedAt : time;
  ax_IntegrityHash : string;
  ax_ChainRootHash : string;
  ax_Contract : ExportContract
}.

Record ExternalAnchorRequest := mk_ExternalAnchorRequest {
  eq_AnchorID : string;
  eq_RootHash : string;
  eq_EventCount : Z;
  eq_Reason : string;
  eq_CreatedAt : time
}.

Record ExternalAttestation := mk_ExternalAttestation {
  at_Provider : string;
  at_AttestationRef : string;
  at_Signature : string;
  at_WormRef : string;
  at_AttestedAt : time;
  at_Status : string;
  at_ErrorCode : string;
  at_ErrorMessage : string
}.

Definition at_set_AttestedAt (x : time) (r : ExternalAttestation) : ExternalAttestation :=
  mk_ExternalAttestation (at_Provider r) (at_AttestationRef r) (at_Signature r) (at_WormRef r) x
    (at_Status r) (at_ErrorCode r) (at_ErrorMessage r).
Definition at_set_Status (x : string) (r : ExternalAttestation) : ExternalAttestation :=
  mk_ExternalAttestation (at_Provider r) (at_AttestationRef r) (at_Signature r) (at_WormRef r)
    (at_AttestedAt r) x (at_ErrorCode r) (at_ErrorMessage r).

(** The attestor is supplied by the embedding program: it answers a request with
    an attestation and possibly an error (its message). *)
Definition ExternalAnchorAttestor : Type :=
  ExternalAnchorRequest -> ExternalAttestation * option string.

Record IntegrityAnchor := mk_IntegrityAnchor {
  an_AnchorID : string;
  an_RootHash : string;
  an_EventCount : Z;
  an_Reason : string;
  an_CreatedAt : time;
  an_AnchorKind : string;
  an_Attestation : option ExternalAttestation
}.

Definition an_set_AnchorKind (x : string) (r : IntegrityAnchor) : IntegrityAnchor :=
  mk_IntegrityAnchor (an_AnchorID r) (an_RootHash r) (an_EventCount r) (an_Reason r)
    (an_CreatedAt r) x (an_Attestation r).
Definition an_set_Attestation (x : option ExternalAttestation) (r : IntegrityAnchor) : IntegrityAnchor :=
  mk_IntegrityAnchor (an_AnchorID r) (an_RootHash r) (an_EventCount r) (an_Reason r)
    (an_CreatedAt r) (an_AnchorKind r) x.

Record IntegrityVerifyResult := mk_IntegrityVerifyResult {
  iv_RunID : string;
  iv_Verified : bool;
  iv_EventCount : Z;
  iv_IntegrityRootHash : string;
  iv_GlobalIntegrityRootHash : string;
  iv_GlobalVerified : bool;
  iv_FailureEventID : string;
  iv_FailureReason : string;
  iv_VerifiedAt : time
}.

Record DSARDeleteRequest := mk_DSARDeleteRequest {
  dq_RequestID : string;
  dq_TenantID : string;
  dq_RunID : string;
  dq_PayloadRefPrefix : string;
  dq_RequestedAt : time
}.

Record DSARDeleteResponse := mk_DSARDeleteResponse {
  ds_RequestID : string;
  ds_TenantID : string;
  ds_RunID : string;
  ds_DeletedEvents : Z;
  ds_RedactedEvents : Z;
  ds_Tombstones : Z;
  ds_CompletedAt : time;
  ds_ReasonCodes : list string
}.

Record LedgerAggregateRequest := mk_LedgerAggregateRequest {
  lq_RunID : string;
  lq_TenantID : string;
  lq_WorkflowID : string;
  lq_ResourceType : string;
  lq_WindowStart : time;
  lq_WindowEnd : time;
  lq_GroupBy : string;
  lq_DetectAnomaly : bool
}.

Record LedgerAggregateRow := mk_LedgerAggregateRow {
  lr_GroupKey : string;
  lr_EntryCount : Z;
  lr_TotalUsage : float64;
  lr_TotalCost : float64;
  lr_AvgUsage : float64;
  lr_AvgCost : float64;
  lr_MaxUsage : float64;
  lr_AnomalyScore : float64;
  lr_AnomalyReason : string
}.

Definition lr_set_AvgUsage (x : float64) (r : LedgerAggregateRow) : LedgerAggregateRow :=
  mk_LedgerAggregateRow (lr_GroupKey r) (lr_EntryCount r) (lr_TotalUsage r) (lr_TotalCost r) x
    (lr_AvgCost r) (lr_MaxUsage r) (lr_AnomalyScore r) (lr_AnomalyReason r).
Definition lr_set_AvgCost (x : float64) (r : LedgerAggregateRow) : LedgerAggregateRow :=
  mk_LedgerAggregateRow (lr_GroupKey r) (lr_EntryCount r) (lr_TotalUsage r) (lr_TotalCost r)
    (lr_AvgUsage r) x (lr_MaxUsage r) (lr_AnomalyScore r) (lr_AnomalyReason r).
Definition lr_set_AnomalyScore (x : float64) (r : LedgerAggregateRow) : LedgerAggregateRow :=
  mk_LedgerAggregateRow (lr_GroupKey r) (lr_EntryCount r) (lr_TotalUsage r) (lr_TotalCost r)
    (lr_AvgUsage r) (lr_AvgCost r) (lr_MaxUsage r) x (lr_AnomalyReason r).
Definition lr_set_AnomalyReason (x : string) (r : LedgerAggregateRow) : LedgerAggregateRow :=
  mk_LedgerAggregateRow (lr_GroupKey r) (lr_EntryCount r) (lr_TotalUsage r) (lr_TotalCost r)
    (lr_AvgUsage r) (lr_AvgCost r) (lr_MaxUsage r) (lr_AnomalyScore r) x.

Record LedgerAggregateResponse := mk_LedgerAggregateResponse {
  ls_Rows : list LedgerAggregateRow;
  ls_GeneratedAt : time
}.

Record KernelEvent := mk_KernelEvent {
  oe_EventID : string;
  oe_EventType : string;
  oe_SchemaVersion : Z;
  oe_SourceComponent : string;
  oe_EventTS : time;
  oe_RunID : string;
  oe_PayloadRef : string;
  oe_PayloadHash : string;
  oe_PayloadHashValid : bool;
  oe_Payload : gval
}.

Record SweepResult := mk_SweepResult {
  es_DeletedEvents : Z;
  es_WarmArchived : Z;
  es_ColdArchived : Z;
  es_OutboxTrimmed : Z
}.

Definition es_set_DeletedEvents (x : Z) (r : SweepResult) : SweepResult :=
  mk_SweepResult x (es_WarmArchived r) (es_ColdArchived r) (es_OutboxTrimmed r).
Definition es_set_WarmArchived (x : Z) (r : SweepResult) : SweepResult :=
  mk_SweepResult (es_DeletedEvents r) x (es_ColdArchived r) (es_OutboxTrimmed r).
Definition es_set_ColdArchived (x : Z) (r : SweepResult) : SweepResult :=
  mk_SweepResult (es_DeletedEvents r) (es_WarmArchived r) x (es_OutboxTrimmed r).
Definition es_set_OutboxTrimmed (x : Z) (r : SweepResult) : SweepResult :=
  mk_SweepResult (es_DeletedEvents r) (es_WarmArchived r) (es_ColdArchived r) x.

Definition empty_SweepResult : SweepResult := mk_SweepResult 0 0 0 0.

Record MetricsSnapshot := mk_MetricsSnapshot {
  ms_Counters : gmap string float64;
  ms_Rates : gmap string float64;
  ms_Gauges : gmap string float64
}.

(** ** Configuration and kernel state *)

Record Config := mk_Config {
  ec_MaxEventsPerRun : Z;
  ec_MaxEvidenceBytesPerRun : Z;
  ec_EventRetention : duration;
  ec_WarmRetention : duration;
  ec_ColdRetention : duration;
  ec_OutboxMaxEvents : Z;
  ec_OutboxRetention : duration;
  ec_HighLoadThreshold : float64;
  ec_Tier2HighLoadDropRate : float64;
  ec_Tier3HighLoadDropRate : float64;
  ec_DecisionLogHistoryMax : Z;
  ec_GlobalAnchorHistoryMax : Z;
  ec_Attestor : option ExternalAnchorAttestor;
  ec_RequireExternalAnchorForAudit : bool
}.

Record runEvidenceStats := mk_runEvidenceStats {
  st_Events : Z;
  st_Bytes : Z
}.

Record storedRunData := mk_storedRunData {
  rd_Events : list CanonicalEvent;
  rd_Stats : runEvidenceStats;
  rd_BySource : gmap string Z;
  rd_ByTier : gmap string Z;
  rd_ByGrade : gmap string Z;
  rd_LastEventTS : time;
  rd_NeedsGraph : bool
}.

Definition rd_set_Events (x : list CanonicalEvent) (r : storedRunData) : storedRunData :=
  mk_storedRunData x (rd_Stats r) (rd_BySource r) (rd_ByTier r) (rd_ByGrade r) (rd_LastEventTS r)
    (rd_NeedsGraph r).
Definition rd_set_Stats (x : runEvidenceStats) (r : storedRunData) : storedRunData :=
  mk_storedRunData (rd_Events r) x (rd_BySource r) (rd_ByTier r) (rd_ByGrade r) (rd_LastEventTS r)
    (rd_NeedsGraph r).
Definition rd_set_BySource (x : gmap string Z) (r : storedRunData) : storedRunData :=
  mk_storedRunData (rd_Events r) (rd_Stats r) x (rd_ByTier r) (rd_ByGrade r) (rd_LastEventTS r)
    (rd_NeedsGraph r).
Definition rd_set_ByTier (x : gmap string Z) (r : storedRunData) : storedRunData :=
  mk_storedRunData (rd_Events r) (rd_Stats r) (rd_BySource r) x (rd_ByGrade r) (rd_LastEventTS r)
    (rd_NeedsGraph r).
Definition rd_set_ByGrade (x : gmap string Z) (r : storedRunData) : storedRunData :=
  mk_storedRunData (rd_Events r) (rd_Stats r) (rd_BySource r) (rd_ByTier r) x (rd_LastEventTS r)
    (rd_NeedsGraph r).
Definition rd_set_LastEventTS (x : time) (r : storedRunData) : storedRunData :=
  mk_storedRunData (rd_Events r) (rd_Stats r) (rd_BySource r) (rd_ByTier r) (rd_ByGrade r) x
    (rd_NeedsGraph r).
Definition rd_set_NeedsGraph (x : bool) (r : storedRunData) : storedRunData :=
  mk_storedRunData (rd_Events r) (rd_Stats r) (rd_BySource r) (rd_ByTier r) (rd_ByGrade r)
    (rd_LastEventTS r) x.

Record runIntegrityState := mk_runIntegrityState {
  ig_LastHash : string;
  ig_Count : Z
}.

(** The kernel without its mutex: an operation runs under [mu], so it is one step
    on this state.  ([CreateGlobalIntegrityAnchor] releases the mutex while the
    attestor runs, and is two steps.) *)
Record Kernel := mk_Kernel {
  k_cfg : Config;
  k_registeredSources : gmap string SourceRegistration;
  k_eventsByID : gmap string CanonicalEvent;
  k_runs : gmap string storedRunData;
  k_decisionLogs : gmap string DecisionLog;
  k_decisionLogHistory : gmap string (list DecisionLog);
  k_graphNodesByRun : gmap string (list DecisionGraphNode);
  k_graphEdgesByRun : gmap string (list DecisionGraphEdge);
  k_lastNodeByRun : gmap string string;
  k_ledgerByRun : gmap string (list LedgerEntry);
  k_warmArchiveByRun : gmap string (list CanonicalEvent);
  k_coldArchiveByRun : gmap string (list CanonicalEvent);
  k_outbox : list KernelEvent;
  k_integrityByRun : gmap string runIntegrityState;
  k_globalIntegrity : runIntegrityState;
  k_globalAnchors : list IntegrityAnchor;
  k_tombstonedRefs : gmap string time;
  k_backpressureLevel : Z;
  k_sourceBackpressure : gmap string Z;
  k_tenantBackpressure : gmap string Z;
  k_maxObservedEventTS : time;
  k_counters : gmap string float64;
  k_eventSeq : Z;
  k_idSeq : Z
}.

Definition k_set_registeredSources (x : gmap string SourceRegistration) (r : Kernel) : Kernel :=
  mk_Kernel (k_cfg r) x (k_eventsByID r) (k_runs r) (k_decisionLogs r) (k_decisionLogHistory r)
    (k_graphNodesByRun r) (k_graphEdgesByRun r) (k_lastNodeByRun r) (k_ledgerByRun r)
    (k_warmArchiveByRun r) (k_coldArchiveByRun r) (k_outbox r) (k_integrityByRun r)
    (k_globalIntegrity r) (k_globalAnchors r) (k_tombstonedRefs r) (k_backpressureLevel r)
    (k_sourceBackpressure r) (k_tenantBackpressure r) (k_maxObservedEventTS r) (k_counters r)
    (k_eventSeq r) (k_idSeq r).
Definition k_set_eventsByID (x : gmap string CanonicalEvent) (r : Kernel) : Kernel :=
  mk_Kernel (k_cfg r) (k_registeredSources r) x (k_runs r) (k_decisionLogs r)
    (k_decisionLogHistory r) (k_graphNodesByRun r) (k_graphEdgesByRun r) (k_lastNodeByRun r)
    (k_ledgerByRun r) (k_warmArchiveByRun r) (k_coldArchiveByRun r) (k_outbox r)
    (k_integrityByRun r) (k_globalIntegrity r) (k_globalAnchors r) (k_tombstonedRefs r)
    (k_backpressureLevel r) (k_sourceBackpressure r) (k_tenantBackpressure r)
    (k_maxObservedEventTS r) (k_counters r) (k_eventSeq r) (k_idSeq r).
Definition k_set_runs (x : gmap string storedRunData) (r : Kernel) : Kernel :=
  mk_Kernel (k_cfg r) (k_registeredSources r) (k_eventsByID r) x (k_decisionLogs r)
    (k_decisionLogHistory r) (k_graphNodesByRun r) (k_graphEdgesByRun r) (k_lastNodeByRun r)
    (k_ledgerByRun r) (k_warmArchiveByRun r) (k_coldArchiveByRun r) (k_outbox r)
    (k_integrityByRun r) (k_globalIntegrity r) (k_globalAnchors r) (k_tombstonedRefs r)
    (k_backpressureLevel r) (k_sourceBackpressure r) (k_tenantBackpressure r)
    (k_maxObservedEventTS r) (k_counters r) (k_eventSeq r) (k_idSeq r).
Definition k_set_decisionLogs (x : gmap string DecisionLog) (r : Kernel) : Kernel :=
  mk_Kernel (k_cfg r) (k_registeredSources r) (k_eventsByID r) (k_runs r) x (k_decisionLogHistory r)
    (k_graphNodesByRun r) (k_graphEdgesByRun r) (k_lastNodeByRun r) (k_ledgerByRun r)
    (k_warmArchiveByRun r) (k_coldArchiveByRun r) (k_outbox r) (k_integrityByRun r)
    (k_globalIntegrity r) (k_globalAnchors r) (k_tombstonedRefs r) (k_backpressureLevel r)
    (k_sourceBackpressure r) (k_tenantBackpressure r) (k_maxObservedEventTS r) (k_counters r)
    (k_eventSeq r) (k_idSeq r).
Definition k_set_decisionLogHistory (x : gmap string (list DecisionLog)) (r : Kernel) : Kernel :=
  mk_Kernel (k_cfg r) (k_registeredSources r) (k_eventsByID r) (k_runs r) (k_decisionLogs r) x
    (k_graphNodesByRun r) (k_graphEdgesByRun r) (k_lastNodeByRun r) (k_ledgerByRun r)
    (k_warmArchiveByRun r) (k_coldArchiveByRun r) (k_outbox r) (k_integrityByRun r)
    (k_globalIntegrity r) (k_globalAnchors r) (k_tombstonedRefs r) (k_backpressureLevel r)
    (k_sourceBackpressure r) (k_tenantBackpressure r) (k_maxObservedEventTS r) (k_counters r)
    (k_eventSeq r) (k_idSeq r).
Definition k_set_graphNodesByRun (x : gmap string (list DecisionGraphNode)) (r : Kernel) : Kernel :=
  mk_Kernel (k_cfg r) (k_registeredSources r) (k_eventsByID r) (k_runs r) (k_decisionLogs r)
    (k_decisionLogHistory r) x (k_graphEdgesByRun r) (k_lastNodeByRun r) (k_ledgerByRun r)
    (k_warmArchiveByRun r) (k_coldArchiveByRun r) (k_outbox r) (k_integrityByRun r)
    (k_globalIntegrity r) (k_globalAnchors r) (k_tombstonedRefs r) (k_backpressureLevel r)
    (k_sourceBackpressure r) (k_tenantBackpressure r) (k_maxObservedEventTS r) (k_counters r)
    (k_eventSeq r) (k_idSeq r).
Definition k_set_graphEdgesByRun (x : gmap string (list DecisionGraphEdge)) (r : Kernel) : Kernel :=
  mk_Kernel (k_cfg r) (k_registeredSources r) (k_eventsByID r) (k_runs r) (k_decisionLogs r)
    (k_decisionLogHistory r) (k_graphNodesByRun r) x (k_lastNodeByRun r) (k_ledgerByRun r)
    (k_warmArchiveByRun r) (k_coldArchiveByRun r) (k_outbox r) (k_integrityByRun r)
    (k_globalIntegrity r) (k_globalAnchors r) (k_tombstonedRefs r) (k_backpressureLevel r)
    (k_sourceBackpressure r) (k_tenantBackpressure r) (k_maxObservedEventTS r) (k_counters r)
    (k_eventSeq r) (k_idSeq r).
Definition k_set_lastNodeByRun (x : gmap string string) (r : Kernel) : Kernel :=
  mk_Kernel (k_cfg r) (k_registeredSources r) (k_eventsByID r) (k_runs r) (k_decisionLogs r)
    (k_decisionLogHistory r) (k_graphNodesByRun r) (k_graphEdgesByRun r) x (k_ledgerByRun r)
    (k_warmArchiveByRun r) (k_coldArchiveByRun r) (k_outbox r) (k_integrityByRun r)
    (k_globalIntegrity r) (k_globalAnchors r) (k_tombstonedRefs r) (k_backpressureLevel r)
    (k_sourceBackpressure r) (k_tenantBackpressure r) (k_maxObservedEventTS r) (k_counters r)
    (k_eventSeq r) (k_idSeq r).
Definition k_set_ledgerByRun (x : gmap string (list LedgerEntry)) (r : Kernel) : Kernel :=
  mk_Kernel (k_cfg r) (k_registeredSources r) (k_eventsByID r) (k_runs r) (k_decisionLogs r)
    (k_decisionLogHistory r) (k_graphNodesByRun r) (k_graphEdgesByRun r) (k_lastNodeByRun r) x
    (k_warmArchiveByRun r) (k_coldArchiveByRun r) (k_outbox r) (k_integrityByRun r)
    (k_globalIntegrity r) (k_globalAnchors r) (k_tombstonedRefs r) (k_backpressureLevel r)
    (k_sourceBackpressure r) (k_tenantBackpressure r) (k_maxObservedEventTS r) (k_counters r)
    (k_eventSeq r) (k_idSeq r).
Definition k_set_warmArchiveByRun (x : gmap string (list CanonicalEvent)) (r : Kernel) : Kernel :=
  mk_Kernel (k_cfg r) (k_registeredSources r) (k_eventsByID r) (k_runs r) (k_decisionLogs r)
    (k_decisionLogHistory r) (k_graphNodesByRun r) (k_graphEdgesByRun r) (k_lastNodeByRun r)
    (k_ledgerByRun r) x (k_coldArchiveByRun r) (k_outbox r) (k_integrityByRun r)
    (k_globalIntegrity r) (k_globalAnchors r) (k_tombstonedRefs r) (k_backpressureLevel r)
    (k_sourceBackpressure r) (k_tenantBackpressure r) (k_maxObservedEventTS r) (k_counters r)
    (k_eventSeq r) (k_idSeq r).
Definition k_set_coldArchiveByRun (x : gmap string (list CanonicalEvent)) (r : Kernel) : Kernel :=
  mk_Kernel (k_cfg r) (k_registeredSources r) (k_eventsByID r) (k_runs r) (k_decisionLogs r)
    (k_decisionLogHistory r) (k_graphNodesByRun r) (k_graphEdgesByRun r) (k_lastNodeByRun r)
    (k_ledgerByRun r) (k_warmArchiveByRun r) x (k_outbox r) (k_integrityByRun r)
    (k_globalIntegrity r) (k_globalAnchors r) (k_tombstonedRefs r) (k_backpressureLevel r)
    (k_sourceBackpressure r) (k_tenantBackpressure r) (k_maxObservedEventTS r) (k_counters r)
    (k_eventSeq r) (k_idSeq r).
Definition k_set_outbox (x : list KernelEvent) (r : Kernel) : Kernel :=
  mk_Kernel (k_cfg r) (k_registeredSources r) (k_eventsByID r) (k_runs r) (k_decisionLogs r)
    (k_decisionLogHistory r) (k_graphNodesByRun r) (k_graphEdgesByRun r) (k_lastNodeByRun r)
    (k_ledgerByRun r) (k_warmArchiveByRun r) (k_coldArchiveByRun r) x (k_integrityByRun r)
    (k_globalIntegrity r) (k_globalAnchors r) (k_tombstonedRefs r) (k_backpressureLevel r)
    (k_sourceBackpressure r) (k_tenantBackpressure r) (k_maxObservedEventTS r) (k_counters r)
    (k_eventSeq r) (k_idSeq r).
Definition k_set_integrityByRun (x : gmap string runIntegrityState) (r : Kernel) : Kernel :=
  mk_Kernel (k_cfg r) (k_registeredSources r) (k_eventsByID r) (k_runs r) (k_decisionLogs r)
    (k_decisionLogHistory r) (k_graphNodesByRun r) (k_graphEdgesByRun r) (k_lastNodeByRun r)
    (k_ledgerByRun r) (k_warmArchiveByRun r) (k_coldArchiveByRun r) (k_outbox r) x
    (k_globalIntegrity r) (k_globalAnchors r) (k_tombstonedRefs r) (k_backpressureLevel r)
    (k_sourceBackpressure r) (k_tenantBackpressure r) (k_maxObservedEventTS r) (k_counters r)
    (k_eventSeq r) (k_idSeq r).
Definition k_set_globalIntegrity (x : runIntegrityState) (r : Kernel) : Kernel :=
  mk_Kernel (k_cfg r) (k_registeredSources r) (k_eventsByID r) (k_runs r) (k_decisionLogs r)
    (k_decisionLogHistory r) (k_graphNodesByRun r) (k_graphEdgesByRun r) (k_lastNodeByRun r)
    (k_ledgerByRun r) (k_warmArchiveByRun r) (k_coldArchiveByRun r) (k_outbox r)
    (k_integrityByRun r) x (k_globalAnchors r) (k_tombstonedRefs r) (k_backpressureLevel r)
    (k_sourceBackpressure r) (k_tenantBackpressure r) (k_maxObservedEventTS r) (k_counters r)
    (k_eventSeq r) (k_idSeq r).
Definition k_set_globalAnchors (x : list IntegrityAnchor) (r : Kernel) : Kernel :=
  mk_Kernel (k_cfg r) (k_registeredSources r) (k_eventsByID r) (k_runs r) (k_decisionLogs r)
    (k_decisionLogHistory r) (k_graphNodesByRun r) (k_graphEdgesByRun r) (k_lastNodeByRun r)
    (k_ledgerByRun r) (k_warmArchiveByRun r) (k_coldArchiveByRun r) (k_outbox r)
    (k_integrityByRun r) (k_globalIntegrity r) x (k_tombstonedRefs r) (k_backpressureLevel r)
    (k_sourceBackpressure r) (k_tenantBackpressure r) (k_maxObservedEventTS r) (k_counters r)
    (k_eventSeq r) (k_idSeq r).
Definition k_set_tombstonedRefs (x : gmap string time) (r : Kernel) : Kernel :=
  mk_Kernel (k_cfg r) (k_registeredSources r) (k_eventsByID r) (k_runs r) (k_decisionLogs r)
    (k_decisionLogHistory r) (k_graphNodesByRun r) (k_graphEdgesByRun r) (k_lastNodeByRun r)
    (k_ledgerByRun r) (k_warmArchiveByRun r) (k_coldArchiveByRun r) (k_outbox r)
    (k_integrityByRun r) (k_globalIntegrity r) (k_globalAnchors r) x (k_backpressureLevel r)
    (k_sourceBackpressure r) (k_tenantBackpressure r) (k_maxObservedEventTS r) (k_counters r)
    (k_eventSeq r) (k_idSeq r).
Definition k_set_backpressureLevel (x : Z) (r : Kernel) : Kernel :=
  mk_Kernel (k_cfg r) (k_registeredSources r) (k_eventsByID r) (k_runs r) (k_decisionLogs r)
    (k_decisionLogHistory r) (k_graphNodesByRun r) (k_graphEdgesByRun r) (k_lastNodeByRun r)
    (k_ledgerByRun r) (k_warmArchiveByRun r) (k_coldArchiveByRun r) (k_outbox r)
    (k_integrityByRun r) (k_globalIntegrity r) (k_globalAnchors r) (k_tombstonedRefs r) x
    (k_sourceBackpressure r) (k_tenantBackpressure r) (k_maxObservedEventTS r) (k_counters r)
    (k_eventSeq r) (k_idSeq r).
Definition k_set_sourceBackpressure (x : gmap string Z) (r : Kernel) : Kernel :=
  mk_Kernel (k_cfg r) (k_registeredSources r) (k_eventsByID r) (k_runs r) (k_decisionLogs r)
    (k_decisionLogHistory r) (k_graphNodesByRun r) (k_graphEdgesByRun r) (k_lastNodeByRun r)
    (k_ledgerByRun r) (k_warmArchiveByRun r) (k_coldArchiveByRun r) (k_outbox r)
    (k_integrityByRun r) (k_globalIntegrity r) (k_globalAnchors r) (k_tombstonedRefs r)
    (k_backpressureLevel r) x (k_tenantBackpressure r) (k_maxObservedEventTS r) (k_counters r)
    (k_eventSeq r) (k_idSeq r).
Definition k_set_tenantBackpressure (x : gmap string Z) (r : Kernel) : Kernel :=
  mk_Kernel (k_cfg r) (k_registeredSources r) (k_eventsByID r) (k_runs r) (k_decisionLogs r)
    (k_decisionLogHistory r) (k_graphNodesByRun r) (k_graphEdgesByRun r) (k_lastNodeByRun r)
    (k_ledgerByRun r) (k_warmArchiveByRun r) (k_coldArchiveByRun r) (k_outbox r)
    (k_integrityByRun r) (k_globalIntegrity r) (k_globalAnchors r) (k_tombstonedRefs r)
    (k_backpressureLevel r) (k_sourceBackpressure r) x (k_maxObservedEventTS r) (k_counters r)
    (k_eventSeq r) (k_idSeq r).
Definition k_set_maxObservedEventTS (x : time) (r : Kernel) : Kernel :=
  mk_Kernel (k_cfg r) (k_registeredSources r) (k_eventsByID r) (k_runs r) (k_decisionLogs r)
    (k_decisionLogHistory r) (k_graphNodesByRun r) (k_graphEdgesByRun r) (k_lastNodeByRun r)
    (k_ledgerByRun r) (k_warmArchiveByRun r) (k_coldArchiveByRun r) (k_outbox r)
    (k_integrityByRun r) (k_globalIntegrity r) (k_globalAnchors r) (k_tombstonedRefs r)
    (k_backpressureLevel r) (k_sourceBackpressure r) (k_tenantBackpressure r) x (k_counters r)
    (k_eventSeq r) (k_idSeq r).
Definition k_set_counters (x : gmap string float64) (r : Kernel) : Kernel :=
  mk_Kernel (k_cfg r) (k_registeredSources r) (k_eventsByID r) (k_runs r) (k_decisionLogs r)
    (k_decisionLogHistory r) (k_graphNodesByRun r) (k_graphEdgesByRun r) (k_lastNodeByRun r)
    (k_ledgerByRun r) (k_warmArchiveByRun r) (k_coldArchiveByRun r) (k_outbox r)
    (k_integrityByRun r) (k_globalIntegrity r) (k_globalAnchors r) (k_tombstonedRefs r)
    (k_backpressureLevel r) (k_sourceBackpressure r) (k_tenantBackpressure r)
    (k_maxObservedEventTS r) x (k_eventSeq r) (k_idSeq r).
Definition k_set_eventSeq (x : Z) (r : Kernel) : Kernel :=
  mk_Kernel (k_cfg r) (k_registeredSources r) (k_eventsByID r) (k_runs r) (k_decisionLogs r)
    (k_decisionLogHistory r) (k_graphNodesByRun r) (k_graphEdgesByRun r) (k_lastNodeByRun r)
    (k_ledgerByRun r) (k_warmArchiveByRun r) (k_coldArchiveByRun r) (k_outbox r)
    (k_integrityByRun r) (k_globalIntegrity r) (k_globalAnchors r) (k_tombstonedRefs r)
    (k_backpressureLevel r) (k_sourceBackpressure r) (k_tenantBackpressure r)
    (k_maxObservedEventTS r) (k_counters r) x (k_idSeq r).
Definition k_set_idSeq (x : Z) (r : Kernel) : Kernel :=
  mk_Kernel (k_cfg r) (k_registeredSources r) (k_eventsByID r) (k_runs r) (k_decisionLogs r)
    (k_decisionLogHistory r) (k_graphNodesByRun r) (k_graphEdgesByRun r) (k_lastNodeByRun r)
    (k_ledgerByRun r) (k_warmArchiveByRun r) (k_coldArchiveByRun r) (k_outbox r)
    (k_integrityByRun r) (k_globalIntegrity r) (k_globalAnchors r) (k_tombstonedRefs r)
    (k_backpressureLevel r) (k_sourceBackpressure r) (k_tenantBackpressure r)
    (k_maxObservedEventTS r) (k_counters r) (k_eventSeq r) x.

