(* ===== verification/EvEvents.v ===== *)
(** * Events of the Evidence kernel: normalisation, canonical form, estimates

    The pure helpers of [internal/evidence/kernel.go]: request normalisation and
    validation, [canonicalize], sizes and sampling, node and edge
    classification, payload extraction, hashes and identifiers. *)

From S2P Require Import Prelude GoStrings Sha256 GoTime GoJson EvTypes.

Definition evidenceErr (status : Z) (code msg : string) (reasons : list string) : KernelError :=
  mk_KernelError status code msg reasons.

(** ** Normal forms of the request's enumerations *)

Definition normalizeSource (v : string) : string := ToLower (TrimSpace v).

Definition normalizeRisk (v : string) : string :=
  if one_of (ToLower (TrimSpace v)) [RiskLow; RiskMedium; RiskHigh; RiskCritical]
  then ToLower (TrimSpace v) else RiskMedium.

Definition normalizeTier (v : string) : string :=
  if one_of (ToLower (TrimSpace v)) [Tier0; Tier1; Tier2; Tier3]
  then ToLower (TrimSpace v) else "".

Definition normalizeGrade (v : string) : string :=
  if one_of (ToLower (TrimSpace v)) [GradeAudit; GradeOperational]
  then ToLower (TrimSpace v) else "".

Definition isTierDroppable (tier : string) : bool :=
  (tier =? Tier2)%string || (tier =? Tier3)%string.

Definition isHighRisk (risk : string) : bool :=
  (risk =? RiskHigh)%string || (risk =? RiskCritical)%string.

(** ** Reading a payload *)

(** [m[key]]: a nil or empty map and a nil interface read alike below. *)
Definition payload_get (m : payload) (key : string) : option gval :=
  match m with
  | None => None
  | Some kvs => match assoc kvs key with Some GNil => None | v => v end
  end.

Definition extractString (m : payload) (key : string) : string :=
  match payload_get m key with
  | None => ""
  | Some (GStr s) => TrimSpace s
  | Some v => TrimSpace (fmt_v v)
  end.

Definition keep_nonblank (l : list string) : list string :=
  List.filter (fun s => negb (s =? "")%string) (map TrimSpace l).

Definition extractStringSlice (m : payload) (key : string) : list string :=
  match payload_get m key with
  | Some (GStrs t) => keep_nonblank t
  | Some (GArr t) => keep_nonblank (map fmt_v t)
  | _ => []
  end.

Definition extractStringSliceOrScalar (m : payload) (key : string) : list string :=
  match extractStringSlice m key with
  | [] => let v := extractString m key in if blank v then [] else [v]
  | out => out
  end.

Definition extractFloat (m : payload) (key : string) : float64 :=
  match payload_get m key with
  | Some (GFloat t) => t
  | Some (GInt t) => float_of_Z t
  | _ => fzero
  end.

Definition boolToFloat (v : bool) : float64 := if v then float_of_Z 1 else fzero.

Definition ratio (num den : float64) : float64 :=
  if fleb den fzero then fzero else fmul (fdiv num den) (float_of_Z 100).

(** ** Hashes and identifiers *)

Definition safeHash (v : gval) : string * bool :=
  match json_Marshal v with Err _ => ("", false) | Ok raw => (sha256_hex raw, true) end.

Definition fallbackHashID (eventID runID eventType : string) : string :=
  String.append "fallback_" (sha256_hex_prefix 8 (Join [eventID; runID; eventType] "|")).

Definition stableNodeID (e : CanonicalEvent) : string :=
  String.append "dgn_" (sha256_hex_prefix 10
    (Join [cv_RunID e; cv_StepID e; cv_DecisionID e; cv_EventID e; cv_EventType e] "|")).

Definition stableEdgeID (runID fromNodeID toNodeID edgeType eventID : string) : string :=
  String.append "dge_" (sha256_hex_prefix 10
    (Join [runID; fromNodeID; toNodeID; edgeType; eventID] "|")).

(** [e.EventTS.UTC().Format(time.RFC3339Nano)]. *)
Definition ts_str (e : CanonicalEvent) : string := FormatRFC3339Nano (cv_EventTS e).

(** One link of a run's integrity chain, and one of the global chain. *)
Definition chain_hash (prev : string) (e : CanonicalEvent) : string :=
  sha256_hex (Join [prev; cv_EventID e; cv_EventType e; cv_CanonicalHash e; cv_PayloadHash e;
                    ts_str e] "|").

Definition link_hash (prev link : string) (e : CanonicalEvent) : string :=
  sha256_hex (Join [prev; cv_RunID e; cv_EventID e; link; ts_str e] "|").

(** ** Requests *)

Definition clamp01 (x : float64) : float64 :=
  let x := if fltb x fzero then fzero else x in
  if fltb (float_of_Z 1) x then float_of_Z 1 else x.

Definition normalizeIngestRequest (req : IngestEventRequest) (now : time) : IngestEventRequest := {|
  rq_EventID := TrimSpace (rq_EventID req);
  rq_EventType := TrimSpace (rq_EventType req);
  rq_SchemaVersion := if rq_SchemaVersion req <=? 0 then 1 else rq_SchemaVersion req;
  rq_SourceComponent := normalizeSource (rq_SourceComponent req);
  rq_RunID := TrimSpace (rq_RunID req);
  rq_StepID := TrimSpace (rq_StepID req);
  rq_DecisionID := TrimSpace (rq_DecisionID req);
  rq_TenantID := TrimSpace (rq_TenantID req);
  rq_ProjectID := TrimSpace (rq_ProjectID req);
  rq_WorkflowID := TrimSpace (rq_WorkflowID req);
  rq_RiskTier := normalizeRisk (rq_RiskTier req);
  rq_EvidenceTier := normalizeTier (rq_EvidenceTier req);
  rq_EvidenceGrade := normalizeGrade (rq_EvidenceGrade req);
  rq_PayloadIntegrityRequired := rq_PayloadIntegrityRequired req;
  rq_EventTS := if IsZero (rq_EventTS req) then now else rq_EventTS req;
  rq_PayloadRef := TrimSpace (rq_PayloadRef req);
  rq_PayloadHash := TrimSpace (rq_PayloadHash req);
  rq_PayloadHashValid := rq_PayloadHashValid req;
  rq_Payload := rq_Payload req;
  rq_SystemLoad := clamp01 (rq_SystemLoad req);
  rq_Usage := rq_Usage req |}.

Definition validateIngestRequest (req : IngestEventRequest) : option KernelError :=
  if (rq_EventID req =? "")%string then
    Some (evidenceErr 422 "EVENT_ID_REQUIRED" "event_id required" ["event_id_required"])
  else if (rq_EventType req =? "")%string then
    Some (evidenceErr 422 "EVENT_TYPE_REQUIRED" "event_type required" ["event_type_required"])
  else if (rq_SourceComponent req =? "")%string then
    Some (evidenceErr 422 "SOURCE_COMPONENT_REQUIRED" "source_component required"
            ["source_component_required"])
  else if (rq_RunID req =? "")%string then
    Some (evidenceErr 422 "RUN_ID_REQUIRED" "run_id required" ["run_id_required"])
  else None.

(** ** Canonical events *)

(** The tier, grade and payload hash an event is stored with. *)
Definition event_tier (req : IngestEventRequest) (reg : SourceRegistration) : string :=
  if (rq_EvidenceTier req =? "")%string then
    let tier := normalizeTier (sr_DefaultTier reg) in
    if (tier =? "")%string then Tier1 else tier
  else rq_EvidenceTier req.

Definition event_grade (req : IngestEventRequest) : string :=
  if (rq_EvidenceGrade req =? "")%string then
    if rq_PayloadIntegrityRequired req then GradeAudit else GradeOperational
  else rq_EvidenceGrade req.

Definition event_payload_hash (req : IngestEventRequest) : string * bool :=
  if rq_PayloadHashValid req && negb (rq_PayloadHash req =? "")%string
  then (rq_PayloadHash req, true)
  else safeHash (gval_of_payload (rq_Payload req)).

Definition canonical_input (c : CanonicalEvent) : gval :=
  GMap [("event_id", GStr (cv_EventID c));
        ("event_type", GStr (cv_EventType c));
        ("run_id", GStr (cv_RunID c));
        ("source_component", GStr (cv_SourceComponent c));
        ("event_ts", GStr (ts_str c));
        ("payload_hash", GStr (cv_PayloadHash c));
        ("decision_id", GStr (cv_DecisionID c))].

(** The clones of the payload and of the usage are the values themselves: the
    kernel never writes into a stored payload. *)
Definition canonicalize (req : IngestEventRequest) (reg : SourceRegistration) : CanonicalEvent :=
  let '(payloadHash, payloadHashValid) := event_payload_hash req in
  let c := {|
    cv_EventID := rq_EventID req;
    cv_EventType := rq_EventType req;
    cv_SchemaVersion := rq_SchemaVersion req;
    cv_SourceComponent := rq_SourceComponent req;
    cv_RunID := rq_RunID req;
    cv_StepID := rq_StepID req;
    cv_DecisionID := rq_DecisionID req;
    cv_TenantID := rq_TenantID req;
    cv_ProjectID := rq_ProjectID req;
    cv_WorkflowID := rq_WorkflowID req;
    cv_RiskTier := rq_RiskTier req;
    cv_EvidenceTier := event_tier req reg;
    cv_EvidenceGrade := event_grade req;
    cv_PayloadIntegrityRequired := rq_PayloadIntegrityRequired req;
    cv_EventTS := rq_EventTS req;
    cv_PayloadRef := rq_PayloadRef req;
    cv_PayloadHash := payloadHash;
    cv_PayloadHashValid := payloadHashValid;
    cv_PayloadTombstoned := false;
    cv_RedactionReason := "";
    cv_Payload := rq_Payload req;
    cv_Usage := rq_Usage req;
    cv_IntegritySeq := 0;
    cv_IntegrityPrevHash := "";
    cv_IntegrityHash := "";
    cv_CanonicalHash := "";
    cv_EstimatedBytes := 0;
    cv_Degraded := false;
    cv_Dropped := false;
    cv_DropReason := "" |} in
  let h := fst (safeHash (canonical_input c)) in
  cv_set_CanonicalHash
    (if (h =? "")%string then fallbackHashID (cv_EventID c) (cv_RunID c) (cv_EventType c) else h) c.

Definition estimateEventBytes (e : CanonicalEvent) : Z :=
  let size := len (cv_EventID e) + len (cv_EventType e) + len (cv_RunID e)
              + len (cv_SourceComponent e) + len (cv_PayloadRef e) + len (cv_PayloadHash e)
              + len (cv_DecisionID e) in
  let size := match json_Marshal (gval_of_payload (cv_Payload e)) with
              | Ok raw => size + len raw
              | Err _ => size
              end in
  if size <? 128 then 128 else size.

(** [int(f)] truncates toward zero (what an out-of-range or NaN conversion
    gives is left to the platform: amd64's value is used). *)
Definition int_of_float (f : float64) : Z :=
  match f with
  | S754_zero _ => 0
  | S754_infinity _ | S754_nan => min_int64
  | S754_finite s m e =>
    let a := if 0 <=? e then Z.pos m * 2 ^ e else Z.pos m / 2 ^ (- e) in
    let v := if s then - a else a in
    if (min_int64 <=? v) && (v <=? max_int64) then v else min_int64
  end.

Definition shouldDropByRate (eventID : string) (rate : float64) : bool :=
  if fleb rate fzero then false
  else if fleb (float_of_Z 1) rate then true
  else sha256_byte0 eventID <=? int_of_float (fmul rate (float_of_Z 255)).

(** ** Classification *)

Definition contains_any (s : string) (tokens : list string) : bool := existsb (Contains s) tokens.

(** The first of the tokens contained in [s]. *)
Definition first_contained (s : string) (tokens : list string) : option string :=
  List.find (Contains s) tokens.

Definition inferNodeType (source eventType : string) : string :=
  let ev := ToLower (TrimSpace eventType) in
  match first_contained ev ["context"; "policy"; "approval"; "schedule"; "release"; "tool"] with
  | Some t => t
  | None =>
    if (source =? "decision_kernel")%string then "decision"
    else if (source =? "run_kernel")%string then "run" else source
  end.

Definition inferEdgeType (eventType : string) : string :=
  let ev := ToLower (TrimSpace eventType) in
  if contains_any ev ["override"; "supersede"; "rollback"] then "overrides"
  else if contains_any ev ["block"; "deny"; "fail"; "violation"] then "blocks"
  else if contains_any ev ["approval"; "derived"; "compiled"; "injected"; "influence"]
  then "influenced_by"
  else "depends_on".

Definition isFailureLikeEvent (eventType : string) : bool :=
  contains_any (ToLower (TrimSpace eventType))
    ["fail"; "error"; "block"; "violation"; "deny"; "abort"; "critical"].

Definition isStrongFailureEvent (e : CanonicalEvent) : bool :=
  contains_any (ToLower (TrimSpace (cv_EventType e)))
    ["irreversible_progress_violation"; "force_abort"; "fail_closed"; "critical"]
  || one_of (ToLower (extractString (cv_Payload e) "decision"))
       ["fail_closed"; "deny"; "force_abort"; "force_review_required"].

Definition findFirstBadEvent (events : list CanonicalEvent) : option CanonicalEvent :=
  match List.find isStrongFailureEvent events with
  | Some e => Some e
  | None => List.find (fun e => isFailureLikeEvent (cv_EventType e)) events
  end.

Definition estimateEvidenceCompleteness (e : CanonicalEvent) (decisionValue : string) : float64 :=
  let add (b : bool) n score := if b then fadd score (float_of_ratio n 10) else score in
  let score :=
    fzero
    |> add (cv_PayloadHashValid e) 4
    |> add (negb (blank decisionValue) && negb (TrimSpace decisionValue =? "unknown")%string) 2
    |> add (negb (blank (extractString (cv_Payload e) "rationale_ref"))
            || negb (blank (cv_PayloadRef e))) 3
    |> add (fltb fzero (extractFloat (cv_Payload e) "decision_confidence")) 1 in
  if fltb (float_of_Z 1) score then float_of_Z 1 else score.

(** ** String sets kept as slices *)

Definition appendUniqueString (l : list string) (v : string) : list string :=
  let v := TrimSpace v in
  if (v =? "")%string || one_of v l then l else l ++ [v].

Definition appendUniqueStrings (l values : list string) : list string :=
  foldl appendUniqueString l values.

Definition isPayloadTombstoned (tombstoned : gmap string time) (payloadRef : string) : bool :=
  let r := TrimSpace payloadRef in
  if (r =? "")%string then false else bool_decide (is_Some (tombstoned !! r)).

(** ** Order of events *)

(** The order [sortEventsByTS] sorts by: time, then identifier.  The sort of the
    source is not stable; where identifiers are distinct there is one sorted
    permutation. *)
Definition event_le (a b : CanonicalEvent) : Prop :=
  cv_EventTS a < cv_EventTS b
  \/ (cv_EventTS a = cv_EventTS b /\ String.le (cv_EventID a) (cv_EventID b)).

#[global] Instance event_le_dec : RelDecision event_le.
Proof. intros a b. unfold event_le. apply _. Defined.

Definition sortEventsByTS (l : list CanonicalEvent) : list CanonicalEvent := merge_sort event_le l.
