(* ===== verification/EvKernel.v ===== *)
(** * The Evidence kernel: construction, emission, indexes, ingestion

    [NewKernel] to [IngestEvent] and the indexes ingestion maintains
    ([internal/evidence/kernel.go]), in state-passing style: the kernel goes in,
    the kernel and the Go result come out; [now] is the reading of
    [k.cfg.Clock()]. *)

From S2P Require Import Prelude GoStrings Sha256 GoTime GoJson EvTypes EvEvents.

(** ** Construction and registration *)

Definition default_if (b : bool) {A} (d x : A) : A := if b then d else x.

Definition defaultSourceRegistrations : gmap string SourceRegistration :=
  {["run_kernel" := mk_SourceRegistration "run_kernel" 1 Tier1;
    "decision_kernel" := mk_SourceRegistration "decision_kernel" 1 Tier1;
    "adapter" := mk_SourceRegistration "adapter" 1 Tier1]}.

Definition normalize_config (cfg : Config) : Config :=
  let pos d x := default_if (x <=? 0) d x in
  let posf d x := default_if (fleb x fzero) d x in
  let event := pos (24 * Hour) (ec_EventRetention cfg) in
  let warm := pos (30 * 24 * Hour) (ec_WarmRetention cfg) in
  let cold := pos (180 * 24 * Hour) (ec_ColdRetention cfg) in
  let warm := if warm <? event then event else warm in
  let cold := if cold <? warm then warm else cold in
  {| ec_MaxEventsPerRun := pos 2000 (ec_MaxEventsPerRun cfg);
     ec_MaxEvidenceBytesPerRun := pos (8 * 1024 * 1024) (ec_MaxEvidenceBytesPerRun cfg);
     ec_EventRetention := event;
     ec_WarmRetention := warm;
     ec_ColdRetention := cold;
     ec_OutboxMaxEvents := pos 10000 (ec_OutboxMaxEvents cfg);
     ec_OutboxRetention := pos (24 * Hour) (ec_OutboxRetention cfg);
     ec_HighLoadThreshold := posf (float_of_ratio 8 10) (ec_HighLoadThreshold cfg);
     ec_Tier2HighLoadDropRate := posf (float_of_ratio 5 10) (ec_Tier2HighLoadDropRate cfg);
     ec_Tier3HighLoadDropRate := posf (float_of_ratio 9 10) (ec_Tier3HighLoadDropRate cfg);
     ec_DecisionLogHistoryMax := pos 128 (ec_DecisionLogHistoryMax cfg);
     ec_GlobalAnchorHistoryMax := pos 128 (ec_GlobalAnchorHistoryMax cfg);
     ec_Attestor := ec_Attestor cfg;
     ec_RequireExternalAnchorForAudit := ec_RequireExternalAnchorForAudit cfg |}.

(** The zero [runIntegrityState], also what a missing map entry reads as. *)
Definition genesis : runIntegrityState := mk_runIntegrityState "" 0.

Definition NewKernel (cfg : Config) : Kernel := {|
  k_cfg := normalize_config cfg;
  k_registeredSources := defaultSourceRegistrations;
  k_eventsByID := ∅; k_runs := ∅; k_decisionLogs := ∅; k_decisionLogHistory := ∅;
  k_graphNodesByRun := ∅; k_graphEdgesByRun := ∅; k_lastNodeByRun := ∅; k_ledgerByRun := ∅;
  k_warmArchiveByRun := ∅; k_coldArchiveByRun := ∅; k_outbox := [];
  k_integrityByRun := ∅; k_globalIntegrity := genesis; k_globalAnchors := [];
  k_tombstonedRefs := ∅; k_backpressureLevel := 0; k_sourceBackpressure := ∅;
  k_tenantBackpressure := ∅; k_maxObservedEventTS := 0; k_counters := ∅;
  k_eventSeq := 0; k_idSeq := 0 |}.

Definition RegisterSource (reg : SourceRegistration) (k : Kernel) : Kernel * result KernelError unit :=
  let source := normalizeSource (sr_SourceComponent reg) in
  let reg := mk_SourceRegistration source (sr_MinSchema reg) (normalizeTier (sr_DefaultTier reg)) in
  if (source =? "")%string then
    (k, Err (evidenceErr 422 "SOURCE_COMPONENT_REQUIRED" "source_component required"
               ["source_component_required"]))
  else if sr_MinSchema reg <=? 0 then
    (k, Err (evidenceErr 422 "SOURCE_SCHEMA_INVALID" "min_schema must be >= 1"
               ["source_schema_invalid"]))
  else (k_set_registeredSources (<[source := reg]> (k_registeredSources k)) k, Ok tt).

Definition clamp_level (level : Z) : Z :=
  let level := if level <? BackpressureLevel0 then BackpressureLevel0 else level in
  if BackpressureLevel3 <? level then BackpressureLevel3 else level.

Definition SetBackpressureLevel (level : Z) (k : Kernel) : Kernel :=
  k_set_backpressureLevel (clamp_level level) k.

Definition SetSourceBackpressureLevel (source : string) (level : Z) (k : Kernel) : Kernel :=
  let source := normalizeSource source in
  if (source =? "")%string then k
  else k_set_sourceBackpressure (<[source := clamp_level level]> (k_sourceBackpressure k)) k.

Definition SetTenantBackpressureLevel (tenantID : string) (level : Z) (k : Kernel) : Kernel :=
  let tenantID := TrimSpace tenantID in
  if (tenantID =? "")%string then k
  else k_set_tenantBackpressure (<[tenantID := clamp_level level]> (k_tenantBackpressure k)) k.

(** ** Counters and identifiers *)

Definition add_counter (name : string) (x : float64) (k : Kernel) : Kernel :=
  k_set_counters (<[name := fadd (default fzero (k_counters k !! name)) x]> (k_counters k)) k.

(** [k.counters[name]++]. *)
Definition bump (name : string) (k : Kernel) : Kernel := add_counter name (float_of_Z 1) k.

Definition nextID (prefix : string) (k : Kernel) : Kernel * string :=
  let seq := wrap_uint64 (k_idSeq k + 1) in
  (k_set_idSeq seq k, String.append prefix (fmt_d seq)).

(** [m[key]++] on a map of ints. *)
Definition incr (key : string) (m : gmap string Z) : gmap string Z :=
  <[key := wrap_int64 (default 0 (m !! key) + 1)]> m.

(** ** The outbox *)

Definition outbox_expired (cfg : Config) (now : time) (e : KernelEvent) : bool :=
  negb (Sub now (oe_EventTS e) <=? ec_OutboxRetention cfg).

Definition trimOutboxLocked (now : time) (k : Kernel) : Kernel * Z :=
  let cut := if 0 <? ec_OutboxRetention (k_cfg k)
             then prefix_len (outbox_expired (k_cfg k) now) (k_outbox k) else 0%nat in
  let outbox := drop cut (k_outbox k) in
  let overflow := Z.of_nat (length outbox) - ec_OutboxMaxEvents (k_cfg k) in
  let cut2 := if 0 <? overflow then Z.to_nat overflow else 0%nat in
  (k_set_outbox (drop cut2 outbox) k, Z.of_nat cut + Z.of_nat cut2).

(** [if trimmed := k.trimOutboxLocked(now); trimmed > 0 { counters += trimmed }]. *)
Definition trim_and_count (now : time) (k : Kernel) : Kernel :=
  let '(k, trimmed) := trimOutboxLocked now k in
  if 0 <? trimmed then add_counter "outbox_trimmed_total" (float_of_Z trimmed) k else k.

Definition observe_ts (ts : time) (k : Kernel) : Kernel :=
  if After ts (k_maxObservedEventTS k) then k_set_maxObservedEventTS ts k else k.

Definition emitLocked (eventType runID : string) (kvs : list (string * gval)) (now : time)
    (k : Kernel) : Kernel :=
  let seq := wrap_uint64 (k_eventSeq k + 1) in
  let '(hash, ok) := safeHash (GMap kvs) in
  let ev := {|
    oe_EventID := String.append "evt_evd_seq_" (fmt_d seq);
    oe_EventType := eventType;
    oe_SchemaVersion := 1;
    oe_SourceComponent := "evidence_kernel";
    oe_EventTS := now;
    oe_RunID := runID;
    oe_PayloadRef := String.append "inline://evidence_outbox/" (fmt_d seq);
    oe_PayloadHash := hash;
    oe_PayloadHashValid := ok;
    oe_Payload := GMap kvs |} in
  k |> k_set_eventSeq seq |> k_set_outbox (k_outbox k ++ [ev])
    |> observe_ts now |> trim_and_count now.

Definition Outbox (k : Kernel) : list KernelEvent := k_outbox k.

Definition DrainOutbox (limit : Z) (k : Kernel) : Kernel * list KernelEvent :=
  let n := Z.of_nat (length (k_outbox k)) in
  let limit := Z.to_nat (if (limit <=? 0) || (n <? limit) then n else limit) in
  (k_set_outbox (drop limit (k_outbox k)) k, take limit (k_outbox k)).

(** ** The integrity chains *)

(** The event as it is stored, and the two chain states after it. *)
Definition seal (state : runIntegrityState) (e : CanonicalEvent) : CanonicalEvent :=
  let prev := ig_LastHash state in
  e |> cv_set_IntegritySeq (wrap_int64 (ig_Count state + 1))
    |> cv_set_IntegrityPrevHash prev
    |> cv_set_IntegrityHash (chain_hash prev e).

Definition global_link (g : runIntegrityState) (e : CanonicalEvent) : runIntegrityState :=
  mk_runIntegrityState (link_hash (ig_LastHash g) (cv_IntegrityHash e) e)
    (wrap_int64 (ig_Count g + 1)).

Definition run_chain (k : Kernel) (runID : string) : runIntegrityState :=
  default genesis (k_integrityByRun k !! runID).

Definition appendIntegrityLocked (e : CanonicalEvent) (k : Kernel) : Kernel * CanonicalEvent :=
  let e := seal (run_chain k (cv_RunID e)) e in
  let st := mk_runIntegrityState (cv_IntegrityHash e) (cv_IntegritySeq e) in
  (k |> k_set_integrityByRun (<[cv_RunID e := st]> (k_integrityByRun k))
     |> k_set_globalIntegrity (global_link (k_globalIntegrity k) e), e).

(** ** Decision logs *)

Definition decision_value (e : CanonicalEvent) : string :=
  let v := extractString (cv_Payload e) "decision" in
  let v := if (v =? "")%string then extractString (cv_Payload e) "final_decision" else v in
  if (v =? "")%string then "unknown" else v.

Definition decision_log (e : CanonicalEvent) (version : Z) (now : time) : DecisionLog := {|
  dl_DecisionID := cv_DecisionID e;
  dl_Version := version;
  dl_SourceEventID := cv_EventID e;
  dl_SourceSchemaVersion := cv_SchemaVersion e;
  dl_SourceComponent := cv_SourceComponent e;
  dl_SourceEventTS := cv_EventTS e;
  dl_DerivedFromEventID := cv_EventID e;
  dl_SupersededByVersion := 0;
  dl_RunID := cv_RunID e;
  dl_DecisionType := cv_EventType e;
  dl_DecisionValue := decision_value e;
  dl_DecisionConfidence := extractFloat (cv_Payload e) "decision_confidence";
  dl_PayloadIntegrityScore := boolToFloat (cv_PayloadHashValid e);
  dl_EvidenceCompletenessScore := estimateEvidenceCompleteness e (decision_value e);
  dl_RationaleRef := extractString (cv_Payload e) "rationale_ref";
  dl_CreatedAt := now |}.

(** [history[len(history)-1].SupersededByVersion = version]. *)
Definition supersede_last (version : Z) (history : list DecisionLog) : list DecisionLog :=
  alter (dl_set_SupersededByVersion version) (pred (length history)) history.

(** The last [max] entries, when there is a positive bound. *)
Definition keep_last {A} (max : Z) (l : list A) : list A :=
  if (0 <? max) && (max <? Z.of_nat (length l)) then lastn (Z.to_nat max) l else l.

Definition updateDecisionLogLocked (e : CanonicalEvent) (now : time) (k : Kernel) : Kernel :=
  if blank (cv_DecisionID e) then k
  else
    let history := default [] (k_decisionLogHistory k !! cv_DecisionID e) in
    let version := Z.of_nat (length history) + 1 in
    let log := decision_log e version now in
    let h := supersede_last version history ++ [log] in
    k |> k_set_decisionLogs (<[cv_DecisionID e := log]> (k_decisionLogs k))
      |> k_set_decisionLogHistory
           (<[cv_DecisionID e := keep_last (ec_DecisionLogHistoryMax (k_cfg k)) h]>
              (k_decisionLogHistory k)).

(** ** The decision graph *)

(** Refresh the reference of the first node with the same identifier, or add
    the node at the end. *)
Fixpoint upsert_node (node : DecisionGraphNode) (nodes : list DecisionGraphNode) :
    list DecisionGraphNode :=
  match nodes with
  | [] => [node]
  | n :: nodes =>
    if (gn_NodeID n =? gn_NodeID node)%string
    then (if blank (gn_NodeRef node) then n else gn_set_NodeRef (gn_NodeRef node) n) :: nodes
    else n :: upsert_node node nodes
  end.

Definition upsertGraphNodeLocked (runID : string) (node : DecisionGraphNode) (k : Kernel) : Kernel :=
  k_set_graphNodesByRun
    (<[runID := upsert_node node (default [] (k_graphNodesByRun k !! runID))]>
       (k_graphNodesByRun k)) k.

Definition same_edge (a b : DecisionGraphEdge) : bool :=
  (ge_FromNodeID a =? ge_FromNodeID b)%string && (ge_ToNodeID a =? ge_ToNodeID b)%string
  && (ge_EdgeType a =? ge_EdgeType b)%string.

Definition upsertGraphEdgeLocked (runID : string) (edge : DecisionGraphEdge) (k : Kernel) : Kernel :=
  let edges := default [] (k_graphEdgesByRun k !! runID) in
  if existsb (fun x => same_edge x edge) edges then k
  else k_set_graphEdgesByRun (<[runID := edges ++ [edge]]> (k_graphEdgesByRun k)) k.

Definition event_node_id (e : CanonicalEvent) : string :=
  let p := extractString (cv_Payload e) "decision_node_id" in
  if (p =? "")%string then stableNodeID e else p.

Definition graph_edge (e : CanonicalEvent) (from to edgeType : string) (now : time) :
    DecisionGraphEdge := {|
  ge_EdgeID := stableEdgeID (cv_RunID e) from to edgeType (cv_EventID e);
  ge_RunID := cv_RunID e;
  ge_FromNodeID := from;
  ge_ToNodeID := to;
  ge_EdgeType := edgeType;
  ge_CreatedAt := now |}.

Definition updateDecisionGraphLocked (e : CanonicalEvent) (now : time) (k : Kernel) : Kernel :=
  let runID := cv_RunID e in
  if blank runID then k
  else
    let nodeID := event_node_id e in
    let node := {|
      gn_NodeID := nodeID;
      gn_RunID := runID;
      gn_NodeType := inferNodeType (cv_SourceComponent e) (cv_EventType e);
      gn_NodeRef := cv_EventID e;
      gn_CreatedAt := now |} in
    let k := upsertGraphNodeLocked runID node k in
    let k :=
      match extractStringSlice (cv_Payload e) "parent_decision_node_ids" with
      | [] =>
        let prev := TrimSpace (default "" (k_lastNodeByRun k !! runID)) in
        if negb (prev =? "")%string && negb (prev =? nodeID)%string
        then upsertGraphEdgeLocked runID
               (graph_edge e prev nodeID (inferEdgeType (cv_EventType e)) now) k
        else k
      | parentIDs =>
        foldl (fun k parent =>
                 upsertGraphEdgeLocked runID (graph_edge e parent nodeID "causal" now) k)
          k parentIDs
      end in
    k_set_lastNodeByRun (<[runID := nodeID]> (k_lastNodeByRun k)) k.

(** ** The ledger *)

Definition updateLedgerLocked (e : CanonicalEvent) (usage : option UsageInput) (now : time)
    (k : Kernel) : Kernel :=
  match usage with
  | None => k
  | Some u =>
    let resourceType := TrimSpace (us_ResourceType u) in
    let unit := TrimSpace (us_Unit u) in
    if (resourceType =? "")%string || (unit =? "")%string then k
    else
      let '(k, id) := nextID "led_" k in
      let entry := {|
        le_LedgerID := id;
        le_RunID := cv_RunID e;
        le_StepID := cv_StepID e;
        le_TenantID := cv_TenantID e;
        le_ProjectID := cv_ProjectID e;
        le_WorkflowID := cv_WorkflowID e;
        le_ResourceType := resourceType;
        le_UsageAmount := us_UsageAmount u;
        le_Unit := unit;
        le_CostAmount := us_CostAmount u;
        le_CreatedAt := now |} in
      k_set_ledgerByRun
        (<[cv_RunID e := default [] (k_ledgerByRun k !! cv_RunID e) ++ [entry]]>
           (k_ledgerByRun k)) k
  end.

(** ** Per-run data *)

Definition empty_run : storedRunData :=
  mk_storedRunData [] (mk_runEvidenceStats 0 0) ∅ ∅ ∅ 0 false.

Definition run_data (k : Kernel) (runID : string) : storedRunData :=
  default empty_run (k_runs k !! runID).

Definition ensureRunDataLocked (runID : string) (k : Kernel) : Kernel :=
  match k_runs k !! runID with
  | Some _ => k
  | None => k_set_runs (<[runID := empty_run]> (k_runs k)) k
  end.

(** The statistics of a run after one more event. *)
Definition add_stats (e : CanonicalEvent) (rd : storedRunData) : storedRunData :=
  rd |> rd_set_Stats (mk_runEvidenceStats (wrap_int64 (st_Events (rd_Stats rd) + 1))
                        (wrap_int64 (st_Bytes (rd_Stats rd) + cv_EstimatedBytes e)))
     |> rd_set_BySource (incr (cv_SourceComponent e) (rd_BySource rd))
     |> rd_set_ByTier (incr (cv_EvidenceTier e) (rd_ByTier rd))
     |> rd_set_ByGrade (incr (cv_EvidenceGrade e) (rd_ByGrade rd))
     |> rd_set_NeedsGraph (rd_NeedsGraph rd || isHighRisk (cv_RiskTier e))
     |> rd_set_LastEventTS (if After (cv_EventTS e) (rd_LastEventTS rd) then cv_EventTS e
                            else rd_LastEventTS rd).

Definition add_event (e : CanonicalEvent) (rd : storedRunData) : storedRunData :=
  add_stats e (rd_set_Events (rd_Events rd ++ [e]) rd).

(** ** The ingestion decision *)

Definition effectiveBackpressureLevelLocked (k : Kernel) (source tenantID : string) : Z :=
  let scoped (m : gmap string Z) (key : string) (level : Z) : Z :=
    match m !! key with Some l => if level <? l then l else level | None => level end in
  k_backpressureLevel k
    |> scoped (k_sourceBackpressure k) (normalizeSource source)
    |> scoped (k_tenantBackpressure k) (TrimSpace tenantID).

Inductive ingest_action : Type := Drop | Degrade | Accept.

Definition budget_reasons (cfg : Config) (rd : storedRunData) (e : CanonicalEvent) : list string :=
  (if (0 <? ec_MaxEventsPerRun cfg)
      && (ec_MaxEventsPerRun cfg <? wrap_int64 (st_Events (rd_Stats rd) + 1))
   then ["max_events_per_run_exceeded"] else [])
  ++ (if (0 <? ec_MaxEvidenceBytesPerRun cfg)
         && (ec_MaxEvidenceBytesPerRun cfg
             <? wrap_int64 (st_Bytes (rd_Stats rd) + cv_EstimatedBytes e))
      then ["max_evidence_bytes_per_run_exceeded"] else []).

Definition backpressure_drop (level : Z) (e : CanonicalEvent) : option string :=
  if level =? BackpressureLevel1 then
    if isTierDroppable (cv_EvidenceTier e) && negb (isHighRisk (cv_RiskTier e))
    then Some "backpressure_level1_drop_non_critical" else None
  else if level =? BackpressureLevel2 then
    if negb (cv_EvidenceTier e =? Tier0)%string && negb (isHighRisk (cv_RiskTier e))
    then Some "backpressure_level2_drop_non_critical" else None
  else if level =? BackpressureLevel3 then
    if negb (isHighRisk (cv_RiskTier e)) && negb (cv_EvidenceTier e =? Tier0)%string
    then Some "backpressure_level3_drop_non_critical" else None
  else None.

Definition sampling_drop (cfg : Config) (systemLoad : float64) (e : CanonicalEvent) : option string :=
  if fleb (ec_HighLoadThreshold cfg) systemLoad && negb (isHighRisk (cv_RiskTier e)) then
    if (cv_EvidenceTier e =? Tier2)%string
       && shouldDropByRate (cv_EventID e) (ec_Tier2HighLoadDropRate cfg)
    then Some "sampling_drop_tier2_high_load"
    else if (cv_EvidenceTier e =? Tier3)%string
            && shouldDropByRate (cv_EventID e) (ec_Tier3HighLoadDropRate cfg)
    then Some "sampling_drop_tier3_high_load"
    else None
  else None.

(** [now] is the clock reading of the budget branch, a second one. *)
Definition decideIngestAction (e : CanonicalEvent) (systemLoad : float64) (now : time) (k : Kernel) :
    Kernel * (ingest_action * list string) :=
  let k := ensureRunDataLocked (cv_RunID e) k in
  let reasons := budget_reasons (k_cfg k) (run_data k (cv_RunID e)) e in
  match reasons with
  | _ :: _ =>
    if isTierDroppable (cv_EvidenceTier e) then
      (emitLocked "evidence_write_budget_exceeded_event" (cv_RunID e)
         [("event_id", GStr (cv_EventID e));
          ("event_type", GStr (cv_EventType e));
          ("evidence_tier", GStr (cv_EvidenceTier e));
          ("reason_codes", GStrs reasons)] now k, (Drop, reasons))
    else (k, (Degrade, reasons))
  | [] =>
    let level := effectiveBackpressureLevelLocked k (cv_SourceComponent e) (cv_TenantID e) in
    match backpressure_drop level e with
    | Some r => (k, (Drop, [r]))
    | None =>
      match sampling_drop (k_cfg k) systemLoad e with
      | Some r => (k, (Drop, [r]))
      | None => (k, (Accept, []))
      end
    end
  end.

(** ** Ingestion *)

Definition ingest_event_payload (e : CanonicalEvent) (reasons : list string) : list (string * gval) :=
  [("event_id", GStr (cv_EventID e));
   ("event_type", GStr (cv_EventType e));
   ("evidence_tier", GStr (cv_EvidenceTier e));
   ("risk_tier", GStr (cv_RiskTier e));
   ("reason_codes", GStrs reasons)].

Definition degraded_payload : payload :=
  Some [("summary", GStr "degraded_due_to_budget_or_backpressure")].

Definition degrade_event (e : CanonicalEvent) : CanonicalEvent :=
  let '(hash, ok) := safeHash (gval_of_payload degraded_payload) in
  e |> cv_set_Degraded true |> cv_set_Payload degraded_payload
    |> cv_set_PayloadHash hash |> cv_set_PayloadHashValid ok.

(** The derived indexes after one more event. *)
Definition index_event (e : CanonicalEvent) (now : time) (k : Kernel) : Kernel :=
  k |> updateDecisionLogLocked e now |> updateDecisionGraphLocked e now
    |> updateLedgerLocked e (cv_Usage e) now.

(** From [appendIntegrityLocked] to the end of [IngestEvent]. *)
Definition ingest_store (e : CanonicalEvent) (now : time) (k : Kernel) : Kernel * CanonicalEvent :=
  let k := if cv_PayloadIntegrityRequired e && negb (cv_PayloadHashValid e)
           then bump "ingest_payload_integrity_invalid_total" k else k in
  let '(k, e) := appendIntegrityLocked e k in
  let k := k |> k_set_eventsByID (<[cv_EventID e := e]> (k_eventsByID k))
             |> observe_ts (cv_EventTS e)
             |> ensureRunDataLocked (cv_RunID e) in
  let k := k_set_runs (<[cv_RunID e := add_event e (run_data k (cv_RunID e))]> (k_runs k)) k in
  (k |> index_event e now
     |> bump "ingest_accepted_total"
     |> bump (Join ["ingest_tier_"; cv_EvidenceTier e; "_total"] "")
     |> bump (Join ["ingest_source_"; cv_SourceComponent e; "_total"] "")
     |> trim_and_count now, e).

Definition ingest_response (deduped dropped degraded : bool) (eventID runID : string)
    (reasons : list string) (now : time) : IngestEventResponse :=
  mk_IngestEventResponse true deduped dropped degraded eventID runID reasons now.

(** The last part of [IngestEvent]: the event is new, its source registered. *)
Definition ingest_new (norm : IngestEventRequest) (reg : SourceRegistration) (now now2 : time)
    (k : Kernel) : Kernel * IngestEventResponse :=
  let e := canonicalize norm reg in
  let e := cv_set_EstimatedBytes (estimateEventBytes e) e in
  let '(k, (action, reasons)) := decideIngestAction e (rq_SystemLoad norm) now2 k in
  match action with
  | Drop =>
    (k |> bump "ingest_dropped_total"
       |> emitLocked "evidence_tier_drop_event" (cv_RunID e) (ingest_event_payload e reasons) now,
     ingest_response false true false (cv_EventID e) (cv_RunID e) reasons now)
  | Degrade =>
    let e := degrade_event e in
    let reasons := reasons ++ (if cv_PayloadIntegrityRequired e && negb (cv_PayloadHashValid e)
                               then ["payload_integrity_required_but_hash_invalid"] else []) in
    let k := k |> bump "ingest_degraded_total"
               |> emitLocked "evidence_degrade_event" (cv_RunID e)
                    (ingest_event_payload e reasons) now in
    let '(k, e) := ingest_store e now k in
    (k, ingest_response false false (cv_Degraded e) (cv_EventID e) (cv_RunID e) reasons now)
  | Accept =>
    let '(k, e) := ingest_store e now k in
    (k, ingest_response false false (cv_Degraded e) (cv_EventID e) (cv_RunID e) reasons now)
  end.

Definition IngestEvent (req : IngestEventRequest) (now now2 : time) (k : Kernel) :
    Kernel * result KernelError IngestEventResponse :=
  let norm := normalizeIngestRequest req now in
  match validateIngestRequest norm with
  | Some err => (k, Err err)
  | None =>
    let k := bump "ingest_attempt_total" k in
    match k_registeredSources k !! rq_SourceComponent norm with
    | None =>
      (bump "ingest_source_reject_total" k,
       Err (evidenceErr 422 "UNREGISTERED_SOURCE_COMPONENT" "source_component not registered"
              ["unregistered_source_component"]))
    | Some reg =>
      if rq_SchemaVersion norm <? sr_MinSchema reg then
        (bump "ingest_schema_reject_total" k,
         Err (evidenceErr 422 "SCHEMA_VERSION_REJECTED" "schema version below minimum"
                ["schema_version_rejected"]))
      else
        match k_eventsByID k !! rq_EventID norm with
        | Some existing =>
          (bump "ingest_dedup_total" k,
           Ok (ingest_response true false (cv_Degraded existing) (rq_EventID norm) (rq_RunID norm)
                 ["event_id_deduped"] now))
        | None => let '(k, resp) := ingest_new norm reg now now2 k in (k, Ok resp)
        end
    end
  end.

(** ** Reading *)

Definition GetDecisionGraph (k : Kernel) (runID : string) : option DecisionGraph :=
  let runID := TrimSpace runID in
  match k_graphNodesByRun k !! runID with
  | None => None
  | Some nodes => Some (mk_DecisionGraph runID nodes (default [] (k_graphEdgesByRun k !! runID)))
  end.

Definition GetDecisionLog (k : Kernel) (decisionID : string) : option DecisionLog :=
  k_decisionLogs k !! TrimSpace decisionID.

Definition GetDecisionLogHistory (k : Kernel) (decisionID : string) (limit : Z) :
    option (list DecisionLog) :=
  match k_decisionLogHistory k !! TrimSpace decisionID with
  | None | Some [] => None
  | Some h =>
    let n := Z.of_nat (length h) in
    let limit := if limit <=? 0 then n else limit in
    let start := if n - limit <? 0 then 0 else n - limit in
    Some (drop (Z.to_nat start) h)
  end.

Definition GetLedger (k : Kernel) (runID : string) : option (list LedgerEntry) :=
  k_ledgerByRun k !! TrimSpace runID.
