(* ===== verification/EvRetain.v ===== *)
(** * Deletion, retention and reindexing in the Evidence kernel

    [DeleteByDSAR], [SweepRetention], the archives and
    [rebuildDerivedIndexesLocked] of [internal/evidence/kernel.go].  The loops
    over the kernel's maps visit them in the order of the [MapRange] at hand. *)

From S2P Require Import Prelude GoStrings Sha256 GoTime GoJson EvTypes EvEvents EvKernel.

Section Ops.
Context `{MapRange}.

(** ** Rebuilding the derived indexes *)

(** The loop over one run's events: the kernel, the new index by identifier,
    and the run's data, whose [Events] are the ones rewritten so far. *)
Definition rebuild_event (s : Kernel * gmap string CanonicalEvent * storedRunData)
    (e : CanonicalEvent) : Kernel * gmap string CanonicalEvent * storedRunData :=
  let '(k, idx, rd) := s in
  let k := match idx !! cv_EventID e with
           | Some _ => bump "event_id_collision_total" k
           | None => k
           end in
  let '(k, e) := appendIntegrityLocked e k in
  (index_event e (cv_EventTS e) k, <[cv_EventID e := e]> idx, add_event e rd).

Definition rebuild_run (s : Kernel * gmap string CanonicalEvent) (runID : string)
    (rd : storedRunData) : Kernel * gmap string CanonicalEvent :=
  let '(k, idx) := s in
  let '(k, idx, rd) :=
    foldl rebuild_event (k, idx, empty_run) (sortEventsByTS (rd_Events rd)) in
  let rd := rd_set_Stats (mk_runEvidenceStats (wrap_int64 (Z.of_nat (length (rd_Events rd))))
                            (st_Bytes (rd_Stats rd))) rd in
  let k := k_set_runs (<[runID := rd]> (k_runs k)) k in
  let k := match k_graphNodesByRun k !! runID with
           | Some _ => k
           | None => k |> k_set_graphNodesByRun (<[runID := []]> (k_graphNodesByRun k))
                       |> k_set_graphEdgesByRun (<[runID := []]> (k_graphEdgesByRun k))
           end in
  (k, idx).

Definition clear_derived (k : Kernel) : Kernel :=
  k |> k_set_decisionLogs ∅ |> k_set_decisionLogHistory ∅ |> k_set_graphNodesByRun ∅
    |> k_set_graphEdgesByRun ∅ |> k_set_lastNodeByRun ∅ |> k_set_ledgerByRun ∅
    |> k_set_integrityByRun ∅ |> k_set_globalIntegrity genesis.

Definition rebuildDerivedIndexesLocked (k : Kernel) : Kernel :=
  let '(k, idx) := go_range rebuild_run (clear_derived k, ∅) (k_runs k) in
  k_set_eventsByID idx k.

(** ** Data-subject deletion *)

Definition tombstone_payload : payload := Some [("tombstone", GStr "deleted_by_dsar")].

Definition redact_event (e : CanonicalEvent) : CanonicalEvent :=
  let '(hash, ok) := safeHash (gval_of_payload tombstone_payload) in
  e |> cv_set_Payload tombstone_payload |> cv_set_PayloadTombstoned true
    |> cv_set_RedactionReason "dsar_tombstoned"
    |> cv_set_PayloadHash hash |> cv_set_PayloadHashValid ok.

(** The event is of the tenant and has the payload prefix of the request. *)
Definition dsar_matches (tenantID prefix : string) (e : CanonicalEvent) : bool :=
  (cv_TenantID e =? tenantID)%string
  && negb (negb (prefix =? "")%string && negb (HasPrefix (cv_PayloadRef e) prefix)).

(** Low-signal operational events are deleted, the others redacted. *)
Definition hard_deletable (e : CanonicalEvent) : bool :=
  (cv_EvidenceTier e =? Tier3)%string && (cv_EvidenceGrade e =? GradeOperational)%string.

Record dsar_counts := mk_dsar_counts { dc_deleted : Z; dc_redacted : Z; dc_tombstones : Z }.

Definition dsar_event (tenantID prefix : string) (now : time)
    (s : list CanonicalEvent * gmap string time * dsar_counts) (e : CanonicalEvent) :
    list CanonicalEvent * gmap string time * dsar_counts :=
  let '(kept, refs, mk_dsar_counts d r t) := s in
  if negb (dsar_matches tenantID prefix e) then (kept ++ [e], refs, mk_dsar_counts d r t)
  else if hard_deletable e then (kept, refs, mk_dsar_counts (d + 1) r t)
  else
    let e := redact_event e in
    let '(refs, t) := if negb (blank (cv_PayloadRef e))
                      then (<[cv_PayloadRef e := now]> refs, t + 1) else (refs, t) in
    (kept ++ [e], refs, mk_dsar_counts d (r + 1) t).

Definition dsar_run (req : DSARDeleteRequest) (now : time) (s : Kernel * dsar_counts)
    (runID : string) (rd : storedRunData) : Kernel * dsar_counts :=
  let '(k, c) := s in
  if negb (dq_RunID req =? "")%string && negb (runID =? dq_RunID req)%string then (k, c)
  else
    let '(kept, refs, c) :=
      foldl (dsar_event (dq_TenantID req) (dq_PayloadRefPrefix req) now)
        ([], k_tombstonedRefs k, c) (rd_Events rd) in
    (k |> k_set_tombstonedRefs refs
       |> k_set_runs (<[runID := rd_set_Events kept rd]> (k_runs k)), c).

Definition trim_dsar_request (req : DSARDeleteRequest) : DSARDeleteRequest :=
  mk_DSARDeleteRequest (TrimSpace (dq_RequestID req)) (TrimSpace (dq_TenantID req))
    (TrimSpace (dq_RunID req)) (TrimSpace (dq_PayloadRefPrefix req)) (dq_RequestedAt req).

Definition DeleteByDSAR (req : DSARDeleteRequest) (now : time) (k : Kernel) :
    Kernel * result KernelError DSARDeleteResponse :=
  let req := trim_dsar_request req in
  let '(k, requestID) :=
    if (dq_RequestID req =? "")%string then nextID "dsar_" k else (k, dq_RequestID req) in
  if (dq_TenantID req =? "")%string then
    (k, Err (evidenceErr 422 "TENANT_ID_REQUIRED" "tenant_id required" ["tenant_id_required"]))
  else
    let '(k, c) := go_range (dsar_run req now) (k, mk_dsar_counts 0 0 0) (k_runs k) in
    let k := k |> rebuildDerivedIndexesLocked
               |> emitLocked "evidence_dsar_delete_event" (dq_RunID req)
                    [("request_id", GStr requestID);
                     ("tenant_id", GStr (dq_TenantID req));
                     ("run_id", GStr (dq_RunID req));
                     ("deleted_events", GInt (dc_deleted c));
                     ("redacted_events", GInt (dc_redacted c));
                     ("tombstones", GInt (dc_tombstones c))] now in
    (k, Ok (mk_DSARDeleteResponse requestID (dq_TenantID req) (dq_RunID req) (dc_deleted c)
              (dc_redacted c) (dc_tombstones c) now ["dsar_completed"])).

(** ** Archives *)

Definition archive_push (runID : string) (e : CanonicalEvent)
    (m : gmap string (list CanonicalEvent)) : gmap string (list CanonicalEvent) :=
  <[runID := default [] (m !! runID) ++ [e]]> m.

Definition archiveEventByAgeLocked (runID : string) (e : CanonicalEvent) (now : time)
    (s : Kernel * SweepResult) : Kernel * SweepResult :=
  let '(k, out) := s in
  let age := Sub now (cv_EventTS e) in
  if age <=? ec_WarmRetention (k_cfg k) then
    (k_set_warmArchiveByRun (archive_push runID e (k_warmArchiveByRun k)) k,
     es_set_WarmArchived (es_WarmArchived out + 1) out)
  else if age <=? ec_ColdRetention (k_cfg k) then
    (k_set_coldArchiveByRun (archive_push runID e (k_coldArchiveByRun k)) k,
     es_set_ColdArchived (es_ColdArchived out + 1) out)
  else (k, es_set_DeletedEvents (es_DeletedEvents out + 1) out).

(** One warm event: kept, moved to the cold archive, or dropped. *)
Definition rotate_warm_event (runID : string) (now : time)
    (s : list CanonicalEvent * Kernel * SweepResult) (e : CanonicalEvent) :
    list CanonicalEvent * Kernel * SweepResult :=
  let '(keepWarm, k, out) := s in
  let age := Sub now (cv_EventTS e) in
  if age <=? ec_WarmRetention (k_cfg k) then (keepWarm ++ [e], k, out)
  else if age <=? ec_ColdRetention (k_cfg k) then
    (keepWarm, k_set_coldArchiveByRun (archive_push runID e (k_coldArchiveByRun k)) k,
     es_set_ColdArchived (es_ColdArchived out + 1) out)
  else (keepWarm, k, es_set_DeletedEvents (es_DeletedEvents out + 1) out).

(** [if len(keep) == 0 { delete } else { store }]. *)
Definition store_archive (runID : string) (keep : list CanonicalEvent)
    (m : gmap string (list CanonicalEvent)) : gmap string (list CanonicalEvent) :=
  match keep with [] => delete runID m | _ => <[runID := keep]> m end.

Definition rotate_warm (now : time) (s : Kernel * SweepResult) (runID : string)
    (warm : list CanonicalEvent) : Kernel * SweepResult :=
  let '(k, out) := s in
  let '(keepWarm, k, out) := foldl (rotate_warm_event runID now) ([], k, out) warm in
  (k_set_warmArchiveByRun (store_archive runID keepWarm (k_warmArchiveByRun k)) k, out).

Definition cold_kept (cfg : Config) (now : time) (e : CanonicalEvent) : bool :=
  Sub now (cv_EventTS e) <=? ec_ColdRetention cfg.

Definition rotate_cold (now : time) (s : Kernel * SweepResult) (runID : string)
    (cold : list CanonicalEvent) : Kernel * SweepResult :=
  let '(k, out) := s in
  let keepCold := List.filter (cold_kept (k_cfg k) now) cold in
  let deleted := Z.of_nat (length cold) - Z.of_nat (length keepCold) in
  (k_set_coldArchiveByRun (store_archive runID keepCold (k_coldArchiveByRun k)) k,
   es_set_DeletedEvents (es_DeletedEvents out + deleted) out).

Definition rotateArchivesLocked (now : time) (s : Kernel * SweepResult) : Kernel * SweepResult :=
  let s := go_range (rotate_warm now) s (k_warmArchiveByRun (fst s)) in
  go_range (rotate_cold now) s (k_coldArchiveByRun (fst s)).

(** ** The retention sweep *)

Definition sweep_event (runID : string) (cutoff now : time)
    (s : list CanonicalEvent * (Kernel * SweepResult)) (e : CanonicalEvent) :
    list CanonicalEvent * (Kernel * SweepResult) :=
  let '(kept, ko) := s in
  if Before (cv_EventTS e) cutoff then (kept, archiveEventByAgeLocked runID e now ko)
  else (kept ++ [e], ko).

(** The statistics recomputed from the kept events ([NeedsGraph] is left). *)
Definition restat (kept : list CanonicalEvent) (rd : storedRunData) : storedRunData :=
  let s := foldl (fun rd e => add_stats e rd) empty_run kept in
  rd |> rd_set_Events kept
     |> rd_set_Stats (mk_runEvidenceStats (wrap_int64 (Z.of_nat (length kept))) (st_Bytes (rd_Stats s)))
     |> rd_set_BySource (rd_BySource s) |> rd_set_ByTier (rd_ByTier s)
     |> rd_set_ByGrade (rd_ByGrade s) |> rd_set_LastEventTS (rd_LastEventTS s).

Definition forget_run (runID : string) (k : Kernel) : Kernel :=
  k |> k_set_runs (delete runID (k_runs k))
    |> k_set_graphNodesByRun (delete runID (k_graphNodesByRun k))
    |> k_set_graphEdgesByRun (delete runID (k_graphEdgesByRun k))
    |> k_set_lastNodeByRun (delete runID (k_lastNodeByRun k))
    |> k_set_ledgerByRun (delete runID (k_ledgerByRun k)).

Definition sweep_run (cutoff now : time) (s : Kernel * SweepResult) (runID : string)
    (rd : storedRunData) : Kernel * SweepResult :=
  let '(kept, (k, out)) := foldl (sweep_event runID cutoff now) ([], s) (rd_Events rd) in
  let k := k_set_runs (<[runID := restat kept rd]> (k_runs k)) k in
  (match kept with [] => forget_run runID k | _ => k end, out).

Definition SweepRetention (now : time) (k : Kernel) : Kernel * SweepResult :=
  let cutoff := Add now (- ec_EventRetention (k_cfg k)) in
  let '(k, out) := rotateArchivesLocked now (k, empty_SweepResult) in
  let '(k, out) := go_range (sweep_run cutoff now) (k, out) (k_runs k) in
  let k := rebuildDerivedIndexesLocked k in
  let '(k, trimmed) := trimOutboxLocked now k in
  (k, es_set_OutboxTrimmed trimmed out).

(** ** The archive summary *)

Definition GetArchiveSummary (k : Kernel) (runID : string) : ArchiveSummary :=
  let runID := TrimSpace runID in
  let len_at {V} (size : V -> nat) (m : gmap string V) : Z :=
    match m !! runID with Some l => Z.of_nat (size l) | None => 0 end in
  let total {V} (size : V -> nat) (m : gmap string V) : Z :=
    go_range (fun n _ l => n + Z.of_nat (size l)) 0 m in
  let hot rd := length (rd_Events rd) in
  if negb (runID =? "")%string
  then mk_ArchiveSummary runID (len_at hot (k_runs k)) (len_at length (k_warmArchiveByRun k))
         (len_at length (k_coldArchiveByRun k))
  else mk_ArchiveSummary runID (total hot (k_runs k)) (total length (k_warmArchiveByRun k))
         (total length (k_coldArchiveByRun k)).
End Ops.
