(* ===== verification/EvGraph.v ===== *)
(** * Reading the decision graph: completeness, critical path, root-cause packs

    [GetRunEvidence], [BuildRootCausePack], [isHighRiskGraphCompleteLocked] and
    [traceCriticalPathLocked] of [internal/evidence/kernel.go].  The loops of the source that are not structural carry fuel:
    the ancestor closure pops one entry per visited node, of which there are at
    most one more than edges; the critical path stops at 32 nodes. *)

From S2P Require Import Prelude GoStrings Sha256 GoTime GoJson EvTypes EvEvents EvKernel.

(** ** The final decision node *)

Definition isDecisionLike (nodeType : string) : bool :=
  one_of nodeType ["decision"; "release"; "schedule"; "approval"].

Definition index_nodes (nodes : list DecisionGraphNode) : gmap string DecisionGraphNode :=
  foldl (fun m n => <[gn_NodeID n := n]> m) ∅ nodes.

Definition out_degrees (decisionLike : gmap string DecisionGraphNode)
    (edges : list DecisionGraphEdge) : gmap string Z :=
  foldl (fun m e =>
           match decisionLike !! ge_FromNodeID e, decisionLike !! ge_ToNodeID e with
           | Some _, Some _ => incr (ge_FromNodeID e) m
           | _, _ => m
           end) ∅ edges.

Section Graph.
Context `{MapRange}.

Definition selectFinalDecisionNode (nodes : list DecisionGraphNode)
    (edges : list DecisionGraphEdge) : option DecisionGraphNode :=
  let decisionLike :=
    index_nodes (List.filter (fun n => isDecisionLike (gn_NodeType n)) nodes) in
  let outToDecisionLike := out_degrees decisionLike edges in
  let candidates :=
    go_range (fun acc id n =>
                if default 0 (outToDecisionLike !! id) =? 0 then acc ++ [n] else acc)
      [] decisionLike in
  match candidates with [n] => Some n | _ => None end.

(** ** The ancestor closure *)

Definition incoming_of (edges : list DecisionGraphEdge) : gmap string (list string) :=
  foldl (fun m e => <[ge_ToNodeID e := default [] (m !! ge_ToNodeID e) ++ [ge_FromNodeID e]]> m)
    ∅ edges.

Definition push_parent (s : gset string * list string) (parent : string) :
    gset string * list string :=
  let '(visited, stack) := s in
  if (parent =? "")%string || bool_decide (parent ∈ visited) then (visited, stack)
  else ({[parent]} ∪ visited, parent :: stack).

(** The top of the stack is the head of the list. *)
Fixpoint ancestors (fuel : nat) (incoming : gmap string (list string)) (visited : gset string)
    (stack : list string) : gset string :=
  match fuel, stack with
  | S fuel, cur :: stack =>
    let '(visited, stack) := foldl push_parent (visited, stack) (default [] (incoming !! cur)) in
    ancestors fuel incoming visited stack
  | _, _ => visited
  end.

Definition closure (edges : list DecisionGraphEdge) (final : string) : gset string :=
  ancestors (2 + length edges) (incoming_of edges) {[final]} [final].

(** ** Completeness of a high-risk run's graph *)

Definition edge_key (from to : string) : string := Join [from; to] "->".

(** Every parent an event declares is an edge into the event's node. *)
Definition parents_linked (edgeSet : gset string) (e : CanonicalEvent) : bool :=
  let parents := extractStringSlice (cv_Payload e) "parent_decision_node_ids" in
  forallb (fun p => bool_decide (edge_key p (event_node_id e) ∈ edgeSet)) parents.

Definition required_types : list string :=
  ["context"; "policy"; "approval"; "schedule"; "release"; "tool"].

Definition hasTypeInClosure (nodeByID : gmap string DecisionGraphNode) (visited : gset string)
    (nodeType : string) : bool :=
  existsb (fun id => match nodeByID !! id with
                     | Some n => (gn_NodeType n =? nodeType)%string
                     | None => false
                     end) (elements visited).

Definition graph_complete (events : list CanonicalEvent) (nodes : list DecisionGraphNode)
    (edges : list DecisionGraphEdge) : bool :=
  match nodes, edges with
  | [], _ | _, [] => false
  | _, _ =>
    let edgeSet := list_to_set (map (fun e => edge_key (ge_FromNodeID e) (ge_ToNodeID e)) edges) in
    match selectFinalDecisionNode nodes edges with
    | None => false
    | Some final =>
      forallb (parents_linked edgeSet) events
      && (let visited := closure edges (gn_NodeID final) in
          forallb (fun t => negb (existsb (fun n => (gn_NodeType n =? t)%string) nodes)
                            || hasTypeInClosure (index_nodes nodes) visited t) required_types)
    end
  end.

Definition isHighRiskGraphCompleteLocked (k : Kernel) (runID : string) : bool :=
  let runID := TrimSpace runID in
  if (runID =? "")%string then false
  else
    match k_runs k !! runID with
    | None => true
    | Some rd =>
      if negb (rd_NeedsGraph rd) then true
      else graph_complete (rd_Events rd) (default [] (k_graphNodesByRun k !! runID))
             (default [] (k_graphEdgesByRun k !! runID))
    end.

Definition GetRunEvidence (k : Kernel) (runID : string) : option RunEvidenceSummary :=
  let runID := TrimSpace runID in
  match k_runs k !! runID with
  | None => None
  | Some rd => Some {|
      su_RunID := runID;
      su_TotalEvents := st_Events (rd_Stats rd);
      su_TotalBytes := st_Bytes (rd_Stats rd);
      su_BySource := rd_BySource rd;
      su_ByTier := rd_ByTier rd;
      su_ByGrade := rd_ByGrade rd;
      su_LastEventTS := rd_LastEventTS rd;
      su_HighRiskGraphComplete :=
        negb (rd_NeedsGraph rd) || isHighRiskGraphCompleteLocked k runID |}
  end.
End Graph.

(** ** The critical path *)

(** The edges grouped by target, each group in the order of the edges. *)
Definition first_parent (edges : list DecisionGraphEdge) (cur : string) : option string :=
  ge_FromNodeID <$> List.find (fun e => (ge_ToNodeID e =? cur)%string) edges.

(** The path from the leaf up, newest node first; [n] is how many more nodes
    fit below the bound of 32. *)
Fixpoint trace_up (n : nat) (edges : list DecisionGraphEdge) (visited : gset string)
    (path : list string) (cur : string) : list string :=
  match n with
  | O => path
  | S n =>
    match first_parent edges cur with
    | None => path
    | Some parent =>
      if (parent =? "")%string || bool_decide (parent ∈ visited) then path
      else trace_up n edges ({[parent]} ∪ visited) (parent :: path) parent
    end
  end.

Definition max_path : nat := 32.

Definition traceCriticalPathLocked (k : Kernel) (runID leafNodeID : string) : list string :=
  let nodes := default [] (k_graphNodesByRun k !! runID) in
  if blank leafNodeID || negb (existsb (fun n => (gn_NodeID n =? leafNodeID)%string) nodes) then []
  else trace_up (max_path - 1) (default [] (k_graphEdgesByRun k !! runID)) ∅ [leafNodeID] leafNodeID.

(** ** Key evidences and the root-cause pack *)

Definition findNodeByEventIDLocked (k : Kernel) (runID eventID : string) :
    option DecisionGraphNode :=
  List.find (fun n => (gn_NodeRef n =? eventID)%string)
    (default [] (k_graphNodesByRun k !! runID)).

Definition find_event (events : list CanonicalEvent) (eventID : string) : option CanonicalEvent :=
  List.find (fun e => (cv_EventID e =? eventID)%string) events.
Definition findEventTypeByID (events : list CanonicalEvent) (eventID : string) : string :=
  match find_event events eventID with Some e => cv_EventType e | None => "" end.
Definition findPayloadRefByID (events : list CanonicalEvent) (eventID : string) : string :=
  match find_event events eventID with Some e => cv_PayloadRef e | None => "" end.

(** The first loop, over the critical path; it returns at [max] entries. *)
Fixpoint key_path (nodeByID : gmap string DecisionGraphNode) (events : list CanonicalEvent)
    (max : nat) (path : list string) (seen : gset string) (out : list KeyEvidence) :
    gset string * list KeyEvidence :=
  match path with
  | [] => (seen, out)
  | nodeID :: path =>
    match nodeByID !! nodeID with
    | None => key_path nodeByID events max path seen out
    | Some n =>
      let ref := gn_NodeRef n in
      if blank ref || bool_decide (ref ∈ seen) then key_path nodeByID events max path seen out
      else
        let seen := {[ref]} ∪ seen in
        let out := out ++ [mk_KeyEvidence ref (findEventTypeByID events ref)
                             (findPayloadRefByID events ref)] in
        if (max <=? length out)%nat then (seen, out)
        else key_path nodeByID events max path seen out
    end
  end.

(** The second loop, over the events from the last one. *)
Fixpoint key_recent (max : nat) (events : list CanonicalEvent) (seen : gset string)
    (out : list KeyEvidence) : list KeyEvidence :=
  match events with
  | [] => out
  | e :: events =>
    if (max <=? length out)%nat then out
    else if bool_decide (cv_EventID e ∈ seen) then key_recent max events seen out
    else key_recent max events ({[cv_EventID e]} ∪ seen)
           (out ++ [mk_KeyEvidence (cv_EventID e) (cv_EventType e) (cv_PayloadRef e)])
  end.

Definition buildKeyEvidencesLocked (k : Kernel) (runID : string) (events : list CanonicalEvent)
    (criticalPath : list string) (max : Z) : list KeyEvidence :=
  let max := if max <=? 0 then 8%nat else Z.to_nat max in
  let nodeByID := index_nodes (default [] (k_graphNodesByRun k !! runID)) in
  let '(seen, out) := key_path nodeByID events max criticalPath ∅ [] in
  key_recent max (rev events) seen out.

(** The node an analysis starts from: the graph node of the first bad event. *)
Definition first_bad_node (k : Kernel) (runID : string) (events : list CanonicalEvent) : string :=
  match findFirstBadEvent events with
  | None => ""
  | Some e =>
    match findNodeByEventIDLocked k runID (cv_EventID e) with
    | Some n => gn_NodeID n
    | None => String.append "evt:" (cv_EventID e)
    end
  end.

Definition critical_path (k : Kernel) (runID firstBadNode : string) : list string :=
  match traceCriticalPathLocked k runID firstBadNode with
  | [] => map gn_NodeID (lastn 8 (default [] (k_graphNodesByRun k !! runID)))
  | path => path
  end.

(** The graph and the ledger attached to a pack in full mode: the zero values
    when the run has none. *)
Definition graph_or_zero (k : Kernel) (runID : string) : DecisionGraph :=
  default (mk_DecisionGraph "" [] []) (GetDecisionGraph k runID).
Definition ledger_or_nil (k : Kernel) (runID : string) : list LedgerEntry :=
  default [] (GetLedger k runID).

Definition run_not_found : KernelError :=
  evidenceErr 404 "RUN_NOT_FOUND" "run not found" ["run_not_found"].
Definition run_id_required : KernelError :=
  evidenceErr 422 "RUN_ID_REQUIRED" "run_id required" ["run_id_required"].

Definition BuildRootCausePack (runID mode : string) (now : time) (k : Kernel) :
    result KernelError RootCausePack :=
  let runID := TrimSpace runID in
  let mode := if (mode =? "")%string then RootCausePackModeMinimal else mode in
  if (runID =? "")%string then Err run_id_required
  else if negb (one_of mode [RootCausePackModeMinimal; RootCausePackModeFull]) then
    Err (evidenceErr 422 "ROOT_CAUSE_MODE_INVALID" "mode must be minimal|full"
           ["root_cause_mode_invalid"])
  else
    match k_runs k !! runID with
    | None => Err run_not_found
    | Some rd =>
      let events := sortEventsByTS (rd_Events rd) in
      let firstBadNode := first_bad_node k runID events in
      let path := critical_path k runID firstBadNode in
      let full := (mode =? RootCausePackModeFull)%string in
      Ok {| rc_RunID := runID;
            rc_Mode := mode;
            rc_FirstBadNode := firstBadNode;
            rc_CriticalPath := path;
            rc_KeyEvidences := buildKeyEvidencesLocked k runID events path 8;
            rc_Timeline := map (fun e => mk_TimelineItem (cv_EventID e) (cv_EventType e)
                                           (cv_EventTS e)) events;
            rc_DecisionGraph := if full then Some (graph_or_zero k runID) else None;
            rc_Ledger := if full then ledger_or_nil k runID else [];
            rc_GeneratedAt := now |}
    end.
