(* ===== verification/EvReports.v ===== *)
(** * Exports and reports of the Evidence kernel

    Archive export, integrity anchors, replay packs, verification of the
    chains, ledger aggregation and metrics of [internal/evidence/kernel.go]. *)

From S2P Require Import Prelude GoStrings Sha256 GoTime GoJson EvTypes EvEvents EvKernel EvGraph.

(** ** Verification *)

(** The first event whose stored hashes are not those of the chain so far. *)
Fixpoint first_break (prev : string) (events : list CanonicalEvent) : option CanonicalEvent :=
  match events with
  | [] => None
  | e :: events =>
    if negb (cv_IntegrityHash e =? chain_hash prev e)%string
       || negb (cv_IntegrityPrevHash e =? prev)%string
    then Some e else first_break (cv_IntegrityHash e) events
  end.

(** The digest of a list of events in the global chain. *)
Definition global_digest (events : list CanonicalEvent) : string :=
  foldl (fun prev e => link_hash prev (cv_IntegrityHash e) e) "" events.

Section Reports.
Context `{MapRange}.

Definition all_events (k : Kernel) : list CanonicalEvent :=
  go_range (fun acc _ e => acc ++ [e]) [] (k_eventsByID k).

Definition verifyGlobalIntegrityLocked (k : Kernel) : bool :=
  if ig_Count (k_globalIntegrity k) =? 0 then true
  else
    let all := sortEventsByTS (all_events k) in
    if negb (Z.of_nat (length all) =? ig_Count (k_globalIntegrity k)) then false
    else (global_digest all =? ig_LastHash (k_globalIntegrity k))%string.

Definition VerifyIntegrity (runID : string) (now : time) (k : Kernel) :
    result KernelError IntegrityVerifyResult :=
  let runID := TrimSpace runID in
  if (runID =? "")%string then Err run_id_required
  else
    match k_runs k !! runID with
    | None => Err run_not_found
    | Some rd =>
      let events := sortEventsByTS (rd_Events rd) in
      let broken := first_break "" events in
      Ok {| iv_RunID := runID;
            iv_Verified := match broken with Some _ => false | None => true end;
            iv_EventCount := Z.of_nat (length events);
            iv_IntegrityRootHash := ig_LastHash (run_chain k runID);
            iv_GlobalIntegrityRootHash := ig_LastHash (k_globalIntegrity k);
            iv_GlobalVerified := verifyGlobalIntegrityLocked k;
            iv_FailureEventID := match broken with Some e => cv_EventID e | None => "" end;
            iv_FailureReason :=
              match broken with Some _ => "integrity_chain_mismatch" | None => "" end;
            iv_VerifiedAt := now |}
    end.

Definition VerifyGlobalIntegrity (now : time) (k : Kernel) : IntegrityVerifyResult :=
  let verified := verifyGlobalIntegrityLocked k in
  {| iv_RunID := "_global";
     iv_Verified := verified;
     iv_EventCount := Z.of_nat (size (k_eventsByID k));
     iv_IntegrityRootHash := "";
     iv_GlobalIntegrityRootHash := ig_LastHash (k_globalIntegrity k);
     iv_GlobalVerified := verified;
     iv_FailureEventID := "";
     iv_FailureReason := "";
     iv_VerifiedAt := now |}.

(** ** Anchors *)

(** The first critical section of [CreateGlobalIntegrityAnchor]. *)
Definition anchor_create (reason : string) (now : time) (k : Kernel) : Kernel * IntegrityAnchor :=
  let '(k, id) := nextID "anc_" k in
  let anchor := {|
    an_AnchorID := id;
    an_RootHash := ig_LastHash (k_globalIntegrity k);
    an_EventCount := ig_Count (k_globalIntegrity k);
    an_Reason := TrimSpace reason;
    an_CreatedAt := now;
    an_AnchorKind := "kernel_internal";
    an_Attestation := None |} in
  (k |> k_set_globalAnchors
          (keep_last (ec_GlobalAnchorHistoryMax (k_cfg k)) (k_globalAnchors k ++ [anchor]))
     |> emitLocked "evidence_global_integrity_anchor_created" "_global"
          [("anchor_id", GStr (an_AnchorID anchor));
           ("root_hash", GStr (an_RootHash anchor));
           ("event_count", GInt (an_EventCount anchor));
           ("reason", GStr (an_Reason anchor))] now, anchor).

(** What the attestor's answer makes of the anchor and reports. *)
Definition failed_attestation (att : ExternalAttestation) (err : string) (now : time) :
    ExternalAttestation :=
  mk_ExternalAttestation (TrimSpace (at_Provider att)) "" "" "" now "failed"
    "external_attestor_error" err.

Definition completed_attestation (att : ExternalAttestation) (now : time) : ExternalAttestation :=
  let att := if blank (at_Status att) then at_set_Status "attested" att else att in
  if IsZero (at_AttestedAt att) then at_set_AttestedAt now att else att.

Definition attested_anchor (answer : ExternalAttestation * option string) (now : time)
    (a : IntegrityAnchor) : IntegrityAnchor :=
  match answer with
  | (att, Some err) => a |> an_set_AnchorKind "external_attest_failed"
                         |> an_set_Attestation (Some (failed_attestation att err now))
  | (att, None) => a |> an_set_AnchorKind "external_attested"
                     |> an_set_Attestation (Some (completed_attestation att now))
  end.

Definition attestation_event (answer : ExternalAttestation * option string) (now : time)
    (anchor : IntegrityAnchor) (k : Kernel) : Kernel :=
  match answer with
  | (att, Some err) =>
    emitLocked "evidence_global_integrity_anchor_external_failed" "_global"
      [("anchor_id", GStr (an_AnchorID anchor));
       ("root_hash", GStr (an_RootHash anchor));
       ("event_count", GInt (an_EventCount anchor));
       ("error_code", GStr "external_attestor_error");
       ("error_message", GStr err);
       ("provider", GStr (TrimSpace (at_Provider att)))] now k
  | (att, None) =>
    let att := completed_attestation att now in
    emitLocked "evidence_global_integrity_anchor_external_attested" "_global"
      [("anchor_id", GStr (an_AnchorID anchor));
       ("root_hash", GStr (an_RootHash anchor));
       ("event_count", GInt (an_EventCount anchor));
       ("provider", GStr (at_Provider att));
       ("attestation_ref", GStr (at_AttestationRef att));
       ("worm_ref", GStr (at_WormRef att));
       ("attested_at", GTime (at_AttestedAt att))] now k
  end.

(** The last position of the anchor in the history, searched from the end. *)
Fixpoint last_index (id : string) (l : list IntegrityAnchor) : option nat :=
  match l with
  | [] => None
  | a :: l =>
    match last_index id l with
    | Some i => Some (S i)
    | None => if (an_AnchorID a =? id)%string then Some O else None
    end
  end.

(** The second critical section, after the attestor has answered. *)
Definition anchor_attest (anchor : IntegrityAnchor) (answer : ExternalAttestation * option string)
    (now : time) (k : Kernel) : Kernel * IntegrityAnchor :=
  match last_index (an_AnchorID anchor) (k_globalAnchors k) with
  | None => (k, anchor)
  | Some i =>
    let l := alter (attested_anchor answer now) i (k_globalAnchors k) in
    (k |> k_set_globalAnchors l |> attestation_event answer now anchor, nth i l anchor)
  end.

(** The whole call when no other call comes between its two sections. *)
Definition CreateGlobalIntegrityAnchor (reason : string) (now : time) (k : Kernel) :
    Kernel * IntegrityAnchor :=
  let '(k, anchor) := anchor_create reason now k in
  match ec_Attestor (k_cfg k) with
  | None => (k, anchor)
  | Some attestor =>
    let req := mk_ExternalAnchorRequest (an_AnchorID anchor) (an_RootHash anchor)
                 (an_EventCount anchor) (an_Reason anchor) (an_CreatedAt anchor) in
    anchor_attest anchor (attestor req) now k
  end.

Definition ListGlobalIntegrityAnchors (limit : Z) (k : Kernel) : list IntegrityAnchor :=
  let n := Z.of_nat (length (k_globalAnchors k)) in
  let limit := if (limit <=? 0) || (n <? limit) then n else limit in
  drop (Z.to_nat (n - limit)) (k_globalAnchors k).

Definition externally_attested (a : IntegrityAnchor) : bool :=
  match an_Attestation a with
  | None => false
  | Some att => (TrimSpace (an_AnchorKind a) =? "external_attested")%string
                && EqualFold (TrimSpace (at_Status att)) "attested"
  end.

Definition latestExternalAnchorLocked (k : Kernel) : option IntegrityAnchor :=
  List.find externally_attested (rev (k_globalAnchors k)).

(** ** Archive export *)

(** A field with the [omitempty] tag. *)
Definition omit_str (name v : string) : list (string * gval) :=
  if (v =? "")%string then [] else [(name, GStr v)].
Definition omit_int (name : string) (v : Z) : list (string * gval) :=
  if v =? 0 then [] else [(name, GInt v)].
Definition omit_bool (name : string) (v : bool) : list (string * gval) :=
  if v then [(name, GBool v)] else [].

Definition usage_gval (u : UsageInput) : gval :=
  GStruct "evidence.UsageInput"
    ([("resource_type", GStr (us_ResourceType u)); ("usage_amount", GFloat (us_UsageAmount u));
      ("unit", GStr (us_Unit u))]
     ++ match us_CostAmount u with
        | S754_zero _ => []
        | c => [("cost_amount", GFloat c)]
        end).

Definition event_gval (e : CanonicalEvent) : gval :=
  GStruct "evidence.CanonicalEvent"
    ([("event_id", GStr (cv_EventID e)); ("event_type", GStr (cv_EventType e));
      ("schema_version", GInt (cv_SchemaVersion e));
      ("source_component", GStr (cv_SourceComponent e)); ("run_id", GStr (cv_RunID e))]
     ++ omit_str "step_id" (cv_StepID e) ++ omit_str "decision_id" (cv_DecisionID e)
     ++ omit_str "tenant_id" (cv_TenantID e) ++ omit_str "project_id" (cv_ProjectID e)
     ++ omit_str "workflow_id" (cv_WorkflowID e) ++ omit_str "risk_tier" (cv_RiskTier e)
     ++ [("evidence_tier", GStr (cv_EvidenceTier e)); ("evidence_grade", GStr (cv_EvidenceGrade e))]
     ++ omit_bool "payload_integrity_required" (cv_PayloadIntegrityRequired e)
     ++ [("event_ts", GTime (cv_EventTS e))]
     ++ omit_str "payload_ref" (cv_PayloadRef e) ++ omit_str "payload_hash" (cv_PayloadHash e)
     ++ [("payload_hash_valid", GBool (cv_PayloadHashValid e))]
     ++ omit_bool "payload_tombstoned" (cv_PayloadTombstoned e)
     ++ omit_str "redaction_reason" (cv_RedactionReason e)
     ++ match cv_Payload e with
        | None | Some [] => []
        | p => [("payload", gval_of_payload p)]
        end
     ++ match cv_Usage e with None => [] | Some u => [("usage", usage_gval u)] end
     ++ omit_int "integrity_seq" (cv_IntegritySeq e)
     ++ omit_str "integrity_prev_hash" (cv_IntegrityPrevHash e)
     ++ omit_str "integrity_hash" (cv_IntegrityHash e)
     ++ [("canonical_hash", GStr (cv_CanonicalHash e));
         ("estimated_bytes", GInt (cv_EstimatedBytes e))]
     ++ omit_bool "degraded" (cv_Degraded e) ++ omit_bool "dropped" (cv_Dropped e)
     ++ omit_str "drop_reason" (cv_DropReason e)).

Definition chain_link (e : CanonicalEvent) : string :=
  let link := TrimSpace (cv_IntegrityHash e) in
  let link := if (link =? "")%string then TrimSpace (cv_CanonicalHash e) else link in
  if (link =? "")%string then TrimSpace (cv_EventID e) else link.

Definition buildArchiveChainRoot (events : list CanonicalEvent) : string :=
  foldl (fun prev e => link_hash prev (chain_link e) e) "" events.

Definition event_redacted (e : CanonicalEvent) : bool :=
  negb (blank (cv_RedactionReason e)) || cv_PayloadTombstoned e.
Definition event_replayable (e : CanonicalEvent) : bool :=
  negb (negb (cv_PayloadHashValid e) || cv_PayloadTombstoned e).

Definition ExportArchive (runID tier : string) (limit : Z) (now : time) (k : Kernel) :
    result KernelError ArchiveExport :=
  let runID := TrimSpace runID in
  let tier := ToLower (TrimSpace tier) in
  if (runID =? "")%string then Err run_id_required
  else if negb (tier =? "warm")%string && negb (tier =? "cold")%string then
    Err (evidenceErr 422 "ARCHIVE_TIER_INVALID" "tier must be warm|cold" ["archive_tier_invalid"])
  else
    let src := default [] ((if (tier =? "warm")%string then k_warmArchiveByRun k
                            else k_coldArchiveByRun k) !! runID) in
    let anchorRequired := ec_RequireExternalAnchorForAudit (k_cfg k) in
    match src with
    | [] =>
      Ok (mk_ArchiveExport runID tier 0 [] now "" ""
            (mk_ExportContract "export_digest" false false true false anchorRequired false "" "" 1))
    | _ =>
      let n := Z.of_nat (length src) in
      let limit := if (limit <=? 0) || (n <? limit) then n else limit in
      let events := sortEventsByTS (lastn (Z.to_nat limit) src) in
      let anchor := if anchorRequired then latestExternalAnchorLocked k else None in
      let anchorSatisfied := bool_decide (is_Some anchor) in
      let auditEligible := forallb (fun e => (cv_EvidenceGrade e =? GradeAudit)%string) events in
      let auditEligible := if auditEligible && anchorRequired && negb anchorSatisfied
                           then false else auditEligible in
      Ok {| ax_RunID := runID;
            ax_Tier := tier;
            ax_EventCount := Z.of_nat (length events);
            ax_Events := events;
            ax_GeneratedAt := now;
            ax_IntegrityHash := fst (safeHash (GArr (map event_gval events)));
            ax_ChainRootHash := buildArchiveChainRoot events;
            ax_Contract := {|
              xc_IntegrityKind := "chain_digest";
              xc_ContainsTombstoned := existsb cv_PayloadTombstoned events;
              xc_ContainsRedacted := existsb event_redacted events;
              xc_ReplayEligible := forallb event_replayable events;
              xc_AuditArtifactEligible := auditEligible;
              xc_ExternalAnchorRequired := anchorRequired;
              xc_ExternalAnchorSatisfied := anchorSatisfied;
              xc_ExternalAnchorID := match anchor with Some a => an_AnchorID a | None => "" end;
              xc_ExternalAnchorKind := match anchor with Some a => an_AnchorKind a | None => "" end;
              xc_ContractVersion := 1 |} |}
    end.

(** ** Replay packs *)

Definition replay_event (tombstoned : gmap string time) (minimal : bool) (e : CanonicalEvent) :
    ReplayEvent :=
  let redacted := cv_PayloadTombstoned e || isPayloadTombstoned tombstoned (cv_PayloadRef e) in
  let reason := if redacted then
                  if blank (cv_RedactionReason e) then "dsar_tombstoned" else cv_RedactionReason e
                else "" in
  {| re_EventID := cv_EventID e;
     re_EventType := cv_EventType e;
     re_SchemaVersion := cv_SchemaVersion e;
     re_SourceComponent := cv_SourceComponent e;
     re_EventTS := cv_EventTS e;
     re_RunID := cv_RunID e;
     re_StepID := cv_StepID e;
     re_DecisionID := cv_DecisionID e;
     re_PayloadRef := cv_PayloadRef e;
     re_PayloadHash := cv_PayloadHash e;
     re_PayloadHashValid := cv_PayloadHashValid e;
     re_PayloadTombstoned := cv_PayloadTombstoned e;
     re_Payload := if minimal then None
                   else if redacted then Some [("tombstone", GStr "deleted_by_dsar")]
                   else cv_Payload e;
     re_Redacted := redacted;
     re_RedactionReason := reason |}.

(** The references found under some keys of every payload, in order. *)
Definition payload_refs (keys : list string) (l : list string) (e : CanonicalEvent) : list string :=
  foldl (fun l key => appendUniqueStrings l (extractStringSliceOrScalar (cv_Payload e) key)) l keys.
Definition collect_refs (keys : list string) (events : list CanonicalEvent) : list string :=
  foldl (payload_refs keys) [] events.

Definition decision_refs (l : list string) (e : CanonicalEvent) : list string :=
  let l := if blank (cv_DecisionID e) then l else appendUniqueString l (cv_DecisionID e) in
  payload_refs ["decision_refs"] l e.

Definition replay_reasons (reasons : list string) (e : ReplayEvent) : list string :=
  if re_Redacted e then appendUniqueString reasons "dsar_tombstone_applied" else reasons.

Definition BuildReplayPack (runID mode : string) (now : time) (k : Kernel) :
    result KernelError ReplayPack :=
  let runID := TrimSpace runID in
  let mode := if (mode =? "")%string then ReplayPackModeMinimal else mode in
  if (runID =? "")%string then Err run_id_required
  else if negb (one_of mode [ReplayPackModeMinimal; ReplayPackModeFull]) then
    Err (evidenceErr 422 "REPLAY_MODE_INVALID" "mode must be minimal|full" ["replay_mode_invalid"])
  else
    match k_runs k !! runID with
    | None => Err run_not_found
    | Some rd =>
      let events := sortEventsByTS (rd_Events rd) in
      let outEvents :=
        map (replay_event (k_tombstonedRefs k) (mode =? ReplayPackModeMinimal)%string) events in
      let full := (mode =? ReplayPackModeFull)%string in
      Ok {| rp_RunID := runID;
            rp_Mode := mode;
            rp_ManifestVersion := 1;
            rp_EventCount := Z.of_nat (length outEvents);
            rp_Events := outEvents;
            rp_SnapshotRefs :=
              collect_refs ["snapshot_ref"; "snapshot_hash"; "snapshot_refs"] events;
            rp_PolicyBundleRefs :=
              collect_refs ["policy_bundle_snapshot_ref"; "policy_bundle_id";
                            "policy_bundle_refs"] events;
            rp_FeatureSnapshotRefs :=
              collect_refs ["feature_snapshot_id"; "feature_snapshot_ref";
                            "feature_snapshot_refs"] events;
            rp_AdapterReceiptRefs :=
              collect_refs ["execution_receipt_ref"; "receipt_ref"; "adapter_receipt_refs"] events;
            rp_DecisionRefs := foldl decision_refs [] events;
            rp_DecisionGraph := if full then Some (graph_or_zero k runID) else None;
            rp_Ledger := if full then ledger_or_nil k runID else [];
            rp_IntegrityRootHash := ig_LastHash (run_chain k runID);
            rp_GlobalIntegrityRootHash := ig_LastHash (k_globalIntegrity k);
            rp_GeneratedAt := now;
            rp_ReasonCodes := foldl replay_reasons [] outEvents |}
    end.

(** ** Ledger aggregation *)

Definition ledgerGroupKey (e : LedgerEntry) (groupBy : string) : string :=
  if (groupBy =? "run")%string then le_RunID e
  else if (groupBy =? "tenant")%string then le_TenantID e
  else if (groupBy =? "workflow")%string then le_WorkflowID e
  else le_ResourceType e.

Definition appendReason (existing next : string) : string :=
  if (existing =? "")%string then next
  else if (next =? "")%string then existing
  else Join [existing; next] "|".

Definition detectLedgerAnomaly (row : LedgerAggregateRow) : float64 * string :=
  if lr_EntryCount row =? 0 then (fzero, "")
  else
    let usageBurst := if fltb fzero (lr_AvgUsage row)
                      then fdiv (lr_MaxUsage row) (lr_AvgUsage row) else fzero in
    let costDensity := if fltb fzero (lr_TotalUsage row)
                       then fdiv (lr_TotalCost row) (lr_TotalUsage row) else fzero in
    let '(score, reason) := (fzero, "") in
    let '(score, reason) :=
      if fltb (float_of_Z 5) usageBurst
      then (fadd score (float_of_ratio 6 10), appendReason reason "usage_burst")
      else (score, reason) in
    let '(score, reason) :=
      if fltb (float_of_Z 10) costDensity
      then (fadd score (float_of_ratio 4 10), appendReason reason "high_cost_density")
      else (score, reason) in
    (if fltb (float_of_Z 1) score then float_of_Z 1 else score, reason).

(** The filters of the request on one entry of the ledger of [runID]. *)
Definition ledger_matches (req : LedgerAggregateRequest) (runID : string) (e : LedgerEntry) : bool :=
  let off (want have : string) := negb (want =? "")%string && negb (have =? TrimSpace want)%string in
  negb (off (lq_RunID req) runID || off (lq_TenantID req) (le_TenantID e)
        || off (lq_WorkflowID req) (le_WorkflowID e)
        || off (lq_ResourceType req) (le_ResourceType e)
        || (negb (IsZero (lq_WindowStart req)) && Before (le_CreatedAt e) (lq_WindowStart req))
        || (negb (IsZero (lq_WindowEnd req)) && After (le_CreatedAt e) (lq_WindowEnd req))).

Definition empty_row (key : string) : LedgerAggregateRow :=
  mk_LedgerAggregateRow key 0 fzero fzero fzero fzero fzero fzero "".

Definition add_entry (e : LedgerEntry) (row : LedgerAggregateRow) : LedgerAggregateRow :=
  mk_LedgerAggregateRow (lr_GroupKey row) (wrap_int64 (lr_EntryCount row + 1))
    (fadd (lr_TotalUsage row) (le_UsageAmount e)) (fadd (lr_TotalCost row) (le_CostAmount e))
    (lr_AvgUsage row) (lr_AvgCost row)
    (if fltb (lr_MaxUsage row) (le_UsageAmount e) then le_UsageAmount e else lr_MaxUsage row)
    (lr_AnomalyScore row) (lr_AnomalyReason row).

Definition aggregate_entry (req : LedgerAggregateRequest) (groupBy runID : string)
    (rows : gmap string LedgerAggregateRow) (e : LedgerEntry) : gmap string LedgerAggregateRow :=
  if ledger_matches req runID e then
    let key := ledgerGroupKey e groupBy in
    <[key := add_entry e (default (empty_row key) (rows !! key))]> rows
  else rows.

Definition finish_row (detectAnomaly : bool) (row : LedgerAggregateRow) : LedgerAggregateRow :=
  if 0 <? lr_EntryCount row then
    let n := float_of_Z (lr_EntryCount row) in
    let row := row |> lr_set_AvgUsage (fdiv (lr_TotalUsage row) n)
                   |> lr_set_AvgCost (fdiv (lr_TotalCost row) n) in
    if detectAnomaly then
      let '(score, reason) := detectLedgerAnomaly row in
      row |> lr_set_AnomalyScore score |> lr_set_AnomalyReason reason
    else row
  else row.

Definition row_le (a b : LedgerAggregateRow) : Prop := String.le (lr_GroupKey a) (lr_GroupKey b).

#[global] Instance row_le_dec : RelDecision row_le.
Proof. intros a b. unfold row_le. apply _. Defined.

Definition AggregateLedger (req : LedgerAggregateRequest) (now : time) (k : Kernel) :
    result KernelError LedgerAggregateResponse :=
  let groupBy := TrimSpace (lq_GroupBy req) in
  let groupBy := if (groupBy =? "")%string then "resource_type" else groupBy in
  if negb (one_of groupBy ["run"; "tenant"; "workflow"; "resource_type"]) then
    Err (evidenceErr 422 "LEDGER_GROUP_BY_INVALID"
           "group_by must be run|tenant|workflow|resource_type" ["ledger_group_by_invalid"])
  else
    let rows := go_range (fun rows runID entries =>
                            foldl (aggregate_entry req groupBy runID) rows entries)
                  ∅ (k_ledgerByRun k) in
    let out := go_range (fun out _ row => out ++ [finish_row (lq_DetectAnomaly req) row]) [] rows in
    Ok (mk_LedgerAggregateResponse (merge_sort row_le out) now).

(** ** Metrics *)

Definition high_risk_runs (k : Kernel) : float64 * float64 :=
  go_range (fun '(n, c) runID rd =>
              if negb (rd_NeedsGraph rd) then (n, c)
              else (fadd n (float_of_Z 1),
                    if isHighRiskGraphCompleteLocked k runID then fadd c (float_of_Z 1) else c))
    (fzero, fzero) (k_runs k).

Definition MetricsSnapshot_ (k : Kernel) : MetricsSnapshot :=
  let counter name := default fzero (k_counters k !! name) in
  let totalAttempts := counter "ingest_attempt_total" in
  let accepted := counter "ingest_accepted_total" in
  let '(highRiskRuns, highRiskGraphComplete) := high_risk_runs k in
  let gauge n := float_of_Z (Z.of_nat n) in
  {| ms_Counters := k_counters k;
     ms_Rates :=
       {["ingest_accept_rate" := ratio accepted totalAttempts;
         "ingest_drop_rate" := ratio (counter "ingest_dropped_total") totalAttempts;
         "ingest_degrade_rate" := ratio (counter "ingest_degraded_total") totalAttempts;
         "ingest_dedup_rate" := ratio (counter "ingest_dedup_total") totalAttempts;
         "payload_integrity_invalid_rate" :=
           ratio (counter "ingest_payload_integrity_invalid_total") accepted;
         "high_risk_graph_complete_rate" := ratio highRiskGraphComplete highRiskRuns]};
     ms_Gauges :=
       {["outbox_depth" := gauge (length (k_outbox k));
         "runs_active" := gauge (size (k_runs k));
         "events_indexed" := gauge (size (k_eventsByID k));
         "decision_logs" := gauge (size (k_decisionLogs k));
         "decision_log_history_keys" := gauge (size (k_decisionLogHistory k));
         "warm_archive_runs" := gauge (size (k_warmArchiveByRun k));
         "cold_archive_runs" := gauge (size (k_coldArchiveByRun k));
         "global_integrity_count" := float_of_Z (ig_Count (k_globalIntegrity k));
         "global_integrity_anchor_count" := gauge (length (k_globalAnchors k))]} |}.
End Reports.
