(* ===== verification/EvFrame.v ===== *)
(** * What each primitive of the Evidence kernel leaves alone

    [store] is what ingestion and reindexing are about, [derived] the decision
    logs and the graph.  Emitting, counting and numbering touch neither;
    indexing an event touches [derived] and the ledger only. *)

From S2P Require Import Prelude GoStrings Sha256 GoTime GoJson EvTypes EvEvents EvKernel.

Definition store (k : Kernel) :=
  (k_cfg k, k_registeredSources k, k_eventsByID k, k_runs k, k_warmArchiveByRun k,
   k_coldArchiveByRun k, k_integrityByRun k, k_globalIntegrity k, k_globalAnchors k,
   k_tombstonedRefs k, k_backpressureLevel k, k_sourceBackpressure k, k_tenantBackpressure k).

Definition derived (k : Kernel) :=
  (k_decisionLogs k, k_decisionLogHistory k, k_graphNodesByRun k, k_graphEdgesByRun k,
   k_lastNodeByRun k).

(** All but the outbox, the counters, the sequence numbers and the largest time. *)
Definition evidence (k : Kernel) := (store k, derived k, k_ledgerByRun k).

Lemma store_fields k k' : store k = store k' ->
  k_cfg k = k_cfg k' /\ k_registeredSources k = k_registeredSources k'
  /\ k_eventsByID k = k_eventsByID k' /\ k_runs k = k_runs k'
  /\ k_warmArchiveByRun k = k_warmArchiveByRun k' /\ k_coldArchiveByRun k = k_coldArchiveByRun k'
  /\ k_integrityByRun k = k_integrityByRun k' /\ k_globalIntegrity k = k_globalIntegrity k'
  /\ k_globalAnchors k = k_globalAnchors k' /\ k_tombstonedRefs k = k_tombstonedRefs k'
  /\ k_backpressureLevel k = k_backpressureLevel k'
  /\ k_sourceBackpressure k = k_sourceBackpressure k'
  /\ k_tenantBackpressure k = k_tenantBackpressure k'.
Proof. unfold store. intros E. by simplify_eq. Qed.

Lemma derived_fields k k' : derived k = derived k' ->
  k_decisionLogs k = k_decisionLogs k' /\ k_decisionLogHistory k = k_decisionLogHistory k'
  /\ k_graphNodesByRun k = k_graphNodesByRun k' /\ k_graphEdgesByRun k = k_graphEdgesByRun k'
  /\ k_lastNodeByRun k = k_lastNodeByRun k'.
Proof. unfold derived. intros E. by simplify_eq. Qed.

Lemma evidence_fields k k' : evidence k = evidence k' ->
  store k = store k' /\ derived k = derived k' /\ k_ledgerByRun k = k_ledgerByRun k'.
Proof. unfold evidence. intros E. apply pair_inv_eq in E as [E ?]. apply pair_inv_eq in E as [? ?]. done. Qed.

(** ** Counters, identifiers, the outbox *)

Lemma add_counter_evidence n x k : evidence (add_counter n x k) = evidence k.
Proof. reflexivity. Qed.
Lemma bump_evidence n k : evidence (bump n k) = evidence k.
Proof. reflexivity. Qed.
Lemma observe_ts_evidence t k : evidence (observe_ts t k) = evidence k.
Proof. unfold observe_ts. by destruct (After _ _). Qed.
Lemma nextID_evidence p k : evidence (fst (nextID p k)) = evidence k.
Proof. reflexivity. Qed.
Lemma trim_evidence now k : evidence (fst (trimOutboxLocked now k)) = evidence k.
Proof. reflexivity. Qed.

Lemma trim_and_count_evidence now k : evidence (trim_and_count now k) = evidence k.
Proof.
  unfold trim_and_count. pose proof (trim_evidence now k) as H.
  destruct (trimOutboxLocked now k) as [k' n]. by destruct (0 <? n).
Qed.

Lemma emit_evidence ev run kvs now k : evidence (emitLocked ev run kvs now k) = evidence k.
Proof.
  unfold emitLocked. destruct (safeHash _) as [h ok].
  by rewrite trim_and_count_evidence, observe_ts_evidence.
Qed.

#[export] Hint Rewrite add_counter_evidence bump_evidence observe_ts_evidence nextID_evidence
  trim_evidence trim_and_count_evidence emit_evidence : ev_frame.

(** ** The outbox stays within its bound *)

Definition outbox_bounded (k : Kernel) : Prop :=
  Z.of_nat (length (k_outbox k)) <= ec_OutboxMaxEvents (k_cfg k).

Lemma trim_bounded now k : 0 <= ec_OutboxMaxEvents (k_cfg k) ->
  outbox_bounded (fst (trimOutboxLocked now k)).
Proof.
  unfold outbox_bounded, trimOutboxLocked. cbn [fst k_outbox k_set_outbox k_cfg].
  intros H. rewrite length_drop. set (o := drop _ (k_outbox k)).
  destruct (0 <? Z.of_nat (length o) - ec_OutboxMaxEvents (k_cfg k)) eqn:E; bool_hyps; lia.
Qed.

Lemma trim_and_count_bounded now k : 0 <= ec_OutboxMaxEvents (k_cfg k) ->
  outbox_bounded (trim_and_count now k).
Proof.
  intros H. unfold trim_and_count. pose proof (trim_bounded now k H) as B.
  destruct (trimOutboxLocked now k) as [k' n]. by destruct (0 <? n).
Qed.

Lemma emit_bounded ev run kvs now k : 0 <= ec_OutboxMaxEvents (k_cfg k) ->
  outbox_bounded (emitLocked ev run kvs now k).
Proof.
  intros H. unfold emitLocked. destruct (safeHash _) as [h ok].
  apply trim_and_count_bounded. unfold observe_ts. by destruct (After _ _).
Qed.

(** ** Indexing an event *)

Lemma log_store e now k : store (updateDecisionLogLocked e now k) = store k.
Proof. unfold updateDecisionLogLocked. by destruct (blank _). Qed.

Lemma upsert_edge_store run x k : store (upsertGraphEdgeLocked run x k) = store k.
Proof. unfold upsertGraphEdgeLocked. by destruct (existsb _ _). Qed.

Lemma graph_store e now k : store (updateDecisionGraphLocked e now k) = store k.
Proof.
  unfold updateDecisionGraphLocked. cbv zeta. destruct (blank _); [done|].
  transitivity (store (upsertGraphNodeLocked (cv_RunID e) {|
      gn_NodeID := event_node_id e; gn_RunID := cv_RunID e;
      gn_NodeType := inferNodeType (cv_SourceComponent e) (cv_EventType e);
      gn_NodeRef := cv_EventID e; gn_CreatedAt := now |} k)); [|done].
  generalize (upsertGraphNodeLocked (cv_RunID e) {|
      gn_NodeID := event_node_id e; gn_RunID := cv_RunID e;
      gn_NodeType := inferNodeType (cv_SourceComponent e) (cv_EventType e);
      gn_NodeRef := cv_EventID e; gn_CreatedAt := now |} k) as k1. intros k1.
  destruct (extractStringSlice _ _) as [|p ps].
  - destruct (negb _ && negb _); [apply upsert_edge_store|done].
  - change (store (foldl (fun k parent => upsertGraphEdgeLocked (cv_RunID e)
      (graph_edge e parent (event_node_id e) "causal" now) k) k1 (p :: ps)) = store k1).
    generalize (p :: ps) as l. intros l. revert k1. induction l as [|x l IH]; intros k1; [done|].
    cbn [foldl]. by rewrite IH, upsert_edge_store.
Qed.

Lemma ledger_store e u now k : store (updateLedgerLocked e u now k) = store k.
Proof. unfold updateLedgerLocked. destruct u; [|done]. cbv zeta. by destruct (_ || _). Qed.

Lemma index_store e now k : store (index_event e now k) = store k.
Proof. unfold index_event. by rewrite ledger_store, graph_store, log_store. Qed.

#[export] Hint Rewrite index_store : ev_frame.

(** The primitives above never write an outbox entry. *)
Lemma upsert_edge_outbox run x k : k_outbox (upsertGraphEdgeLocked run x k) = k_outbox k.
Proof. unfold upsertGraphEdgeLocked. by destruct (existsb _ _). Qed.

Lemma index_outbox e now k : k_outbox (index_event e now k) = k_outbox k.
Proof.
  unfold index_event. transitivity (k_outbox (updateDecisionGraphLocked e now
    (updateDecisionLogLocked e now k))).
  { unfold updateLedgerLocked. destruct (cv_Usage e); [|done]. cbv zeta. by destruct (_ || _). }
  transitivity (k_outbox (updateDecisionLogLocked e now k)).
  2: { unfold updateDecisionLogLocked. by destruct (blank _). }
  generalize (updateDecisionLogLocked e now k) as k0. clear k. intros k.
  unfold updateDecisionGraphLocked. cbv zeta. destruct (blank _); [done|].
  cbn [k_outbox k_set_lastNodeByRun].
  destruct (extractStringSlice _ _) as [|p ps].
  - destruct (negb _ && negb _); [by rewrite upsert_edge_outbox|done].
  - set (k1 := upsertGraphNodeLocked _ _ k). transitivity (k_outbox k1); [|done].
    generalize (p :: ps), k1. intros l. induction l as [|x l IH]; intros k2; [done|].
    cbn [foldl]. by rewrite IH, upsert_edge_outbox.
Qed.
