(* ===== verification/EvChain.v ===== *)
(** * Order of events and hash chains of the Evidence kernel

    The sort is canonical on events with distinct identifiers; a run's chain in
    storage order, what verification of it means, and why equal heads mean
    equal events.

    Then the invariant of the stored events and the table of identifiers. *)

From Stdlib Require Import Ascii.
From S2P Require Import Prelude GoStrings Sha256 GoTime GoJson EvTypes EvEvents EvKernel EvRetain.
From S2P Require Import EvGraph EvReports EvFrame.

(** ** The order of events *)

#[global] Instance event_le_trans : Transitive event_le.
Proof.
  unfold event_le. intros a b c [H|[H1 H2]] [H'|[H1' H2']]; try (left; lia).
  right. split; [lia|]. by etrans.
Qed.

#[global] Instance event_le_total : Total event_le.
Proof.
  intros a b. unfold event_le.
  destruct (Z.lt_trichotomy (cv_EventTS a) (cv_EventTS b)) as [H|[H|H]].
  1: by left; left. 2: by right; left.
  destruct (String.le_total (cv_EventID a) (cv_EventID b)); [left|right]; by right.
Qed.

Lemma event_le_antisym a b : event_le a b -> event_le b a -> cv_EventID a = cv_EventID b.
Proof.
  unfold event_le. intros [H|[? H]] [H'|[? H']]; try lia. by eapply (anti_symm String.le).
Qed.

Lemma sortEventsByTS_perm l : sortEventsByTS l ≡ₚ l.
Proof. apply merge_sort_Permutation. Qed.

Lemma sortEventsByTS_sorted l : StronglySorted event_le (sortEventsByTS l).
Proof. apply StronglySorted_merge_sort; apply _. Qed.

Definition ids (l : list CanonicalEvent) : list string := map cv_EventID l.

Lemma ids_inj l a b : NoDup (ids l) -> a ∈ l -> b ∈ l -> cv_EventID a = cv_EventID b -> a = b.
Proof.
  intros Hnd Ha Hb E. apply list_elem_of_lookup in Ha as [i Hi], Hb as [j Hj].
  assert (i = j) as ->.
  { eapply (NoDup_lookup (ids l)); [done|..]; unfold ids; rewrite list_lookup_fmap.
    - by rewrite Hi. - rewrite Hj. simpl. by rewrite E. }
  congruence.
Qed.

(** Two sorted arrangements of the same events, identifiers distinct, agree. *)
Lemma sorted_events_unique l1 l2 : NoDup (ids l1) -> l1 ≡ₚ l2 ->
  StronglySorted event_le l1 -> StronglySorted event_le l2 -> l1 = l2.
Proof.
  intros Hnd Hp H1 H2. eapply StronglySorted_unique_strong; [|exact H1|exact H2|exact Hp].
  intros a b Ha Hb Hab Hba. rewrite <- Hp in Hb.
  eapply ids_inj; try done. by apply event_le_antisym.
Qed.

Lemma sortEventsByTS_id l : NoDup (ids l) -> StronglySorted event_le l -> sortEventsByTS l = l.
Proof.
  intros Hnd Hs. symmetry. apply sorted_events_unique; try done.
  - by rewrite sortEventsByTS_perm. - apply sortEventsByTS_sorted.
Qed.

Lemma sortEventsByTS_nodup l : NoDup (ids l) -> NoDup (ids (sortEventsByTS l)).
Proof. unfold ids. by rewrite sortEventsByTS_perm. Qed.

(** The sort does not depend on the arrangement it starts from. *)
Lemma sortEventsByTS_proper l1 l2 : NoDup (ids l1) -> l1 ≡ₚ l2 ->
  sortEventsByTS l1 = sortEventsByTS l2.
Proof.
  intros Hnd Hp. apply sorted_events_unique.
  - by apply sortEventsByTS_nodup. - by rewrite !sortEventsByTS_perm.
  - apply sortEventsByTS_sorted. - apply sortEventsByTS_sorted.
Qed.

(** ** A run's chain in storage order *)

Definition chain_next (st : runIntegrityState) (e : CanonicalEvent) : runIntegrityState :=
  mk_runIntegrityState (cv_IntegrityHash (seal st e)) (cv_IntegritySeq (seal st e)).

Fixpoint seal_all (st : runIntegrityState) (l : list CanonicalEvent) : list CanonicalEvent :=
  match l with [] => [] | e :: l => seal st e :: seal_all (chain_next st e) l end.

Definition chain_state (st : runIntegrityState) (l : list CanonicalEvent) : runIntegrityState :=
  foldl chain_next st l.

(** The stored events are the ones the chain wrote. *)
Definition sealed (l : list CanonicalEvent) : Prop := seal_all genesis l = l.

Lemma seal_fields st e : chain_hash (ig_LastHash st) (seal st e) = chain_hash (ig_LastHash st) e.
Proof. reflexivity. Qed.

Lemma seal_idem st st' e : seal st (seal st' e) = seal st e.
Proof. reflexivity. Qed.

Lemma chain_next_seal st st' e : chain_next st (seal st' e) = chain_next st e.
Proof. reflexivity. Qed.

Lemma chain_state_seal_all st st' l : chain_state st (seal_all st' l) = chain_state st l.
Proof.
  revert st st'. induction l as [|e l IH]; intros st st'; [done|]. simpl seal_all.
  unfold chain_state in *. cbn [foldl]. rewrite chain_next_seal. apply IH.
Qed.

Lemma seal_all_idem st st' l : seal_all st (seal_all st' l) = seal_all st l.
Proof.
  revert st st'. induction l as [|e l IH]; intros st st'; [done|].
  cbn [seal_all]. by rewrite seal_idem, chain_next_seal, IH.
Qed.

Lemma seal_all_app st l l' :
  seal_all st (l ++ l') = seal_all st l ++ seal_all (chain_state st l) l'.
Proof.
  revert st. induction l as [|e l IH]; intros st; [done|].
  cbn [seal_all app]. by rewrite IH.
Qed.

Lemma seal_all_ids st l : ids (seal_all st l) = ids l.
Proof.
  revert st. induction l as [|e l IH]; intros st; [done|].
  unfold ids in *. cbn [seal_all map]. by rewrite IH.
Qed.

Lemma seal_all_length st l : length (seal_all st l) = length l.
Proof. revert st. induction l; intros st; simpl; auto. Qed.

Lemma seal_all_sealed l : sealed (seal_all genesis l).
Proof. apply seal_all_idem. Qed.

Lemma sealed_snoc l e : sealed l -> sealed (l ++ [seal (chain_state genesis l) e]).
Proof.
  unfold sealed. intros H. rewrite seal_all_app, H. cbn [seal_all]. by rewrite seal_idem.
Qed.

Lemma sealed_nil : sealed [].
Proof. done. Qed.

(** ** Verification *)

Definition chain_head (l : list CanonicalEvent) : string := default "" (cv_IntegrityHash <$> last l).

Lemma first_break_cons prev e l : first_break prev (e :: l) = None <->
  cv_IntegrityHash e = chain_hash prev e /\ cv_IntegrityPrevHash e = prev
  /\ first_break (cv_IntegrityHash e) l = None.
Proof.
  cbn [first_break]. destruct (cv_IntegrityHash e =? _)%string eqn:E1,
    (cv_IntegrityPrevHash e =? _)%string eqn:E2; cbn [negb orb]; bool_hyps; naive_solver.
Qed.

Lemma seal_all_verifies st l : first_break (ig_LastHash st) (seal_all st l) = None.
Proof.
  revert st. induction l as [|e l IH]; intros st; [done|].
  cbn [seal_all]. rewrite first_break_cons. split; [done|]. split; [done|].
  apply (IH (chain_next st e)).
Qed.

Lemma sealed_verifies l : sealed l -> first_break "" l = None.
Proof. intros H. rewrite <- H. apply (seal_all_verifies genesis). Qed.

Lemma chain_state_head l : sealed l -> ig_LastHash (chain_state genesis l) = chain_head l.
Proof.
  unfold sealed. destruct l as [|e l] using rev_ind; [done|]. rewrite seal_all_app.
  intros [_ H]%app_inj_tail. unfold chain_head, chain_state. rewrite last_snoc, foldl_snoc.
  cbn [fmap option_fmap option_map default]. by rewrite <- H at 2.
Qed.

Lemma first_break_snoc prev l e : first_break prev (l ++ [e]) = None <->
  first_break prev l = None
  /\ cv_IntegrityHash e = chain_hash (default prev (cv_IntegrityHash <$> last l)) e
  /\ cv_IntegrityPrevHash e = default prev (cv_IntegrityHash <$> last l).
Proof.
  revert prev. induction l as [|x l IH]; intros prev.
  - cbn [app]. rewrite first_break_cons. cbn. naive_solver.
  - cbn [app]. rewrite !first_break_cons, IH.
    assert (forall p, default p (cv_IntegrityHash <$> last (x :: l))
            = default (cv_IntegrityHash x) (cv_IntegrityHash <$> last l)) as ->.
    { intros p. destruct l as [|y l] using rev_ind; [done|].
      rewrite app_comm_cons, !last_snoc. done. }
    naive_solver.
Qed.

(** ** Fields joined with a separator *)

Definition pipe : ascii := "|"%char.
Definition pipe_free (s : string) : bool := forallb (fun c => negb (Ascii.eqb c pipe)) (bytes s).

(** The first field of a joined string is determined when it holds no separator. *)
Lemma split_pipe a b s t : pipe_free a = true -> pipe_free b = true ->
  (a ++ "|" ++ s = b ++ "|" ++ t)%string -> a = b /\ s = t.
Proof.
  unfold pipe_free. revert b. induction a as [|x a IH]; intros [|y b]; cbn; intros Ha Hb E.
  - by injection E.
  - injection E as <- _. done.
  - injection E as -> _. done.
  - apply andb_true_iff in Ha as [_ Ha], Hb as [_ Hb]. injection E as -> E.
    by destruct (IH b Ha Hb E) as [-> ->].
Qed.

Lemma hex_pipe_free s : forallb hex_char (bytes s) = true -> pipe_free s = true.
Proof.
  intros H. apply forallb_forall. intros c Hc. rewrite forallb_forall in H. specialize (H c Hc).
  apply negb_true_iff, Ascii.eqb_neq. intros ->. by vm_compute in H.
Qed.

Lemma sha_pipe_free s : pipe_free (sha256_hex s) = true.
Proof. apply hex_pipe_free, sha256_hex_chars. Qed.

(** The predecessor of a link: nothing, or a digest. *)
Definition is_digest (s : string) : Prop := s = "" \/ exists x, s = sha256_hex x.

Lemma digest_pipe_free s : is_digest s -> pipe_free s = true.
Proof. intros [->|[x ->]]; [done|apply sha_pipe_free]. Qed.

(** The fields of an event that its link covers, and when they can be told
    apart in the joined string. *)
Record covered := mk_covered {
  co_EventID : string; co_EventType : string; co_CanonicalHash : string; co_PayloadHash : string;
  co_ts : string }.
Definition cover (e : CanonicalEvent) : covered :=
  mk_covered (cv_EventID e) (cv_EventType e) (cv_CanonicalHash e) (cv_PayloadHash e) (ts_str e).

Definition plain (e : CanonicalEvent) : Prop :=
  pipe_free (cv_EventID e) = true /\ pipe_free (cv_EventType e) = true
  /\ pipe_free (cv_CanonicalHash e) = true /\ pipe_free (cv_PayloadHash e) = true.

Lemma chain_hash_id p q a b : is_digest p -> is_digest q ->
  pipe_free (cv_EventID a) = true -> pipe_free (cv_EventID b) = true ->
  chain_hash p a = chain_hash q b ->
  (p = q /\ cv_EventID a = cv_EventID b) \/ sha256_collision.
Proof.
  intros Hp Hq Ha Hb E. unfold chain_hash in E.
  destruct (decide (Join [p; cv_EventID a; cv_EventType a; cv_CanonicalHash a; cv_PayloadHash a;
                          ts_str a] "|"
                    = Join [q; cv_EventID b; cv_EventType b; cv_CanonicalHash b; cv_PayloadHash b;
                            ts_str b] "|")) as [J|J]; [left|right; by eexists _, _].
  cbn [Join] in J. apply split_pipe in J as [-> J]; [|by apply digest_pipe_free..].
  by apply split_pipe in J as [-> _].
Qed.

(** The text that is hashed after the previous link. *)
Definition body (e : CanonicalEvent) : string :=
  Join [cv_EventID e; cv_EventType e; cv_CanonicalHash e; cv_PayloadHash e; ts_str e] "|".

Lemma chain_hash_body p q a b : is_digest p -> is_digest q ->
  chain_hash p a = chain_hash q b -> (p = q /\ body a = body b) \/ sha256_collision.
Proof.
  intros Hp Hq E. unfold chain_hash in E.
  destruct (decide (Join [p; cv_EventID a; cv_EventType a; cv_CanonicalHash a; cv_PayloadHash a;
                          ts_str a] "|"
                    = Join [q; cv_EventID b; cv_EventType b; cv_CanonicalHash b; cv_PayloadHash b;
                            ts_str b] "|")) as [J|J]; [left|right; by eexists _, _].
  unfold body. cbn [Join] in J |- *. by apply split_pipe in J as [-> J]; [|by apply digest_pipe_free..].
Qed.

Lemma body_cover a b : plain a -> plain b -> body a = body b -> cover a = cover b.
Proof.
  intros (Ha1 & Ha2 & Ha3 & Ha4) (Hb1 & Hb2 & Hb3 & Hb4) J. unfold body in J. cbn [Join] in J.
  apply split_pipe in J as [E1 J]; [|done..]. apply split_pipe in J as [E2 J]; [|done..].
  apply split_pipe in J as [E3 J]; [|done..]. apply split_pipe in J as [E4 E5]; [|done..].
  unfold cover. congruence.
Qed.

Lemma bodies_covers l1 : forall l2, Forall plain l1 -> Forall plain l2 ->
  map body l1 = map body l2 -> map cover l1 = map cover l2.
Proof.
  induction l1 as [|a l1 IH]; intros [|b l2] P1 P2 E; try done.
  apply Forall_cons in P1 as [Pa P1], P2 as [Pb P2]. injection E as Ea E.
  cbn [map]. by rewrite (body_cover a b), (IH l2).
Qed.

Lemma head_digest l : first_break "" l = None -> is_digest (chain_head l).
Proof.
  destruct l as [|e l] using rev_ind; [by left|]. intros (_ & H & _)%first_break_snoc.
  right. unfold chain_head. rewrite last_snoc. cbn [fmap option_fmap option_map default]. rewrite H.
  by eexists.
Qed.

Lemma chain_head_snoc l e : chain_head (l ++ [e]) = cv_IntegrityHash e.
Proof. unfold chain_head. by rewrite last_snoc. Qed.

Lemma chain_hash_nonempty p e : chain_hash p e <> "".
Proof. apply sha256_hex_nonempty. Qed.

(** Verified chains with equal heads hash equal texts. *)
Lemma equal_heads l1 l2 : first_break "" l1 = None -> first_break "" l2 = None ->
  chain_head l1 = chain_head l2 -> map body l1 = map body l2 \/ sha256_collision.
Proof.
  revert l2. induction l1 as [|a l1 IH] using rev_ind; intros l2 V1 V2 E.
  - destruct l2 as [|b l2] using rev_ind; [by left|]. exfalso.
    apply first_break_snoc in V2 as (_ & Hb & _). rewrite chain_head_snoc, Hb in E.
    exact (chain_hash_nonempty _ b (eq_sym E)).
  - pose proof V1 as (V1' & Ha & _)%first_break_snoc.
    destruct l2 as [|b l2 _] using rev_ind.
    { exfalso. rewrite chain_head_snoc, Ha in E. exact (chain_hash_nonempty _ a E). }
    pose proof V2 as (V2' & Hb & _)%first_break_snoc.
    rewrite !chain_head_snoc, Ha, Hb in E. fold (chain_head l1) (chain_head l2) in E.
    destruct (chain_hash_body _ _ _ _ (head_digest _ V1') (head_digest _ V2') E)
      as [[E' C]|?]; [|by right].
    destruct (IH l2 V1' V2' E') as [M|?]; [left|by right].
    by rewrite !map_app, M; cbn [map]; rewrite C.
Qed.

(** ** Verification in another order *)

Lemma link_prev_mem p l e : first_break p l = None -> e ∈ l ->
  cv_IntegrityPrevHash e = p \/ cv_IntegrityPrevHash e ∈ map cv_IntegrityHash l.
Proof.
  revert p. induction l as [|x l IH]; intros p V He; [by apply not_elem_of_nil in He|].
  apply first_break_cons in V as (_ & Hx & V). apply elem_of_cons in He as [->|He]; [by left|].
  right. cbn [map]. destruct (IH _ V He) as [->|?]; [apply list_elem_of_here|].
  by apply list_elem_of_further.
Qed.

Lemma link_prev_tail p x l e : first_break p (x :: l) = None -> e ∈ l ->
  cv_IntegrityPrevHash e ∈ map cv_IntegrityHash (x :: l).
Proof.
  intros (_ & _ & V)%first_break_cons He. cbn [map].
  destruct (link_prev_mem _ _ _ V He) as [->|?]; [apply list_elem_of_here|].
  by apply list_elem_of_further.
Qed.

(** Two arrangements of the same events that both verify are the same, when no
    two links have one digest. *)
Lemma linked_unique p l s : NoDup (p :: map cv_IntegrityHash l) ->
  first_break p l = None -> first_break p s = None -> l ≡ₚ s -> l = s.
Proof.
  revert p s. induction l as [|e l IH]; intros p s Hnd Vl Vs Hp.
  { by apply Permutation_nil_l in Hp as ->. }
  destruct s as [|x s]; [by apply Permutation_nil_r in Hp|].
  pose proof Vs as (_ & Hx & Vs')%first_break_cons.
  assert (x = e) as ->.
  { assert (x ∈ e :: l) as Hin by (rewrite Hp; apply list_elem_of_here).
    apply elem_of_cons in Hin as [->|Hin]; [done|]. exfalso.
    apply NoDup_cons in Hnd as [Hnp _]. apply Hnp. rewrite <- Hx.
    by eapply link_prev_tail. }
  f_equal. apply (IH (cv_IntegrityHash e)).
  - cbn [map] in Hnd. by apply NoDup_cons in Hnd as [_ ?].
  - by apply first_break_cons in Vl as (_ & _ & ?).
  - done.
  - by eapply Permutation.Permutation_cons_inv.
Qed.

Lemma link_of_mem p l h : is_digest p -> first_break p l = None -> h ∈ map cv_IntegrityHash l ->
  exists q x, is_digest q /\ x ∈ l /\ h = chain_hash q x.
Proof.
  revert p. induction l as [|y l IH]; intros p Hp V Hin; [by apply not_elem_of_nil in Hin|].
  apply first_break_cons in V as (Hy & _ & V). cbn [map] in Hin.
  apply elem_of_cons in Hin as [->|Hin].
  - exists p, y. split; [done|]. split; [apply list_elem_of_here|done].
  - destruct (IH (cv_IntegrityHash y)) as (q & x & ? & ? & ?); [|done..|].
    + right. rewrite Hy. by eexists.
    + exists q, x. split; [done|]. split; [by apply list_elem_of_further|done].
Qed.

(** The links of a chain have distinct digests, or SHA-256 a collision. *)
Lemma links_distinct p l : is_digest p -> first_break p l = None -> NoDup (ids l) ->
  Forall (fun e => pipe_free (cv_EventID e) = true) l ->
  NoDup (map cv_IntegrityHash l) \/ sha256_collision.
Proof.
  revert p. induction l as [|e l IH]; intros p Hp V Hnd Hf; [left; by apply NoDup_nil|].
  apply first_break_cons in V as (He & _ & V). apply NoDup_cons in Hnd as [Hni Hnd].
  apply Forall_cons in Hf as [Hf1 Hf]. assert (Hd : is_digest (cv_IntegrityHash e))
    by (right; rewrite He; by eexists).
  destruct (IH _ Hd V Hnd Hf) as [H|?]; [|by right].
  destruct (decide (cv_IntegrityHash e ∈ map cv_IntegrityHash l)) as [Hin|Hin].
  2: { left. by apply NoDup_cons. }
  right. destruct (link_of_mem _ _ _ Hd V Hin) as (q & x & Hq & Hx & E).
  rewrite He in E. rewrite Forall_forall in Hf.
  apply chain_hash_id in E as [[_ E]|?]; auto. exfalso. apply Hni. rewrite E.
  by apply (list_elem_of_fmap_2 cv_EventID).
Qed.

(** * The invariant of the Evidence kernel

    [EInv]: what ties the hot events, their index, the statistics and the two
    integrity chains together; [GInv]: what the derived graph and decision logs
    satisfy.  [ingest_store] and [rebuildDerivedIndexesLocked] establish both. *)

(** ** Definitions *)

Definition events_of (k : Kernel) (run : string) : list CanonicalEvent := rd_Events (run_data k run).

(** The data of a run, recomputed from its events. *)
Definition rd_of (l : list CanonicalEvent) : storedRunData :=
  foldl (fun rd e => add_event e rd) empty_run l.

(** Bounds that [normalize_config] puts in place. *)
Definition cfg_ok (cfg : Config) : Prop :=
  0 < ec_MaxEventsPerRun cfg /\ 0 < ec_MaxEvidenceBytesPerRun cfg
  /\ 0 < ec_EventRetention cfg <= ec_WarmRetention cfg
  /\ ec_WarmRetention cfg <= ec_ColdRetention cfg
  /\ 0 < ec_OutboxMaxEvents cfg /\ 0 < ec_OutboxRetention cfg
  /\ 0 < ec_DecisionLogHistoryMax cfg /\ 0 < ec_GlobalAnchorHistoryMax cfg.

(** Events under their run, with identifiers unique in the whole store. *)
Record wf_runs (runs : gmap string storedRunData) : Prop := {
  wf_run : forall r rd e, runs !! r = Some rd -> e ∈ rd_Events rd -> cv_RunID e = r;
  wf_ids : forall r rd, runs !! r = Some rd -> NoDup (ids (rd_Events rd));
  wf_cross : forall r r' rd rd' e e', runs !! r = Some rd -> runs !! r' = Some rd' ->
    e ∈ rd_Events rd -> e' ∈ rd_Events rd' -> cv_EventID e = cv_EventID e' -> r = r';
  wf_tomb : forall r rd e, runs !! r = Some rd -> e ∈ rd_Events rd ->
    cv_PayloadTombstoned e = true -> cv_Payload e = tombstone_payload
}.

Record EInv (k : Kernel) : Prop := {
  ei_cfg : cfg_ok (k_cfg k);
  ei_wf : wf_runs (k_runs k);
  ei_stats : forall r rd, k_runs k !! r = Some rd -> rd = rd_of (rd_Events rd);
  ei_index : forall id e, k_eventsByID k !! id = Some e
               <-> cv_EventID e = id /\ e ∈ events_of k (cv_RunID e);
  ei_sealed : forall r, sealed (events_of k r);
  ei_chain : forall r, run_chain k r = chain_state genesis (events_of k r);
  ei_global : exists gl, gl ≡ₚ (map_to_list (k_eventsByID k)).*2
                /\ k_globalIntegrity k = foldl global_link genesis gl;
  ei_anchors : Z.of_nat (length (k_globalAnchors k)) <= ec_GlobalAnchorHistoryMax (k_cfg k)
}.

(** ** Configuration *)

Lemma normalize_config_ok cfg : cfg_ok (normalize_config cfg).
Proof.
  unfold cfg_ok, normalize_config, default_if. cbn. unfold Hour, Minute, Second. split_and!.
  all: repeat match goal with |- context [if ?b then _ else _] => destruct b eqn:? end;
    bool_hyps; lia.
Qed.

(** ** Run data *)

Lemma rd_of_snoc l e : rd_of (l ++ [e]) = add_event e (rd_of l).
Proof. unfold rd_of. by rewrite foldl_snoc. Qed.

Lemma rd_of_events l : rd_Events (rd_of l) = l.
Proof.
  induction l as [|e l IH] using rev_ind; [done|]. rewrite rd_of_snoc.
  change (rd_Events (rd_of l) ++ [e] = l ++ [e]). by rewrite IH.
Qed.

Lemma rd_of_count l : st_Events (rd_Stats (rd_of l)) = wrap_int64 (Z.of_nat (length l)).
Proof.
  induction l as [|e l IH] using rev_ind; [done|]. rewrite rd_of_snoc.
  change (wrap_int64 (st_Events (rd_Stats (rd_of l)) + 1) = wrap_int64 (Z.of_nat (length (l ++ [e])))).
  rewrite IH, length_app. cbn [length]. rewrite wrap_int64_add. f_equal. lia.
Qed.

Lemma events_of_insert k m r rd r' : events_of (k_set_runs (<[r := rd]> m) k) r'
  = if decide (r' = r) then rd_Events rd else rd_Events (default empty_run (m !! r')).
Proof.
  unfold events_of, run_data. cbn [k_runs k_set_runs]. rewrite lookup_insert.
  destruct (decide (r' = r)) as [->|Hne]; [by rewrite decide_True|].
  by rewrite decide_False by congruence.
Qed.

Lemma elem_events_of k r e : e ∈ events_of k r ->
  exists rd, k_runs k !! r = Some rd /\ e ∈ rd_Events rd.
Proof.
  unfold events_of, run_data. destruct (k_runs k !! r) as [rd|] eqn:E; [by exists rd|].
  cbn. by intros ?%not_elem_of_nil.
Qed.

Lemma events_of_lookup k r rd : k_runs k !! r = Some rd -> events_of k r = rd_Events rd.
Proof. unfold events_of, run_data. by intros ->. Qed.

Lemma events_of_runs k k' : k_runs k = k_runs k' -> events_of k = events_of k'.
Proof. unfold events_of, run_data. by intros ->. Qed.

Lemma run_chain_eq k k' : k_integrityByRun k = k_integrityByRun k' -> run_chain k = run_chain k'.
Proof. unfold run_chain. by intros ->. Qed.

Lemma EInv_store k k' : store k = store k' -> EInv k -> EInv k'.
Proof.
  intros (E1 & _ & E3 & E4 & _ & _ & E7 & E8 & E9 & _)%store_fields [A B C D F G I J].
  pose proof (events_of_runs _ _ E4) as Ee. pose proof (run_chain_eq _ _ E7) as Ec.
  split; rewrite <- ?E1, <- ?E3, <- ?E4, <- ?E8, <- ?E9, <- ?Ee, <- ?Ec; assumption.
Qed.

(** The identifiers of a run's events are distinct. *)
Lemma EInv_ids k r : EInv k -> NoDup (ids (events_of k r)).
Proof.
  intros HI. destruct (k_runs k !! r) as [rd|] eqn:E.
  - rewrite (events_of_lookup _ _ _ E). by apply (wf_ids _ (ei_wf _ HI) r).
  - unfold events_of, run_data. rewrite E. by apply NoDup_nil.
Qed.

Lemma NewKernel_EInv cfg : EInv (NewKernel cfg).
Proof.
  assert (HN : forall r, k_runs (NewKernel cfg) !! r = None) by (intros; apply lookup_empty).
  assert (HE : forall r, k_eventsByID (NewKernel cfg) !! r = None) by (intros; apply lookup_empty).
  split; try done.
  - apply normalize_config_ok.
  - intros id e. split; [by rewrite HE|].
    intros [_ H]. apply elem_events_of in H as (rd & H & _). by rewrite HN in H.
  - exists []. cbn. by rewrite map_to_list_empty.
  - cbn [NewKernel k_globalAnchors length k_cfg]. pose proof (normalize_config_ok cfg) as H.
    unfold cfg_ok in H. lia.
Qed.
