(* ===== verification/EvIngest.v ===== *)
(** * Ingestion and the invariant of the Evidence kernel *)

From S2P Require Import Prelude GoStrings Sha256 GoTime GoJson EvTypes EvEvents EvKernel EvRetain EvGraph EvReports EvFrame EvChain.

Lemma evidence_store k k' : evidence k = evidence k' -> store k = store k'.
Proof. by intros (? & _)%evidence_fields. Qed.

Lemma EInv_evidence k k' : evidence k = evidence k' -> EInv k -> EInv k'.
Proof. intros (E & _)%evidence_fields. by apply EInv_store. Qed.

(** ** What storing an event does to the hot data *)

Definition sealed_event (e : CanonicalEvent) (k : Kernel) : CanonicalEvent :=
  seal (run_chain k (cv_RunID e)) e.

(** The kernel after [appendIntegrityLocked], with the event in its index and run. *)
Definition hot_step (e : CanonicalEvent) (k : Kernel) : Kernel :=
  let r := cv_RunID e in
  let e' := sealed_event e k in
  k |> k_set_integrityByRun
         (<[r := mk_runIntegrityState (cv_IntegrityHash e') (cv_IntegritySeq e')]>
            (k_integrityByRun k))
    |> k_set_globalIntegrity (global_link (k_globalIntegrity k) e')
    |> k_set_eventsByID (<[cv_EventID e := e']> (k_eventsByID k))
    |> k_set_runs (<[r := add_event e' (run_data k r)]> (k_runs k)).

Lemma ensure_run_insert r rd k :
  <[r := rd]> (k_runs (ensureRunDataLocked r k)) = <[r := rd]> (k_runs k).
Proof.
  unfold ensureRunDataLocked. destruct (k_runs k !! r); [done|]. apply insert_insert_eq.
Qed.

Lemma ensure_run_data r r' k : run_data (ensureRunDataLocked r k) r' = run_data k r'.
Proof.
  unfold ensureRunDataLocked. destruct (k_runs k !! r) eqn:E; [done|].
  unfold run_data. cbn [k_runs k_set_runs]. rewrite lookup_insert.
  destruct (decide (r = r')) as [->|]; [by rewrite E|done].
Qed.

Lemma store_set_runs x y k k' : x = y -> store k = store k' ->
  store (k_set_runs x k) = store (k_set_runs y k').
Proof.
  intros -> (E1 & E2 & E3 & E4 & E5 & E6 & E7 & E8 & E9 & E10 & E11 & E12 & E13)%store_fields.
  unfold store. cbn. congruence.
Qed.

Lemma store_forget_runs k k' : store (k_set_runs ∅ k) = store (k_set_runs ∅ k') ->
  forall x, store (k_set_runs x k) = store (k_set_runs x k').
Proof.
  intros (E1 & E2 & E3 & _ & E5 & E6 & E7 & E8 & E9 & E10 & E11 & E12 & E13)%store_fields x.
  cbn in *. unfold store. cbn. congruence.
Qed.

Lemma observe_ts_forget t x k : store (k_set_runs x (observe_ts t k)) = store (k_set_runs x k).
Proof. unfold observe_ts. by destruct (After _ _). Qed.

Lemma ensure_run_forget r x k :
  store (k_set_runs x (ensureRunDataLocked r k)) = store (k_set_runs x k).
Proof. unfold ensureRunDataLocked. by destruct (k_runs k !! r). Qed.

Lemma ingest_store_event e now k : snd (ingest_store e now k) = sealed_event e k.
Proof. unfold ingest_store. by destruct (_ && _). Qed.

Lemma ingest_store_store e now k : store (fst (ingest_store e now k)) = store (hot_step e k).
Proof.
  unfold ingest_store.
  set (k0 := if _ && _ then _ else _).
  assert (evidence k0 = evidence k) as E0 by (unfold k0; by destruct (_ && _)).
  destruct (appendIntegrityLocked e k0) as [k1 e1] eqn:E1. unfold appendIntegrityLocked in E1.
  apply evidence_fields in E0 as (E0 & _ & _).
  pose proof (store_fields _ _ E0) as (_ & _ & Ei & Er & _ & _ & Ec & Eg & _).
  rewrite (run_chain_eq _ _ Ec), Ec, Eg in E1. fold (sealed_event e k) in E1.
  pair_inv E1. cbn [fst].
  rewrite (evidence_store _ _ (trim_and_count_evidence _ _)), !(evidence_store _ _ (bump_evidence _ _)),
    index_store.
  set (kI := k0 |> k_set_integrityByRun _ |> k_set_globalIntegrity _).
  set (kE := observe_ts _ (k_set_eventsByID _ kI)).
  change (cv_RunID (sealed_event e k)) with (cv_RunID e).
  assert (k_runs kE = k_runs k) as HrE.
  { transitivity (k_runs (k_set_eventsByID (<[cv_EventID e:=sealed_event e k]> (k_eventsByID kI)) kI)).
    - unfold kE, observe_ts. by destruct (After _ _). - exact Er. }
  assert (run_data (ensureRunDataLocked (cv_RunID e) kE) (cv_RunID e) = run_data k (cv_RunID e)) as ->.
  { rewrite ensure_run_data. unfold run_data. by rewrite HrE. }
  rewrite ensure_run_insert, HrE.
  rewrite ensure_run_forget. unfold kE. rewrite observe_ts_forget.
  unfold hot_step. cbv zeta.
  apply store_set_runs; [done|].
  change (k_eventsByID kI) with (k_eventsByID k0). rewrite Ei. unfold kI.
  apply store_fields in E0 as (F1 & F2 & F3 & F4 & F5 & F6 & F7 & F8 & F9 & F10 & F11 & F12 & F13).
  unfold store. cbn. congruence.
Qed.

(** ** It preserves the invariant *)

Lemma hot_step_events e k r : events_of (hot_step e k) r
  = if decide (r = cv_RunID e) then events_of k r ++ [sealed_event e k] else events_of k r.
Proof.
  unfold hot_step. cbv zeta. rewrite events_of_insert.
  destruct (decide (r = cv_RunID e)) as [->|]; done.
Qed.

Lemma hot_step_chain e k r : run_chain (hot_step e k) r
  = if decide (r = cv_RunID e) then chain_next (run_chain k r) e else run_chain k r.
Proof.
  unfold run_chain at 1, hot_step. cbn [k_integrityByRun k_set_runs k_set_eventsByID
    k_set_globalIntegrity k_set_integrityByRun]. rewrite lookup_insert.
  destruct (decide (r = cv_RunID e)) as [->|Hne]; [by rewrite decide_True|].
  by rewrite decide_False by congruence.
Qed.

Lemma hot_step_wf e k : EInv k -> k_eventsByID k !! cv_EventID e = None ->
  cv_PayloadTombstoned e = false -> wf_runs (k_runs (hot_step e k)).
Proof.
  intros HI Hid Ht.
  assert (Hev : forall r rd x, k_runs (hot_step e k) !! r = Some rd -> x ∈ rd_Events rd ->
            (x = sealed_event e k /\ r = cv_RunID e) \/ (x ∈ events_of k r)).
  { intros r rd x Hr Hx. rewrite <- (events_of_lookup _ _ _ Hr), hot_step_events in Hx.
    destruct (decide _) as [E|]; [|by right].
    apply elem_of_app in Hx as [|Hx]; [by right|left]. by apply list_elem_of_singleton in Hx. }
  assert (Hold : forall r x, x ∈ events_of k r -> cv_RunID x = r /\ cv_EventID x <> cv_EventID e
            /\ k_eventsByID k !! cv_EventID x = Some x).
  { intros r x Hx. pose proof Hx as (rd & Hr & Hxr)%elem_events_of.
    assert (cv_RunID x = r) as <- by (by eapply (wf_run _ (ei_wf _ HI))).
    assert (k_eventsByID k !! cv_EventID x = Some x) as Hi by (by apply (ei_index _ HI)).
    split; [done|]. split; [|done]. intros E. rewrite E in Hi. congruence. }
  split.
  - intros r rd x Hr Hx. destruct (Hev _ _ _ Hr Hx) as [[-> ->]|Ho]; [done|]. by apply Hold.
  - intros r rd Hr. rewrite <- (events_of_lookup _ _ _ Hr), hot_step_events.
    destruct (decide _) as [E|]; [|by apply EInv_ids].
    unfold ids. rewrite map_app. apply NoDup_app. split; [by apply EInv_ids|].
    split; [|by apply NoDup_singleton]. intros i Hi Hs. cbn in Hs.
    apply list_elem_of_singleton in Hs as ->.
    apply list_elem_of_fmap in Hi as (x & Ex & Hx). apply Hold in Hx as (_ & Hx & _).
    by apply Hx.
  - intros r r' rd rd' x x' Hr Hr' Hx Hx' E.
    destruct (Hev _ _ _ Hr Hx) as [[-> ->]|Ho], (Hev _ _ _ Hr' Hx') as [[-> ->]|Ho']; [done|..].
    + apply Hold in Ho' as (_ & Hne & _). by symmetry in E.
    + by apply Hold in Ho as (_ & Hne & _).
    + apply Hold in Ho as (<- & _ & Hi), Ho' as (<- & _ & Hi'). rewrite E in Hi. congruence.
  - intros r rd x Hr Hx Hxt. destruct (Hev _ _ _ Hr Hx) as [[-> ->]|Ho].
    + change (cv_PayloadTombstoned e = true) in Hxt. congruence.
    + apply elem_events_of in Ho as (rd0 & Hr0 & Hx0). by eapply (wf_tomb _ (ei_wf _ HI)).
Qed.

Lemma hot_step_inv e k : EInv k -> k_eventsByID k !! cv_EventID e = None ->
  cv_PayloadTombstoned e = false -> EInv (hot_step e k).
Proof.
  intros HI Hid Ht. pose proof (hot_step_wf e k HI Hid Ht) as Hwf.
  assert (Hs : sealed_event e k = seal (chain_state genesis (events_of k (cv_RunID e))) e).
  { unfold sealed_event. by rewrite (ei_chain _ HI). }
  split; [apply HI|exact Hwf|..].
  - intros r rd. unfold hot_step. cbn [k_runs k_set_runs]. rewrite lookup_insert.
    destruct (decide _) as [E|Hne].
    + intros [= <-]. change (rd_Events (add_event (sealed_event e k) (run_data k (cv_RunID e))))
        with (events_of k (cv_RunID e) ++ [sealed_event e k]).
      rewrite rd_of_snoc. f_equal. unfold events_of, run_data.
      destruct (k_runs k !! cv_RunID e) eqn:Er; [|done]. by apply (ei_stats _ HI (cv_RunID e)).
    + apply (ei_stats _ HI).
  - intros id x. rewrite hot_step_events. unfold hot_step.
    cbn [k_eventsByID k_set_eventsByID k_set_runs]. rewrite lookup_insert.
    destruct (decide (cv_EventID e = id)) as [<-|Hne].
    + split.
      * intros [= <-]. split; [done|]. change (cv_RunID (sealed_event e k)) with (cv_RunID e).
        rewrite decide_True by done. apply elem_of_app. right. apply list_elem_of_here.
      * intros [Ex Hx]. f_equal. destruct (decide _) as [E|].
        -- apply elem_of_app in Hx as [Hx|Hx]; [|by apply list_elem_of_singleton in Hx].
           assert (k_eventsByID k !! cv_EventID x = Some x) as Hi by (by apply (ei_index _ HI)).
           rewrite Ex in Hi. congruence.
        -- assert (k_eventsByID k !! cv_EventID x = Some x) as Hi by (by apply (ei_index _ HI)).
           rewrite Ex in Hi. congruence.
    + rewrite (ei_index _ HI). destruct (decide _) as [E|]; [|done].
      rewrite elem_of_app, list_elem_of_singleton. split; [tauto|].
      intros [Ex [?| ->]]; [done|]. by destruct Hne.
  - intros r. rewrite hot_step_events. destruct (decide _) as [->|]; [|apply HI].
    rewrite Hs. apply sealed_snoc, HI.
  - intros r. rewrite hot_step_events, hot_step_chain. destruct (decide _) as [->|]; [|apply HI].
    rewrite (ei_chain _ HI), Hs. unfold chain_state. by rewrite foldl_snoc, chain_next_seal.
  - destruct (ei_global _ HI) as (gl & Hp & Hg). exists (gl ++ [sealed_event e k]).
    rewrite foldl_snoc. unfold hot_step. cbn [k_globalIntegrity k_set_globalIntegrity k_eventsByID
      k_set_eventsByID k_set_runs]. rewrite Hg. split; [|done].
    rewrite map_to_list_insert by done. rewrite Hp. cbn. by rewrite Permutation_app_comm.
  - apply HI.
Qed.

Lemma ingest_store_inv e now k : EInv k -> k_eventsByID k !! cv_EventID e = None ->
  cv_PayloadTombstoned e = false -> EInv (fst (ingest_store e now k)).
Proof.
  intros HI Hid Ht. eapply EInv_store; [symmetry; apply ingest_store_store|]. by apply hot_step_inv.
Qed.

(** ** [decideIngestAction] and [IngestEvent] *)

Lemma ensure_run_inv r k : EInv k -> EInv (ensureRunDataLocked r k).
Proof.
  intros HI. unfold ensureRunDataLocked. destruct (k_runs k !! r) as [|] eqn:Er; [done|].
  assert (Hl : forall r' rd, <[r := empty_run]> (k_runs k) !! r' = Some rd ->
            k_runs k !! r' = Some rd \/ rd = empty_run).
  { intros r' rd. rewrite lookup_insert. destruct (decide _); [|by left].
    intros [= <-]. by right. }
  assert (He : forall r', events_of (k_set_runs (<[r := empty_run]> (k_runs k)) k) r'
                 = events_of k r').
  { intros r'. rewrite events_of_insert. unfold events_of, run_data.
    destruct (decide _) as [->|]; [by rewrite Er|done]. }
  destruct HI as [A B C D F G I J]. split; try done.
  - split.
    + intros r' rd e [H| ->]%Hl; [by apply (wf_run _ B)|by intros ?%not_elem_of_nil].
    + intros r' rd [H| ->]%Hl; [by apply (wf_ids _ B r')|by apply NoDup_nil].
    + intros r1 r2 rd1 rd2 e1 e2 [H1| ->]%Hl [H2| ->]%Hl H3 H4;
        try by apply not_elem_of_nil in H3. 2: by apply not_elem_of_nil in H4.
      by apply (wf_cross _ B r1 r2 rd1 rd2).
    + intros r' rd e [H| ->]%Hl; [by apply (wf_tomb _ B r')|by intros ?%not_elem_of_nil].
  - intros r' rd [H| ->]%Hl; [by apply (C r')|done].
  - intros id e. rewrite He. apply D.
  - intros r'. rewrite He. apply F.
  - intros r'. rewrite He. apply G.
Qed.

(** The decision only makes sure the run exists, and may report. *)
Lemma decide_evidence e load now k :
  evidence (fst (decideIngestAction e load now k)) = evidence (ensureRunDataLocked (cv_RunID e) k).
Proof.
  unfold decideIngestAction. cbv zeta.
  destruct (budget_reasons _ _ _).
  - destruct (backpressure_drop _ _); [done|]. by destruct (sampling_drop _ _ _).
  - destruct (isTierDroppable _); [apply emit_evidence|done].
Qed.

Lemma canonicalize_fields req reg : let e := canonicalize req reg in
  cv_EventID e = rq_EventID req /\ cv_RunID e = rq_RunID req /\ cv_PayloadTombstoned e = false
  /\ cv_EvidenceTier e = event_tier req reg /\ cv_RiskTier e = rq_RiskTier req
  /\ cv_EventTS e = rq_EventTS req /\ cv_TenantID e = rq_TenantID req.
Proof. unfold canonicalize. cbv zeta. by destruct (event_payload_hash req). Qed.

Lemma degrade_fields e : let d := degrade_event e in
  cv_EventID d = cv_EventID e /\ cv_RunID d = cv_RunID e
  /\ cv_PayloadTombstoned d = cv_PayloadTombstoned e /\ cv_EvidenceTier d = cv_EvidenceTier e
  /\ cv_RiskTier d = cv_RiskTier e /\ cv_EventTS d = cv_EventTS e /\ cv_TenantID d = cv_TenantID e.
Proof. unfold degrade_event. cbv zeta. by destruct (safeHash _). Qed.

(** The event a request is canonicalised to, with its size. *)
Definition request_event (norm : IngestEventRequest) (reg : SourceRegistration) : CanonicalEvent :=
  let e := canonicalize norm reg in cv_set_EstimatedBytes (estimateEventBytes e) e.

Lemma request_event_fields norm reg : let e := request_event norm reg in
  cv_EventID e = rq_EventID norm /\ cv_RunID e = rq_RunID norm /\ cv_PayloadTombstoned e = false
  /\ cv_EvidenceTier e = event_tier norm reg /\ cv_RiskTier e = rq_RiskTier norm.
Proof.
  cbv zeta. pose proof (canonicalize_fields norm reg) as (? & ? & ? & ? & ? & _ & _).
  unfold request_event. cbv zeta. by split_and!.
Qed.

Lemma ensure_run_index r k : k_eventsByID (ensureRunDataLocked r k) = k_eventsByID k.
Proof. unfold ensureRunDataLocked. by destruct (k_runs k !! r). Qed.

Lemma evidence_index k k' : evidence k = evidence k' -> k_eventsByID k = k_eventsByID k'.
Proof. intros (E & _)%evidence_fields.
  by apply store_fields in E as (_ & _ & ? & _).
Qed.

(** An ingestion only emits, counts, makes sure the run exists and stores one new
    event: what these steps preserve, the call preserves. *)
Section Preserve.
Context (P : Kernel -> Prop) (now : time).
Hypothesis P_evidence : forall k k', evidence k = evidence k' -> P k -> P k'.
Hypothesis P_ensure : forall r k, P k -> P (ensureRunDataLocked r k).
Hypothesis P_store : forall e k, P k -> k_eventsByID k !! cv_EventID e = None ->
  cv_PayloadTombstoned e = false -> P (fst (ingest_store e now k)).

Lemma ingest_new_pres norm reg now2 k : P k -> k_eventsByID k !! rq_EventID norm = None ->
  P (fst (ingest_new norm reg now now2 k)).
Proof using P_evidence P_ensure P_store.
  intros HI Hid. unfold ingest_new. cbv zeta. fold (request_event norm reg).
  pose proof (request_event_fields norm reg) as (Ei & Er & Et & _ & _).
  set (e := request_event norm reg) in *. clearbody e.
  pose proof (decide_evidence e (rq_SystemLoad norm) now2 k) as Hd.
  destruct (decideIngestAction _ _ _ _) as [k1 [action reasons]]. cbn [fst] in Hd.
  assert (HI1 : P k1) by (eapply P_evidence; [symmetry; exact Hd|by apply P_ensure]).
  assert (Hid1 : k_eventsByID k1 !! cv_EventID e = None).
  { by rewrite (evidence_index _ _ Hd), ensure_run_index, Ei. }
  pose proof (degrade_fields e) as (Di & _ & Dt & _).
  destruct action.
  - cbn [fst]. eapply P_evidence; [|exact HI1]. by rewrite emit_evidence, bump_evidence.
  - set (rs := reasons ++ _). set (k2 := emitLocked _ _ _ _ _).
    assert (evidence k2 = evidence k1) as E2 by (unfold k2; by rewrite emit_evidence).
    pose proof (P_store (degrade_event e) k2) as Hs.
    destruct (ingest_store _ _ k2) as [k3 e3]. apply Hs.
    + by eapply P_evidence.
    + by rewrite (evidence_index _ _ E2), Di.
    + by rewrite Dt.
  - pose proof (P_store e k1 HI1 Hid1 Et) as Hs.
    by destruct (ingest_store _ _ k1) as [k3 e3].
Qed.

Lemma IngestEvent_pres req now2 k : P k -> P (fst (IngestEvent req now now2 k)).
Proof using P_evidence P_ensure P_store.
  intros HI. unfold IngestEvent. cbv zeta.
  assert (Hb : forall n k, P k -> P (bump n k)) by (intros n k0; by apply P_evidence).
  destruct (validateIngestRequest _); [exact HI|].
  apply (Hb "ingest_attempt_total") in HI.
  destruct (k_registeredSources _ !! _) as [reg|]; [|by apply Hb].
  destruct (_ <? _); [by apply Hb|].
  destruct (k_eventsByID _ !! _) eqn:E; [by apply Hb|].
  pose proof (ingest_new_pres (normalizeIngestRequest req now) reg now2 _ HI E) as H.
  by destruct (ingest_new _ _ _ _ _).
Qed.
End Preserve.

Lemma IngestEvent_inv req now now2 k : EInv k -> EInv (fst (IngestEvent req now now2 k)).
Proof.
  apply IngestEvent_pres; [apply EInv_evidence|apply ensure_run_inv|].
  intros e k0. apply ingest_store_inv.
Qed.
