(* ===== verification/EvRebuild.v ===== *)
(** * Reindexing: what [rebuildDerivedIndexesLocked] computes

    Whatever the order in which the runs are visited, every run ends with its
    events sorted and resealed from the start of its chain, with the statistics
    of those events; the index holds exactly them, and the global chain links
    them in the order of the visit.

    Then deletion by data subject, which reindexes what it leaves. *)

From S2P Require Import Prelude GoStrings Sha256 GoTime GoJson EvTypes EvEvents EvKernel EvRetain.
From S2P Require Import EvGraph EvReports EvFrame EvChain EvIngest.

(** ** Specification *)

(** The events of a run after reindexing. *)
Definition resealed (rd : storedRunData) : list CanonicalEvent :=
  seal_all genesis (sortEventsByTS (rd_Events rd)).

Definition idx_add (m : gmap string CanonicalEvent) (e : CanonicalEvent) :
    gmap string CanonicalEvent := <[cv_EventID e := e]> m.

Definition resealed_all (ps : list (string * storedRunData)) : list CanonicalEvent :=
  concat (map (fun p => resealed p.2) ps).

(** What reindexing leaves alone of [store]. *)
Definition still (k : Kernel) :=
  store (k_set_runs ∅ (k_set_eventsByID ∅ (k_set_integrityByRun ∅
    (k_set_globalIntegrity genesis k)))).

Lemma still_fields k k' : still k = still k' ->
  k_cfg k = k_cfg k' /\ k_registeredSources k = k_registeredSources k'
  /\ k_warmArchiveByRun k = k_warmArchiveByRun k' /\ k_coldArchiveByRun k = k_coldArchiveByRun k'
  /\ k_globalAnchors k = k_globalAnchors k' /\ k_tombstonedRefs k = k_tombstonedRefs k'.
Proof.
  intros (E1 & E2 & _ & _ & E5 & E6 & _ & _ & E9 & E10 & _)%store_fields. cbn in *. by split_and!.
Qed.

Lemma store_still k k' : store k = store k' -> still k = still k'.
Proof.
  intros (E1 & E2 & E3 & E4 & E5 & E6 & E7 & E8 & E9 & E10 & E11 & E12 & E13)%store_fields.
  unfold still, store. cbn. congruence.
Qed.

(** ** One event *)

Lemma append_integrity_spec e k :
  let '(k', e') := appendIntegrityLocked e k in
  e' = sealed_event e k /\ still k' = still k /\ k_runs k' = k_runs k
  /\ k_globalIntegrity k' = global_link (k_globalIntegrity k) e'
  /\ run_chain k' (cv_RunID e) = chain_next (run_chain k (cv_RunID e)) e
  /\ (forall r, r <> cv_RunID e -> run_chain k' r = run_chain k r)
  /\ k_outbox k' = k_outbox k /\ derived k' = derived k.
Proof.
  unfold appendIntegrityLocked. cbv zeta. fold (sealed_event e k).
  split; [done|]. split; [done|]. split; [done|]. split; [done|].
  unfold run_chain at 1 3. cbn [k_integrityByRun k_set_globalIntegrity k_set_integrityByRun].
  change (cv_RunID (sealed_event e k)) with (cv_RunID e). split.
  - by rewrite lookup_insert_eq.
  - split; [|done]. intros r Hne. by rewrite lookup_insert_ne by congruence.
Qed.

Lemma rebuild_event_spec k idx rd e :
  let '(k', idx', rd') := rebuild_event (k, idx, rd) e in
  let e' := sealed_event e k in
  idx' = idx_add idx e' /\ rd' = add_event e' rd /\ still k' = still k /\ k_runs k' = k_runs k
  /\ k_globalIntegrity k' = global_link (k_globalIntegrity k) e'
  /\ run_chain k' (cv_RunID e) = chain_next (run_chain k (cv_RunID e)) e
  /\ (forall r, r <> cv_RunID e -> run_chain k' r = run_chain k r)
  /\ k_outbox k' = k_outbox k.
Proof.
  unfold rebuild_event. set (k0 := match _ !! _ with Some _ => _ | None => _ end).
  assert (evidence k0 = evidence k /\ k_outbox k0 = k_outbox k) as [E0 Eo]
    by (unfold k0; by destruct (_ !! _)).
  apply evidence_fields in E0 as (E0 & _ & _). pose proof (append_integrity_spec e k0) as Hs.
  destruct (appendIntegrityLocked e k0) as [k1 e1].
  destruct Hs as (-> & H1 & H2 & H3 & H4 & H5 & H6 & _).
  pose proof (index_store (sealed_event e k0) (cv_EventTS (sealed_event e k0)) k1) as Hi.
  pose proof (store_fields _ _ E0) as (_ & _ & _ & Er & _ & _ & Ec & Eg & _).
  apply run_chain_eq in Ec.
  assert (sealed_event e k0 = sealed_event e k) as Es by (unfold sealed_event; by rewrite Ec).
  rewrite Es in *. pose proof (store_fields _ _ Hi) as (_ & _ & _ & Er1 & _ & _ & Ec1 & Eg1 & _).
  apply run_chain_eq in Ec1. cbv zeta. rewrite Ec1, Er1, Eg1, H2, H3, H4, Er, Eg, Ec.
  split; [done|]. split; [done|]. split.
  { rewrite (store_still _ _ Hi), H1. by apply store_still. }
  do 3 (split; [done|]). split.
  - intros r Hne. rewrite H5 by done. by rewrite Ec.
  - by rewrite index_outbox, H6.
Qed.

(** ** One run *)

Lemma rebuild_events_spec r l : forall k idx rd, Forall (fun e => cv_RunID e = r) l ->
  let '(k', idx', rd') := foldl rebuild_event (k, idx, rd) l in
  let sl := seal_all (run_chain k r) l in
  idx' = foldl idx_add idx sl /\ rd' = foldl (fun rd e => add_event e rd) rd sl
  /\ still k' = still k /\ k_runs k' = k_runs k
  /\ k_globalIntegrity k' = foldl global_link (k_globalIntegrity k) sl
  /\ run_chain k' r = chain_state (run_chain k r) l
  /\ (forall r', r' <> r -> run_chain k' r' = run_chain k r')
  /\ k_outbox k' = k_outbox k.
Proof.
  induction l as [|e l IH]; intros k idx rd Hr; [by split_and!|].
  apply Forall_cons in Hr as [He Hr]. cbn [foldl].
  pose proof (rebuild_event_spec k idx rd e) as H1.
  destruct (rebuild_event (k, idx, rd) e) as [[k1 idx1] rd1].
  destruct H1 as (-> & -> & S1 & R1 & G1 & C1 & O1 & B1).
  specialize (IH k1 (idx_add idx (sealed_event e k)) (add_event (sealed_event e k) rd) Hr).
  destruct (foldl rebuild_event _ l) as [[k2 idx2] rd2].
  destruct IH as (-> & -> & S2 & R2 & G2 & C2 & O2 & B2). rewrite He in C1, O1.
  cbv zeta. rewrite S2, R2, G2, C2, B2, C1, G1. cbn [seal_all foldl].
  unfold sealed_event. rewrite He. split_and!; try done.
  intros r' Hne. by rewrite O2, O1.
Qed.

Lemma rd_of_count_override l :
  rd_set_Stats (mk_runEvidenceStats (wrap_int64 (Z.of_nat (length (rd_Events (rd_of l)))))
                  (st_Bytes (rd_Stats (rd_of l)))) (rd_of l) = rd_of l.
Proof.
  rewrite rd_of_events, <- rd_of_count. by destruct (rd_of l) as [? [? ?] ? ? ? ? ?].
Qed.

Lemma rebuild_run_spec r rd k idx : Forall (fun e => cv_RunID e = r) (rd_Events rd) ->
  run_chain k r = genesis ->
  let '(k', idx') := rebuild_run (k, idx) r rd in
  idx' = foldl idx_add idx (resealed rd) /\ still k' = still k
  /\ k_runs k' = <[r := rd_of (resealed rd)]> (k_runs k)
  /\ k_globalIntegrity k' = foldl global_link (k_globalIntegrity k) (resealed rd)
  /\ run_chain k' r = chain_state genesis (sortEventsByTS (rd_Events rd))
  /\ (forall r', r' <> r -> run_chain k' r' = run_chain k r')
  /\ k_outbox k' = k_outbox k.
Proof.
  intros Hr Hg. unfold rebuild_run.
  assert (Forall (fun e => cv_RunID e = r) (sortEventsByTS (rd_Events rd))) as Hr'
    by (by rewrite sortEventsByTS_perm).
  pose proof (rebuild_events_spec r _ k idx empty_run Hr') as H1.
  destruct (foldl rebuild_event _ _) as [[k1 idx1] rd1].
  destruct H1 as (-> & -> & S1 & R1 & G1 & C1 & O1 & B1). rewrite Hg in *.
  fold (resealed rd) in *. fold (rd_of (resealed rd)). rewrite rd_of_count_override.
  set (k2 := k_set_runs _ k1). set (k3 := match _ !! _ with Some _ => _ | None => _ end).
  assert (store k3 = store k2 /\ k_outbox k3 = k_outbox k2) as [E3 B3]
    by (unfold k3; by destruct (_ !! _)).
  pose proof (store_fields _ _ E3) as (_ & _ & _ & Er3 & _ & _ & Ec3 & Eg3 & _).
  apply run_chain_eq in Ec3. rewrite Er3, Ec3, Eg3, B3, (store_still _ _ E3).
  split_and!; try done. cbn. by rewrite R1.
Qed.

(** ** All the runs *)

Lemma rebuild_runs_spec ps : forall k idx, NoDup ps.*1 ->
  (forall p, p ∈ ps -> Forall (fun e => cv_RunID e = p.1) (rd_Events p.2)) ->
  (forall p, p ∈ ps -> run_chain k p.1 = genesis) ->
  let '(k', idx') := foldl (fun s kv => rebuild_run s kv.1 kv.2) (k, idx) ps in
  idx' = foldl idx_add idx (resealed_all ps) /\ still k' = still k
  /\ k_runs k' = foldl (fun m p => <[p.1 := rd_of (resealed p.2)]> m) (k_runs k) ps
  /\ k_globalIntegrity k' = foldl global_link (k_globalIntegrity k) (resealed_all ps)
  /\ (forall p, p ∈ ps -> run_chain k' p.1 = chain_state genesis (sortEventsByTS (rd_Events p.2)))
  /\ (forall r, r ∉ ps.*1 -> run_chain k' r = run_chain k r)
  /\ k_outbox k' = k_outbox k.
Proof.
  induction ps as [|[r rd] ps IH]; intros k idx Hnd Hr Hg.
  { cbn. split_and!; try done. by intros p ?%not_elem_of_nil. }
  cbn [fmap list_fmap fst] in Hnd. apply NoDup_cons in Hnd as [Hni Hnd]. cbn [foldl fst snd].
  pose proof (rebuild_run_spec r rd k idx (Hr (r, rd) (list_elem_of_here _ _))
                (Hg (r, rd) (list_elem_of_here _ _))) as H1.
  destruct (rebuild_run (k, idx) r rd) as [k1 idx1].
  destruct H1 as (-> & S1 & R1 & G1 & C1 & O1 & B1).
  assert (Hne : forall p, p ∈ ps -> p.1 <> r).
  { intros p Hp E. apply Hni. rewrite <- E. by apply list_elem_of_fmap_2. }
  specialize (IH k1 (foldl idx_add idx (resealed rd)) Hnd).
  destruct (foldl _ (k1, _) ps) as [k2 idx2].
  destruct IH as (-> & S2 & R2 & G2 & C2 & O2 & B2).
  { intros p Hp. apply Hr. by apply list_elem_of_further. }
  { intros p Hp. rewrite O1 by (by apply Hne). apply Hg. by apply list_elem_of_further. }
  unfold resealed_all. cbn [map concat snd]. rewrite !foldl_app, S2, R2, R1, G2, G1, B2.
  split_and!; try done.
  - intros p [->|Hp]%elem_of_cons; [|by apply C2]. cbn [fst snd]. by rewrite O2, C1.
  - intros r' Hr'. cbn [fmap list_fmap fst] in Hr'. apply not_elem_of_cons in Hr' as [? ?].
    by rewrite O2, O1.
Qed.

Section Rebuild.
Context `{MapRange}.

(** The result, the order of the visit appearing only in the global chain. *)
Lemma rebuild_spec k :
  (forall r rd e, k_runs k !! r = Some rd -> e ∈ rd_Events rd -> cv_RunID e = r) ->
  let k' := rebuildDerivedIndexesLocked k in
  let all := resealed_all (range_map (k_runs k)) in
  k_eventsByID k' = foldl idx_add ∅ all /\ still k' = still k
  /\ k_runs k' = (fun rd => rd_of (resealed rd)) <$> k_runs k
  /\ k_globalIntegrity k' = foldl global_link genesis all
  /\ (forall r, run_chain k' r = chain_state genesis (sortEventsByTS (events_of k r)))
  /\ k_outbox k' = k_outbox k.
Proof.
  intros Hr. unfold rebuildDerivedIndexesLocked, go_range.
  assert (Hc : forall r, run_chain (clear_derived k) r = genesis).
  { intros r. unfold run_chain, clear_derived. cbn. by rewrite lookup_empty. }
  pose proof (rebuild_runs_spec (range_map (k_runs k)) (clear_derived k) ∅
                (range_map_nodup _)) as H1.
  destruct (foldl _ _ _) as [k1 idx1]. destruct H1 as (-> & S1 & R1 & G1 & C1 & O1 & B1).
  { intros [r rd] Hp. apply range_map_elem in Hp. apply Forall_forall. intros e He. by eapply Hr. }
  { intros p _. apply Hc. }
  cbv zeta. cbn [k_eventsByID k_set_eventsByID k_runs k_globalIntegrity k_outbox].
  split; [done|]. split; [exact S1|]. split.
  { rewrite R1. apply map_eq. intros i. rewrite lookup_fmap.
    pose proof (lookup_range_update (fun _ rd => Some (rd_of (resealed rd))) (k_runs k) i) as L.
    unfold go_range, upd_entry in L. change (k_runs (clear_derived k)) with (k_runs k).
    rewrite L. by destruct (k_runs k !! i). }
  split; [done|]. split; [|done]. intros r.
  change (run_chain k1 r = chain_state genesis (sortEventsByTS (events_of k r))).
  destruct (k_runs k !! r) as [rd|] eqn:E.
  - rewrite (events_of_lookup _ _ _ E). apply (C1 (r, rd)). by apply range_map_elem.
  - unfold events_of, run_data. rewrite E. rewrite O1; [apply Hc|].
    rewrite list_elem_of_fmap. intros ([r' rd] & -> & Hp). apply range_map_elem in Hp.
    cbn in E. congruence.
Qed.
End Rebuild.

(** ** The rebuilt kernel satisfies the invariant *)

(** An event without its place in a chain. *)
Definition content (e : CanonicalEvent) : CanonicalEvent :=
  e |> cv_set_IntegritySeq 0 |> cv_set_IntegrityPrevHash "" |> cv_set_IntegrityHash "".

Lemma content_seal st e : content (seal st e) = content e.
Proof. reflexivity. Qed.

Lemma content_fields a b : content a = content b ->
  cv_EventID a = cv_EventID b /\ cv_RunID a = cv_RunID b /\ cv_EventTS a = cv_EventTS b
  /\ cv_PayloadTombstoned a = cv_PayloadTombstoned b /\ cv_Payload a = cv_Payload b
  /\ cv_TenantID a = cv_TenantID b /\ cv_PayloadRef a = cv_PayloadRef b.
Proof. unfold content. destruct a, b. cbn. intros [=]. by subst. Qed.

Lemma seal_all_content st l : map content (seal_all st l) = map content l.
Proof.
  revert st. induction l as [|e l IH]; intros st; [done|]. cbn [seal_all map].
  by rewrite content_seal, IH.
Qed.

Lemma elem_seal_all st l e : e ∈ seal_all st l -> exists x, x ∈ l /\ content e = content x.
Proof.
  intros He. assert (content e ∈ map content l) as H.
  { rewrite <- (seal_all_content st). by apply list_elem_of_fmap_2. }
  apply list_elem_of_fmap in H as (x & E & Hx). by exists x.
Qed.

Lemma elem_resealed rd e : e ∈ resealed rd -> exists x, x ∈ rd_Events rd /\ content e = content x.
Proof.
  intros (x & Hx & E)%elem_seal_all. rewrite sortEventsByTS_perm in Hx. by exists x.
Qed.

Lemma resealed_nodup rd : NoDup (ids (rd_Events rd)) -> NoDup (ids (resealed rd)).
Proof. unfold resealed. rewrite seal_all_ids. apply sortEventsByTS_nodup. Qed.

Lemma idx_lookup l m id e : NoDup (ids l) ->
  (foldl idx_add m l) !! id = Some e <->
  (e ∈ l /\ cv_EventID e = id) \/ (id ∉ ids l /\ m !! id = Some e).
Proof.
  revert m. induction l as [|x l IH]; intros m Hnd.
  { cbn. split; [right; split; [apply not_elem_of_nil|done]|].
    intros [[?%not_elem_of_nil _]|[_ ?]]; done. }
  unfold ids in *. cbn [map foldl] in *. apply NoDup_cons in Hnd as [Hni Hnd].
  rewrite IH by done. unfold idx_add. rewrite lookup_insert, elem_of_cons, not_elem_of_cons.
  destruct (decide (cv_EventID x = id)) as [<-|Hne].
  - split.
    + intros [[? ?]|[? [= ->]]]; [tauto|]. left. by split; [left|].
    + intros [[[->|?] ?]|[[? _] _]]; [by right| |done]. by left.
  - split.
    + intros [[? ?]|[? ?]]; [tauto|]. right. by split_and!.
    + intros [[[->|?] ?]|[[? ?] ?]]; [done|by left|by right].
Qed.

Lemma idx_values l m : NoDup (ids l) -> (forall e, e ∈ l -> m !! cv_EventID e = None) ->
  (map_to_list (foldl idx_add m l)).*2 ≡ₚ l ++ (map_to_list m).*2.
Proof.
  revert m. induction l as [|x l IH]; intros m Hnd Hm; [done|].
  unfold ids in *. cbn [map foldl] in *. apply NoDup_cons in Hnd as [Hni Hnd].
  rewrite IH; [|done|].
  - unfold idx_add. rewrite map_to_list_insert by (apply Hm, list_elem_of_here). cbn.
    by rewrite <- Permutation_middle.
  - intros e He. unfold idx_add. rewrite lookup_insert_ne.
    + apply Hm. by apply list_elem_of_further.
    + intros E. apply Hni. rewrite E. by apply (list_elem_of_fmap_2 cv_EventID).
Qed.

Lemma wf_runs_resealed m : wf_runs m -> wf_runs ((fun rd => rd_of (resealed rd)) <$> m).
Proof.
  intros [A B C D].
  assert (Hx : forall r rd, ((fun rd => rd_of (resealed rd)) <$> m) !! r = Some rd ->
            exists rd0, m !! r = Some rd0 /\ rd_Events rd = resealed rd0).
  { intros r rd. rewrite lookup_fmap. intros (rd0 & E & ->)%fmap_Some. exists rd0.
    by rewrite rd_of_events. }
  split.
  - intros r rd e (rd0 & E & ->)%Hx (x & Hx0 & Ec)%elem_resealed.
    apply content_fields in Ec as (_ & -> & _). by eapply A.
  - intros r rd (rd0 & E & ->)%Hx. by apply resealed_nodup, (B r).
  - intros r r' rd rd' e e' (rd0 & E & ->)%Hx (rd0' & E' & ->)%Hx (x & Hx0 & Ec)%elem_resealed
      (x' & Hx0' & Ec')%elem_resealed Eid.
    apply content_fields in Ec as (Ec & _), Ec' as (Ec' & _). rewrite Ec, Ec' in Eid.
    by eapply C.
  - intros r rd e (rd0 & E & ->)%Hx (x & Hx0 & Ec)%elem_resealed.
    apply content_fields in Ec as (_ & _ & _ & -> & -> & _). by eapply D.
Qed.

Section RebuildInv.
Context `{MapRange}.

Lemma elem_resealed_all ps e : e ∈ resealed_all ps <-> exists p, p ∈ ps /\ e ∈ resealed p.2.
Proof.
  unfold resealed_all. rewrite list_elem_of_In, in_concat. split.
  - intros (l & (p & <- & Hp)%in_map_iff & He). exists p. by rewrite !list_elem_of_In.
  - intros (p & Hp & He). exists (resealed p.2). rewrite !list_elem_of_In in *.
    split; [|done]. by apply (in_map (fun p => resealed p.2)).
Qed.

Lemma resealed_all_nodup m : wf_runs m -> NoDup (ids (resealed_all (range_map m))).
Proof.
  intros Hwf. assert (Hm : forall p, p ∈ range_map m -> m !! p.1 = Some p.2)
    by (intros [r rd] Hp; by apply range_map_elem).
  pose proof (range_map_nodup m) as Hnd. revert Hm Hnd.
  induction (range_map m) as [|p ps IH]; intros Hm Hnd; [by apply NoDup_nil|].
  cbn [fmap list_fmap] in Hnd. apply NoDup_cons in Hnd as [Hni Hnd].
  unfold resealed_all, ids. cbn [map concat]. rewrite map_app. apply NoDup_app.
  split; [by apply resealed_nodup, (wf_ids _ Hwf p.1), Hm, list_elem_of_here|]. split.
  - intros i (x & -> & Hx)%list_elem_of_fmap (y & Ey & Hy)%list_elem_of_fmap.
    apply elem_resealed_all in Hy as (q & Hq & Hy).
    apply elem_resealed in Hx as (x0 & Hx0 & Ex), Hy as (y0 & Hy0 & Ey0).
    apply content_fields in Ex as (Ex & _), Ey0 as (Ey0 & _).
    apply Hni. assert (p.1 = q.1) as ->.
    { eapply (wf_cross _ Hwf p.1 q.1 p.2 q.2 x0 y0); [apply Hm, list_elem_of_here| |done..|congruence].
      by apply Hm, list_elem_of_further. }
    by apply list_elem_of_fmap_2.
  - apply IH; [|done]. intros q Hq. by apply Hm, list_elem_of_further.
Qed.

Lemma rebuild_events k r : wf_runs (k_runs k) ->
  events_of (rebuildDerivedIndexesLocked k) r = seal_all genesis (sortEventsByTS (events_of k r)).
Proof.
  intros Hwf. pose proof (rebuild_spec k (wf_run _ Hwf)) as (_ & _ & R & _).
  unfold events_of, run_data. rewrite R, lookup_fmap.
  destruct (k_runs k !! r) as [rd|]; [|done]. cbn. apply rd_of_events.
Qed.

Lemma rebuild_inv k : wf_runs (k_runs k) -> cfg_ok (k_cfg k) ->
  Z.of_nat (length (k_globalAnchors k)) <= ec_GlobalAnchorHistoryMax (k_cfg k) ->
  EInv (rebuildDerivedIndexesLocked k).
Proof.
  intros Hwf Hcfg Ha. pose proof (rebuild_spec k (wf_run _ Hwf)) as (I & S & R & G & C & _).
  pose proof (fun r => rebuild_events k r Hwf) as He.
  pose proof (resealed_all_nodup _ Hwf) as Hnd.
  set (k' := rebuildDerivedIndexesLocked k) in *. clearbody k'. cbv zeta in *.
  apply still_fields in S as (S1 & _ & _ & _ & S5 & _).
  split; rewrite ?S1, ?S5; [done|rewrite R; by apply wf_runs_resealed|..]; [| | | | |done].
  - intros r rd. rewrite R, lookup_fmap. intros (rd0 & _ & ->)%fmap_Some. by rewrite rd_of_events.
  - intros id e. rewrite I, idx_lookup by done. rewrite lookup_empty.
    split.
    + intros [[Hin Eid]|[_ ?]]; [|done]. split; [done|].
      apply elem_resealed_all in Hin as ([r rd] & Hp & Hin). apply range_map_elem in Hp.
      cbn [snd] in Hin. pose proof Hin as (x & Hx & Ec)%elem_resealed.
      apply content_fields in Ec as (_ & -> & _). rewrite (wf_run _ Hwf r rd x Hp Hx), He.
      by rewrite (events_of_lookup _ _ _ Hp).
    + intros [Eid Hin]. left. split; [|done]. rewrite He in Hin.
      apply elem_resealed_all. destruct (k_runs k !! cv_RunID e) as [rd|] eqn:Er.
      * exists (cv_RunID e, rd). split; [by apply range_map_elem|].
        by rewrite (events_of_lookup _ _ _ Er) in Hin.
      * unfold events_of, run_data in Hin. rewrite Er in Hin. by apply not_elem_of_nil in Hin.
  - intros r. rewrite He. apply seal_all_sealed.
  - intros r. by rewrite C, He, chain_state_seal_all.
  - exists (resealed_all (range_map (k_runs k))). split; [|done]. rewrite I.
    rewrite idx_values by (done || intros; apply lookup_empty).
    by rewrite map_to_list_empty, app_nil_r.
Qed.
End RebuildInv.

(** * Deletion by data subject: what [DeleteByDSAR] computes *)

(** ** Specification, event by event *)

(** What becomes of one event of a selected run: kept, deleted or redacted. *)
Definition dsar_result (tenantID prefix : string) (e : CanonicalEvent) : option CanonicalEvent :=
  if negb (dsar_matches tenantID prefix e) then Some e
  else if hard_deletable e then None else Some (redact_event e).

Definition dsar_deleted (tenantID prefix : string) (e : CanonicalEvent) : bool :=
  dsar_matches tenantID prefix e && hard_deletable e.
Definition dsar_redacted (tenantID prefix : string) (e : CanonicalEvent) : bool :=
  dsar_matches tenantID prefix e && negb (hard_deletable e).
Definition dsar_tombstoned (tenantID prefix : string) (e : CanonicalEvent) : bool :=
  dsar_redacted tenantID prefix e && negb (blank (cv_PayloadRef e)).

(** The runs a request selects. *)
Definition dsar_selected (req : DSARDeleteRequest) (runID : string) : bool :=
  (dq_RunID req =? "")%string || (runID =? dq_RunID req)%string.

Definition count {A} (p : A -> bool) (l : list A) : Z := Z.of_nat (length (List.filter p l)).

Lemma count_cons {A} (p : A -> bool) x l : count p (x :: l) = (if p x then 1 else 0) + count p l.
Proof. unfold count. cbn [List.filter]. destruct (p x); cbn [length]; lia. Qed.

Lemma count_nonneg {A} (p : A -> bool) l : 0 <= count p l.
Proof. unfold count. lia. Qed.

Lemma omap_cons {A B} (f : A -> option B) x l :
  omap f (x :: l) = match f x with Some y => y :: omap f l | None => omap f l end.
Proof. reflexivity. Qed.

Lemma redact_fields e : let d := redact_event e in
  cv_EventID d = cv_EventID e /\ cv_RunID d = cv_RunID e /\ cv_TenantID d = cv_TenantID e
  /\ cv_PayloadRef d = cv_PayloadRef e /\ cv_EventTS d = cv_EventTS e
  /\ cv_Payload d = tombstone_payload /\ cv_PayloadTombstoned d = true
  /\ cv_RedactionReason d = "dsar_tombstoned".
Proof. unfold redact_event. cbv zeta. by destruct (safeHash _). Qed.

Lemma dsar_result_fields t p e d : dsar_result t p e = Some d ->
  cv_EventID d = cv_EventID e /\ cv_RunID d = cv_RunID e
  /\ (d = e \/ (cv_PayloadTombstoned d = true /\ cv_Payload d = tombstone_payload)).
Proof.
  unfold dsar_result. destruct (negb _); [intros [= ->]; tauto|].
  destruct (hard_deletable e); [done|]. intros [= <-].
  pose proof (redact_fields e) as (? & ? & _ & _ & _ & ? & ? & _). tauto.
Qed.

(** The references the loop tombstones. *)
Definition dsar_refs (t p : string) (now : time) (refs : gmap string time)
    (l : list CanonicalEvent) : gmap string time :=
  foldl (fun refs e => <[cv_PayloadRef e := now]> refs) refs (List.filter (dsar_tombstoned t p) l).

Definition add_counts (c : dsar_counts) (t p : string) (l : list CanonicalEvent) : dsar_counts :=
  mk_dsar_counts (dc_deleted c + count (dsar_deleted t p) l)
    (dc_redacted c + count (dsar_redacted t p) l)
    (dc_tombstones c + count (dsar_tombstoned t p) l).

Lemma dsar_fold t p now l : forall kept refs c,
  foldl (dsar_event t p now) (kept, refs, c) l
  = (kept ++ omap (dsar_result t p) l, dsar_refs t p now refs l, add_counts c t p l).
Proof.
  induction l as [|e l IH]; intros kept refs [d r b].
  { cbn. unfold add_counts, count. cbn. by rewrite app_nil_r, !Z.add_0_r. }
  cbn [foldl]. unfold add_counts, dsar_refs. rewrite omap_cons, !count_cons. cbn [List.filter].
  assert (Hs : exists x dd dr dt, dsar_result t p e = x /\ dsar_deleted t p e = dd
    /\ dsar_redacted t p e = dr /\ dsar_tombstoned t p e = dt
    /\ dsar_event t p now (kept, refs, mk_dsar_counts d r b) e
       = (kept ++ option_list x, if dt then <[cv_PayloadRef e := now]> refs else refs,
          mk_dsar_counts (if dd then d + 1 else d) (if dr then r + 1 else r)
            (if dt then b + 1 else b))).
  { do 4 eexists. do 4 (split; [reflexivity|]).
    pose proof (redact_fields e) as (_ & _ & _ & Er & _).
    unfold dsar_event, dsar_result, dsar_tombstoned, dsar_redacted, dsar_deleted. rewrite Er.
    destruct (dsar_matches t p e), (hard_deletable e), (blank (cv_PayloadRef e));
      cbn [negb andb option_list]; by rewrite ?app_nil_r. }
  destruct Hs as (x & dd & dr & dt & -> & -> & -> & -> & ->). rewrite IH.
  unfold add_counts, dsar_refs. cbn [dc_deleted dc_redacted dc_tombstones].
  f_equal; [f_equal|].
  - destruct x; cbn; by rewrite <- app_assoc.
  - by destruct dt.
  - destruct dd, dr, dt; f_equal; lia.
Qed.

(** ** The loop over the runs *)

Definition dsar_rd (req : DSARDeleteRequest) (rd : storedRunData) : storedRunData :=
  rd_set_Events (omap (dsar_result (dq_TenantID req) (dq_PayloadRefPrefix req)) (rd_Events rd)) rd.

Section Loop.
Variables (req : DSARDeleteRequest) (now : time).
Let t := dq_TenantID req.
Let p := dq_PayloadRefPrefix req.

Definition loop_runs (m : gmap string storedRunData) (kv : string * storedRunData) :=
  if dsar_selected req kv.1 then <[kv.1 := dsar_rd req kv.2]> m else m.
Definition loop_refs (m : gmap string time) (kv : string * storedRunData) :=
  if dsar_selected req kv.1 then dsar_refs t p now m (rd_Events kv.2) else m.
Definition loop_counts (c : dsar_counts) (kv : string * storedRunData) :=
  if dsar_selected req kv.1 then add_counts c t p (rd_Events kv.2) else c.

Lemma dsar_run_eq k c r rd : dsar_run req now (k, c) r rd =
  (k |> k_set_tombstonedRefs (loop_refs (k_tombstonedRefs k) (r, rd))
     |> k_set_runs (loop_runs (k_runs k) (r, rd)), loop_counts c (r, rd)).
Proof.
  unfold dsar_run, loop_refs, loop_runs, loop_counts, dsar_selected. cbn [fst snd].
  destruct (dq_RunID req =? "")%string; cbn [negb andb orb].
  { by rewrite dsar_fold. }
  destruct (r =? dq_RunID req)%string; cbn [negb]; [by rewrite dsar_fold|].
  by destruct k.
Qed.

Lemma dsar_loop ps : forall k c,
  foldl (fun s kv => dsar_run req now s kv.1 kv.2) (k, c) ps
  = (k |> k_set_tombstonedRefs (foldl loop_refs (k_tombstonedRefs k) ps)
       |> k_set_runs (foldl loop_runs (k_runs k) ps), foldl loop_counts c ps).
Proof.
  induction ps as [|[r rd] ps IH]; intros k c; [by destruct k|].
  cbn [foldl fst snd]. rewrite dsar_run_eq, IH. done.
Qed.

Lemma loop_runs_lookup ps m i : NoDup ps.*1 ->
  foldl loop_runs m ps !! i
  = match list_to_map (M := gmap string storedRunData) ps !! i with
    | Some rd => if dsar_selected req i then Some (dsar_rd req rd) else m !! i
    | None => m !! i
    end.
Proof.
  revert m. induction ps as [|[r rd] ps IH]; intros m Hnd; [done|].
  cbn [fmap list_fmap fst] in Hnd. apply NoDup_cons in Hnd as [Hni Hnd].
  cbn [foldl]. rewrite IH by done. cbn [list_to_map foldr fst snd]. rewrite lookup_insert.
  unfold loop_runs. cbn [fst snd].
  destruct (decide (r = i)) as [->|Hne].
  - apply not_elem_of_list_to_map_1 in Hni. rewrite Hni.
    destruct (dsar_selected req i); [apply lookup_insert_eq|done].
  - destruct (list_to_map ps !! i); destruct (dsar_selected req r); try done;
      by rewrite lookup_insert_ne by done.
Qed.

Lemma loop_runs_range `{MapRange} m i :
  foldl loop_runs m (range_map m) !! i
  = (fun rd => if dsar_selected req i then dsar_rd req rd else rd) <$> m !! i.
Proof.
  rewrite loop_runs_lookup by apply range_map_nodup. rewrite list_to_map_range.
  destruct (m !! i) as [rd|]; [|done]. cbn. by destruct (dsar_selected req i).
Qed.

Lemma loop_counts_sum ps : forall c, foldl loop_counts c ps
  = add_counts c t p (concat (map (fun kv => rd_Events kv.2)
                                (List.filter (fun kv => dsar_selected req kv.1) ps))).
Proof.
  induction ps as [|[r rd] ps IH]; intros c.
  { cbn. destruct c. unfold add_counts, count. cbn. by rewrite !Z.add_0_r. }
  cbn [foldl List.filter fst]. rewrite IH. unfold loop_counts. cbn [fst snd].
  destruct (dsar_selected req r); [|done].
  unfold add_counts, count. cbn [map concat snd dc_deleted dc_redacted dc_tombstones].
  rewrite !List.filter_app, !length_app. f_equal; lia.
Qed.
End Loop.

Lemma wf_runs_dsar `{MapRange} req m : wf_runs m ->
  wf_runs (foldl (loop_runs req) m (range_map m)).
Proof.
  intros [A B C D].
  assert (Hl : forall r rd, foldl (loop_runs req) m (range_map m) !! r = Some rd ->
    exists rd0, m !! r = Some rd0
      /\ (rd = rd0 \/ rd_Events rd = omap (dsar_result (dq_TenantID req) (dq_PayloadRefPrefix req))
                                       (rd_Events rd0))).
  { intros r rd. rewrite loop_runs_range. intros (rd0 & E & ->)%fmap_Some. exists rd0.
    split; [done|]. destruct (dsar_selected req r); [by right|by left]. }
  assert (Hx : forall r rd e, foldl (loop_runs req) m (range_map m) !! r = Some rd ->
    e ∈ rd_Events rd -> exists rd0 e0, m !! r = Some rd0 /\ e0 ∈ rd_Events rd0
      /\ cv_EventID e = cv_EventID e0 /\ cv_RunID e = cv_RunID e0
      /\ (e = e0 \/ (cv_PayloadTombstoned e = true /\ cv_Payload e = tombstone_payload))).
  { intros r rd e (rd0 & E & [->|Ev])%Hl He; [exists rd0, e; tauto|].
    rewrite Ev in He. apply list_elem_of_omap in He as (e0 & He0 & Er).
    apply dsar_result_fields in Er as (? & ? & ?). exists rd0, e0. tauto. }
  split.
  - intros r rd e Hr (rd0 & e0 & E & He & _ & -> & _)%(Hx r); [|done]. by eapply A.
  - intros r rd (rd0 & E & [->|Ev])%Hl; [by apply (B r)|]. rewrite Ev.
    specialize (B r rd0 E). clear -B. induction (rd_Events rd0) as [|e l IH]; [by apply NoDup_nil|].
    unfold ids in *. cbn [map] in B. apply NoDup_cons in B as [Hni B]. rewrite omap_cons.
    destruct (dsar_result _ _ e) as [d|] eqn:Ed; [|by apply IH].
    cbn [map]. apply NoDup_cons. split; [|by apply IH].
    apply dsar_result_fields in Ed as (-> & _). intros (x & Ex & Hx)%list_elem_of_fmap.
    apply list_elem_of_omap in Hx as (y & Hy & Ey). apply dsar_result_fields in Ey as (Ey & _).
    apply Hni. rewrite Ex, Ey. by apply (list_elem_of_fmap_2 cv_EventID).
  - intros r r' rd rd' e e' Hr Hr' (rd0 & e0 & E & He & Ei & _)%(Hx r)
      (rd0' & e0' & E' & He' & Ei' & _)%(Hx r') Eid; [|done..].
    rewrite Ei, Ei' in Eid. by eapply C.
  - intros r rd e Hr (rd0 & e0 & E & He & _ & _ & [->|[_ ?]])%(Hx r); [|done|done..].
    by eapply D.
Qed.

(** ** The whole call *)

Section Call.
Context `{MapRange}.

(** The kernel just before reindexing. *)
Definition dsar_kernel (req : DSARDeleteRequest) (now : time) (k : Kernel) : Kernel :=
  k |> k_set_tombstonedRefs (foldl (loop_refs req now) (k_tombstonedRefs k) (range_map (k_runs k)))
    |> k_set_runs (foldl (loop_runs req) (k_runs k) (range_map (k_runs k))).

(** The identifier a request runs under. *)
Definition dsar_request_id (req : DSARDeleteRequest) (k : Kernel) : Kernel * string :=
  if (dq_RequestID req =? "")%string then nextID "dsar_" k else (k, dq_RequestID req).

Lemma dsar_request_id_same req k : let k' := fst (dsar_request_id req k) in
  evidence k' = evidence k /\ k_outbox k' = k_outbox k.
Proof. unfold dsar_request_id. by destruct (_ =? _)%string. Qed.

Lemma trim_dsar_idem req : trim_dsar_request (trim_dsar_request req) = trim_dsar_request req.
Proof.
  unfold trim_dsar_request.
  cbn [dq_RequestID dq_TenantID dq_RunID dq_PayloadRefPrefix dq_RequestedAt].
  by rewrite !TrimSpace_idem.
Qed.

Lemma DeleteByDSAR_eq req now k :
  let req := trim_dsar_request req in
  let '(k0, id) := dsar_request_id req k in
  DeleteByDSAR req now k =
  if (dq_TenantID req =? "")%string then
    (k0, Err (evidenceErr 422 "TENANT_ID_REQUIRED" "tenant_id required" ["tenant_id_required"]))
  else
    let c := foldl (loop_counts req) (mk_dsar_counts 0 0 0) (range_map (k_runs k)) in
    (emitLocked "evidence_dsar_delete_event" (dq_RunID req)
       [("request_id", GStr id);
        ("tenant_id", GStr (dq_TenantID req));
        ("run_id", GStr (dq_RunID req));
        ("deleted_events", GInt (dc_deleted c));
        ("redacted_events", GInt (dc_redacted c));
        ("tombstones", GInt (dc_tombstones c))] now
       (rebuildDerivedIndexesLocked (dsar_kernel req now k0)),
     Ok (mk_DSARDeleteResponse id (dq_TenantID req) (dq_RunID req) (dc_deleted c)
           (dc_redacted c) (dc_tombstones c) now ["dsar_completed"])).
Proof.
  cbv zeta. destruct (dsar_request_id (trim_dsar_request req) k) as [k0 id] eqn:E0.
  pose proof (dsar_request_id_same (trim_dsar_request req) k) as [E1 _]. rewrite E0 in E1.
  cbn [fst] in E1. apply evidence_fields in E1 as (E1 & _ & _).
  apply store_fields in E1 as (_ & _ & _ & E1 & _).
  unfold DeleteByDSAR, go_range. rewrite trim_dsar_idem.
  unfold dsar_request_id in E0. rewrite E0, dsar_loop. cbv zeta.
  destruct (dq_TenantID _ =? _)%string; [done|]. unfold dsar_kernel. by rewrite !E1.
Qed.

Lemma dsar_kernel_wf req now k : wf_runs (k_runs k) -> wf_runs (k_runs (dsar_kernel req now k)).
Proof. apply wf_runs_dsar. Qed.

Lemma DeleteByDSAR_trim req now k :
  DeleteByDSAR (trim_dsar_request req) now k = DeleteByDSAR req now k.
Proof. unfold DeleteByDSAR. by rewrite trim_dsar_idem. Qed.

Lemma DeleteByDSAR_inv req now k : EInv k -> EInv (fst (DeleteByDSAR req now k)).
Proof.
  intros HI. pose proof (DeleteByDSAR_eq req now k) as E. cbv zeta in E.
  rewrite DeleteByDSAR_trim in E. set (rq := trim_dsar_request req) in *.
  pose proof (dsar_request_id_same rq k) as [E0 _].
  destruct (dsar_request_id rq k) as [k0 id]. cbn [fst] in E0. rewrite E.
  apply (EInv_evidence k k0) in HI; [|done]. destruct (_ =? _)%string; [exact HI|].
  cbn [fst]. eapply EInv_evidence; [symmetry; apply emit_evidence|]. apply rebuild_inv.
  - apply dsar_kernel_wf, HI. - apply HI. - apply (ei_anchors _ HI).
Qed.
End Call.
