(* ===== verification/EvSweep.v ===== *)
(** * Retention: what [SweepRetention] computes *)

From S2P Require Import Prelude GoStrings Sha256 GoTime GoJson EvTypes EvEvents EvKernel EvRetain.
From S2P Require Import EvGraph EvReports EvFrame EvChain EvIngest EvRebuild.

(** ** Specification, event by event *)

Definition warm_aged (cfg : Config) (now : time) (e : CanonicalEvent) : bool :=
  Sub now (cv_EventTS e) <=? ec_WarmRetention cfg.
(** Past the warm retention, within the cold one. *)
Definition cold_aged (cfg : Config) (now : time) (e : CanonicalEvent) : bool :=
  negb (warm_aged cfg now e) && cold_kept cfg now e.
(** Past both. *)
Definition lost (cfg : Config) (now : time) (e : CanonicalEvent) : bool :=
  negb (warm_aged cfg now e) && negb (cold_kept cfg now e).

(** Events that leave the hot store, and the ones that stay. *)
Definition expired (cfg : Config) (now : time) (e : CanonicalEvent) : bool :=
  Before (cv_EventTS e) (Add now (- ec_EventRetention cfg)).
Definition still_hot (cfg : Config) (now : time) (e : CanonicalEvent) : bool :=
  negb (expired cfg now e).

(** An archive read as a function of the run. *)
Definition arch (m : gmap string (list CanonicalEvent)) (r : string) : list CanonicalEvent :=
  default [] (m !! r).

(** The archives and the report, the part of the state the sweep's first loops
    rewrite. *)
Record vault := mk_vault {
  va_warm : gmap string (list CanonicalEvent);
  va_cold : gmap string (list CanonicalEvent);
  va_out : SweepResult }.

Definition vault_of (s : Kernel * SweepResult) : vault :=
  mk_vault (k_warmArchiveByRun (fst s)) (k_coldArchiveByRun (fst s)) (snd s).
Definition put_vault (k : Kernel) (v : vault) : Kernel * SweepResult :=
  (k |> k_set_warmArchiveByRun (va_warm v) |> k_set_coldArchiveByRun (va_cold v), va_out v).

Lemma put_vault_of k out : put_vault k (vault_of (k, out)) = (k, out).
Proof. by destruct k. Qed.

Definition push_all (r : string) (l : list CanonicalEvent)
    (m : gmap string (list CanonicalEvent)) : gmap string (list CanonicalEvent) :=
  foldl (fun m e => archive_push r e m) m l.

Lemma push_all_arch r l m r' :
  arch (push_all r l m) r' = if decide (r' = r) then arch m r ++ l else arch m r'.
Proof.
  revert m. induction l as [|e l IH]; intros m.
  { cbn. rewrite app_nil_r. by destruct (decide _) as [->|]. }
  cbn [push_all foldl]. change (foldl _ _ l) with (push_all r l (archive_push r e m)).
  rewrite IH. unfold arch, archive_push. rewrite !lookup_insert.
  destruct (decide (r' = r)) as [->|].
  - rewrite decide_True by done. cbn. by rewrite <- app_assoc.
  - by rewrite decide_False by congruence.
Qed.

Lemma push_all_snoc r l e m : push_all r (l ++ [e]) m = archive_push r e (push_all r l m).
Proof. unfold push_all. by rewrite foldl_snoc. Qed.

Lemma push_all_app r l l' m : push_all r (l ++ l') m = push_all r l' (push_all r l m).
Proof. unfold push_all. by rewrite foldl_app. Qed.

(** A report with more events moved and deleted. *)
Definition add_report (w c d : Z) (out : SweepResult) : SweepResult :=
  mk_SweepResult (es_DeletedEvents out + d) (es_WarmArchived out + w) (es_ColdArchived out + c)
    (es_OutboxTrimmed out).

Lemma add_report_0 out : add_report 0 0 0 out = out.
Proof. destruct out. unfold add_report. cbn. by rewrite !Z.add_0_r. Qed.

Lemma add_report_add w c d w' c' d' out :
  add_report w c d (add_report w' c' d' out) = add_report (w' + w) (c' + c) (d' + d) out.
Proof. unfold add_report. cbn. f_equal; lia. Qed.

(** ** Rotating the warm archive of a run *)

Lemma rotate_warm_fold r now l : forall keep k out,
  foldl (rotate_warm_event r now) (keep, k, out) l
  = (keep ++ List.filter (warm_aged (k_cfg k) now) l,
     k_set_coldArchiveByRun
       (push_all r (List.filter (cold_aged (k_cfg k) now) l) (k_coldArchiveByRun k)) k,
     add_report 0 (count (cold_aged (k_cfg k) now) l) (count (lost (k_cfg k) now) l) out).
Proof.
  induction l as [|e l IH]; intros keep k out.
  { cbn. unfold count. cbn. rewrite app_nil_r, add_report_0. by destruct k. }
  cbn [foldl]. rewrite !count_cons. cbn [List.filter].
  unfold rotate_warm_event at 2. fold (warm_aged (k_cfg k) now e) (cold_kept (k_cfg k) now e).
  assert (cold_aged (k_cfg k) now e = negb (warm_aged (k_cfg k) now e) && cold_kept (k_cfg k) now e)
    as -> by done.
  assert (lost (k_cfg k) now e
          = negb (warm_aged (k_cfg k) now e) && negb (cold_kept (k_cfg k) now e)) as -> by done.
  destruct (warm_aged _ _ e), (cold_kept _ _ e); cbn [negb andb]; rewrite IH;
    cbn [k_cfg k_set_coldArchiveByRun k_coldArchiveByRun push_all foldl];
    (apply (f_equal2 pair); [apply (f_equal2 pair); [by rewrite <- ?app_assoc|done]|];
     unfold add_report, es_set_ColdArchived, es_set_DeletedEvents; cbn; f_equal; lia).
Qed.

Definition rot_warm (cfg : Config) (now : time) (v : vault) (r : string)
    (l : list CanonicalEvent) : vault :=
  mk_vault (store_archive r (List.filter (warm_aged cfg now) l) (va_warm v))
    (push_all r (List.filter (cold_aged cfg now) l) (va_cold v))
    (add_report 0 (count (cold_aged cfg now) l) (count (lost cfg now) l) (va_out v)).

Lemma rotate_warm_eq now k v r l :
  rotate_warm now (put_vault k v) r l = put_vault k (rot_warm (k_cfg k) now v r l).
Proof. unfold rotate_warm, put_vault. rewrite rotate_warm_fold. done. Qed.

Definition rot_cold (cfg : Config) (now : time) (v : vault) (r : string)
    (l : list CanonicalEvent) : vault :=
  mk_vault (va_warm v) (store_archive r (List.filter (cold_kept cfg now) l) (va_cold v))
    (add_report 0 0 (count (fun e => negb (cold_kept cfg now e)) l) (va_out v)).

Lemma count_negb {A} (p : A -> bool) l :
  Z.of_nat (length l) - Z.of_nat (length (List.filter p l)) = count (fun x => negb (p x)) l.
Proof.
  induction l as [|x l IH]; [done|]. rewrite count_cons. cbn [List.filter].
  destruct (p x); cbn [negb length]; lia.
Qed.

Lemma rotate_cold_eq now k v r l :
  rotate_cold now (put_vault k v) r l = put_vault k (rot_cold (k_cfg k) now v r l).
Proof.
  unfold rotate_cold, put_vault. rewrite count_negb. unfold rot_cold. cbn.
  f_equal. unfold add_report, es_set_DeletedEvents. cbn. f_equal; lia.
Qed.

(** ** Sweeping the events of a run *)

Lemma archive_event_eq r e now k v : archiveEventByAgeLocked r e now (put_vault k v) =
  put_vault k (mk_vault
    (if warm_aged (k_cfg k) now e then archive_push r e (va_warm v) else va_warm v)
    (if cold_aged (k_cfg k) now e then archive_push r e (va_cold v) else va_cold v)
    (add_report (if warm_aged (k_cfg k) now e then 1 else 0)
       (if cold_aged (k_cfg k) now e then 1 else 0) (if lost (k_cfg k) now e then 1 else 0)
       (va_out v))).
Proof.
  unfold archiveEventByAgeLocked, put_vault. cbn [k_cfg k_set_warmArchiveByRun k_set_coldArchiveByRun].
  fold (warm_aged (k_cfg k) now e) (cold_kept (k_cfg k) now e). unfold cold_aged, lost.
  destruct (warm_aged _ _ e), (cold_kept _ _ e); cbn [negb andb]; unfold add_report; cbn;
    rewrite ?Z.add_0_r; done || (f_equal; destruct (va_out v); done).
Qed.

Definition archive_all (cfg : Config) (now : time) (r : string) (l : list CanonicalEvent)
    (v : vault) : vault :=
  mk_vault (push_all r (List.filter (warm_aged cfg now) l) (va_warm v))
    (push_all r (List.filter (cold_aged cfg now) l) (va_cold v))
    (add_report (count (warm_aged cfg now) l) (count (cold_aged cfg now) l)
       (count (lost cfg now) l) (va_out v)).

Lemma archive_all_nil cfg now r v : archive_all cfg now r [] v = v.
Proof. destruct v. unfold archive_all, count. cbn. by rewrite add_report_0. Qed.

Lemma sweep_fold r now k l : forall kept v,
  foldl (sweep_event r (Add now (- ec_EventRetention (k_cfg k))) now) (kept, put_vault k v) l
  = (kept ++ List.filter (still_hot (k_cfg k) now) l,
     put_vault k (archive_all (k_cfg k) now r (List.filter (expired (k_cfg k) now) l) v)).
Proof.
  induction l as [|e l IH]; intros kept v.
  { cbn [foldl List.filter]. by rewrite archive_all_nil, app_nil_r. }
  cbn [foldl List.filter]. unfold sweep_event at 2. fold (expired (k_cfg k) now e).
  assert (still_hot (k_cfg k) now e = negb (expired (k_cfg k) now e)) as -> by done.
  destruct (expired (k_cfg k) now e); cbn [negb].
  - rewrite archive_event_eq, IH. f_equal. f_equal. unfold archive_all. rewrite !count_cons.
    cbn [va_warm va_cold va_out List.filter]. rewrite add_report_add.
    by destruct (warm_aged _ _ e), (cold_aged _ _ e).
  - by rewrite IH, <- app_assoc.
Qed.

(** ** The loops over the archives *)

Lemma store_archive_arch r keep m r' :
  arch (store_archive r keep m) r' = if decide (r' = r) then keep else arch m r'.
Proof.
  unfold arch, store_archive. destruct keep as [|e keep].
  - rewrite lookup_delete. destruct (decide (r' = r)) as [->|]; [by rewrite decide_True|].
    by rewrite decide_False by congruence.
  - rewrite lookup_insert. destruct (decide (r' = r)) as [->|]; [by rewrite decide_True|].
    by rewrite decide_False by congruence.
Qed.

Lemma arch_cons r l ps r' : r ∉ ps.*1 ->
  arch (list_to_map ((r, l) :: ps)) r' = if decide (r' = r) then l else arch (list_to_map ps) r'.
Proof.
  intros _. unfold arch. cbn [list_to_map foldr fst snd]. rewrite lookup_insert.
  destruct (decide (r' = r)) as [->|]; [by rewrite decide_True|]. by rewrite decide_False by congruence.
Qed.

Lemma arch_not_in ps r : r ∉ ps.*1 -> arch (list_to_map ps) r = [].
Proof. intros H. unfold arch. by rewrite not_elem_of_list_to_map_1. Qed.

Lemma count_app {A} (p : A -> bool) l l' : count p (l ++ l') = count p l + count p l'.
Proof. unfold count. rewrite List.filter_app, length_app. lia. Qed.

Lemma rot_warm_loop cfg now ps : forall v, NoDup ps.*1 ->
  let v' := foldl (fun v p => rot_warm cfg now v p.1 p.2) v ps in
  (forall r, arch (va_warm v') r = if decide (r ∈ ps.*1)
               then List.filter (warm_aged cfg now) (arch (list_to_map ps) r)
               else arch (va_warm v) r)
  /\ (forall r, arch (va_cold v') r
                = arch (va_cold v) r ++ List.filter (cold_aged cfg now) (arch (list_to_map ps) r))
  /\ va_out v' = add_report 0 (count (cold_aged cfg now) (concat ps.*2))
                   (count (lost cfg now) (concat ps.*2)) (va_out v).
Proof.
  induction ps as [|[r l] ps IH]; intros v Hnd.
  { cbn. split_and!; [done| |by rewrite add_report_0]. intros r.
    assert (arch (∅ : gmap string (list CanonicalEvent)) r = []) as ->.
    { unfold arch. by rewrite lookup_empty. } cbn. by rewrite app_nil_r. }
  cbn [fmap list_fmap fst snd] in *. apply NoDup_cons in Hnd as [Hni Hnd].
  cbn [foldl fst snd]. specialize (IH (rot_warm cfg now v r l) Hnd) as (Hw & Hc & Ho).
  cbv zeta in *. split_and!.
  - intros r'. rewrite Hw, arch_cons by done. unfold rot_warm at 1. cbn [va_warm].
    rewrite store_archive_arch. destruct (decide (r' = r)) as [->|Hne].
    + rewrite decide_False by done. rewrite decide_True; [done|apply list_elem_of_here].
    + destruct (decide (r' ∈ ps.*1)).
      * rewrite decide_True; [done|]. by apply list_elem_of_further.
      * rewrite decide_False; [done|]. by rewrite not_elem_of_cons.
  - intros r'. rewrite Hc, arch_cons by done. unfold rot_warm. cbn [va_cold].
    rewrite push_all_arch. destruct (decide (r' = r)) as [->|Hne]; [|done].
    rewrite arch_not_in by done. cbn. by rewrite app_nil_r.
  - rewrite Ho. unfold rot_warm. cbn [va_out concat]. by rewrite add_report_add, !count_app.
Qed.

Lemma rot_cold_loop cfg now ps : forall v, NoDup ps.*1 ->
  let v' := foldl (fun v p => rot_cold cfg now v p.1 p.2) v ps in
  va_warm v' = va_warm v
  /\ (forall r, arch (va_cold v') r = if decide (r ∈ ps.*1)
               then List.filter (cold_kept cfg now) (arch (list_to_map ps) r)
               else arch (va_cold v) r)
  /\ va_out v' = add_report 0 0 (count (fun e => negb (cold_kept cfg now e)) (concat ps.*2))
                   (va_out v).
Proof.
  induction ps as [|[r l] ps IH]; intros v Hnd.
  { cbn. split_and!; [done..|by rewrite add_report_0]. }
  cbn [fmap list_fmap fst snd] in *. apply NoDup_cons in Hnd as [Hni Hnd].
  cbn [foldl fst snd]. specialize (IH (rot_cold cfg now v r l) Hnd) as (Hw & Hc & Ho).
  cbv zeta in *. split_and!.
  - exact Hw.
  - intros r'. rewrite Hc, arch_cons by done. unfold rot_cold at 1. cbn [va_cold].
    rewrite store_archive_arch. destruct (decide (r' = r)) as [->|Hne].
    + rewrite decide_False by done. rewrite decide_True; [done|apply list_elem_of_here].
    + destruct (decide (r' ∈ ps.*1)).
      * rewrite decide_True; [done|]. by apply list_elem_of_further.
      * rewrite decide_False; [done|]. by rewrite not_elem_of_cons.
  - rewrite Ho. unfold rot_cold. cbn [va_out concat]. by rewrite add_report_add, !count_app.
Qed.

Lemma foldl_put_vault {V} (f : Kernel * SweepResult -> string -> V -> Kernel * SweepResult)
    (g : vault -> string -> V -> vault) k ps :
  (forall v r l, f (put_vault k v) r l = put_vault k (g v r l)) ->
  forall v, foldl (fun s p => f s p.1 p.2) (put_vault k v) ps
            = put_vault k (foldl (fun v p => g v p.1 p.2) v ps).
Proof.
  intros Hf. induction ps as [|[r l] ps IH]; intros v; [done|]. cbn [foldl]. by rewrite Hf, IH.
Qed.

Lemma filter_filter_and {A} (p q : A -> bool) l :
  List.filter p (List.filter q l) = List.filter (fun x => q x && p x) l.
Proof.
  induction l as [|x l IH]; [done|]. cbn. destruct (q x); cbn; [|done]. by destruct (p x); rewrite IH.
Qed.

Lemma filter_ext {A} (p q : A -> bool) l : (forall x, p x = q x) ->
  List.filter p l = List.filter q l.
Proof. intros H. induction l as [|x l IH]; [done|]. cbn. by rewrite H, IH. Qed.

Section Loops.
Context `{MapRange}.

Lemma arch_range m r : arch (list_to_map (range_map m)) r = arch m r.
Proof. by rewrite list_to_map_range. Qed.

Lemma arch_range_out m r : r ∉ (range_map m).*1 -> arch m r = [].
Proof.
  intros Hr. rewrite <- arch_range. by apply arch_not_in.
Qed.

(** All the events of an archive, in the order of a visit. *)
Definition archived (m : gmap string (list CanonicalEvent)) : list CanonicalEvent :=
  concat (range_map m).*2.

(** Rotation, run by run: warm events too old move to the cold archive or go;
    cold events too old go. *)
Lemma rotate_spec now k out :
  exists v, rotateArchivesLocked now (k, out) = put_vault k v
  /\ (forall r, arch (va_warm v) r
                = List.filter (warm_aged (k_cfg k) now) (arch (k_warmArchiveByRun k) r))
  /\ (forall r, arch (va_cold v) r
                = List.filter (cold_kept (k_cfg k) now) (arch (k_coldArchiveByRun k) r)
                  ++ List.filter (cold_aged (k_cfg k) now) (arch (k_warmArchiveByRun k) r))
  /\ exists mid, (forall r, arch mid r = arch (k_coldArchiveByRun k) r
                    ++ List.filter (cold_aged (k_cfg k) now) (arch (k_warmArchiveByRun k) r))
     /\ va_out v = add_report 0
          (count (cold_aged (k_cfg k) now) (archived (k_warmArchiveByRun k)))
          (count (lost (k_cfg k) now) (archived (k_warmArchiveByRun k))
           + count (fun e => negb (cold_kept (k_cfg k) now e)) (archived mid)) out.
Proof.
  pose proof (rot_warm_loop (k_cfg k) now (range_map (k_warmArchiveByRun k)) (vault_of (k, out))
                (range_map_nodup _)) as H1. cbv zeta in H1.
  set (v1 := foldl _ _ (range_map (k_warmArchiveByRun k))) in *. destruct H1 as (W1 & C1 & O1).
  pose proof (rot_cold_loop (k_cfg k) now (range_map (va_cold v1)) v1 (range_map_nodup _)) as H2.
  cbv zeta in H2. set (v2 := foldl _ v1 _) in *. destruct H2 as (W2 & C2 & O2).
  assert (rotateArchivesLocked now (k, out) = put_vault k v2) as ->.
  { unfold rotateArchivesLocked, go_range. cbv zeta.
    assert (foldl (fun s kv => rotate_warm now s kv.1 kv.2) (k, out)
              (range_map (k_warmArchiveByRun k)) = put_vault k v1) as E1.
    { rewrite <- (put_vault_of k out).
      apply (foldl_put_vault _ _ k _ (fun v r l => rotate_warm_eq now k v r l)). }
    cbn [fst]. rewrite E1.
    apply (foldl_put_vault _ _ k _ (fun v r l => rotate_cold_eq now k v r l)). }
  assert (Cm : forall r, arch (va_cold v1) r = arch (k_coldArchiveByRun k) r
            ++ List.filter (cold_aged (k_cfg k) now) (arch (k_warmArchiveByRun k) r)).
  { intros r. by rewrite C1, arch_range. }
  exists v2. split; [done|]. split; [|split].
  - intros r. rewrite W2, W1, arch_range. destruct (decide _) as [|Hn]; [done|].
    apply arch_range_out in Hn. change (va_warm (vault_of (k, out))) with (k_warmArchiveByRun k).
    by rewrite Hn.
  - intros r. rewrite C2, arch_range.
    assert (List.filter (cold_kept (k_cfg k) now) (arch (va_cold v1) r)
      = List.filter (cold_kept (k_cfg k) now) (arch (k_coldArchiveByRun k) r)
        ++ List.filter (cold_aged (k_cfg k) now) (arch (k_warmArchiveByRun k) r)) as <-.
    { rewrite Cm, List.filter_app, filter_filter_and. f_equal. apply filter_ext. intros e.
      unfold cold_aged. by destruct (warm_aged _ _ e), (cold_kept _ _ e). }
    destruct (decide _) as [|Hn]; [done|]. apply arch_range_out in Hn. by rewrite Hn.
  - exists (va_cold v1). split; [exact Cm|]. rewrite O2, O1. cbn [vault_of va_out snd].
    rewrite add_report_add. unfold archived. f_equal; lia.
Qed.
End Loops.

(** ** The loop over the runs *)

Definition run_events (m : gmap string storedRunData) (r : string) : list CanonicalEvent :=
  rd_Events (default empty_run (m !! r)).

(** What the sweep leaves of a run before reindexing. *)
Definition swept (cfg : Config) (now : time) (_ : string) (rd : storedRunData) : option storedRunData :=
  match List.filter (still_hot cfg now) (rd_Events rd) with
  | [] => None
  | kept => Some (restat kept rd)
  end.

(** What the sweep never touches of [store]. *)
Definition calm (k : Kernel) :=
  store (k_set_runs ∅ (k_set_warmArchiveByRun ∅ (k_set_coldArchiveByRun ∅ k))).

Lemma calm_fields k k' : calm k = calm k' ->
  k_cfg k = k_cfg k' /\ k_registeredSources k = k_registeredSources k'
  /\ k_globalAnchors k = k_globalAnchors k' /\ k_tombstonedRefs k = k_tombstonedRefs k'
  /\ k_eventsByID k = k_eventsByID k'.
Proof.
  intros (E1 & E2 & E3 & _ & _ & _ & _ & _ & E9 & E10 & _)%store_fields. cbn in *. by split_and!.
Qed.

Lemma sweep_run_spec now k out r rd :
  let '(k', out') := sweep_run (Add now (- ec_EventRetention (k_cfg k))) now (k, out) r rd in
  vault_of (k', out')
  = archive_all (k_cfg k) now r (List.filter (expired (k_cfg k) now) (rd_Events rd))
      (vault_of (k, out))
  /\ k_runs k' = upd_entry (swept (k_cfg k) now) (k_runs k) r rd
  /\ calm k' = calm k /\ k_outbox k' = k_outbox k.
Proof.
  unfold sweep_run. pose proof (sweep_fold r now k (rd_Events rd) [] (vault_of (k, out))) as Hs.
  rewrite put_vault_of in Hs. rewrite Hs. cbn [app].
  unfold upd_entry, swept. set (v := archive_all _ _ _ _ _). clearbody v. unfold put_vault.
  destruct (List.filter (still_hot (k_cfg k) now) (rd_Events rd)) as [|e kept];
    [|split; [by destruct v|done]].
  split; [|split; [|done]].
  - unfold vault_of. cbn. by destruct v.
  - unfold forget_run. cbn. apply delete_insert_eq.
Qed.

Lemma sweep_runs_loop cfg now ps : forall k out, k_cfg k = cfg ->
  let '(k', out') := foldl (fun s p => sweep_run (Add now (- ec_EventRetention cfg)) now s p.1 p.2)
                       (k, out) ps in
  vault_of (k', out')
  = foldl (fun v p => archive_all cfg now p.1 (List.filter (expired cfg now) (rd_Events p.2)) v)
      (vault_of (k, out)) ps
  /\ k_runs k' = foldl (fun m p => upd_entry (swept cfg now) m p.1 p.2) (k_runs k) ps
  /\ calm k' = calm k /\ k_outbox k' = k_outbox k.
Proof.
  induction ps as [|[r rd] ps IH]; intros k out Hc; [done|]. cbn [foldl fst snd].
  pose proof (sweep_run_spec now k out r rd) as H1. rewrite Hc in H1.
  destruct (sweep_run _ _ _ _ _) as [k1 out1]. destruct H1 as (V1 & R1 & C1 & B1).
  specialize (IH k1 out1). destruct (foldl _ (k1, out1) ps) as [k2 out2].
  destruct IH as (V2 & R2 & C2 & B2); [by apply calm_fields in C1 as (-> & _)|].
  by rewrite V2, R2, C2, B2, V1, R1, C1, B1.
Qed.

Lemma archive_loop cfg now ps : forall v, NoDup ps.*1 ->
  let gone r := List.filter (expired cfg now) (run_events (list_to_map ps) r) in
  let all := List.filter (expired cfg now) (concat (map (fun p => rd_Events p.2) ps)) in
  let v' := foldl (fun v p => archive_all cfg now p.1 (List.filter (expired cfg now) (rd_Events p.2)) v)
              v ps in
  (forall r, arch (va_warm v') r = arch (va_warm v) r ++ List.filter (warm_aged cfg now) (gone r))
  /\ (forall r, arch (va_cold v') r = arch (va_cold v) r ++ List.filter (cold_aged cfg now) (gone r))
  /\ va_out v' = add_report (count (warm_aged cfg now) all) (count (cold_aged cfg now) all)
                   (count (lost cfg now) all) (va_out v).
Proof.
  induction ps as [|[r rd] ps IH]; intros v Hnd.
  { cbn. split_and!; [..|by rewrite add_report_0]; intros r; unfold run_events;
      rewrite lookup_empty; cbn; by rewrite app_nil_r. }
  cbn [fmap list_fmap fst snd] in *. apply NoDup_cons in Hnd as [Hni Hnd].
  cbn [foldl fst snd map concat]. specialize (IH (archive_all cfg now r
    (List.filter (expired cfg now) (rd_Events rd)) v) Hnd) as (Hw & Hc & Ho). cbv zeta in *.
  assert (He : forall r', run_events (list_to_map ((r, rd) :: ps)) r'
             = if decide (r' = r) then rd_Events rd else run_events (list_to_map ps) r').
  { intros r'. unfold run_events. cbn [list_to_map foldr fst snd]. rewrite lookup_insert.
    destruct (decide (r' = r)) as [->|]; [by rewrite decide_True|].
    by rewrite decide_False by congruence. }
  assert (Hn : run_events (list_to_map ps) r = []).
  { unfold run_events. by rewrite not_elem_of_list_to_map_1. }
  split_and!.
  - intros r'. rewrite Hw, He. unfold archive_all. cbn [va_warm]. rewrite push_all_arch.
    destruct (decide (r' = r)) as [->|]; [|done]. rewrite Hn. cbn. by rewrite app_nil_r.
  - intros r'. rewrite Hc, He. unfold archive_all. cbn [va_cold]. rewrite push_all_arch.
    destruct (decide (r' = r)) as [->|]; [|done]. rewrite Hn. cbn. by rewrite app_nil_r.
  - rewrite Ho. unfold archive_all. cbn [va_out]. by rewrite add_report_add, List.filter_app, !count_app.
Qed.

Lemma restat_events kept rd : rd_Events (restat kept rd) = kept.
Proof. reflexivity. Qed.

Lemma swept_runs `{MapRange} cfg now m r :
  foldl (fun m p => upd_entry (swept cfg now) m p.1 p.2) m (range_map m) !! r
  = m !! r ≫= swept cfg now r.
Proof. apply (lookup_range_update (swept cfg now)). Qed.

Lemma swept_events cfg now r rd rd' : swept cfg now r rd = Some rd' ->
  rd_Events rd' = List.filter (still_hot cfg now) (rd_Events rd).
Proof. unfold swept. destruct (List.filter _ _) eqn:E; [done|]. by intros [= <-]. Qed.

Lemma elem_filter {A} (p : A -> bool) x l : x ∈ List.filter p l <-> p x = true /\ x ∈ l.
Proof. rewrite !list_elem_of_In, filter_In. tauto. Qed.

Lemma filter_ids p l : NoDup (ids l) -> NoDup (ids (List.filter p l)).
Proof.
  unfold ids. induction l as [|e l IH]; [done|]. cbn [map List.filter]. intros [Hni Hnd]%NoDup_cons.
  destruct (p e); [|by apply IH]. cbn [map]. apply NoDup_cons. split; [|by apply IH].
  intros (x & Ex & Hx)%list_elem_of_fmap. apply elem_filter in Hx as [_ Hx]. apply Hni.
  rewrite Ex. by apply (list_elem_of_fmap_2 cv_EventID).
Qed.

Lemma wf_runs_swept `{MapRange} cfg now m : wf_runs m ->
  wf_runs (foldl (fun m p => upd_entry (swept cfg now) m p.1 p.2) m (range_map m)).
Proof.
  intros [A B C D]. set (m' := foldl _ _ _).
  assert (Hl : forall r rd, m' !! r = Some rd ->
    exists rd0, m !! r = Some rd0 /\ rd_Events rd = List.filter (still_hot cfg now) (rd_Events rd0)).
  { intros r rd. unfold m'. rewrite swept_runs. intros (rd0 & E & Es)%bind_Some. exists rd0.
    split; [done|]. by eapply swept_events. }
  split.
  - intros r rd e (rd0 & E & ->)%Hl [_ He]%elem_filter. by eapply A.
  - intros r rd (rd0 & E & ->)%Hl. by apply filter_ids, (B r).
  - intros r r' rd rd' e e' (rd0 & E & ->)%Hl (rd0' & E' & ->)%Hl [_ He]%elem_filter
      [_ He']%elem_filter. by eapply C.
  - intros r rd e (rd0 & E & ->)%Hl [_ He]%elem_filter. by eapply D.
Qed.

(** ** Counting over maps *)

Definition sumZ (l : list Z) : Z := foldr Z.add 0 l.

Lemma sumZ_cons x l : sumZ (x :: l) = x + sumZ l.
Proof. reflexivity. Qed.

Lemma sumZ_add {A} (f g : A -> Z) l : sumZ (map (fun x => f x + g x) l) = sumZ (map f l) + sumZ (map g l).
Proof. induction l as [|x l IH]; [done|]. cbn [map]. rewrite !sumZ_cons. lia. Qed.

Lemma sumZ_ext {A} (f g : A -> Z) l : (forall x, f x = g x) -> sumZ (map f l) = sumZ (map g l).
Proof. intros H. induction l as [|x l IH]; [done|]. cbn [map]. rewrite !sumZ_cons, H. lia. Qed.

Lemma sumZ_update (f g : string -> Z) (X : list string) a : NoDup X -> a ∈ X ->
  (forall x, x <> a -> f x = g x) -> sumZ (map f X) = sumZ (map g X) + f a - g a.
Proof.
  intros Hnd Ha Hfg. induction X as [|x X IH]; [by apply not_elem_of_nil in Ha|].
  apply NoDup_cons in Hnd as [Hni Hnd]. cbn [map]. rewrite !sumZ_cons. apply elem_of_cons in Ha as [->|Ha].
  - assert (sumZ (map f X) = sumZ (map g X)) as E; [|lia].
    clear -Hni Hfg. induction X as [|y X IH]; [done|]. apply not_elem_of_cons in Hni as [? ?].
    cbn [map]. rewrite !sumZ_cons, Hfg by congruence. by rewrite IH.
  - rewrite Hfg by congruence. specialize (IH Hnd Ha). lia.
Qed.

(** A count over all the lists of a map is the sum of the counts over any set
    of keys that covers it. *)
Lemma count_concat (p : CanonicalEvent -> bool) ps (X : list string) : NoDup X -> NoDup ps.*1 ->
  (forall r, r ∈ ps.*1 -> r ∈ X) ->
  count p (concat ps.*2) = sumZ (map (fun r => count p (arch (list_to_map ps) r)) X).
Proof.
  intros HX. induction ps as [|[r l] ps IH]; intros Hnd Hin.
  { cbn. rewrite (sumZ_ext _ (fun _ => 0)). { clear. induction X; [done|]. cbn. done. }
    intros r. unfold arch. by rewrite lookup_empty. }
  cbn [fmap list_fmap fst snd concat] in *. apply NoDup_cons in Hnd as [Hni Hnd].
  rewrite count_app, IH by (done || (intros; apply Hin; by apply list_elem_of_further)).
  rewrite (sumZ_update (fun r' => count p (arch (list_to_map ((r, l) :: ps)) r'))
             (fun r' => count p (arch (list_to_map ps) r')) X r HX).
  - rewrite arch_cons, decide_True, arch_not_in by done.
    change (count p []) with 0. unfold sumZ. lia.
  - apply Hin, list_elem_of_here.
  - intros x Hx. by rewrite arch_cons, decide_False by done.
Qed.

Lemma count_archived `{MapRange} p m (X : list string) : NoDup X -> (forall r, is_Some (m !! r) -> r ∈ X) ->
  count p (archived m) = sumZ (map (fun r => count p (arch m r)) X).
Proof.
  intros HX Hm. unfold archived. rewrite (count_concat p _ X HX (range_map_nodup m)).
  - apply sumZ_ext. intros r. by rewrite arch_range.
  - intros r ([r' l] & -> & Hp)%list_elem_of_fmap. apply Hm. apply range_map_elem in Hp. by eexists.
Qed.

(** The hot store read as an archive. *)
Definition hot_map (m : gmap string storedRunData) : gmap string (list CanonicalEvent) := rd_Events <$> m.

Lemma arch_hot m r : arch (hot_map m) r = run_events m r.
Proof. unfold arch, hot_map, run_events. rewrite lookup_fmap. by destruct (m !! r). Qed.

Lemma events_of_arch k r : events_of k r = arch (hot_map (k_runs k)) r.
Proof. by rewrite arch_hot. Qed.

(** How many events a map of lists holds. *)
Definition total `{MapRange} (m : gmap string (list CanonicalEvent)) : Z := count (fun _ => true) (archived m).

Lemma count_true {A} (l : list A) : count (fun _ => true) l = Z.of_nat (length l).
Proof. unfold count. f_equal. induction l; cbn; congruence. Qed.

Lemma count_split {A} (p : A -> bool) l :
  count (fun _ => true) l = count p l + count (fun x => negb (p x)) l.
Proof. induction l as [|x l IH]; [done|]. rewrite !count_cons. destruct (p x); cbn [negb]; lia. Qed.

Lemma count_filter {A} (p q : A -> bool) l : count p (List.filter q l) = count (fun x => q x && p x) l.
Proof. unfold count. by rewrite filter_filter_and. Qed.

Lemma count_ext {A} (p q : A -> bool) l : (forall x, p x = q x) -> count p l = count q l.
Proof. intros H. unfold count. by rewrite (filter_ext p q). Qed.

(** * The retention sweep as a whole

    What [SweepRetention] does to the hot store and the two archives of every
    run, that it loses no event it does not report as deleted, and that it
    keeps the invariant. *)

Section Sweep.
Context `{MapRange}.

(** All the hot events, in the order of a visit of the runs. *)
Definition hot_all (m : gmap string storedRunData) : list CanonicalEvent :=
  concat (map (fun p => rd_Events p.2) (range_map m)).

Lemma count_hot p m (X : list string) : NoDup X -> (forall r, is_Some (m !! r) -> r ∈ X) ->
  count p (hot_all m) = sumZ (map (fun r => count p (run_events m r)) X).
Proof.
  intros HX Hm. set (ps := (fun q : string * storedRunData => (q.1, rd_Events q.2)) <$> range_map m).
  assert (ps.*1 = (range_map m).*1) as E1 by (unfold ps; by rewrite <- list_fmap_compose).
  assert (hot_all m = concat ps.*2) as -> by (unfold ps, hot_all; by rewrite <- list_fmap_compose).
  rewrite (count_concat p ps X HX).
  - apply sumZ_ext. intros r. f_equal. unfold ps.
    change (fun q : string * storedRunData => (q.1, rd_Events q.2)) with (prod_map (@id string) rd_Events).
    rewrite list_to_map_fmap, list_to_map_range. apply arch_hot.
  - rewrite E1. apply range_map_nodup.
  - intros r. rewrite E1. intros ([r' rd] & -> & Hp)%list_elem_of_fmap. apply Hm.
    apply range_map_elem in Hp. by eexists.
Qed.

(** The kernel and the report before reindexing and trimming. *)
Definition pre_sweep (now : time) (k : Kernel) : Kernel * SweepResult :=
  go_range (sweep_run (Add now (- ec_EventRetention (k_cfg k))) now)
    (rotateArchivesLocked now (k, empty_SweepResult))
    (k_runs (fst (rotateArchivesLocked now (k, empty_SweepResult)))).

Lemma SweepRetention_eq now k :
  let k1 := rebuildDerivedIndexesLocked (fst (pre_sweep now k)) in
  SweepRetention now k = (fst (trimOutboxLocked now k1),
    es_set_OutboxTrimmed (snd (trimOutboxLocked now k1)) (snd (pre_sweep now k))).
Proof.
  unfold SweepRetention, pre_sweep. destruct (rotateArchivesLocked now _) as [k0 out0].
  cbn [fst]. destruct (go_range _ _ _) as [k1 out1]. cbn [fst snd].
  by destruct (trimOutboxLocked now _).
Qed.

Record pre_swept (now : time) (k k1 : Kernel) (out : SweepResult) : Prop := {
  ps_runs : forall r, k_runs k1 !! r = k_runs k !! r ≫= swept (k_cfg k) now r;
  ps_wf : wf_runs (k_runs k) -> wf_runs (k_runs k1);
  ps_calm : calm k1 = calm k;
  ps_warm : forall r, arch (k_warmArchiveByRun k1) r
    = List.filter (warm_aged (k_cfg k) now) (arch (k_warmArchiveByRun k) r)
      ++ List.filter (warm_aged (k_cfg k) now) (List.filter (expired (k_cfg k) now) (events_of k r));
  ps_cold : forall r, arch (k_coldArchiveByRun k1) r
    = (List.filter (cold_kept (k_cfg k) now) (arch (k_coldArchiveByRun k) r)
       ++ List.filter (cold_aged (k_cfg k) now) (arch (k_warmArchiveByRun k) r))
      ++ List.filter (cold_aged (k_cfg k) now) (List.filter (expired (k_cfg k) now) (events_of k r));
  ps_out : exists mid, (forall r, arch mid r = arch (k_coldArchiveByRun k) r
        ++ List.filter (cold_aged (k_cfg k) now) (arch (k_warmArchiveByRun k) r))
     /\ let gone := List.filter (expired (k_cfg k) now) (hot_all (k_runs k)) in
        out = add_report (count (warm_aged (k_cfg k) now) gone)
          (count (cold_aged (k_cfg k) now) (archived (k_warmArchiveByRun k))
           + count (cold_aged (k_cfg k) now) gone)
          (count (lost (k_cfg k) now) (archived (k_warmArchiveByRun k))
           + count (fun e => negb (cold_kept (k_cfg k) now e)) (archived mid)
           + count (lost (k_cfg k) now) gone) empty_SweepResult
}.

Lemma pre_sweep_spec now k : pre_swept now k (fst (pre_sweep now k)) (snd (pre_sweep now k)).
Proof.
  unfold pre_sweep. pose proof (rotate_spec now k empty_SweepResult) as (v & E & Hw & Hc & mid & Hm & Ho).
  rewrite E. change (fst (put_vault k v)) with
    (k |> k_set_warmArchiveByRun (va_warm v) |> k_set_coldArchiveByRun (va_cold v)).
  cbn [k_runs k_set_coldArchiveByRun k_set_warmArchiveByRun].
  unfold go_range. unfold put_vault. set (k0 := k_set_coldArchiveByRun (va_cold v) (k_set_warmArchiveByRun (va_warm v) k)).
  pose proof (sweep_runs_loop (k_cfg k) now (range_map (k_runs k)) k0 (va_out v) eq_refl) as Hs.
  pose proof (archive_loop (k_cfg k) now (range_map (k_runs k)) (vault_of (k0, va_out v))
                (range_map_nodup _)) as (Lw & Lc & Lo).
  destruct (foldl _ (k0, va_out v) _) as [k1 out1]. destruct Hs as (V & R & C & _).
  rewrite <- V in Lw, Lc, Lo. cbv zeta in Lw, Lc, Lo. unfold vault_of, k0 in Lw, Lc, Lo.
  cbn [va_warm va_cold va_out fst snd k_warmArchiveByRun k_coldArchiveByRun
       k_set_warmArchiveByRun k_set_coldArchiveByRun] in Lw, Lc, Lo. cbn [fst snd].
  assert (He : forall r, run_events (list_to_map (range_map (k_runs k))) r = events_of k r)
    by (intros r; by rewrite list_to_map_range).
  split.
  - intros r. rewrite R. apply swept_runs.
  - rewrite R. apply wf_runs_swept.
  - exact C.
  - intros r. by rewrite Lw, Hw, He.
  - intros r. by rewrite Lc, Hc, He.
  - exists mid. split; [exact Hm|]. cbv zeta. rewrite Lo, Ho, add_report_add. unfold hot_all.
    f_equal; lia.
Qed.

Lemma pre_sweep_calm now k : let k1 := fst (pre_sweep now k) in
  k_cfg k1 = k_cfg k /\ k_globalAnchors k1 = k_globalAnchors k.
Proof.
  pose proof (ps_calm _ _ _ _ (pre_sweep_spec now k)) as (? & _ & ? & _ & _)%calm_fields. done.
Qed.

Lemma SweepRetention_inv now k : EInv k -> EInv (fst (SweepRetention now k)).
Proof.
  intros HI. rewrite SweepRetention_eq. cbn [fst].
  eapply EInv_evidence; [symmetry; apply trim_evidence|].
  pose proof (pre_sweep_calm now k) as [Ec Ea].
  apply rebuild_inv.
  - apply (ps_wf _ _ _ _ (pre_sweep_spec now k)), HI.
  - rewrite Ec. apply HI.
  - rewrite Ec, Ea. apply (ei_anchors _ HI).
Qed.

(** What the sweep leaves in the maps. *)
Lemma SweepRetention_maps now k : wf_runs (k_runs k) ->
  let k1 := fst (pre_sweep now k) in let k' := fst (SweepRetention now k) in
  k_runs k' = (fun rd => rd_of (resealed rd)) <$> k_runs k1
  /\ k_warmArchiveByRun k' = k_warmArchiveByRun k1
  /\ k_coldArchiveByRun k' = k_coldArchiveByRun k1.
Proof.
  intros Hwf. rewrite SweepRetention_eq. cbv zeta. cbn [fst].
  pose proof (ps_wf _ _ _ _ (pre_sweep_spec now k) Hwf) as Hwf1.
  pose proof (rebuild_spec _ (wf_run _ Hwf1)) as (_ & S & R & _).
  set (k2 := rebuildDerivedIndexesLocked _) in *.
  pose proof (trim_evidence now k2) as (E & _ & _)%evidence_fields.
  apply store_fields in E as (_ & _ & _ & -> & -> & -> & _).
  apply still_fields in S as (_ & _ & -> & -> & _). done.
Qed.

(** What stays in the hot store, and where an expired event goes. *)
Definition to_warm (cfg : Config) (now : time) (e : CanonicalEvent) : bool :=
  expired cfg now e && warm_aged cfg now e.
Definition to_cold (cfg : Config) (now : time) (e : CanonicalEvent) : bool :=
  expired cfg now e && cold_aged cfg now e.

Lemma swept_runs_data (f : storedRunData -> storedRunData) now k k1 out r : pre_swept now k k1 out ->
  (f <$> k_runs k1) !! r = None <-> List.filter (still_hot (k_cfg k) now) (events_of k r) = [].
Proof.
  intros Hp. rewrite lookup_fmap, fmap_None, (ps_runs _ _ _ _ Hp). unfold events_of, run_data.
  destruct (k_runs k !! r) as [rd|]; [|done]. cbn [mbind option_bind default]. unfold swept.
  by destruct (List.filter _ _).
Qed.

Lemma pre_swept_events now k k1 out r : pre_swept now k k1 out ->
  events_of k1 r = List.filter (still_hot (k_cfg k) now) (events_of k r).
Proof.
  intros Hp. unfold events_of, run_data. rewrite (ps_runs _ _ _ _ Hp).
  destruct (k_runs k !! r) as [rd|]; [|done]. cbn [mbind option_bind default].
  destruct (swept _ _ _ _) as [rd'|] eqn:E; cbn; [by eapply swept_events|].
  unfold swept in E. by destruct (List.filter _ _).
Qed.

Lemma SweepRetention_lists now k r : EInv k -> let k' := fst (SweepRetention now k) in
  (k_runs k' !! r = None <-> List.filter (still_hot (k_cfg k) now) (events_of k r) = [])
  /\ events_of k' r
    = seal_all genesis (sortEventsByTS (List.filter (still_hot (k_cfg k) now) (events_of k r)))
  /\ arch (k_warmArchiveByRun k') r
    = List.filter (warm_aged (k_cfg k) now) (arch (k_warmArchiveByRun k) r)
      ++ List.filter (to_warm (k_cfg k) now) (events_of k r)
  /\ arch (k_coldArchiveByRun k') r
    = List.filter (cold_kept (k_cfg k) now) (arch (k_coldArchiveByRun k) r)
      ++ List.filter (cold_aged (k_cfg k) now) (arch (k_warmArchiveByRun k) r)
      ++ List.filter (to_cold (k_cfg k) now) (events_of k r).
Proof.
  intros HI. pose proof (SweepRetention_maps now k (ei_wf _ HI)) as (R & W & C).
  pose proof (pre_sweep_spec now k) as Hp. cbv zeta in *. split; [|split; [|split]].
  - rewrite R. by eapply swept_runs_data.
  - unfold events_of at 1, run_data. rewrite R, lookup_fmap.
    rewrite <- (pre_swept_events _ _ _ _ r Hp). unfold events_of, run_data.
    destruct (k_runs (fst (pre_sweep now k)) !! r); [|done]. apply rd_of_events.
  - rewrite W, (ps_warm _ _ _ _ Hp). by rewrite filter_filter_and.
  - rewrite C, (ps_cold _ _ _ _ Hp), filter_filter_and. by rewrite <- app_assoc.
Qed.

(** ** Nothing is lost unreported *)

Lemma range_total {V} (size : V -> nat) (m : gmap string V) :
  go_range (fun n _ l => n + Z.of_nat (size l)) 0 m
  = sumZ (map (fun p => Z.of_nat (size p.2)) (range_map m)).
Proof.
  unfold go_range. assert (forall ps z, foldl (fun (n : Z) (kv : string * V) => n + Z.of_nat (size kv.2)) z ps
    = z + sumZ (map (fun p => Z.of_nat (size p.2)) ps)) as E.
  { induction ps as [|p ps IH]; intros z; [cbn; lia|]. cbn [foldl map]. rewrite IH, sumZ_cons. lia. }
  by rewrite E.
Qed.

Lemma sum_lengths {A B} (f : B -> list A) ps :
  sumZ (map (fun p => Z.of_nat (length (f p))) ps) = count (fun _ => true) (concat (map f ps)).
Proof.
  induction ps as [|p ps IH]; [done|]. cbn [map concat]. by rewrite sumZ_cons, IH, count_app, <- (count_true (f p)).
Qed.

(** The number of events of a kernel, as [GetArchiveSummary] counts them. *)
Definition population (k : Kernel) : Z :=
  let a := GetArchiveSummary k "" in as_HotEventCount a + as_WarmEventCount a + as_ColdEventCount a.

Lemma population_count k : population k = count (fun _ => true) (hot_all (k_runs k))
  + count (fun _ => true) (archived (k_warmArchiveByRun k))
  + count (fun _ => true) (archived (k_coldArchiveByRun k)).
Proof.
  unfold population, GetArchiveSummary. change (TrimSpace "") with "". cbn [String.eqb negb].
  cbn [as_HotEventCount as_WarmEventCount as_ColdEventCount]. rewrite !range_total. unfold hot_all, archived.
  rewrite (sum_lengths (fun p : string * storedRunData => rd_Events p.2)).
  by rewrite !(sum_lengths (fun p : string * list CanonicalEvent => p.2)).
Qed.

(** A set of runs that covers every map of the kernel. *)
Definition all_runs (k : Kernel) : list string :=
  elements (dom (k_runs k) ∪ dom (k_warmArchiveByRun k) ∪ dom (k_coldArchiveByRun k)).

Lemma population_sum k (X : list string) : NoDup X -> (forall r, r ∈ all_runs k -> r ∈ X) ->
  population k = sumZ (map (fun r => count (fun _ => true) (events_of k r)
    + count (fun _ => true) (arch (k_warmArchiveByRun k) r)
    + count (fun _ => true) (arch (k_coldArchiveByRun k) r)) X).
Proof.
  intros HX Hin. rewrite population_count.
  assert (Hs : forall r, is_Some (k_runs k !! r) \/ is_Some (k_warmArchiveByRun k !! r)
    \/ is_Some (k_coldArchiveByRun k !! r) -> r ∈ X).
  { intros r Hr. apply Hin. unfold all_runs. rewrite elem_of_elements, !elem_of_union, !elem_of_dom. tauto. }
  rewrite (count_hot _ (k_runs k) X HX), (count_archived _ (k_warmArchiveByRun k) X HX),
    (count_archived _ (k_coldArchiveByRun k) X HX).
  all: try (intros r Hr; apply Hs; tauto).
  by rewrite <- !sumZ_add.
Qed.

(** One event is kept or counted. *)
Lemma event_balance cfg now (h w c : list CanonicalEvent) :
  let n := count (fun _ => true) in
  n h + n w + n c
  = n (List.filter (still_hot cfg now) h)
    + n (List.filter (warm_aged cfg now) w ++ List.filter (to_warm cfg now) h)
    + n (List.filter (cold_kept cfg now) c ++ List.filter (cold_aged cfg now) w
         ++ List.filter (to_cold cfg now) h)
    + (count (lost cfg now) w
       + count (fun e => negb (cold_kept cfg now e)) (c ++ List.filter (cold_aged cfg now) w)
       + count (lost cfg now) (List.filter (expired cfg now) h)).
Proof.
  cbv zeta. rewrite !count_app, !count_filter.
  assert (H1 : forall l, count (fun _ => true) l = count (fun e => still_hot cfg now e && true) l
    + count (fun e => to_warm cfg now e && true) l + count (fun e => to_cold cfg now e && true) l
    + count (fun e => expired cfg now e && lost cfg now e) l).
  { induction l as [|e l IH]; [done|]. rewrite !count_cons. rewrite IH.
    unfold still_hot, to_warm, to_cold, lost, cold_aged.
    destruct (expired cfg now e), (warm_aged cfg now e), (cold_kept cfg now e); cbn [negb andb]; lia. }
  assert (H2 : forall l, count (fun _ => true) l = count (fun e => warm_aged cfg now e && true) l
    + count (fun e => cold_aged cfg now e && true) l + count (lost cfg now) l
    + count (fun e => cold_aged cfg now e && negb (cold_kept cfg now e)) l).
  { induction l as [|e l IH]; [done|]. rewrite !count_cons. rewrite IH. unfold lost, cold_aged.
    destruct (warm_aged cfg now e), (cold_kept cfg now e); cbn [negb andb]; lia. }
  assert (H3 : forall l, count (fun _ => true) l = count (fun e => cold_kept cfg now e && true) l
    + count (fun e => negb (cold_kept cfg now e)) l).
  { induction l as [|e l IH]; [done|]. rewrite !count_cons. rewrite IH.
    destruct (cold_kept cfg now e); cbn [negb andb]; lia. }
  rewrite (H1 h), (H2 w), (H3 c). lia.
Qed.

Lemma SweepRetention_deleted now k : exists Y : list string, forall X : list string, NoDup X ->
  (forall r, r ∈ all_runs k ++ Y -> r ∈ X) ->
  es_DeletedEvents (snd (SweepRetention now k))
  = sumZ (map (fun r => count (lost (k_cfg k) now) (arch (k_warmArchiveByRun k) r)
      + count (fun e => negb (cold_kept (k_cfg k) now e)) (arch (k_coldArchiveByRun k) r
          ++ List.filter (cold_aged (k_cfg k) now) (arch (k_warmArchiveByRun k) r))
      + count (lost (k_cfg k) now) (List.filter (expired (k_cfg k) now) (events_of k r))) X).
Proof.
  rewrite SweepRetention_eq. cbn [snd].
  destruct (ps_out _ _ _ _ (pre_sweep_spec now k)) as (mid & Hm & ->). cbv zeta. cbn.
  exists (elements (dom mid)). intros X HX Hin.
  assert (Hs : forall r, is_Some (k_runs k !! r) \/ is_Some (k_warmArchiveByRun k !! r)
    \/ is_Some (mid !! r) -> r ∈ X).
  { intros r Hr. apply Hin. unfold all_runs.
    rewrite elem_of_app, !elem_of_elements, !elem_of_union, !elem_of_dom. tauto. }
  rewrite count_filter, (count_hot _ (k_runs k) X HX), (count_archived _ (k_warmArchiveByRun k) X HX),
    (count_archived _ mid X HX) by (intros r Hr; apply Hs; auto).
  rewrite <- !sumZ_add. apply sumZ_ext. intros r. rewrite Hm, count_filter. done.
Qed.

Lemma seal_sort_count l : count (fun _ => true) (seal_all genesis (sortEventsByTS l))
  = count (fun _ => true) l.
Proof. rewrite !count_true, seal_all_length. by rewrite sortEventsByTS_perm. Qed.

(** What leaves the store and the archives is what the report calls deleted. *)
Lemma SweepRetention_balance now k : EInv k ->
  population k = population (fst (SweepRetention now k))
                 + es_DeletedEvents (snd (SweepRetention now k)).
Proof.
  intros HI. destruct (SweepRetention_deleted now k) as (Y & HY).
  set (k' := fst (SweepRetention now k)).
  set (X := remove_dups (all_runs k ++ all_runs k' ++ Y)).
  assert (HX : NoDup X) by apply NoDup_remove_dups.
  assert (Hin : forall r, r ∈ all_runs k \/ r ∈ all_runs k' \/ r ∈ Y -> r ∈ X).
  { intros r Hr. unfold X. by rewrite elem_of_remove_dups, !elem_of_app. }
  rewrite (population_sum k X HX), (population_sum k' X HX) by auto.
  rewrite (HY X HX) by (intros r [?|?]%elem_of_app; auto).
  rewrite <- sumZ_add. apply sumZ_ext. intros r.
  pose proof (SweepRetention_lists now k r HI) as (_ & Eh & Ew & Ec). fold k' in Eh, Ew, Ec.
  rewrite Eh, Ew, Ec, seal_sort_count. apply event_balance.
Qed.
End Sweep.
