(* ===== verification/EvDerived.v ===== *)
(** * The derived indexes as functions of the stored events

    The decision graph and the ledger of a run are folds over its stored
    events, the decision logs a bounded history per decision, the histories a
    fold over all the stored events.  [DInv] says so;
    ingestion and reindexing keep it. *)

From S2P Require Import Prelude GoStrings Sha256 GoTime GoJson EvTypes EvEvents EvKernel EvRetain EvGraph EvReports EvFrame EvChain EvIngest EvRebuild EvSweep.

(** ** The graph of a run *)

Record gstate := mk_gstate {
  gs_nodes : list DecisionGraphNode;
  gs_edges : list DecisionGraphEdge;
  gs_last : string }.

Definition no_graph : gstate := mk_gstate [] [] "".

Definition graph_of (k : Kernel) (r : string) : gstate :=
  mk_gstate (default [] (k_graphNodesByRun k !! r)) (default [] (k_graphEdgesByRun k !! r))
    (default "" (k_lastNodeByRun k !! r)).

Definition add_edge (edges : list DecisionGraphEdge) (x : DecisionGraphEdge) :
    list DecisionGraphEdge :=
  if existsb (fun y => same_edge y x) edges then edges else edges ++ [x].

(** The edges an event asks for: from the parents it declares, or else from
    the run's previous node. *)
Definition new_edges (e : CanonicalEvent) (now : time) (lastNode : string) :
    list DecisionGraphEdge :=
  let nodeID := event_node_id e in
  match extractStringSlice (cv_Payload e) "parent_decision_node_ids" with
  | [] =>
    let prev := TrimSpace lastNode in
    if negb (prev =? "")%string && negb (prev =? nodeID)%string
    then [graph_edge e prev nodeID (inferEdgeType (cv_EventType e)) now] else []
  | ps => map (fun p => graph_edge e p nodeID "causal" now) ps
  end.

Definition event_node (e : CanonicalEvent) (now : time) : DecisionGraphNode := {|
  gn_NodeID := event_node_id e; gn_RunID := cv_RunID e;
  gn_NodeType := inferNodeType (cv_SourceComponent e) (cv_EventType e);
  gn_NodeRef := cv_EventID e; gn_CreatedAt := now |}.

Definition graph_step (s : gstate) (p : CanonicalEvent * time) : gstate :=
  if blank (cv_RunID p.1) then s
  else mk_gstate (upsert_node (event_node p.1 p.2) (gs_nodes s))
         (foldl add_edge (gs_edges s) (new_edges p.1 p.2 (gs_last s))) (event_node_id p.1).

Lemma graph_of_derived k k' : derived k = derived k' -> graph_of k = graph_of k'.
Proof. unfold graph_of. by intros (_ & _ & -> & -> & ->)%derived_fields. Qed.

Lemma upsert_edge_graph r x k r' : graph_of (upsertGraphEdgeLocked r x k) r'
  = if decide (r' = r) then mk_gstate (gs_nodes (graph_of k r)) (add_edge (gs_edges (graph_of k r)) x)
                              (gs_last (graph_of k r))
    else graph_of k r'.
Proof.
  unfold upsertGraphEdgeLocked, graph_of, add_edge. cbn [gs_nodes gs_edges gs_last].
  destruct (existsb _ _).
  - by destruct (decide _) as [->|].
  - cbn [k_graphNodesByRun k_graphEdgesByRun k_lastNodeByRun k_set_graphEdgesByRun].
    rewrite lookup_insert. destruct (decide (r' = r)) as [->|]; [by rewrite decide_True|].
    by rewrite decide_False by congruence.
Qed.

Lemma upsert_edges_graph r xs r' : forall k,
  graph_of (foldl (fun k x => upsertGraphEdgeLocked r x k) k xs) r'
  = if decide (r' = r) then mk_gstate (gs_nodes (graph_of k r)) (foldl add_edge (gs_edges (graph_of k r)) xs)
                              (gs_last (graph_of k r))
    else graph_of k r'.
Proof.
  induction xs as [|x xs IH]; intros k.
  { cbn [foldl]. destruct (decide _) as [->|]; [|done]. by destruct (graph_of k r). }
  cbn [foldl]. rewrite IH. rewrite !upsert_edge_graph. by destruct (decide _) as [->|]; rewrite ?decide_True.
Qed.

Lemma foldl_map {A B C} (f : A -> B -> A) (g : C -> B) l a :
  foldl f a (map g l) = foldl (fun a c => f a (g c)) a l.
Proof. revert a. induction l as [|c l IH]; intros a; [done|]. cbn. by rewrite IH. Qed.

Lemma graph_update e now k r : graph_of (updateDecisionGraphLocked e now k) r
  = if decide (r = cv_RunID e) then graph_step (graph_of k r) (e, now) else graph_of k r.
Proof.
  unfold updateDecisionGraphLocked, graph_step. cbv zeta. cbn [fst snd].
  destruct (blank (cv_RunID e)); [by destruct (decide _)|].
  set (k1 := upsertGraphNodeLocked _ _ k).
  set (k2 := match extractStringSlice _ _ with [] => _ | _ :: _ => _ end).
  assert (H1 : forall r, graph_of k1 r = if decide (r = cv_RunID e)
    then mk_gstate (upsert_node (event_node e now) (gs_nodes (graph_of k r))) (gs_edges (graph_of k r))
           (gs_last (graph_of k r)) else graph_of k r).
  { intros r0. unfold k1, upsertGraphNodeLocked, graph_of.
    cbn [k_graphNodesByRun k_graphEdgesByRun k_lastNodeByRun k_set_graphNodesByRun gs_nodes gs_edges gs_last].
    rewrite lookup_insert. destruct (decide (r0 = _)) as [->|]; [by rewrite decide_True|].
    by rewrite decide_False by congruence. }
  assert (k2 = foldl (fun k x => upsertGraphEdgeLocked (cv_RunID e) x k) k1
                 (new_edges e now (gs_last (graph_of k (cv_RunID e))))) as ->.
  { unfold k2, new_edges. change (k_lastNodeByRun k1) with (k_lastNodeByRun k).
    destruct (extractStringSlice _ _) as [|p ps]; [|by rewrite foldl_map].
    change (gs_last (graph_of k (cv_RunID e))) with (default "" (k_lastNodeByRun k !! cv_RunID e)).
    by destruct (_ && _). }
  set (xs := new_edges _ _ _).
  pose proof (upsert_edges_graph (cv_RunID e) xs r k1) as H2.
  set (k3 := foldl _ k1 xs) in *. clearbody k3.
  assert (graph_of (k_set_lastNodeByRun (<[cv_RunID e := event_node_id e]> (k_lastNodeByRun k3)) k3) r
    = if decide (r = cv_RunID e) then mk_gstate (gs_nodes (graph_of k3 r)) (gs_edges (graph_of k3 r))
        (event_node_id e) else graph_of k3 r) as ->.
  { unfold graph_of. cbn [k_graphNodesByRun k_graphEdgesByRun k_lastNodeByRun k_set_lastNodeByRun gs_nodes gs_edges].
    rewrite lookup_insert. destruct (decide (r = _)) as [->|]; [by rewrite decide_True|].
    by rewrite decide_False by congruence. }
  rewrite H2, !H1. destruct (decide (r = _)) as [->|]; [|done]. rewrite decide_True by done. done.
Qed.

(** Decision logs and ledger leave the graph alone. *)
Lemma log_graph e now k : graph_of (updateDecisionLogLocked e now k) = graph_of k.
Proof. unfold updateDecisionLogLocked. by destruct (blank _). Qed.

Lemma ledger_graph e u now k : graph_of (updateLedgerLocked e u now k) = graph_of k.
Proof. unfold updateLedgerLocked. destruct u; [|done]. cbv zeta. by destruct (_ || _). Qed.

Lemma index_graph e now k r : graph_of (index_event e now k) r
  = if decide (r = cv_RunID e) then graph_step (graph_of k r) (e, now) else graph_of k r.
Proof. unfold index_event. by rewrite ledger_graph, graph_update, log_graph. Qed.

(** ** Decision logs *)

Definition log_history (max : Z) (e : CanonicalEvent) (now : time) (h : list DecisionLog) :
    list DecisionLog :=
  let v := Z.of_nat (length h) + 1 in
  keep_last max (supersede_last v h ++ [decision_log e v now]).

Lemma graph_logs e now k : let k' := updateDecisionGraphLocked e now k in
  k_decisionLogHistory k' = k_decisionLogHistory k /\ k_decisionLogs k' = k_decisionLogs k
  /\ k_ledgerByRun k' = k_ledgerByRun k /\ k_cfg k' = k_cfg k.
Proof.
  assert (He : forall r x k, let k' := upsertGraphEdgeLocked r x k in
    k_decisionLogHistory k' = k_decisionLogHistory k /\ k_decisionLogs k' = k_decisionLogs k
    /\ k_ledgerByRun k' = k_ledgerByRun k /\ k_cfg k' = k_cfg k).
  { intros r x k0. unfold upsertGraphEdgeLocked. by destruct (existsb _ _). }
  unfold updateDecisionGraphLocked. cbv zeta. destruct (blank (cv_RunID e)); [done|].
  cbn [k_decisionLogHistory k_decisionLogs k_ledgerByRun k_cfg k_set_lastNodeByRun].
  destruct (extractStringSlice _ _) as [|p ps].
  - destruct (_ && _); [|done]. apply (He _ _ (upsertGraphNodeLocked _ _ k)).
  - set (k1 := upsertGraphNodeLocked _ _ k).
    change (k_decisionLogHistory k) with (k_decisionLogHistory k1).
    change (k_decisionLogs k) with (k_decisionLogs k1).
    change (k_ledgerByRun k) with (k_ledgerByRun k1). change (k_cfg k) with (k_cfg k1).
    generalize (p :: ps). clearbody k1. intros l. revert k1. induction l as [|x l IH]; intros k1; [done|].
    cbn [foldl]. destruct (IH (upsertGraphEdgeLocked (cv_RunID e)
      (graph_edge e x (event_node_id e) "causal" now) k1)) as (-> & -> & -> & ->). apply He.
Qed.

Lemma ledger_logs e u now k : let k' := updateLedgerLocked e u now k in
  k_decisionLogHistory k' = k_decisionLogHistory k /\ k_decisionLogs k' = k_decisionLogs k.
Proof. unfold updateLedgerLocked. destruct u; [|done]. cbv zeta. by destruct (_ || _). Qed.

Lemma index_logs e now k : let k' := index_event e now k in
  (blank (cv_DecisionID e) = true ->
   k_decisionLogHistory k' = k_decisionLogHistory k /\ k_decisionLogs k' = k_decisionLogs k)
  /\ (blank (cv_DecisionID e) = false ->
      let h := default [] (k_decisionLogHistory k !! cv_DecisionID e) in
      k_decisionLogHistory k' = <[cv_DecisionID e :=
        log_history (ec_DecisionLogHistoryMax (k_cfg k)) e now h]> (k_decisionLogHistory k)
      /\ k_decisionLogs k' = <[cv_DecisionID e :=
           decision_log e (Z.of_nat (length h) + 1) now]> (k_decisionLogs k)).
Proof.
  unfold index_event. cbv zeta. destruct (ledger_logs e (cv_Usage e) now
    (updateDecisionGraphLocked e now (updateDecisionLogLocked e now k))) as [-> ->].
  destruct (graph_logs e now (updateDecisionLogLocked e now k)) as (-> & -> & _).
  unfold updateDecisionLogLocked. by destruct (blank _); split.
Qed.

(** The history of a decision: at most [max] entries, all of the decision, each
    pointing at the version of the next one, the last one current.  Versions
    count up until the history is full; from then on every new entry has
    version [max + 1]. *)
Record hist_ok (max : Z) (d : string) (h : list DecisionLog) : Prop := {
  ho_len : Z.of_nat (length h) <= max;
  ho_dec : Forall (fun l => dl_DecisionID l = d) h;
  ho_next : forall i a b, h !! i = Some a -> h !! S i = Some b ->
    dl_SupersededByVersion a = dl_Version b
    /\ (dl_Version b = dl_Version a + 1 \/ dl_Version a = max + 1 /\ dl_Version b = max + 1);
  ho_last : forall a, last h = Some a -> dl_SupersededByVersion a = 0
    /\ (dl_Version a = Z.of_nat (length h) \/ Z.of_nat (length h) = max /\ dl_Version a = max + 1)
}.

Lemma hist_ok_nil max d : 0 <= max -> hist_ok max d [].
Proof. intros H. split; [done|by apply Forall_nil|done|done]. Qed.

Lemma last_lookup_pred {A} (l : list A) : last l = l !! pred (length l).
Proof. apply last_lookup. Qed.

Lemma supersede_last_app v h l : supersede_last v (h ++ [l]) = h ++ [dl_set_SupersededByVersion v l].
Proof.
  unfold supersede_last. rewrite length_app. cbn [length].
  replace (pred (length h + 1)) with (length h + 0)%nat by lia.
  by rewrite alter_app_r.
Qed.

(** The history before it is cut to its bound. *)
Lemma hist_extend max d h e now : hist_ok max d h -> cv_DecisionID e = d ->
  let v := Z.of_nat (length h) + 1 in
  let h' := supersede_last v h ++ [decision_log e v now] in
  length h' = S (length h) /\ Forall (fun l => dl_DecisionID l = d) h'
  /\ (forall i a b, h' !! i = Some a -> h' !! S i = Some b ->
    dl_SupersededByVersion a = dl_Version b
    /\ (dl_Version b = dl_Version a + 1 \/ dl_Version a = max + 1 /\ dl_Version b = max + 1)).
Proof.
  intros [HL HD HN HA] Hd. cbv zeta. destruct h as [|x h0 _] using rev_ind.
  { cbn. split; [done|]. split; [by rewrite Forall_singleton|]. by intros [|i] a b; cbn. }
  rewrite supersede_last_app. set (v := Z.of_nat (length (h0 ++ [x])) + 1).
  destruct (HA x (last_snoc _ _)) as [_ Hv]. split.
  { rewrite !length_app. cbn. lia. }
  apply Forall_app in HD as [HD0 HDx]. rewrite Forall_singleton in HDx. split.
  { rewrite !Forall_app, !Forall_singleton. by split_and!. }
  intros i a b Ha Hb. destruct (decide (S i < length h0)%nat) as [Hi|Hi].
  - rewrite <- app_assoc, lookup_app_l in Ha, Hb by lia.
    apply (HN i); by rewrite lookup_app_l by lia.
  - rewrite <- app_assoc in Ha, Hb. cbn [app] in Ha, Hb.
    destruct (decide (S i = length h0)) as [E|Hne].
    + rewrite lookup_app_l in Ha by lia. rewrite E in Hb. rewrite list_lookup_middle in Hb by done.
      injection Hb as <-. apply (HN i a x); [by rewrite lookup_app_l by lia|].
      rewrite E. by apply list_lookup_middle.
    + rewrite lookup_app_r in Ha, Hb by lia. remember (i - length h0)%nat as j eqn:Ej.
      replace (S i - length h0)%nat with (S j) in Hb by lia. destruct j as [|j].
      * cbn in Ha, Hb. injection Ha as <-. injection Hb as <-. split; [done|]. cbn. unfold v. lia.
      * destruct j; cbn in Hb; done.
Qed.

Lemma log_history_last max e now h : 0 < max ->
  last (log_history max e now h) = Some (decision_log e (Z.of_nat (length h) + 1) now)
  /\ log_history max e now h <> [].
Proof.
  intros Hm. unfold log_history, keep_last. cbv zeta.
  set (l := supersede_last _ h). set (x := decision_log _ _ _).
  assert (last (l ++ [x]) = Some x) as Hl by apply last_snoc.
  split; [destruct (_ && _); [|done]|].
  - unfold lastn. rewrite drop_app_le.
    + apply last_snoc.
    + rewrite length_app. cbn. lia.
  - destruct (_ && _); [|by destruct l]. unfold lastn. rewrite drop_app_le by (rewrite length_app; cbn; lia).
    by destruct (drop _ l).
Qed.

Lemma log_history_ok max d h e now : 0 < max -> hist_ok max d h -> cv_DecisionID e = d ->
  hist_ok max d (log_history max e now h).
Proof.
  intros Hm Hh Hd. pose proof (hist_extend max d h e now Hh Hd) as (L & D & N).
  pose proof (log_history_last max e now h Hm) as [La _]. destruct Hh as [HL _ _ _].
  unfold log_history, keep_last in *. cbv zeta in *. set (h' := supersede_last _ _ ++ _) in *.
  destruct ((0 <? max) && (max <? Z.of_nat (length h'))) eqn:Eb; bool_hyps.
  - assert (Z.of_nat (length h) = max) by lia. unfold lastn in *.
    replace (length h' - Z.to_nat max)%nat with 1%nat in * by lia. split.
    + rewrite length_drop. lia.
    + by apply Forall_drop.
    + intros i a b. rewrite !lookup_drop. apply N.
    + intros a. rewrite La. intros [= <-]. split; [done|]. right. cbn. rewrite length_drop. lia.
  - split; [lia|done|exact N|]. intros a. rewrite La. intros [= <-]. split; [done|]. left. cbn. lia.
Qed.

(** ** The ledger *)

(** What an event charges, without the entry's identifier and date. *)
Record charge := mk_charge {
  ch_run : string; ch_step : string; ch_tenant : string; ch_project : string; ch_workflow : string;
  ch_resource : string; ch_unit : string; ch_usage : float64; ch_cost : float64 }.

Definition entry_charge (l : LedgerEntry) : charge :=
  mk_charge (le_RunID l) (le_StepID l) (le_TenantID l) (le_ProjectID l) (le_WorkflowID l)
    (le_ResourceType l) (le_Unit l) (le_UsageAmount l) (le_CostAmount l).

Definition event_charge (e : CanonicalEvent) : option charge :=
  match cv_Usage e with
  | None => None
  | Some u =>
    if blank (us_ResourceType u) || blank (us_Unit u) then None
    else Some (mk_charge (cv_RunID e) (cv_StepID e) (cv_TenantID e) (cv_ProjectID e) (cv_WorkflowID e)
                 (TrimSpace (us_ResourceType u)) (TrimSpace (us_Unit u)) (us_UsageAmount u)
                 (us_CostAmount u))
  end.

Definition charges (k : Kernel) (r : string) : list charge :=
  map entry_charge (default [] (k_ledgerByRun k !! r)).

Lemma index_ledger e now k r : charges (index_event e now k) r
  = charges k r ++ (if decide (r = cv_RunID e) then match event_charge e with Some c => [c] | None => [] end
                    else []).
Proof.
  unfold index_event. set (k1 := updateDecisionGraphLocked _ _ _).
  assert (charges k r = charges k1 r) as ->.
  { unfold charges, k1. destruct (graph_logs e now (updateDecisionLogLocked e now k)) as (_ & _ & -> & _).
    unfold updateDecisionLogLocked. by destruct (blank _). }
  clearbody k1. unfold updateLedgerLocked, event_charge.
  destruct (cv_Usage e) as [u|]; [|by destruct (decide _); rewrite app_nil_r].
  cbv zeta. unfold blank. destruct (_ || _); [by destruct (decide _); rewrite app_nil_r|].
  unfold charges. cbn [nextID k_ledgerByRun k_set_ledgerByRun k_set_idSeq]. rewrite lookup_insert.
  destruct (decide (r = cv_RunID e)) as [->|].
  - rewrite decide_True by done. cbn [from_option id]. by rewrite map_app.
  - rewrite decide_False by congruence. by rewrite app_nil_r.
Qed.

Lemma index_cfg e now k : k_cfg (index_event e now k) = k_cfg k.
Proof. pose proof (index_store e now k) as (-> & _)%store_fields. done. Qed.

(** ** The invariant *)

Definition event_charges (l : list CanonicalEvent) : list charge := omap event_charge l.

Definition graph_fold (l : list CanonicalEvent) (ts : list time) : gstate :=
  foldl graph_step no_graph (zip l ts).

Definition log_max (k : Kernel) : Z := ec_DecisionLogHistoryMax (k_cfg k).

(** What a stored event adds to the decision log histories: one entry in the
    bounded history of its decision, dated by the time it was indexed at. *)
Definition log_step (max : Z) (m : gmap string (list DecisionLog)) (p : CanonicalEvent * time) :
    gmap string (list DecisionLog) :=
  let d := cv_DecisionID p.1 in
  if blank d then m else <[d := log_history max p.1 p.2 (default [] (m !! d))]> m.

(** The histories are what logging every indexed event, each once, leaves. *)
Definition logged (k : Kernel) : Prop :=
  exists l ts, l ≡ₚ (map_to_list (k_eventsByID k)).*2 /\ length ts = length l
    /\ k_decisionLogHistory k = foldl (log_step (log_max k)) ∅ (zip l ts).

Record DInv (k : Kernel) : Prop := {
  di_graph : forall r, exists ts, length ts = length (events_of k r)
    /\ graph_of k r = graph_fold (events_of k r) ts;
  di_hist : forall d h, k_decisionLogHistory k !! d = Some h -> hist_ok (log_max k) d h;
  di_log : forall d, k_decisionLogs k !! d = k_decisionLogHistory k !! d ≫= last;
  di_ledger : forall r, charges k r = event_charges (events_of k r);
  di_logged : logged k
}.

Lemma index_history e now k : k_decisionLogHistory (index_event e now k)
  = log_step (log_max k) (k_decisionLogHistory k) (e, now).
Proof.
  unfold log_step, log_max. cbn [fst snd]. pose proof (index_logs e now k) as [Hb Hn]. cbv zeta in *.
  destruct (blank (cv_DecisionID e)); [by apply Hb|by apply Hn].
Qed.

Lemma logged_ext k k' : k_eventsByID k = k_eventsByID k' -> k_cfg k = k_cfg k' ->
  k_decisionLogHistory k = k_decisionLogHistory k' -> logged k -> logged k'.
Proof. unfold logged, log_max. by intros -> -> ->. Qed.

(** The part of it about the logs. *)
Definition logs_ok (k : Kernel) : Prop :=
  (forall d h, k_decisionLogHistory k !! d = Some h -> hist_ok (log_max k) d h)
  /\ (forall d, k_decisionLogs k !! d = k_decisionLogHistory k !! d ≫= last).

Lemma index_logs_ok e now k : 0 < log_max k -> logs_ok k -> logs_ok (index_event e now k).
Proof.
  intros Hm [HH HL]. pose proof (index_logs e now k) as [Hb Hn]. cbv zeta in *.
  unfold logs_ok, log_max. rewrite index_cfg.
  destruct (blank (cv_DecisionID e)).
  { destruct Hb as [-> ->]; [done|]. by split. }
  destruct Hn as [-> ->]; [done|]. clear Hb. set (d := cv_DecisionID e).
  assert (Hd : hist_ok (log_max k) d (default [] (k_decisionLogHistory k !! d))).
  { destruct (k_decisionLogHistory k !! d) as [h|] eqn:E; [by apply HH|].
    apply hist_ok_nil. lia. }
  set (h := default [] _) in *. split.
  - intros d' h'. rewrite lookup_insert. destruct (decide (d = d')) as [<-|]; [|apply HH].
    intros [= <-]. by apply log_history_ok.
  - intros d'. rewrite !lookup_insert. destruct (decide (d = d')) as [<-|]; [|apply HL].
    cbn. symmetry. by apply log_history_last.
Qed.

Lemma DInv_ext k k' : k_eventsByID k = k_eventsByID k' -> k_runs k = k_runs k' ->
  k_cfg k = k_cfg k' -> derived k = derived k' ->
  k_ledgerByRun k = k_ledgerByRun k' -> DInv k -> DInv k'.
Proof.
  intros Ei Er Ec Ed El [A B C D F]. pose proof (events_of_runs _ _ Er) as Ee.
  pose proof (graph_of_derived _ _ Ed) as Eg. apply derived_fields in Ed as (E1 & E2 & _).
  pose proof (logged_ext _ _ Ei Ec E2 F) as F'.
  unfold log_max, charges in *. split; [| | | |exact F']; clear F F'; unfold log_max, charges; rewrite <- ?Ee, <- ?Eg, <- ?E1, <- ?E2, <- ?Ec; try done.
  intros r. by rewrite <- El.
Qed.

Lemma DInv_evidence k k' : evidence k = evidence k' -> DInv k -> DInv k'.
Proof.
  intros (Es & Ed & El)%evidence_fields. apply store_fields in Es as (Ec & _ & Ei & Er & _).
  by apply DInv_ext.
Qed.

Lemma NewKernel_DInv cfg : DInv (NewKernel cfg).
Proof.
  assert (He : forall r, events_of (NewKernel cfg) r = []).
  { intros r. unfold events_of, run_data. cbn [NewKernel k_runs]. by rewrite lookup_empty. }
  split.
  - intros r. exists []. rewrite He. split; [done|]. unfold graph_of.
    cbn [NewKernel k_graphNodesByRun k_graphEdgesByRun k_lastNodeByRun]. by rewrite !lookup_empty.
  - intros d h. cbn [NewKernel k_decisionLogHistory]. by rewrite lookup_empty.
  - intros d. cbn [NewKernel k_decisionLogHistory k_decisionLogs]. by rewrite !lookup_empty.
  - intros r. rewrite He. unfold charges. cbn [NewKernel k_ledgerByRun]. by rewrite lookup_empty.
  - exists [], []. cbn [NewKernel k_eventsByID]. by rewrite map_to_list_empty.
Qed.

(** ** Ingestion keeps it *)

Lemma graph_fold_snoc l ts e t : length ts = length l ->
  graph_fold (l ++ [e]) (ts ++ [t]) = graph_step (graph_fold l ts) (e, t).
Proof. intros H. unfold graph_fold. rewrite zip_with_app by done. cbn [zip_with]. by rewrite foldl_snoc. Qed.

Lemma event_charges_snoc l e :
  event_charges (l ++ [e]) = event_charges l ++ match event_charge e with Some c => [c] | None => [] end.
Proof. unfold event_charges. rewrite omap_app. cbn. by destruct (event_charge e). Qed.

(** The stored event is indexed on a kernel with the old indexes. *)
Lemma ingest_store_index e now k : exists k0, derived k0 = derived k
  /\ k_ledgerByRun k0 = k_ledgerByRun k /\ k_cfg k0 = k_cfg k
  /\ evidence (fst (ingest_store e now k)) = evidence (index_event (sealed_event e k) now k0).
Proof.
  unfold ingest_store. set (k0 := if _ && _ then _ else _).
  assert (evidence k0 = evidence k) as E0 by (unfold k0; by destruct (_ && _)).
  destruct (appendIntegrityLocked e k0) as [k1 e1] eqn:E1. unfold appendIntegrityLocked in E1.
  apply evidence_fields in E0 as (E0 & Ed & El).
  pose proof (store_fields _ _ E0) as (Ec0 & _ & _ & _ & _ & _ & Ec & _).
  rewrite (run_chain_eq _ _ Ec) in E1. fold (sealed_event e k) in E1. pair_inv E1. cbn [fst].
  set (e' := sealed_event e k). set (kE := ensureRunDataLocked _ _). set (kR := k_set_runs _ kE).
  exists kR. rewrite trim_and_count_evidence, !bump_evidence.
  assert (HE : derived kE = derived k0 /\ k_ledgerByRun kE = k_ledgerByRun k0 /\ k_cfg kE = k_cfg k0).
  { unfold kE, ensureRunDataLocked, observe_ts. destruct (After _ _).
    - by destruct (k_runs _ !! cv_RunID e'). - by destruct (k_runs _ !! cv_RunID e'). }
  destruct HE as (H1 & H2 & H3). split_and!; [|rewrite <- El, <- H2|rewrite <- Ec0, <- H3|]; try done.
  rewrite <- Ed, <- H1. done.
Qed.

Lemma log_fold_snoc max l ts e t : length ts = length l ->
  foldl (log_step max) ∅ (zip (l ++ [e]) (ts ++ [t]))
  = log_step max (foldl (log_step max) ∅ (zip l ts)) (e, t).
Proof. intros H. rewrite zip_with_app by done. cbn [zip_with]. by rewrite foldl_snoc. Qed.

(** An event logged when it is added to the index under a free identifier. *)
Lemma logged_snoc k k' e t : logged k -> k_cfg k' = k_cfg k -> k_eventsByID k !! cv_EventID e = None ->
  k_eventsByID k' = <[cv_EventID e := e]> (k_eventsByID k) ->
  k_decisionLogHistory k' = log_step (log_max k) (k_decisionLogHistory k) (e, t) -> logged k'.
Proof.
  intros (l & ts & Hp & Hl & Hh) Ec Hf Ei Eh. exists (l ++ [e]), (ts ++ [t]). split_and!.
  - rewrite Ei. etransitivity; [symmetry; apply Permutation_cons_append|].
    etransitivity; [apply (perm_skip e), Hp|].
    symmetry. exact (fmap_Permutation snd _ _ (map_to_list_insert _ _ e Hf)).
  - rewrite !length_app. cbn [length]. by rewrite Hl.
  - unfold log_max. rewrite Ec, Eh, Hh, log_fold_snoc by exact Hl. exact eq_refl.
Qed.

Lemma ingest_store_DInv e now k : 0 < log_max k -> k_eventsByID k !! cv_EventID e = None ->
  DInv k -> DInv (fst (ingest_store e now k)).
Proof.
  intros Hm Hf [A B C D F]. destruct (ingest_store_index e now k) as (k0 & Ed & El & Ec & Ek).
  pose proof (ingest_store_store e now k) as Es.
  set (k' := fst (ingest_store e now k)) in *. clearbody k'.
  apply store_fields in Es as (_ & _ & Ei & Er & _). apply events_of_runs in Er.
  change (k_eventsByID (hot_step e k)) with (<[cv_EventID (sealed_event e k) := sealed_event e k]> (k_eventsByID k)) in Ei.
  change (cv_EventID e) with (cv_EventID (sealed_event e k)) in Hf.
  assert (He : forall r, events_of k' r = if decide (r = cv_RunID e)
            then events_of k r ++ [sealed_event e k] else events_of k r).
  { intros r. by rewrite Er, hot_step_events. }
  set (e' := sealed_event e k) in *. change (cv_RunID e) with (cv_RunID e') in He. clear Er. clearbody e'.
  apply evidence_fields in Ek as (Es & Ed' & El').
  apply store_fields in Es as (Ec' & _). rewrite index_cfg, Ec in Ec'.
  pose proof (graph_of_derived _ _ Ed) as Eg0. pose proof (graph_of_derived _ _ Ed') as Eg.
  assert (HL : logs_ok (index_event e' now k0)).
  { apply index_logs_ok; unfold logs_ok, log_max in *; rewrite Ec; [done|].
    apply derived_fields in Ed as (-> & -> & _). done. }
  destruct HL as [HH HL]. pose proof Ed' as (E1 & E2 & _)%derived_fields.
  assert (logged k').
  { apply (logged_snoc k k' e' now); [done|congruence|done..|]. rewrite E2, index_history. unfold log_max.
    apply derived_fields in Ed as (_ & -> & _). by rewrite Ec. }
  split; [| | | |done].
  - intros r. rewrite Eg, index_graph, Eg0, He. destruct (A r) as (ts & Hl & Hg).
    destruct (decide _) as [->|]; [|by exists ts]. exists (ts ++ [now]).
    rewrite !length_app, Hl, graph_fold_snoc, Hg by done. done.
  - intros d h. rewrite E2. unfold log_max. rewrite Ec', <- Ec. unfold log_max in HH.
    rewrite index_cfg in HH. apply HH.
  - intros d. by rewrite E1, E2.
  - intros r. unfold charges. rewrite El'. fold (charges (index_event e' now k0) r).
    rewrite index_ledger, He. unfold charges. rewrite El. fold (charges k r). rewrite D.
    destruct (decide _) as [->|]; [by rewrite event_charges_snoc|]. by rewrite app_nil_r.
Qed.

Lemma ensure_run_DInv r k : DInv k -> DInv (ensureRunDataLocked r k).
Proof.
  intros [A B C D F]. unfold ensureRunDataLocked. destruct (k_runs k !! r) eqn:E; [done|].
  assert (forall r', events_of (k_set_runs (<[r := empty_run]> (k_runs k)) k) r' = events_of k r') as Hx.
  { intros r'. rewrite events_of_insert. unfold events_of, run_data.
    destruct (decide _) as [->|]; [by rewrite E|done]. }
  split; [|exact B|exact C| |exact F].
  - intros r'. rewrite Hx. apply A.
  - intros r'. rewrite Hx. apply D.
Qed.

Lemma IngestEvent_DInv req now now2 k : 0 < log_max k -> DInv k ->
  DInv (fst (IngestEvent req now now2 k)).
Proof.
  intros Hm HD. set (P := fun k => 0 < log_max k /\ DInv k).
  assert (P (fst (IngestEvent req now now2 k))) as [_ ?]; [|done].
  apply IngestEvent_pres; [| | |by split].
  - intros k1 k2 E [H1 H2]. split; [|by eapply DInv_evidence].
    apply evidence_fields in E as ((Ec & _)%store_fields & _ & _). unfold log_max in *. by rewrite <- Ec.
  - intros r k1 [H1 H2]. split; [|by apply ensure_run_DInv].
    unfold ensureRunDataLocked. by destruct (k_runs k1 !! r).
  - intros e k1 [H1 H2] Hf _. split; [|by apply ingest_store_DInv].
    pose proof (ingest_store_store e now k1) as (Ec & _)%store_fields. unfold log_max. by rewrite Ec.
Qed.

(** ** Reindexing establishes it *)

(** The indexes of one run after [l] has been indexed, dated by the events. *)
Definition dated (l : list CanonicalEvent) : list (CanonicalEvent * time) :=
  zip l (map cv_EventTS l).

Record indexed (r : string) (l : list CanonicalEvent) (k k' : Kernel) : Prop := {
  ix_cfg : k_cfg k' = k_cfg k;
  ix_logs : 0 < log_max k -> logs_ok k -> logs_ok k';
  ix_graph : forall r', graph_of k' r'
    = if decide (r' = r) then foldl graph_step (graph_of k r) (dated l) else graph_of k r';
  ix_ledger : forall r', charges k' r'
    = charges k r' ++ if decide (r' = r) then event_charges l else [];
  ix_history : k_decisionLogHistory k'
    = foldl (log_step (log_max k)) (k_decisionLogHistory k) (dated l)
}.

Lemma logs_ok_ext k k' : k_cfg k = k_cfg k' -> derived k = derived k' -> logs_ok k -> logs_ok k'.
Proof. unfold logs_ok, log_max. by intros -> (-> & -> & _)%derived_fields. Qed.

Lemma indexed_refl r k k' : k_cfg k' = k_cfg k -> (forall r, graph_of k' r = graph_of k r) ->
  k_decisionLogs k' = k_decisionLogs k -> k_decisionLogHistory k' = k_decisionLogHistory k ->
  k_ledgerByRun k' = k_ledgerByRun k -> indexed r [] k k'.
Proof.
  intros Ec Eg E1 E2 El. split; [done| | | |done].
  - intros _. unfold logs_ok, log_max. by rewrite Ec, E1, E2.
  - intros r'. rewrite Eg. by destruct (decide (r' = r)) as [->|].
  - intros r'. unfold charges. rewrite El. by destruct (decide _); rewrite app_nil_r.
Qed.

Lemma dated_app l1 l2 : dated (l1 ++ l2) = dated l1 ++ dated l2.
Proof. unfold dated. by rewrite map_app, zip_with_app by (by rewrite length_map). Qed.

Lemma indexed_trans r l1 l2 k1 k2 k3 :
  indexed r l1 k1 k2 -> indexed r l2 k2 k3 -> indexed r (l1 ++ l2) k1 k3.
Proof.
  intros [A1 B1 C1 D1 F1] [A2 B2 C2 D2 F2]. split.
  - congruence.
  - intros Hm Hl. apply B2; [unfold log_max in *; by rewrite A1|by apply B1].
  - intros r'. rewrite C2, !C1. destruct (decide (r' = r)) as [->|]; [|done].
    rewrite decide_True by done. by rewrite dated_app, foldl_app.
  - intros r'. rewrite D2, D1, <- app_assoc. f_equal. unfold event_charges.
    destruct (decide _); [by rewrite omap_app|done].
  - rewrite F2, F1, dated_app, foldl_app. unfold log_max. by rewrite A1.
Qed.

Lemma index_event_indexed e k : indexed (cv_RunID e) [e] k (index_event e (cv_EventTS e) k).
Proof.
  split.
  - apply index_cfg.
  - intros Hm Hl. by apply index_logs_ok.
  - intros r'. rewrite index_graph. by destruct (decide (r' = _)) as [->|].
  - intros r'. rewrite index_ledger. unfold event_charges. cbn. by destruct (event_charge e).
  - apply index_history.
Qed.

Lemma rebuild_event_indexed k idx rd e :
  indexed (cv_RunID e) [sealed_event e k] k (fst (fst (rebuild_event (k, idx, rd) e))).
Proof.
  unfold rebuild_event. set (k0 := match _ !! _ with Some _ => _ | None => _ end).
  assert (evidence k0 = evidence k) as E0 by (unfold k0; by destruct (_ !! _)).
  pose proof (append_integrity_spec e k0) as Hs.
  destruct (appendIntegrityLocked e k0) as [k1 e1] eqn:E1.
  destruct Hs as (-> & St & _ & _ & _ & _ & _ & Ed). cbn [fst].
  apply still_fields in St as (Ec & _).
  assert (k_ledgerByRun k1 = k_ledgerByRun k0) as El.
  { unfold appendIntegrityLocked in E1. by pair_inv E1. }
  apply evidence_fields in E0 as (Es & Ed0 & El0).
  pose proof Es as (Ec0 & _ & _ & _ & _ & _ & Ech & _)%store_fields.
  assert (sealed_event e k0 = sealed_event e k) as ->.
  { unfold sealed_event. by rewrite (run_chain_eq _ _ Ech). }
  change [sealed_event e k] with ([] ++ [sealed_event e k]).
  eapply indexed_trans; [|exact (index_event_indexed (sealed_event e k) k1)].
  pose proof (derived_fields _ _ (eq_trans Ed Ed0)) as (D1 & D2 & _).
  apply indexed_refl; [congruence| |congruence..].
  intros r. by rewrite (graph_of_derived _ _ (eq_trans Ed Ed0)).
Qed.

Lemma rebuild_events_indexed r l : forall k idx rd, Forall (fun e => cv_RunID e = r) l ->
  indexed r (seal_all (run_chain k r) l) k (fst (fst (foldl rebuild_event (k, idx, rd) l))).
Proof.
  induction l as [|e l IH]; intros k idx rd Hr; [by apply indexed_refl|].
  apply Forall_cons in Hr as [He Hr]. cbn [foldl seal_all].
  pose proof (rebuild_event_indexed k idx rd e) as H1. pose proof (rebuild_event_spec k idx rd e) as H2.
  destruct (rebuild_event (k, idx, rd) e) as [[k1 idx1] rd1]. cbn [fst] in H1.
  destruct H2 as (_ & _ & _ & _ & _ & C1 & _). specialize (IH k1 idx1 rd1 Hr).
  rewrite He in H1, C1. rewrite C1 in IH. unfold sealed_event in H1. rewrite He in H1.
  exact (indexed_trans r [_] _ _ _ _ H1 IH).
Qed.

(** A graph without nodes is empty. *)
Lemma upsert_node_nonempty n l : upsert_node n l <> [].
Proof. destruct l; cbn; [done|]. by destruct (_ =? _)%string. Qed.

Lemma graph_fold_empty l : gs_nodes (foldl graph_step no_graph l) = [] ->
  foldl graph_step no_graph l = no_graph.
Proof.
  induction l as [|p l IH] using rev_ind; [done|]. rewrite foldl_snoc. unfold graph_step at 1 3.
  destruct (blank _); [done|]. cbn [gs_nodes]. by intros ?%upsert_node_nonempty.
Qed.

Lemma rebuild_run_indexed r rd k idx : Forall (fun e => cv_RunID e = r) (rd_Events rd) ->
  run_chain k r = genesis -> graph_of k r = no_graph ->
  indexed r (resealed rd) k (fst (rebuild_run (k, idx) r rd)).
Proof.
  intros Hr Hg Hn. unfold rebuild_run.
  assert (Forall (fun e => cv_RunID e = r) (sortEventsByTS (rd_Events rd))) as Hr'
    by (by rewrite sortEventsByTS_perm).
  pose proof (rebuild_events_indexed r _ k idx empty_run Hr') as H1. rewrite Hg in H1.
  destruct (foldl rebuild_event _ _) as [[k1 idx1] rd1]. cbn [fst] in *.
  rewrite <- (app_nil_r (resealed rd)). eapply indexed_trans; [exact H1|].
  pose proof (ix_graph _ _ _ _ H1 r) as G. rewrite decide_True, Hn in G by done.
  destruct (k_graphNodesByRun (k_set_runs _ k1) !! r) eqn:En; [by apply indexed_refl|].
  apply indexed_refl; try done. cbn [k_graphNodesByRun k_set_runs] in En. intros r'.
  assert (gs_nodes (graph_of k1 r) = []) as E0 by (unfold graph_of; cbn; by rewrite En).
  rewrite G in E0. apply graph_fold_empty in E0. rewrite E0 in G. clear E0.
  unfold graph_of in *. injection G as E1 E2 E3.
  cbn [k_graphNodesByRun k_graphEdgesByRun k_lastNodeByRun k_set_graphNodesByRun k_set_graphEdgesByRun k_set_runs].
  rewrite !lookup_insert. destruct (decide (r = r')) as [<-|]; [|done]. by rewrite E1, E2.
Qed.

Lemma rebuild_runs_indexed ps : forall k idx, NoDup ps.*1 ->
  (forall p, p ∈ ps -> Forall (fun e => cv_RunID e = p.1) (rd_Events p.2)) ->
  (forall p, p ∈ ps -> run_chain k p.1 = genesis) -> (forall p, p ∈ ps -> graph_of k p.1 = no_graph) ->
  (forall p, p ∈ ps -> charges k p.1 = []) ->
  let k' := fst (foldl (fun s kv => rebuild_run s kv.1 kv.2) (k, idx) ps) in
  k_cfg k' = k_cfg k /\ (0 < log_max k -> logs_ok k -> logs_ok k')
  /\ k_decisionLogHistory k' = foldl (log_step (log_max k)) (k_decisionLogHistory k) (dated (resealed_all ps))
  /\ (forall p, p ∈ ps -> graph_of k' p.1 = foldl graph_step no_graph (dated (resealed p.2))
                          /\ charges k' p.1 = event_charges (resealed p.2))
  /\ (forall r, r ∉ ps.*1 -> graph_of k' r = graph_of k r /\ charges k' r = charges k r).
Proof.
  induction ps as [|[r rd] ps IH]; intros k idx Hnd Hr Hg Hn Hc.
  { cbn. split_and!; try done. by intros p ?%not_elem_of_nil. }
  cbn [fmap list_fmap fst] in Hnd. apply NoDup_cons in Hnd as [Hni Hnd]. cbn [foldl fst snd].
  pose proof (list_elem_of_here (r, rd) ps) as Hh.
  pose proof (rebuild_run_indexed r rd k idx (Hr _ Hh) (Hg _ Hh) (Hn _ Hh)) as [A1 B1 C1 D1 F1].
  pose proof (rebuild_run_spec r rd k idx (Hr _ Hh) (Hg _ Hh)) as H1.
  destruct (rebuild_run (k, idx) r rd) as [k1 idx1]. cbn [fst] in *.
  destruct H1 as (_ & _ & _ & _ & _ & O1 & _).
  assert (Hne : forall p, p ∈ ps -> p.1 <> r).
  { intros p Hp E. apply Hni. rewrite <- E. by apply list_elem_of_fmap_2. }
  destruct (IH k1 idx1 Hnd) as (K2 & L2 & H2 & G2 & O2).
  { intros p Hp. apply Hr. by apply list_elem_of_further. }
  { intros p Hp. rewrite O1 by (by apply Hne). apply Hg. by apply list_elem_of_further. }
  { intros p Hp. rewrite C1, decide_False by (by apply Hne). apply Hn. by apply list_elem_of_further. }
  { intros p Hp. rewrite D1, decide_False, app_nil_r by (by apply Hne). apply Hc. by apply list_elem_of_further. }
  cbv zeta in *. split_and!.
  - congruence.
  - intros Hm Hl. apply L2; [unfold log_max in *; by rewrite A1|by apply B1].
  - rewrite H2, F1. unfold log_max. rewrite A1. unfold resealed_all. cbn [map concat snd].
    by rewrite dated_app, foldl_app.
  - intros p [->|Hp]%elem_of_cons; [|by apply G2]. cbn [fst snd].
    destruct (O2 r Hni) as [-> ->]. rewrite C1, D1, !decide_True by done.
    pose proof (Hn _ Hh) as E1. pose proof (Hc _ Hh) as E2. cbn [fst] in E1, E2. by rewrite E1, E2.
  - intros r' Hr'. cbn [fmap list_fmap fst] in Hr'. apply not_elem_of_cons in Hr' as [? ?].
    destruct (O2 r') as [-> ->]; [done|]. rewrite C1, D1, !decide_False by done. by rewrite app_nil_r.
Qed.

Section Rebuild.
Context `{MapRange}.

Lemma rebuild_DInv k : wf_runs (k_runs k) -> 0 < log_max k -> DInv (rebuildDerivedIndexesLocked k).
Proof.
  intros Hwf Hm. pose proof (fun r => rebuild_events k r Hwf) as He.
  pose proof (rebuild_spec k (wf_run _ Hwf)) as (_ & St & _). cbv zeta in St.
  apply still_fields in St as (Ec & _).
  assert (Hk : forall P : Kernel -> Prop,
    P (fst (foldl (fun s kv => rebuild_run s kv.1 kv.2) (clear_derived k, ∅) (range_map (k_runs k)))) ->
    (forall k idx, P k -> P (k_set_eventsByID idx k)) -> P (rebuildDerivedIndexesLocked k)).
  { intros P HP Hi. unfold rebuildDerivedIndexesLocked, go_range. destruct (foldl _ _ _) as [k1 idx1].
    by apply Hi. }
  destruct (rebuild_runs_indexed (range_map (k_runs k)) (clear_derived k) ∅ (range_map_nodup _))
    as (_ & L & Lh & G & O).
  { intros [r rd] Hp%range_map_elem. apply Forall_forall. intros e Hin. by eapply (wf_run _ Hwf). }
  1-3: intros p _; unfold run_chain, graph_of, charges, clear_derived; cbn; by rewrite ?lookup_empty.
  assert (Hg : forall r, graph_of (rebuildDerivedIndexesLocked k) r
      = foldl graph_step no_graph (dated (events_of (rebuildDerivedIndexesLocked k) r))
    /\ charges (rebuildDerivedIndexesLocked k) r = event_charges (events_of (rebuildDerivedIndexesLocked k) r)).
  { intros r. rewrite He. apply (Hk (fun k' => graph_of k' r = _ /\ charges k' r = _)); [|done].
    destruct (k_runs k !! r) as [rd|] eqn:E.
    - rewrite (events_of_lookup _ _ _ E). apply (G (r, rd)). by apply range_map_elem.
    - destruct (O r) as [-> ->].
      { rewrite list_elem_of_fmap. intros ([r' rd] & -> & Hp). apply range_map_elem in Hp.
        cbn in E. congruence. }
      unfold events_of, run_data. rewrite E. unfold graph_of, charges, clear_derived. cbn.
      by rewrite !lookup_empty. }
  assert (logs_ok (rebuildDerivedIndexesLocked k)) as [LA LB].
  { apply Hk; [|done]. apply L; [done|]. split; unfold clear_derived; cbn; intros d *; by rewrite ?lookup_empty. }
  assert (logged (rebuildDerivedIndexesLocked k)) as HL.
  { pose proof (rebuild_spec k (wf_run _ Hwf)) as (Ei & _). cbv zeta in Ei.
    exists (resealed_all (range_map (k_runs k))), (map cv_EventTS (resealed_all (range_map (k_runs k)))).
    rewrite Ei, length_map. split; [|split; [done|]].
    - rewrite (idx_values _ _ (resealed_all_nodup _ Hwf)) by (intros; apply lookup_empty).
      by rewrite map_to_list_empty, app_nil_r.
    - unfold log_max. rewrite Ec. exact (Hk (fun k' => k_decisionLogHistory k' = _) Lh (fun _ _ H => H)). }
  clear Lh. set (k' := rebuildDerivedIndexesLocked k) in *. clearbody k'. split; [|done|done|apply Hg|exact HL].
  intros r. exists (map cv_EventTS (events_of k' r)). split; [by rewrite length_map|apply Hg].
Qed.
End Rebuild.
