(* ===== verification/EvTrace.v ===== *)
(** * Histories of the Evidence kernel

    An [op] is one call under the kernel's mutex (the anchor call takes it
    twice, around the attestor); [exec] is what it does to the state, [reach]
    the states a new kernel can get to.  Each call may visit the maps in its
    own order. *)

From S2P Require Import Prelude GoStrings Sha256 GoTime GoJson EvTypes EvEvents EvKernel EvRetain EvGraph EvReports EvFrame EvChain EvIngest EvRebuild EvSweep EvDerived.

Inductive op : Type :=
| OpRegister (reg : SourceRegistration)
| OpLevel (level : Z)
| OpSourceLevel (source : string) (level : Z)
| OpTenantLevel (tenantID : string) (level : Z)
| OpIngest (req : IngestEventRequest) (now now2 : time)
| OpDelete (req : DSARDeleteRequest) (now : time)
| OpSweep (now : time)
| OpDrain (limit : Z)
| OpAnchor (reason : string) (now : time)
| OpAttest (anchor : IntegrityAnchor) (answer : ExternalAttestation * option string) (now : time).

Definition exec {MR : MapRange} (o : op) (k : Kernel) : Kernel :=
  match o with
  | OpRegister reg => fst (RegisterSource reg k)
  | OpLevel l => SetBackpressureLevel l k
  | OpSourceLevel s l => SetSourceBackpressureLevel s l k
  | OpTenantLevel t l => SetTenantBackpressureLevel t l k
  | OpIngest req now now2 => fst (IngestEvent req now now2 k)
  | OpDelete req now => fst (DeleteByDSAR req now k)
  | OpSweep now => fst (SweepRetention now k)
  | OpDrain limit => fst (DrainOutbox limit k)
  | OpAnchor reason now => fst (anchor_create reason now k)
  | OpAttest anchor answer now => fst (anchor_attest anchor answer now k)
  end.

Inductive step : Kernel -> Kernel -> Prop :=
| step_op MR o k : step k (exec (MR := MR) o k).

Inductive reach (cfg : Config) : Kernel -> Prop :=
| reach_new : reach cfg (NewKernel cfg)
| reach_step k k' : reach cfg k -> step k k' -> reach cfg k'.

(** ** Calls that leave the evidence alone *)

Definition level_ok (l : Z) : Prop := 0 <= l <= 3.

Record levels_ok (k : Kernel) : Prop := {
  lo_global : level_ok (k_backpressureLevel k);
  lo_source : map_Forall (fun _ => level_ok) (k_sourceBackpressure k);
  lo_tenant : map_Forall (fun _ => level_ok) (k_tenantBackpressure k)
}.

Lemma clamp_level_ok l : level_ok (clamp_level l).
Proof.
  unfold level_ok, clamp_level, BackpressureLevel0, BackpressureLevel3.
  destruct (l <? 0) eqn:E1; cbn; [lia|]. destruct (3 <? l) eqn:E2; bool_hyps; lia.
Qed.

(** The whole invariant. *)
Record KInv (k : Kernel) : Prop := {
  ki_evidence : EInv k;
  ki_derived : DInv k;
  ki_outbox : outbox_bounded k;
  ki_levels : levels_ok k
}.

(** A source registration is stored under its normalised name, with a positive
    schema version and a known tier. *)

Lemma levels_store k k' : store k = store k' -> levels_ok k -> levels_ok k'.
Proof.
  intros (_ & _ & _ & _ & _ & _ & _ & _ & _ & _ & E1 & E2 & E3)%store_fields [A B C].
  split; by rewrite <- ?E1, <- ?E2, <- ?E3.
Qed.

Lemma NewKernel_KInv cfg : KInv (NewKernel cfg).
Proof.
  split; [apply NewKernel_EInv|apply NewKernel_DInv| |].
  - pose proof (ei_cfg _ (NewKernel_EInv cfg)) as (_ & _ & _ & _ & H & _).
    unfold outbox_bounded. cbn [k_outbox NewKernel length]. lia.
  - split; cbn; [unfold level_ok; lia|apply map_Forall_empty..].
Qed.

(** What the invariant reads of a state. *)
Lemma KInv_ext k k' : k_cfg k = k_cfg k' -> k_eventsByID k = k_eventsByID k' -> k_runs k = k_runs k' ->
  k_integrityByRun k = k_integrityByRun k' -> k_globalIntegrity k = k_globalIntegrity k' ->
  derived k = derived k' -> k_ledgerByRun k = k_ledgerByRun k' ->
  Z.of_nat (length (k_globalAnchors k')) <= ec_GlobalAnchorHistoryMax (k_cfg k') ->
  outbox_bounded k' -> levels_ok k' -> KInv k -> KInv k'.
Proof.
  intros E1 E3 E4 E7 E8 Ed El Ha Ho Hl [[A B C D F G I J] HD _ _].
  pose proof (events_of_runs _ _ E4) as Ee. pose proof (run_chain_eq _ _ E7) as Ec.
  split; [|by eapply DInv_ext|done..].
  split; rewrite <- ?E1, <- ?E3, <- ?E4, <- ?E8, <- ?Ee, <- ?Ec; try assumption. by rewrite E1.
Qed.

Lemma bump_KInv n k : KInv k -> KInv (bump n k).
Proof.
  intros [A B C D]. split; [by apply (EInv_evidence k)|by apply (DInv_evidence k)|done|by destruct D].
Qed.

Lemma ev_emit_cfg ev r kvs now k : k_cfg (emitLocked ev r kvs now k) = k_cfg k.
Proof. by pose proof (emit_evidence ev r kvs now k) as ((-> & _)%store_fields & _)%evidence_fields. Qed.

Lemma cfg_outbox k : EInv k -> 0 <= ec_OutboxMaxEvents (k_cfg k).
Proof. intros HI. pose proof (ei_cfg _ HI) as (_ & _ & _ & _ & H & _). lia. Qed.

Lemma cfg_log k : EInv k -> 0 < log_max k.
Proof. intros HI. pose proof (ei_cfg _ HI) as (_ & _ & _ & _ & _ & _ & H & _). done. Qed.

Lemma KInv_emit ev r kvs now k k' : KInv k -> evidence k' = evidence k ->
  KInv (emitLocked ev r kvs now k').
Proof.
  intros HK E. pose proof (emit_evidence ev r kvs now k') as E2. rewrite E in E2.
  pose proof E2 as (Es & _)%evidence_fields. destruct HK as [A B C D]. split.
  - by eapply EInv_evidence.
  - by eapply DInv_evidence.
  - apply emit_bounded. apply evidence_fields in E as ((-> & _)%store_fields & _). by apply cfg_outbox.
  - by eapply levels_store.
Qed.

Lemma RegisterSource_KInv reg k : KInv k -> KInv (fst (RegisterSource reg k)).
Proof.
  intros HK. unfold RegisterSource. cbv zeta. destruct (_ =? _)%string; [done|].
  destruct (_ <=? _); [done|]. cbn [fst].
  eapply KInv_ext; [..|exact HK]; try done; [apply (ei_anchors _ (ki_evidence _ HK))|by apply HK|].
  destruct (ki_levels _ HK). by split.
Qed.

Lemma set_levels_KInv k k' : KInv k ->
  k' = k_set_backpressureLevel (k_backpressureLevel k')
         (k_set_sourceBackpressure (k_sourceBackpressure k')
            (k_set_tenantBackpressure (k_tenantBackpressure k') k)) ->
  levels_ok k' -> KInv k'.
Proof.
  intros HK E Hl. eapply KInv_ext; [..|exact Hl|exact HK]; rewrite E; try done.
  - apply (ei_anchors _ (ki_evidence _ HK)). - by apply HK.
Qed.

Lemma SetBackpressureLevel_KInv l k : KInv k -> KInv (SetBackpressureLevel l k).
Proof.
  intros HK. apply (set_levels_KInv k); [done|by destruct k|].
  destruct (ki_levels _ HK). split; [apply clamp_level_ok|done..].
Qed.

Lemma SetSourceBackpressureLevel_KInv s l k : KInv k -> KInv (SetSourceBackpressureLevel s l k).
Proof.
  intros HK. unfold SetSourceBackpressureLevel. cbv zeta. destruct (_ =? _)%string; [done|].
  apply (set_levels_KInv k); [done|by destruct k|].
  destruct (ki_levels _ HK). split; [done| |done]. by apply map_Forall_insert_2; [apply clamp_level_ok|].
Qed.

Lemma SetTenantBackpressureLevel_KInv t l k : KInv k -> KInv (SetTenantBackpressureLevel t l k).
Proof.
  intros HK. unfold SetTenantBackpressureLevel. cbv zeta. destruct (_ =? _)%string; [done|].
  apply (set_levels_KInv k); [done|by destruct k|].
  destruct (ki_levels _ HK). split; [done|done|]. by apply map_Forall_insert_2; [apply clamp_level_ok|].
Qed.

Lemma DrainOutbox_KInv limit k : KInv k -> KInv (fst (DrainOutbox limit k)).
Proof.
  intros HK. pose proof (ki_outbox _ HK) as Ho. unfold DrainOutbox. cbn [fst].
  eapply KInv_ext; [..|exact HK]; try done; [apply (ei_anchors _ (ki_evidence _ HK))| |].
  - unfold outbox_bounded in *. cbn [k_outbox k_set_outbox k_cfg]. rewrite length_drop. lia.
  - destruct (ki_levels _ HK). by split.
Qed.

(** ** Anchors *)

Lemma keep_last_length {A} max (l : list A) : 0 < max -> Z.of_nat (length (keep_last max l)) <= max.
Proof.
  intros Hm. unfold keep_last. destruct ((0 <? max) && _) eqn:E; bool_hyps.
  - rewrite lastn_length. lia.
  - lia.
Qed.

Lemma set_anchors_KInv l k : KInv k -> Z.of_nat (length l) <= ec_GlobalAnchorHistoryMax (k_cfg k) ->
  KInv (k_set_globalAnchors l k).
Proof.
  intros HK Hl. eapply KInv_ext; [..|exact HK]; try done; [by apply HK|].
  destruct (ki_levels _ HK). by split.
Qed.

Lemma anchor_create_KInv reason now k : KInv k -> KInv (fst (anchor_create reason now k)).
Proof.
  intros HK. unfold anchor_create. cbn [nextID]. cbn [fst].
  apply KInv_emit with (k := k_set_globalAnchors (keep_last (ec_GlobalAnchorHistoryMax (k_cfg k))
    (k_globalAnchors k ++ [{| an_AnchorID := String.append "anc_" (fmt_d (wrap_uint64 (k_idSeq k + 1)));
       an_RootHash := ig_LastHash (k_globalIntegrity k); an_EventCount := ig_Count (k_globalIntegrity k);
       an_Reason := TrimSpace reason; an_CreatedAt := now; an_AnchorKind := "kernel_internal";
       an_Attestation := None |}])) k); [|done].
  apply set_anchors_KInv; [done|]. apply keep_last_length.
  pose proof (ei_cfg _ (ki_evidence _ HK)) as (_ & _ & _ & _ & _ & _ & _ & H). done.
Qed.

Lemma attestation_event_KInv answer now anchor k : KInv k -> KInv (attestation_event answer now anchor k).
Proof. intros HK. unfold attestation_event. destruct answer as [att [err|]]; by eapply KInv_emit. Qed.

Lemma anchor_attest_KInv anchor answer now k : KInv k -> KInv (fst (anchor_attest anchor answer now k)).
Proof.
  intros HK. unfold anchor_attest. destruct (last_index _ _) as [i|]; [|done]. cbn [fst].
  apply attestation_event_KInv, set_anchors_KInv; [done|]. rewrite length_alter.
  apply (ei_anchors _ (ki_evidence _ HK)).
Qed.

(** ** Ingestion *)

Lemma ingest_store_bounded e now k : 0 <= ec_OutboxMaxEvents (k_cfg k) ->
  outbox_bounded (fst (ingest_store e now k)).
Proof.
  intros H. destruct (ingest_store_index e now k) as (k0 & _ & _ & Ec & _). unfold ingest_store.
  set (k1 := if _ && _ then _ else _).
  assert (k_cfg k1 = k_cfg k) as E1 by (unfold k1; by destruct (_ && _)).
  destruct (appendIntegrityLocked e k1) as [k2 e2] eqn:E2. unfold appendIntegrityLocked in E2. pair_inv E2.
  cbn [fst]. apply trim_and_count_bounded. unfold bump, add_counter. cbn [k_cfg k_set_counters].
  rewrite index_cfg. cbn [k_cfg k_set_runs].
  unfold ensureRunDataLocked. destruct (k_runs _ !! _); unfold observe_ts; destruct (After _ _);
    cbn [k_cfg k_set_runs k_set_eventsByID k_set_maxObservedEventTS k_set_globalIntegrity k_set_integrityByRun];
    by rewrite E1.
Qed.

Lemma IngestEvent_bounded req now now2 k : KInv k -> outbox_bounded (fst (IngestEvent req now now2 k)).
Proof.
  intros HK. pose proof (cfg_outbox _ (ki_evidence _ HK)) as Hc. pose proof (ki_outbox _ HK) as Ho.
  unfold IngestEvent. cbv zeta. destruct (validateIngestRequest _); [done|].
  destruct (k_registeredSources _ !! _) as [reg|]; [|done].
  destruct (_ <? _); [done|]. destruct (k_eventsByID _ !! _); [done|].
  set (norm := normalizeIngestRequest req now). set (k0 := bump _ k). unfold ingest_new. cbv zeta.
  fold (request_event norm reg).
  pose proof (decide_evidence (request_event norm reg) (rq_SystemLoad norm) now2 k0) as Hd.
  destruct (decideIngestAction _ _ _ _) as [k1 [action reasons]]. cbn [fst] in Hd.
  apply evidence_fields in Hd as (Hd & _). apply store_fields in Hd as (Hd & _).
  assert (0 <= ec_OutboxMaxEvents (k_cfg k1)) as Hc1.
  { rewrite Hd. unfold ensureRunDataLocked. by destruct (k_runs k0 !! _). }
  destruct action.
  - cbn [fst]. by apply emit_bounded.
  - set (k2 := emitLocked _ _ _ _ _).
    assert (0 <= ec_OutboxMaxEvents (k_cfg k2)) as Hc2.
    { unfold k2. by rewrite ev_emit_cfg. }
    pose proof (ingest_store_bounded (degrade_event (request_event norm reg)) now k2 Hc2) as B.
    by destruct (ingest_store _ _ k2).
  - pose proof (ingest_store_bounded (request_event norm reg) now k1 Hc1) as B.
    by destruct (ingest_store _ _ k1).
Qed.

Lemma IngestEvent_levels req now now2 k : levels_ok k -> levels_ok (fst (IngestEvent req now now2 k)).
Proof.
  apply IngestEvent_pres.
  - intros k1 k2 (E & _)%evidence_fields. by apply levels_store.
  - intros r k1. unfold ensureRunDataLocked. destruct (k_runs k1 !! r); [done|]. intros [A B C]. by split.
  - intros e k1 Hl _ _. pose proof (ingest_store_store e now k1) as Es. eapply levels_store; [by symmetry|].
    destruct Hl as [A B C]. unfold hot_step. by split.
Qed.

Lemma IngestEvent_KInv req now now2 k : KInv k -> KInv (fst (IngestEvent req now now2 k)).
Proof.
  intros HK. split.
  - apply IngestEvent_inv, HK.
  - apply IngestEvent_DInv; [apply cfg_log, HK|apply HK].
  - by apply IngestEvent_bounded.
  - apply IngestEvent_levels, HK.
Qed.

(** ** Deletion and retention *)

Section Maps.
Context `{MapRange}.

Lemma rebuild_KInv k : wf_runs (k_runs k) -> cfg_ok (k_cfg k) -> levels_ok k -> outbox_bounded k ->
  Z.of_nat (length (k_globalAnchors k)) <= ec_GlobalAnchorHistoryMax (k_cfg k) ->
  KInv (rebuildDerivedIndexesLocked k).
Proof.
  intros Hwf Hc [L1 L2 L3] Ho Ha. split.
  - by apply rebuild_inv.
  - apply rebuild_DInv; [done|]. destruct Hc as (_ & _ & _ & _ & _ & _ & Hc & _). exact Hc.
  - pose proof (rebuild_spec k (wf_run _ Hwf)) as (_ & St & _ & _ & _ & Eo). cbv zeta in *.
    apply still_fields in St as (Ec & _). unfold outbox_bounded in *. by rewrite Eo, Ec.
  - pose proof (rebuild_spec k (wf_run _ Hwf)) as (_ & St & _). cbv zeta in St.
    apply store_fields in St as (_ & _ & _ & _ & _ & _ & _ & _ & _ & _ & E1 & E2 & E3).
    cbn in E1, E2, E3. split; by rewrite ?E1, ?E2, ?E3.
Qed.

Lemma DeleteByDSAR_KInv req now k : KInv k -> KInv (fst (DeleteByDSAR req now k)).
Proof.
  intros HK. pose proof (DeleteByDSAR_eq req now k) as E. cbv zeta in E.
  rewrite DeleteByDSAR_trim in E. set (rq := trim_dsar_request req) in *.
  pose proof (dsar_request_id_same rq k) as [E0 B0].
  destruct (dsar_request_id rq k) as [k0 id]. cbn [fst] in E0, B0. rewrite E. clear E.
  assert (HK0 : KInv k0).
  { pose proof E0 as (Es & _)%evidence_fields. destruct HK as [A B C D]. split.
    - by eapply EInv_evidence. - by eapply DInv_evidence.
    - apply store_fields in Es as (Ec & _). unfold outbox_bounded in *. by rewrite B0, Ec.
    - by eapply levels_store. }
  destruct (_ =? _)%string; [exact HK0|]. cbn [fst]. eapply KInv_emit; [|done].
  destruct HK0 as [A B C D]. apply rebuild_KInv.
  - apply dsar_kernel_wf, A. - apply A. - destruct D. by split. - done. - apply (ei_anchors _ A).
Qed.

Lemma pre_sweep_levels now k : levels_ok k -> levels_ok (fst (pre_sweep now k)).
Proof.
  intros [A B C]. pose proof (ps_calm _ _ _ _ (pre_sweep_spec now k)) as E.
  apply store_fields in E as (_ & _ & _ & _ & _ & _ & _ & _ & _ & _ & E1 & E2 & E3).
  cbn in E1, E2, E3. split; by rewrite ?E1, ?E2, ?E3.
Qed.

Lemma SweepRetention_KInv now k : KInv k -> KInv (fst (SweepRetention now k)).
Proof.
  intros HK. pose proof (ki_evidence _ HK) as HI.
  pose proof (pre_sweep_calm now k) as [Ec Ea].
  pose proof (ps_wf _ _ _ _ (pre_sweep_spec now k) (ei_wf _ HI)) as Hwf.
  pose proof (pre_sweep_levels now k (ki_levels _ HK)) as Hl.
  split.
  - by apply SweepRetention_inv.
  - rewrite SweepRetention_eq. cbn [fst]. eapply DInv_evidence; [symmetry; apply trim_evidence|].
    apply rebuild_DInv; [done|]. unfold log_max. rewrite Ec. by apply cfg_log.
  - rewrite SweepRetention_eq. cbn [fst]. apply trim_bounded.
    pose proof (rebuild_spec _ (wf_run _ Hwf)) as (_ & St & _). apply still_fields in St as (-> & _).
    rewrite Ec. by apply cfg_outbox.
  - rewrite SweepRetention_eq. cbn [fst].
    pose proof (rebuild_spec _ (wf_run _ Hwf)) as (_ & St & _). cbv zeta in St.
    apply store_fields in St as (_ & _ & _ & _ & _ & _ & _ & _ & _ & _ & E1 & E2 & E3). cbn in E1, E2, E3.
    destruct Hl as [A B C]. split; cbn; by rewrite ?E1, ?E2, ?E3.
Qed.
End Maps.

(** ** Every reachable state *)

Lemma exec_KInv {MR : MapRange} o k : KInv k -> KInv (exec o k).
Proof.
  intros HK. destruct o; cbn [exec].
  - by apply RegisterSource_KInv.
  - by apply SetBackpressureLevel_KInv.
  - by apply SetSourceBackpressureLevel_KInv.
  - by apply SetTenantBackpressureLevel_KInv.
  - by apply IngestEvent_KInv.
  - by apply DeleteByDSAR_KInv.
  - by apply SweepRetention_KInv.
  - by apply DrainOutbox_KInv.
  - by apply anchor_create_KInv.
  - by apply anchor_attest_KInv.
Qed.

Lemma reach_KInv cfg k : reach cfg k -> KInv k.
Proof.
  induction 1 as [|k k' _ IH Hs]; [apply NewKernel_KInv|]. destruct Hs. by apply exec_KInv.
Qed.
