(* ===== verification/EvClosure.v ===== *)
(** * The ancestor closure and the critical path

    The two graph searches of the completeness check and of the root-cause
    pack, against the reachability relation of the edges.

    Then the completeness report against its meaning, and the recorded graph. *)

From S2P Require Import Prelude GoStrings Sha256 GoTime GoJson EvTypes EvEvents EvKernel EvGraph.
From S2P Require Import EvFrame EvChain EvDerived.

(** [p] is a named parent of [c]. *)
Definition parent_of (edges : list DecisionGraphEdge) (c p : string) : Prop :=
  exists x, x ∈ edges /\ ge_ToNodeID x = c /\ ge_FromNodeID x = p /\ p <> "".

(** Ancestors, the node itself included. *)
Definition ancestor (edges : list DecisionGraphEdge) : string -> string -> Prop :=
  rtc (parent_of edges).

Section Closure.
Context (edges : list DecisionGraphEdge).

Definition incoming (c : string) : list string := default [] (incoming_of edges !! c).

Lemma incoming_fold l (m : gmap string (list string)) c : default [] (foldl (fun m e =>
    <[ge_ToNodeID e := default [] (m !! ge_ToNodeID e) ++ [ge_FromNodeID e]]> m) m l !! c)
  = default [] (m !! c) ++ map ge_FromNodeID (List.filter (fun e => (ge_ToNodeID e =? c)%string) l).
Proof.
  revert m. induction l as [|e l IH]; intros m; [by rewrite app_nil_r|]. cbn [foldl List.filter].
  rewrite IH, lookup_insert. destruct (ge_ToNodeID e =? c)%string eqn:E.
  - apply String.eqb_eq in E as <-. rewrite decide_True by done. cbn. by rewrite <- app_assoc.
  - apply String.eqb_neq in E. by rewrite decide_False.
Qed.

Lemma incoming_eq c :
  incoming c = map ge_FromNodeID (List.filter (fun e => (ge_ToNodeID e =? c)%string) edges).
Proof. unfold incoming, incoming_of. by rewrite incoming_fold, lookup_empty. Qed.

Lemma incoming_parent c p : p ∈ incoming c /\ p <> "" <-> parent_of edges c p.
Proof.
  rewrite incoming_eq, !list_elem_of_In, in_map_iff. unfold parent_of. split.
  - intros [(x & <- & [Hx E]%filter_In) Hp]. apply String.eqb_eq in E. exists x.
    by rewrite list_elem_of_In.
  - intros (x & Hx & <- & <- & Hp). split; [|done]. exists x. split; [done|].
    rewrite filter_In, <- list_elem_of_In. split; [done|]. by apply String.eqb_eq.
Qed.

(** ** One round of the search *)

Lemma push_parents ps : forall visited stack,
  exists new, foldl push_parent (visited, stack) ps = (list_to_set new ∪ visited, new ++ stack)
  /\ NoDup new /\ (forall p, p ∈ new <-> p ∈ ps /\ p <> "" /\ p ∉ visited).
Proof.
  induction ps as [|p ps IH]; intros visited stack.
  { exists []. cbn. split_and!; [f_equal; set_solver|by apply NoDup_nil|set_solver]. }
  cbn [foldl]. unfold push_parent at 2. destruct (_ || _) eqn:E.
  - destruct (IH visited stack) as (new & -> & Hnd & Hn). exists new. split_and!; [done|done|].
    intros q. rewrite Hn, elem_of_cons. split; [naive_solver|].
    intros ([->|Hq] & Hne & Hv); [|done]. exfalso.
    destruct (p =? "")%string eqn:Ep; [apply String.eqb_eq in Ep; done|]. cbn in E.
    by apply bool_decide_eq_true in E.
  - destruct (p =? "")%string eqn:Ep; [done|]. apply String.eqb_neq in Ep. cbn in E.
    apply bool_decide_eq_false in E.
    destruct (IH ({[p]} ∪ visited) (p :: stack)) as (new & -> & Hnd & Hn).
    exists (new ++ [p]). split_and!.
    + f_equal; [|by rewrite <- app_assoc]. set_solver.
    + apply NoDup_app. split_and!; [done| |apply NoDup_singleton].
      intros q Hq. rewrite Hn in Hq. set_solver.
    + intros q. rewrite elem_of_app, Hn. destruct (decide (q = p)) as [->|]; set_solver.
Qed.

(** ** The search *)

(** Sources of the edges not visited yet. *)
Definition unvisited (visited : gset string) : gset string :=
  list_to_set (map ge_FromNodeID edges) ∖ visited.

Lemma incoming_source c p : p ∈ incoming c -> p ∈ map ge_FromNodeID edges.
Proof.
  rewrite incoming_eq, !list_elem_of_In, !in_map_iff. intros (x & <- & [Hx _]%filter_In). by exists x.
Qed.

Lemma ancestors_spec final fuel : forall visited stack,
  (length stack + size (unvisited visited) <= fuel)%nat ->
  (forall x, x ∈ stack -> x ∈ visited) ->
  (forall x, x ∈ visited -> ancestor edges final x) ->
  (forall c p, c ∈ visited -> c ∉ stack -> parent_of edges c p -> p ∈ visited) ->
  let res := ancestors fuel (incoming_of edges) visited stack in
  visited ⊆ res /\ (forall x, x ∈ res -> ancestor edges final x)
  /\ (forall c p, c ∈ res -> parent_of edges c p -> p ∈ res).
Proof.
  induction fuel as [|fuel IH]; intros visited [|cur stack] Hf Hs Hv Hc; cbn zeta; cbn [ancestors];
    try (split_and!; [done|done|]; intros c p Hcv; apply Hc; [done|apply not_elem_of_nil]).
  { cbn in Hf. lia. }
  change (default [] (incoming_of edges !! cur)) with (incoming cur).
  destruct (push_parents (incoming cur) visited stack) as (new & -> & Hnd & Hn).
  destruct (IH (list_to_set new ∪ visited) (new ++ stack)) as (H1 & H2 & H3).
  - assert (size (unvisited (list_to_set new ∪ visited)) + length new = size (unvisited visited))%nat as E.
    { rewrite <- (size_list_to_set (C := gset string) new Hnd). rewrite <- size_union.
      - f_equal. unfold unvisited. apply set_eq. intros x. rewrite elem_of_union, !elem_of_difference,
          elem_of_union, !elem_of_list_to_set. split.
        + intros [[? ?]|Hx]; [tauto|]. apply Hn in Hx as (Hx & _ & ?). split; [|done].
          by eapply incoming_source.
        + intros [? ?]. destruct (decide (x ∈ new)); [by right|left]. tauto.
      - unfold unvisited. set_solver. }
    rewrite length_app. cbn [length] in Hf. lia.
  - intros x [Hx|Hx]%elem_of_app; [set_solver|]. apply elem_of_union_r, Hs. by apply list_elem_of_further.
  - intros x [Hx%elem_of_list_to_set|Hx]%elem_of_union; [|by apply Hv].
    apply Hn in Hx as (Hx & Hne & _). eapply rtc_r; [apply Hv, Hs, list_elem_of_here|].
    by apply incoming_parent.
  - intros c p Hcv Hns Hp. apply not_elem_of_app in Hns as [Hn1 Hn2].
    apply elem_of_union in Hcv as [Hcv%elem_of_list_to_set|Hcv]; [done|].
    destruct (decide (c = cur)) as [->|Hne].
    + destruct (decide (p ∈ visited)); [by apply elem_of_union_r|]. apply elem_of_union_l.
      rewrite elem_of_list_to_set, Hn. by apply incoming_parent in Hp as [? ?].
    + apply elem_of_union_r. apply (Hc c); [done| |done]. by apply not_elem_of_cons.
  - split_and!; [|done|done]. set_solver.
Qed.

Lemma sources_size (visited : gset string) : (size (unvisited visited) <= length edges)%nat.
Proof.
  unfold unvisited.
  pose proof (subseteq_size (list_to_set (map ge_FromNodeID edges) ∖ visited)
    (list_to_set (map ge_FromNodeID edges) : gset string) ltac:(set_solver)).
  assert (size (list_to_set (map ge_FromNodeID edges) : gset string) <= length (map ge_FromNodeID edges))%nat.
  { clear. induction (map ge_FromNodeID edges) as [|y l IH]; [by rewrite list_to_set_nil, size_empty|].
    cbn [list_to_set length]. pose proof (size_union_alt {[y]} (list_to_set l : gset string)) as E.
    rewrite E, size_singleton.
    pose proof (subseteq_size (list_to_set l ∖ {[y]}) (list_to_set l : gset string) ltac:(set_solver)).
    lia. }
  rewrite length_map in *. lia.
Qed.

(** One unit of fuel per edge, and one for the start, is enough. *)
Lemma ancestors_closed final x fuel : (1 + length edges <= fuel)%nat ->
  x ∈ ancestors fuel (incoming_of edges) {[final]} [final] <-> ancestor edges final x.
Proof.
  intros Hf. destruct (ancestors_spec final fuel {[final]} [final]) as (H1 & H2 & H3).
  - cbn [length]. pose proof (sources_size {[final]}). lia.
  - set_solver.
  - intros y ->%elem_of_singleton. apply rtc_refl.
  - intros c p ->%elem_of_singleton Hns. exfalso. apply Hns, list_elem_of_here.
  - cbv zeta in *. split; [apply H2|]. intros Ha. unfold ancestor in Ha.
    set (res := ancestors _ _ _ _) in *. clearbody res.
    assert (final ∈ res) as Hin by set_solver. clear H1 H2. revert Hin.
    induction Ha as [|y z w Hyz _ IHa]; [done|]. intros Hin. apply IHa. by eapply H3.
Qed.

Lemma closure_spec final x : x ∈ closure edges final <-> ancestor edges final x.
Proof. apply ancestors_closed. lia. Qed.
End Closure.

(** ** The critical path *)

(** A path, oldest node first, each node the first parent of the next one. *)
Record path_ok (edges : list DecisionGraphEdge) (leaf : string) (path rest : list string) : Prop := {
  po_leaf : path = rest ++ [leaf];
  po_nodup : NoDup rest;
  po_linked : forall i p c, path !! i = Some p -> path !! S i = Some c ->
    first_parent edges c = Some p /\ p <> ""
}.

(** The search went as far as it could: the first node of the path has no
    parent, an empty one, or one already on the path above the leaf. *)
Definition path_end (edges : list DecisionGraphEdge) (path rest : list string) : Prop :=
  exists cur, head path = Some cur
  /\ forall p, first_parent edges cur = Some p -> p = "" \/ p ∈ rest.

Lemma trace_up_spec edges leaf n : forall visited path rest cur,
  path_ok edges leaf path rest -> head path = Some cur -> (forall x, x ∈ visited <-> x ∈ rest) ->
  let res := trace_up n edges visited path cur in
  exists rest', path_ok edges leaf res rest' /\ (length res <= n + length path)%nat
  /\ (length res = n + length path \/ path_end edges res rest')%nat.
Proof.
  induction n as [|n IH]; intros visited path rest cur Hp Hh Hv; cbn zeta; cbn [trace_up].
  { exists rest. split_and!; [done|lia|by left]. }
  destruct (first_parent edges cur) as [p|] eqn:Ep.
  2: { exists rest. split_and!; [done|lia|right]. exists cur. split; [done|]. by rewrite Ep. }
  destruct (_ || _) eqn:E.
  { exists rest. split_and!; [done|lia|right]. exists cur. split; [done|]. rewrite Ep. intros q [= <-].
    apply orb_true_iff in E as [E%String.eqb_eq|E%bool_decide_eq_true]; [by left|right; by apply Hv]. }
  apply orb_false_iff in E as [E1%String.eqb_neq E2%bool_decide_eq_false].
  destruct (IH ({[p]} ∪ visited) (p :: path) (p :: rest) p) as (rest' & H1 & H2 & H3).
  - destruct Hp as [A B C]. split.
    + by rewrite A.
    + apply NoDup_cons. split; [|done]. by rewrite <- Hv.
    + intros [|i] q c; cbn [lookup list_lookup]; [|apply C]. intros [= <-] Hc.
      destruct path as [|c0 path]; [done|]. injection Hh as ->. by injection Hc as <-.
  - done.
  - intros x. rewrite elem_of_union, elem_of_singleton, elem_of_cons, Hv. done.
  - exists rest'. cbn [length] in *. split_and!; [done|lia|]. destruct H3 as [H3|H3]; [left; lia|by right].
Qed.

Lemma critical_path_spec k r leaf : traceCriticalPathLocked k r leaf <> [] ->
  let edges := default [] (k_graphEdgesByRun k !! r) in
  let path := traceCriticalPathLocked k r leaf in
  exists rest, path_ok edges leaf path rest /\ (length path <= max_path)%nat
  /\ (length path = max_path \/ path_end edges path rest).
Proof.
  unfold traceCriticalPathLocked. cbv zeta. destruct (_ || _); [done|]. intros _.
  apply (trace_up_spec (default [] (k_graphEdgesByRun k !! r)) leaf (max_path - 1) ∅ [leaf] [] leaf).
  - split; [done|by apply NoDup_nil|]. intros [|i] p c; cbn; done.
  - done.
  - intros x. split; [by intros ?%elem_of_empty|by intros ?%not_elem_of_nil].
Qed.

(** * The completeness check of a high-risk run's graph

    [graph_complete] against its meaning: one final decision node, and every
    required kind of node that occurs, occurs among its ancestors. *)

Definition node_ids (nodes : list DecisionGraphNode) : list string := map gn_NodeID nodes.

Definition decision_like (n : DecisionGraphNode) : Prop := isDecisionLike (gn_NodeType n) = true.

(** A decision-like node no edge of which leads to a decision-like node. *)
Definition final_node (nodes : list DecisionGraphNode) (edges : list DecisionGraphEdge)
    (n : DecisionGraphNode) : Prop :=
  n ∈ nodes /\ decision_like n
  /\ forall x m, x ∈ edges -> m ∈ nodes -> decision_like m ->
       ge_FromNodeID x = gn_NodeID n -> ge_ToNodeID x <> gn_NodeID m.

(** ** Nodes by identifier *)

Lemma index_nodes_fold l (m : gmap string DecisionGraphNode) id n : NoDup (node_ids l) ->
  (foldl (fun m n => <[gn_NodeID n := n]> m) m l) !! id = Some n <->
  (n ∈ l /\ gn_NodeID n = id) \/ (id ∉ node_ids l /\ m !! id = Some n).
Proof.
  revert m. induction l as [|x l IH]; intros m Hnd.
  { cbn. split; [right; split; [apply not_elem_of_nil|done]|].
    intros [[?%not_elem_of_nil _]|[_ ?]]; done. }
  unfold node_ids in *. cbn [map foldl] in *. apply NoDup_cons in Hnd as [Hni Hnd].
  rewrite IH by done. rewrite lookup_insert, elem_of_cons, not_elem_of_cons.
  destruct (decide (gn_NodeID x = id)) as [<-|Hne].
  - split.
    + intros [[? ?]|[? [= ->]]]; [tauto|]. left. by split; [left|].
    + intros [[[->|?] ?]|[[? _] _]]; [by right| |done]. by left.
  - split.
    + intros [[? ?]|[? ?]]; [tauto|]. right. by split_and!.
    + intros [[[->|?] ?]|[[? ?] ?]]; [done|by left|by right].
Qed.

Lemma index_nodes_lookup l id n : NoDup (node_ids l) ->
  index_nodes l !! id = Some n <-> n ∈ l /\ gn_NodeID n = id.
Proof.
  intros Hnd. unfold index_nodes. rewrite index_nodes_fold by done. rewrite lookup_empty.
  split; [intros [?|[_ ?]]; done|by left].
Qed.

Lemma filter_node_ids p l : NoDup (node_ids l) -> NoDup (node_ids (List.filter p l)).
Proof.
  unfold node_ids. induction l as [|n l IH]; [done|]. cbn [map List.filter].
  intros [Hni Hnd]%NoDup_cons. destruct (p n); [|by apply IH]. cbn [map]. apply NoDup_cons.
  split; [|by apply IH]. intros (m & E & Hm)%list_elem_of_fmap. apply Hni. rewrite E.
  rewrite list_elem_of_In, filter_In in Hm. apply (list_elem_of_fmap_2 gn_NodeID).
  apply list_elem_of_In, Hm.
Qed.

(** ** Out-degrees *)

Definition present {A} (o : option A) : bool := match o with Some _ => true | None => false end.


Definition counted (like : gmap string DecisionGraphNode) (id : string) (x : DecisionGraphEdge) : bool :=
  (ge_FromNodeID x =? id)%string && present (like !! id) && present (like !! ge_ToNodeID x).

Lemma out_degrees_lookup like edges id :
  default 0 (out_degrees like edges !! id)
  = wrap_int64 (Z.of_nat (length (List.filter (counted like id) edges))).
Proof.
  induction edges as [|x edges IH] using rev_ind.
  { unfold out_degrees. cbn. by rewrite lookup_empty. }
  unfold out_degrees in *. rewrite foldl_snoc, List.filter_app, length_app.
  set (m := foldl _ _ edges) in *. cbn [List.filter]. unfold counted at 2.
  destruct (like !! ge_FromNodeID x) as [a|] eqn:Ea; [destruct (like !! ge_ToNodeID x) as [b|] eqn:Eb|].
  - unfold incr. rewrite lookup_insert. destruct (ge_FromNodeID x =? id)%string eqn:E.
    + apply String.eqb_eq in E as <-. rewrite decide_True by done. cbn. rewrite IH, wrap_int64_add, Ea.
      cbn. f_equal. lia.
    + apply String.eqb_neq in E. rewrite decide_False by done. rewrite IH. cbn. f_equal. lia.
  - rewrite IH. cbn. rewrite andb_false_r. cbn. f_equal. lia.
  - rewrite IH. destruct (ge_FromNodeID x =? id)%string eqn:E; cbn.
    + apply String.eqb_eq in E as <-. rewrite Ea. cbn. f_equal. lia.
    + f_equal. lia.
Qed.

Lemma no_out_degree like edges id : Z.of_nat (length edges) < 2 ^ 63 ->
  (default 0 (out_degrees like edges !! id) =? 0) = true <->
  forall x, x ∈ edges -> counted like id x = false.
Proof.
  intros Hb. rewrite out_degrees_lookup. set (l := List.filter _ _).
  assert (length l <= length edges)%nat by apply filter_length_le.
  rewrite wrap_int64_id by (unfold in_int64, min_int64, max_int64; lia).
  rewrite Z.eqb_eq. split.
  - intros E x Hx. destruct (counted like id x) eqn:Ec; [|done]. exfalso.
    assert (x ∈ l) as Hl by (unfold l; rewrite list_elem_of_In, filter_In, <- list_elem_of_In; done).
    destruct l; [by apply not_elem_of_nil in Hl|]. cbn in E. lia.
  - intros Hc. assert (l = []) as ->; [|done]. destruct l as [|x l0] eqn:El; [done|]. exfalso.
    assert (In x (List.filter (counted like id) edges)) as Hin by (fold l; rewrite El; by left).
    rewrite filter_In, <- list_elem_of_In in Hin. destruct Hin as [Hin Hx]. by rewrite Hc in Hx.
Qed.

(** ** The final node *)

Section Final.
Context `{MapRange}.
Context (nodes : list DecisionGraphNode) (edges : list DecisionGraphEdge).
Hypothesis nodes_nodup : NoDup (node_ids nodes).
Hypothesis few_edges : Z.of_nat (length edges) < 2 ^ 63.

Lemma candidates_eq {V} (p : string -> bool) (m : gmap string V) :
  go_range (fun acc id n => if p id then acc ++ [n] else acc) [] m
  = map snd (List.filter (fun q => p q.1) (range_map m)).
Proof.
  unfold go_range. assert (forall ps acc, foldl (fun (acc : list V) (q : string * V) =>
      if p q.1 then acc ++ [q.2] else acc) acc ps = acc ++ map snd (List.filter (fun q => p q.1) ps)) as E.
  { induction ps as [|q ps IH]; intros acc; [by rewrite app_nil_r|]. cbn [foldl List.filter].
    rewrite IH. destruct (p q.1); [|done]. cbn. by rewrite <- app_assoc. }
  by rewrite E.
Qed.

Definition candidates : list DecisionGraphNode :=
  let like := index_nodes (List.filter (fun n => isDecisionLike (gn_NodeType n)) nodes) in
  map snd (List.filter (fun q => default 0 (out_degrees like edges !! q.1) =? 0) (range_map like)).

Lemma selectFinal_eq : selectFinalDecisionNode nodes edges
  = match candidates with [n] => Some n | _ => None end.
Proof. unfold selectFinalDecisionNode, candidates. cbv zeta. by rewrite candidates_eq. Qed.

Lemma like_lookup id n :
  index_nodes (List.filter (fun n => isDecisionLike (gn_NodeType n)) nodes) !! id = Some n
  <-> n ∈ nodes /\ decision_like n /\ gn_NodeID n = id.
Proof using nodes_nodup.
  rewrite index_nodes_lookup by (by apply filter_node_ids).
  rewrite list_elem_of_In, filter_In, <- list_elem_of_In. unfold decision_like. tauto.
Qed.

Lemma candidates_elem n : n ∈ candidates <-> final_node nodes edges n.
Proof using nodes_nodup few_edges.
  unfold candidates. cbv zeta. set (like := index_nodes _).
  rewrite list_elem_of_In, in_map_iff. split.
  - intros ([id n'] & <- & [Hin Hd]%filter_In). cbn [fst snd] in *.
    rewrite <- list_elem_of_In, range_map_elem in Hin.
    pose proof Hin as (Hn & Hl & <-)%like_lookup. split_and!; [done|done|].
    intros x m Hx Hm Hlm Ef Et. pose proof (proj1 (no_out_degree _ _ _ few_edges) Hd x Hx) as Hc.
    assert (like !! gn_NodeID m = Some m) as Em by (by apply like_lookup).
    unfold counted in Hc. rewrite Hin, Et, Em, Ef, String.eqb_refl in Hc. done.
  - intros (Hn & Hl & Hx). exists (gn_NodeID n, n). split; [done|].
    rewrite filter_In, <- list_elem_of_In, range_map_elem. cbn [fst].
    split; [by apply like_lookup|]. apply no_out_degree; [done|]. intros x Hxe.
    unfold counted. destruct (ge_FromNodeID x =? gn_NodeID n)%string eqn:E; [|done].
    apply String.eqb_eq in E. destruct (like !! ge_ToNodeID x) as [m|] eqn:Em; [|by rewrite andb_false_r].
    apply like_lookup in Em as (Hm & Hlm & Et). exfalso. by eapply (Hx x m).
Qed.

Lemma candidates_nodup : NoDup candidates.
Proof using nodes_nodup.
  unfold candidates. cbv zeta. set (like := index_nodes _).
  assert (NoDup (map gn_NodeID (map snd (List.filter
    (fun q => default 0 (out_degrees like edges !! q.1) =? 0) (range_map like))))) as Hnd.
  2: { clear -Hnd. induction (map snd _) as [|n l IH]; [by apply NoDup_nil|]. cbn in Hnd.
       apply NoDup_cons in Hnd as [Hni Hnd]. apply NoDup_cons. split; [|by apply IH].
       intros Hin. apply Hni. by apply (list_elem_of_fmap_2 gn_NodeID). }
  pose proof (range_map_nodup like) as Hr.
  assert (Hk : forall q, q ∈ range_map like -> gn_NodeID q.2 = q.1).
  { intros [id n] Hq. apply range_map_elem in Hq. by apply like_lookup in Hq as (_ & _ & ?). }
  revert Hk Hr. generalize (range_map like) as ps. clear. induction ps as [|q ps IH]; intros Hk Hr.
  { by apply NoDup_nil. }
  cbn [fmap list_fmap] in Hr. apply NoDup_cons in Hr as [Hni Hr].
  specialize (IH (fun q' Hq' => Hk q' (proj2 (elem_of_cons _ _ _) (or_intror Hq'))) Hr).
  cbn [List.filter]. destruct (_ =? _); [|done]. cbn [map]. apply NoDup_cons. split; [|done].
  rewrite map_map. intros (q' & E & Hq')%list_elem_of_fmap.
  rewrite list_elem_of_In, filter_In, <- list_elem_of_In in Hq'. destruct Hq' as [Hq' _].
  apply Hni. rewrite <- (Hk q (list_elem_of_here _ _)), E, (Hk q' (list_elem_of_further _ _ _ Hq')).
  by apply list_elem_of_fmap_2.
Qed.

Lemma selectFinal_spec n : selectFinalDecisionNode nodes edges = Some n <->
  final_node nodes edges n /\ forall m, final_node nodes edges m -> m = n.
Proof using nodes_nodup few_edges.
  rewrite selectFinal_eq. pose proof candidates_elem as He. pose proof candidates_nodup as Hnd.
  destruct candidates as [|a [|b l]].
  - split; [done|]. intros [Hf _]. apply He in Hf. by apply not_elem_of_nil in Hf.
  - split.
    + intros [= <-]. split; [apply He, list_elem_of_here|]. intros m Hm%He.
      by apply list_elem_of_singleton in Hm.
    + intros [_ Hu]. f_equal. apply Hu, He, list_elem_of_here.
  - split; [done|]. intros [_ Hu]. exfalso. apply NoDup_cons in Hnd as [Hni _]. apply Hni.
    assert (a = n) as -> by (apply Hu, He; set_solver).
    assert (b = n) as -> by (apply Hu, He; set_solver). apply list_elem_of_here.
Qed.
End Final.

(** * The recorded decision graph

    What a run's graph satisfies in every reachable state, as a function of the
    run's stored events. *)

Definition edge_triple (x : DecisionGraphEdge) : string * string * string :=
  (ge_FromNodeID x, ge_ToNodeID x, ge_EdgeType x).

(** The parents an event declares. *)
Definition declared (e : CanonicalEvent) : list string :=
  extractStringSlice (cv_Payload e) "parent_decision_node_ids".

Record graph_wf (l : list CanonicalEvent) (s : gstate) : Prop := {
  gw_nodes : NoDup (node_ids (gs_nodes s));
  gw_edges : NoDup (map edge_triple (gs_edges s));
  gw_ref : forall n, n ∈ gs_nodes s ->
    exists e, e ∈ l /\ gn_NodeRef n = cv_EventID e /\ gn_NodeID n = event_node_id e;
  gw_node_of : forall e, e ∈ l -> event_node_id e ∈ node_ids (gs_nodes s);
  gw_to : forall x, x ∈ gs_edges s -> ge_ToNodeID x ∈ node_ids (gs_nodes s);
  gw_parents : forall e p, e ∈ l -> p ∈ declared e ->
    (p, event_node_id e, "causal") ∈ map edge_triple (gs_edges s);
  gw_last : gs_last s = match last l with Some e => event_node_id e | None => "" end;
  gw_count : (length (gs_nodes s) <= length l)%nat
}.

Lemma upsert_node_ids n l : node_ids (upsert_node n l)
  = if decide (gn_NodeID n ∈ node_ids l) then node_ids l else node_ids l ++ [gn_NodeID n].
Proof.
  unfold node_ids. induction l as [|m l IH].
  { cbn. rewrite decide_False; [done|]. apply not_elem_of_nil. }
  cbn [upsert_node map]. destruct (gn_NodeID m =? gn_NodeID n)%string eqn:E.
  - apply String.eqb_eq in E. rewrite decide_True by (rewrite E; apply list_elem_of_here).
    cbn. by destruct (blank _).
  - apply String.eqb_neq in E. cbn [map]. rewrite IH. destruct (decide (_ ∈ map gn_NodeID l)) as [H|H].
    + rewrite decide_True; [done|]. by apply list_elem_of_further.
    + rewrite decide_False; [done|]. by apply not_elem_of_cons.
Qed.

Lemma upsert_node_elem n l m : m ∈ upsert_node n l ->
  m ∈ l \/ m = n \/ exists m0, m0 ∈ l /\ gn_NodeID m0 = gn_NodeID n /\ m = gn_set_NodeRef (gn_NodeRef n) m0.
Proof.
  induction l as [|x l IH]; cbn [upsert_node].
  { intros ->%list_elem_of_singleton. by right; left. }
  destruct (gn_NodeID x =? gn_NodeID n)%string eqn:E.
  - apply String.eqb_eq in E. intros [->|H]%elem_of_cons.
    + destruct (blank _); [left; apply list_elem_of_here|]. right; right. exists x.
      split; [apply list_elem_of_here|done].
    + left. by apply list_elem_of_further.
  - intros [->|H]%elem_of_cons; [left; apply list_elem_of_here|].
    apply IH in H as [H|[->|(m0 & H & ?)]]; [left; by apply list_elem_of_further|by right; left|].
    right; right. exists m0. split; [by apply list_elem_of_further|done].
Qed.

Lemma upsert_node_length n l : (length (upsert_node n l) <= S (length l))%nat.
Proof.
  induction l as [|x l IH]; cbn; [done|]. destruct (_ =? _)%string; cbn; lia.
Qed.

Lemma same_edge_triple x y : same_edge x y = true <-> edge_triple x = edge_triple y.
Proof.
  unfold same_edge, edge_triple. rewrite !andb_true_iff, !String.eqb_eq. split.
  - by intros [[-> ->] ->]. - intros E. by simplify_eq.
Qed.

Lemma add_edge_triples l x : map edge_triple (add_edge l x)
  = if decide (edge_triple x ∈ map edge_triple l) then map edge_triple l
    else map edge_triple l ++ [edge_triple x].
Proof.
  unfold add_edge. destruct (existsb _ _) eqn:E.
  - rewrite existsb_exists in E. destruct E as (y & Hy & Exy%same_edge_triple).
    rewrite decide_True; [done|]. rewrite <- Exy. apply list_elem_of_fmap_2. by apply list_elem_of_In.
  - rewrite decide_False; [by rewrite map_app|]. intros (y & Exy & Hy)%list_elem_of_fmap.
    assert (existsb (fun y => same_edge y x) l = true) as Ht; [|congruence].
    apply existsb_exists. exists y. split; [by apply list_elem_of_In|]. by apply same_edge_triple.
Qed.

Lemma add_edge_elem l x y : y ∈ add_edge l x -> y ∈ l \/ y = x.
Proof. unfold add_edge. destruct (existsb _ _); [by left|]. rewrite elem_of_app, list_elem_of_singleton. tauto. Qed.

Lemma add_edges_spec xs : forall l, NoDup (map edge_triple l) ->
  let l' := foldl add_edge l xs in
  NoDup (map edge_triple l') /\ (forall y, y ∈ l' -> y ∈ l \/ y ∈ xs)
  /\ (forall t, t ∈ map edge_triple l' <-> t ∈ map edge_triple l \/ t ∈ map edge_triple xs).
Proof.
  induction xs as [|x xs IH]; intros l Hnd; cbn zeta; cbn [foldl].
  { split_and!; [done|by left|]. intros t. split; [by left|].
    intros [?|?%not_elem_of_nil]; done. }
  destruct (IH (add_edge l x)) as (H1 & H2 & H3).
  { rewrite add_edge_triples. destruct (decide _); [done|]. apply NoDup_app.
    split_and!; [done|by intros t Ht ->%list_elem_of_singleton|apply NoDup_singleton]. }
  split_and!; [done| |].
  - intros y [Hy|Hy]%H2; [|right; by apply list_elem_of_further].
    apply add_edge_elem in Hy as [?| ->]; [by left|right; apply list_elem_of_here].
  - intros t. rewrite H3, add_edge_triples. cbn [map]. rewrite elem_of_cons.
    destruct (decide _); [|rewrite elem_of_app, list_elem_of_singleton; tauto].
    split; [tauto|]. intros [?|[->|?]]; tauto.
Qed.

Lemma new_edges_elem e now s x : x ∈ new_edges e now s -> ge_ToNodeID x = event_node_id e.
Proof.
  unfold new_edges. destruct (extractStringSlice _ _) as [|p ps].
  - destruct (_ && _); [|by intros ?%not_elem_of_nil]. by intros ->%list_elem_of_singleton.
  - by intros (q & -> & _)%list_elem_of_fmap.
Qed.

Lemma new_edges_declared e now s p : p ∈ declared e ->
  (p, event_node_id e, "causal") ∈ map edge_triple (new_edges e now s).
Proof.
  unfold new_edges, declared. destruct (extractStringSlice _ _) as [|q ps]; [by intros ?%not_elem_of_nil|].
  intros Hp. rewrite map_map. by apply (list_elem_of_fmap_2 (fun p => edge_triple (graph_edge e p _ "causal" now))).
Qed.

Lemma graph_step_wf l s e now : graph_wf l s -> blank (cv_RunID e) = false ->
  graph_wf (l ++ [e]) (graph_step s (e, now)).
Proof.
  intros [A B C D F G I J] Hb. unfold graph_step. cbn [fst snd]. rewrite Hb.
  destruct (add_edges_spec (new_edges e now (gs_last s)) _ B) as (H1 & H2 & H3).
  pose proof (upsert_node_ids (event_node e now) (gs_nodes s)) as Hids.
  change (gn_NodeID (event_node e now)) with (event_node_id e) in Hids.
  assert (Hin : forall i, i ∈ node_ids (upsert_node (event_node e now) (gs_nodes s))
    <-> i ∈ node_ids (gs_nodes s) \/ i = event_node_id e).
  { intros i. rewrite Hids. destruct (decide _); [|by rewrite elem_of_app, list_elem_of_singleton].
    split; [by left|]. intros [?| ->]; done. }
  split; cbn [gs_nodes gs_edges gs_last].
  - rewrite Hids. destruct (decide _); [done|]. apply NoDup_app.
    split_and!; [done|by intros t Ht ->%list_elem_of_singleton|apply NoDup_singleton].
  - exact H1.
  - intros n [Hn|[->|(m & Hm & Em & ->)]]%upsert_node_elem.
    + apply C in Hn as (x & Hx & ?). exists x. split; [|done]. apply elem_of_app. by left.
    + exists e. split; [|done]. apply elem_of_app. right. apply list_elem_of_here.
    + exists e. split; [|done]. apply elem_of_app. right. apply list_elem_of_here.
  - intros x [Hx| ->%list_elem_of_singleton]%elem_of_app; apply Hin; [left; by apply D|by right].
  - intros x [Hx|Hx%new_edges_elem]%H2; apply Hin; [left; by apply F|by right].
  - intros x p [Hx| ->%list_elem_of_singleton]%elem_of_app Hp; apply H3; [left; by apply G|].
    right. by apply new_edges_declared.
  - by rewrite last_snoc.
  - pose proof (upsert_node_length (event_node e now) (gs_nodes s)). rewrite length_app. cbn. lia.
Qed.

Lemma no_graph_wf : graph_wf [] no_graph.
Proof.
  split; cbn; try by apply NoDup_nil. 5: done. 5: lia.
  all: by intros *; intros ?%not_elem_of_nil.
Qed.

Lemma graph_fold_wf l ts : length ts = length l -> Forall (fun e => blank (cv_RunID e) = false) l ->
  graph_wf l (graph_fold l ts).
Proof.
  revert ts. induction l as [|e l IH] using rev_ind; intros ts Hl Hb.
  { destruct ts; [apply no_graph_wf|done]. }
  destruct ts as [|t ts _] using rev_ind; [rewrite length_app in Hl; cbn in Hl; lia|].
  rewrite !length_app in Hl. cbn in Hl. apply Forall_app in Hb as [Hb He]. rewrite Forall_singleton in He.
  rewrite graph_fold_snoc by lia. apply graph_step_wf; [apply IH; [lia|done]|done].
Qed.

(** The graph of a run in a state that satisfies the invariants. *)
Lemma graph_of_wf k r : EInv k -> DInv k -> blank r = false -> graph_wf (events_of k r) (graph_of k r).
Proof.
  intros HI HD Hb. destruct (di_graph _ HD r) as (ts & Hl & ->). apply graph_fold_wf; [done|].
  apply Forall_forall. intros e (rd & Er & He)%elem_events_of.
  by rewrite (wf_run _ (ei_wf _ HI) r rd e Er He).
Qed.

(** ** Completeness *)

(** The meaning of the completeness check. *)
Definition complete (nodes : list DecisionGraphNode) (edges : list DecisionGraphEdge) : Prop :=
  edges <> [] /\ exists f, final_node nodes edges f /\ (forall m, final_node nodes edges m -> m = f)
  /\ forall t, t ∈ required_types -> (exists n, n ∈ nodes /\ gn_NodeType n = t) ->
       exists n, n ∈ nodes /\ gn_NodeType n = t /\ ancestor edges (gn_NodeID f) (gn_NodeID n).

Section Complete.
Context `{MapRange}.

Lemma parents_linked_wf l s : graph_wf l s ->
  forallb (parents_linked (list_to_set (map (fun e => edge_key (ge_FromNodeID e) (ge_ToNodeID e))
    (gs_edges s)))) l = true.
Proof.
  intros HG. apply forallb_forall. intros e He%list_elem_of_In. apply forallb_forall.
  intros p Hp%list_elem_of_In. apply bool_decide_eq_true, elem_of_list_to_set.
  pose proof (gw_parents _ _ HG e p He Hp) as (x & Ex & Hx)%list_elem_of_fmap.
  unfold edge_triple in Ex. injection Ex as -> -> _.
  by apply (list_elem_of_fmap_2 (fun e => edge_key (ge_FromNodeID e) (ge_ToNodeID e))).
Qed.

Lemma hasType_spec nodes visited t : NoDup (node_ids nodes) ->
  hasTypeInClosure (index_nodes nodes) visited t = true
  <-> exists n, n ∈ nodes /\ gn_NodeType n = t /\ gn_NodeID n ∈ visited.
Proof.
  intros Hnd. unfold hasTypeInClosure. rewrite existsb_exists. split.
  - intros (id & Hid%list_elem_of_In & Ht). destruct (index_nodes nodes !! id) as [n|] eqn:E; [|done].
    apply index_nodes_lookup in E as [Hn <-]; [|done]. apply String.eqb_eq in Ht.
    exists n. split_and!; [done|done|]. by apply elem_of_elements.
  - intros (n & Hn & <- & Hv). exists (gn_NodeID n). split; [by apply list_elem_of_In, elem_of_elements|].
    assert (index_nodes nodes !! gn_NodeID n = Some n) as -> by (by apply index_nodes_lookup).
    apply String.eqb_refl.
Qed.

Lemma graph_complete_spec l s : graph_wf l s -> Z.of_nat (length (gs_edges s)) < 2 ^ 63 ->
  graph_complete l (gs_nodes s) (gs_edges s) = true <-> complete (gs_nodes s) (gs_edges s).
Proof.
  intros HG Hb. pose proof (gw_nodes _ _ HG) as Hnd. pose proof (parents_linked_wf _ _ HG) as Hp.
  pose proof (fun n => selectFinal_spec _ _ Hnd Hb n) as Hf.
  unfold graph_complete, complete. destruct s as [nodes edges lst]. cbn [gs_nodes gs_edges] in *.
  destruct nodes as [|n0 nodes0].
  { split; [done|]. intros (_ & f & (Hn & _) & _). by apply not_elem_of_nil in Hn. }
  destruct edges as [|x0 edges0]; [by split; [|intros [? _]]|].
  set (nodes := n0 :: nodes0) in *. set (edges := x0 :: edges0) in *.
  destruct (selectFinalDecisionNode nodes edges) as [f|] eqn:Es.
  - pose proof (proj1 (Hf f) eq_refl) as [Hff Hu]. rewrite Hp. cbn [andb]. rewrite forallb_forall. split.
    + intros Ht. split; [done|]. exists f. split_and!; [done|done|]. intros t Hin%list_elem_of_In (n & Hn & En).
      specialize (Ht t Hin). apply orb_true_iff in Ht as [Ht|Ht].
      * exfalso. apply negb_true_iff in Ht. assert (existsb (fun n => (gn_NodeType n =? t)%string) nodes = true)
          as Hx; [|congruence]. apply existsb_exists. exists n. split; [by apply list_elem_of_In|].
        by apply String.eqb_eq.
      * apply hasType_spec in Ht as (m & Hm & Em & Hc); [|done]. exists m. split_and!; [done|done|].
        by apply closure_spec.
    + intros (_ & f' & Hf' & _ & Ht) t Hin. apply Hu in Hf' as ->.
      destruct (existsb (fun n => (gn_NodeType n =? t)%string) nodes) eqn:Ex; [|reflexivity].
      cbn [negb orb].
      apply existsb_exists in Ex as (n & Hn%list_elem_of_In & En%String.eqb_eq).
      apply hasType_spec; [done|]. destruct (Ht t) as (m & Hm & Em & Hc);
        [by apply list_elem_of_In|by exists n|]. exists m. split_and!; [done|done|]. by apply closure_spec.
  - split; [done|]. intros (_ & f & Hff & Hu & _).
    assert (None = Some f) as Hx; [|done]. by apply Hf.
Qed.
End Complete.
