(* ===== verification/EvExamples.v ===== *)
(** * A concrete history of the Evidence kernel, the input of the witnesses

    A high-risk run of one tenant: a context event, a decision caused by it and
    charged for, then a low-tier event, a deletion request and a sweep. *)

From S2P Require Import Prelude GoStrings Sha256 GoTime GoJson EvTypes EvEvents EvKernel EvRetain EvGraph EvReports EvFrame EvChain EvIngest EvRebuild EvSweep EvDerived EvTrace.

Definition ev_cfg : Config :=
  mk_Config 0 0 0 0 0 0 0 fzero fzero fzero 0 0 None false.

Definition ev_t0 : time := unix_epoch + 1700000000 * Second.
Definition ev_at (n : Z) : time := ev_t0 + n * Minute.

Definition ev_request (id type source decision risk tier : string) (ts : time) (p : payload)
    (u : option UsageInput) : IngestEventRequest :=
  mk_IngestEventRequest id type 1 source " run-1 " "step-1" decision "tenant-1" "project-1" "workflow-1"
    risk tier "" false ts "s3://payload" "" false p fzero u.

Definition ev_req1 : IngestEventRequest :=
  ev_request "ev-1" "context_built" "run_kernel" "" "HIGH" "tier0" (ev_at 0)
    (Some [("decision_node_id", GStr "n1")]) None.
Definition ev_req2 : IngestEventRequest :=
  ev_request "ev-2" "outcome_recorded" "decision_kernel" "dec-1" "low" "" (ev_at 1)
    (Some [("decision", GStr "allow"); ("decision_node_id", GStr "n2");
           ("parent_decision_node_ids", GArr [GStr "n1"])])
    (Some (mk_UsageInput "tokens" (float_of_Z 3) "count" (float_of_Z 1))).
Definition ev_req3 : IngestEventRequest :=
  ev_request "ev-3" "heartbeat" "adapter" "" "low" "tier3" (ev_at 2) None None.

Definition e0 : Kernel := NewKernel ev_cfg.
Definition e1 : Kernel := Eval vm_compute in fst (IngestEvent ev_req1 (ev_at 0) (ev_at 0) e0).
Definition e2 : Kernel := Eval vm_compute in fst (IngestEvent ev_req2 (ev_at 1) (ev_at 1) e1).
Definition e3 : Kernel := Eval vm_compute in fst (IngestEvent ev_req3 (ev_at 2) (ev_at 2) e2).
Definition ev_dsar : DSARDeleteRequest := mk_DSARDeleteRequest "req-1" " tenant-1 " "" "" 0.
Definition e4 : Kernel := Eval vm_compute in fst (DeleteByDSAR ev_dsar (ev_at 3) e3).

Lemma ev_step (o : op) k k' : exec (MR := canonical_range) o k = k' -> step k k'.
Proof. intros <-. apply (step_op canonical_range). Qed.

Lemma e1_reach : reach ev_cfg e1.
Proof.
  apply (reach_step _ e0); [constructor|].
  apply (ev_step (OpIngest ev_req1 (ev_at 0) (ev_at 0))). vm_compute. reflexivity.
Qed.

Lemma e2_reach : reach ev_cfg e2.
Proof.
  apply (reach_step _ e1); [exact e1_reach|].
  apply (ev_step (OpIngest ev_req2 (ev_at 1) (ev_at 1))). vm_compute. reflexivity.
Qed.

Lemma e3_reach : reach ev_cfg e3.
Proof.
  apply (reach_step _ e2); [exact e2_reach|].
  apply (ev_step (OpIngest ev_req3 (ev_at 2) (ev_at 2))). vm_compute. reflexivity.
Qed.

Lemma e4_reach : reach ev_cfg e4.
Proof.
  apply (reach_step _ e3); [exact e3_reach|].
  apply (ev_step (OpDelete ev_dsar (ev_at 3))). vm_compute. reflexivity.
Qed.
