(* ===== verification/EvIngestTheorems.v ===== *)
(** * Theorems about ingestion

    What is stored, degraded or dropped, and that ingestion is idempotent. *)

From S2P Require Import Prelude GoStrings Sha256 GoTime GoJson EvTypes EvEvents EvKernel EvRetain EvGraph EvReports EvFrame EvChain EvIngest EvRebuild EvSweep EvDerived EvTrace EvExamples.

(** ** The ingestion table *)

(** The run is over one of its two budgets with this event. *)
Definition over_budget (cfg : Config) (rd : storedRunData) (e : CanonicalEvent) : bool :=
  (ec_MaxEventsPerRun cfg <? wrap_int64 (st_Events (rd_Stats rd) + 1))
  || (ec_MaxEvidenceBytesPerRun cfg <? wrap_int64 (st_Bytes (rd_Stats rd) + cv_EstimatedBytes e)).

(** What a backpressure level lets through. *)
Definition pressed (level : Z) (e : CanonicalEvent) : bool :=
  negb (isHighRisk (cv_RiskTier e))
  && ((level =? 1) && isTierDroppable (cv_EvidenceTier e)
      || (2 <=? level) && negb (cv_EvidenceTier e =? Tier0)%string).

(** What sampling lets through. *)
Definition sampled_out (cfg : Config) (load : float64) (e : CanonicalEvent) : bool :=
  negb (isHighRisk (cv_RiskTier e)) && fleb (ec_HighLoadThreshold cfg) load
  && ((cv_EvidenceTier e =? Tier2)%string && shouldDropByRate (cv_EventID e) (ec_Tier2HighLoadDropRate cfg)
      || (cv_EvidenceTier e =? Tier3)%string && shouldDropByRate (cv_EventID e) (ec_Tier3HighLoadDropRate cfg)).

Definition action_of (k : Kernel) (load : float64) (e : CanonicalEvent) : ingest_action :=
  if over_budget (k_cfg k) (run_data k (cv_RunID e)) e
  then if isTierDroppable (cv_EvidenceTier e) then Drop else Degrade
  else if pressed (effectiveBackpressureLevelLocked k (cv_SourceComponent e) (cv_TenantID e)) e
          || sampled_out (k_cfg k) load e
  then Drop else Accept.

Lemma budget_reasons_spec cfg rd e : cfg_ok cfg ->
  match budget_reasons cfg rd e with [] => false | _ => true end = over_budget cfg rd e.
Proof.
  intros (H1 & H2 & _). unfold budget_reasons, over_budget.
  rewrite (proj2 (Z.ltb_lt 0 _) H1), (proj2 (Z.ltb_lt 0 _) H2). cbn [andb].
  by destruct (_ <? _), (_ <? _).
Qed.

Lemma backpressure_spec level e : level_ok level ->
  match backpressure_drop level e with Some _ => true | None => false end = pressed level e.
Proof.
  intros Hl. unfold level_ok in Hl. unfold backpressure_drop, pressed.
  assert (level = 0 \/ level = 1 \/ level = 2 \/ level = 3) as [->|[->|[->| ->]]] by lia;
    unfold BackpressureLevel1, BackpressureLevel2, BackpressureLevel3; cbn -[isHighRisk isTierDroppable].
  - by rewrite andb_false_r.
  - rewrite orb_false_r. by destruct (isTierDroppable _), (isHighRisk _).
  - by destruct (isHighRisk _), (_ =? _)%string.
  - by destruct (isHighRisk _), (_ =? _)%string.
Qed.

Lemma sampling_spec cfg load e :
  match sampling_drop cfg load e with Some _ => true | None => false end = sampled_out cfg load e.
Proof.
  unfold sampling_drop, sampled_out. destruct (fleb _ _), (isHighRisk _); try done. cbn [negb andb].
  destruct ((cv_EvidenceTier e =? Tier2)%string && _); [done|]. cbn [orb]. by destruct (_ && _).
Qed.

Lemma effective_level_ok k s t : levels_ok k -> level_ok (effectiveBackpressureLevelLocked k s t).
Proof.
  intros [A B C]. unfold effectiveBackpressureLevelLocked.
  assert (Hs : forall m key l, map_Forall (fun _ => level_ok) m -> level_ok l ->
    level_ok (match (m : gmap string Z) !! key with Some x => if l <? x then x else l | None => l end)).
  { intros m key l Hm Hl. destruct (m !! key) as [x|] eqn:E; [|done]. destruct (l <? x); [by eapply Hm|done]. }
  apply Hs; [done|]. by apply Hs.
Qed.

Lemma ensure_run_cfg r k : k_cfg (ensureRunDataLocked r k) = k_cfg k.
Proof. unfold ensureRunDataLocked. by destruct (k_runs k !! r). Qed.

Lemma ensure_run_level r k s t :
  effectiveBackpressureLevelLocked (ensureRunDataLocked r k) s t = effectiveBackpressureLevelLocked k s t.
Proof. unfold ensureRunDataLocked. by destruct (k_runs k !! r). Qed.

Lemma decide_action e load now k : KInv k ->
  fst (snd (decideIngestAction e load now k)) = action_of k load e.
Proof.
  intros HK. pose proof (ei_cfg _ (ki_evidence _ HK)) as Hc.
  unfold decideIngestAction, action_of. cbv zeta. rewrite ensure_run_data, ensure_run_cfg, ensure_run_level.
  rewrite <- (budget_reasons_spec _ _ _ Hc).
  rewrite <- (backpressure_spec _ _ (effective_level_ok _ _ _ (ki_levels _ HK))), <- sampling_spec.
  destruct (budget_reasons _ _ _); [|by destruct (isTierDroppable _)].
  destruct (backpressure_drop _ _); [done|]. by destruct (sampling_drop _ _ _).
Qed.

(** ** What a call with a new, valid event does *)

(** The request passes every check before the decision, with this registration. *)
Definition admitted (k : Kernel) (norm : IngestEventRequest) (reg : SourceRegistration) : Prop :=
  validateIngestRequest norm = None
  /\ k_registeredSources k !! rq_SourceComponent norm = Some reg
  /\ sr_MinSchema reg <= rq_SchemaVersion norm.

Lemma IngestEvent_new req now now2 k reg : let norm := normalizeIngestRequest req now in
  admitted k norm reg -> k_eventsByID k !! rq_EventID norm = None ->
  IngestEvent req now now2 k
  = let '(k', resp) := ingest_new norm reg now now2 (bump "ingest_attempt_total" k) in (k', Ok resp).
Proof.
  cbv zeta. intros (V & R & M) Hid. unfold IngestEvent. cbv zeta. rewrite V.
  change (k_registeredSources (bump _ k)) with (k_registeredSources k). rewrite R.
  destruct (_ <? _) eqn:E; [bool_hyps; lia|].
  change (k_eventsByID (bump _ k)) with (k_eventsByID k). by rewrite Hid.
Qed.

(** The event that a store with this action keeps. *)
Definition kept_event (a : ingest_action) (e : CanonicalEvent) : CanonicalEvent :=
  match a with Degrade => degrade_event e | _ => e end.

Lemma ingest_new_events norm reg now now2 k : KInv k ->
  let e := request_event norm reg in
  let a := action_of k (rq_SystemLoad norm) e in
  let '(k', resp) := ingest_new norm reg now now2 k in
  rs_Accepted resp = true /\ rs_Deduped resp = false
  /\ rs_EventID resp = rq_EventID norm /\ rs_RunID resp = rq_RunID norm
  /\ rs_Dropped resp = (match a with Drop => true | _ => false end)
  /\ rs_Degraded resp = (match a with Degrade => true | Drop => false | Accept => cv_Degraded e end)
  /\ forall r, events_of k' r = match a with
       | Drop => events_of k r
       | _ => if decide (r = rq_RunID norm)
              then events_of k r ++ [seal (run_chain k r) (kept_event a e)] else events_of k r end.
Proof.
  intros HK. unfold ingest_new. cbv zeta. fold (request_event norm reg).
  pose proof (request_event_fields norm reg) as (Ei & Er & _).
  set (e := request_event norm reg) in *. clearbody e.
  pose proof (decide_evidence e (rq_SystemLoad norm) now2 k) as Hd.
  pose proof (decide_action e (rq_SystemLoad norm) now2 k HK) as Ha.
  destruct (decideIngestAction _ _ _ _) as [k1 [a reasons]]. cbn [fst snd] in *. rewrite <- Ha. clear Ha.
  apply evidence_fields in Hd as (Hd & _).
  assert (Hev : forall r, events_of k1 r = events_of k r).
  { intros r. pose proof (store_fields _ _ Hd) as (_ & _ & _ & Ex & _). apply events_of_runs in Ex.
    rewrite Ex. unfold events_of. by rewrite ensure_run_data. }
  assert (Hch : forall r, run_chain k1 r = run_chain k r).
  { intros r. pose proof (store_fields _ _ Hd) as (_ & _ & _ & _ & _ & _ & Ex & _). apply run_chain_eq in Ex.
    rewrite Ex. unfold ensureRunDataLocked. by destruct (k_runs k !! cv_RunID e). }
  assert (Hst : forall x k2, evidence k2 = evidence k1 -> cv_RunID x = cv_RunID e ->
    forall r, events_of (fst (ingest_store x now k2)) r = if decide (r = rq_RunID norm)
      then events_of k r ++ [seal (run_chain k r) x] else events_of k r).
  { intros x k2 (E2 & _)%evidence_fields Ex r. pose proof (ingest_store_store x now k2) as Es.
    apply store_fields in Es as (_ & _ & _ & Es & _). apply events_of_runs in Es. rewrite Es, hot_step_events.
    apply store_fields in E2 as (_ & _ & _ & E2 & _ & _ & E3 & _).
    apply events_of_runs in E2. apply run_chain_eq in E3. rewrite E2, Hev, Ex, Er.
    destruct (decide _) as [->|]; [|done]. unfold sealed_event. by rewrite E3, Hch, Ex, Er. }
  destruct a.
  - cbn [rs_Accepted rs_Deduped rs_EventID rs_RunID rs_Dropped rs_Degraded ingest_response].
    split_and!; try done. intros r.
    set (k2 := emitLocked _ _ _ _ _). assert (evidence k2 = evidence k1) as E2
      by (unfold k2; by rewrite emit_evidence, bump_evidence).
    apply evidence_fields in E2 as (E2 & _). apply store_fields in E2 as (_ & _ & _ & E2 & _).
    apply events_of_runs in E2. by rewrite E2, Hev.
  - pose proof (degrade_fields e) as (Di & Dr & _). cbv zeta in *.
    set (k2 := emitLocked _ _ _ _ _).
    assert (evidence k2 = evidence k1) as E2 by (unfold k2; by rewrite emit_evidence).
    pose proof (Hst (degrade_event e) k2 E2 Dr) as Hx.
    pose proof (ingest_store_event (degrade_event e) now k2) as Hy.
    destruct (ingest_store _ _ k2) as [k3 e3]. cbn [fst snd] in *. rewrite Hy.
    cbn [rs_Accepted rs_Deduped rs_EventID rs_RunID rs_Dropped rs_Degraded ingest_response].
    assert (cv_Degraded (degrade_event e) = true) as Hdeg by (unfold degrade_event; by destruct (safeHash _)).
    split_and!; try done.
  - pose proof (Hst e k1 eq_refl eq_refl) as Hx. pose proof (ingest_store_event e now k1) as Hy.
    destruct (ingest_store _ _ k1) as [k3 e3]. cbn [fst snd] in *. rewrite Hy. by split_and!.
Qed.

Lemma seal_id st e : cv_EventID (seal st e) = cv_EventID e.
Proof. reflexivity. Qed.
Lemma seal_run st e : cv_RunID (seal st e) = cv_RunID e.
Proof. reflexivity. Qed.

Lemma ingest_stored req now now2 k reg : let norm := normalizeIngestRequest req now in
  let e := request_event norm reg in let a := action_of k (rq_SystemLoad norm) e in
  KInv k -> admitted k norm reg -> k_eventsByID k !! rq_EventID norm = None ->
  k_eventsByID (fst (IngestEvent req now now2 k)) !! rq_EventID norm
  = match a with Drop => None | _ => Some (seal (run_chain k (rq_RunID norm)) (kept_event a e)) end.
Proof.
  cbv zeta. intros HK Had Hid. set (norm := normalizeIngestRequest req now) in *.
  pose proof (IngestEvent_KInv req now now2 k HK) as HK'.
  pose proof (IngestEvent_new req now now2 k reg Had Hid) as E. cbv zeta in E. fold norm in E.
  pose proof (bump_KInv "ingest_attempt_total" k HK) as HKb.
  pose proof (ingest_new_events norm reg now now2 _ HKb) as Hn. cbv zeta in Hn.
  change (action_of (bump "ingest_attempt_total" k)) with (action_of k) in Hn.
  pose proof (request_event_fields norm reg) as (Ei & Er & _).
  set (e := request_event norm reg) in *.
  destruct (ingest_new _ _ _ _ _) as [k' resp]. rewrite E in *. cbn [fst] in *. clear E.
  destruct Hn as (_ & _ & _ & _ & _ & _ & Hev).
  change (events_of (bump _ k)) with (events_of k) in Hev. change (run_chain (bump _ k)) with (run_chain k) in Hev.
  assert (forall x, cv_EventID x = rq_EventID norm -> cv_RunID x = rq_RunID norm ->
    events_of k' (rq_RunID norm) = events_of k (rq_RunID norm) ++ [x] ->
    k_eventsByID k' !! rq_EventID norm = Some x) as Hs.
  { intros x Ex Erx Hl. apply (ei_index _ (ki_evidence _ HK')). split; [done|]. rewrite Erx, Hl.
    apply elem_of_app. right. apply list_elem_of_here. }
  destruct (action_of _ _ _).
  - destruct (k_eventsByID k' !! _) as [x|] eqn:Ex; [|done]. exfalso.
    apply (ei_index _ (ki_evidence _ HK')) in Ex as [Exi Hx]. rewrite Hev in Hx.
    assert (k_eventsByID k !! rq_EventID norm = Some x) as Hc; [|congruence].
    by apply (ei_index _ (ki_evidence _ HK)).
  - pose proof (degrade_fields e) as (Di & Dr & _). cbv zeta in *.
    apply Hs; [rewrite seal_id, <- Ei; exact Di|rewrite seal_run, <- Er; exact Dr|].
    by rewrite Hev, decide_True.
  - apply Hs; [by rewrite seal_id|by rewrite seal_run|]. by rewrite Hev, decide_True.
Qed.

(** C19: the ingestion table.  In any reachable state, an admitted request with a
    new event identifier is always answered; the event is dropped, degraded or
    accepted as [action_of] says (run budgets first, then the effective
    backpressure level, then load sampling), the response's flags say which, and
    the run's stored events grow by exactly the sealed event, unless dropped. *)
Theorem ingest_decides cfg k req now now2 reg : reach cfg k ->
  let norm := normalizeIngestRequest req now in
  admitted k norm reg -> k_eventsByID k !! rq_EventID norm = None ->
  let e := request_event norm reg in
  let a := action_of k (rq_SystemLoad norm) e in
  let k' := fst (IngestEvent req now now2 k) in
  exists resp, snd (IngestEvent req now now2 k) = Ok resp
  /\ rs_Deduped resp = false /\ rs_EventID resp = rq_EventID norm /\ rs_RunID resp = rq_RunID norm
  /\ (rs_Dropped resp, rs_Degraded resp)
     = match a with Drop => (true, false) | Degrade => (false, true) | Accept => (false, false) end
  /\ k_eventsByID k' !! rq_EventID norm
     = match a with Drop => None | _ => Some (seal (run_chain k (rq_RunID norm)) (kept_event a e)) end
  /\ forall r, events_of k' r = match a with
       | Drop => events_of k r
       | _ => if decide (r = rq_RunID norm)
              then events_of k r ++ [seal (run_chain k r) (kept_event a e)] else events_of k r end.
Proof.
  intros HK%reach_KInv. cbv zeta. intros Had Hid.
  rewrite (ingest_stored req now now2 k reg HK Had Hid).
  rewrite (IngestEvent_new req now now2 k reg Had Hid).
  set (norm := normalizeIngestRequest req now) in *.
  pose proof (bump_KInv "ingest_attempt_total" k HK) as HKb.
  pose proof (ingest_new_events norm reg now now2 _ HKb) as Hn. cbv zeta in Hn.
  destruct (ingest_new _ _ _ _ _) as [k' resp]. cbn [fst snd].
  change (action_of (bump "ingest_attempt_total" k)) with (action_of k) in Hn.
  destruct Hn as (_ & H2 & H3 & H4 & H5 & H6 & Hev). exists resp.
  assert (cv_Degraded (request_event norm reg) = false) as Hdg.
  { unfold request_event, canonicalize. by destruct (event_payload_hash norm). }
  rewrite Hdg in H6. split_and!; try done. rewrite H5, H6. by destruct (action_of _ _ _).
Qed.

(** Critical evidence is not lost.  In any reachable state, an admitted
    request is dropped only if its tier is droppable (2 or 3) and the run is
    over budget, or its risk is neither high nor critical and its tier is not
    tier 0.  So tier-0 evidence is always stored, and high-risk evidence too
    unless it is of a droppable tier in a run over budget. *)
Theorem critical_not_dropped cfg k req now now2 reg resp : reach cfg k ->
  let norm := normalizeIngestRequest req now in let e := request_event norm reg in
  admitted k norm reg -> snd (IngestEvent req now now2 k) = Ok resp -> rs_Dropped resp = true ->
  (isTierDroppable (cv_EvidenceTier e) = true /\ over_budget (k_cfg k) (run_data k (cv_RunID e)) e = true)
  \/ (isHighRisk (cv_RiskTier e) = false /\ cv_EvidenceTier e <> Tier0).
Proof.
  intros HK%reach_KInv. cbv zeta. intros Had Hr Hd. set (norm := normalizeIngestRequest req now) in *.
  destruct (k_eventsByID k !! rq_EventID norm) as [x|] eqn:Hid.
  { exfalso. destruct Had as (V & R & M). unfold IngestEvent in Hr. cbv zeta in Hr. fold norm in Hr.
    rewrite V in Hr. change (k_registeredSources (bump _ k)) with (k_registeredSources k) in Hr. rewrite R in Hr.
    destruct (_ <? _) eqn:E; [bool_hyps; lia|].
    change (k_eventsByID (bump _ k)) with (k_eventsByID k) in Hr. rewrite Hid in Hr.
    by injection Hr as <-. }
  rewrite (IngestEvent_new req now now2 k reg Had Hid) in Hr. fold norm in Hr.
  pose proof (bump_KInv "ingest_attempt_total" k HK) as HKb.
  pose proof (ingest_new_events norm reg now now2 _ HKb) as Hn. cbv zeta in Hn.
  destruct (ingest_new _ _ _ _ _) as [k' resp']. cbn [snd] in Hr. injection Hr as ->.
  destruct Hn as (_ & _ & _ & _ & H5 & _). rewrite Hd in H5. clear Hd.
  change (action_of (bump "ingest_attempt_total" k)) with (action_of k) in H5.
  set (e := request_event norm reg) in *. clearbody e. unfold action_of in H5.
  destruct (over_budget _ _ e) eqn:Eo.
  - left. destruct (isTierDroppable _); [done|]. done.
  - right. destruct (pressed _ e || sampled_out _ _ e) eqn:Ep; [|done].
    apply orb_true_iff in Ep as [Ep|Ep].
    + unfold pressed in Ep. apply andb_true_iff in Ep as [E1 E2]. apply negb_true_iff in E1.
      split; [done|]. intros Ht. rewrite Ht in E2. cbn in E2. by rewrite !andb_false_r in E2.
    + unfold sampled_out in Ep. apply andb_true_iff in Ep as [Ep E2]. apply andb_true_iff in Ep as [E1 _].
      apply negb_true_iff in E1. split; [done|]. intros Ht. by rewrite Ht in E2.
Qed.

Lemma IngestEvent_known req now now2 k reg x : let norm := normalizeIngestRequest req now in
  admitted k norm reg -> k_eventsByID k !! rq_EventID norm = Some x ->
  IngestEvent req now now2 k
  = (bump "ingest_dedup_total" (bump "ingest_attempt_total" k),
     Ok (ingest_response true false (cv_Degraded x) (rq_EventID norm) (rq_RunID norm)
           ["event_id_deduped"] now)).
Proof.
  cbv zeta. intros (V & R & M) Hid. unfold IngestEvent. cbv zeta. rewrite V.
  change (k_registeredSources (bump _ k)) with (k_registeredSources k). rewrite R.
  destruct (_ <? _) eqn:E; [bool_hyps; lia|].
  change (k_eventsByID (bump _ k)) with (k_eventsByID k). by rewrite Hid.
Qed.

(** Ingestion is idempotent.  Once a request has stored its event, any
    later admitted request with the same event identifier (whatever its other
    fields, times and map orders) is answered as a duplicate, neither dropped
    nor stored again, with the degradation flag of the stored event, and
    changes nothing but counters: no event, index, graph, log, ledger or outbox
    entry. *)
Theorem ingest_idempotent cfg k req now now2 reg : reach cfg k ->
  let norm := normalizeIngestRequest req now in
  admitted k norm reg -> k_eventsByID k !! rq_EventID norm = None ->
  action_of k (rq_SystemLoad norm) (request_event norm reg) <> Drop ->
  let k' := fst (IngestEvent req now now2 k) in
  forall req' t t2 reg', let norm' := normalizeIngestRequest req' t in
  admitted k' norm' reg' -> rq_EventID norm' = rq_EventID norm ->
  let k'' := fst (IngestEvent req' t t2 k') in
  evidence k'' = evidence k' /\ k_outbox k'' = k_outbox k'
  /\ exists resp, snd (IngestEvent req' t t2 k') = Ok resp
     /\ rs_Accepted resp = true /\ rs_Deduped resp = true /\ rs_Dropped resp = false
     /\ rs_Degraded resp = (match action_of k (rq_SystemLoad norm) (request_event norm reg) with
                            | Degrade => true | _ => false end).
Proof.
  intros HK%reach_KInv. cbv zeta. intros Had Hid Ha req' t t2 reg' Had' Eid.
  pose proof (ingest_stored req now now2 k reg HK Had Hid) as Hs. cbv zeta in Hs.
  set (norm := normalizeIngestRequest req now) in *. set (e := request_event norm reg) in *.
  set (k' := fst (IngestEvent req now now2 k)) in *. clearbody k'. rewrite <- Eid in Hs.
  assert (exists x, k_eventsByID k' !! rq_EventID (normalizeIngestRequest req' t) = Some x
    /\ cv_Degraded x = match action_of k (rq_SystemLoad norm) e with Degrade => true | _ => false end)
    as (x & Hx & Hdg).
  { destruct (action_of _ _ _); [done|eexists; split; [exact Hs|]..].
    - change (cv_Degraded (degrade_event e) = true). unfold degrade_event. by destruct (safeHash _).
    - change (cv_Degraded e = false). unfold e, request_event, canonicalize. by destruct (event_payload_hash norm). }
  rewrite (IngestEvent_known req' t t2 k' reg' x Had' Hx). cbn [fst snd].
  split; [done|]. split; [done|]. eexists. split; [reflexivity|]. by rewrite Hdg.
Qed.

(** Which requests are refused.  A call succeeds if and only if the request
    is admitted: its four mandatory fields are present, its source is registered
    and its schema version is recent enough.  A refused request leaves the
    evidence, the outbox and all indexes as they were, and is answered with the
    first failing check. *)
Theorem ingest_refused_iff k req now now2 :
  let norm := normalizeIngestRequest req now in
  ((exists resp, snd (IngestEvent req now now2 k) = Ok resp) <-> exists reg, admitted k norm reg)
  /\ forall err, snd (IngestEvent req now now2 k) = Err err ->
     let k' := fst (IngestEvent req now now2 k) in
     evidence k' = evidence k /\ k_outbox k' = k_outbox k
     /\ (validateIngestRequest norm = Some err
         \/ (validateIngestRequest norm = None /\ k_registeredSources k !! rq_SourceComponent norm = None
             /\ ee_Code err = "UNREGISTERED_SOURCE_COMPONENT")
         \/ exists reg, validateIngestRequest norm = None
              /\ k_registeredSources k !! rq_SourceComponent norm = Some reg
              /\ rq_SchemaVersion norm < sr_MinSchema reg /\ ee_Code err = "SCHEMA_VERSION_REJECTED").
Proof.
  cbv zeta. set (norm := normalizeIngestRequest req now).
  assert (Hok : forall reg, admitted k norm reg -> exists resp, snd (IngestEvent req now now2 k) = Ok resp).
  { intros reg Had. destruct (k_eventsByID k !! rq_EventID norm) as [x|] eqn:Hid.
    - rewrite (IngestEvent_known req now now2 k reg x Had Hid). by eexists.
    - rewrite (IngestEvent_new req now now2 k reg Had Hid). destruct (ingest_new _ _ _ _ _). by eexists. }
  unfold IngestEvent in *. cbv zeta in *. fold norm in Hok |- *.
  change (k_registeredSources (bump _ k)) with (k_registeredSources k) in *.
  destruct (validateIngestRequest norm) as [err|] eqn:V.
  { split; [split; [by intros [? ?]|by intros (reg & V' & _); congruence]|].
    intros err' [= <-]. split_and!; [done|done|by left]. }
  destruct (k_registeredSources k !! rq_SourceComponent norm) as [reg|] eqn:R.
  2: { split; [split; [by intros [? ?]|by intros (reg & _ & R' & _); congruence]|].
       intros err' [= <-]. split_and!; [done|done|]. right; left. done. }
  destruct (rq_SchemaVersion norm <? sr_MinSchema reg) eqn:M; bool_hyps.
  { split; [split; [by intros [? ?]|]|].
    - intros (reg' & _ & R' & M'). rewrite R in R'. injection R' as <-. lia.
    - intros err' [= <-]. split_and!; [done|done|]. right; right. by exists reg. }
  destruct (Hok reg) as [resp Hr]; [by split_and!|]. split.
  - split; [by exists reg|by exists resp].
  - intros err He. rewrite Hr in He. done.
Qed.

(** ** The theorems on a concrete history *)

Definition ev_reg1 : SourceRegistration := mk_SourceRegistration "run_kernel" 1 Tier1.

Lemma ev_admitted1 : admitted e0 (normalizeIngestRequest ev_req1 (ev_at 0)) ev_reg1.
Proof. split; [vm_compute; reflexivity|]. split; [vm_compute; reflexivity|]. vm_compute. congruence. Qed.

Lemma ingest_decides_witness :
  exists resp, snd (IngestEvent ev_req1 (ev_at 0) (ev_at 0) e0) = Ok resp /\ rs_Dropped resp = false.
Proof.
  destruct (ingest_decides ev_cfg e0 ev_req1 (ev_at 0) (ev_at 0) ev_reg1) as (resp & E & _ & _ & _ & D & _).
  - constructor.
  - exact ev_admitted1.
  - vm_compute. reflexivity.
  - exists resp. split; [exact E|]. apply (f_equal fst) in D. vm_compute in D. exact D.
Defined.

(** Backpressure level 2: a low-risk event of tier 3 is dropped. *)
Definition e3_pressed : Kernel := Eval vm_compute in SetBackpressureLevel 2 e2.
Definition ev_reg3 : SourceRegistration := mk_SourceRegistration "adapter" 1 Tier1.
Definition ev_resp3 : IngestEventResponse := Eval vm_compute in
  match snd (IngestEvent ev_req3 (ev_at 2) (ev_at 2) e3_pressed) with
  | Ok r => r | Err _ => ingest_response false false false "" "" [] 0 end.

Lemma e3_pressed_reach : reach ev_cfg e3_pressed.
Proof.
  apply (reach_step _ e2); [exact e2_reach|]. apply (ev_step (OpLevel 2)). vm_compute. reflexivity.
Qed.

Lemma critical_not_dropped_witness :
  isHighRisk (rq_RiskTier (normalizeIngestRequest ev_req3 (ev_at 2))) = false
  \/ isTierDroppable Tier3 = true.
Proof.
  destruct (critical_not_dropped ev_cfg e3_pressed ev_req3 (ev_at 2) (ev_at 2) ev_reg3 ev_resp3) as [[H _]|[H _]].
  - exact e3_pressed_reach.
  - split; [vm_compute; reflexivity|]. split; [vm_compute; reflexivity|]. vm_compute. congruence.
  - vm_compute. reflexivity.
  - vm_compute. reflexivity.
  - right. reflexivity.
  - left. vm_compute. reflexivity.
Defined.

Lemma ingest_idempotent_witness :
  evidence (fst (IngestEvent ev_req1 (ev_at 9) (ev_at 9) (fst (IngestEvent ev_req1 (ev_at 0) (ev_at 0) e0))))
  = evidence (fst (IngestEvent ev_req1 (ev_at 0) (ev_at 0) e0)).
Proof.
  apply (ingest_idempotent ev_cfg e0 ev_req1 (ev_at 0) (ev_at 0) ev_reg1) with (reg' := ev_reg1).
  - constructor.
  - exact ev_admitted1.
  - vm_compute. reflexivity.
  - vm_compute. congruence.
  - split; [vm_compute; reflexivity|]. split; [vm_compute; reflexivity|]. vm_compute. congruence.
  - vm_compute. reflexivity.
Defined.

(** A request whose source nobody registered. *)
Definition ev_unknown : IngestEventRequest :=
  ev_request "ev-9" "heartbeat" "intruder" "" "low" "" (ev_at 2) None None.

Lemma ingest_refused_iff_witness :
  ~ (exists resp, snd (IngestEvent ev_unknown (ev_at 2) (ev_at 2) e2) = Ok resp).
Proof.
  intros H. apply (ingest_refused_iff e2 ev_unknown (ev_at 2) (ev_at 2)) in H.
  destruct H as (reg & _ & R & _). vm_compute in R. discriminate R.
Defined.
