(* ===== verification/EvTheorems.v ===== *)
(** * Theorems about the Evidence kernel's state, chains, deletion and retention *)

From S2P Require Import Prelude GoStrings Sha256 GoTime GoJson EvTypes EvEvents EvKernel EvRetain EvGraph EvReports EvFrame EvChain EvIngest EvRebuild EvSweep EvDerived EvTrace EvExamples.

(** ** Reachable states *)

(** C6: the invariant of the Evidence kernel.  Whatever calls a service makes and
    in whatever order their loops visit the maps, every state satisfies [KInv]:
    events are filed under their run with identifiers unique in the whole
    store, the index holds exactly the stored events, the statistics of a run
    are those of its events, each run's events are sealed in storage order and
    its chain state is the end of that chain, the global chain links the indexed
    events, tombstoned events hold no payload, graph and ledger of a run are the
    folds of its events, the decision log histories are the fold of all the
    indexed events in some order (every event with a decision logged once, none
    else), linked and bounded, the log of a decision is the last of its history, the outbox
    and the anchors respect their bounds and backpressure levels are in 0..3. *)
Theorem ev_reachable_invariant cfg k : reach cfg k -> KInv k.
Proof. apply reach_KInv. Qed.

(** ** Verification *)

Lemma sorted_verifies k r : KInv k -> StronglySorted event_le (events_of k r) ->
  match first_break "" (sortEventsByTS (events_of k r)) with None => true | Some _ => false end = true.
Proof.
  intros HK Hs. pose proof (EInv_ids k r (ki_evidence _ HK)) as Hnd.
  rewrite sortEventsByTS_id by done. by rewrite (sealed_verifies _ (ei_sealed _ (ki_evidence _ HK) r)).
Qed.

Lemma verify_out_of_order l : sealed l -> NoDup (ids l) ->
  Forall (fun e => pipe_free (cv_EventID e) = true) l ->
  first_break "" (sortEventsByTS l) = None -> StronglySorted event_le l \/ sha256_collision.
Proof.
  intros Hs Hnd Hf V. pose proof (sealed_verifies l Hs) as Vl.
  destruct (links_distinct "" l (or_introl eq_refl) Vl Hnd Hf) as [Hd|?]; [|by right]. left.
  rewrite (linked_unique "" l (sortEventsByTS l)); [apply sortEventsByTS_sorted| |done|done|].
  - apply NoDup_cons. split; [|done]. intros Hin.
    destruct (link_of_mem "" l "" (or_introl eq_refl) Vl Hin) as (q & x & _ & _ & E).
    exact (chain_hash_nonempty q x (eq_sym E)).
  - by rewrite sortEventsByTS_perm.
Qed.

Lemma seal_all_order st l : StronglySorted event_le l -> StronglySorted event_le (seal_all st l).
Proof.
  intros H. revert st. induction H as [|e l _ IH Hl]; intros st; cbn [seal_all]; constructor; [apply IH|].
  rewrite Forall_forall in Hl |- *. intros x (y & Hy & Ec)%elem_seal_all.
  apply content_fields in Ec as (Ei & _ & Et & _). specialize (Hl y Hy).
  unfold event_le in *. cbn [cv_EventID cv_EventTS seal] in *. by rewrite Ei, Et.
Qed.

Section Verify.
Context {MR : MapRange}.

(** What the call answers, by the stored events of the run. *)
Lemma VerifyIntegrity_spec runID now k iv : KInv k -> VerifyIntegrity runID now k = Ok iv ->
  let l := events_of k (TrimSpace runID) in
  iv_Verified iv = match first_break "" (sortEventsByTS l) with None => true | Some _ => false end
  /\ iv_IntegrityRootHash iv = chain_head l /\ iv_EventCount iv = Z.of_nat (length l).
Proof.
  intros HK. unfold VerifyIntegrity. cbv zeta. set (r := TrimSpace runID). destruct (_ =? _)%string; [done|].
  destruct (k_runs k !! r) as [rd|] eqn:E; [|done]. rewrite <- (events_of_lookup _ _ _ E). intros [= <-].
  cbn [iv_Verified iv_IntegrityRootHash iv_EventCount].
  pose proof (ei_sealed _ (ki_evidence _ HK) r) as Hs. rewrite (ei_chain _ (ki_evidence _ HK)).
  split_and!; [by destruct (first_break _ _)|by apply chain_state_head|by rewrite sortEventsByTS_perm].
Qed.

(** After a sweep every run is stored in sorted order. *)
Lemma sweep_sorts k now r : KInv k -> StronglySorted event_le (events_of (fst (SweepRetention now k)) r).
Proof.
  intros HK. destruct (SweepRetention_lists now k r (ki_evidence _ HK)) as (_ & -> & _).
  apply seal_all_order, sortEventsByTS_sorted.
Qed.

(** C39: what [VerifyIntegrity] verifies.  In a reachable state nobody has tampered
    with anything, yet the call recomputes the chain in sorted order (by
    timestamp, and by identifier among equal timestamps) while the chain was
    sealed in storage order: it reports success if (and, for identifiers
    without the separator and up to a SHA-256 collision, only if) the run is
    stored in sorted order.  Storage order is arrival order until a reindexing
    (by a retention sweep or a deletion) sorts and reseals the run: the same call
    right after a sweep always succeeds.  The root it returns is the hash of the
    last stored event. *)
Theorem verify_iff_in_order cfg k runID now iv : reach cfg k ->
  VerifyIntegrity runID now k = Ok iv ->
  let l := events_of k (TrimSpace runID) in
  (StronglySorted event_le l -> iv_Verified iv = true)
  /\ (iv_Verified iv = true -> Forall (fun e => pipe_free (cv_EventID e) = true) l ->
      StronglySorted event_le l \/ sha256_collision)
  /\ iv_IntegrityRootHash iv = chain_head l /\ iv_EventCount iv = Z.of_nat (length l)
  /\ (forall at1 at2 iv', VerifyIntegrity runID at2 (fst (SweepRetention at1 k)) = Ok iv' ->
      iv_Verified iv' = true).
Proof.
  intros HK%reach_KInv Hv. cbv zeta. destruct (VerifyIntegrity_spec _ _ _ _ HK Hv) as (E1 & E2 & E3).
  pose proof (EInv_ids k (TrimSpace runID) (ki_evidence _ HK)) as Hnd. split_and!; try done.
  - intros Hs. rewrite E1. by apply sorted_verifies.
  - intros Hok Hf. rewrite E1 in Hok. apply verify_out_of_order; try done; [apply HK|by destruct (first_break _ _)].
  - intros at1 at2 iv' Hv'. pose proof (SweepRetention_KInv at1 k HK) as HK'.
    destruct (VerifyIntegrity_spec _ _ _ _ HK' Hv') as (-> & _). apply sorted_verifies; [done|].
    by apply sweep_sorts.
Qed.
End Verify.

(** C18: the chain of evidence is tamper evident.  If two runs, in any two
    reachable states of any two kernels, have the same chain root, then, unless
    SHA-256 has a collision, they hold equally many events and the texts the
    chain hashes for them (identifier, type, canonical hash, payload hash and
    timestamp, joined by the separator) are equal in the same order; when
    these fields are free of the separator, which ingestion does not enforce,
    the fields themselves are equal. *)
Theorem evidence_tamper_evident cfg cfg' k k' r r' : reach cfg k -> reach cfg' k' ->
  ig_LastHash (run_chain k r) = ig_LastHash (run_chain k' r') ->
  (map body (events_of k r) = map body (events_of k' r')
   /\ (Forall plain (events_of k r) -> Forall plain (events_of k' r') ->
       map cover (events_of k r) = map cover (events_of k' r')))
  \/ sha256_collision.
Proof.
  intros HK%reach_KInv HK'%reach_KInv.
  pose proof (ei_sealed _ (ki_evidence _ HK) r) as S. pose proof (ei_sealed _ (ki_evidence _ HK') r') as S'.
  rewrite (ei_chain _ (ki_evidence _ HK)), (ei_chain _ (ki_evidence _ HK')), !chain_state_head by done.
  intros E. destruct (equal_heads _ _ (sealed_verifies _ S) (sealed_verifies _ S') E) as [B|?]; [left|by right].
  split; [done|]. intros P P'. by apply bodies_covers.
Qed.

(** ** Retention *)

Section Maps.
Context {MR : MapRange}.

(** What a retention sweep does to every run.  Hot events younger than the
    retention stay, sorted and resealed; a run with none left is forgotten; hot
    events that expired go to the warm archive or, if older than its retention,
    to the cold one; warm events past their retention move to the cold archive,
    and events past the cold retention go. *)
Theorem retention_effect cfg k now r : reach cfg k ->
  let k' := fst (SweepRetention now k) in
  (k_runs k' !! r = None <-> List.filter (still_hot (k_cfg k) now) (events_of k r) = [])
  /\ events_of k' r
    = seal_all genesis (sortEventsByTS (List.filter (still_hot (k_cfg k) now) (events_of k r)))
  /\ arch (k_warmArchiveByRun k') r
    = List.filter (warm_aged (k_cfg k) now) (arch (k_warmArchiveByRun k) r)
      ++ List.filter (to_warm (k_cfg k) now) (events_of k r)
  /\ arch (k_coldArchiveByRun k') r
    = List.filter (cold_kept (k_cfg k) now) (arch (k_coldArchiveByRun k) r)
      ++ List.filter (cold_aged (k_cfg k) now) (arch (k_warmArchiveByRun k) r)
      ++ List.filter (to_cold (k_cfg k) now) (events_of k r).
Proof. intros HK%reach_KInv. apply SweepRetention_lists, HK. Qed.

(** C25: a sweep loses nothing unreported.  The number of events in the hot store
    and the two archives, as [GetArchiveSummary] counts them, decreases by
    exactly the number of deleted events the sweep reports. *)
Theorem sweep_conserves cfg k now : reach cfg k ->
  population k = population (fst (SweepRetention now k))
                 + es_DeletedEvents (snd (SweepRetention now k)).
Proof. intros HK%reach_KInv. apply SweepRetention_balance, HK. Qed.

(** ** Deletion *)

Lemma sumZ_perm l l' : l ≡ₚ l' -> sumZ l = sumZ l'.
Proof. induction 1; rewrite ?sumZ_cons; lia. Qed.

(** The sum of a count over the selected runs. *)
Definition selected_count (req : DSARDeleteRequest) (p : CanonicalEvent -> bool) (k : Kernel) : Z :=
  sumZ (map (fun kv => if dsar_selected req kv.1 then count p (rd_Events kv.2) else 0)
         (map_to_list (k_runs k))).

Lemma selected_count_range req p k :
  count p (concat (map (fun kv => rd_Events kv.2)
    (List.filter (fun kv => dsar_selected req kv.1) (range_map (k_runs k))))) = selected_count req p k.
Proof.
  unfold selected_count.
  rewrite <- (sumZ_perm _ _ (Permutation_map _ (range_map_perm (k_runs k)))).
  induction (range_map (k_runs k)) as [|kv ps IH]; [done|]. cbn [List.filter map]. rewrite sumZ_cons, <- IH.
  destruct (dsar_selected req kv.1); [|done]. cbn [map concat]. by rewrite count_app.
Qed.

Lemma dsar_refs_some t p now l : forall refs ref,
  is_Some (dsar_refs t p now refs l !! ref)
  <-> is_Some (refs !! ref) \/ exists e, e ∈ l /\ dsar_tombstoned t p e = true /\ cv_PayloadRef e = ref.
Proof.
  unfold dsar_refs. induction l as [|e l IH]; intros refs ref.
  { cbn. split; [by left|]. intros [?|(e & ?%not_elem_of_nil & _)]; done. }
  cbn [List.filter]. destruct (dsar_tombstoned t p e) eqn:E; cbn [foldl]; rewrite IH.
  - rewrite lookup_insert. destruct (decide (cv_PayloadRef e = ref)) as [Er|Er].
    + split; [|by left; eexists]. intros _. right. exists e. split; [apply list_elem_of_here|done].
    + split; (intros [?|(x & Hx & ? & ?)]; [by left|]); right; exists x.
      * split; [by apply list_elem_of_further|done].
      * apply elem_of_cons in Hx as [->|Hx]; done.
  - split; (intros [?|(x & Hx & ? & ?)]; [by left|]); right; exists x.
    + split; [by apply list_elem_of_further|done].
    + apply elem_of_cons in Hx as [->|Hx]; [congruence|done].
Qed.

Lemma loop_refs_some req now ps : forall refs ref,
  is_Some (foldl (loop_refs req now) refs ps !! ref)
  <-> is_Some (refs !! ref) \/ exists kv e, kv ∈ ps /\ dsar_selected req kv.1 = true /\ e ∈ rd_Events kv.2
      /\ dsar_tombstoned (dq_TenantID req) (dq_PayloadRefPrefix req) e = true /\ cv_PayloadRef e = ref.
Proof.
  induction ps as [|kv ps IH]; intros refs ref.
  { cbn. split; [by left|]. intros [?|(kv & e & ?%not_elem_of_nil & _)]; done. }
  cbn [foldl]. rewrite IH. unfold loop_refs at 1. destruct (dsar_selected req kv.1) eqn:E.
  - rewrite dsar_refs_some. split.
    + intros [[?|(e & ?)]|(kv' & e & Hk & ?)]; [by left|right..].
      * exists kv, e. split; [apply list_elem_of_here|done].
      * exists kv', e. split; [by apply list_elem_of_further|done].
    + intros [?|(kv' & e & [->|Hk]%elem_of_cons & Hs & He)]; [by left; left|left; right; by exists e|right].
      by exists kv', e.
  - split; (intros [?|(kv' & e & Hk & ?)]; [by left|]); right; exists kv', e.
    + split; [by apply list_elem_of_further|done].
    + apply elem_of_cons in Hk as [->|Hk]; [|done]. naive_solver congruence.
Qed.

(** What a deletion request does.  For a reachable state and a request with a
    tenant, every selected run keeps exactly the events [dsar_result] keeps
    (matching low-signal events deleted, other matching events redacted), sorted
    and resealed; the response counts the deleted, redacted and tombstoned
    events; a payload reference is tombstoned when it was or when an event
    redacted now has it; and the two archives are not touched. *)
Theorem dsar_effect cfg k req now : reach cfg k ->
  let rq := trim_dsar_request req in dq_TenantID rq <> "" ->
  let t := dq_TenantID rq in let p := dq_PayloadRefPrefix rq in
  let k' := fst (DeleteByDSAR req now k) in
  (forall r, events_of k' r = seal_all genesis (sortEventsByTS
     (if dsar_selected rq r then omap (dsar_result t p) (events_of k r) else events_of k r)))
  /\ (exists resp, snd (DeleteByDSAR req now k) = Ok resp
      /\ ds_DeletedEvents resp = selected_count rq (dsar_deleted t p) k
      /\ ds_RedactedEvents resp = selected_count rq (dsar_redacted t p) k
      /\ ds_Tombstones resp = selected_count rq (dsar_tombstoned t p) k)
  /\ (forall ref, is_Some (k_tombstonedRefs k' !! ref) <-> is_Some (k_tombstonedRefs k !! ref)
      \/ exists r e, dsar_selected rq r = true /\ e ∈ events_of k r /\ dsar_tombstoned t p e = true
           /\ cv_PayloadRef e = ref)
  /\ k_warmArchiveByRun k' = k_warmArchiveByRun k /\ k_coldArchiveByRun k' = k_coldArchiveByRun k.
Proof.
  intros HK%reach_KInv. pose proof (ki_evidence _ HK) as HI. cbv zeta. intros Ht.
  pose proof (DeleteByDSAR_eq req now k) as E. cbv zeta in E. rewrite DeleteByDSAR_trim in E.
  set (rq := trim_dsar_request req) in *. pose proof (dsar_request_id_same rq k) as [E0 _].
  destruct (dsar_request_id rq k) as [k0 id]. cbn [fst] in E0. rewrite E. clear E.
  destruct (_ =? _)%string eqn:Et; [by apply String.eqb_eq in Et|]. cbn [fst snd].
  apply evidence_fields in E0 as (Es & _). pose proof Es as (Ec & _ & _ & Er & Ew & Eo & _ & _ & _ & Eref & _)%store_fields.
  pose proof (dsar_kernel_wf rq now k0) as Hwf. rewrite Er in Hwf. specialize (Hwf (ei_wf _ HI)).
  pose proof (fun r => rebuild_events (dsar_kernel rq now k0) r Hwf) as Hev.
  pose proof (rebuild_spec _ (wf_run _ Hwf)) as (_ & St & _). cbv zeta in St.
  apply still_fields in St as (_ & _ & Ew' & Eo' & _ & Eref').
  set (k1 := rebuildDerivedIndexesLocked (dsar_kernel rq now k0)) in *.
  set (k2 := emitLocked _ _ _ _ k1).
  assert (store k2 = store k1) as Es2.
  { pose proof (emit_evidence "evidence_dsar_delete_event" (dq_RunID rq)
      [("request_id", GStr id); ("tenant_id", GStr (dq_TenantID rq)); ("run_id", GStr (dq_RunID rq));
       ("deleted_events", GInt (dc_deleted (foldl (loop_counts rq) (mk_dsar_counts 0 0 0) (range_map (k_runs k)))));
       ("redacted_events", GInt (dc_redacted (foldl (loop_counts rq) (mk_dsar_counts 0 0 0) (range_map (k_runs k)))));
       ("tombstones", GInt (dc_tombstones (foldl (loop_counts rq) (mk_dsar_counts 0 0 0) (range_map (k_runs k)))))]
      now k1) as (Ex & _)%evidence_fields. exact Ex. }
  clearbody k2. apply store_fields in Es2 as (_ & _ & _ & R2 & W2 & C2 & _ & _ & _ & F2 & _).
  split_and!.
  - intros r. rewrite (events_of_runs _ _ R2), Hev. do 2 f_equal.
    unfold events_of, run_data, dsar_kernel. cbn [k_runs k_set_runs]. rewrite Er, loop_runs_range.
    destruct (k_runs k !! r) as [rd|]; cbn; by destruct (dsar_selected rq r).
  - eexists. split; [reflexivity|]. cbn [ds_DeletedEvents ds_RedactedEvents ds_Tombstones].
    rewrite loop_counts_sum. cbn [add_counts dc_deleted dc_redacted dc_tombstones].
    by rewrite !selected_count_range, !Z.add_0_l.
  - intros ref. rewrite F2, Eref'. unfold dsar_kernel. cbn [k_tombstonedRefs k_set_runs k_set_tombstonedRefs].
    rewrite loop_refs_some, Eref, Er. split; (intros [?|Hx]; [by left|right]).
    + destruct Hx as ([r rd] & e & Hk & Hs & He & ?). apply range_map_elem in Hk. exists r, e.
      by rewrite (events_of_lookup _ _ _ Hk).
    + destruct Hx as (r & e & Hs & He & ?). apply elem_events_of in He as (rd & Hk & He).
      exists (r, rd), e. by rewrite range_map_elem.
  - rewrite W2, Ew'. exact Ew.
  - rewrite C2, Eo'. exact Eo.
Qed.

(** What a request asks to erase: the events of the tenant, of the named run if
    one is named, with the payload prefix if one is given (the empty string is a
    prefix of every reference). *)
Definition in_scope (rq : DSARDeleteRequest) (r : string) (e : CanonicalEvent) : Prop :=
  (dq_RunID rq = "" \/ r = dq_RunID rq) /\ cv_TenantID e = dq_TenantID rq
  /\ HasPrefix (cv_PayloadRef e) (dq_PayloadRefPrefix rq) = true.

Lemma in_scope_selected rq r e : in_scope rq r e ->
  dsar_selected rq r = true /\ dsar_matches (dq_TenantID rq) (dq_PayloadRefPrefix rq) e = true.
Proof.
  intros (H1 & H2 & H3). unfold dsar_selected, dsar_matches. rewrite H2, H3, String.eqb_refl, andb_false_r.
  split; [|done]. destruct H1 as [->| ->]; [done|]. by rewrite String.eqb_refl, orb_true_r.
Qed.

Lemma omap_dsar_scope t p e (l : list CanonicalEvent) : e ∈ omap (dsar_result t p) l ->
  dsar_matches t p e = true -> cv_PayloadTombstoned e = true /\ cv_Payload e = tombstone_payload.
Proof.
  intros (x & Hx & E)%list_elem_of_omap Hm. unfold dsar_result in E.
  destruct (dsar_matches t p x) eqn:Ex; cbn [negb] in E.
  - destruct (hard_deletable x); [done|]. injection E as <-.
    by pose proof (redact_fields x) as (_ & _ & _ & _ & _ & ? & ? & ?).
  - injection E as ->. congruence.
Qed.

(** C26: deletion erases what it is asked to erase from the hot store.  After a
    request for a tenant, every event of that tenant left in the hot store (of
    the named run only, if the request names one, and with the given payload
    prefix only, if it gives one) is tombstoned and its payload replaced, and no
    replay pack of any run and mode gives back a payload of such an event. *)
Theorem dsar_erases cfg k req now : reach cfg k ->
  let rq := trim_dsar_request req in
  dq_TenantID rq <> "" ->
  let k' := fst (DeleteByDSAR req now k) in
  (forall r e, e ∈ events_of k' r -> in_scope rq r e ->
     cv_PayloadTombstoned e = true /\ cv_Payload e = tombstone_payload)
  /\ forall runID mode t pack x, BuildReplayPack runID mode t k' = Ok pack -> x ∈ rp_Events pack ->
     (exists e, e ∈ events_of k' (TrimSpace runID) /\ cv_EventID e = re_EventID x
        /\ in_scope rq (TrimSpace runID) e) ->
     re_Redacted x = true /\ (re_Payload x = None \/ re_Payload x = tombstone_payload).
Proof.
  intros HR. cbv zeta. intros Ht. pose proof (reach_KInv _ _ HR) as HK.
  pose proof (DeleteByDSAR_KInv req now k HK) as HK'.
  pose proof (DeleteByDSAR_eq req now k) as E. cbv zeta in E. rewrite DeleteByDSAR_trim in E.
  assert (Hev : forall r e, e ∈ events_of (fst (DeleteByDSAR req now k)) r ->
    in_scope (trim_dsar_request req) r e ->
    cv_PayloadTombstoned e = true /\ cv_Payload e = tombstone_payload).
  { clear HK'. set (rq := trim_dsar_request req) in *. pose proof (dsar_request_id_same rq k) as [E0 _].
    destruct (dsar_request_id rq k) as [k0 id]. cbn [fst] in E0. rewrite E. clear E.
    destruct (_ =? _)%string eqn:Et; [by apply String.eqb_eq in Et|]. cbn [fst].
    apply evidence_fields in E0 as (Es & _). apply store_fields in Es as (_ & _ & _ & Er & _).
    pose proof (dsar_kernel_wf rq now k0) as Hwf. rewrite Er in Hwf.
    specialize (Hwf (ei_wf _ (ki_evidence _ HK))).
    pose proof (fun r => rebuild_events (dsar_kernel rq now k0) r Hwf) as Hb.
    set (k1 := rebuildDerivedIndexesLocked _) in *. intros r e He Hte.
    match type of He with _ ∈ events_of (emitLocked ?a ?b ?c ?d _) _ =>
      pose proof (emit_evidence a b c d k1) as (Ex & _)%evidence_fields end.
    apply store_fields in Ex as (_ & _ & _ & Ex & _). rewrite (events_of_runs _ _ Ex), Hb in He.
    apply in_scope_selected in Hte as [Hsel Hm].
    apply elem_seal_all in He as (y & Hy & Ec). apply content_fields in Ec as (_ & _ & _ & -> & -> & Et' & Ep').
    rewrite sortEventsByTS_perm in Hy. unfold dsar_matches in Hm. rewrite Et', Ep' in Hm.
    unfold events_of, run_data, dsar_kernel in Hy. cbn [k_runs k_set_runs] in Hy. rewrite loop_runs_range in Hy.
    rewrite Hsel in Hy. destruct (k_runs k0 !! r) as [rd|]; cbn in Hy; [|by apply not_elem_of_nil in Hy].
    by apply (omap_dsar_scope (dq_TenantID rq) (dq_PayloadRefPrefix rq) y (rd_Events rd)). }
  split; [exact Hev|]. clear E. set (k' := fst (DeleteByDSAR req now k)) in *. clearbody k'.
  intros runID mode ts pack x Hb Hx (e & He & Eid & Ete). unfold BuildReplayPack in Hb. cbv zeta in Hb.
  destruct (_ =? _)%string in Hb; [done|]. destruct (negb (one_of _ _)); [done|].
  destruct (k_runs k' !! TrimSpace runID) as [rd|] eqn:Er; [|done]. injection Hb as <-.
  cbn [rp_Events] in Hx. apply list_elem_of_fmap in Hx as (y & -> & Hy).
  rewrite sortEventsByTS_perm in Hy. rewrite <- (events_of_lookup _ _ _ Er) in Hy.
  cbn [re_EventID replay_event] in Eid.
  assert (y = e) as -> by (eapply (ids_inj _ _ _ (EInv_ids k' _ (ki_evidence _ HK'))); done).
  destruct (Hev _ _ He Ete) as [E1 E2]. cbn [replay_event re_Redacted re_Payload]. rewrite E1. cbn [orb].
  split; [done|]. destruct (_ =? _)%string; [by left|by right].
Qed.
End Maps.

(** ** The theorems on a concrete history *)

Lemma ev_reachable_invariant_witness : outbox_bounded e4.
Proof. apply ki_outbox. apply (ev_reachable_invariant ev_cfg). exact e4_reach. Defined.

Definition ev_verdict : IntegrityVerifyResult := Eval vm_compute in
  match VerifyIntegrity "run-1" (ev_at 3) e3 with
  | Ok v => v | Err _ => mk_IntegrityVerifyResult "" false 0 "" "" false "" "" 0 end.

Lemma verify_iff_in_order_witness : StronglySorted event_le (events_of e3 "run-1") \/ sha256_collision.
Proof.
  apply (verify_iff_in_order ev_cfg e3 "run-1" (ev_at 3) ev_verdict).
  - exact e3_reach.
  - vm_compute. reflexivity.
  - reflexivity.
  - apply Forall_forall. intros e He. apply list_elem_of_In in He. vm_compute in He.
    destruct He as [<-|[<-|[<-|[]]]]; vm_compute; reflexivity.
Defined.

(** An event that arrives late makes an untouched chain fail verification. *)
Definition ev_late : IngestEventRequest :=
  ev_request "ev-0" "heartbeat" "adapter" "" "low" "tier0" (ev_at (-1)) None None.
Definition e3_late : Kernel := Eval vm_compute in fst (IngestEvent ev_late (ev_at 3) (ev_at 3) e3).

Example late_event_fails_verification :
  match VerifyIntegrity "run-1" (ev_at 3) e3_late with Ok v => iv_Verified v | Err _ => true end = false.
Proof. vm_compute. reflexivity. Qed.

(** After a sweep the same run is stored in sorted order and verifies. *)
Example late_event_verifies_after_sweep :
  match VerifyIntegrity "run-1" (ev_at 3) (fst (SweepRetention (H := canonical_range) (ev_at 3) e3_late)) with
  | Ok v => iv_Verified v | Err _ => false end = true.
Proof. vm_compute. reflexivity. Qed.

(** The same requests served by another service, later and after other calls. *)
Definition ev_cfg2 : Config := mk_Config 0 0 0 7 0 0 0 fzero fzero fzero 0 0 None false.
Definition e3_elsewhere : Kernel :=
  exec (MR := canonical_range) (OpIngest ev_req3 (ev_at 2) (ev_at 9))
    (exec (MR := canonical_range) (OpIngest ev_req2 (ev_at 1) (ev_at 8))
      (exec (MR := canonical_range) (OpIngest ev_req1 (ev_at 0) (ev_at 7))
        (exec (MR := canonical_range) (OpTenantLevel "tenant-2" 3) (NewKernel ev_cfg2)))).

Lemma evidence_tamper_evident_witness :
  (map body (events_of e3 "run-1") = map body (events_of e3_elsewhere "run-1")
   /\ (Forall plain (events_of e3 "run-1") -> Forall plain (events_of e3_elsewhere "run-1") ->
       map cover (events_of e3 "run-1") = map cover (events_of e3_elsewhere "run-1")))
  \/ sha256_collision.
Proof.
  apply (evidence_tamper_evident ev_cfg ev_cfg2 e3 e3_elsewhere "run-1" "run-1").
  - exact e3_reach.
  - do 4 (eapply reach_step; [|apply (step_op canonical_range)]). constructor.
  - vm_compute. reflexivity.
Defined.

(** Two days later: everything has left the hot store for the warm archive. *)
Lemma retention_effect_witness :
  length (arch (k_warmArchiveByRun (fst (SweepRetention (ev_at 2880) e3))) "run-1") = 3%nat.
Proof.
  destruct (retention_effect ev_cfg e3 (ev_at 2880) "run-1" e3_reach) as (_ & _ & W & _).
  rewrite W. vm_compute. reflexivity.
Defined.

(** A year later: nothing is left and three events are reported deleted. *)
Lemma sweep_conserves_witness : population (fst (SweepRetention (ev_at 525600) e3)) = 0.
Proof.
  pose proof (sweep_conserves ev_cfg e3 (ev_at 525600) e3_reach) as H.
  assert (population e3 = 3) as E1 by (vm_compute; reflexivity).
  assert (es_DeletedEvents (snd (SweepRetention (ev_at 525600) e3)) = 3) as E2 by (vm_compute; reflexivity).
  rewrite E1, E2 in H. lia.
Defined.

Lemma dsar_effect_witness :
  map cv_EventID (events_of (fst (DeleteByDSAR ev_dsar (ev_at 3) e3)) "run-1") = ["ev-1"; "ev-2"].
Proof.
  destruct (dsar_effect ev_cfg e3 ev_dsar (ev_at 3) e3_reach) as (E & _).
  - vm_compute. congruence.
  - rewrite E. vm_compute. reflexivity.
Defined.

Definition ev_scoped : DSARDeleteRequest := mk_DSARDeleteRequest "req-2" " tenant-1 " " run-1" "s3://" 0.

Lemma dsar_erases_witness :
  Forall (fun e => in_scope (trim_dsar_request ev_scoped) "run-1" e -> cv_Payload e = tombstone_payload)
    (events_of (fst (DeleteByDSAR ev_scoped (ev_at 3) e3)) "run-1")
  /\ Exists (in_scope (trim_dsar_request ev_scoped) "run-1")
    (events_of (fst (DeleteByDSAR ev_scoped (ev_at 3) e3)) "run-1").
Proof.
  split.
  - apply Forall_forall. intros e He Hs.
    apply (dsar_erases ev_cfg e3 ev_scoped (ev_at 3) e3_reach) with (r := "run-1").
    + vm_compute. congruence.
    + exact He.
    + exact Hs.
  - apply Exists_exists. eexists. split; [vm_compute; apply list_elem_of_here|].
    split; [by right|]. vm_compute. by split.
Defined.
