(* ===== verification/EvGraphTheorems.v ===== *)
(** * Theorems about the derived indexes of the Evidence kernel

    The recorded decision graph, the completeness verdict, the searches over
    the graph, decision logs and the ledger. *)

From S2P Require Import Prelude GoStrings Sha256 GoTime GoJson EvTypes EvEvents EvKernel EvRetain EvGraph EvReports EvFrame EvChain EvIngest EvRebuild EvSweep EvDerived EvTrace EvExamples EvClosure.

(** ** The recorded graph *)

(** The recorded graph of a run.  In every reachable state the nodes of a run
    have distinct identifiers and refer to stored events of the run with that
    node identifier, every stored event has its node, edges are distinct as
    (from, to, type) triples and point to nodes of the graph, every parent an
    event declares is recorded as a causal edge, and there are no more nodes
    than events.  After deletion and retention too, since both reindex. *)
Theorem recorded_graph cfg k r : reach cfg k -> blank r = false ->
  graph_wf (events_of k r) (graph_of k r).
Proof. intros HK%reach_KInv Hb. apply graph_of_wf; [apply HK..|done]. Qed.

Lemma rd_of_needs l : rd_NeedsGraph (rd_of l) = existsb (fun e => isHighRisk (cv_RiskTier e)) l.
Proof.
  induction l as [|e l IH] using rev_ind; [done|]. rewrite rd_of_snoc, existsb_app. cbn [existsb].
  change (rd_NeedsGraph (add_event e (rd_of l))) with (rd_NeedsGraph (rd_of l) || isHighRisk (cv_RiskTier e)).
  by rewrite IH, orb_false_r.
Qed.

Section Maps.
Context {MR : MapRange}.

(** C27: when the graph of a run counts as complete.  For a reachable state and a
    run identifier, whatever the order of the maps and as long as the run's
    graph has fewer than 2^63 edges, [isHighRiskGraphCompleteLocked] answers yes
    if and only if the identifier is not blank and the run is unknown, has no high-risk event, or
    its graph has an edge, exactly one final decision node, and every required
    kind of node that occurs at all also occurs among the final node and its
    ancestors.  The test of declared parents in the code never fails. *)
Theorem graph_complete_iff cfg k runID : reach cfg k ->
  let r := TrimSpace runID in
  Z.of_nat (length (gs_edges (graph_of k r))) < 2 ^ 63 ->
  isHighRiskGraphCompleteLocked k runID = true <->
  r <> "" /\ (k_runs k !! r = None
             \/ Forall (fun e => isHighRisk (cv_RiskTier e) = false) (events_of k r)
             \/ complete (gs_nodes (graph_of k r)) (gs_edges (graph_of k r))).
Proof.
  intros HK%reach_KInv. cbv zeta. unfold isHighRiskGraphCompleteLocked. cbv zeta.
  set (r := TrimSpace runID). intros Hb. destruct (r =? "")%string eqn:Er.
  { apply String.eqb_eq in Er. split; [done|]. by intros [? _]. }
  apply String.eqb_neq in Er. destruct (k_runs k !! r) as [rd|] eqn:E; [|split; [|done]; by auto].
  pose proof (ei_stats _ (ki_evidence _ HK) r rd E) as Es.
  assert (rd_NeedsGraph rd = existsb (fun e => isHighRisk (cv_RiskTier e)) (events_of k r)) as En.
  { rewrite (events_of_lookup _ _ _ E), Es, rd_of_needs. by rewrite rd_of_events. }
  assert (blank r = false) as Hbl.
  { unfold blank, r. rewrite TrimSpace_idem. by apply String.eqb_neq. }
  pose proof (graph_of_wf k r (ki_evidence _ HK) (ki_derived _ HK) Hbl) as HG.
  pose proof (graph_complete_spec _ _ HG Hb) as Hspec. rewrite (events_of_lookup _ _ _ E) in Hspec.
  change (default [] (k_graphNodesByRun k !! r)) with (gs_nodes (graph_of k r)).
  change (default [] (k_graphEdgesByRun k !! r)) with (gs_edges (graph_of k r)).
  destruct (rd_NeedsGraph rd) eqn:Hn; cbn [negb].
  - rewrite Hspec. split; [by auto|]. intros [_ [?|[Hf|?]]]; [done| |done]. exfalso.
    symmetry in En. apply existsb_exists in En as (e & He & Hr). rewrite Forall_forall in Hf.
    rewrite Hf in Hr; [done|]. by apply list_elem_of_In.
  - split; [|done]. intros _. split; [done|]. right; left. apply Forall_forall. intros e He.
    destruct (isHighRisk (cv_RiskTier e)) eqn:Hr; [|done]. exfalso.
    assert (existsb (fun e => isHighRisk (cv_RiskTier e)) (events_of k r) = true) as Hx; [|congruence].
    apply existsb_exists. exists e. split; [by apply list_elem_of_In|done].
Qed.
End Maps.

(** ** The searches *)

(** C38: the search for ancestors terminates with the right answer.  The source's
    loop has no bound; with one unit of fuel for the start and one per edge the
    stack has run empty: any larger amount gives the same set, which is exactly
    the set of nodes reachable backwards along the edges, cycles included. *)
Theorem closure_terminates edges final fuel : (1 + length edges <= fuel)%nat ->
  ancestors fuel (incoming_of edges) {[final]} [final] = closure edges final
  /\ forall x, x ∈ ancestors fuel (incoming_of edges) {[final]} [final] <-> rtc (parent_of edges) final x.
Proof.
  intros Hf. split; [|intros x; by apply ancestors_closed].
  apply set_eq. intros x. rewrite closure_spec. by apply ancestors_closed.
Qed.

(** C40: the critical path is bounded.  A path found by [traceCriticalPathLocked] ends in the
    leaf, has at most 32 nodes, follows the first recorded parent at every step
    from there up, repeats no node above the leaf (the leaf itself may come
    back on a cycle), and stops only at the bound, at a node without parents,
    or where a node would repeat. *)
Theorem critical_path_bounded k r leaf : traceCriticalPathLocked k r leaf <> [] ->
  let edges := default [] (k_graphEdgesByRun k !! r) in
  let path := traceCriticalPathLocked k r leaf in
  exists rest, path_ok edges leaf path rest /\ (length path <= 32)%nat
  /\ (length path = 32%nat \/ path_end edges path rest).
Proof. apply critical_path_spec. Qed.

(** ** Decision logs *)

Lemma suffix_last {A} n (l : list A) : drop n l <> [] -> last (drop n l) = last l.
Proof.
  intros H. rewrite <- (take_drop n l) at 2. destruct (drop n l) as [|x l'] eqn:E; [done|].
  symmetry. apply last_app_cons.
Qed.

(** Decision logs are versioned.  In a reachable state, what
    [GetDecisionLogHistory] returns has at most the configured number of
    entries, all of the decision asked for; each entry is superseded by the
    version of the next one, the last is current and is the one
    [GetDecisionLog] returns; versions increase one by one, except that from
    the moment the history has been cut every new entry gets the same version,
    one more than the bound. *)
Theorem decision_log_versions cfg k d limit h : reach cfg k ->
  GetDecisionLogHistory k d limit = Some h ->
  let max := ec_DecisionLogHistoryMax (k_cfg k) in
  Z.of_nat (length h) <= max
  /\ Forall (fun l => dl_DecisionID l = TrimSpace d) h
  /\ (forall i a b, h !! i = Some a -> h !! S i = Some b ->
      dl_SupersededByVersion a = dl_Version b
      /\ (dl_Version b = dl_Version a + 1 \/ dl_Version a = max + 1 /\ dl_Version b = max + 1))
  /\ (exists a, last h = Some a /\ GetDecisionLog k d = Some a /\ dl_SupersededByVersion a = 0).
Proof.
  intros HK%reach_KInv. cbv zeta. unfold GetDecisionLogHistory, GetDecisionLog.
  destruct (k_decisionLogHistory k !! TrimSpace d) as [l|] eqn:E; [|done]. destruct l as [|x0 l0]; [done|].
  set (l := x0 :: l0) in *. cbv zeta. set (n := Z.to_nat _).
  intros [= <-]. assert (drop n l <> []) as Hne.
  { intros Hd%(f_equal length). rewrite length_drop in Hd. unfold n, l in Hd. cbn [length] in Hd.
    destruct (limit <=? 0) eqn:El; destruct (_ <? 0) eqn:Es in Hd; bool_hyps; lia. }
  pose proof (di_hist _ (ki_derived _ HK) _ _ E) as [A B C D]. unfold log_max in *. split_and!.
  - rewrite length_drop. lia.
  - by apply Forall_drop.
  - intros i a b. rewrite !lookup_drop, Nat.add_succ_r. apply C.
  - rewrite suffix_last by done. rewrite (di_log _ (ki_derived _ HK)), E. cbn [mbind option_bind].
    destruct (last l) as [a|] eqn:El; [|by apply last_None in El]. exists a. by destruct (D a eq_refl).
Qed.

(** ** The theorems on a concrete history *)

Lemma recorded_graph_witness : NoDup (node_ids (gs_nodes (graph_of e3 "run-1"))).
Proof. apply (gw_nodes (events_of e3 "run-1")), (recorded_graph ev_cfg e3 "run-1"); [exact e3_reach|reflexivity]. Defined.

Lemma graph_complete_iff_witness :
  complete (gs_nodes (graph_of e2 "run-1")) (gs_edges (graph_of e2 "run-1")).
Proof.
  assert (isHighRiskGraphCompleteLocked e2 " run-1" = true) as H by (vm_compute; reflexivity).
  apply (graph_complete_iff ev_cfg e2 " run-1" e2_reach) in H; [|vm_compute; reflexivity].
  destruct H as [_ [H|[H|H]]].
  - vm_compute in H. discriminate H.
  - rewrite Forall_forall in H. exfalso. assert (Hf := H (hd (seal genesis (request_event ev_req1
      (mk_SourceRegistration "" 1 ""))) (events_of e2 "run-1"))). vm_compute in Hf.
    discriminate Hf. apply list_elem_of_In. left. reflexivity.
  - exact H.
Defined.

Definition two_edges : list DecisionGraphEdge :=
  [mk_DecisionGraphEdge "e1" "r" "a" "b" "causal" 0; mk_DecisionGraphEdge "e2" "r" "b" "a" "causal" 0].

Lemma closure_terminates_witness : "b" ∈ ancestors 3 (incoming_of two_edges) {["a"]} ["a"].
Proof.
  apply (closure_terminates two_edges "a" 3); [cbn; lia|].
  apply rtc_once. exists (mk_DecisionGraphEdge "e2" "r" "b" "a" "causal" 0). split_and!; try done. set_solver.
Defined.

Lemma critical_path_bounded_witness :
  exists rest, path_ok (default [] (k_graphEdgesByRun e2 !! "run-1")) "n2" ["n1"; "n2"] rest.
Proof.
  destruct (critical_path_bounded e2 "run-1" "n2") as (rest & H & _).
  - vm_compute. congruence.
  - exists rest. vm_compute in H |- *. exact H.
Defined.

Definition ev_history : list DecisionLog := Eval vm_compute in
  match GetDecisionLogHistory e3 "dec-1" 0 with Some h => h | None => [] end.

Lemma decision_log_versions_witness : Forall (fun l => dl_DecisionID l = "dec-1") ev_history.
Proof.
  apply (decision_log_versions ev_cfg e3 "dec-1" 0 ev_history).
  - exact e3_reach.
  - vm_compute. reflexivity.
Defined.
