(* ===== verification/EvLedger.v ===== *)
(** * The ledger report *)

From S2P Require Import Prelude GoStrings Sha256 GoTime GoJson EvTypes EvEvents EvKernel EvRetain EvGraph EvReports EvFrame EvChain EvIngest EvRebuild EvSweep EvDerived EvTrace EvExamples.

(** The ledger as entries with the run they are filed under. *)
Definition flat (ps : list (string * list LedgerEntry)) : list (string * LedgerEntry) :=
  flat_map (fun p => map (pair p.1) p.2) ps.
Definition ledger_entries (k : Kernel) : list (string * LedgerEntry) :=
  flat (map_to_list (k_ledgerByRun k)).

(** The entry passes the filters of the request and belongs to the group. *)
Definition in_group (req : LedgerAggregateRequest) (groupBy key : string) (x : string * LedgerEntry) : bool :=
  ledger_matches req x.1 x.2 && (ledgerGroupKey x.2 groupBy =? key)%string.

Section Aggregate.
Context (req : LedgerAggregateRequest) (groupBy : string).

Definition agg (rows : gmap string LedgerAggregateRow) (x : string * LedgerEntry) :=
  aggregate_entry req groupBy x.1 rows x.2.

Lemma agg_flat ps : forall rows,
  foldl (fun rows p => foldl (aggregate_entry req groupBy p.1) rows p.2) rows ps = foldl agg rows (flat ps).
Proof.
  induction ps as [|p ps IH]; intros rows; [done|]. unfold flat. cbn [foldl flat_map].
  rewrite IH, foldl_app. f_equal. by rewrite foldl_map.
Qed.

Definition group_rows (key : string) (row : LedgerAggregateRow) (l : list (string * LedgerEntry)) :=
  foldl (fun row x => add_entry x.2 row) row (List.filter (in_group req groupBy key) l).

Lemma agg_lookup l : forall rows key, (foldl agg rows l) !! key
  = match List.filter (in_group req groupBy key) l with
    | [] => rows !! key
    | _ => Some (group_rows key (default (empty_row key) (rows !! key)) l)
    end.
Proof.
  induction l as [|x l IH]; intros rows key; [done|]. cbn [foldl]. rewrite IH. unfold group_rows.
  cbn [List.filter]. unfold agg, aggregate_entry.
  assert (in_group req groupBy key x
    = ledger_matches req x.1 x.2 && (ledgerGroupKey x.2 groupBy =? key)%string) as -> by done.
  destruct (ledger_matches req x.1 x.2); cbn [andb]; [|done].
  destruct (ledgerGroupKey x.2 groupBy =? key)%string eqn:E.
  - apply String.eqb_eq in E as <-. rewrite lookup_insert_eq. cbn [foldl].
    by destruct (List.filter _ l).
  - apply String.eqb_neq in E. by rewrite lookup_insert_ne.
Qed.

Lemma add_entries_fields (l : list (string * LedgerEntry)) : forall row, let row' := foldl (fun row x => add_entry x.2 row) row l in
  lr_GroupKey row' = lr_GroupKey row
  /\ (in_int64 (lr_EntryCount row) ->
      lr_EntryCount row' = wrap_int64 (lr_EntryCount row + Z.of_nat (length l))).
Proof.
  induction l as [|x l IH] using rev_ind; intros row; cbn zeta.
  { cbn. split; [done|]. intros H. by rewrite Z.add_0_r, wrap_int64_id. }
  rewrite foldl_snoc, length_app. destruct (IH row) as [A B]. cbn zeta in *.
  cbn [add_entry lr_GroupKey lr_EntryCount length]. split; [done|]. intros H.
  rewrite B, wrap_int64_add by done. f_equal. lia.
Qed.
End Aggregate.

Lemma finish_row_fields d row : lr_GroupKey (finish_row d row) = lr_GroupKey row
  /\ lr_EntryCount (finish_row d row) = lr_EntryCount row.
Proof.
  unfold finish_row. destruct (0 <? _); [|done]. destruct d; [|done]. cbv zeta.
  by destruct (detectLedgerAnomaly _).
Qed.

(** The grouping a request asks for. *)
Definition group_by (req : LedgerAggregateRequest) : string :=
  let g := TrimSpace (lq_GroupBy req) in if (g =? "")%string then "resource_type" else g.

Section Report.
Context {MR : MapRange}.

Lemma flat_range k : flat (range_map (k_ledgerByRun k)) ≡ₚ ledger_entries k.
Proof. apply Permutation_flat_map, range_map_perm. Qed.

Lemma group_count req g key l l' : l ≡ₚ l' ->
  length (List.filter (in_group req g key) l) = length (List.filter (in_group req g key) l').
Proof.
  induction 1; cbn [List.filter]; repeat destruct (in_group _ _ _ _); cbn [length]; congruence.
Qed.

#[local] Instance row_le_trans : Transitive row_le.
Proof. unfold row_le. intros a b c. apply transitivity. Qed.
#[local] Instance row_le_total : Total row_le.
Proof. intros a b. unfold row_le. apply String.le_total. Qed.

(** The rows before sorting. *)
Definition report_rows (req : LedgerAggregateRequest) (k : Kernel) : gmap string LedgerAggregateRow :=
  foldl (agg req (group_by req)) ∅ (flat (range_map (k_ledgerByRun k))).

Lemma report_rows_lookup req k key row : report_rows req k !! key = Some row ->
  lr_GroupKey row = key
  /\ lr_EntryCount row
     = wrap_int64 (Z.of_nat (length (List.filter (in_group req (group_by req) key) (ledger_entries k))))
  /\ List.filter (in_group req (group_by req) key) (ledger_entries k) <> [].
Proof.
  unfold report_rows. rewrite agg_lookup, lookup_empty. unfold group_rows. cbn [from_option].
  pose proof (group_count req (group_by req) key _ _ (flat_range k)) as Hc.
  destruct (List.filter _ (flat _)) as [|x l] eqn:E; [done|]. intros [= <-].
  destruct (add_entries_fields (x :: l) (empty_row key)) as [A B]. split; [exact A|]. split.
  - etrans; [apply B; unfold in_int64, min_int64, max_int64; cbn; lia|].
    change (lr_EntryCount (empty_row key)) with 0. by rewrite Z.add_0_l, Hc.
  - intros Hn. by rewrite Hn in Hc.
Qed.

Lemma report_rows_some req k x : x ∈ ledger_entries k -> ledger_matches req x.1 x.2 = true ->
  is_Some (report_rows req k !! ledgerGroupKey x.2 (group_by req)).
Proof.
  intros Hx Hm. unfold report_rows. rewrite agg_lookup.
  destruct (List.filter _ (flat _)) as [|y l] eqn:E; [|by eexists]. exfalso.
  assert (In x (List.filter (in_group req (group_by req) (ledgerGroupKey x.2 (group_by req)))
    (flat (range_map (k_ledgerByRun k))))) as Hin; [|by rewrite E in Hin].
  apply filter_In. rewrite <- list_elem_of_In, flat_range. split; [done|]. unfold in_group.
  by rewrite Hm, String.eqb_refl.
Qed.

Lemma AggregateLedger_eq req now k resp : AggregateLedger req now k = Ok resp ->
  ls_Rows resp = merge_sort row_le (map (fun p => finish_row (lq_DetectAnomaly req) p.2)
                                      (range_map (report_rows req k))).
Proof.
  unfold AggregateLedger. fold (group_by req). cbv zeta. destruct (negb _); [done|]. intros [= <-].
  cbn [ls_Rows]. f_equal. unfold go_range.
  assert (forall ps acc, foldl (fun out (kv : string * LedgerAggregateRow) => out ++ [finish_row (lq_DetectAnomaly req) kv.2]) acc ps
    = acc ++ map (fun p => finish_row (lq_DetectAnomaly req) p.2) ps) as E.
  { induction ps as [|q ps IH]; intros acc; [by rewrite app_nil_r|]. cbn [foldl map].
    by rewrite IH, <- app_assoc. }
  rewrite E, (agg_flat req (group_by req)). done.
Qed.

(** The ledger report.  For any reachable state and any order of the maps,
    the rows of [AggregateLedger] come in strictly increasing order of their
    key, one per group that has an entry passing the filters; each row counts
    exactly those entries, over all the runs' ledgers (and those ledgers charge
    exactly the usage of the stored events, by the invariant). *)
Theorem ledger_report cfg k req now resp : reach cfg k -> AggregateLedger req now k = Ok resp ->
  StronglySorted (fun a b => String.le (lr_GroupKey a) (lr_GroupKey b) /\ lr_GroupKey a <> lr_GroupKey b)
    (ls_Rows resp)
  /\ (forall row, row ∈ ls_Rows resp -> lr_EntryCount row
      = wrap_int64 (Z.of_nat (length (List.filter (in_group req (group_by req) (lr_GroupKey row))
                                        (ledger_entries k)))))
  /\ (forall key, key ∈ map lr_GroupKey (ls_Rows resp)
      <-> exists x, x ∈ ledger_entries k /\ in_group req (group_by req) key x = true)
  /\ forall r, charges k r = event_charges (events_of k r).
Proof.
  intros HK%reach_KInv Hr. apply AggregateLedger_eq in Hr. rewrite Hr. clear Hr.
  set (rows := map _ _).
  assert (Hin : forall row, row ∈ rows <-> exists row0, report_rows req k !! lr_GroupKey row = Some row0
    /\ row = finish_row (lq_DetectAnomaly req) row0).
  { intros row. unfold rows. rewrite list_elem_of_fmap. split.
    - intros ([key row0] & -> & Hp). apply range_map_elem in Hp. cbn [snd]. exists row0.
      pose proof (finish_row_fields (lq_DetectAnomaly req) row0) as [-> _].
      pose proof (report_rows_lookup _ _ _ _ Hp) as (-> & _). done.
    - intros (row0 & Hl & ->). exists (lr_GroupKey (finish_row (lq_DetectAnomaly req) row0), row0).
      split; [done|]. by apply range_map_elem. }
  assert (NoDup (map lr_GroupKey rows)) as Hnd.
  { unfold rows. rewrite map_map.
    assert (map (fun x => lr_GroupKey (finish_row (lq_DetectAnomaly req) x.2)) (range_map (report_rows req k))
      = (range_map (report_rows req k)).*1) as ->; [|apply range_map_nodup].
    apply map_ext_in. intros [key row] Hp%list_elem_of_In. apply range_map_elem in Hp. cbn [fst snd].
    pose proof (finish_row_fields (lq_DetectAnomaly req) row) as [-> _].
    by pose proof (report_rows_lookup _ _ _ _ Hp) as (-> & _). }
  pose proof (merge_sort_Permutation row_le rows) as Hp.
  assert (StronglySorted row_le (merge_sort row_le rows)) as Hs by apply (StronglySorted_merge_sort row_le).
  rewrite <- Hp in Hnd. split_and!.
  - clear Hp. induction Hs as [|a l Hl IH Ha]; [constructor|]. cbn [map] in Hnd.
    apply NoDup_cons in Hnd as [Hni Hnd]. constructor; [by apply IH|].
    rewrite Forall_forall in Ha |- *. intros b Hb. split; [by apply Ha|]. intros E. apply Hni. rewrite E.
    by apply (list_elem_of_fmap_2 lr_GroupKey).
  - intros row. rewrite Hp. intros (row0 & Hl & E)%Hin.
    pose proof (report_rows_lookup _ _ _ _ Hl) as (_ & Hc & _). rewrite <- Hc, E. apply finish_row_fields.
  - intros key. rewrite Hp. split.
    + intros (row & -> & (row0 & Hl & _)%Hin)%list_elem_of_fmap.
      pose proof (report_rows_lookup _ _ _ _ Hl) as (_ & _ & Hn).
      destruct (List.filter _ _) as [|x l] eqn:E; [done|]. exists x.
      assert (In x (List.filter (in_group req (group_by req) (lr_GroupKey row)) (ledger_entries k))) as Hx
        by (rewrite E; by left). by rewrite filter_In, <- list_elem_of_In in Hx.
    + intros (x & Hx & [Hm Hk]%andb_true_iff). apply String.eqb_eq in Hk as <-.
      destruct (report_rows_some req k x Hx Hm) as [row Hl].
      pose proof (finish_row_fields (lq_DetectAnomaly req) row) as [E _].
      pose proof (report_rows_lookup _ _ _ _ Hl) as (E2 & _).
      apply list_elem_of_fmap. exists (finish_row (lq_DetectAnomaly req) row). split; [by rewrite E|].
      apply Hin. exists row. by rewrite E, E2.
  - apply (di_ledger _ (ki_derived _ HK)).
Qed.
End Report.

(** ** The report on a concrete history *)

Definition ev_report : LedgerAggregateRequest := mk_LedgerAggregateRequest "" "" "" "" 0 0 "" false.
Definition ev_rows : LedgerAggregateResponse := Eval vm_compute in
  match AggregateLedger ev_report (ev_at 3) e3 with
  | Ok r => r | Err _ => mk_LedgerAggregateResponse [] 0 end.

Definition ev_entries : list (string * LedgerEntry) := Eval vm_compute in ledger_entries e3.

Lemma ledger_report_witness : "tokens" ∈ map lr_GroupKey (ls_Rows ev_rows).
Proof.
  apply (ledger_report ev_cfg e3 ev_report (ev_at 3) ev_rows).
  - exact e3_reach.
  - vm_compute. reflexivity.
  - assert (ledger_entries e3 = ev_entries) as -> by (vm_compute; reflexivity). unfold ev_entries.
    eexists. split; [apply list_elem_of_here|]. vm_compute. reflexivity.
Defined.
