(* ===== verification/DecTypes.v ===== *)
(** * The data of the Decision service ([internal/decision/types.go] and the
    structs of [service.go] and [contract_store.go])

    Structs are records with the source's field names behind a prefix, with one
    setter per field the service assigns; enumerations are string constants.
    A [map[string]float64] that a request carries is [Resources]: [None] is the
    nil map.  The three collaborators a service is configured with (the clock,
    the contract store, the two ports to the Run kernel) are arguments of the
    operations that use them. *)

From S2P Require Import Prelude GoStrings GoTime GoJson.

(** ** Constants *)

Definition DecisionAllow : string := "allow".
Definition DecisionDeny : string := "deny".
Definition DecisionAutoDeny : string := "auto_deny".
Definition DecisionRequireApproval : string := "require_approval".
Definition DecisionReviewRequired : string := "review_required".
Definition DecisionFailClosed : string := "fail_closed".
Definition DecisionFailed : string := "failed".
Definition DecisionForceReview : string := "force_review_required".
Definition DecisionBlock : string := "block".
Definition DecisionPass : string := "pass".

Definition RiskLow : string := "low".
Definition RiskMedium : string := "medium".
Definition RiskHigh : string := "high".
Definition RiskCritical : string := "critical".

Definition EffectRead : string := "read".
Definition EffectWrite : string := "write".
Definition EffectExternalWrite : string := "external_write".
Definition EffectIrreversible : string := "irreversible".

Definition PhasePreContext : string := "PRE_CONTEXT".
Definition PhasePreTool : string := "PRE_TOOL".
Definition PhasePreResume : string := "PRE_RESUME".
Definition PhasePreRelease : string := "PRE_RELEASE".

Definition ErrCodeDecisionDCUExceeded : string := "DECISION_DCU_EXCEEDED".
Definition ErrCodeDecisionDCUProfileMissing : string := "DECISION_DCU_PROFILE_MISSING".
Definition ErrCodeFreezeInputMissing : string := "FREEZE_INPUT_MISSING".
Definition ErrCodeFreezeForbiddenDynamic : string := "FREEZE_FORBIDDEN_DYNAMIC_FIELD".
Definition ErrCodeFeatureSignalMissing : string := "FEATURE_SIGNAL_CONTRACT_MISSING".
Definition ErrCodeFeatureSignalPinMismatch : string := "FEATURE_SIGNAL_CONTRACT_PIN_MISMATCH".
Definition ErrCodeDecisionGraphRequired : string := "DECISION_GRAPH_REQUIRED".
Definition ErrCodeSoftRetryExhausted : string := "DECISION_RETRY_EXHAUSTED".
Definition ErrCodeApprovalUnavailable : string := "APPROVAL_UNAVAILABLE".
Definition ErrCodePolicyEngineUnavailable : string := "POLICY_ENGINE_UNAVAILABLE".
Definition ErrCodeDecisionHashInvalid : string := "DECISION_HASH_INVALID".

Definition EnforcementObserveOnly : string := "observe_only".
Definition EnforcementAlert : string := "alert".
Definition EnforcementBlockRelease : string := "block_release".
Definition EnforcementBlockRuntime : string := "block_runtime".
Definition EnforcementMissing : string := "missing_metric".

Definition DecisionHashKindStable : string := "stable".
Definition DecisionHashKindFallback : string := "fallback".
Definition DecisionHashKindError : string := "error".

Definition pendingStatusPending : string := "pending_decision".
Definition pendingStatusConfirmed : string := "decision_confirmed".
Definition pendingStatusSafeguardHold : string := "safeguard_hold".
Definition pendingStatusEscalatedOncall : string := "escalated_oncall".
Definition pendingStatusManuallyClosed : string := "manually_closed".

Definition cleanupTimeSourceWallClock : string := "wall_clock".
Definition cleanupTimeSourceEventTime : string := "event_time".

Inductive SoftFailureStage :=
| SoftFailureStageNone
| SoftFailureStageReset
| SoftFailureStageRetrying
| SoftFailureStageExhausted
| SoftFailureStageEscalated.

Definition softFailureStageToString (s : SoftFailureStage) : string :=
  match s with
  | SoftFailureStageNone => "none"
  | SoftFailureStageReset => "reset"
  | SoftFailureStageRetrying => "retrying"
  | SoftFailureStageExhausted => "exhausted"
  | SoftFailureStageEscalated => "escalated"
  end.

Definition ParseSoftFailureStage (raw : string) : option SoftFailureStage :=
  let v := ToLower (TrimSpace raw) in
  if (v =? "none")%string then Some SoftFailureStageNone
  else if (v =? "reset")%string then Some SoftFailureStageReset
  else if (v =? "retrying")%string then Some SoftFailureStageRetrying
  else if (v =? "exhausted")%string then Some SoftFailureStageExhausted
  else if (v =? "escalated")%string then Some SoftFailureStageEscalated
  else None.

Definition Resources := option (gmap string float64).

(** ** Runtime evaluation *)

Record ScopeRef := mk_ScopeRef {
  sc_OrgID : string;
  sc_WorkspaceID : string;
  sc_ProjectID : string
}.

Record FrozenInput := mk_FrozenInput {
  fi_ContextCandidatesSnapshotRef : string;
  fi_PolicyBundleSnapshotRef : string;
  fi_FeatureSnapshotID : string;
  fi_ApprovalRoutingSnapshotRef : string;
  fi_QuotaSnapshotRef : string;
  fi_SchedulerAdmissionInputSnapshotRef : string
}.

Record FreezeLayer := mk_FreezeLayer {
  fz_Frozen : FrozenInput;
  fz_DynamicUsed : list string
}.

Record DCUInput := mk_DCUInput {
  di_FeatureReads : Z;
  di_RuleEvals : Z;
  di_DependencyCalls : Z;
  di_ConflictResolutions : Z
}.

Record DCUBreakdown := mk_DCUBreakdown {
  db_FeatureReadsCost : Z;
  db_RuleEvalCost : Z;
  db_DependencyCallCost : Z;
  db_ConflictResolutionCost : Z;
  db_Total : Z
}.

Record DCUProfile := mk_DCUProfile {
  dpf_ProfileID : string;
  dpf_Limit : Z
}.

Record RuntimeDecisionRequest := mk_RuntimeDecisionRequest {
  q_RequestID : string;
  q_TraceID : string;
  q_TenantID : string;
  q_WorkflowID : string;
  q_RunID : string;
  q_StepID : string;
  q_RiskTier : string;
  q_EffectType : string;
  q_DecisionGraphID : string;
  q_ParentDecisionNodeIDs : list string;
  q_ApprovalSystemAvailable : bool;
  q_Freeze : FreezeLayer;
  q_Phase : string;
  q_PolicyEngineAvailable : option bool;
  q_EvidenceFingerprint : string;
  q_AttemptIndex : Z;
  q_DCUInput : DCUInput;
  q_FeatureVersion : string;
  q_FeatureSchemaVersion : string;
  q_FeatureEvidenceRef : string;
  q_FeatureProducerID : string;
  q_FeatureFreshnessMS : Z;
  q_FeatureTTLMS : Z;
  q_FeatureDriftScore : float64;
  q_FeatureContractScope : ScopeRef;
  q_FeatureContractHashPin : string
}.

Record Obligation := mk_Obligation {
  ob_Type : string;
  ob_Target : string;
  ob_Value : string;
  ob_Phase : string;
  ob_Strictness : Z
}.

Record PolicyInput := mk_PolicyInput {
  pin_RiskTier : string;
  pin_EffectType : string
}.

Record PolicyMatch := mk_PolicyMatch {
  pm_RiskTiers : list string;
  pm_EffectTypes : list string
}.

Record PolicyRule := mk_PolicyRule {
  pl_RuleID : string;
  pl_Phase : string;
  pl_Priority : Z;
  pl_Strictness : Z;
  pl_Decision : string;
  pl_Match : PolicyMatch;
  pl_Obligations : list Obligation;
  pl_FailureMode : string
}.

Record PolicyDecisionOverride := mk_PolicyDecisionOverride {
  po_FromRuleID : string;
  po_FromDecision : string;
  po_ToRuleID : string;
  po_ToDecision : string;
  po_Reason : string
}.

Record PolicyEvaluation := mk_PolicyEvaluation {
  pe_MatchedRuleIDs : list string;
  pe_Decision : string;
  pe_Obligations : list Obligation;
  pe_Conflicts : list string;
  pe_EffectiveRuleID : string;
  pe_DecisionOverrideTrace : list PolicyDecisionOverride;
  pe_ConflictingRulePairs : list string
}.

Record ObligationResolution := mk_ObligationResolution {
  ors_Key : string;
  ors_PreviousPhase : string;
  ors_PreviousStrictness : Z;
  ors_IncomingPhase : string;
  ors_IncomingStrictness : Z;
  ors_Outcome : string;
  ors_Reason : string
}.

Record ObligationPlan := mk_ObligationPlan {
  opl_Obligations : list Obligation;
  opl_Conflicts : list string;
  opl_ResolutionTraces : list ObligationResolution
}.

Record FeatureSignalContract := mk_FeatureSignalContract {
  fc_RequiredFields : list string;
  fc_SchemaVersion : string;
  fc_TrustedProducerIDs : list string;
  fc_MaxFreshnessMS : Z;
  fc_MaxDriftScore : float64
}.

Record FeatureSignalContractBinding := mk_FeatureSignalContractBinding {
  fb_Scope : ScopeRef;
  fb_ScopeMatchLevel : string;
  fb_KeyMatchLevel : string;
  fb_ContractKey : string;
  fb_StorageKey : string;
  fb_Version : Z;
  fb_StoreVersion : Z;
  fb_ContractHash : string;
  fb_SchemaVersion : string;
  fb_ResolutionPath : list string;
  fb_ResolvedAt : time;
  fb_RequiredFields : list string;
  fb_MaxFreshnessMS : Z;
  fb_MaxDriftScore : float64;
  fb_TrustedProducers : list string
}.

Record DecisionAudit := mk_DecisionAudit {
  da_ErrorCodes : list string;
  da_DCUUsed : Z;
  da_DCULimit : Z;
  da_DCUProfileID : string;
  da_DCURejectReason : string;
  da_DCUComponentBreakdown : DCUBreakdown;
  da_TerminalReason : string;
  da_AttemptIndex : Z
}.

Definition da_set_ErrorCodes (x : list string) (r : DecisionAudit) : DecisionAudit :=
  mk_DecisionAudit x (da_DCUUsed r) (da_DCULimit r) (da_DCUProfileID r) (da_DCURejectReason r)
    (da_DCUComponentBreakdown r) (da_TerminalReason r) (da_AttemptIndex r).
Definition da_set_DCURejectReason (x : string) (r : DecisionAudit) : DecisionAudit :=
  mk_DecisionAudit (da_ErrorCodes r) (da_DCUUsed r) (da_DCULimit r) (da_DCUProfileID r) x
    (da_DCUComponentBreakdown r) (da_TerminalReason r) (da_AttemptIndex r).
Definition da_set_TerminalReason (x : string) (r : DecisionAudit) : DecisionAudit :=
  mk_DecisionAudit (da_ErrorCodes r) (da_DCUUsed r) (da_DCULimit r) (da_DCUProfileID r)
    (da_DCURejectReason r) (da_DCUComponentBreakdown r) x (da_AttemptIndex r).

Record DecisionHashRef := mk_DecisionHashRef {
  hr_Value : string;
  hr_Valid : bool;
  hr_Kind : string
}.

Record RuntimeDecisionResponse := mk_RuntimeDecisionResponse {
  r_DecisionID : string;
  r_Decision : string;
  r_DecisionSubType : string;
  r_ReasonCodes : list string;
  r_MatchedRuleIDs : list string;
  r_Obligations : list Obligation;
  r_FrozenInputHash : string;
  r_TraceID : string;
  r_DecisionGraphID : string;
  r_DecisionNodeID : string;
  r_ParentDecisionNodeIDs : list string;
  r_DecisionHash : string;
  r_DecisionHashIsFallback : bool;
  r_DecisionHashRef : DecisionHashRef;
  r_FeatureContractBinding : FeatureSignalContractBinding;
  r_SoftFailureStage : SoftFailureStage;
  r_Audit : DecisionAudit
}.

Definition r_set_Decision (x : string) (r : RuntimeDecisionResponse) : RuntimeDecisionResponse :=
  mk_RuntimeDecisionResponse (r_DecisionID r) x (r_DecisionSubType r) (r_ReasonCodes r)
    (r_MatchedRuleIDs r) (r_Obligations r) (r_FrozenInputHash r) (r_TraceID r) (r_DecisionGraphID r)
    (r_DecisionNodeID r) (r_ParentDecisionNodeIDs r) (r_DecisionHash r) (r_DecisionHashIsFallback r)
    (r_DecisionHashRef r) (r_FeatureContractBinding r) (r_SoftFailureStage r) (r_Audit r).
Definition r_set_DecisionSubType (x : string) (r : RuntimeDecisionResponse) : RuntimeDecisionResponse :=
  mk_RuntimeDecisionResponse (r_DecisionID r) (r_Decision r) x (r_ReasonCodes r)
    (r_MatchedRuleIDs r) (r_Obligations r) (r_FrozenInputHash r) (r_TraceID r) (r_DecisionGraphID r)
    (r_DecisionNodeID r) (r_ParentDecisionNodeIDs r) (r_DecisionHash r) (r_DecisionHashIsFallback r)
    (r_DecisionHashRef r) (r_FeatureContractBinding r) (r_SoftFailureStage r) (r_Audit r).
Definition r_set_ReasonCodes (x : list string) (r : RuntimeDecisionResponse) : RuntimeDecisionResponse :=
  mk_RuntimeDecisionResponse (r_DecisionID r) (r_Decision r) (r_DecisionSubType r) x
    (r_MatchedRuleIDs r) (r_Obligations r) (r_FrozenInputHash r) (r_TraceID r) (r_DecisionGraphID r)
    (r_DecisionNodeID r) (r_ParentDecisionNodeIDs r) (r_DecisionHash r) (r_DecisionHashIsFallback r)
    (r_DecisionHashRef r) (r_FeatureContractBinding r) (r_SoftFailureStage r) (r_Audit r).
Definition r_set_MatchedRuleIDs (x : list string) (r : RuntimeDecisionResponse) : RuntimeDecisionResponse :=
  mk_RuntimeDecisionResponse (r_DecisionID r) (r_Decision r) (r_DecisionSubType r) (r_ReasonCodes r)
    x (r_Obligations r) (r_FrozenInputHash r) (r_TraceID r) (r_DecisionGraphID r)
    (r_DecisionNodeID r) (r_ParentDecisionNodeIDs r) (r_DecisionHash r) (r_DecisionHashIsFallback r)
    (r_DecisionHashRef r) (r_FeatureContractBinding r) (r_SoftFailureStage r) (r_Audit r).
Definition r_set_Obligations (x : list Obligation) (r : RuntimeDecisionResponse) : RuntimeDecisionResponse :=
  mk_RuntimeDecisionResponse (r_DecisionID r) (r_Decision r) (r_DecisionSubType r) (r_ReasonCodes r)
    (r_MatchedRuleIDs r) x (r_FrozenInputHash r) (r_TraceID r) (r_DecisionGraphID r)
    (r_DecisionNodeID r) (r_ParentDecisionNodeIDs r) (r_DecisionHash r) (r_DecisionHashIsFallback r)
    (r_DecisionHashRef r) (r_FeatureContractBinding r) (r_SoftFailureStage r) (r_Audit r).
Definition r_set_TraceID (x : string) (r : RuntimeDecisionResponse) : RuntimeDecisionResponse :=
  mk_RuntimeDecisionResponse (r_DecisionID r) (r_Decision r) (r_DecisionSubType r) (r_ReasonCodes r)
    (r_MatchedRuleIDs r) (r_Obligations r) (r_FrozenInputHash r) x (r_DecisionGraphID r)
    (r_DecisionNodeID r) (r_ParentDecisionNodeIDs r) (r_DecisionHash r) (r_DecisionHashIsFallback r)
    (r_DecisionHashRef r) (r_FeatureContractBinding r) (r_SoftFailureStage r) (r_Audit r).
Definition r_set_DecisionGraphID (x : string) (r : RuntimeDecisionResponse) : RuntimeDecisionResponse :=
  mk_RuntimeDecisionResponse (r_DecisionID r) (r_Decision r) (r_DecisionSubType r) (r_ReasonCodes r)
    (r_MatchedRuleIDs r) (r_Obligations r) (r_FrozenInputHash r) (r_TraceID r) x
    (r_DecisionNodeID r) (r_ParentDecisionNodeIDs r) (r_DecisionHash r) (r_DecisionHashIsFallback r)
    (r_DecisionHashRef r) (r_FeatureContractBinding r) (r_SoftFailureStage r) (r_Audit r).
Definition r_set_DecisionNodeID (x : string) (r : RuntimeDecisionResponse) : RuntimeDecisionResponse :=
  mk_RuntimeDecisionResponse (r_DecisionID r) (r_Decision r) (r_DecisionSubType r) (r_ReasonCodes r)
    (r_MatchedRuleIDs r) (r_Obligations r) (r_FrozenInputHash r) (r_TraceID r) (r_DecisionGraphID r)
    x (r_ParentDecisionNodeIDs r) (r_DecisionHash r) (r_DecisionHashIsFallback r)
    (r_DecisionHashRef r) (r_FeatureContractBinding r) (r_SoftFailureStage r) (r_Audit r).
Definition r_set_ParentDecisionNodeIDs (x : list string) (r : RuntimeDecisionResponse) : RuntimeDecisionResponse :=
  mk_RuntimeDecisionResponse (r_DecisionID r) (r_Decision r) (r_DecisionSubType r) (r_ReasonCodes r)
    (r_MatchedRuleIDs r) (r_Obligations r) (r_FrozenInputHash r) (r_TraceID r) (r_DecisionGraphID r)
    (r_DecisionNodeID r) x (r_DecisionHash r) (r_DecisionHashIsFallback r) (r_DecisionHashRef r)
    (r_FeatureContractBinding r) (r_SoftFailureStage r) (r_Audit r).
Definition r_set_DecisionHash (x : string) (r : RuntimeDecisionResponse) : RuntimeDecisionResponse :=
  mk_RuntimeDecisionResponse (r_DecisionID r) (r_Decision r) (r_DecisionSubType r) (r_ReasonCodes r)
    (r_MatchedRuleIDs r) (r_Obligations r) (r_FrozenInputHash r) (r_TraceID r) (r_DecisionGraphID r)
    (r_DecisionNodeID r) (r_ParentDecisionNodeIDs r) x (r_DecisionHashIsFallback r)
    (r_DecisionHashRef r) (r_FeatureContractBinding r) (r_SoftFailureStage r) (r_Audit r).
Definition r_set_DecisionHashIsFallback (x : bool) (r : RuntimeDecisionResponse) : RuntimeDecisionResponse :=
  mk_RuntimeDecisionResponse (r_DecisionID r) (r_Decision r) (r_DecisionSubType r) (r_ReasonCodes r)
    (r_MatchedRuleIDs r) (r_Obligations r) (r_FrozenInputHash r) (r_TraceID r) (r_DecisionGraphID r)
    (r_DecisionNodeID r) (r_ParentDecisionNodeIDs r) (r_DecisionHash r) x (r_DecisionHashRef r)
    (r_FeatureContractBinding r) (r_SoftFailureStage r) (r_Audit r).
Definition r_set_DecisionHashRef (x : DecisionHashRef) (r : RuntimeDecisionResponse) : RuntimeDecisionResponse :=
  mk_RuntimeDecisionResponse (r_DecisionID r) (r_Decision r) (r_DecisionSubType r) (r_ReasonCodes r)
    (r_MatchedRuleIDs r) (r_Obligations r) (r_FrozenInputHash r) (r_TraceID r) (r_DecisionGraphID r)
    (r_DecisionNodeID r) (r_ParentDecisionNodeIDs r) (r_DecisionHash r) (r_DecisionHashIsFallback r)
    x (r_FeatureContractBinding r) (r_SoftFailureStage r) (r_Audit r).
Definition r_set_FeatureContractBinding (x : FeatureSignalContractBinding) (r : RuntimeDecisionResponse) : RuntimeDecisionResponse :=
  mk_RuntimeDecisionResponse (r_DecisionID r) (r_Decision r) (r_DecisionSubType r) (r_ReasonCodes r)
    (r_MatchedRuleIDs r) (r_Obligations r) (r_FrozenInputHash r) (r_TraceID r) (r_DecisionGraphID r)
    (r_DecisionNodeID r) (r_ParentDecisionNodeIDs r) (r_DecisionHash r) (r_DecisionHashIsFallback r)
    (r_DecisionHashRef r) x (r_SoftFailureStage r) (r_Audit r).
Definition r_set_SoftFailureStage (x : SoftFailureStage) (r : RuntimeDecisionResponse) : RuntimeDecisionResponse :=
  mk_RuntimeDecisionResponse (r_DecisionID r) (r_Decision r) (r_DecisionSubType r) (r_ReasonCodes r)
    (r_MatchedRuleIDs r) (r_Obligations r) (r_FrozenInputHash r) (r_TraceID r) (r_DecisionGraphID r)
    (r_DecisionNodeID r) (r_ParentDecisionNodeIDs r) (r_DecisionHash r) (r_DecisionHashIsFallback r)
    (r_DecisionHashRef r) (r_FeatureContractBinding r) x (r_Audit r).
Definition r_set_Audit (x : DecisionAudit) (r : RuntimeDecisionResponse) : RuntimeDecisionResponse :=
  mk_RuntimeDecisionResponse (r_DecisionID r) (r_Decision r) (r_DecisionSubType r) (r_ReasonCodes r)
    (r_MatchedRuleIDs r) (r_Obligations r) (r_FrozenInputHash r) (r_TraceID r) (r_DecisionGraphID r)
    (r_DecisionNodeID r) (r_ParentDecisionNodeIDs r) (r_DecisionHash r) (r_DecisionHashIsFallback r)
    (r_DecisionHashRef r) (r_FeatureContractBinding r) (r_SoftFailureStage r) x.

(** ** Schedule admission, tickets and receipts *)

Record ScheduleAdmissionRequest := mk_ScheduleAdmissionRequest {
  sq_RequestID : string;
  sq_RunID : string;
  sq_StepID : string;
  sq_TenantID : string;
  sq_RiskTier : string;
  sq_PriorityClass : string;
  sq_RequestedResources : Resources;
  sq_QuotaRemaining : Resources;
  sq_IsVIP : bool;
  sq_AllowPreempt : bool
}.

Record DispatchTicket := mk_DispatchTicket {
  t_TicketID : string;
  t_RunID : string;
  t_StepID : string;
  t_TenantID : string;
  t_AllowedResources : Resources;
  t_PriorityClass : string;
  t_ExpiresAt : time;
  t_DecisionHash : string;
  t_DecisionHashKind : string;
  t_Preemptable : bool
}.

Definition t_set_DecisionHash (x : string) (r : DispatchTicket) : DispatchTicket :=
  mk_DispatchTicket (t_TicketID r) (t_RunID r) (t_StepID r) (t_TenantID r) (t_AllowedResources r)
    (t_PriorityClass r) (t_ExpiresAt r) x (t_DecisionHashKind r) (t_Preemptable r).
Definition t_set_DecisionHashKind (x : string) (r : DispatchTicket) : DispatchTicket :=
  mk_DispatchTicket (t_TicketID r) (t_RunID r) (t_StepID r) (t_TenantID r) (t_AllowedResources r)
    (t_PriorityClass r) (t_ExpiresAt r) (t_DecisionHash r) x (t_Preemptable r).

Record ScheduleAdmissionResponse := mk_ScheduleAdmissionResponse {
  sp_DecisionID : string;
  sp_Decision : string;
  sp_QueueClass : string;
  sp_Preemptable : bool;
  sp_Ticket : option DispatchTicket;
  sp_ReasonCodes : list string;
  sp_DecisionHash : string;
  sp_DecisionHashIsFallback : bool;
  sp_DecisionHashRef : DecisionHashRef
}.

Definition sp_set_Decision (x : string) (r : ScheduleAdmissionResponse) : ScheduleAdmissionResponse :=
  mk_ScheduleAdmissionResponse (sp_DecisionID r) x (sp_QueueClass r) (sp_Preemptable r)
    (sp_Ticket r) (sp_ReasonCodes r) (sp_DecisionHash r) (sp_DecisionHashIsFallback r)
    (sp_DecisionHashRef r).
Definition sp_set_QueueClass (x : string) (r : ScheduleAdmissionResponse) : ScheduleAdmissionResponse :=
  mk_ScheduleAdmissionResponse (sp_DecisionID r) (sp_Decision r) x (sp_Preemptable r) (sp_Ticket r)
    (sp_ReasonCodes r) (sp_DecisionHash r) (sp_DecisionHashIsFallback r) (sp_DecisionHashRef r).
Definition sp_set_Preemptable (x : bool) (r : ScheduleAdmissionResponse) : ScheduleAdmissionResponse :=
  mk_ScheduleAdmissionResponse (sp_DecisionID r) (sp_Decision r) (sp_QueueClass r) x (sp_Ticket r)
    (sp_ReasonCodes r) (sp_DecisionHash r) (sp_DecisionHashIsFallback r) (sp_DecisionHashRef r).
Definition sp_set_Ticket (x : option DispatchTicket) (r : ScheduleAdmissionResponse) : ScheduleAdmissionResponse :=
  mk_ScheduleAdmissionResponse (sp_DecisionID r) (sp_Decision r) (sp_QueueClass r)
    (sp_Preemptable r) x (sp_ReasonCodes r) (sp_DecisionHash r) (sp_DecisionHashIsFallback r)
    (sp_DecisionHashRef r).
Definition sp_set_ReasonCodes (x : list string) (r : ScheduleAdmissionResponse) : ScheduleAdmissionResponse :=
  mk_ScheduleAdmissionResponse (sp_DecisionID r) (sp_Decision r) (sp_QueueClass r)
    (sp_Preemptable r) (sp_Ticket r) x (sp_DecisionHash r) (sp_DecisionHashIsFallback r)
    (sp_DecisionHashRef r).
Definition sp_set_DecisionHash (x : string) (r : ScheduleAdmissionResponse) : ScheduleAdmissionResponse :=
  mk_ScheduleAdmissionResponse (sp_DecisionID r) (sp_Decision r) (sp_QueueClass r)
    (sp_Preemptable r) (sp_Ticket r) (sp_ReasonCodes r) x (sp_DecisionHashIsFallback r)
    (sp_DecisionHashRef r).
Definition sp_set_DecisionHashIsFallback (x : bool) (r : ScheduleAdmissionResponse) : ScheduleAdmissionResponse :=
  mk_ScheduleAdmissionResponse (sp_DecisionID r) (sp_Decision r) (sp_QueueClass r)
    (sp_Preemptable r) (sp_Ticket r) (sp_ReasonCodes r) (sp_DecisionHash r) x (sp_DecisionHashRef r).
Definition sp_set_DecisionHashRef (x : DecisionHashRef) (r : ScheduleAdmissionResponse) : ScheduleAdmissionResponse :=
  mk_ScheduleAdmissionResponse (sp_DecisionID r) (sp_Decision r) (sp_QueueClass r)
    (sp_Preemptable r) (sp_Ticket r) (sp_ReasonCodes r) (sp_DecisionHash r)
    (sp_DecisionHashIsFallback r) x.

Record ExecutionReceipt := mk_ExecutionReceipt {
  xr_TicketID : string;
  xr_RunID : string;
  xr_StepID : string;
  xr_TenantID : string;
  xr_UsedResources : Resources;
  xr_ReceivedAt : time
}.

Record ExecutionReceiptResult := mk_ExecutionReceiptResult {
  xp_Accepted : bool;
  xp_ReasonCodes : list string
}.

(** ** Release *)

Record ReleaseEvidence := mk_ReleaseEvidence {
  lev_EvalPass : bool;
  lev_PolicyRegressionPass : bool;
  lev_ReplayConsistencyPass : bool;
  lev_IncidentTrendScore : float64;
  lev_HumanSignoff : bool
}.

Record ReleaseDecisionRequest := mk_ReleaseDecisionRequest {
  lq_RequestID : string;
  lq_RiskTier : string;
  lq_FastPathRequested : bool;
  lq_ChangeScopeWhitelisted : bool;
  lq_Evidence : ReleaseEvidence
}.

Record ReleaseDecisionResponse := mk_ReleaseDecisionResponse {
  lp_DecisionID : string;
  lp_FinalDecision : string;
  lp_DecisionConfidence : float64;
  lp_EvidenceCompleteness : float64;
  lp_BlockingReasons : list string;
  lp_ReasonCodes : list string;
  lp_DecisionHash : string;
  lp_DecisionHashIsFallback : bool;
  lp_DecisionHashRef : DecisionHashRef
}.

Definition lp_set_FinalDecision (x : string) (r : ReleaseDecisionResponse) : ReleaseDecisionResponse :=
  mk_ReleaseDecisionResponse (lp_DecisionID r) x (lp_DecisionConfidence r)
    (lp_EvidenceCompleteness r) (lp_BlockingReasons r) (lp_ReasonCodes r) (lp_DecisionHash r)
    (lp_DecisionHashIsFallback r) (lp_DecisionHashRef r).
Definition lp_set_DecisionConfidence (x : float64) (r : ReleaseDecisionResponse) : ReleaseDecisionResponse :=
  mk_ReleaseDecisionResponse (lp_DecisionID r) (lp_FinalDecision r) x (lp_EvidenceCompleteness r)
    (lp_BlockingReasons r) (lp_ReasonCodes r) (lp_DecisionHash r) (lp_DecisionHashIsFallback r)
    (lp_DecisionHashRef r).
Definition lp_set_EvidenceCompleteness (x : float64) (r : ReleaseDecisionResponse) : ReleaseDecisionResponse :=
  mk_ReleaseDecisionResponse (lp_DecisionID r) (lp_FinalDecision r) (lp_DecisionConfidence r) x
    (lp_BlockingReasons r) (lp_ReasonCodes r) (lp_DecisionHash r) (lp_DecisionHashIsFallback r)
    (lp_DecisionHashRef r).
Definition lp_set_BlockingReasons (x : list string) (r : ReleaseDecisionResponse) : ReleaseDecisionResponse :=
  mk_ReleaseDecisionResponse (lp_DecisionID r) (lp_FinalDecision r) (lp_DecisionConfidence r)
    (lp_EvidenceCompleteness r) x (lp_ReasonCodes r) (lp_DecisionHash r)
    (lp_DecisionHashIsFallback r) (lp_DecisionHashRef r).
Definition lp_set_ReasonCodes (x : list string) (r : ReleaseDecisionResponse) : ReleaseDecisionResponse :=
  mk_ReleaseDecisionResponse (lp_DecisionID r) (lp_FinalDecision r) (lp_DecisionConfidence r)
    (lp_EvidenceCompleteness r) (lp_BlockingReasons r) x (lp_DecisionHash r)
    (lp_DecisionHashIsFallback r) (lp_DecisionHashRef r).
Definition lp_set_DecisionHash (x : string) (r : ReleaseDecisionResponse) : ReleaseDecisionResponse :=
  mk_ReleaseDecisionResponse (lp_DecisionID r) (lp_FinalDecision r) (lp_DecisionConfidence r)
    (lp_EvidenceCompleteness r) (lp_BlockingReasons r) (lp_ReasonCodes r) x
    (lp_DecisionHashIsFallback r) (lp_DecisionHashRef r).
Definition lp_set_DecisionHashIsFallback (x : bool) (r : ReleaseDecisionResponse) : ReleaseDecisionResponse :=
  mk_ReleaseDecisionResponse (lp_DecisionID r) (lp_FinalDecision r) (lp_DecisionConfidence r)
    (lp_EvidenceCompleteness r) (lp_BlockingReasons r) (lp_ReasonCodes r) (lp_DecisionHash r) x
    (lp_DecisionHashRef r).
Definition lp_set_DecisionHashRef (x : DecisionHashRef) (r : ReleaseDecisionResponse) : ReleaseDecisionResponse :=
  mk_ReleaseDecisionResponse (lp_DecisionID r) (lp_FinalDecision r) (lp_DecisionConfidence r)
    (lp_EvidenceCompleteness r) (lp_BlockingReasons r) (lp_ReasonCodes r) (lp_DecisionHash r)
    (lp_DecisionHashIsFallback r) x.

(** ** Approval *)

Record ApprovalCase := mk_ApprovalCase {
  ac_CaseID : string;
  ac_RunID : string;
  ac_StepID : string;
  ac_DecisionID : string;
  ac_DecisionRequestedAt : time;
  ac_RiskTier : string;
  ac_Status : string;
  ac_CreatedAt : time;
  ac_ApprovalHardTimeout : time;
  ac_Mode : string;
  ac_ResolvedAt : time;
  ac_TerminalReason : string
}.

Definition ac_set_Status (x : string) (r : ApprovalCase) : ApprovalCase :=
  mk_ApprovalCase (ac_CaseID r) (ac_RunID r) (ac_StepID r) (ac_DecisionID r)
    (ac_DecisionRequestedAt r) (ac_RiskTier r) x (ac_CreatedAt r) (ac_ApprovalHardTimeout r)
    (ac_Mode r) (ac_ResolvedAt r) (ac_TerminalReason r).
Definition ac_set_ResolvedAt (x : time) (r : ApprovalCase) : ApprovalCase :=
  mk_ApprovalCase (ac_CaseID r) (ac_RunID r) (ac_StepID r) (ac_DecisionID r)
    (ac_DecisionRequestedAt r) (ac_RiskTier r) (ac_Status r) (ac_CreatedAt r)
    (ac_ApprovalHardTimeout r) (ac_Mode r) x (ac_TerminalReason r).
Definition ac_set_TerminalReason (x : string) (r : ApprovalCase) : ApprovalCase :=
  mk_ApprovalCase (ac_CaseID r) (ac_RunID r) (ac_StepID r) (ac_DecisionID r)
    (ac_DecisionRequestedAt r) (ac_RiskTier r) (ac_Status r) (ac_CreatedAt r)
    (ac_ApprovalHardTimeout r) (ac_Mode r) (ac_ResolvedAt r) x.

Record ApprovalCreateRequest := mk_ApprovalCreateRequest {
  aq_RunID : string;
  aq_StepID : string;
  aq_DecisionID : string;
  aq_RiskTier : string;
  aq_Mode : string
}.

Record ApprovalDecisionRequest := mk_ApprovalDecisionRequest {
  adq_Decision : string
}.

Record ApprovalDecisionResponse := mk_ApprovalDecisionResponse {
  adp_CaseID : string;
  adp_Status : string;
  adp_PendingStatus : string;
  adp_RunUnlockStatus : string;
  adp_ApprovalEffectiveLatencyMS : Z;
  adp_ReasonCodes : list string
}.

Record ApprovalRunUnlockSignal := mk_ApprovalRunUnlockSignal {
  ug_CaseID : string;
  ug_RunID : string;
  ug_StepID : string;
  ug_DecisionID : string;
  ug_RiskTier : string;
  ug_Outcome : string;
  ug_PendingStatus : string;
  ug_AttemptIndex : Z;
  ug_Phase : string;
  ug_OwnerKey : string;
  ug_RequestedAt : time;
  ug_ResolvedAt : time
}.

Record ApprovalRunUnlockDispatchResult := mk_ApprovalRunUnlockDispatchResult {
  ur_DispatchStatus : string;
  ur_BusinessActionUnblocked : bool;
  ur_BusinessActionUnblockedAt : time;
  ur_ReasonCodes : list string
}.

Definition ur_set_DispatchStatus (x : string) (r : ApprovalRunUnlockDispatchResult) : ApprovalRunUnlockDispatchResult :=
  mk_ApprovalRunUnlockDispatchResult x (ur_BusinessActionUnblocked r)
    (ur_BusinessActionUnblockedAt r) (ur_ReasonCodes r).

Record RunStateReference := mk_RunStateReference {
  rst_RunID : string;
  rst_State : string;
  rst_StateVersion : Z;
  rst_UpdatedAt : time
}.

(** ** Pending decisions *)

Record PendingDecision := mk_PendingDecision {
  p_DecisionID : string;
  p_RunID : string;
  p_StepID : string;
  p_RiskTier : string;
  p_AttemptIndex : Z;
  p_Phase : string;
  p_OwnerKey : string;
  p_CreatedAt : time;
  p_LastUpdatedAt : time;
  p_RepairAttempts : Z;
  p_Status : string
}.

Definition p_set_LastUpdatedAt (x : time) (r : PendingDecision) : PendingDecision :=
  mk_PendingDecision (p_DecisionID r) (p_RunID r) (p_StepID r) (p_RiskTier r) (p_AttemptIndex r)
    (p_Phase r) (p_OwnerKey r) (p_CreatedAt r) x (p_RepairAttempts r) (p_Status r).
Definition p_set_RepairAttempts (x : Z) (r : PendingDecision) : PendingDecision :=
  mk_PendingDecision (p_DecisionID r) (p_RunID r) (p_StepID r) (p_RiskTier r) (p_AttemptIndex r)
    (p_Phase r) (p_OwnerKey r) (p_CreatedAt r) (p_LastUpdatedAt r) x (p_Status r).
Definition p_set_Status (x : string) (r : PendingDecision) : PendingDecision :=
  mk_PendingDecision (p_DecisionID r) (p_RunID r) (p_StepID r) (p_RiskTier r) (p_AttemptIndex r)
    (p_Phase r) (p_OwnerKey r) (p_CreatedAt r) (p_LastUpdatedAt r) (p_RepairAttempts r) x.

Record ConfirmRunAdvanceRequest := mk_ConfirmRunAdvanceRequest {
  cq_DecisionID : string;
  cq_RunID : string;
  cq_StepID : string;
  cq_AttemptIndex : Z;
  cq_Phase : string;
  cq_OwnerKey : string;
  cq_Success : bool
}.

Record ConfirmRunAdvanceResponse := mk_ConfirmRunAdvanceResponse {
  cp_Status : string;
  cp_ReasonCodes : list string
}.

Record PendingRepairResult := mk_PendingRepairResult {
  rep_Scanned : Z;
  rep_Repaired : Z;
  rep_SafeguardHold : Z;
  rep_Escalated : Z;
  rep_ReasonCodes : list string
}.

Record TerminalizePendingDecisionRequest := mk_TerminalizePendingDecisionRequest {
  tq_DecisionID : string;
  tq_Status : string;
  tq_Reason : string;
  tq_Actor : string
}.

Record TerminalizePendingDecisionResponse := mk_TerminalizePendingDecisionResponse {
  tp_Status : string;
  tp_ReasonCodes : list string
}.

Record SideEffectGateRequest := mk_SideEffectGateRequest {
  gq_DecisionID : string;
  gq_RunID : string;
  gq_StepID : string;
  gq_TenantID : string;
  gq_RunState : string;
  gq_ExecutionReceiptRef : string;
  gq_ExecutionUsedResources : Resources;
  gq_ExecutionReceiptAt : time
}.

(** ** Events and stored decisions *)

Record Event := mk_Event {
  e_EventID : string;
  e_EventType : string;
  e_SchemaVersion : Z;
  e_SourceComponent : string;
  e_EvidenceGrade : string;
  e_PayloadIntegrityRequired : bool;
  e_DecisionID : string;
  e_RunID : string;
  e_StepID : string;
  e_EventTS : time;
  e_PayloadRef : string;
  e_PayloadHash : string;
  e_PayloadHashValid : bool;
  e_Payload : gval
}.

Record StoredDecision := mk_StoredDecision {
  d_DecisionID : string;
  d_DecisionType : string;
  d_DecisionKey : string;
  d_Version : Z;
  d_DecisionHash : string;
  d_DecisionHashIsFallback : bool;
  d_DecisionHashRef : DecisionHashRef;
  d_RunID : string;
  d_StepID : string;
  d_AttemptIndex : Z;
  d_Phase : string;
  d_CreatedAt : time;
  d_Request : list (string * gval);
  d_Response : list (string * gval);
  d_RequestRaw : string;
  d_ResponseRaw : string
}.

Definition d_set_Version (x : Z) (r : StoredDecision) : StoredDecision :=
  mk_StoredDecision (d_DecisionID r) (d_DecisionType r) (d_DecisionKey r) x (d_DecisionHash r)
    (d_DecisionHashIsFallback r) (d_DecisionHashRef r) (d_RunID r) (d_StepID r) (d_AttemptIndex r)
    (d_Phase r) (d_CreatedAt r) (d_Request r) (d_Response r) (d_RequestRaw r) (d_ResponseRaw r).

Record DecisionReference := mk_DecisionReference {
  df_DecisionID : string;
  df_RunID : string;
  df_StepID : string;
  df_AttemptIndex : Z;
  df_Phase : string;
  df_Decision : string;
  df_Obligations : list Obligation;
  df_DecisionHashRef : DecisionHashRef
}.

Record EnforcementThreshold := mk_EnforcementThreshold {
  et_ObserveOnly : float64;
  et_Alert : float64;
  et_BlockRelease : float64;
  et_BlockRuntime : float64;
  et_Direction : string
}.

Record MetricsSnapshot := mk_MetricsSnapshot {
  ms_Counters : gmap string float64;
  ms_Rates : gmap string float64;
  ms_Ratios : gmap string float64;
  ms_Quantiles : gmap string float64;
  ms_EnforcementLevels : gmap string string
}.

Record CleanupResult := mk_CleanupResult {
  cl_DeletedTickets : Z;
  cl_DeletedPending : Z;
  cl_DeletedApprovals : Z;
  cl_DeletedDecisions : Z;
  cl_DeletedSoftFails : Z;
  cl_OutboxTrimmed : Z
}.

(** ** Feature signal contracts *)

Record FeatureSignalContractVersion := mk_FeatureSignalContractVersion {
  fv_Version : Z;
  fv_ContractKey : string;
  fv_StorageKey : string;
  fv_RiskTier : string;
  fv_Phase : string;
  fv_RequiredFields : list string;
  fv_SchemaVersion : string;
  fv_TrustedProducerIDs : list string;
  fv_MaxFreshnessMS : Z;
  fv_MaxDriftScore : float64;
  fv_Scope : ScopeRef;
  fv_ContractHash : string;
  fv_Status : string;
  fv_ActivationAt : time;
  fv_Reason : string;
  fv_Actor : string;
  fv_CreatedAt : time
}.

Definition fv_set_Status (x : string) (r : FeatureSignalContractVersion) : FeatureSignalContractVersion :=
  mk_FeatureSignalContractVersion (fv_Version r) (fv_ContractKey r) (fv_StorageKey r)
    (fv_RiskTier r) (fv_Phase r) (fv_RequiredFields r) (fv_SchemaVersion r)
    (fv_TrustedProducerIDs r) (fv_MaxFreshnessMS r) (fv_MaxDriftScore r) (fv_Scope r)
    (fv_ContractHash r) x (fv_ActivationAt r) (fv_Reason r) (fv_Actor r) (fv_CreatedAt r).
Definition fv_set_ActivationAt (x : time) (r : FeatureSignalContractVersion) : FeatureSignalContractVersion :=
  mk_FeatureSignalContractVersion (fv_Version r) (fv_ContractKey r) (fv_StorageKey r)
    (fv_RiskTier r) (fv_Phase r) (fv_RequiredFields r) (fv_SchemaVersion r)
    (fv_TrustedProducerIDs r) (fv_MaxFreshnessMS r) (fv_MaxDriftScore r) (fv_Scope r)
    (fv_ContractHash r) (fv_Status r) x (fv_Reason r) (fv_Actor r) (fv_CreatedAt r).

Record FeatureSignalContractRollbackRecord := mk_FeatureSignalContractRollbackRecord {
  frr_RollbackID : string;
  frr_ContractKey : string;
  frr_StorageKey : string;
  frr_Scope : ScopeRef;
  frr_PreviousVersion : Z;
  frr_TargetVersion : Z;
  frr_PreviousRequiredFields : list string;
  frr_TargetRequiredFields : list string;
  frr_PreviousContractHash : string;
  frr_TargetContractHash : string;
  frr_Reason : string;
  frr_Actor : string;
  frr_CreatedAt : time
}.

Record FeatureSignalContractStoreSnapshot := mk_FeatureSignalContractStoreSnapshot {
  ss_Revision : Z;
  ss_GeneratedAt : time;
  ss_Active : gmap string FeatureSignalContract;
  ss_Meta : gmap string time;
  ss_History : gmap string (list FeatureSignalContractVersion);
  ss_Rollbacks : gmap string (list FeatureSignalContractRollbackRecord);
  ss_Scheduled : gmap string (list FeatureSignalContractVersion)
}.

Definition ss_set_Revision (x : Z) (r : FeatureSignalContractStoreSnapshot) : FeatureSignalContractStoreSnapshot :=
  mk_FeatureSignalContractStoreSnapshot x (ss_GeneratedAt r) (ss_Active r) (ss_Meta r)
    (ss_History r) (ss_Rollbacks r) (ss_Scheduled r).
Definition ss_set_GeneratedAt (x : time) (r : FeatureSignalContractStoreSnapshot) : FeatureSignalContractStoreSnapshot :=
  mk_FeatureSignalContractStoreSnapshot (ss_Revision r) x (ss_Active r) (ss_Meta r) (ss_History r)
    (ss_Rollbacks r) (ss_Scheduled r).

(** ** The service *)

Record softFailureState := mk_softFailureState {
  sf_RetryCount : Z;
  sf_LastEvidence : string;
  sf_FirstReason : string;
  sf_LastReason : string;
  sf_LastAttemptIndex : Z;
  sf_LastUpdatedAt : time
}.

Definition sf_set_RetryCount (x : Z) (r : softFailureState) : softFailureState :=
  mk_softFailureState x (sf_LastEvidence r) (sf_FirstReason r) (sf_LastReason r)
    (sf_LastAttemptIndex r) (sf_LastUpdatedAt r).
Definition sf_set_LastEvidence (x : string) (r : softFailureState) : softFailureState :=
  mk_softFailureState (sf_RetryCount r) x (sf_FirstReason r) (sf_LastReason r)
    (sf_LastAttemptIndex r) (sf_LastUpdatedAt r).
Definition sf_set_FirstReason (x : string) (r : softFailureState) : softFailureState :=
  mk_softFailureState (sf_RetryCount r) (sf_LastEvidence r) x (sf_LastReason r)
    (sf_LastAttemptIndex r) (sf_LastUpdatedAt r).
Definition sf_set_LastReason (x : string) (r : softFailureState) : softFailureState :=
  mk_softFailureState (sf_RetryCount r) (sf_LastEvidence r) (sf_FirstReason r) x
    (sf_LastAttemptIndex r) (sf_LastUpdatedAt r).
Definition sf_set_LastAttemptIndex (x : Z) (r : softFailureState) : softFailureState :=
  mk_softFailureState (sf_RetryCount r) (sf_LastEvidence r) (sf_FirstReason r) (sf_LastReason r) x
    (sf_LastUpdatedAt r).
Definition sf_set_LastUpdatedAt (x : time) (r : softFailureState) : softFailureState :=
  mk_softFailureState (sf_RetryCount r) (sf_LastEvidence r) (sf_FirstReason r) (sf_LastReason r)
    (sf_LastAttemptIndex r) x.

Record pendingOwnerMeta := mk_pendingOwnerMeta {
  pom_AttemptIndex : Z;
  pom_Phase : string
}.

Record Config := mk_Config {
  dc_DCUProfiles : gmap string DCUProfile;
  dc_FeatureSignalContracts : gmap string FeatureSignalContract;
  dc_DecisionRetryLimitPerStep : Z;
  dc_PendingDecisionTTL : duration;
  dc_PendingRepairWorkerID : string;
  dc_TicketTTL : duration;
  dc_ApprovalHardTimeoutByRisk : gmap string duration;
  dc_PolicyRules : list PolicyRule;
  dc_MetricMatrix : gmap string EnforcementThreshold;
  dc_OutboxMaxEvents : Z;
  dc_OutboxRetention : duration;
  dc_CleanupTimeSource : string;
  dc_TicketRetention : duration;
  dc_PendingRetention : duration;
  dc_ApprovalRetention : duration;
  dc_DecisionRetention : duration;
  dc_DecisionMaxHistoryVersions : Z;
  dc_RequireHighRiskContractPin : bool
}.

(** [s.mu] fields are the atomicity of a call; the feature registry and the organisation health
    of the control plane are not part of this record. *)
Record Service := mk_Service {
  s_cfg : Config;
  s_decisions : gmap string StoredDecision;
  s_decisionHistory : gmap string (list StoredDecision);
  s_pending : gmap string PendingDecision;
  s_tickets : gmap string DispatchTicket;
  s_approvals : gmap string ApprovalCase;
  s_outbox : list Event;
  s_maxObservedEventTS : time;
  s_softFailures : gmap string softFailureState;
  s_featureSignalContractsScoped : gmap string FeatureSignalContract;
  s_featureSignalContractMeta : gmap string time;
  s_featureSignalContractHistory : gmap string (list FeatureSignalContractVersion);
  s_featureSignalContractRollbacks : gmap string (list FeatureSignalContractRollbackRecord);
  s_featureSignalContractScheduled : gmap string (list FeatureSignalContractVersion);
  s_counters : gmap string float64;
  s_outboxTrimmedTotal : Z;
  s_eventSeq : Z;
  s_idSeq : Z;
  s_storeVersion : Z;
  s_matrixVersion : Z;
  s_matrixUpdatedAt : time
}.

Definition s_set_decisions (x : gmap string StoredDecision) (r : Service) : Service :=
  mk_Service (s_cfg r) x (s_decisionHistory r) (s_pending r) (s_tickets r) (s_approvals r)
    (s_outbox r) (s_maxObservedEventTS r) (s_softFailures r) (s_featureSignalContractsScoped r)
    (s_featureSignalContractMeta r) (s_featureSignalContractHistory r)
    (s_featureSignalContractRollbacks r) (s_featureSignalContractScheduled r) (s_counters r)
    (s_outboxTrimmedTotal r) (s_eventSeq r) (s_idSeq r) (s_storeVersion r) (s_matrixVersion r)
    (s_matrixUpdatedAt r).
Definition s_set_decisionHistory (x : gmap string (list StoredDecision)) (r : Service) : Service :=
  mk_Service (s_cfg r) (s_decisions r) x (s_pending r) (s_tickets r) (s_approvals r) (s_outbox r)
    (s_maxObservedEventTS r) (s_softFailures r) (s_featureSignalContractsScoped r)
    (s_featureSignalContractMeta r) (s_featureSignalContractHistory r)
    (s_featureSignalContractRollbacks r) (s_featureSignalContractScheduled r) (s_counters r)
    (s_outboxTrimmedTotal r) (s_eventSeq r) (s_idSeq r) (s_storeVersion r) (s_matrixVersion r)
    (s_matrixUpdatedAt r).
Definition s_set_pending (x : gmap string PendingDecision) (r : Service) : Service :=
  mk_Service (s_cfg r) (s_decisions r) (s_decisionHistory r) x (s_tickets r) (s_approvals r)
    (s_outbox r) (s_maxObservedEventTS r) (s_softFailures r) (s_featureSignalContractsScoped r)
    (s_featureSignalContractMeta r) (s_featureSignalContractHistory r)
    (s_featureSignalContractRollbacks r) (s_featureSignalContractScheduled r) (s_counters r)
    (s_outboxTrimmedTotal r) (s_eventSeq r) (s_idSeq r) (s_storeVersion r) (s_matrixVersion r)
    (s_matrixUpdatedAt r).
Definition s_set_tickets (x : gmap string DispatchTicket) (r : Service) : Service :=
  mk_Service (s_cfg r) (s_decisions r) (s_decisionHistory r) (s_pending r) x (s_approvals r)
    (s_outbox r) (s_maxObservedEventTS r) (s_softFailures r) (s_featureSignalContractsScoped r)
    (s_featureSignalContractMeta r) (s_featureSignalContractHistory r)
    (s_featureSignalContractRollbacks r) (s_featureSignalContractScheduled r) (s_counters r)
    (s_outboxTrimmedTotal r) (s_eventSeq r) (s_idSeq r) (s_storeVersion r) (s_matrixVersion r)
    (s_matrixUpdatedAt r).
Definition s_set_approvals (x : gmap string ApprovalCase) (r : Service) : Service :=
  mk_Service (s_cfg r) (s_decisions r) (s_decisionHistory r) (s_pending r) (s_tickets r) x
    (s_outbox r) (s_maxObservedEventTS r) (s_softFailures r) (s_featureSignalContractsScoped r)
    (s_featureSignalContractMeta r) (s_featureSignalContractHistory r)
    (s_featureSignalContractRollbacks r) (s_featureSignalContractScheduled r) (s_counters r)
    (s_outboxTrimmedTotal r) (s_eventSeq r) (s_idSeq r) (s_storeVersion r) (s_matrixVersion r)
    (s_matrixUpdatedAt r).
Definition s_set_outbox (x : list Event) (r : Service) : Service :=
  mk_Service (s_cfg r) (s_decisions r) (s_decisionHistory r) (s_pending r) (s_tickets r)
    (s_approvals r) x (s_maxObservedEventTS r) (s_softFailures r) (s_featureSignalContractsScoped r)
    (s_featureSignalContractMeta r) (s_featureSignalContractHistory r)
    (s_featureSignalContractRollbacks r) (s_featureSignalContractScheduled r) (s_counters r)
    (s_outboxTrimmedTotal r) (s_eventSeq r) (s_idSeq r) (s_storeVersion r) (s_matrixVersion r)
    (s_matrixUpdatedAt r).
Definition s_set_maxObservedEventTS (x : time) (r : Service) : Service :=
  mk_Service (s_cfg r) (s_decisions r) (s_decisionHistory r) (s_pending r) (s_tickets r)
    (s_approvals r) (s_outbox r) x (s_softFailures r) (s_featureSignalContractsScoped r)
    (s_featureSignalContractMeta r) (s_featureSignalContractHistory r)
    (s_featureSignalContractRollbacks r) (s_featureSignalContractScheduled r) (s_counters r)
    (s_outboxTrimmedTotal r) (s_eventSeq r) (s_idSeq r) (s_storeVersion r) (s_matrixVersion r)
    (s_matrixUpdatedAt r).
Definition s_set_softFailures (x : gmap string softFailureState) (r : Service) : Service :=
  mk_Service (s_cfg r) (s_decisions r) (s_decisionHistory r) (s_pending r) (s_tickets r)
    (s_approvals r) (s_outbox r) (s_maxObservedEventTS r) x (s_featureSignalContractsScoped r)
    (s_featureSignalContractMeta r) (s_featureSignalContractHistory r)
    (s_featureSignalContractRollbacks r) (s_featureSignalContractScheduled r) (s_counters r)
    (s_outboxTrimmedTotal r) (s_eventSeq r) (s_idSeq r) (s_storeVersion r) (s_matrixVersion r)
    (s_matrixUpdatedAt r).
Definition s_set_counters (x : gmap string float64) (r : Service) : Service :=
  mk_Service (s_cfg r) (s_decisions r) (s_decisionHistory r) (s_pending r) (s_tickets r)
    (s_approvals r) (s_outbox r) (s_maxObservedEventTS r) (s_softFailures r)
    (s_featureSignalContractsScoped r) (s_featureSignalContractMeta r)
    (s_featureSignalContractHistory r) (s_featureSignalContractRollbacks r)
    (s_featureSignalContractScheduled r) x (s_outboxTrimmedTotal r) (s_eventSeq r) (s_idSeq r)
    (s_storeVersion r) (s_matrixVersion r) (s_matrixUpdatedAt r).
Definition s_set_outboxTrimmedTotal (x : Z) (r : Service) : Service :=
  mk_Service (s_cfg r) (s_decisions r) (s_decisionHistory r) (s_pending r) (s_tickets r)
    (s_approvals r) (s_outbox r) (s_maxObservedEventTS r) (s_softFailures r)
    (s_featureSignalContractsScoped r) (s_featureSignalContractMeta r)
    (s_featureSignalContractHistory r) (s_featureSignalContractRollbacks r)
    (s_featureSignalContractScheduled r) (s_counters r) x (s_eventSeq r) (s_idSeq r)
    (s_storeVersion r) (s_matrixVersion r) (s_matrixUpdatedAt r).
Definition s_set_eventSeq (x : Z) (r : Service) : Service :=
  mk_Service (s_cfg r) (s_decisions r) (s_decisionHistory r) (s_pending r) (s_tickets r)
    (s_approvals r) (s_outbox r) (s_maxObservedEventTS r) (s_softFailures r)
    (s_featureSignalContractsScoped r) (s_featureSignalContractMeta r)
    (s_featureSignalContractHistory r) (s_featureSignalContractRollbacks r)
    (s_featureSignalContractScheduled r) (s_counters r) (s_outboxTrimmedTotal r) x (s_idSeq r)
    (s_storeVersion r) (s_matrixVersion r) (s_matrixUpdatedAt r).
Definition s_set_idSeq (x : Z) (r : Service) : Service :=
  mk_Service (s_cfg r) (s_decisions r) (s_decisionHistory r) (s_pending r) (s_tickets r)
    (s_approvals r) (s_outbox r) (s_maxObservedEventTS r) (s_softFailures r)
    (s_featureSignalContractsScoped r) (s_featureSignalContractMeta r)
    (s_featureSignalContractHistory r) (s_featureSignalContractRollbacks r)
    (s_featureSignalContractScheduled r) (s_counters r) (s_outboxTrimmedTotal r) (s_eventSeq r) x
    (s_storeVersion r) (s_matrixVersion r) (s_matrixUpdatedAt r).

