(* ===== verification/DecJson.v ===== *)
(** * Hashing and JSON records of the Decision service

    [hashJSONWithStatus], [safeHash], the fallback identifiers, and the stored
    form of requests and responses ([toMap], [toCanonicalRecord],
    [extractStringFieldFromMap], ...) of [internal/decision/service.go].

    [marshalJSON] is a package variable of the source (its tests replace it):
    a class here, with the real encoder as its instance; [toMap] calls the real
    encoder, as the code does. *)

From S2P Require Import Prelude GoStrings Sha256 GoTime GoJson DecTypes.
From Stdlib Require Import Ascii.

Class JsonMarshaler := marshalJSON : gval -> result string string.

#[export] Instance json_marshaler : JsonMarshaler := json_Marshal.

(** ** Building the encoded values *)

(** A struct field with its tag; [omitempty] fields are dropped when empty. *)
Definition key (k : string) (v : gval) : option (string * gval) := Some (k, v).
Definition key_om (k : string) (empty : bool) (v : gval) : option (string * gval) :=
  if empty then None else Some (k, v).
Definition named (tname : string) (fs : list (option (string * gval))) : gval :=
  GStruct tname (omap id fs).

Definition empty_str (s : string) : bool := (s =? "")%string.
Definition empty_float (f : float64) : bool := match f with S754_zero _ => true | _ => false end.
Definition empty_list {A} (l : list A) : bool := match l with [] => true | _ => false end.
Definition key_om_str (k s : string) := key_om k (empty_str s) (GStr s).
Definition key_om_int (k : string) (z : Z) := key_om k (z =? 0) (GInt z).
Definition key_om_bool (k : string) (b : bool) := key_om k (negb b) (GBool b).
Definition key_om_strs (k : string) (l : list string) := key_om k (empty_list l) (GStrs l).

(** A slice that is nil exactly when it is empty. *)
Definition nilable (l : list string) : gval := match l with [] => GNil | _ => GStrs l end.

(** An anonymous struct: the name of its type only enters the error hash, which
    [safeHash] discards. *)
Definition anon (fs : list (option (string * gval))) : gval := named "struct" fs.

Definition res_gval (m : Resources) : gval :=
  match m with
  | None => GNil
  | Some m => GMap (map (fun kv => (kv.1, GFloat kv.2)) (map_to_list m))
  end.

(** [cloneResourceMap]: a nil map becomes an empty one. *)
Definition cloneResourceMap (m : Resources) : Resources := Some (default ∅ m).

Definition res_get (m : Resources) (k : string) : float64 := default fzero (default ∅ m !! k).

(** ** Hashes *)

Definition type_name (v : gval) : string :=
  match v with
  | GStr _ => "string"
  | GMap _ => "map[string]interface {}"
  | GStruct t _ => t
  | _ => "<nil>"
  end.

Definition isErrorHash (v : string) : bool := HasPrefix (TrimSpace v) "err_".

Section Hash.
Context `{JsonMarshaler}.

Definition hashJSONWithStatus (v : gval) : string * bool :=
  match marshalJSON v with
  | Err err =>
    let marker := Join ["json_marshal_error:"; type_name v; ":"; err] "" in
    (String.append "err_" (sha256_hex marker), false)
  | Ok b => (sha256_hex b, true)
  end.

(** [safeHash] returns the hash and a flag; [None] is [("", false)]. *)
Definition safeHash (v : gval) : option string :=
  let '(hash, ok) := hashJSONWithStatus v in
  if negb ok || isErrorHash hash then None else Some hash.

Definition hashJSON (v : gval) : string := default "" (safeHash v).
End Hash.

Definition hash16 (h : string) : string := String.substring 0 16 h.

(** ** Fallback identifiers *)

Definition replace_byte (from : ascii) (to : ascii) (s : string) : string :=
  str (map (fun c => if Ascii.eqb c from then to else c) (bytes s)).

Definition cut_bytes (n : nat) (s : string) : string :=
  if (n <? String.length s)%nat then String.substring 0 n s else s.

Definition fallback_part (p : string) : string :=
  let p := ToLower (TrimSpace p) in
  let p := if (p =? "")%string then "na" else p in
  let p := replace_byte " " "_" p in
  let p := replace_byte ":" "_" p in
  let p := replace_byte "/" "_" p in
  cut_bytes 16 p.

Definition fallbackIDFromStrings (parts : list string) : string :=
  let joined := Join (map fallback_part parts) "_" in
  if (joined =? "")%string then "na" else cut_bytes 32 joined.

(** ** Decoding what was encoded

    [toMap] encodes a value and decodes it into a [map[string]interface{}] with
    [UseNumber].  [decoded v] is the value the decoder builds from the encoding
    of [v]: numbers are literals, times are strings, structs are maps, and
    invalid UTF-8 has been replaced. *)

Fixpoint sanitize (fuel : nat) (l : list ascii) : list ascii :=
  match fuel, l with
  | S fuel, a :: r =>
    if (code a <? 128)%N then a :: sanitize fuel r
    else match utf8_len l with
         | Some n => take n l ++ sanitize fuel (drop n l)
         | None => [chr 239; chr 191; chr 189] ++ sanitize fuel r
         end
  | _, _ => []
  end.
Definition valid_utf8 (s : string) : string :=
  let l := bytes s in str (sanitize (length l) l).

(** A later member of an object replaces an earlier one with the same key. *)
Definition put_member (kvs : list (string * gval)) (kv : string * gval) : list (string * gval) :=
  List.filter (fun x => negb (x.1 =? kv.1)%string) kvs ++ [kv].
Definition members (kvs : list (string * gval)) : list (string * gval) := foldl put_member [] kvs.

Definition entry_le (a b : string * gval) : Prop := String.le a.1 b.1.
#[global] Instance entry_le_dec : RelDecision entry_le.
Proof. intros a b. unfold entry_le. apply _. Defined.

Fixpoint decoded (v : gval) : gval :=
  match v with
  | GNil | GBool _ | GNum _ => v
  | GInt z => GNum (fmt_d z)
  | GFloat f => GNum (match format_float true f with Ok s => s | Err e => e end)
  | GStr s => GStr (valid_utf8 s)
  | GTime t => GStr (FormatRFC3339Nano t)
  | GStrs l => GArr (map (fun s => GStr (valid_utf8 s)) l)
  | GArr l => GArr (map decoded l)
  | GMap kvs =>
    GMap (members (map (fun kv => (valid_utf8 kv.1, kv.2))
      (merge_sort entry_le (map (fun kv => (kv.1, decoded kv.2)) kvs))))
  | GStruct _ kvs => GMap (map (fun kv => (kv.1, decoded kv.2)) kvs)
  end.

(** [toCanonicalRecord] and [toMap]: the raw encoding and the decoded map. *)
Definition toMap (v : gval) : list (string * gval) :=
  match json_Marshal v with
  | Err err => [("_error", GStr "marshal_failed"); ("_error_type", GStr (type_name v));
                ("_error_msg", GStr err)]
  | Ok _ => match decoded v with GMap kvs => kvs | _ => [] end
  end.

Definition toCanonicalRecord (v : gval) : string * list (string * gval) :=
  match json_Marshal v with
  | Err err =>
    (Join ["{"; dquote; "_error"; dquote; ":"; dquote; "marshal_failed"; dquote; "}"] "", toMap v)
  | Ok raw => (raw, toMap v)
  end.

(** ** Reading a stored record *)

(** [m[key]] present and not nil. *)
Definition field_get (m : list (string * gval)) (k : string) : option gval :=
  match assoc m k with Some GNil | None => None | Some v => Some v end.

Definition extractStringFieldFromMap (m : list (string * gval)) (k : string) : string :=
  match field_get m k with
  | None => ""
  | Some (GStr t) => TrimSpace t
  | Some (GNum t) => TrimSpace t
  | Some t => TrimSpace (fmt_v t)
  end.

(** Truncation of a finite float to an integer ([int(f)]), for the magnitudes
    where the conversion is defined by the language. *)
Definition int_of_float (f : float64) : Z :=
  match f with
  | S754_finite s m e =>
    let n := if 0 <=? e then Z.pos m * 2 ^ e else Z.pos m / 2 ^ (- e) in
    if s then - n else n
  | _ => 0
  end.

(** [json.Number.Int64] of the literals the decoder accepts: an integer
    literal in range.  A literal with a fraction or an exponent goes through
    [Float64]; the integers of a stored record are printed without either, so
    the value read is the one that was stored. *)
Definition extractIntFieldFromMap (m : list (string * gval)) (k : string) : Z :=
  match field_get m k with
  | Some (GInt t) => t
  | Some (GFloat t) => int_of_float t
  | Some (GNum t) => default 0 (Atoi t)
  | Some (GStr t) => default 0 (Atoi (TrimSpace t))
  | _ => 0
  end.

Definition obligation_of_item (item : gval) : option Obligation :=
  match item with
  | GMap im =>
    let ob := {| ob_Type := extractStringFieldFromMap im "type";
                 ob_Target := extractStringFieldFromMap im "target";
                 ob_Value := extractStringFieldFromMap im "value";
                 ob_Phase := ToUpper (extractStringFieldFromMap im "phase");
                 ob_Strictness := extractIntFieldFromMap im "strictness" |} in
    if (ob_Type ob =? "")%string || (ob_Value ob =? "")%string then None else Some ob
  | _ => None
  end.

Definition extractObligationsFromMap (m : list (string * gval)) : list Obligation :=
  match field_get m "obligations" with
  | Some (GArr l) => omap obligation_of_item l
  | _ => []
  end.

(** The encoding of a stored record without its hash fields, as the code
    compares two versions of a decision. *)
Definition hash_field (k : string) : bool :=
  one_of k ["decision_hash"; "decision_hash_is_fallback"; "decision_hash_ref"].

Definition canonicalizeForDecisionSemantic `{JsonMarshaler} (m : list (string * gval)) : string :=
  match m with
  | [] => "{}"
  | _ => match marshalJSON (GMap (List.filter (fun kv => negb (hash_field kv.1)) m)) with
         | Err _ => "{}"
         | Ok raw => raw
         end
  end.

Example decoded_struct :
  toMap (named "T" [key "a" (GInt 3); key_om_str "b" ""; key "c" (GStrs ["x"]); key "d" (GTime 0)])
  = [("a", GNum "3"); ("c", GArr [GStr "x"]); ("d", GStr "0001-01-01T00:00:00Z")].
Proof. vm_compute. reflexivity. Qed.
