(* ===== verification/DecPolicy.v ===== *)
(** * The pure rules of the Decision service

    Validation and normalisation, frozen inputs, feature checks, the DCU
    budget, policy rules, obligation plans, quotas and enforcement levels:
    the functions of [internal/decision/service.go] (and the scope helpers of
    [control_plane.go]) that read no state. *)

From S2P Require Import Prelude GoStrings GoTime GoJson DecTypes.

(** [sort.Slice] on the slices of the service: Go sorts up to twelve elements
    by insertion, each element moving left past the ones it is less than.
    (Longer slices may order ties otherwise.) *)
Fixpoint insert_left {A} (less : A -> A -> bool) (x : A) (rev_sorted : list A) : list A :=
  match rev_sorted with
  | [] => [x]
  | y :: l => if less x y then y :: insert_left less x l else x :: y :: l
  end.
Definition sort_Slice {A} (less : A -> A -> bool) (l : list A) : list A :=
  rev (foldl (fun acc x => insert_left less x acc) [] l).

(** ** Small helpers *)

Definition lower_trim (s : string) : string := ToLower (TrimSpace s).
Definition upper_trim (s : string) : string := ToUpper (TrimSpace s).

Definition isValidRisk (risk : string) : bool :=
  one_of (lower_trim risk) [RiskLow; RiskMedium; RiskHigh; RiskCritical].
Definition isValidEffect (effect : string) : bool :=
  one_of (lower_trim effect) [EffectRead; EffectWrite; EffectExternalWrite; EffectIrreversible].
Definition isHighOrCritical (risk : string) : bool :=
  let r := lower_trim risk in (r =? RiskHigh)%string || (r =? RiskCritical)%string.

Definition containsString (values : list string) (needle : string) : bool :=
  existsb (fun v => EqualFold (TrimSpace v) (TrimSpace needle)) values.

Definition uniqueStrings (l : list string) : list string :=
  foldl (fun out v => if one_of v out then out else out ++ [v]) [] l.

Definition firstOrEmpty (values : list string) : string :=
  match values with [] => "" | v :: _ => v end.

Definition shouldCreatePendingDecision (decision : string) : bool :=
  one_of decision [DecisionAllow; DecisionRequireApproval; DecisionReviewRequired;
                   DecisionForceReview].

(** ** Scopes *)

Definition normalizeScope (s : ScopeRef) : ScopeRef := {|
  sc_OrgID := TrimSpace (sc_OrgID s);
  sc_WorkspaceID := TrimSpace (sc_WorkspaceID s);
  sc_ProjectID := TrimSpace (sc_ProjectID s) |}.

Definition scopeKey (scope : ScopeRef) : string :=
  let s := normalizeScope scope in
  ToLower (Join [sc_OrgID s; sc_WorkspaceID s; sc_ProjectID s] "|").

Definition globalContractScope : ScopeRef := mk_ScopeRef "*" "*" "*".

Definition or_star (s : string) : string := if (s =? "")%string then "*" else s.

Definition normalizeContractScope (scope : ScopeRef) : ScopeRef :=
  let s := normalizeScope scope in
  mk_ScopeRef (or_star (sc_OrgID s)) (or_star (sc_WorkspaceID s)) (or_star (sc_ProjectID s)).

(** ** Requests *)

Definition normalizeRuntimeRequest (req : RuntimeDecisionRequest) : RuntimeDecisionRequest := {|
  q_RequestID := q_RequestID req;
  q_TraceID := TrimSpace (q_TraceID req);
  q_TenantID := q_TenantID req;
  q_WorkflowID := q_WorkflowID req;
  q_RunID := q_RunID req;
  q_StepID := q_StepID req;
  q_RiskTier := lower_trim (q_RiskTier req);
  q_EffectType := lower_trim (q_EffectType req);
  q_DecisionGraphID := TrimSpace (q_DecisionGraphID req);
  q_ParentDecisionNodeIDs := sort_Strings (q_ParentDecisionNodeIDs req);
  q_ApprovalSystemAvailable := q_ApprovalSystemAvailable req;
  q_Freeze := mk_FreezeLayer (fz_Frozen (q_Freeze req)) (sort_Strings (fz_DynamicUsed (q_Freeze req)));
  q_Phase := (let p := upper_trim (q_Phase req) in if (p =? "")%string then PhasePreTool else p);
  q_PolicyEngineAvailable := q_PolicyEngineAvailable req;
  q_EvidenceFingerprint := q_EvidenceFingerprint req;
  q_AttemptIndex := if q_AttemptIndex req <? 0 then 0 else q_AttemptIndex req;
  q_DCUInput := q_DCUInput req;
  q_FeatureVersion := TrimSpace (q_FeatureVersion req);
  q_FeatureSchemaVersion := TrimSpace (q_FeatureSchemaVersion req);
  q_FeatureEvidenceRef := TrimSpace (q_FeatureEvidenceRef req);
  q_FeatureProducerID := TrimSpace (q_FeatureProducerID req);
  q_FeatureFreshnessMS := q_FeatureFreshnessMS req;
  q_FeatureTTLMS := q_FeatureTTLMS req;
  q_FeatureDriftScore := q_FeatureDriftScore req;
  q_FeatureContractScope := normalizeContractScope (q_FeatureContractScope req);
  q_FeatureContractHashPin := TrimSpace (q_FeatureContractHashPin req) |}.

Definition missing_if (v name : string) : list string := if blank v then [name] else [].

Definition missingFrozenFields (f : FrozenInput) : list string :=
  missing_if (fi_ContextCandidatesSnapshotRef f) "context_candidates_snapshot_ref" ++
  missing_if (fi_PolicyBundleSnapshotRef f) "policy_bundle_snapshot_ref" ++
  missing_if (fi_FeatureSnapshotID f) "feature_snapshot_id" ++
  missing_if (fi_ApprovalRoutingSnapshotRef f) "approval_routing_snapshot_ref" ++
  missing_if (fi_QuotaSnapshotRef f) "quota_snapshot_ref" ++
  missing_if (fi_SchedulerAdmissionInputSnapshotRef f) "scheduler_admission_input_snapshot_ref".

Definition forbiddenDynamicFields (fields : list string) : list string :=
  List.filter (fun f => negb (one_of f ["trace_tags"; "debug_hints_low_risk"])) fields.

(** ** Feature signals *)

Definition featureSignalFieldValue (req : RuntimeDecisionRequest) (field : string) : string :=
  let f := lower_trim field in
  if (f =? "feature_version")%string then TrimSpace (q_FeatureVersion req)
  else if (f =? "feature_schema_version")%string then TrimSpace (q_FeatureSchemaVersion req)
  else if (f =? "feature_evidence_ref")%string then TrimSpace (q_FeatureEvidenceRef req)
  else if (f =? "feature_producer_id")%string then TrimSpace (q_FeatureProducerID req)
  else "".

Definition missingFeatureSignalFieldsByContract (req : RuntimeDecisionRequest)
    (required : list string) : list string :=
  omap (fun field =>
    let field := lower_trim field in
    if (field =? "")%string then None
    else if blank (featureSignalFieldValue req field) then Some field else None) required.

Definition decisionByRisk (riskTier : string) : string :=
  if isHighOrCritical riskTier then DecisionFailClosed else DecisionReviewRequired.

Record featureStalePolicyResult := mk_featureStalePolicyResult {
  fs_StaleDetected : bool;
  fs_Allow : bool;
  fs_Decision : string;
  fs_ReasonCode : string;
  fs_WindowMS : Z
}.

Definition stale_window (ttl : Z) : Z :=
  let window := wrap_int64 (ttl * 2) in
  if window <=? ttl then wrap_int64 (ttl + 1) else window.

Definition evaluateFeatureStalePolicy (req : RuntimeDecisionRequest) : featureStalePolicyResult :=
  let ttl := q_FeatureTTLMS req in
  let age := q_FeatureFreshnessMS req in
  let risk := q_RiskTier req in
  if (ttl <=? 0) || (age <=? ttl) then mk_featureStalePolicyResult false false "" "" 0
  else if (risk =? RiskLow)%string then
    mk_featureStalePolicyResult true true "" "feature_snapshot_stale_low_allowed" 0
  else if (risk =? RiskMedium)%string then
    let window := stale_window ttl in
    if age <=? window then
      mk_featureStalePolicyResult true true "" "feature_snapshot_stale_medium_within_window" window
    else mk_featureStalePolicyResult true false DecisionReviewRequired
           "feature_snapshot_stale_medium_exceeded_window" window
  else if (risk =? RiskHigh)%string then
    mk_featureStalePolicyResult true false DecisionReviewRequired
      "feature_snapshot_stale_high_review_required" 0
  else if (risk =? RiskCritical)%string then
    mk_featureStalePolicyResult true false DecisionFailClosed
      "feature_snapshot_stale_critical_fail_closed" 0
  else mk_featureStalePolicyResult true false DecisionReviewRequired
         "feature_snapshot_stale_review_required" 0.

Record featureTrustPolicyResult := mk_featureTrustPolicyResult {
  ft_Blocked : bool;
  ft_Decision : string;
  ft_ReasonCode : string
}.

Definition evaluateFeatureTrustContract (req : RuntimeDecisionRequest)
    (contract : FeatureSignalContract) : featureTrustPolicyResult :=
  let sv := TrimSpace (fc_SchemaVersion contract) in
  let block := mk_featureTrustPolicyResult true (decisionByRisk (q_RiskTier req)) in
  if negb (sv =? "")%string && blank (q_FeatureSchemaVersion req) then
    block "feature_schema_version_missing"
  else if negb (sv =? "")%string && negb (EqualFold (TrimSpace (q_FeatureSchemaVersion req)) sv) then
    block "feature_schema_version_mismatch"
  else if negb (match fc_TrustedProducerIDs contract with [] => true | _ => false end)
          && negb (containsString (fc_TrustedProducerIDs contract) (q_FeatureProducerID req)) then
    block "feature_producer_not_trusted"
  else if (0 <? fc_MaxFreshnessMS contract)
          && (fc_MaxFreshnessMS contract <? q_FeatureFreshnessMS req) then
    block "feature_freshness_exceeds_contract"
  else if fltb fzero (fc_MaxDriftScore contract)
          && fltb (fc_MaxDriftScore contract) (q_FeatureDriftScore req) then
    block "feature_drift_exceeds_contract"
  else mk_featureTrustPolicyResult false "" "".

Definition evaluateFeatureDrift (req : RuntimeDecisionRequest) : bool * string :=
  let x := q_FeatureDriftScore req in
  let above n := fltb (float_of_ratio n 10) x in
  if fleb x fzero then (false, "")
  else if (q_RiskTier req =? RiskCritical)%string then
    if above 7 then (true, "feature_drift_fail_closed") else (false, "")
  else if (q_RiskTier req =? RiskHigh)%string then
    if above 5 then (true, "feature_drift_review_required") else (false, "")
  else if above 7 then (true, "feature_drift_review_required") else (false, "").

(** ** The DCU budget *)

Definition calcDCU (i : DCUInput) : DCUBreakdown :=
  let featureCost := wrap_int64 (di_FeatureReads i * 2) in
  let ruleCost := di_RuleEvals i in
  let depCost := wrap_int64 (di_DependencyCalls i * 4) in
  let conflictCost := wrap_int64 (di_ConflictResolutions i * 3) in
  let total := wrap_int64 (wrap_int64 (wrap_int64 (featureCost + ruleCost) + depCost) + conflictCost) in
  mk_DCUBreakdown featureCost ruleCost depCost conflictCost total.

(** ** Policy rules *)

Definition ruleDecisionPriority (dec : string) : Z :=
  if (dec =? DecisionFailClosed)%string then 5
  else if (dec =? DecisionDeny)%string || (dec =? DecisionAutoDeny)%string then 4
  else if (dec =? DecisionRequireApproval)%string then 3
  else if (dec =? DecisionReviewRequired)%string then 2
  else if (dec =? DecisionAllow)%string then 1
  else 0.

Definition matchPolicy (input : PolicyInput) (m : PolicyMatch) : bool :=
  let ok l v := match l with [] => true | _ => containsString l v end in
  ok (pm_RiskTiers m) (pin_RiskTier input) && ok (pm_EffectTypes m) (pin_EffectType input).

Definition obligationOrder (ty : string) : Z :=
  if (ty =? "limit_param")%string then 1
  else if (ty =? "attach_tag")%string then 2
  else if (ty =? "require_template")%string then 3
  else if (ty =? "emit_audit")%string then 4
  else 0.

Definition phaseOrder (phase : string) : Z :=
  if (phase =? PhasePreContext)%string then 1
  else if (phase =? PhasePreTool)%string then 2
  else if (phase =? PhasePreResume)%string then 3
  else if (phase =? PhasePreRelease)%string then 4
  else 0.

Definition obligation_before (a b : Obligation) : bool :=
  let left := obligationOrder (ob_Type a) in
  let right := obligationOrder (ob_Type b) in
  if negb (left =? right) then left <? right else ob_Strictness b <? ob_Strictness a.

(** One matching rule of the loop of [evaluatePolicyPhase]. *)
Definition policy_step (out : PolicyEvaluation) (r : PolicyRule) : PolicyEvaluation :=
  let ids := pe_MatchedRuleIDs out ++ [pl_RuleID r] in
  let obs := pe_Obligations out ++ pl_Obligations r in
  if (pe_Decision out =? "")%string then
    mk_PolicyEvaluation ids (pl_Decision r) obs (pe_Conflicts out) (pl_RuleID r)
      (pe_DecisionOverrideTrace out) (pe_ConflictingRulePairs out)
  else
    let differs := negb (pl_Decision r =? pe_Decision out)%string in
    let a := pe_EffectiveRuleID out in
    let b := pl_RuleID r in
    let pair := if bool_decide (String.le a b) then Join [a; b] "|" else Join [b; a] "|" in
    let conflicts := if differs then pe_Conflicts out ++ ["policy_decision_conflict"]
                     else pe_Conflicts out in
    let pairs := if differs then pe_ConflictingRulePairs out ++ [pair]
                 else pe_ConflictingRulePairs out in
    if ruleDecisionPriority (pe_Decision out) <? ruleDecisionPriority (pl_Decision r) then
      mk_PolicyEvaluation ids (pl_Decision r) obs conflicts (pl_RuleID r)
        (pe_DecisionOverrideTrace out ++
         [mk_PolicyDecisionOverride a (pe_Decision out) b (pl_Decision r) "higher_decision_priority"])
        pairs
    else mk_PolicyEvaluation ids (pe_Decision out) obs conflicts (pe_EffectiveRuleID out)
           (pe_DecisionOverrideTrace out) pairs.

Definition policy_matches (input : PolicyInput) (phase : string) (r : PolicyRule) : bool :=
  (pl_Phase r =? phase)%string && matchPolicy input (pl_Match r).

Definition evaluatePolicyPhase (input : PolicyInput) (phase : string) (rules : list PolicyRule)
    : PolicyEvaluation :=
  let out := foldl policy_step (mk_PolicyEvaluation [] "" [] [] "" [] [])
               (List.filter (policy_matches input phase) rules) in
  mk_PolicyEvaluation (pe_MatchedRuleIDs out) (pe_Decision out)
    (sort_Slice obligation_before (pe_Obligations out))
    (uniqueStrings (sort_Strings (pe_Conflicts out))) (pe_EffectiveRuleID out)
    (pe_DecisionOverrideTrace out)
    (uniqueStrings (sort_Strings (pe_ConflictingRulePairs out))).

(** ** Obligation plans *)

Definition obligation_key (o : Obligation) : string := Join [ob_Type o; ob_Target o] "|".

Definition plan_state : Type := gmap string Obligation * (list string * list ObligationResolution).

Definition plan_initial (st : plan_state) (item : Obligation) : plan_state :=
  let '(index, (conflicts, traces)) := st in
  (<[obligation_key item := item]> index,
   (conflicts,
    traces ++ [mk_ObligationResolution (obligation_key item) "" 0 (ob_Phase item)
                 (ob_Strictness item) "selected_initial" ""])).

(** The loop body of the second and third phases: a later obligation may only
    tighten the one it replaces. *)
Definition plan_tighten (conflict rejected kept fresh : string) (st : plan_state)
    (item : Obligation) : plan_state :=
  let '(index, (conflicts, traces)) := st in
  let key := obligation_key item in
  let trace pp ps := mk_ObligationResolution key pp ps (ob_Phase item) (ob_Strictness item) in
  match index !! key with
  | Some existing =>
    let tr := trace (ob_Phase existing) (ob_Strictness existing) in
    if ob_Strictness item <? ob_Strictness existing then
      (index, (conflicts ++ [conflict], traces ++ [tr "rejected" rejected]))
    else (<[key := item]> index, (conflicts, traces ++ [tr "selected" kept]))
  | None => (<[key := item]> index, (conflicts, traces ++ [trace "" 0 "selected" fresh]))
  end.

Definition plan_resume := plan_tighten "obligation_phase_conflict"
  "pre_resume_cannot_relax_pre_tool" "pre_resume_tighten_or_equal" "pre_resume_new_key".
Definition plan_approval := plan_tighten "approval_obligation_weaken_forbidden"
  "approval_cannot_weaken_existing" "approval_tighten_or_equal" "approval_new_key".

Definition phase_rank (phase : string) : Z :=
  let p := phaseOrder phase in if p =? 0 then 999 else p.

Definition plan_before (a b : Obligation) : bool :=
  let oi := obligationOrder (ob_Type a) in
  let oj := obligationOrder (ob_Type b) in
  if negb (oi =? oj) then oi <? oj
  else if negb (ob_Phase a =? ob_Phase b)%string then
    phase_rank (ob_Phase a) <? phase_rank (ob_Phase b)
  else ob_Strictness b <? ob_Strictness a.

Definition plan_index (preTool preResume approvalObligations : list Obligation) : plan_state :=
  foldl plan_approval (foldl plan_resume (foldl plan_initial (∅, ([], [])) preTool) preResume)
    approvalObligations.

Definition BuildObligationPlan `{MapRange} (preTool preResume approvalObligations : list Obligation)
    : ObligationPlan :=
  let '(index, (conflicts, traces)) := plan_index preTool preResume approvalObligations in
  mk_ObligationPlan (sort_Slice plan_before (range_map index).*2) (sort_Strings conflicts) traces.

(** ** Quotas and enforcement levels *)

(** [for k, need := range requested] returns at the first excess. *)
Definition quotaExceeded `{MapRange} (requested quota : Resources) : bool :=
  existsb (fun kv => fltb (default fzero (default ∅ quota !! kv.1)) kv.2)
    (range_map (default ∅ requested)).

Definition evaluateEnforcement (value : float64) (hasValue : bool) (th : EnforcementThreshold)
    : string :=
  let reached x := if (et_Direction th =? "lt")%string then fleb value x else fleb x value in
  if negb hasValue then EnforcementMissing
  else if reached (et_BlockRuntime th) then EnforcementBlockRuntime
  else if reached (et_BlockRelease th) then EnforcementBlockRelease
  else if reached (et_Alert th) then EnforcementAlert
  else EnforcementObserveOnly.
