(* ===== verification/DecContracts.v ===== *)
(** * Feature signal contracts: keys, resolution, versions, the store

    How a contract is keyed and found for a request
    ([contractKeyResolutionOrder], [contractScopeResolutionOrder],
    [resolveFeatureSignalContractWithBinding] of service.go), what is active
    ([activeFeatureSignalContractVersionLocked], [setFeatureSignalContractActiveVersion]
    of control_plane.go), the store behind the cache (contract_store.go,
    contract_runtime.go) and the construction of a service ([NewKernel]).

    The store is an interface: a class over a state of its own, with the
    in-memory store of the repository as its instance.  Contexts are never
    cancelled and watchers are not modelled. *)

From S2P Require Import Prelude GoStrings Sha256 GoTime GoJson DecTypes DecJson DecPolicy.
From Stdlib Require Import Ascii.

(** ** Keys *)

(** [strings.SplitN(s, sep, 2)] for a one-byte separator. *)
Fixpoint cut_at (sep : ascii) (l : list ascii) : list ascii * option (list ascii) :=
  match l with
  | [] => ([], None)
  | c :: l => if Ascii.eqb c sep then ([], Some l)
              else let '(a, b) := cut_at sep l in (c :: a, b)
  end.
Definition SplitN2 (s : string) (sep : ascii) : string * option string :=
  let '(a, b) := cut_at sep (bytes s) in (str a, str <$> b).

Definition splitContractKey (k : string) : string * string :=
  let '(a, b) := SplitN2 (TrimSpace k) "|" in
  (or_star (TrimSpace a), match b with None => "*" | Some b => or_star (TrimSpace b) end).

Definition normalizeRiskTier (v : string) : string := lower_trim v.

Definition normalizeContractKey (riskTier phase : string) : string :=
  Join [or_star (normalizeRiskTier riskTier); or_star (upper_trim phase)] "|".

Definition featureSignalContractStorageKey (scope : ScopeRef) (contractKey : string) : string :=
  Join [scopeKey (normalizeContractScope scope); TrimSpace contractKey] "::".

Definition normalizeRequiredFields (fields : list string) : list string :=
  uniqueStrings (sort_Strings (List.filter (fun f => negb (f =? "")%string) (map lower_trim fields))).

(** Trimmed identifiers, the first of each lower-case form. *)
Definition normalizeTrustedProducerIDs (ids : list string) : list string :=
  sort_Strings (foldl (fun out id =>
    let id := TrimSpace id in
    if (id =? "")%string || one_of (ToLower id) (map ToLower out) then out else out ++ [id]) [] ids).

Definition contract_gval (c : FeatureSignalContract) : gval :=
  named "decision.FeatureSignalContract"
    [key "required_fields" (nilable (fc_RequiredFields c));
     key_om_str "schema_version" (fc_SchemaVersion c);
     key_om_strs "trusted_producer_ids" (fc_TrustedProducerIDs c);
     key_om_int "max_freshness_ms" (fc_MaxFreshnessMS c);
     key_om "max_drift_score" (empty_float (fc_MaxDriftScore c)) (GFloat (fc_MaxDriftScore c))].

Section Hash.
Context `{JsonMarshaler}.

Definition safeHashForContract (c : FeatureSignalContract) : string :=
  default "" (safeHash (contract_gval
    {| fc_RequiredFields := normalizeRequiredFields (fc_RequiredFields c);
       fc_SchemaVersion := TrimSpace (fc_SchemaVersion c);
       fc_TrustedProducerIDs := normalizeTrustedProducerIDs (fc_TrustedProducerIDs c);
       fc_MaxFreshnessMS := fc_MaxFreshnessMS c;
       fc_MaxDriftScore := fc_MaxDriftScore c |})).
End Hash.

(** ** Versions *)

Definition version_active (v : FeatureSignalContractVersion) : bool :=
  EqualFold (TrimSpace (fv_Status v)) "active" || blank (fv_Status v).

(** The last active version of a history; [None] is the zero value. *)
Definition last_active (h : list FeatureSignalContractVersion) : option FeatureSignalContractVersion :=
  List.find version_active (rev h).

Definition activeFeatureSignalContractVersionLocked (s : Service) (storageKey : string)
    : option FeatureSignalContractVersion :=
  last_active (default [] (s_featureSignalContractHistory s !! storageKey)).

Definition activate_version (activeVersion : Z) (activatedAt : time)
    (v : FeatureSignalContractVersion) : FeatureSignalContractVersion :=
  if fv_Version v =? activeVersion then
    fv_set_ActivationAt activatedAt (fv_set_Status "active" v)
  else if EqualFold (TrimSpace (fv_Status v)) "active" then fv_set_Status "superseded" v
  else v.

Definition setFeatureSignalContractActiveVersion
    (history : gmap string (list FeatureSignalContractVersion)) (storageKey : string)
    (activeVersion : Z) (activatedAt : time) : gmap string (list FeatureSignalContractVersion) :=
  match history !! storageKey with
  | None | Some [] => history
  | Some h => <[storageKey := map (activate_version activeVersion activatedAt) h]> history
  end.

(** ** Resolution for a request *)

Definition contractKeyResolutionOrder (riskTier phase : string) : list string :=
  let risk := or_star (lower_trim riskTier) in
  let p := or_star (upper_trim phase) in
  [Join [risk; p] "|"; Join [risk; "*"] "|"; Join ["*"; p] "|"; "*|*"].

Definition contractScopeResolutionOrder (scope : ScopeRef) : list ScopeRef :=
  let n := normalizeContractScope scope in
  let candidates :=
    [n; mk_ScopeRef (sc_OrgID n) (sc_WorkspaceID n) "*"; mk_ScopeRef (sc_OrgID n) "*" "*";
     globalContractScope] in
  (foldl (fun '(out, seen) c =>
     let n := normalizeContractScope c in
     if one_of (scopeKey n) seen then (out, seen) else (out ++ [n], seen ++ [scopeKey n]))
   ([], []) candidates).1.

Definition scopeMatchLevel (scope : ScopeRef) : string :=
  let s := normalizeContractScope scope in
  let star v := (v =? "*")%string in
  if star (sc_OrgID s) && star (sc_WorkspaceID s) && star (sc_ProjectID s) then "global"
  else if star (sc_WorkspaceID s) && star (sc_ProjectID s) then "org"
  else if star (sc_ProjectID s) then "workspace"
  else "project".

Definition keyMatchLevel (k riskTier phase : string) : string :=
  let risk := or_star (lower_trim riskTier) in
  let p := or_star (upper_trim phase) in
  let '(a, b) := SplitN2 (TrimSpace k) "|" in
  let keyRisk := if blank a then "*" else lower_trim a in
  let keyPhase := match b with
                  | None => "*"
                  | Some b => if blank b then "*" else upper_trim b
                  end in
  let normalizedKey := Join [keyRisk; keyPhase] "|" in
  if (k =? "")%string then "unknown"
  else if (normalizedKey =? Join [risk; p] "|")%string then "exact"
  else if (normalizedKey =? Join [risk; "*"] "|")%string then "risk_wildcard"
  else if (normalizedKey =? Join ["*"; p] "|")%string then "phase_wildcard"
  else if (normalizedKey =? "*|*")%string then "global_wildcard"
  else "unknown".

(** The candidates of the two nested loops, in order: scope, key, storage key. *)
Definition contract_candidates (scope : ScopeRef) (riskTier phase : string)
    : list (ScopeRef * (string * string)) :=
  sc ← contractScopeResolutionOrder scope;
  k ← contractKeyResolutionOrder riskTier phase;
  [(sc, (k, featureSignalContractStorageKey sc k))].

(** The contract of a storage key, when it requires some field. *)
Definition usable_contract (s : Service) (storageKey : string) : option FeatureSignalContract :=
  match s_featureSignalContractsScoped s !! storageKey with
  | Some c => match fc_RequiredFields c with [] => None | _ => Some c end
  | None => None
  end.

(** The loops stop at the first usable candidate; [path] is what was tried. *)
Fixpoint first_contract (s : Service) (path : list string) (l : list (ScopeRef * (string * string)))
    : list string * option (ScopeRef * string * string * FeatureSignalContract) :=
  match l with
  | [] => (path, None)
  | (sc, (k, storageKey)) :: l =>
    let path := path ++ [storageKey] in
    match usable_contract s storageKey with
    | Some c => (path, Some (sc, k, storageKey, c))
    | None => first_contract s path l
    end
  end.

Definition defaultContract : FeatureSignalContract :=
  mk_FeatureSignalContract ["feature_version"; "feature_evidence_ref"; "feature_producer_id"] "" []
    0 fzero.

Section Resolve.
Context `{JsonMarshaler}.

Definition resolveFeatureSignalContractWithBinding (s : Service) (scope : ScopeRef)
    (riskTier phase : string) (now : time)
    : FeatureSignalContract * FeatureSignalContractBinding * bool :=
  match first_contract s [] (contract_candidates scope riskTier phase) with
  | (path, Some (sc, k, storageKey, contract)) =>
    let schema := TrimSpace (fc_SchemaVersion contract) in
    let hash := safeHashForContract contract in
    let '(version, contractHash, schemaVersion) :=
      match activeFeatureSignalContractVersionLocked s storageKey with
      | Some active =>
        if 0 <? fv_Version active then
          (fv_Version active,
           if blank (fv_ContractHash active) then hash else fv_ContractHash active,
           if blank (fv_SchemaVersion active) then schema else TrimSpace (fv_SchemaVersion active))
        else (1, hash, schema)
      | None => (1, hash, schema)
      end in
    (contract,
     {| fb_Scope := sc;
        fb_ScopeMatchLevel := scopeMatchLevel sc;
        fb_KeyMatchLevel := keyMatchLevel k riskTier phase;
        fb_ContractKey := k;
        fb_StorageKey := storageKey;
        fb_Version := version;
        fb_StoreVersion := s_storeVersion s;
        fb_ContractHash := contractHash;
        fb_SchemaVersion := schemaVersion;
        fb_ResolutionPath := path;
        fb_ResolvedAt := now;
        fb_RequiredFields := fc_RequiredFields contract;
        fb_MaxFreshnessMS := fc_MaxFreshnessMS contract;
        fb_MaxDriftScore := fc_MaxDriftScore contract;
        fb_TrustedProducers := fc_TrustedProducerIDs contract |},
     true)
  | (path, None) =>
    (defaultContract,
     {| fb_Scope := normalizeContractScope scope;
        fb_ScopeMatchLevel := "none";
        fb_KeyMatchLevel := "none";
        fb_ContractKey := "";
        fb_StorageKey := "";
        fb_Version := 0;
        fb_StoreVersion := s_storeVersion s;
        fb_ContractHash := "";
        fb_SchemaVersion := "";
        fb_ResolutionPath := path;
        fb_ResolvedAt := now;
        fb_RequiredFields := fc_RequiredFields defaultContract;
        fb_MaxFreshnessMS := 0;
        fb_MaxDriftScore := fzero;
        fb_TrustedProducers := [] |},
     false)
  end.
End Resolve.

(** ** The store *)

Definition Snapshot := FeatureSignalContractStoreSnapshot.
Definition no_snapshot : Snapshot := mk_FeatureSignalContractStoreSnapshot 0 0 ∅ ∅ ∅ ∅ ∅.

Class FeatureSignalContractStore := {
  store_state : Type;
  GetSnapshot : store_state -> result string Snapshot;
  PutSnapshot : Snapshot -> time -> store_state -> store_state * result string Snapshot
}.

(** [InMemoryFeatureSignalContractStore]: its state is the snapshot. *)
Definition NewInMemoryFeatureSignalContractStore (seed : Snapshot) : Snapshot :=
  if 0 <? ss_Revision seed then seed else no_snapshot.

(** [now] is read when the snapshot has no time. *)
Definition memory_put (snapshot : Snapshot) (now : time) (s : Snapshot)
    : Snapshot * result string Snapshot :=
  let next := if ss_Revision snapshot <=? ss_Revision s
              then ss_set_Revision (wrap_uint64 (ss_Revision s + 1)) snapshot else snapshot in
  let next := if IsZero (ss_GeneratedAt next) then ss_set_GeneratedAt now next else next in
  (next, Ok next).

Definition InMemoryFeatureSignalContractStore : FeatureSignalContractStore := {|
  store_state := Snapshot;
  GetSnapshot := fun s => Ok s;
  PutSnapshot := memory_put
|}.

Definition nextStoreRevision (current : Z) : Z :=
  if current =? 0 then 1 else wrap_uint64 (current + 1).

Definition buildContractStoreSnapshotLocked (s : Service) (now : time) : Snapshot := {|
  ss_Revision := s_storeVersion s;
  ss_GeneratedAt := now;
  ss_Active := s_featureSignalContractsScoped s;
  ss_Meta := s_featureSignalContractMeta s;
  ss_History := s_featureSignalContractHistory s;
  ss_Rollbacks := s_featureSignalContractRollbacks s;
  ss_Scheduled := s_featureSignalContractScheduled s |}.

Definition set_contracts (snap : Snapshot) (s : Service) : Service :=
  mk_Service (s_cfg s) (s_decisions s) (s_decisionHistory s) (s_pending s) (s_tickets s)
    (s_approvals s) (s_outbox s) (s_maxObservedEventTS s) (s_softFailures s) (ss_Active snap)
    (ss_Meta snap) (ss_History snap) (ss_Rollbacks snap) (ss_Scheduled snap) (s_counters s)
    (s_outboxTrimmedTotal s) (s_eventSeq s) (s_idSeq s) (ss_Revision snap) (s_matrixVersion s)
    (s_matrixUpdatedAt s).

Definition applyContractStoreSnapshotLocked (snap : Snapshot) (s : Service) : Service :=
  set_contracts (if 0 <? ss_Revision snap then snap
                 else ss_set_Revision (s_storeVersion s) snap) s.

Section Store.
Context `{FeatureSignalContractStore}.

(** The service keeps its store beside it; [None] is a service without one. *)
Definition commitContractSnapshotLocked (snapshot : Snapshot) (now : time)
    (s : Service) (st : option store_state) : Service * option store_state * option string :=
  let snapshot := if ss_Revision snapshot =? 0
                  then ss_set_Revision (nextStoreRevision (s_storeVersion s)) snapshot
                  else snapshot in
  match st with
  | None => (applyContractStoreSnapshotLocked snapshot s, None, None)
  | Some st =>
    match PutSnapshot snapshot now st with
    | (st, Err err) => (s, Some st, Some err)
    | (st, Ok committed) =>
      let committed := if ss_Revision committed =? 0
                       then ss_set_Revision (ss_Revision snapshot) committed else committed in
      (applyContractStoreSnapshotLocked committed s, Some st, None)
    end
  end.

Definition publishContractSnapshotLocked (now : time) (s : Service) (st : option store_state)
    : Service * option store_state * option string :=
  let snap := buildContractStoreSnapshotLocked s now in
  let snap := if ss_Revision snap =? 0 then ss_set_Revision (nextStoreRevision (s_storeVersion s)) snap
              else snap in
  commitContractSnapshotLocked snap now s st.

Definition syncContractCacheFromStoreLocked (s : Service) (st : option store_state)
    : Service * option string :=
  match st with
  | None => (s, None)
  | Some st =>
    match GetSnapshot st with
    | Err err => (s, Some err)
    | Ok snap => if ss_Revision snap =? 0 then (s, None)
                 else (applyContractStoreSnapshotLocked snap s, None)
    end
  end.
End Store.

(** ** Construction *)

Definition defaultDCUProfiles : gmap string DCUProfile :=
  list_to_map [(RiskLow, mk_DCUProfile "dcu-low-v1" 60); (RiskMedium, mk_DCUProfile "dcu-medium-v1" 120);
               (RiskHigh, mk_DCUProfile "dcu-high-v1" 180);
               (RiskCritical, mk_DCUProfile "dcu-critical-v1" 240)].

Definition defaultPolicyRules : list PolicyRule :=
  [{| pl_RuleID := "rule.high_risk_write.requires_approval";
      pl_Phase := PhasePreTool;
      pl_Priority := 100;
      pl_Strictness := 100;
      pl_Decision := DecisionRequireApproval;
      pl_Match := mk_PolicyMatch [RiskHigh; RiskCritical] [EffectExternalWrite; EffectIrreversible];
      pl_Obligations := [mk_Obligation "require_template" "approval.template"
                           "high_risk_write_template" PhasePreTool 100];
      pl_FailureMode := "" |}].

Definition defaultFeatureSignalContracts : gmap string FeatureSignalContract :=
  {[ "*|*" := defaultContract ]}.

Definition defaultMetricMatrix : gmap string EnforcementThreshold :=
  let th a b c d := mk_EnforcementThreshold a b c d in
  list_to_map
    [("pending_decision_age_p95",
       th (float_of_ratio 1 2) (float_of_ratio 3 4) (float_of_Z 1) (float_of_ratio 3 2) "gt");
     ("decision_dcu_exceeded_rate", th (float_of_Z 2) (float_of_Z 5) (float_of_Z 8) (float_of_Z 12) "gt");
     ("feature_stale_rate", th (float_of_Z 2) (float_of_Z 5) (float_of_Z 8) (float_of_Z 12) "gt");
     ("freeze_whitelist_coverage_rate",
       th (float_of_ratio 999 10) (float_of_Z 99) (float_of_Z 95) (float_of_Z 90) "lt")].

Definition pos_or (z d : Z) : Z := if z <=? 0 then d else z.

Definition normalize_config (c : Config) : Config := {|
  dc_DCUProfiles := if (size (dc_DCUProfiles c) =? 0)%nat then defaultDCUProfiles else dc_DCUProfiles c;
  dc_FeatureSignalContracts := if (size (dc_FeatureSignalContracts c) =? 0)%nat
                               then defaultFeatureSignalContracts else dc_FeatureSignalContracts c;
  dc_DecisionRetryLimitPerStep := pos_or (dc_DecisionRetryLimitPerStep c) 3;
  dc_PendingDecisionTTL := pos_or (dc_PendingDecisionTTL c) (10 * Minute);
  dc_PendingRepairWorkerID := if (dc_PendingRepairWorkerID c =? "")%string
                              then "repair-worker-default" else dc_PendingRepairWorkerID c;
  dc_TicketTTL := pos_or (dc_TicketTTL c) (5 * Minute);
  dc_ApprovalHardTimeoutByRisk :=
    if (size (dc_ApprovalHardTimeoutByRisk c) =? 0)%nat
    then list_to_map [(RiskLow, 30 * Minute); (RiskMedium, 45 * Minute); (RiskHigh, 60 * Minute);
                      (RiskCritical, 90 * Minute)]
    else dc_ApprovalHardTimeoutByRisk c;
  dc_PolicyRules := match dc_PolicyRules c with [] => defaultPolicyRules | l => l end;
  dc_MetricMatrix := if (size (dc_MetricMatrix c) =? 0)%nat then defaultMetricMatrix
                     else dc_MetricMatrix c;
  dc_OutboxMaxEvents := pos_or (dc_OutboxMaxEvents c) 10000;
  dc_OutboxRetention := pos_or (dc_OutboxRetention c) (24 * Hour);
  dc_CleanupTimeSource := (let v := lower_trim (dc_CleanupTimeSource c) in
    if one_of v [cleanupTimeSourceWallClock; cleanupTimeSourceEventTime] then v
    else cleanupTimeSourceWallClock);
  dc_TicketRetention := pos_or (dc_TicketRetention c) (1 * Hour);
  dc_PendingRetention := pos_or (dc_PendingRetention c) (24 * Hour);
  dc_ApprovalRetention := pos_or (dc_ApprovalRetention c) (72 * Hour);
  dc_DecisionRetention := pos_or (dc_DecisionRetention c) (72 * Hour);
  dc_DecisionMaxHistoryVersions := pos_or (dc_DecisionMaxHistoryVersions c) 128;
  dc_RequireHighRiskContractPin := dc_RequireHighRiskContractPin c |}.

Section New.
Context `{MapRange} `{JsonMarshaler} `{FeatureSignalContractStore}.

(** The first version of a configured contract. *)
Definition bootstrap_version (k storageKey : string) (c : FeatureSignalContract) (bootNow : time)
    : FeatureSignalContractVersion :=
  let '(rt, phase) := splitContractKey k in
  {| fv_Version := 1;
     fv_ContractKey := k;
     fv_StorageKey := storageKey;
     fv_RiskTier := rt;
     fv_Phase := phase;
     fv_RequiredFields := fc_RequiredFields c;
     fv_SchemaVersion := "";
     fv_TrustedProducerIDs := [];
     fv_MaxFreshnessMS := 0;
     fv_MaxDriftScore := fzero;
     fv_Scope := globalContractScope;
     fv_ContractHash := safeHashForContract c;
     fv_Status := "active";
     fv_ActivationAt := bootNow;
     fv_Reason := "bootstrap_default";
     fv_Actor := "system";
     fv_CreatedAt := bootNow |}.

Definition bootstrap_contract (bootNow : time) (snap : Snapshot) (k : string)
    (c : FeatureSignalContract) : Snapshot :=
  let storageKey := featureSignalContractStorageKey globalContractScope k in
  mk_FeatureSignalContractStoreSnapshot (ss_Revision snap) (ss_GeneratedAt snap)
    (<[storageKey := c]> (ss_Active snap)) (<[storageKey := bootNow]> (ss_Meta snap))
    (<[storageKey := [bootstrap_version k storageKey c bootNow]]> (ss_History snap))
    (ss_Rollbacks snap) (ss_Scheduled snap).

(** The service before its cache is synchronised with the store. *)
Definition boot_kernel (c : Config) (bootNow : time) : Service :=
  let cfg := normalize_config c in
  let snap := go_range (bootstrap_contract bootNow) no_snapshot (dc_FeatureSignalContracts cfg) in
  {| s_cfg := cfg;
     s_decisions := ∅;
     s_decisionHistory := ∅;
     s_pending := ∅;
     s_tickets := ∅;
     s_approvals := ∅;
     s_outbox := [];
     s_maxObservedEventTS := 0;
     s_softFailures := ∅;
     s_featureSignalContractsScoped := ss_Active snap;
     s_featureSignalContractMeta := ss_Meta snap;
     s_featureSignalContractHistory := ss_History snap;
     s_featureSignalContractRollbacks := ∅;
     s_featureSignalContractScheduled := ∅;
     s_counters := ∅;
     s_outboxTrimmedTotal := 0;
     s_eventSeq := 0;
     s_idSeq := 0;
     s_storeVersion := 1;
     s_matrixVersion := 1;
     s_matrixUpdatedAt := bootNow |}.

(** [NewKernel]: [cfg.FeatureSignalContractStore] is [st] (a fresh in-memory
    store when the configuration names none). *)
Definition NewKernel (c : Config) (bootNow : time) (st : store_state)
    : Service * option store_state :=
  let k := boot_kernel c bootNow in
  match GetSnapshot st with
  | Ok snap =>
    if 0 <? ss_Revision snap then (applyContractStoreSnapshotLocked snap k, Some st)
    else (publishContractSnapshotLocked bootNow k (Some st)).1
  | Err _ => (publishContractSnapshotLocked bootNow k (Some st)).1
  end.
End New.
