(* ===== verification/DecKernel.v ===== *)
(** * The core of the Decision service: events, records, pending decisions

    The unexported operations of [internal/decision/service.go] that the
    exported ones share: [emitEvent], [trimOutboxLocked], [recordDecisionLocked],
    [createPendingDecision], [applySoftFailureGuard], the identifiers, and the
    JSON form of the requests and responses. *)

From S2P Require Import Prelude GoStrings Sha256 GoTime GoJson DecTypes DecJson DecPolicy DecContracts.

(** ** JSON form of requests and responses *)

Definition scope_gval (s : ScopeRef) : gval :=
  named "decision.ScopeRef"
    [key "org_id" (GStr (sc_OrgID s)); key "workspace_id" (GStr (sc_WorkspaceID s));
     key "project_id" (GStr (sc_ProjectID s))].

Definition frozen_gval (f : FrozenInput) : gval :=
  named "decision.FrozenInput"
    [key "context_candidates_snapshot_ref" (GStr (fi_ContextCandidatesSnapshotRef f));
     key "policy_bundle_snapshot_ref" (GStr (fi_PolicyBundleSnapshotRef f));
     key "feature_snapshot_id" (GStr (fi_FeatureSnapshotID f));
     key "approval_routing_snapshot_ref" (GStr (fi_ApprovalRoutingSnapshotRef f));
     key "quota_snapshot_ref" (GStr (fi_QuotaSnapshotRef f));
     key "scheduler_admission_input_snapshot_ref" (GStr (fi_SchedulerAdmissionInputSnapshotRef f))].

Definition runtime_request_gval (q : RuntimeDecisionRequest) : gval :=
  named "decision.RuntimeDecisionRequest"
    [key "request_id" (GStr (q_RequestID q));
     key_om_str "trace_id" (q_TraceID q);
     key "tenant_id" (GStr (q_TenantID q));
     key "workflow_id" (GStr (q_WorkflowID q));
     key "run_id" (GStr (q_RunID q));
     key "step_id" (GStr (q_StepID q));
     key "risk_tier" (GStr (q_RiskTier q));
     key "effect_type" (GStr (q_EffectType q));
     key_om_str "decision_graph_id" (q_DecisionGraphID q);
     key_om_strs "parent_decision_node_ids" (q_ParentDecisionNodeIDs q);
     key "approval_system_available" (GBool (q_ApprovalSystemAvailable q));
     key "freeze" (named "decision.FreezeLayer"
       [key "frozen" (frozen_gval (fz_Frozen (q_Freeze q)));
        key_om_strs "dynamic_used" (fz_DynamicUsed (q_Freeze q))]);
     key_om_str "phase" (q_Phase q);
     (b ← q_PolicyEngineAvailable q; key "policy_engine_available" (GBool b));
     key_om_str "evidence_fingerprint" (q_EvidenceFingerprint q);
     key_om_int "attempt_index" (q_AttemptIndex q);
     key "dcu_input" (named "decision.DCUInput"
       [key "feature_reads" (GInt (di_FeatureReads (q_DCUInput q)));
        key "rule_evals" (GInt (di_RuleEvals (q_DCUInput q)));
        key "dependency_calls" (GInt (di_DependencyCalls (q_DCUInput q)));
        key "conflict_resolutions" (GInt (di_ConflictResolutions (q_DCUInput q)))]);
     key_om_str "feature_version" (q_FeatureVersion q);
     key_om_str "feature_schema_version" (q_FeatureSchemaVersion q);
     key_om_str "feature_evidence_ref" (q_FeatureEvidenceRef q);
     key_om_str "feature_producer_id" (q_FeatureProducerID q);
     key_om_int "feature_freshness_ms" (q_FeatureFreshnessMS q);
     key_om_int "feature_ttl_ms" (q_FeatureTTLMS q);
     key_om "feature_drift_score" (empty_float (q_FeatureDriftScore q)) (GFloat (q_FeatureDriftScore q));
     key "feature_contract_scope" (scope_gval (q_FeatureContractScope q));
     key_om_str "feature_contract_hash_pin" (q_FeatureContractHashPin q)].

Definition obligation_gval (o : Obligation) : gval :=
  named "decision.Obligation"
    [key "type" (GStr (ob_Type o)); key_om_str "target" (ob_Target o);
     key "value" (GStr (ob_Value o)); key "phase" (GStr (ob_Phase o));
     key_om_int "strictness" (ob_Strictness o)].
Definition obligations_gval (l : list Obligation) : gval := GArr (map obligation_gval l).

Definition audit_gval (a : DecisionAudit) : gval :=
  let b := da_DCUComponentBreakdown a in
  named "decision.DecisionAudit"
    [key_om_strs "error_codes" (da_ErrorCodes a);
     key_om_int "dcu_used" (da_DCUUsed a);
     key_om_int "dcu_limit" (da_DCULimit a);
     key_om_str "dcu_profile_id" (da_DCUProfileID a);
     key_om_str "dcu_reject_reason" (da_DCURejectReason a);
     key "dcu_component_breakdown" (named "decision.DCUBreakdown"
       [key "feature_reads_cost" (GInt (db_FeatureReadsCost b));
        key "rule_eval_cost" (GInt (db_RuleEvalCost b));
        key "dependency_call_cost" (GInt (db_DependencyCallCost b));
        key "conflict_resolution_cost" (GInt (db_ConflictResolutionCost b));
        key "total" (GInt (db_Total b))]);
     key_om_str "terminal_reason" (da_TerminalReason a);
     key_om_int "attempt_index" (da_AttemptIndex a)].

Definition hash_ref_gval (h : DecisionHashRef) : gval :=
  named "decision.DecisionHashRef"
    [key_om_str "value" (hr_Value h); key "valid" (GBool (hr_Valid h)); key_om_str "kind" (hr_Kind h)].

Definition binding_gval (b : FeatureSignalContractBinding) : gval :=
  named "decision.FeatureSignalContractBinding"
    [key "scope" (scope_gval (fb_Scope b));
     key_om_str "scope_match_level" (fb_ScopeMatchLevel b);
     key_om_str "key_match_level" (fb_KeyMatchLevel b);
     key "contract_key" (GStr (fb_ContractKey b));
     key_om_str "storage_key" (fb_StorageKey b);
     key "version" (GInt (fb_Version b));
     key_om_int "store_version" (fb_StoreVersion b);
     key "contract_hash" (GStr (fb_ContractHash b));
     key_om_str "schema_version" (fb_SchemaVersion b);
     key_om_strs "resolution_path" (fb_ResolutionPath b);
     key "resolved_at" (GTime (fb_ResolvedAt b));
     key_om_strs "required_fields" (fb_RequiredFields b);
     key_om_int "max_freshness_ms" (fb_MaxFreshnessMS b);
     key_om "max_drift_score" (empty_float (fb_MaxDriftScore b)) (GFloat (fb_MaxDriftScore b));
     key_om_strs "trusted_producers" (fb_TrustedProducers b)].

(** [MarshalJSON] prints the stage's name; [omitempty] drops the zero stage. *)
Definition stage_gval (st : SoftFailureStage) : gval := GStr (softFailureStageToString st).
Definition stage_none (st : SoftFailureStage) : bool :=
  match st with SoftFailureStageNone => true | _ => false end.

Definition runtime_response_gval (r : RuntimeDecisionResponse) : gval :=
  named "decision.RuntimeDecisionResponse"
    [key "decision_id" (GStr (r_DecisionID r));
     key "decision" (GStr (r_Decision r));
     key_om_str "decision_sub_type" (r_DecisionSubType r);
     key "reason_codes" (GStrs (r_ReasonCodes r));
     key "matched_rule_ids" (GStrs (r_MatchedRuleIDs r));
     key "obligations" (obligations_gval (r_Obligations r));
     key "frozen_input_hash" (GStr (r_FrozenInputHash r));
     key_om_str "trace_id" (r_TraceID r);
     key_om_str "decision_graph_id" (r_DecisionGraphID r);
     key_om_str "decision_node_id" (r_DecisionNodeID r);
     key_om_strs "parent_decision_node_ids" (r_ParentDecisionNodeIDs r);
     key "decision_hash" (GStr (r_DecisionHash r));
     key_om_bool "decision_hash_is_fallback" (r_DecisionHashIsFallback r);
     key "decision_hash_ref" (hash_ref_gval (r_DecisionHashRef r));
     key "feature_contract_binding" (binding_gval (r_FeatureContractBinding r));
     key_om "soft_failure_stage" (stage_none (r_SoftFailureStage r)) (stage_gval (r_SoftFailureStage r));
     key "audit" (audit_gval (r_Audit r))].

Definition schedule_request_gval (q : ScheduleAdmissionRequest) : gval :=
  named "decision.ScheduleAdmissionRequest"
    [key "request_id" (GStr (sq_RequestID q)); key "run_id" (GStr (sq_RunID q));
     key "step_id" (GStr (sq_StepID q)); key "tenant_id" (GStr (sq_TenantID q));
     key "risk_tier" (GStr (sq_RiskTier q)); key "priority_class" (GStr (sq_PriorityClass q));
     key "requested_resources" (res_gval (sq_RequestedResources q));
     key "quota_remaining" (res_gval (sq_QuotaRemaining q));
     key "is_vip" (GBool (sq_IsVIP q)); key "allow_preempt" (GBool (sq_AllowPreempt q))].

Definition ticket_gval (t : DispatchTicket) : gval :=
  named "decision.DispatchTicket"
    [key "ticket_id" (GStr (t_TicketID t)); key "run_id" (GStr (t_RunID t));
     key "step_id" (GStr (t_StepID t)); key "tenant_id" (GStr (t_TenantID t));
     key "allowed_resources" (res_gval (t_AllowedResources t));
     key "priority_class" (GStr (t_PriorityClass t)); key "expires_at" (GTime (t_ExpiresAt t));
     key "decision_hash" (GStr (t_DecisionHash t));
     key_om_str "decision_hash_kind" (t_DecisionHashKind t);
     key "preemptable" (GBool (t_Preemptable t))].

Definition schedule_response_gval (r : ScheduleAdmissionResponse) : gval :=
  named "decision.ScheduleAdmissionResponse"
    [key_om_str "decision_id" (sp_DecisionID r); key "decision" (GStr (sp_Decision r));
     key "queue_class" (GStr (sp_QueueClass r)); key "preemptable" (GBool (sp_Preemptable r));
     (t ← sp_Ticket r; key "ticket" (ticket_gval t));
     key "reason_codes" (GStrs (sp_ReasonCodes r)); key "decision_hash" (GStr (sp_DecisionHash r));
     key_om_bool "decision_hash_is_fallback" (sp_DecisionHashIsFallback r);
     key "decision_hash_ref" (hash_ref_gval (sp_DecisionHashRef r))].

Definition release_evidence_gval (e : ReleaseEvidence) : gval :=
  named "decision.ReleaseEvidence"
    [key "eval_pass" (GBool (lev_EvalPass e));
     key "policy_regression_pass" (GBool (lev_PolicyRegressionPass e));
     key "replay_consistency_pass" (GBool (lev_ReplayConsistencyPass e));
     key "incident_trend_score" (GFloat (lev_IncidentTrendScore e));
     key "human_signoff" (GBool (lev_HumanSignoff e))].

Definition release_request_gval (q : ReleaseDecisionRequest) : gval :=
  named "decision.ReleaseDecisionRequest"
    [key "request_id" (GStr (lq_RequestID q)); key "risk_tier" (GStr (lq_RiskTier q));
     key "fast_path_requested" (GBool (lq_FastPathRequested q));
     key "change_scope_whitelisted" (GBool (lq_ChangeScopeWhitelisted q));
     key "evidence" (release_evidence_gval (lq_Evidence q))].

Definition release_response_gval (r : ReleaseDecisionResponse) : gval :=
  named "decision.ReleaseDecisionResponse"
    [key_om_str "decision_id" (lp_DecisionID r); key "final_decision" (GStr (lp_FinalDecision r));
     key "decision_confidence" (GFloat (lp_DecisionConfidence r));
     key "evidence_completeness" (GFloat (lp_EvidenceCompleteness r));
     key_om_strs "blocking_reasons" (lp_BlockingReasons r);
     key_om_strs "reason_codes" (lp_ReasonCodes r); key "decision_hash" (GStr (lp_DecisionHash r));
     key_om_bool "decision_hash_is_fallback" (lp_DecisionHashIsFallback r);
     key "decision_hash_ref" (hash_ref_gval (lp_DecisionHashRef r))].

(** ** Hash references *)

Definition makeDecisionHashRef (value : string) (valid : bool) (kind : string) : DecisionHashRef :=
  mk_DecisionHashRef value valid
    (if blank kind then (if valid then DecisionHashKindStable else DecisionHashKindError) else kind).

(** The reference a stored decision keeps, from the response's three fields. *)
Definition derive_hash_ref (ref : DecisionHashRef) (hash : string) (fallback : bool) : DecisionHashRef :=
  let value := if blank (hr_Value ref) then hash else hr_Value ref in
  let bad := blank value || isErrorHash value in
  if fallback then makeDecisionHashRef value false DecisionHashKindFallback
  else if negb (blank (hr_Kind ref)) then
    if negb (hr_Valid ref) then makeDecisionHashRef value false (hr_Kind ref)
    else if bad then makeDecisionHashRef value false DecisionHashKindError
    else makeDecisionHashRef value true (hr_Kind ref)
  else if bad then makeDecisionHashRef value false DecisionHashKindError
  else makeDecisionHashRef value true DecisionHashKindStable.

(** ** The outbox *)

Definition decisionEventEvidencePolicy (eventType : string) : string * bool :=
  if one_of (TrimSpace eventType)
       ["decision_dcu_exceeded_event"; "decision_retry_exhausted_event"; "decision_confirmed";
        "approval_hard_timeout_event"; "approval.case.decided"; "approval.pending.updated";
        "approval.run_unlock.dispatch"; "pending_decision_escalate_oncall"; "pending_owner_mismatch"]
  then ("audit", true) else ("operational", false).

Definition outbox_expired (cfg : Config) (now : time) (e : Event) : bool :=
  negb (Sub now (e_EventTS e) <=? dc_OutboxRetention cfg).

Definition trimOutboxLocked (now : time) (s : Service) : Service * Z :=
  let cfg := s_cfg s in
  let cut := if 0 <? dc_OutboxRetention cfg
             then prefix_len (outbox_expired cfg now) (s_outbox s) else 0%nat in
  let outbox := drop cut (s_outbox s) in
  let overflow := Z.of_nat (length outbox) - dc_OutboxMaxEvents cfg in
  let cut2 := if 0 <? overflow then Z.to_nat overflow else 0%nat in
  let trimmed := Z.of_nat cut + Z.of_nat cut2 in
  let s := s_set_outbox (drop cut2 outbox) s in
  (if 0 <? trimmed then s_set_outboxTrimmedTotal (wrap_uint64 (s_outboxTrimmedTotal s + trimmed)) s
   else s, trimmed).

Definition add_counter (k : string) (s : Service) : Service :=
  s_set_counters (<[k := fadd (default fzero (s_counters s !! k)) (float_of_Z 1)]> (s_counters s)) s.

Section Kernel.
Context `{JsonMarshaler}.

Definition emitEvent (eventType decisionID runID stepID : string) (kvs : list (string * gval))
    (at_ : time) (s : Service) : Service :=
  let seq := wrap_uint64 (s_eventSeq s + 1) in
  let payload := GMap kvs in
  let '(payloadHash, payloadHashValid) :=
    match safeHash payload with Some h => (h, true) | None => ("", false) end in
  let '(evidenceGrade, payloadIntegrityRequired) := decisionEventEvidencePolicy eventType in
  let e := {|
    e_EventID := String.append "evt_dec_seq_" (fmt_d seq);
    e_EventType := eventType;
    e_SchemaVersion := 1;
    e_SourceComponent := "decision_kernel";
    e_EvidenceGrade := evidenceGrade;
    e_PayloadIntegrityRequired := payloadIntegrityRequired;
    e_DecisionID := decisionID;
    e_RunID := runID;
    e_StepID := stepID;
    e_EventTS := at_;
    e_PayloadRef := String.append "inline://decision_outbox/" (fmt_d seq);
    e_PayloadHash := payloadHash;
    e_PayloadHashValid := payloadHashValid;
    e_Payload := payload |} in
  let s := s |> s_set_eventSeq seq |> s_set_outbox (s_outbox s ++ [e]) in
  let s := if After at_ (s_maxObservedEventTS s) then s_set_maxObservedEventTS at_ s else s in
  fst (trimOutboxLocked at_ s).

(** ** Identifiers *)

Definition nextFallbackID (prefix : string) (s : Service) : Service * string :=
  let seq := wrap_uint64 (s_idSeq s + 1) in
  (s_set_idSeq seq s, Join [prefix; "seq_"; fmt_d seq] "").

Definition makeBestEffortID (prefix : string) (payload : gval) (s : Service)
    : Service * (string * bool) :=
  match safeHash payload with
  | Some h => (s, (String.append prefix (hash16 h), true))
  | None => let '(s, id) := nextFallbackID prefix s in (s, (id, false))
  end.

Definition defaultTraceID (q : RuntimeDecisionRequest) : string :=
  if negb (blank (q_TraceID q)) then TrimSpace (q_TraceID q)
  else match safeHash (anon [key "run_id" (GStr (q_RunID q)); key "step_id" (GStr (q_StepID q));
                             key "request_id" (GStr (q_RequestID q))]) with
       | Some h => String.append "tr_" (hash16 h)
       | None => String.append "tr_fb_" (fallbackIDFromStrings [q_RunID q; q_StepID q; q_RequestID q])
       end.

Definition defaultDecisionGraphID (q : RuntimeDecisionRequest) : string :=
  if negb (blank (q_DecisionGraphID q)) then TrimSpace (q_DecisionGraphID q)
  else match safeHash (anon [key "run_id" (GStr (q_RunID q)); key "request_id" (GStr (q_RequestID q))]) with
       | Some h => String.append "dg_" (hash16 h)
       | None => String.append "dg_fb_" (fallbackIDFromStrings [q_RunID q; q_RequestID q])
       end.

Definition buildDecisionNodeID (decisionID : string) (q : RuntimeDecisionRequest) : string :=
  match safeHash (anon [key "decision_id" (GStr decisionID); key "step_id" (GStr (q_StepID q));
                        key "attempt" (GInt (q_AttemptIndex q)); key "phase" (GStr (q_Phase q))]) with
  | Some h => String.append "node_dec_" (hash16 h)
  | None => String.append "node_dec_fb_" (fallbackIDFromStrings [decisionID; q_StepID q; q_Phase q])
  end.

(** ** Records of decisions *)

(** What [recordDecisionLocked] reads of a request and a response by their
    types: the raw values, the semantic key, the binding and the hash fields. *)
Record DecisionInput := mk_DecisionInput {
  in_request : gval;
  in_response : gval;
  in_key : string;
  in_runID : string;
  in_stepID : string;
  in_attempt : Z;
  in_phase : string;
  in_hash : string;
  in_fallback : bool;
  in_ref : DecisionHashRef
}.

Definition nonblank_hash (h : string) : string := if blank h then "" else h.

Definition runtime_input (kind : string) (q : RuntimeDecisionRequest) (r : RuntimeDecisionResponse)
    : DecisionInput := {|
  in_request := runtime_request_gval q;
  in_response := runtime_response_gval r;
  in_key := Join [kind; q_RunID q; q_StepID q; fmt_d (q_AttemptIndex q); upper_trim (q_Phase q)] "|";
  in_runID := q_RunID q;
  in_stepID := q_StepID q;
  in_attempt := q_AttemptIndex q;
  in_phase := upper_trim (q_Phase q);
  in_hash := nonblank_hash (r_DecisionHash r);
  in_fallback := r_DecisionHashIsFallback r;
  in_ref := derive_hash_ref (r_DecisionHashRef r) (r_DecisionHash r) (r_DecisionHashIsFallback r) |}.

Definition schedule_input (kind : string) (q : ScheduleAdmissionRequest)
    (r : ScheduleAdmissionResponse) : DecisionInput := {|
  in_request := schedule_request_gval q;
  in_response := schedule_response_gval r;
  in_key := Join [kind; sq_RunID q; sq_StepID q; lower_trim (sq_TenantID q)] "|";
  in_runID := sq_RunID q;
  in_stepID := sq_StepID q;
  in_attempt := 0;
  in_phase := PhasePreTool;
  in_hash := nonblank_hash (sp_DecisionHash r);
  in_fallback := sp_DecisionHashIsFallback r;
  in_ref := derive_hash_ref (sp_DecisionHashRef r) (sp_DecisionHash r) (sp_DecisionHashIsFallback r) |}.

Definition release_input (kind : string) (q : ReleaseDecisionRequest) (r : ReleaseDecisionResponse)
    : DecisionInput := {|
  in_request := release_request_gval q;
  in_response := release_response_gval r;
  in_key := Join [kind; TrimSpace (lq_RequestID q); lower_trim (lq_RiskTier q)] "|";
  in_runID := "";
  in_stepID := "";
  in_attempt := 0;
  in_phase := "";
  in_hash := nonblank_hash (lp_DecisionHash r);
  in_fallback := lp_DecisionHashIsFallback r;
  in_ref := derive_hash_ref (lp_DecisionHashRef r) (lp_DecisionHash r) (lp_DecisionHashIsFallback r) |}.

Definition capDecisionHistory (cfg : Config) (history : list StoredDecision) : list StoredDecision :=
  let limit := dc_DecisionMaxHistoryVersions cfg in
  if (limit <=? 0) || (Z.of_nat (length history) <=? limit) then history
  else lastn (Z.to_nat limit) history.

Definition next_record (kind decisionID : string) (i : DecisionInput) (now : time) : StoredDecision :=
  let '(reqRaw, reqMap) := toCanonicalRecord (in_request i) in
  let '(respRaw, respMap) := toCanonicalRecord (in_response i) in
  {| d_DecisionID := decisionID;
     d_DecisionType := kind;
     d_DecisionKey := in_key i;
     d_Version := 0;
     d_DecisionHash := in_hash i;
     d_DecisionHashIsFallback := in_fallback i;
     d_DecisionHashRef := in_ref i;
     d_RunID := in_runID i;
     d_StepID := in_stepID i;
     d_AttemptIndex := in_attempt i;
     d_Phase := in_phase i;
     d_CreatedAt := now;
     d_Request := reqMap;
     d_Response := respMap;
     d_RequestRaw := reqRaw;
     d_ResponseRaw := respRaw |}.

(** The same decision, up to its hash fields and its time. *)
Definition same_semantics (a b : StoredDecision) : bool :=
  (d_DecisionType a =? d_DecisionType b)%string
  && (d_DecisionKey a =? d_DecisionKey b)%string
  && (canonicalizeForDecisionSemantic (d_Request a) =?
      canonicalizeForDecisionSemantic (d_Request b))%string
  && (canonicalizeForDecisionSemantic (d_Response a) =?
      canonicalizeForDecisionSemantic (d_Response b))%string.

(** [history[len(history)-1] = x]. *)
Definition replace_last {A} (l : list A) (x : A) : list A := removelast l ++ [x].

Definition put_record (decisionID : string) (next : StoredDecision) (history : list StoredDecision)
    (s : Service) : Service :=
  s |> s_set_decisions (<[decisionID := next]> (s_decisions s))
    |> s_set_decisionHistory
         (<[decisionID := capDecisionHistory (s_cfg s) history]> (s_decisionHistory s)).

Definition recordDecisionLocked (kind decisionID : string) (i : DecisionInput) (now : time)
    (s : Service) : Service :=
  let next := next_record kind decisionID i now in
  let history := default [] (s_decisionHistory s !! decisionID) in
  match s_decisions s !! decisionID with
  | Some existing =>
    if same_semantics existing next then
      let next := d_set_Version (d_Version existing) next in
      put_record decisionID next
        (match history with [] => [next] | _ => replace_last history next end) s
    else
      let next := d_set_Version (wrap_int64 (d_Version existing + 1)) next in
      put_record decisionID next
        ((match history with [] => [existing] | _ => history end) ++ [next]) s
  | None =>
    let next := d_set_Version 1 next in put_record decisionID next [next] s
  end.

Definition persistDecision := recordDecisionLocked.

(** ** Pending decisions *)

Definition buildPendingOwnerKey (runID stepID : string) (attempt : Z) (phase : string) : string :=
  lower_trim (Join [runID; stepID; fmt_d attempt; upper_trim phase] "|").

Definition set_pending (id : string) (p : PendingDecision) (s : Service) : Service :=
  s_set_pending (<[id := p]> (s_pending s)) s.

(** What a duplicate evaluation refreshes in a decision still pending. *)
Definition refresh_pending (p : PendingDecision) (runID stepID riskTier : string)
    (meta : pendingOwnerMeta) (ownerKey : string) (now : time) : PendingDecision :=
  let or_ v w := if (v =? "")%string then w else v in
  {| p_DecisionID := p_DecisionID p;
     p_RunID := or_ (p_RunID p) runID;
     p_StepID := or_ (p_StepID p) stepID;
     p_RiskTier := or_ (p_RiskTier p) riskTier;
     p_AttemptIndex := if p_AttemptIndex p =? 0 then pom_AttemptIndex meta else p_AttemptIndex p;
     p_Phase := or_ (p_Phase p) (upper_trim (pom_Phase meta));
     p_OwnerKey := or_ (p_OwnerKey p) ownerKey;
     p_CreatedAt := p_CreatedAt p;
     p_LastUpdatedAt := now;
     p_RepairAttempts := p_RepairAttempts p;
     p_Status := p_Status p |}.

Definition new_pending (decisionID runID stepID riskTier : string) (meta : pendingOwnerMeta)
    (now : time) : PendingDecision := {|
  p_DecisionID := decisionID;
  p_RunID := runID;
  p_StepID := stepID;
  p_RiskTier := riskTier;
  p_AttemptIndex := pom_AttemptIndex meta;
  p_Phase := upper_trim (pom_Phase meta);
  p_OwnerKey := buildPendingOwnerKey runID stepID (pom_AttemptIndex meta) (pom_Phase meta);
  p_CreatedAt := now;
  p_LastUpdatedAt := now;
  p_RepairAttempts := 0;
  p_Status := pendingStatusPending |}.

Definition createPendingDecision (decisionID runID stepID riskTier : string) (now : time)
    (meta : pendingOwnerMeta) (s : Service) : Service :=
  let ownerKey := buildPendingOwnerKey runID stepID (pom_AttemptIndex meta) (pom_Phase meta) in
  match s_pending s !! decisionID with
  | Some existing =>
    let prevStatus := p_Status existing in
    if negb (p_OwnerKey existing =? "")%string && negb (ownerKey =? "")%string
       && negb (p_OwnerKey existing =? ownerKey)%string then
      emitEvent "pending_owner_mismatch" decisionID runID stepID
        [("existing_owner_key", GStr (p_OwnerKey existing)); ("incoming_owner_key", GStr ownerKey);
         ("existing_status", GStr prevStatus)] now s
    else
      let existing := if (prevStatus =? pendingStatusPending)%string
                      then refresh_pending existing runID stepID riskTier meta ownerKey now
                      else existing in
      s |> set_pending decisionID existing
        |> emitEvent "pending_duplicate_evaluate" decisionID (p_RunID existing) (p_StepID existing)
             [("existing_status", GStr prevStatus)] now
  | None => set_pending decisionID (new_pending decisionID runID stepID riskTier meta now) s
  end.

(** ** Soft failures *)

Definition no_soft_failure : softFailureState := mk_softFailureState 0 "" "" "" 0 0.

Definition soft_key (q : RuntimeDecisionRequest) : string :=
  Join [q_TenantID q; q_RunID q; q_StepID q] ":".

(** The retry state after one more review, and whether the guard stops here
    with the given stage. *)
Definition soft_step (q : RuntimeDecisionRequest) (reason : string) (now : time)
    (st : softFailureState) : softFailureState * option SoftFailureStage :=
  let first := if (sf_FirstReason st =? "")%string then reason else sf_FirstReason st in
  let st := st |> sf_set_FirstReason first |> sf_set_LastReason reason in
  let fp := q_EvidenceFingerprint q in
  let changed := negb (fp =? "")%string && negb (fp =? sf_LastEvidence st)%string in
  if 0 <? q_AttemptIndex q then
    if changed then
      (mk_softFailureState 0 fp reason reason (q_AttemptIndex q) now, Some SoftFailureStageReset)
    else if q_AttemptIndex q <=? sf_LastAttemptIndex st then
      (sf_set_LastUpdatedAt now st, Some SoftFailureStageRetrying)
    else
      let retriesUsed := q_AttemptIndex q - 1 in
      let st := st |> sf_set_LastAttemptIndex (q_AttemptIndex q)
                   |> sf_set_RetryCount (if retriesUsed <? 0 then 0 else retriesUsed) in
      let st := if negb (fp =? "")%string && (sf_LastEvidence st =? "")%string
                then sf_set_LastEvidence fp st else st in
      (sf_set_LastUpdatedAt now st, None)
  else if changed then
    (st |> sf_set_RetryCount 0 |> sf_set_LastEvidence fp |> sf_set_LastUpdatedAt now,
     Some SoftFailureStageReset)
  else
    let st := sf_set_RetryCount (wrap_int64 (sf_RetryCount st + 1)) st in
    let st := if negb (fp =? "")%string then sf_set_LastEvidence fp st else st in
    (sf_set_LastUpdatedAt now st, None).

Definition applySoftFailureGuard (q : RuntimeDecisionRequest) (resp : RuntimeDecisionResponse)
    (now : time) (s : Service) : Service * RuntimeDecisionResponse :=
  let stepKey := soft_key q in
  if negb (r_Decision resp =? DecisionReviewRequired)%string then
    (s_set_softFailures (delete stepKey (s_softFailures s)) s,
     r_set_SoftFailureStage SoftFailureStageNone resp)
  else
    let '(st, stage) := soft_step q (firstOrEmpty (r_ReasonCodes resp)) now
                          (default no_soft_failure (s_softFailures s !! stepKey)) in
    let s := s_set_softFailures (<[stepKey := st]> (s_softFailures s)) s in
    match stage with
    | Some stage => (s, r_set_SoftFailureStage stage resp)
    | None =>
      if sf_RetryCount st <=? dc_DecisionRetryLimitPerStep (s_cfg s) then
        (s, r_set_SoftFailureStage SoftFailureStageRetrying resp)
      else
        let audit := r_Audit resp in
        let '(decision, stage) :=
          if isHighOrCritical (q_RiskTier q) then (DecisionForceReview, SoftFailureStageEscalated)
          else (DecisionFailed, SoftFailureStageExhausted) in
        let resp := resp
          |> r_set_Audit (da_set_ErrorCodes (da_ErrorCodes audit ++ [ErrCodeSoftRetryExhausted]) audit)
          |> r_set_ReasonCodes (r_ReasonCodes resp ++ ["decision_retry_exhausted"])
          |> r_set_Decision decision |> r_set_SoftFailureStage stage in
        (emitEvent "decision_retry_exhausted_event" (r_DecisionID resp) (q_RunID q) (q_StepID q)
           [("limit", GInt (dc_DecisionRetryLimitPerStep (s_cfg s)));
            ("retry_count", GInt (sf_RetryCount st));
            ("attempt_index", GInt (q_AttemptIndex q));
            ("soft_failure_stage", stage_gval stage);
            ("first_failure_reason", GStr (sf_FirstReason st));
            ("last_failure_reason", GStr (sf_LastReason st))] now s, resp)
    end.
End Kernel.
