(* ===== verification/DecRuntime.v ===== *)
(** * Runtime evaluation ([EvaluateRuntime], [finalizeRuntimeDecision],
    [finalizeRuntimeResponse] of [internal/decision/service.go])

    The function is a chain of checks with early returns.  [evaluate_gates] is
    the chain: each return is a [verdict], [Final] where the code finalises at
    once and [Guarded] where it applies the soft failure guard first. *)

From S2P Require Import Prelude GoStrings Sha256 GoTime GoJson DecTypes DecJson DecPolicy.
From S2P Require Import DecContracts DecKernel.

Section Runtime.
Context `{JsonMarshaler}.

(** ** Finalisation *)

(** What the decision hash covers. *)
Definition runtime_hash_input (r : RuntimeDecisionResponse) : gval :=
  let b := r_FeatureContractBinding r in
  anon [key "decision" (GStr (r_Decision r));
        key "decision_sub_type" (GStr (r_DecisionSubType r));
        key "reason_codes" (GStrs (r_ReasonCodes r));
        key "matched_rule_ids" (GStrs (r_MatchedRuleIDs r));
        key "obligations" (obligations_gval (r_Obligations r));
        key "feature_contract" (anon
          [key "scope" (scope_gval (fb_Scope b));
           key_om_str "scope_match_level" (fb_ScopeMatchLevel b);
           key_om_str "key_match_level" (fb_KeyMatchLevel b);
           key "contract_key" (GStr (fb_ContractKey b));
           key "storage_key" (GStr (fb_StorageKey b));
           key "version" (GInt (fb_Version b));
           key_om_int "store_version" (fb_StoreVersion b);
           key "contract_hash" (GStr (fb_ContractHash b));
           key_om_str "schema_version" (fb_SchemaVersion b);
           key "resolved_at" (GTime 0)]);
        key "frozen_input_hash" (GStr (r_FrozenInputHash r));
        key_om_str "trace_id" (r_TraceID r);
        key_om_str "decision_graph_id" (r_DecisionGraphID r);
        key_om_str "decision_node_id" (r_DecisionNodeID r);
        key_om_strs "parent_decision_node_ids" (r_ParentDecisionNodeIDs r);
        key "audit" (audit_gval (r_Audit r))].

Definition sort_response (r : RuntimeDecisionResponse) : RuntimeDecisionResponse :=
  let audit := r_Audit r in
  let r := r |> r_set_ReasonCodes (sort_Strings (r_ReasonCodes r))
             |> r_set_MatchedRuleIDs (sort_Strings (r_MatchedRuleIDs r))
             |> r_set_Audit (da_set_ErrorCodes (sort_Strings (da_ErrorCodes audit)) audit) in
  if (r_Decision r =? DecisionAutoDeny)%string && (r_DecisionSubType r =? "")%string
  then r_set_DecisionSubType "approval_unavailable" r else r.

Definition finalizeRuntimeResponse (r : RuntimeDecisionResponse) : RuntimeDecisionResponse :=
  let r := sort_response r in
  r_set_DecisionHash (default "" (safeHash (runtime_hash_input r))) r.

Definition bad_hash (h : string) : bool := blank h || isErrorHash h.

(** [finalizeRuntimeResponse] followed by the stable hash reference. *)
Definition hash_response (r : RuntimeDecisionResponse) : RuntimeDecisionResponse :=
  let r := finalizeRuntimeResponse r in
  r |> r_set_DecisionHashIsFallback false
    |> r_set_DecisionHashRef (mk_DecisionHashRef (r_DecisionHash r)
         (negb (bad_hash (r_DecisionHash r))) DecisionHashKindStable).

(** The decision when its hash could not be computed. *)
Definition hash_invalid (r : RuntimeDecisionResponse) : RuntimeDecisionResponse :=
  let audit := r_Audit r in
  r |> r_set_Decision DecisionFailClosed
    |> r_set_DecisionSubType "decision_hash_invalid"
    |> r_set_Audit (da_set_ErrorCodes (da_ErrorCodes audit ++ [ErrCodeDecisionHashInvalid]) audit)
    |> r_set_ReasonCodes (r_ReasonCodes r ++ ["decision_hash_invalid"]).

Definition fallback_hash (h : string) (r : RuntimeDecisionResponse) : RuntimeDecisionResponse :=
  r |> r_set_DecisionHash h |> r_set_DecisionHashIsFallback true
    |> r_set_DecisionHashRef (mk_DecisionHashRef h false DecisionHashKindFallback).

Definition hash_or_fail (r : RuntimeDecisionResponse) (s : Service)
    : Service * RuntimeDecisionResponse :=
  let r := hash_response r in
  if bad_hash (r_DecisionHash r) then
    let r := hash_response (hash_invalid r) in
    if bad_hash (r_DecisionHash r) then
      let '(s, h) := nextFallbackID "dec_hash_" s in (s, fallback_hash h r)
    else (s, r)
  else (s, r).

Definition fill_ids (q : RuntimeDecisionRequest) (r : RuntimeDecisionResponse)
    : RuntimeDecisionResponse :=
  let r := if blank (r_TraceID r) then r_set_TraceID (defaultTraceID q) r else r in
  let r := if blank (r_DecisionGraphID r)
           then r_set_DecisionGraphID (defaultDecisionGraphID q) r else r in
  let r := if blank (r_DecisionNodeID r)
           then r_set_DecisionNodeID (buildDecisionNodeID (r_DecisionID r) q) r else r in
  match r_ParentDecisionNodeIDs r with
  | [] => r_set_ParentDecisionNodeIDs (q_ParentDecisionNodeIDs q) r
  | _ => r
  end.

(** The contract fields of the evaluation events. *)
Definition binding_kvs (b : FeatureSignalContractBinding) : list (string * gval) :=
  [("contract_scope", scope_gval (fb_Scope b));
   ("contract_scope_level", GStr (fb_ScopeMatchLevel b));
   ("contract_key_level", GStr (fb_KeyMatchLevel b));
   ("contract_key", GStr (fb_ContractKey b));
   ("contract_storage_key", GStr (fb_StorageKey b));
   ("contract_version", GInt (fb_Version b));
   ("contract_store_version", GInt (fb_StoreVersion b));
   ("contract_hash", GStr (fb_ContractHash b));
   ("contract_schema_version", GStr (fb_SchemaVersion b));
   ("contract_required_fields", nilable (fb_RequiredFields b))].
Definition path_kv (b : FeatureSignalContractBinding) : string * gval :=
  ("contract_resolution_path", nilable (fb_ResolutionPath b)).

Definition evaluated_kvs (r : RuntimeDecisionResponse) : list (string * gval) :=
  [("decision", GStr (r_Decision r));
   ("reason_codes", GStrs (r_ReasonCodes r));
   ("matched_rule_ids", GStrs (r_MatchedRuleIDs r));
   ("error_codes", nilable (da_ErrorCodes (r_Audit r)));
   ("pending_created", GBool (shouldCreatePendingDecision (r_Decision r)));
   ("decision_hash_kind", GStr (hr_Kind (r_DecisionHashRef r)));
   ("decision_hash_valid", GBool (hr_Valid (r_DecisionHashRef r)));
   ("soft_failure_stage", stage_gval (r_SoftFailureStage r));
   ("decision_graph_id", GStr (r_DecisionGraphID r));
   ("decision_node_id", GStr (r_DecisionNodeID r));
   ("trace_id", GStr (r_TraceID r))]
  ++ binding_kvs (r_FeatureContractBinding r) ++ [path_kv (r_FeatureContractBinding r)].

Definition finalizeRuntimeDecision (normReq : RuntimeDecisionRequest)
    (resp : RuntimeDecisionResponse) (now : time) (s : Service)
    : Service * RuntimeDecisionResponse :=
  let q := normalizeRuntimeRequest normReq in
  let '(s, resp) := hash_or_fail (fill_ids q resp) s in
  let s := recordDecisionLocked "runtime" (r_DecisionID resp) (runtime_input "runtime" q resp) now s in
  let s := if shouldCreatePendingDecision (r_Decision resp)
           then createPendingDecision (r_DecisionID resp) (q_RunID q) (q_StepID q) (q_RiskTier q) now
                  (mk_pendingOwnerMeta (q_AttemptIndex q) (q_Phase q)) s
           else s in
  (emitEvent "decision.runtime.evaluated" (r_DecisionID resp) (q_RunID q) (q_StepID q)
     (evaluated_kvs resp) now s, resp).

(** ** The checks *)

Inductive verdict :=
| Final (s : Service) (resp : RuntimeDecisionResponse)
| Guarded (s : Service) (resp : RuntimeDecisionResponse).

Definition add_error (e : string) (r : RuntimeDecisionResponse) : RuntimeDecisionResponse :=
  let a := r_Audit r in r_set_Audit (da_set_ErrorCodes (da_ErrorCodes a ++ [e]) a) r.
Definition add_reason (c : string) (r : RuntimeDecisionResponse) : RuntimeDecisionResponse :=
  r_set_ReasonCodes (r_ReasonCodes r ++ [c]) r.
Definition add_rule (c : string) (r : RuntimeDecisionResponse) : RuntimeDecisionResponse :=
  r_set_MatchedRuleIDs (r_MatchedRuleIDs r ++ [c]) r.
Definition set_terminal (t : string) (r : RuntimeDecisionResponse) : RuntimeDecisionResponse :=
  r_set_Audit (da_set_TerminalReason t (r_Audit r)) r.

Definition zero_binding : FeatureSignalContractBinding :=
  mk_FeatureSignalContractBinding (mk_ScopeRef "" "" "") "" "" "" "" 0 0 "" "" [] 0 [] 0 fzero [].
Definition zero_breakdown : DCUBreakdown := mk_DCUBreakdown 0 0 0 0 0.

Definition decision_id_input (q : RuntimeDecisionRequest) : gval :=
  anon [key "decision_class" (GStr "runtime_primary"); key "tenant_id" (GStr (q_TenantID q));
        key "run_id" (GStr (q_RunID q)); key "step_id" (GStr (q_StepID q));
        key "attempt_index" (GInt (q_AttemptIndex q)); key "phase" (GStr (q_Phase q))].

Definition initial_response (decisionID frozenHash : string) (q : RuntimeDecisionRequest)
    : RuntimeDecisionResponse := {|
  r_DecisionID := decisionID;
  r_Decision := "";
  r_DecisionSubType := "";
  r_ReasonCodes := [];
  r_MatchedRuleIDs := [];
  r_Obligations := [];
  r_FrozenInputHash := frozenHash;
  r_TraceID := defaultTraceID q;
  r_DecisionGraphID := defaultDecisionGraphID q;
  r_DecisionNodeID := "";
  r_ParentDecisionNodeIDs := q_ParentDecisionNodeIDs q;
  r_DecisionHash := "";
  r_DecisionHashIsFallback := false;
  r_DecisionHashRef := mk_DecisionHashRef "" false "";
  r_FeatureContractBinding := zero_binding;
  r_SoftFailureStage := SoftFailureStageNone;
  r_Audit := mk_DecisionAudit [] 0 0 "" "" zero_breakdown "" (q_AttemptIndex q) |}.

(** Each gate answers [None] to let the evaluation go on. *)
Definition gate := RuntimeDecisionRequest -> time -> Service -> RuntimeDecisionResponse -> option verdict.

Definition input_gate : gate := fun q _ s r =>
  if negb (isValidRisk (q_RiskTier q)) then
    Some (Final s (r |> r_set_Decision DecisionFailClosed |> add_error "INPUT_INVALID_RISK"
                     |> add_reason "invalid_risk_tier"))
  else if negb (isValidEffect (q_EffectType q)) then
    Some (Final s (r |> r_set_Decision DecisionFailClosed |> add_error "INPUT_INVALID_EFFECT"
                     |> add_reason "invalid_effect_type"))
  else if isHighOrCritical (q_RiskTier q) && blank (q_DecisionGraphID q) then
    Some (Final s (r |> r_set_Decision DecisionFailClosed |> add_error ErrCodeDecisionGraphRequired
                     |> add_reason "decision_graph_required"))
  else None.

Definition contract_event (q : RuntimeDecisionRequest) (r : RuntimeDecisionResponse)
    (kvs : list (string * gval)) (now : time) (s : Service) : Service :=
  emitEvent "feature_signal_contract_missing_event" (r_DecisionID r) (q_RunID q) (q_StepID q)
    (("risk_tier", GStr (q_RiskTier q)) :: kvs) now s.

Definition pin_gate (b : FeatureSignalContractBinding) (found : bool) : gate := fun q now s r =>
  let pin := TrimSpace (q_FeatureContractHashPin q) in
  if dc_RequireHighRiskContractPin (s_cfg s) && isHighOrCritical (q_RiskTier q)
     && (pin =? "")%string then
    let r := r |> r_set_Decision DecisionFailClosed |> add_error ErrCodeFeatureSignalPinMismatch
               |> add_reason "feature_signal_contract_hash_pin_required"
               |> add_rule "rule.feature.signal_contract_pin_required" in
    Some (Final (contract_event q r (binding_kvs b ++ [path_kv b; ("pin_required", GBool true)]) now s) r)
  else if negb (pin =? "")%string
          && (negb found || negb (EqualFold (TrimSpace (fb_ContractHash b)) pin)) then
    let r := r |> r_set_Decision DecisionFailClosed |> add_error ErrCodeFeatureSignalPinMismatch
               |> add_reason "feature_signal_contract_hash_pin_mismatch"
               |> add_rule "rule.feature.signal_contract_pin" in
    Some (Final (contract_event q r (binding_kvs b ++
           [path_kv b; ("pin_type", GStr "hash"); ("pin_expected", GStr pin);
            ("pin_actual", GStr (fb_ContractHash b))]) now s) r)
  else None.

Definition missing_gate (c : FeatureSignalContract) (b : FeatureSignalContractBinding) : gate :=
  fun q now s r =>
  match missingFeatureSignalFieldsByContract q (fc_RequiredFields c) with
  | [] => None
  | missing =>
    let r := r |> add_error ErrCodeFeatureSignalMissing
               |> add_reason "feature_signal_contract_missing"
               |> add_rule "rule.feature.signal_contract" in
    let s := contract_event q r (binding_kvs b ++
      [path_kv b; ("missing_fields", GStrs missing);
       ("required_fields", nilable (fc_RequiredFields c));
       ("feature_version", GStr (q_FeatureVersion q));
       ("feature_schema_version", GStr (q_FeatureSchemaVersion q))]) now s in
    Some (Guarded s (r_set_Decision (decisionByRisk (q_RiskTier q)) r))
  end.

Definition trust_gate (c : FeatureSignalContract) (b : FeatureSignalContractBinding) : gate :=
  fun q now s r =>
  let trust := evaluateFeatureTrustContract q c in
  if ft_Blocked trust then
    let d := if (ft_Decision trust =? "")%string then DecisionReviewRequired else ft_Decision trust in
    let r := r |> r_set_Decision d |> add_reason (ft_ReasonCode trust)
               |> add_rule "rule.feature.trust_contract" in
    let s := contract_event q r (binding_kvs b ++
      [("reason_code", GStr (ft_ReasonCode trust));
       ("feature_version", GStr (q_FeatureVersion q));
       ("feature_schema_version", GStr (q_FeatureSchemaVersion q));
       ("feature_producer_id", GStr (q_FeatureProducerID q));
       ("feature_freshness_ms", GInt (q_FeatureFreshnessMS q));
       ("feature_drift_score", GFloat (q_FeatureDriftScore q))]) now s in
    Some (Guarded s r)
  else None.

Definition dcu_audit (p : DCUProfile) (b : DCUBreakdown) (a : DecisionAudit) : DecisionAudit :=
  mk_DecisionAudit (da_ErrorCodes a) (db_Total b) (dpf_Limit p) (dpf_ProfileID p)
    (da_DCURejectReason a) b (da_TerminalReason a) (da_AttemptIndex a).

Definition dcu_profile_gate : gate := fun q now s r =>
  match dc_DCUProfiles (s_cfg s) !! q_RiskTier q with
  | Some _ => None
  | None =>
    let r := r |> r_set_Decision DecisionFailClosed |> add_error ErrCodeDecisionDCUProfileMissing
               |> add_reason "dcu_profile_missing" in
    Some (Final (emitEvent "decision_dcu_profile_missing_event" (r_DecisionID r) (q_RunID q) (q_StepID q)
                   [("risk_tier", GStr (q_RiskTier q))] now s) r)
  end.

(** The response with the budget recorded in its audit. *)
Definition with_dcu (q : RuntimeDecisionRequest) (p : DCUProfile) (r : RuntimeDecisionResponse)
    : RuntimeDecisionResponse :=
  r_set_Audit (dcu_audit p (calcDCU (q_DCUInput q)) (r_Audit r)) r.

Definition dcu_reject (risk : string) : string * string :=
  if (risk =? RiskCritical)%string then (DecisionFailClosed, "critical_budget_exceeded_fail_closed")
  else if (risk =? RiskHigh)%string
       then (DecisionReviewRequired, "high_budget_exceeded_review_required")
  else (DecisionReviewRequired, "degrade_to_minimal_decision_path").

Definition dcu_gate (p : DCUProfile) : gate := fun q now s r =>
  let total := db_Total (calcDCU (q_DCUInput q)) in
  if dpf_Limit p <? total then
    let '(d, why) := dcu_reject (q_RiskTier q) in
    let r := add_error ErrCodeDecisionDCUExceeded r in
    let r := r |> r_set_Decision d |> r_set_Audit (da_set_DCURejectReason why (r_Audit r))
               |> add_reason "decision_dcu_exceeded" |> add_rule "rule.dcu.exceeded" in
    let s := s |> add_counter "decision_dcu_exceeded_total"
               |> emitEvent "decision_dcu_exceeded_event" (r_DecisionID r) (q_RunID q) (q_StepID q)
                    [("dcu_used", GInt total); ("dcu_limit", GInt (dpf_Limit p));
                     ("risk_tier", GStr (q_RiskTier q)); ("profile_id", GStr (dpf_ProfileID p))] now in
    Some (Guarded s r)
  else None.

(** The freeze counters are updated before the freeze gates. *)
Definition count_freeze (q : RuntimeDecisionRequest) (s : Service) : Service :=
  let s := add_counter "freeze_whitelist_checks_total" s in
  match missingFrozenFields (fz_Frozen (q_Freeze q)), forbiddenDynamicFields (fz_DynamicUsed (q_Freeze q)) with
  | [], [] => add_counter "freeze_whitelist_pass_total" s
  | _, _ => s
  end.

Definition freeze_gate : gate := fun q _ s r =>
  match missingFrozenFields (fz_Frozen (q_Freeze q)), forbiddenDynamicFields (fz_DynamicUsed (q_Freeze q)) with
  | _ :: _, _ =>
    Some (Guarded s (r |> add_error ErrCodeFreezeInputMissing |> add_reason "freeze_input_missing"
      |> add_rule "rule.freeze.missing" |> r_set_Decision (decisionByRisk (q_RiskTier q))))
  | [], _ :: _ =>
    Some (Guarded s (r |> add_error ErrCodeFreezeForbiddenDynamic
      |> add_reason "freeze_forbidden_dynamic_field" |> add_rule "rule.freeze.dynamic_forbidden"
      |> r_set_Decision (decisionByRisk (q_RiskTier q))))
  | [], [] => None
  end.

(** A stale feature is recorded even when the policy allows it. *)
Definition stale_response (q : RuntimeDecisionRequest) (r : RuntimeDecisionResponse)
    : RuntimeDecisionResponse :=
  let stale := evaluateFeatureStalePolicy q in
  if fs_StaleDetected stale
  then r |> add_reason (fs_ReasonCode stale) |> add_rule "rule.feature.stale" else r.

Definition stale_service (q : RuntimeDecisionRequest) (r : RuntimeDecisionResponse) (now : time)
    (s : Service) : Service :=
  let stale := evaluateFeatureStalePolicy q in
  if fs_StaleDetected stale then
    s |> add_counter "feature_stale_total"
      |> emitEvent "feature_stale_used_event" (r_DecisionID r) (q_RunID q) (q_StepID q)
           [("feature_freshness_ms", GInt (q_FeatureFreshnessMS q));
            ("feature_ttl_ms", GInt (q_FeatureTTLMS q));
            ("stale_window_ms", GInt (fs_WindowMS stale));
            ("risk_tier", GStr (q_RiskTier q));
            ("policy_action", GStr (if fs_Allow stale then "allow" else fs_Decision stale))] now
  else s.

Definition stale_gate : gate := fun q _ s r =>
  let stale := evaluateFeatureStalePolicy q in
  if fs_StaleDetected stale && negb (fs_Allow stale) then
    Some (Guarded s (r_set_Decision
      (if (fs_Decision stale =? "")%string then DecisionReviewRequired else fs_Decision stale) r))
  else None.

Definition drift_gate : gate := fun q _ s r =>
  let '(blocked, reason) := evaluateFeatureDrift q in
  if blocked then
    Some (Guarded (add_counter "feature_drift_block_total" s)
      (r |> add_reason reason |> add_rule "rule.feature.drift"
         |> r_set_Decision (if (q_RiskTier q =? RiskCritical)%string
                            then DecisionFailClosed else DecisionReviewRequired)))
  else None.

Definition engine_gate : gate := fun q _ s r =>
  if negb (default true (q_PolicyEngineAvailable q)) then
    let '(d, why) := if isHighOrCritical (q_RiskTier q)
      then (DecisionFailClosed, "policy_engine_unavailable_fail_closed")
      else (DecisionReviewRequired, "policy_engine_unavailable_review_required") in
    Some (Guarded s (r |> add_error ErrCodePolicyEngineUnavailable
      |> add_reason "policy_engine_unavailable" |> add_rule "rule.policy.unavailable"
      |> r_set_Decision d |> set_terminal why))
  else None.

Definition approval_gate : gate := fun q _ s r =>
  if negb (q_ApprovalSystemAvailable q) then
    let '(d, why) :=
      if (q_RiskTier q =? RiskLow)%string then (DecisionAutoDeny, "approval_unavailable_auto_deny")
      else if (q_RiskTier q =? RiskMedium)%string
           then (DecisionReviewRequired, "approval_unavailable_review_required")
      else (DecisionFailClosed, "approval_unavailable_fail_closed") in
    Some (Guarded s (r |> add_error ErrCodeApprovalUnavailable |> add_rule "rule.approval.unavailable"
      |> r_set_Decision d |> add_reason why |> set_terminal why))
  else None.

Definition apply_policy (q : RuntimeDecisionRequest) (rules : list PolicyRule)
    (r : RuntimeDecisionResponse) : RuntimeDecisionResponse :=
  let policy := evaluatePolicyPhase (mk_PolicyInput (q_RiskTier q) (q_EffectType q)) (q_Phase q) rules in
  let r := r |> r_set_MatchedRuleIDs (r_MatchedRuleIDs r ++ pe_MatchedRuleIDs policy)
             |> r_set_Obligations (r_Obligations r ++ pe_Obligations policy) in
  let r := if negb (pe_EffectiveRuleID policy =? "")%string
           then set_terminal (String.append "policy_effective_rule:" (pe_EffectiveRuleID policy)) r
           else r in
  let r := r_set_ReasonCodes (r_ReasonCodes r ++ pe_Conflicts policy) r in
  if negb (pe_Decision policy =? "")%string
  then r |> r_set_Decision (pe_Decision policy) |> add_reason "policy_decision_applied"
  else r |> r_set_Decision DecisionAllow |> add_reason "baseline_allow"
         |> add_rule "rule.baseline.allow".

(** [g ;; k]: the first verdict wins. *)
Definition or_else (v : option verdict) (k : verdict) : verdict :=
  match v with Some v => v | None => k end.

(** The checks after the budget profile was found. *)
Definition budget_gates (p : DCUProfile) (q : RuntimeDecisionRequest) (now : time) (s : Service)
    (r : RuntimeDecisionResponse) : verdict :=
  let r := with_dcu q p r in
  or_else (dcu_gate p q now s r) (
  let s := count_freeze q s in
  or_else (freeze_gate q now s r) (
  let r := stale_response q r in
  let s := stale_service q r now s in
  or_else (stale_gate q now s r) (
  or_else (drift_gate q now s r) (
  or_else (engine_gate q now s r) (
  or_else (approval_gate q now s r) (
  Guarded s (apply_policy q (dc_PolicyRules (s_cfg s)) r))))))).

Definition evaluate_gates (q : RuntimeDecisionRequest) (now : time) (s : Service)
    (r : RuntimeDecisionResponse) : verdict :=
  or_else (input_gate q now s r) (
  let '(contract, binding, found) :=
    resolveFeatureSignalContractWithBinding s (q_FeatureContractScope q) (q_RiskTier q) (q_Phase q) now in
  let r := r_set_FeatureContractBinding binding r in
  or_else (pin_gate binding found q now s r) (
  or_else (missing_gate contract binding q now s r) (
  or_else (trust_gate contract binding q now s r) (
  or_else (dcu_profile_gate q now s r) (
  match dc_DCUProfiles (s_cfg s) !! q_RiskTier q with
  | Some p => budget_gates p q now s r
  | None => Final s r
  end))))).

(** ** The whole evaluation *)

Definition hash_failures (idOK frozenOK : bool) (r : RuntimeDecisionResponse) : RuntimeDecisionResponse :=
  let r := r |> r_set_Decision DecisionFailClosed |> add_error ErrCodeDecisionHashInvalid
             |> add_reason "decision_hash_invalid" in
  let r := if idOK then r else add_reason "decision_id_hash_generation_failed" r in
  if frozenOK then r else add_reason "frozen_input_hash_generation_failed" r.

Definition EvaluateRuntime (s : Service) (req : RuntimeDecisionRequest) (now : time)
    : Service * RuntimeDecisionResponse :=
  let norm := normalizeRuntimeRequest req in
  let '(s, (decisionID, idOK)) := makeBestEffortID "dec_" (decision_id_input norm) s in
  let '(frozenHash, frozenOK) :=
    match safeHash (frozen_gval (fz_Frozen (q_Freeze norm))) with
    | Some h => (h, true) | None => ("", false) end in
  let resp := initial_response decisionID frozenHash norm in
  let s := add_counter "runtime_eval_total" s in
  if negb idOK || negb frozenOK then
    finalizeRuntimeDecision norm (hash_failures idOK frozenOK resp) now s
  else
    match evaluate_gates norm now s resp with
    | Final s resp => finalizeRuntimeDecision norm resp now s
    | Guarded s resp =>
      let '(s, resp) := applySoftFailureGuard norm resp now s in
      finalizeRuntimeDecision norm resp now s
    end.
End Runtime.
