(* ===== verification/DecAdmission.v ===== *)
(** * Schedule admission, dispatch tickets, execution receipts, release

    [EvaluateScheduleAdmission], [ValidateExecutionReceipt],
    [ValidateExecutionReceiptRef], [ValidateExecutionReceiptForRun] and
    [EvaluateRelease] of [internal/decision/service.go].

    The stored ticket is the value returned to the caller; a caller that wrote
    through the returned pointer would change the stored ticket, which is not
    modelled. *)

From S2P Require Import Prelude GoStrings Sha256 GoTime GoJson DecTypes DecJson DecPolicy.
From S2P Require Import DecContracts DecKernel.
From Stdlib Require Import Ascii.

(** ** Hash fields of the responses *)

Definition applyScheduleHash (value : string) (valid : bool) (kind : string)
    (r : ScheduleAdmissionResponse) : ScheduleAdmissionResponse :=
  let ref := makeDecisionHashRef value valid kind in
  r |> sp_set_DecisionHash value |> sp_set_DecisionHashIsFallback (negb valid)
    |> sp_set_DecisionHashRef ref
    |> sp_set_Ticket (t ← sp_Ticket r;
         Some (t |> t_set_DecisionHash value |> t_set_DecisionHashKind (hr_Kind ref))).

Definition applyReleaseHash (value : string) (valid : bool) (kind : string)
    (r : ReleaseDecisionResponse) : ReleaseDecisionResponse :=
  r |> lp_set_DecisionHash value |> lp_set_DecisionHashIsFallback (negb valid)
    |> lp_set_DecisionHashRef (makeDecisionHashRef value valid kind).

Definition add_schedule_reason (c : string) (r : ScheduleAdmissionResponse) :=
  sp_set_ReasonCodes (sp_ReasonCodes r ++ [c]) r.
Definition add_release_reason (c : string) (r : ReleaseDecisionResponse) :=
  lp_set_ReasonCodes (lp_ReasonCodes r ++ [c]) r.
Definition add_blocking (c : string) (r : ReleaseDecisionResponse) :=
  lp_set_BlockingReasons (lp_BlockingReasons r ++ [c]) r.

(** ** Receipts *)

Definition set_ticket (t : DispatchTicket) (s : Service) : Service :=
  s_set_tickets (<[t_TicketID t := t]> (s_tickets s)) s.

(** [ref[len(p):]] trimmed. *)
Definition after_prefix (p ref : string) : string :=
  TrimSpace (String.substring (String.length p) (String.length ref - String.length p) ref).

(** The part of the bytes before the first separator. *)
Fixpoint until_sep (seps : list ascii) (l : list ascii) : list ascii :=
  match l with
  | [] => []
  | c :: l => if existsb (Ascii.eqb c) seps then [] else c :: until_sep seps l
  end.

(** [strings.Index]: the offset of the first occurrence. *)
Fixpoint index_of (sub s : string) : option nat :=
  if String.prefix sub s then Some 0%nat
  else match s with
       | EmptyString => None
       | String _ s => S <$> index_of sub s
       end.

Definition extractTicketIDFromExecutionReceiptRef (ref : string) : string :=
  let ref := TrimSpace ref in
  let lower := ToLower ref in
  if (ref =? "")%string then ""
  else if HasPrefix lower "ticket://" then after_prefix "ticket://" ref
  else if HasPrefix lower "ticket:" then after_prefix "ticket:" ref
  else if HasPrefix lower "rcpt://" then after_prefix "rcpt://" ref
  else match index_of "ticket_id=" lower with
       | Some idx =>
         let rest := String.substring (idx + 10) (String.length ref - (idx + 10)) ref in
         TrimSpace (str (until_sep ["&"; "?"; "#"]%char (bytes rest)))
       | None =>
         if existsb (fun c => existsb (Ascii.eqb c) ["/"; "?"; "#"]%char) (bytes ref) then ""
         else ref
       end.

Section Receipts.
Context `{MapRange}.

(** Some used resource is above its limit: the loop returns at the first. *)
Definition resource_exceeds (used allowed : Resources) : bool :=
  existsb (fun kv => fltb (res_get allowed kv.1) kv.2) (range_map (default ∅ used)).

Definition ValidateExecutionReceipt (s : Service) (receipt : ExecutionReceipt)
    : ExecutionReceiptResult :=
  let reject c := mk_ExecutionReceiptResult false [c] in
  match s_tickets s !! xr_TicketID receipt with
  | None => reject "ticket_not_found"
  | Some ticket =>
    if After (xr_ReceivedAt receipt) (t_ExpiresAt ticket) then reject "ticket_expired"
    else if blank (xr_RunID receipt) || blank (xr_StepID receipt) || blank (xr_TenantID receipt) then
      reject "receipt_binding_missing"
    else if negb (xr_RunID receipt =? t_RunID ticket)%string
            || negb (xr_StepID receipt =? t_StepID ticket)%string
            || negb (xr_TenantID receipt =? t_TenantID ticket)%string then
      reject "ticket_binding_mismatch"
    else if resource_exceeds (xr_UsedResources receipt) (t_AllowedResources ticket) then
      reject "resource_exceed_ticket"
    else mk_ExecutionReceiptResult true []
  end.

Definition ValidateExecutionReceiptRef (s : Service) (runID stepID tenantID receiptRef : string)
    (now : time) : bool * list string :=
  let ticketID := extractTicketIDFromExecutionReceiptRef receiptRef in
  if (ticketID =? "")%string then (false, ["execution_receipt_ticket_missing"])
  else match s_tickets s !! ticketID with
       | None => (false, ["ticket_not_found"])
       | Some ticket =>
         if After now (t_ExpiresAt ticket) then (false, ["ticket_expired"])
         else if blank runID || blank stepID then (false, ["execution_binding_missing"])
         else if negb (t_RunID ticket =? runID)%string || negb (t_StepID ticket =? stepID)%string then
           (false, ["ticket_binding_mismatch"])
         else if negb (blank tenantID) && negb (t_TenantID ticket =? tenantID)%string then
           (false, ["ticket_binding_mismatch"])
         else (true, [])
       end.

(** [now] is read when the receipt has no time. *)
Definition ValidateExecutionReceiptForRun (s : Service) (runID stepID tenantID receiptRef : string)
    (used : Resources) (receivedAt now : time) : bool * list string :=
  let ticketID := extractTicketIDFromExecutionReceiptRef receiptRef in
  if (ticketID =? "")%string then (false, ["execution_receipt_ticket_missing"])
  else if (size (default ∅ used) =? 0)%nat then (false, ["execution_receipt_usage_missing"])
  else
    let receivedAt := if IsZero receivedAt then now else receivedAt in
    let result := ValidateExecutionReceipt s
      (mk_ExecutionReceipt ticketID runID stepID tenantID (cloneResourceMap used) receivedAt) in
    (xp_Accepted result, xp_ReasonCodes result).
End Receipts.

(** ** Schedule admission *)

Section Admission.
Context `{MapRange} `{JsonMarshaler}.

Definition schedule_id_input (q : ScheduleAdmissionRequest) : gval :=
  anon [key "request_id" (GStr (sq_RequestID q)); key "run_id" (GStr (sq_RunID q));
        key "step_id" (GStr (sq_StepID q)); key "tenant_id" (GStr (sq_TenantID q));
        key "risk_tier" (GStr (lower_trim (sq_RiskTier q)));
        key "priority_class" (GStr (TrimSpace (sq_PriorityClass q)));
        key "is_vip" (GBool (sq_IsVIP q)); key "allow_preempt" (GBool (sq_AllowPreempt q));
        key "requested_resources" (res_gval (cloneResourceMap (sq_RequestedResources q)));
        key "quota_remaining" (res_gval (cloneResourceMap (sq_QuotaRemaining q)))].

Definition admission_hash_input (q : ScheduleAdmissionRequest) (r : ScheduleAdmissionResponse) : gval :=
  anon [key "request_id" (GStr (sq_RequestID q)); key "run_id" (GStr (sq_RunID q));
        key "step_id" (GStr (sq_StepID q)); key "tenant_id" (GStr (sq_TenantID q));
        key "risk_tier" (GStr (lower_trim (sq_RiskTier q)));
        key "queue_class" (GStr (sp_QueueClass r)); key "preemptable" (GBool (sp_Preemptable r));
        key "decision" (GStr (sp_Decision r)); key "reason_codes" (nilable (sp_ReasonCodes r));
        key "requested_resources" (res_gval (cloneResourceMap (sq_RequestedResources q)));
        key "quota_remaining" (res_gval (cloneResourceMap (sq_QuotaRemaining q)))].

Definition ticket_id_input (q : ScheduleAdmissionRequest) (hash : string) : gval :=
  anon [key "run_id" (GStr (sq_RunID q)); key "step_id" (GStr (sq_StepID q));
        key "decision_hash" (GStr hash)].

Definition persist_schedule (q : ScheduleAdmissionRequest) (r : ScheduleAdmissionResponse)
    (now : time) (s : Service) : Service :=
  persistDecision "schedule_admission" (sp_DecisionID r) (schedule_input "schedule_admission" q r) now s.

Definition reject_kvs (reason : string) (r : ScheduleAdmissionResponse) : list (string * gval) :=
  [("reason", GStr reason); ("decision_hash", GStr (sp_DecisionHash r));
   ("decision_hash_kind", GStr (hr_Kind (sp_DecisionHashRef r)));
   ("decision_hash_valid", GBool (hr_Valid (sp_DecisionHashRef r)));
   ("decision_hash_fallback", GBool (sp_DecisionHashIsFallback r))].

Definition reject_schedule (reason : string) (q : ScheduleAdmissionRequest)
    (r : ScheduleAdmissionResponse) (now : time) (s : Service)
    : Service * ScheduleAdmissionResponse :=
  (s |> persist_schedule q r now
     |> emitEvent "decision.schedule.rejected" (sp_DecisionID r) (sq_RunID q) (sq_StepID q)
          (reject_kvs reason r) now, r).

Definition schedule_start (decisionID : string) (q : ScheduleAdmissionRequest)
    : ScheduleAdmissionResponse :=
  {| sp_DecisionID := decisionID;
     sp_Decision := "";
     sp_QueueClass := if sq_IsVIP q then "vip" else "shared";
     sp_Preemptable := false;
     sp_Ticket := None;
     sp_ReasonCodes := [];
     sp_DecisionHash := "";
     sp_DecisionHashIsFallback := false;
     sp_DecisionHashRef := mk_DecisionHashRef "" false "" |}.

(** The quota rejection: its hash is of the response itself. *)
Definition deny_quota (q : ScheduleAdmissionRequest) (r : ScheduleAdmissionResponse) (now : time)
    (s : Service) : Service * ScheduleAdmissionResponse :=
  let r := r |> sp_set_Decision DecisionDeny |> add_schedule_reason "quota_exceeded" in
  match safeHash (schedule_response_gval r) with
  | Some h => reject_schedule "quota_exceeded" q (applyScheduleHash h true DecisionHashKindStable r) now s
  | None =>
    let r := add_schedule_reason "decision_hash_invalid" r in
    let '(s, h) := nextFallbackID "sched_hash_" s in
    reject_schedule "quota_exceeded" q (applyScheduleHash h false DecisionHashKindFallback r) now s
  end.

Definition new_ticket (ticketID : string) (q : ScheduleAdmissionRequest) (preemptable : bool)
    (hash : string) (now : time) (cfg : Config) : DispatchTicket := {|
  t_TicketID := ticketID;
  t_RunID := sq_RunID q;
  t_StepID := sq_StepID q;
  t_TenantID := sq_TenantID q;
  t_AllowedResources := cloneResourceMap (sq_RequestedResources q);
  t_PriorityClass := sq_PriorityClass q;
  t_ExpiresAt := Add now (dc_TicketTTL cfg);
  t_DecisionHash := hash;
  t_DecisionHashKind := "";
  t_Preemptable := preemptable |}.

Definition admit_ticket (q : ScheduleAdmissionRequest) (r : ScheduleAdmissionResponse) (hash : string)
    (now : time) (s : Service) : Service * ScheduleAdmissionResponse :=
  match makeBestEffortID "ticket_" (ticket_id_input q hash) s with
  | (s, (_, false)) =>
    let r := r |> sp_set_Decision DecisionDeny |> sp_set_Preemptable false |> sp_set_Ticket None
               |> add_schedule_reason "ticket_id_hash_generation_failed"
               |> applyScheduleHash hash true DecisionHashKindStable in
    (persist_schedule q r now s, r)
  | (s, (ticketID, true)) =>
    let r := r |> sp_set_Ticket (Some (new_ticket ticketID q (sp_Preemptable r) hash now (s_cfg s)))
               |> applyScheduleHash hash true DecisionHashKindStable in
    let s := match sp_Ticket r with Some t => set_ticket t s | None => s end in
    (s |> persist_schedule q r now
       |> emitEvent "decision.schedule.admitted" (sp_DecisionID r) (sq_RunID q) (sq_StepID q)
            [("ticket_id", GStr ticketID); ("queue_class", GStr (sp_QueueClass r));
             ("preemptable", GBool (sp_Preemptable r)); ("decision_hash", GStr (sp_DecisionHash r));
             ("hash_kind", GStr (hr_Kind (sp_DecisionHashRef r)));
             ("hash_valid", GBool (hr_Valid (sp_DecisionHashRef r)))] now, r)
  end.

Definition EvaluateScheduleAdmission (s : Service) (q : ScheduleAdmissionRequest) (now : time)
    : Service * ScheduleAdmissionResponse :=
  match makeBestEffortID "dec_sched_" (schedule_id_input q) s with
  | (s, (decisionID, false)) =>
    let r := sp_set_QueueClass "shared" (schedule_start decisionID q)
               |> sp_set_Decision DecisionDeny |> add_schedule_reason "decision_hash_invalid" in
    let '(s, h) := nextFallbackID "sched_hash_" s in
    let r := applyScheduleHash h false DecisionHashKindFallback r in
    (persist_schedule q r now s, r)
  | (s, (decisionID, true)) =>
    let r := schedule_start decisionID q in
    if quotaExceeded (sq_RequestedResources q) (sq_QuotaRemaining q) then deny_quota q r now s
    else
      let preemptable := sq_AllowPreempt q && negb (isHighOrCritical (ToLower (sq_RiskTier q))) in
      let r := r |> sp_set_Preemptable preemptable |> sp_set_Decision DecisionAllow
                 |> add_schedule_reason "admission_allowed" in
      match safeHash (admission_hash_input q r) with
      | Some hash => admit_ticket q r hash now s
      | None =>
        let r := r |> sp_set_Decision DecisionDeny |> sp_set_Preemptable false |> sp_set_Ticket None
                   |> add_schedule_reason "decision_hash_invalid" in
        let '(s, h) := nextFallbackID "sched_hash_" s in
        reject_schedule "ticket_id_hash_generation_failed" q
          (applyScheduleHash h false DecisionHashKindFallback r) now s
      end
  end.

(** ** Release *)

Definition release_id_input (q : ReleaseDecisionRequest) : gval :=
  anon [key "request_id" (GStr (lq_RequestID q)); key "risk_tier" (GStr (lower_trim (lq_RiskTier q)));
        key "fast_path_requested" (GBool (lq_FastPathRequested q));
        key "change_scope_whitelisted" (GBool (lq_ChangeScopeWhitelisted q));
        key "evidence" (release_evidence_gval (lq_Evidence q))].

Definition quarter : float64 := float_of_ratio 1 4.

Definition evidence_completeness (e : ReleaseEvidence) : float64 :=
  let add (b : bool) x := if b then fadd x quarter else x in
  fzero |> add (lev_EvalPass e) |> add (lev_PolicyRegressionPass e)
        |> add (lev_ReplayConsistencyPass e) |> add (lev_HumanSignoff e).

Definition persist_release (q : ReleaseDecisionRequest) (r : ReleaseDecisionResponse) (now : time)
    (s : Service) : Service :=
  persistDecision "release" (lp_DecisionID r) (release_input "release" q r) now s.

Definition release_kvs (risk : string) (r : ReleaseDecisionResponse) : list (string * gval) :=
  [("risk", GStr risk); ("decision_hash", GStr (lp_DecisionHash r));
   ("decision_hash_kind", GStr (hr_Kind (lp_DecisionHashRef r)));
   ("decision_hash_valid", GBool (hr_Valid (lp_DecisionHashRef r)));
   ("decision_hash_fallback", GBool (lp_DecisionHashIsFallback r))].

(** The hash of a response, or a fallback with [fail] applied to it. *)
Definition hash_release (fail : ReleaseDecisionResponse -> ReleaseDecisionResponse)
    (r : ReleaseDecisionResponse) (s : Service) : Service * ReleaseDecisionResponse :=
  match safeHash (release_response_gval r) with
  | Some h => (s, applyReleaseHash h true DecisionHashKindStable r)
  | None =>
    let r := add_release_reason "decision_hash_invalid" (fail r) in
    let '(s, h) := nextFallbackID "rel_hash_" s in
    (s, applyReleaseHash h false DecisionHashKindFallback r)
  end.

Definition block_release (reason : string) (kvs : ReleaseDecisionResponse -> list (string * gval))
    (risk : string) (q : ReleaseDecisionRequest) (r : ReleaseDecisionResponse) (now : time)
    (s : Service) : Service * ReleaseDecisionResponse :=
  let '(s, r) := hash_release (fun r => r) r s in
  (s |> persist_release q r now
     |> emitEvent "decision.release.blocked" (lp_DecisionID r) "" ""
          (("reason", GStr reason) :: kvs r ++ release_kvs risk r) now, r).

Definition release_start (decisionID : string) : ReleaseDecisionResponse :=
  mk_ReleaseDecisionResponse decisionID "" fzero fzero [] [] "" false (mk_DecisionHashRef "" false "").

Definition fast_path_reasons (q : ReleaseDecisionRequest) (risk : string) : list string :=
  if lq_FastPathRequested q then
    (if negb (risk =? RiskLow)%string then ["fast_path_downgraded_non_low_risk"] else []) ++
    (if negb (lq_ChangeScopeWhitelisted q) then ["fast_path_downgraded_scope_not_whitelisted"] else [])
  else [].

Definition failed_evidence (e : ReleaseEvidence) : list string :=
  (if negb (lev_EvalPass e) then ["eval_failed"] else []) ++
  (if negb (lev_PolicyRegressionPass e) then ["policy_regression_failed"] else []) ++
  (if negb (lev_ReplayConsistencyPass e) then ["replay_consistency_failed"] else []).

Definition pass_release (risk : string) (q : ReleaseDecisionRequest) (r : ReleaseDecisionResponse)
    (now : time) (s : Service) : Service * ReleaseDecisionResponse :=
  let r := r |> lp_set_FinalDecision DecisionPass |> lp_set_DecisionConfidence (float_of_ratio 9 10)
             |> add_release_reason "release_evidence_sufficient" in
  let '(s, r) := hash_release (fun r => r |> lp_set_FinalDecision DecisionBlock
    |> lp_set_DecisionConfidence fzero |> add_blocking "decision_hash_generation_failed") r s in
  (s |> persist_release q r now
     |> emitEvent "decision.release.evaluated" (lp_DecisionID r) "" ""
          ([("final_decision", GStr (lp_FinalDecision r));
            ("evidence_completeness", GFloat (lp_EvidenceCompleteness r));
            ("decision_confidence", GFloat (lp_DecisionConfidence r));
            ("blocking_reasons", nilable (lp_BlockingReasons r))] ++ release_kvs risk r) now, r).

Definition EvaluateRelease (s : Service) (q : ReleaseDecisionRequest) (now : time)
    : Service * ReleaseDecisionResponse :=
  match makeBestEffortID "dec_release_" (release_id_input q) s with
  | (s, (decisionID, false)) =>
    let r := release_start decisionID |> lp_set_FinalDecision DecisionBlock
               |> add_blocking "decision_id_hash_generation_failed"
               |> add_release_reason "decision_hash_invalid" in
    let '(s, h) := nextFallbackID "rel_hash_" s in
    let r := applyReleaseHash h false DecisionHashKindFallback r in
    (persist_release q r now s, r)
  | (s, (decisionID, true)) =>
    let risk := lower_trim (lq_RiskTier q) in
    let e := lq_Evidence q in
    let r := release_start decisionID |> lp_set_EvidenceCompleteness (evidence_completeness e)
               |> lp_set_ReasonCodes (fast_path_reasons q risk) in
    if isHighOrCritical risk && negb (lev_HumanSignoff e) then
      block_release "human_signoff_missing" (fun _ => []) risk q
        (r |> lp_set_FinalDecision DecisionBlock |> add_blocking "human_signoff_missing"
           |> lp_set_DecisionConfidence (float_of_ratio 1 10)) now s
    else match failed_evidence e with
         | [] => pass_release risk q r now s
         | failed =>
           block_release "evidence_gate_failed"
             (fun r => [("blocking_reasons", nilable (lp_BlockingReasons r))]) risk q
             (r |> lp_set_FinalDecision DecisionBlock
                |> lp_set_BlockingReasons (lp_BlockingReasons r ++ failed)
                |> lp_set_DecisionConfidence (float_of_ratio 2 10)) now s
         end
  end.
End Admission.
