(* ===== verification/DecPending.v ===== *)
(** * Pending decisions, gates, lookups and cleanup

    [ConfirmRunAdvance], [TerminalizePendingDecision], [RepairPendingDecisions],
    the side-effect gates, the decision lookups, [DrainOutbox], [CleanupExpired]
    and [MetricsSnapshot] of [internal/decision/service.go]. *)

From S2P Require Import Prelude GoStrings Sha256 GoTime GoJson DecTypes DecJson DecPolicy.
From S2P Require Import DecContracts DecKernel DecAdmission.

(** ** Confirmation *)

(** What [ConfirmRunAdvance] refuses before it looks at the status. *)
Definition confirm_refused (p : PendingDecision) (q : ConfirmRunAdvanceRequest) : option string :=
  let attempt := cq_AttemptIndex q in
  let phase := upper_trim (cq_Phase q) in
  let owner := lower_trim (cq_OwnerKey q) in
  let owner := if (owner =? "")%string && ((0 <? attempt) || negb (phase =? "")%string)
               then buildPendingOwnerKey (cq_RunID q) (cq_StepID q) attempt phase else owner in
  if negb (p_RunID p =? cq_RunID q)%string || negb (p_StepID p =? cq_StepID q)%string then
    Some "pending_decision_mismatch"
  else if negb (p_OwnerKey p =? "")%string && (owner =? "")%string then Some "pending_owner_required"
  else if negb (p_OwnerKey p =? "")%string && negb (owner =? p_OwnerKey p)%string then
    Some "pending_owner_mismatch"
  else if (0 <? p_AttemptIndex p) && (0 <? attempt) && negb (p_AttemptIndex p =? attempt) then
    Some "pending_attempt_mismatch"
  else if negb (p_Phase p =? "")%string && negb (phase =? "")%string
          && negb (p_Phase p =? phase)%string then
    Some "pending_phase_mismatch"
  else None.

(** A status change stamps the time of the change. *)
Definition with_status (status : string) (now : time) (p : PendingDecision) : PendingDecision :=
  p |> p_set_Status status |> p_set_LastUpdatedAt now.

Section Pending.
Context `{MapRange} `{JsonMarshaler}.

Definition ConfirmRunAdvance (s : Service) (q : ConfirmRunAdvanceRequest) (now : time)
    : Service * ConfirmRunAdvanceResponse :=
  let id := cq_DecisionID q in
  let answer p codes := mk_ConfirmRunAdvanceResponse (p_Status p) codes in
  match s_pending s !! id with
  | None => (s, mk_ConfirmRunAdvanceResponse "not_found" ["pending_decision_not_found"])
  | Some p =>
    match confirm_refused p q with
    | Some reason => (s, answer p [reason])
    | None =>
      if negb (p_Status p =? pendingStatusPending)%string then
        (s, answer p (if cq_Success q && (p_Status p =? pendingStatusConfirmed)%string then []
                      else ["pending_decision_terminal_state_immutable"]))
      else if cq_Success q then
        let p := with_status pendingStatusConfirmed now p in
        (s |> set_pending id p
           |> emitEvent "decision_confirmed" id (cq_RunID q) (cq_StepID q) [] now, answer p [])
      else
        let p := p_set_LastUpdatedAt now p in
        (s |> set_pending id p
           |> emitEvent "pending_decision_still_pending" id (cq_RunID q) (cq_StepID q) [] now,
         answer p ["run_advance_failed"])
    end
  end.

(** ** Manual termination *)

Definition TerminalizePendingDecision (s : Service) (q : TerminalizePendingDecisionRequest) (now : time)
    : Service * TerminalizePendingDecisionResponse :=
  let id := tq_DecisionID q in
  let target := lower_trim (tq_Status q) in
  let answer p codes := mk_TerminalizePendingDecisionResponse (p_Status p) codes in
  match s_pending s !! id with
  | None => (s, mk_TerminalizePendingDecisionResponse "not_found" ["pending_decision_not_found"])
  | Some p =>
    if negb (one_of target [pendingStatusSafeguardHold; pendingStatusEscalatedOncall;
                            pendingStatusManuallyClosed]) then
      (s, answer p ["invalid_terminal_status"])
    else if (p_Status p =? target)%string then (s, answer p [])
    else if negb (p_Status p =? pendingStatusPending)%string then
      (s, answer p ["pending_decision_already_terminal"])
    else
      let p := with_status target now p in
      (s |> set_pending id p
         |> emitEvent "pending_decision_terminalized" (p_DecisionID p) (p_RunID p) (p_StepID p)
              [("target_status", GStr target); ("reason", GStr (tq_Reason q));
               ("actor", GStr (tq_Actor q))] now, answer p [])
  end.

(** ** Repair *)

Definition repair_due (cfg : Config) (now : time) (p : PendingDecision) : bool :=
  (p_Status p =? pendingStatusPending)%string
  && negb (Sub now (p_LastUpdatedAt p) <=? dc_PendingDecisionTTL cfg).

(** The action of the attempt number: event and next status. *)
Definition repair_action (attempts : Z) (status : string) : string * string :=
  if attempts =? 1 then ("pending_decision_retry_confirm", status)
  else if attempts =? 2 then ("pending_decision_compare_run_state", status)
  else if attempts =? 3 then ("pending_decision_enter_safeguard_hold", pendingStatusSafeguardHold)
  else ("pending_decision_escalate_oncall", pendingStatusEscalatedOncall).

Definition repaired (now : time) (p : PendingDecision) : PendingDecision :=
  let attempts := wrap_int64 (p_RepairAttempts p + 1) in
  p |> p_set_RepairAttempts attempts |> p_set_LastUpdatedAt now
    |> p_set_Status (repair_action attempts (p_Status p)).2.

Definition count_repair (attempts : Z) (r : PendingRepairResult) : PendingRepairResult :=
  let plus_if (b : bool) n := n + (if b then 1 else 0) in
  mk_PendingRepairResult (rep_Scanned r + 1)
    (plus_if ((attempts =? 1) || (attempts =? 2)) (rep_Repaired r))
    (plus_if (attempts =? 3) (rep_SafeguardHold r))
    (plus_if (negb ((attempts =? 1) || (attempts =? 2) || (attempts =? 3))) (rep_Escalated r))
    (rep_ReasonCodes r).

(** One iteration: [p] is a pointer into the map. *)
Definition repair_visit (now : time) (st : Service * PendingRepairResult) (id : string)
    (p : PendingDecision) : Service * PendingRepairResult :=
  let '(s, r) := st in
  if repair_due (s_cfg s) now p then
    let p := repaired now p in
    let attempts := p_RepairAttempts p in
    (s |> set_pending id p
       |> emitEvent (repair_action attempts (p_Status p)).1 (p_DecisionID p) (p_RunID p) (p_StepID p)
            [("repair_attempts", GInt attempts);
             ("worker_id", GStr (dc_PendingRepairWorkerID (s_cfg s)))] now,
     count_repair attempts r)
  else (s, r).

Definition RepairPendingDecisions (s : Service) (now : time) : Service * PendingRepairResult :=
  go_range (repair_visit now) (s, mk_PendingRepairResult 0 0 0 0 []) (s_pending s).

(** ** Lookups *)

Definition GetDecision (s : Service) (id : string) : option StoredDecision := s_decisions s !! id.

Definition GetDecisionHistory (s : Service) (id : string) : option (list StoredDecision) :=
  match s_decisionHistory s !! id with None | Some [] => None | Some h => Some h end.

Definition GetDecisionVersion (s : Service) (id : string) : option Z := d_Version <$> s_decisions s !! id.

Definition GetDecisionByVersion (s : Service) (id : string) (version : Z) : option StoredDecision :=
  List.find (fun d => d_Version d =? version) (default [] (s_decisionHistory s !! id)).

Definition IsDecisionConfirmedWithOwner (s : Service) (id runID stepID : string) (attempt : Z)
    (phase : string) : bool :=
  match s_pending s !! id with
  | None => false
  | Some p =>
    let phase := upper_trim phase in
    if negb (p_RunID p =? runID)%string || negb (p_StepID p =? stepID)%string then false
    else if negb (p_Status p =? pendingStatusConfirmed)%string then false
    else if (0 <? p_AttemptIndex p) && (0 <? attempt) && negb (p_AttemptIndex p =? attempt) then false
    else if negb (p_Phase p =? "")%string && negb (phase =? "")%string
            && negb (p_Phase p =? phase)%string then false
    else if negb (p_OwnerKey p =? "")%string then
      if (attempt <=? 0) && (phase =? "")%string then false
      else (buildPendingOwnerKey runID stepID attempt phase =? p_OwnerKey p)%string
    else true
  end.

Definition IsDecisionConfirmed (s : Service) (id runID stepID : string) : bool :=
  IsDecisionConfirmedWithOwner s id runID stepID 0 "".

(** The hash reference of a record: its value is the record's hash, and a
    fallback is never valid. *)
Definition effective_ref (d : StoredDecision) : DecisionHashRef :=
  if d_DecisionHashIsFallback d
  then mk_DecisionHashRef (d_DecisionHash d) false DecisionHashKindFallback
  else mk_DecisionHashRef (d_DecisionHash d) (hr_Valid (d_DecisionHashRef d)) (hr_Kind (d_DecisionHashRef d)).

(** The same with a kind for records that have none. *)
Definition resolved_ref (d : StoredDecision) : DecisionHashRef :=
  let ref := effective_ref d in
  if blank (hr_Kind ref) then
    if d_DecisionHashIsFallback d then mk_DecisionHashRef (hr_Value ref) false DecisionHashKindFallback
    else if negb (blank (hr_Value ref)) && negb (isErrorHash (hr_Value ref))
         then mk_DecisionHashRef (hr_Value ref) true DecisionHashKindStable
    else mk_DecisionHashRef (hr_Value ref) false DecisionHashKindError
  else ref.

Definition stable_ref (ref : DecisionHashRef) : bool :=
  hr_Valid ref && (hr_Kind ref =? DecisionHashKindStable)%string
  && negb (blank (hr_Value ref)) && negb (isErrorHash (hr_Value ref)).

Definition GetDecisionHash (s : Service) (id : string) : option string :=
  match s_decisions s !! id with
  | None => None
  | Some d => let ref := resolved_ref d in
              if stable_ref ref then Some (hr_Value ref) else None
  end.

Definition GetDecisionReference (s : Service) (id : string) : option DecisionReference :=
  match s_decisions s !! id with
  | None => None
  | Some d =>
    let decision := extractStringFieldFromMap (d_Response d) "decision" in
    let decision := if (decision =? "")%string
                    then extractStringFieldFromMap (d_Response d) "final_decision" else decision in
    Some (mk_DecisionReference (d_DecisionID d) (d_RunID d) (d_StepID d) (d_AttemptIndex d)
            (d_Phase d) decision (extractObligationsFromMap (d_Response d)) (resolved_ref d))
  end.

(** ** The side-effect gates *)

Definition CanExecuteSideEffect (s : Service) (id : string) : bool :=
  match s_pending s !! id with
  | None => false
  | Some p =>
    if negb (p_Status p =? pendingStatusConfirmed)%string then false
    else match s_decisions s !! id with
         | None => false
         | Some d =>
           if negb (stable_ref (effective_ref d)) then false
           else one_of (lower_trim (extractStringFieldFromMap (d_Response d) "decision"))
                  [DecisionAllow; DecisionRequireApproval]
         end
  end.

(** [runPort] is [RunStatePort.GetRunState]; [None] is a port not configured. *)
Definition CanExecuteSideEffectFinal (s : Service)
    (runPort : option (string -> option RunStateReference)) (q : SideEffectGateRequest) (now : time)
    : bool * list string :=
  if negb (CanExecuteSideEffect s (gq_DecisionID q)) then
    (false, ["decision_not_confirmed_or_not_executable"])
  else match runPort with
       | None => (false, ["run_state_port_not_configured"])
       | Some port =>
         match port (gq_RunID q) with
         | None => (false, ["run_not_found"])
         | Some ref =>
           if negb (upper_trim (rst_State ref) =? "RUNNING")%string then
             (false, ["run_state_not_running"])
           else
             let '(ok, reasons) := ValidateExecutionReceiptForRun s (gq_RunID q) (gq_StepID q)
               (gq_TenantID q) (gq_ExecutionReceiptRef q) (gq_ExecutionUsedResources q)
               (gq_ExecutionReceiptAt q) now in
             if negb ok then (false, reasons) else (true, [])
         end
       end.

(** ** Outbox and cleanup *)

Definition Outbox (s : Service) : list Event := s_outbox s.

Definition DrainOutbox (s : Service) (limit : Z) : Service * list Event :=
  let n := Z.of_nat (length (s_outbox s)) in
  if (limit <=? 0) || (n =? 0) then (s, [])
  else
    let limit := Z.to_nat (if n <? limit then n else limit) in
    (s_set_outbox (drop limit (s_outbox s)) s, take limit (s_outbox s)).

Definition resolveCleanupNow (s : Service) (now : time) : time :=
  if negb (lower_trim (dc_CleanupTimeSource (s_cfg s)) =? cleanupTimeSourceEventTime)%string then now
  else if IsZero (s_maxObservedEventTS s) then now
  else s_maxObservedEventTS s.

Definition terminal_pending (status : string) : bool :=
  one_of status [pendingStatusConfirmed; pendingStatusSafeguardHold; pendingStatusEscalatedOncall;
                 pendingStatusManuallyClosed].

Definition pending_expired (cfg : Config) (now : time) (p : PendingDecision) : bool :=
  negb (p_Status p =? pendingStatusPending)%string && terminal_pending (p_Status p)
  && After now (Add (p_LastUpdatedAt p) (dc_PendingRetention cfg)).
Definition soft_expired (cfg : Config) (now : time) (st : softFailureState) : bool :=
  IsZero (sf_LastUpdatedAt st) || After now (Add (sf_LastUpdatedAt st) (dc_PendingRetention cfg)).
Definition decision_expired (cfg : Config) (now : time) (d : StoredDecision) : bool :=
  After now (Add (d_CreatedAt d) (dc_DecisionRetention cfg)).
Definition ticket_expired (cfg : Config) (now : time) (t : DispatchTicket) : bool :=
  After now (Add (t_ExpiresAt t) (dc_TicketRetention cfg)).
Definition approval_expired (cfg : Config) (now : time) (a : ApprovalCase) : bool :=
  negb (ac_Status a =? "awaiting_approval")%string
  && After now (Add (ac_ApprovalHardTimeout a) (dc_ApprovalRetention cfg)).

(** [for id, x := range m { if expired(x) { delete(m, id); n++ } }]; an entry
    that stays is written back as it is. *)
Definition purge {V} (expired : V -> bool) (m : gmap string V) : gmap string V * Z :=
  range_cleanup (fun _ v => if expired v then None else Some v) m.

Definition CleanupExpired (s : Service) (now : time) : Service * CleanupResult :=
  let cfg := s_cfg s in
  let cleanupNow := resolveCleanupNow s now in
  let '(pending, nPending) := purge (pending_expired cfg cleanupNow) (s_pending s) in
  let '(soft, nSoft) := purge (soft_expired cfg cleanupNow) (s_softFailures s) in
  let '(decisions, history, nDecisions) :=
    go_range (fun '(m, h, n) k d => if decision_expired cfg cleanupNow d
                                    then (delete k m, delete k h, n + 1) else (m, h, n))
      (s_decisions s, s_decisionHistory s, 0) (s_decisions s) in
  let '(tickets, nTickets) := purge (ticket_expired cfg cleanupNow) (s_tickets s) in
  let '(approvals, nApprovals) := purge (approval_expired cfg cleanupNow) (s_approvals s) in
  let s := s |> s_set_pending pending |> s_set_softFailures soft |> s_set_decisions decisions
             |> s_set_decisionHistory history |> s_set_tickets tickets
             |> s_set_approvals approvals in
  let '(s, trimmed) := trimOutboxLocked cleanupNow s in
  (s, mk_CleanupResult nTickets nPending nApprovals nDecisions nSoft trimmed).

(** ** Metrics *)

(** [Duration.Seconds()]: whole seconds plus the fraction, truncated towards zero. *)
Definition Seconds (d : duration) : float64 :=
  fadd (float_of_Z (Z.quot d Second)) (fdiv (float_of_Z (Z.rem d Second)) (float_of_Z (10 ^ 9))).

Definition sort_Float64s (l : list float64) : list float64 := sort_Slice fltb l.

(** [int(0.95 * float64(n-1))]. *)
Definition p95_index (n : nat) : nat :=
  Z.to_nat (int_of_float (fmul (float_of_ratio 95 100) (float_of_Z (Z.of_nat n - 1)))).

Definition p95 (l : list float64) : float64 := nth (p95_index (length l)) (sort_Float64s l) fzero.

(** Total and idle age: seconds and ratio to the time to live. *)
Definition pendingDecisionAgeQuantiles (s : Service) (now : time)
    : float64 * float64 * float64 * float64 :=
  let ttl := Seconds (dc_PendingDecisionTTL (s_cfg s)) in
  let open := List.filter (fun p => negb (p_Status p =? pendingStatusConfirmed)%string)
                (range_map (s_pending s)).*2 in
  match open with
  | [] => (fzero, fzero, fzero, fzero)
  | _ =>
    if fleb ttl fzero then (fzero, fzero, fzero, fzero)
    else
      let total := p95 (map (fun p => Seconds (Sub now (p_CreatedAt p))) open) in
      let idle := p95 (map (fun p => Seconds (Sub now (p_LastUpdatedAt p))) open) in
      (total, fdiv total ttl, idle, fdiv idle ttl)
  end.

Definition pendingDecisionAgeP95Ratio (s : Service) (now : time) : float64 :=
  (pendingDecisionAgeQuantiles s now).2.

Definition percent (a b : float64) : float64 := fmul (fdiv a b) (float_of_Z 100).

Definition MetricsSnapshot (s : Service) (now : time) : DecTypes.MetricsSnapshot :=
  let c k := default fzero (s_counters s !! k) in
  let '(totalSec, totalRatio, idleSec, idleRatio) := pendingDecisionAgeQuantiles s now in
  let rates :=
    (if fltb fzero (c "runtime_eval_total")
     then [("decision_dcu_exceeded_rate", percent (c "decision_dcu_exceeded_total") (c "runtime_eval_total"));
           ("feature_stale_rate", percent (c "feature_stale_total") (c "runtime_eval_total"))] else [])
    ++ (if fltb fzero (c "freeze_whitelist_checks_total")
        then [("freeze_whitelist_coverage_rate",
               percent (c "freeze_whitelist_pass_total") (c "freeze_whitelist_checks_total"))] else []) in
  let rates : gmap string float64 := list_to_map rates in
  let ratios : gmap string float64 := list_to_map
    [("pending_decision_total_age_p95_ratio", totalRatio);
     ("pending_decision_idle_age_p95_ratio", idleRatio); ("pending_decision_age_p95", idleRatio)] in
  let quantiles : gmap string float64 := list_to_map
    [("pending_decision_total_age_p95_seconds", totalSec);
     ("pending_decision_idle_age_p95_seconds", idleSec)] in
  let value m := match rates !! m, ratios !! m, quantiles !! m with
                 | Some v, _, _ | None, Some v, _ | None, None, Some v => Some v
                 | None, None, None => None
                 end in
  mk_MetricsSnapshot
    (<["outbox_trimmed_total" := float_of_Z (s_outboxTrimmedTotal s)]> (s_counters s))
    rates ratios quantiles
    (map_imap (fun m th => Some (evaluateEnforcement (default fzero (value m))
       (match value m with Some _ => true | None => false end) th)) (dc_MetricMatrix (s_cfg s))).
End Pending.
