(* ===== verification/DecApproval.v ===== *)
(** * Approval cases ([CreateApprovalCase], [DecideApprovalCase],
    [SweepApprovalHardTimeouts] of [internal/decision/service.go])

    An approved, denied or timed-out case changes the pending decision it is
    about, then asks the Run side to resume through [ApprovalRunUnlockPort].
    The port is not code of this package and may change state of its own: it is
    a function of an environment [Env], threaded through the calls. *)

From S2P Require Import Prelude GoStrings Sha256 GoTime GoJson DecTypes DecJson DecPolicy.
From S2P Require Import DecContracts DecKernel DecPending.

Definition approvalCaseMutable (status : string) : bool :=
  EqualFold (TrimSpace status) "awaiting_approval".

Definition approvalOutcomeToPendingStatus (outcome : string) : string :=
  let o := lower_trim outcome in
  if (o =? "approved")%string then pendingStatusConfirmed
  else if (o =? "force_review_queue")%string then pendingStatusSafeguardHold
  else if one_of o ["denied"; "auto_deny"; "fail_closed"] then pendingStatusManuallyClosed
  else "".

Definition approvalOutcomeRequiresRunUnlockSignal (outcome : string) : bool :=
  one_of (lower_trim outcome) ["approved"; "denied"; "auto_deny"; "force_review_queue"; "fail_closed"].

Definition approvalEffectiveLatencyBase (c : ApprovalCase) : time :=
  if negb (IsZero (ac_DecisionRequestedAt c)) then ac_DecisionRequestedAt c else ac_CreatedAt c.

(** [d.Milliseconds()]. *)
Definition Milliseconds (d : duration) : Z := Z.quot d 1000000.

(** The port: an error is its text; [Env] is the state it acts on. *)
Definition UnlockPort (Env : Type) : Type :=
  ApprovalRunUnlockSignal -> Env -> Env * result string ApprovalRunUnlockDispatchResult.

Definition set_approval (c : ApprovalCase) (s : Service) : Service :=
  s_set_approvals (<[ac_CaseID c := c]> (s_approvals s)) s.

Section Approval.
Context `{MapRange} `{JsonMarshaler}.

(** ** Creation *)

Definition approval_case_id (q : ApprovalCreateRequest) (seq : Z) : string :=
  Join ["apc_"; fallbackIDFromStrings [aq_RunID q; aq_StepID q; aq_DecisionID q; aq_Mode q]; "_";
        fmt_d seq] "".

Definition CreateApprovalCase (s : Service) (q : ApprovalCreateRequest) (now : time)
    : Service * ApprovalCase :=
  let requestedAt := match s_decisions s !! aq_DecisionID q with
                     | Some d => d_CreatedAt d   (* zero when the record has no time *)
                     | None => 0
                     end in
  let risk := lower_trim (aq_RiskTier q) in
  let timeout := pos_or (default 0 (dc_ApprovalHardTimeoutByRisk (s_cfg s) !! risk)) (30 * Minute) in
  let seq := wrap_uint64 (s_idSeq s + 1) in
  let c := {|
    ac_CaseID := approval_case_id q seq;
    ac_RunID := aq_RunID q;
    ac_StepID := aq_StepID q;
    ac_DecisionID := aq_DecisionID q;
    ac_DecisionRequestedAt := requestedAt;
    ac_RiskTier := risk;
    ac_Status := "awaiting_approval";
    ac_CreatedAt := now;
    ac_ApprovalHardTimeout := Add now timeout;
    ac_Mode := aq_Mode q;
    ac_ResolvedAt := 0;
    ac_TerminalReason := "" |} in
  (s |> s_set_idSeq seq |> set_approval c
     |> emitEvent "approval.case.created" (aq_DecisionID q) (aq_RunID q) (aq_StepID q)
          [("case_id", GStr (ac_CaseID c)); ("risk", GStr risk); ("mode", GStr (aq_Mode q))] now, c).

(** ** The outcome on the pending decision *)

Definition unlock_signal (c : ApprovalCase) (p : PendingDecision) (status : string)
    : ApprovalRunUnlockSignal := {|
  ug_CaseID := ac_CaseID c;
  ug_RunID := ac_RunID c;
  ug_StepID := ac_StepID c;
  ug_DecisionID := ac_DecisionID c;
  ug_RiskTier := ac_RiskTier c;
  ug_Outcome := ac_Status c;
  ug_PendingStatus := status;
  ug_AttemptIndex := p_AttemptIndex p;
  ug_Phase := p_Phase p;
  ug_OwnerKey := p_OwnerKey p;
  ug_RequestedAt := ac_CreatedAt c;
  ug_ResolvedAt := ac_ResolvedAt c |}.

Definition applyApprovalOutcomeToPending (c : ApprovalCase) (now : time) (s : Service)
    : Service * (string * list string * option ApprovalRunUnlockSignal) :=
  let target := approvalOutcomeToPendingStatus (ac_Status c) in
  let id := ac_DecisionID c in
  if (target =? "")%string then (s, ("", ["approval_outcome_not_mapped"], None))
  else match s_pending s !! id with
       | None => (s, ("", ["pending_decision_not_found"], None))
       | Some p =>
         if negb (p_RunID p =? ac_RunID c)%string || negb (p_StepID p =? ac_StepID c)%string then
           (s, (p_Status p, ["pending_decision_mismatch"], None))
         else if negb (p_Status p =? pendingStatusPending)%string then
           (s, (p_Status p, ["pending_decision_terminal_state_immutable"], None))
         else
           let p := with_status target now p in
           let outcome := [("approval_case_id", GStr (ac_CaseID c));
                           ("approval_outcome", GStr (ac_Status c))] in
           let s := set_pending id p s in
           let s := if (target =? pendingStatusConfirmed)%string
             then emitEvent "decision_confirmed" id (ac_RunID c) (ac_StepID c) outcome now s
             else emitEvent "approval.pending.updated" id (ac_RunID c) (ac_StepID c)
                    (outcome ++ [("pending_status", GStr target)]) now s in
           (s, (target, [],
                if approvalOutcomeRequiresRunUnlockSignal (ac_Status c)
                then Some (unlock_signal c p target) else None))
       end.

(** ** The dispatch to the Run side *)

Definition no_dispatch (status : string) : ApprovalRunUnlockDispatchResult :=
  mk_ApprovalRunUnlockDispatchResult status false 0 [].

Definition dispatch_kvs (g : ApprovalRunUnlockSignal) (status : string) : list (string * gval) :=
  [("case_id", GStr (ug_CaseID g)); ("outcome", GStr (ug_Outcome g));
   ("pending_status", GStr (ug_PendingStatus g)); ("dispatch_status", GStr status)].

Section Dispatch.
Context {Env : Type}.
Implicit Types (port : option (UnlockPort Env)) (env : Env).

Definition dispatchApprovalRunUnlock port (g : ApprovalRunUnlockSignal) (now : time) (s : Service) env
    : Service * Env * (string * list string * ApprovalRunUnlockDispatchResult) :=
  let event kvs := emitEvent "approval.run_unlock.dispatch" (ug_DecisionID g) (ug_RunID g)
                     (ug_StepID g) kvs now in
  match port with
  | None =>
    (event (dispatch_kvs g "not_configured") s, env,
     ("not_configured", ["approval_run_unlock_not_configured"], no_dispatch "not_configured"))
  | Some port =>
    match port g env with
    | (env, Err err) =>
      (event (dispatch_kvs g "dispatch_failed" ++ [("error", GStr err)]) s, env,
       ("dispatch_failed", ["approval_run_unlock_dispatch_failed"], no_dispatch "dispatch_failed"))
    | (env, Ok res) =>
      let res := if blank (ur_DispatchStatus res) then ur_set_DispatchStatus "dispatched" res else res in
      (event (dispatch_kvs g (ur_DispatchStatus res) ++
         [("unblocked", GBool (ur_BusinessActionUnblocked res));
          ("unblocked_at", GTime (ur_BusinessActionUnblockedAt res));
          ("reason_codes", nilable (ur_ReasonCodes res))]) s, env,
       (ur_DispatchStatus res, [], res))
    end
  end.

(** An approval whose dispatch did not succeed takes its confirmation back. *)
Definition enforceApprovalUnlockFailureGuard (c : ApprovalCase) (runUnlockStatus : string)
    (now : time) (s : Service) : Service * (string * list string) :=
  let id := ac_DecisionID c in
  match s_pending s !! id with
  | None => (s, ("", ["approval_unlock_failed_pending_not_found"]))
  | Some p =>
    if negb (p_RunID p =? ac_RunID c)%string || negb (p_StepID p =? ac_StepID c)%string then
      (s, (p_Status p, ["approval_unlock_failed_pending_mismatch"]))
    else if negb (p_Status p =? pendingStatusConfirmed)%string then
      (s, (p_Status p, ["approval_unlock_failed_pending_not_confirmed"]))
    else
      let p := with_status pendingStatusSafeguardHold now p in
      (s |> set_pending id p
         |> emitEvent "approval.pending.updated" id (ac_RunID c) (ac_StepID c)
              [("approval_case_id", GStr (ac_CaseID c)); ("approval_outcome", GStr (ac_Status c));
               ("pending_status", GStr (p_Status p));
               ("reason", GStr "approval_run_unlock_dispatch_failed");
               ("run_unlock_status", GStr runUnlockStatus)] now,
       (p_Status p, ["approval_unlock_failed_enter_safeguard_hold"]))
  end.

(** What both callers do with a case that was just resolved. *)
Record outcome_effect := mk_outcome_effect {
  oe_pendingStatus : string;
  oe_runUnlockStatus : string;
  oe_reasons : list string;
  oe_unblockedAt : time;
  oe_latencyMS : Z
}.

Definition settle_outcome port (c : ApprovalCase) (now : time) (s : Service) env
    : Service * Env * outcome_effect :=
  let '(s, (pendingStatus, pendingReasons, signal)) := applyApprovalOutcomeToPending c now s in
  let '(s, env, (unlockStatus, unlockReasons, unblockedAt)) :=
    match signal with
    | None => (s, env, ("not_required", [], 0))
    | Some g =>
      let '(s, env, (status, reasons, res)) := dispatchApprovalRunUnlock port g now s env in
      (s, env, (status, reasons ++ ur_ReasonCodes res,
                if ur_BusinessActionUnblocked res && negb (IsZero (ur_BusinessActionUnblockedAt res))
                then ur_BusinessActionUnblockedAt res else 0))
    end in
  let '(s, (pendingStatus, guardReasons)) :=
    if EqualFold (ac_Status c) "approved" && negb (unlockStatus =? "dispatched")%string
    then enforceApprovalUnlockFailureGuard c unlockStatus now s
    else (s, (pendingStatus, [])) in
  (s, env,
   {| oe_pendingStatus := pendingStatus;
      oe_runUnlockStatus := unlockStatus;
      oe_reasons := pendingReasons ++ unlockReasons ++ guardReasons;
      oe_unblockedAt := unblockedAt;
      oe_latencyMS := if IsZero unblockedAt then 0
                      else Milliseconds (Sub unblockedAt (approvalEffectiveLatencyBase c)) |}).

(** ** Decision by hand *)

Definition decision_status (decision : string) : option string :=
  let d := lower_trim decision in
  if (d =? "approve")%string then Some "approved"
  else if (d =? "deny")%string then Some "denied"
  else None.

Definition resolve_case (status reason : string) (now : time) (c : ApprovalCase) : ApprovalCase :=
  c |> ac_set_Status status |> ac_set_ResolvedAt now |> ac_set_TerminalReason reason.

Definition DecideApprovalCase port (s : Service) env (caseID : string) (q : ApprovalDecisionRequest)
    (now : time) : Service * Env * ApprovalDecisionResponse :=
  let refuse status code := mk_ApprovalDecisionResponse caseID status "" "" 0 [code] in
  match decision_status (adq_Decision q) with
  | None => (s, env, refuse "" "invalid_approval_decision")
  | Some next =>
    match s_approvals s !! caseID with
    | None => (s, env, refuse "not_found" "approval_case_not_found")
    | Some c =>
      if negb (approvalCaseMutable (ac_Status c)) then
        (s, env, refuse (ac_Status c) "approval_case_terminal_immutable")
      else
        let c := resolve_case next "manual_decision" now c in
        let s := s_set_approvals (<[caseID := c]> (s_approvals s)) s in
        let '(s, env, oe) := settle_outcome port c now s env in
        (emitEvent "approval.case.decided" (ac_DecisionID c) (ac_RunID c) (ac_StepID c)
           [("case_id", GStr caseID); ("status", GStr (ac_Status c));
            ("pending_status", GStr (oe_pendingStatus oe));
            ("run_unlock_status", GStr (oe_runUnlockStatus oe));
            ("approval_effective_latency_ms", GInt (oe_latencyMS oe));
            ("business_action_unblocked_ts", GTime (oe_unblockedAt oe))] now s, env,
         mk_ApprovalDecisionResponse caseID (ac_Status c) (oe_pendingStatus oe)
           (oe_runUnlockStatus oe) (oe_latencyMS oe) (oe_reasons oe))
    end
  end.

(** ** Hard timeouts *)

Definition timeout_status (risk : string) : string :=
  if (risk =? RiskLow)%string then "auto_deny"
  else if (risk =? RiskMedium)%string then "force_review_queue"
  else "fail_closed".

Definition timed_out (now : time) (c : ApprovalCase) : bool :=
  (ac_Status c =? "awaiting_approval")%string && negb (Before now (ac_ApprovalHardTimeout c)).

Definition time_out (now : time) (c : ApprovalCase) : ApprovalCase :=
  resolve_case (timeout_status (ac_RiskTier c)) "hard_timeout" now c.

(** The loop under the approval lock: cases updated, and those that timed out. *)
Definition timeout_visit (now : time) (st : gmap string ApprovalCase * list ApprovalCase)
    (id : string) (c : ApprovalCase) : gmap string ApprovalCase * list ApprovalCase :=
  if timed_out now c then (<[id := time_out now c]> st.1, st.2 ++ [time_out now c]) else st.

Definition settle_timeout port (now : time) (st : Service * Env) (c : ApprovalCase) : Service * Env :=
  let '(s, env, oe) := settle_outcome port c now st.1 st.2 in
  (emitEvent "approval_hard_timeout_event" (ac_DecisionID c) (ac_RunID c) (ac_StepID c)
     [("case_id", GStr (ac_CaseID c)); ("new_status", GStr (ac_Status c));
      ("risk_tier", GStr (ac_RiskTier c)); ("pending_status", GStr (oe_pendingStatus oe));
      ("run_unlock_status", GStr (oe_runUnlockStatus oe)); ("reason_codes", GStrs (oe_reasons oe));
      ("approval_effective_latency_ms", GInt (oe_latencyMS oe));
      ("business_action_unblocked_ts", GTime (oe_unblockedAt oe))] now s, env).

Definition SweepApprovalHardTimeouts port (s : Service) env (now : time) : Service * Env * Z :=
  let '(approvals, timedOut) := go_range (timeout_visit now) (s_approvals s, []) (s_approvals s) in
  let '(s, env) := foldl (settle_timeout port now) (s_set_approvals approvals s, env) timedOut in
  (s, env, Z.of_nat (length timedOut)).
End Dispatch.
End Approval.
