(* ===== verification/DecFrame.v ===== *)
(** * What the operations of the Decision service leave alone

    [quiet] relates two states that differ only in the outbox and the counters:
    every event and every counter is quiet.  The lemmas below give, for each
    shared operation, the maps it changes and the maps it does not.

    Then the keys under which caches and tables are stored. *)

From Stdlib Require Import Ascii.
From S2P Require Import Prelude GoStrings GoTime GoJson DecTypes DecJson DecPolicy DecContracts.
From S2P Require Import DecKernel DecRuntime DecAdmission DecPending DecApproval.

(** ** Sorting *)

Lemma insert_left_perm {A} (less : A -> A -> bool) x l : insert_left less x l ≡ₚ x :: l.
Proof.
  induction l as [|y l IH]; [done|]. simpl. case_match; [|done]. rewrite IH. apply perm_swap.
Qed.

Lemma sort_Slice_perm {A} (less : A -> A -> bool) (l : list A) : sort_Slice less l ≡ₚ l.
Proof.
  unfold sort_Slice. rewrite <- Permutation_rev.
  enough (H : forall acc, foldl (fun acc x => insert_left less x acc) acc l ≡ₚ l ++ acc).
  { by rewrite H, app_nil_r. }
  induction l as [|x l IH]; intros acc; simpl; [done|].
  rewrite IH, insert_left_perm. by rewrite Permutation_middle.
Qed.

(** ** Frames *)

(** What every event of the outbox has. *)
Definition event_shape (e : Event) : Prop :=
  e_SourceComponent e = "decision_kernel" /\ exists n, e_EventID e = String.append "evt_dec_seq_" (fmt_d n).

Definition outbox_ok (s : Service) : Prop :=
  Z.of_nat (length (s_outbox s)) <= Z.max 0 (dc_OutboxMaxEvents (s_cfg s)) /\
  Forall event_shape (s_outbox s).

(** The part of the state that outlives the outbox. *)
Record kept (s s' : Service) : Prop := mk_kept {
  qt_cfg : s_cfg s' = s_cfg s;
  qt_decisions : s_decisions s' = s_decisions s;
  qt_history : s_decisionHistory s' = s_decisionHistory s;
  qt_pending : s_pending s' = s_pending s;
  qt_tickets : s_tickets s' = s_tickets s;
  qt_approvals : s_approvals s' = s_approvals s;
  qt_soft : s_softFailures s' = s_softFailures s;
  qt_scoped : s_featureSignalContractsScoped s' = s_featureSignalContractsScoped s;
  qt_versions : s_featureSignalContractHistory s' = s_featureSignalContractHistory s;
  qt_meta : s_featureSignalContractMeta s' = s_featureSignalContractMeta s;
  qt_rollbacks : s_featureSignalContractRollbacks s' = s_featureSignalContractRollbacks s;
  qt_scheduled : s_featureSignalContractScheduled s' = s_featureSignalContractScheduled s;
  qt_store : s_storeVersion s' = s_storeVersion s;
  qt_id : s_idSeq s' = s_idSeq s
}.
Definition quiet (s s' : Service) : Prop := kept s s' /\ (outbox_ok s -> outbox_ok s').

#[export] Instance kept_preorder : PreOrder kept.
Proof.
  split.
  - by intros s; split.
  - intros s1 s2 s3 [] []; split; congruence.
Qed.

#[export] Instance quiet_preorder : PreOrder quiet.
Proof.
  split.
  - by intros s.
  - intros s1 s2 s3 [] []; split; [by etransitivity|auto].
Qed.

Lemma trimOutbox_ok now s : Forall event_shape (s_outbox s) -> outbox_ok (trimOutboxLocked now s).1.
Proof.
  intros Hf. unfold outbox_ok, trimOutboxLocked; cbv zeta. cbn [fst].
  assert (Ho : Forall event_shape (drop (if 0 <? dc_OutboxRetention (s_cfg s)
    then prefix_len (outbox_expired (s_cfg s) now) (s_outbox s) else 0%nat) (s_outbox s)))
    by (by apply Forall_drop).
  set (o := drop _ (s_outbox s)) in *.
  apply (Forall_drop _ (if 0 <? Z.of_nat (length o) - dc_OutboxMaxEvents (s_cfg s)
    then Z.to_nat (Z.of_nat (length o) - dc_OutboxMaxEvents (s_cfg s)) else 0%nat)) in Ho.
  assert (Z.of_nat (length (drop (if 0 <? Z.of_nat (length o) - dc_OutboxMaxEvents (s_cfg s)
    then Z.to_nat (Z.of_nat (length o) - dc_OutboxMaxEvents (s_cfg s)) else 0%nat) o))
    <= Z.max 0 (dc_OutboxMaxEvents (s_cfg s))).
  { rewrite length_drop. case_match; bool_hyps; lia. }
  match goal with |- context [if ?b then s_set_outboxTrimmedTotal _ _ else _] => destruct b end; done.
Qed.

Lemma trimOutbox_kept now s : kept s (trimOutboxLocked now s).1.
Proof. unfold trimOutboxLocked; cbv zeta. cbn [fst]. case_match; by split. Qed.

Lemma trimOutbox_quiet now s : quiet s (trimOutboxLocked now s).1.
Proof. split; [apply trimOutbox_kept|intros [_ Hf]; by apply trimOutbox_ok]. Qed.

Lemma add_counter_quiet k s : quiet s (add_counter k s).
Proof. by split. Qed.

Lemma count_freeze_quiet q s : quiet s (count_freeze q s).
Proof. unfold count_freeze. repeat case_match; by split. Qed.

Section Emit.
Context `{JsonMarshaler}.

Lemma emitEvent_quiet ty d r st kvs at_ s : quiet s (emitEvent ty d r st kvs at_ s).
Proof.
  unfold emitEvent. cbv zeta. destruct (decisionEventEvidencePolicy ty) as [g i].
  assert (forall e, event_shape e -> Forall event_shape (s_outbox s) -> Forall event_shape (s_outbox s ++ [e]))
    as Hs by (intros e He Hf; apply Forall_app; split; [done|by constructor]).
  destruct (safeHash _) as [h|];
    (split; [etransitivity; [|apply trimOutbox_kept]; destruct (After _ _); by split
            |intros [_ Hf]; apply trimOutbox_ok; destruct (After _ _); (apply Hs; [|done]); split; eauto]).
Qed.

Lemma stale_service_quiet q r now s : quiet s (stale_service q r now s).
Proof.
  unfold stale_service; cbv zeta. case_match; [|reflexivity].
  etransitivity; [apply add_counter_quiet|apply emitEvent_quiet].
Qed.

Lemma contract_event_quiet q r kvs now s : quiet s (contract_event q r kvs now s).
Proof. apply emitEvent_quiet. Qed.

(** The state a verdict carries. *)
Definition verdict_state (v : verdict) : Service :=
  match v with Final s _ | Guarded s _ => s end.
Definition verdict_response (v : verdict) : RuntimeDecisionResponse :=
  match v with Final _ r | Guarded _ r => r end.

Definition gate_quiet (s : Service) (v : option verdict) : Prop :=
  match v with Some v => quiet s (verdict_state v) | None => True end.

Lemma or_else_quiet s v k : gate_quiet s v -> quiet s (verdict_state k) ->
  quiet s (verdict_state (or_else v k)).
Proof. by destruct v. Qed.

Ltac gate := unfold gate_quiet; repeat case_match; simplify_eq; cbn [verdict_state];
  auto using contract_event_quiet, emitEvent_quiet; try reflexivity;
  try (etransitivity; [apply add_counter_quiet|]; try apply emitEvent_quiet; reflexivity).

Lemma input_gate_quiet q now s r : gate_quiet s (input_gate q now s r).
Proof. unfold input_gate. gate. Qed.
Lemma pin_gate_quiet b f q now s r : gate_quiet s (pin_gate b f q now s r).
Proof. unfold pin_gate; cbv zeta. gate. Qed.
Lemma missing_gate_quiet c b q now s r : gate_quiet s (missing_gate c b q now s r).
Proof. unfold missing_gate; cbv zeta. gate. Qed.
Lemma trust_gate_quiet c b q now s r : gate_quiet s (trust_gate c b q now s r).
Proof. unfold trust_gate; cbv zeta. gate. Qed.
Lemma dcu_profile_gate_quiet q now s r : gate_quiet s (dcu_profile_gate q now s r).
Proof. unfold dcu_profile_gate; cbv zeta. gate. Qed.
Lemma dcu_gate_quiet p q now s r : gate_quiet s (dcu_gate p q now s r).
Proof. unfold dcu_gate; cbv zeta. gate. Qed.
Lemma freeze_gate_quiet q now s r : gate_quiet s (freeze_gate q now s r).
Proof. unfold freeze_gate. gate. Qed.
Lemma stale_gate_quiet q now s r : gate_quiet s (stale_gate q now s r).
Proof. unfold stale_gate; cbv zeta. gate. Qed.
Lemma drift_gate_quiet q now s r : gate_quiet s (drift_gate q now s r).
Proof. unfold drift_gate. gate. Qed.
Lemma engine_gate_quiet q now s r : gate_quiet s (engine_gate q now s r).
Proof. unfold engine_gate. gate. Qed.
Lemma approval_gate_quiet q now s r : gate_quiet s (approval_gate q now s r).
Proof. unfold approval_gate. gate. Qed.

Lemma gate_quiet_r s s' v : quiet s s' -> gate_quiet s' v -> gate_quiet s v.
Proof. destruct v; [|done]. cbn. intros. by etransitivity. Qed.

Lemma budget_gates_quiet p q now s r : quiet s (verdict_state (budget_gates p q now s r)).
Proof.
  unfold budget_gates; cbv zeta.
  apply or_else_quiet; [apply dcu_gate_quiet|].
  pose proof (count_freeze_quiet q s) as Q1. set (s1 := count_freeze q s) in *.
  apply or_else_quiet; [eapply gate_quiet_r; [done|apply freeze_gate_quiet]|].
  set (s2 := stale_service _ _ _ _).
  assert (Q2 : quiet s s2) by (etransitivity; [done|apply stale_service_quiet]).
  repeat (apply or_else_quiet; [eapply gate_quiet_r; [done|]|]); [..|done];
    auto using stale_gate_quiet, drift_gate_quiet, engine_gate_quiet, approval_gate_quiet.
Qed.

Lemma evaluate_gates_quiet q now s r : quiet s (verdict_state (evaluate_gates q now s r)).
Proof.
  unfold evaluate_gates. apply or_else_quiet; [apply input_gate_quiet|].
  destruct (resolveFeatureSignalContractWithBinding _ _ _ _ _) as [[c b] f]. cbv zeta.
  apply or_else_quiet; [apply pin_gate_quiet|].
  apply or_else_quiet; [apply missing_gate_quiet|].
  apply or_else_quiet; [apply trust_gate_quiet|].
  apply or_else_quiet; [apply dcu_profile_gate_quiet|].
  case_match; [apply budget_gates_quiet|reflexivity].
Qed.

(** ** Identifiers only move the counter *)

(** States that differ in the outbox, the counters and the identifier counter. *)
Record calm (s s' : Service) : Prop := mk_calm {
  cm_cfg : s_cfg s' = s_cfg s;
  cm_decisions : s_decisions s' = s_decisions s;
  cm_history : s_decisionHistory s' = s_decisionHistory s;
  cm_pending : s_pending s' = s_pending s;
  cm_tickets : s_tickets s' = s_tickets s;
  cm_approvals : s_approvals s' = s_approvals s;
  cm_soft : s_softFailures s' = s_softFailures s;
  cm_scoped : s_featureSignalContractsScoped s' = s_featureSignalContractsScoped s;
  cm_versions : s_featureSignalContractHistory s' = s_featureSignalContractHistory s;
  cm_meta : s_featureSignalContractMeta s' = s_featureSignalContractMeta s;
  cm_rollbacks : s_featureSignalContractRollbacks s' = s_featureSignalContractRollbacks s;
  cm_scheduled : s_featureSignalContractScheduled s' = s_featureSignalContractScheduled s;
  cm_store : s_storeVersion s' = s_storeVersion s;
  cm_outbox : outbox_ok s -> outbox_ok s'
}.

#[export] Instance calm_preorder : PreOrder calm.
Proof.
  split.
  - by intros s; split.
  - intros s1 s2 s3 [] []; split; try congruence; auto.
Qed.

Lemma quiet_calm s s' : quiet s s' -> calm s s'.
Proof. intros [[] ?]; by split. Qed.

Lemma nextFallbackID_calm p s : calm s (nextFallbackID p s).1.
Proof. by split. Qed.

Lemma makeBestEffortID_calm p v s : calm s (makeBestEffortID p v s).1.
Proof. unfold makeBestEffortID. case_match; by split. Qed.

Lemma hash_or_fail_calm r s : calm s (hash_or_fail r s).1.
Proof. unfold hash_or_fail, nextFallbackID; cbv zeta. destruct (bad_hash _); [destruct (bad_hash _)|]; by split. Qed.
End Emit.

(** ** Loops over a map whose body writes the visited entry only *)

Lemma go_range_own {MR : MapRange} {V S} (f : string -> V -> option V) (look : S -> gmap string V)
    (P : S -> Prop) (body : S -> string -> V -> S) m s0 :
  look s0 = m -> P s0 ->
  (forall s k v, P s -> m !! k = Some v -> look s !! k = Some v ->
     P (body s k v) /\ forall i, look (body s k v) !! i = if decide (i = k) then f k v else look s !! i) ->
  P (go_range body s0 m) /\ forall i, look (go_range body s0 m) !! i = m !! i ≫= f i.
Proof.
  intros Hm HP Hb. unfold go_range.
  assert (Hl : forall l s, P s -> NoDup l.*1 ->
    (forall k v, (k, v) ∈ l -> m !! k = Some v /\ look s !! k = Some v) ->
    P (foldl (fun s kv => body s kv.1 kv.2) s l) /\
    forall i, look (foldl (fun s kv => body s kv.1 kv.2) s l) !! i =
      match list_to_map (M := gmap string V) l !! i with Some v => f i v | None => look s !! i end).
  { induction l as [|[k v] l IH]; intros s Ps Hnd Hin; simpl.
    { by split. }
    simpl in Hnd. apply NoDup_cons in Hnd as [Hk Hnd].
    destruct (Hin k v ltac:(by left)) as [Hmk Hlk]. destruct (Hb s k v Ps Hmk Hlk) as [Ps' Hs'].
    destruct (IH (body s k v) Ps' Hnd) as [H1 H2].
    { intros k' v' Hin'. destruct (Hin k' v' ltac:(by right)) as [? ?]. split; [done|].
      rewrite Hs', decide_False; [done|]. intros ->. apply Hk, list_elem_of_fmap. by exists (k, v'). }
    split; [done|]. intros i. rewrite H2, lookup_insert. destruct (decide (k = i)) as [->|Hne].
    - apply not_elem_of_list_to_map_1 in Hk. rewrite Hk, Hs'. by rewrite decide_True.
    - destruct (list_to_map l !! i); [done|]. rewrite Hs'. by rewrite decide_False by congruence. }
  destruct (Hl (range_map m) s0) as [H1 H2]; [done|apply range_map_nodup| |].
  { intros k v Hin. apply range_map_elem in Hin. by rewrite Hm. }
  split; [done|]. intros i. rewrite H2, list_to_map_range. rewrite Hm. by destruct (m !! i).
Qed.

#[export] Hint Resolve emitEvent_quiet add_counter_quiet trimOutbox_quiet quiet_calm
  nextFallbackID_calm makeBestEffortID_calm hash_or_fail_calm : dec.

(** * Owner keys and scope keys

    An owner key contains separators, so trimming never empties it: every
    pending decision has an owner. *)

#[local] Open Scope Z_scope.

Section Survives.
Context (c : ascii) (t2 : N -> N -> bool) (t3 : N -> N -> N -> bool).
Hypothesis Hc : is_ascii_space (code c) = false.
Hypothesis H2 : forall a b, t2 a b = true -> a <> code c /\ b <> code c.
Hypothesis H3 : forall a b d, t3 a b d = true -> a <> code c /\ b <> code c /\ d <> code c.

Lemma strip_gen_keeps l l' : strip_gen t2 t3 l = Some l' -> In c l -> In c l'.
Proof.
  intros E Hin. destruct l as [|x [|y [|z l]]]; unfold strip_gen in E; repeat split_match_in E; simpl in Hin;
    repeat match goal with
    | H : t2 _ _ = true |- _ => apply H2 in H as [? ?]
    | H : t3 _ _ _ = true |- _ => apply H3 in H as (? & ? & ?)
    end; intuition (subst; simpl in *; congruence || auto).
Qed.

Lemma strip_all_keeps fuel l : In c l -> In c (strip_all (strip_gen t2 t3) fuel l).
Proof.
  revert l. induction fuel as [|fuel IH]; intros l Hin; [done|]. simpl.
  destruct (strip_gen t2 t3 l) eqn:E; [|done]. by eapply IH, strip_gen_keeps.
Qed.
End Survives.

Lemma TrimSpace_keeps_bar s : In "|"%char (bytes s) -> In "|"%char (bytes (TrimSpace s)).
Proof.
  intros Hin. unfold TrimSpace. rewrite bytes_str. unfold trim_back, trim_front.
  apply -> in_rev. apply strip_all_keeps; [done| | |apply -> in_rev; apply strip_all_keeps; [done| | |done]].
  - intros a b. unfold is_space2. rewrite !andb_true_iff, !orb_true_iff, !N.eqb_eq.
    intros [-> [-> | ->]]; by compute.
  - intros a b d. unfold is_space3.
    rewrite !orb_true_iff, !andb_true_iff, !orb_true_iff, !andb_true_iff, !N.eqb_eq, !N.leb_le.
    intros E. change (code "|") with 124%N. repeat split; intros ->; intuition lia.
  - intros a b. unfold is_space2. rewrite !andb_true_iff, !orb_true_iff, !N.eqb_eq.
    intros [-> [-> | ->]]; by compute.
  - intros a b d. unfold is_space3.
    rewrite !orb_true_iff, !andb_true_iff, !orb_true_iff, !andb_true_iff, !N.eqb_eq, !N.leb_le.
    intros E. change (code "|") with 124%N. repeat split; intros ->; intuition lia.
Qed.

Lemma to_lower_nil l : to_lower l = [] -> l = [].
Proof.
  destruct l as [|a [|b [|c l]]]; [done|done| |]; first [rewrite to_lower_two|rewrite to_lower_cons3]; repeat case_match; done.
Qed.

Lemma lower_trim_bar s : In "|"%char (bytes s) -> lower_trim s <> "".
Proof.
  intros Hin E. apply TrimSpace_keeps_bar in Hin. unfold lower_trim, ToLower in E.
  apply (f_equal bytes) in E. rewrite bytes_str in E. apply to_lower_nil in E. by rewrite E in Hin.
Qed.

Lemma buildPendingOwnerKey_nonempty run step attempt phase :
  buildPendingOwnerKey run step attempt phase <> "".
Proof.
  apply lower_trim_bar. cbn [Join]. rewrite !bytes_app.
  apply in_or_app. right. apply in_or_app. left. by left.
Qed.
