(* ===== verification/DecInvariant.v ===== *)
(** * The invariant of the Decision service and the machine of pending decisions

    [SInv] is what every reachable state satisfies.  [pend_edge] is the abstract
    machine of one pending decision; [moves] says that each pending decision of
    the first state evolves along it.

    Then the operations one by one: each keeps the invariant. *)

From stdpp Require Import relations.
From S2P Require Import Prelude GoStrings GoTime GoJson DecTypes DecJson DecPolicy DecContracts.
From S2P Require Import DecKernel DecRuntime DecAdmission DecPending DecApproval DecFrame.

#[local] Open Scope Z_scope.

(** ** The machine *)

Definition is_pending (p : PendingDecision) : Prop := p_Status p = pendingStatusPending.

(** What never changes while a pending decision is stored. *)
Definition same_identity (p p' : PendingDecision) : Prop :=
  p_DecisionID p' = p_DecisionID p /\ p_OwnerKey p' = p_OwnerKey p /\ p_CreatedAt p' = p_CreatedAt p.

(** [rm] tells whether entries may be removed (only the cleanup does). *)
Inductive pend_edge (rm : bool) : option PendingDecision -> option PendingDecision -> Prop :=
| edge_create p : is_pending p -> p_RepairAttempts p = 0 -> pend_edge rm None (Some p)
| edge_touch p p' : is_pending p -> is_pending p' -> same_identity p p' ->
    p_RepairAttempts p <= p_RepairAttempts p' -> pend_edge rm (Some p) (Some p')
| edge_leave p p' : is_pending p -> terminal_pending (p_Status p') = true -> same_identity p p' ->
    pend_edge rm (Some p) (Some p')
| edge_unconfirm p now : p_Status p = pendingStatusConfirmed ->
    pend_edge rm (Some p) (Some (with_status pendingStatusSafeguardHold now p))
| edge_remove p : rm = true -> terminal_pending (p_Status p) = true -> pend_edge rm (Some p) None.

Definition moves (rm : bool) (s s' : Service) : Prop :=
  forall id, rtc (pend_edge rm) (s_pending s !! id) (s_pending s' !! id).

#[export] Instance moves_preorder rm : PreOrder (moves rm).
Proof.
  split.
  - intros s id. reflexivity.
  - intros s1 s2 s3 H1 H2 id. by transitivity (s_pending s2 !! id).
Qed.

Lemma moves_eq rm s s' : s_pending s' = s_pending s -> moves rm s s'.
Proof. intros E id. by rewrite E. Qed.

(** One entry changes along an edge. *)
Lemma moves_one rm s s' id p :
  s_pending s' = <[id := p]> (s_pending s) -> pend_edge rm (s_pending s !! id) (Some p) -> moves rm s s'.
Proof.
  intros E He i. rewrite E. destruct (decide (i = id)) as [->|Hne].
  - rewrite lookup_insert_eq. by apply rtc_once.
  - by rewrite lookup_insert_ne by congruence.
Qed.

(** ** The invariant *)

(** A stored pending decision: the repair counter stays within its three
    actions, and only the last one takes the status away from pending. *)
Record pend_ok (id : string) (p : PendingDecision) : Prop := mk_pend_ok {
  pk_id : p_DecisionID p = id;
  pk_owner : p_OwnerKey p <> "";
  pk_status : is_pending p \/ terminal_pending (p_Status p) = true;
  pk_attempts : 0 <= p_RepairAttempts p <= 3;
  pk_repair : is_pending p -> p_RepairAttempts p <= 2;
  pk_attempt : 0 <= p_AttemptIndex p
}.

(** The history of a decision ends with its current record, numbers its
    versions consecutively (as 64-bit integers) and keeps at most [max]. *)
Record hist_ok (max : Z) (id : string) (d : StoredDecision) (h : list StoredDecision) : Prop := mk_hist_ok {
  hk_last : last h = Some d;
  hk_ids : Forall (fun x => d_DecisionID x = id) h;
  hk_versions : forall i x y, h !! i = Some x -> h !! S i = Some y ->
                  d_Version y = wrap_int64 (d_Version x + 1);
  hk_length : Z.of_nat (length h) <= max
}.

Definition decisions_ok (cfg : Config) (ds : gmap string StoredDecision)
    (hs : gmap string (list StoredDecision)) : Prop :=
  forall id, match ds !! id, hs !! id with
        | Some d, Some h => hist_ok (dc_DecisionMaxHistoryVersions cfg) id d h
        | None, None => True
        | _, _ => False
        end.

Definition approval_statuses : list string :=
  ["awaiting_approval"; "approved"; "denied"; "auto_deny"; "force_review_queue"; "fail_closed"].

Record SInv (s : Service) : Prop := mk_SInv {
  si_max : 0 < dc_DecisionMaxHistoryVersions (s_cfg s);
  si_ttl : 0 < dc_TicketTTL (s_cfg s);
  si_pending : map_Forall pend_ok (s_pending s);
  si_decisions : decisions_ok (s_cfg s) (s_decisions s) (s_decisionHistory s);
  si_tickets : map_Forall (fun id t => t_TicketID t = id) (s_tickets s);
  si_approvals : map_Forall (fun id a => ac_CaseID a = id /\ one_of (ac_Status a) approval_statuses = true)
                   (s_approvals s);
  si_outbox : outbox_ok s
}.

Lemma SInv_calm s s' : calm s s' -> SInv s -> SInv s'.
Proof.
  intros [] []. split; rewrite ?cm_cfg, ?cm_decisions, ?cm_history, ?cm_pending, ?cm_tickets,
    ?cm_approvals; auto.
Qed.

Lemma moves_mono rm s s' : moves rm s s' -> moves true s s'.
Proof.
  intros Hm id. specialize (Hm id). induction Hm as [|x y z [] _ IH]; [done|..];
    (eapply rtc_l; [|exact IH]); by econstructor.
Qed.

Lemma moves_calm rm s s' : calm s s' -> moves rm s s'.
Proof. intros []. by apply moves_eq. Qed.

Lemma SInv_quiet s s' : quiet s s' -> SInv s -> SInv s'.
Proof. intros H. by apply SInv_calm, quiet_calm. Qed.

(** ** The primitives *)

Section Primitives.
Context `{JsonMarshaler}.

Lemma SInv_emit ty d r st kvs at_ s : SInv s -> SInv (emitEvent ty d r st kvs at_ s).
Proof. apply SInv_quiet, emitEvent_quiet. Qed.

Lemma moves_emit rm ty d r st kvs at_ s : moves rm s (emitEvent ty d r st kvs at_ s).
Proof. apply moves_calm, quiet_calm, emitEvent_quiet. Qed.

Lemma pending_emit ty d r st kvs at_ s : s_pending (emitEvent ty d r st kvs at_ s) = s_pending s.
Proof. apply emitEvent_quiet. Qed.

Lemma set_pending_inv id p s : SInv s -> pend_ok id p -> SInv (set_pending id p s).
Proof. intros [] Hp. split; try done. by apply map_Forall_insert_2. Qed.

Lemma set_ticket_inv t s : SInv s -> SInv (set_ticket t s).
Proof. intros []. split; try done. by apply map_Forall_insert_2. Qed.

Lemma store_approval_inv id c s : SInv s -> ac_CaseID c = id ->
  one_of (ac_Status c) approval_statuses = true ->
  SInv (s_set_approvals (<[id := c]> (s_approvals s)) s).
Proof. intros [] ??. split; try done. by apply map_Forall_insert_2. Qed.

(** ** Records *)

Lemma next_record_id kind id i now : d_DecisionID (next_record kind id i now) = id.
Proof. unfold next_record. by destruct (toCanonicalRecord _), (toCanonicalRecord _). Qed.

Lemma set_Version_fields v d : d_Version (d_set_Version v d) = v /\
  d_DecisionID (d_set_Version v d) = d_DecisionID d.
Proof. done. Qed.

Lemma cap_hist_ok cfg id d h : 0 < dc_DecisionMaxHistoryVersions cfg -> last h = Some d ->
  Forall (fun x => d_DecisionID x = id) h ->
  (forall i x y, h !! i = Some x -> h !! S i = Some y -> d_Version y = wrap_int64 (d_Version x + 1)) ->
  hist_ok (dc_DecisionMaxHistoryVersions cfg) id d (capDecisionHistory cfg h).
Proof.
  intros Hm Hl Hi Hv. unfold capDecisionHistory; cbv zeta.
  set (m := dc_DecisionMaxHistoryVersions cfg) in *.
  destruct (Z.leb_spec m 0); [lia|]. simpl. destruct (Z.leb_spec (Z.of_nat (length h)) m).
  - by split.
  - unfold lastn. split.
    + assert (Hn : (0 < length h)%nat) by (destruct h; [done|simpl; lia]).
      rewrite last_lookup in Hl |- *. rewrite lookup_drop, length_drop. rewrite <- Hl. f_equal. lia.
    + by apply Forall_drop.
    + intros i x y. rewrite !lookup_drop. intros Hx Hy. eapply Hv; [done|].
      by replace (S (_ + i)) with (length h - Z.to_nat m + S i)%nat by lia.
    + rewrite length_drop. lia.
Qed.

Lemma put_record_inv id d h s : SInv s -> last h = Some d ->
  Forall (fun x => d_DecisionID x = id) h ->
  (forall i x y, h !! i = Some x -> h !! S i = Some y -> d_Version y = wrap_int64 (d_Version x + 1)) ->
  SInv (put_record id d h s).
Proof.
  intros [] Hl Hi Hv. split; try done. intros i. unfold put_record; cbn.
  destruct (decide (i = id)) as [->|Hne].
  - rewrite !lookup_insert_eq. by apply cap_hist_ok.
  - rewrite !lookup_insert_ne by congruence. apply si_decisions0.
Qed.

Lemma versions_snoc l d : Forall (fun x => d_DecisionID x = d_DecisionID d) l ->
  (forall i x y, l !! i = Some x -> l !! S i = Some y -> d_Version y = wrap_int64 (d_Version x + 1)) ->
  (forall x, last l = Some x -> d_Version d = wrap_int64 (d_Version x + 1)) ->
  forall i x y, (l ++ [d]) !! i = Some x -> (l ++ [d]) !! S i = Some y ->
    d_Version y = wrap_int64 (d_Version x + 1).
Proof.
  intros _ Hv Hd i x y Hx Hy. apply lookup_lt_Some in Hy as Hlt. rewrite length_app in Hlt. simpl in Hlt.
  rewrite lookup_app_l in Hx by lia.
  destruct (decide (S i < length l)%nat) as [H1|H1].
  - rewrite lookup_app_l in Hy by lia. by eapply Hv.
  - rewrite lookup_app_r in Hy by lia. replace (S i - length l)%nat with 0%nat in Hy by lia.
    injection Hy as <-. apply Hd. rewrite last_lookup.
    by replace (pred (length l)) with i by lia.
Qed.

Lemma replace_last_snoc {A} (l : list A) x y : replace_last (l ++ [x]) y = l ++ [y].
Proof. unfold replace_last. by rewrite removelast_last. Qed.

Lemma last_snoc_inv {A} (l : list A) x : last l = Some x -> exists l', l = l' ++ [x].
Proof.
  intros H0. destruct l as [|a l0] using rev_ind; [done|]. rewrite last_snoc in H0.
  injection H0 as ->. by exists l0.
Qed.

Lemma recordDecisionLocked_inv kind id i now s : SInv s -> SInv (recordDecisionLocked kind id i now s).
Proof.
  intros HI. unfold recordDecisionLocked; cbv zeta.
  set (n := next_record kind id i now). pose proof (next_record_id kind id i now : d_DecisionID n = id) as Hn.
  pose proof (si_decisions _ HI id) as Hd.
  destruct (s_decisions s !! id) as [e|]; [|].
  - destruct (s_decisionHistory s !! id) as [h|]; [|done]. simpl. destruct Hd as [Hl Hi Hv _].
    destruct (last_snoc_inv _ _ Hl) as [l ->].
    assert (Hnil : forall A (x y : A), match l ++ [e] with [] => x | _ => y end = y) by (by destruct l).
    apply Forall_app in Hi as [Hi He]. apply (proj1 (Forall_singleton _ _)) in He.
    assert (Hvl : forall i x y, l !! i = Some x -> l !! S i = Some y ->
              d_Version y = wrap_int64 (d_Version x + 1)).
    { intros j x y Hx Hy. eapply (Hv j); by apply lookup_app_l_Some. }
    assert (Hve : forall x, last l = Some x -> d_Version e = wrap_int64 (d_Version x + 1)).
    { intros x Hx. rewrite last_lookup in Hx. apply lookup_lt_Some in Hx as Hlt.
      eapply (Hv (pred (length l))); [by apply lookup_app_l_Some|].
      rewrite lookup_app_r by lia. by replace (S (pred (length l)) - length l)%nat with 0%nat by lia. }
    destruct (same_semantics e n); rewrite Hnil.
    + rewrite replace_last_snoc. apply put_record_inv; [done|by rewrite last_snoc| |].
      * apply Forall_app; split; [done|]. by apply Forall_singleton.
      * apply versions_snoc; [by rewrite (proj2 (set_Version_fields _ _)), Hn|done|done].
    + apply put_record_inv; [done|by rewrite last_snoc| |].
      * apply Forall_app; split; [|by apply Forall_singleton].
        apply Forall_app; split; [done|]. by apply Forall_singleton.
      * apply versions_snoc.
        -- rewrite (proj2 (set_Version_fields _ _)), Hn. apply Forall_app; split; [done|].
           by apply Forall_singleton.
        -- done.
        -- intros x. rewrite last_snoc. by intros [= <-].
  - apply put_record_inv; [done|done|by apply Forall_singleton|].
    intros [|j] x y; simpl; intros ?; done.
Qed.

Lemma recordDecisionLocked_pending kind id i now s :
  s_pending (recordDecisionLocked kind id i now s) = s_pending s.
Proof. unfold recordDecisionLocked; cbv zeta. by repeat case_match. Qed.
End Primitives.

#[export] Hint Resolve SInv_emit set_pending_inv set_ticket_inv recordDecisionLocked_inv : dec.

(** * Every operation of the Decision service keeps the invariant and moves its
    pending decisions along the machine *)

#[local] Open Scope Z_scope.

(** What an operation promises of the state it leaves. *)
Definition goodb (rm : bool) (s s' : Service) : Prop :=
  (SInv s -> SInv s') /\ (SInv s -> moves rm s s').
Abbreviation good := (goodb false).

#[export] Instance good_preorder rm : PreOrder (goodb rm).
Proof.
  split.
  - by intros s; split.
  - intros s1 s2 s3 [H1 H2] [H3 H4]. split; [auto|]. intros HI. etransitivity; eauto.
Qed.

Lemma goodb_mono rm s s' : goodb rm s s' -> goodb true s s'.
Proof. intros [H1 H2]. split; [done|]. intros HI. by eapply moves_mono, H2. Qed.

Lemma good_calm rm s s' : calm s s' -> goodb rm s s'.
Proof. intros H. split; [by apply SInv_calm|intros _; by apply moves_calm]. Qed.

Lemma good_quiet rm s s' : quiet s s' -> goodb rm s s'.
Proof. intros H. by apply good_calm, quiet_calm. Qed.

(** An operation that leaves the pending decisions alone. *)
Lemma good_same_pending s s' : (SInv s -> SInv s') -> s_pending s' = s_pending s -> good s s'.
Proof. intros H E. split; [done|]. intros _. by apply moves_eq. Qed.

Section Ops.
Context `{JsonMarshaler}.

Lemma good_emit ty d r st kvs at_ s : good s (emitEvent ty d r st kvs at_ s).
Proof. apply good_quiet, emitEvent_quiet. Qed.

Lemma good_set_pending id p s :
  (SInv s -> pend_ok id p) -> (SInv s -> pend_edge false (s_pending s !! id) (Some p)) ->
  good s (set_pending id p s).
Proof.
  intros Hp He. split; intros HI; [by apply set_pending_inv; auto|].
  eapply moves_one; [done|by apply He].
Qed.

Lemma good_record kind id i now s : good s (recordDecisionLocked kind id i now s).
Proof. apply good_same_pending; [apply recordDecisionLocked_inv|apply recordDecisionLocked_pending]. Qed.

Lemma good_soft m s : good s (s_set_softFailures m s).
Proof. apply good_same_pending; [|done]. intros []. by split. Qed.

(** ** Pending decisions *)

Lemma pending_terminal : terminal_pending pendingStatusPending = false.
Proof. reflexivity. Qed.

Lemma with_status_ok id p status now : pend_ok id p -> terminal_pending status = true ->
  pend_ok id (with_status status now p).
Proof.
  intros [] Ht. split; try done; cbn; [by right|]. intros E. unfold is_pending in E. cbn in E.
  by rewrite E, pending_terminal in Ht.
Qed.

Lemma leave_edge p status now : is_pending p -> terminal_pending status = true ->
  pend_edge false (Some p) (Some (with_status status now p)).
Proof. intros Hp Ht. by apply edge_leave. Qed.

Lemma good_create id run step risk now meta s : 0 <= pom_AttemptIndex meta ->
  good s (createPendingDecision id run step risk now meta s).
Proof.
  intros Ha. unfold createPendingDecision; cbv zeta.
  destruct (s_pending s !! id) as [p|] eqn:Ep.
  - destruct (_ && _); [apply good_emit|].
    destruct (p_Status p =? pendingStatusPending)%string eqn:Es.
    + apply String.eqb_eq in Es. etransitivity; [|apply good_emit].
      apply good_set_pending; intros HI; destruct (si_pending _ HI _ _ Ep).
      * split; cbn -[buildPendingOwnerKey]; try done.
        -- by destruct (p_OwnerKey p =? "")%string eqn:E; [apply String.eqb_eq in E|].
        -- by destruct (p_AttemptIndex p =? 0).
      * rewrite Ep. apply edge_touch; [done|done| |cbn; lia]. split_and!; [done| |done]. cbn.
        destruct (p_OwnerKey p =? "")%string eqn:E; [by apply String.eqb_eq in E|done].
    + etransitivity; [|apply good_emit]. apply good_same_pending.
      * intros HI. apply set_pending_inv; [done|]. by apply (si_pending _ HI).
      * cbn. by apply insert_id.
  - apply good_set_pending; intros HI.
    + split; cbn; try done; try lia; [apply buildPendingOwnerKey_nonempty|by left].
    + rewrite Ep. by apply edge_create.
Qed.

(** ** Evaluation *)

Lemma good_guard q r now s : good s (applySoftFailureGuard q r now s).1.
Proof.
  unfold applySoftFailureGuard; cbv zeta. case_match; [apply good_soft|].
  destruct (soft_step _ _ _ _) as [st [stage|]]; [apply good_soft|].
  case_match; [apply good_soft|]. destruct (if isHighOrCritical _ then _ else _) as [d stage].
  cbn [fst]. etransitivity; [apply good_soft|apply good_emit].
Qed.

Lemma normalized_attempt q : 0 <= q_AttemptIndex (normalizeRuntimeRequest q).
Proof. cbn. case_match; bool_hyps; lia. Qed.

Lemma good_finalize q r now s : good s (finalizeRuntimeDecision q r now s).1.
Proof.
  unfold finalizeRuntimeDecision; cbv zeta. set (n := normalizeRuntimeRequest q).
  pose proof (hash_or_fail_calm (fill_ids n r) s) as Hc.
  destruct (hash_or_fail _ _) as [s1 r1]. cbn [fst] in *.
  etransitivity; [by apply good_calm|]. etransitivity; [|apply good_emit].
  case_match; [|apply good_record]. etransitivity; [apply good_record|].
  apply good_create. apply normalized_attempt.
Qed.

Lemma good_EvaluateRuntime s q now : good s (EvaluateRuntime s q now).1.
Proof.
  unfold EvaluateRuntime; cbv zeta. set (n := normalizeRuntimeRequest q).
  pose proof (makeBestEffortID_calm "dec_" (decision_id_input n) s) as Hc.
  destruct (makeBestEffortID _ _ _) as [s1 [id ok]]. cbn [fst] in Hc.
  assert (G : good s (add_counter "runtime_eval_total" s1)).
  { etransitivity; [by apply good_calm|]. apply good_quiet, add_counter_quiet. }
  assert (Hgo : forall r, good s (match evaluate_gates n now (add_counter "runtime_eval_total" s1) r with
      | Final s resp => finalizeRuntimeDecision n resp now s
      | Guarded s resp => let '(s, resp) := applySoftFailureGuard n resp now s in
                          finalizeRuntimeDecision n resp now s
      end).1).
  { intros r. pose proof (evaluate_gates_quiet n now (add_counter "runtime_eval_total" s1) r) as Q.
    destruct (evaluate_gates _ _ _ _) as [s2 r2|s2 r2]; cbn [verdict_state] in Q.
    - etransitivity; [done|]. etransitivity; [by apply good_quiet|apply good_finalize].
    - pose proof (good_guard n r2 now s2) as Hg. destruct (applySoftFailureGuard _ _ _ _) as [s3 r3].
      etransitivity; [done|]. etransitivity; [by apply good_quiet|].
      etransitivity; [exact Hg|apply good_finalize]. }
  destruct (safeHash _) as [fh|]; (case_match; [etransitivity; [done|apply good_finalize]|apply Hgo]).
Qed.

(** ** Admission and release *)

Lemma good_fallback p s : good s (nextFallbackID p s).1.
Proof. apply good_calm, nextFallbackID_calm. Qed.

Lemma good_reject reason q r now s : good s (reject_schedule reason q r now s).1.
Proof. cbn. etransitivity; [apply good_record|apply good_emit]. Qed.

Lemma good_ticket t s : good s (set_ticket t s).
Proof. apply good_same_pending; [apply set_ticket_inv|done]. Qed.

Lemma good_admit q r h now s : good s (admit_ticket q r h now s).1.
Proof.
  unfold admit_ticket. pose proof (makeBestEffortID_calm "ticket_" (ticket_id_input q h) s) as Hc.
  destruct (makeBestEffortID _ _ _) as [s1 [id [|]]]; cbn [fst] in *;
    (etransitivity; [by apply good_calm|]); [|apply good_record].
  etransitivity; [|apply good_emit]. etransitivity; [|apply good_record]. apply good_ticket.
Qed.

Lemma good_schedule `{MapRange} s q now : good s (EvaluateScheduleAdmission s q now).1.
Proof.
  unfold EvaluateScheduleAdmission.
  pose proof (makeBestEffortID_calm "dec_sched_" (schedule_id_input q) s) as Hc.
  destruct (makeBestEffortID _ _ _) as [s1 [id [|]]]; cbn [fst] in Hc.
  - etransitivity; [by apply good_calm|]. cbv zeta. case_match.
    + unfold deny_quota; cbv zeta. case_match; [apply good_reject|].
      pose proof (good_fallback "sched_hash_" s1) as Hf. destruct (nextFallbackID "sched_hash_" s1) as [s2 h].
      etransitivity; [exact Hf|apply good_reject].
    + case_match; [apply good_admit|].
      pose proof (good_fallback "sched_hash_" s1) as Hf. destruct (nextFallbackID "sched_hash_" s1) as [s2 h].
      etransitivity; [exact Hf|apply good_reject].
  - etransitivity; [by apply good_calm|]. cbv zeta.
    pose proof (good_fallback "sched_hash_" s1) as Hf. destruct (nextFallbackID "sched_hash_" s1) as [s2 h].
    etransitivity; [exact Hf|apply good_record].
Qed.

Lemma good_hash_release f r s : good s (hash_release f r s).1.
Proof.
  unfold hash_release; cbv zeta. case_match; [reflexivity|]. apply (good_fallback "rel_hash_" s).
Qed.

Lemma good_block reason kvs risk q r now s : good s (block_release reason kvs risk q r now s).1.
Proof.
  unfold block_release. pose proof (good_hash_release (fun r => r) r s) as G.
  destruct (hash_release _ _ _) as [s1 r1]. cbn [fst] in *.
  etransitivity; [exact G|]. etransitivity; [apply good_record|apply good_emit].
Qed.

Lemma good_pass risk q r now s : good s (pass_release risk q r now s).1.
Proof.
  unfold pass_release; cbv zeta.
  match goal with |- context [hash_release ?f ?x ?y] => pose proof (good_hash_release f x y) as G;
    destruct (hash_release f x y) as [s1 r1] end.
  cbn [fst] in *. etransitivity; [exact G|]. etransitivity; [apply good_record|apply good_emit].
Qed.

Lemma good_release s q now : good s (EvaluateRelease s q now).1.
Proof.
  unfold EvaluateRelease.
  pose proof (makeBestEffortID_calm "dec_release_" (release_id_input q) s) as Hc.
  destruct (makeBestEffortID _ _ _) as [s1 [id [|]]]; cbn [fst] in Hc;
    (etransitivity; [by apply good_calm|]); cbv zeta.
  - case_match; [apply good_block|]. case_match; [apply good_pass|apply good_block].
  - pose proof (good_fallback "rel_hash_" s1) as Hf. destruct (nextFallbackID "rel_hash_" s1) as [s2 h].
    etransitivity; [exact Hf|apply good_record].
Qed.

(** ** Confirmation, termination, repair *)

Lemma good_confirm s q now : good s (ConfirmRunAdvance s q now).1.
Proof.
  unfold ConfirmRunAdvance; cbv zeta. destruct (s_pending s !! _) as [p|] eqn:Ep; [|done].
  case_match; [done|]. destruct (p_Status p =? pendingStatusPending)%string eqn:Es; [|done].
  apply String.eqb_eq in Es. simpl negb. cbn iota. case_match; cbn [fst];
    (etransitivity; [|apply good_emit]); apply good_set_pending; intros HI;
    pose proof (si_pending _ HI _ _ Ep) as Hp.
  - by apply with_status_ok.
  - rewrite Ep. by apply leave_edge.
  - destruct Hp. by split.
  - rewrite Ep. by apply edge_touch.
Qed.

Lemma good_terminalize s q now : good s (TerminalizePendingDecision s q now).1.
Proof.
  unfold TerminalizePendingDecision; cbv zeta. destruct (s_pending s !! _) as [p|] eqn:Ep; [|done].
  set (t := lower_trim _). destruct (one_of t _) eqn:Et; [|done]. cbn [negb].
  assert (Ht : terminal_pending t = true) by (unfold terminal_pending; apply one_of_In; right; by apply one_of_In).
  case_match; [done|]. destruct (p_Status p =? pendingStatusPending)%string eqn:Es; [|done].
  apply String.eqb_eq in Es. cbn [negb fst].
  etransitivity; [|apply good_emit]. apply good_set_pending; intros HI;
    pose proof (si_pending _ HI _ _ Ep) as Hp.
  - by apply with_status_ok.
  - rewrite Ep. by apply leave_edge.
Qed.

(** The next attempt of a decision still pending. *)
Lemma repaired_spec id p now : pend_ok id p -> is_pending p ->
  pend_ok id (repaired now p) /\ pend_edge false (Some p) (Some (repaired now p)) /\
  p_RepairAttempts (repaired now p) = p_RepairAttempts p + 1 /\ p_RepairAttempts p + 1 <= 3.
Proof.
  intros [? ? ? Ha Hr ?] Hp. specialize (Hr Hp). unfold repaired; cbv zeta.
  rewrite wrap_int64_id by (unfold in_int64, min_int64, max_int64; lia).
  assert (Hcase : p_RepairAttempts p + 1 = 1 \/ p_RepairAttempts p + 1 = 2 \/ p_RepairAttempts p + 1 = 3) by lia.
  split_and!; [| |done|lia].
  - destruct Hcase as [E|[E|E]]; rewrite E; (split; cbn; [done|done| |lia| |done]).
    1,3: by left. 1,2: intros _; lia. + by right. + unfold is_pending; cbn. discriminate.
  - destruct Hcase as [E|[E|E]]; rewrite E.
    1,2: apply edge_touch; [done|done|done|cbn; lia].
    by apply edge_leave.
Qed.

Lemma repair_visit_spec now cfg st id p :
  SInv st.1 -> s_cfg st.1 = cfg -> s_pending st.1 !! id = Some p ->
  good st.1 (repair_visit now st id p).1 /\
  s_pending (repair_visit now st id p).1 =
    (if repair_due cfg now p then <[id := repaired now p]> (s_pending st.1) else s_pending st.1) /\
  s_cfg (repair_visit now st id p).1 = cfg.
Proof.
  intros HI Hcfg Ep. unfold repair_visit. destruct st as [s r]. cbn [fst] in *. rewrite Hcfg.
  destruct (repair_due cfg now p) eqn:Ed; [|done]. cbv zeta. cbn [fst]. split_and!.
  - etransitivity; [|apply good_emit]. unfold repair_due in Ed. bool_hyps.
    apply good_set_pending; intros _;
      destruct (repaired_spec id p now (si_pending _ HI _ _ Ep)) as (? & ? & ?); try done.
    by rewrite Ep.
  - by rewrite pending_emit.
  - rewrite <- Hcfg. match goal with |- s_cfg (emitEvent ?a ?b ?c ?d ?e ?f ?g) = _ =>
      destruct (emitEvent_quiet a b c d e f g) as [[] _] end. done.
Qed.

Lemma repair_loop `{MapRange} s now : SInv s ->
  good s (RepairPendingDecisions s now).1 /\ s_cfg (RepairPendingDecisions s now).1 = s_cfg s /\
  forall id, s_pending (RepairPendingDecisions s now).1 !! id =
    (p ← s_pending s !! id; Some (if repair_due (s_cfg s) now p then repaired now p else p)).
Proof.
  intros HI. unfold RepairPendingDecisions.
  destruct (go_range_own
    (fun _ p => Some (if repair_due (s_cfg s) now p then repaired now p else p))
    (fun st : Service * PendingRepairResult => s_pending st.1)
    (fun st => good s st.1 /\ s_cfg st.1 = s_cfg s)
    (repair_visit now) (s_pending s) (s, mk_PendingRepairResult 0 0 0 0 [])) as [[G C] L]; [done|done| |].
  - intros st k v [G Hcfg] _ Hk.
    destruct (repair_visit_spec now (s_cfg s) st k v (proj1 G HI) Hcfg Hk) as (G2 & E & Hcfg2).
    split; [split; [by etransitivity|done]|]. intros i. rewrite E.
    destruct (decide (i = k)) as [->|Hne]; case_match; rewrite ?lookup_insert_eq, ?lookup_insert_ne by congruence; done.
  - split_and!; [exact G|exact C|exact L].
Qed.
End Ops.
