(* ===== verification/DecTrace.v ===== *)
(** * Histories of the Decision service

    Approvals and cleanup keep the invariant too; a [call] is one exported
    method (with the collaborators it uses), [exec] what it does to the service
    and to the environment of the unlock port, [reach] the states of a history
    that starts with [NewKernel].  Each call may visit the maps in an order of
    its own. *)

From stdpp Require Import relations.
From S2P Require Import Prelude GoStrings GoTime GoJson DecTypes DecJson DecPolicy DecContracts.
From S2P Require Import DecKernel DecRuntime DecAdmission DecPending DecApproval DecFrame.
From S2P Require Import DecInvariant.
#[local] Open Scope Z_scope.

Section Approvals.
Context `{JsonMarshaler}.

Lemma good_create_case s q now : good s (CreateApprovalCase s q now).1.
Proof.
  unfold CreateApprovalCase; cbv zeta. cbn [fst]. etransitivity; [|apply good_emit].
  apply good_same_pending; [|done]. intros HI.
  apply (store_approval_inv _ _ (s_set_idSeq _ s)); [|done|done].
  revert HI. apply SInv_calm. by split.
Qed.

Lemma outcome_target outcome : approvalOutcomeToPendingStatus outcome <> "" ->
  terminal_pending (approvalOutcomeToPendingStatus outcome) = true.
Proof. unfold approvalOutcomeToPendingStatus; cbv zeta. repeat case_match; done. Qed.

Lemma good_apply c now s : good s (applyApprovalOutcomeToPending c now s).1.
Proof.
  unfold applyApprovalOutcomeToPending; cbv zeta.
  destruct (approvalOutcomeToPendingStatus (ac_Status c) =? "")%string eqn:Et; [done|].
  apply String.eqb_neq, outcome_target in Et.
  destruct (s_pending s !! _) as [p|] eqn:Ep; [|done]. case_match; [done|].
  destruct (p_Status p =? pendingStatusPending)%string eqn:Es; [|done]. apply String.eqb_eq in Es.
  cbn [negb fst]. etransitivity; [|case_match; apply good_emit].
  apply good_set_pending; intros HI; pose proof (si_pending _ HI _ _ Ep) as Hp.
  - by apply with_status_ok.
  - rewrite Ep. by apply leave_edge.
Qed.

Lemma good_unlock_guard c status now s : good s (enforceApprovalUnlockFailureGuard c status now s).1.
Proof.
  unfold enforceApprovalUnlockFailureGuard; cbv zeta.
  destruct (s_pending s !! _) as [p|] eqn:Ep; [|done]. case_match; [done|].
  destruct (p_Status p =? pendingStatusConfirmed)%string eqn:Es; [|done]. apply String.eqb_eq in Es.
  cbn [negb fst]. etransitivity; [|apply good_emit].
  apply good_set_pending; intros HI; pose proof (si_pending _ HI _ _ Ep) as Hp.
  - by apply with_status_ok.
  - rewrite Ep. by apply edge_unconfirm.
Qed.

Section Port.
Context {Env : Type}.
Implicit Types (port : option (UnlockPort Env)) (env : Env).

Lemma good_dispatch port g now s env : good s (dispatchApprovalRunUnlock port g now s env).1.1.
Proof.
  unfold dispatchApprovalRunUnlock; cbv zeta. destruct port as [port|]; [|apply good_emit].
  destruct (port g env) as [env' [res|err]]; apply good_emit.
Qed.

Lemma good_settle port c now s env : good s (settle_outcome port c now s env).1.1.
Proof.
  unfold settle_outcome; cbv zeta.
  pose proof (good_apply c now s) as G1.
  destruct (applyApprovalOutcomeToPending c now s) as [s1 [[ps pr] sg]]. cbn [fst] in G1.
  set (m := match sg with Some _ => _ | None => _ end).
  assert (G2 : good s1 m.1.1).
  { subst m. destruct sg as [g|]; [|done]. pose proof (good_dispatch port g now s1 env) as G.
    destruct (dispatchApprovalRunUnlock _ _ _ _ _) as [[s2 e2] [[st rs] res]]. exact G. }
  clearbody m. destruct m as [[s2 e2] [[us ur] ua]]. cbn [fst] in G2.
  set (w := if EqualFold _ _ && _ then _ else _).
  assert (G3 : good s2 w.1) by (subst w; case_match; [apply good_unlock_guard|done]).
  clearbody w. destruct w as [s3 [ps' gr]]. cbn [fst] in *. etransitivity; [exact G1|]. by etransitivity.
Qed.

Lemma decision_status_known d st : decision_status d = Some st -> one_of st approval_statuses = true.
Proof. unfold decision_status; cbv zeta. repeat case_match; by intros [= <-]. Qed.

Lemma good_decide port s env id q now : good s (DecideApprovalCase port s env id q now).1.1.
Proof.
  unfold DecideApprovalCase; cbv zeta. destruct (decision_status _) as [st|] eqn:Ed; [|done].
  destruct (s_approvals s !! id) as [c|] eqn:Ec; [|done]. case_match; [done|].
  match goal with |- context [settle_outcome port ?c0 now ?s0 env] =>
    pose proof (good_settle port c0 now s0 env) as G; destruct (settle_outcome port c0 now s0 env) as [[s2 e2] oe] end.
  cbn [fst] in *. etransitivity; [|apply good_emit]. etransitivity; [|exact G].
  apply good_same_pending; [|done]. intros HI. apply store_approval_inv; [done| |].
  - by destruct (si_approvals _ HI _ _ Ec).
  - by apply decision_status_known in Ed.
Qed.

Lemma timeout_loop `{MapRange} now (m : gmap string ApprovalCase) :
  let r := go_range (timeout_visit now) (m, []) m in
  (forall id, r.1 !! id = (c ← m !! id; Some (if timed_out now c then time_out now c else c))).
Proof.
  cbv zeta. destruct (go_range_own (fun _ c => Some (if timed_out now c then time_out now c else c))
    (fun st : gmap string ApprovalCase * list ApprovalCase => st.1) (fun _ => True)
    (timeout_visit now) m (m, [])) as [_ L]; [done|done| |exact L].
  intros [a l] k c _ _ Hk. cbn [fst] in *. split; [done|]. intros i. unfold timeout_visit.
  destruct (decide (i = k)) as [->|Hne]; case_match; cbn [fst];
    rewrite ?lookup_insert_eq, ?lookup_insert_ne by congruence; done.
Qed.

Lemma good_timeouts `{MapRange} port s env now : good s (SweepApprovalHardTimeouts port s env now).1.1.
Proof.
  unfold SweepApprovalHardTimeouts. pose proof (timeout_loop now (s_approvals s)) as L. cbv zeta in L.
  destruct (go_range _ _ _) as [m l]. cbn [fst] in L.
  assert (G : good s (s_set_approvals m s)).
  { apply good_same_pending; [|done]. intros []. split; try done. intros id c Hc. cbn in Hc.
    rewrite L in Hc. apply bind_Some in Hc as (c0 & Hc0 & [= <-]). apply si_approvals in Hc0 as [??].
    case_match; [|done]. split; [done|]. cbn. unfold timeout_status. by repeat case_match. }
  assert (F : forall l st, good st.1 (foldl (settle_timeout port now) st l).1).
  { clear. induction l as [|c l IH]; intros st; simpl; [done|].
    etransitivity; [|apply IH]. unfold settle_timeout.
    pose proof (good_settle port c now st.1 st.2) as G. destruct (settle_outcome _ _ _ _ _) as [[s2 e2] oe].
    cbn [fst] in *. etransitivity; [exact G|apply good_emit]. }
  specialize (F l (s_set_approvals m s, env)). destruct (foldl _ _ _) as [s2 e2]. cbn [fst] in *.
  by etransitivity.
Qed.
End Port.
End Approvals.

(** ** Draining and cleanup *)

Lemma good_drain s limit : good s (DrainOutbox s limit).1.
Proof.
  unfold DrainOutbox; cbv zeta. case_match; [done|]. cbn [fst].
  apply good_same_pending; [|done]. intros []. split; try done.
  unfold outbox_ok in *; cbn in *. rewrite length_drop. split; [lia|]. match goal with Ho : _ /\ Forall _ _ |- _ => by apply Forall_drop, Ho end.
Qed.

Lemma purge_lookup `{MapRange} {V} (e : V -> bool) (m : gmap string V) i :
  (purge e m).1 !! i = (v ← m !! i; if e v then None else Some v).
Proof. apply lookup_range_cleanup. Qed.

Lemma purge_forall `{MapRange} {V} (P : string -> V -> Prop) (e : V -> bool) (m : gmap string V) :
  map_Forall P m -> map_Forall P (purge e m).1.
Proof.
  intros Hm i v Hv. rewrite purge_lookup in Hv. apply bind_Some in Hv as (w & Hw & Hv).
  case_match; simplify_eq. by apply Hm.
Qed.

(** The loop that deletes expired decisions with their histories. *)
Definition purge_decisions `{MapRange} (cfg : Config) (now : time) (s : Service) :=
  go_range (fun '(m, h, n) k d => if decision_expired cfg now d
                                  then (delete k m, delete k h, n + 1) else (m, h, n))
    (s_decisions s, s_decisionHistory s, 0) (s_decisions s).

Lemma purge_decisions_spec `{MapRange} cfg now s i :
  (purge_decisions cfg now s).1.1 !! i =
    (d ← s_decisions s !! i; if decision_expired cfg now d then None else Some d) /\
  (purge_decisions cfg now s).1.2 !! i =
    (match s_decisions s !! i with
     | Some d => if decision_expired cfg now d then None else s_decisionHistory s !! i
     | None => s_decisionHistory s !! i
     end).
Proof.
  unfold purge_decisions.
  destruct (go_range_own (fun _ d => if decision_expired cfg now d then None else Some d)
    (fun st : gmap string StoredDecision * gmap string (list StoredDecision) * Z => st.1.1)
    (fun st => forall j, st.1.2 !! j = match s_decisions s !! j, st.1.1 !! j with
                              | Some _, None => None | _, _ => s_decisionHistory s !! j end)
    (fun '(m, h, n) k d => if decision_expired cfg now d
                           then (delete k m, delete k h, n + 1) else (m, h, n))
    (s_decisions s) (s_decisions s, s_decisionHistory s, 0)) as [P L].
  - done.
  - intros j. cbn. by destruct (s_decisions s !! j).
  - intros [[m h] n] k d Hst Hk Hm. cbn [fst snd] in *. destruct (decision_expired cfg now d) eqn:E; cbn [fst snd].
    + split.
      * intros j. destruct (decide (j = k)) as [->|Hne];
          [by rewrite !lookup_delete_eq, Hk|by rewrite !lookup_delete_ne by congruence].
      * intros j. destruct (decide (j = k)) as [->|Hne];
          [by rewrite lookup_delete_eq|by rewrite lookup_delete_ne by congruence].
    + split; [done|]. intros j. case_decide; [by subst|done].
  - split; [apply L|]. rewrite P, L. destruct (s_decisions s !! i) as [d|]; [|done]. simpl.
    by destruct (decision_expired cfg now d).
Qed.

Lemma good_cleanup `{MapRange} s now : goodb true s (CleanupExpired s now).1.
Proof.
  unfold CleanupExpired; cbv zeta. set (cn := resolveCleanupNow s now).
  pose proof (purge_lookup (pending_expired (s_cfg s) cn) (s_pending s)) as Lp.
  pose proof (fun P => purge_forall P (pending_expired (s_cfg s) cn) (s_pending s)) as Fp.
  destruct (purge (pending_expired _ _) _) as [mp np].
  destruct (purge (soft_expired _ _) _) as [ms ns].
  pose proof (purge_decisions_spec (s_cfg s) cn s) as Ld. unfold purge_decisions in Ld.
  destruct (go_range _ _ _) as [[md mh] nd].
  pose proof (fun P => purge_forall P (ticket_expired (s_cfg s) cn) (s_tickets s)) as Ft.
  destruct (purge (ticket_expired _ _) _) as [mt nt].
  pose proof (fun P => purge_forall P (approval_expired (s_cfg s) cn) (s_approvals s)) as Fa.
  destruct (purge (approval_expired _ _) _) as [ma na]. cbn [fst snd] in *.
  match goal with |- context [trimOutboxLocked ?n ?x] => pose proof (trimOutbox_quiet n x) as Q;
    destruct (trimOutboxLocked n x) as [s2 tr] end.
  cbn [fst] in *. etransitivity; [|by apply good_quiet]. split.
  - intros []. split; try done; cbn; auto. intros i. destruct (Ld i) as [-> ->].
    specialize (si_decisions i). destruct (s_decisions s !! i) as [d|]; [|done]. simpl.
    by destruct (decision_expired _ _ _), (s_decisionHistory s !! i).
  - intros HI i. cbn. rewrite Lp. destruct (s_pending s !! i) as [p|] eqn:Ep; [|reflexivity]. simpl.
    destruct (pending_expired _ _ _) eqn:E; [|reflexivity]. unfold pending_expired in E. bool_hyps.
    apply rtc_once. by apply edge_remove.
Qed.

(** ** Histories *)

(** A refresh of the contract cache from the store's snapshot. *)
Lemma good_contracts snap s : good s (applyContractStoreSnapshotLocked snap s).
Proof. apply good_same_pending; [|done]. intros []. by split. Qed.

Inductive call (Env : Type) : Type :=
| CallEvaluate (q : RuntimeDecisionRequest) (now : time)
| CallSchedule (q : ScheduleAdmissionRequest) (now : time)
| CallRelease (q : ReleaseDecisionRequest) (now : time)
| CallCreateCase (q : ApprovalCreateRequest) (now : time)
| CallDecideCase (port : option (UnlockPort Env)) (id : string) (q : ApprovalDecisionRequest) (now : time)
| CallTimeouts (port : option (UnlockPort Env)) (now : time)
| CallConfirm (q : ConfirmRunAdvanceRequest) (now : time)
| CallTerminalize (q : TerminalizePendingDecisionRequest) (now : time)
| CallRepair (now : time)
| CallDrain (limit : Z)
| CallCleanup (now : time)
| CallContracts (snap : Snapshot).
Arguments CallEvaluate {Env}. Arguments CallSchedule {Env}. Arguments CallRelease {Env}.
Arguments CallCreateCase {Env}. Arguments CallDecideCase {Env}. Arguments CallTimeouts {Env}.
Arguments CallConfirm {Env}. Arguments CallTerminalize {Env}. Arguments CallRepair {Env}.
Arguments CallDrain {Env}. Arguments CallCleanup {Env}. Arguments CallContracts {Env}.

Section Trace.
Context `{JsonMarshaler} {Env : Type}.

Definition exec {MR : MapRange} (c : call Env) (st : Service * Env) : Service * Env :=
  let '(s, env) := st in
  match c with
  | CallEvaluate q now => ((EvaluateRuntime s q now).1, env)
  | CallSchedule q now => ((EvaluateScheduleAdmission s q now).1, env)
  | CallRelease q now => ((EvaluateRelease s q now).1, env)
  | CallCreateCase q now => ((CreateApprovalCase s q now).1, env)
  | CallDecideCase port id q now => (DecideApprovalCase port s env id q now).1
  | CallTimeouts port now => (SweepApprovalHardTimeouts port s env now).1
  | CallConfirm q now => ((ConfirmRunAdvance s q now).1, env)
  | CallTerminalize q now => ((TerminalizePendingDecision s q now).1, env)
  | CallRepair now => ((RepairPendingDecisions s now).1, env)
  | CallDrain limit => ((DrainOutbox s limit).1, env)
  | CallCleanup now => ((CleanupExpired s now).1, env)
  | CallContracts snap => (applyContractStoreSnapshotLocked snap s, env)
  end.

Inductive step : Service * Env -> Service * Env -> Prop :=
| step_call MR c st : step st (exec (MR := MR) c st).

Definition steps := rtc step.

(** The state of a new service. *)
Definition initial {MR : MapRange} `{FeatureSignalContractStore} (c : Config) (now : time)
    (st : store_state) : Service := (NewKernel c now st).1.

(** [reach s]: a history from a new service leads to [s]. *)
Definition reach (s : Service) : Prop :=
  exists (MR : MapRange) (CS : FeatureSignalContractStore) (c : Config) (now : time) (st : store_state)
         (env env' : Env), steps (initial c now st, env) (s, env').

(** Only the cleanup removes pending decisions. *)
Definition is_cleanup (c : call Env) : bool := match c with CallCleanup _ => true | _ => false end.

Lemma exec_good {MR : MapRange} c st : SInv st.1 -> goodb (is_cleanup c) st.1 (exec c st).1.
Proof.
  destruct st as [s env]. intros HI. destruct c; cbn [exec fst].
  - apply good_EvaluateRuntime.
  - apply good_schedule.
  - apply good_release.
  - apply good_create_case.
  - apply good_decide.
  - apply good_timeouts.
  - apply good_confirm.
  - apply good_terminalize.
  - by apply repair_loop.
  - apply good_drain.
  - apply good_cleanup.
  - apply good_contracts.
Qed.

Lemma steps_good st st' : steps st st' -> SInv st.1 -> SInv st'.1 /\ moves true st.1 st'.1.
Proof.
  induction 1 as [st|st1 st2 st3 [MR c st] _ IH]; intros HI; [done|].
  destruct (goodb_mono _ _ _ (exec_good c st HI)) as [G1 G2]. destruct (IH (G1 HI)) as [H1 H2].
  split; [done|]. etransitivity; [by apply G2|done].
Qed.

Lemma pos_or_pos z d : 0 < d -> 0 < pos_or z d.
Proof. unfold pos_or. intros. case_match; bool_hyps; lia. Qed.

Lemma boot_inv {MR : MapRange} c now : SInv (boot_kernel c now).
Proof.
  unfold boot_kernel; cbv zeta. split; cbn; try done.
  - by apply pos_or_pos.
  - by apply pos_or_pos.
  - unfold outbox_ok; cbn. split; [lia|constructor].
Qed.

Lemma commit_inv `{FeatureSignalContractStore} snap now s st : SInv s ->
  SInv (commitContractSnapshotLocked snap now s st).1.1.
Proof.
  intros HI. unfold commitContractSnapshotLocked; cbv zeta.
  destruct st as [st|]; [|by apply good_contracts].
  destruct (PutSnapshot _ _ _) as [st' [snap'|err]]; [by apply good_contracts|done].
Qed.

Lemma initial_inv {MR : MapRange} `{FeatureSignalContractStore} c now st : SInv (initial c now st).
Proof.
  unfold initial, NewKernel. pose proof (boot_inv c now) as HB.
  assert (HP : SInv (publishContractSnapshotLocked now (boot_kernel c now) (Some st)).1.1)
    by (by apply commit_inv).
  cbv zeta. destruct (GetSnapshot st) as [snap|err]; [|done].
  case_match; [by apply good_contracts|done].
Qed.

Lemma reach_inv s : reach s -> SInv s.
Proof.
  intros (MR & CS & c & now & st & env & env' & Hs).
  apply (steps_good _ _ Hs (initial_inv c now st)).
Qed.
End Trace.
