(* ===== verification/DecEval.v ===== *)
(** * What an evaluation answers

    Each check of [EvaluateRuntime] either stops with an answer that does not
    authorise anything or means that its condition holds; the finalisation only
    changes the answer when the hash cannot be computed. *)

From S2P Require Import Prelude GoStrings Sha256 GoTime GoJson DecTypes DecJson DecPolicy.
From S2P Require Import DecContracts DecKernel DecRuntime DecAdmission DecPending DecApproval.
From S2P Require Import DecFrame.
#[local] Open Scope Z_scope.

(** The answers that let a side effect through. *)
Definition executable (decision : string) : bool := one_of decision [DecisionAllow; DecisionRequireApproval].

Section Eval.
Context `{JsonMarshaler}.

(** ** Resolution only reads the contracts *)

Lemma first_contract_frame s s' path l :
  s_featureSignalContractsScoped s' = s_featureSignalContractsScoped s ->
  first_contract s' path l = first_contract s path l.
Proof.
  intros E. revert path. induction l as [|[sc [k key]] l IH]; intros path; [done|]. simpl.
  unfold usable_contract. rewrite E. by repeat case_match.
Qed.

Lemma resolve_calm s s' scope risk phase now : calm s s' ->
  resolveFeatureSignalContractWithBinding s' scope risk phase now =
  resolveFeatureSignalContractWithBinding s scope risk phase now.
Proof.
  intros C. pose proof (cm_scoped _ _ C) as E1. pose proof (cm_versions _ _ C) as E2.
  pose proof (cm_store _ _ C) as E3. clear C. unfold resolveFeatureSignalContractWithBinding.
  rewrite (first_contract_frame s s') by done. unfold activeFeatureSignalContractVersionLocked.
  by rewrite E2, E3.
Qed.

(** ** Finalisation *)

Lemma finalize_decision r : r_Decision (hash_response r) = r_Decision r.
Proof. unfold hash_response, finalizeRuntimeResponse, sort_response; cbv zeta. by case_match. Qed.

Lemma finalize_errors e r : e ∈ da_ErrorCodes (r_Audit r) -> e ∈ da_ErrorCodes (r_Audit (hash_response r)).
Proof.
  intros He. assert (Hs : e ∈ sort_Strings (da_ErrorCodes (r_Audit r))) by (unfold sort_Strings; by rewrite merge_sort_Permutation).
  unfold hash_response, finalizeRuntimeResponse, sort_response; cbv zeta. by case_match.
Qed.

(** A response hashed well. *)
Definition well_hashed (r : RuntimeDecisionResponse) : Prop :=
  bad_hash (r_DecisionHash r) = false /\ r_DecisionHashIsFallback r = false /\
  r_DecisionHashRef r = mk_DecisionHashRef (r_DecisionHash r) true DecisionHashKindStable.

Definition hash_failed (r : RuntimeDecisionResponse) : Prop :=
  r_Decision r = DecisionFailClosed /\ ErrCodeDecisionHashInvalid ∈ da_ErrorCodes (r_Audit r).

Lemma hash_response_ref r : bad_hash (r_DecisionHash (hash_response r)) = false ->
  well_hashed (hash_response r).
Proof.
  intros E. unfold well_hashed, hash_response; cbv zeta. unfold hash_response in E; cbv zeta in E.
  generalize dependent (finalizeRuntimeResponse r). intros r1. cbn. intros E. by rewrite E.
Qed.

Lemma hash_invalid_failed r : hash_failed (hash_response (hash_invalid r)).
Proof.
  split; [by rewrite finalize_decision|]. apply finalize_errors. cbn. apply elem_of_app. right. by left.
Qed.

Lemma hash_or_fail_spec r s :
  let r' := (hash_or_fail r s).2 in
  (r_Decision r' = r_Decision r /\ (hash_failed r -> hash_failed r') /\ well_hashed r') \/ hash_failed r'.
Proof.
  cbv zeta. unfold hash_or_fail; cbv zeta.
  pose proof (finalize_decision r) as Hd. pose proof (hash_response_ref r) as Hh.
  destruct (bad_hash (r_DecisionHash (hash_response r))) eqn:E1.
  2:{ left. cbn [snd]. split_and!; [exact Hd| |by apply Hh]. intros [F1 F2].
      split; [by rewrite Hd|by apply finalize_errors]. }
  right. pose proof (hash_invalid_failed (hash_response r)) as F.
  generalize dependent (hash_response (hash_invalid (hash_response r))). intros r2 F.
  destruct (bad_hash (r_DecisionHash r2)); [|exact F].
  destruct (nextFallbackID "dec_hash_" s) as [s2 h]. exact F.
Qed.

Lemma fill_ids_decision q r : r_Decision (fill_ids q r) = r_Decision r /\
  r_DecisionID (fill_ids q r) = r_DecisionID r /\ r_Audit (fill_ids q r) = r_Audit r.
Proof. unfold fill_ids; cbv zeta. by repeat case_match. Qed.

Lemma finalize_answer q r now s :
  let r' := (finalizeRuntimeDecision q r now s).2 in
  (r_Decision r' = r_Decision r /\ (hash_failed r -> hash_failed r') /\ well_hashed r') \/ hash_failed r'.
Proof.
  cbv zeta. unfold finalizeRuntimeDecision; cbv zeta. set (n := normalizeRuntimeRequest q).
  pose proof (hash_or_fail_spec (fill_ids n r) s) as Hs. cbv zeta in Hs.
  destruct (hash_or_fail _ _) as [s1 r1]. cbn [snd] in *. unfold hash_failed at 1 in Hs.
  destruct (fill_ids_decision n r) as (E1 & _ & E2). by rewrite E1, E2 in Hs.
Qed.

(** ** The soft failure guard *)

Lemma guard_answer q r now s :
  let r' := (applySoftFailureGuard q r now s).2 in
  r_Decision r' = r_Decision r \/
  (r_Decision r = DecisionReviewRequired /\
   (r_Decision r' = DecisionForceReview \/ r_Decision r' = DecisionFailed)).
Proof.
  cbv zeta. unfold applySoftFailureGuard; cbv zeta.
  destruct (r_Decision r =? DecisionReviewRequired)%string eqn:E; cbn [negb]; [|by left].
  apply String.eqb_eq in E. destruct (soft_step _ _ _ _) as [st [stage|]]; [by left|].
  case_match; [by left|]. right. split; [done|]. destruct (isHighOrCritical _); cbn; auto.
Qed.

(** ** The checks *)

Definition refuses (v : option verdict) : Prop :=
  match v with Some v => executable (r_Decision (verdict_response v)) = false | None => True end.

Ltac refuse := unfold refuses; repeat case_match; simplify_eq; try done; vm_compute; reflexivity.

Lemma decisionByRisk_refuses risk : executable (decisionByRisk risk) = false.
Proof. unfold decisionByRisk. by case_match. Qed.

Lemma input_refuses q now s r : refuses (input_gate q now s r).
Proof. unfold input_gate. refuse. Qed.
Lemma pin_refuses b f q now s r : refuses (pin_gate b f q now s r).
Proof. unfold pin_gate; cbv zeta. refuse. Qed.
Lemma missing_refuses c b q now s r : refuses (missing_gate c b q now s r).
Proof. unfold missing_gate; cbv zeta. case_match; [done|]. apply decisionByRisk_refuses. Qed.

Lemma trust_decision q c : let t := evaluateFeatureTrustContract q c in
  ft_Blocked t = true -> ft_Decision t = decisionByRisk (q_RiskTier q).
Proof. cbv zeta. unfold evaluateFeatureTrustContract; cbv zeta. by repeat case_match. Qed.

Lemma trust_refuses c b q now s r : refuses (trust_gate c b q now s r).
Proof.
  unfold trust_gate; cbv zeta. pose proof (trust_decision q c) as T. cbv zeta in T.
  destruct (ft_Blocked _); [|done]. cbn. rewrite (T eq_refl). case_match; [done|].
  apply decisionByRisk_refuses.
Qed.
Lemma profile_refuses q now s r : refuses (dcu_profile_gate q now s r).
Proof. unfold dcu_profile_gate; cbv zeta. refuse. Qed.
Lemma dcu_refuses p q now s r : refuses (dcu_gate p q now s r).
Proof. unfold dcu_gate, dcu_reject; cbv zeta. refuse. Qed.
Lemma freeze_refuses q now s r : refuses (freeze_gate q now s r).
Proof. unfold freeze_gate. repeat case_match; try done; apply decisionByRisk_refuses. Qed.
Lemma stale_refuses q now s r : refuses (stale_gate q now s r).
Proof. unfold stale_gate, evaluateFeatureStalePolicy; cbv zeta. refuse. Qed.
Lemma drift_refuses q now s r : refuses (drift_gate q now s r).
Proof. unfold drift_gate; cbv zeta. refuse. Qed.
Lemma engine_refuses q now s r : refuses (engine_gate q now s r).
Proof. unfold engine_gate. refuse. Qed.
Lemma approval_refuses q now s r : refuses (approval_gate q now s r).
Proof. unfold approval_gate. refuse. Qed.

(** ** The conditions under which every check lets the evaluation go on *)

Record all_clear (q : RuntimeDecisionRequest) (cfg : Config) (c : FeatureSignalContract)
    (b : FeatureSignalContractBinding) (found : bool) : Prop := mk_all_clear {
  clr_risk : isValidRisk (q_RiskTier q) = true;
  clr_effect : isValidEffect (q_EffectType q) = true;
  clr_graph : isHighOrCritical (q_RiskTier q) = true -> blank (q_DecisionGraphID q) = false;
  clr_pin_required : dc_RequireHighRiskContractPin cfg = true ->
    isHighOrCritical (q_RiskTier q) = true -> TrimSpace (q_FeatureContractHashPin q) <> "";
  clr_pin : TrimSpace (q_FeatureContractHashPin q) <> "" -> found = true /\
    EqualFold (TrimSpace (fb_ContractHash b)) (TrimSpace (q_FeatureContractHashPin q)) = true;
  clr_fields : missingFeatureSignalFieldsByContract q (fc_RequiredFields c) = [];
  clr_trust : ft_Blocked (evaluateFeatureTrustContract q c) = false;
  clr_budget : exists p, dc_DCUProfiles cfg !! q_RiskTier q = Some p /\
    db_Total (calcDCU (q_DCUInput q)) <= dpf_Limit p;
  clr_frozen : missingFrozenFields (fz_Frozen (q_Freeze q)) = [];
  clr_dynamic : forbiddenDynamicFields (fz_DynamicUsed (q_Freeze q)) = [];
  clr_stale : fs_StaleDetected (evaluateFeatureStalePolicy q) = true ->
    fs_Allow (evaluateFeatureStalePolicy q) = true;
  clr_drift : (evaluateFeatureDrift q).1 = false;
  clr_engine : default true (q_PolicyEngineAvailable q) = true;
  clr_approval : q_ApprovalSystemAvailable q = true
}.

(** What the policy then answers. *)
Definition policy_answer (q : RuntimeDecisionRequest) (rules : list PolicyRule) : string :=
  let d := pe_Decision (evaluatePolicyPhase (mk_PolicyInput (q_RiskTier q) (q_EffectType q)) (q_Phase q) rules) in
  if (d =? "")%string then DecisionAllow else d.

Lemma apply_policy_answer q rules r : r_Decision (apply_policy q rules r) = policy_answer q rules.
Proof.
  unfold apply_policy, policy_answer; cbv zeta.
  destruct (pe_Decision _ =? "")%string; cbn [negb]; by case_match.
Qed.

Lemma input_clear q now s r : input_gate q now s r = None <->
  isValidRisk (q_RiskTier q) = true /\ isValidEffect (q_EffectType q) = true /\
  (isHighOrCritical (q_RiskTier q) = true -> blank (q_DecisionGraphID q) = false).
Proof.
  unfold input_gate. destruct (isValidRisk _), (isValidEffect _), (isHighOrCritical _), (blank _);
    cbn; intuition congruence.
Qed.

Lemma pin_clear b f q now s r : pin_gate b f q now s r = None <->
  (dc_RequireHighRiskContractPin (s_cfg s) = true -> isHighOrCritical (q_RiskTier q) = true ->
     TrimSpace (q_FeatureContractHashPin q) <> "") /\
  (TrimSpace (q_FeatureContractHashPin q) <> "" -> f = true /\
     EqualFold (TrimSpace (fb_ContractHash b)) (TrimSpace (q_FeatureContractHashPin q)) = true).
Proof.
  unfold pin_gate; cbv zeta. generalize (TrimSpace (q_FeatureContractHashPin q)) as pin. intros pin.
  destruct (String.eqb_spec pin "") as [->|Hne];
    destruct (dc_RequireHighRiskContractPin _), (isHighOrCritical _), f, (EqualFold _ _);
    cbn; intuition congruence.
Qed.

Lemma missing_clear c b q now s r : missing_gate c b q now s r = None <->
  missingFeatureSignalFieldsByContract q (fc_RequiredFields c) = [].
Proof. unfold missing_gate; cbv zeta. by destruct (missingFeatureSignalFieldsByContract _ _). Qed.

Lemma trust_clear c b q now s r : trust_gate c b q now s r = None <->
  ft_Blocked (evaluateFeatureTrustContract q c) = false.
Proof. unfold trust_gate; cbv zeta. by destruct (ft_Blocked _). Qed.

Lemma dcu_clear p q now s r : dcu_gate p q now s r = None <->
  db_Total (calcDCU (q_DCUInput q)) <= dpf_Limit p.
Proof.
  unfold dcu_gate; cbv zeta. destruct (Z.ltb_spec (dpf_Limit p) (db_Total (calcDCU (q_DCUInput q)))).
  - destruct (dcu_reject _). split; [done|lia].
  - split; [lia|done].
Qed.

Lemma freeze_clear q now s r : freeze_gate q now s r = None <->
  missingFrozenFields (fz_Frozen (q_Freeze q)) = [] /\ forbiddenDynamicFields (fz_DynamicUsed (q_Freeze q)) = [].
Proof. unfold freeze_gate. destruct (missingFrozenFields _), (forbiddenDynamicFields _); cbn; intuition congruence. Qed.

Lemma stale_clear q now s r : stale_gate q now s r = None <->
  (fs_StaleDetected (evaluateFeatureStalePolicy q) = true -> fs_Allow (evaluateFeatureStalePolicy q) = true).
Proof. unfold stale_gate; cbv zeta. destruct (fs_StaleDetected _), (fs_Allow _); cbn; intuition congruence. Qed.

Lemma drift_clear q now s r : drift_gate q now s r = None <-> (evaluateFeatureDrift q).1 = false.
Proof. unfold drift_gate. destruct (evaluateFeatureDrift q) as [[|] ?]; cbn; intuition congruence. Qed.

Lemma engine_clear q now s r : engine_gate q now s r = None <-> default true (q_PolicyEngineAvailable q) = true.
Proof. unfold engine_gate. destruct (default _ _); cbn; repeat case_match; intuition congruence. Qed.

Lemma approval_clear q now s r : approval_gate q now s r = None <-> q_ApprovalSystemAvailable q = true.
Proof. unfold approval_gate. destruct (q_ApprovalSystemAvailable q); cbn; repeat case_match; intuition congruence. Qed.

(** ** The chain of checks *)

Definition answer (v : verdict) : string := r_Decision (verdict_response v).

(** A check followed by the rest: stopped with a refusal, or its condition
    holds and the rest decides. *)
Lemma or_else_cases v k : refuses v ->
  (v <> None /\ executable (answer (or_else v k)) = false) \/ (v = None /\ or_else v k = k).
Proof. destruct v; [left|right]; done. Qed.

Ltac next_gate R C :=
  match goal with |- context [or_else ?v ?k] =>
    let Hn := fresh "Hn" in let Hx := fresh "Hx" in
    destruct (or_else_cases v k R) as [[Hn Hx]|[Hn ->]];
    [left; split; [intros []; apply Hn, C; tauto|exact Hx]|rewrite C in Hn]
  end.

Lemma budget_gates_cases p q now s r cfg c b f :
  s_cfg s = cfg -> dc_DCUProfiles cfg !! q_RiskTier q = Some p ->
  (all_clear q cfg c b f -> db_Total (calcDCU (q_DCUInput q)) <= dpf_Limit p) ->
  let v := budget_gates p q now s r in
  (~ all_clear q cfg c b f /\ executable (answer v) = false) \/
  (db_Total (calcDCU (q_DCUInput q)) <= dpf_Limit p /\
   (missingFrozenFields (fz_Frozen (q_Freeze q)) = [] /\
    forbiddenDynamicFields (fz_DynamicUsed (q_Freeze q)) = []) /\
   (fs_StaleDetected (evaluateFeatureStalePolicy q) = true -> fs_Allow (evaluateFeatureStalePolicy q) = true) /\
   (evaluateFeatureDrift q).1 = false /\ default true (q_PolicyEngineAvailable q) = true /\
   q_ApprovalSystemAvailable q = true /\ answer v = policy_answer q (dc_PolicyRules cfg)).
Proof.
  intros Hcfg Hp Hb. cbv zeta. unfold budget_gates; cbv zeta.
  match goal with |- context [or_else ?v ?k] =>
    destruct (or_else_cases v k (dcu_refuses _ _ _ _ _)) as [[Hn Hx]|[Hn ->]] end.
  { left. split; [|exact Hx]. intros Hc. by apply Hn, dcu_clear, Hb. }
  apply dcu_clear in Hn. pose proof (count_freeze_quiet q s) as Q.
  set (s1 := count_freeze q s) in *. clearbody s1.
  next_gate (freeze_refuses q now s1 (with_dcu q p r)) freeze_clear.
  set (r1 := stale_response _ _). pose proof (stale_service_quiet q r1 now s1) as Q2.
  set (s2 := stale_service _ _ _ _) in *. clearbody s2 r1.
  next_gate (stale_refuses q now s2 r1) stale_clear.
  next_gate (drift_refuses q now s2 r1) drift_clear.
  next_gate (engine_refuses q now s2 r1) engine_clear.
  next_gate (approval_refuses q now s2 r1) approval_clear.
  right. repeat (split; [assumption|]). unfold answer. cbn [verdict_response].
  rewrite apply_policy_answer. destruct Q as [[Q _ _ _ _ _ _ _ _ _ _] _], Q2 as [[Q2 _ _ _ _ _ _ _ _ _ _] _].
  by rewrite Q2, Q, Hcfg.
Qed.

Lemma evaluate_gates_cases q now s r c b f :
  resolveFeatureSignalContractWithBinding s (q_FeatureContractScope q) (q_RiskTier q) (q_Phase q) now = (c, b, f) ->
  let v := evaluate_gates q now s r in
  (~ all_clear q (s_cfg s) c b f /\ executable (answer v) = false) \/
  (all_clear q (s_cfg s) c b f /\ answer v = policy_answer q (dc_PolicyRules (s_cfg s))).
Proof.
  intros Er. cbv zeta. unfold evaluate_gates. rewrite Er.
  next_gate (input_refuses q now s r) input_clear.
  set (r1 := r_set_FeatureContractBinding b r). clearbody r1.
  next_gate (pin_refuses b f q now s r1) pin_clear.
  next_gate (missing_refuses c b q now s r1) missing_clear.
  next_gate (trust_refuses c b q now s r1) trust_clear.
  destruct (or_else_cases (dcu_profile_gate q now s r1)
    match dc_DCUProfiles (s_cfg s) !! q_RiskTier q with
    | Some p => budget_gates p q now s r1 | None => Final s r1 end (profile_refuses q now s r1))
    as [[Hp Hx]|[Hp ->]]; unfold dcu_profile_gate in Hp; cbv zeta in Hp;
    destruct (dc_DCUProfiles (s_cfg s) !! q_RiskTier q) as [p|] eqn:Ep; try done.
  { left. split; [|exact Hx]. intros []. destruct clr_budget0 as (? & E & _). congruence. }
  destruct (budget_gates_cases p q now s r1 (s_cfg s) c b f eq_refl Ep) as [L|(B1 & B2 & B3 & B4 & B5 & B6 & B7)].
  { intros []. destruct clr_budget0 as (? & E & ?). congruence. }
  - by left.
  - right. split; [|exact B7]. split; try tauto. by exists p.
Qed.
End Eval.
