(* ===== verification/DecExamples.v ===== *)
(** * A concrete history of the Decision service

    A new service evaluates a request, the decision is confirmed, a ticket is
    admitted; the states of the witnesses. *)

From stdpp Require Import relations.
From S2P Require Import Prelude GoStrings Sha256 GoTime GoJson DecTypes DecJson DecPolicy.
From S2P Require Import DecContracts DecKernel DecRuntime DecAdmission DecPending DecApproval.
From S2P Require Import DecFrame DecInvariant DecTrace.
#[local] Open Scope Z_scope.

#[export] Existing Instance InMemoryFeatureSignalContractStore.

Definition dec_cfg : Config :=
  mk_Config ∅ ∅ 0 0 "" 0 ∅ [] ∅ 0 0 "" 0 0 0 0 0 false.

Definition dec_t0 : time := unix_epoch + 1700000000 * Second.

Definition d0 : Service := Eval vm_compute in initial dec_cfg dec_t0 (no_snapshot : Snapshot).

Definition dec_frozen : FrozenInput := mk_FrozenInput "ctx" "policy" "snap" "route" "quota" "sched".

Definition dec_q : RuntimeDecisionRequest := {|
  q_RequestID := "req-1"; q_TraceID := ""; q_TenantID := "tenant"; q_WorkflowID := "wf";
  q_RunID := "run-1"; q_StepID := "step-1"; q_RiskTier := "low"; q_EffectType := "write";
  q_DecisionGraphID := ""; q_ParentDecisionNodeIDs := []; q_ApprovalSystemAvailable := true;
  q_Freeze := mk_FreezeLayer dec_frozen []; q_Phase := ""; q_PolicyEngineAvailable := None;
  q_EvidenceFingerprint := ""; q_AttemptIndex := 1; q_DCUInput := mk_DCUInput 1 1 0 0;
  q_FeatureVersion := "v1"; q_FeatureSchemaVersion := ""; q_FeatureEvidenceRef := "ev";
  q_FeatureProducerID := "prod"; q_FeatureFreshnessMS := 0; q_FeatureTTLMS := 0;
  q_FeatureDriftScore := fzero; q_FeatureContractScope := mk_ScopeRef "" "" "";
  q_FeatureContractHashPin := "" |}.

Definition d1_full : Service * RuntimeDecisionResponse := Eval vm_compute in
  EvaluateRuntime d0 dec_q (dec_t0 + Second).
Definition d1 : Service := Eval vm_compute in d1_full.1.
Definition r1 : RuntimeDecisionResponse := Eval vm_compute in d1_full.2.
Definition id1 : string := Eval vm_compute in r_DecisionID r1.

Definition dec_confirm : ConfirmRunAdvanceRequest :=
  mk_ConfirmRunAdvanceRequest id1 "run-1" "step-1" 1 "PRE_TOOL" "" true.
Definition d2 : Service := Eval vm_compute in (ConfirmRunAdvance d1 dec_confirm (dec_t0 + 2 * Second)).1.

Definition dec_sched : ScheduleAdmissionRequest :=
  mk_ScheduleAdmissionRequest "req-2" "run-1" "step-1" "tenant" "low" "p1"
    (Some {[ "cpu" := float_of_Z 2 ]}) (Some {[ "cpu" := float_of_Z 4 ]}) false false.
Definition d3_full : Service * ScheduleAdmissionResponse := Eval vm_compute in
  EvaluateScheduleAdmission d2 dec_sched (dec_t0 + 3 * Second).
Definition d3 : Service := Eval vm_compute in d3_full.1.

Lemma dec_step (c : call unit) s s' : (exec c (s, tt)).1 = s' -> exec c (s, tt) = (s', tt).
Proof. destruct (exec c (s, tt)) as [x []]. by intros <-. Qed.

Lemma dec_reach_step (c : call unit) s s' : reach (Env := unit) s -> (exec c (s, tt)).1 = s' ->
  reach (Env := unit) s'.
Proof.
  intros (MR & CS & cfg & now & st & e1 & e2 & Hs) E. exists MR, CS, cfg, now, st, e1, tt.
  eapply rtc_r; [exact Hs|]. destruct e2. rewrite <- (dec_step c s s' E). apply step_call.
Qed.

Lemma d0_reach : reach (Env := unit) d0.
Proof.
  exists canonical_range, InMemoryFeatureSignalContractStore, dec_cfg, dec_t0, no_snapshot, tt, tt.
  match goal with |- steps (?x, _) _ => replace x with d0; [apply rtc_refl|] end.
  vm_compute. reflexivity.
Qed.
Lemma d1_reach : reach (Env := unit) d1.
Proof. apply (dec_reach_step (CallEvaluate dec_q (dec_t0 + Second)) d0); [apply d0_reach|]. vm_compute. reflexivity. Qed.
Lemma d2_reach : reach (Env := unit) d2.
Proof. apply (dec_reach_step (CallConfirm dec_confirm (dec_t0 + 2 * Second)) d1); [apply d1_reach|]. vm_compute. reflexivity. Qed.
Lemma d3_reach : reach (Env := unit) d3.
Proof. apply (dec_reach_step (CallSchedule dec_sched (dec_t0 + 3 * Second)) d2); [apply d2_reach|]. vm_compute. reflexivity. Qed.
