(* ===== verification/DecTheorems.v ===== *)
(** * The Decision service over its histories: invariant, machine, repair, cleanup *)

From stdpp Require Import relations.
From S2P Require Import Prelude GoStrings GoTime GoJson DecTypes DecJson DecPolicy DecContracts.
From S2P Require Import DecKernel DecRuntime DecAdmission DecPending DecApproval DecFrame.
From S2P Require Import DecInvariant DecTrace DecExamples.
#[local] Open Scope Z_scope.

(** ** The machine of one pending decision *)

(** Held, escalated or closed: no edge but removal leaves such an entry. *)
Definition pending_closed (p : PendingDecision) : bool :=
  one_of (p_Status p) [pendingStatusSafeguardHold; pendingStatusEscalatedOncall;
                       pendingStatusManuallyClosed].

Lemma closed_not_pending p : pending_closed p = true -> p_Status p <> pendingStatusPending.
Proof. intros H E. unfold pending_closed in H. rewrite E in H. by vm_compute in H. Qed.

Lemma closed_not_confirmed p : pending_closed p = true -> p_Status p <> pendingStatusConfirmed.
Proof. intros H E. unfold pending_closed in H. rewrite E in H. by vm_compute in H. Qed.

Lemma closed_final p x : pending_closed p = true -> rtc (pend_edge false) (Some p) x -> x = Some p.
Proof.
  intros Hp Hr. remember (Some p) as o eqn:Eo. induction Hr as [o|o y z He _ IH]; [done|]. subst o.
  apply closed_not_pending in Hp as H1. apply closed_not_confirmed in Hp as H2.
  inversion He; by simplify_eq.
Qed.

(** A confirmed entry stays as it is or is taken back into the safeguard. *)
Lemma confirmed_final p x : p_Status p = pendingStatusConfirmed -> rtc (pend_edge false) (Some p) x ->
  exists p', x = Some p' /\
    (p' = p \/ exists now, p' = with_status pendingStatusSafeguardHold now p).
Proof.
  intros Hp Hr. remember (Some p) as o eqn:Eo. destruct Hr as [o|o y z He Hr]; subst o.
  { exists p. eauto. }
  assert (Hs : ~ is_pending p) by (unfold is_pending; rewrite Hp; discriminate).
  inversion He; simplify_eq; try done.
  apply closed_final in Hr; [|done]. subst. eauto.
Qed.

Section Histories.
Context `{JsonMarshaler} {MR : MapRange} {Env : Type}.
Implicit Types (c : call Env) (st : Service * Env).

(** Several calls in order. *)
Definition history (cs : list (call Env)) st : Service * Env := foldl (fun st c => exec c st) st cs.

Lemma history_good cs st : SInv st.1 -> forallb (fun c => negb (is_cleanup c)) cs = true ->
  SInv (history cs st).1 /\ moves false st.1 (history cs st).1.
Proof.
  revert st. induction cs as [|c cs IH]; intros st HI Hc; simpl in *; [done|]. bool_hyps.
  destruct (exec_good c st HI) as [G1 G2]. destruct (IH (exec c st)) as [K1 K2]; [by apply G1|done|].
  split; [done|]. etransitivity; [|exact K2].
  match goal with H : is_cleanup c = false |- _ => rewrite H in G2 end. by apply G2.
Qed.
End Histories.

(** C5: every state of every history of the service satisfies the invariant:
    pending decisions are filed under their identifier, have an owner, a known
    status and a repair counter within its three actions; the current record of
    a decision is the last of its history, whose versions are consecutive and
    bounded in number; tickets and cases are filed under their identifiers;
    the outbox is bounded. *)
Theorem decision_reachable_invariant `{JsonMarshaler} {Env : Type} (s : Service) :
  reach (Env := Env) s -> SInv s.
Proof. apply reach_inv. Qed.

Lemma decision_reachable_invariant_witness : SInv d3.
Proof. apply (decision_reachable_invariant (Env := unit)). apply d3_reach. Defined.

(** Refinement: whatever calls happen, each pending decision follows the
    abstract machine: it is created pending with no repair attempt, may be
    touched while pending, leaves pending once for one of the four final
    statuses with its identity kept, can only be taken back from confirmed to
    the safeguard, and is only removed when final. *)
Theorem pending_refines_machine `{JsonMarshaler} {Env : Type} (s s' : Service) (env env' : Env) :
  reach (Env := Env) s -> steps (s, env) (s', env') ->
  forall id, rtc (pend_edge true) (s_pending s !! id) (s_pending s' !! id).
Proof. intros HI Hs. apply reach_inv in HI. by destruct (steps_good _ _ Hs HI). Qed.

Lemma pending_refines_machine_witness :
  rtc (pend_edge true) (s_pending d0 !! id1) (s_pending d2 !! id1).
Proof.
  apply (pending_refines_machine d0 d2 tt tt d0_reach). eapply (rtc_l _ _ (d1, tt)).
  - replace (d1, tt) with (exec (MR := canonical_range) (CallEvaluate dec_q (dec_t0 + Second)) (d0, tt))
      by (apply dec_step; vm_compute; reflexivity). apply step_call.
  - apply rtc_once.
    replace (d2, tt) with (exec (MR := canonical_range) (CallConfirm dec_confirm (dec_t0 + 2 * Second)) (d1, tt))
      by (apply dec_step; vm_compute; reflexivity). apply step_call.
Defined.

(** C10: safety: once a decision is under the safeguard, escalated or manually
    closed, no sequence of calls (cleanup aside, which forgets it) changes its
    entry, and the side-effect gate stays shut for it. *)
Theorem closed_never_executes `{JsonMarshaler} {MR : MapRange} {Env : Type} (s : Service) (env : Env)
    (cs : list (call Env)) (id : string) (p : PendingDecision) :
  reach (Env := Env) s -> s_pending s !! id = Some p -> pending_closed p = true ->
  forallb (fun c => negb (is_cleanup c)) cs = true ->
  s_pending (history cs (s, env)).1 !! id = Some p /\
  CanExecuteSideEffect (history cs (s, env)).1 id = false.
Proof.
  intros HI Hp Hc Hcs. apply reach_inv in HI.
  destruct (history_good cs (s, env) HI Hcs) as [_ Hm]. specialize (Hm id). cbn [fst] in Hm.
  rewrite Hp in Hm. apply closed_final in Hm; [|done]. split; [done|].
  unfold CanExecuteSideEffect. rewrite Hm.
  by rewrite (proj2 (String.eqb_neq _ _) (closed_not_confirmed p Hc)).
Qed.

(** A confirmed decision keeps its entry through every sequence of calls
    other than cleanups, up to the approval guard taking the confirmation back:
    no evaluation, repair, confirmation or termination changes it. *)
Theorem confirmed_stays `{JsonMarshaler} {MR : MapRange} {Env : Type} (s : Service) (env : Env)
    (cs : list (call Env)) (id : string) (p : PendingDecision) :
  reach (Env := Env) s -> s_pending s !! id = Some p -> p_Status p = pendingStatusConfirmed ->
  forallb (fun c => negb (is_cleanup c)) cs = true ->
  exists p', s_pending (history cs (s, env)).1 !! id = Some p' /\
    (p' = p \/ exists now, p' = with_status pendingStatusSafeguardHold now p).
Proof.
  intros HI Hp Hc Hcs. apply reach_inv in HI.
  destruct (history_good cs (s, env) HI Hcs) as [_ Hm]. specialize (Hm id). cbn [fst] in Hm.
  rewrite Hp in Hm. by apply confirmed_final in Hm.
Qed.

Definition d2_entry : PendingDecision := Eval vm_compute in
  default (new_pending "" "" "" "" (mk_pendingOwnerMeta 0 "") 0) (s_pending d2 !! id1).

Lemma confirmed_stays_witness :
  exists p', s_pending (history [CallSchedule dec_sched (dec_t0 + 3 * Second)] (d2, tt)).1 !! id1 = Some p' /\
    (p' = d2_entry \/ exists now, p' = with_status pendingStatusSafeguardHold now d2_entry).
Proof.
  apply (confirmed_stays d2 tt [CallSchedule dec_sched (dec_t0 + 3 * Second)] id1 d2_entry d2_reach);
    vm_compute; reflexivity.
Defined.

(** A closed decision: the confirmed request ended by hand. *)
Definition dec_close : TerminalizePendingDecisionRequest :=
  mk_TerminalizePendingDecisionRequest id1 "manually_closed" "no longer needed" "operator".
Definition d1_closed : Service := Eval vm_compute in
  (TerminalizePendingDecision d1 dec_close (dec_t0 + 2 * Second)).1.
Lemma d1_closed_reach : reach (Env := unit) d1_closed.
Proof.
  apply (dec_reach_step (CallTerminalize dec_close (dec_t0 + 2 * Second)) d1); [apply d1_reach|].
  vm_compute. reflexivity.
Qed.
Definition d1_closed_entry : PendingDecision := Eval vm_compute in
  default (new_pending "" "" "" "" (mk_pendingOwnerMeta 0 "") 0) (s_pending d1_closed !! id1).

Lemma closed_never_executes_witness :
  s_pending (history [CallConfirm dec_confirm (dec_t0 + 3 * Second)] (d1_closed, tt)).1 !! id1
    = Some d1_closed_entry /\
  CanExecuteSideEffect (history [CallConfirm dec_confirm (dec_t0 + 3 * Second)] (d1_closed, tt)).1 id1 = false.
Proof.
  apply (closed_never_executes d1_closed tt [CallConfirm dec_confirm (dec_t0 + 3 * Second)] id1
    d1_closed_entry d1_closed_reach); vm_compute; reflexivity.
Defined.

(** ** Repair *)

Lemma length_filter_bool {A} (f : A -> bool) (l : list A) :
  length (filter (fun x => f x = true) l) = length (List.filter f l).
Proof. induction l as [|x l IH]; [done|]. rewrite filter_cons. simpl. case_decide; destruct (f x); simpl; auto; done. Qed.

Lemma size_filter_range {MR : MapRange} {V} (f : string * V -> bool) (m : gmap string V) :
  size (filter (fun kv => f kv = true) m) = length (List.filter f (range_map m)).
Proof.
  rewrite map_filter_alt, <- length_filter_bool, range_map_perm.
  rewrite <- length_map_to_list, map_to_list_to_map; [done|].
  eapply sublist_NoDup; [apply (NoDup_fst_map_to_list m)|]. apply fmap_sublist, sublist_filter.
Qed.

Section Repair.
Context `{JsonMarshaler} {MR : MapRange}.

Lemma repair_visit_result now (st : Service * PendingRepairResult) k p :
  s_cfg (repair_visit now st k p).1 = s_cfg st.1 /\
  (repair_visit now st k p).2 =
    (if repair_due (s_cfg st.1) now p then count_repair (p_RepairAttempts (repaired now p)) st.2 else st.2).
Proof.
  destruct st as [s r]. unfold repair_visit. cbn [fst snd]. destruct (repair_due _ _ _); [|done].
  cbv zeta. split; [|done]. cbn [fst].
  match goal with |- s_cfg (emitEvent ?a ?b ?c ?d ?e ?f ?g) = _ =>
    destruct (emitEvent_quiet a b c d e f g) as [[] _] end. done.
Qed.

(** The counts of a scan: every due entry is scanned and either repaired or
    put under the safeguard. *)
Lemma repair_counts now cfg (l : list (string * PendingDecision)) (st : Service * PendingRepairResult) :
  s_cfg st.1 = cfg ->
  Forall (fun kv => repair_due cfg now kv.2 = true -> 1 <= p_RepairAttempts (repaired now kv.2) <= 3) l ->
  let r := (foldl (fun st kv => repair_visit now st kv.1 kv.2) st l).2 in
  rep_Scanned r = rep_Scanned st.2 + Z.of_nat (length (List.filter (fun kv => repair_due cfg now kv.2) l)) /\
  rep_Scanned r - rep_Repaired r - rep_SafeguardHold r =
    rep_Scanned st.2 - rep_Repaired st.2 - rep_SafeguardHold st.2 /\
  rep_Escalated r = rep_Escalated st.2.
Proof.
  cbv zeta. revert st. induction l as [|[k p] l IH]; intros st Hcfg Hl; cbn [foldl List.filter fst snd].
  { cbn. lia. }
  apply Forall_cons in Hl as [Hp Hl]. cbn [snd] in Hp.
  destruct (repair_visit_result now st k p) as [E1 E2].
  destruct (IH (repair_visit now st k p)) as (I1 & I2 & I3); [by rewrite E1|done|].
  rewrite I2, I3, I1, E2, Hcfg. destruct (repair_due cfg now p); [|done]. specialize (Hp eq_refl).
  set (n := p_RepairAttempts (repaired now p)) in *. clearbody n.
  assert (E : n = 1 \/ n = 2 \/ n = 3) by lia. destruct E as [E|[E|E]]; rewrite E; cbn; lia.
Qed.

Lemma repaired_attempts id p now : pend_ok id p -> is_pending p ->
  p_RepairAttempts (repaired now p) = p_RepairAttempts p + 1 /\
  p_Status (repaired now p) =
    (if p_RepairAttempts p + 1 <? 3 then pendingStatusPending else pendingStatusSafeguardHold) /\
  1 <= p_RepairAttempts p + 1 <= 3.
Proof.
  intros Hok Hp. destruct (repaired_spec id p now Hok Hp) as (_ & _ & E & Hle).
  pose proof (pk_attempts _ _ Hok) as Ha. split_and!; [done| |lia..].
  revert E. unfold repaired; cbv zeta. intros E. cbn in E |- *. rewrite E.
  assert (Hn : p_RepairAttempts p + 1 = 1 \/ p_RepairAttempts p + 1 = 2 \/ p_RepairAttempts p + 1 = 3) by lia.
  destruct Hn as [-> |[-> | ->]]; done.
Qed.

Lemma due_pending cfg now p : repair_due cfg now p = true -> is_pending p.
Proof. unfold repair_due, is_pending. intros E. by bool_hyps. Qed.
End Repair.

(** A repair sweep advances exactly the decisions pending longer than the
    TTL by one action (retry the confirmation, compare with the run, enter the
    safeguard) and counts each of them once; in reachable states it never
    reaches its fourth action, the escalation. *)
Theorem repair_effect `{JsonMarshaler} {MR : MapRange} {Env : Type} (s : Service) (now : time) :
  reach (Env := Env) s ->
  let s' := (RepairPendingDecisions s now).1 in
  let r := (RepairPendingDecisions s now).2 in
  (forall id, s_pending s' !! id =
     (p ← s_pending s !! id; Some (if repair_due (s_cfg s) now p then repaired now p else p))) /\
  (forall id p, s_pending s !! id = Some p -> repair_due (s_cfg s) now p = true ->
     p_RepairAttempts (repaired now p) = p_RepairAttempts p + 1 /\
     p_LastUpdatedAt (repaired now p) = now /\
     p_Status (repaired now p) =
       if p_RepairAttempts p + 1 <? 3 then pendingStatusPending else pendingStatusSafeguardHold) /\
  rep_Scanned r = Z.of_nat (size (filter (fun kv => repair_due (s_cfg s) now kv.2 = true) (s_pending s))) /\
  rep_Scanned r = rep_Repaired r + rep_SafeguardHold r /\ rep_Escalated r = 0.
Proof.
  intros HI. apply reach_inv in HI. cbv zeta. destruct (repair_loop s now HI) as (_ & _ & L).
  split; [exact L|].
  assert (Hdue : forall id p, s_pending s !! id = Some p -> repair_due (s_cfg s) now p = true ->
    p_RepairAttempts (repaired now p) = p_RepairAttempts p + 1 /\
    p_Status (repaired now p) =
      (if p_RepairAttempts p + 1 <? 3 then pendingStatusPending else pendingStatusSafeguardHold) /\
    1 <= p_RepairAttempts p + 1 <= 3).
  { intros id p Hp Hd. eapply repaired_attempts; [by apply (si_pending _ HI)|by eapply due_pending]. }
  split. { intros id p Hp Hd. by destruct (Hdue id p Hp Hd) as (? & ? & _). }
  destruct (repair_counts now (s_cfg s) (range_map (s_pending s)) (s, mk_PendingRepairResult 0 0 0 0 []))
    as (C1 & C2 & C3); [done| |].
  { apply Forall_forall. intros [k p] Hin Hd. apply range_map_elem in Hin. cbn [snd] in *.
    destruct (Hdue k p Hin Hd) as (E & _ & ?). by rewrite E. }
  unfold RepairPendingDecisions, go_range. cbn [snd rep_Scanned rep_Repaired rep_SafeguardHold rep_Escalated] in C1, C2, C3.
  split_and!; [|lia|exact C3]. rewrite C1. cbn [Z.add]. f_equal.
  rewrite (size_filter_range (fun kv => repair_due (s_cfg s) now kv.2)). done.
Qed.

Lemma repair_effect_witness :
  rep_Escalated (RepairPendingDecisions d1 (dec_t0 + Hour)).2 = 0 /\
  rep_Repaired (RepairPendingDecisions d1 (dec_t0 + Hour)).2 = 1.
Proof.
  destruct (repair_effect d1 (dec_t0 + Hour) d1_reach) as (_ & _ & Hs & Hr & He).
  split; [exact He|]. vm_compute. reflexivity.
Defined.

(** C29: liveness of the repair: a decision nobody confirms is under the
    safeguard after at most three due sweeps, whatever its position in the
    ladder: [3 - attempts] sweeps, each more than the TTL after the last
    update, suffice. *)
Theorem repair_terminates `{JsonMarshaler} {MR : MapRange} {Env : Type} (s : Service) (id : string)
    (p : PendingDecision) (ts : list time) :
  reach (Env := Env) s -> s_pending s !! id = Some p -> is_pending p ->
  Z.of_nat (length ts) = 3 - p_RepairAttempts p ->
  (forall i t u, (p_LastUpdatedAt p :: ts) !! i = Some t -> (p_LastUpdatedAt p :: ts) !! S i = Some u ->
     dc_PendingDecisionTTL (s_cfg s) < Sub u t) ->
  exists p', s_pending (foldl (fun s t => (RepairPendingDecisions s t).1) s ts) !! id = Some p' /\
    p_Status p' = pendingStatusSafeguardHold /\ p_DecisionID p' = p_DecisionID p.
Proof.
  intros HI. apply reach_inv in HI. revert s p HI.
  induction ts as [|t ts IH]; intros s p HI Hp Hpend Hlen Hgap.
  { pose proof (pk_repair _ _ (si_pending _ HI _ _ Hp) Hpend). simpl in Hlen. lia. }
  destruct (repair_loop s t HI) as ([G _] & Hcfg & L). specialize (L id). rewrite Hp in L. simpl in L.
  assert (Hd : repair_due (s_cfg s) t p = true).
  { unfold repair_due. rewrite (proj2 (String.eqb_eq _ _) Hpend). simpl.
    specialize (Hgap 0%nat (p_LastUpdatedAt p) t eq_refl eq_refl).
    apply negb_true_iff, Z.leb_gt. lia. }
  rewrite Hd in L.
  destruct (repaired_attempts id p t (si_pending _ HI _ _ Hp) Hpend) as (E1 & E2 & E3). cbn [foldl].
  destruct ts as [|u ts].
  - exists (repaired t p). split; [done|]. split; [|done]. simpl in Hlen.
    rewrite E2. by replace (p_RepairAttempts p + 1 <? 3) with false by (symmetry; apply Z.ltb_ge; lia).
  - destruct (IH (RepairPendingDecisions s t).1 (repaired t p)) as (p' & Hp' & Hs & Hi).
    + by apply G.
    + done.
    + unfold is_pending. rewrite E2. cbn [length] in Hlen.
      by replace (p_RepairAttempts p + 1 <? 3) with true by (symmetry; apply Z.ltb_lt; lia).
    + rewrite E1. cbn [length] in *. lia.
    + rewrite Hcfg. intros i. apply (Hgap (S i)).
    + by exists p'.
Qed.

Definition d1_entry : PendingDecision := Eval vm_compute in
  default (new_pending "" "" "" "" (mk_pendingOwnerMeta 0 "") 0) (s_pending d1 !! id1).

Lemma repair_terminates_witness :
  exists p', s_pending (foldl (fun s t => (RepairPendingDecisions s t).1) d1
      [dec_t0 + Hour; dec_t0 + 2 * Hour; dec_t0 + 3 * Hour]) !! id1 = Some p' /\
    p_Status p' = pendingStatusSafeguardHold /\ p_DecisionID p' = p_DecisionID d1_entry.
Proof.
  apply (repair_terminates d1 id1 d1_entry [dec_t0 + Hour; dec_t0 + 2 * Hour; dec_t0 + 3 * Hour] d1_reach).
  - vm_compute. reflexivity.
  - vm_compute. reflexivity.
  - vm_compute. reflexivity.
  - intros [|[|[|i]]] t u H1 H2; vm_compute in H1, H2; simplify_eq; vm_compute; reflexivity.
Defined.

(** ** Cleanup *)

(** Cleanup deletes exactly the expired entries of each map, histories with
    their decisions; a decision still pending and an approval still awaiting
    are never deleted, whatever their age. *)
Theorem cleanup_effect {MR : MapRange} (s : Service) (now : time) :
  let s' := (CleanupExpired s now).1 in
  let at_ := resolveCleanupNow s now in
  (forall id, s_pending s' !! id =
     (p ← s_pending s !! id; if pending_expired (s_cfg s) at_ p then None else Some p)) /\
  (forall id, s_decisions s' !! id =
     (d ← s_decisions s !! id; if decision_expired (s_cfg s) at_ d then None else Some d)) /\
  (forall id d, s_decisions s !! id = Some d -> s_decisionHistory s' !! id =
     if decision_expired (s_cfg s) at_ d then None else s_decisionHistory s !! id) /\
  (forall id, s_tickets s' !! id =
     (t ← s_tickets s !! id; if ticket_expired (s_cfg s) at_ t then None else Some t)) /\
  (forall id, s_approvals s' !! id =
     (a ← s_approvals s !! id; if approval_expired (s_cfg s) at_ a then None else Some a)) /\
  (forall id p, s_pending s !! id = Some p -> is_pending p -> s_pending s' !! id = Some p) /\
  (forall id a, s_approvals s !! id = Some a -> ac_Status a = "awaiting_approval" ->
     s_approvals s' !! id = Some a).
Proof.
  cbv zeta. unfold CleanupExpired; cbv zeta. set (cn := resolveCleanupNow s now).
  pose proof (purge_lookup (pending_expired (s_cfg s) cn) (s_pending s)) as Lp.
  destruct (purge (pending_expired _ _) _) as [mp np].
  destruct (purge (soft_expired _ _) _) as [ms ns].
  pose proof (purge_decisions_spec (s_cfg s) cn s) as Ld. unfold purge_decisions in Ld.
  destruct (go_range _ _ _) as [[md mh] nd].
  pose proof (purge_lookup (ticket_expired (s_cfg s) cn) (s_tickets s)) as Lt.
  destruct (purge (ticket_expired _ _) _) as [mt nt].
  pose proof (purge_lookup (approval_expired (s_cfg s) cn) (s_approvals s)) as La.
  destruct (purge (approval_expired _ _) _) as [ma na]. cbn [fst snd] in *.
  match goal with |- context [trimOutboxLocked ?n ?x] => pose proof (trimOutbox_kept n x) as Q;
    destruct (trimOutboxLocked n x) as [s2 tr] end.
  cbn [fst] in *. destruct Q as [_ E2 E3 E4 E5 E6 _ _ _ _ _].
  rewrite E2, E3, E4, E5, E6. cbn. split_and!; auto.
  - intros id. apply Ld.
  - intros id d Hd. rewrite (proj2 (Ld id)). by rewrite Hd.
  - intros id p Hp Hs. rewrite Lp, Hp. simpl. unfold pending_expired. by rewrite (proj2 (String.eqb_eq _ _) Hs).
  - intros id a Ha Hs. rewrite La, Ha. simpl. unfold approval_expired. by rewrite Hs.
Qed.

Lemma cleanup_effect_witness :
  s_pending (CleanupExpired d1 (dec_t0 + 1000 * Hour)).1 !! id1 = s_pending d1 !! id1.
Proof.
  destruct (cleanup_effect d1 (dec_t0 + 1000 * Hour)) as (_ & _ & _ & _ & _ & Hp & _).
  rewrite (Hp id1 d1_entry); vm_compute; reflexivity.
Defined.
