(* ===== verification/DecGateTheorems.v ===== *)
(** * The gates of the Decision service

    What it takes for a side effect to be let through
    ([CanExecuteSideEffectFinal]), for a receipt to be accepted and for an
    admission to issue a ticket. *)

From S2P Require Import Prelude GoStrings Sha256 GoTime GoJson DecTypes DecJson DecPolicy.
From S2P Require Import DecContracts DecKernel DecRuntime DecAdmission DecPending DecFrame.
From S2P Require Import DecInvariant DecTrace DecExamples.
#[local] Open Scope Z_scope.

(** ** Receipts *)

(** A loop over a map that returns at the first hit finds one iff there is one. *)
Lemma existsb_range {MR : MapRange} {V} (f : string * V -> bool) (m : gmap string V) :
  existsb f (range_map m) = false <-> (forall k v, m !! k = Some v -> f (k, v) = false).
Proof.
  rewrite <- not_true_iff_false, existsb_exists. split.
  - intros Hn k v Hk. apply not_true_iff_false. intros Hf. apply Hn. exists (k, v).
    split; [|done]. apply list_elem_of_In. by apply range_map_elem.
  - intros Hall ([k v] & Hin & Hf). apply list_elem_of_In, range_map_elem in Hin.
    rewrite (Hall k v Hin) in Hf. done.
Qed.

(** Every used resource is within its limit; an absent limit is zero. *)
Definition within (used allowed : Resources) : Prop :=
  forall k v, default ∅ used !! k = Some v -> fltb (res_get allowed k) v = false.

Lemma resource_exceeds_spec {MR : MapRange} used allowed :
  resource_exceeds used allowed = false <-> within used allowed.
Proof. unfold resource_exceeds, within. by rewrite existsb_range. Qed.

(** What a receipt has to say of a ticket. *)
Record receipt_fits (t : DispatchTicket) (x : ExecutionReceipt) : Prop := mk_receipt_fits {
  rf_live : xr_ReceivedAt x <= t_ExpiresAt t;
  rf_named : blank (xr_RunID x) = false /\ blank (xr_StepID x) = false /\ blank (xr_TenantID x) = false;
  rf_bound : xr_RunID x = t_RunID t /\ xr_StepID x = t_StepID t /\ xr_TenantID x = t_TenantID t;
  rf_within : within (xr_UsedResources x) (t_AllowedResources t)
}.

Lemma receipt_accepted_spec {MR : MapRange} s x :
  xp_Accepted (ValidateExecutionReceipt s x) = true <->
  exists t, s_tickets s !! xr_TicketID x = Some t /\ receipt_fits t x.
Proof.
  unfold ValidateExecutionReceipt; cbv zeta. destruct (s_tickets s !! _) as [t|] eqn:Et.
  2:{ split; [done|]. by intros (? & ? & ?). }
  unfold After. destruct (Z.ltb_spec (t_ExpiresAt t) (xr_ReceivedAt x)) as [Hl|Hl].
  { split; [done|]. intros (? & [= <-] & []). lia. }
  destruct (blank (xr_RunID x) || blank (xr_StepID x) || blank (xr_TenantID x)) eqn:Eb.
  { split; [done|]. intros (? & [= <-] & [_ (B1 & B2 & B3) _ _]). by rewrite B1, B2, B3 in Eb. }
  apply orb_false_iff in Eb as [Eb B3]. apply orb_false_iff in Eb as [B1 B2].
  destruct (negb (xr_RunID x =? t_RunID t)%string || _ || _) eqn:En.
  { split; [done|]. intros (? & [= <-] & [_ _ (N1 & N2 & N3) _]).
    by rewrite N1, N2, N3, !String.eqb_refl in En. }
  apply orb_false_iff in En as [En N3]. apply orb_false_iff in En as [N1 N2].
  apply negb_false_iff, String.eqb_eq in N1, N2, N3.
  destruct (resource_exceeds _ _) eqn:Er.
  - split; [done|]. intros (? & [= <-] & [_ _ _ W]). apply resource_exceeds_spec in W. congruence.
  - apply resource_exceeds_spec in Er. split; [|done]. intros _. by exists t.
Qed.

Lemma receipt_reason {MR : MapRange} s x :
  match xp_ReasonCodes (ValidateExecutionReceipt s x) with
  | [] => xp_Accepted (ValidateExecutionReceipt s x) = true
  | [_] => xp_Accepted (ValidateExecutionReceipt s x) = false
  | _ => False
  end.
Proof. unfold ValidateExecutionReceipt; cbv zeta. by repeat case_match. Qed.

(** ** The side-effect gate *)

(** The stored decision authorises: its hash is stable and its answer is
    executable. *)
Definition authorises (d : StoredDecision) : Prop :=
  stable_ref (effective_ref d) = true /\
  one_of (lower_trim (extractStringFieldFromMap (d_Response d) "decision"))
    [DecisionAllow; DecisionRequireApproval] = true.

Lemma can_execute_spec s id :
  CanExecuteSideEffect s id = true <->
  (exists p, s_pending s !! id = Some p /\ p_Status p = pendingStatusConfirmed) /\
  (exists d, s_decisions s !! id = Some d /\ authorises d).
Proof.
  unfold CanExecuteSideEffect, authorises. destruct (s_pending s !! id) as [p|].
  2:{ split; [done|]. by intros [(? & ? & ?) _]. }
  destruct (p_Status p =? pendingStatusConfirmed)%string eqn:Es.
  2:{ split; [done|]. intros [(? & [= <-] & E) _]. by rewrite E in Es. }
  apply String.eqb_eq in Es. cbn [negb]. destruct (s_decisions s !! id) as [d|].
  2:{ split; [done|]. by intros [_ (? & ? & ?)]. }
  destruct (stable_ref _) eqn:Er; cbn [negb].
  - split; [intros E; split; eauto|]. by intros [_ (? & [= <-] & _ & E)].
  - split; [done|]. intros [_ (? & [= <-] & E & _)]. by rewrite Er in E.
Qed.

(** C11: the side-effect gate opens iff the decision is confirmed, its stored
    record has a stable hash and an executable answer, the run exists and is
    RUNNING, and the receipt names a stored ticket of this run, step and tenant
    that is still valid and covers every used resource; otherwise it answers
    exactly one reason. *)
Theorem side_effect_iff {MR : MapRange} (s : Service) (port : option (string -> option RunStateReference))
    (q : SideEffectGateRequest) (now : time) :
  let r := CanExecuteSideEffectFinal s port q now in
  let id := gq_DecisionID q in
  let ticketID := extractTicketIDFromExecutionReceiptRef (gq_ExecutionReceiptRef q) in
  (r.1 = true <->
     (exists p, s_pending s !! id = Some p /\ p_Status p = pendingStatusConfirmed) /\
     (exists d, s_decisions s !! id = Some d /\ authorises d) /\
     (exists get ref, port = Some get /\ get (gq_RunID q) = Some ref /\ upper_trim (rst_State ref) = "RUNNING") /\
     ticketID <> "" /\ default ∅ (gq_ExecutionUsedResources q) <> ∅ /\
     (exists t, s_tickets s !! ticketID = Some t /\
        receipt_fits t (mk_ExecutionReceipt ticketID (gq_RunID q) (gq_StepID q) (gq_TenantID q)
          (gq_ExecutionUsedResources q)
          (if IsZero (gq_ExecutionReceiptAt q) then now else gq_ExecutionReceiptAt q)))) /\
  (if r.1 then r.2 = [] else exists reason, r.2 = [reason]).
Proof.
  cbv zeta. unfold CanExecuteSideEffectFinal. pose proof (can_execute_spec s (gq_DecisionID q)) as Hc.
  destruct (CanExecuteSideEffect s _); cbn [negb].
  2:{ split; [|by eexists]. split; [done|]. intros (H1 & H2 & _). destruct Hc as [_ Hc]. by specialize (Hc (conj H1 H2)). }
  destruct Hc as [Hc _]. destruct (Hc eq_refl) as [H1 H2]. clear Hc.
  destruct port as [port|].
  2:{ split; [|by eexists]. split; [done|]. by intros (_ & _ & (? & ? & ? & _) & _). }
  destruct (port (gq_RunID q)) as [ref|] eqn:Ep.
  2:{ split; [|by eexists]. split; [done|]. intros (_ & _ & (? & ? & [= <-] & E & _) & _). congruence. }
  destruct (upper_trim (rst_State ref) =? "RUNNING")%string eqn:Er; cbn [negb].
  2:{ split; [|by eexists]. split; [done|]. intros (_ & _ & (? & ? & [= <-] & E & E2) & _).
      apply String.eqb_neq in Er. congruence. }
  apply String.eqb_eq in Er. unfold ValidateExecutionReceiptForRun; cbv zeta.
  set (tid := extractTicketIDFromExecutionReceiptRef _).
  destruct (tid =? "")%string eqn:Et.
  { apply String.eqb_eq in Et. split; [|by eexists]. split; [done|]. by intros (_ & _ & _ & ? & _). }
  apply String.eqb_neq in Et.
  destruct (size (default ∅ (gq_ExecutionUsedResources q)) =? 0)%nat eqn:Ez.
  { apply Nat.eqb_eq, map_size_empty_inv in Ez. split; [|by eexists]. split; [done|]. by intros (_ & _ & _ & _ & ? & _). }
  apply Nat.eqb_neq in Ez.
  assert (Hne : default ∅ (gq_ExecutionUsedResources q) <> ∅) by (intros E; by rewrite E, map_size_empty in Ez).
  set (x := mk_ExecutionReceipt _ _ _ _ _ _). pose proof (receipt_accepted_spec s x) as Ha.
  pose proof (receipt_reason s x) as Hr. subst x. cbn [xr_TicketID] in Ha.
  destruct (ValidateExecutionReceipt s _) as [acc codes]. cbn [xp_Accepted xp_ReasonCodes] in *.
  assert (Hfit : forall t at_, receipt_fits t (mk_ExecutionReceipt tid (gq_RunID q) (gq_StepID q) (gq_TenantID q)
      (cloneResourceMap (gq_ExecutionUsedResources q)) at_) <->
    receipt_fits t (mk_ExecutionReceipt tid (gq_RunID q) (gq_StepID q) (gq_TenantID q)
      (gq_ExecutionUsedResources q) at_)).
  { intros t at_. split; by intros []. }
  destruct acc; cbn [negb fst snd].
  - split; [|done]. split; [intros _|done]. destruct (proj1 Ha eq_refl) as (t & Ht & Hf).
    split; [done|]. split; [done|]. split; [by exists port, ref|]. do 2 (split; [done|]).
    exists t. by rewrite <- Hfit.
  - split.
    + split; [done|]. intros (_ & _ & _ & _ & _ & t & Ht & Hf). destruct Ha as [_ Ha].
      rewrite <- Hfit in Hf. by specialize (Ha (ex_intro _ t (conj Ht Hf))).
    + destruct codes as [|c [|]]; by eauto.
Qed.

(** A confirmed decision, a running run, a ticket: the gate opens. *)
Definition dec_gate : SideEffectGateRequest :=
  mk_SideEffectGateRequest id1 "run-1" "step-1" "tenant" "RUNNING" "ticket://ticket_198372558d6302a5"
    (Some {[ "cpu" := float_of_Z 1 ]}) (dec_t0 + 4 * Second).

Example side_effect_open :
  (CanExecuteSideEffectFinal d3 (Some (fun _ => Some (mk_RunStateReference "run-1" "running" 1 1)))
     dec_gate (dec_t0 + 4 * Second)).1 = true.
Proof. vm_compute. reflexivity. Qed.

(** ** Admission *)

Section Admission.
Context `{JsonMarshaler}.

Lemma record_keeps kind id i now s :
  s_tickets (recordDecisionLocked kind id i now s) = s_tickets s /\
  s_cfg (recordDecisionLocked kind id i now s) = s_cfg s /\
  s_approvals (recordDecisionLocked kind id i now s) = s_approvals s /\
  s_softFailures (recordDecisionLocked kind id i now s) = s_softFailures s.
Proof. unfold recordDecisionLocked; cbv zeta. by repeat case_match. Qed.

Lemma emit_tickets ty d r st kvs at_ s : s_tickets (emitEvent ty d r st kvs at_ s) = s_tickets s.
Proof. by destruct (emitEvent_quiet ty d r st kvs at_ s) as [[] _]. Qed.

(** A denied admission: the answer and the tickets. *)
Definition denied (s : Service) (out : Service * ScheduleAdmissionResponse) : Prop :=
  sp_Decision out.2 = DecisionDeny /\ sp_Ticket out.2 = None /\ s_tickets out.1 = s_tickets s.

Lemma denied_calm s s1 out : calm s s1 -> denied s1 out -> denied s out.
Proof. intros [] (? & ? & E). unfold denied. by rewrite E. Qed.

Lemma reject_denied reason q r now s : sp_Decision r = DecisionDeny -> sp_Ticket r = None ->
  denied s (reject_schedule reason q r now s).
Proof.
  intros Hd Ht. unfold denied, reject_schedule, persist_schedule, persistDecision. cbn [fst snd].
  split_and!; [done..|]. rewrite emit_tickets. apply record_keeps.
Qed.

Lemma persist_denied q r now s : sp_Decision r = DecisionDeny -> sp_Ticket r = None ->
  denied s (persist_schedule q r now s, r).
Proof. intros Hd Ht. split_and!; [done..|]. apply record_keeps. Qed.

(** What an admitted request gets. *)
Record admitted (s : Service) (q : ScheduleAdmissionRequest) (now : time)
    (out : Service * ScheduleAdmissionResponse) (t : DispatchTicket) : Prop := mk_admitted {
  ad_decision : sp_Decision out.2 = DecisionAllow;
  ad_stored : s_tickets out.1 = <[t_TicketID t := t]> (s_tickets s);
  ad_bound : t_RunID t = sq_RunID q /\ t_StepID t = sq_StepID q /\ t_TenantID t = sq_TenantID q;
  ad_allowed : t_AllowedResources t = Some (default ∅ (sq_RequestedResources q));
  ad_expires : t_ExpiresAt t = now + dc_TicketTTL (s_cfg s);
  ad_hash : t_DecisionHash t = sp_DecisionHash out.2 /\ hr_Valid (sp_DecisionHashRef out.2) = true;
  ad_preempt : t_Preemptable t = sq_AllowPreempt q && negb (isHighOrCritical (ToLower (sq_RiskTier q)))
}.

Lemma admit_spec q r hash now s : sp_Decision r = DecisionAllow ->
  sp_Preemptable r = sq_AllowPreempt q && negb (isHighOrCritical (ToLower (sq_RiskTier q))) ->
  (exists t, sp_Ticket (admit_ticket q r hash now s).2 = Some t /\ admitted s q now (admit_ticket q r hash now s) t) \/
  denied s (admit_ticket q r hash now s).
Proof.
  intros Hd Hp. unfold admit_ticket. pose proof (makeBestEffortID_calm "ticket_" (ticket_id_input q hash) s) as C.
  destruct (makeBestEffortID _ _ s) as [s1 [id [|]]]; cbn [fst] in C.
  - left. cbv zeta. eexists. cbn [fst snd]. split; [reflexivity|].
    destruct C as [C1 _ _ _ C2 _ _ _ _ _ _]. split.
    + exact Hd.
    + cbn [fst]. rewrite emit_tickets. unfold persist_schedule, persistDecision.
      rewrite (proj1 (record_keeps _ _ _ _ _)). unfold set_ticket. cbn. by rewrite C2.
    + done.
    + done.
    + cbn. by rewrite C1.
    + done.
    + exact Hp.
  - right. eapply denied_calm; [exact C|]. by apply persist_denied.
Qed.

Lemma admitted_calm s s1 q now out t : calm s s1 -> admitted s1 q now out t -> admitted s q now out t.
Proof. intros [C1 _ _ _ C2 _ _ _ _ _ _] []. split; try done; by rewrite <- ?C1, <- ?C2. Qed.

Lemma denied_fallback s (k : Service -> string -> Service * ScheduleAdmissionResponse) :
  (forall s1 h, denied s1 (k s1 h)) ->
  denied s (let '(s1, h) := nextFallbackID "sched_hash_" s in k s1 h).
Proof.
  intros Hk. pose proof (nextFallbackID_calm "sched_hash_" s) as Cf.
  destruct (nextFallbackID "sched_hash_" s) as [s1 h]. by eapply denied_calm.
Qed.

Lemma deny_quota_denied q id now s : denied s (deny_quota q (schedule_start id q) now s).
Proof.
  unfold deny_quota; cbv zeta. destruct (safeHash _) as [h|]; [by apply reject_denied|].
  apply denied_fallback. intros s1 h. by apply reject_denied.
Qed.

(** A denial answers without a ticket. *)
Lemma denied_outcome s out (P : DispatchTicket -> Prop) : denied s out ->
  match sp_Ticket out.2 with Some t => P t | None => denied s out end.
Proof. intros D. destruct D as (D1 & D2 & D3) eqn:E. by rewrite D2. Qed.
End Admission.

(** C20: an admission is either allowed, and then the requested resources are
    within the quota and a fresh ticket is stored that accepts exactly the
    receipts of this run, step and tenant within the admitted resources up to
    the end of the ticket's life; or denied, and then no ticket changes. *)
Theorem admission_ticket `{JsonMarshaler} {MR : MapRange} (s : Service) (q : ScheduleAdmissionRequest)
    (now : time) :
  let out := EvaluateScheduleAdmission s q now in
  match sp_Ticket out.2 with
  | Some t =>
    (forall k need, default ∅ (sq_RequestedResources q) !! k = Some need ->
       fltb (res_get (sq_QuotaRemaining q) k) need = false) /\
    admitted s q now out t /\
    (forall x, xr_TicketID x = t_TicketID t ->
       (xp_Accepted (ValidateExecutionReceipt out.1 x) = true <-> receipt_fits t x))
  | None => denied s out
  end.
Proof.
  cbv zeta. unfold EvaluateScheduleAdmission.
  pose proof (makeBestEffortID_calm "dec_sched_" (schedule_id_input q) s) as C.
  destruct (makeBestEffortID _ _ s) as [s1 [id [|]]]; cbn [fst] in C.
  2:{ apply denied_outcome. eapply denied_calm; [exact C|].
      apply denied_fallback. intros s2 h. by apply persist_denied. }
  cbv zeta. destruct (quotaExceeded _ _) eqn:Eq.
  { apply denied_outcome. eapply denied_calm; [exact C|]. apply deny_quota_denied. }
  destruct (safeHash _) as [h|].
  2:{ apply denied_outcome. eapply denied_calm; [exact C|].
      apply denied_fallback. intros s2 h. by apply reject_denied. }
  match goal with |- context [admit_ticket q ?r h now s1] =>
    destruct (admit_spec q r h now s1) as [(t & Ht & A)|D]; [done|done| |] end.
  2:{ apply denied_outcome. by eapply denied_calm. }
  rewrite Ht. apply (admitted_calm _ _ _ _ _ _ C) in A. split_and!; [|exact A|].
  - unfold quotaExceeded in Eq. intros k need. apply (proj1 (existsb_range _ _) Eq k need).
  - intros x Hx. rewrite receipt_accepted_spec, Hx, (ad_stored _ _ _ _ _ A), lookup_insert_eq.
    split; [by intros (? & [= <-] & ?)|by exists t].
Qed.

Example admitted_example : sp_Decision d3_full.2 = DecisionAllow.
Proof. reflexivity. Qed.
