(* ===== verification/DecEvalTheorems.v ===== *)
(** * Evaluation: who is authorised, what is stored, how it is confirmed *)

From S2P Require Import Prelude GoStrings Sha256 GoTime GoJson DecTypes DecJson DecPolicy.
From S2P Require Import DecContracts DecKernel DecRuntime DecAdmission DecPending DecApproval.
From S2P Require Import DecFrame DecInvariant DecTrace DecEval DecExamples.
From S2P Require Import DecGateTheorems.
#[local] Open Scope Z_scope.

Section Eval.
Context `{JsonMarshaler}.

(** The maps an evaluation only touches in its finalisation. *)
Record same_store (s s' : Service) : Prop := mk_same_store {
  ss_cfg : s_cfg s' = s_cfg s;
  ss_pending : s_pending s' = s_pending s;
  ss_decisions : s_decisions s' = s_decisions s;
  ss_history : s_decisionHistory s' = s_decisionHistory s
}.

Lemma calm_store s s' : calm s s' -> same_store s s'.
Proof. intros []. by split. Qed.

Lemma store_trans s1 s2 s3 : same_store s1 s2 -> same_store s2 s3 -> same_store s1 s3.
Proof. intros [] []. split; congruence. Qed.

Lemma guard_store q r now s : same_store s (applySoftFailureGuard q r now s).1.
Proof.
  unfold applySoftFailureGuard; cbv zeta. case_match; [done|].
  destruct (soft_step _ _ _ _) as [st [stage|]]; [done|]. case_match; [done|].
  destruct (if isHighOrCritical _ then _ else _) as [d stage]. cbn [fst].
  eapply store_trans; [|apply calm_store, quiet_calm, emitEvent_quiet]. done.
Qed.

(** The end of an evaluation: the checks, the guard, the finalisation. *)
Definition run_checks (n : RuntimeDecisionRequest) (now : time) (s : Service)
    (r : RuntimeDecisionResponse) : Service * RuntimeDecisionResponse :=
  match evaluate_gates n now s r with
  | Final s resp => finalizeRuntimeDecision n resp now s
  | Guarded s resp => let '(s, resp) := applySoftFailureGuard n resp now s in
                      finalizeRuntimeDecision n resp now s
  end.

(** What the soft-failure guard makes of repeated review answers. *)
Definition after_review (d : string) : Prop := d = DecisionForceReview \/ d = DecisionFailed.

Lemma after_review_blocked d : after_review d -> executable d = false.
Proof. by intros [->| ->]. Qed.

(** What is finalised: an answer of the checks, up to the guard's refusals. *)
Lemma run_checks_factor n now s r : exists s1 r1,
  run_checks n now s r = finalizeRuntimeDecision n r1 now s1 /\ same_store s s1 /\
  (r_Decision r1 = answer (evaluate_gates n now s r) \/
   answer (evaluate_gates n now s r) = DecisionReviewRequired /\ after_review (r_Decision r1)).
Proof.
  unfold run_checks. pose proof (evaluate_gates_quiet n now s r) as Q.
  destruct (evaluate_gates n now s r) as [s3 r3|s3 r3]; cbn [verdict_state] in Q;
    apply quiet_calm, calm_store in Q.
  { exists s3, r3. split_and!; [done|done|by left]. }
  pose proof (guard_answer n r3 now s3) as G. pose proof (guard_store n r3 now s3) as GS. cbv zeta in G.
  destruct (applySoftFailureGuard n r3 now s3) as [s4 r4]. cbn [fst snd] in *. exists s4, r4.
  split_and!; [done|by eapply store_trans|].
  destruct G as [G|(G & G2)]; [by left|by right].
Qed.

Lemma hash_failures_failed io fo r : hash_failed (hash_failures io fo r).
Proof.
  unfold hash_failures; cbv zeta.
  destruct io, fo; (split; [done|]); cbn; apply elem_of_app; right; by left.
Qed.

(** What an evaluation finalises. *)
Record evaluated (n : RuntimeDecisionRequest) (cfg : Config) (c : FeatureSignalContract)
    (b : FeatureSignalContractBinding) (found : bool) (r : RuntimeDecisionResponse) : Prop := mk_evaluated {
  ev_sound : executable (r_Decision r) = true ->
    all_clear n cfg c b found /\ r_Decision r = policy_answer n (dc_PolicyRules cfg);
  ev_complete : all_clear n cfg c b found ->
    r_Decision r = policy_answer n (dc_PolicyRules cfg) \/ hash_failed r \/
    policy_answer n (dc_PolicyRules cfg) = DecisionReviewRequired /\ after_review (r_Decision r)
}.

Lemma failed_evaluated n cfg c b f r : hash_failed r -> evaluated n cfg c b f r.
Proof. intros Hf. split; [|by right; left]. destruct Hf as [-> _]. done. Qed.

Lemma checks_evaluated n now s r0 r c b f :
  resolveFeatureSignalContractWithBinding s (q_FeatureContractScope n) (q_RiskTier n) (q_Phase n) now = (c, b, f) ->
  (r_Decision r = answer (evaluate_gates n now s r0) \/
   answer (evaluate_gates n now s r0) = DecisionReviewRequired /\ after_review (r_Decision r)) ->
  evaluated n (s_cfg s) c b f r.
Proof.
  intros Er A. destruct (evaluate_gates_cases n now s r0 c b f Er) as [[N1 N2]|[N1 N2]]; split.
  - intros He. destruct A as [A|[A1 A2%after_review_blocked]]; congruence.
  - by intros.
  - intros He. destruct A as [A|[A1 A2%after_review_blocked]]; [|congruence]. by rewrite A.
  - intros _. destruct A as [A|[A1 A2]]; [left|right; right; split]; congruence.
Qed.

(** An evaluation is its finalisation after checks that store nothing. *)
Lemma evaluate_factor s q now c b f :
  let n := normalizeRuntimeRequest q in
  resolveFeatureSignalContractWithBinding s (q_FeatureContractScope n) (q_RiskTier n) (q_Phase n) now = (c, b, f) ->
  exists s1 r1, EvaluateRuntime s q now = finalizeRuntimeDecision n r1 now s1 /\ same_store s s1 /\
    evaluated n (s_cfg s) c b f r1.
Proof.
  cbv zeta. intros Er. unfold EvaluateRuntime; cbv zeta. set (n := normalizeRuntimeRequest q) in *.
  pose proof (makeBestEffortID_calm "dec_" (decision_id_input n) s) as C.
  destruct (makeBestEffortID _ _ _) as [s1 [id ok]]. cbn [fst] in C.
  set (s2 := add_counter "runtime_eval_total" s1).
  assert (C2 : calm s s2) by (etransitivity; [exact C|apply quiet_calm, add_counter_quiet]). clearbody s2.
  assert (Hend : forall io fo r0, exists s3 r3,
    (if negb io || negb fo then finalizeRuntimeDecision n (hash_failures io fo r0) now s2
     else run_checks n now s2 r0) = finalizeRuntimeDecision n r3 now s3 /\ same_store s s3 /\
    evaluated n (s_cfg s) c b f r3).
  { intros io fo r0. destruct (negb io || negb fo).
    - exists s2, (hash_failures io fo r0). split_and!; [done|by apply calm_store|].
      apply failed_evaluated, hash_failures_failed.
    - destruct (run_checks_factor n now s2 r0) as (s3 & r3 & E & S & A). exists s3, r3.
      split_and!; [exact E|eapply store_trans; [by apply calm_store|exact S]|].
      rewrite <- (cm_cfg _ _ C2). eapply checks_evaluated; [|exact A]. by rewrite (resolve_calm s s2). }
  destruct (safeHash _) as [fh|]; apply Hend.
Qed.

(** ** The binding of the answer *)

Definition bound (v : verdict) : FeatureSignalContractBinding := r_FeatureContractBinding (verdict_response v).
Definition keeps (b : FeatureSignalContractBinding) (v : option verdict) : Prop :=
  match v with Some v => bound v = b | None => True end.

Lemma or_else_keeps b v k : keeps b v -> bound k = b -> bound (or_else v k) = b.
Proof. by destruct v. Qed.

Ltac keep := unfold keeps; repeat (case_match; simplify_eq; try done).

Lemma budget_keeps p q now s r : bound (budget_gates p q now s r) = r_FeatureContractBinding r.
Proof.
  unfold budget_gates; cbv zeta. apply or_else_keeps; [unfold dcu_gate; cbv zeta; keep|].
  apply or_else_keeps; [unfold freeze_gate; keep|].
  assert (E : r_FeatureContractBinding (stale_response q (with_dcu q p r)) = r_FeatureContractBinding r)
    by (unfold stale_response; cbv zeta; by case_match).
  set (r1 := stale_response _ _) in *. clearbody r1. rewrite <- E. clear E.
  apply or_else_keeps; [unfold stale_gate; cbv zeta; keep|].
  apply or_else_keeps; [unfold drift_gate; keep|]. apply or_else_keeps; [unfold engine_gate; keep|].
  apply or_else_keeps; [unfold approval_gate; keep|]. unfold bound; cbn [verdict_response].
  unfold apply_policy; cbv zeta. by repeat case_match.
Qed.

Lemma gates_binding n now s r c b f :
  resolveFeatureSignalContractWithBinding s (q_FeatureContractScope n) (q_RiskTier n) (q_Phase n) now = (c, b, f) ->
  executable (answer (evaluate_gates n now s r)) = true -> bound (evaluate_gates n now s r) = b.
Proof.
  intros Er. unfold evaluate_gates. rewrite Er. pose proof (input_refuses n now s r) as R.
  destruct (input_gate n now s r) as [v|]; cbn [or_else refuses] in *.
  { intros He. unfold answer in He. congruence. }
  intros _. assert (Eb : r_FeatureContractBinding (r_set_FeatureContractBinding b r) = b) by done.
  set (r1 := r_set_FeatureContractBinding b r) in *. clearbody r1.
  apply or_else_keeps; [unfold pin_gate; cbv zeta; keep|].
  apply or_else_keeps; [unfold missing_gate; cbv zeta; keep|].
  apply or_else_keeps; [unfold trust_gate; cbv zeta; keep|].
  apply or_else_keeps; [unfold dcu_profile_gate; cbv zeta; keep|].
  destruct (dc_DCUProfiles _ !! _); [by rewrite budget_keeps|done].
Qed.

Lemma hash_response_binding r : r_FeatureContractBinding (hash_response r) = r_FeatureContractBinding r.
Proof. unfold hash_response, finalizeRuntimeResponse, sort_response; cbv zeta. by case_match. Qed.

Lemma hash_or_fail_binding r s : r_FeatureContractBinding (hash_or_fail r s).2 = r_FeatureContractBinding r.
Proof.
  unfold hash_or_fail; cbv zeta. rewrite <- (hash_response_binding r).
  generalize (hash_response r). clear r. intros r. destruct (bad_hash (r_DecisionHash r)); [|reflexivity].
  transitivity (r_FeatureContractBinding (hash_response (hash_invalid r))).
  - generalize (hash_response (hash_invalid r)). intros r2.
    destruct (bad_hash (r_DecisionHash r2)); [|reflexivity]. by destruct (nextFallbackID _ _).
  - rewrite hash_response_binding. reflexivity.
Qed.

Lemma fill_ids_binding q r : r_FeatureContractBinding (fill_ids q r) = r_FeatureContractBinding r.
Proof. unfold fill_ids; cbv zeta. by repeat case_match. Qed.

Lemma finalize_binding q r now s :
  r_FeatureContractBinding (finalizeRuntimeDecision q r now s).2 = r_FeatureContractBinding r.
Proof.
  unfold finalizeRuntimeDecision; cbv zeta. set (n := normalizeRuntimeRequest q).
  rewrite <- (fill_ids_binding n r), <- (hash_or_fail_binding (fill_ids n r) s).
  destruct (hash_or_fail (fill_ids n r) s) as [s1 r1]. reflexivity.
Qed.

Lemma guard_binding q r now s :
  r_FeatureContractBinding (applySoftFailureGuard q r now s).2 = r_FeatureContractBinding r.
Proof.
  unfold applySoftFailureGuard; cbv zeta. case_match; [done|].
  destruct (soft_step _ _ _ _) as [st [stage|]]; [done|]. case_match; [done|]. by case_match.
Qed.

(** An executable answer carries the binding that was resolved. *)
Lemma evaluate_binding s q now c b f :
  let n := normalizeRuntimeRequest q in
  resolveFeatureSignalContractWithBinding s (q_FeatureContractScope n) (q_RiskTier n) (q_Phase n) now = (c, b, f) ->
  let r := (EvaluateRuntime s q now).2 in
  executable (r_Decision r) = true -> r_FeatureContractBinding r = b.
Proof.
  cbv zeta. intros Er. unfold EvaluateRuntime; cbv zeta. set (n := normalizeRuntimeRequest q) in *.
  pose proof (makeBestEffortID_calm "dec_" (decision_id_input n) s) as C.
  destruct (makeBestEffortID _ _ _) as [s1 [id ok]]. cbn [fst] in C.
  set (s2 := add_counter "runtime_eval_total" s1).
  assert (C2 : calm s s2) by (etransitivity; [exact C|apply quiet_calm, add_counter_quiet]). clearbody s2.
  assert (Hfin : forall r s0, executable (r_Decision (finalizeRuntimeDecision n r now s0).2) = true ->
    executable (r_Decision r) = true).
  { intros r s0 He. pose proof (finalize_answer n r now s0) as F. cbv zeta in F.
    destruct F as [(F & _)|[F _]]; rewrite F in He; done. }
  rewrite <- (resolve_calm s s2) in Er by done.
  assert (Hend : forall io fo r0,
    executable (r_Decision (if negb io || negb fo then finalizeRuntimeDecision n (hash_failures io fo r0) now s2
     else run_checks n now s2 r0).2) = true ->
    r_FeatureContractBinding (if negb io || negb fo then finalizeRuntimeDecision n (hash_failures io fo r0) now s2
     else run_checks n now s2 r0).2 = b).
  { intros io fo r0. destruct (negb io || negb fo).
    - intros He%Hfin. pose proof (hash_failures_failed io fo r0) as [F _]. rewrite F in He. done.
    - unfold run_checks. pose proof (gates_binding n now s2 r0 c b f Er) as G.
      destruct (evaluate_gates n now s2 r0) as [s3 r3|s3 r3]; unfold answer, bound in G; cbn [verdict_response] in G.
      + intros He%Hfin. rewrite finalize_binding. by apply G.
      + pose proof (guard_answer n r3 now s3) as A. cbv zeta in A. pose proof (guard_binding n r3 now s3) as B.
        destruct (applySoftFailureGuard n r3 now s3) as [s4 r4]. cbn [fst snd] in *.
        intros He%Hfin. rewrite finalize_binding, B. apply G.
        destruct A as [A|(_ & [A|A])]; rewrite A in He; done. }
  destruct (safeHash _) as [fh|]; apply Hend.
Qed.

(** An executable answer passed every check, and is the policy's. *)
Lemma evaluate_sound s q now c b f :
  let n := normalizeRuntimeRequest q in
  resolveFeatureSignalContractWithBinding s (q_FeatureContractScope n) (q_RiskTier n) (q_Phase n) now = (c, b, f) ->
  let r := (EvaluateRuntime s q now).2 in
  executable (r_Decision r) = true ->
  all_clear n (s_cfg s) c b f /\ r_Decision r = policy_answer n (dc_PolicyRules (s_cfg s)) /\ well_hashed r.
Proof.
  cbv zeta. intros Er. destruct (evaluate_factor s q now c b f Er) as (s1 & r1 & -> & _ & E1 & _).
  pose proof (finalize_answer (normalizeRuntimeRequest q) r1 now s1) as F. cbv zeta in F. intros He.
  destruct F as [(F1 & _ & F2)|[F1 _]]; [|by rewrite F1 in He]. rewrite F1 in *. destruct (E1 He). by split_and!.
Qed.
End Eval.

(** C12: an evaluation authorises a side effect only if every check passed
    (known risk and effect, graph for high risks, contract pin, required and
    trusted features, a budget profile not exceeded, the whole frozen input and
    no forbidden dynamic field, no stale or drifting features, policy engine
    and approvals available) and its answer is then the policy's, hashed
    stably.  Conversely, when every check passes the answer is the policy's,
    hashed stably, except that a hash that cannot be computed fails closed, and
    that a policy answer of review_required, which the soft-failure guard
    counts, may have become force_review or failed. *)
Theorem evaluate_authorises `{JsonMarshaler} (s : Service) (q : RuntimeDecisionRequest) (now : time)
    (c : FeatureSignalContract) (b : FeatureSignalContractBinding) (found : bool) :
  let n := normalizeRuntimeRequest q in
  let r := (EvaluateRuntime s q now).2 in
  let policy := policy_answer n (dc_PolicyRules (s_cfg s)) in
  resolveFeatureSignalContractWithBinding s (q_FeatureContractScope n) (q_RiskTier n) (q_Phase n) now
    = (c, b, found) ->
  (executable (r_Decision r) = true ->
     all_clear n (s_cfg s) c b found /\ r_Decision r = policy /\ well_hashed r) /\
  (all_clear n (s_cfg s) c b found ->
     hash_failed r \/ r_Decision r = policy /\ well_hashed r \/
     policy = DecisionReviewRequired /\ after_review (r_Decision r) /\ well_hashed r).
Proof.
  cbv zeta. intros Er. split; [by apply evaluate_sound|].
  destruct (evaluate_factor s q now c b found Er) as (s1 & r1 & -> & _ & _ & E2).
  pose proof (finalize_answer (normalizeRuntimeRequest q) r1 now s1) as F. cbv zeta in F.
  intros Hc. destruct F as [(F1 & F2 & F3)|F]; [|by left]. rewrite F1.
  destruct (E2 Hc) as [E|[E|[E A]]]; [right; by left|left; by apply F2|right; by right].
Qed.

Definition dec_resolved := Eval vm_compute in
  resolveFeatureSignalContractWithBinding d0 (q_FeatureContractScope (normalizeRuntimeRequest dec_q))
    "low" "PRE_TOOL" (dec_t0 + Second).

Lemma evaluate_authorises_witness :
  all_clear (normalizeRuntimeRequest dec_q) (s_cfg d0) dec_resolved.1.1 dec_resolved.1.2 dec_resolved.2 /\
  r_Decision (EvaluateRuntime d0 dec_q (dec_t0 + Second)).2 =
    policy_answer (normalizeRuntimeRequest dec_q) (dc_PolicyRules (s_cfg d0)).
Proof.
  destruct (evaluate_authorises d0 dec_q (dec_t0 + Second) dec_resolved.1.1 dec_resolved.1.2 dec_resolved.2)
    as [Hs _]; [vm_compute; reflexivity|].
  destruct Hs as (Hc & Hp & _); [vm_compute; reflexivity|by split].
Defined.

(** ** What an evaluation stores *)

Section Stored.
Context `{JsonMarshaler}.

Lemma hash_response_id r : r_DecisionID (hash_response r) = r_DecisionID r.
Proof. unfold hash_response, finalizeRuntimeResponse, sort_response; cbv zeta. by case_match. Qed.

Lemma hash_invalid_id r : r_DecisionID (hash_invalid r) = r_DecisionID r.
Proof. done. Qed.

Lemma hash_or_fail_id r s : r_DecisionID (hash_or_fail r s).2 = r_DecisionID r.
Proof.
  unfold hash_or_fail; cbv zeta. destruct (bad_hash _); [|exact (hash_response_id r)].
  pose proof (hash_response_id (hash_invalid (hash_response r))) as E.
  generalize dependent (hash_response (hash_invalid (hash_response r))). intros r2 E.
  rewrite hash_invalid_id, hash_response_id in E. destruct (bad_hash (r_DecisionHash r2)); [|exact E].
  destruct (nextFallbackID "dec_hash_" s) as [s2 h]. exact E.
Qed.

(** The record an evaluation leaves under its identifier. *)
Lemma record_lookup kind id i now s :
  exists v, s_decisions (recordDecisionLocked kind id i now s) !! id =
    Some (d_set_Version v (next_record kind id i now)) /\
  v = match s_decisions s !! id with
      | None => 1
      | Some e => if same_semantics e (next_record kind id i now) then d_Version e
                  else wrap_int64 (d_Version e + 1)
      end.
Proof.
  unfold recordDecisionLocked; cbv zeta. destruct (s_decisions s !! id) as [e|].
  - destruct (same_semantics _ _); (eexists; split; [|reflexivity]); cbn; by rewrite lookup_insert_eq.
  - eexists; split; [|reflexivity]. cbn. by rewrite lookup_insert_eq.
Qed.

Lemma createPending_decisions id run step risk now meta s :
  s_decisions (createPendingDecision id run step risk now meta s) = s_decisions s.
Proof.
  unfold createPendingDecision; cbv zeta. destruct (s_pending s !! id) as [p|]; [|done].
  case_match; match goal with |- s_decisions (emitEvent ?a ?b ?c ?d ?e ?f ?g) = _ =>
      destruct (emitEvent_quiet a b c d e f g) as [[_ E _ _ _ _ _ _ _ _ _] _] end; rewrite E; done.
Qed.

Lemma finalize_stores q r now s :
  let out := finalizeRuntimeDecision q r now s in
  let n := normalizeRuntimeRequest q in
  let id := r_DecisionID r in
  r_DecisionID out.2 = id /\
  (exists v, s_decisions out.1 !! id =
     Some (d_set_Version v (next_record "runtime" id (runtime_input "runtime" n out.2) now)) /\
   v = match s_decisions s !! id with
       | None => 1
       | Some e => if same_semantics e (next_record "runtime" id (runtime_input "runtime" n out.2) now)
                   then d_Version e else wrap_int64 (d_Version e + 1)
       end) /\
  (s_pending s !! id = None -> shouldCreatePendingDecision (r_Decision out.2) = true ->
   s_pending out.1 !! id = Some (new_pending id (q_RunID n) (q_StepID n) (q_RiskTier n)
     (mk_pendingOwnerMeta (q_AttemptIndex n) (q_Phase n)) now)).
Proof.
  cbv zeta. unfold finalizeRuntimeDecision; cbv zeta. set (n := normalizeRuntimeRequest q).
  pose proof (hash_or_fail_calm (fill_ids n r) s) as C. pose proof (hash_or_fail_id (fill_ids n r) s) as Hid.
  destruct (fill_ids_decision n r) as (_ & E & _). rewrite E in Hid. clear E.
  destruct (hash_or_fail _ _) as [s1 r1]. cbn [fst snd] in *. rewrite Hid.
  match goal with |- context [emitEvent ?a ?b ?c ?d ?e ?f ?g] =>
    destruct (emitEvent_quiet a b c d e f g) as [[_ Ed _ Ep _ _ _ _ _ _ _] _] end.
  rewrite Ed, Ep. clear Ed Ep. split; [done|].
  destruct (record_lookup "runtime" (r_DecisionID r) (runtime_input "runtime" n r1) now s1) as (v & Hv & Ev).
  rewrite (cm_decisions _ _ C) in Ev. split.
  - exists v. split; [|exact Ev].
    destruct (shouldCreatePendingDecision _); [by rewrite createPending_decisions|done].
  - intros Hp Hc. rewrite Hc. unfold createPendingDecision; cbv zeta.
    rewrite recordDecisionLocked_pending, (cm_pending _ _ C), Hp. unfold set_pending. cbn.
    by rewrite lookup_insert_eq.
Qed.

(** A record of a well-hashed response keeps a stable hash. *)
Lemma well_hashed_stable n r id now v : well_hashed r ->
  stable_ref (effective_ref (d_set_Version v (next_record "runtime" id (runtime_input "runtime" n r) now))) = true.
Proof.
  intros (H1 & H2 & H3). unfold effective_ref, next_record.
  destruct (toCanonicalRecord _), (toCanonicalRecord _). cbn -[derive_hash_ref stable_ref nonblank_hash].
  rewrite H2, H3. unfold bad_hash in H1. apply orb_false_iff in H1 as [B1 B2].
  unfold derive_hash_ref, nonblank_hash. cbn [hr_Value hr_Kind hr_Valid]. rewrite B1.
  change (blank DecisionHashKindStable) with false. cbn [negb]. rewrite B1, B2. cbn -[blank isErrorHash].
  unfold stable_ref. cbn -[blank isErrorHash]. by rewrite B1, B2.
Qed.

Lemma executable_cases d : executable d = true -> d = DecisionAllow \/ d = DecisionRequireApproval.
Proof.
  unfold executable. intros E. apply one_of_In in E as [<-|[<-|[]]]; auto.
Qed.

Lemma canonical_ok v raw : json_Marshal v = Ok raw ->
  toCanonicalRecord v = (raw, match decoded v with GMap kvs => kvs | _ => [] end).
Proof. intros E. unfold toCanonicalRecord, toMap. by rewrite E. Qed.

(** The stored answer is read back from the encoded response. *)
Lemma stored_answer n r id now v raw : json_Marshal (runtime_response_gval r) = Ok raw ->
  executable (r_Decision r) = true ->
  let d := d_set_Version v (next_record "runtime" id (runtime_input "runtime" n r) now) in
  extractStringFieldFromMap (d_Response d) "decision" = r_Decision r.
Proof.
  intros Hj He. cbv zeta. unfold next_record. cbn [in_response in_request runtime_input].
  rewrite (canonical_ok _ _ Hj). destruct (toCanonicalRecord _). cbn [d_Response d_set_Version].
  unfold runtime_response_gval.
  match goal with |- context [key "decision" _ :: ?l] => generalize l as rest end. intros rest.
  unfold extractStringFieldFromMap, field_get. cbn -[valid_utf8 TrimSpace].
  by apply executable_cases in He as [-> | ->].
Qed.

(** The phases of the source are in normal form. *)
Lemma known_phase ph : one_of ph [PhasePreContext; PhasePreTool; PhasePreResume; PhasePreRelease] = true ->
  upper_trim ph = ph /\ ph <> "".
Proof. intros E. apply one_of_In in E as [<-|[<-|[<-|[<-|[]]]]]; by vm_compute. Qed.

Lemma normal_owner q :
  one_of (q_Phase q) [PhasePreContext; PhasePreTool; PhasePreResume; PhasePreRelease] = true ->
  0 <= q_AttemptIndex q ->
  let n := normalizeRuntimeRequest (normalizeRuntimeRequest q) in
  q_Phase n = q_Phase q /\ q_AttemptIndex n = q_AttemptIndex q.
Proof.
  intros Hph Ha. destruct (known_phase _ Hph) as [E Hne]. apply String.eqb_neq in Hne. cbv zeta.
  cbn -[upper_trim]. rewrite !E, !Hne, !E. split; [by rewrite Hne|].
  assert (Hl : (q_AttemptIndex q <? 0) = false) by (apply Z.ltb_ge; lia). by rewrite !Hl.
Qed.

(** The owner a request names without spelling its key. *)
Lemma matching_owner p run step attempt ph id success :
  upper_trim ph = ph -> ph <> "" ->
  p_RunID p = run -> p_StepID p = step -> p_AttemptIndex p = attempt -> p_Phase p = ph ->
  p_OwnerKey p = buildPendingOwnerKey run step attempt ph ->
  confirm_refused p (mk_ConfirmRunAdvanceRequest id run step attempt ph "" success) = None.
Proof.
  intros E Hne E1 E2 E3 E4 E5. apply String.eqb_neq in Hne.
  unfold confirm_refused. cbn [cq_AttemptIndex cq_Phase cq_OwnerKey cq_RunID cq_StepID].
  change (lower_trim "") with "". rewrite E, E1, E2, E3, E4, E5, Hne. cbn [String.eqb andb negb orb].
  rewrite orb_true_r. cbv zeta. rewrite !String.eqb_refl, Z.eqb_refl. cbn [negb orb andb].
  rewrite (proj2 (String.eqb_neq _ _) (buildPendingOwnerKey_nonempty _ _ _ _)). cbn [negb andb].
  by rewrite !andb_false_r.
Qed.

(** Confirming a pending decision with the owner it was created for. *)
Lemma confirm_fresh q s id now now2 d :
  let n := normalizeRuntimeRequest (normalizeRuntimeRequest q) in
  s_pending s !! id = Some (new_pending id (q_RunID n) (q_StepID n) (q_RiskTier n)
     (mk_pendingOwnerMeta (q_AttemptIndex n) (q_Phase n)) now) ->
  one_of (q_Phase q) [PhasePreContext; PhasePreTool; PhasePreResume; PhasePreRelease] = true ->
  0 <= q_AttemptIndex q -> s_decisions s !! id = Some d -> authorises d ->
  let conf := ConfirmRunAdvance s (mk_ConfirmRunAdvanceRequest id (q_RunID q) (q_StepID q)
                (q_AttemptIndex q) (q_Phase q) "" true) now2 in
  conf.2 = mk_ConfirmRunAdvanceResponse pendingStatusConfirmed [] /\
  CanExecuteSideEffect conf.1 id = true /\
  IsDecisionConfirmedWithOwner conf.1 id (q_RunID q) (q_StepID q) (q_AttemptIndex q) (q_Phase q) = true.
Proof.
  cbv zeta. intros Hp Hph Hat Hd Hauth. destruct (normal_owner q Hph Hat) as [N1 N2].
  destruct (known_phase _ Hph) as [E Hne]. rewrite N1, N2 in Hp. clear N1 N2.
  change (q_RunID (normalizeRuntimeRequest (normalizeRuntimeRequest q))) with (q_RunID q) in Hp.
  change (q_StepID (normalizeRuntimeRequest (normalizeRuntimeRequest q))) with (q_StepID q) in Hp.
  revert Hp. set (p := new_pending _ _ _ _ _ _). intros Hp.
  unfold ConfirmRunAdvance. cbn [cq_DecisionID cq_Success cq_RunID cq_StepID]. cbv zeta. rewrite Hp.
  rewrite matching_owner by (try done; cbn -[upper_trim]; exact E).
  change (p_Status p =? pendingStatusPending)%string with true. cbn [negb fst snd].
  split; [done|]. set (p2 := with_status _ _ _).
  match goal with |- context [emitEvent ?a ?b ?c ?d ?e ?f ?g] =>
    destruct (emitEvent_quiet a b c d e f g) as [[_ Ed _ Ep _ _ _ _ _ _ _] _] end.
  assert (Hp2 : s_pending (set_pending id p2 s) !! id = Some p2) by apply lookup_insert_eq. rewrite <- Ep in Hp2.
  split.
  - apply can_execute_spec. split; [exists p2; by split|]. exists d. split; [|done]. by rewrite Ed.
  - unfold IsDecisionConfirmedWithOwner. rewrite Hp2. cbv zeta. rewrite E.
    change (p_RunID p2) with (q_RunID q). change (p_StepID p2) with (q_StepID q).
    change (p_AttemptIndex p2) with (q_AttemptIndex q).
    change (p_Phase p2) with (upper_trim (q_Phase q)). rewrite E.
    change (p_OwnerKey p2) with (buildPendingOwnerKey (q_RunID q) (q_StepID q) (q_AttemptIndex q) (q_Phase q)).
    rewrite !String.eqb_refl, Z.eqb_refl.
    change (p_Status p2 =? pendingStatusConfirmed)%string with true. cbn [negb orb].
    rewrite !andb_false_r, (proj2 (String.eqb_neq _ _) Hne), andb_false_r.
    by rewrite (proj2 (String.eqb_neq _ _) (buildPendingOwnerKey_nonempty _ _ _ _)).
Qed.
End Stored.

(** C24: round trip: when an evaluation, for a phase the source defines and an
    attempt not below zero, answers executably (allow or
    require_approval) under an identifier not pending yet, and its response can be
    encoded, the decision is not executable yet; confirming it with the same
    run, step, attempt and phase succeeds, and then the side-effect gate accepts
    it and the run's owner check recognises it. *)
Theorem evaluate_confirm_execute `{JsonMarshaler} (s : Service) (q : RuntimeDecisionRequest)
    (now now2 : time) (raw : string) :
  let out := EvaluateRuntime s q now in
  let id := r_DecisionID out.2 in
  s_pending s !! id = None ->
  one_of (q_Phase q) [PhasePreContext; PhasePreTool; PhasePreResume; PhasePreRelease] = true ->
  0 <= q_AttemptIndex q ->
  executable (r_Decision out.2) = true ->
  json_Marshal (runtime_response_gval out.2) = Ok raw ->
  let conf := ConfirmRunAdvance out.1 (mk_ConfirmRunAdvanceRequest id (q_RunID q) (q_StepID q)
                (q_AttemptIndex q) (q_Phase q) "" true) now2 in
  CanExecuteSideEffect out.1 id = false /\
  conf.2 = mk_ConfirmRunAdvanceResponse pendingStatusConfirmed [] /\
  CanExecuteSideEffect conf.1 id = true /\
  IsDecisionConfirmedWithOwner conf.1 id (q_RunID q) (q_StepID q) (q_AttemptIndex q) (q_Phase q) = true.
Proof.
  cbv zeta. intros Hnone Hph Hat He Hj.
  destruct (resolveFeatureSignalContractWithBinding s (q_FeatureContractScope (normalizeRuntimeRequest q))
    (q_RiskTier (normalizeRuntimeRequest q)) (q_Phase (normalizeRuntimeRequest q)) now) as [[c b] f] eqn:Er.
  destruct (evaluate_factor s q now c b f Er) as (s1 & r1 & E & S & _). rewrite E in *. clear E Er.
  set (n := normalizeRuntimeRequest q) in *.
  pose proof (finalize_answer n r1 now s1) as F. cbv zeta in F.
  destruct (finalize_stores n r1 now s1) as (Hid & (v & Hd & _) & Hp).
  destruct (finalizeRuntimeDecision n r1 now s1) as [s2 r2]. cbn [fst snd] in *.
  destruct F as [(_ & _ & W)|[F _]]; [|by rewrite F in He]. rewrite Hid in *.
  rewrite <- (ss_pending _ _ S) in Hnone. specialize (Hp Hnone).
  assert (Hc : shouldCreatePendingDecision (r_Decision r2) = true)
    by (by apply executable_cases in He as [-> | ->]).
  specialize (Hp Hc).
  assert (Hauth : authorises (d_set_Version v (next_record "runtime" (r_DecisionID r1)
    (runtime_input "runtime" (normalizeRuntimeRequest n) r2) now))).
  { split; [by apply well_hashed_stable|]. rewrite (stored_answer _ _ _ _ _ raw Hj He).
    by apply executable_cases in He as [-> | ->]. }
  split; [unfold CanExecuteSideEffect; by rewrite Hp|].
  eapply confirm_fresh; [exact Hp|exact Hph|exact Hat|exact Hd|exact Hauth].
Qed.

(** The example request in normal form: its phase is spelled out. *)
Definition dec_q2 : RuntimeDecisionRequest :=
  Eval vm_compute in normalizeRuntimeRequest dec_q.

Lemma evaluate_confirm_execute_witness :
  r_Decision (EvaluateRuntime d0 dec_q2 (dec_t0 + Second)).2 = DecisionAllow /\
  CanExecuteSideEffect (ConfirmRunAdvance (EvaluateRuntime d0 dec_q2 (dec_t0 + Second)).1
    (mk_ConfirmRunAdvanceRequest id1 "run-1" "step-1" 1 "PRE_TOOL" "" true) (dec_t0 + 2 * Second)).1 id1 = true.
Proof.
  destruct (json_Marshal (runtime_response_gval (EvaluateRuntime d0 dec_q2 (dec_t0 + Second)).2)) as [raw|e] eqn:Ej;
    [|vm_compute in Ej; discriminate Ej].
  split; [vm_compute; reflexivity|].
  destruct (evaluate_confirm_execute d0 dec_q2 (dec_t0 + Second) (dec_t0 + 2 * Second) raw) as (_ & _ & H & _);
    [vm_compute; reflexivity..|vm_compute; discriminate|vm_compute; reflexivity|exact Ej|].
  replace id1 with (r_DecisionID (EvaluateRuntime d0 dec_q2 (dec_t0 + Second)).2) by (vm_compute; reflexivity).
  exact H.
Defined.

(** ** Versions *)

(** Consecutive versions count from the first, modulo [2^64]. *)
Lemma version_at (h : list StoredDecision) i d0 d :
  (forall i x y, h !! i = Some x -> h !! S i = Some y -> d_Version y = wrap_int64 (d_Version x + 1)) ->
  h !! 0%nat = Some d0 -> h !! i = Some d ->
  wrap_int64 (d_Version d) = wrap_int64 (d_Version d0 + Z.of_nat i).
Proof.
  intros Hv H0. revert d. induction i as [|i IH]; intros d Hd.
  - rewrite H0 in Hd. injection Hd as <-. f_equal. lia.
  - destruct (lookup_lt_is_Some_2 h i) as [x Hx]; [apply lookup_lt_Some in Hd; lia|].
    rewrite (Hv i x d Hx Hd). replace (wrap_int64 (d_Version x + 1)) with (wrap_int64 (d_Version x + 1) + 0) by lia.
    rewrite wrap_int64_add, Z.add_0_r, <- (wrap_int64_add (d_Version x) 1), (IH x Hx), wrap_int64_add.
    f_equal. lia.
Qed.

(** So a version is found where it stands. *)
Lemma find_version (h : list StoredDecision) d :
  (forall i x y, h !! i = Some x -> h !! S i = Some y -> d_Version y = wrap_int64 (d_Version x + 1)) ->
  Z.of_nat (length h) <= max_int64 -> d ∈ h ->
  List.find (fun x => d_Version x =? d_Version d) h = Some d.
Proof.
  intros Hv Hlen Hd. apply list_elem_of_lookup in Hd as [i Hi].
  destruct (List.find _ h) as [x|] eqn:E.
  2:{ apply list_elem_of_lookup_2, list_elem_of_In in Hi.
      apply (List.find_none _ _ E d) in Hi. by rewrite Z.eqb_refl in Hi. }
  apply List.find_some in E as [Hx Hxd]. apply Z.eqb_eq in Hxd.
  apply list_elem_of_In, list_elem_of_lookup in Hx as [j Hj].
  destruct h as [|d0 h]; [done|].
  pose proof (version_at _ _ d0 _ Hv eq_refl Hi) as Vi. pose proof (version_at _ _ d0 _ Hv eq_refl Hj) as Vj.
  rewrite Hxd in Vj. rewrite Vi in Vj. apply lookup_lt_Some in Hi as Li. apply lookup_lt_Some in Hj as Lj.
  assert (i = j) as ->; [|congruence].
  apply Nat2Z.inj. apply (f_equal (fun z => wrap_int64 (z + - d_Version d0))) in Vj.
  rewrite !wrap_int64_add in Vj. cbn [length] in *.
  rewrite !wrap_int64_id in Vj by (unfold in_int64, min_int64, max_int64 in *; lia). lia.
Qed.

(** In reachable states the history of a decision answers every version it
    holds with that very record, ends with the current record, numbers its
    records consecutively and holds at most the configured number of them. *)
Theorem version_lookup `{JsonMarshaler} {Env : Type} (s : Service) (id : string) (d : StoredDecision) :
  reach (Env := Env) s -> dc_DecisionMaxHistoryVersions (s_cfg s) <= max_int64 ->
  GetDecision s id = Some d ->
  exists h, GetDecisionHistory s id = Some h /\ last h = Some d /\
    Z.of_nat (length h) <= dc_DecisionMaxHistoryVersions (s_cfg s) /\
    GetDecisionVersion s id = Some (d_Version d) /\
    (forall x, x ∈ h -> d_DecisionID x = id /\ GetDecisionByVersion s id (d_Version x) = Some x) /\
    (forall i x y, h !! i = Some x -> h !! S i = Some y -> d_Version y = wrap_int64 (d_Version x + 1)).
Proof.
  intros HI Hmax Hd. apply reach_inv in HI. pose proof (si_decisions _ HI id) as Hh.
  unfold GetDecision in Hd. rewrite Hd in Hh. destruct (s_decisionHistory s !! id) as [h|] eqn:Eh; [|done].
  destruct Hh as [H1 H2 H3 H4]. exists h. unfold GetDecisionHistory, GetDecisionVersion, GetDecisionByVersion.
  rewrite Eh, Hd. cbn [default fmap option_fmap option_map]. split_and!; [|done..| |done].
  { by destruct h. }
  intros x Hx. split; [by apply (proj1 (Forall_forall _ _) H2)|].
  apply list_elem_of_lookup in Hx as [i Hi].
  apply (find_version h); [done|lia|by apply list_elem_of_lookup_2 in Hi].
Qed.

Lemma version_lookup_witness :
  exists h, GetDecisionHistory d1 id1 = Some h /\ last h = s_decisions d1 !! id1.
Proof.
  destruct (s_decisions d1 !! id1) as [d|] eqn:Ed; [|vm_compute in Ed; discriminate Ed].
  destruct (version_lookup d1 id1 d d1_reach) as (h & H1 & H2 & _);
    [vm_compute; discriminate|exact Ed|]. exists h. by split.
Defined.

(** ** The budget *)

(** With counts that are not negative and whose weighted sum fits 64 bits
    the cost of a request is that sum (reads twice, rules once, calls four
    times, conflicts three times), which is what the budget check compares with
    the limit of the risk's profile. *)
Theorem dcu_exact (i : DCUInput) :
  0 <= di_FeatureReads i -> 0 <= di_RuleEvals i -> 0 <= di_DependencyCalls i ->
  0 <= di_ConflictResolutions i ->
  di_FeatureReads i * 2 + di_RuleEvals i + di_DependencyCalls i * 4 + di_ConflictResolutions i * 3
    <= max_int64 ->
  db_Total (calcDCU i) =
    di_FeatureReads i * 2 + di_RuleEvals i + di_DependencyCalls i * 4 + di_ConflictResolutions i * 3.
Proof.
  intros. unfold calcDCU; cbv zeta. cbn [db_Total].
  assert (Hid : forall z, 0 <= z <= max_int64 -> wrap_int64 z = z)
    by (intros; apply wrap_int64_id; unfold in_int64, min_int64, max_int64 in *; lia).
  rewrite (Hid (_ * 2)), (Hid (_ * 4)), (Hid (_ * 3)) by lia.
  rewrite (Hid (_ * 2 + _)) by lia. rewrite (Hid (_ + _ * 4)) by lia. rewrite Hid; lia.
Qed.

Lemma dcu_exact_witness : db_Total (calcDCU (mk_DCUInput 3 5 2 1)) = 22.
Proof. apply (dcu_exact (mk_DCUInput 3 5 2 1)); vm_compute; discriminate. Defined.

(** Outside that range the cost wraps around: [2^62] feature reads cost less
    than nothing and pass any budget. *)
Example dcu_overflow_passes :
  db_Total (calcDCU (mk_DCUInput (2 ^ 62) 0 0 0)) = min_int64.
Proof. reflexivity. Qed.
