(* ===== verification/DecApprovalTheorems.v ===== *)
(** * What approvals and hard timeouts do to a pending decision *)

From S2P Require Import Prelude GoStrings Sha256 GoTime GoJson DecTypes DecJson DecPolicy.
From S2P Require Import DecContracts DecKernel DecRuntime DecAdmission DecPending DecApproval.
From S2P Require Import DecFrame DecInvariant DecTrace DecExamples DecTheorems.
#[local] Open Scope Z_scope.

Section Settle.
Context `{JsonMarshaler} {Env : Type}.
Implicit Types (port : option (UnlockPort Env)) (env : Env).

Lemma emit_both ty d r st kvs at_ s :
  s_pending (emitEvent ty d r st kvs at_ s) = s_pending s /\
  s_approvals (emitEvent ty d r st kvs at_ s) = s_approvals s.
Proof. by destruct (emitEvent_quiet ty d r st kvs at_ s) as [[] _]. Qed.

Lemma emit_pending ty d r st kvs at_ s : s_pending (emitEvent ty d r st kvs at_ s) = s_pending s.
Proof. apply emit_both. Qed.
Lemma emit_approvals ty d r st kvs at_ s : s_approvals (emitEvent ty d r st kvs at_ s) = s_approvals s.
Proof. apply emit_both. Qed.

Lemma dispatch_both port g now s env :
  s_pending (dispatchApprovalRunUnlock port g now s env).1.1 = s_pending s /\
  s_approvals (dispatchApprovalRunUnlock port g now s env).1.1 = s_approvals s.
Proof.
  unfold dispatchApprovalRunUnlock; cbv zeta. destruct port as [port|]; [|apply emit_both].
  destruct (port g env) as [env' [res|err]]; apply emit_both.
Qed.

(** A case is about the stored decision [p]. *)
Definition about (c : ApprovalCase) (p : PendingDecision) : Prop :=
  p_RunID p = ac_RunID c /\ p_StepID p = ac_StepID c.

Lemma about_eqb c p : about c p ->
  negb (p_RunID p =? ac_RunID c)%string || negb (p_StepID p =? ac_StepID c)%string = false.
Proof. intros [-> ->]. by rewrite !String.eqb_refl. Qed.

Lemma apply_waiting c now s p :
  s_pending s !! ac_DecisionID c = Some p -> about c p -> is_pending p ->
  approvalOutcomeToPendingStatus (ac_Status c) <> "" ->
  let target := approvalOutcomeToPendingStatus (ac_Status c) in
  let out := applyApprovalOutcomeToPending c now s in
  s_pending out.1 = <[ac_DecisionID c := with_status target now p]> (s_pending s) /\
  s_approvals out.1 = s_approvals s /\ out.2.1.1 = target /\
  out.2.2 = (if approvalOutcomeRequiresRunUnlockSignal (ac_Status c)
             then Some (unlock_signal c (with_status target now p) target) else None).
Proof.
  intros Hp Ha Hs Ht. cbv zeta. unfold applyApprovalOutcomeToPending; cbv zeta.
  apply String.eqb_neq in Ht. rewrite Ht, Hp, about_eqb by done. unfold is_pending in Hs. rewrite Hs.
  change (pendingStatusPending =? pendingStatusPending)%string with true. cbn [negb fst snd].
  split_and!; try done; case_match; by rewrite ?emit_pending, ?emit_approvals.
Qed.

Lemma apply_settled c now s p :
  s_pending s !! ac_DecisionID c = Some p -> about c p -> ~ is_pending p ->
  let out := applyApprovalOutcomeToPending c now s in out.1 = s /\ out.2.2 = None.
Proof.
  intros Hp Ha Hs. cbv zeta. unfold applyApprovalOutcomeToPending; cbv zeta.
  destruct (_ =? "")%string; [done|]. rewrite Hp, about_eqb by done.
  apply String.eqb_neq in Hs. by rewrite Hs.
Qed.

Lemma guard_confirmed c status now s p :
  s_pending s !! ac_DecisionID c = Some p -> about c p -> p_Status p = pendingStatusConfirmed ->
  let out := enforceApprovalUnlockFailureGuard c status now s in
  s_pending out.1 = <[ac_DecisionID c := with_status pendingStatusSafeguardHold now p]> (s_pending s) /\
  s_approvals out.1 = s_approvals s /\ out.2.1 = pendingStatusSafeguardHold.
Proof.
  intros Hp Ha Hs. cbv zeta. unfold enforceApprovalUnlockFailureGuard; cbv zeta.
  rewrite Hp, about_eqb, Hs by done.
  change (pendingStatusConfirmed =? pendingStatusConfirmed)%string with true. cbn [negb fst snd].
  by rewrite emit_pending, emit_approvals.
Qed.

(** The status a resolved case leaves a waiting decision in. *)
Definition settled_status (c : ApprovalCase) (unlock : string) : string :=
  if EqualFold (ac_Status c) "approved" && negb (unlock =? "dispatched")%string
  then pendingStatusSafeguardHold else approvalOutcomeToPendingStatus (ac_Status c).

Lemma with_status_twice a b now p : with_status a now (with_status b now p) = with_status a now p.
Proof. by destruct p. Qed.

Lemma settle_waiting port c now s env p :
  one_of (ac_Status c) ["approved"; "denied"; "auto_deny"; "force_review_queue"; "fail_closed"] = true ->
  s_pending s !! ac_DecisionID c = Some p -> about c p -> is_pending p ->
  let out := settle_outcome port c now s env in
  let final := settled_status c (oe_runUnlockStatus out.2) in
  s_pending out.1.1 = <[ac_DecisionID c := with_status final now p]> (s_pending s) /\
  s_approvals out.1.1 = s_approvals s /\ oe_pendingStatus out.2 = final.
Proof.
  intros Hst Hp Ha Hs. cbv zeta. unfold settle_outcome, settled_status; cbv zeta.
  assert (Ht : approvalOutcomeToPendingStatus (ac_Status c) <> "").
  { apply one_of_In in Hst as [E|[E|[E|[E|[E|[]]]]]]; rewrite <- E; vm_compute; discriminate. }
  destruct (apply_waiting c now s p Hp Ha Hs Ht) as (A1 & A2 & A3 & A4).
  destruct (applyApprovalOutcomeToPending c now s) as [s1 [[ps pr] sg]]. cbn [fst snd] in *.
  set (m := match sg with Some _ => _ | None => _ end).
  assert (M : s_pending m.1.1 = s_pending s1 /\ s_approvals m.1.1 = s_approvals s1).
  { subst m. destruct sg as [g|]; [|done]. pose proof (dispatch_both port g now s1 env) as D.
    destruct (dispatchApprovalRunUnlock _ _ _ _ _) as [[s2 e2] [[st rs] res]]. exact D. }
  clearbody m. destruct m as [[s2 e2] [[us ur] ua]]. cbn [fst snd] in *. destruct M as [M1 M2].
  destruct (EqualFold (ac_Status c) "approved") eqn:Ef; cbn [andb].
  2:{ cbn [fst snd]. rewrite M1, M2, A1, A2, A3. done. }
  assert (E : ac_Status c = "approved").
  { apply one_of_In in Hst as [E|[E|[E|[E|[E|[]]]]]]; rewrite <- E in *; by vm_compute in Ef. }
  destruct (us =? "dispatched")%string eqn:Eu; cbn [negb].
  { cbn [fst snd oe_runUnlockStatus oe_pendingStatus]. rewrite Eu. cbn [negb]. by rewrite M1, M2, A1, A2, A3. }
  rewrite E in *. change (approvalOutcomeToPendingStatus "approved") with pendingStatusConfirmed in *.
  destruct (guard_confirmed c us now s2 (with_status pendingStatusConfirmed now p)) as (G1 & G2 & G3);
    [by rewrite M1, A1, lookup_insert_eq|done|done|].
  destruct (enforceApprovalUnlockFailureGuard _ _ _ _) as [s3 [ps3 gr]].
  cbn [fst snd oe_runUnlockStatus oe_pendingStatus] in *. rewrite Eu. cbn [negb].
  rewrite G1, G2, G3, M1, M2, A1, A2, with_status_twice, insert_insert_eq. done.
Qed.

(** A case without a waiting decision of its own changes nothing, unless it is
    an approval. *)
Lemma apply_other c now s :
  (forall p, s_pending s !! ac_DecisionID c = Some p -> about c p -> ~ is_pending p) ->
  let out := applyApprovalOutcomeToPending c now s in out.1 = s /\ out.2.2 = None.
Proof.
  intros Hn. cbv zeta. unfold applyApprovalOutcomeToPending; cbv zeta. destruct (_ =? "")%string; [done|].
  destruct (s_pending s !! _) as [p|] eqn:Ep; [|done].
  destruct (negb (p_RunID p =? _)%string || _) eqn:Eb; [done|].
  apply orb_false_iff in Eb as [E1 E2]. apply negb_false_iff, String.eqb_eq in E1, E2.
  assert (Hs : ~ is_pending p) by (by apply Hn). apply String.eqb_neq in Hs. by rewrite Hs.
Qed.

Lemma settle_other port c now s env :
  EqualFold (ac_Status c) "approved" = false ->
  (forall p, s_pending s !! ac_DecisionID c = Some p -> about c p -> ~ is_pending p) ->
  (settle_outcome port c now s env).1.1 = s.
Proof.
  intros Hst Hn. unfold settle_outcome. destruct (apply_other c now s Hn) as [A1 A2].
  destruct (applyApprovalOutcomeToPending c now s) as [s1 [[ps pr] sg]]. cbn [fst snd] in *. subst.
  by rewrite Hst.
Qed.

(** ** Hard timeouts, case by case *)

Definition timeout_outcome (c : ApprovalCase) : Prop :=
  one_of (ac_Status c) ["auto_deny"; "force_review_queue"; "fail_closed"] = true.

Lemma timeout_settled c u : timeout_outcome c ->
  EqualFold (ac_Status c) "approved" = false /\
  one_of (ac_Status c) ["approved"; "denied"; "auto_deny"; "force_review_queue"; "fail_closed"] = true /\
  settled_status c u = approvalOutcomeToPendingStatus (ac_Status c) /\
  one_of (approvalOutcomeToPendingStatus (ac_Status c)) [pendingStatusManuallyClosed; pendingStatusSafeguardHold] = true.
Proof.
  unfold timeout_outcome, settled_status. intros Ht.
  apply one_of_In in Ht as [E|[E|[E|[]]]]; rewrite <- E; by vm_compute.
Qed.

(** Whether a case decides the entry of [did]. *)
Definition decides (s : Service) (did : string) (c : ApprovalCase) (p : PendingDecision) : Prop :=
  ac_DecisionID c = did /\ s_pending s !! did = Some p /\ about c p /\ is_pending p.

Lemma about_dec c p : {about c p /\ is_pending p} + {~ (about c p /\ is_pending p)}.
Proof. unfold about, is_pending. apply (decide _). Qed.

Lemma settle_timeout_spec port now (st : Service * Env) c : timeout_outcome c ->
  let st' := settle_timeout port now st c in
  s_approvals st'.1 = s_approvals st.1 /\
  forall did,
    (s_pending st'.1 !! did = s_pending st.1 !! did /\ (forall p, ~ decides st.1 did c p)) \/
    (exists p, decides st.1 did c p /\ s_pending st'.1 !! did =
       Some (with_status (approvalOutcomeToPendingStatus (ac_Status c)) now p)).
Proof.
  intros Ht. cbv zeta. unfold settle_timeout. destruct (timeout_settled c "" Ht) as (T1 & T2 & _ & _).
  assert (Hcase : (exists p, s_pending st.1 !! ac_DecisionID c = Some p /\ about c p /\ is_pending p) \/
    (forall p, s_pending st.1 !! ac_DecisionID c = Some p -> about c p -> ~ is_pending p)).
  { destruct (s_pending st.1 !! ac_DecisionID c) as [p|]; [|by right].
    destruct (about_dec c p) as [[? ?]|Hn]; [left; eauto|right]. intros p' [= <-] ??. by apply Hn. }
  destruct Hcase as [(p & Hp & Ha & Hs)|Hn].
  - destruct (settle_waiting port c now st.1 st.2 p T2 Hp Ha Hs) as (S1 & S2 & _).
    destruct (settle_outcome port c now st.1 st.2) as [[s2 e2] oe]. cbn [fst snd] in *.
    rewrite emit_pending, emit_approvals. split; [done|]. intros did. rewrite S1.
    rewrite (proj1 (proj2 (proj2 (timeout_settled c _ Ht)))).
    destruct (decide (did = ac_DecisionID c)) as [->|Hne].
    + right. exists p. split; [done|]. by rewrite lookup_insert_eq.
    + left. rewrite lookup_insert_ne by congruence. split; [done|]. intros p' [E _]. congruence.
  - pose proof (settle_other port c now st.1 st.2 T1 Hn) as S.
    destruct (settle_outcome port c now st.1 st.2) as [[s2 e2] oe]. cbn [fst snd] in *. subst s2.
    rewrite emit_pending, emit_approvals. split; [done|]. intros did. left. split; [done|].
    intros p (<- & Hp & Ha & Hs). by apply (Hn p).
Qed.

Lemma timeouts_fold port now (l : list ApprovalCase) (st : Service * Env) : Forall timeout_outcome l ->
  let st' := foldl (settle_timeout port now) st l in
  s_approvals st'.1 = s_approvals st.1 /\
  forall did,
    (s_pending st'.1 !! did = s_pending st.1 !! did /\ (forall c p, c ∈ l -> ~ decides st.1 did c p)) \/
    (exists c p, c ∈ l /\ decides st.1 did c p /\ s_pending st'.1 !! did =
       Some (with_status (approvalOutcomeToPendingStatus (ac_Status c)) now p)).
Proof.
  cbv zeta. revert st. induction l as [|c l IH]; intros st Hl; cbn [foldl].
  { split; [done|]. intros did. left. split; [done|]. intros c p Hc. by apply not_elem_of_nil in Hc. }
  apply Forall_cons in Hl as [Hc Hl]. destruct (settle_timeout_spec port now st c Hc) as [A1 A2].
  destruct (IH (settle_timeout port now st c) Hl) as [B1 B2]. split; [by rewrite B1|].
  intros did. destruct (A2 did) as [[C1 C2]|(p & D1 & D2)].
  - destruct (B2 did) as [[E1 E2]|(c' & p & E1 & E2 & E3)]; [left|right].
    + split; [by rewrite E1|]. intros c' p Hin. apply elem_of_cons in Hin as [->|Hin]; [apply C2|].
      specialize (E2 c' p Hin). unfold decides in *. by rewrite C1 in E2.
    + exists c', p. split; [by right|]. split; [|done]. unfold decides in *. by rewrite C1 in E2.
  - right. exists c, p. split; [by left|]. split; [done|].
    destruct (B2 did) as [[E1 E2]|(c' & p' & E1 & E2 & E3)]; [by rewrite E1|].
    destruct E2 as (_ & E2 & _ & E4). rewrite D2 in E2. injection E2 as <-.
    destruct (timeout_settled c "" Hc) as (_ & _ & _ & T). unfold is_pending in E4. cbn in E4.
    by rewrite E4 in T.
Qed.
End Settle.

Lemma timeout_list now (l : list (string * ApprovalCase)) st :
  (foldl (fun st kv => timeout_visit now st kv.1 kv.2) st l).2 =
  st.2 ++ map (fun kv => time_out now kv.2) (List.filter (fun kv => timed_out now kv.2) l).
Proof.
  revert st. induction l as [|[k c] l IH]; intros [m acc]; cbn [foldl List.filter map fst snd].
  { by rewrite app_nil_r. }
  rewrite IH. unfold timeout_visit. cbn [fst snd]. destruct (timed_out now c); [|done].
  cbn [snd map]. by rewrite <- app_assoc.
Qed.

(** The hard timeout sweep resolves exactly the cases still awaiting at
    their deadline, as their risk says, and counts them; a waiting decision one
    of them is about ends closed or under the safeguard, never confirmed; every
    other pending decision is untouched, whatever the order of the maps and
    whatever the run side answers. *)
Theorem hard_timeout_effect `{JsonMarshaler} {MR : MapRange} {Env : Type} (port : option (UnlockPort Env))
    (s : Service) (env : Env) (now : time) :
  let out := SweepApprovalHardTimeouts port s env now in
  (forall id, s_approvals out.1.1 !! id =
     (c ← s_approvals s !! id; Some (if timed_out now c then time_out now c else c))) /\
  out.2 = Z.of_nat (size (filter (fun kv => timed_out now kv.2 = true) (s_approvals s))) /\
  (forall id c p, s_approvals s !! id = Some c -> timed_out now c = true ->
     s_pending s !! ac_DecisionID c = Some p -> about c p -> is_pending p ->
     exists status, s_pending out.1.1 !! ac_DecisionID c = Some (with_status status now p) /\
       one_of status [pendingStatusManuallyClosed; pendingStatusSafeguardHold] = true) /\
  (forall did, (forall id c p, s_approvals s !! id = Some c -> timed_out now c = true ->
       s_pending s !! did = Some p -> ac_DecisionID c = did -> about c p -> ~ is_pending p) ->
     s_pending out.1.1 !! did = s_pending s !! did).
Proof.
  cbv zeta. unfold SweepApprovalHardTimeouts. pose proof (timeout_loop now (s_approvals s)) as L. cbv zeta in L.
  pose proof (timeout_list now (range_map (s_approvals s)) (s_approvals s, [])) as T.
  change (foldl _ (s_approvals s, []) (range_map (s_approvals s)))
    with (go_range (timeout_visit now) (s_approvals s, []) (s_approvals s)) in T.
  destruct (go_range _ _ _) as [m l]. cbn [fst snd app] in *.
  assert (Hin : forall c', c' ∈ l <-> exists id c, s_approvals s !! id = Some c /\ timed_out now c = true /\
    c' = time_out now c).
  { intros c'. rewrite T, list_elem_of_In, in_map_iff. split.
    - intros ([id c] & <- & Hf). apply filter_In in Hf as [Hf Ht]. apply list_elem_of_In, range_map_elem in Hf.
      by exists id, c.
    - intros (id & c & Hc & Ht & ->). exists (id, c). split; [done|]. apply filter_In. split; [|done].
      by apply list_elem_of_In, range_map_elem. }
  assert (Hout : Forall timeout_outcome l).
  { apply Forall_forall. intros c' Hc'. apply Hin in Hc' as (id & c & _ & _ & ->).
    unfold timeout_outcome, time_out, resolve_case, timeout_status. cbn. by repeat case_match. }
  destruct (timeouts_fold port now l (s_set_approvals m s, env) Hout) as [F1 F2].
  destruct (foldl _ _ l) as [s2 e2]. cbn [fst snd] in *. split_and!.
  - intros id. rewrite F1. apply L.
  - rewrite T, length_map, (size_filter_range (fun kv => timed_out now kv.2)). done.
  - intros id c p Hc Ht Hp Ha Hs. destruct (F2 (ac_DecisionID c)) as [[_ E]|(c' & p' & E1 & E2 & E3)].
    + exfalso. apply (E (time_out now c) p); [|by repeat split; try apply Ha].
      apply Hin. by exists id, c.
    + destruct E2 as (_ & E2 & _). change (s_pending s !! ac_DecisionID c = Some p') in E2.
      rewrite Hp in E2. injection E2 as <-. eexists. split; [exact E3|].
      by destruct (timeout_settled c' "" (proj1 (Forall_forall _ _) Hout c' E1)) as (_ & _ & _ & ?).
  - intros did Hn. destruct (F2 did) as [[E _]|(c' & p' & E1 & E2 & _)]; [exact E|exfalso].
    apply Hin in E1 as (id & c & Hc & Ht & ->). destruct E2 as (<- & E2 & E3 & E4).
    by apply (Hn id c p' Hc Ht E2).
Qed.

(** Deciding a waiting case about a waiting decision resolves the case and
    ends the decision: closed when denied; when approved, confirmed if the run
    side answered "dispatched" and under the safeguard for every other answer,
    error or missing port; nothing else changes among cases and pending
    decisions, and the response reports the final status. *)
Theorem approval_decides `{JsonMarshaler} {Env : Type} (port : option (UnlockPort Env))
    (s : Service) (env : Env) (id : string) (q : ApprovalDecisionRequest) (now : time)
    (c : ApprovalCase) (p : PendingDecision) (status : string) :
  s_approvals s !! id = Some c -> approvalCaseMutable (ac_Status c) = true ->
  decision_status (adq_Decision q) = Some status ->
  s_pending s !! ac_DecisionID c = Some p -> about c p -> is_pending p ->
  let out := DecideApprovalCase port s env id q now in
  let final := if (status =? "approved")%string
    then if (adp_RunUnlockStatus out.2 =? "dispatched")%string
         then pendingStatusConfirmed else pendingStatusSafeguardHold
    else pendingStatusManuallyClosed in
  s_pending out.1.1 = <[ac_DecisionID c := with_status final now p]> (s_pending s) /\
  s_approvals out.1.1 = <[id := resolve_case status "manual_decision" now c]> (s_approvals s) /\
  adp_PendingStatus out.2 = final /\ adp_Status out.2 = status.
Proof.
  intros Hc Hm Hd Hp Ha Hs. cbv zeta. unfold DecideApprovalCase; cbv zeta. rewrite Hd, Hc, Hm. cbn [negb].
  set (c2 := resolve_case status "manual_decision" now c).
  assert (Hst : status = "approved" \/ status = "denied").
  { unfold decision_status in Hd; cbv zeta in Hd. repeat case_match; simplify_eq; auto. }
  destruct (settle_waiting port c2 now (s_set_approvals (<[id:=c2]> (s_approvals s)) s) env p) as (S1 & S2 & S3);
    [by destruct Hst as [-> | ->]|done|done|done|].
  destruct (settle_outcome _ _ _ _ _) as [[s2 e2] oe]. cbn [fst snd adp_PendingStatus adp_RunUnlockStatus adp_Status] in *.
  rewrite emit_pending, emit_approvals, S1, S2, S3. change (ac_DecisionID c2) with (ac_DecisionID c).
  change (ac_Status c2) with status. unfold settled_status. change (ac_Status c2) with status.
  destruct Hst as [-> | ->]; [|done].
  change (EqualFold "approved" "approved") with true. change ("approved" =? "approved")%string with true.
  cbn [andb]. by destruct (oe_runUnlockStatus oe =? "dispatched")%string.
Qed.

(** Approving a case about a decision that is confirmed already takes the
    confirmation back: no signal is sent, so the guard sees an answer other
    than "dispatched" and puts the decision under the safeguard. *)
Theorem approve_confirmed_holds `{JsonMarshaler} {Env : Type} (port : option (UnlockPort Env))
    (s : Service) (env : Env) (id : string) (q : ApprovalDecisionRequest) (now : time)
    (c : ApprovalCase) (p : PendingDecision) :
  s_approvals s !! id = Some c -> approvalCaseMutable (ac_Status c) = true ->
  decision_status (adq_Decision q) = Some "approved" ->
  s_pending s !! ac_DecisionID c = Some p -> about c p -> p_Status p = pendingStatusConfirmed ->
  let out := DecideApprovalCase port s env id q now in
  s_pending out.1.1 = <[ac_DecisionID c := with_status pendingStatusSafeguardHold now p]> (s_pending s) /\
  adp_RunUnlockStatus out.2 = "not_required" /\ adp_PendingStatus out.2 = pendingStatusSafeguardHold.
Proof.
  intros Hc Hm Hd Hp Ha Hs. cbv zeta. unfold DecideApprovalCase; cbv zeta. rewrite Hd, Hc, Hm. cbn [negb].
  set (c2 := resolve_case "approved" "manual_decision" now c).
  set (s1 := s_set_approvals (<[id:=c2]> (s_approvals s)) s). unfold settle_outcome.
  destruct (apply_settled c2 now s1 p) as [A1 A2]; [done|done|by unfold is_pending; rewrite Hs|].
  destruct (applyApprovalOutcomeToPending c2 now s1) as [s2 [[ps pr] sg]]. cbn [fst snd] in *. subst s2 sg.
  change (EqualFold (ac_Status c2) "approved") with true. change ("not_required" =? "dispatched")%string with false.
  cbn [negb andb].
  destruct (guard_confirmed c2 "not_required" now s1 p) as (G1 & _ & G3); [done..|].
  destruct (enforceApprovalUnlockFailureGuard _ _ _ _) as [s3 [ps3 gr]]. cbn [fst snd] in *.
  by rewrite emit_pending, G1.
Qed.

(** ** A concrete case *)

Definition dec_case_q : ApprovalCreateRequest :=
  mk_ApprovalCreateRequest "run-1" "step-1" id1 "low" "manual".
Definition dec_case1 : Service * ApprovalCase := Eval vm_compute in
  CreateApprovalCase d1 dec_case_q (dec_t0 + 2 * Second).
Definition dec_case2 : Service * ApprovalCase := Eval vm_compute in
  CreateApprovalCase d2 dec_case_q (dec_t0 + 3 * Second).

(** A run side that answers with the given status. *)
Definition dec_port (status : string) : option (UnlockPort unit) :=
  Some (fun _ env => (env, Ok (mk_ApprovalRunUnlockDispatchResult status true (dec_t0 + 5 * Second) []))).

Lemma approval_decides_witness :
  adp_PendingStatus (DecideApprovalCase (dec_port "dispatched") dec_case1.1 tt (ac_CaseID dec_case1.2)
    (mk_ApprovalDecisionRequest "approve") (dec_t0 + 5 * Second)).2 = pendingStatusConfirmed /\
  adp_PendingStatus (DecideApprovalCase (dec_port "queued") dec_case1.1 tt (ac_CaseID dec_case1.2)
    (mk_ApprovalDecisionRequest "approve") (dec_t0 + 5 * Second)).2 = pendingStatusSafeguardHold.
Proof.
  split.
  - destruct (approval_decides (dec_port "dispatched") dec_case1.1 tt (ac_CaseID dec_case1.2)
      (mk_ApprovalDecisionRequest "approve") (dec_t0 + 5 * Second) dec_case1.2 d1_entry "approved")
      as (_ & _ & H & _); [vm_compute; reflexivity..|by vm_compute|vm_compute; reflexivity|].
    rewrite H. vm_compute. reflexivity.
  - destruct (approval_decides (dec_port "queued") dec_case1.1 tt (ac_CaseID dec_case1.2)
      (mk_ApprovalDecisionRequest "approve") (dec_t0 + 5 * Second) dec_case1.2 d1_entry "approved")
      as (_ & _ & H & _); [vm_compute; reflexivity..|by vm_compute|vm_compute; reflexivity|].
    rewrite H. vm_compute. reflexivity.
Defined.

Lemma approve_confirmed_holds_witness :
  adp_PendingStatus (DecideApprovalCase (dec_port "dispatched") dec_case2.1 tt (ac_CaseID dec_case2.2)
    (mk_ApprovalDecisionRequest "approve") (dec_t0 + 5 * Second)).2 = pendingStatusSafeguardHold.
Proof.
  destruct (approve_confirmed_holds (dec_port "dispatched") dec_case2.1 tt (ac_CaseID dec_case2.2)
    (mk_ApprovalDecisionRequest "approve") (dec_t0 + 5 * Second) dec_case2.2 d2_entry)
    as (_ & _ & H); [vm_compute; reflexivity..|by vm_compute|vm_compute; reflexivity|].
  exact H.
Defined.
