(* ===== verification/DecPolicyTheorems.v ===== *)
(** * The rules of the Decision service: policies, obligation plans, contract
    resolution, retries *)

From S2P Require Import Prelude GoStrings Sha256 GoTime GoJson DecTypes DecJson DecPolicy.
From S2P Require Import DecContracts DecKernel DecRuntime DecAdmission DecPending DecFrame.
From S2P Require Import DecInvariant DecTrace DecExamples.
#[local] Open Scope Z_scope.

(** ** Policies *)

Lemma concat_map_snoc {A B} (f : A -> list B) l x : List.concat (map f (l ++ [x])) = List.concat (map f l) ++ f x.
Proof. rewrite map_app, concat_app. simpl. by rewrite app_nil_r. Qed.

Section Policy.

(** The rule that decides a list of matching rules: the first of the strongest. *)
Definition strongest (ms : list PolicyRule) (d id : string) : Prop :=
  exists l1 r l2, ms = l1 ++ r :: l2 /\ d = pl_Decision r /\ id = pl_RuleID r /\ d <> "" /\
    Forall (fun x => pl_Decision x = "" \/ ruleDecisionPriority (pl_Decision x) < ruleDecisionPriority d) l1 /\
    Forall (fun x => ruleDecisionPriority (pl_Decision x) <= ruleDecisionPriority d) l2.

Record policy_inv (ms : list PolicyRule) (out : PolicyEvaluation) : Prop := mk_policy_inv {
  pi_ids : pe_MatchedRuleIDs out = map pl_RuleID ms;
  pi_obligations : pe_Obligations out = List.concat (map pl_Obligations ms);
  pi_decision : (pe_Decision out = "" /\ Forall (fun r => pl_Decision r = "") ms) \/
    strongest ms (pe_Decision out) (pe_EffectiveRuleID out);
  pi_conflicts : Forall (fun r => pl_Decision r <> "") ms ->
    (pe_Conflicts out = [] <-> Forall (fun r => pl_Decision r = pe_Decision out) ms)
}.

Lemma priority_nonneg d : 0 <= ruleDecisionPriority d.
Proof. unfold ruleDecisionPriority. repeat case_match; lia. Qed.

Lemma strongest_mem ms d id : strongest ms d id -> exists r, r ∈ ms /\ pl_Decision r = d.
Proof. intros (l1 & r & l2 & -> & -> & _). exists r. split; [|done]. apply elem_of_app. right. by left. Qed.

Lemma policy_step_inv ms out r : policy_inv ms out -> policy_inv (ms ++ [r]) (policy_step out r).
Proof.
  intros [I1 I2 I3 I4]. unfold policy_step; cbv zeta.
  destruct (pe_Decision out =? "")%string eqn:E0.
  - apply String.eqb_eq in E0. destruct I3 as [[_ I3]|I3]; [|by destruct I3 as (? & ? & ? & _ & _ & _ & ? & _)].
    split; cbn.
    + by rewrite I1, map_app.
    + by rewrite I2, concat_map_snoc.
    + destruct (String.eqb_spec (pl_Decision r) "") as [E|E].
      * left. split; [done|]. by apply Forall_app; split; [|constructor].
      * right. exists ms, r, []. split_and!; try done. eapply Forall_impl; [exact I3|]. by left.
    + intros Hne. apply Forall_app in Hne as [Hne _]. destruct ms as [|x ms].
      * split; [by constructor|]. intros _. apply I4; [done|]. by constructor.
      * apply Forall_cons in Hne as [? _]. by apply Forall_cons in I3 as [? _].
  - apply String.eqb_neq in E0. destruct I3 as [[? _]|I3]; [done|].
    assert (Hconf : forall d, (d = pe_Decision out \/ d = pl_Decision r) ->
      (d <> pe_Decision out -> d = pl_Decision r) ->
      Forall (fun r => pl_Decision r <> "") (ms ++ [r]) ->
      ((if negb (pl_Decision r =? pe_Decision out)%string
        then pe_Conflicts out ++ ["policy_decision_conflict"] else pe_Conflicts out) = [] <->
       Forall (fun x => pl_Decision x = d) (ms ++ [r]))).
    { intros d Hd _ Hne. apply Forall_app in Hne as [Hne _]. specialize (I4 Hne).
      rewrite Forall_app, list.Forall_singleton.
      destruct (String.eqb_spec (pl_Decision r) (pe_Decision out)) as [Er|Er]; cbn [negb].
      - rewrite I4, Er. assert (d = pe_Decision out) as -> by (destruct Hd; congruence). tauto.
      - split; [by destruct (pe_Conflicts out)|]. intros [F1 F2].
        destruct (strongest_mem _ _ _ I3) as (x & Hx & Ex).
        assert (pl_Decision x = d) by (by apply (proj1 (Forall_forall _ _) F1)). congruence. }
    destruct (Z.ltb_spec (ruleDecisionPriority (pe_Decision out)) (ruleDecisionPriority (pl_Decision r)));
      split; cbn.
    + by rewrite I1, map_app.
    + by rewrite I2, concat_map_snoc.
    + right. exists ms, r, []. split_and!; try done.
      * intros E. pose proof (priority_nonneg (pe_Decision out)). rewrite E in *.
        change (ruleDecisionPriority "") with 0 in *. lia.
      * destruct I3 as (l1 & x & l2 & -> & E1 & _ & _ & F1 & F2). rewrite E1 in *. apply Forall_app. split.
        -- eapply Forall_impl; [exact F1|]. intros y [?|?]; [by left|right]. lia.
        -- constructor; [right; lia|]. eapply Forall_impl; [exact F2|]. intros y ?. right. cbn in *. lia.
    + apply Hconf; auto.
    + by rewrite I1, map_app.
    + by rewrite I2, concat_map_snoc.
    + right. destruct I3 as (l1 & x & l2 & -> & E1 & E2 & E3 & F1 & F2).
      exists l1, x, (l2 ++ [r]). rewrite <- app_assoc. split_and!; try done.
      apply Forall_app. split; [done|]. by constructor.
    + apply Hconf; [by left|done].
Qed.

Lemma policy_fold_inv ms : policy_inv ms (foldl policy_step (mk_PolicyEvaluation [] "" [] [] "" [] []) ms).
Proof.
  enough (H : forall l ms out, policy_inv ms out -> policy_inv (ms ++ l) (foldl policy_step out l)).
  { apply (H ms []). split; cbn; try done. by left. }
  induction l as [|r l IH]; intros ms' out Hi; simpl; [by rewrite app_nil_r|].
  replace (ms' ++ r :: l) with ((ms' ++ [r]) ++ l) by (by rewrite <- app_assoc).
  by apply IH, policy_step_inv.
Qed.

Lemma uniqueStrings_nil l : uniqueStrings l = [] <-> l = [].
Proof.
  split; [|by intros ->]. destruct l as [|x l]; [done|]. unfold uniqueStrings. simpl.
  enough (H : forall l out, out <> [] -> foldl (fun out v => if one_of v out then out else out ++ [v]) out l <> []).
  { intros E. exfalso. by eapply H, E. }
  clear. induction l as [|y l IH]; intros out Hne; simpl; [done|]. apply IH. case_match; [done|].
  by destruct out.
Qed.

Lemma sort_Strings_nil l : sort_Strings l = [] <-> l = [].
Proof.
  unfold sort_Strings. split; [|by intros ->]. intros E. apply Permutation_nil_r.
  by rewrite <- E, merge_sort_Permutation.
Qed.
End Policy.

(** C28: the answer of a policy phase is that of the first of the strongest
    matching rules (fail closed over denials over approval over review over
    allow); all matching rules are reported in order, all their obligations are
    kept, and a conflict is reported iff the rules that matched disagree. *)
Theorem policy_strongest (input : PolicyInput) (phase : string) (rules : list PolicyRule) :
  let ms := List.filter (policy_matches input phase) rules in
  let out := evaluatePolicyPhase input phase rules in
  pe_MatchedRuleIDs out = map pl_RuleID ms /\
  pe_Obligations out ≡ₚ List.concat (map pl_Obligations ms) /\
  ((pe_Decision out = "" /\ Forall (fun r => pl_Decision r = "") ms) \/
   strongest ms (pe_Decision out) (pe_EffectiveRuleID out)) /\
  (Forall (fun r => pl_Decision r <> "") ms ->
   (pe_Conflicts out = [] <-> Forall (fun r => pl_Decision r = pe_Decision out) ms)) /\
  ruleDecisionPriority DecisionDeny < ruleDecisionPriority DecisionFailClosed /\
  ruleDecisionPriority DecisionAutoDeny = ruleDecisionPriority DecisionDeny /\
  ruleDecisionPriority DecisionRequireApproval < ruleDecisionPriority DecisionDeny /\
  ruleDecisionPriority DecisionReviewRequired < ruleDecisionPriority DecisionRequireApproval /\
  ruleDecisionPriority DecisionAllow < ruleDecisionPriority DecisionReviewRequired /\
  ruleDecisionPriority "" < ruleDecisionPriority DecisionAllow.
Proof.
  cbv zeta. unfold evaluatePolicyPhase; cbv zeta.
  destruct (policy_fold_inv (List.filter (policy_matches input phase) rules)) as [I1 I2 I3 I4].
  destruct (foldl policy_step _ _) as [ids d obs conf eff ov pairs].
  cbn [pe_MatchedRuleIDs pe_Decision pe_Obligations pe_Conflicts pe_EffectiveRuleID] in *.
  split_and!; try done.
  - by rewrite sort_Slice_perm, I2.
  - intros Hne. by rewrite uniqueStrings_nil, sort_Strings_nil, (I4 Hne).
Qed.

(** ** Obligation plans *)

Section Plan.

Definition plan_ok (index : gmap string Obligation) : Prop :=
  map_Forall (fun k o => obligation_key o = k) index.

(** [i'] keeps every obligation of [i] at least as strict. *)
Definition tightens (i i' : gmap string Obligation) : Prop :=
  forall k o, i !! k = Some o -> exists o', i' !! k = Some o' /\ ob_Strictness o <= ob_Strictness o'.

#[local] Instance tightens_preorder : PreOrder tightens.
Proof.
  split.
  - intros i k o Hk. exists o. split; [done|lia].
  - intros i1 i2 i3 H1 H2 k o Hk. destruct (H1 k o Hk) as (o2 & Hk2 & ?).
    destruct (H2 k o2 Hk2) as (o3 & Hk3 & ?). exists o3. split; [done|lia].
Qed.

(** What the index holds for the key of an item. *)
Definition covers (i : gmap string Obligation) (item : Obligation) : Prop :=
  exists o, i !! obligation_key item = Some o /\ ob_Strictness item <= ob_Strictness o.

Lemma covers_tightens i i' item : tightens i i' -> covers i item -> covers i' item.
Proof. intros Ht (o & Ho & ?). destruct (Ht _ _ Ho) as (o' & Ho' & ?). exists o'. split; [done|lia]. Qed.

(** The index only holds given items. *)
Definition from (l : list Obligation) (i : gmap string Obligation) : Prop := map_Forall (fun _ o => o ∈ l) i.

Lemma from_insert l i k item : from l i -> from (l ++ [item]) (<[k := item]> i).
Proof.
  intros Hf k' o Hk. apply elem_of_app. destruct (decide (k' = k)) as [->|Hne].
  - rewrite lookup_insert_eq in Hk. injection Hk as <-. right. by left.
  - rewrite lookup_insert_ne in Hk by congruence. left. by apply (Hf k').
Qed.

Lemma from_weaken l item i : from l i -> from (l ++ [item]) i.
Proof. intros Hf k o Hk. apply elem_of_app. left. by apply (Hf k). Qed.

Lemma tighten_step a b c d st item l : plan_ok st.1 -> from l st.1 ->
  let st' := plan_tighten a b c d st item in
  plan_ok st'.1 /\ from (l ++ [item]) st'.1 /\ tightens st.1 st'.1 /\ covers st'.1 item.
Proof.
  destruct st as [i [cf tr]]. intros Hok Hf. unfold plan_tighten; cbv zeta. cbn [fst] in *.
  destruct (i !! obligation_key item) as [o|] eqn:Eo.
  - destruct (Z.ltb_spec (ob_Strictness item) (ob_Strictness o)); cbn [fst].
    + split_and!; [done|by apply from_weaken|reflexivity|]. exists o. split; [done|lia].
    + split_and!; [by apply map_Forall_insert_2|by apply from_insert| |].
      * intros k o' Hk. destruct (decide (k = obligation_key item)) as [->|Hne].
        -- exists item. rewrite lookup_insert_eq. split; [done|]. rewrite Eo in Hk. injection Hk as <-. lia.
        -- exists o'. rewrite lookup_insert_ne by congruence. split; [done|lia].
      * exists item. rewrite lookup_insert_eq. split; [done|lia].
  - cbn [fst]. split_and!; [by apply map_Forall_insert_2|by apply from_insert| |].
    + intros k o' Hk. exists o'. rewrite lookup_insert_ne by (intros <-; congruence). split; [done|lia].
    + exists item. rewrite lookup_insert_eq. split; [done|lia].
Qed.

Lemma tighten_fold a b c d items st l : plan_ok st.1 -> from l st.1 ->
  let st' := foldl (plan_tighten a b c d) st items in
  plan_ok st'.1 /\ from (l ++ items) st'.1 /\ tightens st.1 st'.1 /\ Forall (covers st'.1) items.
Proof.
  cbv zeta. revert st l. induction items as [|x items IH]; intros st l Hok Hf; cbn [foldl].
  { rewrite app_nil_r. by split_and!. }
  destruct (tighten_step a b c d st x l Hok Hf) as (S1 & S2 & S3 & S4).
  destruct (IH (plan_tighten a b c d st x) (l ++ [x]) S1 S2) as (I1 & I2 & I3 & I4).
  rewrite <- app_assoc in I2. split_and!; [done|done|by etransitivity|].
  constructor; [by eapply covers_tightens|done].
Qed.

Lemma initial_fold items st l : plan_ok st.1 -> from l st.1 ->
  let st' := foldl plan_initial st items in
  plan_ok st'.1 /\ from (l ++ items) st'.1 /\
  (forall k, st'.1 !! k = match last (List.filter (fun o => obligation_key o =? k)%string items) with
                     | Some o => Some o | None => st.1 !! k end).
Proof.
  cbv zeta. revert st l. induction items as [|x items IH]; intros [i [cf tr]] l Hok Hf; cbn [foldl].
  { rewrite app_nil_r. by split_and!. }
  destruct (IH (plan_initial (i, (cf, tr)) x) (l ++ [x])) as (I1 & I2 & I3).
  { by apply map_Forall_insert_2. }
  { by apply from_insert. }
  rewrite <- app_assoc in I2. split_and!; [done|done|]. intros k. rewrite I3. cbn [plan_initial fst List.filter].
  destruct (String.eqb_spec (obligation_key x) k) as [<-|Hne].
  - rewrite lookup_insert_eq. destruct (List.filter _ items) as [|y t]; [done|].
    rewrite last_cons_cons. destruct (last (y :: t)) eqn:E; [done|]. by apply last_None in E.
  - by rewrite lookup_insert_ne.
Qed.

Lemma plan_index_spec preTool preResume approval :
  let i := (plan_index preTool preResume approval).1 in
  plan_ok i /\ from (preTool ++ preResume ++ approval) i /\
  Forall (covers i) (preResume ++ approval) /\
  (forall k item, last (List.filter (fun o => obligation_key o =? k)%string preTool) = Some item ->
     exists o, i !! k = Some o /\ ob_Strictness item <= ob_Strictness o).
Proof.
  cbv zeta. unfold plan_index, plan_resume, plan_approval.
  destruct (initial_fold preTool (∅, ([], [])) []) as (A1 & A2 & A3); [done|done|].
  set (s1 := foldl plan_initial _ _) in *. clearbody s1.
  match goal with |- context [foldl (plan_tighten ?a ?b ?c ?d) s1 preResume] =>
    destruct (tighten_fold a b c d preResume s1 _ A1 A2) as (B1 & B2 & B3 & B4) end.
  set (s2 := foldl _ s1 preResume) in *. clearbody s2.
  match goal with |- context [foldl (plan_tighten ?a ?b ?c ?d) s2 approval] =>
    destruct (tighten_fold a b c d approval s2 _ B1 B2) as (C1 & C2 & C3 & C4) end.
  set (s3 := foldl _ s2 approval) in *. clearbody s3. cbn [app] in *. split_and!.
  - exact C1.
  - by rewrite <- app_assoc in C2.
  - apply Forall_app. split; [|exact C4]. eapply Forall_impl; [exact B4|]. intros o. by apply covers_tightens.
  - intros k item Hl. specialize (A3 k). rewrite Hl in A3. destruct (B3 _ _ A3) as (o2 & Ho2 & ?).
    destruct (C3 _ _ Ho2) as (o3 & Ho3 & ?). exists o3. split; [done|lia].
Qed.
End Plan.

(** An obligation plan holds one obligation per type and target, always one
    of those given; for every obligation of the resume phase and of the
    approval it holds one at least as strict, and one at least as strict as the
    last pre-tool obligation of each key: later phases never relax.  Conflicts
    and traces do not depend on the order of the map; the obligations only in
    the order of ties. *)
Theorem plan_never_relaxes {MR : MapRange} (preTool preResume approval : list Obligation) :
  let plan := BuildObligationPlan preTool preResume approval in
  NoDup (map obligation_key (opl_Obligations plan)) /\
  (forall o, o ∈ opl_Obligations plan -> o ∈ preTool ++ preResume ++ approval) /\
  (forall item, item ∈ preResume ++ approval -> exists o, o ∈ opl_Obligations plan /\
     obligation_key o = obligation_key item /\ ob_Strictness item <= ob_Strictness o) /\
  (forall k item, last (List.filter (fun o => obligation_key o =? k)%string preTool) = Some item ->
     exists o, o ∈ opl_Obligations plan /\ obligation_key o = k /\ ob_Strictness item <= ob_Strictness o) /\
  (forall MR' : MapRange, let plan' := BuildObligationPlan (H := MR') preTool preResume approval in
     opl_Obligations plan' ≡ₚ opl_Obligations plan /\ opl_Conflicts plan' = opl_Conflicts plan /\
     opl_ResolutionTraces plan' = opl_ResolutionTraces plan).
Proof.
  cbv zeta. destruct (plan_index_spec preTool preResume approval) as (P1 & P2 & P3 & P4).
  unfold BuildObligationPlan. destruct (plan_index _ _ _) as [i [cf tr]].
  cbn [fst opl_Obligations opl_Conflicts opl_ResolutionTraces] in *.
  assert (Hin : forall o, o ∈ sort_Slice plan_before (range_map i).*2 <-> i !! obligation_key o = Some o).
  { intros o. rewrite sort_Slice_perm, list_elem_of_fmap. split.
    - intros ([k o'] & -> & Hk). apply range_map_elem in Hk.
      pose proof (P1 _ _ Hk) as Ek. cbn in *. by rewrite Ek.
    - intros Hk. exists (obligation_key o, o). split; [done|]. by apply range_map_elem. }
  split_and!.
  - change (map obligation_key) with (fmap (M := list) obligation_key). rewrite sort_Slice_perm.
    replace (obligation_key <$> (range_map i).*2) with (range_map i).*1; [apply range_map_nodup|].
    rewrite <- list_fmap_compose. apply list_fmap_ext. intros n [k o] Hn. symmetry. apply P1.
    by apply list_elem_of_lookup_2, range_map_elem in Hn.
  - intros o Ho. apply Hin in Ho. by apply (P2 _ _ Ho).
  - intros item Hi. apply (proj1 (Forall_forall _ _) P3) in Hi as (o & Ho & ?). exists o.
    pose proof (P1 _ _ Ho) as Ek. cbn beta in Ek. split_and!; [|done|done]. apply Hin. by rewrite Ek.
  - intros k item Hl. destruct (P4 k item Hl) as (o & Ho & ?). exists o.
    pose proof (P1 _ _ Ho) as Ek. cbn beta in Ek. split_and!; [|done|done]. apply Hin. by rewrite Ek.
  - intros MR'. split_and!; [|done..]. rewrite !sort_Slice_perm. apply fmap_Permutation.
    by rewrite !range_map_perm.
Qed.

Lemma plan_never_relaxes_witness :
  exists o, o ∈ opl_Obligations (BuildObligationPlan
      [mk_Obligation "limit_param" "amount" "100" "PRE_TOOL" 50]
      [mk_Obligation "limit_param" "amount" "200" "PRE_RESUME" 10] []) /\
    obligation_key o = "limit_param|amount" /\ 50 <= ob_Strictness o.
Proof.
  destruct (plan_never_relaxes [mk_Obligation "limit_param" "amount" "100" "PRE_TOOL" 50]
      [mk_Obligation "limit_param" "amount" "200" "PRE_RESUME" 10] []) as (_ & _ & _ & H & _).
  apply (H "limit_param|amount" (mk_Obligation "limit_param" "amount" "100" "PRE_TOOL" 50)). reflexivity.
Defined.

(** ** Contract resolution *)

Lemma first_contract_spec s path l :
  match first_contract s path l with
  | (p, Some (sc, k, key, c)) => exists i, l !! i = Some (sc, (k, key)) /\ usable_contract s key = Some c /\
      (forall j x, (j < i)%nat -> l !! j = Some x -> usable_contract s x.2.2 = None) /\
      p = path ++ map (fun x => x.2.2) (take (S i) l)
  | (p, None) => (forall x, x ∈ l -> usable_contract s x.2.2 = None) /\ p = path ++ map (fun x => x.2.2) l
  end.
Proof.
  revert path. induction l as [|[sc [k key]] l IH]; intros path; cbn [first_contract].
  { split; [|by rewrite app_nil_r]. intros x Hx. by apply not_elem_of_nil in Hx. }
  destruct (usable_contract s key) as [c|] eqn:Eu.
  { exists 0%nat. split_and!; [done|done|lia|done]. }
  specialize (IH (path ++ [key])). destruct (first_contract s (path ++ [key]) l) as [p [[[[sc' k'] key'] c]|]].
  - destruct IH as (i & H1 & H2 & H3 & H4). exists (S i). split_and!; [done|done| |].
    + intros [|j] x Hj Hx; [by injection Hx as <-|]. apply (H3 j x); [lia|done].
    + rewrite H4, <- app_assoc. done.
  - destruct IH as [H1 H2]. split.
    + intros x Hx. apply elem_of_cons in Hx as [->|Hx]; [done|by apply H1].
    + rewrite H2, <- app_assoc. done.
Qed.

(** A contract is resolved to the first candidate, from the most specific
    scope and key to the global wildcard, that requires some field; the binding
    names exactly that candidate, lists everything tried before it, and carries
    the version and hash of the active version of its history.  Without any
    usable candidate the default contract applies and the binding says so. *)
Theorem contract_most_specific `{JsonMarshaler} (s : Service) (scope : ScopeRef) (risk phase : string)
    (now : time) :
  let candidates := contract_candidates scope risk phase in
  let '(c, b, found) := resolveFeatureSignalContractWithBinding s scope risk phase now in
  if found then
    exists i, candidates !! i = Some (fb_Scope b, (fb_ContractKey b, fb_StorageKey b)) /\
      usable_contract s (fb_StorageKey b) = Some c /\
      (forall j x, (j < i)%nat -> candidates !! j = Some x -> usable_contract s x.2.2 = None) /\
      fb_ResolutionPath b = map (fun x => x.2.2) (take (S i) candidates) /\
      (forall v, activeFeatureSignalContractVersionLocked s (fb_StorageKey b) = Some v ->
         0 < fv_Version v -> blank (fv_ContractHash v) = false ->
         fb_Version b = fv_Version v /\ fb_ContractHash b = fv_ContractHash v)
  else
    (forall x, x ∈ candidates -> usable_contract s x.2.2 = None) /\ c = defaultContract /\
    fb_Version b = 0 /\ fb_ContractHash b = "" /\ fb_ResolutionPath b = map (fun x => x.2.2) candidates.
Proof.
  cbv zeta. unfold resolveFeatureSignalContractWithBinding.
  pose proof (first_contract_spec s [] (contract_candidates scope risk phase)) as F.
  destruct (first_contract _ _ _) as [p [[[[sc k] key] c]|]].
  - destruct F as (i & F1 & F2 & F3 & F4). cbv zeta.
    destruct (activeFeatureSignalContractVersionLocked s key) as [v|] eqn:Ev.
    + destruct (Z.ltb_spec 0 (fv_Version v)); exists i; cbn [fb_Scope fb_ContractKey fb_StorageKey fb_ResolutionPath
        fb_Version fb_ContractHash]; (split_and!; [done..|]); rewrite Ev; intros v' [= <-] Hv Hb; [|lia].
      by rewrite Hb.
    + exists i. cbn [fb_Scope fb_ContractKey fb_StorageKey fb_ResolutionPath fb_Version fb_ContractHash].
      split_and!; [done..|]. by rewrite Ev.
  - destruct F as [F1 F2]. by split_and!.
Qed.

(** The candidates of a full scope, most specific first. *)
Example candidates_order :
  map (fun x => x.2.2) (contract_candidates (mk_ScopeRef "Org" "ws" "") "low" "PRE_TOOL") =
  ["org|ws|*::low|PRE_TOOL"; "org|ws|*::low|*"; "org|ws|*::*|PRE_TOOL"; "org|ws|*::*|*";
   "org|*|*::low|PRE_TOOL"; "org|*|*::low|*"; "org|*|*::*|PRE_TOOL"; "org|*|*::*|*";
   "*|*|*::low|PRE_TOOL"; "*|*|*::low|*"; "*|*|*::*|PRE_TOOL"; "*|*|*::*|*"].
Proof. vm_compute. reflexivity. Qed.

(** ** Retries *)

Section Retries.
Context `{JsonMarshaler}.
Implicit Types (rounds : list (RuntimeDecisionResponse * time)).

(** Reviews of one step in a row. *)
Definition review_rounds (q : RuntimeDecisionRequest) (s : Service) rounds : Service :=
  foldl (fun s x => (applySoftFailureGuard q x.1 x.2 s).1) s rounds.

Definition retries (q : RuntimeDecisionRequest) (s : Service) : Z :=
  sf_RetryCount (default no_soft_failure (s_softFailures s !! soft_key q)).

(** One review without attempt numbers and without new evidence. *)
Lemma guard_counts q r now s : q_AttemptIndex q <= 0 -> q_EvidenceFingerprint q = "" ->
  r_Decision r = DecisionReviewRequired -> -1 <= retries q s < max_int64 ->
  let out := applySoftFailureGuard q r now s in
  retries q out.1 = retries q s + 1 /\ s_cfg out.1 = s_cfg s /\
  r_Decision out.2 =
    (if retries q s + 1 <=? dc_DecisionRetryLimitPerStep (s_cfg s) then DecisionReviewRequired
     else if isHighOrCritical (q_RiskTier q) then DecisionForceReview else DecisionFailed).
Proof.
  intros Ha Hf Hr Hn. cbv zeta. unfold retries in *. unfold applySoftFailureGuard; cbv zeta.
  rewrite Hr. change (DecisionReviewRequired =? DecisionReviewRequired)%string with true. cbn [negb].
  unfold soft_step; cbv zeta. rewrite Hf. change (negb ("" =? "")%string) with false. cbn [andb].
  replace (0 <? q_AttemptIndex q) with false by (symmetry; apply Z.ltb_ge; lia).
  set (st := default _ _) in *. clearbody st. cbn [sf_RetryCount sf_set_RetryCount sf_set_LastReason sf_set_FirstReason
    sf_set_LastUpdatedAt sf_set_LastEvidence].
  rewrite wrap_int64_succ by (unfold min_int64, max_int64 in *; lia).
  cbn [s_cfg s_set_softFailures]. destruct (_ <=? _) eqn:El.
  - cbn [fst snd s_softFailures s_set_softFailures]. rewrite lookup_insert_eq. split_and!; [done|done|exact Hr].
  - destruct (isHighOrCritical _); cbn [fst snd];
      (match goal with |- context [emitEvent ?a ?b ?c ?d ?e ?f ?g] =>
         destruct (emitEvent_quiet a b c d e f g) as [[Ec _ _ _ _ _ Es _ _ _ _] _] end;
       rewrite Ec, Es; cbn [s_softFailures s_set_softFailures]; rewrite lookup_insert_eq; done).
Qed.

Lemma rounds_count q s rounds : q_AttemptIndex q <= 0 -> q_EvidenceFingerprint q = "" ->
  Forall (fun x => r_Decision x.1 = DecisionReviewRequired) rounds ->
  0 <= retries q s -> retries q s + Z.of_nat (length rounds) <= max_int64 ->
  retries q (review_rounds q s rounds) = retries q s + Z.of_nat (length rounds) /\
  s_cfg (review_rounds q s rounds) = s_cfg s.
Proof.
  intros Ha Hf. revert s. induction rounds as [|[r t] rounds IH]; intros s Hall Hn Hlen; cbn [review_rounds foldl].
  { simpl. split; [lia|done]. }
  apply Forall_cons in Hall as [Hr Hall]. cbn [fst snd length] in *.
  destruct (guard_counts q r t s Ha Hf Hr) as (G1 & G2 & _); [lia|].
  destruct (IH (applySoftFailureGuard q r t s).1) as [I1 I2]; [done|lia|lia|].
  fold (review_rounds q (applySoftFailureGuard q r t s).1 rounds). rewrite I1, I2, G1, G2. split; [lia|done].
Qed.
End Retries.

(** Retries end: after [limit] reviews of a step without new evidence the
    next one is no longer a review; it fails, or for high and critical risks
    goes to a forced review.  Until then it stays a review. *)
Theorem retries_end `{JsonMarshaler} (q : RuntimeDecisionRequest) (s : Service)
    (rounds : list (RuntimeDecisionResponse * time)) (r : RuntimeDecisionResponse) (now : time) :
  q_AttemptIndex q <= 0 -> q_EvidenceFingerprint q = "" -> s_softFailures s !! soft_key q = None ->
  Forall (fun x => r_Decision x.1 = DecisionReviewRequired) rounds ->
  r_Decision r = DecisionReviewRequired -> Z.of_nat (length rounds) < max_int64 ->
  r_Decision (applySoftFailureGuard q r now (review_rounds q s rounds)).2 =
    if Z.of_nat (length rounds) <? dc_DecisionRetryLimitPerStep (s_cfg s) then DecisionReviewRequired
    else if isHighOrCritical (q_RiskTier q) then DecisionForceReview else DecisionFailed.
Proof.
  intros Ha Hf Hs Hall Hr Hlen. assert (H0 : retries q s = 0) by (unfold retries; by rewrite Hs).
  destruct (rounds_count q s rounds Ha Hf Hall) as [R1 R2]; [lia|lia|].
  destruct (guard_counts q r now (review_rounds q s rounds) Ha Hf Hr) as (_ & _ & G); [lia|].
  rewrite G, R1, R2, H0, Z.add_0_l.
  replace (Z.of_nat (length rounds) + 1 <=? dc_DecisionRetryLimitPerStep (s_cfg s))
    with (Z.of_nat (length rounds) <? dc_DecisionRetryLimitPerStep (s_cfg s)); [done|].
  destruct (Z.ltb_spec (Z.of_nat (length rounds)) (dc_DecisionRetryLimitPerStep (s_cfg s))); symmetry;
    [apply Z.leb_le|apply Z.leb_gt]; lia.
Qed.

Definition review_response : RuntimeDecisionResponse :=
  Eval vm_compute in r_set_Decision DecisionReviewRequired (initial_response "dec_1" "" dec_q).
Definition review_request : RuntimeDecisionRequest := Eval vm_compute in
  {| q_RequestID := "req"; q_TraceID := ""; q_TenantID := "t"; q_WorkflowID := "w"; q_RunID := "r";
     q_StepID := "s"; q_RiskTier := "high"; q_EffectType := "write"; q_DecisionGraphID := "g";
     q_ParentDecisionNodeIDs := []; q_ApprovalSystemAvailable := true; q_Freeze := mk_FreezeLayer dec_frozen [];
     q_Phase := "PRE_TOOL"; q_PolicyEngineAvailable := None; q_EvidenceFingerprint := ""; q_AttemptIndex := 0;
     q_DCUInput := mk_DCUInput 1 1 0 0; q_FeatureVersion := "v1"; q_FeatureSchemaVersion := "";
     q_FeatureEvidenceRef := "ev"; q_FeatureProducerID := "p"; q_FeatureFreshnessMS := 0; q_FeatureTTLMS := 0;
     q_FeatureDriftScore := fzero; q_FeatureContractScope := mk_ScopeRef "" "" "";
     q_FeatureContractHashPin := "" |}.

Lemma retries_end_witness :
  r_Decision (applySoftFailureGuard review_request review_response dec_t0
    (review_rounds review_request d0 (replicate 3 (review_response, dec_t0)))).2 = DecisionForceReview.
Proof.
  rewrite (retries_end review_request d0 (replicate 3 (review_response, dec_t0)) review_response dec_t0);
    [vm_compute; reflexivity|vm_compute; discriminate|vm_compute; reflexivity|vm_compute; reflexivity| |
     vm_compute; reflexivity|vm_compute; reflexivity].
  by repeat constructor.
Defined.

(** ** The owner check without an owner *)

(** Every pending decision has an owner, so the check that names none refuses
    every decision, confirmed or not. *)
Lemma confirmed_without_owner `{JsonMarshaler} {Env : Type} (s : Service) (id run step : string) :
  reach (Env := Env) s -> IsDecisionConfirmed s id run step = false.
Proof.
  intros HI. apply reach_inv in HI. unfold IsDecisionConfirmed, IsDecisionConfirmedWithOwner.
  destruct (s_pending s !! id) as [p|] eqn:Ep; [|done]. cbv zeta.
  pose proof (pk_owner _ _ (si_pending _ HI _ _ Ep)) as Ho. apply String.eqb_neq in Ho. rewrite Ho.
  change (upper_trim "") with "". cbn [negb]. by repeat case_match.
Qed.
