(* ===== verification/DecSteady.v ===== *)
(** * The calls of the Decision service leave the contracts alone

    [steady] relates two states with the same feature signal contracts, store
    revision and enforcement matrix.  Every exported method of service.go is
    steady: only the control plane and the contract cache change contracts. *)

From stdpp Require Import relations.
From S2P Require Import Prelude GoStrings GoTime GoJson DecTypes DecJson DecPolicy DecContracts.
From S2P Require Import DecKernel DecRuntime DecAdmission DecPending DecApproval DecFrame DecTrace.
#[local] Open Scope Z_scope.

Record steady (s s' : Service) : Prop := mk_steady {
  st_scoped : s_featureSignalContractsScoped s' = s_featureSignalContractsScoped s;
  st_meta : s_featureSignalContractMeta s' = s_featureSignalContractMeta s;
  st_versions : s_featureSignalContractHistory s' = s_featureSignalContractHistory s;
  st_rollbacks : s_featureSignalContractRollbacks s' = s_featureSignalContractRollbacks s;
  st_scheduled : s_featureSignalContractScheduled s' = s_featureSignalContractScheduled s;
  st_store : s_storeVersion s' = s_storeVersion s;
  st_cfg : s_cfg s' = s_cfg s
}.

#[export] Instance steady_preorder : PreOrder steady.
Proof. split; [by split|]. intros s1 s2 s3 [] []. split; congruence. Qed.

Lemma steady_calm s s' : calm s s' -> steady s s'.
Proof. intros []. by split. Qed.

Section Steady.
Context `{JsonMarshaler}.

Lemma steady_emit ty d r st kvs at_ s0 s : steady s0 s -> steady s0 (emitEvent ty d r st kvs at_ s).
Proof. intros Hs. etransitivity; [exact Hs|]. apply steady_calm, quiet_calm, emitEvent_quiet. Qed.

Lemma steady_counter k s0 s : steady s0 s -> steady s0 (add_counter k s).
Proof. intros Hs. etransitivity; [exact Hs|]. apply steady_calm, quiet_calm, add_counter_quiet. Qed.

Lemma steady_pending id p s0 s : steady s0 s -> steady s0 (set_pending id p s).
Proof. intros Hs. etransitivity; [exact Hs|]. by split. Qed.

Lemma steady_record kind id i now s0 s : steady s0 s -> steady s0 (recordDecisionLocked kind id i now s).
Proof.
  intros Hs. etransitivity; [exact Hs|]. unfold recordDecisionLocked; cbv zeta.
  repeat case_match; by split.
Qed.

Lemma steady_soft m s0 s : steady s0 s -> steady s0 (s_set_softFailures m s).
Proof. intros Hs. etransitivity; [exact Hs|]. by split. Qed.

Lemma steady_ticket t s0 s : steady s0 s -> steady s0 (set_ticket t s).
Proof. intros Hs. etransitivity; [exact Hs|]. by split. Qed.

Lemma steady_approvals m s0 s : steady s0 s -> steady s0 (s_set_approvals m s).
Proof. intros Hs. etransitivity; [exact Hs|]. by split. Qed.

Lemma steady_by_calm s0 s s' : steady s0 s -> calm s s' -> steady s0 s'.
Proof. intros Hs C. etransitivity; [exact Hs|by apply steady_calm]. Qed.

(** Peel the primitive on top, or split on what the code tests. *)
Ltac steady :=
  repeat first
    [ reflexivity | assumption
    | apply steady_emit | apply steady_counter | apply steady_pending | apply steady_record
    | apply steady_soft | apply steady_ticket | apply steady_approvals
    | progress cbn [fst snd] | case_match ].

Lemma steady_create id run step risk now meta s0 s : steady s0 s ->
  steady s0 (createPendingDecision id run step risk now meta s).
Proof. intros Hs. unfold createPendingDecision; cbv zeta. steady. Qed.

Lemma steady_guard q r now s : steady s (applySoftFailureGuard q r now s).1.
Proof.
  unfold applySoftFailureGuard; cbv zeta. case_match; [steady|].
  destruct (soft_step _ _ _ _) as [st [stage|]]; [steady|]. case_match; [steady|].
  destruct (if isHighOrCritical _ then _ else _) as [d stage]. steady.
Qed.

Lemma steady_finalize q r now s0 s : steady s0 s -> steady s0 (finalizeRuntimeDecision q r now s).1.
Proof.
  intros Hs. unfold finalizeRuntimeDecision; cbv zeta. set (n := normalizeRuntimeRequest q).
  pose proof (hash_or_fail_calm (fill_ids n r) s) as Hc. destruct (hash_or_fail _ _) as [s1 r1].
  cbn [fst] in *. pose proof (steady_by_calm _ _ _ Hs Hc). apply steady_emit.
  case_match; [|by apply steady_record]. by apply steady_create, steady_record.
Qed.

Lemma steady_evaluate s q now : steady s (EvaluateRuntime s q now).1.
Proof.
  unfold EvaluateRuntime; cbv zeta. set (n := normalizeRuntimeRequest q).
  pose proof (makeBestEffortID_calm "dec_" (decision_id_input n) s) as Hc.
  destruct (makeBestEffortID _ _ _) as [s1 [id ok]]. cbn [fst] in Hc.
  assert (G : steady s (add_counter "runtime_eval_total" s1)) by (by apply steady_counter, steady_calm).
  assert (Hgo : forall r, steady s (match evaluate_gates n now (add_counter "runtime_eval_total" s1) r with
      | Final s resp => finalizeRuntimeDecision n resp now s
      | Guarded s resp => let '(s, resp) := applySoftFailureGuard n resp now s in
                          finalizeRuntimeDecision n resp now s
      end).1).
  { intros r. pose proof (evaluate_gates_quiet n now (add_counter "runtime_eval_total" s1) r) as Q.
    destruct (evaluate_gates _ _ _ _) as [s2 r2|s2 r2]; cbn [verdict_state] in Q;
      pose proof (steady_by_calm _ _ _ G (quiet_calm _ _ Q)) as G2.
    - by apply steady_finalize.
    - pose proof (steady_guard n r2 now s2) as Hg. destruct (applySoftFailureGuard _ _ _ _) as [s3 r3].
      apply steady_finalize. by etransitivity. }
  destruct (safeHash _) as [fh|]; (case_match; [by apply steady_finalize|apply Hgo]).
Qed.

(** ** Admission and release *)

Lemma steady_fallback p s0 s : steady s0 s -> steady s0 (nextFallbackID p s).1.
Proof. intros Hs. eapply steady_by_calm; [exact Hs|apply nextFallbackID_calm]. Qed.

Lemma steady_reject reason q r now s0 s : steady s0 s -> steady s0 (reject_schedule reason q r now s).1.
Proof. intros Hs. cbn. by apply steady_emit, steady_record. Qed.

Lemma steady_admit q r h now s : steady s (admit_ticket q r h now s).1.
Proof.
  unfold admit_ticket. pose proof (makeBestEffortID_calm "ticket_" (ticket_id_input q h) s) as Hc.
  destruct (makeBestEffortID _ _ _) as [s1 [id [|]]]; cbn [fst] in *; apply steady_calm in Hc.
  - by apply steady_emit, steady_record, steady_ticket.
  - by apply steady_record.
Qed.

Lemma steady_schedule `{MapRange} s q now : steady s (EvaluateScheduleAdmission s q now).1.
Proof.
  unfold EvaluateScheduleAdmission.
  pose proof (makeBestEffortID_calm "dec_sched_" (schedule_id_input q) s) as Hc.
  destruct (makeBestEffortID _ _ _) as [s1 [id [|]]]; cbn [fst] in Hc; apply steady_calm in Hc; cbv zeta;
    pose proof (steady_fallback "sched_hash_" _ _ Hc) as Hf.
  - case_match.
    + unfold deny_quota; cbv zeta. case_match; [by apply steady_reject|].
      destruct (nextFallbackID "sched_hash_" s1) as [s2 h]. by apply steady_reject.
    + case_match; [etransitivity; [exact Hc|apply steady_admit]|].
      destruct (nextFallbackID "sched_hash_" s1) as [s2 h]. by apply steady_reject.
  - destruct (nextFallbackID "sched_hash_" s1) as [s2 h]. by apply steady_record.
Qed.

Lemma steady_hash_release f r s0 s : steady s0 s -> steady s0 (hash_release f r s).1.
Proof.
  intros Hs. unfold hash_release; cbv zeta. case_match; [done|].
  by apply (steady_fallback "rel_hash_").
Qed.

Lemma steady_block reason kvs risk q r now s0 s : steady s0 s ->
  steady s0 (block_release reason kvs risk q r now s).1.
Proof.
  intros Hs. unfold block_release. pose proof (steady_hash_release (fun r => r) r _ _ Hs) as G.
  destruct (hash_release _ _ _) as [s1 r1]. cbn [fst] in *. by apply steady_emit, steady_record.
Qed.

Lemma steady_pass risk q r now s0 s : steady s0 s -> steady s0 (pass_release risk q r now s).1.
Proof.
  intros Hs. unfold pass_release; cbv zeta.
  match goal with |- context [hash_release ?f ?x ?y] => pose proof (steady_hash_release f x _ _ Hs) as G;
    destruct (hash_release f x y) as [s1 r1] end.
  cbn [fst] in *. by apply steady_emit, steady_record.
Qed.

Lemma steady_release s q now : steady s (EvaluateRelease s q now).1.
Proof.
  unfold EvaluateRelease.
  pose proof (makeBestEffortID_calm "dec_release_" (release_id_input q) s) as Hc.
  destruct (makeBestEffortID _ _ _) as [s1 [id [|]]]; cbn [fst] in Hc; apply steady_calm in Hc; cbv zeta.
  - case_match; [by apply steady_block|]. case_match; [by apply steady_pass|by apply steady_block].
  - pose proof (steady_fallback "rel_hash_" _ _ Hc) as Hf.
    destruct (nextFallbackID "rel_hash_" s1) as [s2 h]. by apply steady_record.
Qed.

(** ** Pending decisions, approvals, cleanup *)

Lemma steady_confirm s q now : steady s (ConfirmRunAdvance s q now).1.
Proof. unfold ConfirmRunAdvance; cbv zeta. steady. Qed.

Lemma steady_terminalize s q now : steady s (TerminalizePendingDecision s q now).1.
Proof. unfold TerminalizePendingDecision; cbv zeta. steady. Qed.

Lemma steady_repair `{MapRange} s now : steady s (RepairPendingDecisions s now).1.
Proof.
  unfold RepairPendingDecisions, go_range.
  enough (Hl : forall l st, steady s st.1 ->
    steady s (foldl (fun st (kv : string * PendingDecision) => repair_visit now st kv.1 kv.2) st l).1).
  { apply (Hl (range_map (s_pending s)) (s, mk_PendingRepairResult 0 0 0 0 [])). reflexivity. }
  induction l as [|kv l IH]; intros [s1 r] Hs; [done|]. cbn [foldl]. apply IH.
  unfold repair_visit. case_match; [|done]. cbv zeta. cbn [fst] in *. by apply steady_emit, steady_pending.
Qed.

Lemma steady_create_case s q now : steady s (CreateApprovalCase s q now).1.
Proof.
  unfold CreateApprovalCase; cbv zeta. cbn [fst]. apply steady_emit. by split.
Qed.

Lemma steady_apply c now s : steady s (applyApprovalOutcomeToPending c now s).1.
Proof. unfold applyApprovalOutcomeToPending; cbv zeta. steady. Qed.

Lemma steady_unlock_guard c status now s : steady s (enforceApprovalUnlockFailureGuard c status now s).1.
Proof. unfold enforceApprovalUnlockFailureGuard; cbv zeta. steady. Qed.

Section Port.
Context {Env : Type}.
Implicit Types (port : option (UnlockPort Env)) (env : Env).

Lemma steady_dispatch port g now s env : steady s (dispatchApprovalRunUnlock port g now s env).1.1.
Proof.
  unfold dispatchApprovalRunUnlock; cbv zeta. destruct port as [port|]; [|steady].
  destruct (port g env) as [env' [res|err]]; steady.
Qed.

Lemma steady_settle port c now s env : steady s (settle_outcome port c now s env).1.1.
Proof.
  unfold settle_outcome; cbv zeta. pose proof (steady_apply c now s) as G1.
  destruct (applyApprovalOutcomeToPending c now s) as [s1 [[ps pr] sg]]. cbn [fst] in G1.
  set (m := match sg with Some _ => _ | None => _ end).
  assert (G2 : steady s1 m.1.1).
  { subst m. destruct sg as [g|]; [|done]. pose proof (steady_dispatch port g now s1 env) as G.
    destruct (dispatchApprovalRunUnlock _ _ _ _ _) as [[s2 e2] [[st rs] res]]. exact G. }
  clearbody m. destruct m as [[s2 e2] [[us ur] ua]]. cbn [fst] in G2.
  set (w := if EqualFold _ _ && _ then _ else _).
  assert (G3 : steady s2 w.1) by (subst w; case_match; [apply steady_unlock_guard|done]).
  clearbody w. destruct w as [s3 [ps' gr]]. cbn [fst] in *. etransitivity; [exact G1|]. by etransitivity.
Qed.

Lemma steady_decide port s env id q now : steady s (DecideApprovalCase port s env id q now).1.1.
Proof.
  unfold DecideApprovalCase; cbv zeta. destruct (decision_status _) as [st|]; [|done].
  destruct (s_approvals s !! id) as [c|]; [|done]. case_match; [done|].
  match goal with |- context [settle_outcome port ?c0 now ?s0 env] =>
    pose proof (steady_settle port c0 now s0 env) as G;
    destruct (settle_outcome port c0 now s0 env) as [[s2 e2] oe] end.
  cbn [fst] in *. apply steady_emit. etransitivity; [|exact G]. by split.
Qed.

Lemma steady_timeouts `{MapRange} port s env now : steady s (SweepApprovalHardTimeouts port s env now).1.1.
Proof.
  unfold SweepApprovalHardTimeouts. destruct (go_range _ _ _) as [m l].
  assert (F : forall l st, steady st.1 (foldl (settle_timeout port now) st l).1).
  { clear. induction l as [|c l IH]; intros st; simpl; [done|]. etransitivity; [|apply IH].
    unfold settle_timeout. pose proof (steady_settle port c now st.1 st.2) as G.
    destruct (settle_outcome _ _ _ _ _) as [[s2 e2] oe]. cbn [fst] in *. by apply steady_emit. }
  specialize (F l (s_set_approvals m s, env)). destruct (foldl _ _ _) as [s2 e2]. cbn [fst] in *.
  etransitivity; [|exact F]. by split.
Qed.

Lemma steady_drain s limit : steady s (DrainOutbox s limit).1.
Proof. unfold DrainOutbox; cbv zeta. case_match; [done|]. by split. Qed.

Lemma steady_cleanup `{MapRange} s now : steady s (CleanupExpired s now).1.
Proof.
  unfold CleanupExpired; cbv zeta.
  destruct (purge (pending_expired _ _) _) as [mp np]. destruct (purge (soft_expired _ _) _) as [ms ns].
  destruct (go_range _ _ _) as [[md mh] nd]. destruct (purge (ticket_expired _ _) _) as [mt nt].
  destruct (purge (approval_expired _ _) _) as [ma na].
  match goal with |- context [trimOutboxLocked ?n ?x] => pose proof (trimOutbox_quiet n x) as Q;
    destruct (trimOutboxLocked n x) as [s2 tr] end.
  cbn [fst] in *. eapply steady_by_calm; [|by apply quiet_calm]. by split.
Qed.

Definition is_refresh (c : call Env) : bool := match c with CallContracts _ => true | _ => false end.

Lemma exec_steady {MR : MapRange} (c : call Env) st : is_refresh c = false -> steady st.1 (exec c st).1.
Proof.
  destruct st as [s env]. intros Hc. destruct c; cbn [exec fst]; try done.
  - apply steady_evaluate.
  - apply steady_schedule.
  - apply steady_release.
  - apply steady_create_case.
  - apply steady_decide.
  - apply steady_timeouts.
  - apply steady_confirm.
  - apply steady_terminalize.
  - apply steady_repair.
  - apply steady_drain.
  - apply steady_cleanup.
Qed.
End Port.
End Steady.
