(* ===== verification/CtlTypes.v ===== *)
(** * The data of the control plane ([internal/decision/types.go])

    Requests, views and records of the feature signal contracts, the feature
    registry, the health of the approval organisation and the enforcement
    matrix, and [ControlError].  The fields of [Service] that only the control
    plane uses are kept beside the [Service] of [DecTypes] in [Control]. *)

From S2P Require Import Prelude GoStrings GoTime GoJson DecTypes.

(** ** Errors *)

Record ControlError := mk_ControlError {
  ce_StatusCode : Z;
  ce_Code : string;
  ce_Message : string;
  ce_ReasonCodes : list string
}.

Definition controlErr {A} (status : Z) (code msg : string) (reasons : list string)
    : result ControlError A := Err (mk_ControlError status code msg reasons).

(** ** Feature signal contracts *)

Record FeatureSignalContractPublishRequest := mk_FeatureSignalContractPublishRequest {
  pq_RiskTier : string;
  pq_Phase : string;
  pq_RequiredFields : list string;
  pq_SchemaVersion : string;
  pq_TrustedProducerIDs : list string;
  pq_MaxFreshnessMS : Z;
  pq_MaxDriftScore : float64;
  pq_Reason : string;
  pq_Actor : string;
  pq_Scope : ScopeRef;
  pq_DryRun : bool;
  pq_AllowBreakingChange : bool;
  pq_ActivateAt : time
}.

Record FeatureSignalContractView := mk_FeatureSignalContractView {
  vw_ContractKey : string;
  vw_StorageKey : string;
  vw_RiskTier : string;
  vw_Phase : string;
  vw_RequiredFields : list string;
  vw_SchemaVersion : string;
  vw_TrustedProducerIDs : list string;
  vw_MaxFreshnessMS : Z;
  vw_MaxDriftScore : float64;
  vw_Scope : ScopeRef;
  vw_Version : Z;
  vw_ContractHash : string;
  vw_Status : string;
  vw_ActivationAt : time;
  vw_UpdatedAt : time
}.

Record FeatureSignalContractValidateResponse := mk_FeatureSignalContractValidateResponse {
  vr_Valid : bool;
  vr_ContractKey : string;
  vr_NormalizedRiskTier : string;
  vr_NormalizedPhase : string;
  vr_NormalizedFields : list string;
  vr_ReasonCodes : list string
}.

Record FeatureSignalContractRollbackRequest := mk_FeatureSignalContractRollbackRequest {
  kq_RiskTier : string;
  kq_Phase : string;
  kq_TargetVersion : Z;
  kq_Reason : string;
  kq_Actor : string;
  kq_Scope : ScopeRef
}.

Record FeatureSignalContractSchedulerResult := mk_FeatureSignalContractSchedulerResult {
  sr_Activated : Z;
  sr_Pending : Z;
  sr_RanAt : time;
  sr_ErrorStatus : string;
  sr_ReasonCodes : list string
}.

(** ** The feature registry *)

Record FeatureDefinitionCreateRequest := mk_FeatureDefinitionCreateRequest {
  dq_FeatureID : string;
  dq_Name : string;
  dq_Description : string;
  dq_Owner : string;
  dq_Scope : ScopeRef
}.

Record FeatureDefinition := mk_FeatureDefinition {
  fd_FeatureID : string;
  fd_Name : string;
  fd_Description : string;
  fd_Owner : string;
  fd_Scope : ScopeRef;
  fd_ActiveVersion : string;
  fd_CreatedAt : time;
  fd_UpdatedAt : time
}.

Definition fd_set_ActiveVersion (x : string) (r : FeatureDefinition) : FeatureDefinition :=
  mk_FeatureDefinition (fd_FeatureID r) (fd_Name r) (fd_Description r) (fd_Owner r) (fd_Scope r) x
    (fd_CreatedAt r) (fd_UpdatedAt r).
Definition fd_set_UpdatedAt (x : time) (r : FeatureDefinition) : FeatureDefinition :=
  mk_FeatureDefinition (fd_FeatureID r) (fd_Name r) (fd_Description r) (fd_Owner r) (fd_Scope r)
    (fd_ActiveVersion r) (fd_CreatedAt r) x.

Record FeatureVersionCreateRequest := mk_FeatureVersionCreateRequest {
  nq_Version : string;
  nq_ProducerID : string;
  nq_SchemaVersion : string;
  nq_EvidenceRef : string;
  nq_UpstreamFeatureIDs : list string;
  nq_DerivationType : string;
  nq_CriticalPath : bool;
  nq_DriftScore : float64;
  nq_Scope : ScopeRef
}.

Record FeatureVersion := mk_FeatureVersion {
  ver_FeatureID : string;
  ver_Version : string;
  ver_ProducerID : string;
  ver_SchemaVersion : string;
  ver_EvidenceRef : string;
  ver_UpstreamFeatureIDs : list string;
  ver_DerivationType : string;
  ver_CriticalPath : bool;
  ver_DriftScore : float64;
  ver_Scope : ScopeRef;
  ver_CreatedAt : time
}.

Record FeatureVersionPublishRequest := mk_FeatureVersionPublishRequest {
  uq_TargetVersion : string;
  uq_Reason : string;
  uq_Scope : ScopeRef
}.

Record FeatureVersionPublishResponse := mk_FeatureVersionPublishResponse {
  up_FeatureID : string;
  up_PreviousVersion : string;
  up_TargetVersion : string;
  up_Published : bool;
  up_UpdatedAt : time
}.

Record FeatureSnapshotBuildRequest := mk_FeatureSnapshotBuildRequest {
  bq_FeatureID : string;
  bq_Version : string;
  bq_ProducerID : string;
  bq_EvidenceRef : string;
  bq_FreshnessTS : time;
  bq_TTLMS : Z;
  bq_Metadata : option (gmap string string);
  bq_Scope : ScopeRef;
  bq_RequestedBy : string;
  bq_SignatureAlgo : string
}.

Record FeatureSnapshot := mk_FeatureSnapshot {
  sn_SnapshotID : string;
  sn_FeatureID : string;
  sn_Version : string;
  sn_ProducerID : string;
  sn_EvidenceRef : string;
  sn_FreshnessTS : time;
  sn_TTLMS : Z;
  sn_Metadata : option (gmap string string);
  sn_Scope : ScopeRef;
  sn_FeatureVersion : string;
  sn_Signature : string;
  sn_SignatureAlgo : string;
  sn_CreatedAt : time
}.

Record FeatureSnapshotFreshnessValidateRequest := mk_FeatureSnapshotFreshnessValidateRequest {
  hq_SnapshotID : string;
  hq_RiskTier : string;
  hq_At : time;
  hq_Scope : ScopeRef
}.

Record FeatureSnapshotFreshnessValidateResponse := mk_FeatureSnapshotFreshnessValidateResponse {
  hp_SnapshotID : string;
  hp_Fresh : bool;
  hp_Stale : bool;
  hp_ReasonCode : string;
  hp_RequiredAction : string;
  hp_AgeMS : Z;
  hp_TTLMS : Z
}.

Record FeatureSnapshotEvidence := mk_FeatureSnapshotEvidence {
  se_SnapshotID : string;
  se_FeatureID : string;
  se_FeatureVersion : string;
  se_ProducerID : string;
  se_EvidenceRef : string;
  se_Signature : string;
  se_Scope : ScopeRef;
  se_CreatedAt : time
}.

Record FeatureVersionSummary := mk_FeatureVersionSummary {
  vs_Version : string;
  vs_ProducerID : string;
  vs_DriftScore : float64;
  vs_CriticalPath : bool;
  vs_UpstreamCount : Z;
  vs_CreatedAt : time
}.

Record FeatureDriftReport := mk_FeatureDriftReport {
  dr_FeatureID : string;
  dr_Scope : ScopeRef;
  dr_LatestDriftScore : float64;
  dr_Trend : string;
  dr_CurrentVersion : string;
  dr_Versions : list FeatureVersionSummary;
  dr_GeneratedAt : time
}.

Record FeatureRollbackRequest := mk_FeatureRollbackRequest {
  wq_TargetVersion : string;
  wq_Reason : string;
  wq_Scope : ScopeRef
}.

Record FeatureRollbackRecord := mk_FeatureRollbackRecord {
  rb_RollbackID : string;
  rb_FeatureID : string;
  rb_PreviousVersion : string;
  rb_TargetVersion : string;
  rb_Reason : string;
  rb_Scope : ScopeRef;
  rb_CreatedAt : time
}.

Record FeatureDependencyEdge := mk_FeatureDependencyEdge {
  de_From : string;
  de_To : string;
  de_DerivationType : string
}.

Record FeatureDependencyGraph := mk_FeatureDependencyGraph {
  dg_FeatureID : string;
  dg_Scope : ScopeRef;
  dg_Current : string;
  dg_Nodes : list string;
  dg_Edges : list FeatureDependencyEdge;
  dg_GeneratedAt : time
}.

(** ** The approval organisation *)

Record ApprovalOrgHealth := mk_ApprovalOrgHealth {
  oh_Scope : ScopeRef;
  oh_ActiveApproverRatio : float64;
  oh_DelegateFreshness : float64;
  oh_OverrideDependenceRate : float64;
  oh_StaleApproverGroupRatio : float64;
  oh_RouteToNoActionCases : Z;
  oh_Status : string;
  oh_UpdatedAt : time
}.

Definition oh_set_ActiveApproverRatio (x : float64) (r : ApprovalOrgHealth) : ApprovalOrgHealth :=
  mk_ApprovalOrgHealth (oh_Scope r) x (oh_DelegateFreshness r) (oh_OverrideDependenceRate r)
    (oh_StaleApproverGroupRatio r) (oh_RouteToNoActionCases r) (oh_Status r) (oh_UpdatedAt r).
Definition oh_set_DelegateFreshness (x : float64) (r : ApprovalOrgHealth) : ApprovalOrgHealth :=
  mk_ApprovalOrgHealth (oh_Scope r) (oh_ActiveApproverRatio r) x (oh_OverrideDependenceRate r)
    (oh_StaleApproverGroupRatio r) (oh_RouteToNoActionCases r) (oh_Status r) (oh_UpdatedAt r).
Definition oh_set_OverrideDependenceRate (x : float64) (r : ApprovalOrgHealth) : ApprovalOrgHealth :=
  mk_ApprovalOrgHealth (oh_Scope r) (oh_ActiveApproverRatio r) (oh_DelegateFreshness r) x
    (oh_StaleApproverGroupRatio r) (oh_RouteToNoActionCases r) (oh_Status r) (oh_UpdatedAt r).
Definition oh_set_StaleApproverGroupRatio (x : float64) (r : ApprovalOrgHealth) : ApprovalOrgHealth :=
  mk_ApprovalOrgHealth (oh_Scope r) (oh_ActiveApproverRatio r) (oh_DelegateFreshness r)
    (oh_OverrideDependenceRate r) x (oh_RouteToNoActionCases r) (oh_Status r) (oh_UpdatedAt r).
Definition oh_set_RouteToNoActionCases (x : Z) (r : ApprovalOrgHealth) : ApprovalOrgHealth :=
  mk_ApprovalOrgHealth (oh_Scope r) (oh_ActiveApproverRatio r) (oh_DelegateFreshness r)
    (oh_OverrideDependenceRate r) (oh_StaleApproverGroupRatio r) x (oh_Status r) (oh_UpdatedAt r).
Definition oh_set_Status (x : string) (r : ApprovalOrgHealth) : ApprovalOrgHealth :=
  mk_ApprovalOrgHealth (oh_Scope r) (oh_ActiveApproverRatio r) (oh_DelegateFreshness r)
    (oh_OverrideDependenceRate r) (oh_StaleApproverGroupRatio r) (oh_RouteToNoActionCases r) x
    (oh_UpdatedAt r).
Definition oh_set_UpdatedAt (x : time) (r : ApprovalOrgHealth) : ApprovalOrgHealth :=
  mk_ApprovalOrgHealth (oh_Scope r) (oh_ActiveApproverRatio r) (oh_DelegateFreshness r)
    (oh_OverrideDependenceRate r) (oh_StaleApproverGroupRatio r) (oh_RouteToNoActionCases r)
    (oh_Status r) x.

Record ApprovalOrgHealthRemediationRequest := mk_ApprovalOrgHealthRemediationRequest {
  mq_Scope : ScopeRef;
  mq_Actions : list string;
  mq_Reason : string;
  mq_Actor : string
}.

Record ApprovalOrgHealthRecomputeRequest := mk_ApprovalOrgHealthRecomputeRequest {
  oq_Scope : ScopeRef;
  oq_ActiveApproverRatio : float64;
  oq_DelegateFreshness : float64;
  oq_OverrideDependenceRate : float64;
  oq_StaleApproverGroupRatio : float64;
  oq_RouteToNoActionCases : Z;
  oq_Reason : string;
  oq_Actor : string
}.

Record ApprovalOrgHealthRecomputeResponse := mk_ApprovalOrgHealthRecomputeResponse {
  op_Accepted : bool;
  op_ReportID : string;
  op_Status : string;
  op_UpdatedAt : time
}.

Record ApprovalOrgHealthRemediationResponse := mk_ApprovalOrgHealthRemediationResponse {
  mp_Accepted : bool;
  mp_ReportID : string;
  mp_Status : string;
  mp_AppliedActions : list string;
  mp_UpdatedAt : time
}.

Record ApprovalOrgHealthReport := mk_ApprovalOrgHealthReport {
  or_ReportID : string;
  or_Scope : ScopeRef;
  or_Status : string;
  or_Recommendations : list string;
  or_GeneratedAt : time
}.

(** ** The enforcement matrix *)

Record EnforcementMatrixValidateRequest := mk_EnforcementMatrixValidateRequest {
  eq_Matrix : gmap string EnforcementThreshold
}.

Record EnforcementMatrixValidateResponse := mk_EnforcementMatrixValidateResponse {
  ep_Valid : bool;
  ep_Errors : list string
}.

Record EnforcementMatrixPublishRequest := mk_EnforcementMatrixPublishRequest {
  xq_Matrix : gmap string EnforcementThreshold;
  xq_Reason : string
}.

Record EnforcementMatrixPublishResponse := mk_EnforcementMatrixPublishResponse {
  xs_Version : Z;
  xs_UpdatedAt : time;
  xs_Reason : string
}.

Record EnforcementMatrixView := mk_EnforcementMatrixView {
  ev_Version : Z;
  ev_UpdatedAt : time;
  ev_Matrix : gmap string EnforcementThreshold
}.

(** ** The state *)

Record Control := mk_Control {
  c_svc : Service;
  c_featureDefinitions : gmap string FeatureDefinition;
  c_featureVersions : gmap string (gmap string FeatureVersion);
  c_featureSnapshots : gmap string FeatureSnapshot;
  c_featureRollbacks : gmap string (list FeatureRollbackRecord);
  c_approvalOrgHealth : gmap string ApprovalOrgHealth;
  c_approvalOrgReports : gmap string (list ApprovalOrgHealthReport)
}.

Definition c_set_svc (x : Service) (r : Control) : Control :=
  mk_Control x (c_featureDefinitions r) (c_featureVersions r) (c_featureSnapshots r)
    (c_featureRollbacks r) (c_approvalOrgHealth r) (c_approvalOrgReports r).
Definition c_set_featureDefinitions (x : gmap string FeatureDefinition) (r : Control) : Control :=
  mk_Control (c_svc r) x (c_featureVersions r) (c_featureSnapshots r) (c_featureRollbacks r)
    (c_approvalOrgHealth r) (c_approvalOrgReports r).
Definition c_set_featureVersions (x : gmap string (gmap string FeatureVersion)) (r : Control) : Control :=
  mk_Control (c_svc r) (c_featureDefinitions r) x (c_featureSnapshots r) (c_featureRollbacks r)
    (c_approvalOrgHealth r) (c_approvalOrgReports r).
Definition c_set_featureSnapshots (x : gmap string FeatureSnapshot) (r : Control) : Control :=
  mk_Control (c_svc r) (c_featureDefinitions r) (c_featureVersions r) x (c_featureRollbacks r)
    (c_approvalOrgHealth r) (c_approvalOrgReports r).
Definition c_set_featureRollbacks (x : gmap string (list FeatureRollbackRecord)) (r : Control) : Control :=
  mk_Control (c_svc r) (c_featureDefinitions r) (c_featureVersions r) (c_featureSnapshots r) x
    (c_approvalOrgHealth r) (c_approvalOrgReports r).
Definition c_set_approvalOrgHealth (x : gmap string ApprovalOrgHealth) (r : Control) : Control :=
  mk_Control (c_svc r) (c_featureDefinitions r) (c_featureVersions r) (c_featureSnapshots r)
    (c_featureRollbacks r) x (c_approvalOrgReports r).
Definition c_set_approvalOrgReports (x : gmap string (list ApprovalOrgHealthReport)) (r : Control) : Control :=
  mk_Control (c_svc r) (c_featureDefinitions r) (c_featureVersions r) (c_featureSnapshots r)
    (c_featureRollbacks r) (c_approvalOrgHealth r) x.

