(* ===== verification/CtlContracts.v ===== *)
(** * Feature signal contracts: publication, rollback, schedule, views

    The contract half of [internal/decision/control_plane.go]: validation,
    [PublishFeatureSignalContract], [RollbackFeatureSignalContract], the
    scheduler, the views and histories.  Every operation takes the service and
    its store; a change is built on a copy of the contract maps, committed to
    the store and read back ([DecContracts.commitContractSnapshotLocked]).
    [now] is the service's clock, [wall] the clock of the store.  Publication
    reads the contracts before it locks them; here both reads see one state. *)

From S2P Require Import Prelude GoStrings Sha256 GoTime GoJson DecTypes DecJson DecPolicy.
From S2P Require Import DecContracts DecKernel CtlTypes.
From Stdlib Require Import Ascii.

(** ** Snapshot fields *)

Definition ss_set_Active (x : gmap string FeatureSignalContract) (r : Snapshot) : Snapshot :=
  mk_FeatureSignalContractStoreSnapshot (ss_Revision r) (ss_GeneratedAt r) x (ss_Meta r)
    (ss_History r) (ss_Rollbacks r) (ss_Scheduled r).
Definition ss_set_Meta (x : gmap string time) (r : Snapshot) : Snapshot :=
  mk_FeatureSignalContractStoreSnapshot (ss_Revision r) (ss_GeneratedAt r) (ss_Active r) x
    (ss_History r) (ss_Rollbacks r) (ss_Scheduled r).
Definition ss_set_History (x : gmap string (list FeatureSignalContractVersion)) (r : Snapshot)
    : Snapshot :=
  mk_FeatureSignalContractStoreSnapshot (ss_Revision r) (ss_GeneratedAt r) (ss_Active r)
    (ss_Meta r) x (ss_Rollbacks r) (ss_Scheduled r).
Definition ss_set_Rollbacks (x : gmap string (list FeatureSignalContractRollbackRecord))
    (r : Snapshot) : Snapshot :=
  mk_FeatureSignalContractStoreSnapshot (ss_Revision r) (ss_GeneratedAt r) (ss_Active r)
    (ss_Meta r) (ss_History r) x (ss_Scheduled r).
Definition ss_set_Scheduled (x : gmap string (list FeatureSignalContractVersion)) (r : Snapshot)
    : Snapshot :=
  mk_FeatureSignalContractStoreSnapshot (ss_Revision r) (ss_GeneratedAt r) (ss_Active r)
    (ss_Meta r) (ss_History r) (ss_Rollbacks r) x.

(** [m[k]] of a map of slices, and [m[k] = append(m[k], x)]. *)
Definition items {A} (m : gmap string (list A)) (k : string) : list A := default [] (m !! k).
Definition append_item {A} (k : string) (x : A) (m : gmap string (list A)) : gmap string (list A) :=
  <[k := items m k ++ [x]]> m.

(** ** Keys and versions *)

Definition sameScope (a b : ScopeRef) : bool := (scopeKey a =? scopeKey b)%string.

Definition missingScopeFields (scope : ScopeRef) : list string :=
  let s := normalizeScope scope in
  (if (sc_OrgID s =? "")%string then ["org_id"] else []) ++
  (if (sc_WorkspaceID s =? "")%string then ["workspace_id"] else []) ++
  (if (sc_ProjectID s =? "")%string then ["project_id"] else []).

(** [strings.SplitN(s, "::", 2)]: the parts around the first separator. *)
Fixpoint cut_colons (l : list ascii) : option (list ascii * list ascii) :=
  match l with
  | c :: r =>
    match r with
    | d :: r' =>
      if Ascii.eqb c ":" && Ascii.eqb d ":" then Some ([], r')
      else match cut_colons r with Some (a, b) => Some (c :: a, b) | None => None end
    | [] => None
    end
  | [] => None
  end.

(** [strings.SplitN(s, "|", 3)] when it has three parts. *)
Definition SplitN3 (s : string) (sep : ascii) : option (string * string * string) :=
  match SplitN2 s sep with
  | (a, Some r) => match SplitN2 r sep with (b, Some c) => Some (a, b, c) | _ => None end
  | _ => None
  end.

Definition parseFeatureSignalContractStorageKey (storageKey : string) : ScopeRef * string :=
  match cut_colons (bytes (TrimSpace storageKey)) with
  | None => (globalContractScope, TrimSpace storageKey)
  | Some (scopePart, k) =>
    let scope := match SplitN3 (TrimSpace (str scopePart)) "|" with
                 | Some (a, b, c) => mk_ScopeRef (TrimSpace a) (TrimSpace b) (TrimSpace c)
                 | None => globalContractScope
                 end in
    (normalizeContractScope scope, TrimSpace (str k))
  end.

Definition allowed_fields : list string :=
  ["feature_version"; "feature_schema_version"; "feature_evidence_ref"; "feature_producer_id"].

Definition validateFeatureSignalContractRequiredFields (fields : list string) : option ControlError :=
  match fields with
  | [] => Some (mk_ControlError 422 "FEATURE_SIGNAL_CONTRACT_FIELDS_REQUIRED"
                  "required_fields must not be empty" ["feature_signal_contract_fields_required"])
  | _ =>
    match List.filter (fun f => negb (one_of f allowed_fields)) fields with
    | [] => None
    | invalid => Some (mk_ControlError 422 "FEATURE_SIGNAL_CONTRACT_FIELDS_INVALID"
                         "required_fields contains unsupported entries" invalid)
    end
  end.

(** [schemaMajor]: the number before the first dot, after a leading [v]. *)
Definition schemaMajor (v : string) : option Z :=
  let v := TrimSpace v in
  if (v =? "")%string then None
  else
    let l := bytes (ToLower v) in
    let l := match l with c :: r => if Ascii.eqb c "v" then r else l | [] => l end in
    let p := TrimSpace (SplitN2 (str l) ".").1 in
    if (p =? "")%string then None
    else match Atoi p with
         | None => None
         | Some n => if n <? 0 then None else Some n
         end.

Definition isSchemaBreakingChange (previous next : string) : bool :=
  match schemaMajor previous, schemaMajor next with
  | Some p, Some n => negb (p =? n)
  | _, _ => false
  end.

(** The sets are built from lists without duplicates and the result is sorted. *)
Definition removedRequiredFields (previous next : list string) : list string :=
  sort_Strings (List.filter (fun f => negb (one_of f (normalizeRequiredFields next)))
                  (normalizeRequiredFields previous)).

Definition contractPublishStatus (activationAt now : time) : string :=
  if After activationAt now then "scheduled" else "active".

Definition buildFeatureSignalContractFromVersion (v : FeatureSignalContractVersion)
    : FeatureSignalContract :=
  mk_FeatureSignalContract (fv_RequiredFields v) (fv_SchemaVersion v) (fv_TrustedProducerIDs v)
    (fv_MaxFreshnessMS v) (fv_MaxDriftScore v).

Definition next_version (h : list FeatureSignalContractVersion) : Z :=
  match last h with Some v => wrap_int64 (fv_Version v + 1) | None => 1 end.

Definition contract_phases : list string :=
  [PhasePreContext; PhasePreTool; PhasePreResume; PhasePreRelease; "*"].
Definition contract_risks : list string := [RiskLow; RiskMedium; RiskHigh; RiskCritical; "*"].

Definition bad_phase (phase : string) : bool :=
  negb (phase =? "")%string && negb (one_of phase contract_phases).

(** ** Publication *)

(** What a publication request means, once normalised. *)
Record publication := mk_publication {
  pb_key : string;
  pb_storageKey : string;
  pb_riskTier : string;
  pb_phase : string;
  pb_contract : FeatureSignalContract;
  pb_scope : ScopeRef;
  pb_hash : string;
  pb_activationAt : time;
  pb_reason : string;
  pb_actor : string
}.

(** The checks before any contract is read, in order. *)
Definition publish_invalid (q : FeatureSignalContractPublishRequest) : option ControlError :=
  let riskTier := normalizeRiskTier (pq_RiskTier q) in
  if (riskTier =? "")%string then
    Some (mk_ControlError 422 "FEATURE_SIGNAL_CONTRACT_RISK_REQUIRED" "risk_tier required"
            ["feature_signal_contract_risk_required"])
  else if negb (one_of riskTier contract_risks) then
    Some (mk_ControlError 422 "FEATURE_SIGNAL_CONTRACT_RISK_INVALID" "invalid risk_tier"
            ["feature_signal_contract_risk_invalid"])
  else if bad_phase (upper_trim (pq_Phase q)) then
    Some (mk_ControlError 422 "FEATURE_SIGNAL_CONTRACT_PHASE_INVALID" "invalid phase"
            ["feature_signal_contract_phase_invalid"])
  else match validateFeatureSignalContractRequiredFields (normalizeRequiredFields (pq_RequiredFields q)) with
  | Some err => Some err
  | None =>
    if pq_MaxFreshnessMS q <? 0 then
      Some (mk_ControlError 422 "FEATURE_SIGNAL_CONTRACT_FRESHNESS_INVALID" "max_freshness_ms must be >= 0"
              ["feature_signal_contract_freshness_invalid"])
    else if fltb (pq_MaxDriftScore q) fzero then
      Some (mk_ControlError 422 "FEATURE_SIGNAL_CONTRACT_DRIFT_INVALID" "max_drift_score must be >= 0"
              ["feature_signal_contract_drift_invalid"])
    else if blank (pq_Reason q) then
      Some (mk_ControlError 422 "FEATURE_SIGNAL_CONTRACT_REASON_REQUIRED" "reason required"
              ["feature_signal_contract_reason_required"])
    else None
  end.

Definition breaking_fields (removed : list string) : ControlError :=
  mk_ControlError 409 "FEATURE_SIGNAL_CONTRACT_BREAKING_CHANGE"
    "breaking contract change requires allow_breaking_change=true" removed.
Definition breaking_schema : ControlError :=
  mk_ControlError 409 "FEATURE_SIGNAL_CONTRACT_SCHEMA_BREAKING_CHANGE"
    "schema version breaking change requires allow_breaking_change=true"
    ["feature_signal_contract_schema_breaking_change"].
Definition store_failed : ControlError :=
  mk_ControlError 503 "FEATURE_SIGNAL_CONTRACT_STORE_SYNC_FAILED"
    "failed to sync feature signal contract authoritative store"
    ["feature_signal_contract_store_sync_failed"].

(** The compatibility of [next] with the contract it replaces. *)
Definition check_breaking (current : option FeatureSignalContract) (next : FeatureSignalContract)
    (allow : bool) (compatibility : string) : result ControlError string :=
  match current with
  | None => Ok compatibility
  | Some c =>
    let removed := removedRequiredFields (fc_RequiredFields c) (fc_RequiredFields next) in
    let schema := isSchemaBreakingChange (fc_SchemaVersion c) (fc_SchemaVersion next) in
    if negb (empty_list removed) && negb allow then Err (breaking_fields removed)
    else if schema && negb allow then Err breaking_schema
    else Ok (if negb (empty_list removed) || schema then "breaking_allowed" else compatibility)
  end.

Definition publish_view (p : publication) (version : Z) (now : time) : FeatureSignalContractView :=
  let c := pb_contract p in
  {| vw_ContractKey := pb_key p;
     vw_StorageKey := pb_storageKey p;
     vw_RiskTier := pb_riskTier p;
     vw_Phase := pb_phase p;
     vw_RequiredFields := fc_RequiredFields c;
     vw_SchemaVersion := fc_SchemaVersion c;
     vw_TrustedProducerIDs := fc_TrustedProducerIDs c;
     vw_MaxFreshnessMS := fc_MaxFreshnessMS c;
     vw_MaxDriftScore := fc_MaxDriftScore c;
     vw_Scope := pb_scope p;
     vw_Version := version;
     vw_ContractHash := pb_hash p;
     vw_Status := contractPublishStatus (pb_activationAt p) now;
     vw_ActivationAt := pb_activationAt p;
     vw_UpdatedAt := now |}.

Definition version_record (p : publication) (version : Z) (now : time) : FeatureSignalContractVersion :=
  let c := pb_contract p in
  {| fv_Version := version;
     fv_ContractKey := pb_key p;
     fv_StorageKey := pb_storageKey p;
     fv_RiskTier := pb_riskTier p;
     fv_Phase := pb_phase p;
     fv_RequiredFields := fc_RequiredFields c;
     fv_SchemaVersion := fc_SchemaVersion c;
     fv_TrustedProducerIDs := fc_TrustedProducerIDs c;
     fv_MaxFreshnessMS := fc_MaxFreshnessMS c;
     fv_MaxDriftScore := fc_MaxDriftScore c;
     fv_Scope := pb_scope p;
     fv_ContractHash := pb_hash p;
     fv_Status := contractPublishStatus (pb_activationAt p) now;
     fv_ActivationAt := pb_activationAt p;
     fv_Reason := pb_reason p;
     fv_Actor := pb_actor p;
     fv_CreatedAt := now |}.

(** The snapshot a publication commits: scheduled for later, or active at once. *)
Definition publish_candidate (snap : Snapshot) (p : publication) (now : time) : Snapshot :=
  let k := pb_storageKey p in
  let version := next_version (items (ss_History snap) k) in
  let record := version_record p version now in
  let snap :=
    if After (pb_activationAt p) now then
      ss_set_Scheduled (append_item k record (ss_Scheduled snap)) snap
    else snap |> ss_set_Active (<[k := pb_contract p]> (ss_Active snap))
              |> ss_set_Meta (<[k := now]> (ss_Meta snap)) in
  let history := append_item k record (ss_History snap) in
  ss_set_History (if After (pb_activationAt p) now then history
                  else setFeatureSignalContractActiveVersion history k version now) snap.

Section Publish.
Context `{JsonMarshaler} `{FeatureSignalContractStore}.

Definition publication_of (q : FeatureSignalContractPublishRequest) (now : time) : publication :=
  let scope := normalizeContractScope (pq_Scope q) in
  let k := normalizeContractKey (normalizeRiskTier (pq_RiskTier q)) (upper_trim (pq_Phase q)) in
  let contract := mk_FeatureSignalContract (normalizeRequiredFields (pq_RequiredFields q))
    (TrimSpace (pq_SchemaVersion q)) (normalizeTrustedProducerIDs (pq_TrustedProducerIDs q))
    (pq_MaxFreshnessMS q) (pq_MaxDriftScore q) in
  {| pb_key := k;
     pb_storageKey := featureSignalContractStorageKey scope k;
     pb_riskTier := (splitContractKey k).1;
     pb_phase := (splitContractKey k).2;
     pb_contract := contract;
     pb_scope := scope;
     pb_hash := safeHashForContract contract;
     pb_activationAt := if IsZero (pq_ActivateAt q) then now else pq_ActivateAt q;
     pb_reason := TrimSpace (pq_Reason q);
     pb_actor := TrimSpace (pq_Actor q) |}.

Definition published_kvs (p : publication) (version : Z) (compatibility : string) (now : time)
    : list (string * gval) :=
  let c := pb_contract p in
  [("contract_key", GStr (pb_key p)); ("storage_key", GStr (pb_storageKey p));
   ("scope", scope_gval (pb_scope p)); ("risk_tier", GStr (pb_riskTier p));
   ("phase", GStr (pb_phase p)); ("required_fields", GStrs (fc_RequiredFields c));
   ("schema_version", GStr (fc_SchemaVersion c));
   ("trusted_producer_ids", nilable (fc_TrustedProducerIDs c));
   ("max_freshness_ms", GInt (fc_MaxFreshnessMS c)); ("max_drift_score", GFloat (fc_MaxDriftScore c));
   ("version", GInt version); ("contract_hash", GStr (pb_hash p));
   ("compatibility", GStr compatibility);
   ("status", GStr (contractPublishStatus (pb_activationAt p) now));
   ("activation_at", GTime (pb_activationAt p)); ("reason", GStr (pb_reason p));
   ("actor", GStr (pb_actor p))].

(** The section under the write lock, after the first compatibility check gave
    [compatibility]. *)
Definition publish_commit (p : publication) (allow : bool) (compatibility : string) (now wall : time)
    (s : Service) (st : option store_state)
    : Service * option store_state * result ControlError FeatureSignalContractView :=
  let snap := buildContractStoreSnapshotLocked s now in
  match check_breaking (ss_Active snap !! pb_storageKey p) (pb_contract p) allow compatibility with
  | Err err => (s, st, Err err)
  | Ok compatibility =>
    let version := next_version (items (ss_History snap) (pb_storageKey p)) in
    let candidate := ss_set_Revision (nextStoreRevision (s_storeVersion s)) (publish_candidate snap p now) in
    match commitContractSnapshotLocked candidate wall s st with
    | (s, st, Some _) => (s, st, Err store_failed)
    | (s, st, None) =>
      (emitEvent "feature.signal_contract.published" "" "" "" (published_kvs p version compatibility now)
         now s, st, Ok (publish_view p version now))
    end
  end.

Definition PublishFeatureSignalContract (s : Service) (st : option store_state)
    (q : FeatureSignalContractPublishRequest) (now wall : time)
    : Service * option store_state * result ControlError FeatureSignalContractView :=
  match publish_invalid q with
  | Some err => (s, st, Err err)
  | None =>
    let p := publication_of q now in
    let k := pb_storageKey p in
    match check_breaking (s_featureSignalContractsScoped s !! k) (pb_contract p)
            (pq_AllowBreakingChange q) "compatible" with
    | Err err => (s, st, Err err)
    | Ok compatibility =>
      if pq_DryRun q then
        (s, st, Ok (publish_view p (next_version (items (s_featureSignalContractHistory s) k)) now))
      else publish_commit p (pq_AllowBreakingChange q) compatibility now wall s st
    end
  end.
End Publish.

Definition ValidateFeatureSignalContract (q : FeatureSignalContractPublishRequest)
    : FeatureSignalContractValidateResponse :=
  let riskTier := normalizeRiskTier (pq_RiskTier q) in
  let phase := upper_trim (pq_Phase q) in
  let required := normalizeRequiredFields (pq_RequiredFields q) in
  let reasons :=
    (if (riskTier =? "")%string then ["feature_signal_contract_risk_required"] else []) ++
    (if bad_phase phase then ["feature_signal_contract_phase_invalid"] else []) ++
    (match validateFeatureSignalContractRequiredFields required with
     | Some _ => ["feature_signal_contract_fields_invalid"] | None => [] end) ++
    (if blank (pq_Reason q) then ["feature_signal_contract_reason_required"] else []) ++
    (if pq_MaxFreshnessMS q <? 0 then ["feature_signal_contract_freshness_invalid"] else []) ++
    (if fltb (pq_MaxDriftScore q) fzero then ["feature_signal_contract_drift_invalid"] else []) in
  {| vr_Valid := empty_list reasons;
     vr_ContractKey := normalizeContractKey riskTier phase;
     vr_NormalizedRiskTier := riskTier;
     vr_NormalizedPhase := phase;
     vr_NormalizedFields := required;
     vr_ReasonCodes := reasons |}.

(** ** Rollback *)

Definition rollback_invalid (q : FeatureSignalContractRollbackRequest) : option ControlError :=
  if (normalizeRiskTier (kq_RiskTier q) =? "")%string then
    Some (mk_ControlError 422 "FEATURE_SIGNAL_CONTRACT_RISK_REQUIRED" "risk_tier required"
            ["feature_signal_contract_risk_required"])
  else if bad_phase (upper_trim (kq_Phase q)) then
    Some (mk_ControlError 422 "FEATURE_SIGNAL_CONTRACT_PHASE_INVALID" "invalid phase"
            ["feature_signal_contract_phase_invalid"])
  else if blank (kq_Reason q) then
    Some (mk_ControlError 422 "FEATURE_SIGNAL_CONTRACT_REASON_REQUIRED" "reason required"
            ["feature_signal_contract_reason_required"])
  else None.

(** The version to go back to: the requested one, or the one before the last. *)
Definition rollback_target (history : list FeatureSignalContractVersion) (version : Z)
    : result ControlError FeatureSignalContractVersion :=
  if 0 <? version then
    match List.find (fun v => fv_Version v =? version) history with
    | Some v => Ok v
    | None => controlErr 404 "FEATURE_SIGNAL_CONTRACT_TARGET_VERSION_NOT_FOUND"
                "target feature signal contract version not found"
                ["feature_signal_contract_target_version_not_found"]
    end
  else match rev history with
       | _ :: v :: _ => Ok v
       | _ => controlErr 409 "FEATURE_SIGNAL_CONTRACT_NO_PREVIOUS_VERSION"
                "no previous feature signal contract version available for rollback"
                ["feature_signal_contract_no_previous_version"]
       end.

(** A rollback is the publication, at once, of an earlier version's contract. *)
Definition applied_version (k storageKey : string) (scope : ScopeRef) (hash : string)
    (target : FeatureSignalContractVersion) (version : Z) (reason actor : string) (now : time)
    : FeatureSignalContractVersion :=
  {| fv_Version := version;
     fv_ContractKey := k;
     fv_StorageKey := storageKey;
     fv_RiskTier := (splitContractKey k).1;
     fv_Phase := (splitContractKey k).2;
     fv_RequiredFields := fv_RequiredFields target;
     fv_SchemaVersion := fv_SchemaVersion target;
     fv_TrustedProducerIDs := fv_TrustedProducerIDs target;
     fv_MaxFreshnessMS := fv_MaxFreshnessMS target;
     fv_MaxDriftScore := fv_MaxDriftScore target;
     fv_Scope := scope;
     fv_ContractHash := hash;
     fv_Status := "active";
     fv_ActivationAt := now;
     fv_Reason := String.append "rollback:" reason;
     fv_Actor := actor;
     fv_CreatedAt := now |}.

Definition rollback_candidate (snap : Snapshot) (applied target : FeatureSignalContractVersion)
    (record : FeatureSignalContractRollbackRecord) (now : time) : Snapshot :=
  let k := fv_StorageKey applied in
  snap |> ss_set_Active (<[k := buildFeatureSignalContractFromVersion target]> (ss_Active snap))
       |> ss_set_Meta (<[k := now]> (ss_Meta snap))
       |> ss_set_History (setFeatureSignalContractActiveVersion
            (append_item k applied (ss_History snap)) k (fv_Version applied) now)
       |> ss_set_Rollbacks (append_item k record (ss_Rollbacks snap)).

Section Rollback.
Context `{JsonMarshaler} `{FeatureSignalContractStore}.

Definition rolled_back_kvs (record : FeatureSignalContractRollbackRecord)
    (target : FeatureSignalContractVersion) (applied : Z) : list (string * gval) :=
  [("contract_key", GStr (frr_ContractKey record)); ("storage_key", GStr (frr_StorageKey record));
   ("scope", scope_gval (frr_Scope record)); ("previous_version", GInt (frr_PreviousVersion record));
   ("target_version", GInt (frr_TargetVersion record)); ("applied_version", GInt applied);
   ("schema_version", GStr (fv_SchemaVersion target));
   ("trusted_producer_ids", nilable (fv_TrustedProducerIDs target));
   ("max_freshness_ms", GInt (fv_MaxFreshnessMS target));
   ("max_drift_score", GFloat (fv_MaxDriftScore target)); ("reason", GStr (frr_Reason record));
   ("actor", GStr (frr_Actor record)); ("rollback_id", GStr (frr_RollbackID record))].

Definition rollback_record (rollbackID k storageKey : string) (scope : ScopeRef)
    (current target : FeatureSignalContractVersion) (reason actor : string) (now : time)
    : FeatureSignalContractRollbackRecord :=
  {| frr_RollbackID := rollbackID;
     frr_ContractKey := k;
     frr_StorageKey := storageKey;
     frr_Scope := scope;
     frr_PreviousVersion := fv_Version current;
     frr_TargetVersion := fv_Version target;
     frr_PreviousRequiredFields := fv_RequiredFields current;
     frr_TargetRequiredFields := fv_RequiredFields target;
     frr_PreviousContractHash := fv_ContractHash current;
     frr_TargetContractHash := fv_ContractHash target;
     frr_Reason := reason;
     frr_Actor := actor;
     frr_CreatedAt := now |}.

Definition RollbackFeatureSignalContract (s : Service) (st : option store_state)
    (q : FeatureSignalContractRollbackRequest) (now wall : time)
    : Service * option store_state * result ControlError FeatureSignalContractRollbackRecord :=
  match rollback_invalid q with
  | Some err => (s, st, Err err)
  | None =>
    let k := normalizeContractKey (normalizeRiskTier (kq_RiskTier q)) (upper_trim (kq_Phase q)) in
    let scope := normalizeContractScope (kq_Scope q) in
    let storageKey := featureSignalContractStorageKey scope k in
    let reason := TrimSpace (kq_Reason q) in
    let actor := TrimSpace (kq_Actor q) in
    let snap := buildContractStoreSnapshotLocked s now in
    let history := items (ss_History snap) storageKey in
    match last history with
    | None => (s, st, controlErr 404 "FEATURE_SIGNAL_CONTRACT_NOT_FOUND"
                        "feature signal contract history not found"
                        ["feature_signal_contract_not_found"])
    | Some current =>
      match rollback_target history (kq_TargetVersion q) with
      | Err err => (s, st, Err err)
      | Ok target =>
        let version := wrap_int64 (fv_Version current + 1) in
        let hash := safeHashForContract (buildFeatureSignalContractFromVersion target) in
        let applied := applied_version k storageKey scope hash target version reason actor now in
        let '(s, rollbackID) := nextFallbackID "fscrb_" s in
        let record := rollback_record rollbackID k storageKey scope current target reason actor now in
        let candidate := ss_set_Revision (nextStoreRevision (s_storeVersion s))
                           (rollback_candidate snap applied target record now) in
        match commitContractSnapshotLocked candidate wall s st with
        | (s, st, Some _) => (s, st, Err store_failed)
        | (s, st, None) =>
          (emitEvent "feature.signal_contract.rolled_back" "" "" ""
             (rolled_back_kvs record target version) now s, st, Ok record)
        end
      end
    end
  end.
End Rollback.

(** ** The scheduler *)

(** Ascending activation time, then version. *)
Definition due_before (a b : FeatureSignalContractVersion) : bool :=
  if Equal (fv_ActivationAt a) (fv_ActivationAt b) then fv_Version a <? fv_Version b
  else Before (fv_ActivationAt a) (fv_ActivationAt b).

Definition activate_item (now : time) (k : string) (snap : Snapshot) (v : FeatureSignalContractVersion)
    : Snapshot :=
  snap |> ss_set_Active (<[k := buildFeatureSignalContractFromVersion v]> (ss_Active snap))
       |> ss_set_Meta (<[k := now]> (ss_Meta snap))
       |> ss_set_History (setFeatureSignalContractActiveVersion (ss_History snap) k (fv_Version v) now).

Definition is_due (now : time) (v : FeatureSignalContractVersion) : bool :=
  negb (After (fv_ActivationAt v) now).

(** One key of the loop: what is due is activated in order, the rest stays. *)
Definition apply_due_key (now : time) (acc : Snapshot * list FeatureSignalContractVersion) (k : string)
    (scheduled : list FeatureSignalContractVersion) : Snapshot * list FeatureSignalContractVersion :=
  let '(snap, activated) := acc in
  let sorted := sort_Slice due_before scheduled in
  let due := List.filter (is_due now) sorted in
  let snap := foldl (activate_item now k) snap due in
  (ss_set_Scheduled
     (match List.filter (fun v => negb (is_due now v)) sorted with
      | [] => delete k (ss_Scheduled snap)
      | remaining => <[k := remaining]> (ss_Scheduled snap)
      end) snap, activated ++ due).

Definition scheduled_total `{MapRange} (m : gmap string (list FeatureSignalContractVersion)) : Z :=
  go_range (fun n _ l => n + Z.of_nat (length l)) 0 m.

Section Scheduler.
Context `{MapRange} `{JsonMarshaler} `{FeatureSignalContractStore}.

Definition applyDueFeatureSignalContractsSnapshot (snap : Snapshot) (now : time)
    : Snapshot * list FeatureSignalContractVersion :=
  go_range (apply_due_key now) (snap, []) (ss_Scheduled snap).

Definition activated_kvs (now : time) (workerID : string) (v : FeatureSignalContractVersion)
    : list (string * gval) :=
  [("contract_key", GStr (fv_ContractKey v)); ("storage_key", GStr (fv_StorageKey v));
   ("scope", scope_gval (fv_Scope v)); ("risk_tier", GStr (fv_RiskTier v));
   ("phase", GStr (fv_Phase v)); ("version", GInt (fv_Version v));
   ("previous_status", GStr "scheduled"); ("next_status", GStr "active");
   ("schema_version", GStr (fv_SchemaVersion v));
   ("trusted_producer_ids", nilable (fv_TrustedProducerIDs v));
   ("max_freshness_ms", GInt (fv_MaxFreshnessMS v)); ("max_drift_score", GFloat (fv_MaxDriftScore v));
   ("status", GStr "active"); ("activation_at", GTime (fv_ActivationAt v));
   ("activation_now", GTime now); ("activation_worker_id", GStr workerID)].

Definition emit_activated (now : time) (workerID : string) (s : Service)
    (v : FeatureSignalContractVersion) : Service :=
  emitEvent "feature.signal_contract.activated" "" "" "" (activated_kvs now workerID v) now s.

(** [clock] is read when [now] is the zero time. *)
Definition RunFeatureSignalContractSchedulerWithWorker (s : Service) (st : option store_state)
    (now : time) (workerID : string) (clock wall : time)
    : Service * option store_state * FeatureSignalContractSchedulerResult :=
  let now := if IsZero now then clock else now in
  let workerID := if blank workerID then "manual" else TrimSpace workerID in
  let pendingBefore := scheduled_total (s_featureSignalContractScheduled s) in
  let snap := buildContractStoreSnapshotLocked s now in
  let '(candidate, activated) := applyDueFeatureSignalContractsSnapshot snap now in
  match activated with
  | [] => (s, st, mk_FeatureSignalContractSchedulerResult 0 pendingBefore now "" [])
  | _ =>
    let candidate := ss_set_Revision (nextStoreRevision (s_storeVersion s)) candidate in
    match commitContractSnapshotLocked candidate wall s st with
    | (s, st, Some err) =>
      (emitEvent "feature_signal_contract.scheduler.commit_failed" "" "" ""
         [("activation_worker_id", GStr workerID); ("activation_now", GTime now);
          ("activated_attempted", GInt (Z.of_nat (length activated)));
          ("pending_before_attempt", GInt pendingBefore); ("error", GStr err)] now s, st,
       mk_FeatureSignalContractSchedulerResult 0 pendingBefore now "store_sync_failed"
         ["feature_signal_contract_store_sync_failed"])
    | (s, st, None) =>
      let pending := scheduled_total (s_featureSignalContractScheduled s) in
      (foldl (emit_activated now workerID) s activated, st,
       mk_FeatureSignalContractSchedulerResult (Z.of_nat (length activated)) pending now "" [])
    end
  end.

Definition RunFeatureSignalContractScheduler (s : Service) (st : option store_state)
    (now clock wall : time) : Service * option store_state * FeatureSignalContractSchedulerResult :=
  RunFeatureSignalContractSchedulerWithWorker s st now "manual" clock wall.
End Scheduler.

(** ** Views *)

Section Views.
Context `{MapRange} `{JsonMarshaler}.

(** The view of an active contract; without an active version the zero value
    counts: version 1, the contract's own hash, the time it was stored. *)
Definition active_view (s : Service) (scope : ScopeRef) (k storageKey : string)
    (contract : FeatureSignalContract) : FeatureSignalContractView :=
  let active := activeFeatureSignalContractVersionLocked s storageKey in
  let meta := default 0 (s_featureSignalContractMeta s !! storageKey) in
  let version := match active with Some v => fv_Version v | None => 0 end in
  let hash := match active with Some v => fv_ContractHash v | None => "" end in
  let activationAt := match active with Some v => fv_ActivationAt v | None => 0 end in
  {| vw_ContractKey := k;
     vw_StorageKey := storageKey;
     vw_RiskTier := (splitContractKey k).1;
     vw_Phase := (splitContractKey k).2;
     vw_RequiredFields := fc_RequiredFields contract;
     vw_SchemaVersion := fc_SchemaVersion contract;
     vw_TrustedProducerIDs := fc_TrustedProducerIDs contract;
     vw_MaxFreshnessMS := fc_MaxFreshnessMS contract;
     vw_MaxDriftScore := fc_MaxDriftScore contract;
     vw_Scope := scope;
     vw_Version := if version <=? 0 then 1 else version;
     vw_ContractHash := if blank hash then safeHashForContract contract else hash;
     vw_Status := "active";
     vw_ActivationAt := if IsZero activationAt then meta else activationAt;
     vw_UpdatedAt := meta |}.

Definition scheduled_view (scope : ScopeRef) (k storageKey : string)
    (v : FeatureSignalContractVersion) : FeatureSignalContractView :=
  {| vw_ContractKey := k;
     vw_StorageKey := storageKey;
     vw_RiskTier := (splitContractKey k).1;
     vw_Phase := (splitContractKey k).2;
     vw_RequiredFields := fv_RequiredFields v;
     vw_SchemaVersion := fv_SchemaVersion v;
     vw_TrustedProducerIDs := fv_TrustedProducerIDs v;
     vw_MaxFreshnessMS := fv_MaxFreshnessMS v;
     vw_MaxDriftScore := fv_MaxDriftScore v;
     vw_Scope := scope;
     vw_Version := fv_Version v;
     vw_ContractHash := fv_ContractHash v;
     vw_Status := "scheduled";
     vw_ActivationAt := fv_ActivationAt v;
     vw_UpdatedAt := fv_CreatedAt v |}.

(** By scope, then storage key, then version, then contract key. *)
Definition view_before (a b : FeatureSignalContractView) : bool :=
  let ka := scopeKey (vw_Scope a) in let kb := scopeKey (vw_Scope b) in
  if negb (ka =? kb)%string then String.ltb ka kb
  else if negb (vw_StorageKey a =? vw_StorageKey b)%string
       then String.ltb (vw_StorageKey a) (vw_StorageKey b)
  else if negb (vw_Version a =? vw_Version b) then vw_Version a <? vw_Version b
  else String.ltb (vw_ContractKey a) (vw_ContractKey b).

Definition ListFeatureSignalContracts (s : Service) : list FeatureSignalContractView :=
  let out := go_range (fun out storageKey contract =>
    let '(scope, k) := parseFeatureSignalContractStorageKey storageKey in
    out ++ [active_view s scope k storageKey contract]) [] (s_featureSignalContractsScoped s) in
  let out := go_range (fun out storageKey scheduled =>
    let '(scope, k) := parseFeatureSignalContractStorageKey storageKey in
    out ++ map (scheduled_view scope k storageKey) scheduled) out (s_featureSignalContractScheduled s) in
  sort_Slice view_before out.

(** Without an active contract, the version scheduled last. *)
Definition GetFeatureSignalContractForScope (s : Service) (riskTier phase : string) (scope : ScopeRef)
    : option FeatureSignalContractView :=
  let k := normalizeContractKey riskTier phase in
  let scope := normalizeContractScope scope in
  let storageKey := featureSignalContractStorageKey scope k in
  match s_featureSignalContractsScoped s !! storageKey with
  | Some contract => Some (active_view s scope k storageKey contract)
  | None =>
    scheduled_view scope k storageKey
      <$> last (sort_Slice due_before (items (s_featureSignalContractScheduled s) storageKey))
  end.

Definition GetFeatureSignalContract (s : Service) (riskTier phase : string)
    : option FeatureSignalContractView :=
  GetFeatureSignalContractForScope s riskTier phase globalContractScope.
End Views.

(** The last [limit] entries (20 for a limit that is not positive); nothing for
    an empty log. *)
Definition tail_of {A} (limit : Z) (l : list A) : option (list A) :=
  match l with [] => None | _ => Some (lastn (Z.to_nat (if limit <=? 0 then 20 else limit)) l) end.

Definition GetFeatureSignalContractHistoryForScope (s : Service) (riskTier phase : string)
    (scope : ScopeRef) (limit : Z) : option (list FeatureSignalContractVersion) :=
  let k := featureSignalContractStorageKey (normalizeContractScope scope)
             (normalizeContractKey riskTier phase) in
  tail_of limit (items (s_featureSignalContractHistory s) k).

Definition GetFeatureSignalContractHistory (s : Service) (riskTier phase : string) (limit : Z) :=
  GetFeatureSignalContractHistoryForScope s riskTier phase globalContractScope limit.

Definition ListFeatureSignalContractRollbacksForScope (s : Service) (riskTier phase : string)
    (scope : ScopeRef) (limit : Z) : option (list FeatureSignalContractRollbackRecord) :=
  let k := featureSignalContractStorageKey (normalizeContractScope scope)
             (normalizeContractKey riskTier phase) in
  tail_of limit (items (s_featureSignalContractRollbacks s) k).

Definition ListFeatureSignalContractRollbacks (s : Service) (riskTier phase : string) (limit : Z) :=
  ListFeatureSignalContractRollbacksForScope s riskTier phase globalContractScope limit.

(** What the cache watcher does with a snapshot it receives from the store: a
    newer one replaces the contracts. *)
Definition watch_snapshot (snap : Snapshot) (s : Service) : Service :=
  if s_storeVersion s <? ss_Revision snap then applyContractStoreSnapshotLocked snap s else s.
