(* ===== verification/CtlFeatures.v ===== *)
(** * The feature registry

    Definitions, versions, snapshots and rollbacks of features: the registry
    half of [internal/decision/control_plane.go].  A call checks its input,
    then the registry, in the order of the code; every error leaves the state
    as it is.  [now] is the clock of the call. *)

From S2P Require Import Prelude GoStrings Sha256 GoTime GoJson DecTypes DecJson DecPolicy.
From S2P Require Import DecContracts DecKernel DecApproval CtlTypes CtlContracts.

Definition normalizeFeatureID (v : string) : string := lower_trim v.
Definition normalizeVersion (v : string) : string := TrimSpace v.

Definition any_empty (l : list string) : bool := existsb (fun s => s =? "")%string l.

(** [if missing := missingScopeFields(scope); len(missing) > 0]. *)
Definition scope_invalid (code : string) (scope : ScopeRef) : option ControlError :=
  match missingScopeFields scope with
  | [] => None
  | missing => Some (mk_ControlError 422 code "org/workspace/project scope required" missing)
  end.

Definition feature_not_found : ControlError :=
  mk_ControlError 404 "FEATURE_NOT_FOUND" "feature definition not found" ["feature_not_found"].
Definition scope_forbidden : ControlError :=
  mk_ControlError 403 "FEATURE_SCOPE_FORBIDDEN" "scope not allowed for feature"
    ["feature_scope_forbidden"].
Definition feature_id_required : ControlError :=
  mk_ControlError 422 "FEATURE_ID_REQUIRED" "feature_id required" ["feature_id_required"].

(** The versions of a feature; a feature without any is the nil map. *)
Definition versions_of (c : Control) (featureID : string) : gmap string FeatureVersion :=
  default ∅ (c_featureVersions c !! featureID).

(** The definition a read of a feature needs: a known identifier of this scope. *)
Definition find_feature (c : Control) (featureID : string) (scope : ScopeRef)
    : result ControlError FeatureDefinition :=
  if (featureID =? "")%string then Err feature_id_required
  else match scope_invalid "FEATURE_SCOPE_INVALID" scope with
       | Some err => Err err
       | None =>
         match c_featureDefinitions c !! featureID with
         | None => Err feature_not_found
         | Some def => if sameScope scope (fd_Scope def) then Ok def else Err scope_forbidden
         end
       end.

Definition definition_before (a b : FeatureDefinition) : bool :=
  if negb (fd_FeatureID a =? fd_FeatureID b)%string then String.ltb (fd_FeatureID a) (fd_FeatureID b)
  else Before (fd_CreatedAt a) (fd_CreatedAt b).

Definition version_before (a b : FeatureVersion) : bool :=
  if Equal (ver_CreatedAt a) (ver_CreatedAt b) then String.ltb (ver_Version a) (ver_Version b)
  else Before (ver_CreatedAt a) (ver_CreatedAt b).

Definition summary_of (v : FeatureVersion) : FeatureVersionSummary :=
  mk_FeatureVersionSummary (ver_Version v) (ver_ProducerID v) (ver_DriftScore v) (ver_CriticalPath v)
    (Z.of_nat (length (ver_UpstreamFeatureIDs v))) (ver_CreatedAt v).

Definition drift_trend (first last : float64) : string :=
  if fltb first last then "increasing" else if fltb last first then "decreasing" else "stable".

Definition edge_before (a b : FeatureDependencyEdge) : bool :=
  if negb (de_From a =? de_From b)%string then String.ltb (de_From a) (de_From b)
  else String.ltb (de_To a) (de_To b).

Definition stale_answer (riskTier : string) : string * string :=
  let r := normalizeRiskTier riskTier in
  if (r =? RiskCritical)%string then
    ("feature_snapshot_stale_critical", "fail_closed_feature_rollback_candidate")
  else if (r =? RiskHigh)%string then
    ("feature_snapshot_stale_high", "review_required_hold_feature_version")
  else ("feature_snapshot_stale", "review_required_feature_watch").

(** [t.UnixMilli()]. *)
Definition UnixMilli (t : time) : Z := wrap_int64 ((t - unix_epoch) / 1000000).

Section Features.
Context `{JsonMarshaler}.

Definition emit_control (eventType : string) (kvs : list (string * gval)) (now : time) (c : Control)
    : Control := c_set_svc (emitEvent eventType "" "" "" kvs now (c_svc c)) c.

Definition put_definition (def : FeatureDefinition) (featureID : string) (c : Control) : Control :=
  c_set_featureDefinitions (<[featureID := def]> (c_featureDefinitions c)) c.

Definition CreateFeatureDefinition (c : Control) (q : FeatureDefinitionCreateRequest) (now : time)
    : Control * result ControlError FeatureDefinition :=
  let featureID := normalizeFeatureID (dq_FeatureID q) in
  let name := TrimSpace (dq_Name q) in
  let owner := TrimSpace (dq_Owner q) in
  let scope := normalizeScope (dq_Scope q) in
  if any_empty [featureID; name; owner] then
    (c, controlErr 422 "FEATURE_INPUT_INVALID" "feature_id/name/owner required" ["feature_input_invalid"])
  else match scope_invalid "FEATURE_SCOPE_INVALID" scope with
  | Some err => (c, Err err)
  | None =>
    match c_featureDefinitions c !! featureID with
    | Some _ => (c, controlErr 409 "FEATURE_ALREADY_EXISTS" "feature definition already exists"
                      ["feature_already_exists"])
    | None =>
      let def := mk_FeatureDefinition featureID name (TrimSpace (dq_Description q)) owner scope "" now now in
      (put_definition def featureID c
         |> emit_control "feature.definition.created"
              [("feature_id", GStr featureID); ("scope", scope_gval scope); ("owner", GStr owner)] now,
       Ok def)
    end
  end.

(** A new version; the first one becomes the active one. *)
Definition add_version (def : FeatureDefinition) (v : FeatureVersion) (now : time) (c : Control) : Control :=
  let featureID := ver_FeatureID v in
  let c := c_set_featureVersions
    (<[featureID := <[ver_Version v := v]> (versions_of c featureID)]> (c_featureVersions c)) c in
  if blank (fd_ActiveVersion def)
  then put_definition (def |> fd_set_ActiveVersion (ver_Version v) |> fd_set_UpdatedAt now) featureID c
  else c.

(** The empty map is created before the version is looked up, and stays when
    the version exists already. *)
Definition CreateFeatureVersion (c : Control) (featureID : string) (q : FeatureVersionCreateRequest)
    (now : time) : Control * result ControlError FeatureVersion :=
  let featureID := normalizeFeatureID featureID in
  let version := normalizeVersion (nq_Version q) in
  let producerID := TrimSpace (nq_ProducerID q) in
  let schemaVersion := TrimSpace (nq_SchemaVersion q) in
  let evidenceRef := TrimSpace (nq_EvidenceRef q) in
  let scope := normalizeScope (nq_Scope q) in
  if any_empty [featureID; version; producerID; schemaVersion; evidenceRef] then
    (c, controlErr 422 "FEATURE_VERSION_INPUT_INVALID" "feature/version/producer/schema/evidence required"
          ["feature_version_input_invalid"])
  else match scope_invalid "FEATURE_SCOPE_INVALID" scope with
  | Some err => (c, Err err)
  | None =>
    match c_featureDefinitions c !! featureID with
    | None => (c, Err feature_not_found)
    | Some def =>
      if negb (sameScope scope (fd_Scope def)) then
        (c, controlErr 409 "FEATURE_SCOPE_MISMATCH" "feature scope mismatch" ["feature_scope_mismatch"])
      else
        let c := c_set_featureVersions (<[featureID := versions_of c featureID]> (c_featureVersions c)) c in
        match versions_of c featureID !! version with
        | Some _ => (c, controlErr 409 "FEATURE_VERSION_EXISTS" "feature version already exists"
                          ["feature_version_exists"])
        | None =>
          let upstream := uniqueStrings (sort_Strings
            (List.filter (fun u => negb (u =? "")%string) (map normalizeFeatureID (nq_UpstreamFeatureIDs q)))) in
          let v := mk_FeatureVersion featureID version producerID schemaVersion evidenceRef upstream
                     (TrimSpace (nq_DerivationType q)) (nq_CriticalPath q) (nq_DriftScore q) scope now in
          (add_version def v now c
             |> emit_control "feature.version.created"
                  [("feature_id", GStr featureID); ("version", GStr version);
                   ("producer_id", GStr producerID); ("critical_path", GBool (nq_CriticalPath q));
                   ("scope", scope_gval scope)] now,
           Ok v)
        end
    end
  end.

(** The checks [PublishFeatureVersion] and [RollbackFeature] share; they answer
    the definition. *)
Definition find_target (c : Control) (featureID targetVersion reason : string) (scope : ScopeRef)
    (code reason_code : string) : result ControlError FeatureDefinition :=
  if any_empty [featureID; targetVersion; reason] then
    controlErr 422 code "feature_id/target_version/reason required" [reason_code]
  else match find_feature c featureID scope with
       | Err err => Err err
       | Ok def =>
         match versions_of c featureID !! targetVersion with
         | None => controlErr 404 "FEATURE_VERSION_NOT_FOUND" "target feature version not found"
                     ["feature_version_not_found"]
         | Some _ => Ok def
         end
       end.

Definition activate_target (def : FeatureDefinition) (featureID targetVersion : string) (now : time)
    (c : Control) : Control :=
  put_definition (def |> fd_set_ActiveVersion targetVersion |> fd_set_UpdatedAt now) featureID c.

Definition PublishFeatureVersion (c : Control) (featureID : string) (q : FeatureVersionPublishRequest)
    (now : time) : Control * result ControlError FeatureVersionPublishResponse :=
  let featureID := normalizeFeatureID featureID in
  let targetVersion := normalizeVersion (uq_TargetVersion q) in
  let scope := normalizeScope (uq_Scope q) in
  let reason := TrimSpace (uq_Reason q) in
  match find_target c featureID targetVersion reason scope
          "FEATURE_PUBLISH_INPUT_INVALID" "feature_publish_input_invalid" with
  | Err err => (c, Err err)
  | Ok def =>
    let prev := fd_ActiveVersion def in
    (activate_target def featureID targetVersion now c
       |> emit_control "feature.version.published"
            [("feature_id", GStr featureID); ("previous_version", GStr prev);
             ("target_version", GStr targetVersion); ("scope", scope_gval scope);
             ("reason", GStr reason)] now,
     Ok (mk_FeatureVersionPublishResponse featureID prev targetVersion true now))
  end.

Definition RollbackFeature (c : Control) (featureID : string) (q : FeatureRollbackRequest) (now : time)
    : Control * result ControlError FeatureRollbackRecord :=
  let featureID := normalizeFeatureID featureID in
  let targetVersion := normalizeVersion (wq_TargetVersion q) in
  let scope := normalizeScope (wq_Scope q) in
  let reason := TrimSpace (wq_Reason q) in
  match find_target c featureID targetVersion reason scope
          "FEATURE_ROLLBACK_INPUT_INVALID" "feature_rollback_input_invalid" with
  | Err err => (c, Err err)
  | Ok def =>
    let '(s, rollbackID) := nextFallbackID "rbk_" (c_svc c) in
    let record := mk_FeatureRollbackRecord rollbackID featureID (fd_ActiveVersion def) targetVersion
                    reason scope now in
    let c := c_set_svc s c in
    (activate_target def featureID targetVersion now c
       |> c_set_featureRollbacks (append_item featureID record (c_featureRollbacks c))
       |> emit_control "feature.rollback.created"
            [("feature_id", GStr featureID); ("previous_version", GStr (rb_PreviousVersion record));
             ("target_version", GStr targetVersion); ("rollback_id", GStr rollbackID);
             ("scope", scope_gval scope)] now,
     Ok record)
  end.

(** ** Snapshots *)

Definition metadata_gval (m : option (gmap string string)) : gval :=
  GMap (map (fun kv => (kv.1, GStr kv.2)) (map_to_list (default ∅ m))).

Definition snapshot_input (featureID version producerID evidenceRef : string) (freshnessTS : time)
    (q : FeatureSnapshotBuildRequest) (scope : ScopeRef) : gval :=
  anon [key "feature_id" (GStr featureID); key "version" (GStr version);
        key "producer_id" (GStr producerID); key "evidence_ref" (GStr evidenceRef);
        key "freshness_ts" (GInt (UnixMilli freshnessTS)); key "ttl_ms" (GInt (bq_TTLMS q));
        key "scope" (scope_gval scope);
        key_om "metadata" (size (default ∅ (bq_Metadata q)) =? 0)%nat (metadata_gval (bq_Metadata q))].

Definition signature_input (snapshotID featureID version producerID evidenceRef : string)
    (scope : ScopeRef) : gval :=
  anon [key "snapshot_id" (GStr snapshotID); key "feature_id" (GStr featureID);
        key "version" (GStr version); key "producer_id" (GStr producerID);
        key "evidence_ref" (GStr evidenceRef); key "scope" (scope_gval scope)].

(** The signature: a hash, or a fallback identifier when it cannot be computed. *)
Definition sign_snapshot (input : gval) (s : Service) : Service * string :=
  match safeHash input with Some h => (s, h) | None => nextFallbackID "sig_" s end.

(** The version a snapshot is built from, when the request matches it. *)
Definition snapshot_version (c : Control) (featureID version producerID : string) (scope : ScopeRef)
    : result ControlError FeatureVersion :=
  match c_featureVersions c !! featureID with
  | None => controlErr 404 "FEATURE_NOT_FOUND" "feature definition/version not found" ["feature_not_found"]
  | Some versions =>
    match versions !! version with
    | None => controlErr 404 "FEATURE_VERSION_NOT_FOUND" "feature version not found"
                ["feature_version_not_found"]
    | Some v =>
      if negb (sameScope scope (ver_Scope v)) then
        controlErr 409 "FEATURE_SCOPE_MISMATCH" "feature scope mismatch" ["feature_scope_mismatch"]
      else if negb (producerID =? ver_ProducerID v)%string then
        controlErr 409 "FEATURE_PRODUCER_MISMATCH" "producer_id mismatch with registered feature version"
          ["feature_producer_mismatch"]
      else Ok v
    end
  end.

Definition BuildFeatureSnapshot (c : Control) (q : FeatureSnapshotBuildRequest) (now : time)
    : Control * result ControlError FeatureSnapshot :=
  let featureID := normalizeFeatureID (bq_FeatureID q) in
  let version := normalizeVersion (bq_Version q) in
  let producerID := TrimSpace (bq_ProducerID q) in
  let evidenceRef := TrimSpace (bq_EvidenceRef q) in
  let scope := normalizeScope (bq_Scope q) in
  if any_empty [featureID; version; producerID; evidenceRef] then
    (c, controlErr 422 "FEATURE_SNAPSHOT_INPUT_INVALID" "feature/version/producer/evidence required"
          ["feature_snapshot_input_invalid"])
  else match scope_invalid "FEATURE_SCOPE_INVALID" scope with
  | Some err => (c, Err err)
  | None =>
    if bq_TTLMS q <=? 0 then
      (c, controlErr 422 "FEATURE_SNAPSHOT_TTL_INVALID" "ttl_ms must be > 0" ["feature_snapshot_ttl_invalid"])
    else
      let freshnessTS := if IsZero (bq_FreshnessTS q) then now else bq_FreshnessTS q in
      match snapshot_version c featureID version producerID scope with
      | Err err => (c, Err err)
      | Ok _ =>
        let '(s, (snapshotID, _)) := makeBestEffortID "fs_"
          (snapshot_input featureID version producerID evidenceRef freshnessTS q scope) (c_svc c) in
        let '(s, signature) := sign_snapshot
          (signature_input snapshotID featureID version producerID evidenceRef scope) s in
        let snap := mk_FeatureSnapshot snapshotID featureID version producerID evidenceRef freshnessTS
          (bq_TTLMS q) (bq_Metadata q) scope version signature
          (if blank (bq_SignatureAlgo q) then "sha256" else TrimSpace (bq_SignatureAlgo q)) now in
        (c_set_svc s c
           |> c_set_featureSnapshots (<[snapshotID := snap]> (c_featureSnapshots c))
           |> emit_control "feature.snapshot.built"
                [("snapshot_id", GStr snapshotID); ("feature_id", GStr featureID);
                 ("version", GStr version); ("scope", scope_gval scope);
                 ("signature", GStr signature)] now,
         Ok snap)
      end
  end.
End Features.

Definition GetFeatureSnapshot (c : Control) (snapshotID : string) : option FeatureSnapshot :=
  c_featureSnapshots c !! TrimSpace snapshotID.

Definition GetFeatureSnapshotEvidence (c : Control) (snapshotID : string) : option FeatureSnapshotEvidence :=
  (fun snap => mk_FeatureSnapshotEvidence (sn_SnapshotID snap) (sn_FeatureID snap)
     (sn_FeatureVersion snap) (sn_ProducerID snap) (sn_EvidenceRef snap) (sn_Signature snap)
     (sn_Scope snap) (sn_CreatedAt snap)) <$> GetFeatureSnapshot c snapshotID.

(** [now] is read when the request has no time. *)
Definition ValidateFeatureSnapshotFreshness (c : Control) (q : FeatureSnapshotFreshnessValidateRequest)
    (now : time) : result ControlError FeatureSnapshotFreshnessValidateResponse :=
  let snapshotID := TrimSpace (hq_SnapshotID q) in
  let scope := normalizeScope (hq_Scope q) in
  if (snapshotID =? "")%string then
    controlErr 422 "FEATURE_SNAPSHOT_ID_REQUIRED" "snapshot_id required" ["feature_snapshot_id_required"]
  else match scope_invalid "FEATURE_SCOPE_INVALID" scope with
  | Some err => Err err
  | None =>
    let at_ := if IsZero (hq_At q) then now else hq_At q in
    match c_featureSnapshots c !! snapshotID with
    | None => controlErr 404 "FEATURE_SNAPSHOT_NOT_FOUND" "feature snapshot not found"
                ["feature_snapshot_not_found"]
    | Some snap =>
      if negb (sameScope scope (sn_Scope snap)) then
        controlErr 403 "FEATURE_SCOPE_FORBIDDEN" "scope not allowed for snapshot" ["feature_scope_forbidden"]
      else
        let ageMS := Milliseconds (Sub at_ (sn_FreshnessTS snap)) in
        let ageMS := if ageMS <? 0 then 0 else ageMS in
        let fresh := ageMS <=? sn_TTLMS snap in
        let '(reason, action) := if fresh then ("feature_snapshot_fresh", "allow")
                                 else stale_answer (hq_RiskTier q) in
        Ok (mk_FeatureSnapshotFreshnessValidateResponse snapshotID fresh (negb fresh) reason action
              ageMS (sn_TTLMS snap))
    end
  end.

(** ** Reports *)

Section Reports.
Context `{MapRange}.

Definition ListFeatureDefinitions (c : Control) (scope : ScopeRef)
    : result ControlError (list FeatureDefinition) :=
  let scope := normalizeScope scope in
  match scope_invalid "FEATURE_SCOPE_INVALID" scope with
  | Some err => Err err
  | None => Ok (sort_Slice definition_before
                  (go_range (fun out _ def => if sameScope (fd_Scope def) scope then out ++ [def] else out)
                     [] (c_featureDefinitions c)))
  end.

Definition ListFeatureVersions (c : Control) (featureID : string) (scope : ScopeRef)
    : result ControlError (list FeatureVersion) :=
  let featureID := normalizeFeatureID featureID in
  match find_feature c featureID (normalizeScope scope) with
  | Err err => Err err
  | Ok _ => Ok (sort_Slice version_before
                  (go_range (fun out _ v => out ++ [v]) [] (versions_of c featureID)))
  end.

Definition GetFeatureDriftReport (c : Control) (featureID : string) (scope : ScopeRef) (now : time)
    : result ControlError FeatureDriftReport :=
  let featureID := normalizeFeatureID featureID in
  let scope := normalizeScope scope in
  match find_feature c featureID scope with
  | Err err => Err err
  | Ok def =>
    let items := sort_Slice (fun a b => Before (vs_CreatedAt a) (vs_CreatedAt b))
      (go_range (fun out _ v => out ++ [summary_of v]) [] (versions_of c featureID)) in
    Ok (mk_FeatureDriftReport featureID scope
          (match last items with Some v => vs_DriftScore v | None => fzero end)
          (match items, last items with
           | first :: _ :: _, Some last => drift_trend (vs_DriftScore first) (vs_DriftScore last)
           | _, _ => "stable"
           end)
          (fd_ActiveVersion def) items now)
  end.

Definition GetFeatureRollbackHistory (c : Control) (featureID : string) (scope : ScopeRef) (limit : Z)
    : result ControlError (list FeatureRollbackRecord) :=
  let featureID := normalizeFeatureID featureID in
  match find_feature c featureID (normalizeScope scope) with
  | Err err => Err err
  | Ok _ => Ok (default [] (tail_of limit (items (c_featureRollbacks c) featureID)))
  end.

(** The upstream features of one version: nodes, and an edge for each name not
    seen with this version. *)
Definition add_upstream (from derivation : string)
    (acc : list string * list FeatureDependencyEdge * list string) (up : string)
    : list string * list FeatureDependencyEdge * list string :=
  let '(nodes, edges, seen) := acc in
  let k := Join [from; up] "->" in
  (nodes ++ [up],
   if one_of k seen then edges else edges ++ [mk_FeatureDependencyEdge from up derivation],
   if one_of k seen then seen else seen ++ [k]).

Definition add_dependencies (featureID : string)
    (acc : list string * list FeatureDependencyEdge * list string) (_ : string) (v : FeatureVersion)
    : list string * list FeatureDependencyEdge * list string :=
  let from := Join [featureID; ver_Version v] "@" in
  let '(nodes, edges, seen) := acc in
  foldl (add_upstream from (ver_DerivationType v)) (nodes ++ [from], edges, seen) (ver_UpstreamFeatureIDs v).

(** The set of nodes is the list without its duplicates, sorted. *)
Definition GetFeatureDependencyGraph (c : Control) (featureID : string) (scope : ScopeRef) (now : time)
    : result ControlError FeatureDependencyGraph :=
  let featureID := normalizeFeatureID featureID in
  let scope := normalizeScope scope in
  match find_feature c featureID scope with
  | Err err => Err err
  | Ok def =>
    let '(nodes, edges, _) :=
      go_range (add_dependencies featureID) ([featureID], [], []) (versions_of c featureID) in
    Ok (mk_FeatureDependencyGraph featureID scope (fd_ActiveVersion def)
          (sort_Strings (elements (list_to_set nodes : gset string))) (sort_Slice edge_before edges) now)
  end.
End Reports.
