(* ===== verification/CtlHealth.v ===== *)
(** * Approval organisation health and the enforcement matrix

    The rest of [internal/decision/control_plane.go]: the health record of a
    scope, its recomputation and remediation with their reports, and the
    validation and publication of the matrix of metric thresholds. *)

From S2P Require Import Prelude GoStrings Sha256 GoTime GoJson DecTypes DecJson DecPolicy.
From S2P Require Import DecContracts DecKernel CtlTypes CtlContracts CtlFeatures.

(** ** Health *)

Definition fone : float64 := float_of_Z 1.
Definition percent_f (n : Z) : float64 := float_of_ratio n 100.

Definition defaultApprovalOrgHealth (scope : ScopeRef) (now : time) : ApprovalOrgHealth :=
  mk_ApprovalOrgHealth scope fone fone fzero fzero 0 "healthy" now.

Definition approvalOrgHealthStatus (h : ApprovalOrgHealth) : string :=
  if fltb (oh_ActiveApproverRatio h) (percent_f 70) || fltb (oh_DelegateFreshness h) (percent_f 60)
     || fltb (percent_f 25) (oh_OverrideDependenceRate h)
     || fltb (percent_f 25) (oh_StaleApproverGroupRatio h) || (50 <? oh_RouteToNoActionCases h)
  then "critical"
  else if fltb (oh_ActiveApproverRatio h) (percent_f 90) || fltb (oh_DelegateFreshness h) (percent_f 85)
     || fltb (percent_f 10) (oh_OverrideDependenceRate h)
     || fltb (percent_f 10) (oh_StaleApproverGroupRatio h) || (10 <? oh_RouteToNoActionCases h)
  then "degraded"
  else "healthy".

Definition approvalRecommendations (h : ApprovalOrgHealth) : list string :=
  let out :=
    (if fltb (oh_ActiveApproverRatio h) (percent_f 90) then ["rebalance_approvers"] else []) ++
    (if fltb (oh_DelegateFreshness h) (percent_f 85) then ["refresh_delegates"] else []) ++
    (if fltb (percent_f 10) (oh_OverrideDependenceRate h) then ["reduce_override_dependency"] else []) ++
    (if fltb (percent_f 10) (oh_StaleApproverGroupRatio h) then ["cleanup_stale_approver_groups"] else []) ++
    (if 10 <? oh_RouteToNoActionCases h then ["replay_approval_routes"] else []) in
  match out with [] => ["no_action_required"] | _ => out end.

Definition clamp01 (v : float64) : float64 :=
  if fltb v fzero then fzero else if fltb fone v then fone else v.

Definition health_gval (h : ApprovalOrgHealth) : gval :=
  named "decision.ApprovalOrgHealth"
    [key "scope" (scope_gval (oh_Scope h));
     key "active_approver_ratio" (GFloat (oh_ActiveApproverRatio h));
     key "delegate_freshness" (GFloat (oh_DelegateFreshness h));
     key "override_dependence_rate" (GFloat (oh_OverrideDependenceRate h));
     key "stale_approver_group_ratio" (GFloat (oh_StaleApproverGroupRatio h));
     key "route_to_no_action_cases" (GInt (oh_RouteToNoActionCases h));
     key "status" (GStr (oh_Status h)); key "updated_at" (GTime (oh_UpdatedAt h))].

(** [s.approvalOrgHealth[key]], or the default of a scope never seen. *)
Definition health_of (c : Control) (scope : ScopeRef) (now : time) : ApprovalOrgHealth :=
  default (defaultApprovalOrgHealth scope now) (c_approvalOrgHealth c !! scopeKey scope).

Definition put_health (h : ApprovalOrgHealth) (k : string) (c : Control) : Control :=
  c_set_approvalOrgHealth (<[k := h]> (c_approvalOrgHealth c)) c.

(** A read of an unknown scope stores its default. *)
Definition GetApprovalOrgHealth (c : Control) (scope : ScopeRef) (now : time)
    : Control * result ControlError ApprovalOrgHealth :=
  let scope := normalizeScope scope in
  match scope_invalid "APPROVAL_SCOPE_INVALID" scope with
  | Some err => (c, Err err)
  | None =>
    match c_approvalOrgHealth c !! scopeKey scope with
    | Some h => (c, Ok h)
    | None => let h := defaultApprovalOrgHealth scope now in (put_health h (scopeKey scope) c, Ok h)
    end
  end.

(** What a remediation action does to the record; [None] is an unknown action. *)
Definition remedy (action : string) (h : ApprovalOrgHealth) : option ApprovalOrgHealth :=
  if (action =? "refresh_delegates")%string then Some (oh_set_DelegateFreshness fone h)
  else if (action =? "rebalance_approvers")%string then Some (oh_set_ActiveApproverRatio fone h)
  else if one_of action ["reduce_override"; "reduce_override_dependency"] then
    Some (oh_set_OverrideDependenceRate (fmul (oh_OverrideDependenceRate h) (float_of_ratio 1 2)) h)
  else if one_of action ["cleanup_stale_groups"; "cleanup_stale_approver_groups"] then
    Some (oh_set_StaleApproverGroupRatio fzero h)
  else if one_of action ["route_replay"; "replay_approval_routes"] then
    Some (oh_set_RouteToNoActionCases 0 h)
  else None.

Definition remedy_step (acc : ApprovalOrgHealth * list string) (action : string)
    : ApprovalOrgHealth * list string :=
  let a := lower_trim action in
  match remedy a acc.1 with Some h => (h, acc.2 ++ [a]) | None => acc end.

Section Health.
Context `{JsonMarshaler}.

(** A health record with its status, the report about it, the event of a kind. *)
Definition file_report (scope : ScopeRef) (h : ApprovalOrgHealth) (now : time)
    (eventType : string) (kvs : string -> list (string * gval)) (c : Control) : Control * string :=
  let c := put_health h (scopeKey scope) c in
  let '(s, reportID) := nextFallbackID "aphr_" (c_svc c) in
  let report := mk_ApprovalOrgHealthReport reportID scope (oh_Status h) (approvalRecommendations h) now in
  (c_set_svc s c
     |> c_set_approvalOrgReports (append_item (scopeKey scope) report (c_approvalOrgReports c))
     |> emit_control eventType (kvs reportID) now, reportID).

Definition with_health_status (h : ApprovalOrgHealth) (now : time) : ApprovalOrgHealth :=
  h |> oh_set_Status (approvalOrgHealthStatus h) |> oh_set_UpdatedAt now.

Definition RecomputeApprovalOrgHealth (c : Control) (q : ApprovalOrgHealthRecomputeRequest) (now : time)
    : Control * result ControlError ApprovalOrgHealthRecomputeResponse :=
  let scope := normalizeScope (oq_Scope q) in
  match scope_invalid "APPROVAL_SCOPE_INVALID" scope with
  | Some err => (c, Err err)
  | None =>
    if blank (oq_Reason q) then
      (c, controlErr 422 "APPROVAL_RECOMPUTE_REASON_REQUIRED" "reason required"
            ["approval_recompute_reason_required"])
    else if oq_RouteToNoActionCases q <? 0 then
      (c, controlErr 422 "APPROVAL_RECOMPUTE_INPUT_INVALID" "route_to_no_action_cases must be >= 0"
            ["approval_recompute_input_invalid"])
    else
      let h := health_of c scope now
        |> oh_set_ActiveApproverRatio (clamp01 (oq_ActiveApproverRatio q))
        |> oh_set_DelegateFreshness (clamp01 (oq_DelegateFreshness q))
        |> oh_set_OverrideDependenceRate (clamp01 (oq_OverrideDependenceRate q))
        |> oh_set_StaleApproverGroupRatio (clamp01 (oq_StaleApproverGroupRatio q))
        |> oh_set_RouteToNoActionCases (oq_RouteToNoActionCases q) in
      let h := with_health_status h now in
      let '(c, reportID) := file_report scope h now "approval.org_health.recomputed"
        (fun reportID => [("scope", scope_gval scope); ("status", GStr (oh_Status h));
           ("reason", GStr (TrimSpace (oq_Reason q))); ("actor", GStr (TrimSpace (oq_Actor q)));
           ("report_id", GStr reportID); ("health", health_gval h)]) c in
      (c, Ok (mk_ApprovalOrgHealthRecomputeResponse true reportID (oh_Status h) now))
  end.

Definition RemediateApprovalOrgHealth (c : Control) (q : ApprovalOrgHealthRemediationRequest) (now : time)
    : Control * result ControlError ApprovalOrgHealthRemediationResponse :=
  let scope := normalizeScope (mq_Scope q) in
  match scope_invalid "APPROVAL_SCOPE_INVALID" scope with
  | Some err => (c, Err err)
  | None =>
    if empty_list (mq_Actions q) then
      (c, controlErr 422 "APPROVAL_REMEDIATION_ACTIONS_REQUIRED" "actions required"
            ["approval_remediation_actions_required"])
    else if blank (mq_Reason q) then
      (c, controlErr 422 "APPROVAL_REMEDIATION_REASON_REQUIRED" "reason required"
            ["approval_remediation_reason_required"])
    else
      let '(h, applied) := foldl remedy_step (health_of c scope now, []) (mq_Actions q) in
      if empty_list applied then
        (c, controlErr 422 "APPROVAL_REMEDIATION_ACTIONS_INVALID" "no valid remediation actions"
              ["approval_remediation_actions_invalid"])
      else
        let h := with_health_status h now in
        let '(c, reportID) := file_report scope h now "approval.org_health.remediated"
          (fun reportID => [("scope", scope_gval scope); ("status", GStr (oh_Status h));
             ("applied", GStrs applied); ("reason", GStr (mq_Reason q));
             ("report_id", GStr reportID)]) c in
        (c, Ok (mk_ApprovalOrgHealthRemediationResponse true reportID (oh_Status h) applied now))
  end.
End Health.

Definition GetApprovalOrgHealthReports (c : Control) (scope : ScopeRef) (limit : Z)
    : result ControlError (list ApprovalOrgHealthReport) :=
  let scope := normalizeScope scope in
  match scope_invalid "APPROVAL_SCOPE_INVALID" scope with
  | Some err => Err err
  | None => Ok (default [] (tail_of limit (items (c_approvalOrgReports c) (scopeKey scope))))
  end.

(** ** The enforcement matrix *)

Definition GetEnforcementMatrix (c : Control) : EnforcementMatrixView :=
  mk_EnforcementMatrixView (s_matrixVersion (c_svc c)) (s_matrixUpdatedAt (c_svc c))
    (dc_MetricMatrix (s_cfg (c_svc c))).

Definition validateThreshold (t : EnforcementThreshold) : list string :=
  let d := lower_trim (et_Direction t) in
  if (d =? "gt")%string then
    if fleb (et_ObserveOnly t) (et_Alert t) && fleb (et_Alert t) (et_BlockRelease t)
       && fleb (et_BlockRelease t) (et_BlockRuntime t) then [] else ["gt_threshold_order_invalid"]
  else if (d =? "lt")%string then
    if fleb (et_Alert t) (et_ObserveOnly t) && fleb (et_BlockRelease t) (et_Alert t)
       && fleb (et_BlockRuntime t) (et_BlockRelease t) then [] else ["lt_threshold_order_invalid"]
  else ["direction_invalid"].

Definition metric_errors (metric : string) (t : EnforcementThreshold) : list string :=
  if blank metric then ["metric_name_empty"]
  else map (fun e => Join [TrimSpace metric; e] ":") (validateThreshold t).

Section Matrix.
Context `{MapRange}.

Definition ValidateEnforcementMatrix (q : EnforcementMatrixValidateRequest)
    : EnforcementMatrixValidateResponse :=
  let errs := if (size (eq_Matrix q) =? 0)%nat then ["matrix_empty"] else [] in
  let errs := sort_Strings
    (go_range (fun errs metric t => errs ++ metric_errors metric t) errs (eq_Matrix q)) in
  mk_EnforcementMatrixValidateResponse (empty_list errs) errs.

Definition set_metric_matrix (m : gmap string EnforcementThreshold) (c : Config) : Config :=
  mk_Config (dc_DCUProfiles c) (dc_FeatureSignalContracts c) (dc_DecisionRetryLimitPerStep c)
    (dc_PendingDecisionTTL c) (dc_PendingRepairWorkerID c) (dc_TicketTTL c)
    (dc_ApprovalHardTimeoutByRisk c) (dc_PolicyRules c) m (dc_OutboxMaxEvents c)
    (dc_OutboxRetention c) (dc_CleanupTimeSource c) (dc_TicketRetention c) (dc_PendingRetention c)
    (dc_ApprovalRetention c) (dc_DecisionRetention c) (dc_DecisionMaxHistoryVersions c)
    (dc_RequireHighRiskContractPin c).

Definition set_matrix (m : gmap string EnforcementThreshold) (version : Z) (now : time) (s : Service)
    : Service :=
  mk_Service (set_metric_matrix m (s_cfg s)) (s_decisions s) (s_decisionHistory s) (s_pending s)
    (s_tickets s) (s_approvals s) (s_outbox s) (s_maxObservedEventTS s) (s_softFailures s)
    (s_featureSignalContractsScoped s) (s_featureSignalContractMeta s)
    (s_featureSignalContractHistory s) (s_featureSignalContractRollbacks s)
    (s_featureSignalContractScheduled s) (s_counters s) (s_outboxTrimmedTotal s) (s_eventSeq s)
    (s_idSeq s) (s_storeVersion s) version now.

Context `{JsonMarshaler}.

Definition PublishEnforcementMatrix (c : Control) (q : EnforcementMatrixPublishRequest) (now : time)
    : Control * result ControlError EnforcementMatrixPublishResponse :=
  let check := ValidateEnforcementMatrix (mk_EnforcementMatrixValidateRequest (xq_Matrix q)) in
  if negb (ep_Valid check) then
    (c, controlErr 422 "ENFORCEMENT_MATRIX_INVALID" "enforcement matrix validation failed" (ep_Errors check))
  else if blank (xq_Reason q) then
    (c, controlErr 422 "ENFORCEMENT_MATRIX_REASON_REQUIRED" "publish reason required"
          ["enforcement_matrix_reason_required"])
  else
    let version := wrap_int64 (s_matrixVersion (c_svc c) + 1) in
    let reason := TrimSpace (xq_Reason q) in
    (c_set_svc (set_matrix (xq_Matrix q) version now (c_svc c)) c
       |> emit_control "metrics.enforcement_matrix.published"
            [("version", GInt version); ("reason", GStr reason);
             ("size", GInt (Z.of_nat (size (xq_Matrix q))))] now,
     Ok (mk_EnforcementMatrixPublishResponse version now reason)).
End Matrix.
