(* ===== verification/CtlInvariant.v ===== *)
(** * The invariant of the contract maps

    Everything the service stores about one storage key is a [key_state]; each
    operation is a function of it ([publish_key], [rollback_key], [due_key])
    that leaves the other keys alone, whatever the order of the maps.  The
    invariant of a key, [KInv]: versions count from one, the active contract is
    that of the only active version, what is scheduled is what the history
    calls scheduled, and every hash is the hash of its contract. *)

From S2P Require Import Prelude GoStrings Sha256 GoTime GoJson DecTypes DecJson DecPolicy.
From S2P Require Import DecContracts DecKernel DecFrame CtlTypes CtlContracts.

(** ** Key states *)

Record key_state := mk_key_state {
  ks_active : option FeatureSignalContract;
  ks_meta : option time;
  ks_history : list FeatureSignalContractVersion;
  ks_scheduled : list FeatureSignalContractVersion
}.

Definition key_of (snap : Snapshot) (k : string) : key_state :=
  mk_key_state (ss_Active snap !! k) (ss_Meta snap !! k) (items (ss_History snap) k)
    (items (ss_Scheduled snap) k).

Lemma items_insert {A} (m : gmap string (list A)) k l i :
  items (<[k := l]> m) i = if decide (i = k) then l else items m i.
Proof. unfold items. destruct (decide (i = k)) as [->|]; by simplify_map_eq. Qed.

Lemma items_delete {A} (m : gmap string (list A)) k i :
  items (delete k m) i = if decide (i = k) then [] else items m i.
Proof. unfold items. destruct (decide (i = k)) as [->|]; by simplify_map_eq. Qed.

Lemma items_append {A} (m : gmap string (list A)) k x i :
  items (append_item k x m) i = if decide (i = k) then items m k ++ [x] else items m i.
Proof. apply items_insert. Qed.

Lemma items_activate h k n now i :
  items (setFeatureSignalContractActiveVersion h k n now) i =
  if decide (i = k) then map (activate_version n now) (items h k) else items h i.
Proof.
  unfold setFeatureSignalContractActiveVersion.
  destruct (h !! k) as [[|x l]|] eqn:E; [| |];
    destruct (decide (i = k)) as [->|Hne]; unfold items; rewrite ?E; simplify_map_eq; done.
Qed.
Create Rewrite HintDb keys.
#[export] Hint Rewrite @items_insert @items_delete @items_append items_activate : keys.


(** The update of one key by a function of its state. *)
Definition own_key (f : key_state -> key_state) (k : string) (snap snap' : Snapshot) : Prop :=
  forall i, key_of snap' i = if decide (i = k) then f (key_of snap i) else key_of snap i.

Ltac own_key_tac :=
  intros i; unfold key_of; cbn; autorewrite with keys;
  destruct (decide (i = _)) as [->|]; simplify_map_eq; try done.

Definition activate_key (v : FeatureSignalContractVersion) (now : time) (s : key_state) : key_state :=
  mk_key_state (Some (buildFeatureSignalContractFromVersion v)) (Some now)
    (map (activate_version (fv_Version v) now) (ks_history s)) (ks_scheduled s).

Lemma activate_item_key now k snap v :
  own_key (activate_key v now) k snap (activate_item now k snap v).
Proof. own_key_tac. Qed.

Definition publish_key (p : publication) (now : time) (s : key_state) : key_state :=
  let n := next_version (ks_history s) in
  let r := version_record p n now in
  if After (pb_activationAt p) now
  then mk_key_state (ks_active s) (ks_meta s) (ks_history s ++ [r]) (ks_scheduled s ++ [r])
  else mk_key_state (Some (pb_contract p)) (Some now)
         (map (activate_version n now) (ks_history s ++ [r])) (ks_scheduled s).

Lemma publish_candidate_key snap p now :
  own_key (publish_key p now) (pb_storageKey p) snap (publish_candidate snap p now).
Proof.
  intros i. unfold publish_candidate, publish_key; cbv zeta.
  destruct (After (pb_activationAt p) now); unfold key_of; cbn; autorewrite with keys;
    destruct (decide (i = _)) as [->|]; simplify_map_eq; try done.
  all: autorewrite with keys; by rewrite ?decide_True by done.
Qed.

Definition rollback_key (applied target : FeatureSignalContractVersion) (now : time) (s : key_state)
    : key_state :=
  mk_key_state (Some (buildFeatureSignalContractFromVersion target)) (Some now)
    (map (activate_version (fv_Version applied) now) (ks_history s ++ [applied])) (ks_scheduled s).

Lemma rollback_candidate_key snap applied target record now :
  own_key (rollback_key applied target now) (fv_StorageKey applied) snap
    (rollback_candidate snap applied target record now).
Proof.
  intros i. unfold rollback_candidate, rollback_key; cbv zeta. unfold key_of; cbn. autorewrite with keys.
  destruct (decide (i = _)) as [->|]; simplify_map_eq; [|done].
  autorewrite with keys. by rewrite ?decide_True by done.
Qed.

(** One key of the scheduler's loop. *)
Definition due_of (now : time) (l : list FeatureSignalContractVersion) :=
  List.filter (is_due now) (sort_Slice due_before l).
Definition later_of (now : time) (l : list FeatureSignalContractVersion) :=
  List.filter (fun v => negb (is_due now v)) (sort_Slice due_before l).

Definition due_key (now : time) (s : key_state) : key_state :=
  let s' := foldl (fun s v => activate_key v now s) s (due_of now (ks_scheduled s)) in
  mk_key_state (ks_active s') (ks_meta s') (ks_history s') (later_of now (ks_scheduled s)).

(** ** The loop of the scheduler *)

Lemma foldl_view {S X V} (view : S -> string -> X) (g : V -> X -> X) (body : S -> string -> V -> S) :
  (forall s k v i, view (body s k v) i = if decide (i = k) then g v (view s i) else view s i) ->
  forall (l : list (string * V)) s i, NoDup l.*1 ->
  view (foldl (fun s kv => body s kv.1 kv.2) s l) i =
  match list_to_map (M := gmap string V) l !! i with Some v => g v (view s i) | None => view s i end.
Proof.
  intros Hb. induction l as [|[k v] l IH]; intros s i Hnd; [done|].
  simpl in Hnd. apply NoDup_cons in Hnd as [Hk Hnd]. cbn [foldl fst snd].
  rewrite (IH _ _ Hnd), Hb. simpl. rewrite lookup_insert.
  destruct (decide (i = k)) as [->|Hne].
  - apply not_elem_of_list_to_map_1 in Hk. rewrite Hk. by rewrite decide_True.
  - by rewrite decide_False by congruence.
Qed.

Lemma go_range_view {MR : MapRange} {S X V} (view : S -> string -> X) (g : V -> X -> X)
    (body : S -> string -> V -> S) (m : gmap string V) s i :
  (forall s k v i, view (body s k v) i = if decide (i = k) then g v (view s i) else view s i) ->
  view (go_range body s m) i = match m !! i with Some v => g v (view s i) | None => view s i end.
Proof.
  intros Hb. unfold go_range. rewrite (foldl_view view g body Hb) by apply range_map_nodup.
  by rewrite list_to_map_range.
Qed.

Lemma activate_items_key now k l : forall snap,
  own_key (fun s => foldl (fun s v => activate_key v now s) s l) k snap (foldl (activate_item now k) snap l).
Proof.
  induction l as [|v l IH]; intros snap i; simpl.
  { by destruct (decide (i = k)). }
  rewrite IH, (activate_item_key now k snap v). by destruct (decide (i = k)).
Qed.

Lemma activate_items_scheduled now l s :
  ks_scheduled (foldl (fun s v => activate_key v now s) s l) = ks_scheduled s.
Proof. revert s. induction l as [|v l IH]; intros s; simpl; [done|]. by rewrite IH. Qed.

(** The visit of a key whose scheduled versions are [l]. *)
Definition due_visit (now : time) (l : list FeatureSignalContractVersion) (s : key_state) : key_state :=
  let s' := foldl (fun s v => activate_key v now s) s (due_of now l) in
  mk_key_state (ks_active s') (ks_meta s') (ks_history s') (later_of now l).

Lemma apply_due_visit now acc k l i :
  key_of (apply_due_key now acc k l).1 i =
  if decide (i = k) then due_visit now l (key_of acc.1 i) else key_of acc.1 i.
Proof.
  destruct acc as [snap activated]. unfold apply_due_key; cbv zeta.
  fold (due_of now l) (later_of now l). cbn [fst].
  pose proof (activate_items_key now k (due_of now l) snap i) as Hk.
  set (snap' := foldl (activate_item now k) snap (due_of now l)) in *.
  assert (E : key_of (ss_set_Scheduled (match later_of now l with
      | [] => delete k (ss_Scheduled snap') | remaining => <[k := remaining]> (ss_Scheduled snap') end) snap') i
    = mk_key_state (ks_active (key_of snap' i)) (ks_meta (key_of snap' i)) (ks_history (key_of snap' i))
        (if decide (i = k) then later_of now l else ks_scheduled (key_of snap' i))).
  { unfold key_of; cbn. f_equal. destruct (later_of now l); autorewrite with keys; done. }
  rewrite E, Hk. destruct (decide (i = k)); [done|]. by destruct (key_of snap i).
Qed.

Lemma apply_due_key_of {MR : MapRange} snap now i :
  key_of (applyDueFeatureSignalContractsSnapshot snap now).1 i = due_key now (key_of snap i).
Proof.
  unfold applyDueFeatureSignalContractsSnapshot.
  rewrite (go_range_view (fun acc => key_of acc.1) (due_visit now) (apply_due_key now)).
  2:{ intros acc k v j. apply apply_due_visit. }
  cbn [fst]. unfold due_key, due_visit.
  destruct (ss_Scheduled snap !! i) as [l|] eqn:E;
    [replace (ks_scheduled (key_of snap i)) with l|replace (ks_scheduled (key_of snap i)) with (@nil FeatureSignalContractVersion)];
    try (unfold key_of, items; cbn; by rewrite E).
Qed.

Lemma apply_due_list {MR : MapRange} snap now :
  (applyDueFeatureSignalContractsSnapshot snap now).2 =
  List.concat (map (fun kv => due_of now kv.2) (range_map (ss_Scheduled snap))).
Proof.
  unfold applyDueFeatureSignalContractsSnapshot, go_range.
  enough (H : forall l acc, (foldl (fun s kv => apply_due_key now s kv.1 kv.2) acc l).2 =
    acc.2 ++ List.concat (map (fun kv : string * list FeatureSignalContractVersion => due_of now kv.2) l))
    by (by rewrite H).
  induction l as [|kv l IH]; intros [sn act]; simpl; [by rewrite app_nil_r|].
  rewrite IH. unfold apply_due_key; cbv zeta. fold (due_of now kv.2). cbn [snd]. by rewrite app_assoc.
Qed.

(** ** The invariant of a key *)

Definition scheduled_status (v : FeatureSignalContractVersion) : bool :=
  (fv_Status v =? "scheduled")%string.
Definition active_status (v : FeatureSignalContractVersion) : bool := (fv_Status v =? "active")%string.

Section Invariant.
Context `{JsonMarshaler}.

Definition record_ok (k : string) (v : FeatureSignalContractVersion) : Prop :=
  fv_StorageKey v = k /\ fv_ContractHash v = safeHashForContract (buildFeatureSignalContractFromVersion v) /\
  one_of (fv_Status v) ["active"; "superseded"; "scheduled"] = true.

Record KInv (k : string) (s : key_state) : Prop := mk_KInv {
  ki_versions : forall i v, ks_history s !! i = Some v -> fv_Version v = Z.of_nat i + 1;
  ki_records : Forall (record_ok k) (ks_history s);
  ki_active : match ks_active s with
              | Some c => exists v, List.filter active_status (ks_history s) = [v] /\
                                    buildFeatureSignalContractFromVersion v = c
              | None => List.filter active_status (ks_history s) = []
              end;
  ki_scheduled : ks_scheduled s ≡ₚ List.filter scheduled_status (ks_history s)
}.

(** The contracts of a snapshot. *)
Definition CInv (snap : Snapshot) : Prop := forall k, KInv k (key_of snap k).

(** Versions are not reused while there are fewer than 2^63 of them. *)
Definition short (n : Z) (snap : Snapshot) : Prop :=
  forall k, Z.of_nat (length (items (ss_History snap) k)) <= n.

Lemma next_version_length k s : KInv k s -> Z.of_nat (length (ks_history s)) < max_int64 ->
  next_version (ks_history s) = Z.of_nat (length (ks_history s)) + 1.
Proof.
  intros HI Hl. unfold next_version. rewrite last_lookup.
  destruct (ks_history s !! pred (length (ks_history s))) as [v|] eqn:E.
  - pose proof (lookup_lt_Some _ _ _ E). rewrite (ki_versions _ _ HI _ _ E).
    rewrite wrap_int64_succ by (unfold min_int64, max_int64 in *; lia). lia.
  - apply lookup_ge_None in E. assert (length (ks_history s) = 0)%nat as -> by lia. done.
Qed.

(** What activation does to a record of a known status. *)
Lemma activate_version_status n now v :
  one_of (fv_Status v) ["active"; "superseded"; "scheduled"] = true ->
  let v' := activate_version n now v in
  fv_Version v' = fv_Version v /\ fv_StorageKey v' = fv_StorageKey v /\
  fv_ContractHash v' = fv_ContractHash v /\
  buildFeatureSignalContractFromVersion v' = buildFeatureSignalContractFromVersion v /\
  one_of (fv_Status v') ["active"; "superseded"; "scheduled"] = true /\
  active_status v' = (fv_Version v =? n) /\
  (if fv_Version v =? n then scheduled_status v' = false else
   if scheduled_status v then v' = v else scheduled_status v' = false).
Proof.
  intros Hs. cbv zeta. unfold activate_version, active_status, scheduled_status.
  apply one_of_In in Hs. destruct (fv_Version v =? n) eqn:E; [destruct v; cbn in *; by split_and!|].
  destruct v as [? ? ? ? ? ? ? ? ? ? ? ? st ? ? ? ?]; cbn in *.
  destruct Hs as [<-|[<-|[<-|[]]]]; by split_and!.
Qed.

Lemma activate_record k n now v : record_ok k v -> record_ok k (activate_version n now v).
Proof.
  intros (H1 & H2 & H3). destruct (activate_version_status n now v H3) as (? & E2 & E3 & E4 & E5 & _).
  unfold record_ok. by rewrite E2, E3, E4.
Qed.
End Invariant.

(** ** Histories with consecutive versions *)

Definition numbered (h : list FeatureSignalContractVersion) : Prop :=
  forall i v, h !! i = Some v -> fv_Version v = Z.of_nat i + 1.

Lemma numbered_app h r : numbered h -> fv_Version r = Z.of_nat (length h) + 1 -> numbered (h ++ [r]).
Proof.
  intros Hn Hr i v Hi. apply lookup_app_Some in Hi as [Hi|[Hl Hi]]; [by apply Hn|].
  apply list_lookup_singleton_Some in Hi as [Hi <-]. rewrite Hr. lia.
Qed.

Lemma filter_none {A} (f : A -> bool) l : (forall x, x ∈ l -> f x = false) -> List.filter f l = [].
Proof.
  intros Hf. induction l as [|x l IH]; simpl; [done|]. rewrite Hf by (by left). apply IH.
  intros y Hy. apply Hf. by right.
Qed.

(** A numbered history has one record per number. *)
Lemma numbered_filter h i v : numbered h -> h !! i = Some v ->
  List.filter (fun x => fv_Version x =? fv_Version v) h = [v].
Proof.
  intros Hn Hi. pose proof (Hn _ _ Hi) as Hv.
  rewrite <- (take_drop_middle _ _ _ Hi), List.filter_app. cbn [List.filter]. rewrite Z.eqb_refl.
  rewrite !filter_none; [done| |].
  - intros x Hx. apply list_elem_of_lookup in Hx as [j Hj]. rewrite lookup_drop in Hj.
    rewrite (Hn _ _ Hj), Hv. apply Z.eqb_neq. lia.
  - intros x Hx. apply list_elem_of_lookup in Hx as [j Hj]. apply lookup_take_Some in Hj as [Hj ?].
    rewrite (Hn _ _ Hj), Hv. apply Z.eqb_neq. lia.
Qed.

Lemma numbered_map f h : (forall v, fv_Version (f v) = fv_Version v) -> numbered h -> numbered (map f h).
Proof.
  intros Hf Hn i v Hi. rewrite list_lookup_fmap in Hi. destruct (h !! i) as [x|] eqn:E; simplify_eq/=.
  rewrite Hf. by apply Hn.
Qed.

Lemma filter_map_comp {A B} (f : B -> bool) (g : A -> B) l :
  List.filter f (map g l) = map g (List.filter (fun x => f (g x)) l).
Proof. induction l as [|x l IH]; simpl; [done|]. destruct (f (g x)); simpl; by rewrite IH. Qed.

Lemma filter_ext_in' {A} (f g : A -> bool) l : (forall x, x ∈ l -> f x = g x) ->
  List.filter f l = List.filter g l.
Proof.
  intros Hfg. apply filter_ext_in. intros x Hx. apply Hfg. by apply list_elem_of_In.
Qed.

#[export] Instance list_filter_perm {A} (f : A -> bool) :
  Proper ((≡ₚ) ==> (≡ₚ)) (List.filter f).
Proof.
  induction 1 as [|x l l' _ IH|x y l|l1 l2 l3 _ IH1 _ IH2]; simpl; [done| | |].
  - destruct (f x); by rewrite IH.
  - destruct (f x), (f y); try done. constructor.
  - by rewrite IH1.
Qed.

Section Activate.
Context `{JsonMarshaler} (k : string) (now : time).

Lemma record_status h v : Forall (record_ok k) h -> v ∈ h ->
  one_of (fv_Status v) ["active"; "superseded"; "scheduled"] = true.
Proof. intros Hf Hv. by destruct (proj1 (Forall_forall _ _) Hf v Hv) as (_ & _ & ?). Qed.

(** After activating number [n] it is the only active record, and no longer a
    scheduled one; the other scheduled records are untouched. *)
Lemma activate_actives h i v : numbered h -> Forall (record_ok k) h -> h !! i = Some v ->
  List.filter active_status (map (activate_version (fv_Version v) now) h) =
  [activate_version (fv_Version v) now v].
Proof.
  intros Hn Hr Hi. rewrite filter_map_comp.
  rewrite (filter_ext_in' _ (fun x => fv_Version x =? fv_Version v)).
  - by rewrite (numbered_filter _ _ _ Hn Hi).
  - intros x Hx. by destruct (activate_version_status (fv_Version v) now x (record_status _ _ Hr Hx))
      as (_ & _ & _ & _ & _ & ? & _).
Qed.

Lemma activate_scheduled n h : Forall (record_ok k) h ->
  List.filter scheduled_status (map (activate_version n now) h) =
  List.filter (fun x => scheduled_status x && negb (fv_Version x =? n)) h.
Proof.
  induction 1 as [|x l Hx _ IH]; simpl; [done|]. rewrite IH.
  destruct (activate_version_status n now x (proj2 (proj2 Hx))) as (_ & _ & _ & _ & _ & _ & E).
  destruct (fv_Version x =? n); [by rewrite E, andb_false_r|]. rewrite andb_true_r.
  destruct (scheduled_status x) eqn:E2; [by rewrite E, E2|by rewrite E].
Qed.

Lemma activate_records n h : Forall (record_ok k) h -> Forall (record_ok k) (map (activate_version n now) h).
Proof. intros Hf. apply Forall_map. eapply Forall_impl; [exact Hf|]. intros v. apply activate_record. Qed.

Lemma activate_numbered n h : Forall (record_ok k) h -> numbered h ->
  numbered (map (activate_version n now) h).
Proof.
  intros _. apply numbered_map. intros v. unfold activate_version. by repeat case_match.
Qed.

(** Activating the record at [i] of a history whose scheduled records, that one
    excepted, are [sc]. *)
Lemma activate_KInv h i v sc m : numbered h -> Forall (record_ok k) h -> h !! i = Some v ->
  sc ≡ₚ List.filter (fun x => scheduled_status x && negb (fv_Version x =? fv_Version v)) h ->
  KInv k (mk_key_state (Some (buildFeatureSignalContractFromVersion v)) m
            (map (activate_version (fv_Version v) now) h) sc).
Proof.
  intros Hn Hr Hi Hsc. split; cbn.
  - by apply activate_numbered.
  - by apply activate_records.
  - exists (activate_version (fv_Version v) now v). split; [by eapply activate_actives|].
    assert (v ∈ h) as Hv by (by apply list_elem_of_lookup; exists i).
    by destruct (activate_version_status (fv_Version v) now v (record_status _ _ Hr Hv))
      as (_ & _ & _ & ? & _).
  - by rewrite activate_scheduled.
Qed.
End Activate.

Section Preserve.
Context `{JsonMarshaler} (k : string).

(** A new record, active at once. *)
Lemma KInv_add_active s r now m : KInv k s -> record_ok k r -> scheduled_status r = false ->
  fv_Version r = Z.of_nat (length (ks_history s)) + 1 ->
  KInv k (mk_key_state (Some (buildFeatureSignalContractFromVersion r)) m
            (map (activate_version (fv_Version r) now) (ks_history s ++ [r])) (ks_scheduled s)).
Proof.
  intros HI Hr Hs Hv. pose proof (numbered_app _ _ (ki_versions _ _ HI) Hv) as Hn.
  assert (Hl : (ks_history s ++ [r]) !! length (ks_history s) = Some r)
    by (by rewrite lookup_app_r, Nat.sub_diag by lia).
  eapply (activate_KInv k now); [exact Hn| |exact Hl|].
  - apply Forall_app. split; [apply (ki_records _ _ HI)|by constructor].
  - rewrite List.filter_app. cbn [List.filter]. rewrite Hs, app_nil_r. cbn [andb].
    rewrite (ki_scheduled _ _ HI). apply reflexive_eq, filter_ext_in'. intros x Hx.
    apply list_elem_of_lookup in Hx as [j Hj]. rewrite (ki_versions _ _ HI _ _ Hj), Hv.
    apply lookup_lt_Some in Hj. replace (_ =? _) with false; [by rewrite andb_true_r|].
    symmetry. apply Z.eqb_neq. lia.
Qed.

(** A new record, scheduled. *)
Lemma KInv_add_scheduled s r : KInv k s -> record_ok k r -> fv_Status r = "scheduled" ->
  fv_Version r = Z.of_nat (length (ks_history s)) + 1 ->
  KInv k (mk_key_state (ks_active s) (ks_meta s) (ks_history s ++ [r]) (ks_scheduled s ++ [r])).
Proof.
  intros HI Hr Hs Hv. assert (Ha : active_status r = false) by (unfold active_status; by rewrite Hs).
  assert (Hc : scheduled_status r = true) by (unfold scheduled_status; by rewrite Hs).
  split; cbn.
  - apply (numbered_app _ _ (ki_versions _ _ HI) Hv).
  - apply Forall_app. split; [apply (ki_records _ _ HI)|by constructor].
  - rewrite List.filter_app. cbn [List.filter]. rewrite Ha, app_nil_r. apply (ki_active _ _ HI).
  - rewrite List.filter_app. cbn [List.filter]. rewrite Hc. by rewrite (ki_scheduled _ _ HI).
Qed.

(** A scheduled record becomes the active one. *)
Lemma KInv_activate s v sc now : KInv k s -> ks_scheduled s ≡ₚ v :: sc ->
  KInv k (let s' := activate_key v now s in
          mk_key_state (ks_active s') (ks_meta s') (ks_history s') sc).
Proof.
  intros HI Hp. assert (Hv : v ∈ List.filter scheduled_status (ks_history s))
    by (rewrite <- (ki_scheduled _ _ HI), Hp; by left).
  apply list_elem_of_In, filter_In in Hv as [Hv Hs]. apply list_elem_of_In, list_elem_of_lookup in Hv as [i Hi].
  apply (activate_KInv k now _ i _ _ _ (ki_versions _ _ HI) (ki_records _ _ HI) Hi).
  assert (Hd : forall l, List.filter (fun x => scheduled_status x && negb (fv_Version x =? fv_Version v)) l =
    List.filter (fun x => negb (fv_Version x =? fv_Version v)) (List.filter scheduled_status l)).
  { induction l as [|x l IH]; simpl; [done|]. destruct (scheduled_status x); simpl; by rewrite IH. }
  rewrite Hd.
  assert (Hq : List.filter scheduled_status (ks_history s) ≡ₚ v :: sc)
    by (by rewrite <- (ki_scheduled _ _ HI)).
  (* the other scheduled records have other numbers *)
  assert (Hone : List.filter (fun x => fv_Version x =? fv_Version v) (List.filter scheduled_status (ks_history s)) = [v]).
  { pose proof (numbered_filter _ _ _ (ki_versions _ _ HI) Hi) as E.
    clear -E Hs. revert E. generalize (ks_history s). intros l E.
    assert (H : List.filter (fun x => fv_Version x =? fv_Version v) (List.filter scheduled_status l) =
      List.filter scheduled_status (List.filter (fun x => fv_Version x =? fv_Version v) l)).
    { clear. induction l as [|x l IH]; simpl; [done|].
      destruct (scheduled_status x) eqn:E1, (fv_Version x =? fv_Version v) eqn:E2; simpl;
        rewrite ?E1, ?E2; by rewrite IH. }
    rewrite H, E. simpl. by rewrite Hs. }
  assert (Hsc : List.filter (fun x => fv_Version x =? fv_Version v) (v :: sc) ≡ₚ [v])
    by (by rewrite <- Hq, Hone).
  rewrite Hq. simpl in *. rewrite Z.eqb_refl in *. simpl in *.
  apply Permutation_cons_inv, Permutation_nil_r in Hsc.
  apply reflexive_eq. symmetry. clear -Hsc. induction sc as [|x l IH]; simpl in *; [done|].
  destruct (fv_Version x =? fv_Version v) eqn:E; [done|]. simpl. by rewrite IH.
Qed.
End Preserve.

(** ** The operations keep the invariant *)

Section Operations.
Context `{JsonMarshaler}.

Definition publication_ok (p : publication) : Prop := pb_hash p = safeHashForContract (pb_contract p).

Lemma version_record_contract p n now :
  buildFeatureSignalContractFromVersion (version_record p n now) = pb_contract p.
Proof. by destruct p as [? ? ? ? [] ? ? ? ? ?]. Qed.

Lemma version_record_ok p n now : publication_ok p -> record_ok (pb_storageKey p) (version_record p n now).
Proof.
  intros Hp. split_and!; [done| |].
  - by rewrite version_record_contract.
  - cbn. unfold contractPublishStatus. by destruct (After _ _).
Qed.

Lemma KInv_publish p now s : KInv (pb_storageKey p) s -> Z.of_nat (length (ks_history s)) < max_int64 ->
  publication_ok p -> KInv (pb_storageKey p) (publish_key p now s).
Proof.
  intros HI Hl Hp. unfold publish_key; cbv zeta. rewrite (next_version_length _ _ HI Hl).
  set (r := version_record p _ now). pose proof (version_record_ok p (Z.of_nat (length (ks_history s)) + 1) now Hp) as Hr.
  fold r in Hr. destruct (After (pb_activationAt p) now) eqn:E.
  - apply KInv_add_scheduled; try done. unfold r; cbn. unfold contractPublishStatus. by rewrite E.
  - rewrite <- (version_record_contract p (Z.of_nat (length (ks_history s)) + 1) now). fold r.
    apply (KInv_add_active (pb_storageKey p) s r); try done.
    unfold scheduled_status, r; cbn. unfold contractPublishStatus. by rewrite E.
Qed.

Lemma KInv_rollback k storageKey scope target version reason actor now s :
  KInv storageKey s -> version = Z.of_nat (length (ks_history s)) + 1 ->
  let applied := applied_version k storageKey scope
    (safeHashForContract (buildFeatureSignalContractFromVersion target)) target version reason actor now in
  KInv storageKey (rollback_key applied target now s).
Proof.
  intros HI Hv applied.
  apply (KInv_add_active storageKey s applied now (Some now)); try done.
Qed.

Lemma due_split now l : l ≡ₚ due_of now l ++ later_of now l.
Proof.
  unfold due_of, later_of. rewrite <- (sort_Slice_perm due_before l) at 1.
  induction (sort_Slice due_before l) as [|x l' IH]; simpl; [done|].
  destruct (is_due now x); simpl; [by rewrite <- IH|]. rewrite IH at 1. by rewrite Permutation_middle.
Qed.

Lemma KInv_activates k now : forall due s later, KInv k s -> ks_scheduled s ≡ₚ due ++ later ->
  KInv k (let s' := foldl (fun s v => activate_key v now s) s due in
          mk_key_state (ks_active s') (ks_meta s') (ks_history s') later).
Proof.
  induction due as [|v due IH]; intros s later HI Hp; simpl in *.
  - destruct HI as [H1 H2 H3 H4]. split; cbn; try done. by rewrite <- Hp.
  - pose proof (KInv_activate k s v (due ++ later) now HI Hp) as HI'.
    set (s1 := mk_key_state _ _ _ _) in HI'. specialize (IH s1 later HI' ltac:(done)). cbv zeta in IH.
    assert (E : forall l a b, ks_active a = ks_active b -> ks_meta a = ks_meta b -> ks_history a = ks_history b ->
      let fa := foldl (fun s v => activate_key v now s) a l in
      let fb := foldl (fun s v => activate_key v now s) b l in
      ks_active fa = ks_active fb /\ ks_meta fa = ks_meta fb /\ ks_history fa = ks_history fb).
    { clear. induction l as [|x l IH]; intros a b E1 E2 E3; simpl; [done|]. apply IH; cbn; congruence. }
    destruct (E due s1 (activate_key v now s)) as (E1 & E2 & E3); [done..|]. by rewrite <- E1, <- E2, <- E3.
Qed.

Lemma KInv_due k now s : KInv k s -> KInv k (due_key now s).
Proof. intros HI. apply KInv_activates; [done|]. apply due_split. Qed.

(** *** Snapshots *)

Lemma CInv_own f k snap snap' : own_key f k snap snap' -> CInv snap ->
  (KInv k (key_of snap k) -> KInv k (f (key_of snap k))) -> CInv snap'.
Proof.
  intros Ho HI Hf i. rewrite Ho. destruct (decide (i = k)) as [->|]; [apply Hf|]; apply HI.
Qed.

Lemma CInv_publish snap p now : CInv snap -> short (max_int64 - 1) snap -> publication_ok p ->
  CInv (publish_candidate snap p now).
Proof.
  intros HI Hs Hp. apply (CInv_own _ _ _ _ (publish_candidate_key snap p now) HI). intros Hk.
  apply KInv_publish; [done| |done]. specialize (Hs (pb_storageKey p)). cbn. lia.
Qed.

Lemma CInv_due {MR : MapRange} snap now : CInv snap ->
  CInv (applyDueFeatureSignalContractsSnapshot snap now).1.
Proof. intros HI k. rewrite apply_due_key_of. by apply KInv_due. Qed.

(** Only the contract maps count. *)
Lemma key_of_revision n snap k : key_of (ss_set_Revision n snap) k = key_of snap k.
Proof. done. Qed.
Lemma key_of_generated t snap k : key_of (ss_set_GeneratedAt t snap) k = key_of snap k.
Proof. done. Qed.
Lemma key_of_build s now now' k :
  key_of (buildContractStoreSnapshotLocked s now) k = key_of (buildContractStoreSnapshotLocked s now') k.
Proof. done. Qed.
End Operations.

(** Lengths of histories. *)
Lemma activates_length now : forall due s,
  length (ks_history (foldl (fun s v => activate_key v now s) s due)) = length (ks_history s).
Proof. induction due as [|v due IH]; intros s; simpl; [done|]. rewrite IH. cbn. by rewrite length_map. Qed.

Lemma publish_key_length p now s : length (ks_history (publish_key p now s)) = S (length (ks_history s)).
Proof.
  unfold publish_key; cbv zeta. destruct (After _ _); cbn; rewrite ?length_map, length_app; cbn; lia.
Qed.
