(* ===== verification/CtlStore.v ===== *)
(** * The contract store as an interface, and services that share one

    [StoreLaws] is what the services rely on: a successful write is what the
    next read returns, with a larger revision, and a failed write changes
    nothing.  The in-memory store satisfies it.  [System] is any number of
    services over one store: they publish, roll back, activate, and receive
    snapshots the store has sent, late or never. *)

From stdpp Require Import relations.
From S2P Require Import Prelude GoStrings Sha256 GoTime GoJson DecTypes DecJson DecPolicy.
From S2P Require Import DecContracts DecKernel DecFrame DecTrace DecSteady CtlTypes CtlContracts.
From S2P Require Import CtlInvariant.

#[local] Open Scope Z_scope.

(** The contracts of two snapshots are the same, key by key. *)
Definition same_keys (a b : Snapshot) : Prop := forall k, key_of a k = key_of b k.

#[export] Instance same_keys_equiv : Equivalence same_keys.
Proof.
  split.
  - by intros a k.
  - intros a b Hab k. by rewrite Hab.
  - intros a b c Hab Hbc k. by rewrite Hab.
Qed.

#[export] Instance CInv_proper `{JsonMarshaler} : Proper (same_keys ==> iff) CInv.
Proof. intros a b Hab. split; intros HI k; [rewrite <- Hab|rewrite Hab]; apply HI. Qed.

Lemma short_key_of n snap k : short n snap -> Z.of_nat (length (ks_history (key_of snap k))) <= n.
Proof. intros Hs. apply Hs. Qed.

#[export] Instance short_proper n : Proper (same_keys ==> iff) (short n).
Proof.
  intros a b Hab. split; intros Hs k; [pose proof (Hab k) as E|pose proof (Hab k) as E];
    specialize (Hs k); apply (f_equal ks_history) in E; cbn in E; by rewrite E in *.
Qed.

Lemma short_mono m n snap : m <= n -> short m snap -> short n snap.
Proof. intros ? Hs k. specialize (Hs k). lia. Qed.

Class StoreLaws `{FeatureSignalContractStore} := {
  put_ok : forall snap now st st' c, PutSnapshot snap now st = (st', Ok c) ->
    GetSnapshot st' = Ok c /\ same_keys c snap;
  put_revision : forall snap now st st' c old, PutSnapshot snap now st = (st', Ok c) ->
    GetSnapshot st = Ok old -> 0 <= ss_Revision old < 2 ^ 64 - 1 -> ss_Revision snap < 2 ^ 64 ->
    ss_Revision old < ss_Revision c /\ ss_Revision snap <= ss_Revision c;
  put_err : forall snap now st st' e, PutSnapshot snap now st = (st', Err e) ->
    GetSnapshot st' = GetSnapshot st
}.
Arguments StoreLaws : clear implicits.

Lemma memory_laws : StoreLaws InMemoryFeatureSignalContractStore.
Proof.
  split; cbn; unfold memory_put; cbv zeta.
  - intros snap now st st' c E. simplify_eq. split; [done|]. intros k. by repeat case_match.
  - intros snap now st st' c old E Eo H1 H2. simplify_eq.
    assert (Hw : forall x : Snapshot, ss_Revision (if IsZero (ss_GeneratedAt x) then ss_set_GeneratedAt now x else x)
      = ss_Revision x) by (intros x; by case_match).
    rewrite Hw. destruct (Z.leb_spec (ss_Revision snap) (ss_Revision old)); cbn; [|lia].
    rewrite wrap_uint64_id by lia. lia.
  - intros snap now st st' e E. simplify_eq.
Qed.
#[export] Existing Instance memory_laws.

(** ** What a commit does *)

Definition contracts_of (s : Service) : Snapshot := buildContractStoreSnapshotLocked s 0.

Lemma key_of_contracts s now k : key_of (buildContractStoreSnapshotLocked s now) k = key_of (contracts_of s) k.
Proof. done. Qed.

Lemma apply_contracts snap s : same_keys (contracts_of (applyContractStoreSnapshotLocked snap s)) snap.
Proof. intros k. unfold applyContractStoreSnapshotLocked. by case_match. Qed.

Lemma calm_contracts s s' : calm s s' -> same_keys (contracts_of s') (contracts_of s).
Proof.
  intros C k. unfold key_of, contracts_of, buildContractStoreSnapshotLocked; cbn.
  by rewrite (cm_scoped _ _ C), (cm_meta _ _ C), (cm_versions _ _ C), (cm_scheduled _ _ C).
Qed.

Section Commit.
Context `{FeatureSignalContractStore} {HL : StoreLaws _}.

(** What a store holds. *)
Definition stored (st : option store_state) (c : Snapshot) : Prop :=
  exists x, st = Some x /\ GetSnapshot x = Ok c.

Lemma commit_cases snap now s st s' st' err :
  commitContractSnapshotLocked snap now s st = (s', st', err) ->
  (err = None /\ exists c, s' = applyContractStoreSnapshotLocked c s /\ same_keys c snap /\
     (st = None /\ st' = None \/ exists c', stored st' c' /\ same_keys c' snap)) \/
  (err <> None /\ s' = s /\ forall c, stored st' c <-> stored st c).
Proof.
  unfold commitContractSnapshotLocked. cbv zeta.
  set (snap' := if ss_Revision snap =? 0
                then ss_set_Revision (nextStoreRevision (s_storeVersion s)) snap else snap).
  assert (Hs : same_keys snap' snap) by (intros k; unfold snap'; by case_match).
  destruct st as [x|].
  - destruct (PutSnapshot snap' now x) as [x' [c|e]] eqn:E; intros [= <- <- <-].
    + left. split; [done|]. destruct (put_ok _ _ _ _ _ E) as [E1 E2].
      exists (if ss_Revision c =? 0 then ss_set_Revision (ss_Revision snap') c else c).
      split; [done|]. split.
      * intros k. rewrite <- (Hs k), <- (E2 k). by case_match.
      * right. exists c. split; [by exists x'|]. by rewrite E2.
    + right. split; [done|]. split; [done|]. intros c. split; intros (y & Hy & G); simplify_eq.
      * exists x. split; [done|]. by rewrite <- (put_err _ _ _ _ _ E).
      * exists x'. split; [done|]. by rewrite (put_err _ _ _ _ _ E).
  - intros [= <- <- <-]. left. split; [done|]. exists snap'. split; [done|]. split; [done|]. by left.
Qed.
End Commit.

(** ** One call of the control plane on the contracts *)

(** What the calls of the Decision service work on. *)
Record same_decisions (s s' : Service) : Prop := mk_same_decisions {
  sd_cfg : s_cfg s' = s_cfg s;
  sd_decisions : s_decisions s' = s_decisions s;
  sd_history : s_decisionHistory s' = s_decisionHistory s;
  sd_pending : s_pending s' = s_pending s;
  sd_tickets : s_tickets s' = s_tickets s;
  sd_approvals : s_approvals s' = s_approvals s;
  sd_soft : s_softFailures s' = s_softFailures s;
  sd_outbox : outbox_ok s -> outbox_ok s'
}.

#[export] Instance same_decisions_preorder : PreOrder same_decisions.
Proof.
  split; [by split|]. intros s1 s2 s3 [] []. split; try congruence. auto.
Qed.

Lemma calm_same_decisions s s' : calm s s' -> same_decisions s s'.
Proof. intros []. by split. Qed.

Lemma apply_same_decisions snap s : same_decisions s (applyContractStoreSnapshotLocked snap s).
Proof. by split. Qed.

Section Calls.
Context `{JsonMarshaler} `{FeatureSignalContractStore} {HL : StoreLaws _}.

(** A call: the contracts keep their invariant and grow by at most one version
    per key, the store holds what it held or what the service now has, and the
    decisions are untouched. *)
Record ctl_call (s : Service) (st : option store_state) (s' : Service) (st' : option store_state)
    : Prop := mk_ctl_call {
  cc_inv : forall n, CInv (contracts_of s) -> short n (contracts_of s) -> n < max_int64 ->
    CInv (contracts_of s') /\ short (n + 1) (contracts_of s');
  cc_store : forall c, stored st' c -> stored st c \/ same_keys c (contracts_of s');
  cc_none : st = None <-> st' = None;
  cc_decisions : same_decisions s s'
}.

Lemma ctl_call_calm s st s' : calm s s' -> ctl_call s st s' st.
Proof.
  intros C. pose proof (calm_contracts _ _ C) as E. split; [|auto|done|by apply calm_same_decisions].
  intros n HI Hs _. rewrite E. split; [done|]. by apply (short_mono n); [lia|].
Qed.

Lemma ctl_call_then s st s1 st1 s' : ctl_call s st s1 st1 -> calm s1 s' -> ctl_call s st s' st1.
Proof.
  intros [H1 H2 H3 H4] C. pose proof (calm_contracts _ _ C) as E. split.
  - intros n HI Hs Hn. rewrite E. by apply H1.
  - intros c Hc. rewrite E. by apply H2.
  - done.
  - etransitivity; [exact H4|by apply calm_same_decisions].
Qed.

(** Committing a candidate built from the service's own contracts. *)
Lemma commit_call snap wall s st s' st' err :
  commitContractSnapshotLocked snap wall s st = (s', st', err) ->
  (forall n, CInv (contracts_of s) -> short n (contracts_of s) -> n < max_int64 ->
     CInv snap /\ short (n + 1) snap) ->
  ctl_call s st s' st'.
Proof.
  intros E Hc. pose proof E as E0.
  destruct (commit_cases _ _ _ _ _ _ _ E) as [(-> & c & -> & Hk & Hst)|(He & -> & Hst)].
  - pose proof (apply_contracts c s) as Ha. split.
    + intros n HI Hs Hn. rewrite Ha, Hk. by apply Hc.
    + intros c' Hc'. right. rewrite Ha, Hk.
      destruct Hst as [[_ ->]|(c2 & (x & -> & G) & Hk2)]; [by destruct Hc' as (? & ? & _)|].
      destruct Hc' as (y & ? & G'); simplify_eq. by rewrite G in G'; simplify_eq.
    + unfold commitContractSnapshotLocked in E0; cbv zeta in E0. destruct st as [x|]; [|by simplify_eq].
      destruct (PutSnapshot _ _ _) as [? [?|?]]; by simplify_eq.
    + apply apply_same_decisions.
  - split.
    + intros n HI Hs _. split; [done|]. by apply (short_mono n); [lia|].
    + intros c Hc'. left. by apply Hst.
    + unfold commitContractSnapshotLocked in E0; cbv zeta in E0. destruct st as [x|]; [|by simplify_eq].
      destruct (PutSnapshot _ _ _) as [? [?|?]]; by simplify_eq.
    + reflexivity.
Qed.

Lemma publication_of_ok q now : publication_ok (publication_of q now).
Proof. done. Qed.

Lemma short_own f k n snap snap' : own_key f k snap snap' -> short n snap ->
  Z.of_nat (length (ks_history (f (key_of snap k)))) <= n + 1 -> short (n + 1) snap'.
Proof.
  intros Ho Hs Hf i. pose proof (f_equal ks_history (Ho i)) as E. specialize (Hs i).
  change (items (ss_History snap') i) with (ks_history (key_of snap' i)). rewrite E.
  destruct (decide (i = k)) as [->|]; [done|]. cbn. lia.
Qed.

Lemma publish_call s st q now wall :
  ctl_call s st (PublishFeatureSignalContract s st q now wall).1.1
    (PublishFeatureSignalContract s st q now wall).1.2.
Proof.
  assert (Hr : ctl_call s st s st) by (apply ctl_call_calm; by split).
  unfold PublishFeatureSignalContract. destruct (publish_invalid q); [done|]. cbv zeta.
  destruct (check_breaking _ _ _ _); [|done]. case_match; [done|].
  unfold publish_commit; cbv zeta. destruct (check_breaking _ _ _ _); [|done].
  set (p := publication_of q now). set (snap := publish_candidate _ _ _).
  destruct (commitContractSnapshotLocked _ _ _ _) as [[s' st'] err] eqn:E.
  assert (Hc : ctl_call s st s' st').
  { apply (commit_call _ _ _ _ _ _ _ E). intros n HI Hs Hn. split.
    - apply (CInv_publish (buildContractStoreSnapshotLocked s now) p now); [exact HI| |apply publication_of_ok].
      apply (short_mono n); [lia|exact Hs].
    - refine (short_own _ _ n _ _ (publish_candidate_key (buildContractStoreSnapshotLocked s now) p now) Hs _).
      rewrite publish_key_length. pose proof (short_key_of _ _ (pb_storageKey p) Hs) as Hl.
      rewrite key_of_contracts. lia. }
  destruct err; cbn [fst snd]; [done|]. eapply ctl_call_then; [exact Hc|]. auto with dec.
Qed.

Lemma rollback_target_in h version v : rollback_target h version = Ok v -> v ∈ h.
Proof.
  unfold rollback_target, controlErr. case_match.
  - destruct (List.find _ h) eqn:E; [|done]. intros [= <-]. apply find_some in E as [E _].
    by apply list_elem_of_In.
  - destruct (rev h) as [|a [|b l]] eqn:E; [done..|]. intros [= <-].
    apply list_elem_of_In, in_rev. rewrite E. right. by left.
Qed.

Lemma rollback_call s st q now wall :
  ctl_call s st (RollbackFeatureSignalContract s st q now wall).1.1
    (RollbackFeatureSignalContract s st q now wall).1.2.
Proof.
  assert (Hr : ctl_call s st s st) by (apply ctl_call_calm; by split).
  unfold RollbackFeatureSignalContract. destruct (rollback_invalid q); [done|]. cbv zeta.
  set (k := featureSignalContractStorageKey _ _).
  destruct (last (items _ k)) as [current|] eqn:El; [|done].
  destruct (rollback_target _ _) as [target|] eqn:Et; [|done].
  destruct (nextFallbackID _ s) as [s1 rollbackID] eqn:Ef.
  assert (C1 : calm s s1) by (change s1 with (s1, rollbackID).1; rewrite <- Ef; apply nextFallbackID_calm).
  set (applied := applied_version _ _ _ _ _ _ _ _ _). set (record := rollback_record _ _ _ _ _ _ _ _ _).
  destruct (commitContractSnapshotLocked _ _ _ _) as [[s' st'] err] eqn:E.
  assert (Hc : ctl_call s1 st s' st').
  { apply (commit_call _ _ _ _ _ _ _ E). intros n HI Hs Hn. rewrite (calm_contracts _ _ C1) in HI, Hs.
    pose proof (short_key_of _ _ k Hs) as Hl. split.
    - apply (CInv_own _ _ _ _ (rollback_candidate_key (buildContractStoreSnapshotLocked s now) applied target record now) HI).
      intros Hk. apply KInv_rollback; [exact Hk|].
      assert (Hv : next_version (items (ss_History (buildContractStoreSnapshotLocked s now)) k) =
        Z.of_nat (length (ks_history (key_of (buildContractStoreSnapshotLocked s now) k))) + 1)
        by (apply (next_version_length _ _ Hk); cbn in *; lia).
      unfold next_version in Hv. by rewrite El in Hv.
    - refine (short_own _ _ n _ _ (rollback_candidate_key (buildContractStoreSnapshotLocked s now) applied target record now) Hs _).
      unfold rollback_key; cbn. rewrite length_map, length_app. cbn in *. lia. }
  assert (Hc' : ctl_call s st s' st').
  { destruct Hc as [G1 G2 G3 G4]. split; [|done|done|].
    - intros n HI Hs Hn. apply G1; [by rewrite (calm_contracts _ _ C1)..|done].
    - etransitivity; [by apply calm_same_decisions|done]. }
  destruct err; cbn [fst snd]; [done|]. eapply ctl_call_then; [exact Hc'|]. auto with dec.
Qed.

Lemma emit_activated_calm now w l : forall s, calm s (foldl (emit_activated now w) s l).
Proof.
  induction l as [|v l IH]; intros s; simpl; [by split|].
  etransitivity; [apply quiet_calm, emitEvent_quiet|apply IH].
Qed.

Lemma due_length {MR : MapRange} snap now k :
  length (ks_history (key_of (applyDueFeatureSignalContractsSnapshot snap now).1 k)) =
  length (ks_history (key_of snap k)).
Proof. rewrite apply_due_key_of. unfold due_key; cbn. apply activates_length. Qed.

Lemma scheduler_call {MR : MapRange} s st now worker clock wall :
  ctl_call s st (RunFeatureSignalContractSchedulerWithWorker s st now worker clock wall).1.1
    (RunFeatureSignalContractSchedulerWithWorker s st now worker clock wall).1.2.
Proof.
  assert (Hr : ctl_call s st s st) by (apply ctl_call_calm; by split).
  unfold RunFeatureSignalContractSchedulerWithWorker; cbv zeta.
  set (now' := if IsZero now then clock else now).
  pose proof (fun HI => CInv_due (buildContractStoreSnapshotLocked s now') now' HI) as HD.
  pose proof (fun k => due_length (buildContractStoreSnapshotLocked s now') now' k) as HN.
  destruct (applyDueFeatureSignalContractsSnapshot _ _) as [candidate activated]. cbn [fst] in *.
  destruct activated as [|v l]; [done|].
  destruct (commitContractSnapshotLocked _ _ _ _) as [[s' st'] err] eqn:E.
  assert (Hc : ctl_call s st s' st').
  { apply (commit_call _ _ _ _ _ _ _ E). intros n HI Hs Hn. split; [by apply HD|].
    intros k. pose proof (short_key_of _ _ k Hs) as Hl.
    change (items (ss_History (ss_set_Revision (nextStoreRevision (s_storeVersion s)) candidate)) k)
      with (ks_history (key_of candidate k)). rewrite HN, key_of_contracts. lia. }
  destruct err; cbn [fst snd].
  - eapply ctl_call_then; [exact Hc|]. auto with dec.
  - eapply ctl_call_then; [exact Hc|]. apply emit_activated_calm.
Qed.
End Calls.

(** * Services that share a contract store

    [System]: any number of services over one store.  A service joins with
    [NewKernel]; the control plane's calls change its contracts and the store;
    the store sends its content to watchers, who apply it later or never;
    calls of the Decision service leave the contracts alone.  Every service and
    the store keep [CInv] for as long as the version counters last. *)

#[local] Open Scope Z_scope.

(** ** Construction *)

(** The bootstrap records of [NewKernel] keep the required fields only. *)
Definition plain (c : FeatureSignalContract) : Prop :=
  fc_SchemaVersion c = "" /\ fc_TrustedProducerIDs c = [] /\ fc_MaxFreshnessMS c = 0 /\
  fc_MaxDriftScore c = fzero.

Definition plain_config (c : Config) : Prop := map_Forall (fun _ => plain) (dc_FeatureSignalContracts c).

Lemma default_plain : plain defaultContract.
Proof. by split_and!. Qed.

Section Boot.
Context `{JsonMarshaler}.

Definition boot_key (k storageKey : string) (c : FeatureSignalContract) (now : time) (s : key_state)
    : key_state :=
  mk_key_state (Some c) (Some now) [bootstrap_version k storageKey c now] (ks_scheduled s).

Lemma bootstrap_key now snap k c :
  own_key (boot_key k (featureSignalContractStorageKey globalContractScope k) c now)
    (featureSignalContractStorageKey globalContractScope k) snap (bootstrap_contract now snap k c).
Proof.
  intros i. unfold bootstrap_contract; cbv zeta. unfold key_of; cbn. autorewrite with keys.
  destruct (decide (i = _)) as [->|]; by simplify_map_eq.
Qed.

Lemma boot_KInv k storageKey c now s : plain c -> ks_scheduled s = [] ->
  KInv storageKey (boot_key k storageKey c now s).
Proof.
  intros (H1 & H2 & H3 & H4) Hs. destruct c as [f sch tr fr dr]; cbn in *; subst.
  unfold boot_key, bootstrap_version. destruct (splitContractKey k) as [rt ph]. split; cbn.
  - intros [|i] v Hv; by simplify_eq/=.
  - constructor; [|done]. by split_and!.
  - eexists. split; [done|]. done.
  - by rewrite Hs.
Qed.

Lemma empty_KInv k : KInv k (mk_key_state None None [] []).
Proof. by split. Qed.

Lemma boot_fold {MR : MapRange} now m : map_Forall (fun _ => plain) m ->
  let snap := go_range (bootstrap_contract now) no_snapshot m in
  CInv snap /\ short 1 snap /\ forall k, ks_scheduled (key_of snap k) = [].
Proof.
  intros Hm.
  assert (Hg : forall l snap, (forall k c, (k, c) ∈ l -> plain c) ->
    CInv snap /\ short 1 snap /\ (forall k, ks_scheduled (key_of snap k) = []) ->
    let out := foldl (fun s kv => bootstrap_contract now s kv.1 kv.2) snap l in
    CInv out /\ short 1 out /\ (forall k, ks_scheduled (key_of out k) = [])).
  { induction l as [|[k c] l IH]; intros sn Hp (H1 & H2 & H3); [done|]. cbn [foldl fst snd].
    apply IH; [intros k' c' Hin; apply (Hp k'); by right|].
    pose proof (bootstrap_key now sn k c) as Ho. pose proof (Hp k c ltac:(by left)) as Hc. split_and!.
    - apply (CInv_own _ _ _ _ Ho H1). intros _. by apply boot_KInv.
    - intros i. pose proof (f_equal ks_history (Ho i)) as E.
      change (items (ss_History (bootstrap_contract now sn k c)) i) with
        (ks_history (key_of (bootstrap_contract now sn k c) i)). rewrite E.
      destruct (decide _); [change (Z.of_nat 1 <= 1); lia|apply H2].
    - intros i. rewrite (Ho i). destruct (decide _); [apply H3|apply H3]. }
  apply (Hg (range_map m) no_snapshot).
  - intros k c Hin. apply range_map_elem in Hin. by apply (Hm k).
  - split_and!; [intros k; apply empty_KInv|intros k; change (Z.of_nat 0 <= 1); lia|done].
Qed.

Lemma normalize_plain c : plain_config c -> plain_config (normalize_config c).
Proof.
  intros Hc. unfold plain_config; cbn. case_match; [|done].
  apply map_Forall_insert; [done|]. split; [apply default_plain|done].
Qed.

Lemma boot_contracts {MR : MapRange} c now : plain_config c ->
  CInv (contracts_of (boot_kernel c now)) /\ short 1 (contracts_of (boot_kernel c now)).
Proof.
  intros Hc. apply normalize_plain in Hc.
  destruct (boot_fold now _ Hc) as (H1 & H2 & Hs). set (snap := go_range _ _ _) in *.
  assert (E : same_keys (contracts_of (boot_kernel c now)) (ss_set_Scheduled ∅ snap)) by done.
  rewrite E. split; [|exact H2]. intros k. pose proof (H1 k) as [G1 G2 G3 G4].
  split; try done. cbn. rewrite <- G4. by rewrite Hs.
Qed.
End Boot.

(** ** The system *)

Section System.
Context `{JsonMarshaler} `{FeatureSignalContractStore} {HL : StoreLaws _}.

Record System := mk_System {
  sy_services : list Service;
  sy_store : store_state;
  sy_log : list Snapshot
}.

(** What a service that joins may be configured with: anything when the store
    already holds a revision, which replaces what it was configured with; else,
    as its configuration becomes the content of the store, contracts that give
    required fields only. *)
Definition joinable (cfg : Config) (st : store_state) : Prop :=
  (exists c, GetSnapshot st = Ok c /\ 0 < ss_Revision c) \/ plain_config cfg.

(** Service [i] and the store after a call. *)
Definition after_call (sys : System) (i : nat) (s : Service) (st : option store_state) : System :=
  mk_System (<[i := s]> (sy_services sys)) (default (sy_store sys) st) (sy_log sys).

Inductive sys_step : System -> System -> Prop :=
| sys_join MR sys cfg now s st :
    joinable cfg (sy_store sys) -> NewKernel (H := MR) cfg now (sy_store sys) = (s, Some st) ->
    sys_step sys (mk_System (sy_services sys ++ [s]) st (sy_log sys))
| sys_publish sys i s q now wall :
    sy_services sys !! i = Some s ->
    let out := PublishFeatureSignalContract s (Some (sy_store sys)) q now wall in
    sys_step sys (after_call sys i out.1.1 out.1.2)
| sys_rollback sys i s q now wall :
    sy_services sys !! i = Some s ->
    let out := RollbackFeatureSignalContract s (Some (sy_store sys)) q now wall in
    sys_step sys (after_call sys i out.1.1 out.1.2)
| sys_schedule MR sys i s now worker clock wall :
    sy_services sys !! i = Some s ->
    let out := RunFeatureSignalContractSchedulerWithWorker (H := MR) s (Some (sy_store sys)) now worker
                 clock wall in
    sys_step sys (after_call sys i out.1.1 out.1.2)
| sys_send sys c :
    GetSnapshot (sy_store sys) = Ok c ->
    sys_step sys (mk_System (sy_services sys) (sy_store sys) (sy_log sys ++ [c]))
| sys_watch sys i s c :
    sy_services sys !! i = Some s -> c ∈ sy_log sys ->
    sys_step sys (after_call sys i (watch_snapshot c s) None)
| sys_sync sys i s :
    sy_services sys !! i = Some s ->
    sys_step sys (after_call sys i (syncContractCacheFromStoreLocked s (Some (sy_store sys))).1 None)
| sys_decision MR sys i s (Env : Type) (c : call Env) (env : Env) :
    sy_services sys !! i = Some s -> is_refresh c = false ->
    sys_step sys (after_call sys i (exec (MR := MR) c (s, env)).1 None).

(** A new store, no service yet. *)
Definition sys_init (st : store_state) : System := mk_System [] st [].

Record SysInv (n : Z) (sys : System) : Prop := mk_SysInv {
  sy_inv_services : Forall (fun s => CInv (contracts_of s) /\ short n (contracts_of s)) (sy_services sys);
  sy_inv_store : forall c, GetSnapshot (sy_store sys) = Ok c -> CInv c /\ short n c;
  sy_inv_log : Forall (fun c => CInv c /\ short n c) (sy_log sys)
}.

Lemma SysInv_mono m n sys : m <= n -> SysInv m sys -> SysInv n sys.
Proof.
  intros Hmn [H1 H2 H3]. split.
  - eapply Forall_impl; [exact H1|]. intros s [? ?]. split; [done|]. by eapply short_mono.
  - intros c Hc. destruct (H2 c Hc). split; [done|]. by eapply short_mono.
  - eapply Forall_impl; [exact H3|]. intros s [? ?]. split; [done|]. by eapply short_mono.
Qed.

Lemma SysInv_service n sys i s : SysInv n sys -> sy_services sys !! i = Some s ->
  CInv (contracts_of s) /\ short n (contracts_of s).
Proof. intros [H1 _ _] Hi. by apply (Forall_lookup_1 _ _ _ _ H1 Hi). Qed.

(** A call of the control plane. *)
Lemma SysInv_call n sys i s s' st' : SysInv n sys -> n < max_int64 ->
  sy_services sys !! i = Some s -> ctl_call s (Some (sy_store sys)) s' st' ->
  SysInv (n + 1) (after_call sys i s' st').
Proof.
  intros HI Hn Hi [C1 C2 C3 _]. destruct (SysInv_service _ _ _ _ HI Hi) as [Hc Hs].
  destruct (C1 n Hc Hs Hn) as [Hc' Hs']. apply (SysInv_mono n (n + 1)) in HI as [H1 H2 H3]; [|lia].
  split; cbn; [|intros c Hg|done].
  - by apply Forall_insert.
  - destruct st' as [x|]; [|by apply H2]. cbn in Hg. destruct (C2 c) as [(y & Hy & G)|E]; [by exists x| |].
    + simplify_eq. by apply H2.
    + by rewrite E.
Qed.

(** A step that leaves the store alone. *)
Lemma SysInv_local n sys i s' : SysInv n sys -> CInv (contracts_of s') /\ short n (contracts_of s') ->
  SysInv (n + 1) (after_call sys i s' None).
Proof.
  intros HI Hs. apply (SysInv_mono n); [lia|]. destruct HI as [H1 H2 H3]. split; cbn; [|done|done].
  by apply Forall_insert.
Qed.

Lemma steady_contracts s s' : steady s s' -> same_keys (contracts_of s') (contracts_of s).
Proof.
  intros C k. unfold key_of, contracts_of, buildContractStoreSnapshotLocked; cbn.
  by rewrite (st_scoped _ _ C), (st_meta _ _ C), (st_versions _ _ C), (st_scheduled _ _ C).
Qed.

Lemma join_inv {MR : MapRange} n cfg now st s st' : 1 <= n ->
  (forall c, GetSnapshot st = Ok c -> CInv c /\ short n c) -> joinable cfg st ->
  NewKernel cfg now st = (s, st') ->
  (CInv (contracts_of s) /\ short n (contracts_of s)) /\
  (forall c, stored st' c -> CInv c /\ short n c).
Proof.
  intros Hn Hst [(c0 & G0 & Hr0)|Hcfg].
  { unfold NewKernel; cbv zeta. rewrite G0, (proj2 (Z.ltb_lt _ _) Hr0). intros [= <- <-]. split.
    - rewrite (apply_contracts c0). by apply Hst.
    - intros c (y & ? & G'). simplify_eq. rewrite G0 in G'. simplify_eq. by apply Hst. }
  destruct (boot_contracts cfg now Hcfg) as [B1 B2].
  apply (short_mono 1 n) in B2; [|done]. unfold NewKernel; cbv zeta.
  assert (Hpub : forall s st', (publishContractSnapshotLocked now (boot_kernel cfg now) (Some st)).1 = (s, st') ->
    (CInv (contracts_of s) /\ short n (contracts_of s)) /\ (forall c, stored st' c -> CInv c /\ short n c)).
  { intros s0 st0 E0. unfold publishContractSnapshotLocked in E0; cbv zeta in E0.
    destruct (commitContractSnapshotLocked _ _ _ _) as [[s1 st1] err] eqn:E. cbn [fst] in E0. simplify_eq.
    match type of E with commitContractSnapshotLocked ?x _ _ _ = _ => set (snap := x) in E end.
    assert (Hk : same_keys snap (contracts_of (boot_kernel cfg now))) by (intros k; subst snap; by case_match).
    destruct (commit_cases _ _ _ _ _ _ _ E) as [(-> & c & -> & Hc & Hs)|(_ & -> & Hs)].
    - split; [by rewrite (apply_contracts c), Hc, Hk|]. intros c' (y & -> & G).
      destruct Hs as [[? _]|(c2 & (x & ? & G2) & Hc2)]; [done|]. simplify_eq. rewrite G in G2. simplify_eq.
      by rewrite Hc2, Hk.
    - split; [done|]. intros c Hc. apply Hs in Hc as (y & ? & G). simplify_eq. by apply Hst. }
  destruct (GetSnapshot st) as [snap|] eqn:G; [|apply Hpub].
  destruct (0 <? ss_Revision snap); [|apply Hpub]. intros [= <- <-]. split.
  - rewrite (apply_contracts snap). by apply Hst.
  - intros c (y & ? & G'). simplify_eq. rewrite G in G'. simplify_eq. by apply Hst.
Qed.

Lemma sys_step_inv n sys sys' : 1 <= n -> n < max_int64 -> sys_step sys sys' -> SysInv n sys ->
  SysInv (n + 1) sys'.
Proof.
  intros Hn1 Hn Hs HI.
  destruct Hs as [MR sys cfg now s st Hcfg Hk|sys i s q now wall Hi out|sys i s q now wall Hi out
    |MR sys i s now worker clock wall Hi out|sys c Hg|sys i s c Hi Hc|sys i s Hi|MR sys i s Env c env Hi Hr].
  - destruct (join_inv n _ _ _ _ _ Hn1 (sy_inv_store _ _ HI) Hcfg Hk) as [G1 G2].
    apply (SysInv_mono n); [lia|]. destruct HI as [I1 I2 I3]. split; cbn; [|intros c Hc|done].
    + apply Forall_app. split; [done|]. by constructor.
    + apply G2. by exists st.
  - eapply SysInv_call; [done|done|done|]. apply publish_call.
  - eapply SysInv_call; [done|done|done|]. apply rollback_call.
  - eapply SysInv_call; [done|done|done|]. apply scheduler_call.
  - apply (SysInv_mono n); [lia|]. destruct HI as [I1 I2 I3]. split; cbn; [done|done|].
    apply Forall_app. split; [done|]. constructor; [by apply I2|done].
  - apply SysInv_local; [done|]. unfold watch_snapshot. case_match.
    + rewrite (apply_contracts c). by apply (proj1 (Forall_forall _ _) (sy_inv_log _ _ HI)).
    + by eapply SysInv_service.
  - apply SysInv_local; [done|]. cbn. destruct (GetSnapshot (sy_store sys)) as [c|] eqn:G; cbn [fst];
      [case_match|]; cbn [fst]; try by eapply SysInv_service.
    rewrite (apply_contracts c). by apply (sy_inv_store _ _ HI).
  - apply SysInv_local; [done|]. rewrite (steady_contracts s); [by eapply SysInv_service|].
    by apply (exec_steady c (s, env)).
Qed.

(** [n] steps from a new store. *)
Inductive sys_run (st : store_state) : Z -> System -> Prop :=
| sys_run_init : sys_run st 0 (sys_init st)
| sys_run_step n sys sys' : sys_run st n sys -> sys_step sys sys' -> sys_run st (n + 1) sys'.

Lemma sys_run_inv st n sys : (forall c, GetSnapshot st = Ok c -> CInv c /\ short 1 c) ->
  sys_run st n sys -> n < max_int64 - 1 -> 0 <= n /\ SysInv (n + 1) sys.
Proof.
  intros Hst. induction 1 as [|n sys sys' _ IH Hs]; intros Hn.
  - split; [lia|]. split; cbn; [done|exact Hst|done].
  - destruct IH as [IH1 IH2]; [lia|]. split; [lia|].
    apply (sys_step_inv (n + 1) sys sys'); [lia..|done|done].
Qed.
End System.
