(* ===== verification/CtlExamples.v ===== *)
(** * A concrete history of the control plane

    A service boots over an empty store, publishes two contracts for one key,
    then a third one for later; the states of the witnesses.  Then what the
    control plane does not promise, evaluated: a stale service overwrites what
    another one published; a rollback activates what was only scheduled; a
    validation accepts what the publication refuses; a storage key that is not
    parsed back. *)

From S2P Require Import Prelude GoStrings Sha256 GoTime GoJson DecTypes DecJson DecPolicy.
From S2P Require Import DecContracts DecKernel DecFrame DecExamples CtlTypes CtlContracts.
From S2P Require Import CtlInvariant CtlStore.
#[local] Open Scope Z_scope.

Definition ctl_boot : Service * option store_state := Eval vm_compute in
  NewKernel (H := canonical_range) dec_cfg dec_t0 no_snapshot.
Definition k0 : Service := Eval vm_compute in ctl_boot.1.
Definition st0 : option store_state := Eval vm_compute in ctl_boot.2.

(** What the store holds after the boot. *)
Definition x0 : Snapshot := Eval vm_compute in default no_snapshot st0.

Definition ctl_scope : ScopeRef := mk_ScopeRef "Org" "ws" "".

(** A publication for low risk before a tool call. *)
Definition ctl_publish (fields : list string) (at_ : time) : FeatureSignalContractPublishRequest :=
  mk_FeatureSignalContractPublishRequest "Low" "pre_tool" fields "v1" ["prod"] 1000 fzero "tighten"
    "alice" ctl_scope false false at_.

Definition q1 := ctl_publish ["feature_version"] 0.
Definition q2 := ctl_publish ["feature_version"; "feature_producer_id"] 0.
Definition q3 := ctl_publish ["feature_version"; "feature_producer_id"] (dec_t0 + 60 * Second).
Definition rq2 : FeatureSignalContractRollbackRequest :=
  mk_FeatureSignalContractRollbackRequest "low" "PRE_TOOL" 0 "regression" "bob" ctl_scope.

Definition t1 : time := dec_t0 + 1 * Second.
Definition t2 : time := dec_t0 + 2 * Second.
Definition t3 : time := dec_t0 + 3 * Second.

Definition p1 := Eval vm_compute in PublishFeatureSignalContract k0 st0 q1 t1 t1.
Definition k1 : Service := Eval vm_compute in p1.1.1.
Definition st1 : option store_state := Eval vm_compute in p1.1.2.
Definition p2 := Eval vm_compute in PublishFeatureSignalContract k1 st1 q2 t2 t2.
Definition k2 : Service := Eval vm_compute in p2.1.1.
Definition st2 : option store_state := Eval vm_compute in p2.1.2.
Definition b2 := Eval vm_compute in RollbackFeatureSignalContract k2 st2 rq2 t3 t3.
Definition p3 := Eval vm_compute in PublishFeatureSignalContract k1 st1 q3 t2 t2.
Definition k3 : Service := Eval vm_compute in p3.1.1.
Definition st3 : option store_state := Eval vm_compute in p3.1.2.

(** A decision request under the published contract. *)
Definition ctl_q : RuntimeDecisionRequest := {|
  q_RequestID := "req-9"; q_TraceID := ""; q_TenantID := "tenant"; q_WorkflowID := "wf";
  q_RunID := "run-9"; q_StepID := "step-1"; q_RiskTier := "low"; q_EffectType := "write";
  q_DecisionGraphID := ""; q_ParentDecisionNodeIDs := []; q_ApprovalSystemAvailable := true;
  q_Freeze := mk_FreezeLayer dec_frozen []; q_Phase := ""; q_PolicyEngineAvailable := None;
  q_EvidenceFingerprint := ""; q_AttemptIndex := 1; q_DCUInput := mk_DCUInput 1 1 0 0;
  q_FeatureVersion := "v1"; q_FeatureSchemaVersion := "V1"; q_FeatureEvidenceRef := "";
  q_FeatureProducerID := "prod"; q_FeatureFreshnessMS := 900; q_FeatureTTLMS := 0;
  q_FeatureDriftScore := fzero; q_FeatureContractScope := mk_ScopeRef "org" "ws" "";
  q_FeatureContractHashPin := "" |}.

Lemma k0_inv : CInv (contracts_of k0) /\ short 1 (contracts_of k0).
Proof.
  refine (proj1 (join_inv (MR := canonical_range) 1 dec_cfg dec_t0 no_snapshot k0 st0 ltac:(lia) _ _ _)).
  - intros c E. change (@Ok string Snapshot no_snapshot = Ok c) in E. injection E as <-. split; [intros k; apply empty_KInv|intros k; change (Z.of_nat 0 <= 1); lia].
  - right. apply map_Forall_empty.
  - vm_compute. reflexivity.
Qed.

Lemma publish_inv n s st q now wall s' st' : CInv (contracts_of s) /\ short n (contracts_of s) ->
  n < max_int64 -> (PublishFeatureSignalContract s st q now wall).1 = (s', st') ->
  CInv (contracts_of s') /\ short (n + 1) (contracts_of s').
Proof.
  intros [HI Hs] Hn E. pose proof (publish_call s st q now wall) as C. rewrite E in C. by apply (cc_inv _ _ _ _ C).
Qed.

Lemma k1_inv : CInv (contracts_of k1) /\ short 2 (contracts_of k1).
Proof. apply (publish_inv 1 k0 st0 q1 t1 t1 k1 st1 k0_inv); [done|]. vm_compute. reflexivity. Qed.
Lemma k2_inv : CInv (contracts_of k2) /\ short 3 (contracts_of k2).
Proof. apply (publish_inv 2 k1 st1 q2 t2 t2 k2 st2 k1_inv); [done|]. vm_compute. reflexivity. Qed.
Lemma k3_inv : CInv (contracts_of k3) /\ short 3 (contracts_of k3).
Proof. apply (publish_inv 2 k1 st1 q3 t2 t2 k3 st3 k1_inv); [done|]. vm_compute. reflexivity. Qed.

(** ** What is not promised *)

Definition low_key : string := "org|ws|*::low|PRE_TOOL".
Definition high_key : string := "org|ws|*::high|PRE_TOOL".

(** A publication for another key. *)
Definition q_high : FeatureSignalContractPublishRequest :=
  mk_FeatureSignalContractPublishRequest "high" "PRE_TOOL" ["feature_version"] "" [] 0 fzero "new"
    "bob" ctl_scope false false 0.

(** Two services boot over one store; the second publishes before it has seen
    what the first published: the store takes its snapshot as a whole, whatever
    its revision, and the first contract is gone from the store. *)
Example lost_update :
  let out := PublishFeatureSignalContract k0 st1 q_high t2 t2 in
  (match out.2 with Ok _ => true | Err _ => false end) = true /\
  is_Some (st1 ≫= fun c => ss_Active c !! low_key) /\
  (out.1.2 ≫= fun c => ss_Active c !! low_key) = None /\
  is_Some (out.1.2 ≫= fun c => ss_Active c !! high_key).
Proof. vm_compute. repeat split; by eexists. Qed.

(** A version scheduled for later, a contract published at once, then a rollback
    without a target: the version "before the last" is the scheduled one, which
    becomes active a minute before its time and stays scheduled. *)
Definition p4 := Eval vm_compute in PublishFeatureSignalContract k3 st3 q2 t3 t3.
Definition b4 := Eval vm_compute in RollbackFeatureSignalContract p4.1.1 p4.1.2 rq2 t3 t3.

Example rollback_before_its_time :
  (match b4.2 with Ok r => frr_TargetVersion r | Err _ => 0 end) = 2 /\
  (fv_Version <$> items (s_featureSignalContractScheduled b4.1.1) low_key) = [2] /\
  (fv_ActivationAt <$> items (s_featureSignalContractScheduled b4.1.1) low_key) = [dec_t0 + 60 * Second] /\
  option_map fv_Version (activeFeatureSignalContractVersionLocked b4.1.1 low_key) = Some 4.
Proof. vm_compute. done. Qed.

(** Identifiers that contain the separators: the key is parsed back as another
    scope, in lower case. *)
Example storage_key_not_parsed_back :
  let scope := mk_ScopeRef "Org" "a|b" "p" in
  parseFeatureSignalContractStorageKey (featureSignalContractStorageKey scope "low|PRE_TOOL") =
    (mk_ScopeRef "org" "a" "b|p", "low|PRE_TOOL").
Proof. vm_compute. reflexivity. Qed.

(** The dry validation and the publication agree but for one check: a
    publication passes its checks exactly when the validation calls the request
    valid and the risk tier is a known one.  (An unknown risk tier is valid for
    the validation.) *)
Theorem validate_agrees (q : FeatureSignalContractPublishRequest) :
  publish_invalid q = None <->
  vr_Valid (ValidateFeatureSignalContract q) = true /\ one_of (normalizeRiskTier (pq_RiskTier q)) contract_risks = true.
Proof.
  unfold publish_invalid, ValidateFeatureSignalContract; cbv zeta. cbn [vr_Valid].
  destruct (normalizeRiskTier (pq_RiskTier q) =? "")%string eqn:Er.
  { apply String.eqb_eq in Er. rewrite Er. split; [done|]. by intros [_ ?]. }
  destruct (one_of _ contract_risks) eqn:Ek; cbn [negb]; [|split; [done|by intros [_ ?]]].
  destruct (bad_phase _); [split; [done|by intros [? _]]|].
  destruct (validateFeatureSignalContractRequiredFields _); [split; [done|by intros [? _]]|].
  destruct (pq_MaxFreshnessMS q <? 0); [split; [done|]|].
  { destruct (blank (pq_Reason q)); by intros [? _]. }
  destruct (fltb (pq_MaxDriftScore q) fzero); [split; [done|]|].
  { destruct (blank (pq_Reason q)); by intros [? _]. }
  destruct (blank (pq_Reason q)); [split; [done|by intros [? _]]|]. by split.
Qed.

Example validate_unknown_risk :
  let q := mk_FeatureSignalContractPublishRequest "extreme" "" ["feature_version"] "" [] 0 fzero "r" "" ctl_scope
             false false 0 in
  vr_Valid (ValidateFeatureSignalContract q) = true /\ publish_invalid q <> None.
Proof. vm_compute. done. Qed.
