(* ===== verification/CtlContractTheorems.v ===== *)
(** * Theorems about the feature signal contracts

    The invariant of services that share a store; what a publication, a
    rollback and a run of the scheduler do; that an evaluation uses what was
    published last; and what the code does not promise. *)

From stdpp Require Import relations.
From S2P Require Import Prelude GoStrings Sha256 GoTime GoJson DecTypes DecJson DecPolicy.
From S2P Require Import DecContracts DecKernel DecFrame DecTrace DecSteady DecExamples CtlTypes.
From S2P Require Import CtlContracts CtlInvariant CtlStore CtlExamples.
#[local] Open Scope Z_scope.

Section Effects.
Context `{JsonMarshaler} `{FeatureSignalContractStore} {HL : StoreLaws _}.

(** A change of [s] and its store to [snap], the other way around a failed
    commit. *)
Definition committed (snap : Snapshot) (s' : Service) (st' : option store_state) : Prop :=
  same_keys (contracts_of s') snap /\ (st' = None \/ exists c, stored st' c /\ same_keys c snap).

Lemma commit_ok snap now s st s' st' :
  commitContractSnapshotLocked snap now s st = (s', st', None) -> committed snap s' st'.
Proof.
  intros E. destruct (commit_cases _ _ _ _ _ _ _ E) as [(_ & c & -> & Hc & Hs)|(? & _)]; [|done]. split.
  - by rewrite (apply_contracts c).
  - destruct Hs as [[_ ->]|(c2 & ? & ?)]; [by left|]. right. by exists c2.
Qed.

Lemma commit_failed snap now s st s' st' e :
  commitContractSnapshotLocked snap now s st = (s', st', Some e) -> s' = s /\ forall c, stored st' c <-> stored st c.
Proof. intros E. by destruct (commit_cases _ _ _ _ _ _ _ E) as [(? & _)|(_ & ? & ?)]. Qed.

Lemma committed_calm snap s s' st : committed snap s st -> calm s s' -> committed snap s' st.
Proof. intros [H1 H2] C. split; [by rewrite (calm_contracts _ _ C)|done]. Qed.

(** The compatibility rule of a publication. *)
Definition compatible (current : option FeatureSignalContract) (next : FeatureSignalContract) (allow : bool)
    : Prop :=
  allow = true \/ forall c, current = Some c ->
    (forall f, f ∈ normalizeRequiredFields (fc_RequiredFields c) ->
       f ∈ normalizeRequiredFields (fc_RequiredFields next)) /\
    isSchemaBreakingChange (fc_SchemaVersion c) (fc_SchemaVersion next) = false.

Lemma removed_nil previous next : removedRequiredFields previous next = [] <->
  forall f, f ∈ normalizeRequiredFields previous -> f ∈ normalizeRequiredFields next.
Proof.
  unfold removedRequiredFields, sort_Strings. split.
  - intros E f Hf. destruct (one_of f (normalizeRequiredFields next)) eqn:Ef.
    { apply one_of_In in Ef. by apply list_elem_of_In. }
    assert (f ∈ merge_sort String.le (List.filter (fun f => negb (one_of f (normalizeRequiredFields next)))
      (normalizeRequiredFields previous))) as Hin.
    { rewrite merge_sort_Permutation. apply list_elem_of_In, filter_In. rewrite Ef.
      split; [by apply list_elem_of_In|done]. }
    rewrite E in Hin. by apply not_elem_of_nil in Hin.
  - intros Hf. rewrite filter_none; [done|]. intros f Hin. apply Hf in Hin. apply negb_false_iff, one_of_In.
    by apply list_elem_of_In.
Qed.

Lemma check_breaking_iff current next allow w :
  (exists r, check_breaking current next allow w = Ok r) <-> compatible current next allow.
Proof.
  unfold check_breaking, compatible. destruct current as [c|]; [|split; eauto; by right].
  cbv zeta. pose proof (removed_nil (fc_RequiredFields c) (fc_RequiredFields next)) as Hr.
  destruct allow; rewrite ?andb_false_r, ?andb_true_r; cbn [negb].
  { split; [by left|]. eauto. }
  rewrite ?andb_true_r. destruct (removedRequiredFields _ _) as [|f l] eqn:E; cbn [empty_list negb].
  - destruct (isSchemaBreakingChange _ _) eqn:Es.
    + split; [by intros [? ?]|]. intros [?|Hc]; [done|]. destruct (Hc c eq_refl) as [_ ?]. congruence.
    + split; [|eauto]. intros _. right. intros c' [= <-]. split; [by apply Hr|done].
  - split; [by intros [? ?]|]. intros [?|Hc]; [done|]. destruct (Hc c eq_refl) as [Hf _].
    apply Hr in Hf. discriminate.
Qed.

(** What a call of the publication does, on every branch. *)
Record published (s : Service) (st : option store_state) (q : FeatureSignalContractPublishRequest)
    (now : time) (s' : Service) (st' : option store_state) (view : FeatureSignalContractView) : Prop :=
  mk_published {
  pu_valid : publish_invalid q = None;
  pu_compatible : compatible (s_featureSignalContractsScoped s !! pb_storageKey (publication_of q now))
                    (pb_contract (publication_of q now)) (pq_AllowBreakingChange q);
  pu_view : view = publish_view (publication_of q now)
              (next_version (items (s_featureSignalContractHistory s) (pb_storageKey (publication_of q now)))) now;
  pu_effect : if pq_DryRun q then s' = s /\ st' = st
              else own_key (publish_key (publication_of q now) now) (pb_storageKey (publication_of q now))
                     (contracts_of s) (contracts_of s') /\
                   (st' = None \/ exists c, stored st' c /\ same_keys c (contracts_of s'))
}.

Lemma publish_outcome s st q now wall :
  let out := PublishFeatureSignalContract s st q now wall in
  match out.2 with
  | Ok view => published s st q now out.1.1 out.1.2 view
  | Err e => out.1.1 = s /\ (forall c, stored out.1.2 c <-> stored st c)
  end.
Proof.
  cbv zeta. unfold PublishFeatureSignalContract. destruct (publish_invalid q) eqn:Ev; [done|]. cbv zeta.
  set (p := publication_of q now).
  destruct (check_breaking _ _ _ "compatible") as [compat|] eqn:Ec; [|done].
  pose proof (proj1 (check_breaking_iff _ _ _ _) (ex_intro _ _ Ec)) as Hc.
  destruct (pq_DryRun q) eqn:Ed.
  { cbn [fst snd]. split; [done|exact Hc|done|by rewrite Ed]. }
  unfold publish_commit; cbv zeta.
  destruct (check_breaking _ _ _ compat) as [compat'|] eqn:Ec2.
  2:{ exfalso. change (ss_Active (buildContractStoreSnapshotLocked s now)) with
        (s_featureSignalContractsScoped s) in Ec2.
      apply (check_breaking_iff _ _ _ compat) in Hc as [? ?]. congruence. }
  destruct (commitContractSnapshotLocked _ _ _ _) as [[s1 st1] err] eqn:E. destruct err as [e|]; cbn [fst snd].
  { by apply commit_failed in E. }
  apply commit_ok in E.
  match goal with |- published _ _ _ _ (emitEvent ?a ?b ?c ?d ?k ?n ?s) _ _ =>
    pose proof (emitEvent_quiet a b c d k n s) as Q; set (s2 := emitEvent a b c d k n s) in * end.
  apply quiet_calm in Q. pose proof (committed_calm _ _ _ _ E Q) as [E1 E2].
  split; [done|exact Hc|done|]. rewrite Ed. split.
  - intros k. rewrite (E1 k). apply (publish_candidate_key (buildContractStoreSnapshotLocked s now) p now).
  - destruct E2 as [->|(c & ? & Hk)]; [by left|]. right. exists c. split; [done|]. by rewrite E1.
Qed.
End Effects.

(** C30: a publication is refused with nothing changed, or answered with the
    next version of its key.  Answered means: the request is valid and, unless
    breaking changes are allowed, drops no required field and keeps the schema's
    major version.  A dry run then changes nothing and answers the same.
    Otherwise the store holds the same contracts as the service, other keys are
    untouched, and the key gained one version: active at once, replacing the
    active contract and superseding its version, or scheduled for later and
    leaving the active contract alone. *)
Theorem publish_effect `{JsonMarshaler} `{FeatureSignalContractStore} {HL : StoreLaws _}
    (s : Service) (st : option store_state) (q : FeatureSignalContractPublishRequest) (now wall : time) :
  CInv (contracts_of s) -> short (max_int64 - 1) (contracts_of s) ->
  let out := PublishFeatureSignalContract s st q now wall in
  let p := publication_of q now in
  let k := pb_storageKey p in
  let history := items (s_featureSignalContractHistory s) k in
  let n := Z.of_nat (length history) + 1 in
  match out.2 with
  | Err _ => out.1.1 = s /\ (forall c, stored out.1.2 c <-> stored st c)
  | Ok view =>
    publish_invalid q = None /\
    compatible (s_featureSignalContractsScoped s !! k) (pb_contract p) (pq_AllowBreakingChange q) /\
    view = publish_view p n now /\
    if pq_DryRun q then out.1 = (s, st)
    else
      CInv (contracts_of out.1.1) /\
      (out.1.2 = None \/ exists c, stored out.1.2 c /\ same_keys c (contracts_of out.1.1)) /\
      (forall i, i <> k -> key_of (contracts_of out.1.1) i = key_of (contracts_of s) i) /\
      items (s_featureSignalContractHistory out.1.1) k =
        (if After (pb_activationAt p) now then history ++ [version_record p n now]
         else map (activate_version n now) (history ++ [version_record p n now])) /\
      s_featureSignalContractsScoped out.1.1 !! k =
        (if After (pb_activationAt p) now then s_featureSignalContractsScoped s !! k
         else Some (pb_contract p)) /\
      items (s_featureSignalContractScheduled out.1.1) k =
        items (s_featureSignalContractScheduled s) k ++
        (if After (pb_activationAt p) now then [version_record p n now] else [])
  end.
Proof.
  intros HI Hs. cbv zeta. pose proof (publish_outcome s st q now wall) as Ho. cbv zeta in Ho.
  pose proof (publish_call s st q now wall) as Hcall.
  destruct (PublishFeatureSignalContract s st q now wall) as [[s' st'] [view|e]]; cbn [fst snd] in *; [|done].
  set (p := publication_of q now) in *.
  assert (Hn : next_version (items (s_featureSignalContractHistory s) (pb_storageKey p)) =
    Z.of_nat (length (items (s_featureSignalContractHistory s) (pb_storageKey p))) + 1).
  { apply (next_version_length (pb_storageKey p) (key_of (contracts_of s) (pb_storageKey p)) (HI _)).
    specialize (Hs (pb_storageKey p)). cbn in *. lia. }
  destruct Ho as [O1 O2 O3 O4]. fold p in O2, O3, O4. split_and!; [done|done|by rewrite O3, Hn|].
  destruct (pq_DryRun q); [by destruct O4 as [-> ->]|]. destruct O4 as [Ho Hst]. split_and!; [|done| |..].
  - by apply (cc_inv _ _ _ _ Hcall (max_int64 - 1) HI Hs).
  - intros i Hi. rewrite (Ho i). by rewrite decide_False.
  - pose proof (Ho (pb_storageKey p)) as E. rewrite decide_True in E by done.
    apply (f_equal ks_history) in E. unfold publish_key in E; cbv zeta in E. cbn [ks_history key_of] in E.
    change (ss_History (contracts_of s')) with (s_featureSignalContractHistory s') in E.
    change (ss_History (contracts_of s)) with (s_featureSignalContractHistory s) in E.
    rewrite E, Hn. by case_match.
  - pose proof (Ho (pb_storageKey p)) as E. rewrite decide_True in E by done.
    apply (f_equal ks_active) in E. unfold publish_key in E; cbv zeta in E. cbn [ks_active key_of] in E.
    change (ss_Active (contracts_of s')) with (s_featureSignalContractsScoped s') in E.
    rewrite E. by case_match.
  - pose proof (Ho (pb_storageKey p)) as E. rewrite decide_True in E by done.
    apply (f_equal ks_scheduled) in E. unfold publish_key in E; cbv zeta in E. cbn [ks_scheduled key_of ks_history] in E.
    change (ss_Scheduled (contracts_of s')) with (s_featureSignalContractScheduled s') in E.
    change (ss_History (contracts_of s)) with (s_featureSignalContractHistory s) in E.
    rewrite E, Hn. case_match; [done|]. by rewrite app_nil_r.
Qed.

Lemma publish_effect_witness :
  let out := PublishFeatureSignalContract k1 st1 q2 t2 t2 in
  match out.2 with
  | Ok view => vw_Version view = 2 /\ CInv (contracts_of out.1.1)
  | Err _ => False
  end.
Proof.
  destruct k1_inv as [HI Hs].
  pose proof (publish_effect k1 st1 q2 t2 t2 HI (short_mono 2 (max_int64 - 1) _ ltac:(done) Hs)) as E.
  cbv zeta in *. assert (Ho : exists view, (PublishFeatureSignalContract k1 st1 q2 t2 t2).2 = Ok view)
    by (vm_compute; by eexists).
  destruct Ho as [view Ho]. rewrite Ho in *. destruct E as (_ & _ & -> & E & _).
  split; [vm_compute; reflexivity|exact E].
Defined.

(** ** Rollback *)

Lemma rev_map_last {A B} (f : A -> B) l x : last l = Some x -> exists r, rev (map f l) = f x :: r.
Proof.
  intros Hl. apply last_Some in Hl as [l' ->]. rewrite map_app, rev_app_distr. by eexists.
Qed.

(** The active version of a key is the only record called active. *)
Lemma active_is `{JsonMarshaler} k s v : Forall (record_ok k) (ks_history s) ->
  List.filter active_status (ks_history s) = [v] -> last_active (ks_history s) = Some v.
Proof.
  unfold last_active. intros Hr Hf.
  assert (Hv : forall x, x ∈ ks_history s -> version_active x = active_status x).
  { intros x Hx. pose proof (record_status k _ _ Hr Hx) as Hs. apply one_of_In in Hs.
    unfold version_active, active_status. destruct x as [? ? ? ? ? ? ? ? ? ? ? ? st ? ? ? ?]; cbn in *.
    by destruct Hs as [<-|[<-|[<-|[]]]]. }
  clear Hr. revert Hv Hf. generalize (ks_history s). intros l. induction l as [|x l IH] using rev_ind; [done|].
  intros Hv Hf. rewrite rev_app_distr. cbn [rev app List.find]. rewrite Hv by (set_solver by auto).
  rewrite List.filter_app in Hf. cbn [List.filter] in Hf. destruct (active_status x).
  - destruct (List.filter active_status l) as [|? []]; by simplify_eq/=.
  - rewrite app_nil_r in Hf. apply IH; [|done]. intros y Hy. apply Hv. set_solver.
Qed.

(** The contract of a record called active is the contract in force. *)
Lemma active_record `{JsonMarshaler} k s v : KInv k s -> v ∈ ks_history s -> fv_Status v = "active" ->
  ks_active s = Some (buildFeatureSignalContractFromVersion v).
Proof.
  intros HI Hin Hv. pose proof (ki_active _ _ HI) as A.
  assert (Hf : v ∈ List.filter active_status (ks_history s)).
  { apply list_elem_of_In, filter_In. split; [by apply list_elem_of_In|]. unfold active_status. by rewrite Hv. }
  destruct (ks_active s) as [c|].
  - destruct A as (w & E & <-). rewrite E in Hf. by apply list_elem_of_singleton in Hf as ->.
  - rewrite A in Hf. by apply not_elem_of_nil in Hf.
Qed.

Section Rollbacks.
Context `{JsonMarshaler} `{FeatureSignalContractStore} {HL : StoreLaws _}.

Definition rollback_key_of (q : FeatureSignalContractRollbackRequest) : string :=
  normalizeContractKey (normalizeRiskTier (kq_RiskTier q)) (upper_trim (kq_Phase q)).
Definition rollback_storage (q : FeatureSignalContractRollbackRequest) : string :=
  featureSignalContractStorageKey (normalizeContractScope (kq_Scope q)) (rollback_key_of q).

(** The version a rollback adds. *)
Definition applied_of (q : FeatureSignalContractRollbackRequest) (target : FeatureSignalContractVersion)
    (version : Z) (now : time) : FeatureSignalContractVersion :=
  applied_version (rollback_key_of q) (rollback_storage q) (normalizeContractScope (kq_Scope q))
    (safeHashForContract (buildFeatureSignalContractFromVersion target)) target version
    (TrimSpace (kq_Reason q)) (TrimSpace (kq_Actor q)) now.

Lemma rollback_outcome s st q now wall :
  let out := RollbackFeatureSignalContract s st q now wall in
  let k := rollback_storage q in
  let history := items (s_featureSignalContractHistory s) k in
  match out.2 with
  | Err _ => same_keys (contracts_of out.1.1) (contracts_of s) /\ (forall c, stored out.1.2 c <-> stored st c)
  | Ok record => exists target,
      rollback_target history (kq_TargetVersion q) = Ok target /\
      frr_TargetVersion record = fv_Version target /\
      own_key (rollback_key (applied_of q target (next_version history) now) target now) k
        (contracts_of s) (contracts_of out.1.1) /\
      (out.1.2 = None \/ exists c, stored out.1.2 c /\ same_keys c (contracts_of out.1.1))
  end.
Proof.
  cbv zeta. unfold RollbackFeatureSignalContract. destruct (rollback_invalid q); [done|]. cbv zeta.
  fold (rollback_key_of q). fold (rollback_storage q). set (k := rollback_storage q).
  change (ss_History (buildContractStoreSnapshotLocked s now)) with (s_featureSignalContractHistory s).
  destruct (last (items _ k)) as [current|] eqn:El; [|done].
  destruct (rollback_target _ _) as [target|] eqn:Et; [|done].
  pose proof (nextFallbackID_calm "fscrb_" s) as C1. destruct (nextFallbackID _ s) as [s1 rollbackID].
  cbn [fst] in C1.
  destruct (commitContractSnapshotLocked _ _ _ _) as [[s2 st2] err] eqn:E. destruct err as [e|]; cbn [fst snd].
  { apply commit_failed in E as [-> ?]. split; [by apply calm_contracts|done]. }
  apply commit_ok in E. exists target. split; [done|]. split; [done|].
  match goal with |- own_key _ _ _ (contracts_of (emitEvent ?a ?b ?c ?d ?k ?n ?s)) /\ _ =>
    pose proof (emitEvent_quiet a b c d k n s) as Q; set (s3 := emitEvent a b c d k n s) in * end.
  apply quiet_calm in Q. destruct (committed_calm _ _ _ _ E Q) as [E1 E2]. split.
  - unfold next_version. rewrite El. intros i. rewrite (E1 i).
    apply (rollback_candidate_key (buildContractStoreSnapshotLocked s now)
             (applied_of q target (wrap_int64 (fv_Version current + 1)) now) target).
  - destruct E2 as [->|(c & ? & Hk)]; [by left|]. right. exists c. split; [done|]. by rewrite E1.
Qed.

(** Only the activated number is active afterwards. *)
Lemma activated_number n now h w :
  w ∈ map (activate_version n now) h -> active_status w = true -> fv_Version w = n.
Proof.
  intros Hin. apply list_elem_of_fmap in Hin as (x & -> & _). unfold activate_version, active_status.
  destruct (fv_Version x =? n) eqn:E; [|destruct (EqualFold _ _) eqn:Ef].
  - intros _. by apply Z.eqb_eq in E.
  - done.
  - intros Hx. apply String.eqb_eq in Hx. by rewrite Hx in Ef.
Qed.

(** The active version of a key after a rollback. *)
Lemma rolled_back_active k (s' : Service) s rq target now h :
  CInv (contracts_of s') -> KInv k s -> Z.of_nat (length (ks_history s)) <= max_int64 - 1 ->
  h = ks_history s ->
  items (s_featureSignalContractHistory s') k =
    ks_history (rollback_key (applied_of rq target (next_version h) now) target now s) ->
  exists w, activeFeatureSignalContractVersionLocked s' k = Some w /\
    fv_Version w = Z.of_nat (length h) + 1 /\
    fv_ContractHash w = safeHashForContract (buildFeatureSignalContractFromVersion w) /\
    s_featureSignalContractsScoped s' !! k = Some (buildFeatureSignalContractFromVersion w).
Proof.
  intros HI Hk Hl -> Hh. pose proof (HI k) as Hk'. set (a := applied_of rq target _ now) in *.
  change (items (s_featureSignalContractHistory s') k) with (ks_history (key_of (contracts_of s') k)) in Hh.
  cbn [ks_history rollback_key] in Hh.
  pose proof (ki_active _ _ Hk') as Ha.
  change (ks_active (key_of (contracts_of s') k)) with (s_featureSignalContractsScoped s' !! k) in Ha.
  destruct (s_featureSignalContractsScoped s' !! k) as [c|].
  - destruct Ha as (w & Hw & <-). exists w.
    assert (Hin : w ∈ List.filter active_status (ks_history (key_of (contracts_of s') k))) by (rewrite Hw; by left).
    apply list_elem_of_In, filter_In in Hin as [Hin Hact]. apply list_elem_of_In in Hin.
    pose proof (proj1 (Forall_forall _ _) (ki_records _ _ Hk') w Hin) as (R1 & R2 & R3).
    split_and!; [by apply (active_is k _ _ (ki_records _ _ Hk'))| |done|done].
    rewrite <- (next_version_length k s Hk) by lia. fold (fv_Version a).
    rewrite Hh in Hin. by apply (activated_number _ _ _ _ Hin).
  - exfalso. rewrite Hh, map_app, List.filter_app in Ha. apply app_eq_nil in Ha as [_ Ha]. revert Ha.
    cbn [map List.filter]. unfold activate_version at 1 2. by rewrite Z.eqb_refl.
Qed.
End Rollbacks.

(** C31: round trip: when the last version in the history of a key is its active
    one (so none is scheduled after it), publishing another contract for the key
    at once and then rolling back, without naming a version, both successfully,
    makes the first contract active again, under a new version with
    the same content and hash, two after it; other keys are untouched by both. *)
Theorem publish_rollback `{JsonMarshaler} `{FeatureSignalContractStore} {HL : StoreLaws _}
    (s : Service) (st : option store_state) (q : FeatureSignalContractPublishRequest)
    (rq : FeatureSignalContractRollbackRequest) (now wall now2 wall2 : time)
    (v : FeatureSignalContractVersion) (view : FeatureSignalContractView)
    (record : FeatureSignalContractRollbackRecord) :
  CInv (contracts_of s) -> short (max_int64 - 2) (contracts_of s) ->
  let k := pb_storageKey (publication_of q now) in
  rollback_storage rq = k -> kq_TargetVersion rq <= 0 ->
  last (items (s_featureSignalContractHistory s) k) = Some v -> fv_Status v = "active" ->
  pq_DryRun q = false -> After (pb_activationAt (publication_of q now)) now = false ->
  let out := PublishFeatureSignalContract s st q now wall in
  let back := RollbackFeatureSignalContract out.1.1 out.1.2 rq now2 wall2 in
  out.2 = Ok view -> back.2 = Ok record ->
  CInv (contracts_of back.1.1) /\
  s_featureSignalContractsScoped s !! k = Some (buildFeatureSignalContractFromVersion v) /\
  s_featureSignalContractsScoped back.1.1 !! k = Some (buildFeatureSignalContractFromVersion v) /\
  frr_TargetVersion record = fv_Version v /\
  (exists w, activeFeatureSignalContractVersionLocked back.1.1 k = Some w /\
     fv_Version w = fv_Version v + 2 /\ fv_ContractHash w = fv_ContractHash v /\
     buildFeatureSignalContractFromVersion w = buildFeatureSignalContractFromVersion v) /\
  (forall i, i <> k -> key_of (contracts_of back.1.1) i = key_of (contracts_of s) i).
Proof.
  intros HI Hs k Hk Ht Hl Hv Hd Ha out back Eo Eb.
  pose proof (publish_outcome s st q now wall) as Ho. pose proof (publish_call s st q now wall) as Hcall.
  fold out in Ho, Hcall. cbv zeta in Ho. rewrite Eo in Ho. destruct Ho as [_ _ _ Ho].
  rewrite Hd in Ho. destruct Ho as [Ho _]. fold k in Ho.
  pose proof (rollback_outcome out.1.1 out.1.2 rq now2 wall2) as Hb. fold back in Hb. cbv zeta in Hb.
  rewrite Eb, Hk in Hb. destruct Hb as (target & Et & Er & Hb & _).
  pose proof (rollback_call out.1.1 out.1.2 rq now2 wall2) as Hcall2. fold back in Hcall2.
  destruct (cc_inv _ _ _ _ Hcall (max_int64 - 2) HI Hs ltac:(lia)) as [HI1 Hs1].
  destruct (cc_inv _ _ _ _ Hcall2 _ HI1 Hs1 ltac:(lia)) as [HI2 _].
  pose proof (HI k) as Hkey. pose proof (HI1 k) as Hkey1.
  set (h := items (s_featureSignalContractHistory s) k) in *.
  assert (Hh1 : items (s_featureSignalContractHistory out.1.1) k =
    map (activate_version (next_version h) now) (h ++ [version_record (publication_of q now) (next_version h) now])).
  { pose proof (Ho k) as E. rewrite decide_True in E by done. apply (f_equal ks_history) in E.
    unfold publish_key in E. rewrite Ha in E. exact E. }
  rewrite Hh1 in Et.
  assert (Hin : h !! pred (length h) = Some v) by (by rewrite <- last_lookup).
  assert (Etv : target = activate_version (next_version h) now v).
  { unfold rollback_target in Et. replace (0 <? kq_TargetVersion rq) with false in Et by (symmetry; apply Z.ltb_ge; lia).
    rewrite map_app, rev_app_distr in Et.
    destruct (rev_map_last (activate_version (next_version h) now) h v Hl) as [r Er'].
    cbn [map rev app] in Et. rewrite Er' in Et. by simplify_eq. }
  assert (Hrec : record_ok k v).
  { apply (proj1 (Forall_forall _ _) (ki_records _ _ Hkey)). by apply list_elem_of_lookup; exists (pred (length h)). }
  destruct (activate_version_status (next_version h) now v (proj2 (proj2 Hrec)))
    as (T1 & T2 & T3 & T4 & _ & _). rewrite <- Etv in T1, T2, T3, T4.
  assert (Hact : s_featureSignalContractsScoped s !! k = Some (buildFeatureSignalContractFromVersion v)).
  { apply (active_record k (key_of (contracts_of s) k) v Hkey); [|done].
    by apply list_elem_of_lookup; exists (pred (length h)). }
  assert (Hb2 : s_featureSignalContractsScoped back.1.1 !! k = Some (buildFeatureSignalContractFromVersion v)).
  { pose proof (Hb k) as E. rewrite decide_True in E by done. apply (f_equal ks_active) in E.
    cbn [ks_active key_of rollback_key] in E. rewrite <- T4. exact E. }
  assert (Hh2 := f_equal ks_history (Hb k)). rewrite decide_True in Hh2 by done.
  split_and!; [done|done|exact Hb2|by rewrite Er, T1|..].
  - destruct (rolled_back_active k _ _ _ _ _ (items (s_featureSignalContractHistory out.1.1) k) HI2 Hkey1
      (short_key_of _ _ k Hs1) eq_refl Hh2) as (w & W1 & W2 & W3 & W4).
    exists w. split; [done|]. rewrite Hb2 in W4. apply Some_inj in W4.
    split_and!; [|by rewrite W3, <- W4; symmetry; apply (proj1 (proj2 Hrec))|done].
    rewrite W2, Hh1, length_map, length_app, (ki_versions _ _ Hkey _ _ Hin). cbn [length].
    apply lookup_lt_Some in Hin. cbn [ks_history key_of] in *. lia.
  - intros i Hi. rewrite (Hb i), decide_False by done. by rewrite (Ho i), decide_False.
Qed.

Lemma publish_rollback_witness : exists view record,
  (PublishFeatureSignalContract k1 st1 q2 t2 t2).2 = Ok view /\
  b2.2 = Ok record /\ frr_TargetVersion record = 1.
Proof.
  destruct k1_inv as [HI Hs].
  destruct (last (items (s_featureSignalContractHistory k1) (pb_storageKey (publication_of q2 t2)))) as [v|] eqn:El.
  2:{ exfalso. vm_compute in El. discriminate. }
  assert (Hv : fv_Status v = "active" /\ fv_Version v = 1) by (vm_compute in El; simplify_eq; done).
  destruct ((PublishFeatureSignalContract k1 st1 q2 t2 t2).2) as [view|] eqn:E1; [|vm_compute in E1; discriminate].
  assert (Hb : b2 = RollbackFeatureSignalContract (PublishFeatureSignalContract k1 st1 q2 t2 t2).1.1
    (PublishFeatureSignalContract k1 st1 q2 t2 t2).1.2 rq2 t3 t3) by (vm_compute; reflexivity).
  destruct (b2.2) as [record|] eqn:E2; [|vm_compute in E2; discriminate]. rewrite Hb in E2.
  exists view, record. split_and!; [done|done|].
  destruct (publish_rollback k1 st1 q2 rq2 t2 t2 t3 t3 v view record HI
    (short_mono 2 (max_int64 - 2) _ ltac:(done) Hs)) as (_ & _ & _ & -> & _);
    [vm_compute; reflexivity|done|exact El|by destruct Hv|reflexivity|vm_compute; reflexivity|exact E1|exact E2|].
  by destruct Hv.
Defined.
