(* ===== verification/CtlUseTheorems.v ===== *)
(** * Theorems about contracts in force

    The contracts of every service that shares a store, along any history; that
    an evaluation finds what was published at once; and what a run of the
    scheduler does. *)

From stdpp Require Import relations.
From S2P Require Import Prelude GoStrings Sha256 GoTime GoJson DecTypes DecJson DecPolicy.
From S2P Require Import DecContracts DecKernel DecRuntime DecFrame DecTrace DecEval DecExamples.
From S2P Require Import DecEvalTheorems DecSteady CtlTypes CtlContracts CtlInvariant CtlStore.
From S2P Require Import CtlExamples CtlContractTheorems.

#[local] Open Scope Z_scope.

(** ** The invariant of the system *)

(** What holds of one key, without the words of the invariant. *)
Definition key_sound `{JsonMarshaler} (snap : Snapshot) (k : string) : Prop :=
  let h := items (ss_History snap) k in
  (forall i v, h !! i = Some v -> fv_Version v = Z.of_nat i + 1 /\
     fv_ContractHash v = safeHashForContract (buildFeatureSignalContractFromVersion v)) /\
  match ss_Active snap !! k with
  | Some c => exists v, last_active h = Some v /\ buildFeatureSignalContractFromVersion v = c /\
      (forall w, w ∈ h -> fv_Status w = "active" -> w = v)
  | None => forall w, w ∈ h -> fv_Status w <> "active"
  end /\
  items (ss_Scheduled snap) k ≡ₚ List.filter scheduled_status h.

Lemma KInv_sound `{JsonMarshaler} snap k : KInv k (key_of snap k) -> key_sound snap k.
Proof.
  intros HI. pose proof HI as [H1 H2 H3 H4]. unfold key_sound. cbn [ks_active ks_history ks_scheduled key_of] in *.
  assert (Hf : forall w, w ∈ items (ss_History snap) k -> fv_Status w = "active" ->
    w ∈ List.filter active_status (items (ss_History snap) k)).
  { intros w Hw Hs. apply list_elem_of_In, filter_In. split; [by apply list_elem_of_In|].
    unfold active_status. by rewrite Hs. }
  split_and!; [| |done].
  - intros i v Hi. split; [by apply H1|].
    apply (proj1 (Forall_forall _ _) H2 v). by apply list_elem_of_lookup; exists i.
  - destruct (ss_Active snap !! k) as [c|].
    + destruct H3 as (v & E & Hc). exists v. split_and!; [by apply (active_is k (key_of snap k))|done|].
      intros w Hw Hs. specialize (Hf w Hw Hs). rewrite E in Hf. by apply list_elem_of_singleton in Hf.
    + intros w Hw Hs. specialize (Hf w Hw Hs). rewrite H3 in Hf. by apply not_elem_of_nil in Hf.
Qed.

(** C13: services that share a store keep sound contracts.  The store starts with
    sound contracts, at most one version per key; services may join, publish, roll back, run the
    scheduler, receive snapshots (late, repeated or never), synchronise and
    serve decision calls, in any order and fewer than [max_int64] steps; a
    service that joins a store without a revision must be configured with
    contracts that give required fields only, as its configuration becomes the
    content of the store, while one that joins later may have any
    configuration.  Then for every key of every service and of the store,
    versions count from one, hashes are the hashes of their contracts, the
    contract in force is that of the only active version, and the schedule is
    what the history calls scheduled. *)
Theorem contracts_invariant `{JsonMarshaler} `{FeatureSignalContractStore} {HL : StoreLaws _}
    (st : store_state) (n : Z) (sys : System) :
  (forall c, GetSnapshot st = Ok c -> CInv c /\ short 1 c) ->
  sys_run st n sys -> n < max_int64 - 1 ->
  (forall s k, s ∈ sy_services sys -> key_sound (contracts_of s) k) /\
  (forall c k, GetSnapshot (sy_store sys) = Ok c -> key_sound c k).
Proof.
  intros Hst Hr Hn. destruct (sys_run_inv st n sys Hst Hr Hn) as [_ [H1 H2 _]]. split.
  - intros s k Hs. apply KInv_sound. by apply (proj1 (Forall_forall _ _) H1 s Hs).
  - intros c k Hc. apply KInv_sound. by apply (H2 c Hc).
Qed.

Lemma contracts_invariant_witness : exists sys,
  sys_run (no_snapshot : Snapshot) 2 sys /\ sy_services sys = [k1] /\
  key_sound (contracts_of k1) "org|ws|*::low|PRE_TOOL".
Proof.
  assert (E0 : NewKernel (H := canonical_range) dec_cfg dec_t0 (no_snapshot : Snapshot) = (k0, Some x0))
    by (vm_compute; reflexivity).
  assert (E1 : (PublishFeatureSignalContract k0 (Some x0) q1 t1 t1).1 = (k1, st1)) by (vm_compute; reflexivity).
  set (sys1 := @mk_System InMemoryFeatureSignalContractStore [k0] x0 []).
  assert (R : sys_run (no_snapshot : Snapshot) 2 (after_call sys1 0 k1 st1)).
  { apply (sys_run_step _ 1 sys1).
    - apply (sys_run_step _ 0 (@sys_init InMemoryFeatureSignalContractStore no_snapshot)); [constructor|].
      apply (sys_join canonical_range (@sys_init InMemoryFeatureSignalContractStore no_snapshot) dec_cfg dec_t0 k0 x0);
        [right; apply map_Forall_empty|exact E0].
    - pose proof (sys_publish sys1 0 k0 q1 t1 t1 eq_refl) as Hp. cbv zeta in Hp.
      exact (eq_ind _ (fun out => sys_step sys1 (after_call sys1 0 out.1 out.2)) Hp _ E1). }
  exists (after_call sys1 0 k1 st1). split_and!; [exact R|reflexivity|].
  refine (proj1 (contracts_invariant _ 2 _ _ R ltac:(done)) k1 _ _); [|by left].
  intros c E. change (@Ok string Snapshot no_snapshot = Ok c) in E. injection E as <-.
  split; [intros k; apply empty_KInv|intros k; change (Z.of_nat 0 <= 1); lia].
Defined.

(** ** What was published is what evaluations use *)

Lemma or_star_idem s : or_star (TrimSpace (or_star (TrimSpace s))) = or_star (TrimSpace s).
Proof. unfold or_star. destruct (TrimSpace s =? "")%string eqn:E; [done|]. by rewrite TrimSpace_idem, E. Qed.

Lemma normalizeContractScope_idem sc :
  normalizeContractScope (normalizeContractScope sc) = normalizeContractScope sc.
Proof. unfold normalizeContractScope, normalizeScope; cbn [sc_OrgID sc_WorkspaceID sc_ProjectID].
  by rewrite !or_star_idem. Qed.

(** The first candidate is the exact key in the request's own scope. *)
Lemma candidates_head sc risk phase : exists rest,
  contract_candidates sc risk phase =
  (normalizeContractScope sc, (normalizeContractKey risk phase,
     featureSignalContractStorageKey sc (normalizeContractKey risk phase))) :: rest.
Proof.
  unfold contract_candidates.
  assert (H : exists r, contractScopeResolutionOrder sc = normalizeContractScope sc :: r).
  { unfold contractScopeResolutionOrder. cbv zeta. cbn [foldl one_of existsb].
    rewrite normalizeContractScope_idem. cbn [app].
    repeat (match goal with |- context [if one_of ?a ?b then _ else _] => destruct (one_of a b) end; cbn [app]);
      by eexists. }
  destruct H as [r ->]. cbn [mbind list_bind]. unfold contractKeyResolutionOrder at 1; cbv zeta.
  cbn [mbind list_bind app]. eexists. unfold featureSignalContractStorageKey at 1.
  by rewrite normalizeContractScope_idem.
Qed.

Lemma invalid_fields q : publish_invalid q = None -> normalizeRequiredFields (pq_RequiredFields q) <> [].
Proof.
  unfold publish_invalid; cbv zeta. repeat (case_match; [done|]).
  intros _ E. match goal with H : validateFeatureSignalContractRequiredFields _ = None |- _ =>
    rewrite E in H; done end.
Qed.

Section InForce.
Context `{JsonMarshaler}.

(** The contract in force for exactly this scope, risk and phase is the one an
    evaluation is bound to, with the version and hash of its record. *)
Lemma resolve_exact s scope risk phase now c v :
  let k := featureSignalContractStorageKey scope (normalizeContractKey risk phase) in
  CInv (contracts_of s) -> s_featureSignalContractsScoped s !! k = Some c -> fc_RequiredFields c <> [] ->
  activeFeatureSignalContractVersionLocked s k = Some v -> 0 < fv_Version v ->
  exists b, resolveFeatureSignalContractWithBinding s scope risk phase now = (c, b, true) /\
    fb_StorageKey b = k /\ fb_Version b = fv_Version v /\ fb_ContractHash b = safeHashForContract c.
Proof.
  intros k HI Hc Hf Hv Hpos. destruct (KInv_sound _ k (HI k)) as (H1 & H2 & _).
  change (ss_Active (contracts_of s)) with (s_featureSignalContractsScoped s) in H2. rewrite Hc in H2.
  destruct H2 as (w & Hw & Hb & _).
  change (activeFeatureSignalContractVersionLocked s k = Some w) in Hw. rewrite Hv in Hw. injection Hw as <-.
  assert (Hh : fv_ContractHash v = safeHashForContract c).
  { apply find_some in Hv as [Hin _]. apply in_rev, list_elem_of_In, list_elem_of_lookup in Hin as [i Hi].
    by rewrite (proj2 (H1 i v Hi)), Hb. }
  unfold resolveFeatureSignalContractWithBinding. destruct (candidates_head scope risk phase) as [r ->].
  cbn [first_contract]. fold k. unfold usable_contract at 1. rewrite Hc.
  destruct (fc_RequiredFields c) as [|x l] eqn:Ef; [done|]. rewrite Hv.
  replace (0 <? fv_Version v) with true by (symmetry; by apply Z.ltb_lt).
  cbv beta iota zeta. eexists. split; [reflexivity|]. cbn [fb_StorageKey fb_Version fb_ContractHash].
  split_and!; [done|done|]. rewrite Hh. by case_match.
Qed.
End InForce.

(** The state after an immediate publication. *)
Lemma published_now `{JsonMarshaler} `{FeatureSignalContractStore} {HL : StoreLaws _} s st q now wall view :
  CInv (contracts_of s) -> short (max_int64 - 1) (contracts_of s) ->
  pq_DryRun q = false -> After (pb_activationAt (publication_of q now)) now = false ->
  let out := PublishFeatureSignalContract s st q now wall in
  let k := pb_storageKey (publication_of q now) in
  out.2 = Ok view ->
  CInv (contracts_of out.1.1) /\ fc_RequiredFields (pb_contract (publication_of q now)) <> [] /\
  s_featureSignalContractsScoped out.1.1 !! k = Some (pb_contract (publication_of q now)) /\
  exists v, activeFeatureSignalContractVersionLocked out.1.1 k = Some v /\ fv_Version v = vw_Version view /\
    0 < fv_Version v.
Proof.
  intros HI Hs Hd Ha out k Eo. pose proof (publish_outcome s st q now wall) as Ho. fold out in Ho.
  cbv zeta in Ho. rewrite Eo in Ho. destruct Ho as [O1 _ O3 Ho]. rewrite Hd in Ho. destruct Ho as [Ho _].
  pose proof (publish_call s st q now wall) as Hcall. fold out in Hcall.
  destruct (cc_inv _ _ _ _ Hcall (max_int64 - 1) HI Hs ltac:(lia)) as [HI1 _].
  fold k in O3, Ho. pose proof (Ho k) as E. rewrite decide_True in E by done. unfold publish_key in E.
  cbv zeta in E. rewrite Ha in E.
  assert (Hc : s_featureSignalContractsScoped out.1.1 !! k = Some (pb_contract (publication_of q now)))
    by exact (f_equal ks_active E).
  split_and!; [done|by apply invalid_fields|done|].
  destruct (KInv_sound _ k (HI1 k)) as (S1 & S2 & _).
  change (ss_Active (contracts_of out.1.1)) with (s_featureSignalContractsScoped out.1.1) in S2.
  rewrite Hc in S2. destruct S2 as (v & Hv & _). exists v. split; [exact Hv|].
  apply find_some in Hv as [Hin Hact]. apply in_rev, list_elem_of_In in Hin. rewrite O3. cbn [vw_Version publish_view].
  assert (Hst : active_status v = true).
  { pose proof (record_status k _ _ (ki_records _ _ (HI1 k)) Hin) as Hs1. apply one_of_In in Hs1.
    revert Hact. unfold version_active, active_status. by destruct Hs1 as [<-|[<-|[<-|[]]]]. }
  change (v ∈ ks_history (key_of (contracts_of out.1.1) k)) in Hin.
  apply (f_equal ks_history) in E. cbn [ks_history] in E. rewrite E in Hin. split; [by apply (activated_number _ _ _ _ Hin)|].
  rewrite (activated_number _ _ _ _ Hin Hst).
  rewrite (next_version_length k _ (HI k)); [|specialize (Hs k); cbn in *]; lia.
Qed.

Section ByAContract.
Context `{JsonMarshaler}.

(** What an executable answer under a contract says of the request. *)
Definition meets (n : RuntimeDecisionRequest) (c : FeatureSignalContract) : Prop :=
  missingFeatureSignalFieldsByContract n (fc_RequiredFields c) = [] /\
  ft_Blocked (evaluateFeatureTrustContract n c) = false /\
  (TrimSpace (q_FeatureContractHashPin n) <> "" ->
   EqualFold (TrimSpace (safeHashForContract c)) (TrimSpace (q_FeatureContractHashPin n)) = true).
End ByAContract.

(** One call of a decision handler: every exported call but a refresh of the
    contract cache, with any collaborator behind the unlock port. *)
Inductive decision_call `{JsonMarshaler} : Service -> Service -> Prop :=
| decision_call_intro MR (Env : Type) (c : call Env) (env : Env) s :
    is_refresh c = false -> decision_call s (exec (MR := MR) c (s, env)).1.

Lemma decision_calls_steady `{JsonMarshaler} s s' : rtc decision_call s s' -> steady s s'.
Proof.
  induction 1 as [s|s1 s2 s3 [MR Env c env s Hc] _ IH]; [reflexivity|].
  etransitivity; [|exact IH]. exact (exec_steady c (s, env) Hc).
Qed.

(** C14: a contract is in force from its publication on: after an immediate
    publication by a service whose contracts are sound, and after any sequence
    of decision calls (evaluations, admissions, releases, approvals, timeouts,
    confirmations, repairs, drains, cleanups), a request for the same scope,
    risk and phase resolves to exactly that contract, with the version and hash
    the publication answered; and if it gets an executable answer, the answer
    carries that version and hash, and the request carries every required
    feature field, its producer, schema, freshness and drift are within the
    contract, and its pin, if it has one, is the published hash. *)
Theorem publish_in_force `{JsonMarshaler} `{FeatureSignalContractStore} {HL : StoreLaws _}
    (s : Service) (st : option store_state) (q : FeatureSignalContractPublishRequest) (now wall : time)
    (view : FeatureSignalContractView) (s2 : Service) (d : RuntimeDecisionRequest) (now2 : time) :
  CInv (contracts_of s) -> short (max_int64 - 1) (contracts_of s) ->
  pq_DryRun q = false -> After (pb_activationAt (publication_of q now)) now = false ->
  let out := PublishFeatureSignalContract s st q now wall in
  let c := pb_contract (publication_of q now) in
  let n := normalizeRuntimeRequest d in
  let r := (EvaluateRuntime s2 d now2).2 in
  let bound b := fb_StorageKey b = pb_storageKey (publication_of q now) /\ fb_Version b = vw_Version view /\
    fb_ContractHash b = vw_ContractHash view in
  out.2 = Ok view -> rtc decision_call out.1.1 s2 ->
  featureSignalContractStorageKey (q_FeatureContractScope n) (normalizeContractKey (q_RiskTier n) (q_Phase n))
    = pb_storageKey (publication_of q now) ->
  (exists b, resolveFeatureSignalContractWithBinding s2 (q_FeatureContractScope n) (q_RiskTier n) (q_Phase n)
       now2 = (c, b, true) /\ bound b) /\
  (executable (r_Decision r) = true -> bound (r_FeatureContractBinding r) /\ meets n c).
Proof.
  intros HI Hs Hd Ha out c n r bound Eo St%decision_calls_steady Hk.
  assert (Ew : vw_ContractHash view = safeHashForContract c).
  { pose proof (publish_outcome s st q now wall) as Ho. cbv zeta in Ho. fold out in Ho. rewrite Eo in Ho.
    by destruct Ho as [_ _ -> _]. }
  destruct (published_now s st q now wall view HI Hs Hd Ha Eo) as (HI1 & Hf & Hc & v & Hv & Ev & Hpos).
  fold out in HI1, Hc, Hv. fold c in Hc, Hf.
  assert (HI2 : CInv (contracts_of s2)) by (by rewrite (steady_contracts _ _ St)).
  destruct (resolve_exact s2 (q_FeatureContractScope n) (q_RiskTier n) (q_Phase n) now2 c v) as (b & R1 & R2 & R3 & R4).
  { done. }
  { rewrite Hk. by rewrite (st_scoped _ _ St). }
  { done. }
  { rewrite Hk. unfold activeFeatureSignalContractVersionLocked in *. by rewrite (st_versions _ _ St). }
  { done. }
  assert (B : bound b) by (split_and!; [by rewrite R2|congruence|congruence]).
  split; [by exists b|]. intros He. split; [by rewrite (evaluate_binding s2 d now2 c b true R1 He : r_FeatureContractBinding r = b)|].
  destruct (evaluate_sound s2 d now2 c b true R1 He) as [[_ _ _ _ Hp Hm Ht _ _ _ _ _ _ _] _].
  split_and!; [done|done|]. intros Hpin. destruct (Hp Hpin) as [_ E]. by rewrite R4 in E.
Qed.

(** Between the publication and the request: another evaluation and a drain. *)
Definition k2_evaluated : Service :=
  (exec (MR := canonical_range) (CallEvaluate ctl_q t3 : call unit) (k2, tt)).1.
Definition k2_later : Service :=
  (exec (MR := canonical_range) (CallDrain 1 : call unit) (k2_evaluated, tt)).1.

Lemma k2_later_calls : rtc decision_call k2 k2_later.
Proof.
  apply (rtc_l _ _ k2_evaluated).
  - exact (decision_call_intro canonical_range unit (CallEvaluate ctl_q t3) tt k2 eq_refl).
  - apply rtc_once. exact (decision_call_intro canonical_range unit (CallDrain 1) tt k2_evaluated eq_refl).
Qed.

Lemma publish_in_force_witness : exists view,
  (PublishFeatureSignalContract k1 st1 q2 t2 t2).2 = Ok view /\
  fb_Version (r_FeatureContractBinding (EvaluateRuntime k2_later ctl_q t3).2) = vw_Version view /\
  meets (normalizeRuntimeRequest ctl_q) (pb_contract (publication_of q2 t2)).
Proof.
  destruct k1_inv as [HI Hs].
  destruct ((PublishFeatureSignalContract k1 st1 q2 t2 t2).2) as [view|] eqn:E1; [|vm_compute in E1; discriminate].
  assert (E2 : (PublishFeatureSignalContract k1 st1 q2 t2 t2).1.1 = k2) by (vm_compute; reflexivity).
  assert (E3 : executable (r_Decision (EvaluateRuntime k2_later ctl_q t3).2) = true) by (vm_compute; reflexivity).
  assert (E4 : After (pb_activationAt (publication_of q2 t2)) t2 = false) by (vm_compute; reflexivity).
  exists view. split; [done|]. pose proof k2_later_calls as Hc. rewrite <- E2 in Hc.
  destruct (publish_in_force k1 st1 q2 t2 t2 view k2_later ctl_q t3 HI
    (short_mono 2 (max_int64 - 1) _ ltac:(done) Hs) eq_refl E4 E1 Hc) as [_ Hx]; [vm_compute; reflexivity|].
  destruct (Hx E3) as ((_ & Hv & _) & Hm). exact (conj Hv Hm).
Defined.

(** * Theorems about the scheduler

    How many versions a run activates, which contract a key then has, and that
    a second run has nothing left to do. *)

#[local] Open Scope Z_scope.

(** ** Counting the entries of a map of lists *)

Section Total.
Context {A : Type}.
Implicit Types (m : gmap string (list A)) (l : list (string * list A)).

Definition sum_len l : Z := foldr (fun kv n => Z.of_nat (length kv.2) + n) 0 l.
Definition total m : Z := sum_len (map_to_list m).

#[export] Instance sum_len_perm : Proper ((≡ₚ) ==> (=)) sum_len.
Proof. induction 1; simpl; lia. Qed.

Lemma total_insert m k x : m !! k = None -> total (<[k := x]> m) = Z.of_nat (length x) + total m.
Proof. intros Hk. unfold total. by rewrite map_to_list_insert. Qed.

Lemma total_delete m k : total m = Z.of_nat (length (items m k)) + total (delete k m).
Proof.
  unfold items. destruct (m !! k) as [x|] eqn:E.
  - rewrite <- (total_insert (delete k m) k x) by apply lookup_delete_eq. by rewrite insert_delete_id.
  - by rewrite delete_id.
Qed.

Lemma total_nil m : (forall k, items m k = []) -> total m = 0.
Proof.
  induction m as [|k x m Hk IH] using map_ind; intros Hm; [done|]. rewrite total_insert by done.
  pose proof (Hm k) as Ex. rewrite items_insert, decide_True in Ex by done. subst x. rewrite IH; [done|].
  intros i. specialize (Hm i). rewrite items_insert in Hm. destruct (decide (i = k)) as [->|]; [|done].
  unfold items. by rewrite Hk.
Qed.

(** Each list of [m] split into a part counted by [f] and one that is in [m']. *)
Lemma total_split (f g : list A -> list A) m m' : g [] = [] ->
  (forall x, Z.of_nat (length x) = Z.of_nat (length (f x)) + Z.of_nat (length (g x))) ->
  (forall k, items m' k = g (items m k)) -> total m = total (f <$> m) + total m'.
Proof.
  intros Hg Hl. revert m'. induction m as [|k x m Hk IH] using map_ind; intros m' Hm'.
  { rewrite fmap_empty. rewrite (total_nil m'); [done|]. intros k. by rewrite Hm'. }
  rewrite fmap_insert, !total_insert by (by rewrite ?lookup_fmap, Hk).
  rewrite (total_delete m' k), (IH (delete k m')).
  - pose proof (Hm' k) as E. rewrite items_insert, decide_True in E by done. rewrite E, (Hl x). lia.
  - intros i. rewrite items_delete. specialize (Hm' i). rewrite items_insert in Hm'.
    destruct (decide (i = k)) as [->|]; [|done]. unfold items. by rewrite Hk.
Qed.

Lemma total_items m m' : (forall k, items m k = items m' k) -> total m = total m'.
Proof.
  intros E. rewrite (total_split (fun _ => []) (fun x => x) m m'); try done. rewrite total_nil; [lia|].
  intros k. unfold items. rewrite lookup_fmap. by destruct (m !! k).
Qed.
End Total.

Lemma scheduled_total_eq `{MR : MapRange} m : scheduled_total m = total m.
Proof.
  unfold scheduled_total, total, go_range. rewrite <- (range_map_perm m).
  enough (H : forall l n, foldl (fun n (kv : string * list FeatureSignalContractVersion) =>
    n + Z.of_nat (length kv.2)) n l = n + sum_len l) by apply H.
  induction l as [|kv l IH]; intros n; simpl; [lia|]. rewrite IH. lia.
Qed.

Lemma activated_total `{MR : MapRange} snap now :
  Z.of_nat (length (applyDueFeatureSignalContractsSnapshot snap now).2) =
  total (due_of now <$> ss_Scheduled snap).
Proof.
  rewrite apply_due_list. unfold total. rewrite map_to_list_fmap, <- (range_map_perm (ss_Scheduled snap)).
  induction (range_map (ss_Scheduled snap)) as [|[k x] l IH]; simpl; [done|].
  rewrite length_app. rewrite Nat2Z.inj_add, IH. done.
Qed.

(** ** One key *)

Lemma activates_active now due : forall s,
  ks_active (foldl (fun s v => activate_key v now s) s due) =
  match last due with Some v => Some (buildFeatureSignalContractFromVersion v) | None => ks_active s end.
Proof.
  induction due as [|v due IH] using rev_ind; intros s; [done|]. by rewrite foldl_app, last_snoc.
Qed.

Lemma later_after now l v : v ∈ later_of now l -> After (fv_ActivationAt v) now = true.
Proof.
  intros Hv. apply list_elem_of_In, filter_In in Hv as [_ Hv]. revert Hv. unfold is_due. by rewrite negb_involutive.
Qed.

Lemma due_none now l : due_of now l = [] <-> forall v, v ∈ l -> After (fv_ActivationAt v) now = true.
Proof.
  split.
  - intros E v Hv. rewrite (due_split now l), E in Hv. by apply (later_after now l).
  - intros Hl. apply filter_none. intros v Hv. rewrite sort_Slice_perm in Hv. unfold is_due. by rewrite Hl.
Qed.

Lemma due_of_length now l :
  Z.of_nat (length l) = Z.of_nat (length (due_of now l)) + Z.of_nat (length (later_of now l)).
Proof. rewrite (due_split now l) at 1. rewrite length_app. lia. Qed.

(** Nothing is due when nothing is activated. *)
Lemma nothing_due `{MR : MapRange} snap now : (applyDueFeatureSignalContractsSnapshot snap now).2 = [] ->
  forall k, due_of now (items (ss_Scheduled snap) k) = [].
Proof.
  intros E k. pose proof (activated_total snap now) as Ht. rewrite E in Ht. cbn [length] in Ht.
  unfold items. destruct (ss_Scheduled snap !! k) as [l|] eqn:El; [|done].
  rewrite (total_delete _ k) in Ht. unfold items in Ht. rewrite lookup_fmap, El in Ht. cbn in Ht.
  assert (0 <= total (delete k (due_of now <$> ss_Scheduled snap))) as H0.
  { unfold total. generalize (map_to_list (delete k (due_of now <$> ss_Scheduled snap))).
    induction l0; simpl; lia. }
  apply length_zero_iff_nil. change (default [] (Some l)) with l. lia.
Qed.

Lemma nothing_activated `{MR : MapRange} snap now : (forall k, due_of now (items (ss_Scheduled snap) k) = []) ->
  (applyDueFeatureSignalContractsSnapshot snap now).2 = [].
Proof.
  intros E. apply length_zero_iff_nil. pose proof (activated_total snap now) as Ht.
  rewrite total_nil in Ht; [lia|]. intros k. unfold items. rewrite lookup_fmap. specialize (E k). unfold items in E.
  by destruct (ss_Scheduled snap !! k).
Qed.

(** A key after a run. *)
Record ran (now : time) (before after : key_state) : Prop := mk_ran {
  ran_active : ks_active after = match last (due_of now (ks_scheduled before)) with
    | Some v => Some (buildFeatureSignalContractFromVersion v) | None => ks_active before end;
  ran_left : ks_scheduled after ≡ₚ later_of now (ks_scheduled before);
  ran_versions : map fv_Version (ks_history after) = map fv_Version (ks_history before);
  ran_none : due_of now (ks_scheduled before) = [] -> ks_history after = ks_history before
}.

Lemma activates_versions now due : forall s,
  map fv_Version (ks_history (foldl (fun s v => activate_key v now s) s due)) = map fv_Version (ks_history s).
Proof.
  induction due as [|v due IH]; intros s; [done|]. simpl. rewrite IH. cbn. rewrite map_map. apply map_ext.
  intros x. unfold activate_version. by repeat case_match.
Qed.

Lemma due_ran now s : ran now s (due_key now s).
Proof.
  split; unfold due_key; cbn.
  - apply activates_active.
  - done.
  - apply activates_versions.
  - by intros ->.
Qed.

Lemma idle_ran now s : due_of now (ks_scheduled s) = [] -> ran now s s.
Proof.
  intros E. split; rewrite ?E; [done| |done|done]. by rewrite (due_split now (ks_scheduled s)) at 1; rewrite E.
Qed.

Section Outcome.
Context `{MR : MapRange} `{JsonMarshaler} `{FeatureSignalContractStore} {HL : StoreLaws _}.

Lemma scheduler_idle s st now worker clock wall :
  let at_ := if IsZero now then clock else now in
  (forall k, due_of at_ (items (s_featureSignalContractScheduled s) k) = []) ->
  RunFeatureSignalContractSchedulerWithWorker s st now worker clock wall =
  (s, st, mk_FeatureSignalContractSchedulerResult 0 (total (s_featureSignalContractScheduled s)) at_ "" []).
Proof.
  intros at_ Hd. unfold RunFeatureSignalContractSchedulerWithWorker; cbv zeta. fold at_.
  pose proof (nothing_activated (buildContractStoreSnapshotLocked s at_) at_ Hd) as Hn.
  destruct (applyDueFeatureSignalContractsSnapshot _ _) as [cand act]. cbn [snd] in Hn. subst act.
  by rewrite scheduled_total_eq.
Qed.

(** The three ways a run ends. *)
Lemma scheduler_outcome s st now worker clock wall :
  let at_ := if IsZero now then clock else now in
  let scheduled := s_featureSignalContractScheduled s in
  let out := RunFeatureSignalContractSchedulerWithWorker s st now worker clock wall in
  (forall k, due_of at_ (items scheduled k) = []) \/
  ((forall k, key_of (contracts_of out.1.1) k = due_key at_ (key_of (contracts_of s) k)) /\
   out.2 = mk_FeatureSignalContractSchedulerResult (total (due_of at_ <$> scheduled))
             (total (s_featureSignalContractScheduled out.1.1)) at_ "" []) \/
  (same_keys (contracts_of out.1.1) (contracts_of s) /\ (forall c, stored out.1.2 c <-> stored st c) /\
   sr_ErrorStatus out.2 = "store_sync_failed" /\ sr_Activated out.2 = 0 /\ sr_Pending out.2 = total scheduled).
Proof.
  cbv zeta. set (at_ := if IsZero now then clock else now).
  unfold RunFeatureSignalContractSchedulerWithWorker; cbv zeta. fold at_.
  pose proof (nothing_due (buildContractStoreSnapshotLocked s at_) at_) as Hn.
  pose proof (fun k => apply_due_key_of (buildContractStoreSnapshotLocked s at_) at_ k) as Hk.
  pose proof (activated_total (buildContractStoreSnapshotLocked s at_) at_) as Ht.
  destruct (applyDueFeatureSignalContractsSnapshot _ _) as [cand act]. cbn [fst snd] in *.
  destruct act as [|v l]; [by left; apply Hn|]. right.
  destruct (commitContractSnapshotLocked _ _ _ _) as [[s1 st1] [e|]] eqn:E; cbn [fst snd].
  - right. apply commit_failed in E as [-> Hst].
    match goal with |- same_keys (contracts_of (emitEvent ?a ?b ?c ?d ?k ?n ?s)) _ /\ _ =>
      pose proof (quiet_calm _ _ (emitEvent_quiet a b c d k n s)) as Q end.
    split; [by apply calm_contracts|]. split; [exact Hst|]. split_and!; [done|done|apply scheduled_total_eq].
  - left. apply commit_ok in E.
    match goal with |- context [foldl (emit_activated ?n ?w) ?s ?l] =>
      pose proof (emit_activated_calm n w l s) as Q; set (s2 := foldl (emit_activated n w) s l) in * end.
    destruct (committed_calm _ _ _ _ E Q) as [E1 _]. split.
    + intros k. rewrite (E1 k). exact (Hk k).
    + rewrite scheduled_total_eq, (cm_scheduled _ _ Q). f_equal. exact Ht.
Qed.
End Outcome.

(** C32: a run of the scheduler activates exactly what is due: either the store
    refuses it, nothing changes and everything is still pending; or for every
    key the last of its due versions, in order of activation time and version,
    becomes the contract in force (without due versions the key keeps its
    contract and history), only versions activated later stay scheduled, no
    version is added or lost, what was activated and what is pending add up to
    what was scheduled before, and running again at the same time changes
    nothing. *)
Theorem scheduler_effect `{MR : MapRange} `{JsonMarshaler} `{FeatureSignalContractStore} {HL : StoreLaws _}
    (s : Service) (st : option store_state) (now : time) (worker : string) (clock wall : time) :
  let at_ := if IsZero now then clock else now in
  let out := RunFeatureSignalContractSchedulerWithWorker s st now worker clock wall in
  let scheduled := s_featureSignalContractScheduled s in
  if (sr_ErrorStatus out.2 =? "")%string then
    (forall k, ran at_ (key_of (contracts_of s) k) (key_of (contracts_of out.1.1) k)) /\
    (forall k v, v ∈ items (s_featureSignalContractScheduled out.1.1) k -> After (fv_ActivationAt v) at_ = true) /\
    sr_Activated out.2 = total (due_of at_ <$> scheduled) /\
    sr_Activated out.2 + sr_Pending out.2 = total scheduled /\
    sr_Pending out.2 = total (s_featureSignalContractScheduled out.1.1) /\
    RunFeatureSignalContractSchedulerWithWorker out.1.1 out.1.2 now worker clock wall =
      (out.1.1, out.1.2, mk_FeatureSignalContractSchedulerResult 0 (sr_Pending out.2) at_ "" [])
  else
    same_keys (contracts_of out.1.1) (contracts_of s) /\ (forall c, stored out.1.2 c <-> stored st c) /\
    sr_Activated out.2 = 0 /\ sr_Pending out.2 = total scheduled.
Proof.
  cbv zeta. pose proof (scheduler_outcome s st now worker clock wall) as Ho. cbv zeta in Ho.
  pose proof (fun s st => scheduler_idle s st now worker clock wall) as Hidle. cbv zeta in Hidle.
  set (at_ := if IsZero now then clock else now) in *.
  destruct Ho as [Hd|[[Hk Hr]|(H1 & H2 & H3 & H4 & H5)]].
  - rewrite (Hidle s st Hd). cbn. split_and!; try done.
    + intros k. apply idle_ran, Hd.
    + intros k v. by apply due_none.
    + rewrite total_nil; [done|]. intros k. unfold items. rewrite lookup_fmap. specialize (Hd k). unfold items in Hd.
      by destruct (s_featureSignalContractScheduled s !! k).
    + apply (Hidle s st Hd).
  - set (out := RunFeatureSignalContractSchedulerWithWorker s st now worker clock wall) in *.
    rewrite Hr. cbn [sr_ErrorStatus sr_Activated sr_Pending].
    change ("" =? "")%string with true. cbv iota.
    assert (Hi : forall k, items (s_featureSignalContractScheduled out.1.1) k =
      later_of at_ (items (s_featureSignalContractScheduled s) k)) by (intros k; exact (f_equal ks_scheduled (Hk k))).
    assert (Hl : forall k v, v ∈ items (s_featureSignalContractScheduled out.1.1) k -> After (fv_ActivationAt v) at_ = true).
    { intros k v. rewrite Hi. apply later_after. }
    split_and!; [|done|done| |done|].
    + intros k. rewrite Hk. apply due_ran.
    + symmetry. by apply (total_split (due_of at_) (later_of at_)); [|apply due_of_length|].
    + apply Hidle. intros k. apply due_none, Hl.
  - rewrite H3. by split_and!.
Qed.

Lemma scheduler_effect_witness :
  let out := RunFeatureSignalContractSchedulerWithWorker (H := canonical_range) k3 st3 (dec_t0 + 60 * Second) "w"
               t3 t3 in
  (sr_ErrorStatus out.2 =? "")%string = true /\ sr_Activated out.2 = 1 /\ sr_Pending out.2 = 0 /\
  forall k v, v ∈ items (s_featureSignalContractScheduled out.1.1) k ->
    After (fv_ActivationAt v) (dec_t0 + 60 * Second) = true.
Proof.
  cbv zeta. set (out := RunFeatureSignalContractSchedulerWithWorker _ _ _ _ _ _).
  assert (E : (sr_ErrorStatus out.2 =? "")%string = true) by (vm_compute; reflexivity).
  pose proof (scheduler_effect (MR := canonical_range) (HL := memory_laws) k3 st3 (dec_t0 + 60 * Second) "w" t3 t3) as P.
  cbv zeta in P. fold out in P. rewrite E in P.
  split; [exact E|]. split; [vm_compute; reflexivity|]. split; [vm_compute; reflexivity|].
  exact (proj1 (proj2 P)).
Defined.
