(* ===== verification/CtlRegistryTheorems.v ===== *)
(** * Theorems about the feature registry

    The invariant of the registry along any sequence of calls, that registered
    versions never change, how an active version moves, when a snapshot is
    fresh, and what the dependency graph contains. *)

From S2P Require Import Prelude GoStrings Sha256 GoTime GoJson DecTypes DecJson DecPolicy.
From S2P Require Import DecContracts DecKernel DecFrame DecApproval CtlTypes CtlContracts CtlFeatures CtlInvariant.
#[local] Open Scope Z_scope.

Lemma any_empty_false l x : any_empty l = false -> x ∈ l -> x <> "".
Proof.
  intros He Hx ->. apply list_elem_of_In in Hx. apply not_true_iff_false in He. apply He, existsb_exists.
  by exists "".
Qed.

Section Registry.
Context `{JsonMarshaler}.

(** The calls of the registry that change it. *)
Inductive reg_call :=
| RegDefine (q : FeatureDefinitionCreateRequest)
| RegVersion (featureID : string) (q : FeatureVersionCreateRequest)
| RegPublish (featureID : string) (q : FeatureVersionPublishRequest)
| RegRollback (featureID : string) (q : FeatureRollbackRequest)
| RegSnapshot (q : FeatureSnapshotBuildRequest).

Definition reg_exec (c : Control) (call : reg_call) (now : time) : Control :=
  match call with
  | RegDefine q => (CreateFeatureDefinition c q now).1
  | RegVersion f q => (CreateFeatureVersion c f q now).1
  | RegPublish f q => (PublishFeatureVersion c f q now).1
  | RegRollback f q => (RollbackFeature c f q now).1
  | RegSnapshot q => (BuildFeatureSnapshot c q now).1
  end.

Definition reg_run (c : Control) (l : list (reg_call * time)) : Control :=
  foldl (fun c x => reg_exec c x.1 x.2) c l.

(** A registered version, whatever the feature. *)
Definition registered (c : Control) (f v : string) : option FeatureVersion := versions_of c f !! v.

Record RegInv (c : Control) : Prop := mk_RegInv {
  ri_definition : forall f d, c_featureDefinitions c !! f = Some d ->
    fd_FeatureID d = f /\ f <> "" /\
    (fd_ActiveVersion d = "" \/ is_Some (registered c f (fd_ActiveVersion d)));
  ri_version : forall f v x, registered c f v = Some x ->
    ver_FeatureID x = f /\ ver_Version x = v /\ v <> "" /\
    exists d, c_featureDefinitions c !! f = Some d /\ sameScope (ver_Scope x) (fd_Scope d) = true /\
              fd_ActiveVersion d <> "";
  ri_snapshot : forall i sn, c_featureSnapshots c !! i = Some sn ->
    sn_SnapshotID sn = i /\ 0 < sn_TTLMS sn /\
    exists x, registered c (sn_FeatureID sn) (sn_FeatureVersion sn) = Some x /\
              ver_ProducerID x = sn_ProducerID sn /\ sameScope (sn_Scope sn) (ver_Scope x) = true;
  ri_rollback : forall f r, r ∈ items (c_featureRollbacks c) f ->
    rb_FeatureID r = f /\ is_Some (registered c f (rb_TargetVersion r))
}.

(** ** Frames *)

(** A change of the service, or of maps the registry does not read. *)
Definition same_registry (c c' : Control) : Prop :=
  c_featureDefinitions c' = c_featureDefinitions c /\
  (forall f v, registered c' f v = registered c f v) /\
  c_featureSnapshots c' = c_featureSnapshots c /\ c_featureRollbacks c' = c_featureRollbacks c.

#[export] Instance same_registry_preorder : PreOrder same_registry.
Proof.
  split; [intros c; by split_and!|]. intros a b c (A1 & A2 & A3 & A4) (B1 & B2 & B3 & B4).
  split_and!; try congruence; intros; by rewrite B2.
Qed.

Lemma RegInv_same c c' : same_registry c c' -> RegInv c -> RegInv c'.
Proof.
  intros (E1 & E2 & E3 & E4) [H1 H2 H3 H4]. split; rewrite ?E1, ?E3, ?E4.
  - intros f d Hd. rewrite E2. by apply H1.
  - intros f v x. rewrite E2. intros Hx. by apply H2.
  - intros i sn Hs. setoid_rewrite E2. by apply H3.
  - intros f r Hr. rewrite E2. by apply H4.
Qed.

Lemma emit_same ty kvs now c : same_registry c (emit_control ty kvs now c).
Proof. done. Qed.

Lemma svc_same s c : same_registry c (c_set_svc s c).
Proof. done. Qed.

(** Definitions put under their own name. *)
Lemma RegInv_put c f d : RegInv c -> fd_FeatureID d = f -> f <> "" ->
  (fd_ActiveVersion d = "" \/ is_Some (registered c f (fd_ActiveVersion d))) ->
  (forall v x, registered c f v = Some x -> sameScope (ver_Scope x) (fd_Scope d) = true /\ fd_ActiveVersion d <> "") ->
  RegInv (put_definition d f c).
Proof.
  intros [H1 H2 H3 H4] Hd Hf Ha Hv. split; try done.
  - intros g e. cbn. intros He. destruct (decide (g = f)) as [->|Hne].
    + rewrite lookup_insert_eq in He. injection He as <-. by split_and!.
    + rewrite lookup_insert_ne in He by done. by apply H1.
  - intros g v x Hx. destruct (H2 g v x Hx) as (G1 & G2 & G3 & e & G4 & G5). split_and!; [done..|].
    cbn. destruct (decide (g = f)) as [->|Hne].
    + exists d. rewrite lookup_insert_eq. split; [done|]. by apply (Hv v).
    + exists e. by rewrite lookup_insert_ne.
Qed.

(** The definition that the checks answer is the stored one. *)
Lemma find_feature_ok c f scope d : find_feature c f scope = Ok d ->
  c_featureDefinitions c !! f = Some d /\ f <> "" /\ sameScope scope (fd_Scope d) = true.
Proof.
  unfold find_feature. destruct (f =? "")%string eqn:Ef; [done|]. destruct (scope_invalid _ _); [done|].
  destruct (c_featureDefinitions c !! f); [|done]. destruct (sameScope _ _) eqn:Es; [|done].
  intros [= <-]. split_and!; [done| |done]. by apply String.eqb_neq.
Qed.

Lemma find_target_ok c f v reason scope code rc d : find_target c f v reason scope code rc = Ok d ->
  c_featureDefinitions c !! f = Some d /\ f <> "" /\ v <> "" /\ is_Some (registered c f v).
Proof.
  unfold find_target. destruct (any_empty [f; v; reason]) eqn:Ee; [done|].
  destruct (find_feature c f scope) as [d'|] eqn:Ed; [|done]. apply find_feature_ok in Ed as (E1 & E2 & E3).
  destruct (versions_of c f !! v) eqn:Ev; [|done]. intros [= <-]. split_and!; [done|done| |by eexists].
  apply (any_empty_false _ _ Ee). by right; left.
Qed.

Lemma RegInv_activate c f v now d : RegInv c -> c_featureDefinitions c !! f = Some d -> v <> "" ->
  is_Some (registered c f v) -> RegInv (activate_target d f v now c).
Proof.
  intros HI Hd Hv Hr. destruct (ri_definition c HI f d Hd) as (E1 & E2 & _).
  apply RegInv_put; [done|by cbn|done|by right|].
  intros w x Hx. destruct (ri_version c HI f w x Hx) as (_ & _ & _ & d' & E3 & E4 & _). simplify_eq. by split.
Qed.

(** ** Every call keeps the invariant and every registered version *)

Definition grows (c c' : Control) : Prop :=
  forall f v x, registered c f v = Some x -> registered c' f v = Some x.

Definition kept_by (c c' : Control) : Prop := RegInv c -> RegInv c' /\ grows c c'.

Lemma kept_same c c1 c' : kept_by c c1 -> same_registry c1 c' -> kept_by c c'.
Proof.
  intros K S HI. destruct (K HI) as [HI1 G]. split; [by apply (RegInv_same c1)|].
  intros f v x Hx. destruct S as (_ & E & _). rewrite E. by apply G.
Qed.

Lemma kept_refl c : kept_by c c.
Proof. intros HI. split; [done|]. by intros f v x. Qed.

Lemma define_kept c q now : kept_by c (CreateFeatureDefinition c q now).1.
Proof.
  unfold CreateFeatureDefinition; cbv zeta. destruct (any_empty _) eqn:Ee; [apply kept_refl|].
  destruct (scope_invalid _ _); [apply kept_refl|].
  destruct (c_featureDefinitions c !! _) eqn:Ed; [apply kept_refl|]. cbn [fst].
  eapply kept_same; [|apply emit_same]. intros HI. split; [|by intros f v x].
  apply RegInv_put; cbn; [done|done| |by left|].
  - apply (any_empty_false _ _ Ee). by left.
  - intros v x Hx. destruct (ri_version c HI _ _ _ Hx) as (_ & _ & _ & d & Hd & _). congruence.
Qed.

Lemma add_registered d v now c g w : registered (add_version d v now c) g w =
  if decide (g = ver_FeatureID v /\ w = ver_Version v) then Some v else registered c g w.
Proof.
  assert (E : registered (add_version d v now c) g w =
    default ∅ (<[ver_FeatureID v := <[ver_Version v := v]> (versions_of c (ver_FeatureID v))]>
                 (c_featureVersions c) !! g) !! w).
  { unfold registered, add_version, versions_of; cbv zeta. by case_match. }
  rewrite E. destruct (decide (g = ver_FeatureID v)) as [->|Hg].
  - rewrite lookup_insert_eq. cbn. destruct (decide (w = ver_Version v)) as [->|Hw].
    + by rewrite lookup_insert_eq, decide_True.
    + rewrite lookup_insert_ne by done. by rewrite decide_False by tauto.
  - rewrite lookup_insert_ne by done. by rewrite decide_False by tauto.
Qed.

(** A definition after a version was added: only the feature's active version
    may have changed, and it has one. *)
Lemma add_definition d v now c f e : c_featureDefinitions c !! ver_FeatureID v = Some d ->
  c_featureDefinitions (add_version d v now c) !! f = Some e ->
  exists e0, c_featureDefinitions c !! f = Some e0 /\
    fd_FeatureID e = fd_FeatureID e0 /\ fd_Scope e = fd_Scope e0 /\
    (f = ver_FeatureID v -> fd_ActiveVersion e <> "" \/ fd_ActiveVersion e = ver_Version v) /\
    (fd_ActiveVersion e = fd_ActiveVersion e0 \/ f = ver_FeatureID v /\ fd_ActiveVersion e = ver_Version v).
Proof.
  intros Hd. unfold add_version; cbv zeta. destruct (blank (fd_ActiveVersion d)) eqn:Eb; cbn.
  - destruct (decide (f = ver_FeatureID v)) as [->|Hf].
    + rewrite lookup_insert_eq. intros [= <-]. exists d. split_and!; try done; by right.
    + rewrite lookup_insert_ne by done. intros He. exists e. split_and!; [done..|by left].
  - intros He. exists e. split_and!; [done..| |by left]. intros ->. rewrite Hd in He. injection He as <-.
    left. intros E. by rewrite E in Eb.
Qed.

Lemma add_kept d v now c : c_featureDefinitions c !! ver_FeatureID v = Some d ->
  sameScope (ver_Scope v) (fd_Scope d) = true -> ver_Version v <> "" ->
  registered c (ver_FeatureID v) (ver_Version v) = None -> kept_by c (add_version d v now c).
Proof.
  intros Hd Hs Hv Hn HI. pose proof (add_registered d v now c) as Hreg.
  assert (G : grows c (add_version d v now c)).
  { intros f w x Hx. rewrite Hreg. destruct (decide _) as [[-> ->]|]; [congruence|done]. }
  split; [|done]. destruct HI as [H1 H2 H3 H4]. set (c' := add_version d v now c) in *.
  pose proof (fun f e => add_definition d v now c f e Hd) as Hdef. fold c' in Hdef.
  split.
  - intros f e He. destruct (Hdef f e He) as (e0 & G1 & G2 & G3 & _ & G4). destruct (H1 f e0 G1) as (K1 & K2 & K3).
    split_and!; [congruence|done|]. destruct G4 as [G4|[-> G4]]; rewrite G4.
    + destruct K3 as [K3|[x K3]]; [by left|right]. exists x. by apply G.
    + right. rewrite Hreg, decide_True by done. by eexists.
  - intros f w x Hx.
    assert (Hx' : ver_FeatureID x = f /\ ver_Version x = w /\ w <> "" /\
      exists d0, c_featureDefinitions c !! f = Some d0 /\ sameScope (ver_Scope x) (fd_Scope d0) = true /\
        (fd_ActiveVersion d0 <> "" \/ f = ver_FeatureID v)).
    { rewrite Hreg in Hx. destruct (decide _) as [[-> ->]|].
      - injection Hx as <-. split_and!; [done..|]. exists d. split_and!; [done..|by right].
      - destruct (H2 f w x Hx) as (? & ? & ? & d0 & ? & ? & ?). split_and!; [done..|]. exists d0.
        split_and!; [done..|by left]. }
    destruct Hx' as (K1 & K2 & K3 & d0 & K4 & K5 & K6). split_and!; [done..|].
    assert (is_Some (c_featureDefinitions c' !! f)) as [e He].
    { unfold c', add_version; cbv zeta. destruct (blank _); cbn; [|by rewrite K4].
      destruct (decide (f = ver_FeatureID v)) as [->|]; [by rewrite lookup_insert_eq|].
      rewrite lookup_insert_ne by done. by rewrite K4. }
    destruct (Hdef f e He) as (e0 & G1 & _ & G3 & G5 & G4). exists e. simplify_eq.
    split_and!; [done|by rewrite G3|]. destruct K6 as [K6|K6]; [|by destruct (G5 K6) as [?| ->]].
    destruct G4 as [G4|[_ G4]]; by rewrite G4.
  - intros i sn Hs2. replace (c_featureSnapshots c') with (c_featureSnapshots c) in Hs2
      by (unfold c', add_version; cbv zeta; by case_match).
    destruct (H3 i sn Hs2) as (K1 & K2 & x & K3 & K4). split_and!; [done..|]. exists x. split; [by apply G|done].
  - intros f r Hr. replace (c_featureRollbacks c') with (c_featureRollbacks c) in Hr
      by (unfold c', add_version; cbv zeta; by case_match).
    destruct (H4 f r Hr) as (K1 & x & K2). split; [done|]. exists x. by apply G.
Qed.

Lemma version_kept c f q now : kept_by c (CreateFeatureVersion c f q now).1.
Proof.
  unfold CreateFeatureVersion; cbv zeta. destruct (any_empty _) eqn:Ee; [apply kept_refl|].
  destruct (scope_invalid _ _); [apply kept_refl|].
  destruct (c_featureDefinitions c !! _) as [d|] eqn:Ed; [|apply kept_refl].
  destruct (negb _) eqn:Es; [apply kept_refl|].
  set (c1 := c_set_featureVersions _ c). assert (S : same_registry c c1).
  { split_and!; [done| |done|done]. intros g w. unfold registered, versions_of, c1; cbn.
    destruct (decide (g = normalizeFeatureID f)) as [->|]; [by rewrite lookup_insert_eq|by rewrite lookup_insert_ne]. }
  assert (K1 : kept_by c c1) by (eapply kept_same; [apply kept_refl|done]).
  destruct (versions_of c1 _ !! _) eqn:Ev; [done|]. cbn [fst]. eapply kept_same; [|apply emit_same].
  intros HI. destruct (K1 HI) as [HI1 G1]. apply negb_false_iff in Es.
  match goal with |- context [add_version d ?v now c1] => destruct (add_kept d v now c1) as [HI2 G2] end;
    [exact Ed|exact Es| |exact Ev|done|].
  - apply (any_empty_false _ _ Ee). by right; left.
  - split; [done|]. intros g w x Hx. by apply G2, G1.
Qed.

Lemma publish_kept c f q now : kept_by c (PublishFeatureVersion c f q now).1.
Proof.
  unfold PublishFeatureVersion; cbv zeta. destruct (find_target _ _ _ _ _ _ _) as [d|] eqn:Ed; [|apply kept_refl].
  apply find_target_ok in Ed as (E1 & E2 & E3 & E4). cbn [fst]. eapply kept_same; [|apply emit_same].
  intros HI. split; [by apply RegInv_activate|by intros g v x].
Qed.

Lemma rollback_kept c f q now : kept_by c (RollbackFeature c f q now).1.
Proof.
  unfold RollbackFeature; cbv zeta. destruct (find_target _ _ _ _ _ _ _) as [d|] eqn:Ed; [|apply kept_refl].
  apply find_target_ok in Ed as (E1 & E2 & E3 & E4). destruct (nextFallbackID _ _) as [s rollbackID]. cbn [fst].
  eapply kept_same; [|apply emit_same]. intros HI. split; [|by intros g v x].
  assert (HI1 : RegInv (c_set_svc s c)) by (by apply (RegInv_same c)).
  destruct (RegInv_activate _ _ _ now d HI1 E1 E3 E4) as [H1 H2 H3 H4]. split; [exact H1|exact H2|exact H3|].
  intros g r. cbn. rewrite items_append. destruct (decide (g = normalizeFeatureID f)) as [->|]; [|apply H4].
  rewrite elem_of_app, list_elem_of_singleton. intros [Hr| ->]; [by apply H4|by split].
Qed.

Lemma snapshot_version_ok c f v p scope x : snapshot_version c f v p scope = Ok x ->
  registered c f v = Some x /\ sameScope scope (ver_Scope x) = true /\ ver_ProducerID x = p.
Proof.
  unfold snapshot_version, registered, versions_of. destruct (c_featureVersions c !! f) as [m|]; [|done].
  change (default ∅ (Some m)) with m.
  destruct (m !! v) as [y|]; [|done]. destruct (sameScope _ _) eqn:Es; [|done].
  destruct (p =? ver_ProducerID y)%string eqn:Ep; [|done]. intros [= <-].
  split_and!; [done|done|]. symmetry. by apply String.eqb_eq.
Qed.

Lemma snapshot_kept c q now : kept_by c (BuildFeatureSnapshot c q now).1.
Proof.
  unfold BuildFeatureSnapshot; cbv zeta. destruct (any_empty _); [apply kept_refl|].
  destruct (scope_invalid _ _); [apply kept_refl|]. destruct (Z.leb_spec (bq_TTLMS q) 0); [apply kept_refl|].
  destruct (snapshot_version _ _ _ _ _) as [x|] eqn:Ex; [|apply kept_refl].
  apply snapshot_version_ok in Ex as (E1 & E2 & E3).
  destruct (makeBestEffortID _ _ _) as [s [snapshotID ok]]. destruct (sign_snapshot _ s) as [s2 signature]. cbn [fst].
  eapply kept_same; [|apply emit_same]. intros HI. split; [|by intros g w y].
  destruct HI as [H1 H2 H3 H4]. split; [exact H1|exact H2| |exact H4].
  intros i sn. cbn. destruct (decide (i = snapshotID)) as [->|].
  - rewrite lookup_insert_eq. intros [= <-]. cbn. split_and!; [done|lia|]. by exists x.
  - rewrite lookup_insert_ne by done. apply H3.
Qed.

Lemma reg_exec_kept call now c : kept_by c (reg_exec c call now).
Proof.
  destruct call; [apply define_kept|apply version_kept|apply publish_kept|apply rollback_kept|apply snapshot_kept].
Qed.

Lemma reg_run_kept l : forall c, kept_by c (reg_run c l).
Proof.
  induction l as [|x l IH]; intros c; [apply kept_refl|]. cbn [reg_run foldl]. intros HI.
  destruct (reg_exec_kept x.1 x.2 c HI) as [HI1 G1]. destruct (IH _ HI1) as [HI2 G2]. split; [exact HI2|].
  intros f v y Hy. by apply G2, G1.
Qed.

(** A control plane without features. *)
Definition no_features (s : Service) : Control := mk_Control s ∅ ∅ ∅ ∅ ∅ ∅.

Lemma no_features_inv s : RegInv (no_features s).
Proof.
  split.
  - intros f d. cbn. by rewrite lookup_empty.
  - intros f v x. unfold registered, versions_of; cbn. by rewrite lookup_empty.
  - intros i sn. cbn. by rewrite lookup_empty.
  - intros f r. unfold items; cbn. rewrite lookup_empty. intros Hr. by apply not_elem_of_nil in Hr.
Qed.
End Registry.

(** The feature registry stays consistent along any sequence of its calls:
    a definition is filed under its own name and its active version, once it
    has one, is a registered version; versions are filed under their feature
    and number, in the scope of a defined feature that then has an active
    version; snapshots are filed under their identifier, with a positive
    lifetime, and were built from a registered version of the same producer
    and scope; every rollback went to a registered version.  A version once
    registered is never changed or removed. *)
Theorem registry_consistent `{JsonMarshaler} (s : Service) (before after : list (reg_call * time)) :
  let c := reg_run (no_features s) before in
  let c' := reg_run c after in
  RegInv c' /\ (forall f v x, registered c f v = Some x -> registered c' f v = Some x).
Proof.
  cbv zeta. destruct (reg_run_kept before _ (no_features_inv s)) as [HI _].
  by destruct (reg_run_kept after _ HI).
Qed.

(** ** Moving the active version *)

Section Moves.
Context `{JsonMarshaler}.

Lemma publish_feature_ok c f q now r : (PublishFeatureVersion c f q now).2 = Ok r ->
  exists d c1, c_featureDefinitions c !! normalizeFeatureID f = Some d /\
    normalizeVersion (uq_TargetVersion q) <> "" /\
    is_Some (registered c (normalizeFeatureID f) (normalizeVersion (uq_TargetVersion q))) /\
    r = mk_FeatureVersionPublishResponse (normalizeFeatureID f) (fd_ActiveVersion d)
          (normalizeVersion (uq_TargetVersion q)) true now /\
    c1 = activate_target d (normalizeFeatureID f) (normalizeVersion (uq_TargetVersion q)) now c /\
    same_registry c1 (PublishFeatureVersion c f q now).1.
Proof.
  unfold PublishFeatureVersion; cbv zeta. destruct (find_target _ _ _ _ _ _ _) as [d|] eqn:Ed; [|done].
  apply find_target_ok in Ed as (E1 & E2 & E3 & E4). cbn [fst snd]. intros [= <-].
  eexists d, _. split_and!; try done.
Qed.

Lemma rollback_feature_ok c f q now r : (RollbackFeature c f q now).2 = Ok r ->
  exists d c1, c_featureDefinitions c !! normalizeFeatureID f = Some d /\
    rb_PreviousVersion r = fd_ActiveVersion d /\ rb_TargetVersion r = normalizeVersion (wq_TargetVersion q) /\
    c1 = (activate_target d (normalizeFeatureID f) (normalizeVersion (wq_TargetVersion q)) now c
            |> c_set_featureRollbacks (append_item (normalizeFeatureID f) r (c_featureRollbacks c))) /\
    same_registry c1 (RollbackFeature c f q now).1.
Proof.
  unfold RollbackFeature; cbv zeta. destruct (find_target _ _ _ _ _ _ _) as [d|] eqn:Ed; [|done].
  apply find_target_ok in Ed as (E1 & E2 & E3 & E4). destruct (nextFallbackID _ _) as [s rollbackID].
  cbn [fst snd]. intros [= <-]. eexists d, _. split_and!; done.
Qed.
End Moves.

(** Publishing a feature version and rolling it back: a publication makes a
    registered version active and answers which one was active before; rolling
    back to that one makes it active again and records the move last, with both
    versions; nothing else in the registry changes. *)
Theorem publish_then_rollback_feature `{JsonMarshaler} (c : Control) (f : string)
    (q : FeatureVersionPublishRequest) (rq : FeatureRollbackRequest) (now now2 : time)
    (r : FeatureVersionPublishResponse) (record : FeatureRollbackRecord) (d : FeatureDefinition) :
  let out := PublishFeatureVersion c f q now in
  let back := RollbackFeature out.1 f rq now2 in
  let id := normalizeFeatureID f in
  c_featureDefinitions c !! id = Some d ->
  out.2 = Ok r -> back.2 = Ok record -> normalizeVersion (wq_TargetVersion rq) = up_PreviousVersion r ->
  up_PreviousVersion r = fd_ActiveVersion d /\
  c_featureDefinitions out.1 !! id =
    Some (d |> fd_set_ActiveVersion (normalizeVersion (uq_TargetVersion q)) |> fd_set_UpdatedAt now) /\
  c_featureDefinitions back.1 !! id = Some (d |> fd_set_UpdatedAt now2) /\
  rb_PreviousVersion record = normalizeVersion (uq_TargetVersion q) /\
  rb_TargetVersion record = fd_ActiveVersion d /\
  last (items (c_featureRollbacks back.1) id) = Some record /\
  (forall g, g <> id -> c_featureDefinitions back.1 !! g = c_featureDefinitions c !! g) /\
  (forall g v, registered back.1 g v = registered c g v).
Proof.
  cbv zeta. set (id := normalizeFeatureID f). intros Hd Ep Eb Ht.
  destruct (publish_feature_ok c f q now r Ep) as (d1 & c1 & D1 & _ & _ & R1 & C1 & S1 & V1 & _ & B1).
  set (out := PublishFeatureVersion c f q now) in *. fold id in D1, C1, R1. rewrite Hd in D1. injection D1 as <-.
  destruct (rollback_feature_ok out.1 f rq now2 record Eb) as (d2 & c2 & D2 & R2 & R3 & C2 & S2 & V2 & _ & B2).
  set (back := RollbackFeature out.1 f rq now2) in *. fold id in D2, C2.
  rewrite S1, C1 in D2. cbn in D2. rewrite lookup_insert_eq in D2. injection D2 as <-.
  rewrite R1 in Ht. cbn in Ht.
  split_and!.
  - by rewrite R1.
  - rewrite S1, C1. cbn. by rewrite lookup_insert_eq.
  - rewrite S2, C2. cbn. rewrite lookup_insert_eq, Ht. by destruct d.
  - exact R2.
  - by rewrite R3, Ht.
  - rewrite B2, C2. cbn. rewrite items_append, decide_True by done. apply last_snoc.
  - intros g Hg. rewrite S2, C2. cbn. rewrite lookup_insert_ne, S1, C1 by done. cbn. by rewrite lookup_insert_ne.
  - intros g v. rewrite V2, C2. change (registered out.1 g v = registered c g v). by rewrite V1, C1.
Qed.

(** ** Freshness *)

Section Fresh.
Context `{JsonMarshaler}.

Lemma built_ok c q now sn : (BuildFeatureSnapshot c q now).2 = Ok sn ->
  let out := (BuildFeatureSnapshot c q now).1 in
  c_featureSnapshots out !! sn_SnapshotID sn = Some sn /\ sn_SnapshotID sn <> "" /\
  sn_Scope sn = normalizeScope (bq_Scope q) /\ scope_invalid "FEATURE_SCOPE_INVALID" (normalizeScope (bq_Scope q)) = None /\
  sn_TTLMS sn = bq_TTLMS q /\ 0 < bq_TTLMS q /\
  sn_FreshnessTS sn = (if IsZero (bq_FreshnessTS q) then now else bq_FreshnessTS q).
Proof.
  unfold BuildFeatureSnapshot; cbv zeta. destruct (any_empty _); [done|]. destruct (scope_invalid _ _); [done|].
  destruct (Z.leb_spec (bq_TTLMS q) 0); [done|]. destruct (snapshot_version _ _ _ _ _); [|done].
  destruct (makeBestEffortID _ _ _) as [s [snapshotID ok]] eqn:Ei. destruct (sign_snapshot _ s) as [s2 signature].
  cbn [fst snd]. intros [= <-]. cbn. rewrite lookup_insert_eq. split_and!; try done.
  revert Ei. unfold makeBestEffortID. destruct (safeHash _); [by intros [= _ <- _]|].
  destruct (nextFallbackID "fs_" (c_svc c)) as [s3 i] eqn:En. intros [= _ <- _]. revert En. unfold nextFallbackID.
  cbv zeta. intros [= _ <-]. done.
Qed.

Lemma fresh_age t u ttl : 0 < ttl -> t - u <= max_int64 ->
  ((if Milliseconds (Sub t u) <? 0 then 0 else Milliseconds (Sub t u)) <=? ttl) =
  (t - u <? (ttl + 1) * 1000000).
Proof.
  intros Httl Hd. unfold Milliseconds, Sub. unfold max_int64, min_int64 in *.
  apply eq_iff_eq_true. rewrite Z.leb_le, Z.ltb_lt.
  set (d := Z.max _ _). assert (Hs : d = t - u \/ (d < 0 /\ t - u < 0)) by lia. clearbody d.
  assert (Hq : 0 <= d -> d ÷ 1000000 <= ttl <-> d < (ttl + 1) * 1000000).
  { intros H0. rewrite Z.quot_div_nonneg by lia. pose proof (Z.div_mod d 1000000). pose proof (Z.mod_pos_bound d 1000000).
    split; intros; nia. }
  assert (Hn : d < 0 -> d ÷ 1000000 <= 0).
  { intros H0. replace d with (- (- d)) by lia. rewrite Z.quot_opp_l by lia. pose proof (Z.quot_pos (- d) 1000000). lia. }
  destruct (Z.ltb_spec (d ÷ 1000000) 0), (Z_lt_le_dec d 0); try (specialize (Hn ltac:(lia))); try lia.
Qed.
End Fresh.

(** A snapshot is fresh for its lifetime: right after it was built, a check
    of its freshness in the same scope, at any given time less than 292 years
    later, succeeds, and answers "fresh, allow" exactly until its lifetime, in
    whole milliseconds, is over, counted from its freshness timestamp; after
    that it answers "stale" with an action of the risk tier, never "allow". *)
Theorem snapshot_freshness `{JsonMarshaler} (c : Control) (q : FeatureSnapshotBuildRequest)
    (sn : FeatureSnapshot) (now now2 : time) (hq : FeatureSnapshotFreshnessValidateRequest) :
  let fresh_from := if IsZero (bq_FreshnessTS q) then now else bq_FreshnessTS q in
  (BuildFeatureSnapshot c q now).2 = Ok sn ->
  TrimSpace (hq_SnapshotID hq) = sn_SnapshotID sn -> hq_Scope hq = bq_Scope q ->
  IsZero (hq_At hq) = false -> hq_At hq - fresh_from <= max_int64 ->
  exists r, ValidateFeatureSnapshotFreshness (BuildFeatureSnapshot c q now).1 hq now2 = Ok r /\
    hp_Stale r = negb (hp_Fresh r) /\
    (hp_Fresh r = true <-> hq_At hq - fresh_from < (bq_TTLMS q + 1) * 1000000) /\
    (hp_RequiredAction r = "allow" <-> hp_Fresh r = true).
Proof.
  cbv zeta. intros Eb Ei Es Ez Hd.
  destruct (built_ok c q now sn Eb) as (B1 & B2 & B3 & B4 & B5 & B6 & B7).
  unfold ValidateFeatureSnapshotFreshness; cbv zeta. rewrite Ei, Es, Ez, B1, B4, B3, B5.
  apply String.eqb_neq in B2. rewrite B2.
  replace (sameScope _ _) with true by (symmetry; apply String.eqb_refl). cbn [negb].
  rewrite B7, fresh_age by done. set (at0 := if IsZero (bq_FreshnessTS q) then now else bq_FreshnessTS q).
  setoid_rewrite <- Z.ltb_lt. destruct (hq_At hq - at0 <? (bq_TTLMS q + 1) * 1000000).
  - eexists. split; [reflexivity|]. by cbn.
  - destruct (stale_answer (hq_RiskTier hq)) as [reason action] eqn:Ea. eexists. split; [reflexivity|]. cbn.
    split_and!; [done|done|]. split; [|done]. intros ->. revert Ea. unfold stale_answer; cbv zeta.
    by repeat case_match.
Qed.
