(* ===== verification/CtlGraphTheorems.v ===== *)
(** * Theorems about the dependency graph and the enforcement matrix

    With the witnesses of the registry theorems. *)

From S2P Require Import Prelude GoStrings Sha256 GoTime GoJson DecTypes DecJson DecPolicy.
From S2P Require Import DecContracts DecKernel DecFrame DecExamples CtlTypes CtlContracts.
From S2P Require Import CtlFeatures CtlHealth CtlInvariant CtlRegistryTheorems.

#[local] Open Scope Z_scope.

(** ** The dependency graph *)

Abbreviation graph := (list string * list FeatureDependencyEdge * list string)%type.

Definition edge_key (e : FeatureDependencyEdge) : string := Join [de_From e; de_To e] "->".

(** Nodes, edges and the keys of edges while the graph is built. *)
Record graph_ok (g : graph) : Prop := mk_graph_ok {
  go_closed : forall e, e ∈ g.1.2 -> de_From e ∈ g.1.1 /\ de_To e ∈ g.1.1;
  go_seen : forall k, k ∈ g.2 <-> exists e, e ∈ g.1.2 /\ edge_key e = k;
  go_once : NoDup (map edge_key g.1.2)
}.

Definition extends (g g' : graph) : Prop := g.1.1 ⊆ g'.1.1 /\ g.2 ⊆ g'.2.

#[export] Instance extends_preorder : PreOrder extends.
Proof. split; [intros g; split; set_solver|]. intros g1 g2 g3 [] []. split; set_solver. Qed.

Lemma one_of_elem s l : one_of s l = true <-> s ∈ l.
Proof. rewrite one_of_In. symmetry. apply list_elem_of_In. Qed.

Lemma add_upstream_ok from der g up : graph_ok g -> from ∈ g.1.1 ->
  let g' := add_upstream from der g up in
  graph_ok g' /\ extends g g' /\ up ∈ g'.1.1 /\ Join [from; up] "->" ∈ g'.2.
Proof.
  destruct g as [[nodes edges] seen]. intros [H1 H2 H3] Hf. cbn [fst snd] in *. unfold add_upstream; cbv zeta.
  set (k := Join [from; up] "->"). destruct (one_of k seen) eqn:Ek; cbn [fst snd].
  - apply one_of_elem in Ek. split_and!; [split; cbn [fst snd]|split; cbn [fst snd]; set_solver|set_solver|done]; try done.
    intros e He. destruct (H1 e He). set_solver.
  - assert (Hn : k ∉ seen) by (intros Hk; apply one_of_elem in Hk; congruence).
    split_and!; [split; cbn [fst snd]|split; cbn [fst snd]; set_solver|set_solver|set_solver].
    + intros e. rewrite elem_of_app, list_elem_of_singleton. intros [He| ->]; [destruct (H1 e He); set_solver|].
      cbn. set_solver.
    + intros k'. rewrite elem_of_app, list_elem_of_singleton, H2. split.
      * intros [(e & He & Hk)| ->]; [exists e; set_solver|].
        exists (mk_FeatureDependencyEdge from up der). split; [set_solver|done].
      * intros (e & He & Hk). apply elem_of_app in He as [He|He]; [left; by exists e|].
        apply list_elem_of_singleton in He as ->. by right.
    + rewrite map_app. apply NoDup_app. split_and!; [done| |apply NoDup_singleton].
      intros x Hx Hx2. cbn in Hx2. apply list_elem_of_singleton in Hx2 as ->.
      apply list_elem_of_fmap in Hx as (e & E & He). apply Hn, H2. exists e. split; [exact He|exact (eq_sym E)].
Qed.

Lemma add_upstreams_ok from der ups : forall g, graph_ok g -> from ∈ g.1.1 ->
  let g' := foldl (add_upstream from der) g ups in
  graph_ok g' /\ extends g g' /\ forall up, up ∈ ups -> up ∈ g'.1.1 /\ Join [from; up] "->" ∈ g'.2.
Proof.
  induction ups as [|u ups IH]; intros g Hg Hf; cbn [foldl].
  { split_and!; [done|reflexivity|]. intros up Hu. by apply not_elem_of_nil in Hu. }
  destruct (add_upstream_ok from der g u Hg Hf) as (G1 & [G2 G2'] & G3 & G4).
  destruct (IH (add_upstream from der g u) G1 (G2 _ Hf)) as (I1 & [I2 I2'] & I3). cbv zeta in *.
  split_and!; [done|split; set_solver|]. intros up Hu. apply elem_of_cons in Hu as [->|Hu]; [|by apply I3].
  split; [by apply I2|by apply I2'].
Qed.

(** What one registered version contributes. *)
Definition drawn (f : string) (x : FeatureVersion) (g : graph) : Prop :=
  Join [f; ver_Version x] "@" ∈ g.1.1 /\
  forall up, up ∈ ver_UpstreamFeatureIDs x -> up ∈ g.1.1 /\ Join [Join [f; ver_Version x] "@"; up] "->" ∈ g.2.

Lemma drawn_extends f x g g' : extends g g' -> drawn f x g -> drawn f x g'.
Proof.
  intros [E1 E2] [D1 D2]. split; [by apply E1|]. intros up Hu. destruct (D2 up Hu). split; [by apply E1|by apply E2].
Qed.

Lemma add_dependencies_ok f v x g : graph_ok g ->
  let g' := add_dependencies f g v x in graph_ok g' /\ extends g g' /\ drawn f x g'.
Proof.
  destruct g as [[nodes edges] seen]. intros [H1 H2 H3]. unfold add_dependencies; cbv zeta.
  destruct (add_upstreams_ok (Join [f; ver_Version x] "@") (ver_DerivationType x) (ver_UpstreamFeatureIDs x)
    (nodes ++ [Join [f; ver_Version x] "@"], edges, seen)) as (G1 & [G2 G2'] & G3); cbn [fst snd] in *.
  - split; cbn [fst snd]; try done. intros e He. destruct (H1 e He). set_solver.
  - set_solver.
  - split_and!; [done|split; cbn [fst snd]; set_solver|]. split; [apply G2; set_solver|done].
Qed.

Lemma dependencies_ok f l : forall g, graph_ok g ->
  let g' := foldl (fun g kv => add_dependencies f g kv.1 kv.2) g l in
  graph_ok g' /\ extends g g' /\ forall k x, (k, x) ∈ l -> drawn f x g'.
Proof.
  induction l as [|[k x] l IH]; intros g Hg; cbn [foldl fst snd].
  { split_and!; [done|reflexivity|]. intros k x Hx. by apply not_elem_of_nil in Hx. }
  destruct (add_dependencies_ok f k x g Hg) as (G1 & G2 & G3).
  destruct (IH _ G1) as (I1 & I2 & I3). cbv zeta in *. split_and!; [done|by etransitivity|].
  intros k' x' Hx. apply elem_of_cons in Hx as [E|Hx]; [|by apply (I3 k')].
  simplify_eq. by apply (drawn_extends _ _ _ _ I2).
Qed.

(** The dependency graph of a feature is complete and closed, whatever the
    order in which versions are visited: its nodes are without duplicates and
    contain the feature, every registered version and every upstream feature of
    one; every edge joins two nodes and no two edges read the same; and every
    version has an edge to each of its upstream features, up to how an edge
    reads ("from->to"). *)
Theorem dependency_graph_complete `{MR : MapRange} (c : Control) (f : string) (scope : ScopeRef) (now : time)
    (g : FeatureDependencyGraph) :
  GetFeatureDependencyGraph c f scope now = Ok g ->
  let id := normalizeFeatureID f in
  id ∈ dg_Nodes g /\ NoDup (dg_Nodes g) /\ NoDup (map edge_key (dg_Edges g)) /\
  (forall e, e ∈ dg_Edges g -> de_From e ∈ dg_Nodes g /\ de_To e ∈ dg_Nodes g) /\
  (forall v x, registered c id v = Some x ->
     Join [id; ver_Version x] "@" ∈ dg_Nodes g /\
     forall up, up ∈ ver_UpstreamFeatureIDs x -> up ∈ dg_Nodes g /\
       exists e, e ∈ dg_Edges g /\ edge_key e = Join [Join [id; ver_Version x] "@"; up] "->").
Proof.
  unfold GetFeatureDependencyGraph; cbv zeta. set (id := normalizeFeatureID f).
  destruct (find_feature _ _ _) as [d|]; [|done].
  assert (H0 : graph_ok ([id], [], [])).
  { split; cbn; [intros e He; by apply not_elem_of_nil in He| |constructor].
    intros k. split; [intros Hk; by apply not_elem_of_nil in Hk|intros (e & He & _); by apply not_elem_of_nil in He]. }
  destruct (dependencies_ok id (range_map (versions_of c id)) _ H0) as ([G1 G2 G3] & [G4 _] & G5).
  unfold go_range. destruct (foldl _ _ _) as [[nodes edges] seen]. cbn [fst snd] in *. intros [= <-]. cbn [dg_Nodes dg_Edges].
  assert (Hn : forall x, x ∈ sort_Strings (elements (list_to_set nodes : gset string)) <-> x ∈ nodes).
  { intros x. unfold sort_Strings. rewrite merge_sort_Permutation, elem_of_elements. apply elem_of_list_to_set. }
  assert (He : forall e, e ∈ sort_Slice edge_before edges <-> e ∈ edges) by (intros e; by rewrite sort_Slice_perm).
  split_and!.
  - apply Hn, G4. set_solver.
  - unfold sort_Strings. rewrite merge_sort_Permutation. apply NoDup_elements.
  - assert (P : map edge_key (sort_Slice edge_before edges) ≡ₚ map edge_key edges)
      by (apply fmap_Permutation, sort_Slice_perm). by rewrite P.
  - intros e. rewrite He, !Hn. apply G1.
  - intros v x Hx. apply range_map_elem in Hx. destruct (G5 v x Hx) as [D1 D2]. split; [by apply Hn|].
    intros up Hu. destruct (D2 up Hu) as [D3 D4]. split; [by apply Hn|].
    apply G2 in D4 as (e & E1 & E2). exists e. split; [by apply He|done].
Qed.

(** * A concrete feature registry

    A feature with two versions, published, rolled back, and a snapshot: the
    witnesses of the registry's theorems. *)

#[local] Open Scope Z_scope.

Definition reg_scope : ScopeRef := mk_ScopeRef "Org" "ws" "Proj".

Definition reg_version (version : string) (upstream : list string) : FeatureVersionCreateRequest :=
  mk_FeatureVersionCreateRequest version "prod" "s1" "ev" upstream "join" false fzero reg_scope.

Definition reg_calls : list (reg_call * time) :=
  [(RegDefine (mk_FeatureDefinitionCreateRequest "Risk_Score" "risk" "" "ml" reg_scope), dec_t0);
   (RegVersion "risk_score" (reg_version "1" ["income"]), dec_t0 + Second);
   (RegVersion "risk_score" (reg_version "2" ["Income"; "age"]), dec_t0 + 2 * Second)].

Definition e0 : Control := Eval vm_compute in reg_run (no_features d0) reg_calls.

Definition reg_publish : FeatureVersionPublishRequest := mk_FeatureVersionPublishRequest "2" "better" reg_scope.
Definition reg_rollback : FeatureRollbackRequest := mk_FeatureRollbackRequest " 1 " "worse" reg_scope.

Lemma publish_then_rollback_feature_witness : exists record,
  (RollbackFeature (PublishFeatureVersion e0 "risk_score" reg_publish dec_t0).1 "risk_score" reg_rollback
     dec_t0).2 = Ok record /\ rb_TargetVersion record = "1".
Proof.
  destruct (PublishFeatureVersion e0 "risk_score" reg_publish dec_t0).2 as [r|] eqn:E1; [|vm_compute in E1; discriminate].
  destruct (RollbackFeature (PublishFeatureVersion e0 "risk_score" reg_publish dec_t0).1 "risk_score" reg_rollback
    dec_t0).2 as [record|] eqn:E2; [|vm_compute in E2; discriminate].
  destruct (c_featureDefinitions e0 !! normalizeFeatureID "risk_score") as [d|] eqn:E3; [|vm_compute in E3; discriminate].
  exists record. split; [done|].
  assert (Ed : fd_ActiveVersion d = "1") by (vm_compute in E3; by injection E3 as <-).
  assert (Er : up_PreviousVersion r = "1") by (vm_compute in E1; by injection E1 as <-).
  destruct (publish_then_rollback_feature e0 "risk_score" reg_publish reg_rollback dec_t0 dec_t0 r record d E3 E1 E2)
    as (_ & _ & _ & _ & -> & _); [by rewrite Er|exact Ed].
Defined.

Definition reg_build : FeatureSnapshotBuildRequest :=
  mk_FeatureSnapshotBuildRequest "risk_score" "2" "prod" "ev" 0 5000 None reg_scope "me" "".

Lemma snapshot_freshness_witness : exists sn r,
  (BuildFeatureSnapshot e0 reg_build dec_t0).2 = Ok sn /\
  ValidateFeatureSnapshotFreshness (BuildFeatureSnapshot e0 reg_build dec_t0).1
    (mk_FeatureSnapshotFreshnessValidateRequest (sn_SnapshotID sn) "high" (dec_t0 + 5 * Second) reg_scope)
    dec_t0 = Ok r /\ hp_Fresh r = true.
Proof.
  destruct (BuildFeatureSnapshot e0 reg_build dec_t0).2 as [sn|] eqn:E; [|vm_compute in E; discriminate].
  assert (Es : TrimSpace (sn_SnapshotID sn) = sn_SnapshotID sn) by (vm_compute in E; injection E as <-; reflexivity).
  destruct (snapshot_freshness e0 reg_build sn dec_t0 dec_t0
    (mk_FeatureSnapshotFreshnessValidateRequest (sn_SnapshotID sn) "high" (dec_t0 + 5 * Second) reg_scope) E Es eq_refl
    eq_refl ltac:(vm_compute; discriminate)) as (r & R1 & _ & R2 & _).
  exists sn, r. split_and!; [done|done|]. apply R2. vm_compute. reflexivity.
Defined.

Lemma dependency_graph_complete_witness : exists g,
  GetFeatureDependencyGraph (H := canonical_range) e0 "risk_score" reg_scope dec_t0 = Ok g /\
  "risk_score@2" ∈ dg_Nodes g.
Proof.
  destruct (GetFeatureDependencyGraph (H := canonical_range) e0 "risk_score" reg_scope dec_t0) as [g|] eqn:E;
    [|vm_compute in E; discriminate].
  destruct (dependency_graph_complete (MR := canonical_range) e0 "risk_score" reg_scope dec_t0 g E) as (_ & _ & _ & _ & Hv).
  destruct (registered e0 (normalizeFeatureID "risk_score") "2") as [x|] eqn:Ex; [|vm_compute in Ex; discriminate].
  assert (Ev : ver_Version x = "2") by (vm_compute in Ex; by injection Ex as <-).
  exists g. split; [done|]. destruct (Hv "2" x Ex) as [Hn _]. rewrite Ev in Hn. exact Hn.
Defined.
