(* ===== verification/CtlMatrixTheorems.v ===== *)
(** * Theorems about the enforcement matrix

    What a published matrix means for the levels the metrics are given, and
    that its publication leaves the decisions alone. *)

From Stdlib Require Import SpecFloat.
From S2P Require Import Prelude GoStrings Sha256 GoTime GoJson DecTypes DecJson DecPolicy.
From S2P Require Import DecContracts DecKernel DecFrame DecExamples CtlTypes CtlContracts CtlFeatures CtlHealth.
From S2P Require Import CtlInvariant.
#[local] Open Scope Z_scope.

(** ** The order of floats *)

(** Case analysis on signs, exponents and mantissas. *)
Ltac float_order x y z :=
  unfold fleb, SFleb, fltb, SFltb;
  destruct x as [sx|sx| |sx mx ex], y as [sy|sy| |sy my ey], z as [sz|sz| |sz mz ez]; cbn;
  try discriminate; try (destruct sx; try discriminate); try (destruct sy; try discriminate);
  try (destruct sz; try discriminate); try done; cbn;
  repeat match goal with
  | |- context [Pos.compare_cont Eq ?a ?b] => change (Pos.compare_cont Eq a b) with (Pos.compare a b)
  end;
  destruct (Z.compare_spec ex ey), (Z.compare_spec ey ez), (Z.compare_spec ex ez); try lia; try done;
  destruct (Pos.compare_spec mx my), (Pos.compare_spec my mz), (Pos.compare_spec mx mz); cbn; try done; lia.

(** The order is transitive, also with infinities and NaN. *)
Lemma fleb_trans x y z : fleb x y = true -> fleb y z = true -> fleb x z = true.
Proof. float_order x y z. Qed.

Lemma fltb_fleb_trans x y z : fltb x y = true -> fleb y z = true -> fltb x z = true.
Proof. float_order x y z. Qed.

Lemma fleb_fltb_trans x y z : fleb x y = true -> fltb y z = true -> fltb x z = true.
Proof. float_order x y z. Qed.

(** ** Levels *)

Definition severity (level : string) : Z :=
  if (level =? EnforcementBlockRuntime)%string then 3
  else if (level =? EnforcementBlockRelease)%string then 2
  else if (level =? EnforcementAlert)%string then 1
  else 0.

(** Whether a value is as bad as a threshold. *)
Definition reached (t : EnforcementThreshold) (value x : float64) : bool :=
  if (et_Direction t =? "lt")%string then fleb value x else fleb x value.

Definition level_of (t : EnforcementThreshold) (value : float64) : Z := severity (evaluateEnforcement value true t).

(** The thresholds reached, from the mildest to the worst. *)
Definition reached_count (t : EnforcementThreshold) (value : float64) : Z :=
  Z.b2z (reached t value (et_Alert t)) + Z.b2z (reached t value (et_BlockRelease t))
  + Z.b2z (reached t value (et_BlockRuntime t)).

Lemma level_cases t value : level_of t value =
  if reached t value (et_BlockRuntime t) then 3
  else if reached t value (et_BlockRelease t) then 2
  else if reached t value (et_Alert t) then 1 else 0.
Proof.
  unfold level_of, evaluateEnforcement; cbv zeta. fold (reached t value (et_BlockRuntime t)).
  fold (reached t value (et_BlockRelease t)). fold (reached t value (et_Alert t)). cbn [negb].
  by destruct (reached t value (et_BlockRuntime t)), (reached t value (et_BlockRelease t)),
    (reached t value (et_Alert t)).
Qed.

(** What the validation of a threshold means for its evaluation, when the
    direction is written the way the evaluation reads it. *)
Lemma valid_reached t value : validateThreshold t = [] -> one_of (et_Direction t) ["gt"; "lt"] = true ->
  (reached t value (et_BlockRuntime t) = true -> reached t value (et_BlockRelease t) = true) /\
  (reached t value (et_BlockRelease t) = true -> reached t value (et_Alert t) = true).
Proof.
  unfold validateThreshold, reached. cbv zeta. intros Hv Hd. apply one_of_In in Hd.
  assert (Hl : lower_trim (et_Direction t) = et_Direction t) by (by destruct Hd as [<-|[<-|[]]]).
  rewrite Hl in Hv. destruct Hd as [E|[E|[]]]; rewrite <- E in *.
  - change ("gt" =? "gt")%string with true in Hv. cbv iota in Hv.
    destruct (fleb _ _ && fleb _ _ && fleb _ _) eqn:Ef; [|done].
    apply andb_prop in Ef as [Ef E3]. apply andb_prop in Ef as [E1 E2].
    split; intros Hr; by eapply fleb_trans; [|exact Hr].
  - change ("lt" =? "gt")%string with false in Hv. change ("lt" =? "lt")%string with true in Hv. cbv iota in Hv.
    destruct (fleb _ _ && fleb _ _ && fleb _ _) eqn:Ef; [|done].
    apply andb_prop in Ef as [Ef E3]. apply andb_prop in Ef as [E1 E2].
    split; intros Hr; by eapply fleb_trans; [exact Hr|].
Qed.

Lemma level_counts t value : validateThreshold t = [] -> one_of (et_Direction t) ["gt"; "lt"] = true ->
  level_of t value = reached_count t value.
Proof.
  intros Hv Hd. destruct (valid_reached t value Hv Hd) as [H1 H2]. rewrite level_cases. unfold reached_count.
  destruct (reached t value (et_BlockRuntime t)); [rewrite H2, H1 by auto; done|].
  destruct (reached t value (et_BlockRelease t)); [rewrite H2 by auto; done|].
  by destruct (reached t value (et_Alert t)).
Qed.

(** A worse value reaches whatever a better one reaches. *)
Lemma level_monotone t v w : (if (et_Direction t =? "lt")%string then fleb w v else fleb v w) = true ->
  level_of t v <= level_of t w.
Proof.
  intros Hvw. assert (Hm : forall x, reached t v x = true -> reached t w x = true).
  { intros x. unfold reached. destruct (et_Direction t =? "lt")%string; intros Hx; [by eapply fleb_trans|].
    by eapply fleb_trans. }
  rewrite !level_cases. pose proof (Hm (et_BlockRuntime t)). pose proof (Hm (et_BlockRelease t)). pose proof (Hm (et_Alert t)).
  destruct (reached t v (et_BlockRuntime t)), (reached t w (et_BlockRuntime t)), (reached t v (et_BlockRelease t)),
    (reached t w (et_BlockRelease t)), (reached t v (et_Alert t)), (reached t w (et_Alert t)); naive_solver lia.
Qed.

Lemma emitEvent_matrix `{JsonMarshaler} ty d r st kvs now s :
  s_matrixVersion (emitEvent ty d r st kvs now s) = s_matrixVersion s /\
  s_matrixUpdatedAt (emitEvent ty d r st kvs now s) = s_matrixUpdatedAt s.
Proof. unfold emitEvent, trimOutboxLocked; cbv zeta. repeat case_match; by simplify_eq/=. Qed.

Section Validate.
Context `{MR : MapRange}.

Lemma errors_fold l errs :
  foldl (fun errs (kv : string * EnforcementThreshold) => errs ++ metric_errors kv.1 kv.2) errs l = [] <->
  errs = [] /\ forall m t, (m, t) ∈ l -> metric_errors m t = [].
Proof.
  revert errs. induction l as [|[m t] l IH]; intros errs; cbn [foldl fst snd].
  - split; [|by intros [? _]]. intros ->. split; [done|]. intros m t Hm. by apply not_elem_of_nil in Hm.
  - rewrite IH. split.
    + intros [E Hl]. apply app_eq_nil in E as [-> E]. split; [done|]. intros m' t' Hm.
      apply elem_of_cons in Hm as [E2|Hm]; [by simplify_eq|by apply Hl].
    + intros [-> Hl]. split; [by rewrite (Hl m t ltac:(by left))|]. intros m' t' Hm. apply Hl. by right.
Qed.

(** A matrix passes exactly when it is not empty and every entry has a name and
    ordered thresholds. *)
Lemma matrix_valid_iff q : ep_Valid (ValidateEnforcementMatrix q) = true <->
  eq_Matrix q <> ∅ /\ forall m t, eq_Matrix q !! m = Some t -> blank m = false /\ validateThreshold t = [].
Proof.
  unfold ValidateEnforcementMatrix; cbv zeta. cbn [ep_Valid]. unfold sort_Strings.
  set (errs := go_range _ _ _).
  assert (Es : empty_list (merge_sort String.le errs) = true <-> errs = []).
  { split; [|by intros ->]. destruct (merge_sort String.le errs) eqn:E; [|done]. intros _.
    pose proof (merge_sort_Permutation String.le errs) as P. rewrite E in P. by apply Permutation_nil_l in P. }
  rewrite Es. unfold errs, go_range. rewrite errors_fold. split.
  - intros [E Hl]. split; [|].
    + intros Em. rewrite Em in E. by cbn in E.
    + intros m t Hm. apply range_map_elem in Hm. specialize (Hl m t Hm). unfold metric_errors in Hl.
      destruct (blank m); [done|]. split; [done|]. by destruct (validateThreshold t).
  - intros [He Hl]. split.
    + destruct (size (eq_Matrix q)) eqn:E; [|done]. by apply map_size_empty_inv in E.
    + intros m t Hm. apply range_map_elem in Hm. destruct (Hl m t Hm) as [H1 H2]. unfold metric_errors.
      by rewrite H1, H2.
Qed.
End Validate.

(** A published enforcement matrix escalates in order: a publication is
    refused with nothing changed, or it has a reason, the matrix in force is
    the one published, under the next version, the decisions are untouched, and
    for every metric whose direction is written "gt" or "lt" the level of a
    value counts the thresholds it reaches (alert, block release, block
    runtime), so that nothing is blocked without also being past the alert,
    and a worse value never gets a milder level. *)
Theorem matrix_escalates `{MR : MapRange} `{JsonMarshaler} (c : Control) (q : EnforcementMatrixPublishRequest)
    (now : time) :
  let out := PublishEnforcementMatrix c q now in
  match out.2 with
  | Err _ => out.1 = c
  | Ok r =>
    blank (xq_Reason q) = false /\ xq_Matrix q <> ∅ /\
    GetEnforcementMatrix out.1 = mk_EnforcementMatrixView (xs_Version r) now (xq_Matrix q) /\
    xs_Version r = wrap_int64 (s_matrixVersion (c_svc c) + 1) /\
    s_decisions (c_svc out.1) = s_decisions (c_svc c) /\ s_pending (c_svc out.1) = s_pending (c_svc c) /\
    s_tickets (c_svc out.1) = s_tickets (c_svc c) /\ s_approvals (c_svc out.1) = s_approvals (c_svc c) /\
    (forall m t, xq_Matrix q !! m = Some t -> one_of (et_Direction t) ["gt"; "lt"] = true ->
       (forall value, level_of t value = reached_count t value) /\
       (forall v w, (if (et_Direction t =? "lt")%string then fleb w v else fleb v w) = true ->
          level_of t v <= level_of t w))
  end.
Proof.
  cbv zeta. unfold PublishEnforcementMatrix; cbv zeta.
  destruct (ep_Valid _) eqn:Ev; cbn [negb]; [|done]. apply matrix_valid_iff in Ev as [E1 E2]. cbn in E1, E2.
  destruct (blank (xq_Reason q)) eqn:Er; [done|]. cbn [fst snd xs_Version].
  set (s1 := set_matrix (xq_Matrix q) (wrap_int64 (s_matrixVersion (c_svc c) + 1)) now (c_svc c)).
  match goal with |- context [emit_control ?ty ?k ?n (c_set_svc s1 c)] =>
    pose proof (proj1 (emitEvent_quiet ty "" "" "" k n s1)) as Q; pose proof (emitEvent_matrix ty "" "" "" k n s1) as M;
    set (s2 := emitEvent ty "" "" "" k n s1) in *; change (emit_control ty k n (c_set_svc s1 c)) with (c_set_svc s2 c) end.
  destruct M as [M1 M2]. change (c_svc (c_set_svc s2 c)) with s2.
  split_and!; [done|done| |done|by rewrite (qt_decisions _ _ Q)|by rewrite (qt_pending _ _ Q)
    |by rewrite (qt_tickets _ _ Q)|by rewrite (qt_approvals _ _ Q)|].
  - unfold GetEnforcementMatrix. change (c_svc (c_set_svc s2 c)) with s2. by rewrite M1, M2, (qt_cfg _ _ Q).
  - intros m t Hm Hd. destruct (E2 m t Hm) as [_ Hv]. split.
    + intros value. by apply level_counts.
    + intros v w Hvw. apply (level_monotone t v w Hvw).
Qed.

(** The order of the thresholds is checked for the direction in lower case, the
    evaluation compares the direction as it is written: "LT" passes as lower is
    worse, and is evaluated as higher is worse. *)
Example direction_case :
  let t := mk_EnforcementThreshold (float_of_Z 90) (float_of_Z 80) (float_of_Z 70) (float_of_Z 60) "LT" in
  let u := mk_EnforcementThreshold (float_of_Z 90) (float_of_Z 80) (float_of_Z 70) (float_of_Z 60) "lt" in
  ep_Valid (ValidateEnforcementMatrix (H := canonical_range) (mk_EnforcementMatrixValidateRequest {[ "m" := t ]})) = true /\
  evaluateEnforcement (float_of_Z 95) true t = EnforcementBlockRuntime /\
  evaluateEnforcement (float_of_Z 95) true u = EnforcementObserveOnly /\
  evaluateEnforcement (float_of_Z 50) true t = EnforcementObserveOnly /\
  evaluateEnforcement (float_of_Z 50) true u = EnforcementBlockRuntime.
Proof. vm_compute. done. Qed.

(** ** The health of the approval organisation *)

(** A record is healthy exactly when nothing is recommended. *)
Lemma healthy_iff h : approvalOrgHealthStatus h = "healthy" <-> approvalRecommendations h = ["no_action_required"].
Proof.
  assert (L : forall x a b, fleb a b = true -> fltb x a = true -> fltb x b = true)
    by (intros x a b Hab Hx; by eapply fltb_fleb_trans).
  assert (G : forall x a b, fleb b a = true -> fltb a x = true -> fltb b x = true)
    by (intros x a b Hab Hx; by eapply fleb_fltb_trans).
  pose proof (L (oh_ActiveApproverRatio h) (percent_f 70) (percent_f 90) ltac:(vm_compute; reflexivity)) as L1.
  pose proof (L (oh_DelegateFreshness h) (percent_f 60) (percent_f 85) ltac:(vm_compute; reflexivity)) as L2.
  pose proof (G (oh_OverrideDependenceRate h) (percent_f 25) (percent_f 10) ltac:(vm_compute; reflexivity)) as G1.
  pose proof (G (oh_StaleApproverGroupRatio h) (percent_f 25) (percent_f 10) ltac:(vm_compute; reflexivity)) as G2.
  assert (G3 : (50 <? oh_RouteToNoActionCases h) = true -> (10 <? oh_RouteToNoActionCases h) = true) by lia.
  unfold approvalOrgHealthStatus, approvalRecommendations; cbv zeta.
  destruct (fltb (oh_ActiveApproverRatio h) (percent_f 90)), (fltb (oh_DelegateFreshness h) (percent_f 85)),
    (fltb (percent_f 10) (oh_OverrideDependenceRate h)), (fltb (percent_f 10) (oh_StaleApproverGroupRatio h)),
    (10 <? oh_RouteToNoActionCases h); cbn [orb app];
    destruct (fltb (oh_ActiveApproverRatio h) (percent_f 70)), (fltb (oh_DelegateFreshness h) (percent_f 60)),
      (fltb (percent_f 25) (oh_OverrideDependenceRate h)), (fltb (percent_f 25) (oh_StaleApproverGroupRatio h)),
      (50 <? oh_RouteToNoActionCases h); cbn [orb]; try (split; [done|done]);
    try (specialize (L1 eq_refl); done); try (specialize (L2 eq_refl); done);
    try (specialize (G1 eq_refl); done); try (specialize (G2 eq_refl); done); specialize (G3 eq_refl); done.
Qed.

Section Health.
Context `{JsonMarshaler}.

(** The record and the report a recomputation or a remediation files. *)
Definition filed (c c' : Control) (scope : ScopeRef) (reportID status : string) (now : time)
    (h : ApprovalOrgHealth) : Prop :=
  c_approvalOrgHealth c' = <[scopeKey scope := h]> (c_approvalOrgHealth c) /\
  oh_Status h = approvalOrgHealthStatus h /\ oh_UpdatedAt h = now /\ status = oh_Status h /\
  items (c_approvalOrgReports c') (scopeKey scope) =
    items (c_approvalOrgReports c) (scopeKey scope) ++
    [mk_ApprovalOrgHealthReport reportID scope status (approvalRecommendations h) now].

Lemma file_report_filed scope h now ty kvs c : oh_Status h = approvalOrgHealthStatus h -> oh_UpdatedAt h = now ->
  filed c (file_report scope h now ty kvs c).1 scope (file_report scope h now ty kvs c).2 (oh_Status h) now h.
Proof.
  intros Hs Hu. unfold file_report; cbv zeta. destruct (nextFallbackID _ _) as [s reportID]. cbn [fst snd].
  split_and!; try done. etransitivity; [apply items_append|]. by rewrite decide_True.
Qed.
End Health.

(** Any part of an applied remedy is at its best afterwards. *)
Definition remedied (action : string) (h : ApprovalOrgHealth) : Prop :=
  (action = "refresh_delegates" -> oh_DelegateFreshness h = fone) /\
  (action = "rebalance_approvers" -> oh_ActiveApproverRatio h = fone) /\
  (one_of action ["cleanup_stale_groups"; "cleanup_stale_approver_groups"] = true -> oh_StaleApproverGroupRatio h = fzero) /\
  (one_of action ["route_replay"; "replay_approval_routes"] = true -> oh_RouteToNoActionCases h = 0).

Lemma remedy_remedied a h h' : remedy a h = Some h' -> remedied a h'.
Proof.
  intros E.
  split_and!; intros Ha; [subst a|subst a|apply one_of_In in Ha|apply one_of_In in Ha];
    try destruct Ha as [<-|[<-|[]]]; cbn in E; by injection E as <-.
Qed.

Lemma remedy_keeps b a h h' : remedy a h = Some h' -> remedied b h -> remedied b h'.
Proof.
  unfold remedy. intros E (R1 & R2 & R3 & R4). repeat case_match; simplify_eq/=; split_and!; intros Hb; cbn; auto.
Qed.

Definition known_action (a : string) : bool := match remedy a (mk_ApprovalOrgHealth (mk_ScopeRef "" "" "") fzero fzero fzero fzero 0 "" 0) with Some _ => true | None => false end.

Lemma remedy_known a h : (match remedy a h with Some _ => true | None => false end) = known_action a.
Proof. unfold known_action, remedy. by repeat case_match. Qed.

Lemma remedies_fold actions : forall h applied,
  (forall a, a ∈ applied -> remedied a h) ->
  let '(h', applied') := foldl remedy_step (h, applied) actions in
  applied' = applied ++ List.filter known_action (map lower_trim actions) /\
  (forall a, a ∈ applied' -> remedied a h').
Proof.
  induction actions as [|x actions IH]; intros h applied Ha; cbn [foldl map List.filter].
  { by rewrite app_nil_r. }
  unfold remedy_step at 2; cbv zeta. cbn [fst snd]. pose proof (remedy_known (lower_trim x) h) as Hk.
  destruct (remedy (lower_trim x) h) as [h1|] eqn:Er; rewrite <- Hk.
  - specialize (IH h1 (applied ++ [lower_trim x])). destruct (foldl _ _ _) as [h' applied'].
    destruct IH as [I1 I2].
    { intros a. rewrite elem_of_app, list_elem_of_singleton. intros [Hin| ->].
      - eapply remedy_keeps; [exact Er|by apply Ha].
      - by eapply remedy_remedied. }
    split; [by rewrite I1, <- app_assoc|done].
  - apply IH, Ha.
Qed.

(** Remediation of an approval organisation: refused with nothing changed,
    or exactly the known actions of the request are applied, in order and in
    lower case, at least one; whatever an applied action repairs is at its best
    in the stored record of the scope, whose status is computed from it; one
    report is added with that status and the recommendations for the record,
    and the status is "healthy" exactly when nothing is recommended. *)
Theorem remediation_effect `{JsonMarshaler} (c : Control) (q : ApprovalOrgHealthRemediationRequest) (now : time) :
  let out := RemediateApprovalOrgHealth c q now in
  match out.2 with
  | Err _ => out.1 = c
  | Ok r => exists h,
      filed c out.1 (normalizeScope (mq_Scope q)) (mp_ReportID r) (mp_Status r) now h /\
      mp_AppliedActions r = List.filter known_action (map lower_trim (mq_Actions q)) /\
      mp_AppliedActions r <> [] /\
      (forall a, a ∈ mp_AppliedActions r -> remedied a h) /\
      (mp_Status r = "healthy" <-> approvalRecommendations h = ["no_action_required"])
  end.
Proof.
  cbv zeta. unfold RemediateApprovalOrgHealth; cbv zeta. set (scope := normalizeScope (mq_Scope q)).
  destruct (scope_invalid _ scope); [done|]. destruct (empty_list (mq_Actions q)); [done|].
  destruct (blank (mq_Reason q)); [done|].
  pose proof (remedies_fold (mq_Actions q) (health_of c scope now) [] ltac:(set_solver)) as F.
  destruct (foldl _ _ _) as [h0 applied]. destruct F as [F1 F2].
  destruct (empty_list applied) eqn:Ea; [done|].
  match goal with |- context [file_report scope ?h now ?ty ?kvs c] =>
    pose proof (file_report_filed scope h now ty kvs c) as F; destruct (file_report scope h now ty kvs c) as [c' reportID] end.
  cbn [fst snd mp_ReportID mp_Status mp_AppliedActions] in *.
  exists (with_health_status h0 now). destruct F as (G1 & G2 & G3 & G4 & G5); [by destruct h0..|].
  split_and!; try done.
  - by intros ->.
  - rewrite G2. apply healthy_iff.
Qed.
