(* ===== verification/CtlWatch.v ===== *)
(** * The watched contract store and the workers of a service

    [internal/decision/contract_store.go]: [InMemoryFeatureSignalContractStore]
    with its watchers.  A channel is a bounded queue; [Watch] registers one and
    then, without the lock, sends the current snapshot; [PutSnapshot] offers
    the new snapshot to every registered channel and makes room by dropping the
    oldest.  While it does so readers and a pending first send go on: a [Race]
    says how, per channel, and [WatchedStore] is an instance of the interface of
    [DecContracts] for every race.

    [contract_runtime.go]: the two workers of a service, the cache watcher and
    the activation worker, from start to exit, and the services with their
    workers over one watched store ([Cluster]).  The theorem: with the puts
    over, a watcher that has caught up holds exactly the store's contracts. *)

From S2P Require Import Prelude GoStrings GoTime GoJson DecTypes DecJson DecPolicy.
From S2P Require Import DecContracts DecKernel DecFrame DecTrace DecSteady CtlTypes CtlContracts.
From S2P Require Import CtlInvariant CtlStore DecExamples CtlExamples.
#[local] Open Scope Z_scope.

(** ** Channels *)

(** Where [Watch] is with its first send, [ch <- initial]. *)
Inductive FirstSend :=
| Sent                        (* done, or nothing to send: [Watch] has returned *)
| ToSend (initial : Snapshot) (* the lock is released, the send not reached *)
| Blocked (initial : Snapshot) (* waits at a full channel *).

(** [ch_taken] is what the reading goroutine has received and not yet applied. *)
Record Channel := mk_Channel {
  ch_queue : list Snapshot;
  ch_first : FirstSend;
  ch_taken : list Snapshot;
  ch_closed : bool
}.

Definition has_room (cap : Z) (ch : Channel) : bool := Z.of_nat (length (ch_queue ch)) <? cap.

Definition enqueue (x : Snapshot) (ch : Channel) : Channel :=
  mk_Channel (ch_queue ch ++ [x]) (ch_first ch) (ch_taken ch) (ch_closed ch).

Definition set_first (x : FirstSend) (ch : Channel) : Channel :=
  mk_Channel (ch_queue ch) x (ch_taken ch) (ch_closed ch).

(** A reception takes the oldest; a sender that waits comes in at the end. *)
Definition receive (ch : Channel) : option (Snapshot * Channel) :=
  match ch_queue ch with
  | [] => None
  | x :: rest =>
    let ch' := mk_Channel rest (ch_first ch) (ch_taken ch) (ch_closed ch) in
    Some (x, match ch_first ch with Blocked y => set_first Sent (enqueue y ch') | _ => ch' end)
  end.

(** The reader has the channel once [Watch] has returned. *)
Definition reader_take (ch : Channel) : Channel :=
  match ch_first ch, receive ch with
  | Sent, Some (x, ch') => mk_Channel (ch_queue ch') (ch_first ch') (ch_taken ch' ++ [x]) (ch_closed ch')
  | _, _ => ch
  end.

(** [Watch] reaches its first send. *)
Definition first_send (cap : Z) (ch : Channel) : Channel :=
  match ch_first ch with
  | ToSend x => if has_room cap ch then set_first Sent (enqueue x ch) else set_first (Blocked x) ch
  | _ => ch
  end.

(** What happens to a channel between the selects of a put. *)
Record Race := mk_Race {
  ra_before : nat;   (* receptions between the failed send and the drop *)
  ra_after : nat;    (* and between the drop and the retry *)
  ra_first : bool;   (* whether the first send is reached before the drop *)
  ra_late : bool     (* and before the retry *)
}.

(** One turn of the loop of [PutSnapshot]. *)
Definition offer (cap : Z) (race : Race) (emit : Snapshot) (ch : Channel) : Channel :=
  if has_room cap ch then enqueue emit ch
  else
    let ch := Nat.iter (ra_before race) reader_take ch in
    let ch := if ra_first race then first_send cap ch else ch in
    let ch := match receive ch with Some (_, ch) => ch | None => ch end in
    let ch := if ra_late race then first_send cap ch else ch in
    let ch := Nat.iter (ra_after race) reader_take ch in
    if has_room cap ch then enqueue emit ch else ch.

(** ** The store *)

Record Watched := mk_Watched {
  wt_snapshot : Snapshot;
  wt_watchers : gset Z;
  wt_channels : gmap Z Channel;   (* the channel of each identifier, also after its watch ended *)
  wt_nextWatchID : Z;
  wt_watchBuffer : Z
}.

Definition set_channels (m : gmap Z Channel) (w : Watched) : Watched :=
  mk_Watched (wt_snapshot w) (wt_watchers w) m (wt_nextWatchID w) (wt_watchBuffer w).

Definition on_channel (id : Z) (f : Channel -> Channel) (w : Watched) : Watched :=
  set_channels (alter f id (wt_channels w)) w.

Definition NewWatchedStore (watchBuffer : Z) (seed : Snapshot) : Watched :=
  mk_Watched (NewInMemoryFeatureSignalContractStore seed) ∅ ∅ 0
    (if watchBuffer <=? 0 then 16 else watchBuffer).

(** The loop over the watchers: each turn concerns one channel. *)
Definition broadcast (race : Z -> Race) (emit : Snapshot) (w : Watched) : Watched :=
  set_channels
    (map_imap (fun id ch => Some (if decide (id ∈ wt_watchers w)
                                  then offer (wt_watchBuffer w) (race id) emit ch else ch))
       (wt_channels w)) w.

Definition watched_put (race : Z -> Race) (snapshot : Snapshot) (now : time) (w : Watched)
    : Watched * result string Snapshot :=
  let '(next, out) := memory_put snapshot now (wt_snapshot w) in
  (broadcast race next (mk_Watched next (wt_watchers w) (wt_channels w) (wt_nextWatchID w) (wt_watchBuffer w)),
   out).

Definition WatchedStore (race : Z -> Race) : FeatureSignalContractStore := {|
  store_state := Watched;
  GetSnapshot w := Ok (wt_snapshot w);
  PutSnapshot := watched_put race
|}.

(** Up to the release of the lock; a store without a revision sends nothing. *)
Definition Watch (w : Watched) : Z * Watched :=
  let id := wt_nextWatchID w in
  let first := if 0 <? ss_Revision (wt_snapshot w) then ToSend (wt_snapshot w) else Sent in
  (id, mk_Watched (wt_snapshot w) ({[id]} ∪ wt_watchers w)
         (<[id := mk_Channel [] first [] false]> (wt_channels w)) (id + 1) (wt_watchBuffer w)).

(** The goroutine [Watch] leaves behind, when the context is done. *)
Definition end_watch (id : Z) (w : Watched) : Watched :=
  let w := mk_Watched (wt_snapshot w) (wt_watchers w ∖ {[id]}) (wt_channels w) (wt_nextWatchID w)
             (wt_watchBuffer w) in
  on_channel id (fun ch => mk_Channel (ch_queue ch) (ch_first ch) (ch_taken ch) true) w.

(** ** Workers *)

(** A worker of a service: the cancel function the service holds (by the context
    it cancels), the contexts of the goroutines that live, the contexts that
    are done. *)
Record Worker := mk_Worker {
  wk_cancel : option Z;
  wk_live : gset Z;
  wk_done : gset Z;
  wk_next : Z
}.

Definition no_worker : Worker := mk_Worker None ∅ ∅ 0.

Definition wk_set_cancel (x : option Z) (w : Worker) : Worker :=
  mk_Worker x (wk_live w) (wk_done w) (wk_next w).

(** [context.WithCancel] and the field, unless the worker has been started. *)
Definition worker_begin (w : Worker) : option (Z * Worker) :=
  match wk_cancel w with
  | Some _ => None
  | None => Some (wk_next w, mk_Worker (Some (wk_next w)) (wk_live w) (wk_done w) (wk_next w + 1))
  end.

Definition worker_go (ctx : Z) (w : Worker) : Worker :=
  mk_Worker (wk_cancel w) ({[ctx]} ∪ wk_live w) (wk_done w) (wk_next w).

(** The context of a worker is cancelled, by its cancel function or by the
    context it was made from. *)
Definition context_done (ctx : Z) (w : Worker) : Worker :=
  mk_Worker (wk_cancel w) (wk_live w) ({[ctx]} ∪ wk_done w) (wk_next w).

Definition worker_stop (w : Worker) : Worker :=
  match wk_cancel w with
  | Some ctx => context_done ctx (wk_set_cancel None w)
  | None => w
  end.

(** The deferred function resets the field, whatever worker it belongs to. *)
Definition worker_exit (ctx : Z) (w : Worker) : Worker :=
  mk_Worker None (wk_live w ∖ {[ctx]}) (wk_done w) (wk_next w).

(** ** Services with their workers over one store *)

Record Replica := mk_Replica {
  rp_service : Service;
  rp_watcher : Worker;
  rp_reads : gmap Z Z;      (* the watch each watcher's context reads *)
  rp_activation : Worker;
  rp_tickers : gmap Z (Z * string)   (* the period and the name of each activation worker *)
}.

Definition rp_set_service (x : Service) (r : Replica) : Replica :=
  mk_Replica x (rp_watcher r) (rp_reads r) (rp_activation r) (rp_tickers r).
Definition rp_set_watcher (x : Worker) (r : Replica) : Replica :=
  mk_Replica (rp_service r) x (rp_reads r) (rp_activation r) (rp_tickers r).
Definition rp_set_activation (x : Worker) (r : Replica) : Replica :=
  mk_Replica (rp_service r) (rp_watcher r) (rp_reads r) x (rp_tickers r).
Definition rp_add_read (ctx id : Z) (r : Replica) : Replica :=
  mk_Replica (rp_service r) (rp_watcher r) (<[ctx := id]> (rp_reads r)) (rp_activation r)
    (rp_tickers r).
Definition rp_add_activation (ctx interval : Z) (workerID : string) (r : Replica) : Replica :=
  mk_Replica (rp_service r) (rp_watcher r) (rp_reads r) (rp_activation r)
    (<[ctx := (interval, workerID)]> (rp_tickers r)).

(** [expired]: the caller's context is done when [Watch] looks at it. *)
Definition StartFeatureSignalContractCacheWatcher (expired : bool) (r : Replica) (st : option Watched)
    : Replica * option Watched * option string :=
  match st with
  | None => (r, None, Some "feature signal contract store not configured")
  | Some w =>
    match worker_begin (rp_watcher r) with
    | None => (r, st, Some "feature signal contract cache watcher already started")
    | Some (ctx, wk) =>
      if expired then
        (rp_set_watcher (context_done ctx (wk_set_cancel None wk)) r, st, Some "context canceled")
      else
        let '(id, w) := Watch w in
        (rp_add_read ctx id (rp_set_watcher (worker_go ctx wk) r), Some w, None)
    end
  end.

Definition StopFeatureSignalContractCacheWatcher (r : Replica) : Replica :=
  rp_set_watcher (worker_stop (rp_watcher r)) r.

Definition StartFeatureSignalContractActivationWorker (interval : Z) (workerID : string) (r : Replica)
    : Replica * option string :=
  let interval := if interval <=? 0 then 1 * Second else interval in
  let workerID := if (workerID =? "")%string then "contract-activation-worker" else workerID in
  match worker_begin (rp_activation r) with
  | None => (r, Some "feature signal contract activation worker already started")
  | Some (ctx, wk) =>
    (rp_add_activation ctx interval workerID (rp_set_activation (worker_go ctx wk) r), None)
  end.

Definition StopFeatureSignalContractActivationWorker (r : Replica) : Replica :=
  rp_set_activation (worker_stop (rp_activation r)) r.

(** A tick of an activation worker, at [clock]. *)
Definition activation_tick `{MapRange} `{JsonMarshaler} (race : Z -> Race) (ctx : Z) (clock wall : time)
    (r : Replica) (w : Watched) : Replica * Watched :=
  let out := RunFeatureSignalContractSchedulerWithWorker (H1 := WatchedStore race) (rp_service r) (Some w)
               clock (default "" (snd <$> rp_tickers r !! ctx)) clock wall in
  (rp_set_service out.1.1 r, default w out.1.2).

Record Cluster := mk_Cluster {
  cl_replicas : list Replica;
  cl_store : Watched
}.

(** Replica [i] after a call, with the store if the call wrote it. *)
Definition replaced (c : Cluster) (i : nat) (r : Replica) (st : option Watched) : Cluster :=
  mk_Cluster (<[i := r]> (cl_replicas c)) (default (cl_store c) st).

Definition new_replica (s : Service) : Replica := mk_Replica s no_worker ∅ no_worker ∅.

Section Steps.
Context `{JsonMarshaler}.

(** The calls that change the contracts of a service. *)
Inductive ContractCall :=
| PublishCall (q : FeatureSignalContractPublishRequest)
| RollbackCall (q : FeatureSignalContractRollbackRequest)
| SchedulerCall (worker : string) (clock : time).

Definition contract_call {MR : MapRange} (race : Z -> Race) (c : ContractCall) (now wall : time)
    (s : Service) (w : Watched) : Service * option Watched :=
  match c with
  | PublishCall q =>
    (PublishFeatureSignalContract (H0 := WatchedStore race) s (Some w) q now wall).1
  | RollbackCall q =>
    (RollbackFeatureSignalContract (H0 := WatchedStore race) s (Some w) q now wall).1
  | SchedulerCall worker clock =>
    (RunFeatureSignalContractSchedulerWithWorker (H1 := WatchedStore race) s (Some w) now worker clock wall).1
  end.

Inductive cl_step (c : Cluster) : Cluster -> Prop :=
| cl_join MR race cfg now s w :
    NewKernel (H := MR) (H1 := WatchedStore race) cfg now (cl_store c) = (s, Some w) ->
    cl_step c (mk_Cluster (cl_replicas c ++ [new_replica s]) w)
| cl_call MR race i r call now wall :
    cl_replicas c !! i = Some r ->
    let out := contract_call (MR := MR) race call now wall (rp_service r) (cl_store c) in
    cl_step c (replaced c i (rp_set_service out.1 r) out.2)
| cl_decision MR i r (Env : Type) (call : call Env) (env : Env) :
    cl_replicas c !! i = Some r -> is_refresh call = false ->
    cl_step c (replaced c i (rp_set_service (exec (MR := MR) call (rp_service r, env)).1 r) None)
| cl_sync race i r :
    cl_replicas c !! i = Some r ->
    let out := syncContractCacheFromStoreLocked (H := WatchedStore race) (rp_service r) (Some (cl_store c)) in
    cl_step c (replaced c i (rp_set_service out.1 r) None)
(* the cache watcher *)
| cl_start_watcher expired i r :
    cl_replicas c !! i = Some r ->
    let out := StartFeatureSignalContractCacheWatcher expired r (Some (cl_store c)) in
    cl_step c (replaced c i out.1.1 out.1.2)
| cl_stop_watcher i r :
    cl_replicas c !! i = Some r ->
    cl_step c (replaced c i (StopFeatureSignalContractCacheWatcher r) None)
| cl_first_send id :
    cl_step c (mk_Cluster (cl_replicas c) (on_channel id (first_send (wt_watchBuffer (cl_store c))) (cl_store c)))
| cl_take i r ctx id :
    cl_replicas c !! i = Some r -> ctx ∈ wk_live (rp_watcher r) -> rp_reads r !! ctx = Some id ->
    cl_step c (mk_Cluster (cl_replicas c) (on_channel id reader_take (cl_store c)))
| cl_apply i r ctx id ch x rest :
    cl_replicas c !! i = Some r -> ctx ∈ wk_live (rp_watcher r) -> rp_reads r !! ctx = Some id ->
    wt_channels (cl_store c) !! id = Some ch -> ch_taken ch = x :: rest ->
    cl_step c (replaced c i (rp_set_service (watch_snapshot x (rp_service r)) r)
                 (Some (on_channel id (fun ch => mk_Channel (ch_queue ch) (ch_first ch) rest (ch_closed ch))
                          (cl_store c))))
| cl_watch_done i r ctx :
    cl_replicas c !! i = Some r ->
    cl_step c (replaced c i (rp_set_watcher (context_done ctx (rp_watcher r)) r) None)
| cl_end_watch i r ctx id ch :
    cl_replicas c !! i = Some r -> ctx ∈ wk_done (rp_watcher r) -> rp_reads r !! ctx = Some id ->
    wt_channels (cl_store c) !! id = Some ch -> ch_first ch = Sent ->
    cl_step c (mk_Cluster (cl_replicas c) (end_watch id (cl_store c)))
| cl_exit_watcher i r ctx :
    cl_replicas c !! i = Some r -> ctx ∈ wk_live (rp_watcher r) -> ctx ∈ wk_done (rp_watcher r) ->
    cl_step c (replaced c i (rp_set_watcher (worker_exit ctx (rp_watcher r)) r) None)
(* the activation worker *)
| cl_start_activation interval workerID i r :
    cl_replicas c !! i = Some r ->
    cl_step c (replaced c i (StartFeatureSignalContractActivationWorker interval workerID r).1 None)
| cl_stop_activation i r :
    cl_replicas c !! i = Some r ->
    cl_step c (replaced c i (StopFeatureSignalContractActivationWorker r) None)
| cl_tick MR race i r ctx clock wall :
    cl_replicas c !! i = Some r -> ctx ∈ wk_live (rp_activation r) ->
    let out := activation_tick (H := MR) race ctx clock wall r (cl_store c) in
    cl_step c (replaced c i out.1 (Some out.2))
| cl_activation_done i r ctx :
    cl_replicas c !! i = Some r ->
    cl_step c (replaced c i (rp_set_activation (context_done ctx (rp_activation r)) r) None)
| cl_exit_activation i r ctx :
    cl_replicas c !! i = Some r -> ctx ∈ wk_live (rp_activation r) -> ctx ∈ wk_done (rp_activation r) ->
    cl_step c (replaced c i (rp_set_activation (worker_exit ctx (rp_activation r)) r) None).

(** No first send waits at a full channel, or will. *)
Definition unhurried (w : Watched) : Prop :=
  map_Forall (fun _ ch => match ch_first ch with Sent => true | _ => has_room (wt_watchBuffer w) ch end = true)
    (wt_channels w).

Inductive cl_run (w0 : Watched) : Z -> Cluster -> Prop :=
| cl_run_init : cl_run w0 0 (mk_Cluster [] w0)
| cl_run_step n c c' : cl_run w0 n c -> unhurried (cl_store c) -> cl_step c c' -> cl_run w0 (n + 1) c'.
End Steps.

(** ** What a channel holds *)

Definition waiting (ch : Channel) : list Snapshot :=
  match ch_first ch with Sent => [] | ToSend x | Blocked x => [x] end.

(** What the reader has still to apply. *)
Definition on_its_way (ch : Channel) : list Snapshot := ch_taken ch ++ ch_queue ch ++ waiting ch.

Lemma takes_spec n : forall ch, ch_first ch = Sent ->
  exists xs rest, ch_queue ch = xs ++ rest /\
    Nat.iter n reader_take ch = mk_Channel rest Sent (ch_taken ch ++ xs) (ch_closed ch).
Proof.
  induction n as [|n IH]; intros ch Hf.
  - exists [], (ch_queue ch). split; [done|]. rewrite app_nil_r. destruct ch; cbn in *; by subst.
  - destruct (IH ch Hf) as (xs & rest & Hq & E). change (Nat.iter (S n) reader_take ch) with
      (reader_take (Nat.iter n reader_take ch)). rewrite E. unfold reader_take, receive; cbn.
    destruct rest as [|x rest]; [by exists xs, []|]. exists (xs ++ [x]), rest. cbn.
    rewrite Hq, <- !app_assoc. done.
Qed.

(** An offered snapshot enters, and only the oldest leave. *)
Lemma offer_spec cap race emit ch : 1 <= cap -> Z.of_nat (length (ch_queue ch)) <= cap ->
  (ch_first ch <> Sent -> has_room cap ch = true) ->
  let ch' := offer cap race emit ch in
  emit ∈ on_its_way ch' /\ (forall x, x ∈ on_its_way ch' -> x = emit \/ x ∈ on_its_way ch) /\
  ch_first ch' = ch_first ch /\ Z.of_nat (length (ch_queue ch')) <= cap.
Proof.
  intros Hcap Hlen Hroom. unfold offer. destruct (has_room cap ch) eqn:Er.
  - unfold has_room in Er. unfold on_its_way, waiting; cbn. rewrite length_app; cbn. split_and!; [set_solver|set_solver|done|lia].
  - destruct (ch_first ch) as [|y|y] eqn:Ef; [|by discriminate Hroom..]. clear Hroom.
    destruct (takes_spec (ra_before race) ch Ef) as (xs & rest & Hq & E1).
    assert (Hx : exists drop rest', rest = drop ++ rest' /\ Z.of_nat (length rest') < cap /\
      match receive (mk_Channel rest Sent (ch_taken ch ++ xs) (ch_closed ch)) with
      | Some (_, c) => c | None => mk_Channel rest Sent (ch_taken ch ++ xs) (ch_closed ch) end
      = mk_Channel rest' Sent (ch_taken ch ++ xs) (ch_closed ch)).
    { rewrite Hq, length_app in Hlen. destruct rest as [|x rest]; [exists [], []; split_and!; cbn; [done|lia|done]|].
      exists [x], rest. split_and!; [done| |done]. cbn in Hlen. lia. }
    destruct Hx as (drop & rest' & -> & Hlt & E2).
    destruct (takes_spec (ra_after race) (mk_Channel rest' Sent (ch_taken ch ++ xs) (ch_closed ch)) eq_refl)
      as (ys & rest2 & Hq2 & E3). cbn in Hq2. subst rest'. rewrite length_app in Hlt.
    cbv zeta. rewrite E1. replace (if ra_first race then _ else _) with
      (mk_Channel (drop ++ ys ++ rest2) Sent (ch_taken ch ++ xs) (ch_closed ch)) by (by destruct (ra_first race)).
    rewrite E2. replace (if ra_late race then _ else _) with
      (mk_Channel (ys ++ rest2) Sent (ch_taken ch ++ xs) (ch_closed ch)) by (by destruct (ra_late race)).
    rewrite E3. unfold has_room; cbn. replace (Z.of_nat (length rest2) <? cap) with true by lia. cbn.
    unfold on_its_way, waiting; cbn. rewrite Ef, Hq, length_app. cbn. split_and!; [set_solver|set_solver|done|lia].
Qed.

(** ** What a service holds *)

Record holds (s : Service) (x : Snapshot) : Prop := mk_holds {
  ho_active : ss_Active x = s_featureSignalContractsScoped s;
  ho_meta : ss_Meta x = s_featureSignalContractMeta s;
  ho_history : ss_History x = s_featureSignalContractHistory s;
  ho_rollbacks : ss_Rollbacks x = s_featureSignalContractRollbacks s;
  ho_scheduled : ss_Scheduled x = s_featureSignalContractScheduled s;
  ho_revision : ss_Revision x = s_storeVersion s
}.

Lemma holds_apply x s : 0 < ss_Revision x -> holds (applyContractStoreSnapshotLocked x s) x.
Proof. intros Hx. unfold applyContractStoreSnapshotLocked. destruct (Z.ltb_spec 0 (ss_Revision x)); [by split|lia]. Qed.

Lemma holds_steady s s' x : steady s s' -> holds s x -> holds s' x.
Proof. intros [] []. split; congruence. Qed.

(** ** A put *)

Lemma put_revision_next snapshot now w : 0 <= ss_Revision w < 2 ^ 64 - 1 ->
  ss_Revision snapshot <= ss_Revision w + 1 ->
  exists next, memory_put snapshot now w = (next, Ok next) /\ ss_Revision next = ss_Revision w + 1.
Proof.
  intros Hw Hs. unfold memory_put; cbv zeta. eexists. split; [done|].
  assert (Hg : forall x : Snapshot, ss_Revision (if IsZero (ss_GeneratedAt x) then ss_set_GeneratedAt now x else x)
    = ss_Revision x) by (intros x; by case_match).
  rewrite Hg. destruct (Z.leb_spec (ss_Revision snapshot) (ss_Revision w)); cbn; [|lia].
  rewrite wrap_uint64_id; lia.
Qed.

Lemma watched_laws race : StoreLaws (WatchedStore race).
Proof.
  destruct memory_laws as [L1 L2 L3]. cbn in L1, L2, L3. split; cbn; unfold watched_put.
  - intros snap now w w' c E. destruct (L1 snap now (wt_snapshot w) _ _ eq_refl) as [_ Hk].
    unfold memory_put in *; cbv zeta in *. by simplify_eq.
  - intros snap now w w' c old E Eo. apply (L2 snap now (wt_snapshot w) (wt_snapshot w')); [|done].
    unfold memory_put in *; cbv zeta in *. by simplify_eq.
  - intros snap now w w' e E. unfold memory_put in E; cbv zeta in E. by simplify_eq.
Qed.

(** ** What a call of the control plane does to the watched store *)

Definition put_of (race : Z -> Race) (snap : Snapshot) (now : time) (w : Watched) : Watched :=
  (watched_put race snap now w).1.

(** At most one put, of a candidate numbered after the service's own version. *)
Definition one_put (race : Z -> Race) (w : Watched) (s s' : Service) (st' : option Watched) : Prop :=
  (steady s s' /\ st' = Some w) \/
  exists snap now s1, ss_Revision snap = nextStoreRevision (s_storeVersion s) /\
    st' = Some (put_of race snap now w) /\ steady (set_contracts (wt_snapshot (put_of race snap now w)) s1) s'.

Lemma next_revision v : 0 <= v < 2 ^ 64 - 1 -> nextStoreRevision v = v + 1.
Proof. intros Hv. unfold nextStoreRevision. destruct (Z.eqb_spec v 0); [lia|]. apply wrap_uint64_id. lia. Qed.

Lemma put_of_next race snap now w : 0 <= ss_Revision (wt_snapshot w) < 2 ^ 64 - 1 ->
  ss_Revision snap <= ss_Revision (wt_snapshot w) + 1 ->
  watched_put race snap now w = (put_of race snap now w, Ok (wt_snapshot (put_of race snap now w))) /\
  ss_Revision (wt_snapshot (put_of race snap now w)) = ss_Revision (wt_snapshot w) + 1.
Proof.
  intros Hw Hs. destruct (put_revision_next snap now _ Hw Hs) as (next & E & Hr).
  unfold put_of, watched_put. by rewrite E.
Qed.

Section Puts.
Context `{JsonMarshaler} (race : Z -> Race).
#[local] Instance the_store : FeatureSignalContractStore := WatchedStore race.

Lemma commit_once snap now s w : 0 <= s_storeVersion s <= ss_Revision (wt_snapshot w) ->
  ss_Revision (wt_snapshot w) < 2 ^ 64 - 1 -> ss_Revision snap = nextStoreRevision (s_storeVersion s) ->
  commitContractSnapshotLocked snap now s (Some w) =
    (set_contracts (wt_snapshot (put_of race snap now w)) s, Some (put_of race snap now w), None).
Proof.
  intros Hv Hw Hs. rewrite next_revision in Hs by lia.
  destruct (put_of_next race snap now w) as [E Hr]; [lia..|].
  unfold commitContractSnapshotLocked; cbv zeta. destruct (Z.eqb_spec (ss_Revision snap) 0); [lia|].
  change (@PutSnapshot the_store snap now w) with (watched_put race snap now w). rewrite E.
  destruct (Z.eqb_spec (ss_Revision (wt_snapshot (put_of race snap now w))) 0); [lia|].
  unfold applyContractStoreSnapshotLocked.
  by destruct (Z.ltb_spec 0 (ss_Revision (wt_snapshot (put_of race snap now w)))); [|lia].
Qed.

Lemma one_put_calm s w s' : calm s s' -> one_put race w s s' (Some w).
Proof. intros C. left. split; [by apply steady_calm|done]. Qed.

(** A call that commits once: a state like [s] before, a quiet tail after. *)
Lemma commit_one_put cand now s s1 w s2 st err :
  0 <= s_storeVersion s <= ss_Revision (wt_snapshot w) -> ss_Revision (wt_snapshot w) < 2 ^ 64 - 1 ->
  calm s s1 ->
  commitContractSnapshotLocked (ss_set_Revision (nextStoreRevision (s_storeVersion s1)) cand) now s1 (Some w)
    = (s2, st, err) ->
  err = None /\ forall s', calm s2 s' -> one_put race w s s' st.
Proof.
  intros Hv Hw C1 E. rewrite (commit_once _ now s1 w) in E; [|by rewrite (cm_store _ _ C1)|done|done].
  simplify_eq. split; [done|]. intros s' C2. right. eexists _, now, s1. split_and!; [|done|by apply steady_calm].
  by rewrite <- (cm_store _ _ C1).
Qed.

Lemma publish_once s w q now wall :
  0 <= s_storeVersion s <= ss_Revision (wt_snapshot w) -> ss_Revision (wt_snapshot w) < 2 ^ 64 - 1 ->
  let out := PublishFeatureSignalContract s (Some w) q now wall in one_put race w s out.1.1 out.1.2.
Proof.
  intros Hv Hw out. subst out. pose proof (one_put_calm s w s ltac:(reflexivity)) as Hr.
  unfold PublishFeatureSignalContract. destruct (publish_invalid q); [done|]. cbv zeta.
  destruct (check_breaking _ _ _ _); [|done]. case_match; [done|].
  unfold publish_commit; cbv zeta. destruct (check_breaking _ _ _ _); [|done].
  destruct (commitContractSnapshotLocked _ _ _ _) as [[s' st'] err] eqn:E.
  destruct (commit_one_put _ _ s s w _ _ _ Hv Hw ltac:(reflexivity) E) as [-> Hc].
  apply Hc. cbn [fst snd]. auto using emit_activated_calm with dec.
Qed.

Lemma rollback_once s w q now wall :
  0 <= s_storeVersion s <= ss_Revision (wt_snapshot w) -> ss_Revision (wt_snapshot w) < 2 ^ 64 - 1 ->
  let out := RollbackFeatureSignalContract s (Some w) q now wall in one_put race w s out.1.1 out.1.2.
Proof.
  intros Hv Hw out. subst out. pose proof (one_put_calm s w s ltac:(reflexivity)) as Hr.
  unfold RollbackFeatureSignalContract. destruct (rollback_invalid q); [done|]. cbv zeta.
  destruct (last _) as [current|]; [|done]. destruct (rollback_target _ _) as [target|]; [|done].
  destruct (nextFallbackID _ s) as [s1 rollbackID] eqn:Ef.
  assert (C1 : calm s s1) by (change s1 with (s1, rollbackID).1; rewrite <- Ef; apply nextFallbackID_calm).
  destruct (commitContractSnapshotLocked _ _ _ _) as [[s' st'] err] eqn:E.
  destruct (commit_one_put _ _ s s1 w _ _ _ Hv Hw C1 E) as [-> Hc].
  apply Hc. cbn [fst snd]. auto using emit_activated_calm with dec.
Qed.

Lemma schedule_once {MR : MapRange} s w now worker clock wall :
  0 <= s_storeVersion s <= ss_Revision (wt_snapshot w) -> ss_Revision (wt_snapshot w) < 2 ^ 64 - 1 ->
  let out := RunFeatureSignalContractSchedulerWithWorker s (Some w) now worker clock wall in
  one_put race w s out.1.1 out.1.2.
Proof.
  intros Hv Hw out. subst out. pose proof (one_put_calm s w s ltac:(reflexivity)) as Hr.
  unfold RunFeatureSignalContractSchedulerWithWorker; cbv zeta.
  destruct (applyDueFeatureSignalContractsSnapshot _ _) as [candidate [|v l]]; [done|].
  destruct (commitContractSnapshotLocked _ _ _ _) as [[s' st'] err] eqn:E.
  destruct (commit_one_put _ _ s s w _ _ _ Hv Hw ltac:(reflexivity) E) as [-> Hc].
  apply Hc. cbn [fst snd]. auto using emit_activated_calm with dec.
Qed.

Lemma contract_call_once {MR : MapRange} c now wall s w :
  0 <= s_storeVersion s <= ss_Revision (wt_snapshot w) -> ss_Revision (wt_snapshot w) < 2 ^ 64 - 1 ->
  let out := contract_call race c now wall s w in one_put race w s out.1 out.2.
Proof.
  intros Hv Hw. destruct c; cbn [contract_call]; [by apply publish_once|by apply rollback_once|by apply schedule_once].
Qed.

(** A service that joins holds what the store holds. *)
Lemma join_once {MR : MapRange} cfg now w s w' : 0 <= ss_Revision (wt_snapshot w) < 2 ^ 64 - 1 ->
  NewKernel cfg now w = (s, Some w') ->
  holds s (wt_snapshot w') /\
  (w' = w /\ 0 < ss_Revision (wt_snapshot w) \/
   exists snap, ss_Revision snap <= ss_Revision (wt_snapshot w) + 1 /\ w' = put_of race snap now w).
Proof.
  intros Hw. unfold NewKernel; cbn -[Z.ltb boot_kernel publishContractSnapshotLocked].
  destruct (Z.ltb_spec 0 (ss_Revision (wt_snapshot w))).
  - intros [= <- <-]. split; [by apply holds_apply|by left].
  - assert (E0 : ss_Revision (wt_snapshot w) = 0) by lia. intros E. unfold publishContractSnapshotLocked in E.
    cbv zeta in E. set (snap := buildContractStoreSnapshotLocked (boot_kernel cfg now) now) in E.
    replace (ss_Revision snap =? 0) with false in E by done. cbn [fst] in E.
    destruct (put_of_next race snap now w) as [Ep Hr]; [lia|rewrite E0; cbn; lia|].
    unfold commitContractSnapshotLocked in E; cbv zeta in E. replace (ss_Revision snap =? 0) with false in E by done.
    change (@PutSnapshot the_store snap now w) with (watched_put race snap now w) in E. rewrite Ep in E.
    destruct (Z.eqb_spec (ss_Revision (wt_snapshot (put_of race snap now w))) 0); [lia|].
    cbn [fst] in E. simplify_eq. split; [apply holds_apply; lia|]. right. exists snap. split; [rewrite E0; cbn; lia|done].
Qed.
End Puts.

(** ** What holds along any run of the cluster *)

(** [x] is no newer than [y], and is [y] if it has its revision. *)
Definition upto (y x : Snapshot) : Prop :=
  ss_Revision x <= ss_Revision y /\ (ss_Revision x = ss_Revision y -> x = y).

Definition chan_ok (w : Watched) (ch : Channel) : Prop :=
  Z.of_nat (length (ch_queue ch)) <= wt_watchBuffer w /\
  forall x, x ∈ on_its_way ch -> upto (wt_snapshot w) x.

Record StoreInv (w : Watched) : Prop := mk_StoreInv {
  wi_revision : 0 <= ss_Revision (wt_snapshot w);
  wi_buffer : 1 <= wt_watchBuffer w;
  wi_registered : forall id, id ∈ wt_watchers w -> is_Some (wt_channels w !! id);
  wi_next : forall id ch, wt_channels w !! id = Some ch -> id < wt_nextWatchID w;
  wi_channel : forall id ch, wt_channels w !! id = Some ch -> chan_ok w ch
}.

Definition service_ok (w : Watched) (s : Service) : Prop :=
  0 <= s_storeVersion s <= ss_Revision (wt_snapshot w) /\
  (s_storeVersion s = ss_Revision (wt_snapshot w) -> holds s (wt_snapshot w)).

(** The service is up to date, or what it needs is on its way. *)
Definition reaches (w : Watched) (s : Service) (ch : Channel) : Prop :=
  s_storeVersion s = ss_Revision (wt_snapshot w) \/ wt_snapshot w ∈ on_its_way ch.

Definition served (w : Watched) (s : Service) (id : Z) : Prop :=
  id ∈ wt_watchers w -> exists ch, wt_channels w !! id = Some ch /\ reaches w s ch.

Definition replica_ok (w : Watched) (r : Replica) : Prop :=
  service_ok w (rp_service r) /\
  forall ctx id, rp_reads r !! ctx = Some id -> id < wt_nextWatchID w /\ served w (rp_service r) id.

(** A channel is read by one replica. *)
Definition sole (l : list Replica) : Prop :=
  forall i j r r' ctx ctx' id, l !! i = Some r -> l !! j = Some r' ->
    rp_reads r !! ctx = Some id -> rp_reads r' !! ctx' = Some id -> i = j.

Record ClusterInv (c : Cluster) : Prop := mk_ClusterInv {
  ci_store : StoreInv (cl_store c);
  ci_replicas : forall i r, cl_replicas c !! i = Some r -> replica_ok (cl_store c) r;
  ci_sole : sole (cl_replicas c)
}.

Lemma upto_refl x : upto x x.
Proof. done. Qed.

Lemma service_holds w s : 0 <= ss_Revision (wt_snapshot w) -> holds s (wt_snapshot w) -> service_ok w s.
Proof. intros Hw Hs. pose proof (ho_revision _ _ Hs). split; [lia|done]. Qed.

Lemma holds_served w s id : StoreInv w -> holds s (wt_snapshot w) -> served w s id.
Proof.
  intros HI Hs Hid. destruct (wi_registered _ HI _ Hid) as [ch Hch]. exists ch. split; [done|]. left.
  by rewrite (ho_revision _ _ Hs).
Qed.

(** *** A put *)

Lemma put_channels race snap now w id : wt_channels (put_of race snap now w) !! id =
  (fun ch => if decide (id ∈ wt_watchers w)
             then offer (wt_watchBuffer w) (race id) (wt_snapshot (put_of race snap now w)) ch else ch)
    <$> wt_channels w !! id.
Proof.
  unfold put_of, watched_put. destruct (memory_put snap now (wt_snapshot w)) as [next out]; cbn.
  rewrite map_lookup_imap. by destruct (wt_channels w !! id).
Qed.

Lemma put_same race snap now w : wt_watchers (put_of race snap now w) = wt_watchers w /\
  wt_nextWatchID (put_of race snap now w) = wt_nextWatchID w /\
  wt_watchBuffer (put_of race snap now w) = wt_watchBuffer w.
Proof. unfold put_of, watched_put. by destruct (memory_put snap now (wt_snapshot w)). Qed.

Lemma unhurried_room w id ch : unhurried w -> wt_channels w !! id = Some ch -> ch_first ch <> Sent ->
  has_room (wt_watchBuffer w) ch = true.
Proof. intros Hu Hch Hf. apply Hu in Hch. by destruct (ch_first ch). Qed.

(** What was there is older than what is put; each registered channel gets it. *)
Lemma put_channel race snap now w id ch' : StoreInv w -> unhurried w ->
  ss_Revision (wt_snapshot w) < 2 ^ 64 - 1 -> ss_Revision snap <= ss_Revision (wt_snapshot w) + 1 ->
  wt_channels (put_of race snap now w) !! id = Some ch' ->
  chan_ok (put_of race snap now w) ch' /\ is_Some (wt_channels w !! id) /\
  (id ∈ wt_watchers w -> wt_snapshot (put_of race snap now w) ∈ on_its_way ch').
Proof.
  intros HI Hu Hw Hs. pose proof (wi_revision _ HI). destruct (put_of_next race snap now w) as [_ Hr]; [lia|done|].
  rewrite put_channels. destruct (wt_channels w !! id) as [ch|] eqn:Ech; [|done]. cbn [fmap option_fmap option_map].
  destruct (wi_channel _ HI _ _ Ech) as [Hlen Hold]. destruct (put_same race snap now w) as (_ & _ & Eb).
  assert (Ho : forall x, x ∈ on_its_way ch -> upto (wt_snapshot (put_of race snap now w)) x).
  { intros x Hx. apply Hold in Hx as [Hx _]. split; lia. }
  unfold chan_ok. rewrite Eb. case_decide as Hid; intros [= <-].
  - destruct (offer_spec (wt_watchBuffer w) (race id) (wt_snapshot (put_of race snap now w)) ch
      (wi_buffer _ HI) Hlen (unhurried_room _ _ _ Hu Ech)) as (H1 & H2 & _ & H4).
    split_and!; [done| |done|done]. intros x Hx. apply H2 in Hx as [->|Hx]; [apply upto_refl|by apply Ho].
  - by split_and!.
Qed.

Section Put.
Context (race : Z -> Race) (snap : Snapshot) (now : time) (w : Watched).
Context (HI : StoreInv w) (Hu : unhurried w).
Context (Hw : ss_Revision (wt_snapshot w) < 2 ^ 64 - 1) (Hs : ss_Revision snap <= ss_Revision (wt_snapshot w) + 1).

Lemma put_newer : ss_Revision (wt_snapshot (put_of race snap now w)) = ss_Revision (wt_snapshot w) + 1.
Proof. pose proof (wi_revision _ HI). by apply put_of_next. Qed.

Lemma put_inv : StoreInv (put_of race snap now w).
Proof.
  pose proof (wi_revision _ HI). destruct (put_same race snap now w) as (E1 & E2 & E3). split.
  - rewrite put_newer. lia.
  - rewrite E3. apply (wi_buffer _ HI).
  - intros id. rewrite E1, put_channels. intros Hid. destruct (wi_registered _ HI _ Hid) as [ch ->]. by eexists.
  - intros id ch Hch. rewrite E2. destruct (put_channel _ _ _ _ _ _ HI Hu Hw Hs Hch) as (_ & [ch0 Hch0] & _).
    by apply (wi_next _ HI id ch0).
  - intros id ch Hch. by apply (put_channel _ _ _ _ _ _ HI Hu Hw Hs Hch).
Qed.

Lemma put_served s id : served (put_of race snap now w) s id.
Proof.
  destruct (put_same race snap now w) as (E1 & _ & _). intros Hid. rewrite E1 in Hid.
  destruct (wi_registered _ HI _ Hid) as [ch0 Hch0].
  destruct (wt_channels (put_of race snap now w) !! id) as [ch|] eqn:Ech.
  - exists ch. split; [done|]. right. by apply (put_channel _ _ _ _ _ _ HI Hu Hw Hs Ech).
  - rewrite put_channels, Hch0 in Ech. done.
Qed.

(** The other replicas fall behind, and the new snapshot is on its way. *)
Lemma put_replica r : replica_ok w r -> replica_ok (put_of race snap now w) r.
Proof.
  intros [[Hv _] Hr]. pose proof put_newer. split.
  - split; [lia|]. intros E. lia.
  - intros ctx id Hid. destruct (put_same race snap now w) as (_ & -> & _).
    split; [by apply (Hr ctx)|apply put_served].
Qed.

Lemma put_writer r s : replica_ok w r -> holds s (wt_snapshot (put_of race snap now w)) ->
  replica_ok (put_of race snap now w) (rp_set_service s r).
Proof.
  intros [_ Hr] Hh. split; cbn [rp_set_service rp_service rp_reads].
  - apply service_holds; [apply put_inv|done].
  - intros ctx id Hid. destruct (put_same race snap now w) as (_ & -> & _).
    split; [by apply (Hr ctx)|apply put_served].
Qed.
End Put.

(** *** Steps that write no snapshot *)

(** A change of one channel that keeps its queue short, and what is on its way. *)
Definition channel_moves (cap : Z) (ch ch' : Channel) : Prop :=
  (Z.of_nat (length (ch_queue ch)) <= cap -> Z.of_nat (length (ch_queue ch')) <= cap) /\
  forall x, x ∈ on_its_way ch' <-> x ∈ on_its_way ch.

Lemma first_send_moves cap ch : channel_moves cap ch (first_send cap ch).
Proof.
  unfold first_send. destruct (ch_first ch) as [|y|y] eqn:Ef; [by split| |by split].
  unfold has_room. destruct (Z.ltb_spec (Z.of_nat (length (ch_queue ch))) cap).
  - split; cbn; [rewrite length_app; cbn; lia|]. intros x. unfold on_its_way, waiting; cbn. rewrite Ef. set_solver.
  - split; cbn; [done|]. intros x. unfold on_its_way, waiting; cbn. rewrite Ef. set_solver.
Qed.

Lemma reader_take_moves cap ch : channel_moves cap ch (reader_take ch).
Proof.
  unfold reader_take, receive. destruct (ch_first ch) as [|y|y] eqn:Ef; [|by split..].
  destruct (ch_queue ch) as [|x l] eqn:Eq; [split; [by rewrite Eq|done]|]. split; cbn; [rewrite Eq; cbn; lia|].
  intros z. unfold on_its_way, waiting; cbn. rewrite Ef, Eq. set_solver.
Qed.

Lemma on_channel_lookup id f w i : wt_channels (on_channel id f w) !! i =
  (if decide (i = id) then f else fun ch => ch) <$> wt_channels w !! i.
Proof.
  unfold on_channel; cbn [set_channels wt_channels]. destruct (decide (i = id)) as [->|Hne].
  - apply lookup_alter_eq.
  - rewrite lookup_alter_ne by congruence. by destruct (wt_channels w !! i).
Qed.

Lemma on_channel_inv id f w :
  (forall ch, wt_channels w !! id = Some ch -> chan_ok w ch -> chan_ok w (f ch)) -> StoreInv w ->
  StoreInv (on_channel id f w).
Proof.
  intros Hf [H1 H2 H3 H4 H5]. split; [done|done| | |].
  - intros i Hi. rewrite on_channel_lookup. destruct (H3 i Hi) as [ch ->]. by eexists.
  - intros i ch. rewrite on_channel_lookup. destruct (wt_channels w !! i) as [ch0|] eqn:E; [|done].
    intros _. by apply (H4 i ch0).
  - intros i ch. rewrite on_channel_lookup. destruct (wt_channels w !! i) as [ch0|] eqn:E; [|done].
    cbn. case_decide as Ei; intros [= <-]; [rewrite Ei in E; apply (Hf ch0 E)|]; eauto.
Qed.

Lemma served_on_channel id f w s i :
  (i = id -> forall ch, wt_channels w !! id = Some ch -> reaches w s ch -> reaches w s (f ch)) ->
  served w s i -> served (on_channel id f w) s i.
Proof.
  intros Hf Hs Hi. destruct (Hs Hi) as (ch & Hch & Hr). rewrite on_channel_lookup, Hch. case_decide as Ei.
  - subst. exists (f ch). split; [done|]. by apply Hf.
  - by exists ch.
Qed.

Lemma moves_inv id f c : (forall ch, channel_moves (wt_watchBuffer (cl_store c)) ch (f ch)) -> ClusterInv c ->
  ClusterInv (mk_Cluster (cl_replicas c) (on_channel id f (cl_store c))).
Proof.
  intros Hf [H1 H2 H3]. split; [|intros i r Hi|exact H3]; cbn [cl_store cl_replicas] in *.
  - apply on_channel_inv; [|done]. intros ch _ [Hl He]. destruct (Hf ch) as [F1 F2].
    split; [by apply F1|]. intros x Hx. by apply He, F2.
  - destruct (H2 i r Hi) as [Hs Hr]. split; [done|]. intros ctx j Hj. split; [by apply (Hr ctx)|].
    apply served_on_channel; [|by apply (Hr ctx)]. intros _ ch _ [?|Hin]; [by left|]. right. by apply Hf.
Qed.

Lemma sole_insert l i r r' : l !! i = Some r -> rp_reads r' = rp_reads r -> sole l -> sole (<[i := r']> l).
Proof.
  intros Hi Hreads Hs.
  assert (Hl : forall j x, <[i := r']> l !! j = Some x -> exists y, l !! j = Some y /\ rp_reads y = rp_reads x).
  { intros j x. rewrite list_lookup_insert. case_decide as E; [|by eexists].
    intros [= <-]. destruct E as [<- _]. exists r. by rewrite Hreads. }
  intros j k x y ctx ctx' id Hj Hk Hx Hy. destruct (Hl _ _ Hj) as (x0 & Hx0 & Ex), (Hl _ _ Hk) as (y0 & Hy0 & Ey).
  apply (Hs j k x0 y0 ctx ctx' id Hx0 Hy0); congruence.
Qed.

(** A replica changes on its own. *)
Lemma local_inv c i r r' : ClusterInv c -> cl_replicas c !! i = Some r ->
  replica_ok (cl_store c) r' -> rp_reads r' = rp_reads r -> ClusterInv (replaced c i r' None).
Proof.
  intros [H1 H2 H3] Hi Hr Hreads. split; cbn [replaced cl_store cl_replicas default]; [done| |].
  - intros j x. rewrite list_lookup_insert. case_decide; [by intros [= <-]|apply H2].
  - by apply (sole_insert _ i r).
Qed.

Lemma worker_inv c i r r' : ClusterInv c -> cl_replicas c !! i = Some r ->
  rp_service r' = rp_service r -> rp_reads r' = rp_reads r -> ClusterInv (replaced c i r' None).
Proof.
  intros HI Hi Es Er. apply (local_inv c i r r' HI Hi); [|done].
  destruct (ci_replicas _ HI i r Hi) as [H1 H2]. unfold replica_ok. by rewrite Es, Er.
Qed.

Lemma served_version w s s' id : (s_storeVersion s = ss_Revision (wt_snapshot w) ->
    s_storeVersion s' = ss_Revision (wt_snapshot w)) ->
  served w s id -> served w s' id.
Proof.
  intros Hv Hs Hid. destruct (Hs Hid) as (ch & Hch & Hr). exists ch. split; [done|].
  destruct Hr as [?|?]; [left; auto|by right].
Qed.

(** The service of a replica changes, and does not fall behind. *)
Lemma service_inv c i r s : ClusterInv c -> cl_replicas c !! i = Some r -> service_ok (cl_store c) s ->
  (s_storeVersion (rp_service r) = ss_Revision (wt_snapshot (cl_store c)) ->
   s_storeVersion s = ss_Revision (wt_snapshot (cl_store c))) ->
  ClusterInv (replaced c i (rp_set_service s r) None).
Proof.
  intros HI Hi Hs Hv. apply (local_inv c i r); [done|done| |done].
  destruct (ci_replicas _ HI i r Hi) as [_ H2]. split; [done|]. intros ctx id Hid. split; [by apply (H2 ctx)|].
  apply (served_version _ _ _ _ Hv). by apply (H2 ctx).
Qed.

Lemma steady_service w s s' : steady s s' -> service_ok w s -> service_ok w s'.
Proof.
  intros C [H1 H2]. rewrite <- (st_store _ _ C) in H1. split; [done|]. rewrite (st_store _ _ C). intros E.
  by eapply holds_steady, H2.
Qed.

(** A put by replica [i]. *)
Lemma writer_inv race snap now c i r s : ClusterInv c -> unhurried (cl_store c) ->
  ss_Revision (wt_snapshot (cl_store c)) < 2 ^ 64 - 1 ->
  ss_Revision snap <= ss_Revision (wt_snapshot (cl_store c)) + 1 -> cl_replicas c !! i = Some r ->
  holds s (wt_snapshot (put_of race snap now (cl_store c))) ->
  ClusterInv (replaced c i (rp_set_service s r) (Some (put_of race snap now (cl_store c)))).
Proof.
  intros [H1 H2 H3] Hu Hw Hs Hi Hh. split; cbn [replaced cl_store cl_replicas default].
  - by apply put_inv.
  - intros j x. rewrite list_lookup_insert. case_decide as E.
    + intros [= <-]. apply put_writer; [done..|by apply (H2 i)|done].
    + intros Hj. apply put_replica; [done..|by apply (H2 j)].
  - by apply (sole_insert _ i r).
Qed.

(** *** Watches *)

Lemma watch_inv w : StoreInv w -> StoreInv (Watch w).2.
Proof.
  intros [H1 H2 H3 H4 H5]. unfold Watch; cbn. split; cbn; [done|done| | |].
  - intros id Hid. destruct (decide (id = wt_nextWatchID w)) as [->|Hne]; [rewrite lookup_insert_eq; by eexists|].
    rewrite lookup_insert_ne by congruence. apply H3. set_solver.
  - intros id ch. destruct (decide (id = wt_nextWatchID w)) as [->|Hne]; [lia|].
    rewrite lookup_insert_ne by congruence. intros Hch. specialize (H4 _ _ Hch). lia.
  - intros id ch. destruct (decide (id = wt_nextWatchID w)) as [->|Hne].
    + rewrite lookup_insert_eq. intros [= <-]. unfold chan_ok, on_its_way, waiting; cbn. split; [lia|].
      intros x. destruct (0 <? _); [|by intros ?%not_elem_of_nil]. intros ->%list_elem_of_singleton. apply upto_refl.
    + rewrite lookup_insert_ne by congruence. apply H5.
Qed.

Lemma watch_served w s id : StoreInv w -> service_ok w s -> served w s id \/ id = wt_nextWatchID w ->
  served (Watch w).2 s id.
Proof.
  intros HI [Hv _] Hs Hid. unfold Watch in *; cbn in *. unfold reaches; cbn.
  destruct (decide (id = wt_nextWatchID w)) as [->|Hne].
  - rewrite lookup_insert_eq. eexists. split; [done|]. unfold on_its_way, waiting; cbn.
    destruct (Z.ltb_spec 0 (ss_Revision (wt_snapshot w))); [right; by apply list_elem_of_singleton|left; lia].
  - rewrite lookup_insert_ne by congruence. destruct Hs as [Hs|?]; [|done]. apply Hs. set_solver.
Qed.

Lemma start_inv c expired i r : ClusterInv c -> cl_replicas c !! i = Some r ->
  let out := StartFeatureSignalContractCacheWatcher expired r (Some (cl_store c)) in
  ClusterInv (replaced c i out.1.1 out.1.2).
Proof.
  intros HI Hi. unfold StartFeatureSignalContractCacheWatcher, worker_begin.
  destruct (wk_cancel (rp_watcher r)); [by apply (worker_inv c i r)|].
  destruct expired; [by apply (worker_inv c i r)|]. cbn [Watch fst snd].
  destruct HI as [H1 H2 H3]. set (w := cl_store c) in *.
  split; cbn [replaced cl_store cl_replicas default].
  - by apply (watch_inv w).
  - intros j x. rewrite list_lookup_insert. case_decide as E.
    + intros [= <-]. destruct (H2 i r Hi) as [Hs Hr]. split; [exact Hs|]. cbn [rp_add_read rp_set_watcher rp_reads rp_service].
      intros ctx id Hid. apply lookup_insert_Some in Hid as [[_ <-]|[_ Hid]].
      * split; [cbn; lia|]. apply (watch_served w); [done|done|by right].
      * destruct (Hr ctx id Hid). split; [cbn; lia|]. apply (watch_served w); [done|done|by left].
    + intros Hj. destruct (H2 j x Hj) as [Hs Hr]. split; [exact Hs|]. intros ctx id Hid.
      destruct (Hr ctx id Hid). split; [cbn; lia|]. apply (watch_served w); [done|done|by left].
  - intros j k x y ctx ctx' id. rewrite !list_lookup_insert.
    assert (Hlt : forall k y ctx', cl_replicas c !! k = Some y -> rp_reads y !! ctx' <> Some (wt_nextWatchID w)).
    { intros k' y' c' Hk' Hr'. destruct (H2 k' y' Hk') as [_ Hr]. destruct (Hr _ _ Hr'). lia. }
    case_decide as E1; case_decide as E2; [destruct E1, E2; congruence|..]; intros Hx Hy; simplify_eq;
      cbn [rp_add_read rp_set_watcher rp_reads]; rewrite ?lookup_insert_Some; intros Hr1 Hr2.
    + destruct E1 as [<- _], Hr1 as [[_ <-]|[_ Hr1]]; [by destruct (Hlt _ _ _ Hy Hr2)|]. by eapply (H3 i k).
    + destruct E2 as [<- _], Hr2 as [[_ <-]|[_ Hr2]]; [by destruct (Hlt _ _ _ Hx Hr1)|]. by eapply (H3 j i).
    + by eapply (H3 j k).
Qed.

Lemma end_watch_inv c id : ClusterInv c ->
  ClusterInv (mk_Cluster (cl_replicas c) (end_watch id (cl_store c))).
Proof.
  intros [H1 H2 H3]. set (w := cl_store c) in *.
  set (w1 := mk_Watched (wt_snapshot w) (wt_watchers w ∖ {[id]}) (wt_channels w) (wt_nextWatchID w) (wt_watchBuffer w)).
  assert (G1 : StoreInv w1).
  { destruct H1 as [A1 A2 A3 A4 A5]. split; cbn; [done|done| |done|done]. intros j Hj. apply A3. set_solver. }
  split; [|intros i r Hi|exact H3]; cbn [cl_store cl_replicas] in *.
  - by apply on_channel_inv.
  - destruct (H2 i r Hi) as [Hs Hr]. split; [done|]. intros ctx j Hj. destruct (Hr ctx j Hj) as [? Hd].
    split; [done|]. apply (served_on_channel id _ w1); [by intros _ ch _ Hch|]. intros Hin. apply Hd. set_solver.
Qed.

(** *** The reader applies what it received *)

Definition taken_away (rest : list Snapshot) (ch : Channel) : Channel :=
  mk_Channel (ch_queue ch) (ch_first ch) rest (ch_closed ch).

Lemma watch_snapshot_ok w x s : 0 <= ss_Revision (wt_snapshot w) -> upto (wt_snapshot w) x -> service_ok w s ->
  service_ok w (watch_snapshot x s) /\
  (s_storeVersion s = ss_Revision (wt_snapshot w) -> watch_snapshot x s = s) /\
  (x = wt_snapshot w -> s_storeVersion (watch_snapshot x s) = ss_Revision (wt_snapshot w)).
Proof.
  intros HI [U1 U2] [Hv Hh]. unfold watch_snapshot. destruct (Z.ltb_spec (s_storeVersion s) (ss_Revision x)).
  - assert (Hx : holds (applyContractStoreSnapshotLocked x s) x) by (apply holds_apply; lia).
    pose proof (ho_revision _ _ Hx) as E. rewrite <- E. split_and!; [|lia|by intros ->].
    split; [lia|]. intros Er. rewrite <- E in Er. by rewrite <- (U2 Er).
  - split_and!; [done|done|]. intros ->. lia.
Qed.

Lemma apply_inv c i r ctx id ch x rest : ClusterInv c -> cl_replicas c !! i = Some r ->
  rp_reads r !! ctx = Some id -> wt_channels (cl_store c) !! id = Some ch -> ch_taken ch = x :: rest ->
  ClusterInv (replaced c i (rp_set_service (watch_snapshot x (rp_service r)) r)
                (Some (on_channel id (taken_away rest) (cl_store c)))).
Proof.
  intros HI Hi Hctx Hch Htk. pose proof (ci_store _ HI) as HS. destruct (wi_channel _ HS _ _ Hch) as [_ He].
  assert (Hu : upto (wt_snapshot (cl_store c)) x) by (apply He; unfold on_its_way; rewrite Htk; by left).
  destruct (ci_replicas _ HI i r Hi) as [Hs Hr].
  destruct (watch_snapshot_ok _ x (rp_service r) (wi_revision _ HS) Hu Hs) as (W1 & W2 & W3).
  assert (HI' : ClusterInv (replaced c i (rp_set_service (watch_snapshot x (rp_service r)) r) None)).
  { apply service_inv; [done..|]. intros E. by rewrite (W2 E). }
  destruct HI' as [_ G2 G3]. split; [| |exact G3]; cbn [replaced cl_store cl_replicas default] in *.
  - apply on_channel_inv; [|done]. intros ch0 E [Hl H0]. rewrite Hch in E. injection E as <-. split; [done|].
    intros y Hy. apply H0. unfold on_its_way in *. rewrite Htk. cbn in *. set_solver.
  - intros j y Hj. destruct (G2 j y Hj) as [Gs Gr]. split; [done|]. intros ctx' id' Hid'.
    split; [by apply (Gr ctx')|]. apply served_on_channel; [|by apply (Gr ctx')].
    intros -> ch0 E Hre. rewrite Hch in E. injection E as <-.
    rewrite list_lookup_insert in Hj. case_decide as Ej.
    + injection Hj as <-. destruct Hre as [?|Hin]; [by left|]. unfold on_its_way in Hin. rewrite Htk in Hin.
      cbn in Hin. apply elem_of_cons in Hin as [Hx|Hin]; [left; by apply W3|by right].
    + pose proof (ci_sole _ HI i j r y ctx ctx' id Hi Hj Hctx Hid') as ->.
      destruct Ej. split; [done|]. by eapply lookup_lt_Some.
Qed.

(** *** Every step *)

Definition revision_of (c : Cluster) : Z := ss_Revision (wt_snapshot (cl_store c)).

Lemma call_inv race c i r s' st' : ClusterInv c -> unhurried (cl_store c) -> revision_of c < 2 ^ 64 - 1 ->
  cl_replicas c !! i = Some r -> one_put race (cl_store c) (rp_service r) s' st' ->
  ClusterInv (replaced c i (rp_set_service s' r) st') /\
  revision_of (replaced c i (rp_set_service s' r) st') <= revision_of c + 1.
Proof.
  intros HI Hu Hw Hi. destruct (ci_replicas _ HI i r Hi) as [Hs _]. pose proof (ci_store _ HI) as HS.
  intros [[C ->]|(snap & now & s1 & Hr & -> & C)].
  - split; [|unfold revision_of; cbn; lia]. apply (service_inv c i r); [done|done|by eapply steady_service|].
    by rewrite (st_store _ _ C).
  - destruct Hs as [Hv _]. unfold revision_of in *. rewrite next_revision in Hr by lia.
    assert (Hle : ss_Revision snap <= ss_Revision (wt_snapshot (cl_store c)) + 1) by lia. split.
    + apply writer_inv; [done..|]. eapply holds_steady; [exact C|]. by split.
    + change (ss_Revision (wt_snapshot (put_of race snap now (cl_store c))) <= ss_Revision (wt_snapshot (cl_store c)) + 1).
      by rewrite (put_newer race snap now _ HS Hw Hle).
Qed.

Lemma join_inv_cluster c s w' : ClusterInv c -> StoreInv w' ->
  (forall r, replica_ok (cl_store c) r -> replica_ok w' r) -> holds s (wt_snapshot w') ->
  ClusterInv (mk_Cluster (cl_replicas c ++ [new_replica s]) w').
Proof.
  intros [H1 H2 H3] HS Hr Hs.
  assert (Hl : forall j x, (cl_replicas c ++ [new_replica s]) !! j = Some x ->
    cl_replicas c !! j = Some x \/ x = new_replica s).
  { intros j x. rewrite lookup_app. destruct (cl_replicas c !! j) as [y|] eqn:E; [intros [= <-]; by left|].
    intros Hx. apply list_elem_of_lookup_2, list_elem_of_singleton in Hx. by right. }
  split; cbn [cl_store cl_replicas]; [done| |].
  - intros j x Hj. destruct (Hl _ _ Hj) as [Hx| ->]; [by apply Hr, (H2 j)|]. split; [|done].
    apply service_holds; [apply (wi_revision _ HS)|done].
  - intros j k x y ctx ctx' id Hj Hk Hx Hy. destruct (Hl _ _ Hj) as [Gx| ->]; [|done].
    destruct (Hl _ _ Hk) as [Gy| ->]; [|done]. by eapply (H3 j k x y).
Qed.

Section Run.
Context `{JsonMarshaler}.

Lemma sync_inv race c i r : ClusterInv c -> cl_replicas c !! i = Some r ->
  let out := syncContractCacheFromStoreLocked (H := WatchedStore race) (rp_service r) (Some (cl_store c)) in
  ClusterInv (replaced c i (rp_set_service out.1 r) None).
Proof.
  intros HI Hi. destruct (ci_replicas _ HI i r Hi) as [Hs _]. pose proof (wi_revision _ (ci_store _ HI)) as H0. cbn.
  destruct (Z.eqb_spec (ss_Revision (wt_snapshot (cl_store c))) 0); [by apply (service_inv c i r)|].
  assert (Hh : holds (applyContractStoreSnapshotLocked (wt_snapshot (cl_store c)) (rp_service r))
    (wt_snapshot (cl_store c))) by (apply holds_apply; lia).
  apply (service_inv c i r); [done|done|by apply service_holds|]. intros _. by rewrite (ho_revision _ _ Hh).
Qed.

Lemma cl_step_inv c c' : ClusterInv c -> unhurried (cl_store c) -> revision_of c < 2 ^ 64 - 1 ->
  cl_step c c' -> ClusterInv c' /\ revision_of c' <= revision_of c + 1.
Proof.
  intros HI Hu Hw Hstep. pose proof (ci_store _ HI) as HS. pose proof (wi_revision _ HS) as H0.
  assert (Hloc : forall x, ClusterInv x /\ cl_store x = cl_store c ->
    ClusterInv x /\ revision_of x <= revision_of c + 1).
  { intros x [? E]. split; [done|]. unfold revision_of. rewrite E. lia. }
  assert (Hchan : forall id f l, ClusterInv (mk_Cluster l (on_channel id f (cl_store c))) ->
    ClusterInv (mk_Cluster l (on_channel id f (cl_store c))) /\
    revision_of (mk_Cluster l (on_channel id f (cl_store c))) <= revision_of c + 1).
  { intros id f l G. split; [done|]. unfold revision_of; cbn. lia. }
  unfold revision_of in *. destruct Hstep as [MR race cfg now s w E|MR race i r call now wall Hi out
    |MR i r Env call env Hi Hc|race i r Hi out|expired i r Hi out|i r Hi|id|i r ctx id Hi Hctx Hid
    |i r ctx id ch x rest Hi Hctx Hid Hch Htk|i r ctx Hi|i r ctx id ch Hi Hctx Hid Hch Hf|i r ctx Hi Hl Hd
    |interval workerID i r Hi|i r Hi|MR race i r ctx clock wall Hi Hctx out|i r ctx Hi|i r ctx Hi Hl Hd].
  - destruct (join_once race cfg now (cl_store c) s w ltac:(lia) E) as [Hh [[-> _]|(snap & Hs & ->)]].
    + apply Hloc. split; [|done]. by apply join_inv_cluster.
    + split; [|cbn [cl_store]; rewrite (put_newer race snap now _ HS Hw Hs); lia].
      apply join_inv_cluster; [done|by apply put_inv| |done]. intros r. by apply put_replica.
  - apply (call_inv race); [done..|]. destruct (ci_replicas _ HI i r Hi) as [[Hv _] _].
    apply contract_call_once; lia.
  - apply Hloc. split; [|done]. pose proof (exec_steady call (rp_service r, env) Hc) as C. cbn [fst] in C.
    destruct (ci_replicas _ HI i r Hi) as [Hs _].
    apply (service_inv c i r); [done|done|by eapply steady_service|by rewrite (st_store _ _ C)].
  - apply Hloc. split; [|done]. by apply (sync_inv race).
  - split; [by apply (start_inv c)|]. subst out. unfold StartFeatureSignalContractCacheWatcher.
    destruct (worker_begin _) as [[ctx wk]|]; [destruct expired|]; cbn; lia.
  - apply Hloc. split; [|done]. by apply (worker_inv c i r).
  - apply Hchan, moves_inv; [apply first_send_moves|done].
  - apply Hchan, moves_inv; [apply reader_take_moves|done].
  - apply Hchan. by apply (apply_inv c i r ctx id ch x rest).
  - apply Hloc. split; [|done]. by apply (worker_inv c i r).
  - split; [by apply end_watch_inv|]. cbn. lia.
  - apply Hloc. split; [|done]. by apply (worker_inv c i r).
  - apply Hloc. split; [|done]. apply (worker_inv c i r); [done|done|..];
      unfold StartFeatureSignalContractActivationWorker; cbv zeta; by destruct (worker_begin _) as [[? ?]|].
  - apply Hloc. split; [|done]. by apply (worker_inv c i r).
  - destruct (ci_replicas _ HI i r Hi) as [[Hv _] _].
    pose proof (schedule_once race (rp_service r) (cl_store c) clock (default "" (snd <$> rp_tickers r !! ctx))
      clock wall Hv Hw) as Ho. subst out. unfold activation_tick; cbn [fst snd] in *.
    destruct (call_inv race c i r _ _ HI Hu Hw Hi Ho) as [G1 G2]. done.
  - apply Hloc. split; [|done]. by apply (worker_inv c i r).
  - apply Hloc. split; [|done]. by apply (worker_inv c i r).
Qed.

Lemma new_inv watchBuffer seed : 0 <= ss_Revision seed ->
  ClusterInv (mk_Cluster [] (NewWatchedStore watchBuffer seed)).
Proof.
  intros Hs. split; cbn; [|done|done]. split; cbn; [| |set_solver|done|done].
  - unfold NewInMemoryFeatureSignalContractStore. destruct (Z.ltb_spec 0 (ss_Revision seed)); cbn; lia.
  - destruct (Z.leb_spec watchBuffer 0); lia.
Qed.

Lemma cl_run_inv watchBuffer seed n c : 0 <= ss_Revision seed -> ss_Revision seed + n < 2 ^ 64 ->
  cl_run (NewWatchedStore watchBuffer seed) n c ->
  ClusterInv c /\ 0 <= n /\ revision_of c <= ss_Revision seed + n.
Proof.
  intros Hs. induction 2 as [|n c c' Hrun IH Hu Hstep].
  - split_and!; [by apply new_inv|done|]. unfold revision_of; cbn. unfold NewInMemoryFeatureSignalContractStore.
    destruct (Z.ltb_spec 0 (ss_Revision seed)); cbn; lia.
  - destruct IH as (I1 & I2 & I3); [lia|]. destruct (cl_step_inv c c' I1 Hu ltac:(lia) Hstep). split_and!; [done|lia..].
Qed.
End Run.

(** ** A watcher catches up *)

Definition apply_all (l : list Snapshot) (s : Service) : Service := foldl (fun s x => watch_snapshot x s) s l.

Lemma catch_up w l : forall s, 0 <= ss_Revision (wt_snapshot w) -> (forall x, x ∈ l -> upto (wt_snapshot w) x) ->
  service_ok w s -> s_storeVersion s = ss_Revision (wt_snapshot w) \/ wt_snapshot w ∈ l ->
  holds (apply_all l s) (wt_snapshot w).
Proof.
  induction l as [|x l IH]; intros s Hw Hl Hs Hr.
  - destruct Hr as [E|Hin]; [by apply Hs|by apply not_elem_of_nil in Hin].
  - destruct (watch_snapshot_ok w x s Hw (Hl x ltac:(by left)) Hs) as (W1 & W2 & W3). cbn [apply_all foldl].
    apply IH; [done|intros y Hy; apply Hl; by right|done|].
    destruct Hr as [E|Hin]; [left; by rewrite (W2 E)|].
    apply elem_of_cons in Hin as [Hx|Hin]; [left; by apply W3|by right].
Qed.

Section CatchUp.
Context `{JsonMarshaler} (i : nat) (ctx id : Z).

(** The replica's reader receives everything ... *)
Lemma takes_run r : forall q c tk cl, cl_replicas c !! i = Some r -> ctx ∈ wk_live (rp_watcher r) ->
  rp_reads r !! ctx = Some id -> wt_channels (cl_store c) !! id = Some (mk_Channel q Sent tk cl) ->
  exists w, rtc cl_step c (mk_Cluster (cl_replicas c) w) /\ wt_snapshot w = wt_snapshot (cl_store c) /\
    wt_channels w !! id = Some (mk_Channel [] Sent (tk ++ q) cl).
Proof.
  induction q as [|x q IH]; intros c tk cl Hi Hl Hid Hch.
  - exists (cl_store c). rewrite app_nil_r. split; [by destruct c|done].
  - destruct (IH (mk_Cluster (cl_replicas c) (on_channel id reader_take (cl_store c))) (tk ++ [x]) cl)
      as (w & R & E & Hw); [done..|cbn [cl_store]; rewrite on_channel_lookup, Hch; by case_decide|].
    exists w. split; [|by rewrite <- app_assoc in Hw].
    eapply rtc_l; [by apply (cl_take c i r ctx id)|exact R].
Qed.

(** ... and applies it. *)
Lemma applies_run cl : forall tk c r, cl_replicas c !! i = Some r -> ctx ∈ wk_live (rp_watcher r) ->
  rp_reads r !! ctx = Some id -> wt_channels (cl_store c) !! id = Some (mk_Channel [] Sent tk cl) ->
  exists c', rtc cl_step c c' /\ wt_snapshot (cl_store c') = wt_snapshot (cl_store c) /\
    cl_replicas c' !! i = Some (rp_set_service (apply_all tk (rp_service r)) r) /\
    wt_channels (cl_store c') !! id = Some (mk_Channel [] Sent [] cl).
Proof.
  induction tk as [|x tk IH]; intros c r Hi Hl Hid Hch.
  - exists c. split_and!; [done|done| |done]. rewrite Hi. by destruct r.
  - pose proof (cl_apply c i r ctx id _ x tk Hi Hl Hid Hch eq_refl) as Hstep. set (c1 := replaced _ _ _ _) in Hstep.
    destruct (IH c1 (rp_set_service (watch_snapshot x (rp_service r)) r)) as (c' & R & E & Hr & Hc); [|done|done| |].
    + cbn. rewrite list_lookup_insert. apply lookup_lt_Some in Hi. by rewrite decide_True.
    + change (wt_channels (on_channel id (taken_away tk) (cl_store c)) !! id = Some (mk_Channel [] Sent tk cl)).
      rewrite on_channel_lookup, Hch. by rewrite decide_True.
    + exists c'. split; [by eapply rtc_l|]. split; [by rewrite E|]. by split.
Qed.
End CatchUp.

(** C16: a watched service converges to the store.  Along any run of services
    over one watched store (publications, rollbacks, activations, decision
    calls, workers that start and stop, snapshots that wait, get dropped or are
    applied late), as long as no first send of a watch finds its channel full,
    a service never runs ahead of the store and has the store's contracts when
    it has its revision; and whenever a watcher reads a live channel, applying
    what it has received and what is queued, in order, brings the service to
    exactly the contracts of the store, and its steps alone get it there. *)
Theorem watch_converges `{JsonMarshaler} (watchBuffer : Z) (seed : Snapshot) (n : Z) (c : Cluster) (i : nat)
    (r : Replica) :
  0 <= ss_Revision seed -> ss_Revision seed + n < 2 ^ 64 ->
  cl_run (NewWatchedStore watchBuffer seed) n c -> cl_replicas c !! i = Some r ->
  let w := cl_store c in
  0 <= s_storeVersion (rp_service r) <= ss_Revision (wt_snapshot w) /\
  (s_storeVersion (rp_service r) = ss_Revision (wt_snapshot w) -> holds (rp_service r) (wt_snapshot w)) /\
  forall ctx id ch, ctx ∈ wk_live (rp_watcher r) -> rp_reads r !! ctx = Some id -> id ∈ wt_watchers w ->
    wt_channels w !! id = Some ch -> ch_first ch = Sent ->
    let s' := apply_all (ch_taken ch ++ ch_queue ch) (rp_service r) in
    holds s' (wt_snapshot w) /\
    exists c', rtc cl_step c c' /\ wt_snapshot (cl_store c') = wt_snapshot w /\
      cl_replicas c' !! i = Some (rp_set_service s' r) /\
      wt_channels (cl_store c') !! id = Some (mk_Channel [] Sent [] (ch_closed ch)).
Proof.
  intros Hs Hn Hrun Hi w. destruct (cl_run_inv watchBuffer seed n c Hs Hn Hrun) as ([HS HR _] & _ & _).
  destruct (HR i r Hi) as [Hok Hr]. split_and!; [apply Hok|apply Hok|apply Hok|].
  intros ctx id ch Hl Hid Hreg Hch Hf s'. destruct (Hr ctx id Hid) as [_ Hd].
  destruct (Hd Hreg) as (ch' & Hch' & Hre). fold w in Hch'. rewrite Hch in Hch'. injection Hch' as <-.
  destruct (wi_channel _ HS _ _ Hch) as [_ He]. unfold reaches, on_its_way, waiting in Hre, He.
  rewrite Hf, app_nil_r in Hre, He. split.
  - apply (catch_up w); [apply (wi_revision _ HS)|exact He|done|exact Hre].
  - destruct ch as [q fs tk cl]; cbn in Hf; subst fs.
    destruct (takes_run i ctx id r q c tk cl Hi Hl Hid Hch) as (w1 & R1 & E1 & H1).
    destruct (applies_run i ctx id cl (tk ++ q) (mk_Cluster (cl_replicas c) w1) r Hi Hl Hid H1) as (c' & R2 & E2 & H2 & H3).
    exists c'. split_and!; [by etransitivity|by rewrite E2|exact H2|exact H3].
Qed.

(** ** A worker that is stopped and started *)

(** Starts that wait for the goroutine to be gone. *)
Inductive wk_orderly : Worker -> Prop :=
| wk_new : wk_orderly no_worker
| wk_start w ctx w' : wk_orderly w -> wk_live w = ∅ -> worker_begin w = Some (ctx, w') -> wk_orderly (worker_go ctx w')
| wk_stopped w : wk_orderly w -> wk_orderly (worker_stop w)
| wk_context w ctx : wk_orderly w -> wk_orderly (context_done ctx w)
| wk_exit w ctx : wk_orderly w -> ctx ∈ wk_live w -> ctx ∈ wk_done w -> wk_orderly (worker_exit ctx w).

(** One goroutine at most; a start is refused only while there is one, and one
    that runs can be stopped. *)
Theorem worker_single (w : Worker) : wk_orderly w ->
  (wk_cancel w = None /\ wk_live w = ∅) \/
  exists ctx, wk_live w = {[ctx]} /\ (wk_cancel w = Some ctx \/ wk_cancel w = None /\ ctx ∈ wk_done w).
Proof.
  induction 1 as [|w ctx w' _ IH Hl Hb|w _ IH|w ctx _ IH|w ctx _ IH Hin Hd].
  - by left.
  - right. unfold worker_begin in Hb. destruct (wk_cancel w); [done|]. injection Hb as <- <-. cbn.
    exists (wk_next w). rewrite Hl. split; [set_solver|by left].
  - unfold worker_stop. destruct (wk_cancel w) as [ctx|] eqn:E; [|by rewrite E].
    right. destruct IH as [[? _]|(ctx' & Hl & [Hc|[? _]])]; [done| |done]. simplify_eq. exists ctx'. cbn.
    split; [done|]. right. set_solver.
  - destruct IH as [[? ?]|(ctx' & Hl & Hc)]; [by left|]. right. exists ctx'. cbn. split; [done|]. destruct Hc as [?|[? ?]]; [by left|right]. split; [done|set_solver].
  - left. cbn. split; [done|]. destruct IH as [[_ E]|(ctx1 & Hl & _)]; [set_solver|]. rewrite Hl in Hin |- *. set_solver.
Qed.

(** ** Histories *)

(** A stop and a start before the goroutine of the first worker has gone: when
    it goes it clears the cancel function of the second, which then runs
    without anyone able to stop it, and a third can be started beside it. *)
Example stop_start_loses_worker :
  let begin_ w := match worker_begin w with Some (ctx, w) => worker_go ctx w | None => w end in
  let w := worker_exit 0 (begin_ (worker_stop (begin_ no_worker))) in
  wk_cancel w = None /\ elements (wk_live w) = [1] /\ wk_done (worker_stop w) = wk_done w /\
  elements (wk_live (begin_ w)) = [2; 1].
Proof. vm_compute. by split_and!. Qed.

Definition no_race (id : Z) : Race := mk_Race 0 0 false false.
Definition numbered_snapshot (n : Z) : Snapshot := mk_FeatureSignalContractStoreSnapshot n dec_t0 ∅ ∅ ∅ ∅ ∅.

(** Two puts before [Watch] reaches its first send, over a buffer of one: the
    first fills the channel, [Watch] waits; the second drops the first's
    snapshot, lets the initial one in, finds the channel full again and is
    dropped itself.  The watcher is left with the oldest of three. *)
Example overtaken_watch :
  let '(id, w1) := Watch (NewWatchedStore 1 (numbered_snapshot 1)) in
  let w2 := on_channel id (first_send 1) (put_of no_race (numbered_snapshot 2) 0 w1) in
  let w3 := put_of no_race (numbered_snapshot 3) 0 w2 in
  wt_channels w2 !! id = Some (mk_Channel [numbered_snapshot 2] (Blocked (numbered_snapshot 1)) [] false) /\
  ss_Revision (wt_snapshot w3) = 3 /\
  wt_channels w3 !! id = Some (mk_Channel [numbered_snapshot 1] Sent [] false).
Proof. vm_compute. by split_and!. Qed.

(** Two services over one store; the second watches, the first publishes. *)
Definition v0 : Cluster := mk_Cluster [] (NewWatchedStore 2 no_snapshot).
Definition joined (c : Cluster) : Cluster :=
  let out := NewKernel (H := canonical_range) (H1 := WatchedStore no_race) dec_cfg dec_t0 (cl_store c) in
  mk_Cluster (cl_replicas c ++ [new_replica out.1]) (default (cl_store c) out.2).
Definition v1 : Cluster := Eval vm_compute in joined v0.
Definition v2 : Cluster := Eval vm_compute in joined v1.
Definition rep (c : Cluster) (i : nat) : Replica := default (new_replica k0) (cl_replicas c !! i).
Definition watching (c : Cluster) : Cluster :=
  let out := StartFeatureSignalContractCacheWatcher false (rep c 1) (Some (cl_store c)) in
  replaced c 1 out.1.1 out.1.2.
Definition v3 : Cluster := Eval vm_compute in watching v2.
Definition initial_sent (c : Cluster) : Cluster :=
  mk_Cluster (cl_replicas c) (on_channel 0 (first_send (wt_watchBuffer (cl_store c))) (cl_store c)).
Definition v4 : Cluster := Eval vm_compute in initial_sent v3.
Definition published (c : Cluster) : Cluster :=
  let out := contract_call (MR := canonical_range) no_race (PublishCall q1) CtlExamples.t1 CtlExamples.t1
               (rp_service (rep c 0)) (cl_store c) in
  replaced c 0 (rp_set_service out.1 (rep c 0)) out.2.
Definition v5 : Cluster := Eval vm_compute in published v4.

Lemma joined_step (c : Cluster) (s : Service) (w : Watched) :
  NewKernel (H := canonical_range) (H1 := WatchedStore no_race) dec_cfg dec_t0 (cl_store c) = (s, Some w) ->
  cl_step c (joined c).
Proof. intros E. unfold joined. rewrite E. by eapply (cl_join c canonical_range no_race). Qed.

Lemma watching_step (c : Cluster) (r : Replica) : cl_replicas c !! 1%nat = Some r -> cl_step c (watching c).
Proof. intros Hr. unfold watching, rep. rewrite Hr. by apply cl_start_watcher. Qed.

Lemma published_step (c : Cluster) (r : Replica) : cl_replicas c !! 0%nat = Some r -> cl_step c (published c).
Proof. intros Hr. unfold published, rep. rewrite Hr. by apply (cl_call c canonical_range). Qed.

Lemma v5_run : cl_run (NewWatchedStore 2 no_snapshot) 5 v5.
Proof.
  assert (Hu : forall c, bool_decide (unhurried (cl_store c)) = true -> unhurried (cl_store c))
    by (intros c Hc; by apply bool_decide_eq_true in Hc).
  apply (cl_run_step _ 4 v4).
  - apply (cl_run_step _ 3 v3).
    + apply (cl_run_step _ 2 v2).
      * apply (cl_run_step _ 1 v1).
        -- apply (cl_run_step _ 0 v0); [constructor|by apply Hu; vm_compute|].
           assert (E : v1 = joined v0) by (vm_compute; reflexivity). rewrite E.
           eapply joined_step. vm_compute. reflexivity.
        -- by apply Hu; vm_compute.
        -- assert (E : v2 = joined v1) by (vm_compute; reflexivity). rewrite E.
           eapply joined_step. vm_compute. reflexivity.
      * by apply Hu; vm_compute.
      * assert (E : v3 = watching v2) by (vm_compute; reflexivity). rewrite E.
        eapply watching_step. vm_compute. reflexivity.
    + by apply Hu; vm_compute.
    + assert (E : v4 = initial_sent v3) by (vm_compute; reflexivity). rewrite E. apply cl_first_send.
  - by apply Hu; vm_compute.
  - assert (E : v5 = published v4) by (vm_compute; reflexivity). rewrite E.
    eapply published_step. vm_compute. reflexivity.
Qed.

Lemma watch_converges_witness : exists ch,
  wt_channels (cl_store v5) !! 0 = Some ch /\ map ss_Revision (ch_queue ch) = [1; 2] /\
  s_storeVersion (rp_service (rep v5 1)) = 1 /\
  holds (apply_all (ch_taken ch ++ ch_queue ch) (rp_service (rep v5 1))) (wt_snapshot (cl_store v5)).
Proof.
  assert (Hi : cl_replicas v5 !! 1%nat = Some (rep v5 1)) by (vm_compute; reflexivity).
  destruct (wt_channels (cl_store v5) !! 0) as [ch|] eqn:Ech; [|vm_compute in Ech; discriminate Ech].
  exists ch. split; [done|].
  assert (E : ch_first ch = Sent /\ map ss_Revision (ch_queue ch) = [1; 2])
    by (vm_compute in Ech; injection Ech as <-; split; reflexivity).
  destruct E as [Ef Eq]. split; [done|]. split; [vm_compute; reflexivity|].
  refine (proj1 (proj2 (proj2 (watch_converges 2 no_snapshot 5 v5 1 (rep v5 1) ltac:(done) ltac:(done) v5_run Hi))
    0 0 ch _ _ _ Ech Ef)).
  - apply (bool_decide_unpack _). vm_compute. exact I.
  - vm_compute. reflexivity.
  - apply (bool_decide_unpack _). vm_compute. exact I.
Defined.
