(* ===== verification/ApiSync.v ===== *)
(** * The router: its state, its ports, and the copy of the outboxes

    [internal/httpapi/router.go].  First the adapters through which the Run
    kernel asks the Decision service ([decisionRunPort]), the Decision service
    reads runs ([decisionRunStatePort]) and an approval resumes its run
    ([decisionApprovalRunUnlockPort]); a kernel pointer may be nil: an option;
    [time.Now] and the clocks of the kernels are arguments.

    Then [Router]: the three kernels and a window of the events it has already
    offered to the Evidence kernel ([seenEventID], [seenQueue], [seenCap]);
    [syntheticRunID], [tierFromGrade], [usageFromPayload] and
    [syncEvidenceFromKernelOutboxes] are lines 1141-1318.  [ticks i] are the
    two readings of the Evidence kernel's clock for the [i]-th event of the two
    outboxes. *)

From S2P Require Import Prelude GoStrings Sha256 GoTime GoJson RunTypes RunStates RunOutbox RunKernel.
From S2P Require Import EvTypes EvEvents EvKernel.
From S2P Require Import DecTypes DecJson DecPolicy DecContracts DecKernel DecAdmission DecPending DecApproval CtlTypes.
#[local] Open Scope Z_scope.

(** ** What the Run kernel asks *)

Definition run_obligation (ob : Obligation) : DecisionObligation :=
  RunTypes.mk_DecisionObligation (ob_Type ob) (ob_Target ob) (ob_Value ob) (ob_Phase ob)
    (ob_Strictness ob).

Definition run_reference (ref : DecisionReference) : RunTypes.DecisionReference := {|
  dr_DecisionID := df_DecisionID ref;
  dr_RunID := df_RunID ref;
  dr_StepID := df_StepID ref;
  dr_AttemptIndex := df_AttemptIndex ref;
  dr_Phase := df_Phase ref;
  dr_Decision := df_Decision ref;
  dr_Obligations := map run_obligation (df_Obligations ref);
  dr_DecisionHash := hr_Value (df_DecisionHashRef ref);
  dr_HashValid := hr_Valid (df_DecisionHashRef ref);
  dr_HashKind := hr_Kind (df_DecisionHashRef ref) |}.

(** The used resources of a request: the Run kernel keeps the map as its list
    of entries, the Decision service as a map. *)
Definition used_resources (used : resources) : Resources := list_to_map <$> used.

Definition decisionRunPort `{MapRange} (svc : option Service) (now : time) : DecisionPort := {|
  RunTypes.IsDecisionConfirmed decisionID runID stepID :=
    match svc with
    | None => false
    | Some s => IsDecisionConfirmed s decisionID runID stepID
    end;
  RunTypes.IsDecisionConfirmedWithOwner decisionID runID stepID attemptIndex phase :=
    match svc with
    | None => false
    | Some s => IsDecisionConfirmedWithOwner s decisionID runID stepID attemptIndex phase
    end;
  RunTypes.GetDecisionReference decisionID :=
    match svc with
    | None => None
    | Some s => run_reference <$> GetDecisionReference s decisionID
    end;
  RunTypes.ValidateExecutionReceiptForRun runID stepID tenantID receiptRef used receivedAt :=
    match svc with
    | None => (false, ["decision_kernel_unavailable"])
    | Some s => ValidateExecutionReceiptForRun s runID stepID tenantID receiptRef
                  (used_resources used) receivedAt now
    end |}.

(** ** What the Decision service reads *)

Definition decisionRunStatePort (runSvc : option RunTypes.Kernel) (runID : string) : option RunStateReference :=
  match runSvc with
  | None => None
  | Some k =>
    match GetRun k runID with
    | Err _ => None
    | Ok view => Some (mk_RunStateReference (rv_RunID view) (rv_State view) (rv_StateVersion view)
                         (rv_UpdatedAt view))
    end
  end.

(** ** What an approval does to its run *)

Definition now_if_zero (t now : time) : time := if IsZero t then now else t.

Section Unlock.
Context `{MapRange} `{RunOutbox.JsonMarshaler}.

(** The resume an approval asks for. *)
Definition approval_resume (signal : ApprovalRunUnlockSignal) (cont : Continuation) (view : RunView)
    : ResumeRunRequest := {|
  rr_ContinuationToken := ct_ContinuationID cont;
  rr_ResumeReason := "approval_approved";
  rr_ReceiptRef := String.append "decision://approval_unlock/" (ug_CaseID signal);
  rr_IncomingStepSeqID := wrap_int64 (rv_CurrentStepSeqID view + 1);
  rr_ExpectedSnapshotHash := rs_SnapshotHash (rv_Snapshot view) |}.

(** [find] and [resume] are the Run kernel's clock when the continuation is
    looked up and when the run is resumed, [wall] is [time.Now]. *)
Definition decisionApprovalRunUnlockPort (find resume wall : time) : UnlockPort (option RunTypes.Kernel) :=
  fun signal runSvc =>
  let failed msg := Err msg in
  match runSvc with
  | None => (runSvc, failed "run kernel unavailable")
  | Some k =>
    if negb (lower_trim (ug_Outcome signal) =? "approved")%string then
      (runSvc, Ok (mk_ApprovalRunUnlockDispatchResult "not_required" true
                     (now_if_zero (ug_ResolvedAt signal) wall) []))
    else
    match FindActiveContinuation k (ug_RunID signal) (ug_StepID signal) TokenTypeApproval find with
    | None =>
      (runSvc, failed (Join ["approval continuation not found for run="; ug_RunID signal; " step=";
                             ug_StepID signal] ""))
    | Some cont =>
      match GetRun k (ug_RunID signal) with
      | Err err => (runSvc, failed (ke_Message err))
      | Ok view =>
        match ResumeRun (ug_RunID signal) (approval_resume signal cont view) resume k with
        | (k, Err err) => (Some k, failed (ke_Message err))
        | (k, Ok _) =>
          match GetRun k (ug_RunID signal) with
          | Err err => (Some k, failed (ke_Message err))
          | Ok updated =>
            (Some k, Ok (mk_ApprovalRunUnlockDispatchResult "dispatched" true
                           (now_if_zero (rv_UpdatedAt updated) wall) []))
          end
        end
      end
    end
  end.
End Unlock.

(** * The state *)

Section Router.
Context `{FeatureSignalContractStore}.

(** The Decision service comes with the fields of its control plane and with
    the contract store it was built with. *)
Record Router := mk_Router {
  decisionSvc : Control;
  contractStore : option store_state;
  runSvc : RunTypes.Kernel;
  evidenceSvc : EvTypes.Kernel;
  seenEventID : gset string;
  seenQueue : list string;
  seenCap : Z
}.

Definition rt_set_decision (x : Control) (r : Router) : Router :=
  mk_Router x (contractStore r) (runSvc r) (evidenceSvc r) (seenEventID r) (seenQueue r) (seenCap r).
Definition rt_set_store (x : option store_state) (r : Router) : Router :=
  mk_Router (decisionSvc r) x (runSvc r) (evidenceSvc r) (seenEventID r) (seenQueue r) (seenCap r).
Definition rt_set_run (x : RunTypes.Kernel) (r : Router) : Router :=
  mk_Router (decisionSvc r) (contractStore r) x (evidenceSvc r) (seenEventID r) (seenQueue r) (seenCap r).
Definition rt_set_evidence (x : EvTypes.Kernel) (r : Router) : Router :=
  mk_Router (decisionSvc r) (contractStore r) (runSvc r) x (seenEventID r) (seenQueue r) (seenCap r).
Definition rt_set_seen (ids : gset string) (queue : list string) (r : Router) : Router :=
  mk_Router (decisionSvc r) (contractStore r) (runSvc r) (evidenceSvc r) ids queue (seenCap r).

(** [NewRouterWithKernels]: the ports it installs are those the handlers use. *)
Definition NewRouterWithKernels (decision : Control) (st : option store_state) (run : RunTypes.Kernel)
    (evidence : EvTypes.Kernel) : Router :=
  mk_Router decision st run evidence ∅ [] 20000.

(** The other constructors make the kernels they are not given from the zero
    configuration. *)
Definition zero_run_config : RunTypes.Config :=
  RunTypes.mk_Config 0 0 0 0 0 0 0 ∅ 0 0.
Definition zero_evidence_config : EvTypes.Config :=
  EvTypes.mk_Config 0 0 0 0 0 0 0 fzero fzero fzero 0 0 None false.
Definition zero_decision_config : Config :=
  mk_Config ∅ ∅ 0 0 "" 0 ∅ [] ∅ 0 0 "" 0 0 0 0 0 false.

Definition NewRouterWithServices (decision : Control) (st : option store_state) (run : RunTypes.Kernel) : Router :=
  NewRouterWithKernels decision st run (EvKernel.NewKernel zero_evidence_config).

Definition NewRouterWithService (decision : Control) (st : option store_state) : Router :=
  NewRouterWithServices decision st (RunKernel.NewKernel zero_run_config).

(** [now] is the clock when the Decision service starts on the store [st]. *)
Definition NewRouter {MR : MapRange} (now : time) (st : store_state) : Router :=
  let '(s, st) := DecContracts.NewKernel zero_decision_config now st in
  NewRouterWithService (mk_Control s ∅ ∅ ∅ ∅ ∅ ∅) st.

(** ** The window of events already offered *)

(** The oldest entries leave while the queue is longer than [cap]. *)
Fixpoint trim_seen (cap : Z) (ids : gset string) (queue : list string) : gset string * list string :=
  match queue with
  | [] => (ids, [])
  | old :: rest =>
    if cap <? Z.of_nat (length queue) then trim_seen cap (ids ∖ {[old]}) rest else (ids, queue)
  end.

Definition markEventSeen (eventID : string) (r : Router) : Router * bool :=
  let eventID := TrimSpace eventID in
  if (eventID =? "")%string then (r, false)
  else if decide (eventID ∈ seenEventID r) then (r, false)
  else
    let '(ids, queue) := trim_seen (seenCap r) ({[eventID]} ∪ seenEventID r) (seenQueue r ++ [eventID]) in
    (rt_set_seen ids queue r, true).

(** ** From an outbox event to an evidence event *)

Definition syntheticRunID (source primary fallback : string) : string :=
  let primary := TrimSpace primary in
  let primary := if (primary =? "")%string then TrimSpace fallback else primary in
  let primary := if (primary =? "")%string then "na" else primary in
  Join [source; "::"; primary] "".

Definition tierFromGrade (grade : string) : string :=
  if (lower_trim grade =? "audit")%string then Tier0 else Tier1.

(** The entry of a payload map; a nil map has none. *)
Definition payload_get (p : payload) (k : string) : option gval :=
  match p with
  | None => None
  | Some l => snd <$> List.find (fun kv => (kv.1 =? k)%string) l
  end.

Definition stringFromPayload (p : payload) (k : string) : string :=
  match payload_get p k with Some (GStr t) => TrimSpace t | _ => "" end.

Definition floatFromPayload (p : payload) (k : string) : float64 :=
  match payload_get p k with
  | Some (GFloat n) => n
  | Some (GInt n) => float_of_Z n
  | _ => fzero
  end.

Definition usageFromPayload (p : payload) : option UsageInput :=
  match p with
  | None => None
  | Some _ =>
    let resourceType := TrimSpace (stringFromPayload p "resource_type") in
    let unit_ := TrimSpace (stringFromPayload p "unit") in
    if (resourceType =? "")%string || (unit_ =? "")%string then None
    else Some (mk_UsageInput resourceType (floatFromPayload p "usage_amount") unit_
                 (floatFromPayload p "cost_amount"))
  end.

(** The payload of an event is a map, kept as its JSON value. *)
Definition payload_map (v : gval) : payload :=
  match v with GMap l => Some l | _ => None end.

Definition decision_request (e : Event) : IngestEventRequest :=
  let runID := TrimSpace (e_RunID e) in
  let runID := if (runID =? "")%string
               then syntheticRunID "decision_kernel" (e_DecisionID e) (e_EventID e) else runID in
  let p := payload_map (e_Payload e) in {|
    rq_EventID := e_EventID e; rq_EventType := e_EventType e; rq_SchemaVersion := e_SchemaVersion e;
    rq_SourceComponent := e_SourceComponent e; rq_RunID := runID; rq_StepID := e_StepID e;
    rq_DecisionID := e_DecisionID e; rq_TenantID := ""; rq_ProjectID := ""; rq_WorkflowID := "";
    rq_RiskTier := stringFromPayload p "risk_tier";
    rq_EvidenceTier := tierFromGrade (e_EvidenceGrade e); rq_EvidenceGrade := e_EvidenceGrade e;
    rq_PayloadIntegrityRequired := e_PayloadIntegrityRequired e; rq_EventTS := e_EventTS e;
    rq_PayloadRef := e_PayloadRef e; rq_PayloadHash := e_PayloadHash e;
    rq_PayloadHashValid := e_PayloadHashValid e; rq_Payload := p; rq_SystemLoad := fzero;
    rq_Usage := usageFromPayload p |}.

Definition run_request (e : RunTypes.KernelEvent) : IngestEventRequest :=
  let p := payload_map (ev_Payload e) in {|
    rq_EventID := ev_EventID e; rq_EventType := ev_EventType e; rq_SchemaVersion := ev_SchemaVersion e;
    rq_SourceComponent := ev_SourceComponent e; rq_RunID := ev_RunID e; rq_StepID := ev_StepID e;
    rq_DecisionID := ""; rq_TenantID := ""; rq_ProjectID := ""; rq_WorkflowID := "";
    rq_RiskTier := stringFromPayload p "risk_tier";
    rq_EvidenceTier := tierFromGrade (ev_EvidenceGrade e); rq_EvidenceGrade := ev_EvidenceGrade e;
    rq_PayloadIntegrityRequired := ev_PayloadIntegrityRequired e; rq_EventTS := ev_EventTS e;
    rq_PayloadRef := ev_PayloadRef e; rq_PayloadHash := ev_PayloadHash e;
    rq_PayloadHashValid := ev_PayloadHashValid e; rq_Payload := p; rq_SystemLoad := fzero;
    rq_Usage := usageFromPayload p |}.

(** ** The copy *)

(** The map the function returns. *)
Record SyncResult := mk_SyncResult {
  sc_seen_decision_events : Z;
  sc_seen_run_events : Z;
  sc_ingested : Z;
  sc_dropped : Z;
  sc_errors : Z
}.

Definition sc_see_decision (c : SyncResult) : SyncResult :=
  mk_SyncResult (sc_seen_decision_events c + 1) (sc_seen_run_events c) (sc_ingested c) (sc_dropped c)
    (sc_errors c).
Definition sc_see_run (c : SyncResult) : SyncResult :=
  mk_SyncResult (sc_seen_decision_events c) (sc_seen_run_events c + 1) (sc_ingested c) (sc_dropped c)
    (sc_errors c).

(** How the answer to one event is counted. *)
Definition sc_answer (resp : result EvTypes.KernelError IngestEventResponse) (c : SyncResult) : SyncResult :=
  match resp with
  | Err _ => mk_SyncResult (sc_seen_decision_events c) (sc_seen_run_events c) (sc_ingested c)
               (sc_dropped c) (sc_errors c + 1)
  | Ok resp =>
    if rs_Dropped resp
    then mk_SyncResult (sc_seen_decision_events c) (sc_seen_run_events c) (sc_ingested c)
           (sc_dropped c + 1) (sc_errors c)
    else mk_SyncResult (sc_seen_decision_events c) (sc_seen_run_events c) (sc_ingested c + 1)
           (sc_dropped c) (sc_errors c)
  end.

(** The body of both loops: skip what was offered before. *)
Definition offer_event (id : string) (see : SyncResult -> SyncResult) (q : IngestEventRequest)
    (t : time * time) (st : Router * SyncResult) : Router * SyncResult :=
  let '(r, c) := st in
  let '(r, fresh) := markEventSeen id r in
  if negb fresh then (r, c)
  else
    let '(k, resp) := IngestEvent q t.1 t.2 (evidenceSvc r) in
    (rt_set_evidence k r, sc_answer resp (see c)).

Definition offer_decision (t : time * time) (e : Event) : Router * SyncResult -> Router * SyncResult :=
  offer_event (e_EventID e) sc_see_decision (decision_request e) t.
Definition offer_run (t : time * time) (e : RunTypes.KernelEvent) :
    Router * SyncResult -> Router * SyncResult :=
  offer_event (ev_EventID e) sc_see_run (run_request e) t.

Fixpoint sync_loop {E} (offer : time * time -> E -> Router * SyncResult -> Router * SyncResult)
    (ticks : nat -> time * time) (i : nat) (l : list E) (st : Router * SyncResult) : Router * SyncResult :=
  match l with
  | [] => st
  | e :: l => sync_loop offer ticks (S i) l (offer (ticks i) e st)
  end.

Definition syncEvidenceFromKernelOutboxes (ticks : nat -> time * time) (r : Router) : Router * SyncResult :=
  let decisions := Outbox (c_svc (decisionSvc r)) in
  let '(r, c) := sync_loop offer_decision ticks 0 decisions (r, mk_SyncResult 0 0 0 0 0) in
  sync_loop offer_run ticks (length decisions) (RunOutbox.Outbox (runSvc r)) (r, c).
End Router.
