(* ===== verification/ApiHandlers.v ===== *)
(** * The HTTP API: requests, responses, routing and handlers

    [internal/httpapi/router.go].  A request is its method, its path (without
    percent escapes), its query and its body; an answer is a status and the
    value [writeJSON] encodes, or the text [http.Error] writes.  Decoding a
    body with [encoding/json] is the class [Decoders]; the encoder is not
    applied: the value is the answer.  The multiplexer is [http.ServeMux]: the
    path is cleaned, an exact pattern wins, then the longest pattern that ends
    in a slash; a path that is not clean, or misses its slash, is redirected
    (the status of a redirect is [net/http]'s).  At the end, the command that
    serves a new router.  [Ticks] are the readings of
    the clocks during a request.  The kernels are not nil. *)

From Stdlib Require Import Ascii.
From S2P Require Import Prelude GoStrings Sha256 GoTime GoJson RunTypes RunStates RunOutbox RunKernel RunSweeps.
From S2P Require Import EvTypes EvEvents EvKernel EvRetain EvGraph EvReports.
From S2P Require Import DecTypes DecJson DecPolicy DecContracts DecKernel DecRuntime DecAdmission DecPending DecApproval.
From S2P Require Import CtlTypes CtlContracts CtlFeatures CtlHealth ApiSync.
#[local] Open Scope Z_scope.

(** ** Requests *)

Record HttpRequest := mk_HttpRequest {
  h_Method : string;
  h_Path : string;
  h_Query : string -> string;   (* [req.URL.Query().Get] *)
  h_Body : string
}.

Definition MethodGet : string := "GET".
Definition MethodPost : string := "POST".
Definition is_method (m : string) (q : HttpRequest) : bool := (h_Method q =? m)%string.

(** [json.NewDecoder(req.Body).Decode(&input)] at each type the handlers
    decode; [None] is an error. *)
Class Decoders := {
  decode_RuntimeDecisionRequest : string -> option RuntimeDecisionRequest;
  decode_ScheduleAdmissionRequest : string -> option ScheduleAdmissionRequest;
  decode_ReleaseDecisionRequest : string -> option ReleaseDecisionRequest;
  decode_ConfirmRunAdvanceRequest : string -> option ConfirmRunAdvanceRequest;
  decode_TerminalizePendingDecisionRequest : string -> option TerminalizePendingDecisionRequest;
  decode_ApprovalCreateRequest : string -> option ApprovalCreateRequest;
  decode_ApprovalDecisionRequest : string -> option ApprovalDecisionRequest;
  decode_FeatureDefinitionCreateRequest : string -> option FeatureDefinitionCreateRequest;
  decode_FeatureSignalContractPublishRequest : string -> option FeatureSignalContractPublishRequest;
  decode_FeatureSignalContractRollbackRequest : string -> option FeatureSignalContractRollbackRequest;
  decode_FeatureSnapshotBuildRequest : string -> option FeatureSnapshotBuildRequest;
  decode_FeatureSnapshotFreshnessValidateRequest : string -> option FeatureSnapshotFreshnessValidateRequest;
  decode_FeatureVersionCreateRequest : string -> option FeatureVersionCreateRequest;
  decode_FeatureRollbackRequest : string -> option FeatureRollbackRequest;
  decode_FeatureVersionPublishRequest : string -> option FeatureVersionPublishRequest;
  decode_ApprovalOrgHealthRecomputeRequest : string -> option ApprovalOrgHealthRecomputeRequest;
  decode_ApprovalOrgHealthRemediationRequest : string -> option ApprovalOrgHealthRemediationRequest;
  decode_EnforcementMatrixValidateRequest : string -> option EnforcementMatrixValidateRequest;
  decode_EnforcementMatrixPublishRequest : string -> option EnforcementMatrixPublishRequest;
  decode_CreateRunRequest : string -> option CreateRunRequest;
  decode_AdvanceRunRequest : string -> option AdvanceRunRequest;
  decode_ParkRunRequest : string -> option ParkRunRequest;
  decode_ResumeRunRequest : string -> option ResumeRunRequest;
  decode_AbortRunRequest : string -> option AbortRunRequest;
  decode_IngestEventRequest : string -> option IngestEventRequest;
  decode_DSARDeleteRequest : string -> option DSARDeleteRequest;
  decode_LedgerAggregateRequest : string -> option LedgerAggregateRequest;
  decode_at : string -> time;         (* what an ignored error leaves in struct { At time.Time } *)
  decode_reason : string -> string    (* and in struct { Reason string } *)
}.

Record Ticks := mk_Ticks {
  tk_now : time;              (* the clock of the kernel the handler calls, [time.Now] *)
  tk_wall : time;             (* the clock of the contract store, and of a port *)
  tk_find : time;             (* the Run kernel's clock in the approval port *)
  tk_resume : time;
  tk_ingest : time;           (* the second reading of an ingestion *)
  tk_sync : nat -> time * time
}.

(** ** Answers *)

Record contextResolveResponse := mk_contextResolveResponse {
  cx_CompiledContextRef : string;
  cx_FrozenInputHash : string;
  cx_SelectionRationale : string
}.

Inductive Body :=
| BText (s : string)                                  (* [http.Error] *)
| BHealth (status : string)
| BContext (v : contextResolveResponse)
| BRuntime (v : RuntimeDecisionResponse)
| BSchedule (v : ScheduleAdmissionResponse)
| BRelease (v : ReleaseDecisionResponse)
| BConfirm (v : ConfirmRunAdvanceResponse)
| BRepair (v : PendingRepairResult)
| BTerminalize (v : TerminalizePendingDecisionResponse)
| BCase (v : ApprovalCase)
| BApproval (v : ApprovalDecisionResponse)
| BDecision (v : StoredDecision)
| BDecisionHistory (decision_id : string) (history : list StoredDecision)
| BReference (v : DecisionReference)
| BMetrics (v : DecTypes.MetricsSnapshot)
| BEvents (events : list Event)
| BDefinition (v : FeatureDefinition)
| BDefinitions (definitions : list FeatureDefinition)
| BContract (v : FeatureSignalContractView)
| BContracts (contracts : list FeatureSignalContractView)
| BScheduler (v : FeatureSignalContractSchedulerResult)
| BContractValid (v : FeatureSignalContractValidateResponse)
| BContractHistory (history : list FeatureSignalContractVersion)
    (rollbacks : option (list FeatureSignalContractRollbackRecord))
| BContractRollback (v : FeatureSignalContractRollbackRecord)
| BSnapshot (v : FeatureSnapshot)
| BFreshness (v : FeatureSnapshotFreshnessValidateResponse)
| BSnapshotEvidence (v : FeatureSnapshotEvidence)
| BVersion (v : FeatureVersion)
| BVersions (versions : list FeatureVersion)
| BDrift (v : FeatureDriftReport)
| BFeatureRollback (v : FeatureRollbackRecord)
| BFeatureRollbacks (rollbacks : list FeatureRollbackRecord)
| BFeaturePublish (v : FeatureVersionPublishResponse)
| BDependencies (v : FeatureDependencyGraph)
| BOrgHealth (v : ApprovalOrgHealth)
| BRemediation (v : ApprovalOrgHealthRemediationResponse)
| BRecompute (v : ApprovalOrgHealthRecomputeResponse)
| BReports (reports : list ApprovalOrgHealthReport)
| BMatrix (v : EnforcementMatrixView)
| BMatrixValid (v : EnforcementMatrixValidateResponse)
| BMatrixPublish (v : EnforcementMatrixPublishResponse)
| BRunCreated (v : CreateRunResponse)
| BRun (v : RunView)
| BGraph (v : DecisionGraph)
| BRootCause (v : RootCausePack)
| BReplay (v : ReplayPack)
| BIntegrity (v : IntegrityVerifyResult)
| BAdvance (v : AdvanceRunResponse)
| BPark (v : ParkRunResponse)
| BResume (v : ResumeRunResponse)
| BSweep (v : RunTypes.SweepResult)
| BIngest (v : IngestEventResponse)
| BSync (v : SyncResult)
| BDelete (v : DSARDeleteResponse)
| BEvidence (v : RunEvidenceSummary)
| BLedger (run_id : string) (items : list LedgerEntry)
| BAggregate (v : LedgerAggregateResponse)
| BAnchor (v : IntegrityAnchor)
| BAnchors (anchors : list IntegrityAnchor)
| BArchive (v : ArchiveSummary)
| BExport (v : ArchiveExport)
| BLogHistory (decision_id : string) (history : list DecisionLog)
| BKernelError (e : RunTypes.KernelError)
| BEvidenceError (e : EvTypes.KernelError)
| BControlError (e : ControlError).

Inductive Answer :=
| Reply (status : Z) (body : Body)
| Redirect (path : string).

Definition StatusOK : Z := 200.
Definition httpError (status : Z) (text : string) : Answer := Reply status (BText text).
Definition method_not_allowed : Answer := httpError 405 "method not allowed".
Definition invalid_json : Answer := httpError 400 "invalid json".
Definition invalid_path : Answer := httpError 400 "invalid path".
Definition not_found : Answer := httpError 404 "not found".
Definition invalid_limit : Answer := httpError 400 "invalid query: limit".
Definition writeJSON (b : Body) : Answer := Reply StatusOK b.

Definition writeKernelError (e : RunTypes.KernelError) : Answer := Reply (ke_StatusCode e) (BKernelError e).
Definition writeEvidenceError (e : EvTypes.KernelError) : Answer :=
  Reply (ee_StatusCode e) (BEvidenceError e).
Definition writeDecisionError (e : ControlError) : Answer := Reply (ce_StatusCode e) (BControlError e).

Definition answer_of {E A} (fail : E -> Answer) (f : A -> Body) (res : result E A) : Answer :=
  match res with Ok v => writeJSON (f v) | Err e => fail e end.
Definition found {A} (f : A -> Body) (o : option A) : Answer :=
  match o with Some v => writeJSON (f v) | None => not_found end.

(** ** Paths and queries *)

Definition slash : ascii := "/"%char.

Definition TrimPrefix (s p : string) : string :=
  if HasPrefix s p then String.substring (String.length p) (String.length s - String.length p) s else s.

(** [strings.Split(strings.Trim(strings.TrimPrefix(path, prefix), "/"), "/")] *)
Definition path_parts (prefix : string) (q : HttpRequest) : list string :=
  Split (Trim (TrimPrefix (h_Path q) prefix) slash) slash.

Definition query (q : HttpRequest) (k : string) : string := TrimSpace (h_Query q k).

Definition scopeFromQuery (q : HttpRequest) : ScopeRef :=
  mk_ScopeRef (query q "org_id") (query q "workspace_id") (query q "project_id").

(** The [limit] of a query, or its default; [None] is an invalid one. *)
Definition query_limit (dflt : Z) (q : HttpRequest) : option Z :=
  let raw := query q "limit" in
  if (raw =? "")%string then Some dflt
  else match Atoi raw with
       | Some v => if v <=? 0 then None else Some v
       | None => None
       end.

Definition hashMap (v : gval) : string :=
  sha256_hex (match json_Marshal v with Ok raw => raw | Err _ => "" end).

(** ** The multiplexer *)

(** The handlers, one constructor each. *)
Inductive Endpoint :=
| EHealthz | EContextResolve
| EEvaluateRuntime | EEvaluateScheduleAdmission | EEvaluateRelease | EConfirmRunAdvance
| ERepairPending | ETerminalizePending | ECreateApprovalCase | EDecideApprovalCase
| EGetDecision | EOutbox | EMetrics
| ECreateFeatureDefinition | EFeatureSignalContracts | ERunFeatureSignalContractScheduler
| EValidateFeatureSignalContract | EFeatureSignalContractHistory | ERollbackFeatureSignalContract
| EBuildFeatureSnapshot | EValidateFeatureSnapshotFreshness | EFeatureSnapshotAction | EFeatureAction
| EGetApprovalOrgHealth | ERecomputeApprovalOrgHealth | ERemediateApprovalOrgHealth
| EGetApprovalOrgHealthReports
| EGetEnforcementMatrix | EValidateEnforcementMatrix | EPublishEnforcementMatrix
| EIngestEvidenceEvent | ESyncEvidenceKernelOutboxes | EDeleteEvidenceByDSAR
| EVerifyEvidenceIntegrity | EEvidenceIntegrityAnchor | EGetEvidenceArchiveSummary
| EExportEvidenceArchive | EGetEvidenceDecisionLogHistory | EGetRunEvidenceSummary
| EGetRunLedger | EAggregateLedger
| ECreateRun | ESweepRunTTL | ESweepRunZombie | ESweepRunMaintenance | ERunAction.

Definition routes : list (string * Endpoint) := [
  ("/healthz", EHealthz);
  ("/v1/context/resolve", EContextResolve);
  ("/v1/decision/evaluate-runtime", EEvaluateRuntime);
  ("/v1/decision/evaluate-schedule-admission", EEvaluateScheduleAdmission);
  ("/v1/decision/evaluate-release", EEvaluateRelease);
  ("/v1/decision/confirm-run-advance", EConfirmRunAdvance);
  ("/v1/decision/repair-pending", ERepairPending);
  ("/v1/decision/terminalize-pending", ETerminalizePending);
  ("/v1/approval/cases", ECreateApprovalCase);
  ("/v1/approval/cases/", EDecideApprovalCase);
  ("/v1/decision/", EGetDecision);
  ("/v1/decision/outbox", EOutbox);
  ("/v1/metrics/decision", EMetrics);
  ("/v1/features/definitions", ECreateFeatureDefinition);
  ("/v1/features/signal-contracts", EFeatureSignalContracts);
  ("/v1/features/signal-contracts/scheduler/run", ERunFeatureSignalContractScheduler);
  ("/v1/features/signal-contracts/validate", EValidateFeatureSignalContract);
  ("/v1/features/signal-contracts/history", EFeatureSignalContractHistory);
  ("/v1/features/signal-contracts/rollback", ERollbackFeatureSignalContract);
  ("/v1/features/snapshots/build", EBuildFeatureSnapshot);
  ("/v1/features/snapshots/validate-freshness", EValidateFeatureSnapshotFreshness);
  ("/v1/features/snapshots/", EFeatureSnapshotAction);
  ("/v1/features/", EFeatureAction);
  ("/v1/approval/org-health", EGetApprovalOrgHealth);
  ("/v1/approval/org-health/recompute", ERecomputeApprovalOrgHealth);
  ("/v1/approval/org-health/remediation", ERemediateApprovalOrgHealth);
  ("/v1/approval/org-health/reports", EGetApprovalOrgHealthReports);
  ("/v1/metrics/enforcement-matrix", EGetEnforcementMatrix);
  ("/v1/metrics/enforcement-matrix/validate", EValidateEnforcementMatrix);
  ("/v1/metrics/enforcement-matrix/publish", EPublishEnforcementMatrix);
  ("/v1/evidence/events/ingest", EIngestEvidenceEvent);
  ("/v1/evidence/sync-kernel-outboxes", ESyncEvidenceKernelOutboxes);
  ("/v1/evidence/dsar/delete", EDeleteEvidenceByDSAR);
  ("/v1/evidence/integrity-verify", EVerifyEvidenceIntegrity);
  ("/v1/evidence/integrity-anchor", EEvidenceIntegrityAnchor);
  ("/v1/evidence/archive/summary", EGetEvidenceArchiveSummary);
  ("/v1/evidence/archive/export", EExportEvidenceArchive);
  ("/v1/evidence/decision-logs/", EGetEvidenceDecisionLogHistory);
  ("/v1/evidence/runs/", EGetRunEvidenceSummary);
  ("/v1/ledger/runs/", EGetRunLedger);
  ("/v1/ledger/aggregate", EAggregateLedger);
  ("/v1/runs", ECreateRun);
  ("/v1/runs/sweep-ttl", ESweepRunTTL);
  ("/v1/runs/sweep-zombie", ESweepRunZombie);
  ("/v1/runs/maintenance", ESweepRunMaintenance);
  ("/v1/runs/", ERunAction)].

Definition ends_in_slash (s : string) : bool :=
  match rev (bytes s) with c :: _ => Ascii.eqb c slash | [] => false end.

(** [path.Clean] on a rooted path: empty and dot segments go, [..] takes its parent away. *)
Definition clean_segment (stack : list string) (seg : string) : list string :=
  if (seg =? "")%string || (seg =? ".")%string then stack
  else if (seg =? "..")%string then tail stack
  else seg :: stack.

Definition cleanPath (p : string) : string :=
  if (p =? "")%string then "/"
  else
    let np := String.append "/" (Join (rev (foldl clean_segment [] (Split p slash))) "/") in
    if ends_in_slash p && negb (np =? "/")%string then String.append np "/" else np.

Definition exact_route (p : string) : option Endpoint :=
  snd <$> List.find (fun kv => (kv.1 =? p)%string) routes.

(** The subtree patterns a path falls under; the longest wins. *)
Definition longer (a : option (string * Endpoint)) (b : string * Endpoint) : option (string * Endpoint) :=
  match a with
  | Some a => if len a.1 <? len b.1 then Some b else Some a
  | None => Some b
  end.

Definition subtree_route (p : string) : option Endpoint :=
  snd <$> foldl longer None (List.filter (fun kv => ends_in_slash kv.1 && HasPrefix p kv.1) routes).

Definition mux_match (p : string) : option Endpoint :=
  match exact_route p with Some e => Some e | None => subtree_route p end.

Inductive Routed := Handler (e : Endpoint) | Moved (path : string) | NoHandler.

Definition mux_route (q : HttpRequest) : Routed :=
  let connect := is_method "CONNECT" q in
  let p := if connect then h_Path q else cleanPath (h_Path q) in
  let slashed := String.append p "/" in
  if (match exact_route p with None => true | Some _ => false end)
     && negb (ends_in_slash p) && (match exact_route slashed with Some _ => true | None => false end)
  then Moved slashed
  else if negb connect && negb (p =? h_Path q)%string then Moved p
  else match mux_match p with Some e => Handler e | None => NoHandler end.

(** ** Handlers *)

Section Handlers.
Context `{MapRange} {RJ : RunOutbox.JsonMarshaler} `{UrlParser} {DJ : JsonMarshaler}.
Context `{FeatureSignalContractStore} `{Decoders}.

Abbreviation Handled := (Router * Answer)%type.

(** [if req.Method != m]. *)
Definition allow (m : string) (q : HttpRequest) (r : Router) (k : Handled) : Handled :=
  if is_method m q then k else (r, method_not_allowed).

(** Decode the body, then continue. *)
Definition with_body {A} (decode : string -> option A) (q : HttpRequest) (r : Router) (k : A -> Handled)
    : Handled :=
  match decode (h_Body q) with None => (r, invalid_json) | Some input => k input end.

Definition with_limit (dflt : Z) (q : HttpRequest) (r : Router) (k : Z -> Handled) : Handled :=
  match query_limit dflt q with None => (r, invalid_limit) | Some limit => k limit end.

(** Copy the outboxes, then answer. *)
Definition synced (t : Ticks) (r : Router) : Router := (syncEvidenceFromKernelOutboxes (tk_sync t) r).1.

(** The Decision service without its control plane. *)
Definition svc (r : Router) : Service := c_svc (decisionSvc r).
Definition set_svc (s : Service) (r : Router) : Router := rt_set_decision (c_set_svc s (decisionSvc r)) r.

(** A call of the service, the copy, the answer. *)
Definition decide_call {A} (f : A -> Body) (t : Ticks) (out : Service * A) (r : Router) : Handled :=
  (synced t (set_svc out.1 r), writeJSON (f out.2)).

(** A call of the control plane that does not copy. *)
Definition control_call {A} (f : A -> Body) (out : Control * result ControlError A) (r : Router) : Handled :=
  (rt_set_decision out.1 r, answer_of writeDecisionError f out.2).

(** A call after which the outboxes are copied unless it failed. *)
Definition control_sync {A} (f : A -> Body) (t : Ticks) (out : Control * result ControlError A) (r : Router)
    : Handled :=
  let r := rt_set_decision out.1 r in
  match out.2 with
  | Err e => (r, writeDecisionError e)
  | Ok v => (synced t r, writeJSON (f v))
  end.

(** A call that works on the contracts and their store. *)
Definition contract_sync {A} (f : A -> Body) (t : Ticks)
    (out : Service * option store_state * result ControlError A) (r : Router) : Handled :=
  let r := rt_set_store out.1.2 (set_svc out.1.1 r) in
  match out.2 with
  | Err e => (r, writeDecisionError e)
  | Ok v => (synced t r, writeJSON (f v))
  end.

Definition run_call {A} (f : A -> Body) (t : Ticks)
    (out : RunTypes.Kernel * result RunTypes.KernelError A) (r : Router) : Handled :=
  let r := rt_set_run out.1 r in
  match out.2 with
  | Err e => (r, writeKernelError e)
  | Ok v => (synced t r, writeJSON (f v))
  end.

(** A read: only the answer. *)
Definition read (r : Router) (a : Answer) : Handled := (r, a).

Definition healthz (r : Router) : Handled := read r (writeJSON (BHealth "ok")).

Definition contextResolve (q : HttpRequest) (r : Router) : Handled :=
  allow MethodPost q r (with_body decode_RuntimeDecisionRequest q r (fun input =>
    read r (writeJSON (BContext {|
      cx_CompiledContextRef := String.append "ctx_compiled_" (q_RequestID input);
      cx_FrozenInputHash := hashMap (frozen_gval (fz_Frozen (q_Freeze input)));
      cx_SelectionRationale := "minimal_context_profile" |})))).

(** *** Decisions *)

Definition evaluateRuntime (t : Ticks) (q : HttpRequest) (r : Router) : Handled :=
  allow MethodPost q r (with_body decode_RuntimeDecisionRequest q r (fun input =>
    decide_call BRuntime t (EvaluateRuntime (svc r) input (tk_now t)) r)).

Definition evaluateScheduleAdmission (t : Ticks) (q : HttpRequest) (r : Router) : Handled :=
  allow MethodPost q r (with_body decode_ScheduleAdmissionRequest q r (fun input =>
    decide_call BSchedule t (EvaluateScheduleAdmission (svc r) input (tk_now t)) r)).

Definition evaluateRelease (t : Ticks) (q : HttpRequest) (r : Router) : Handled :=
  allow MethodPost q r (with_body decode_ReleaseDecisionRequest q r (fun input =>
    decide_call BRelease t (EvaluateRelease (svc r) input (tk_now t)) r)).

Definition confirmRunAdvance (t : Ticks) (q : HttpRequest) (r : Router) : Handled :=
  allow MethodPost q r (with_body decode_ConfirmRunAdvanceRequest q r (fun input =>
    decide_call BConfirm t (ConfirmRunAdvance (svc r) input (tk_now t)) r)).

Definition repairPending (t : Ticks) (q : HttpRequest) (r : Router) : Handled :=
  allow MethodPost q r (decide_call BRepair t (RepairPendingDecisions (svc r) (tk_now t)) r).

Definition terminalizePending (t : Ticks) (q : HttpRequest) (r : Router) : Handled :=
  allow MethodPost q r (with_body decode_TerminalizePendingDecisionRequest q r (fun input =>
    decide_call BTerminalize t (TerminalizePendingDecision (svc r) input (tk_now t)) r)).

Definition createApprovalCase (t : Ticks) (q : HttpRequest) (r : Router) : Handled :=
  allow MethodPost q r (with_body decode_ApprovalCreateRequest q r (fun input =>
    decide_call BCase t (CreateApprovalCase (svc r) input (tk_now t)) r)).

(** The decision runs with the port the router installed. *)
Definition approval_port (t : Ticks) : option (UnlockPort (option RunTypes.Kernel)) :=
  Some (decisionApprovalRunUnlockPort (tk_find t) (tk_resume t) (tk_wall t)).

Definition decideApprovalCase (t : Ticks) (q : HttpRequest) (r : Router) : Handled :=
  allow MethodPost q r (
    match path_parts "/v1/approval/cases/" q with
    | [caseID; action] =>
      if negb (action =? "decision")%string || (caseID =? "")%string then (r, invalid_path)
      else with_body decode_ApprovalDecisionRequest q r (fun input =>
        let '(s, run, out) := DecideApprovalCase (approval_port t) (svc r) (Some (runSvc r)) caseID input
                                (tk_now t) in
        let r := rt_set_run (default (runSvc r) run) (set_svc s r) in
        (synced t r, writeJSON (BApproval out)))
    | _ => (r, invalid_path)
    end).

Definition getDecision (q : HttpRequest) (r : Router) : Handled :=
  allow MethodGet q r (
    let path := Trim (TrimPrefix (h_Path q) "/v1/decision/") slash in
    if (path =? "")%string then (r, invalid_path)
    else match Split path slash with
    | id :: rest =>
      if (id =? "")%string then (r, invalid_path)
      else match rest with
      | [] => read r (found BDecision (GetDecision (svc r) id))
      | [action] =>
        if (action =? "history")%string then
          read r (found (BDecisionHistory id) (GetDecisionHistory (svc r) id))
        else if (action =? "reference")%string then
          read r (found BReference (GetDecisionReference (svc r) id))
        else (r, invalid_path)
      | [action; version] =>
        if negb (action =? "versions")%string then (r, invalid_path)
        else match Atoi version with
             | Some v => if v <=? 0 then (r, invalid_path)
                         else read r (found BDecision (GetDecisionByVersion (svc r) id v))
             | None => (r, invalid_path)
             end
      | _ => (r, invalid_path)
      end
    | [] => (r, invalid_path)
    end).

Definition metrics (t : Ticks) (q : HttpRequest) (r : Router) : Handled :=
  allow MethodGet q r (read r (writeJSON (BMetrics (DecPending.MetricsSnapshot (svc r) (tk_now t))))).

Definition outbox (q : HttpRequest) (r : Router) : Handled :=
  allow MethodGet q r (read r (writeJSON (BEvents (Outbox (svc r))))).

(** *** Features and contracts *)

Definition createFeatureDefinition (t : Ticks) (q : HttpRequest) (r : Router) : Handled :=
  if is_method MethodPost q then
    with_body decode_FeatureDefinitionCreateRequest q r (fun input =>
      control_call BDefinition (CreateFeatureDefinition (decisionSvc r) input (tk_now t)) r)
  else if is_method MethodGet q then
    read r (answer_of writeDecisionError BDefinitions
              (ListFeatureDefinitions (decisionSvc r) (scopeFromQuery q)))
  else (r, method_not_allowed).

(** The filter of a list by the scope of the query: an empty part matches all. *)
Definition scope_part_matches (wanted part : string) : bool :=
  let wanted := TrimSpace wanted in
  (wanted =? "")%string || EqualFold (TrimSpace part) wanted.

Definition contract_in_scope (scope : ScopeRef) (c : FeatureSignalContractView) : bool :=
  scope_part_matches (sc_OrgID scope) (sc_OrgID (vw_Scope c))
  && scope_part_matches (sc_WorkspaceID scope) (sc_WorkspaceID (vw_Scope c))
  && scope_part_matches (sc_ProjectID scope) (sc_ProjectID (vw_Scope c)).

Definition has_scope (scope : ScopeRef) : bool :=
  negb (blank (sc_OrgID scope)) || negb (blank (sc_WorkspaceID scope)) || negb (blank (sc_ProjectID scope)).

Definition featureSignalContracts (t : Ticks) (q : HttpRequest) (r : Router) : Handled :=
  if is_method MethodGet q then
    let risk := query q "risk_tier" in
    let phase := query q "phase" in
    let scope := scopeFromQuery q in
    if negb (risk =? "")%string || negb (phase =? "")%string then
      read r (found BContract (GetFeatureSignalContractForScope (svc r) risk phase scope))
    else
      let contracts := ListFeatureSignalContracts (svc r) in
      read r (writeJSON (BContracts (if has_scope scope
                                     then List.filter (contract_in_scope scope) contracts
                                     else contracts)))
  else if is_method MethodPost q then
    with_body decode_FeatureSignalContractPublishRequest q r (fun input =>
      contract_sync BContract t
        (PublishFeatureSignalContract (svc r) (contractStore r) input (tk_now t) (tk_wall t)) r)
  else (r, method_not_allowed).

(** The error of the decoder is ignored; a zero time means the clock. *)
Definition runFeatureSignalContractScheduler (t : Ticks) (q : HttpRequest) (r : Router) : Handled :=
  allow MethodPost q r (
    let at_ := decode_at (h_Body q) in
    let '(s, st, out) := RunFeatureSignalContractScheduler (svc r) (contractStore r) at_ (tk_now t) (tk_wall t) in
    (synced t (rt_set_store st (set_svc s r)), writeJSON (BScheduler out))).

Definition validateFeatureSignalContract (q : HttpRequest) (r : Router) : Handled :=
  allow MethodPost q r (with_body decode_FeatureSignalContractPublishRequest q r (fun input =>
    read r (writeJSON (BContractValid (ValidateFeatureSignalContract input))))).

Definition featureSignalContractHistory (q : HttpRequest) (r : Router) : Handled :=
  allow MethodGet q r (
    let risk := query q "risk_tier" in
    let phase := query q "phase" in
    if (risk =? "")%string then (r, httpError 400 "invalid query: risk_tier required")
    else with_limit 20 q r (fun limit =>
      let scope := scopeFromQuery q in
      read r (found (fun history => BContractHistory history
                       (ListFeatureSignalContractRollbacksForScope (svc r) risk phase scope limit))
                (GetFeatureSignalContractHistoryForScope (svc r) risk phase scope limit)))).

Definition rollbackFeatureSignalContract (t : Ticks) (q : HttpRequest) (r : Router) : Handled :=
  allow MethodPost q r (with_body decode_FeatureSignalContractRollbackRequest q r (fun input =>
    contract_sync BContractRollback t
      (RollbackFeatureSignalContract (svc r) (contractStore r) input (tk_now t) (tk_wall t)) r)).

Definition buildFeatureSnapshot (t : Ticks) (q : HttpRequest) (r : Router) : Handled :=
  allow MethodPost q r (with_body decode_FeatureSnapshotBuildRequest q r (fun input =>
    control_call BSnapshot (BuildFeatureSnapshot (decisionSvc r) input (tk_now t)) r)).

Definition validateFeatureSnapshotFreshness (t : Ticks) (q : HttpRequest) (r : Router) : Handled :=
  allow MethodPost q r (with_body decode_FeatureSnapshotFreshnessValidateRequest q r (fun input =>
    read r (answer_of writeDecisionError BFreshness
              (ValidateFeatureSnapshotFreshness (decisionSvc r) input (tk_now t))))).

Definition featureSnapshotAction (q : HttpRequest) (r : Router) : Handled :=
  allow MethodGet q r (
    match path_parts "/v1/features/snapshots/" q with
    | snapshotID :: rest =>
      if (snapshotID =? "")%string then (r, invalid_path)
      else match rest with
      | [] => read r (found BSnapshot (GetFeatureSnapshot (decisionSvc r) snapshotID))
      | [action] =>
        if (action =? "evidence")%string
        then read r (found BSnapshotEvidence (GetFeatureSnapshotEvidence (decisionSvc r) snapshotID))
        else (r, invalid_path)
      | _ => (r, invalid_path)
      end
    | [] => (r, invalid_path)
    end).

Definition feature_versions (t : Ticks) (featureID : string) (q : HttpRequest) (r : Router) : Handled :=
  if is_method MethodPost q then
    with_body decode_FeatureVersionCreateRequest q r (fun input =>
      control_call BVersion (CreateFeatureVersion (decisionSvc r) featureID input (tk_now t)) r)
  else if is_method MethodGet q then
    read r (answer_of writeDecisionError BVersions
              (ListFeatureVersions (decisionSvc r) featureID (scopeFromQuery q)))
  else (r, method_not_allowed).

Definition feature_rollback (t : Ticks) (featureID : string) (q : HttpRequest) (r : Router) : Handled :=
  if is_method MethodPost q then
    with_body decode_FeatureRollbackRequest q r (fun input =>
      control_call BFeatureRollback (RollbackFeature (decisionSvc r) featureID input (tk_now t)) r)
  else if is_method MethodGet q then
    with_limit 20 q r (fun limit =>
      read r (answer_of writeDecisionError BFeatureRollbacks
                (GetFeatureRollbackHistory (decisionSvc r) featureID (scopeFromQuery q) limit)))
  else (r, method_not_allowed).

(** Parts of the path after the action are ignored. *)
Definition featureAction (t : Ticks) (q : HttpRequest) (r : Router) : Handled :=
  match path_parts "/v1/features/" q with
  | featureID :: action :: _ =>
    if (featureID =? "")%string then (r, invalid_path)
    else if (action =? "versions")%string then feature_versions t featureID q r
    else if (action =? "drift-report")%string then
      allow MethodGet q r (read r (answer_of writeDecisionError BDrift
        (GetFeatureDriftReport (decisionSvc r) featureID (scopeFromQuery q) (tk_now t))))
    else if (action =? "rollback")%string then feature_rollback t featureID q r
    else if (action =? "publish")%string then
      allow MethodPost q r (with_body decode_FeatureVersionPublishRequest q r (fun input =>
        control_sync BFeaturePublish t (PublishFeatureVersion (decisionSvc r) featureID input (tk_now t)) r))
    else if (action =? "dependency-graph")%string then
      allow MethodGet q r (read r (answer_of writeDecisionError BDependencies
        (GetFeatureDependencyGraph (decisionSvc r) featureID (scopeFromQuery q) (tk_now t))))
    else (r, invalid_path)
  | _ => (r, invalid_path)
  end.

(** *** Approval organisation and enforcement *)

Definition getApprovalOrgHealth (t : Ticks) (q : HttpRequest) (r : Router) : Handled :=
  allow MethodGet q r (
    control_call BOrgHealth (GetApprovalOrgHealth (decisionSvc r) (scopeFromQuery q) (tk_now t)) r).

Definition remediateApprovalOrgHealth (t : Ticks) (q : HttpRequest) (r : Router) : Handled :=
  allow MethodPost q r (with_body decode_ApprovalOrgHealthRemediationRequest q r (fun input =>
    control_call BRemediation (RemediateApprovalOrgHealth (decisionSvc r) input (tk_now t)) r)).

Definition recomputeApprovalOrgHealth (t : Ticks) (q : HttpRequest) (r : Router) : Handled :=
  allow MethodPost q r (with_body decode_ApprovalOrgHealthRecomputeRequest q r (fun input =>
    control_sync BRecompute t (RecomputeApprovalOrgHealth (decisionSvc r) input (tk_now t)) r)).

Definition getApprovalOrgHealthReports (q : HttpRequest) (r : Router) : Handled :=
  allow MethodGet q r (with_limit 20 q r (fun limit =>
    read r (answer_of writeDecisionError BReports
              (GetApprovalOrgHealthReports (decisionSvc r) (scopeFromQuery q) limit)))).

Definition getEnforcementMatrix (q : HttpRequest) (r : Router) : Handled :=
  allow MethodGet q r (read r (writeJSON (BMatrix (GetEnforcementMatrix (decisionSvc r))))).

Definition validateEnforcementMatrix (q : HttpRequest) (r : Router) : Handled :=
  allow MethodPost q r (with_body decode_EnforcementMatrixValidateRequest q r (fun input =>
    read r (writeJSON (BMatrixValid (ValidateEnforcementMatrix input))))).

Definition publishEnforcementMatrix (t : Ticks) (q : HttpRequest) (r : Router) : Handled :=
  allow MethodPost q r (with_body decode_EnforcementMatrixPublishRequest q r (fun input =>
    control_call BMatrixPublish (PublishEnforcementMatrix (decisionSvc r) input (tk_now t)) r)).

(** *** Runs *)

Definition createRun (t : Ticks) (q : HttpRequest) (r : Router) : Handled :=
  allow MethodPost q r (with_body decode_CreateRunRequest q r (fun input =>
    run_call BRunCreated t (CreateRun input (tk_now t) (runSvc r)) r)).

(** The Run kernel asks the Decision service of the router. *)
Definition decision_port (t : Ticks) (r : Router) : option DecisionPort :=
  Some (decisionRunPort (Some (svc r)) (tk_wall t)).

(** A read of the evidence of a run, after the copy. *)
Definition evidence_read (t : Ticks) (r : Router) (a : EvTypes.Kernel -> Answer) : Handled :=
  let r := synced t r in (r, a (evidenceSvc r)).

Definition mode_or (minimal : string) (q : HttpRequest) : string :=
  let mode := query q "mode" in if (mode =? "")%string then minimal else mode.

Definition runAction (t : Ticks) (q : HttpRequest) (r : Router) : Handled :=
  match path_parts "/v1/runs/" q with
  | [] => (r, invalid_path)
  | runID :: rest =>
    if (runID =? "")%string then (r, invalid_path)
    else match rest with
    | [] => allow MethodGet q r (read r (answer_of writeKernelError BRun (GetRun (runSvc r) runID)))
    | action :: _ =>
      if (action =? "decision-graph")%string then
        allow MethodGet q r (evidence_read t r (fun k => found BGraph (GetDecisionGraph k runID)))
      else if (action =? "root-cause-pack")%string then
        allow MethodGet q r (evidence_read t r (fun k => answer_of writeEvidenceError BRootCause
          (BuildRootCausePack runID (mode_or RootCausePackModeMinimal q) (tk_now t) k)))
      else if (action =? "replay-pack")%string then
        allow MethodGet q r (evidence_read t r (fun k => answer_of writeEvidenceError BReplay
          (BuildReplayPack runID (mode_or ReplayPackModeMinimal q) (tk_now t) k)))
      else if (action =? "integrity-verify")%string then
        allow MethodGet q r (evidence_read t r (fun k => answer_of writeEvidenceError BIntegrity
          (VerifyIntegrity runID (tk_now t) k)))
      else if (action =? "advance")%string then
        allow MethodPost q r (with_body decode_AdvanceRunRequest q r (fun input =>
          run_call BAdvance t (AdvanceRun (decision_port t r) runID input (tk_now t) (runSvc r)) r))
      else if (action =? "park")%string then
        allow MethodPost q r (with_body decode_ParkRunRequest q r (fun input =>
          run_call BPark t (ParkRun runID input (tk_now t) (runSvc r)) r))
      else if (action =? "resume")%string then
        allow MethodPost q r (with_body decode_ResumeRunRequest q r (fun input =>
          run_call BResume t (ResumeRun runID input (tk_now t) (runSvc r)) r))
      else if (action =? "abort")%string then
        allow MethodPost q r (with_body decode_AbortRunRequest q r (fun input =>
          run_call BRun t (AbortRun runID input (tk_now t) (runSvc r)) r))
      else (r, invalid_path)
    end
  end.

(** The three sweeps have no error. *)
Definition sweep_call (t : Ticks) (out : RunTypes.Kernel * RunTypes.SweepResult) (r : Router) : Handled :=
  (synced t (rt_set_run out.1 r), writeJSON (BSweep out.2)).

Definition sweepRunTTL (t : Ticks) (q : HttpRequest) (r : Router) : Handled :=
  allow MethodPost q r (sweep_call t (SweepTTL (tk_now t) (runSvc r)) r).
Definition sweepRunZombie (t : Ticks) (q : HttpRequest) (r : Router) : Handled :=
  allow MethodPost q r (sweep_call t (SweepZombie (tk_now t) (runSvc r)) r).
Definition sweepRunMaintenance (t : Ticks) (q : HttpRequest) (r : Router) : Handled :=
  allow MethodPost q r (sweep_call t (MaintenanceSweep (tk_now t) (runSvc r)) r).

(** *** Evidence and ledger *)

Definition ingestEvidenceEvent (t : Ticks) (q : HttpRequest) (r : Router) : Handled :=
  allow MethodPost q r (with_body decode_IngestEventRequest q r (fun input =>
    let '(k, out) := IngestEvent input (tk_now t) (tk_ingest t) (evidenceSvc r) in
    (rt_set_evidence k r, answer_of writeEvidenceError BIngest out))).

Definition syncEvidenceKernelOutboxes (t : Ticks) (q : HttpRequest) (r : Router) : Handled :=
  allow MethodPost q r (
    let '(r, out) := syncEvidenceFromKernelOutboxes (tk_sync t) r in (r, writeJSON (BSync out))).

Definition deleteEvidenceByDSAR (t : Ticks) (q : HttpRequest) (r : Router) : Handled :=
  allow MethodPost q r (with_body decode_DSARDeleteRequest q r (fun input =>
    let '(k, out) := DeleteByDSAR input (tk_now t) (evidenceSvc r) in
    (rt_set_evidence k r, answer_of writeEvidenceError BDelete out))).

(** [strings.Trim(strings.TrimPrefix(path, prefix), "/")] *)
Definition path_rest (prefix : string) (q : HttpRequest) : string :=
  Trim (TrimPrefix (h_Path q) prefix) slash.

Definition getRunEvidenceSummary (t : Ticks) (q : HttpRequest) (r : Router) : Handled :=
  allow MethodGet q r (
    let runID := path_rest "/v1/evidence/runs/" q in
    if (runID =? "")%string then (r, invalid_path)
    else evidence_read t r (fun k => found BEvidence (GetRunEvidence k runID))).

Definition getRunLedger (t : Ticks) (q : HttpRequest) (r : Router) : Handled :=
  allow MethodGet q r (
    let runID := path_rest "/v1/ledger/runs/" q in
    if (runID =? "")%string then (r, invalid_path)
    else evidence_read t r (fun k => found (BLedger runID) (GetLedger k runID))).

Definition aggregateLedger (t : Ticks) (q : HttpRequest) (r : Router) : Handled :=
  allow MethodPost q r (with_body decode_LedgerAggregateRequest q r (fun input =>
    evidence_read t r (fun k => answer_of writeEvidenceError BAggregate
      (AggregateLedger input (tk_now t) k)))).

Definition verifyEvidenceIntegrity (t : Ticks) (q : HttpRequest) (r : Router) : Handled :=
  allow MethodGet q r (evidence_read t r (fun k =>
    writeJSON (BIntegrity (VerifyGlobalIntegrity (tk_now t) k)))).

(** The error of the decoder is ignored. *)
Definition evidenceIntegrityAnchor (t : Ticks) (q : HttpRequest) (r : Router) : Handled :=
  if is_method MethodGet q then
    with_limit 20 q r (fun limit =>
      evidence_read t r (fun k => writeJSON (BAnchors (ListGlobalIntegrityAnchors limit k))))
  else if is_method MethodPost q then
    let r := synced t r in
    let reason := decode_reason (h_Body q) in
    let '(k, anchor) := CreateGlobalIntegrityAnchor (TrimSpace reason) (tk_now t) (evidenceSvc r) in
    (rt_set_evidence k r, writeJSON (BAnchor anchor))
  else (r, method_not_allowed).

Definition getEvidenceArchiveSummary (t : Ticks) (q : HttpRequest) (r : Router) : Handled :=
  allow MethodGet q r (evidence_read t r (fun k =>
    writeJSON (BArchive (GetArchiveSummary k (query q "run_id"))))).

Definition exportEvidenceArchive (t : Ticks) (q : HttpRequest) (r : Router) : Handled :=
  allow MethodGet q r (with_limit 0 q r (fun limit =>
    evidence_read t r (fun k => answer_of writeEvidenceError BExport
      (ExportArchive (query q "run_id") (query q "tier") limit (tk_now t) k)))).

Definition getEvidenceDecisionLogHistory (t : Ticks) (q : HttpRequest) (r : Router) : Handled :=
  allow MethodGet q r (
    match path_parts "/v1/evidence/decision-logs/" q with
    | [id; action] =>
      if (id =? "")%string || negb (action =? "history")%string then (r, invalid_path)
      else with_limit 20 q r (fun limit =>
        evidence_read t r (fun k => found (BLogHistory id) (GetDecisionLogHistory k id limit)))
    | _ => (r, invalid_path)
    end).

(** ** Dispatch *)

Definition handle (e : Endpoint) (t : Ticks) (q : HttpRequest) (r : Router) : Handled :=
  match e with
  | EHealthz => healthz r
  | EContextResolve => contextResolve q r
  | EEvaluateRuntime => evaluateRuntime t q r
  | EEvaluateScheduleAdmission => evaluateScheduleAdmission t q r
  | EEvaluateRelease => evaluateRelease t q r
  | EConfirmRunAdvance => confirmRunAdvance t q r
  | ERepairPending => repairPending t q r
  | ETerminalizePending => terminalizePending t q r
  | ECreateApprovalCase => createApprovalCase t q r
  | EDecideApprovalCase => decideApprovalCase t q r
  | EGetDecision => getDecision q r
  | EOutbox => outbox q r
  | EMetrics => metrics t q r
  | ECreateFeatureDefinition => createFeatureDefinition t q r
  | EFeatureSignalContracts => featureSignalContracts t q r
  | ERunFeatureSignalContractScheduler => runFeatureSignalContractScheduler t q r
  | EValidateFeatureSignalContract => validateFeatureSignalContract q r
  | EFeatureSignalContractHistory => featureSignalContractHistory q r
  | ERollbackFeatureSignalContract => rollbackFeatureSignalContract t q r
  | EBuildFeatureSnapshot => buildFeatureSnapshot t q r
  | EValidateFeatureSnapshotFreshness => validateFeatureSnapshotFreshness t q r
  | EFeatureSnapshotAction => featureSnapshotAction q r
  | EFeatureAction => featureAction t q r
  | EGetApprovalOrgHealth => getApprovalOrgHealth t q r
  | ERecomputeApprovalOrgHealth => recomputeApprovalOrgHealth t q r
  | ERemediateApprovalOrgHealth => remediateApprovalOrgHealth t q r
  | EGetApprovalOrgHealthReports => getApprovalOrgHealthReports q r
  | EGetEnforcementMatrix => getEnforcementMatrix q r
  | EValidateEnforcementMatrix => validateEnforcementMatrix q r
  | EPublishEnforcementMatrix => publishEnforcementMatrix t q r
  | EIngestEvidenceEvent => ingestEvidenceEvent t q r
  | ESyncEvidenceKernelOutboxes => syncEvidenceKernelOutboxes t q r
  | EDeleteEvidenceByDSAR => deleteEvidenceByDSAR t q r
  | EVerifyEvidenceIntegrity => verifyEvidenceIntegrity t q r
  | EEvidenceIntegrityAnchor => evidenceIntegrityAnchor t q r
  | EGetEvidenceArchiveSummary => getEvidenceArchiveSummary t q r
  | EExportEvidenceArchive => exportEvidenceArchive t q r
  | EGetEvidenceDecisionLogHistory => getEvidenceDecisionLogHistory t q r
  | EGetRunEvidenceSummary => getRunEvidenceSummary t q r
  | EGetRunLedger => getRunLedger t q r
  | EAggregateLedger => aggregateLedger t q r
  | ECreateRun => createRun t q r
  | ESweepRunTTL => sweepRunTTL t q r
  | ESweepRunZombie => sweepRunZombie t q r
  | ESweepRunMaintenance => sweepRunMaintenance t q r
  | ERunAction => runAction t q r
  end.

(** [r.mux.ServeHTTP]. *)
Definition ServeHTTP (t : Ticks) (q : HttpRequest) (r : Router) : Handled :=
  match mux_route q with
  | Moved path => (r, Redirect path)
  | NoHandler => (r, httpError 404 "404 page not found")
  | Handler e => handle e t q r
  end.
End Handlers.

(** ** The command ([src/cmd/agent-infra/main.go]) *)

Section Command.
Context `{MapRange} {E : Type}.
(** [errors.Is(err, http.ErrServerClosed)]; [listen] serves until it stops. *)
Context (isServerClosed : E -> bool).

Record HttpServer := mk_HttpServer {
  sv_Addr : string;
  sv_Handler : Router (H := InMemoryFeatureSignalContractStore);
  sv_ReadHeaderTimeout : Z
}.

Definition resolveAddr (getenv : string -> string) : string :=
  let addr := getenv "AGENT_INFRA_ADDR" in
  if (addr =? "")%string then ":8080" else addr.

Definition runWith (addr : string) (handler : Router) (listen : HttpServer -> option E) : option E :=
  match listen (mk_HttpServer addr handler (5 * Second)) with
  | None => None
  | Some err => if isServerClosed err then None else Some err
  end.

(** What [main] ends with; [Some] is fatal. *)
Definition main (getenv : string -> string) (now : time) (listen : HttpServer -> option E) : option E :=
  runWith (resolveAddr getenv) (NewRouter (H := InMemoryFeatureSignalContractStore) now no_snapshot) listen.

(** A failure is fatal unless the server was closed. *)
Lemma main_fatal getenv now listen err :
  main getenv now listen = Some err <->
  listen (mk_HttpServer (resolveAddr getenv) (NewRouter (H := InMemoryFeatureSignalContractStore) now no_snapshot)
            (5 * Second)) = Some err /\
  isServerClosed err = false.
Proof.
  unfold main, runWith. destruct (listen _) as [e|]; [|by split; [|intros [? _]]].
  destruct (isServerClosed e) eqn:Ee; split; [done| |by intros [= ->]|by intros [[= ->] _]].
  intros [[= ->] Hf]. congruence.
Qed.
End Command.

(** Routing, evaluated. *)
Definition get_ (path : string) : HttpRequest := mk_HttpRequest MethodGet path (fun _ => "") "".

Example routing :
  map (fun p => mux_route (get_ p))
    ["/v1/runs"; "/v1/runs/"; "/v1/runs/run-1/advance"; "/v1/decision"; "/v1/decision/outbox";
     "/v1/features/snapshots"; "/v1/features/f/versions"; "/v1//runs/../runs/x/"; "/v2"] =
    [Handler ECreateRun; Handler ERunAction; Handler ERunAction; Moved "/v1/decision/";
     Handler EOutbox; Moved "/v1/features/snapshots/"; Handler EFeatureAction; Moved "/v1/runs/x/"; NoHandler].
Proof. vm_compute. reflexivity. Qed.
