(* ===== verification/ApiTheorems.v ===== *)
(** * Theorems about the copy of the outboxes

    The window of offered events, the loop as a fold over the events not
    offered before, and that nothing a kernel emitted is lost on the way to the
    Evidence kernel. *)

From Stdlib Require Import Ascii.
From S2P Require Import Prelude GoStrings Sha256 GoTime GoJson RunTypes RunStates RunOutbox RunKernel RunTrace.
From S2P Require Import EvTypes EvEvents EvKernel EvRetain EvReports EvFrame EvChain EvIngest EvTrace EvIngestTheorems.
From S2P Require Import DecTypes DecJson DecPolicy DecContracts DecKernel DecPending DecFrame CtlTypes ApiSync.
#[local] Open Scope Z_scope.

(** ** The window *)

Section Window.
Context `{FeatureSignalContractStore}.

Record SeenInv (r : Router) : Prop := mk_SeenInv {
  si_distinct : NoDup (seenQueue r);
  si_same : seenEventID r = list_to_set (seenQueue r);
  si_within : Z.of_nat (length (seenQueue r)) <= seenCap r
}.

Lemma trim_seen_spec cap queue : NoDup queue -> 0 <= cap ->
  exists gone rest, queue = gone ++ rest /\
    trim_seen cap (list_to_set queue) queue = (list_to_set rest, rest) /\
    Z.of_nat (length rest) <= cap /\ (gone = [] \/ Z.of_nat (length rest) = cap).
Proof.
  intros Hd Hc. induction queue as [|old queue IH]; cbn [trim_seen].
  { exists [], []. cbn. split_and!; [done..|lia|by left]. }
  apply NoDup_cons in Hd as [Hn Hd]. destruct (cap <? Z.of_nat (length (old :: queue))) eqn:E; bool_hyps.
  - destruct (IH Hd) as (gone & rest & -> & Ht & Hl & Hg).
    exists (old :: gone), rest. split; [done|].
    split; [|split; [done|right; destruct Hg as [->|Hg]; [cbn in *; lia|done]]].
    replace ((list_to_set (old :: gone ++ rest) : gset string) ∖ {[old]})
      with (list_to_set (gone ++ rest) : gset string); [exact Ht|].
    apply set_eq. intros x. rewrite list_to_set_cons, elem_of_difference, elem_of_union, elem_of_singleton,
      !elem_of_list_to_set. split; [|tauto]. intros Hx. split; [by right|]. intros ->. done.
  - exists [], (old :: queue). split_and!; [done..|by left].
Qed.

(** [markEventSeen] answers whether the trimmed identifier is new, and then
    appends it; what leaves the window are its oldest entries, and none unless
    it is full. *)
Definition fresh_in (seen : list string) (id : string) : Prop := TrimSpace id <> "" /\ TrimSpace id ∉ seen.

#[export] Instance fresh_in_dec seen id : Decision (fresh_in seen id).
Proof. unfold fresh_in. apply _. Defined.

(** The same kernels and bound. *)
Record same_kernels (r r' : Router) : Prop := mk_same_kernels {
  sk_decision : decisionSvc r' = decisionSvc r;
  sk_store : contractStore r' = contractStore r;
  sk_run : runSvc r' = runSvc r;
  sk_cap : seenCap r' = seenCap r
}.

#[export] Instance same_kernels_preorder : PreOrder same_kernels.
Proof. split; [by split|]. intros r1 r2 r3 [] []. split; congruence. Qed.

Lemma markEventSeen_spec id r : SeenInv r ->
  let out := markEventSeen id r in
  if decide (fresh_in (seenQueue r) id) then
    out.2 = true /\ SeenInv out.1 /\ same_kernels r out.1 /\ evidenceSvc out.1 = evidenceSvc r /\
    (exists gone, seenQueue r ++ [TrimSpace id] = gone ++ seenQueue out.1 /\
       (gone = [] \/ Z.of_nat (length (seenQueue out.1)) = seenCap r))
  else out = (r, false).
Proof.
  intros [Hd Hs Hl]. cbv zeta. unfold markEventSeen; cbv zeta.
  case_decide as Hf; unfold fresh_in in Hf.
  - destruct Hf as [Hb Hn]. apply String.eqb_neq in Hb. rewrite Hb.
    rewrite decide_False by (by rewrite Hs, elem_of_list_to_set).
    assert (Hd' : NoDup (seenQueue r ++ [TrimSpace id])) by (apply NoDup_app; split_and!;
      [done|intros x Hx ->%list_elem_of_singleton; done|apply NoDup_singleton]).
    destruct (trim_seen_spec (seenCap r) _ Hd') as (gone & rest & E & Ht & Hr & Hg); [lia|].
    replace ({[TrimSpace id]} ∪ seenEventID r) with (list_to_set (seenQueue r ++ [TrimSpace id]) : gset string)
      by (rewrite Hs, list_to_set_app_L; set_solver).
    rewrite Ht. cbn [fst snd]. split; [done|]. split.
    { split; cbn; [|done|done]. rewrite E in Hd'. by apply NoDup_app in Hd' as (_ & _ & ?). }
    split; [by split|]. split; [done|]. cbn [seenQueue rt_set_seen]. by exists gone.
  - destruct (TrimSpace id =? "")%string eqn:Eb; [done|]. apply String.eqb_neq in Eb.
    rewrite decide_True; [done|]. rewrite Hs, elem_of_list_to_set. destruct (decide (TrimSpace id ∈ seenQueue r)); [done|].
    exfalso. by apply Hf.
Qed.

(** ** The loops as one loop *)

(** An event of an outbox, as the loops see it. *)
Record offer := mk_offer {
  of_id : string;
  of_see : SyncResult -> SyncResult;
  of_req : IngestEventRequest
}.

Definition decision_offer (e : Event) : offer := mk_offer (e_EventID e) sc_see_decision (decision_request e).
Definition run_offer (e : RunTypes.KernelEvent) : offer := mk_offer (ev_EventID e) sc_see_run (run_request e).

(** What the two outboxes hold, in the order of the copy. *)
Definition offers (r : Router) : list offer :=
  map decision_offer (Outbox (c_svc (decisionSvc r))) ++ map run_offer (RunOutbox.Outbox (runSvc r)).

Definition make_offer (t : time * time) (o : offer) : Router * SyncResult -> Router * SyncResult :=
  offer_event (of_id o) (of_see o) (of_req o) t.

Lemma sync_loop_map {E} (f : time * time -> E -> Router * SyncResult -> Router * SyncResult) g ticks i l st :
  (forall t e st, f t e st = make_offer t (g e) st) ->
  sync_loop f ticks i l st = sync_loop make_offer ticks i (map g l) st.
Proof. intros Hf. revert i st. induction l as [|e l IH]; intros i st; cbn; [done|]. by rewrite Hf, IH. Qed.

Lemma sync_loop_app {E} (f : time * time -> E -> Router * SyncResult -> Router * SyncResult) ticks i l1 l2 st :
  sync_loop f ticks i (l1 ++ l2) st = sync_loop f ticks (i + length l1) l2 (sync_loop f ticks i l1 st).
Proof.
  revert i st. induction l1 as [|e l1 IH]; intros i st; cbn; [by rewrite Nat.add_0_r|].
  rewrite IH. f_equal. lia.
Qed.

Lemma sync_offers ticks r :
  syncEvidenceFromKernelOutboxes ticks r = sync_loop make_offer ticks 0 (offers r) (r, mk_SyncResult 0 0 0 0 0).
Proof.
  unfold syncEvidenceFromKernelOutboxes, offers; cbv zeta. rewrite sync_loop_app, length_map, Nat.add_0_l.
  rewrite <- (sync_loop_map offer_decision) by done.
  set (decisions := Outbox _).
  assert (Hrun : forall r c, runSvc (sync_loop offer_decision ticks 0 decisions (r, c)).1 = runSvc r).
  { intros r0 c0. generalize 0%nat. revert r0 c0. induction decisions as [|e l IH]; intros r0 c0 i; [done|].
    cbn [sync_loop]. unfold offer_decision at 2, offer_event.
    destruct (markEventSeen (e_EventID e) r0) as [r1 fresh] eqn:Em.
    assert (runSvc r1 = runSvc r0) as E1.
    { unfold markEventSeen in Em; cbv zeta in Em. destruct (_ =? _)%string; [by pair_inv Em|].
      destruct (decide _); [by pair_inv Em|]. destruct (trim_seen _ _ _). by pair_inv Em. }
    destruct fresh; cbn [negb]; [|by rewrite IH].
    destruct (IngestEvent _ _ _ _) as [k resp]. by rewrite IH. }
  specialize (Hrun r (mk_SyncResult 0 0 0 0 0)).
  destruct (sync_loop offer_decision ticks 0 decisions (r, _)) as [r1 c1]. cbn [fst] in Hrun. rewrite Hrun.
  by apply sync_loop_map.
Qed.

(** The offers that are new, with their positions: what is blank, in the window
    or offered earlier is skipped. *)
Fixpoint fresh_offers (seen : list string) (i : nat) (l : list offer) : list (nat * offer) :=
  match l with
  | [] => []
  | o :: l =>
    if decide (fresh_in seen (of_id o))
    then (i, o) :: fresh_offers (seen ++ [TrimSpace (of_id o)]) (S i) l
    else fresh_offers seen (S i) l
  end.

(** One ingestion of the copy. *)
Definition ingest_offer (ticks : nat -> time * time) (k : EvTypes.Kernel) (io : nat * offer) : EvTypes.Kernel :=
  (IngestEvent (of_req io.2) (ticks io.1).1 (ticks io.1).2 k).1.

Definition answers (c : SyncResult) : Z := sc_ingested c + sc_dropped c + sc_errors c.
Definition seen_events (c : SyncResult) : Z := sc_seen_decision_events c + sc_seen_run_events c.

(** Every offer counts as one seen event. *)
Definition counted (o : offer) : Prop := of_see o = sc_see_decision \/ of_see o = sc_see_run.

Lemma offers_counted r : Forall counted (offers r).
Proof.
  apply Forall_app; split; apply Forall_fmap; apply Forall_forall; intros e _; [by left|by right].
Qed.

Lemma count_answer o resp c : counted o ->
  seen_events (sc_answer resp (of_see o c)) = seen_events c + 1 /\
  answers (sc_answer resp (of_see o c)) = answers c + 1.
Proof.
  intros [-> | ->]; unfold seen_events, answers, sc_answer; destruct resp as [rs|e]; try destruct (rs_Dropped rs);
    cbn; lia.
Qed.

(** Only the entries of the window that an offer may match matter. *)
Lemma fresh_offers_old old seen i l : (forall o, o ∈ l -> TrimSpace (of_id o) ∉ old) ->
  fresh_offers (old ++ seen) i l = fresh_offers seen i l.
Proof.
  revert seen i. induction l as [|o l IH]; intros seen i Hl; cbn [fresh_offers]; [done|].
  assert (Ho : fresh_in (old ++ seen) (of_id o) <-> fresh_in seen (of_id o)).
  { unfold fresh_in. rewrite elem_of_app. pose proof (Hl o (list_elem_of_here _ _)). tauto. }
  assert (Hl' : forall x, x ∈ l -> TrimSpace (of_id x) ∉ old) by (intros x Hx; apply Hl; by right).
  rewrite <- app_assoc, !IH by done. by rewrite (decide_ext _ _ _ _ Ho).
Qed.

(** What leaves a window is taken from the part that may go. *)
Lemma evicted (old live : list string) gone rest n : (old ++ live) = gone ++ rest ->
  gone = [] \/ Z.of_nat (length rest) = n -> Z.of_nat (length live) <= n ->
  exists old', old' `suffix_of` old /\ rest = old' ++ live.
Proof.
  intros E Hg Hl. assert (length gone <= length old)%nat as Hlen.
  { destruct Hg as [->|Hr]; [cbn; lia|]. apply (f_equal length) in E. rewrite !length_app in E. lia. }
  apply app_eq_inv in E as [(k & -> & ->)|(k & -> & ->)]; [|rewrite length_app in Hlen].
  - exists k. split; [by exists gone|done].
  - destruct k; [|cbn in Hlen; lia]. exists []. split; [apply suffix_nil|]. by rewrite app_nil_l.
Qed.

Lemma sync_loop_spec ticks l old live i r c : SeenInv r -> Forall counted l ->
  seenQueue r = old ++ live -> (forall o, o ∈ l -> TrimSpace (of_id o) ∉ old) ->
  Z.of_nat (length live) + Z.of_nat (length (fresh_offers live i l)) <= seenCap r ->
  let new := fresh_offers live i l in
  let out := sync_loop make_offer ticks i l (r, c) in
  SeenInv out.1 /\ same_kernels r out.1 /\
  (exists old', old' `suffix_of` old /\
     seenQueue out.1 = old' ++ live ++ map (fun io => TrimSpace (of_id io.2)) new) /\
  evidenceSvc out.1 = foldl (ingest_offer ticks) (evidenceSvc r) new /\
  seen_events out.2 = seen_events c + Z.of_nat (length new) /\
  answers out.2 = answers c + Z.of_nat (length new).
Proof.
  cbv zeta. revert old live i r c.
  induction l as [|o l IH]; intros old live i r c HI Hc Hq Hold Hroom; cbn [sync_loop fresh_offers] in *.
  { cbn. rewrite app_nil_r, !Z.add_0_r. split_and!; try done. by exists old. }
  apply Forall_cons in Hc as [Ho Hc]. pose proof (markEventSeen_spec (of_id o) r HI) as Hm. cbv zeta in Hm.
  assert (Eo : make_offer (ticks i) o (r, c) =
    let '(r1, fresh) := markEventSeen (of_id o) r in
    if negb fresh then (r1, c)
    else let '(k, resp) := IngestEvent (of_req o) (ticks i).1 (ticks i).2 (evidenceSvc r1) in
         (rt_set_evidence k r1, sc_answer resp (of_see o c))) by reflexivity.
  rewrite Eo; clear Eo.
  assert (Hfr : fresh_in (seenQueue r) (of_id o) <-> fresh_in live (of_id o)).
  { rewrite Hq. unfold fresh_in. rewrite elem_of_app. pose proof (Hold o (list_elem_of_here _ _)). tauto. }
  rewrite (decide_ext _ _ _ _ Hfr) in Hm.
  assert (Hold' : forall x, x ∈ l -> TrimSpace (of_id x) ∉ old) by (intros x Hx; apply Hold; by right).
  destruct (markEventSeen (of_id o) r) as [r1 fresh]. case_decide as Hf; cbn [fst snd] in Hm.
  - cbn [length map foldl] in *. destruct Hm as (-> & HI1 & Hk1 & He1 & gone & Hq1 & Hg). cbn [negb].
    rewrite Hq, <- app_assoc in Hq1. set (live' := live ++ [TrimSpace (of_id o)]) in *.
    assert (Z.of_nat (length live') = Z.of_nat (length live) + 1) as Hlive
      by (unfold live'; rewrite length_app; cbn [length]; lia).
    destruct (evicted old live' gone _ _ Hq1 Hg ltac:(lia)) as (old' & Hsuf & Hq2).
    destruct (IngestEvent _ _ _ _) as [k resp] eqn:Ei. set (r2 := rt_set_evidence k r1).
    change (seenQueue r2) with (seenQueue r1) in *.
    assert (HI2 : SeenInv r2) by (destruct HI1 as [A B C]; by split).
    destruct (IH old' live' (S i) r2 (sc_answer resp (of_see o c)) HI2 Hc Hq2) as (J1 & J2 & (old'' & J3 & J3') & J4 & J5 & J6).
    { intros x Hx Hin. apply (Hold' x Hx). destruct Hsuf as [y ->]. apply elem_of_app. by right. }
    { change (seenCap r2) with (seenCap r1). rewrite (sk_cap _ _ Hk1). lia. }
    destruct (count_answer o resp c Ho) as [C1 C2].
    split; [done|]. split; [etransitivity; [exact Hk1|]; etransitivity; [|exact J2]; by split|].
    split; [exists old''; split; [by etransitivity|rewrite J3'; unfold live'; by rewrite <- !app_assoc]|]. split.
    { rewrite J4. f_equal. unfold ingest_offer, r2. cbn [fst snd evidenceSvc rt_set_evidence].
      rewrite He1 in Ei. by rewrite Ei. }
    rewrite J5, J6, C1, C2. lia.
  - simplify_eq. cbn [negb]. by apply IH.
Qed.

(** Nothing is new after a copy. *)
Lemma fresh_none seen i l : (forall o, o ∈ l -> TrimSpace (of_id o) = "" \/ TrimSpace (of_id o) ∈ seen) ->
  fresh_offers seen i l = [].
Proof.
  revert i. induction l as [|o l IH]; intros i Hl; cbn [fresh_offers]; [done|].
  rewrite decide_False; [apply IH; intros x Hx; apply Hl; by right|].
  intros [H1 H2]. destruct (Hl o) as [?|?]; [by left|done|done].
Qed.

Lemma fresh_covers seen i l o : o ∈ l ->
  TrimSpace (of_id o) = "" \/
  TrimSpace (of_id o) ∈ seen ++ map (fun io => TrimSpace (of_id io.2)) (fresh_offers seen i l).
Proof.
  revert seen i. induction l as [|x l IH]; intros seen i Ho; [by apply not_elem_of_nil in Ho|].
  cbn [fresh_offers]. apply elem_of_cons in Ho as [->|Ho].
  - case_decide as Hf.
    + right. cbn [map snd]. apply elem_of_app. right. by left.
    + destruct (decide (TrimSpace (of_id x) = "")) as [?|Hn]; [by left|]. right. apply elem_of_app. left.
      destruct (decide (TrimSpace (of_id x) ∈ seen)); [done|]. exfalso. by apply Hf.
  - case_decide as Hf; [|by apply IH]. destruct (IH (seen ++ [TrimSpace (of_id x)]) (S i) Ho) as [?|Hin]; [by left|].
    right. cbn [map snd]. rewrite <- app_assoc in Hin. exact Hin.
Qed.
End Window.

(** ** What the Evidence kernel does with an offer *)

(** No source was registered and no backpressure set since the kernel was made. *)
Record plain (k : EvTypes.Kernel) : Prop := mk_plain {
  pl_sources : k_registeredSources k = defaultSourceRegistrations;
  pl_level : k_backpressureLevel k = 0;
  pl_source : k_sourceBackpressure k = ∅;
  pl_tenant : k_tenantBackpressure k = ∅
}.

Lemma plain_store k k' : store k = store k' -> plain k -> plain k'.
Proof.
  intros (_ & E0 & _ & _ & _ & _ & _ & _ & _ & _ & E1 & E2 & E3)%store_fields [A B C D].
  split; by rewrite <- ?E0, <- ?E1, <- ?E2, <- ?E3.
Qed.

Lemma IngestEvent_plain q now now2 k : plain k -> plain (IngestEvent q now now2 k).1.
Proof.
  apply IngestEvent_pres.
  - intros k1 k2 (E & _)%evidence_fields. by apply plain_store.
  - intros r k1. unfold ensureRunDataLocked. destruct (EvTypes.k_runs k1 !! r); [done|]. intros [A B C D]. by split.
  - intros e k1 Hl _ _. pose proof (ingest_store_store e now k1) as Es. eapply plain_store; [by symmetry|].
    destruct Hl as [A B C D]. unfold hot_step. by split.
Qed.

(** A stored event stays as it is. *)
Lemma IngestEvent_keeps q now now2 k id x : k_eventsByID k !! id = Some x ->
  k_eventsByID (IngestEvent q now now2 k).1 !! id = Some x.
Proof.
  apply (IngestEvent_pres (fun k => k_eventsByID k !! id = Some x)).
  - intros k1 k2 E. by rewrite (evidence_index _ _ E).
  - intros r k1. by rewrite ensure_run_index.
  - intros e k1 Hx Hn _. pose proof (ingest_store_store e now k1) as Es.
    apply store_fields in Es as (_ & _ & -> & _). unfold hot_step. cbn.
    rewrite lookup_insert_ne; [done|]. intros E. congruence.
Qed.

(** An event with a type and a run, from a known source, of tier 0 or 1. *)
Record acceptable (q : IngestEventRequest) : Prop := mk_acceptable {
  ac_id : TrimSpace (rq_EventID q) <> "";
  ac_type : TrimSpace (rq_EventType q) <> "";
  ac_run : TrimSpace (rq_RunID q) <> "";
  ac_source : rq_SourceComponent q = "run_kernel" \/ rq_SourceComponent q = "decision_kernel";
  ac_tier : rq_EvidenceTier q = Tier0 \/ rq_EvidenceTier q = Tier1;
  ac_load : rq_SystemLoad q = fzero
}.

Definition plain_registration (q : IngestEventRequest) : SourceRegistration :=
  mk_SourceRegistration (rq_SourceComponent q) 1 Tier1.

Lemma acceptable_admitted q now k : plain k -> acceptable q ->
  admitted k (normalizeIngestRequest q now) (plain_registration q).
Proof.
  intros [Hs _ _ _] [H1 H2 H3 H4 _ _]. unfold admitted, validateIngestRequest, normalizeIngestRequest.
  cbn [rq_EventID rq_EventType rq_RunID rq_SourceComponent rq_SchemaVersion].
  apply String.eqb_neq in H1, H2, H3. rewrite H1, H2, H3, Hs. split_and!.
  - by destruct H4 as [-> | ->].
  - destruct H4 as [E | E]; unfold plain_registration; rewrite E; reflexivity.
  - cbn. destruct (_ <=? 0) eqn:E; bool_hyps; lia.
Qed.

Lemma plain_effective k s t : plain k -> effectiveBackpressureLevelLocked k s t = 0.
Proof. intros [_ A B C]. unfold effectiveBackpressureLevelLocked. by rewrite A, B, C, !lookup_empty. Qed.

Lemma acceptable_tier q now reg : acceptable q ->
  event_tier (normalizeIngestRequest q now) reg = Tier0 \/ event_tier (normalizeIngestRequest q now) reg = Tier1.
Proof.
  intros [_ _ _ _ Ht _]. unfold event_tier. cbn [normalizeIngestRequest rq_EvidenceTier].
  destruct Ht as [-> | ->]; [by left|by right].
Qed.

Lemma acceptable_action q now reg k : plain k -> acceptable q ->
  let norm := normalizeIngestRequest q now in
  action_of k (rq_SystemLoad norm) (request_event norm reg) <> Drop.
Proof.
  intros Hp Ha. cbv zeta. pose proof (request_event_fields (normalizeIngestRequest q now) reg) as (_ & _ & _ & Et & _).
  pose proof (acceptable_tier q now reg Ha) as Ht. rewrite <- Et in Ht.
  set (e := request_event _ _) in *. clearbody e. unfold action_of, pressed, sampled_out.
  rewrite (plain_effective k _ _ Hp). cbn [Z.eqb Z.leb Z.compare andb orb]. rewrite andb_false_r.
  destruct Ht as [-> | ->]; destruct (over_budget _ _ _); cbn; by rewrite ?andb_false_r.
Qed.

Lemma acceptable_stored q now now2 k : KInv k -> plain k -> acceptable q ->
  let out := IngestEvent q now now2 k in
  exists resp x, out.2 = Ok resp /\ rs_Dropped resp = false /\
    k_eventsByID out.1 !! TrimSpace (rq_EventID q) = Some x /\
    (k_eventsByID k !! TrimSpace (rq_EventID q) = None ->
       exists a st, x = seal st (kept_event a (request_event (normalizeIngestRequest q now) (plain_registration q)))).
Proof.
  intros HK Hp Ha. cbv zeta. pose proof (acceptable_admitted q now k Hp Ha) as Had.
  set (norm := normalizeIngestRequest q now) in *. change (TrimSpace (rq_EventID q)) with (rq_EventID norm).
  destruct (k_eventsByID k !! rq_EventID norm) as [x|] eqn:Ex.
  - pose proof (IngestEvent_keeps q now now2 k _ _ Ex) as Hx.
    rewrite (IngestEvent_known q now now2 k _ x Had Ex) in *. eexists _, x. by split_and!.
  - pose proof (ingest_stored q now now2 k _ HK Had Ex) as Hst. cbv zeta in Hst. fold norm in Hst.
    pose proof (acceptable_action q now (plain_registration q) k Hp Ha) as Hnd. cbv zeta in Hnd. fold norm in Hnd.
    pose proof (IngestEvent_new q now now2 k _ Had Ex) as E. fold norm in E. rewrite E in *.
    pose proof (ingest_new_events norm (plain_registration q) now now2 _ (bump_KInv "ingest_attempt_total" k HK)) as Hn.
    cbv zeta in Hn. change (action_of (bump "ingest_attempt_total" k)) with (action_of k) in Hn.
    destruct (ingest_new _ _ _ _ _) as [k' resp]. destruct Hn as (_ & _ & _ & _ & Hd & _). cbn [fst snd] in *.
    destruct (action_of _ _ _) eqn:Eact; [done|..]; (eexists resp, _; split_and!; [done|done|exact Hst|]);
      intros _; by eexists _, _.
Qed.

(** Only the event of the request can become stored. *)
Lemma IngestEvent_other q now now2 k id : KInv k -> id <> TrimSpace (rq_EventID q) ->
  k_eventsByID (IngestEvent q now now2 k).1 !! id = k_eventsByID k !! id.
Proof.
  intros HK Hne. destruct (k_eventsByID k !! id) as [x|] eqn:Ex; [by apply IngestEvent_keeps|].
  pose proof (IngestEvent_KInv q now now2 k HK) as HK'.
  destruct (k_eventsByID (IngestEvent q now now2 k).1 !! id) as [y|] eqn:Ey; [exfalso|done].
  apply (ei_index _ (ki_evidence _ HK')) in Ey as [Ei Hy]. set (norm := normalizeIngestRequest q now).
  assert (Hold : forall z, z ∈ events_of k (cv_RunID z) -> cv_EventID z <> id).
  { intros z Hz E. assert (k_eventsByID k !! id = Some z) as Hc by (by apply (ei_index _ (ki_evidence _ HK))).
    congruence. }
  revert Hy. unfold IngestEvent; cbv zeta. fold norm. destruct (validateIngestRequest norm); [by intros ?%Hold|].
  destruct (k_registeredSources _ !! _) as [reg|]; [|by intros ?%Hold].
  destruct (_ <? _); [by intros ?%Hold|]. change (k_eventsByID (bump "ingest_attempt_total" k)) with (k_eventsByID k). destruct (k_eventsByID k !! rq_EventID norm) eqn:En; [by intros ?%Hold|].
  pose proof (ingest_new_events norm reg now now2 _ (bump_KInv "ingest_attempt_total" k HK)) as Hn. cbv zeta in Hn.
  change (events_of (bump "ingest_attempt_total" k)) with (events_of k) in Hn.
  destruct (ingest_new _ _ _ _ _) as [k' resp]. destruct Hn as (_ & _ & _ & _ & _ & _ & Hn). cbn [fst].
  rewrite Hn. pose proof (request_event_fields norm reg) as (Ee & _). set (e := request_event norm reg) in *.
  assert (Hk : forall a st, cv_EventID (seal st (kept_event a e)) = TrimSpace (rq_EventID q)).
  { intros a st. rewrite seal_id. destruct a; cbn [kept_event]; [exact Ee| |exact Ee].
    pose proof (degrade_fields e) as [-> _]. exact Ee. }
  destruct (action_of _ _ _) eqn:Ea; [by intros ?%Hold|..];
    (destruct (decide _); [|by intros ?%Hold]; rewrite elem_of_app, list_elem_of_singleton;
     intros [?%Hold|Hy]; [done|]; rewrite Hy in Ei; rewrite (Hk Degrade) in Ei || rewrite (Hk Accept) in Ei;
     congruence).
Qed.

Lemma ingest_offer_ok ticks k io : KInv k -> plain k ->
  KInv (ingest_offer ticks k io) /\ plain (ingest_offer ticks k io).
Proof. intros HK Hp. split; [by apply IngestEvent_KInv|by apply IngestEvent_plain]. Qed.

(** The stored event is the one that was offered. *)
Record carries (q : IngestEventRequest) (x : CanonicalEvent) : Prop := mk_carries {
  cr_id : cv_EventID x = TrimSpace (rq_EventID q);
  cr_type : cv_EventType x = TrimSpace (rq_EventType q);
  cr_run : cv_RunID x = TrimSpace (rq_RunID q);
  cr_decision : cv_DecisionID x = TrimSpace (rq_DecisionID q);
  cr_payload : cv_Degraded x = false -> cv_Payload x = rq_Payload q
}.

Lemma sealed_carries q now reg a st :
  carries q (seal st (kept_event a (request_event (normalizeIngestRequest q now) reg))).
Proof.
  unfold request_event, canonicalize; cbv zeta. destruct (event_payload_hash _) as [h b].
  destruct a; cbn [kept_event]; unfold degrade_event; try destruct (safeHash _) as [h' b']; by split.
Qed.

(** ** The requests of the two outboxes *)

(** What every event of the Run kernel's outbox has. *)
Definition run_shape (e : RunTypes.KernelEvent) : Prop :=
  ev_SourceComponent e = "run_kernel" /\ exists n, ev_EventID e = String.append "evt_run_seq_" (fmt_d n).

Lemma id_nonblank c p n : graphic c = true -> TrimSpace (String.append (String c p) (fmt_d n)) <> "".
Proof. intros Hc. by apply TrimSpace_graphic_head. Qed.

Lemma tier_of_grade g : tierFromGrade g = Tier0 \/ tierFromGrade g = Tier1.
Proof. unfold tierFromGrade. case_match; auto. Qed.

Lemma synthetic_nonblank p f : TrimSpace (syntheticRunID "decision_kernel" p f) <> "".
Proof.
  unfold syntheticRunID; cbv zeta.
  match goal with |- context [Join [_; _; ?y] ""] => generalize y end. intros x.
  exact (TrimSpace_graphic_head "d"%char (String.append "ecision_kernel" (String.append "" (Join ["::"; x] ""))) eq_refl).
Qed.

Lemma decision_acceptable e : event_shape e -> TrimSpace (e_EventType e) <> "" -> acceptable (decision_request e).
Proof.
  intros [Hs [n Hn]] Ht. split; unfold decision_request; cbv zeta;
    cbn [rq_EventID rq_EventType rq_RunID rq_SourceComponent rq_EvidenceTier rq_SystemLoad].
  - rewrite Hn. by apply id_nonblank.
  - done.
  - destruct (TrimSpace (e_RunID e) =? "")%string eqn:E; [apply synthetic_nonblank|].
    rewrite TrimSpace_idem. by apply String.eqb_neq.
  - by right.
  - apply tier_of_grade.
  - done.
Qed.

Lemma run_acceptable e : run_shape e -> TrimSpace (ev_EventType e) <> "" -> TrimSpace (ev_RunID e) <> "" ->
  acceptable (run_request e).
Proof.
  intros [Hs [n Hn]] Ht Hr. split; unfold run_request; cbv zeta;
    cbn [rq_EventID rq_EventType rq_RunID rq_SourceComponent rq_EvidenceTier rq_SystemLoad]; try done.
  - rewrite Hn. by apply id_nonblank.
  - by left.
  - apply tier_of_grade.
Qed.

(** An event without a type or a run is refused, and changes nothing. *)
Definition complete (q : IngestEventRequest) : Prop :=
  TrimSpace (rq_EventType q) <> "" /\ TrimSpace (rq_RunID q) <> "".

Lemma incomplete_refused q now now2 k : ~ complete q ->
  exists e, IngestEvent q now now2 k = (k, Err e).
Proof.
  intros Hc. unfold IngestEvent, validateIngestRequest; cbv zeta. unfold normalizeIngestRequest.
  cbn [rq_EventID rq_EventType rq_RunID rq_SourceComponent].
  destruct (TrimSpace (rq_EventID q) =? "")%string; [eauto|].
  destruct (TrimSpace (rq_EventType q) =? "")%string eqn:E1; [eauto|].
  destruct (normalizeSource _ =? "")%string; [eauto|].
  destruct (TrimSpace (rq_RunID q) =? "")%string eqn:E2; [eauto|].
  apply String.eqb_neq in E1, E2. by destruct Hc.
Qed.

(** The offers of a router whose outboxes hold events of its kernels. *)
Definition sound_offer (o : offer) : Prop :=
  of_id o = rq_EventID (of_req o) /\ (complete (of_req o) -> acceptable (of_req o)).

Section Copy.
Context `{FeatureSignalContractStore}.

Lemma offers_sound r : Forall event_shape (s_outbox (c_svc (decisionSvc r))) ->
  Forall run_shape (RunTypes.k_outbox (runSvc r)) -> Forall sound_offer (offers r).
Proof.
  intros Hd Hr. apply Forall_app; split; apply Forall_fmap.
  - apply (Forall_impl _ _ _ Hd). intros e He. split; [done|]. intros [Ht _]. by apply decision_acceptable.
  - apply (Forall_impl _ _ _ Hr). intros e He. split; [done|]. intros [Ht Hn]. by apply run_acceptable.
Qed.

(** Without any bound on the window: the evidence keeps its invariant, and no
    event of an outbox is dropped. *)
Lemma sync_loop_safe ticks l i r c : SeenInv r -> KInv (evidenceSvc r) -> plain (evidenceSvc r) ->
  Forall sound_offer l -> Forall counted l ->
  let out := sync_loop make_offer ticks i l (r, c) in
  SeenInv out.1 /\ same_kernels r out.1 /\ KInv (evidenceSvc out.1) /\ plain (evidenceSvc out.1) /\
  sc_dropped out.2 = sc_dropped c /\
  (Forall (fun o => complete (of_req o)) l -> sc_errors out.2 = sc_errors c) /\
  (forall id x, k_eventsByID (evidenceSvc r) !! id = Some x -> k_eventsByID (evidenceSvc out.1) !! id = Some x).
Proof.
  cbv zeta. revert i r c. induction l as [|o l IH]; intros i r c HI HK Hp Hs Hc; cbn [sync_loop].
  { by split_and!. }
  apply Forall_cons in Hs as [Ho Hs]. apply Forall_cons in Hc as [Hco Hc].
  pose proof (markEventSeen_spec (of_id o) r HI) as Hm. cbv zeta in Hm.
  assert (Eo : make_offer (ticks i) o (r, c) =
    let '(r1, fresh) := markEventSeen (of_id o) r in
    if negb fresh then (r1, c)
    else let '(k, resp) := IngestEvent (of_req o) (ticks i).1 (ticks i).2 (evidenceSvc r1) in
         (rt_set_evidence k r1, sc_answer resp (of_see o c))) by reflexivity.
  rewrite Eo; clear Eo. destruct (markEventSeen (of_id o) r) as [r1 fresh]. case_decide as Hf; cbn [fst snd] in Hm.
  - destruct Hm as (-> & HI1 & Hk1 & He1 & _). cbn [negb]. rewrite He1.
    pose proof (IngestEvent_KInv (of_req o) (ticks i).1 (ticks i).2 _ HK) as HK2.
    pose proof (IngestEvent_plain (of_req o) (ticks i).1 (ticks i).2 _ Hp) as Hp2.
    pose proof (fun id x => IngestEvent_keeps (of_req o) (ticks i).1 (ticks i).2 (evidenceSvc r) id x) as Hkeep.
    assert (Hd : sc_dropped (sc_answer (IngestEvent (of_req o) (ticks i).1 (ticks i).2 (evidenceSvc r)).2 (of_see o c))
        = sc_dropped c /\
      (complete (of_req o) -> sc_errors (sc_answer (IngestEvent (of_req o) (ticks i).1 (ticks i).2 (evidenceSvc r)).2
        (of_see o c)) = sc_errors c)).
    { destruct (decide (complete (of_req o))) as [Hcomp|Hn].
      - destruct (acceptable_stored (of_req o) (ticks i).1 (ticks i).2 _ HK Hp (proj2 Ho Hcomp))
          as (resp & x & -> & Hdr & _). cbn [sc_answer]. rewrite Hdr. by destruct Hco as [-> | ->].
      - destruct (incomplete_refused (of_req o) (ticks i).1 (ticks i).2 (evidenceSvc r) Hn) as [e ->].
        cbn [snd sc_answer]. split; [by destruct Hco as [-> | ->]|done]. }
    destruct (IngestEvent _ _ _ _) as [k resp]. cbn [fst snd] in *. set (r2 := rt_set_evidence k r1).
    assert (HI2 : SeenInv r2) by (destruct HI1 as [A B C]; by split).
    destruct (IH (S i) r2 (sc_answer resp (of_see o c)) HI2 HK2 Hp2 Hs Hc) as (J1 & J2 & J3 & J4 & J5 & J6 & J7).
    split_and!; try done.
    + etransitivity; [exact Hk1|]. etransitivity; [|exact J2]. by split.
    + rewrite J5. apply Hd.
    + intros [Hc1 Hc2]%Forall_cons. rewrite J6 by done. by apply Hd.
    + intros id x Hx. apply J7. by apply Hkeep.
  - simplify_eq. cbn [negb].
    destruct (IH (S i) r c HI HK Hp Hs Hc) as (J1 & J2 & J3 & J4 & J5 & J6 & J7). split_and!; try done.
    intros [_ Hc2]%Forall_cons. by apply J6.
Qed.

Lemma sync_safe ticks r : SeenInv r -> KInv (evidenceSvc r) -> plain (evidenceSvc r) ->
  Forall event_shape (s_outbox (c_svc (decisionSvc r))) -> Forall run_shape (RunTypes.k_outbox (runSvc r)) ->
  let out := syncEvidenceFromKernelOutboxes ticks r in
  SeenInv out.1 /\ same_kernels r out.1 /\ KInv (evidenceSvc out.1) /\ plain (evidenceSvc out.1) /\
  sc_dropped out.2 = 0 /\
  (Forall (fun o => complete (of_req o)) (offers r) -> sc_errors out.2 = 0) /\
  (forall id x, k_eventsByID (evidenceSvc r) !! id = Some x -> k_eventsByID (evidenceSvc out.1) !! id = Some x).
Proof.
  intros HI HK Hp Hd Hr. cbv zeta. rewrite sync_offers.
  apply (sync_loop_safe ticks (offers r) 0 r (mk_SyncResult 0 0 0 0 0)); try done;
    [by apply offers_sound|apply offers_counted].
Qed.

(** ** The theorems *)

(** A copy without anything new does nothing. *)
Lemma sync_loop_idle ticks l i r c : SeenInv r -> fresh_offers (seenQueue r) i l = [] ->
  sync_loop make_offer ticks i l (r, c) = (r, c).
Proof.
  intros HI. revert i. induction l as [|o l IH]; intros i Hn; cbn [sync_loop fresh_offers] in *; [done|].
  pose proof (markEventSeen_spec (of_id o) r HI) as Hm. cbv zeta in Hm. case_decide; [done|].
  assert (Eo : make_offer (ticks i) o (r, c) = (r, c)).
  { unfold make_offer, offer_event. by rewrite Hm. }
  rewrite Eo. by apply IH.
Qed.

(** C22: the copy of the outboxes.  As long as the part of the window that the
    outboxes' events may be in, together with the events not offered before,
    fits into the window's bound (older entries, which no event left in the
    outboxes has, may go), the copy offers each event that was not offered
    before to the Evidence kernel exactly once, in the order of the two
    outboxes, and enters it in the window, from which only such older entries
    leave; it counts each of them once, touches neither the Decision service nor
    the Run kernel, and a second copy, with nothing emitted in between, does
    nothing. *)
Theorem sync_once (r : Router) (ticks ticks' : nat -> time * time) (old live : list string) : SeenInv r ->
  seenQueue r = old ++ live -> (forall o, o ∈ offers r -> TrimSpace (of_id o) ∉ old) ->
  Z.of_nat (length live) + Z.of_nat (length (fresh_offers (seenQueue r) 0 (offers r))) <= seenCap r ->
  let new := fresh_offers (seenQueue r) 0 (offers r) in
  let out := syncEvidenceFromKernelOutboxes ticks r in
  SeenInv out.1 /\ same_kernels r out.1 /\
  (exists old', old' `suffix_of` old /\
     seenQueue out.1 = old' ++ live ++ map (fun io => TrimSpace (of_id io.2)) new) /\
  evidenceSvc out.1 = foldl (ingest_offer ticks) (evidenceSvc r) new /\
  seen_events out.2 = Z.of_nat (length new) /\ answers out.2 = Z.of_nat (length new) /\
  syncEvidenceFromKernelOutboxes ticks' out.1 = (out.1, mk_SyncResult 0 0 0 0 0).
Proof.
  intros HI Hq Hold Hroom. cbv zeta. rewrite Hq, fresh_offers_old in * by done. rewrite !sync_offers.
  destruct (sync_loop_spec ticks (offers r) old live 0 r (mk_SyncResult 0 0 0 0 0) HI (offers_counted r) Hq Hold Hroom)
    as (J1 & J2 & J3 & J4 & J5 & J6). split_and!; try done.
  assert (Eo : offers (sync_loop make_offer ticks 0 (offers r) (r, mk_SyncResult 0 0 0 0 0)).1 = offers r).
  { unfold offers at 1. by rewrite (sk_decision _ _ J2), (sk_run _ _ J2). }
  rewrite Eo. apply sync_loop_idle; [done|]. apply fresh_none. intros o Ho. destruct J3 as (old' & _ & ->).
  destruct (fresh_covers live 0 (offers r) o Ho) as [?|Hin]; [by left|right]. apply elem_of_app. by right.
Qed.

(** An event that is not in the window, after others with other identifiers. *)
Lemma sync_loop_skips ticks l id i r c : SeenInv r -> KInv (evidenceSvc r) -> plain (evidenceSvc r) ->
  Forall sound_offer l -> Forall counted l -> id ∉ seenQueue r ->
  (forall o, o ∈ l -> TrimSpace (of_id o) <> id) ->
  let out := sync_loop make_offer ticks i l (r, c) in
  id ∉ seenQueue out.1 /\ k_eventsByID (evidenceSvc out.1) !! id = k_eventsByID (evidenceSvc r) !! id.
Proof.
  cbv zeta. revert i r c. induction l as [|o l IH]; intros i r c HI HK Hp Hs Hc Hid Hl; cbn [sync_loop]; [done|].
  apply Forall_cons in Hs as [[Hoid _] Hs]. apply Forall_cons in Hc as [_ Hc].
  pose proof (Hl o (list_elem_of_here _ _)) as Hne.
  assert (Hl' : forall x, x ∈ l -> TrimSpace (of_id x) <> id) by (intros x Hx; apply Hl; by right).
  pose proof (markEventSeen_spec (of_id o) r HI) as Hm. cbv zeta in Hm. unfold make_offer at 2 4, offer_event.
  destruct (markEventSeen (of_id o) r) as [r1 fresh]. case_decide as Hf; cbn [fst snd] in Hm.
  - destruct Hm as (-> & HI1 & Hk1 & He1 & gone & Hq1 & _). cbn [negb]. rewrite He1.
    pose proof (IngestEvent_KInv (of_req o) (ticks i).1 (ticks i).2 _ HK) as HK2.
    pose proof (IngestEvent_plain (of_req o) (ticks i).1 (ticks i).2 _ Hp) as Hp2.
    pose proof (IngestEvent_other (of_req o) (ticks i).1 (ticks i).2 (evidenceSvc r) id HK) as Hx.
    destruct (IngestEvent _ _ _ _) as [k resp]. cbn [fst] in *.
    destruct (IH (S i) (rt_set_evidence k r1) (sc_answer resp (of_see o c))) as [J1 J2]; try done.
    + destruct HI1 as [A B C]. by split.
    + change (seenQueue (rt_set_evidence k r1)) with (seenQueue r1). intros Hin.
      assert (id ∈ seenQueue r ++ [TrimSpace (of_id o)]) as [?|E]%elem_of_app
        by (rewrite Hq1; apply elem_of_app; by right); [done|]. apply list_elem_of_singleton in E. congruence.
    + split; [done|]. rewrite J2. cbn [evidenceSvc rt_set_evidence]. apply Hx. congruence.
  - simplify_eq. cbn [negb]. by apply IH.
Qed.

Lemma sync_loop_delivers ticks l1 o l2 i r c : SeenInv r -> KInv (evidenceSvc r) -> plain (evidenceSvc r) ->
  Forall sound_offer (l1 ++ o :: l2) -> Forall counted (l1 ++ o :: l2) -> complete (of_req o) ->
  TrimSpace (of_id o) ∉ seenQueue r -> (forall o', o' ∈ l1 -> TrimSpace (of_id o') <> TrimSpace (of_id o)) ->
  let out := sync_loop make_offer ticks i (l1 ++ o :: l2) (r, c) in
  exists x, k_eventsByID (evidenceSvc out.1) !! TrimSpace (of_id o) = Some x /\
    (k_eventsByID (evidenceSvc r) !! TrimSpace (of_id o) = None -> carries (of_req o) x).
Proof.
  cbv zeta. intros HI HK Hp [Hs1 [[Hid Hacc] Hs2]%Forall_cons]%Forall_app [Hc1 [Hc Hc2]%Forall_cons]%Forall_app
    Hcomp Hn Hf. specialize (Hacc Hcomp). rewrite sync_loop_app. cbn [sync_loop].
  destruct (sync_loop_skips ticks l1 _ i r c HI HK Hp Hs1 Hc1 Hn Hf) as [Hn1 Hx1].
  destruct (sync_loop_safe ticks l1 i r c HI HK Hp Hs1 Hc1) as (HI1 & _ & HK1 & Hp1 & _).
  destruct (sync_loop make_offer ticks i l1 (r, c)) as [r1 c1]. cbn [fst] in *. rewrite <- Hx1.
  set (j := (i + length l1)%nat). unfold make_offer at 2, offer_event.
  pose proof (markEventSeen_spec (of_id o) r1 HI1) as Hm. cbv zeta in Hm.
  rewrite decide_True in Hm by (split; [rewrite Hid; apply Hacc|done]).
  destruct (markEventSeen (of_id o) r1) as [r2 fresh]. cbn [fst snd] in Hm. destruct Hm as (-> & HI2 & _ & He2 & _).
  cbn [negb]. rewrite He2.
  destruct (acceptable_stored (of_req o) (ticks j).1 (ticks j).2 _ HK1 Hp1 Hacc) as (resp & x & _ & _ & Hx & Hcx).
  pose proof (IngestEvent_KInv (of_req o) (ticks j).1 (ticks j).2 _ HK1) as HK3.
  pose proof (IngestEvent_plain (of_req o) (ticks j).1 (ticks j).2 _ Hp1) as Hp3.
  destruct (IngestEvent _ _ _ _) as [k rs]. cbn [fst] in *. rewrite <- Hid in *. exists x.
  destruct (sync_loop_safe ticks l2 (S j) (rt_set_evidence k r2) (sc_answer rs (of_see o c1))) as (_ & _ & _ & _ & _ & _ & Hk);
    try done; [by destruct HI2; split|]. split; [by apply Hk|]. intros Hnone.
  destruct (Hcx Hnone) as (act & st & ->). apply sealed_carries.
Qed.

(** C21: nothing is lost between the kernels and the evidence.  With the default
    sources and no backpressure set by hand, a copy drops no event; and after it
    every event of the two outboxes that has a type and a run, that the window
    did not hold and that is the first with its identifier in the order of the
    copy, is such that an event is stored under its identifier, and if the
    identifier was free before the copy, it is this very event, with its type,
    run, decision and (unless the run is over its budget) payload.  No bound on
    the window is assumed. *)
Theorem sync_delivers (r : Router) (ticks : nat -> time * time) :
  SeenInv r -> KInv (evidenceSvc r) -> plain (evidenceSvc r) ->
  Forall event_shape (s_outbox (c_svc (decisionSvc r))) -> Forall run_shape (RunTypes.k_outbox (runSvc r)) ->
  let out := syncEvidenceFromKernelOutboxes ticks r in
  sc_dropped out.2 = 0 /\
  (Forall (fun o => complete (of_req o)) (offers r) -> sc_errors out.2 = 0) /\
  forall l1 o l2, offers r = l1 ++ o :: l2 -> complete (of_req o) -> TrimSpace (of_id o) ∉ seenQueue r ->
    (forall o', o' ∈ l1 -> TrimSpace (of_id o') <> TrimSpace (of_id o)) ->
    exists x, k_eventsByID (evidenceSvc out.1) !! TrimSpace (of_id o) = Some x /\
      (k_eventsByID (evidenceSvc r) !! TrimSpace (of_id o) = None -> carries (of_req o) x).
Proof.
  intros HI HK Hp Hd Hr. cbv zeta. pose proof (sync_safe ticks r HI HK Hp Hd Hr) as Hs. cbv zeta in Hs.
  destruct Hs as (_ & _ & _ & _ & Hs1 & Hs2 & _). split; [done|]. split; [done|]. intros l1 o l2 E Hc Hn Hf.
  pose proof (offers_sound r Hd Hr) as Hsound. pose proof (offers_counted r) as Hcount.
  rewrite sync_offers. rewrite E in *. by apply sync_loop_delivers.
Qed.
End Copy.
