(* ===== verification/ApiSystem.v ===== *)
(** * The kernels together

    What the ports promise across the kernels: an accepted advance is backed by
    a confirmed decision and a ticket, an approval that was dispatched resumed
    its run; and the state of the whole system along any requests. *)

From stdpp Require Import relations.
From S2P Require Import Prelude GoStrings Sha256 GoTime GoJson RunTypes RunStates RunOutbox RunKernel RunSweeps.
From S2P Require Import RunInvariant RunOps RunAdvance RunStable RunCalls RunTrace RunCallTheorems.
From S2P Require Import EvTypes EvEvents EvKernel EvRetain EvGraph EvReports EvFrame EvChain EvRebuild EvTrace EvIngestTheorems.
From S2P Require Import DecTypes DecJson DecPolicy DecContracts DecKernel DecRuntime DecAdmission DecPending.
From S2P Require Import DecApproval DecFrame DecInvariant DecTrace DecApprovalTheorems DecSteady.
From S2P Require Import CtlTypes CtlContracts CtlFeatures CtlHealth CtlInvariant CtlStore CtlRegistryTheorems.
From S2P Require Import ApiSync ApiHandlers ApiTheorems.
#[local] Open Scope Z_scope.

(** ** What an accepted advance is backed by *)

Section Backed.
Context `{MapRange} {RJ : RunOutbox.JsonMarshaler} `{UrlParser}.

(** The confirmed decision behind an advance of a run's step. *)
Record decided (s : Service) (runID : string) (req : AdvanceRunRequest) : Prop := mk_decided {
  dd_decision : exists d p,
    s_decisions s !! RunTypes.df_DecisionID (ar_DecisionRef req) = Some d /\
    s_pending s !! RunTypes.df_DecisionID (ar_DecisionRef req) = Some p /\
    p_Status p = pendingStatusConfirmed /\ p_RunID p = runID /\ p_StepID p = ar_StepID req /\
    p_OwnerKey p = buildPendingOwnerKey runID (ar_StepID req) (d_AttemptIndex d) (upper_trim (d_Phase d)) /\
    d_DecisionHash d = RunTypes.df_DecisionHash (ar_DecisionRef req) /\ d_DecisionHashIsFallback d = false /\
    (blank (d_RunID d) = true \/ d_RunID d = runID) /\
    (blank (d_StepID d) = true \/ d_StepID d = ar_StepID req)
}.

(** The ticket its receipt names. *)
Record ticketed (s : Service) (runID tenantID : string) (req : AdvanceRunRequest) (now : time) : Prop :=
  mk_ticketed {
  tt_ticket : exists t,
    s_tickets s !! extractTicketIDFromExecutionReceiptRef (ar_ExecutionReceiptRef req) = Some t /\
    t_RunID t = runID /\ t_StepID t = ar_StepID req /\ t_TenantID t = tenantID /\
    now_if_zero (ar_ExecutionReceiptAt req) now <= t_ExpiresAt t /\
    default ∅ (used_resources (ar_ExecutionUsedResources req)) <> ∅ /\
    forall resource amount,
      default ∅ (used_resources (ar_ExecutionUsedResources req)) !! resource = Some amount ->
      fltb (res_get (t_AllowedResources t) resource) amount = false
}.

Lemma confirmed_owner s id runID stepID attempt phase : SInv s ->
  IsDecisionConfirmedWithOwner s id runID stepID attempt phase = true ->
  exists p, s_pending s !! id = Some p /\ p_Status p = pendingStatusConfirmed /\ p_RunID p = runID /\
    p_StepID p = stepID /\ p_OwnerKey p = buildPendingOwnerKey runID stepID attempt (upper_trim phase).
Proof.
  intros HI. unfold IsDecisionConfirmedWithOwner. destruct (s_pending s !! id) as [p|] eqn:Ep; [|done]. cbv zeta.
  pose proof (pk_owner _ _ (si_pending _ HI _ _ Ep)) as Ho. apply String.eqb_neq in Ho. rewrite Ho. cbn [negb].
  destruct (negb (p_RunID p =? runID)%string || _) eqn:E1; [done|].
  destruct (negb (p_Status p =? _)%string) eqn:E2; [done|]. destruct (_ && _ && _); [done|].
  destruct (_ && _ && _); [done|]. destruct ((attempt <=? 0) && _); [done|].
  intros E3%String.eqb_eq. bool_hyps. rewrite ?negb_false_iff, ?String.eqb_eq in *. exists p. split_and!; try done.
  all: try congruence.
Qed.

Lemma receipt_ticket s runID stepID tenantID ref used at_ now :
  (ValidateExecutionReceiptForRun s runID stepID tenantID ref used at_ now).1 = true ->
  exists t, s_tickets s !! extractTicketIDFromExecutionReceiptRef ref = Some t /\
    t_RunID t = runID /\ t_StepID t = stepID /\ t_TenantID t = tenantID /\
    now_if_zero at_ now <= t_ExpiresAt t /\ default ∅ used <> ∅ /\
    forall resource amount, default ∅ used !! resource = Some amount ->
      fltb (res_get (t_AllowedResources t) resource) amount = false.
Proof.
  unfold ValidateExecutionReceiptForRun; cbv zeta. destruct (_ =? "")%string; [done|].
  destruct (size _ =? 0)%nat eqn:Es; [done|]. apply Nat.eqb_neq in Es. unfold ValidateExecutionReceipt.
  cbn [xr_TicketID xr_ReceivedAt xr_RunID xr_StepID xr_TenantID xr_UsedResources].
  destruct (s_tickets s !! _) as [t|]; [|done]. destruct (After _ _) eqn:E1; [done|].
  destruct (blank runID || _ || _); [done|]. destruct (_ || _ || _) eqn:E2; [done|].
  destruct (resource_exceeds _ _) eqn:E3; [done|]. intros _. exists t. bool_hyps.
  rewrite ?negb_false_iff, ?String.eqb_eq in *. unfold After in E1. bool_hyps.
  split_and!; try done; try congruence.
  - intros E. rewrite E, map_size_empty in Es. lia.
  - intros k v Hk. unfold resource_exceeds in E3. destruct (fltb _ _) eqn:E4; [|done]. exfalso.
    apply not_true_iff_false in E3. apply E3. apply existsb_exists. exists (k, v). split; [|done].
    apply list_elem_of_In, range_map_elem. unfold cloneResourceMap in *. by destruct used.
Qed.

Lemma run_reference_inv s id ref : run_reference <$> GetDecisionReference s id = Some ref ->
  exists d, s_decisions s !! id = Some d /\ dr_AttemptIndex ref = d_AttemptIndex d /\ dr_Phase ref = d_Phase d /\
    dr_RunID ref = d_RunID d /\ dr_StepID ref = d_StepID d /\
    (dr_HashValid ref = true -> d_DecisionHashIsFallback d = false) /\ dr_DecisionHash ref = d_DecisionHash d.
Proof.
  unfold GetDecisionReference. destruct (s_decisions s !! id) as [d|]; [|done]. cbv zeta. cbn [fmap option_fmap option_map].
  intros [= <-]. exists d. unfold run_reference.
  cbn [dr_AttemptIndex dr_Phase dr_RunID dr_StepID dr_HashValid dr_DecisionHash DecTypes.df_AttemptIndex
       DecTypes.df_Phase DecTypes.df_RunID DecTypes.df_StepID DecTypes.df_DecisionHashRef].
  split_and!; try done; unfold resolved_ref, effective_ref; cbv zeta.
  - destruct (d_DecisionHashIsFallback d); [|done]. by case_match.
  - destruct (d_DecisionHashIsFallback d); cbn; repeat case_match; done.
Qed.

(** C7: an accepted advance is backed by the Decision service.  Through the
    port the router installs, a fresh advance of a run is accepted only if the
    service holds a confirmed decision owned by this run, step, attempt and
    phase, whose record has exactly the announced hash and is not a fallback,
    and a ticket for this run, step and tenant that had not expired and allows
    every resource the receipt reports. *)
Theorem advance_backed (s : Service) (id : string) (req : AdvanceRunRequest) (wall now : time)
    (k k' : RunTypes.Kernel) (resp : AdvanceRunResponse) (r : runInstance) (q : run_state) :
  SInv s -> RunTypes.k_runs k !! id = Some r -> rv_State (ri_view r) = state_name q ->
  k_idempotency k !! idem_key id req = None ->
  AdvanceRun (Some (decisionRunPort (Some s) wall)) id req now k = (k', Ok resp) ->
  decided s id req /\ ticketed s id (rv_TenantID (ri_view r)) req wall.
Proof.
  intros HI Hr Hq Hf Ea. destruct (AdvanceRun_Ok _ _ _ _ _ _ _ _ _ Hr Hq Hf Ea) as (ref & q' & h & _ & Hok & _).
  destruct (av_decision _ _ _ _ _ _ _ _ Hok) as (p & [= <-] & Hd & Ht). split.
  - destruct Hd as [D1 D2 D3 D4 D5 D6 _ D8 _]. cbn in D1, D2.
    apply run_reference_inv in D1 as (d & Hd & A1 & A2 & A3 & A4 & A5 & A6). rewrite A1, A2 in D2.
    apply confirmed_owner in D2 as (pd & P1 & P2 & P3 & P4 & P5); [|done]. split. exists d, pd.
    rewrite A3 in D5. rewrite A4 in D6. rewrite A6 in D8. split_and!; auto.
  - split. by apply receipt_ticket in Ht.
Qed.
End Backed.

(** ** What a dispatched approval did to the run *)

Section Unlocked.
Context `{MapRange} {RJ : RunOutbox.JsonMarshaler} {UP : UrlParser} {DJ : JsonMarshaler}.

(** A refused resume leaves every run as it is. *)
Lemma ResumeRun_Err_runs id req now k k' e : ResumeRun id req now k = (k', Err e) ->
  RunTypes.k_runs k' = RunTypes.k_runs k.
Proof.
  unfold ResumeRun. destruct (getRunLocked k id) as [r|err]; cbv zeta; [|by intros [= <- _]].
  destruct (blank _); [by intros [= <- _]|]. destruct (k_continuations k !! _) as [c|]; [|by intros [= <- _]].
  destruct (negb (ct_RunID c =? id)%string); [by intros [= <- _]|].
  destruct (ct_Status c =? "consumed")%string; [by intros [= <- _]|].
  destruct (After _ _); [by intros [= <- _]|]. destruct (negb (blank _) && _); [by intros [= <- _]|].
  destruct (rr_IncomingStepSeqID req <=? _).
  { intros [<- _]%pair_inv_eq. unfold emitProgressMonotonicityViolation. by rewrite !emit_runs. }
  destruct (negb (ct_StepSeqID c =? _)); [by intros [= <- _]|].
  destruct (negb (_ =? StateParked)%string && _); [by intros [= <- _]|].
  destruct (negb (tokenTypeMatchesRunState _ _)); [by intros [= <- _]|].
  unfold resume_commit, appendSyntheticStepLocked; cbv zeta.
  destruct (hash_checked _); [intros E; discriminate|]. intros [<- _]%pair_inv_eq. by rewrite emit_runs.
Qed.

(** The run after an accepted resume. *)
Lemma resume_commit_running id req c r now k k' resp :
  resume_commit id req c r now k = (k', Ok resp) ->
  exists r', RunTypes.k_runs k' !! id = Some r' /\ rv_State (ri_view r') = StateRunning /\
    rv_CurrentStepSeqID (ri_view r') = rr_IncomingStepSeqID req.
Proof.
  unfold resume_commit. destruct (appendSyntheticStepLocked _ _ _ _ _ _ _ _) as [k1 [h|err]]; [|done].
  intros [<- _]%pair_inv_eq. rewrite emit_runs. unfold store_continuation, store_run.
  cbn [RunTypes.k_runs k_set_continuations RunTypes.k_set_runs]. rewrite lookup_insert_eq. eexists. split; [done|].
  cbn [ri_view ri_set_view ri_set_noProgressScans]. pose proof (resumed_step req c h now (ri_view r)) as S.
  split; [exact (sv_state _ _ _ _ _ S)|exact (sv_seq _ _ _ _ _ S)].
Qed.

(** The continuation found is stored, and active for what was asked. *)
Lemma find_best k runID stepID tokenType now c : TrimSpace runID <> "" ->
  FindActiveContinuation k runID stepID tokenType now = Some c ->
  (exists t, k_continuations k !! t = Some c) /\
  active_for (TrimSpace runID) (TrimSpace stepID) (ToLower (TrimSpace tokenType)) now c = true.
Proof.
  intros Hne. unfold FindActiveContinuation; cbv zeta. rewrite (proj2 (String.eqb_neq _ _)) by done.
  pose proof (range_best (active_for (TrimSpace runID) (TrimSpace stepID) (ToLower (TrimSpace tokenType)) now)
    (k_continuations k)) as Hb. destruct (go_range _ _ _) as [c'|]; [|done]. intros [= ->].
  destruct Hb as (Hin & Hok & _). split; [by apply range_values|done].
Qed.

(** The two answers of the port for an approved case. *)
Record resumed (k k' : RunTypes.Kernel) (g : ApprovalRunUnlockSignal) (find resume : time) : Prop := mk_resumed {
  rd_token : exists cont r r' now,
    FindActiveContinuation k (ug_RunID g) (ug_StepID g) TokenTypeApproval find = Some cont /\
    RunTypes.k_runs k !! ug_RunID g = Some r /\
    resume_ok (ug_RunID g) (approval_resume g cont (ri_view r)) resume k (ri_view r) cont /\
    rv_State (ri_view r) = StateAwaitingApproval /\
    RunTypes.k_runs k' !! ug_RunID g = Some r' /\ rv_State (ri_view r') = StateRunning /\
    rv_CurrentStepSeqID (ri_view r') = wrap_int64 (rv_CurrentStepSeqID (ri_view r) + 1) /\
    k_continuations k' !! ct_ContinuationID cont =
      Some (cont |> ct_set_Status "consumed" |> ct_set_ConsumedAt (Some now))
}.

Lemma unlock_outcome (find resume wall : time) (g : ApprovalRunUnlockSignal) (k : RunTypes.Kernel) :
  lower_trim (ug_Outcome g) = "approved" -> RunInvariant.Inv k ->
  exists k', (decisionApprovalRunUnlockPort find resume wall g (Some k)).1 = Some k' /\
  match (decisionApprovalRunUnlockPort find resume wall g (Some k)).2 with
  | Ok res => ur_DispatchStatus res = "dispatched" /\ resumed k k' g find resume
  | Err _ => RunTypes.k_runs k' = RunTypes.k_runs k
  end.
Proof.
  intros Ho HI. unfold decisionApprovalRunUnlockPort; cbv zeta. rewrite Ho.
  change ("approved" =? "approved")%string with true. cbn [negb].
  destruct (FindActiveContinuation k _ _ _ find) as [cont|] eqn:Ef; [|by exists k].
  unfold GetRun. destruct (getRunLocked k (ug_RunID g)) as [r|e] eqn:Eg; [|by exists k].
  assert (Er : RunTypes.k_runs k !! ug_RunID g = Some r).
  { unfold getRunLocked in Eg. destruct (RunTypes.k_runs k !! _); [by simplify_eq|done]. }
  destruct (ResumeRun _ _ _ _) as [k' [resp|err]] eqn:Ea.
  2:{ exists k'. split; [done|]. by apply ResumeRun_Err_runs in Ea. }
  destruct (ResumeRun_Ok _ _ _ _ _ _ _ Er Ea) as (c & Hok & Hc).
  pose proof (resume_commit_running _ _ _ _ _ _ _ _ Hc) as (r' & R1 & R2 & R3).
  pose proof (resume_commit_consumes _ _ _ _ _ _ _ _ Hc) as [C1 _].
  unfold getRunLocked. rewrite R1. exists k'. split; [done|]. split; [done|]. split.
  assert (c = cont /\ ct_TokenType cont = TokenTypeApproval) as [-> Hty].
  { assert (Hne : TrimSpace (ug_RunID g) <> "").
    { intros E. unfold FindActiveContinuation in Ef; cbv zeta in Ef. by rewrite E in Ef. }
    apply find_best in Ef as ([t Ht] & Hact); [|done].
    pose proof (rs_known _ _ _ _ _ _ Hok) as Hkn. cbn [approval_resume rr_ContinuationToken] in Hkn.
    destruct (rf_conts _ _ (inv_refs _ HI) _ _ Ht) as [Eid _]. rewrite Eid, Ht in Hkn. injection Hkn as ->.
    split; [done|]. unfold active_for in Hact. rewrite !andb_true_iff in Hact.
    destruct Hact as ((((_ & _) & Hact) & _) & _).
    change (ToLower (TrimSpace TokenTypeApproval)) with TokenTypeApproval in Hact.
    change (TokenTypeApproval =? "")%string with false in Hact. by apply String.eqb_eq. }
  exists cont, r, r', resume. split_and!; try done.
  destruct (rs_type _ _ _ _ _ _ Hok) as [[_ Ht]|[? _]]; [|done]. exfalso. rewrite Hty in Ht.
  apply list_elem_of_In in Ht. by destruct Ht as [?|[?|[]]].
Qed.

(** The environment and the status an approved case leaves: what the port
    answered to its signal. *)
Definition unlock_status (res : result string ApprovalRunUnlockDispatchResult) : string :=
  match res with
  | Err _ => "dispatch_failed"
  | Ok res => if blank (ur_DispatchStatus res) then "dispatched" else ur_DispatchStatus res
  end.

Lemma settle_env {Env} (port : UnlockPort Env) c now s env p :
  ac_Status c = "approved" -> s_pending s !! ac_DecisionID c = Some p -> about c p -> is_pending p ->
  let g := unlock_signal c (with_status pendingStatusConfirmed now p) pendingStatusConfirmed in
  let out := settle_outcome (Some port) c now s env in
  out.1.2 = (port g env).1 /\ oe_runUnlockStatus out.2 = unlock_status (port g env).2.
Proof.
  intros Hst Hp Ha Hs. cbv zeta. unfold settle_outcome; cbv zeta.
  destruct (apply_waiting c now s p Hp Ha Hs) as (_ & _ & _ & A4); [by rewrite Hst|]. cbv zeta in A4.
  rewrite Hst in A4. change (approvalOutcomeRequiresRunUnlockSignal "approved") with true in A4. cbv iota in A4.
  change (approvalOutcomeToPendingStatus "approved") with pendingStatusConfirmed in A4.
  destruct (applyApprovalOutcomeToPending c now s) as [s1 [[ps pr] sg]]. cbn [fst snd] in A4. subst sg.
  unfold dispatchApprovalRunUnlock; cbv zeta.
  destruct (port _ env) as [env' [res|err]]; cbn [fst snd unlock_status].
  - set (st := if blank (ur_DispatchStatus res) then _ else _).
    assert (Est : ur_DispatchStatus st = if blank (ur_DispatchStatus res) then "dispatched"
      else ur_DispatchStatus res) by (unfold st; by destruct (blank _)).
    rewrite <- Est. destruct (EqualFold _ _ && _); [|done].
    by destruct (enforceApprovalUnlockFailureGuard _ _ _ _) as [s3 [ps3 gr]].
  - destruct (EqualFold _ _ && _); [|done].
    by destruct (enforceApprovalUnlockFailureGuard _ _ _ _) as [s3 [ps3 gr]].
Qed.

(** C8: an approval acts on both sides or on neither.  When a case that is
    still open, about a decision still pending, is approved through the port the router installs,
    either the run was waiting for approval, has resumed with the next sequence
    number, its continuation is consumed and the decision is confirmed; or no
    run changed and the decision is under the safeguard. *)
Theorem approval_resumes (find resume wall now : time) (s : Service) (k : RunTypes.Kernel) (id : string)
    (q : ApprovalDecisionRequest) (c : ApprovalCase) (p : PendingDecision) :
  RunInvariant.Inv k -> s_approvals s !! id = Some c -> approvalCaseMutable (ac_Status c) = true ->
  decision_status (adq_Decision q) = Some "approved" ->
  s_pending s !! ac_DecisionID c = Some p -> about c p -> is_pending p ->
  let out := DecideApprovalCase (Some (decisionApprovalRunUnlockPort find resume wall)) s (Some k) id q now in
  exists k', out.1.2 = Some k' /\
  if (adp_RunUnlockStatus out.2 =? "dispatched")%string then
    s_pending out.1.1 !! ac_DecisionID c = Some (with_status pendingStatusConfirmed now p) /\
    exists g, ug_RunID g = ac_RunID c /\ ug_StepID g = ac_StepID c /\ resumed k k' g find resume
  else
    s_pending out.1.1 !! ac_DecisionID c = Some (with_status pendingStatusSafeguardHold now p) /\
    RunTypes.k_runs k' = RunTypes.k_runs k.
Proof.
  intros HK Hc Hm Hd Hp Ha Hs. cbv zeta. unfold DecideApprovalCase; cbv zeta. rewrite Hd, Hc, Hm. cbn [negb].
  set (c2 := resolve_case "approved" "manual_decision" now c).
  set (s1 := s_set_approvals (<[id := c2]> (s_approvals s)) s).
  set (port := decisionApprovalRunUnlockPort find resume wall).
  destruct (settle_waiting (Some port) c2 now s1 (Some k) p) as (S1 & _ & _); [done..|].
  destruct (settle_env port c2 now s1 (Some k) p) as [S2 S3]; [done..|].
  set (g := unlock_signal c2 _ _) in *.
  destruct (unlock_outcome find resume wall g k) as (k' & P1 & P2); [done|done|]. fold port in P1, P2.
  destruct (settle_outcome _ _ _ _ _) as [[s2 e2] oe]. cbn [fst snd adp_RunUnlockStatus] in *.
  rewrite emit_pending, S1. change (ac_DecisionID c2) with (ac_DecisionID c). rewrite lookup_insert_eq.
  exists k'. rewrite S2, P1. split; [done|]. unfold settled_status. change (ac_Status c2) with "approved".
  change (EqualFold "approved" "approved") with true. cbn [andb].
  destruct (port g (Some k)) as [e3 [res|err]]; cbn [fst snd unlock_status] in *.
  - destruct P2 as [Eres Hres]. rewrite S3, Eres. change (blank "dispatched") with false. cbv iota.
    change ("dispatched" =? "dispatched")%string with true. cbn [negb]. split; [done|]. by exists g.
  - rewrite S3. change ("dispatch_failed" =? "dispatched")%string with false. cbn [negb]. done.
Qed.
End Unlocked.

(** * What one request does

    A request is answered without touching anything, or after a copy of the
    outboxes, or after one call of one kernel (an approval: of the Decision
    service, and of the Run kernel it resumes). *)

(** The bodies of the handlers. *)
Ltac open_handlers := unfold healthz, contextResolve, evaluateRuntime, evaluateScheduleAdmission, evaluateRelease,
  confirmRunAdvance, repairPending, terminalizePending, createApprovalCase, decideApprovalCase, getDecision,
  outbox, metrics, createFeatureDefinition, featureSignalContracts, runFeatureSignalContractScheduler,
  validateFeatureSignalContract, featureSignalContractHistory, rollbackFeatureSignalContract,
  buildFeatureSnapshot, validateFeatureSnapshotFreshness, featureSnapshotAction, featureAction,
  feature_versions, feature_rollback, getApprovalOrgHealth, recomputeApprovalOrgHealth,
  remediateApprovalOrgHealth, getApprovalOrgHealthReports, getEnforcementMatrix, validateEnforcementMatrix,
  publishEnforcementMatrix, ingestEvidenceEvent, syncEvidenceKernelOutboxes, deleteEvidenceByDSAR,
  verifyEvidenceIntegrity, evidenceIntegrityAnchor, getEvidenceArchiveSummary, exportEvidenceArchive,
  getEvidenceDecisionLogHistory, getRunEvidenceSummary, getRunLedger, aggregateLedger, createRun, runAction,
  sweepRunTTL, sweepRunZombie, sweepRunMaintenance.

(** The calls of the Decision service the handlers make. *)
Definition offered (c : call unit) : bool :=
  match c with
  | CallEvaluate _ _ | CallSchedule _ _ | CallRelease _ _ | CallCreateCase _ _
  | CallConfirm _ _ | CallTerminalize _ _ | CallRepair _ => true
  | _ => false
  end.

(** The calls on the contracts and their store. *)
Inductive contract_call :=
| ContractPublish (q : FeatureSignalContractPublishRequest) (now wall : time)
| ContractRollback (q : FeatureSignalContractRollbackRequest) (now wall : time)
| ContractSchedule (at_ now wall : time).

(** The other calls of the control plane that change it. *)
Inductive plane_call :=
| PlaneHealth (scope : ScopeRef) (now : time)
| PlaneRemediate (q : ApprovalOrgHealthRemediationRequest) (now : time)
| PlaneRecompute (q : ApprovalOrgHealthRecomputeRequest) (now : time)
| PlaneMatrix (q : EnforcementMatrixPublishRequest) (now : time).

Section Effects.
Context {RJ : RunOutbox.JsonMarshaler} {UP : UrlParser} {DJ : JsonMarshaler} {CS : FeatureSignalContractStore}.

Definition contract_exec {MR : MapRange} (s : Service) (st : option store_state) (c : contract_call)
    : Service * option store_state :=
  match c with
  | ContractPublish q now wall => (PublishFeatureSignalContract s st q now wall).1
  | ContractRollback q now wall => (RollbackFeatureSignalContract s st q now wall).1
  | ContractSchedule at_ now wall => (RunFeatureSignalContractScheduler s st at_ now wall).1
  end.

Definition plane_exec {MR : MapRange} (c : Control) (call : plane_call) : Control :=
  match call with
  | PlaneHealth scope now => (GetApprovalOrgHealth c scope now).1
  | PlaneRemediate q now => (RemediateApprovalOrgHealth c q now).1
  | PlaneRecompute q now => (RecomputeApprovalOrgHealth c q now).1
  | PlaneMatrix q now => (PublishEnforcementMatrix c q now).1
  end.

(** The operations of the Run kernel the handlers make: an advance asks the
    Decision service of the router. *)
Definition run_offered {MR : MapRange} (r : Router) (o : RunTrace.op) : Prop :=
  match o with
  | OpAdvance port _ _ _ => exists wall, port = Some (decisionRunPort (Some (svc r)) wall)
  | OpFlag _ _ _ | RunTrace.OpDrain _ => False
  | _ => True
  end.

(** One call of a kernel. *)
Inductive effect {MR : MapRange} (r : Router) : Router -> Prop :=
| ef_decision c : offered c = true -> effect r (set_svc (DecTrace.exec c (svc r, tt)).1 r)
| ef_approval t id q now :
    let out := DecTrace.exec (CallDecideCase (approval_port t) id q now) (svc r, Some (runSvc r)) in
    effect r (rt_set_run (default (runSvc r) out.2) (set_svc out.1 r))
| ef_contract c :
    let out := contract_exec (svc r) (contractStore r) c in
    effect r (rt_set_store out.2 (set_svc out.1 r))
| ef_registry c now : effect r (rt_set_decision (reg_exec (decisionSvc r) c now) r)
| ef_plane c : effect r (rt_set_decision (plane_exec (decisionSvc r) c) r)
| ef_run o : run_offered r o -> effect r (rt_set_run (RunTrace.exec o (runSvc r)) r)
| ef_ingest q now now2 : effect r (rt_set_evidence (IngestEvent q now now2 (evidenceSvc r)).1 r)
| ef_delete q now : effect r (rt_set_evidence (DeleteByDSAR q now (evidenceSvc r)).1 r)
| ef_anchor reason now :
    effect r (rt_set_evidence (CreateGlobalIntegrityAnchor reason now (evidenceSvc r)).1 r).

(** The answers that refuse a request before any call. *)
Definition refusal (a : Answer) : bool :=
  match a with
  | Redirect _ => true
  | Reply _ (BText text) => negb (text =? "not found")%string
  | _ => false
  end.

(** The methods some handler takes. *)
Definition known_method (q : HttpRequest) : bool := is_method MethodGet q || is_method MethodPost q.

(** The only read that changes a kernel: the health of a scope never seen. *)
Definition health_read {MR : MapRange} (q : HttpRequest) (r r' : Router) : Prop :=
  exists now, r' = rt_set_decision (GetApprovalOrgHealth (decisionSvc r) (scopeFromQuery q) now).1 r.

Inductive outcome {MR : MapRange} (t : Ticks) (q : HttpRequest) (r : Router) : Router * Answer -> Prop :=
| oc_plain a : outcome t q r (r, a)
| oc_copy a : known_method q = true -> refusal a = false -> outcome t q r (synced t r, a)
| oc_health r' a : known_method q = true -> refusal a = false -> health_read q r r' -> outcome t q r (r', a)
| oc_call r' a : is_method MethodPost q = true -> refusal a = false -> effect r r' -> outcome t q r (r', a)
| oc_call_copy r' a : is_method MethodPost q = true -> refusal a = false -> effect r r' ->
    outcome t q r (synced t r', a)
| oc_copy_call r' a : is_method MethodPost q = true -> refusal a = false -> effect (synced t r) r' ->
    outcome t q r (r', a).

(** ** The handlers *)

Section Outcomes.
Context {MR : MapRange} {HD : Decoders}.
Implicit Types (t : Ticks) (q : HttpRequest) (r : Router).

Lemma allow_outcome m t q r k : (is_method m q = true -> outcome t q r k) -> outcome t q r (allow m q r k).
Proof. intros Hk. unfold allow. destruct (is_method m q); [by apply Hk|constructor]. Qed.

Lemma with_body_outcome {A} (decode : string -> option A) t q r k :
  (forall x, outcome t q r (k x)) -> outcome t q r (with_body decode q r k).
Proof. intros Hk. unfold with_body. case_match; [apply Hk|constructor]. Qed.

Lemma with_limit_outcome d t q r k : (forall x, outcome t q r (k x)) -> outcome t q r (with_limit d q r k).
Proof. intros Hk. unfold with_limit. case_match; [apply Hk|constructor]. Qed.

Lemma read_outcome t q r a : outcome t q r (read r a).
Proof. constructor. Qed.

Lemma get_known q : is_method MethodGet q = true -> known_method q = true.
Proof. unfold known_method. by intros ->. Qed.

Lemma post_known q : is_method MethodPost q = true -> known_method q = true.
Proof. unfold known_method. intros ->. apply orb_true_r. Qed.

Lemma evidence_outcome t q r a : known_method q = true -> (forall k, refusal (a k) = false) -> outcome t q r (evidence_read t r a).
Proof. intros Hq Ha. by apply oc_copy. Qed.

Lemma decide_outcome {A} (f : A -> Body) t q r c out : is_method MethodPost q = true -> offered c = true ->
  (forall x, refusal (writeJSON (f x)) = false) -> out.1 = (DecTrace.exec c (svc r, tt)).1 ->
  outcome t q r (decide_call f t out r).
Proof. intros Hq Hc Hf E. apply oc_call_copy; [done|apply Hf|]. rewrite E. by apply ef_decision. Qed.

(** A call whose error is answered without a copy. *)
Lemma result_outcome {A E} (f : A -> Body) (fail : E -> Answer) t q r r' (out : result E A) :
  is_method MethodPost q = true -> (forall x, refusal (writeJSON (f x)) = false) ->
  (forall e, refusal (fail e) = false) -> effect r r' ->
  outcome t q r (match out with Err e => (r', fail e) | Ok v => (synced t r', writeJSON (f v)) end).
Proof.
  intros Hq Hf He Hr. destruct out; [by apply oc_call_copy|by apply oc_call].
Qed.

Lemma control_outcome {A} (f : A -> Body) t q r out : is_method MethodPost q = true ->
  (forall x, refusal (writeJSON (f x)) = false) -> effect r (rt_set_decision out.1 r) ->
  outcome t q r (control_call f out r).
Proof.
  intros Hq Hf Hr. unfold control_call. apply oc_call; [done| |done]. destruct out.2; [apply Hf|done].
Qed.

Lemma control_sync_outcome {A} (f : A -> Body) t q r out : is_method MethodPost q = true ->
  (forall x, refusal (writeJSON (f x)) = false) -> effect r (rt_set_decision out.1 r) ->
  outcome t q r (control_sync f t out r).
Proof. intros Hq Hf Hr. by apply result_outcome. Qed.

Lemma contract_outcome {A} (f : A -> Body) t q r c out : is_method MethodPost q = true ->
  (forall x, refusal (writeJSON (f x)) = false) -> out.1 = contract_exec (svc r) (contractStore r) c ->
  outcome t q r (contract_sync f t out r).
Proof. intros Hq Hf E. apply result_outcome; try done. rewrite E. apply ef_contract. Qed.

Lemma run_outcome {A} (f : A -> Body) t q r o out : is_method MethodPost q = true ->
  (forall x, refusal (writeJSON (f x)) = false) -> run_offered r o -> out.1 = RunTrace.exec o (runSvc r) ->
  outcome t q r (run_call f t out r).
Proof. intros Hq Hf Ho E. apply result_outcome; try done. rewrite E. by apply ef_run. Qed.

Lemma sweep_outcome t q r o out : is_method MethodPost q = true -> run_offered r o ->
  out.1 = RunTrace.exec o (runSvc r) -> outcome t q r (sweep_call t out r).
Proof. intros Hq Ho E. apply oc_call_copy; [done..|]. rewrite E. by apply ef_run. Qed.
Lemma found_served {A} (f : A -> Body) o : (forall x, refusal (writeJSON (f x)) = false) ->
  refusal (found f o) = false.
Proof. intros Hf. destruct o; [apply Hf|done]. Qed.

Lemma answer_served {E A} (fail : E -> Answer) (f : A -> Body) res : (forall e, refusal (fail e) = false) ->
  (forall x, refusal (writeJSON (f x)) = false) -> refusal (answer_of fail f res) = false.
Proof. intros He Hf. destruct res; [apply Hf|apply He]. Qed.

(** The handlers with cases of their own. *)
Lemma approve_outcome t q r : outcome t q r (decideApprovalCase t q r).
Proof.
  apply allow_outcome; intros Hq. repeat (case_match; [|first [constructor|idtac]]; try constructor).
  apply with_body_outcome; intros input.
  pose proof (ef_approval r t s input (tk_now t)) as He. cbn [DecTrace.exec] in He.
  destruct (DecideApprovalCase _ _ _ _ _ _) as [[s' run] out]. by apply oc_call_copy.
Qed.

Lemma schedule_outcome t q r : outcome t q r (runFeatureSignalContractScheduler t q r).
Proof.
  apply allow_outcome; intros Hq; cbv zeta.
  pose proof (ef_contract r (ContractSchedule (decode_at (h_Body q)) (tk_now t) (tk_wall t))) as He.
  cbn [contract_exec] in He. destruct (RunFeatureSignalContractScheduler _ _ _ _ _) as [[s' st] out].
  by apply oc_call_copy.
Qed.
Ltac served := intros; first [reflexivity|apply found_served; reflexivity|apply answer_served; reflexivity].

(** The guards of a handler, down to its calls. *)
Ltac guards := repeat first
  [ apply oc_plain
  | apply allow_outcome; intros ?
  | apply with_body_outcome; intros ?
  | apply with_limit_outcome; intros ?
  | apply read_outcome
  | apply evidence_outcome; [first [by apply get_known|by apply post_known]|served]
  | progress cbv zeta
  | case_match ].

Lemma feature_outcome t q r : outcome t q r (featureAction t q r).
Proof.
  unfold featureAction, feature_versions, feature_rollback. guards.
  - apply control_outcome; [done|served|]. exact (ef_registry r (RegVersion _ _) (tk_now t)).
  - apply control_outcome; [done|served|]. exact (ef_registry r (RegRollback _ _) (tk_now t)).
  - apply control_sync_outcome; [done|served|]. exact (ef_registry r (RegPublish _ _) (tk_now t)).
Qed.

Lemma run_action_outcome t q r : outcome t q r (runAction t q r).
Proof.
  unfold runAction. guards.
  - eapply (run_outcome _ t q r (OpAdvance (decision_port t r) _ _ _)); [done|served|by exists (tk_wall t)|done].
  - by eapply (run_outcome _ t q r (OpPark _ _ _)); [|served|..].
  - by eapply (run_outcome _ t q r (OpResume _ _ _)); [|served|..].
  - by eapply (run_outcome _ t q r (OpAbort _ _ _)); [|served|..].
Qed.

Lemma anchor_outcome t q r : outcome t q r (evidenceIntegrityAnchor t q r).
Proof.
  unfold evidenceIntegrityAnchor. guards.
  pose proof (ef_anchor (synced t r) (TrimSpace (decode_reason (h_Body q))) (tk_now t)) as He.
  match goal with E : CreateGlobalIntegrityAnchor _ _ _ = _ |- _ => rewrite E in He end.
  by apply oc_copy_call.
Qed.

Lemma evidence_call_outcome {A} (f : A -> Body) t q r k (out : result EvTypes.KernelError A) :
  is_method MethodPost q = true -> (forall x, refusal (writeJSON (f x)) = false) ->
  effect r (rt_set_evidence k r) -> outcome t q r (rt_set_evidence k r, answer_of writeEvidenceError f out).
Proof. intros Hq Hf He. apply oc_call; [done| |done]. by apply answer_served. Qed.

Lemma handle_outcome e t q r : outcome t q r (handle e t q r).
Proof.
  destruct e; cbn [handle];
    try (first [apply approve_outcome|apply schedule_outcome|apply feature_outcome|apply run_action_outcome
               |apply anchor_outcome]).
  all: open_handlers; guards.
  - by eapply (decide_outcome _ _ _ _ (CallEvaluate _ _)).
  - by eapply (decide_outcome _ _ _ _ (CallSchedule _ _)).
  - by eapply (decide_outcome _ _ _ _ (CallRelease _ _)).
  - by eapply (decide_outcome _ _ _ _ (CallConfirm _ _)).
  - by eapply (decide_outcome _ _ _ _ (CallRepair _)).
  - by eapply (decide_outcome _ _ _ _ (CallTerminalize _ _)).
  - by eapply (decide_outcome _ _ _ _ (CallCreateCase _ _)).
  - apply control_outcome; [done..|]. exact (ef_registry r (RegDefine _) (tk_now t)).
  - by eapply (contract_outcome _ _ _ _ (ContractPublish _ _ _)).
  - by eapply (contract_outcome _ _ _ _ (ContractRollback _ _ _)).
  - apply control_outcome; [done..|]. exact (ef_registry r (RegSnapshot _) (tk_now t)).
  - apply oc_health; [by apply get_known|by apply answer_served|]. by exists (tk_now t).
  - apply control_sync_outcome; [done..|]. exact (ef_plane r (PlaneRecompute _ (tk_now t))).
  - apply control_outcome; [done..|]. exact (ef_plane r (PlaneRemediate _ (tk_now t))).
  - apply control_outcome; [done..|]. exact (ef_plane r (PlaneMatrix _ (tk_now t))).
  - apply evidence_call_outcome; [done..|]. pose proof (ef_ingest r x (tk_now t) (tk_ingest t)) as He.
    by match goal with E : IngestEvent _ _ _ _ = _ |- _ => rewrite E in He end.
  - match goal with E : syncEvidenceFromKernelOutboxes _ _ = (?r1, _) |- _ =>
      replace r1 with (synced t r) by (unfold synced; by rewrite E) end.
    apply oc_copy; [by apply post_known|done].
  - apply evidence_call_outcome; [done..|]. pose proof (ef_delete r x (tk_now t)) as He.
    by match goal with E : DeleteByDSAR _ _ _ = _ |- _ => rewrite E in He end.
  - by eapply (run_outcome _ _ _ _ (OpCreate _ _)).
  - by eapply (sweep_outcome _ _ _ (RunTrace.OpSweepTTL _)).
  - by eapply (sweep_outcome _ _ _ (OpSweepZombie _)).
  - by eapply (sweep_outcome _ _ _ (OpMaintenance _)).
Qed.
End Outcomes.
End Effects.

(** * The answers

    Every endpoint answers with its own response, the error of the kernel it
    calls under that error's status, or a text under 400, 404 or 405. *)

Definition response_of (e : Endpoint) (b : Body) : bool :=
  match e, b with
  | EHealthz, BHealth _ | EContextResolve, BContext _ | EEvaluateRuntime, BRuntime _
  | EEvaluateScheduleAdmission, BSchedule _ | EEvaluateRelease, BRelease _ | EConfirmRunAdvance, BConfirm _
  | ERepairPending, BRepair _ | ETerminalizePending, BTerminalize _ | ECreateApprovalCase, BCase _
  | EDecideApprovalCase, BApproval _
  | EGetDecision, (BDecision _ | BDecisionHistory _ _ | BReference _) | EOutbox, BEvents _ | EMetrics, BMetrics _
  | ECreateFeatureDefinition, (BDefinition _ | BDefinitions _)
  | EFeatureSignalContracts, (BContract _ | BContracts _) | ERunFeatureSignalContractScheduler, BScheduler _
  | EValidateFeatureSignalContract, BContractValid _ | EFeatureSignalContractHistory, BContractHistory _ _
  | ERollbackFeatureSignalContract, BContractRollback _ | EBuildFeatureSnapshot, BSnapshot _
  | EValidateFeatureSnapshotFreshness, BFreshness _
  | EFeatureSnapshotAction, (BSnapshot _ | BSnapshotEvidence _)
  | EFeatureAction, (BVersion _ | BVersions _ | BDrift _ | BFeatureRollback _ | BFeatureRollbacks _
                     | BFeaturePublish _ | BDependencies _)
  | EGetApprovalOrgHealth, BOrgHealth _ | ERecomputeApprovalOrgHealth, BRecompute _
  | ERemediateApprovalOrgHealth, BRemediation _ | EGetApprovalOrgHealthReports, BReports _
  | EGetEnforcementMatrix, BMatrix _ | EValidateEnforcementMatrix, BMatrixValid _
  | EPublishEnforcementMatrix, BMatrixPublish _
  | EIngestEvidenceEvent, BIngest _ | ESyncEvidenceKernelOutboxes, BSync _ | EDeleteEvidenceByDSAR, BDelete _
  | EVerifyEvidenceIntegrity, BIntegrity _ | EEvidenceIntegrityAnchor, (BAnchor _ | BAnchors _)
  | EGetEvidenceArchiveSummary, BArchive _ | EExportEvidenceArchive, BExport _
  | EGetEvidenceDecisionLogHistory, BLogHistory _ _ | EGetRunEvidenceSummary, BEvidence _
  | EGetRunLedger, BLedger _ _ | EAggregateLedger, BAggregate _
  | ECreateRun, BRunCreated _ | (ESweepRunTTL | ESweepRunZombie | ESweepRunMaintenance), BSweep _
  | ERunAction, (BRun _ | BGraph _ | BRootCause _ | BReplay _ | BIntegrity _ | BAdvance _ | BPark _ | BResume _) => true
  | _, _ => false
  end.

(** The kernel whose errors an endpoint may pass on. *)
Inductive Origin := FromRun | FromEvidence | FromControl.

Definition passes_on (o : Origin) (e : Endpoint) : bool :=
  match o, e with
  | FromRun, (ECreateRun | ERunAction)
  | FromEvidence, (ERunAction | EIngestEvidenceEvent | EDeleteEvidenceByDSAR | EAggregateLedger | EExportEvidenceArchive)
  | FromControl, (ECreateFeatureDefinition | EFeatureSignalContracts | ERollbackFeatureSignalContract
      | EBuildFeatureSnapshot | EValidateFeatureSnapshotFreshness | EFeatureAction | EGetApprovalOrgHealth
      | ERecomputeApprovalOrgHealth | ERemediateApprovalOrgHealth | EGetApprovalOrgHealthReports
      | EPublishEnforcementMatrix) => true
  | _, _ => false
  end.

Definition typed (e : Endpoint) (a : Answer) : Prop :=
  match a with
  | Redirect _ => False
  | Reply status (BText _) => status = 400 \/ status = 404 \/ status = 405
  | Reply status (BKernelError err) => status = ke_StatusCode err /\ passes_on FromRun e = true
  | Reply status (BEvidenceError err) => status = ee_StatusCode err /\ passes_on FromEvidence e = true
  | Reply status (BControlError err) => status = ce_StatusCode err /\ passes_on FromControl e = true
  | Reply status b => status = StatusOK /\ response_of e b = true
  end.

Section Typed.
Context {RJ : RunOutbox.JsonMarshaler} {UP : UrlParser} {DJ : JsonMarshaler} {CS : FeatureSignalContractStore}.
Context {MR : MapRange} {HD : Decoders}.

(** C36: every endpoint answers its own type.  A successful answer has status
    200 and carries a response of the endpoint; an error of a kernel is passed
    on only by the endpoints that call it, under the status the error names;
    every other answer is a text under 400, 404 or 405. *)
Theorem answers_typed (e : Endpoint) (t : Ticks) (q : HttpRequest) (r : Router) : typed e (handle e t q r).2.
Proof.
  destruct e; cbn [handle]; open_handlers; unfold decide_call, control_call, control_sync, contract_sync, run_call,
    sweep_call, evidence_read, read, answer_of, found, allow, with_body, with_limit; cbv zeta;
    repeat case_match; cbn; auto 10.
Qed.
End Typed.

(** * What holds along any requests *)

(** ** The Evidence kernel *)

Section EvidenceCalls.
Context {MR : MapRange}.

Lemma plain_evidence k k' : evidence k' = evidence k -> plain k -> plain k'.
Proof. intros (E & _)%evidence_fields. apply plain_store. by symmetry. Qed.

Lemma plain_still k k' : still k' = still k -> plain k -> plain k'.
Proof.
  intros (_ & E0 & _ & _ & _ & _ & _ & _ & _ & _ & E1 & E2 & E3)%store_fields [A B C D]. cbn in *.
  split; by rewrite ?E0, ?E1, ?E2, ?E3.
Qed.

Lemma DeleteByDSAR_plain q now k : EvTrace.KInv k -> plain k -> plain (DeleteByDSAR q now k).1.
Proof.
  intros HK Hp. pose proof (DeleteByDSAR_eq q now k) as E. cbv zeta in E.
  rewrite DeleteByDSAR_trim in E. set (rq := trim_dsar_request q) in *.
  pose proof (dsar_request_id_same rq k) as [E0 _]. destruct (dsar_request_id rq k) as [k0 id]. cbn [fst] in E0.
  rewrite E. clear E. pose proof (plain_evidence _ _ E0 Hp) as Hp0.
  destruct (_ =? _)%string; [done|]. cbn [fst]. eapply plain_evidence; [apply emit_evidence|].
  assert (Hw : wf_runs (EvTypes.k_runs (dsar_kernel rq now k0))).
  { apply dsar_kernel_wf. apply evidence_fields in E0 as (E0 & _). apply store_fields in E0 as (_ & _ & _ & -> & _).
    apply (ei_wf _ (ki_evidence _ HK)). }
  destruct (rebuild_spec _ (wf_run _ Hw)) as (_ & St & _). eapply plain_still; [exact St|].
  destruct Hp0. by split.
Qed.

Lemma attest_plain anchor answer now k : plain k -> plain (anchor_attest anchor answer now k).1.
Proof.
  intros Hp. unfold anchor_attest. destruct (last_index _ _); [|done]. cbn [fst]. unfold attestation_event.
  destruct answer as [att [err|]]; (eapply plain_evidence; [apply emit_evidence|]); destruct Hp; by split.
Qed.

Lemma anchor_plain reason now k : plain k -> plain (CreateGlobalIntegrityAnchor reason now k).1.
Proof.
  intros Hp. unfold CreateGlobalIntegrityAnchor.
  assert (Hc : plain (anchor_create reason now k).1).
  { unfold anchor_create. destruct (nextID _ k) as [k1 id] eqn:E. cbn [fst].
    eapply plain_evidence; [apply emit_evidence|].
    assert (plain k1) as [] by (eapply plain_evidence; [|exact Hp]; change k1 with (k1, id).1; by rewrite <- E).
    by split. }
  destruct (anchor_create reason now k) as [k1 anchor]. cbn [fst] in Hc.
  destruct (ec_Attestor _); [by apply attest_plain|done].
Qed.

(** A history of the Evidence kernel. *)
Definition ev_steps : relation EvTypes.Kernel := rtc EvTrace.step.

#[local] Strategy expand [EvTrace.exec].

Lemma anchor_create_step reason now k : EvTrace.step k (anchor_create reason now k).1.
Proof. exact (EvTrace.step_op MR (OpAnchor reason now) k). Qed.

Lemma anchor_attest_step anchor answer now k : EvTrace.step k (anchor_attest anchor answer now k).1.
Proof. exact (EvTrace.step_op MR (OpAttest anchor answer now) k). Qed.

Lemma anchor_steps reason now k : ev_steps k (CreateGlobalIntegrityAnchor reason now k).1.
Proof.
  unfold CreateGlobalIntegrityAnchor. pose proof (anchor_create_step reason now k) as Hc.
  destruct (anchor_create reason now k) as [k1 anchor]. cbn [fst] in Hc.
  destruct (ec_Attestor _) as [attestor|]; [|by apply rtc_once]. eapply rtc_l; [exact Hc|].
  apply rtc_once, anchor_attest_step.
Qed.

Lemma ev_steps_KInv k k' : ev_steps k k' -> EvTrace.KInv k -> EvTrace.KInv k'.
Proof. induction 1 as [|k1 k2 k3 [MR' o k0] _ IH]; intros HK; [done|]. by apply IH, EvTrace.exec_KInv. Qed.
End EvidenceCalls.

Section CopySteps.
Context {CS : FeatureSignalContractStore}.

Lemma seen_kernels id r : same_kernels r (markEventSeen id r).1.
Proof.
  unfold markEventSeen; cbv zeta. destruct (_ =? _)%string; [done|]. destruct (decide _); [done|].
  by destruct (trim_seen _ _ _).
Qed.

(** The copy leaves the other kernels alone, whatever the window. *)
Lemma sync_kernels t r : same_kernels r (synced t r).
Proof.
  unfold synced. rewrite sync_offers. generalize (mk_SyncResult 0 0 0 0 0), 0%nat, (offers r).
  intros c i l. revert i r c. induction l as [|o l IH]; intros i r c; cbn [sync_loop]; [done|].
  unfold make_offer at 2, offer_event. pose proof (seen_kernels (of_id o) r) as E.
  destruct (markEventSeen (of_id o) r) as [r1 fresh]. cbn [fst] in E. destruct fresh; cbn [negb].
  - destruct (IngestEvent _ _ _ _) as [k resp]. etransitivity; [exact E|]. etransitivity; [|apply IH]. by split.
  - etransitivity; [exact E|apply IH].
Qed.

Lemma seen_evidence id r : evidenceSvc (markEventSeen id r).1 = evidenceSvc r.
Proof.
  unfold markEventSeen; cbv zeta. destruct (_ =? _)%string; [done|]. destruct (decide _); [done|].
  by destruct (trim_seen _ _ _).
Qed.

Lemma sync_loop_steps {MR : MapRange} ticks l : forall i st,
  ev_steps (evidenceSvc st.1) (evidenceSvc (sync_loop make_offer ticks i l st).1).
Proof.
  induction l as [|o l IH]; intros i st; cbn [sync_loop]; [reflexivity|]. etransitivity; [|apply IH].
  destruct st as [r c]. unfold make_offer, offer_event. pose proof (seen_evidence (of_id o) r) as E.
  destruct (markEventSeen (of_id o) r) as [r1 fresh]. cbn [fst] in *. destruct fresh; cbn [negb fst]; [|by rewrite E].
  rewrite <- E. pose proof (EvTrace.step_op MR (OpIngest (of_req o) (ticks i).1 (ticks i).2) (evidenceSvc r1)) as S.
  cbn [EvTrace.exec] in S. destruct (IngestEvent _ _ _ _) as [k resp]. by apply rtc_once.
Qed.
End CopySteps.

(** ** The outbox of the Run kernel *)

Section RunShape.
Context {RJ : RunOutbox.JsonMarshaler} {UP : UrlParser}.

Definition shaped (k k' : RunTypes.Kernel) : Prop :=
  Forall run_shape (RunTypes.k_outbox k) -> Forall run_shape (RunTypes.k_outbox k').

#[local] Instance shaped_preorder : PreOrder shaped.
Proof. split; [by intros k Hk|]. intros a b c H1 H2 Ha. apply H2, H1, Ha. Qed.

Lemma shaped_trim k0 k now : shaped k0 k -> shaped k0 (cleanupOutboxLocked k now).1.
Proof.
  intros Hk H0. destruct (cleanupOutbox_spec k now) as (_ & _ & (gone & E) & _).
  specialize (Hk H0). rewrite E in Hk. by apply Forall_app in Hk as [_ ?].
Qed.

Lemma shaped_emit k0 k ev id st kvs now : shaped k0 k -> shaped k0 (emit ev id st kvs now k).
Proof.
  intros Hk. unfold emit. cbv zeta.
  destruct (match hash_checked _ with Some _ => _ | None => _ end) as [ph pv].
  destruct (runEventEvidencePolicy ev) as [g i]. apply shaped_trim. intros H0. specialize (Hk H0).
  cbn. apply Forall_app. split; [exact Hk|]. apply Forall_singleton. split; [done|]. by eexists.
Qed.

Lemma shaped_same k k' : RunTypes.k_outbox k' = RunTypes.k_outbox k -> shaped k k'.
Proof. unfold shaped. by intros ->. Qed.

Ltac shaped_side := first [exact shaped_preorder|exact shaped_emit|exact shaped_trim
  |intros; etransitivity; [eassumption|by apply shaped_same]].

Lemma exec_shaped {MR : MapRange} o k : shaped k (RunTrace.exec o k).
Proof.
  destruct o; cbn [RunTrace.exec].
  - apply (R_CreateRun shaped); shaped_side.
  - apply (R_AdvanceRun shaped); shaped_side.
  - apply (R_ParkRun shaped); shaped_side.
  - apply (R_ResumeRun shaped); shaped_side.
  - apply (R_AbortRun shaped); shaped_side.
  - apply (R_FlagRunRisk shaped); shaped_side.
  - pose proof (RunTrace.DrainOutbox_spec k limit) as Hd. destruct (RunOutbox.DrainOutbox k limit) as [k' out].
    destruct Hd as (E & _). unfold shaped. cbn [fst]. rewrite E. by intros [_ ?]%Forall_app.
  - apply (R_SweepTTL shaped); shaped_side.
  - apply (R_SweepZombie shaped); shaped_side.
  - apply (R_maintenance shaped); first [reflexivity|shaped_side].
Qed.
End RunShape.

(** ** The control plane *)

Lemma good_same_decisions s s' : same_decisions s s' -> good s s'.
Proof.
  intros []. apply good_same_pending; [|done]. intros [H1 H2 H3 H4 H5 H6 H7].
  split; rewrite ?sd_cfg, ?sd_decisions, ?sd_history, ?sd_pending, ?sd_tickets, ?sd_approvals; auto.
Qed.

(** A call of the control plane that leaves the contracts alone. *)
Record plane_ok (c c' : Control) : Prop := mk_plane_ok {
  po_good : good (c_svc c) (c_svc c');
  po_contracts : same_keys (contracts_of (c_svc c')) (contracts_of (c_svc c))
}.

Lemma plane_calm c c' : calm (c_svc c) (c_svc c') -> plane_ok c c'.
Proof. intros C. split; [by apply good_calm|by apply calm_contracts]. Qed.

Section Plane.
Context {DJ : JsonMarshaler}.

Lemma emit_control_calm ty kvs now c : calm (c_svc c) (c_svc (emit_control ty kvs now c)).
Proof. apply quiet_calm, emitEvent_quiet. Qed.

Lemma sign_calm input s : calm s (sign_snapshot input s).1.
Proof. unfold sign_snapshot. destruct (safeHash input); [done|apply nextFallbackID_calm]. Qed.

Lemma add_version_svc d v now c : c_svc (add_version d v now c) = c_svc c.
Proof. unfold add_version; cbv zeta. by case_match. Qed.

Lemma reg_calm c call now : calm (c_svc c) (c_svc (reg_exec c call now)).
Proof.
  destruct call; cbn [reg_exec].
  - unfold CreateFeatureDefinition; cbv zeta. repeat (case_match; [done|]). cbn [fst]. apply (emit_control_calm _ _ _ (put_definition _ _ c)).
  - unfold CreateFeatureVersion; cbv zeta. do 2 (case_match; [done|]).
    destruct (c_featureDefinitions c !! _); [|done]. case_match; [done|]. case_match; [done|]. cbn [fst].
    match goal with |- context [add_version ?d ?v ?n ?c1] =>
      change (c_svc c) with (c_svc c1); rewrite <- (add_version_svc d v n c1) end. apply emit_control_calm.
  - unfold PublishFeatureVersion; cbv zeta. destruct (find_target _ _ _ _ _ _ _); [|done]. cbn [fst].
    apply (emit_control_calm _ _ _ (activate_target _ _ _ _ c)).
  - unfold RollbackFeature; cbv zeta. destruct (find_target _ _ _ _ _ _ _); [|done].
    pose proof (nextFallbackID_calm "fvrb_" (c_svc c)) as C.
    match goal with |- context [nextFallbackID ?p ?s] => pose proof (nextFallbackID_calm p s) as C2;
      destruct (nextFallbackID p s) as [s1 i1] end. cbn [fst] in *. etransitivity; [exact C2|].
    match goal with |- calm _ (c_svc (emit_control ?a ?b ?n ?c1)) => apply (emit_control_calm a b n c1) end.
  - unfold BuildFeatureSnapshot; cbv zeta. do 3 (case_match; [done|]). destruct (snapshot_version _ _ _ _ _); [|done].
    match goal with |- context [makeBestEffortID ?p ?v ?s] => pose proof (makeBestEffortID_calm p v s) as C1;
      destruct (makeBestEffortID p v s) as [s1 [i1 b1]] end.
    match goal with |- context [sign_snapshot ?v s1] => pose proof (sign_calm v s1) as C2;
      destruct (sign_snapshot v s1) as [s2 g] end. cbn [fst] in *. etransitivity; [exact C1|]. etransitivity; [exact C2|].
    match goal with |- calm _ (c_svc (emit_control ?a ?b ?n ?c1)) => apply (emit_control_calm a b n c1) end.
Qed.

Lemma report_calm scope h now ty kvs c :
  calm (c_svc c) (c_svc (file_report scope h now ty kvs c).1) /\ same_registry c (file_report scope h now ty kvs c).1.
Proof.
  unfold file_report; cbv zeta. change (c_svc (put_health h (scopeKey scope) c)) with (c_svc c).
  pose proof (nextFallbackID_calm "aphr_" (c_svc c)) as C. destruct (nextFallbackID _ _) as [s1 i1]. cbn [fst] in *.
  split; [|by split_and!]. etransitivity; [exact C|].
  match goal with |- calm _ (c_svc (emit_control ?a ?b ?n ?c1)) => apply (emit_control_calm a b n c1) end.
Qed.

Lemma set_matrix_good m v now s : good s (set_matrix m v now s).
Proof. apply good_same_pending; [|done]. intros []. by split. Qed.

Lemma plane_exec_ok {MR : MapRange} c call :
  plane_ok c (plane_exec c call) /\ same_registry c (plane_exec c call).
Proof.
  assert (Hr : plane_ok c c /\ same_registry c c) by (split; [by apply plane_calm|done]).
  destruct call; cbn [plane_exec].
  - unfold GetApprovalOrgHealth; cbv zeta. case_match; [exact Hr|]. case_match; [exact Hr|].
    split; [by apply plane_calm|by split_and!].
  - unfold RemediateApprovalOrgHealth; cbv zeta. do 3 (case_match; [exact Hr|]).
    destruct (foldl remedy_step _ _) as [h applied]. case_match; [exact Hr|].
    match goal with |- context [file_report ?a ?b ?n ?d ?e c] => pose proof (report_calm a b n d e c) as [C S];
      destruct (file_report a b n d e c) end. split; [by apply plane_calm|done].
  - unfold RecomputeApprovalOrgHealth; cbv zeta. do 3 (case_match; [exact Hr|]).
    match goal with |- context [file_report ?a ?b ?n ?d ?e c] => pose proof (report_calm a b n d e c) as [C S];
      destruct (file_report a b n d e c) end. split; [by apply plane_calm|done].
  - unfold PublishEnforcementMatrix; cbv zeta. do 2 (case_match; [exact Hr|]). cbn [fst]. split; [|done].
    match goal with |- plane_ok c (emit_control ?a ?b ?n ?c1) =>
      pose proof (emit_control_calm a b n c1) as C; set (c2 := emit_control a b n c1) in * end.
    clearbody c2. split.
    + etransitivity; [|by apply good_calm]. apply set_matrix_good.
    + intros k. rewrite (calm_contracts _ _ C). done.
Qed.
End Plane.

(** ** The port of the approvals *)

Section Approval.
Context {MR : MapRange} {RJ : RunOutbox.JsonMarshaler} {UP : UrlParser} {DJ : JsonMarshaler}.

Lemma unlock_run find resume wall g k :
  (decisionApprovalRunUnlockPort find resume wall g (Some k)).1 = Some k \/
  exists id q, (decisionApprovalRunUnlockPort find resume wall g (Some k)).1 = Some (RunTrace.exec (OpResume id q resume) k).
Proof.
  unfold decisionApprovalRunUnlockPort; cbv zeta. case_match; [by left|].
  destruct (FindActiveContinuation _ _ _ _ _); [|by left]. destruct (GetRun k _); [|by left]. right.
  match goal with |- context [ResumeRun ?a ?b resume k] => exists a, b; cbn [RunTrace.exec];
    destruct (ResumeRun a b resume k) as [k' [?|?]] end; [|done]. by destruct (GetRun k' _).
Qed.

Lemma settle_port {Env} (port : option (UnlockPort Env)) c now s env :
  let e' := (settle_outcome port c now s env).1.2 in
  e' = env \/ exists p g, port = Some p /\ e' = (p g env).1.
Proof.
  cbv zeta. unfold settle_outcome; cbv zeta.
  destruct (applyApprovalOutcomeToPending c now s) as [s1 [[ps pr] sg]].
  set (m := match sg with Some _ => _ | None => _ end).
  assert (Hm : m.1.2 = env \/ exists p g, port = Some p /\ m.1.2 = (p g env).1).
  { subst m. destruct sg as [g|]; [|by left]. unfold dispatchApprovalRunUnlock; cbv zeta.
    destruct port as [p|]; [|by left]. right. exists p, g. split; [done|]. by destruct (p g env) as [e' [?|?]]. }
  clearbody m. destruct m as [[s2 e2] [[us ur] ua]]. cbn [fst snd] in Hm.
  match goal with |- context [if ?b then ?x else ?y] => destruct (if b then x else y) as [s3 [ps' gr]] end.
  exact Hm.
Qed.

Lemma decide_port {Env} (port : option (UnlockPort Env)) s env id q now :
  let e' := (DecideApprovalCase port s env id q now).1.2 in
  e' = env \/ exists p g, port = Some p /\ e' = (p g env).1.
Proof.
  cbv zeta. unfold DecideApprovalCase; cbv zeta. destruct (decision_status _); [|by left].
  destruct (s_approvals s !! id); [|by left]. case_match; [by left|].
  match goal with |- context [settle_outcome port ?c0 now ?s0 env] =>
    pose proof (settle_port port c0 now s0 env) as G; destruct (settle_outcome port c0 now s0 env) as [[s2 e2] oe] end.
  exact G.
Qed.

(** Deciding a case resumes at most one run. *)
Lemma decide_run t s k id q now :
  let k' := default k (DecideApprovalCase (approval_port t) s (Some k) id q now).1.2 in
  k' = k \/ exists i p n, k' = RunTrace.exec (OpResume i p n) k.
Proof.
  cbv zeta. destruct (decide_port (approval_port t) s (Some k) id q now) as [->|(p & g & [= <-] & ->)]; [by left|].
  destruct (unlock_run (tk_find t) (tk_resume t) (tk_wall t) g k) as [->|(i & rq & ->)]; [by left|right].
  by eexists _, _, _.
Qed.
End Approval.

(** ** The invariant of the router, and what links two of its states *)

Section System.
Context {RJ : RunOutbox.JsonMarshaler} {UP : UrlParser} {DJ : JsonMarshaler}.
Context {CS : FeatureSignalContractStore} {HL : StoreLaws CS}.

(** [n] bounds the runs created and the versions of any contract. *)
Record RouterInv (n : Z) (r : Router) : Prop := mk_RouterInv {
  rt_service : SInv (svc r);
  rt_contracts : CInv (contracts_of (svc r)) /\ short n (contracts_of (svc r));
  rt_store : forall c, stored (contractStore r) c -> CInv c /\ short n c;
  rt_registry : RegInv (decisionSvc r);
  rt_runs : RunInvariant.Inv (runSvc r);
  rt_run_seq : k_runSeq (runSvc r) <= n;
  rt_run_outbox : Forall run_shape (RunTypes.k_outbox (runSvc r));
  rt_evidence : EvTrace.KInv (evidenceSvc r);
  rt_plain : plain (evidenceSvc r);
  rt_seen : SeenInv r
}.

(** From one state of the router to a later one: the Run kernel made at most
    [n] calls, the pending decisions moved along their machine and none was
    removed, no registered version changed, the Evidence kernel made calls. *)
Record follows (n : Z) (r r' : Router) : Prop := mk_follows {
  fw_runs : exists m, RunTrace.steps m (runSvc r) (runSvc r') /\ Z.of_nat m <= n;
  fw_pending : moves false (svc r) (svc r');
  fw_registry : grows (decisionSvc r) (decisionSvc r');
  fw_evidence : ev_steps (evidenceSvc r) (evidenceSvc r')
}.

Lemma follows_refl n r : 0 <= n -> follows n r r.
Proof. intros Hn. split; [exists 0%nat; split; [constructor|lia]|reflexivity|by intros f v x|reflexivity]. Qed.

Lemma follows_trans n m r1 r2 r3 : follows n r1 r2 -> follows m r2 r3 -> follows (n + m) r1 r3.
Proof.
  intros [(a & A1 & A2) A3 A4 A5] [(b & B1 & B2) B3 B4 B5]. split.
  - exists (b + a)%nat. split; [by eapply RunTrace.steps_trans|lia].
  - by etransitivity.
  - intros f v x Hx. by apply B4, A4.
  - by etransitivity.
Qed.

Lemma follows_mono n m r r' : n <= m -> follows n r r' -> follows m r r'.
Proof. intros Hm [(a & A1 & A2) ? ? ?]. split; [exists a; split; [done|lia]|done..]. Qed.

Lemma RouterInv_mono n m r : n <= m -> RouterInv n r -> RouterInv m r.
Proof.
  intros Hm [I1 [I2 I2'] I3 I4 I5 I6 I7 I8 I9 I10]. split; try done; [|..|lia].
  - split; [done|]. by eapply short_mono.
  - intros c Hc. destruct (I3 c Hc). split; [done|]. by eapply short_mono.
Qed.

(** The parts of a router. *)
Record same_but_service (r r' : Router) : Prop := mk_same_but_service {
  sb_run : runSvc r' = runSvc r;
  sb_evidence : evidenceSvc r' = evidenceSvc r;
  sb_queue : seenQueue r' = seenQueue r;
  sb_ids : seenEventID r' = seenEventID r;
  sb_cap : seenCap r' = seenCap r
}.

(** A call of the Decision service or of its control plane. *)
Lemma service_call n r r' : RouterInv n r -> n < max_int64 -> same_but_service r r' ->
  good (svc r) (svc r') ->
  (CInv (contracts_of (svc r)) -> short n (contracts_of (svc r)) ->
     CInv (contracts_of (svc r')) /\ short (n + 1) (contracts_of (svc r'))) ->
  (forall c, stored (contractStore r') c -> stored (contractStore r) c \/ same_keys c (contracts_of (svc r'))) ->
  kept_by (decisionSvc r) (decisionSvc r') ->
  RouterInv (n + 1) r' /\ follows 1 r r'.
Proof.
  intros [I1 [I2 I2'] I3 I4 I5 I6 I7 I8 I9 [S1 S2 S3]] Hn [E1 E2 E3 E4 E5] [G1 G2] Hc Hst Hk.
  destruct (Hk I4) as [K1 K2]. destruct (Hc I2 I2') as [C1 C2]. split.
  - split; rewrite ?E1, ?E2; try done; [by apply G1| |lia|by split; rewrite ?E3, ?E4, ?E5].
    intros c [H1|H1]%Hst; [|by rewrite H1].
    destruct (I3 c H1) as [D1 D2]. split; [done|]. apply (short_mono n); [lia|done].
  - split; [exists 0%nat; rewrite E1; split; [constructor|lia]|by apply G2|done|by rewrite E2].
Qed.

(** A call that keeps the contracts. *)
Lemma same_contracts n s s' : same_keys (contracts_of s') (contracts_of s) ->
  CInv (contracts_of s) -> short n (contracts_of s) ->
  CInv (contracts_of s') /\ short (n + 1) (contracts_of s').
Proof. intros E HC Hs. rewrite E. split; [done|]. apply (short_mono n); [lia|done]. Qed.

Lemma run_call_inv {MR : MapRange} n r o : RouterInv n r -> n < max_int64 ->
  RouterInv (n + 1) (rt_set_run (RunTrace.exec o (runSvc r)) r) /\
  follows 1 r (rt_set_run (RunTrace.exec o (runSvc r)) r).
Proof.
  intros HI Hn. pose proof HI as HI2. apply (RouterInv_mono n (n + 1)) in HI2; [|lia].
  destruct HI as [_ _ _ _ I5 I6 I7 _ _ _]. destruct HI2 as [J1 J2 J3 J4 _ _ _ J8 J9 [S1 S2 S3]].
  pose proof (rk_seq _ (RunInvariant.inv_runs _ I5)) as Hpos. unfold max_int64 in Hn.
  split; [split; try done|split; try done].
  - apply RunTrace.exec_inv; [done|lia].
  - cbn. pose proof (RunTrace.exec_seq o (runSvc r) ltac:(lia) ltac:(lia)). lia.
  - by apply exec_shaped.
  - exists 1%nat. split; [|lia]. eapply RunTrace.steps_S; [constructor|]. apply (RunTrace.step_op MR o).
  - by intros f v x.
Qed.

Lemma evidence_call_inv n r k : RouterInv n r -> ev_steps (evidenceSvc r) k -> plain k ->
  RouterInv n (rt_set_evidence k r) /\ follows 0 r (rt_set_evidence k r).
Proof.
  intros [I1 I2 I3 I4 I5 I6 I7 I8 I9 [S1 S2 S3]] Hk Hp. split.
  - split; try done. by eapply ev_steps_KInv.
  - split; try done; [exists 0%nat; split; [constructor|lia]|by intros f v x].
Qed.

Lemma copy_inv {MR : MapRange} n t r : RouterInv n r -> RouterInv n (synced t r) /\ follows 0 r (synced t r).
Proof.
  intros [I1 I2 I3 I4 I5 I6 I7 I8 I9 I10].
  pose proof (sync_safe (tk_sync t) r I10 I8 I9 (proj2 (si_outbox _ I1)) I7) as Hs. cbv zeta in Hs.
  destruct Hs as (S1 & [E1 E2 E3 E4] & S3 & S4 & _). fold (synced t r) in *.
  split.
  - split; try done; unfold svc in *; by rewrite ?E1, ?E2, ?E3.
  - unfold svc in *. split; unfold svc; rewrite ?E1, ?E3; try done.
    + exists 0%nat. split; [constructor|lia].
    + by intros f v x.
    + unfold synced. rewrite sync_offers. apply (sync_loop_steps (tk_sync t) (offers r) 0 (r, _)).
Qed.

Lemma approval_inv {MR : MapRange} n t r id q now : RouterInv n r -> n < max_int64 ->
  let out := DecTrace.exec (CallDecideCase (approval_port t) id q now) (svc r, Some (runSvc r)) in
  let r' := rt_set_run (default (runSvc r) out.2) (set_svc out.1 r) in
  RouterInv (n + 1) r' /\ follows 1 r r'.
Proof.
  intros HI Hn. cbv zeta. set (c := CallDecideCase (approval_port t) id q now). set (st := (svc r, Some (runSvc r))).
  pose proof (DecTrace.exec_good c st (rt_service _ _ HI)) as G. cbn [is_cleanup] in G.
  pose proof (exec_steady c st eq_refl) as C. apply steady_contracts in C. cbn [fst] in G, C.
  pose proof (decide_run t (svc r) (runSvc r) id q now) as Hr. cbv zeta in Hr.
  change ((DecideApprovalCase (approval_port t) (svc r) (Some (runSvc r)) id q now).1.2)
    with (DecTrace.exec c st).2 in Hr.
  destruct (DecTrace.exec c st) as [s' e']. cbn [fst snd] in *.
  assert (Hs : RouterInv (n + 1) (set_svc s' r) /\ follows 1 r (set_svc s' r)).
  { apply service_call; [done|done|by split|done| |by left|by eapply kept_same; [apply kept_refl|]].
    by apply same_contracts. }
  destruct Hr as [->|(i & p & m & ->)]; [exact Hs|].
  pose proof (run_call_inv n r (OpResume i p m) HI Hn) as [R1 R2]. destruct Hs as [S1 S2].
  split.
  - destruct S1 as [I1 I2 I3 I4 _ _ _ I8 I9 [A B D]]. destruct R1 as [_ _ _ _ J5 J6 J7 _ _ _]. by split.
  - destruct S2 as [_ F2 F3 F4]. destruct R2 as [F1 _ _ _]. by split.
Qed.
Lemma contract_call_ok {MR : MapRange} s st c :
  ctl_call s st (contract_exec s st c).1 (contract_exec s st c).2.
Proof. destruct c; cbn [contract_exec]; [apply publish_call|apply rollback_call|apply scheduler_call]. Qed.

Lemma effect_inv {MR : MapRange} n r r' : RouterInv n r -> n < max_int64 -> effect r r' ->
  RouterInv (n + 1) r' /\ follows 1 r r'.
Proof.
  intros HI Hn He.
  assert (Hev : forall k, ev_steps (evidenceSvc r) k -> plain k ->
    RouterInv (n + 1) (rt_set_evidence k r) /\ follows 1 r (rt_set_evidence k r)).
  { intros k Hk Hp. destruct (evidence_call_inv n r k HI Hk Hp) as [E1 E2].
    split; [by apply (RouterInv_mono n); [lia|]|by apply (follows_mono 0); [lia|]]. }
  assert (Hstep : forall o, ev_steps (evidenceSvc r) (EvTrace.exec o (evidenceSvc r)))
    by (intros o; apply rtc_once, (EvTrace.step_op MR o)).
  pose proof (rt_evidence _ _ HI) as HK. pose proof (rt_plain _ _ HI) as Hp.
  destruct He as [c Hc|t id q now out|c out|c now|c|o _|q now now2|q now|reason now].
  - pose proof (DecTrace.exec_good c (svc r, tt) (rt_service _ _ HI)) as G.
    assert (is_cleanup c = false) as Ec by (by destruct c). rewrite Ec in G.
    assert (is_refresh c = false) as Ef by (by destruct c).
    pose proof (steady_contracts _ _ (exec_steady c (svc r, tt) Ef)) as C.
    apply service_call; [done|done|by split|done| |by left|by eapply kept_same; [apply kept_refl|]].
    by apply same_contracts.
  - by apply approval_inv.
  - pose proof (contract_call_ok (svc r) (contractStore r) c) as [C1 C2 _ C4]. subst out.
    destruct (contract_exec (svc r) (contractStore r) c) as [s' st'].
    apply service_call; [done|done|by split|by apply good_same_decisions| |done|
      by eapply kept_same; [apply kept_refl|]].
    intros H1 H2. by apply C1.
  - pose proof (reg_calm (decisionSvc r) c now) as C.
    apply service_call; [done|done|by split|by apply good_calm| |by left|apply reg_exec_kept].
    apply same_contracts. by apply calm_contracts.
  - destruct (plane_exec_ok (decisionSvc r) c) as [[G C] S].
    apply service_call; [done|done|by split|done| |by left|by eapply kept_same; [apply kept_refl|]].
    by apply same_contracts.
  - by apply run_call_inv.
  - apply Hev; [apply (Hstep (EvTrace.OpIngest q now now2))|by apply IngestEvent_plain].
  - apply Hev; [apply (Hstep (EvTrace.OpDelete q now))|by apply DeleteByDSAR_plain].
  - apply Hev; [apply anchor_steps|by apply anchor_plain].
Qed.

(** One request. *)
Lemma outcome_inv {MR : MapRange} n t q r out : RouterInv n r -> n < max_int64 -> outcome t q r out ->
  RouterInv (n + 1) out.1 /\ follows 1 r out.1.
Proof.
  intros HI Hn Ho.
  assert (Hup : forall r', RouterInv n r' /\ follows 0 r r' -> RouterInv (n + 1) r' /\ follows 1 r r').
  { intros r' [A B]. split; [by apply (RouterInv_mono n); [lia|]|by apply (follows_mono 0); [lia|]]. }
  destruct Ho as [a|a _ _|r' a _ _ [now ->]|r' a _ _ He|r' a _ _ He|r' a _ _ He]; cbn [fst].
  - apply Hup. split; [done|by apply follows_refl].
  - by apply Hup, copy_inv.
  - apply (effect_inv n r); [done|done|]. exact (ef_plane r (PlaneHealth (scopeFromQuery q) now)).
  - by apply effect_inv.
  - destruct (effect_inv n r r' HI Hn He) as [A B]. destruct (copy_inv (n + 1) t r' A) as [C D].
    split; [done|]. exact (follows_trans 1 0 _ _ _ B D).
  - destruct (copy_inv n t r HI) as [A B]. destruct (effect_inv n _ r' A Hn He) as [C D].
    split; [done|]. exact (follows_trans 0 1 _ _ _ B D).
Qed.

Lemma serve_outcome {MR : MapRange} {HD : Decoders} t q r : outcome t q r (ServeHTTP t q r).
Proof. unfold ServeHTTP. destruct (mux_route q); [apply handle_outcome|constructor..]. Qed.

(** [n] requests, one after the other; the maps may be visited in another
    order at each. *)
Inductive requests {HD : Decoders} : nat -> Router -> Router -> Prop :=
| requests_none r : requests 0 r r
| requests_more n r r1 MR t q : requests n r r1 -> requests (S n) r (ServeHTTP (H := MR) t q r1).1.

Lemma requests_inv {HD : Decoders} n m r r' : requests m r r' -> RouterInv n r ->
  n + Z.of_nat m <= max_int64 -> RouterInv (n + Z.of_nat m) r' /\ follows (Z.of_nat m) r r'.
Proof.
  induction 1 as [r|m r r1 MR t q _ IH]; intros HI Hn.
  { rewrite Z.add_0_r. split; [done|by apply follows_refl]. }
  destruct IH as [A B]; [done|lia|].
  destruct (outcome_inv (n + Z.of_nat m) t q r1 _ A ltac:(lia) (serve_outcome t q r1)) as [C D].
  replace (n + Z.of_nat (S m)) with (n + Z.of_nat m + 1) by lia. split; [done|].
  replace (Z.of_nat (S m)) with (Z.of_nat m + 1) by lia. by eapply follows_trans.
Qed.

(** A new router over new kernels, whose store holds no contract yet. *)
Definition started (r : Router) : Prop :=
  exists (MR : MapRange) (cfg : Config) (now : time) (st : store_state) (s : Service) (st' : option store_state)
         (run : RunTypes.Config) (ev : EvTypes.Config),
    plain_config cfg /\ (forall c, GetSnapshot st = Ok c -> CInv c /\ short 1 c) /\
    NewKernel (H := MR) cfg now st = (s, st') /\
    r = NewRouterWithKernels (no_features s) st' (RunKernel.NewKernel run) (EvKernel.NewKernel ev).

Lemma started_inv r : started r -> RouterInv 1 r.
Proof.
  intros (MR & cfg & now & st & s & st' & run & ev & Hcfg & Hst & Hk & ->).
  destruct (join_inv 1 cfg now st s st' ltac:(lia) Hst (or_intror Hcfg) Hk) as [[J1 J2] J3].
  pose proof (initial_inv cfg now st) as HS. unfold initial in HS. rewrite Hk in HS.
  split; [exact HS|by split|exact J3|apply no_features_inv|apply RunAdvance.NewKernel_inv|cbn; lia|constructor
    |apply NewKernel_KInv|done|]. split; [constructor|done|]. cbn. lia.
Qed.

(** C2: the invariant of the whole server.  After any sequence of requests to a
    new server, fewer than [max_int64], every kernel satisfies its invariant:
    the decisions, contracts, features, runs and evidence are consistent, the
    window of the copy is a bounded set of distinct events, and what waits in
    the outboxes was emitted by its kernel. *)
Theorem server_invariant {HD : Decoders} (r0 r : Router) (m : nat) :
  started r0 -> requests m r0 r -> Z.of_nat m + 1 <= max_int64 -> RouterInv (1 + Z.of_nat m) r.
Proof. intros H0 Hr Hm. destruct (requests_inv 1 m r0 r Hr); [by apply started_inv|lia|done]. Qed.

(** C3: requests only make the kernels do what they may do.  Over any requests
    to a server, a run is either deleted or keeps its identity and its recorded
    steps, follows the machine of runs and does not leave a terminal state; a
    pending decision follows its machine and is never removed; a registered
    feature version never changes; the evidence evolves by calls of its kernel. *)
Theorem server_refines {HD : Decoders} (r0 r1 r2 : Router) (m n : nat) :
  started r0 -> requests m r0 r1 -> requests n r1 r2 -> Z.of_nat m + Z.of_nat n + 1 <= max_int64 ->
  (forall id r, RunTypes.k_runs (runSvc r1) !! id = Some r ->
     RunTypes.k_runs (runSvc r2) !! id = None \/
     exists r', RunTypes.k_runs (runSvc r2) !! id = Some r' /\
       RunTrace.fate (runSvc r1) (runSvc r2) id (ri_view r) (ri_view r')) /\
  (forall id, rtc (pend_edge false) (s_pending (svc r1) !! id) (s_pending (svc r2) !! id)) /\
  (forall f v x, registered (decisionSvc r1) f v = Some x -> registered (decisionSvc r2) f v = Some x) /\
  ev_steps (evidenceSvc r1) (evidenceSvc r2).
Proof.
  intros H0 H1 H2 Hb. destruct (requests_inv 1 m r0 r1 H1) as [I1 _]; [by apply started_inv|lia|].
  destruct (requests_inv (1 + Z.of_nat m) n r1 r2 H2 I1) as [_ [(j & J1 & J2) F2 F3 F4]]; [lia|].
  split; [|by split]. intros id r Hr. apply (RunTrace.steps_fate j); [done|apply (rt_runs _ _ I1)| |done].
  pose proof (rt_run_seq _ _ I1). unfold max_int64 in Hb. lia.
Qed.

(** C35: a refused request changes nothing.  When the router answers with a
    redirect or an error of its own (no handler, method, path, query or body),
    or the method is neither GET nor POST, no kernel has changed. *)
Theorem refused_unchanged {MR : MapRange} {HD : Decoders} (t : Ticks) (q : HttpRequest) (r : Router) :
  refusal (ServeHTTP t q r).2 = true \/ known_method q = false -> (ServeHTTP t q r).1 = r.
Proof.
  pose proof (serve_outcome t q r) as Ho. intros Hr. revert Ho. generalize (ServeHTTP t q r) Hr. clear Hr.
  intros out Hr Ho. pose proof (post_known q) as Hk.
  destruct Ho as [a|a Hm Ha|r' a Hm Ha _|r' a Hm Ha _|r' a Hm Ha _|r' a Hm Ha _]; cbn [fst snd] in *; [done|..];
    exfalso; try apply Hk in Hm; destruct Hr; congruence.
Qed.

(** C23: reads do not write.  A request other than a POST leaves the runs, the
    decisions, the contracts with their store, the registry and every health
    record already there as they are; only the evidence may catch up with the
    outboxes. *)
Theorem reads_do_not_write {MR : MapRange} {HD : Decoders} (t : Ticks) (q : HttpRequest) (r : Router) :
  is_method MethodPost q = false ->
  let r' := (ServeHTTP t q r).1 in
  runSvc r' = runSvc r /\ svc r' = svc r /\ contractStore r' = contractStore r /\
  same_registry (decisionSvc r) (decisionSvc r') /\
  (forall k h, c_approvalOrgHealth (decisionSvc r) !! k = Some h ->
     c_approvalOrgHealth (decisionSvc r') !! k = Some h) /\
  (evidenceSvc r' = evidenceSvc r \/ evidenceSvc r' = evidenceSvc (synced t r)).
Proof.
  intros Hq. cbv zeta.
  destruct (serve_outcome t q r) as [a|a _ _|r' a _ _ [now ->]|r' a Hp|r' a Hp|r' a Hp]; cbn [fst]; try congruence.
  - by split_and!; [..|left].
  - destruct (sync_kernels t r) as [E1 E2 E3 _]. unfold svc. rewrite E1, E2, E3. by split_and!; [..|right].
  - destruct (plane_exec_ok (decisionSvc r) (PlaneHealth (scopeFromQuery q) now)) as [_ S]. cbn [plane_exec] in S.
    unfold GetApprovalOrgHealth in *; cbv zeta in *. destruct (scope_invalid _ _); [by split_and!; [..|left]|].
    destruct (c_approvalOrgHealth (decisionSvc r) !! _) as [h|] eqn:E; [by split_and!; [..|left]|].
    split_and!; [done..| |by left]. intros k h Hk. unfold put_health. cbn [fst decisionSvc rt_set_decision
      c_approvalOrgHealth c_set_approvalOrgHealth]. rewrite lookup_insert_ne; [done|]. intros <-. congruence.
Qed.
End System.
