(* ===== verification/ApiExamples.v ===== *)
(** * A server, from its first request to a resumed approval

    A run is created, a decision is evaluated for its first step and confirmed,
    a ticket admits the step, the run advances with both and parks for an
    approval; a second decision is put to a case and approved, and the run
    resumes.  Everything goes through [ServeHTTP].  Then the witnesses, and two
    histories that show what the copy of the outboxes does not promise. *)

From S2P Require Import Prelude GoStrings Sha256 GoTime GoJson RunTypes RunStates RunOutbox RunKernel RunSweeps.
From S2P Require Import EvTypes EvEvents EvKernel EvExamples.
From S2P Require Import DecTypes DecJson DecPolicy DecContracts DecKernel DecRuntime DecAdmission DecPending.
From S2P Require Import DecApproval DecFrame DecInvariant DecExamples DecApprovalTheorems RunExamples CtlTypes CtlRegistryTheorems CtlExamples CtlStore.
From S2P Require Import ApiSync ApiHandlers ApiTheorems ApiSystem.
#[local] Open Scope Z_scope.

Definition api_time (n : Z) : time := dec_t0 + n * Second.

Definition s0 : Service := CtlExamples.k0.

(** ** The requests *)

Definition api_evaluate (step : string) : RuntimeDecisionRequest := {|
  q_RequestID := String.append "req-" step; q_TraceID := ""; q_TenantID := "tenant-1"; q_WorkflowID := "wf";
  q_RunID := demo_id; q_StepID := step; q_RiskTier := "low"; q_EffectType := "write";
  q_DecisionGraphID := ""; q_ParentDecisionNodeIDs := []; q_ApprovalSystemAvailable := true;
  q_Freeze := mk_FreezeLayer dec_frozen []; q_Phase := ""; q_PolicyEngineAvailable := None;
  q_EvidenceFingerprint := ""; q_AttemptIndex := 1; q_DCUInput := mk_DCUInput 1 1 0 0;
  q_FeatureVersion := "v1"; q_FeatureSchemaVersion := ""; q_FeatureEvidenceRef := "ev";
  q_FeatureProducerID := "prod"; q_FeatureFreshnessMS := 0; q_FeatureTTLMS := 0;
  q_FeatureDriftScore := fzero; q_FeatureContractScope := mk_ScopeRef "" "" "";
  q_FeatureContractHashPin := "" |}.

Definition a1 := Eval vm_compute in EvaluateRuntime s0 (api_evaluate "step-1") (api_time 1).
Definition api_decision : string := Eval vm_compute in r_DecisionID a1.2.
Definition api_confirm : ConfirmRunAdvanceRequest :=
  mk_ConfirmRunAdvanceRequest api_decision demo_id "step-1" 1 "PRE_TOOL" "" true.
Definition a2 := Eval vm_compute in ConfirmRunAdvance a1.1 api_confirm (api_time 2).
Definition api_schedule : ScheduleAdmissionRequest :=
  mk_ScheduleAdmissionRequest "req-3" demo_id "step-1" "tenant-1" "low" "p1"
    (Some {[ "cpu" := float_of_Z 2 ]}) (Some {[ "cpu" := float_of_Z 4 ]}) false false.
Definition a3 := Eval vm_compute in EvaluateScheduleAdmission a2.1 api_schedule (api_time 3).
Definition api_ticket : string := Eval vm_compute in
  match sp_Ticket a3.2 with Some t => t_TicketID t | None => "" end.
Definition api_advance : AdvanceRunRequest := {|
  ar_ExpectedStateVersion := 1; ar_StepID := "step-1"; ar_StepVersion := "1"; ar_IdempotencyKey := "key-1";
  ar_DecisionRef := mk_DecisionRef api_decision (r_DecisionHash a1.2) "stable";
  ar_ExecutionReceiptRef := String.append "ticket://" api_ticket;
  ar_ExecutionUsedResources := Some [("cpu", float_of_Z 1)]; ar_ExecutionReceiptAt := api_time 4;
  ar_IncomingStepSeqID := 1; ar_InputHash := "in"; ar_OutputHash := "out"; ar_NextState := "" |}.
Definition api_park : ParkRunRequest := mk_ParkRunRequest 2 "step-2" 2 TokenTypeApproval "approval" 600.
Definition a4 := Eval vm_compute in EvaluateRuntime a3.1 (api_evaluate "step-2") (api_time 6).
Definition api_pending : string := Eval vm_compute in r_DecisionID a4.2.
Definition api_case_request : ApprovalCreateRequest :=
  mk_ApprovalCreateRequest demo_id "step-2" api_pending "low" "single".
Definition a5 := Eval vm_compute in CreateApprovalCase a4.1 api_case_request (api_time 7).
Definition api_case : string := Eval vm_compute in ac_CaseID a5.2.

(** Bodies are names of requests. *)
Definition named_body {A} (name : string) (x : A) (body : string) : option A :=
  if (body =? name)%string then Some x else None.
Definition nothing {A} (body : string) : option A := None.

#[export] Instance api_decoders : Decoders := {|
  decode_RuntimeDecisionRequest body :=
    if (body =? "first")%string then Some (api_evaluate "step-1") else named_body "second" (api_evaluate "step-2") body;
  decode_ScheduleAdmissionRequest := named_body "schedule" api_schedule;
  decode_ReleaseDecisionRequest := nothing;
  decode_ConfirmRunAdvanceRequest := named_body "confirm" api_confirm;
  decode_TerminalizePendingDecisionRequest := nothing;
  decode_ApprovalCreateRequest := named_body "case" api_case_request;
  decode_ApprovalDecisionRequest := named_body "approve" (mk_ApprovalDecisionRequest "approve");
  decode_FeatureDefinitionCreateRequest := nothing;
  decode_FeatureSignalContractPublishRequest := nothing;
  decode_FeatureSignalContractRollbackRequest := nothing;
  decode_FeatureSnapshotBuildRequest := nothing;
  decode_FeatureSnapshotFreshnessValidateRequest := nothing;
  decode_FeatureVersionCreateRequest := nothing;
  decode_FeatureRollbackRequest := nothing;
  decode_FeatureVersionPublishRequest := nothing;
  decode_ApprovalOrgHealthRecomputeRequest := nothing;
  decode_ApprovalOrgHealthRemediationRequest := nothing;
  decode_EnforcementMatrixValidateRequest := nothing;
  decode_EnforcementMatrixPublishRequest := nothing;
  decode_CreateRunRequest := named_body "create" demo_create;
  decode_AdvanceRunRequest := named_body "advance" api_advance;
  decode_ParkRunRequest := named_body "park" api_park;
  decode_ResumeRunRequest := nothing;
  decode_AbortRunRequest := nothing;
  decode_IngestEventRequest := nothing;
  decode_DSARDeleteRequest := nothing;
  decode_LedgerAggregateRequest := nothing;
  decode_at := fun _ => 0;
  decode_reason := fun _ => "" |}.

Definition api_ticks (n : Z) : Ticks :=
  let t := api_time n in mk_Ticks t t t t t (fun _ => (t, t)).
Definition post (parts : list string) (body : string) : HttpRequest :=
  mk_HttpRequest MethodPost (Join parts "/") (fun _ => "") body.

(** ** The states of the server *)

Definition serve (n : Z) (q : HttpRequest) (r : Router) : Router * Answer :=
  ServeHTTP (H := canonical_range) (api_ticks n) q r.

Definition h0 : Router := NewRouter (MR := canonical_range) dec_t0 (no_snapshot : Snapshot).

Definition w1 := Eval vm_compute in serve 0 (post ["/v1"; "runs"] "create") h0.
Definition w2 := Eval vm_compute in serve 1 (post ["/v1"; "decision"; "evaluate-runtime"] "first") w1.1.
Definition w3 := Eval vm_compute in serve 2 (post ["/v1"; "decision"; "confirm-run-advance"] "confirm") w2.1.
Definition w4 := Eval vm_compute in serve 3 (post ["/v1"; "decision"; "evaluate-schedule-admission"] "schedule") w3.1.
Definition w5 := Eval vm_compute in serve 4 (post ["/v1"; "runs"; demo_id; "advance"] "advance") w4.1.
Definition w6 := Eval vm_compute in serve 5 (post ["/v1"; "runs"; demo_id; "park"] "park") w5.1.
Definition w7 := Eval vm_compute in serve 6 (post ["/v1"; "decision"; "evaluate-runtime"] "second") w6.1.
Definition w8 := Eval vm_compute in serve 7 (post ["/v1"; "approval"; "cases"] "case") w7.1.
Definition w9 := Eval vm_compute in serve 8 (post ["/v1"; "approval"; "cases"; api_case; "decision"] "approve") w8.1.

Example statuses : map (fun a => match a with Reply n _ => n | Redirect _ => 0 end)
  [w1.2; w2.2; w3.2; w4.2; w5.2; w6.2; w7.2; w8.2; w9.2] = repeat 200 9.
Proof. vm_compute. reflexivity. Qed.

Definition zero_boot : Service * option store_state :=
  NewKernel (H := canonical_range) zero_decision_config dec_t0 no_snapshot.

Lemma started_h0 : started h0.
Proof.
  exists canonical_range, zero_decision_config, dec_t0, (no_snapshot : Snapshot),
    zero_boot.1, zero_boot.2, zero_run_config, zero_evidence_config.
  split_and!.
  - apply map_Forall_empty.
  - intros c E. change (@Ok string Snapshot no_snapshot = Ok c) in E. injection E as <-.
    split; [intros k; apply CtlStore.empty_KInv|intros k; change (Z.of_nat 0 <= 1); lia].
  - apply surjective_pairing.
  - unfold h0, NewRouter. fold zero_boot. by destruct zero_boot.
Qed.

(** ** Witnesses *)

Lemma server_invariant_witness :
  started h0 /\ requests 2 h0 (serve 1 (post ["/v1"; "runs"] "create") (serve 0 (post ["/v2"] "") h0).1).1 /\
  RouterInv 3 (serve 1 (post ["/v1"; "runs"] "create") (serve 0 (post ["/v2"] "") h0).1).1.
Proof.
  assert (Hr : requests 2 h0 (serve 1 (post ["/v1"; "runs"] "create") (serve 0 (post ["/v2"] "") h0).1).1)
    by (do 2 apply (requests_more _ _ _ canonical_range); constructor).
  split; [exact started_h0|]. split; [exact Hr|].
  exact (server_invariant h0 _ 2 started_h0 Hr ltac:(unfold max_int64; lia)).
Defined.

Lemma server_refines_witness :
  let r1 := (serve 0 (post ["/v1"; "runs"] "create") h0).1 in
  let r2 := (serve 1 (post ["/v1"; "runs"; demo_id; "park"] "park") r1).1 in
  requests 1 h0 r1 /\ requests 1 r1 r2 /\
  forall id r, RunTypes.k_runs (runSvc r1) !! id = Some r ->
    RunTypes.k_runs (runSvc r2) !! id = None \/
    exists r', RunTypes.k_runs (runSvc r2) !! id = Some r' /\
      RunTrace.fate (runSvc r1) (runSvc r2) id (ri_view r) (ri_view r').
Proof.
  cbv zeta. set (r1 := (serve 0 _ h0).1). set (r2 := (serve 1 _ r1).1).
  assert (H1 : requests 1 h0 r1) by (apply (requests_more _ _ _ canonical_range); constructor).
  assert (H2 : requests 1 r1 r2) by (apply (requests_more _ _ _ canonical_range); constructor).
  split; [exact H1|]. split; [exact H2|].
  exact (proj1 (server_refines h0 r1 r2 1 1 started_h0 H1 H2 ltac:(unfold max_int64; lia))).
Defined.

Lemma refused_unchanged_witness :
  refusal (serve 0 (get_ "/v1/runs") h0).2 = true /\ (serve 0 (get_ "/v1/runs") h0).1 = h0.
Proof.
  assert (Hr : refusal (serve 0 (get_ "/v1/runs") h0).2 = true) by reflexivity.
  split; [exact Hr|]. exact (refused_unchanged (MR := canonical_range) (api_ticks 0) _ h0 (or_introl Hr)).
Defined.

Lemma reads_do_not_write_witness :
  is_method MethodPost (get_ "/v1/evidence/integrity-verify") = false /\
  runSvc (serve 0 (get_ "/v1/evidence/integrity-verify") h0).1 = runSvc h0.
Proof.
  assert (Hq : is_method MethodPost (get_ "/v1/evidence/integrity-verify") = false) by reflexivity.
  split; [exact Hq|].
  exact (proj1 (reads_do_not_write (MR := canonical_range) (api_ticks 0) (get_ "/v1/evidence/integrity-verify") h0 Hq)).
Defined.

(** A router whose kernels have emitted, and that has copied nothing yet. *)
Lemma a1_inv : SInv a1.1.
Proof.
  assert (E : (EvaluateRuntime s0 (api_evaluate "step-1") (api_time 1)).1 = a1.1) by (vm_compute; reflexivity).
  rewrite <- E. apply good_EvaluateRuntime. assert (E0 : DecTrace.initial (MR := canonical_range) dec_cfg dec_t0 (no_snapshot : Snapshot) = s0)
    by (vm_compute; reflexivity).
  rewrite <- E0. apply DecTrace.initial_inv.
Qed.

Definition busy : Router :=
  NewRouterWithKernels (no_features a1.1) st0 RunExamples.k1 (EvKernel.NewKernel ev_cfg).

Lemma busy_seen : SeenInv busy.
Proof. split; [constructor|done|]. cbn. lia. Qed.

(** The same router with a window of three entries, full of older identifiers. *)
Definition narrow : Router :=
  mk_Router (decisionSvc busy) (contractStore busy) (runSvc busy) (evidenceSvc busy)
    (list_to_set ["old-1"; "old-2"; "old-3"]) ["old-1"; "old-2"; "old-3"] 3.

Lemma narrow_seen : SeenInv narrow.
Proof.
  split; [|done|cbn; lia]. repeat (apply NoDup_cons; split; [rewrite ?not_elem_of_cons; set_solver|]). constructor.
Qed.

Lemma narrow_old o : o ∈ offers narrow -> TrimSpace (of_id o) ∉ ["old-1"; "old-2"; "old-3"].
Proof.
  intros Ho%list_elem_of_In. vm_compute in Ho. destruct Ho as [<-|[<-|[]]];
    apply (bool_decide_unpack _); vm_compute; exact I.
Qed.

Lemma narrow_room : Z.of_nat (length (@nil string)) +
  Z.of_nat (length (fresh_offers (seenQueue narrow) 0 (offers narrow))) <= seenCap narrow.
Proof. vm_compute. discriminate. Qed.

Lemma busy_events : Forall event_shape (s_outbox (c_svc (decisionSvc busy))) /\
  Forall run_shape (RunTypes.k_outbox (runSvc busy)).
Proof.
  split; [exact (proj2 (si_outbox _ a1_inv))|].
  assert (E : RunTrace.exec (MR := canonical_range) (RunTrace.OpCreate demo_create t0) RunExamples.k0 = RunExamples.k1)
    by (vm_compute; reflexivity).
  change (runSvc busy) with RunExamples.k1. rewrite <- E. apply exec_shaped. constructor.
Qed.

Lemma sync_once_witness :
  SeenInv narrow /\ length (fresh_offers (seenQueue narrow) 0 (offers narrow)) = 2%nat /\
  let r := synced (api_ticks 5) narrow in
  syncEvidenceFromKernelOutboxes (tk_sync (api_ticks 6)) r = (r, mk_SyncResult 0 0 0 0 0).
Proof.
  split; [exact narrow_seen|]. split; [vm_compute; reflexivity|].
  pose proof (sync_once narrow (tk_sync (api_ticks 5)) (tk_sync (api_ticks 6)) ["old-1"; "old-2"; "old-3"] []
    narrow_seen (eq_sym (app_nil_r _)) narrow_old narrow_room) as (_ & _ & _ & _ & _ & _ & P). exact P.
Defined.

(** The event of the Run kernel is delivered, past the one of the Decision
    service that is copied first. *)
Definition no_offer : offer := mk_offer "" sc_see_run (ev_request "" "" "" "" "" "" 0 None None).
Definition narrow_first : offer := nth 0 (offers narrow) no_offer.
Definition narrow_second : offer := nth 1 (offers narrow) no_offer.

Lemma narrow_offers : offers narrow = [narrow_first] ++ narrow_second :: [].
Proof. vm_compute. reflexivity. Qed.

Lemma sync_delivers_witness :
  let out := syncEvidenceFromKernelOutboxes (tk_sync (api_ticks 5)) narrow in
  sc_dropped out.2 = 0 /\ of_id narrow_second = "evt_run_seq_1" /\
  exists x, k_eventsByID (evidenceSvc out.1) !! "evt_run_seq_1" = Some x /\ carries (of_req narrow_second) x.
Proof.
  cbv zeta. assert (Eid : TrimSpace (of_id narrow_second) = "evt_run_seq_1") by (vm_compute; reflexivity).
  destruct (sync_delivers narrow (tk_sync (api_ticks 5)) narrow_seen (EvTrace.NewKernel_KInv ev_cfg) ltac:(by split)
    (proj1 busy_events) (proj2 busy_events)) as (Hd & _ & Hx). split; [exact Hd|].
  split; [vm_compute; reflexivity|].
  destruct (Hx _ _ _ narrow_offers) as (x & Hs & Hc).
  - split; vm_compute; discriminate.
  - rewrite Eid. apply (bool_decide_unpack _). vm_compute. exact I.
  - intros o Ho. apply list_elem_of_singleton in Ho as ->. rewrite Eid. vm_compute. discriminate.
  - rewrite Eid in *. exists x. split; [exact Hs|]. apply Hc. vm_compute. reflexivity.
Defined.

(** ** What the copy does not promise *)

(** An event ingested over HTTP under the identifier the Run kernel gives its
    first event: the kernel's own event is a duplicate when it is offered, and
    what is stored under the identifier is the other one. *)
Example forged_event_hides :
  let forged := ev_request "evt_run_seq_1" "forged" "run_kernel" "" "low" Tier1 ev_t0 None None in
  let r := rt_set_evidence (IngestEvent forged ev_t0 ev_t0 (evidenceSvc busy)).1 busy in
  let out := syncEvidenceFromKernelOutboxes (tk_sync (api_ticks 5)) r in
  map ev_EventID (RunTypes.k_outbox (runSvc busy)) = ["evt_run_seq_1"] /\
  sc_seen_run_events out.2 = 1 /\ sc_errors out.2 = 0 /\ sc_dropped out.2 = 0 /\
  cv_EventType <$> (k_eventsByID (evidenceSvc out.1) !! "evt_run_seq_1") = Some "forged".
Proof. vm_compute. by split_and!. Qed.

(** An event the Evidence kernel refuses (here because the minimal schema of
    its source is set too high) is marked as seen all the same: it is not
    offered again once the registration is right. *)
Example refused_event_lost :
  let register schema k := (RegisterSource (mk_SourceRegistration "run_kernel" schema Tier1) k).1 in
  let r := rt_set_evidence (register 9 (evidenceSvc busy)) busy in
  let once := syncEvidenceFromKernelOutboxes (tk_sync (api_ticks 5)) r in
  let again := syncEvidenceFromKernelOutboxes (tk_sync (api_ticks 6))
                 (rt_set_evidence (register 1 (evidenceSvc once.1)) once.1) in
  sc_errors once.2 = 1 /\ again.2 = mk_SyncResult 0 0 0 0 0 /\
  k_eventsByID (evidenceSvc again.1) !! "evt_run_seq_1" = None.
Proof. vm_compute. by split_and!. Qed.

(** ** An advance through the port *)

Lemma a3_inv : SInv a3.1.
Proof.
  assert (E2 : (ConfirmRunAdvance a1.1 api_confirm (api_time 2)).1 = a2.1) by (vm_compute; reflexivity).
  assert (E3 : (EvaluateScheduleAdmission a2.1 api_schedule (api_time 3)).1 = a3.1) by (vm_compute; reflexivity).
  rewrite <- E3. apply good_schedule. rewrite <- E2. apply good_confirm. exact a1_inv.
Qed.

Definition advanced := Eval vm_compute in
  AdvanceRun (Some (decisionRunPort (H := canonical_range) (Some a3.1) (api_time 4))) demo_id api_advance (api_time 4)
    RunExamples.k1.
Definition advance_answer : AdvanceRunResponse := Eval vm_compute in
  match advanced.2 with
  | Ok resp => resp
  | Err _ => mk_AdvanceRunResponse "" "" 0 "" "" 0 "" 0
  end.

Lemma advance_backed_witness :
  decided a3.1 demo_id api_advance /\ ticketed a3.1 demo_id "tenant-1" api_advance (api_time 4).
Proof.
  apply (advance_backed (H := canonical_range) a3.1 demo_id api_advance (api_time 4) (api_time 4)
    RunExamples.k1 advanced.1 advance_answer RunExamples.r1 Running).
  - exact a3_inv.
  - vm_compute. reflexivity.
  - vm_compute. reflexivity.
  - vm_compute. reflexivity.
  - vm_compute. reflexivity.
Defined.

(** ** An approval through the port *)

Definition park_first : ParkRunRequest := mk_ParkRunRequest 1 "step-2" 1 TokenTypeApproval "approval" 600.
Definition waiting : RunTypes.Kernel := Eval vm_compute in
  (ParkRun demo_id park_first (api_time 5) RunExamples.k1).1.

Lemma waiting_inv : RunInvariant.Inv waiting.
Proof.
  assert (E : (ParkRun demo_id park_first (api_time 5) RunExamples.k1).1 = waiting) by (vm_compute; reflexivity).
  rewrite <- E. apply RunOps.ParkRun_inv.
  destruct (RunTrace.reachable_inv RunExamples.k1) as [HI _]; [|exact HI].
  exists demo_cfg, 1%nat. split; [exact k1_reach|lia].
Qed.

Definition case_pending : PendingDecision := Eval vm_compute in
  default (mk_PendingDecision "" "" "" "" 0 "" "" 0 0 0 "") (s_pending a5.1 !! api_pending).

Lemma approval_resumes_witness :
  exists k' r', (DecideApprovalCase (Some (decisionApprovalRunUnlockPort (H := canonical_range)
      (api_time 8) (api_time 8) (api_time 8)))
    a5.1 (Some waiting) api_case (mk_ApprovalDecisionRequest "approve") (api_time 8)).1.2 = Some k' /\
  RunTypes.k_runs k' !! demo_id = Some r' /\ rv_State (ri_view r') = StateRunning.
Proof.
  destruct (approval_resumes (H := canonical_range) (api_time 8) (api_time 8) (api_time 8) (api_time 8) a5.1 waiting
    api_case (mk_ApprovalDecisionRequest "approve") a5.2 case_pending) as (k' & E & P).
  - exact waiting_inv.
  - vm_compute. reflexivity.
  - vm_compute. reflexivity.
  - vm_compute. reflexivity.
  - vm_compute. reflexivity.
  - by vm_compute.
  - vm_compute. reflexivity.
  - assert (Ed : adp_RunUnlockStatus (DecideApprovalCase (Some (decisionApprovalRunUnlockPort (H := canonical_range)
      (api_time 8) (api_time 8) (api_time 8))) a5.1 (Some waiting) api_case
      (mk_ApprovalDecisionRequest "approve") (api_time 8)).2 = "dispatched") by (vm_compute; reflexivity).
    rewrite Ed in P. destruct P as [_ (g & G1 & _ & [(cont & r & r' & n & _ & _ & _ & _ & R1 & R2 & _)])].
    rewrite G1 in R1. change (ac_RunID a5.2) with demo_id in R1. exists k', r'.
    split; [exact E|]. split; [exact R1|exact R2].
Defined.
